(* ===== verification/_CoqProject ===== *)
-Q . S2P
Prelude.v
TimeUtils.v
ByteOrder.v
ByteBuffer.v
Crc32.v
Blocks.v
Md5.v
Sha1.v
Base64.v
StringEncode.v
UrlEncode.v
MessageDigest.v
IpAddress.v
Stun.v
StunWire.v
FifoBuffer.v
PseudoTcp.v
PseudoTcpSend.v
PseudoTcpAck.v
PseudoTcpRecv.v
PseudoTcpSafety.v
PseudoTcpTimer.v
PseudoTcpNet.v
RtpUtils.v
StreamParams.v
Helpers.v
SrtpFilter.v
MediaSession.v
SrtpNegotiation.v
MediaFilters.v
MessageQueue.v
StunRequest.v
AsyncTcpSocket.v
AsyncTcpNet.v
StringConv.v
Codec.v
Outcome.v
SessionDescription.v
IceConnection.v
IcePort.v
IceCheck.v
IceSafety.v
IceTimeout.v
P2PTransportChannel.v
ChannelState.v
ChannelSort.v
ChannelPing.v
ChannelInv.v
Channel.v
TransportFactory.v
MediaDescription.v
CodecOffer.v
MediaOffer.v
MediaFactory.v
MediaAnswer.v
MediaOffered.v
MediaStreams.v
MediaBundle.v
MediaNegotiation.v
StreamIo.v
HttpCommon.v
HttpParser.v
HttpBase.v
HttpRecv.v
HttpSend.v
HttpWire.v
HttpServer.v
HttpServing.v
HttpNet.v
