(* ===== verification/Prelude.v ===== *)
(** * A verification development for libjingle (the sources under src/)

    libjingle is the Google Talk peer-to-peer library: portable base
    utilities (base/), the STUN and ICE layer and a TCP over datagrams
    (p2p/base/), media session signalling (session/), XML and XMPP.  The
    development models the parts that are algorithms and protocols over
    memory rather than glue around the operating system, and proves them
    correct.  Everything is a shallow embedding: an object of the source is a
    [Record] (or an inductive type), a method a function from the old object
    to the new one and its result, and what can go wrong is visible in the
    result: [None], an error value, or the source's boolean.

    ** Conventions

    A w-bit unsigned integer is a [Z] with [u8], [u16], [u32], [u64] written
    where the source wraps; a byte is a [Z] below 256 and a buffer a list of
    them.  A char that the source compares as signed is converted there.
    [let?] is the bind of [option] and [require!] its guard; both are in
    [jingle_scope], with the generic lemmas on lists, words and memory, at the
    end of this file.  A failed ASSERT is an error of the model like an access
    outside an array ([None], [Undefined] or [Stuck]), where what follows it
    relies on it; the few that are only checks of a debugging build are named
    where they are left out: the peer's timestamp in the future of PseudoTcp,
    and the equal ICE protocols in ConnectionCompare.  The machine is a parameter ([Machine] of ByteOrder.v:
    its byte order, and what uninitialised memory holds), so each theorem
    covers little- and big-endian hosts; [x86] instantiates it in the
    witnesses.  Code outside src/ is an argument (inet_pton and inet_ntop of
    IpAddress.v, the system clock and the socket of PseudoTcp.v, libsrtp in
    SrtpFilter.v, the random number generators in Helpers.v).

    ** The files, and the source files they model

    - ByteOrder.v: base/byteorder.h.  Integers in memory, host and network order.
    - ByteBuffer.v: base/bytebuffer.cc.  The object [t] has the array, the
      window of unread bytes and the version; [buffer_refines_queue] is the
      refinement of a byte queue by any sequence of calls,
      [read_position_rewind] the validity of remembered positions.
    - Crc32.v: base/crc32.cc.  The table-driven update equals the bit-serial
      division; bursts of 32 bits are detected.
    - Blocks.v, Md5.v, Sha1.v: base/md5.cc, base/sha1.cc, with the unrolled
      transforms; both equal the padded-message digest for any split of the
      message ([md5_streaming], [sha1_streaming], [sha1_transform_correct]).
    - MessageDigest.v: base/messagedigest.cc, the digests of base/md5digest.h
      and base/sha1digest.h.  The class of digests is an interface with laws;
      HMAC is proved equal to RFC 2104 against the laws alone.
    - Base64.v, StringEncode.v, UrlEncode.v: base/base64.cc,
      base/stringencode.cc, base/urlencode.cc.  Round trips, and that no
      encoder or decoder leaves its buffer.
    - IpAddress.v: base/ipaddress.cc and the binary part of
      base/socketaddress.cc.  Orders, prefixes, mapped addresses, sockaddr.
    - Stun.v, StunWire.v: p2p/base/stun.cc.  Stun.v is the message classes and
      the checks on raw packets, StunWire.v the abstract encoding, the round
      trip, and that integrity and fingerprint checks accept what the
      operations add and (apart from two cases) stay inside any packet.
    - FifoBuffer.v: the FifoBuffer of base/stream.cc, the circular buffer with
      a write window; [fifo_refines] unrolls it.
    - PseudoTcp.v: p2p/base/pseudotcp.cc, the whole class (TCP with slow
      start, fast retransmit, Nagle, delayed acknowledgements, window scaling
      and out-of-order delivery), on two FifoBuffers and the ByteBuffer of its
      options.  PseudoTcpSend.v: the invariant of the sending side (the send
      list is a chain of segments that covers the buffered stream) and that
      packet, transmit and attemptSend preserve it.  PseudoTcpAck.v: queueing,
      acknowledgements, timers.  PseudoTcpRecv.v: the receive window.
      PseudoTcpSafety.v: the invariant [conn_ok] of an end, the obligations
      [guard] of the caller and the peer, runs.  PseudoTcpTimer.v: a silent
      peer is given up.  PseudoTcpNet.v: two ends and a network as the step
      relation [reach], and the properties.
    - RtpUtils.v: media/base/rtputils.cc.  Reading and writing RTP and RTCP
      headers inside the packet, and the round trip.
    - StreamParams.v: media/base/streamparams.cc.  Streams, SSRC groups,
      selectors, simulcast.
    - Helpers.v: the random strings and ids of base/helpers.cc over a class of
      generators.
    - SrtpFilter.v: session/media/srtpfilter.cc, the offer/answer machine that
      keys the SRTP sessions, over libsrtp as the class [LibSrtp].
      MediaSession.v: the crypto parameters of session/media/mediasession.cc.
      SrtpNegotiation.v: two filters that exchange offers, answers and media.
      Agreement on keys and delivery against the laws [LibSrtpLaws], in which a
      receiver refuses an RTP packet that repeats a sequence number of its
      stream; no use of a null session, which needs no law.
    - MediaFilters.v: session/media/rtcpmuxfilter.cc and bundlefilter.cc.
    - TimeUtils.v: base/timeutils.cc.  Timestamps that wrap; the compiled
      comparisons against the reference ones.
    - MessageQueue.v: base/messagequeue.cc, the queue of posted and delayed
      messages of a thread and the manager of all queues, with the socket
      server's wake-ups and other threads' calls as the environment; messages
      are conserved, and delayed ones come out in order and on time.
    - StunRequest.v: p2p/base/stunrequest.cc, requests and their manager as a
      heap of objects over the message queue; no use after free, at most one
      outcome, the schedule of retransmissions.
    - AsyncTcpSocket.v: base/asynctcpsocket.cc and p2p/base/asyncstuntcpsocket.cc,
      the two kinds of packets over a TCP stream as instances of the class
      [PacketSocket].  AsyncTcpNet.v: two sockets and a stream that cuts where
      it likes are a queue of packets, against the laws [PacketSocketLaws].
    - StringConv.v, Codec.v: the number conversions of base/stringencode.h and
      media/base/codec.cc.  The three codec classes are instances of the class
      [CodecClass], against which the templates of mediasession.cc are proved.
    - Outcome.v: a monad for operations that draw random numbers and can
      fail, with the rules for what a computation that returned ensures.
    - SessionDescription.v, TransportFactory.v: p2p/base/sessiondescription.cc,
      transportdescription.cc, candidate.h and transportdescriptionfactory.cc;
      what two transport factories agree on.
    - IceConnection.v, IcePort.v: Connection, Port, ConnectionRequest and
      ProxyConnection of p2p/base/port.cc, with BaseSession::OnRoleConflict of
      session.cc: a port owns its connections by their addresses, packets and
      signals are events.  IceCheck.v: a connectivity check end to end and
      conflicts of roles ([ice_check], [role_conflict_resolved]); a message is
      there the list of its attributes, [secured] with a password.
      IceSafety.v: what a packet may change ([packets_authenticated]).
      IceTimeout.v: unanswered pings and the priorities of pairs.
    - P2PTransportChannel.v: p2p/base/p2ptransportchannel.cc, the channel over
      its ports, and the parts of stunport.cc that make connections and take
      packets.  Ports are a heap, pointers to connections are names, and a
      handler is a computation of Outcome.v that is stuck when it follows a
      dangling pointer.  ChannelState.v: the invariant and what the slots of
      signals may change.  ChannelSort.v: the comparison, the stable sort and
      the phases of SortConnections.  ChannelPing.v: the choice of the
      connection to ping.  ChannelInv.v: every handler keeps the invariant.
      Channel.v: the properties, and a channel with two connections.
    - MediaDescription.v, CodecOffer.v, MediaOffer.v, MediaFactory.v:
      session/media/mediasession.cc: descriptions, the payload types and
      codecs of offers and answers, one medium's offer and answer with its
      streams and bundles, and CreateOffer and CreateAnswer.
    - MediaAnswer.v, MediaOffered.v: what each content of an answer, and of an
      offer, is.  MediaStreams.v: the SSRCs of a session are distinct when the
      ids of its streams are.  MediaBundle.v: bundles share their transports.
      MediaNegotiation.v: bundles of a first offer and of its answer share
      their keys, and the crypto parameters of an offer and its answer key the
      SRTP filters of both ends.
    - StreamIo.v: base/stream.h as the HTTP code uses it: a stream is the bytes
      it has still to yield, those it has taken, and a plan of the answers of
      its next calls, so that the theorems are about every plan.
    - HttpCommon.v: base/httpcommon.cc: the tables of names, attributes, the
      map of headers, first lines.  HttpParser.v: the parser of
      base/httpbase.cc over the class [HttpHandler] of its virtual functions,
      and the specification that is fed byte by byte; a handler that
      [Implements] a [Reference] refines it.
    - HttpBase.v: the rest of base/httpbase.cc, the state machine that sends
      and receives messages, with its document stream.  HttpRecv.v: HttpBase as
      a handler of the parser, and what a receiving object is between two
      operations and at the end.  HttpSend.v: the text of a message, and how
      much of it has been written.  HttpWire.v: reading the text again.
    - HttpServer.v: HttpServer and its connections, of base/httpserver.cc.
      HttpServing.v: what an HttpBase tells its owner, and the protocol of the
      signals of a server ([http_server_protocol], [http_server_close_all]).
    - HttpNet.v: sender and receiver ([http_send_safe],
      [http_send_completes], [http_receive_refines]) and both together
      ([http_end_to_end]).

    ** How the parts interact

    PseudoTcp calls FifoBuffer (its theorems use FifoBuffer's view of the
    buffer as an unrolled ring) and ByteBuffer; the STUN writers and readers
    call ByteBuffer, IpAddress, Crc32 and the HMAC of MessageDigest, which
    calls Md5, Sha1 and the hex encoder of StringEncode.  The SRTP keys of
    MediaSession are random strings of Helpers, which SrtpFilter decodes with
    Base64; the filters read packets with RtpUtils and streams with
    StreamParams.  The requests of StunRequest hold messages of Stun, and their
    timers are messages of MessageQueue.  The session description factory calls
    the transport description factory, the codec classes and MediaSession; its
    descriptions are what SrtpNegotiation's filters are given.  A connection of
    IceConnection has a request manager of StunRequest; the packets of IcePort
    are written and checked by Stun, with the candidates of SessionDescription.
    A channel of P2PTransportChannel calls the ports of IcePort and the
    connections of IceConnection, whose signals call its slots.  HttpBase is
    the handler of HttpParser and keeps its message in HttpCommon's HttpData; a
    connection of HttpServer owns an HttpBase and answers the calls in its log,
    and is the owner of the receiver in the theorems of HttpNet.  A client's theorem
    uses the callee's contract: the lemmas on [contents] of ByteBuffer and
    FifoBuffer, the laws of MessageDigest.

    ** Fuel

    Loops that are not structural take fuel, and the theorems show that the
    fuel given suffices (the result is never the out-of-fuel one): the base64
    decoder (the number of characters), the STUN attribute reader (the length
    of the packet), attemptSend of PseudoTcp (each round transmits at least
    one of the buffered bytes), lower_mss and send_segment (the length of the
    table of packet sizes), the options of a connect message (their length),
    the halvings of a receive buffer size (16 for a uint32), the packets in the
    input of AsyncTcpSocket (one more than its length), the parser of HTTP (two
    turns a byte), the calls that an HttpBase owes its connection (four).
    flush_data of HttpBase has no bound without a document (see the findings);
    with one, the answers that the stream has planned and the bytes of the
    document bound its turns.  The waits of
    MessageQueue's Get are as many as the environment makes them: a punctual
    wait, of at least a millisecond a round, ends after the delay of the next
    message.  The loops of mediasession.cc that draw until an SSRC or a CNAME is
    new have no bound in the source, as a generator may repeat itself: they
    take a number of draws, and the theorems are about the offers and answers
    that are made within any number.

    ** Assumptions stated in the theorems

    PseudoTcp: streams below 2^32 bytes (the source compares sequence numbers
    as plain integers), buffers resized only before the connection and to at
    least 4 bytes, an MTU above the packet overhead, a peer that sends
    segments of one stream, its connect message in one piece and before its
    data, scales its window by at most 2^16 and acknowledges at segment
    boundaries.  So the network of [pseudotcp_end_to_end] loses, duplicates,
    delays and reorders, but delivers no data before the whole connect message
    and no acknowledgement that is inside a segment.  Where the code misbehaves
    outside these, the manifest's findings say how
    ([early_data_breaks_prefix], [inner_ack_undefined]).  The callbacks do not
    re-enter the object.

    Timers: [punctual] environments, whose waits end at the latest on time,
    and times before the wrap of the 32-bit clock.  STUN requests: a request
    is sent once and deleted only by its manager, and its callbacks do not
    re-enter the manager; the thread serves these requests only.

    TCP sockets: the socket takes at most the bytes it is given, and a
    callback does not re-enter the packet socket.  ICE: addresses are literal,
    the result of SendTo is not looked at, the signals are handled later, and
    in the theorems on checks the user name fragments have no colon and a
    connection has no request outstanding; times before the wrap of the clock.
    Channel: the ports are UDPPorts; a handler reads the clock once; the slots
    of a signal run when the method that signals has changed its object, and
    before its caller goes on; a new object's memory is not in use; in the
    theorems on sorts generations are below 2^31, and between two pings the
    channel's connections stay.  Reset is not among the handlers that keep the
    pointers live (see the findings).

    SRTP: for agreement and delivery the laws of libsrtp: what srtp_protect
    has made a context with the same policy unprotects, unless its replay
    check refuses it, which it does not when the sequence number is new in its
    stream; for the absence of null sessions, that a caller makes no second
    offer before the first answer.

    HTTP: streams answer as stream.h says; a Write does not answer SR_EOS, which
    fails an ASSERT.  What an owner does in a call of
    HttpBase is done when the HttpBase has returned, which is the same since
    these calls are the last thing it does; the slots of
    SignalHttpRequestComplete call at most Close for their connection.  The
    end-to-end theorem is about messages whose first line and headers have no
    line ends in them, no white space around them and fit into the buffer of
    32 KB ([wf_message]); which say how long their document is, by the
    Content-Length or the "chunked" that setDocumentAndLength sets
    ([announces]); and about a receiver whose owner goes on and takes the size
    it is told ([takes_size]).

    Session descriptions: certificates answer as [SSLIdentity] says, and
    std::sort is any sort by preference ([PreferenceSort]).  An offer that is
    answered has at most one content of each medium in the theorem that the
    answer mirrors it, streams are requested under distinct ids in the one on
    SSRCs, and bundles share their keys in a first offer and its answer; what
    the code does otherwise is [second_content_dropped], [shared_id_shares_ssrc]
    and [mixed_dtls_differs].

    ** Not modelled

    Sockets, threads, files, TLS, sound and platform code are input and
    output or glue around libraries that are not in the repository; sigslot
    and bind are template machinery; jsoncpp and usrsctp are third-party.
    The HTTP client works over a pool of sockets, a resolver and a disk cache,
    and HttpListenServer accepts sockets; dates, urls and authentication of
    httpcommon.cc serve that client.  XMPP and the XML parser are callbacks of
    expat and tasks of a scheduler; the media channels drive engines that are
    not in the repository.  The session state machine of session.cc, the relay
    and TURN servers, the SOCKS handshakes and the task runner are protocols of
    their own, left out for their size. *)

From stdpp Require Export base tactics list list_numbers numbers option strings.
From Stdlib Require Export ZArith Lia Bool Ascii.

(** ** Machine integers

    A w-bit unsigned integer of the source is a [Z]; [wrap w] is the
    conversion the C++ casts and the unsigned arithmetic perform.  A byte
    (uint8, or a char read as unsigned char) is a [Z] in [0, 256). *)

Definition wrap (w z : Z) : Z := z `mod` 2 ^ w.
Definition u8 (z : Z) : Z := wrap 8 z.
Definition u16 (z : Z) : Z := wrap 16 z.
Definition u32 (z : Z) : Z := wrap 32 z.
Definition u64 (z : Z) : Z := wrap 64 z.
(** static_cast<int32>: two's complement. *)
Definition s32 (z : Z) : Z := (z + 2 ^ 31) `mod` 2 ^ 32 - 2 ^ 31.

Definition is_u (w z : Z) : Prop := (0 <= z < 2 ^ w)%Z.
Definition is_byte (z : Z) : Prop := (0 <= z < 256)%Z.
Abbreviation bytes := (list Z).
Definition bytes_ok (l : bytes) : Prop := Forall is_byte l.

(** Character and string literals of the source, as bytes. *)
Definition chr (a : ascii) : Z := Z.of_N (N_of_ascii a).
Fixpoint str (s : string) : bytes :=
  match s with
  | EmptyString => []
  | String a s' => chr a :: str s'
  end.

Declare Scope jingle_scope.
Delimit Scope jingle_scope with jingle.

(** Sequencing of fallible steps, in the option monad: [None] is the
    failure (or the undefined behaviour) of the step. *)
Notation "'let?' x ':=' e 'in' f" := (match e with Some x => f | None => None end)
  (at level 10, x pattern, e at level 100, f at level 200) : jingle_scope.
Notation "'require!' b 'in' f" := (if (b : bool) then f else None)
  (at level 10, b at level 100, f at level 200) : jingle_scope.

(** ** Tactics of the development *)

(** [lia] over quotients and remainders. *)
Ltac dlia := Z.div_mod_to_equations; lia.

(** Case split on the boolean tests of the source, turning each into its
    proposition. *)
Ltac bool_simpl :=
  repeat match goal with
  | H : (_ && _) = true |- _ => apply andb_prop in H; destruct H
  | H : (_ || _) = false |- _ => apply orb_false_iff in H; destruct H
  | H : negb _ = true |- _ => apply negb_true_iff in H
  | H : negb _ = false |- _ => apply negb_false_iff in H
  | H : (_ =? _)%Z = true |- _ => apply Z.eqb_eq in H
  | H : (_ =? _)%Z = false |- _ => apply Z.eqb_neq in H
  | H : (_ <? _)%Z = true |- _ => apply Z.ltb_lt in H
  | H : (_ <? _)%Z = false |- _ => apply Z.ltb_ge in H
  | H : (_ <=? _)%Z = true |- _ => apply Z.leb_le in H
  | H : (_ <=? _)%Z = false |- _ => apply Z.leb_gt in H
  | H : (_ =? _)%nat = true |- _ => apply Nat.eqb_eq in H
  | H : (_ =? _)%nat = false |- _ => apply Nat.eqb_neq in H
  | H : (_ <? _)%nat = true |- _ => apply Nat.ltb_lt in H
  | H : (_ <? _)%nat = false |- _ => apply Nat.ltb_ge in H
  | H : (_ <=? _)%nat = true |- _ => apply Nat.leb_le in H
  | H : (_ <=? _)%nat = false |- _ => apply Nat.leb_gt in H
  end.

(** Reduce an equation between integers to their bits. *)
Ltac bits_eq n Hn :=
  apply Z.bits_inj'; intros n Hn;
  repeat first [rewrite Z.lxor_spec | rewrite Z.land_spec | rewrite Z.lor_spec
               | rewrite Z.shiftr_spec by lia].

(** Split the scrutinee of some [if] or [match] of the goal. *)
Ltac split_if :=
  match goal with
  | |- context [if ?b then _ else _] => destruct b eqn:?
  end.
Ltac split_match :=
  match goal with
  | |- context [match ?b with _ => _ end] =>
      lazymatch b with context [match _ with _ => _ end] => fail | _ => destruct b eqn:? end
  end.

Create HintDb jingle discriminated.

(** [bytes_ok] by evaluation, for closed byte strings. *)
Definition bytes_okb (l : bytes) : bool := forallb (fun b => (0 <=? b) && (b <? 256))%Z l.

Lemma bytes_okb_ok l : bytes_okb l = true -> bytes_ok l.
Proof.
  intros H. unfold bytes_okb in H. rewrite forallb_forall in H. apply List.Forall_forall.
  intros b Hb%H. bool_simpl. unfold is_byte. lia.
Qed.

Ltac solve_bytes := apply bytes_okb_ok; vm_compute; reflexivity.

(** ** Little- and big-endian byte strings *)

Fixpoint le_bytes (n : nat) (v : Z) : bytes :=
  match n with
  | O => []
  | S n' => (v `mod` 256)%Z :: le_bytes n' (v / 256)%Z
  end.
Definition le_val (l : bytes) : Z := fold_right (fun b acc => b + 256 * acc)%Z 0%Z l.
Definition be_bytes (n : nat) (v : Z) : bytes := rev (le_bytes n v).
Definition be_val (l : bytes) : Z := le_val (rev l).

Open Scope Z_scope.

Lemma wrap_range w z : 0 <= w -> is_u w (wrap w z).
Proof. intros; apply Z.mod_pos_bound; lia. Qed.

Lemma wrap_small w z : is_u w z -> wrap w z = z.
Proof. apply Z.mod_small. Qed.

Lemma wrap_wrap w z : wrap w (wrap w z) = wrap w z.
Proof. unfold wrap. apply Zmod_mod. Qed.

Lemma u8_byte z : is_byte (u8 z).
Proof. apply (wrap_range 8); lia. Qed.

Lemma length_le_bytes n v : length (le_bytes n v) = n.
Proof. revert v; induction n; simpl; auto. Qed.

Lemma length_be_bytes n v : length (be_bytes n v) = n.
Proof. unfold be_bytes. by rewrite length_rev, length_le_bytes. Qed.

Lemma le_bytes_ok n v : bytes_ok (le_bytes n v).
Proof.
  revert v; induction n; intros v; constructor; [|apply IHn].
  apply Z.mod_pos_bound; lia.
Qed.

Lemma be_bytes_ok n v : bytes_ok (be_bytes n v).
Proof. apply Forall_rev, le_bytes_ok. Qed.

Lemma le_val_le_bytes n v : le_val (le_bytes n v) = v `mod` 2 ^ (8 * Z.of_nat n).
Proof.
  revert v; induction n; intros v; [symmetry; apply Z.mod_1_r|].
  cbn [le_bytes le_val fold_right]. fold (le_val (le_bytes n (v / 256))). rewrite IHn.
  replace (8 * Z.of_nat (S n)) with (8 + 8 * Z.of_nat n) by lia.
  rewrite Z.pow_add_r by lia. change (2 ^ 8) with 256.
  assert (0 < 2 ^ (8 * Z.of_nat n)) by (apply Z.pow_pos_nonneg; lia).
  rewrite Z.rem_mul_r by lia. lia.
Qed.

Lemma be_val_be_bytes n v : be_val (be_bytes n v) = v `mod` 2 ^ (8 * Z.of_nat n).
Proof. unfold be_val, be_bytes. by rewrite rev_involutive, le_val_le_bytes. Qed.

Lemma le_bytes_le_val l : bytes_ok l -> le_bytes (length l) (le_val l) = l.
Proof.
  induction 1 as [|b l Hb _ IH]; [done|].
  cbn [le_bytes le_val fold_right length]. fold (le_val l).
  unfold is_byte in Hb. f_equal; [dlia|].
  replace ((b + 256 * le_val l) / 256) with (le_val l) by dlia. exact IH.
Qed.

Lemma le_bytes_app n m v :
  le_bytes (n + m) v = le_bytes n v ++ le_bytes m (v / 256 ^ Z.of_nat n).
Proof.
  revert v; induction n; intros v; [cbn [Nat.add app le_bytes]; by rewrite Z.div_1_r|].
  cbn [Nat.add app le_bytes]. rewrite IHn. do 3 f_equal.
  rewrite Z.div_div by lia. f_equal. rewrite <- Z.pow_succ_r by lia. f_equal. lia.
Qed.

Lemma le_bytes_mod n v : le_bytes n (v `mod` 256 ^ Z.of_nat n) = le_bytes n v.
Proof.
  revert v; induction n; intros v; [done|]. cbn [le_bytes].
  replace (256 ^ Z.of_nat (S n)) with (256 * 256 ^ Z.of_nat n)
    by (rewrite <- Z.pow_succ_r by lia; f_equal; lia).
  assert (0 < 256 ^ Z.of_nat n) by lia. rewrite Z.rem_mul_r by lia. f_equal.
  - rewrite (Z.mul_comm 256 (_ `mod` _)), Z_mod_plus_full. apply Zmod_mod.
  - rewrite <- (IHn (v / 256)). f_equal. rewrite (Z.mul_comm 256 (_ `mod` _)), Z.div_add by lia.
    rewrite Z.div_small by (by apply Z.mod_pos_bound). done.
Qed.

Lemma be_bytes_be_val l : bytes_ok l -> be_bytes (length l) (be_val l) = l.
Proof.
  intros H. unfold be_bytes, be_val. rewrite <- (length_rev l).
  rewrite le_bytes_le_val by (by apply Forall_rev). apply rev_involutive.
Qed.

Lemma le_val_range l : bytes_ok l -> is_u (8 * Z.of_nat (length l)) (le_val l).
Proof.
  intros H. rewrite <- (le_bytes_le_val l H) at 2. rewrite le_val_le_bytes.
  apply Z.mod_pos_bound. lia.
Qed.

Lemma be_val_range l : bytes_ok l -> is_u (8 * Z.of_nat (length l)) (be_val l).
Proof.
  intros H. rewrite <- (length_rev l). apply le_val_range. by apply Forall_rev.
Qed.

Lemma le_val_app l k : le_val (l ++ k) = le_val l + 256 ^ Z.of_nat (length l) * le_val k.
Proof.
  induction l as [|b l IH]; [change (le_val []) with 0; cbn [app length]; lia|].
  cbn [app le_val fold_right length]. fold (le_val (l ++ k)). fold (le_val l). rewrite IH.
  rewrite Nat2Z.inj_succ, Z.pow_succ_r by lia. ring.
Qed.

Lemma be_val_app l k : be_val (l ++ k) = be_val l * 256 ^ Z.of_nat (length k) + be_val k.
Proof. unfold be_val. rewrite rev_app_distr, le_val_app, length_rev. ring. Qed.

Lemma be_val_cons b l : be_val (b :: l) = b * 256 ^ Z.of_nat (length l) + be_val l.
Proof.
  change (b :: l) with ([b] ++ l). rewrite be_val_app. f_equal. f_equal.
  unfold be_val. cbn. lia.
Qed.

Lemma be_val_inj l k : bytes_ok l -> bytes_ok k -> length l = length k -> be_val l = be_val k -> l = k.
Proof.
  intros Hl Hk Hlen Hv. rewrite <- (be_bytes_be_val l), <- (be_bytes_be_val k) by done.
  by rewrite Hlen, Hv.
Qed.

(** One step of an [x << (k+8) | b << k] chain. *)
Lemma lor_step k a b :
  0 <= k -> 0 <= b < 256 ->
  Z.lor (a * 2 ^ (k + 8)) (Z.shiftl b k) = (a * 256 + b) * 2 ^ k.
Proof.
  intros Hk Hb. rewrite Z.pow_add_r, Z.shiftl_mul_pow2 by lia.
  change (2 ^ 8) with 256.
  replace (a * (2 ^ k * 256)) with (Z.shiftl (Z.shiftl a 8) k)
    by (rewrite !Z.shiftl_mul_pow2 by lia; change (2 ^ 8) with 256; ring).
  rewrite <- Z.shiftl_mul_pow2, <- Z.shiftl_lor by lia.
  rewrite Z.shiftl_mul_pow2 by lia. f_equal.
  rewrite <- Z.lxor_lor; [|].
  - rewrite <- Z.add_nocarry_lxor; [rewrite Z.shiftl_mul_pow2; lia|].
    apply Z.bits_inj'. intros n Hn. rewrite Z.land_spec, Z.bits_0.
    destruct (Z.lt_ge_cases n 8); [by rewrite Z.shiftl_spec_low|].
    rewrite <- (Z.mod_small b (2 ^ 8)) by (change (2 ^ 8) with 256; lia).
    rewrite Z.mod_pow2_bits_high by lia. apply andb_false_r.
  - apply Z.bits_inj'. intros n Hn. rewrite Z.land_spec, Z.bits_0.
    destruct (Z.lt_ge_cases n 8); [by rewrite Z.shiftl_spec_low|].
    rewrite <- (Z.mod_small b (2 ^ 8)) by (change (2 ^ 8) with 256; lia).
    rewrite Z.mod_pow2_bits_high by lia. apply andb_false_r.
Qed.

(** Disjoint bit fields: [lor] is addition. *)
Lemma lor_add n a b : 0 <= n -> 0 <= b < 2 ^ n -> Z.lor (a * 2 ^ n) b = a * 2 ^ n + b.
Proof.
  intros Hn Hb. assert (Hl : Z.land (a * 2 ^ n) b = 0);
    [|by rewrite <- Z.lxor_lor, <- Z.add_nocarry_lxor].
  apply Z.bits_inj'. intros k Hk. rewrite Z.land_spec, Z.bits_0.
  destruct (Z.lt_ge_cases k n); [by rewrite Z.mul_pow2_bits_low|].
  rewrite <- (Z.mod_small b (2 ^ n)) by lia. rewrite Z.mod_pow2_bits_high by lia.
  apply andb_false_r.
Qed.

(** A low mask is a remainder. *)
Lemma land_mask n a : 0 <= n -> Z.land a (2 ^ n - 1) = a mod 2 ^ n.
Proof. intros. rewrite <- Z.land_ones by done. f_equal. rewrite Z.ones_equiv. lia. Qed.

(** Decide a property of all small integers by computation. *)
Lemma forall_below (n : nat) (p : Z -> bool) :
  forallb (fun k => p (Z.of_nat k)) (seq 0 n) = true ->
  forall z, 0 <= z < Z.of_nat n -> p z = true.
Proof.
  intros H z Hz. rewrite forallb_forall in H. rewrite <- (Z2Nat.id z) by lia.
  apply H, in_seq. lia.
Qed.

(** Reading the list at the head of a suffix. *)
Lemma drop_cons_inv (l : bytes) i x r :
  drop i l = x :: r -> nth i l 0 = x /\ (i < length l)%nat /\ drop (S i) l = r.
Proof.
  revert l; induction i as [|i IH]; intros [|y l]; cbn; try done.
  - intros [= -> ->]. auto with lia.
  - intros H%IH. destruct H as (? & ? & ?). auto with lia.
Qed.

Lemma drop_nil_inv (l : bytes) i : drop i l = [] -> (length l <= i)%nat.
Proof. intros H. apply (f_equal length) in H. rewrite length_drop in H. cbn in H. lia. Qed.

(** [strchr] on a C string of these bytes: the terminator is part of it. *)
Fixpoint strchr (s : bytes) (ch : Z) : option nat :=
  match s with
  | [] => if ch =? 0 then Some 0%nat else None
  | b :: s' => if b =? ch then Some 0%nat else option_map S (strchr s' ch)
  end.

(** ** Raw memory: [memcpy] out of and into a byte array *)

Definition mem_read (l : bytes) (pos n : nat) : bytes := take n (drop pos l).
Definition mem_write (l : bytes) (pos : nat) (data : bytes) : bytes :=
  take pos l ++ data ++ drop (pos + length data) l.

Lemma length_mem_read l pos n : (pos + n <= length l)%nat -> length (mem_read l pos n) = n.
Proof. intros. unfold mem_read. rewrite length_take, length_drop. lia. Qed.

Lemma length_mem_write l pos d :
  (pos + length d <= length l)%nat -> length (mem_write l pos d) = length l.
Proof.
  intros. unfold mem_write. rewrite !length_app, length_take, length_drop. lia.
Qed.

Lemma bytes_ok_app l k : bytes_ok (l ++ k) <-> bytes_ok l /\ bytes_ok k.
Proof. apply Forall_app. Qed.

Lemma mem_read_ok l pos n : bytes_ok l -> bytes_ok (mem_read l pos n).
Proof. intros. by apply Forall_take, Forall_drop. Qed.

Lemma mem_write_ok l pos d : bytes_ok l -> bytes_ok d -> bytes_ok (mem_write l pos d).
Proof.
  intros. unfold mem_write. rewrite !bytes_ok_app.
  split_and!; [by apply Forall_take | done | by apply Forall_drop].
Qed.

Lemma take_mem_write l pos d :
  (pos <= length l)%nat -> take (pos + length d) (mem_write l pos d) = take pos l ++ d.
Proof.
  intros Hp. unfold mem_write. rewrite app_assoc, take_app_le, take_ge; [done| |];
    rewrite length_app, length_take; lia.
Qed.

Lemma mem_write_end l pos d :
  (length l <= pos + length d)%nat -> mem_write l pos d = take pos l ++ d.
Proof. intros Hl. unfold mem_write. rewrite (drop_ge l) by done. by rewrite app_nil_r. Qed.

(** Reading back a window that ends where [d] was written. *)
Lemma mem_read_write_snoc l s pos d :
  (s <= pos)%nat -> (pos + length d <= length l)%nat ->
  mem_read (mem_write l pos d) s (pos + length d - s) = mem_read l s (pos - s) ++ d.
Proof.
  intros Hs Hl. unfold mem_read, mem_write.
  rewrite drop_app_le by (rewrite length_take; lia).
  rewrite skipn_firstn_comm.
  assert (length (take (pos - s) (drop s l)) = pos - s)%nat as Hlen
    by (rewrite length_take, length_drop; lia).
  rewrite take_app_ge by (rewrite Hlen; lia). rewrite Hlen. f_equal.
  rewrite take_app_ge by lia.
  replace (pos + length d - s - (pos - s) - length d)%nat with 0%nat by lia.
  by rewrite take_0, app_nil_r.
Qed.

Lemma mem_read_split l pos n m :
  mem_read l pos (n + m) = mem_read l pos n ++ mem_read l (pos + n) m.
Proof.
  unfold mem_read. rewrite <- (take_drop n (take (n + m) (drop pos l))) at 1.
  rewrite take_take, Nat.min_l by lia. f_equal.
  rewrite skipn_firstn_comm, drop_drop. f_equal. lia.
Qed.

Create Rewrite HintDb jingle.
#[export] Hint Resolve u8_byte le_bytes_ok be_bytes_ok : jingle.
#[export] Hint Rewrite length_le_bytes length_be_bytes @length_app @length_take @length_drop : jingle.
