(* ===== verification/TimeUtils.v ===== *)
(** * base/timeutils.cc: timestamps that wrap around

    A timestamp is a count of milliseconds modulo 2^32.  The compiled functions
    are the ones under EFFICIENT_IMPLEMENTATION; the others, written with
    TimeIsBetween, are the reference they are compared with. *)

From Stdlib Require Import ZifyBool.
From S2P Require Import Prelude.
Open Scope jingle_scope.

Module TimeUtils.

Definition HALF : Z := 0x80000000.

Definition TimeIsBetween (earlier middle later : Z) : bool :=
  if earlier <=? later then (earlier <=? middle) && (middle <=? later)
  else negb ((later <? middle) && (middle <? earlier)).

Definition TimeIsLaterOrEqual (earlier later : Z) : bool :=
  let diff := s32 (later - earlier) in (0 <=? diff) && (u32 diff <? HALF).
Definition TimeIsLater (earlier later : Z) : bool :=
  let diff := s32 (later - earlier) in (0 <? diff) && (u32 diff <? HALF).
(** The int32 difference of two timestamps. *)
Definition TimeDiff (later earlier : Z) : Z := s32 (later - earlier).

Definition TimeMax (ts1 ts2 : Z) : Z := if TimeIsLaterOrEqual ts1 ts2 then ts2 else ts1.
Definition TimeMin (ts1 ts2 : Z) : Z := if TimeIsLaterOrEqual ts1 ts2 then ts1 else ts2.

(** [now] is Time(). *)
Definition TimeAfter (now elapsed : Z) : Z := u32 (now + elapsed).
Definition TimeSince (now earlier : Z) : Z := TimeDiff now earlier.
Definition TimeUntil (now later : Z) : Z := TimeDiff later now.

(** ** The reference implementations *)

Definition ref_TimeIsLaterOrEqual (earlier later : Z) : bool := TimeIsBetween earlier later (u32 (earlier + HALF)).
Definition ref_TimeIsLater (earlier later : Z) : bool := negb (TimeIsBetween later earlier (u32 (later + HALF))).
Definition ref_TimeDiff (later earlier : Z) : Z :=
  s32 (if TimeIsBetween earlier later (u32 (earlier + HALF)) then
         if earlier <=? later then u32 (later - earlier) else u32 (later + (0xFFFFFFFF - earlier) + 1)
       else
         if later <=? earlier then - u32 (earlier - later) else - u32 (earlier + (0xFFFFFFFF - later) + 1)).

(** The distance from one timestamp to another, going forward. *)
Lemma between_dist earlier middle later : is_u 32 earlier -> is_u 32 middle -> is_u 32 later ->
  TimeIsBetween earlier middle later = (u32 (middle - earlier) <=? u32 (later - earlier)).
Proof.
  unfold is_u, TimeIsBetween, u32, wrap. change (2 ^ 32) with 4294967296. intros He Hm Hl.
  assert (Hd : forall x, 0 <= x < 4294967296 -> (x - earlier) mod 4294967296 = if earlier <=? x then x - earlier else x - earlier + 4294967296).
  { intros x Hx. destruct (Z.leb_spec earlier x); [by rewrite Z.mod_small by lia|].
    rewrite <- (Z.mod_unique (x - earlier) 4294967296 (-1) (x - earlier + 4294967296)); lia. }
  rewrite !Hd by done. destruct (Z.leb_spec earlier later), (Z.leb_spec earlier middle); cbn [andb]; lia.
Qed.

Lemma s32_dist x : s32 x = if u32 x <? HALF then u32 x else u32 x - 2 ^ 32.
Proof.
  unfold s32, u32, wrap, HALF. change (2 ^ 32) with 4294967296. change (2 ^ 31) with 2147483648.
  rewrite (Z.div_mod x 4294967296) at 1 by lia. pose proof (Z.mod_pos_bound x 4294967296 ltac:(lia)) as Hb.
  set (r := x mod 4294967296) in *. set (q := x / 4294967296).
  destruct (Z.ltb_spec r 2147483648).
  - rewrite <- (Z.mod_unique (4294967296 * q + r + 2147483648) 4294967296 q (r + 2147483648)); lia.
  - rewrite <- (Z.mod_unique (4294967296 * q + r + 2147483648) 4294967296 (q + 1) (r - 2147483648)); lia.
Qed.

Lemma u32_bounds x : 0 <= u32 x < 2 ^ 32.
Proof. unfold u32, wrap. apply Z.mod_pos_bound. lia. Qed.
Lemma u32_cong x y k : x = y + k * 2 ^ 32 -> u32 x = u32 y.
Proof. unfold u32, wrap. intros ->. by rewrite Z_mod_plus_full. Qed.
Lemma u32_u32 x : u32 (u32 x) = u32 x.
Proof. unfold u32, wrap. apply Zmod_mod. Qed.
Lemma u32_sub_u32 x y : u32 (u32 x - y) = u32 (x - y).
Proof. unfold u32, wrap. by rewrite Zminus_mod_idemp_l. Qed.
Lemma u32_opp x : u32 (- x) = if u32 x =? 0 then 0 else 2 ^ 32 - u32 x.
Proof.
  pose proof (u32_bounds x) as Hb. unfold u32, wrap in *. destruct (Z.eqb_spec (x mod 2 ^ 32) 0) as [E|E].
  - by rewrite Z.mod_opp_l_z.
  - by rewrite Z.mod_opp_l_nz.
Qed.

Lemma later_dist e l : TimeIsLater e l = (0 <? u32 (l - e)) && (u32 (l - e) <? HALF).
Proof.
  unfold TimeIsLater. rewrite s32_dist. pose proof (u32_bounds (l - e)) as Hb.
  destruct (Z.ltb_spec (u32 (l - e)) HALF) as [H|H].
  - rewrite u32_u32. by rewrite (proj2 (Z.ltb_lt _ _) H).
  - rewrite (proj2 (Z.ltb_ge 0 _)) by lia. by rewrite andb_false_r.
Qed.
Lemma later_eq_dist e l : TimeIsLaterOrEqual e l = (u32 (l - e) <? HALF).
Proof.
  unfold TimeIsLaterOrEqual. rewrite s32_dist. pose proof (u32_bounds (l - e)) as Hb.
  destruct (Z.ltb_spec (u32 (l - e)) HALF) as [H|H].
  - rewrite u32_u32, (proj2 (Z.ltb_lt _ _) H), andb_true_r. apply Z.leb_le. lia.
  - rewrite (proj2 (Z.leb_gt 0 _)) by lia. done.
Qed.

Lemma half_dist e : u32 (u32 (e + HALF) - e) = HALF.
Proof. rewrite u32_sub_u32. by replace (e + HALF - e) with HALF by lia. Qed.
Lemma dist_sym e l : u32 (e - l) = if u32 (l - e) =? 0 then 0 else 2 ^ 32 - u32 (l - e).
Proof. rewrite <- u32_opp. f_equal. lia. Qed.

(** The compiled comparisons of timestamps agree with the reference ones
    for all pairs of timestamps, except that two exactly 2^31 ms apart compare
    as later-or-equal in neither direction, where the reference says yes in
    both.  A time less than 2^31 ms ahead, wrapping or not, is later, and
    TimeDiff and TimeUntil recover the distance. *)
Theorem time_order_reference earlier later : is_u 32 earlier -> is_u 32 later ->
  TimeIsLater earlier later = ref_TimeIsLater earlier later /\
  TimeDiff later earlier = ref_TimeDiff later earlier /\
  TimeIsLaterOrEqual earlier later = ref_TimeIsLaterOrEqual earlier later && negb (u32 (later - earlier) =? HALF) /\
  (forall k, 0 <= k < HALF ->
   TimeIsLaterOrEqual earlier (TimeAfter earlier k) = true /\ TimeIsLater earlier (TimeAfter earlier k) = (0 <? k) /\
   TimeUntil earlier (TimeAfter earlier k) = k /\ TimeMax earlier (TimeAfter earlier k) = TimeAfter earlier k).
Proof.
  intros He Hl. assert (Hu : forall x, is_u 32 (u32 x)) by (intros; apply u32_bounds).
  pose proof (u32_bounds (later - earlier)) as Hd. split_and!.
  - unfold ref_TimeIsLater. rewrite between_dist, later_dist, half_dist, (dist_sym earlier later) by done. unfold HALF in *.
    destruct (Z.eqb_spec (u32 (later - earlier)) 0); lia.
  - unfold ref_TimeDiff, TimeDiff. rewrite between_dist, half_dist by done.
    assert (Hs : forall x, u32 x = u32 (later - earlier) -> s32 x = s32 (later - earlier)) by (intros x Hx; by rewrite !s32_dist, Hx).
    symmetry. apply Hs. unfold u32, wrap in *. destruct (_ <=? HALF), (_ <=? _).
    + by rewrite Zmod_mod.
    + rewrite Zmod_mod. by apply (u32_cong _ _ 1); lia.
    + rewrite <- (Z.sub_0_l (_ mod _)), Zminus_mod_idemp_r. f_equal. lia.
    + rewrite <- (Z.sub_0_l (_ mod _)), Zminus_mod_idemp_r. by apply (u32_cong _ _ (-1)); lia.
  - unfold ref_TimeIsLaterOrEqual. rewrite between_dist, later_eq_dist, half_dist by done. lia.
  - intros k Hk. assert (Ek : u32 (TimeAfter earlier k - earlier) = k).
    { unfold TimeAfter. rewrite u32_sub_u32. replace (earlier + k - earlier) with k by lia.
      unfold u32, wrap. apply Z.mod_small. unfold HALF in Hk. lia. }
    unfold TimeMax, TimeUntil, TimeDiff. rewrite later_eq_dist, later_dist, s32_dist, Ek, (proj2 (Z.ltb_lt _ _) (proj2 Hk)).
    by rewrite andb_true_r.
Qed.

Lemma time_order_reference_witness :
  TimeIsLater 0xFFFFFFF0 0x10 = ref_TimeIsLater 0xFFFFFFF0 0x10 /\ TimeUntil 0xFFFFFFF0 (TimeAfter 0xFFFFFFF0 0x20) = 0x20.
Proof.
  destruct (time_order_reference 0xFFFFFFF0 0x10) as (H & _ & _ & Hk); [done|done|]. split; [exact H|]. by apply Hk.
Defined.
End TimeUtils.
