(* ===== verification/ByteOrder.v ===== *)
(** * base/byteorder.h: integers in memory

    [SetBE16] ... [GetLE64] write and read the bytes of an integer with the
    shifts of the source.  The host is a parameter: [Machine] says whether it
    is big endian and what a fresh allocation holds, so every theorem covers
    both kinds of host.  [HostToNetworkN] and [NetworkToHostN] go through the
    object representation of the integer on the host. *)

From S2P Require Import Prelude.

(** The machine the program runs on: its byte order, and the indeterminate
    bytes of the [n]-th uninitialised allocation. *)
Class Machine := {
  IsHostBigEndian : bool;
  uninit : Z -> nat -> Z;
  uninit_byte : forall n i, is_byte (uninit n i);
}.

(** A little-endian machine whose fresh memory is zero, for evaluation. *)
Definition x86 : Machine :=
  {| IsHostBigEndian := false; uninit := fun _ _ => 0;
     uninit_byte := fun _ _ => conj (Z.le_refl 0) eq_refl |}.

Module ByteOrder.

Definition Get8 (memory : bytes) (offset : nat) : Z := nth offset memory 0.

Definition SetBE16 (v : Z) : bytes := [u8 (Z.shiftr v 8); u8 (Z.shiftr v 0)].
Definition SetBE32 (v : Z) : bytes :=
  [u8 (Z.shiftr v 24); u8 (Z.shiftr v 16); u8 (Z.shiftr v 8); u8 (Z.shiftr v 0)].
Definition SetBE64 (v : Z) : bytes :=
  [u8 (Z.shiftr v 56); u8 (Z.shiftr v 48); u8 (Z.shiftr v 40); u8 (Z.shiftr v 32);
   u8 (Z.shiftr v 24); u8 (Z.shiftr v 16); u8 (Z.shiftr v 8); u8 (Z.shiftr v 0)].

Definition GetBE16 (m : bytes) : Z :=
  u16 (Z.lor (Z.shiftl (Get8 m 0) 8) (Z.shiftl (Get8 m 1) 0)).
Definition GetBE32 (m : bytes) : Z :=
  Z.lor (Z.lor (Z.lor (u32 (Z.shiftl (Get8 m 0) 24)) (u32 (Z.shiftl (Get8 m 1) 16)))
    (u32 (Z.shiftl (Get8 m 2) 8))) (u32 (Z.shiftl (Get8 m 3) 0)).
Definition GetBE64 (m : bytes) : Z :=
  Z.lor (Z.lor (Z.lor (Z.lor (Z.lor (Z.lor (Z.lor
    (u64 (Z.shiftl (Get8 m 0) 56)) (u64 (Z.shiftl (Get8 m 1) 48)))
    (u64 (Z.shiftl (Get8 m 2) 40))) (u64 (Z.shiftl (Get8 m 3) 32)))
    (u64 (Z.shiftl (Get8 m 4) 24))) (u64 (Z.shiftl (Get8 m 5) 16)))
    (u64 (Z.shiftl (Get8 m 6) 8))) (u64 (Z.shiftl (Get8 m 7) 0)).

Definition SetLE16 (v : Z) : bytes := [u8 (Z.shiftr v 0); u8 (Z.shiftr v 8)].
Definition SetLE32 (v : Z) : bytes :=
  [u8 (Z.shiftr v 0); u8 (Z.shiftr v 8); u8 (Z.shiftr v 16); u8 (Z.shiftr v 24)].
Definition SetLE64 (v : Z) : bytes :=
  [u8 (Z.shiftr v 0); u8 (Z.shiftr v 8); u8 (Z.shiftr v 16); u8 (Z.shiftr v 24);
   u8 (Z.shiftr v 32); u8 (Z.shiftr v 40); u8 (Z.shiftr v 48); u8 (Z.shiftr v 56)].

Definition GetLE16 (m : bytes) : Z :=
  u16 (Z.lor (Z.shiftl (Get8 m 0) 0) (Z.shiftl (Get8 m 1) 8)).
Definition GetLE32 (m : bytes) : Z :=
  Z.lor (Z.lor (Z.lor (u32 (Z.shiftl (Get8 m 0) 0)) (u32 (Z.shiftl (Get8 m 1) 8)))
    (u32 (Z.shiftl (Get8 m 2) 16))) (u32 (Z.shiftl (Get8 m 3) 24)).
Definition GetLE64 (m : bytes) : Z :=
  Z.lor (Z.lor (Z.lor (Z.lor (Z.lor (Z.lor (Z.lor
    (u64 (Z.shiftl (Get8 m 0) 0)) (u64 (Z.shiftl (Get8 m 1) 8)))
    (u64 (Z.shiftl (Get8 m 2) 16))) (u64 (Z.shiftl (Get8 m 3) 24)))
    (u64 (Z.shiftl (Get8 m 4) 32))) (u64 (Z.shiftl (Get8 m 5) 40)))
    (u64 (Z.shiftl (Get8 m 6) 48))) (u64 (Z.shiftl (Get8 m 7) 56)).

(** The object representation of an [n]-byte unsigned integer on the host,
    and the integer a representation stands for. *)
Definition host_bytes `{Machine} (n : nat) (v : Z) : bytes :=
  if IsHostBigEndian then be_bytes n v else le_bytes n v.
Definition host_val `{Machine} (m : bytes) : Z :=
  if IsHostBigEndian then be_val m else le_val m.

Definition HostToNetwork16 `{Machine} (n : Z) : Z := host_val (SetBE16 n).
Definition HostToNetwork32 `{Machine} (n : Z) : Z := host_val (SetBE32 n).
Definition HostToNetwork64 `{Machine} (n : Z) : Z := host_val (SetBE64 n).
Definition NetworkToHost16 `{Machine} (n : Z) : Z := GetBE16 (host_bytes 2 n).
Definition NetworkToHost32 `{Machine} (n : Z) : Z := GetBE32 (host_bytes 4 n).
Definition NetworkToHost64 `{Machine} (n : Z) : Z := GetBE64 (host_bytes 8 n).

(** ** The shifts compute the positional value *)

Lemma shiftr_div v k : 0 <= k -> Z.shiftr v k = v / 2 ^ k.
Proof. apply Z.shiftr_div_pow2. Qed.

Ltac shifts_to_div :=
  repeat first
    [ rewrite !Z.shiftr_0_r
    | rewrite !shiftr_div by lia
    | rewrite !Z.div_div by lia ].

Lemma SetBE16_be v : SetBE16 v = be_bytes 2 v.
Proof.
  unfold SetBE16, be_bytes, u8, wrap; cbn [le_bytes rev app].
  shifts_to_div. done.
Qed.
Lemma SetBE32_be v : SetBE32 v = be_bytes 4 v.
Proof.
  unfold SetBE32, be_bytes, u8, wrap; cbn [le_bytes rev app].
  shifts_to_div. done.
Qed.
Lemma SetBE64_be v : SetBE64 v = be_bytes 8 v.
Proof.
  unfold SetBE64, be_bytes, u8, wrap; cbn [le_bytes rev app].
  shifts_to_div. done.
Qed.
Lemma SetLE16_le v : SetLE16 v = le_bytes 2 v.
Proof. unfold SetLE16, u8, wrap; cbn [le_bytes]. shifts_to_div. done. Qed.
Lemma SetLE32_le v : SetLE32 v = le_bytes 4 v.
Proof. unfold SetLE32, u8, wrap; cbn [le_bytes]. shifts_to_div. done. Qed.
Lemma SetLE64_le v : SetLE64 v = le_bytes 8 v.
Proof. unfold SetLE64, u8, wrap; cbn [le_bytes]. shifts_to_div. done. Qed.

(** A byte shifted inside the word is not truncated. *)
Lemma wrap_shiftl w b k :
  0 <= k -> k + 8 <= w -> is_byte b -> wrap w (Z.shiftl b k) = Z.shiftl b k.
Proof.
  intros Hk Hw Hb. apply wrap_small. rewrite Z.shiftl_mul_pow2 by lia.
  unfold is_byte in Hb. unfold is_u.
  assert (2 ^ (k + 8) <= 2 ^ w) by (apply Z.pow_le_mono_r; lia).
  rewrite Z.pow_add_r in * by lia. change (2 ^ 8) with 256 in *. nia.
Qed.

(** [explode_bytes H]: turn a byte list of known length into its bytes. *)
Ltac explode_bytes l :=
  repeat (destruct l as [|? l]; [cbn in *; try lia|]); try (cbn in *; lia).
Ltac bytes_inv :=
  repeat match goal with
  | H : bytes_ok (_ :: _) |- _ => apply Forall_cons in H; destruct H
  | H : bytes_ok [] |- _ => clear H
  | H : Forall is_byte (_ :: _) |- _ => apply Forall_cons in H; destruct H
  end.

Lemma GetBE16_be m : bytes_ok m -> length m = 2%nat -> GetBE16 m = be_val m.
Proof.
  intros Hok Hl. destruct m as [|a [|b [|]]]; try done. bytes_inv.
  unfold GetBE16, Get8, be_val, u16. cbn [nth rev app le_val fold_right].
  rewrite (Z.shiftl_mul_pow2 a) by lia. change (2 ^ 8) with (2 ^ (0 + 8)).
  rewrite lor_step by (unfold is_byte in *; lia).
  rewrite wrap_small; [lia|]. unfold is_u, is_byte in *. lia.
Qed.

Lemma GetBE32_be m : bytes_ok m -> length m = 4%nat -> GetBE32 m = be_val m.
Proof.
  intros Hok Hl. destruct m as [|a [|b [|c [|d [|]]]]]; try done. bytes_inv.
  unfold GetBE32, Get8, be_val, u32. cbn [nth rev app le_val fold_right].
  rewrite !wrap_shiftl by (done || lia).
  rewrite (Z.shiftl_mul_pow2 a) by lia.
  change (2 ^ 24) with (2 ^ (16 + 8)). rewrite lor_step by (done || lia).
  change (2 ^ 16) with (2 ^ (8 + 8)). rewrite lor_step by (done || lia).
  change (2 ^ 8) with (2 ^ (0 + 8)). rewrite lor_step by (done || lia).
  lia.
Qed.

Lemma GetBE64_be m : bytes_ok m -> length m = 8%nat -> GetBE64 m = be_val m.
Proof.
  intros Hok Hl.
  destruct m as [|a [|b [|c [|d [|e [|f [|g [|h [|]]]]]]]]]; try done. bytes_inv.
  unfold GetBE64, Get8, be_val, u64. cbn [nth rev app le_val fold_right].
  rewrite !wrap_shiftl by (done || lia).
  rewrite (Z.shiftl_mul_pow2 a) by lia.
  change (2 ^ 56) with (2 ^ (48 + 8)). rewrite lor_step by (done || lia).
  change (2 ^ 48) with (2 ^ (40 + 8)). rewrite lor_step by (done || lia).
  change (2 ^ 40) with (2 ^ (32 + 8)). rewrite lor_step by (done || lia).
  change (2 ^ 32) with (2 ^ (24 + 8)). rewrite lor_step by (done || lia).
  change (2 ^ 24) with (2 ^ (16 + 8)). rewrite lor_step by (done || lia).
  change (2 ^ 16) with (2 ^ (8 + 8)). rewrite lor_step by (done || lia).
  change (2 ^ 8) with (2 ^ (0 + 8)). rewrite lor_step by (done || lia).
  lia.
Qed.

(** Little endian is big endian of the reversed bytes. *)
Lemma GetLE16_rev a b : GetLE16 [a; b] = GetBE16 [b; a].
Proof. unfold GetLE16, GetBE16, Get8; cbn [nth]. by rewrite Z.lor_comm. Qed.

Lemma GetLE32_rev a b c d : GetLE32 [a; b; c; d] = GetBE32 [d; c; b; a].
Proof.
  unfold GetLE32, GetBE32, Get8; cbn [nth].
  rewrite (Z.lor_comm _ (u32 (Z.shiftl d 24))), (Z.lor_comm _ (u32 (Z.shiftl c 16))),
    (Z.lor_comm (u32 (Z.shiftl a 0))). by rewrite !Z.lor_assoc.
Qed.

Lemma GetLE64_rev a b c d e f g h :
  GetLE64 [a; b; c; d; e; f; g; h] = GetBE64 [h; g; f; e; d; c; b; a].
Proof.
  unfold GetLE64, GetBE64, Get8; cbn [nth].
  rewrite (Z.lor_comm _ (u64 (Z.shiftl h 56))), (Z.lor_comm _ (u64 (Z.shiftl g 48))),
    (Z.lor_comm _ (u64 (Z.shiftl f 40))), (Z.lor_comm _ (u64 (Z.shiftl e 32))),
    (Z.lor_comm _ (u64 (Z.shiftl d 24))), (Z.lor_comm _ (u64 (Z.shiftl c 16))),
    (Z.lor_comm (u64 (Z.shiftl a 0))). by rewrite !Z.lor_assoc.
Qed.

Lemma GetLE16_le m : bytes_ok m -> length m = 2%nat -> GetLE16 m = le_val m.
Proof.
  intros Hok Hl. destruct m as [|a [|b [|]]]; try done.
  rewrite GetLE16_rev, GetBE16_be; [done| |done].
  change (bytes_ok (rev [a; b])). by apply Forall_rev.
Qed.
Lemma GetLE32_le m : bytes_ok m -> length m = 4%nat -> GetLE32 m = le_val m.
Proof.
  intros Hok Hl. destruct m as [|a [|b [|c [|d [|]]]]]; try done.
  rewrite GetLE32_rev, GetBE32_be; [done| |done].
  change (bytes_ok (rev [a; b; c; d])). by apply Forall_rev.
Qed.
Lemma GetLE64_le m : bytes_ok m -> length m = 8%nat -> GetLE64 m = le_val m.
Proof.
  intros Hok Hl.
  destruct m as [|a [|b [|c [|d [|e [|f [|g [|h [|]]]]]]]]]; try done.
  rewrite GetLE64_rev, GetBE64_be; [done| |done].
  change (bytes_ok (rev [a; b; c; d; e; f; g; h])). by apply Forall_rev.
Qed.

(** ** Host representation *)

Section Host.
Context `{Machine}.

Lemma length_host_bytes n v : length (host_bytes n v) = n.
Proof. unfold host_bytes. destruct IsHostBigEndian; autorewrite with jingle; done. Qed.

Lemma host_bytes_ok n v : bytes_ok (host_bytes n v).
Proof. unfold host_bytes. destruct IsHostBigEndian; auto with jingle. Qed.

Lemma host_bytes_val m : bytes_ok m -> host_bytes (length m) (host_val m) = m.
Proof.
  intros. unfold host_bytes, host_val.
  destruct IsHostBigEndian; [by apply be_bytes_be_val | by apply le_bytes_le_val].
Qed.

Lemma host_val_bytes n v : is_u (8 * Z.of_nat n) v -> host_val (host_bytes n v) = v.
Proof.
  intros. unfold host_bytes, host_val. destruct IsHostBigEndian;
    rewrite ?be_val_be_bytes, ?le_val_le_bytes; by apply Z.mod_small.
Qed.

Lemma host_val_range m : bytes_ok m -> is_u (8 * Z.of_nat (length m)) (host_val m).
Proof.
  intros. unfold host_val.
  destruct IsHostBigEndian; [by apply be_val_range | by apply le_val_range].
Qed.

(** In memory, the network representation of [v] is its big-endian bytes. *)
Lemma HostToNetwork16_bytes v : host_bytes 2 (HostToNetwork16 v) = be_bytes 2 v.
Proof.
  unfold HostToNetwork16. rewrite SetBE16_be.
  rewrite <- (length_be_bytes 2 v) at 1. apply host_bytes_val, be_bytes_ok.
Qed.
Lemma HostToNetwork32_bytes v : host_bytes 4 (HostToNetwork32 v) = be_bytes 4 v.
Proof.
  unfold HostToNetwork32. rewrite SetBE32_be.
  rewrite <- (length_be_bytes 4 v) at 1. apply host_bytes_val, be_bytes_ok.
Qed.
Lemma HostToNetwork64_bytes v : host_bytes 8 (HostToNetwork64 v) = be_bytes 8 v.
Proof.
  unfold HostToNetwork64. rewrite SetBE64_be.
  rewrite <- (length_be_bytes 8 v) at 1. apply host_bytes_val, be_bytes_ok.
Qed.

(** ... and reading an integer whose memory is [m] from the network gives the
    big-endian value of [m]. *)
Lemma NetworkToHost16_val m :
  bytes_ok m -> length m = 2%nat -> NetworkToHost16 (host_val m) = be_val m.
Proof.
  intros Hok Hl. unfold NetworkToHost16. rewrite <- Hl at 1.
  rewrite host_bytes_val by done. by apply GetBE16_be.
Qed.
Lemma NetworkToHost32_val m :
  bytes_ok m -> length m = 4%nat -> NetworkToHost32 (host_val m) = be_val m.
Proof.
  intros Hok Hl. unfold NetworkToHost32. rewrite <- Hl at 1.
  rewrite host_bytes_val by done. by apply GetBE32_be.
Qed.
Lemma NetworkToHost64_val m :
  bytes_ok m -> length m = 8%nat -> NetworkToHost64 (host_val m) = be_val m.
Proof.
  intros Hok Hl. unfold NetworkToHost64. rewrite <- Hl at 1.
  rewrite host_bytes_val by done. by apply GetBE64_be.
Qed.

End Host.

(** Converting to the network order and back, at each width. *)
Theorem network_roundtrip `{Machine} v :
  (is_u 16 v -> NetworkToHost16 (HostToNetwork16 v) = v) /\
  (is_u 32 v -> NetworkToHost32 (HostToNetwork32 v) = v) /\
  (is_u 64 v -> NetworkToHost64 (HostToNetwork64 v) = v).
Proof.
  unfold HostToNetwork16, HostToNetwork32, HostToNetwork64.
  rewrite SetBE16_be, SetBE32_be, SetBE64_be. split_and!; intros Hv.
  - rewrite NetworkToHost16_val, be_val_be_bytes; auto with jingle. by apply Z.mod_small.
  - rewrite NetworkToHost32_val, be_val_be_bytes; auto with jingle. by apply Z.mod_small.
  - rewrite NetworkToHost64_val, be_val_be_bytes; auto with jingle. by apply Z.mod_small.
Qed.

End ByteOrder.

#[export] Hint Resolve ByteOrder.host_bytes_ok : jingle.
#[export] Hint Rewrite @ByteOrder.length_host_bytes : jingle.
