(* ===== verification/ByteBuffer.v ===== *)
(** * base/bytebuffer.cc: the growable read/write byte buffer

    [t] is the object: the allocated array, its size, the window
    [start_, end_) of unread data, the version that invalidates remembered
    positions, and the byte order.  The readers return [None] where the source
    returns false (which leaves object and output untouched).  The abstract
    specification [contents] is the queue of unread bytes: writes append to it
    and reads take a prefix.  Out-parameters are results, so the tests for a
    NULL out-pointer are not modelled; size_t arithmetic is on [nat] (sizes of
    existing objects never reach 2^64) and [version_] on [Z]. *)

From S2P Require Import Prelude ByteOrder.
Import ByteOrder.

Inductive order := ORDER_NETWORK | ORDER_HOST.

Record t := mk {
  bytes_ : bytes;
  size_ : nat;
  start_ : nat;
  end_ : nat;
  version_ : Z;
  byte_order_ : order;
}.

Definition DEFAULT_SIZE : nat := Z.to_nat 4096.

Section ByteBuffer.
Context `{Machine}.

(** [new char[n]]: [n] indeterminate bytes. *)
Definition new_char (id : Z) (n : nat) : bytes := map (uninit id) (seq 0 n).

Definition Construct (b : option bytes) (len : nat) (o : order) : t :=
  let fresh := new_char 0 len in
  match b with
  | Some data =>
      {| bytes_ := mem_write fresh 0 (take len data); size_ := len; start_ := 0;
         end_ := len; version_ := 0; byte_order_ := o |}
  | None =>
      {| bytes_ := fresh; size_ := len; start_ := 0; end_ := 0; version_ := 0;
         byte_order_ := o |}
  end.

(** The constructors: empty (default or given order) and from given bytes. *)
Definition new_empty (o : order) : t := Construct None DEFAULT_SIZE o.
Definition new_from (data : bytes) (o : order) : t := Construct (Some data) (length data) o.

Definition Length (b : t) : nat := end_ b - start_ b.
Definition Capacity (b : t) : nat := size_ b - start_ b.
Definition Data (b : t) : bytes := drop (start_ b) (bytes_ b).
Definition Order (b : t) : order := byte_order_ b.

(** Assignments to one or several fields. *)
Definition set_start (n : nat) (b : t) : t :=
  {| bytes_ := bytes_ b; size_ := size_ b; start_ := n; end_ := end_ b;
     version_ := version_ b; byte_order_ := byte_order_ b |}.

Definition ReadBytes (b : t) (len : nat) : option (bytes * t) :=
  if (Length b <? len)%nat then None
  else Some (mem_read (bytes_ b) (start_ b) len, set_start (start_ b + len) b).

(** [val->append(...)]: the bytes are appended to what the string held. *)
Definition ReadString (b : t) (val : bytes) (len : nat) : option (bytes * t) :=
  if (Length b <? len)%nat then None
  else Some (val ++ mem_read (bytes_ b) (start_ b) len, set_start (start_ b + len) b).

Definition ReadUInt8 (b : t) : option (Z * t) :=
  match ReadBytes b 1 with
  | Some (m, b') => Some (host_val m, b')
  | None => None
  end.

Definition ReadUInt16 (b : t) : option (Z * t) :=
  match ReadBytes b 2 with
  | None => None
  | Some (m, b') =>
      let v := host_val m in
      Some (match byte_order_ b with ORDER_NETWORK => NetworkToHost16 v | ORDER_HOST => v end, b')
  end.

(** Three bytes are read into the four zero bytes of [v], one byte further when
    the value is big endian. *)
Definition ReadUInt24 (b : t) : option (Z * t) :=
  let read_into :=
    match byte_order_ b with
    | ORDER_NETWORK => 1%nat
    | ORDER_HOST => if IsHostBigEndian then 1%nat else 0%nat
    end in
  match ReadBytes b 3 with
  | None => None
  | Some (m, b') =>
      let v := host_val (mem_write (host_bytes 4 0) read_into m) in
      Some (match byte_order_ b with ORDER_NETWORK => NetworkToHost32 v | ORDER_HOST => v end, b')
  end.

Definition ReadUInt32 (b : t) : option (Z * t) :=
  match ReadBytes b 4 with
  | None => None
  | Some (m, b') =>
      let v := host_val m in
      Some (match byte_order_ b with ORDER_NETWORK => NetworkToHost32 v | ORDER_HOST => v end, b')
  end.

Definition ReadUInt64 (b : t) : option (Z * t) :=
  match ReadBytes b 8 with
  | None => None
  | Some (m, b') =>
      let v := host_val m in
      Some (match byte_order_ b with ORDER_NETWORK => NetworkToHost64 v | ORDER_HOST => v end, b')
  end.

Definition Resize (b : t) (size : nat) : t :=
  let len := Nat.min (end_ b - start_ b) size in
  let moved := mem_read (bytes_ b) (start_ b) len in
  if (size <=? size_ b)%nat then
    {| bytes_ := mem_write (bytes_ b) 0 moved; size_ := size_ b; start_ := 0; end_ := len;
       version_ := version_ b + 1; byte_order_ := byte_order_ b |}
  else
    let new_size := Nat.max size (3 * size_ b / 2) in
    {| bytes_ := mem_write (new_char (version_ b + 1) new_size) 0 moved; size_ := new_size;
       start_ := 0; end_ := len; version_ := version_ b + 1; byte_order_ := byte_order_ b |}.

(** The pointer returned is the offset of the reserved area. *)
Definition ReserveWriteBuffer (b : t) (len : nat) : nat * t :=
  let b1 := if (Capacity b <? Length b + len)%nat then Resize b (Length b + len) else b in
  (end_ b1,
   {| bytes_ := bytes_ b1; size_ := size_ b1; start_ := start_ b1; end_ := end_ b1 + len;
      version_ := version_ b1; byte_order_ := byte_order_ b1 |}).

Definition WriteBytes (b : t) (val : bytes) : t :=
  let '(start, b1) := ReserveWriteBuffer b (length val) in
  {| bytes_ := mem_write (bytes_ b1) start val; size_ := size_ b1; start_ := start_ b1;
     end_ := end_ b1; version_ := version_ b1; byte_order_ := byte_order_ b1 |}.

Definition WriteUInt8 (b : t) (val : Z) : t := WriteBytes b (host_bytes 1 val).

Definition WriteUInt16 (b : t) (val : Z) : t :=
  let v := match byte_order_ b with ORDER_NETWORK => HostToNetwork16 val | ORDER_HOST => val end in
  WriteBytes b (host_bytes 2 v).

Definition WriteUInt24 (b : t) (val : Z) : t :=
  let v := match byte_order_ b with ORDER_NETWORK => HostToNetwork32 val | ORDER_HOST => val end in
  let start :=
    match byte_order_ b with
    | ORDER_NETWORK => 1%nat
    | ORDER_HOST => if IsHostBigEndian then 1%nat else 0%nat
    end in
  WriteBytes b (mem_read (host_bytes 4 v) start 3).

Definition WriteUInt32 (b : t) (val : Z) : t :=
  let v := match byte_order_ b with ORDER_NETWORK => HostToNetwork32 val | ORDER_HOST => val end in
  WriteBytes b (host_bytes 4 v).

Definition WriteUInt64 (b : t) (val : Z) : t :=
  let v := match byte_order_ b with ORDER_NETWORK => HostToNetwork64 val | ORDER_HOST => val end in
  WriteBytes b (host_bytes 8 v).

Definition WriteString (b : t) (val : bytes) : t := WriteBytes b val.

Definition Consume (b : t) (size : nat) : option t :=
  if (Length b <? size)%nat then None else Some (set_start (start_ b + size) b).

Record ReadPosition := { pos_start : nat; pos_version : Z }.

Definition GetReadPosition (b : t) : ReadPosition :=
  {| pos_start := start_ b; pos_version := version_ b |}.

Definition SetReadPosition (b : t) (p : ReadPosition) : option t :=
  if (pos_version p =? version_ b)%Z then Some (set_start (pos_start p) b) else None.

Definition Clear (b : t) : t :=
  {| bytes_ := repeat 0 (size_ b); size_ := size_ b; start_ := 0; end_ := 0;
     version_ := version_ b + 1; byte_order_ := byte_order_ b |}.

(** ** Specification: a queue of bytes *)

Record wf (b : t) : Prop := {
  wf_size : length (bytes_ b) = size_ b;
  wf_window : (start_ b <= end_ b <= size_ b)%nat;
  wf_bytes : bytes_ok (bytes_ b);
}.

(** The unread bytes. *)
Definition contents (b : t) : bytes := mem_read (bytes_ b) (start_ b) (Length b).

(** The bytes that encode an [n]-byte integer in the buffer's order. *)
Definition enc (o : order) (n : nat) (v : Z) : bytes :=
  match o with
  | ORDER_NETWORK => be_bytes n v
  | ORDER_HOST => host_bytes n v
  end.
Definition dec (o : order) (m : bytes) : Z :=
  match o with
  | ORDER_NETWORK => be_val m
  | ORDER_HOST => host_val m
  end.

Lemma length_new_char id n : length (new_char id n) = n.
Proof. unfold new_char. by rewrite length_map, length_seq. Qed.

Lemma new_char_ok id n : bytes_ok (new_char id n).
Proof. apply Forall_map, Forall_true. intros. apply uninit_byte. Qed.

Lemma length_contents b : wf b -> length (contents b) = Length b.
Proof.
  intros [? ? ?]. unfold contents, Length. apply length_mem_read. lia.
Qed.

Lemma contents_ok b : wf b -> bytes_ok (contents b).
Proof. intros [? ? ?]. by apply mem_read_ok. Qed.

(** Construction. *)
Lemma new_empty_spec o :
  wf (new_empty o) /\ contents (new_empty o) = [] /\ byte_order_ (new_empty o) = o.
Proof.
  split_and!; try done. split; cbn [new_empty Construct bytes_ size_ start_ end_].
  - apply length_new_char.
  - lia.
  - apply new_char_ok.
Qed.

Lemma new_from_spec data o :
  bytes_ok data ->
  wf (new_from data o) /\ contents (new_from data o) = data /\
  byte_order_ (new_from data o) = o.
Proof.
  intros Hd. unfold new_from, Construct. rewrite firstn_all.
  assert (mem_write (new_char 0 (length data)) 0 data = data) as ->.
  { unfold mem_write. rewrite take_0, drop_ge; [by rewrite app_nil_r|].
    rewrite length_new_char. lia. }
  split_and!; [split| |]; cbn [bytes_ size_ start_ end_ byte_order_]; auto; [lia|].
  unfold contents, mem_read, Length; cbn. by rewrite Nat.sub_0_r, drop_0, firstn_all.
Qed.

(** Reading: exactly the first [n] unread bytes, or a refusal that is due. *)
Lemma ReadBytes_spec b n :
  wf b ->
  match ReadBytes b n with
  | Some (m, b') => (n <= Length b)%nat /\ wf b' /\ contents b = m ++ contents b' /\
                    length m = n /\ bytes_ok m /\ byte_order_ b' = byte_order_ b
  | None => (Length b < n)%nat
  end.
Proof.
  intros [Hs Hw Hok]. unfold ReadBytes. destruct (Nat.ltb_spec (Length b) n) as [|Hn]; [done|].
  unfold contents, Length in *. cbn [set_start bytes_ start_ end_ byte_order_].
  split_and!; [done|split; cbn; auto; lia| | |by apply mem_read_ok|done].
  - rewrite <- mem_read_split. f_equal. lia.
  - apply length_mem_read. lia.
Qed.

(** The two ways [Resize] builds the array keep the first [n] unread bytes. *)
Lemma Resize_contents b n : wf b -> contents (Resize b n) = take n (contents b).
Proof.
  intros [Hs Hw Hok]. unfold Resize, contents, Length in *.
  destruct (Nat.leb_spec n (size_ b)) as [Hle|Hgt]; cbn [bytes_ start_ end_];
    rewrite Nat.sub_0_r.
  all: unfold mem_write, mem_read; rewrite take_0, drop_0; cbn [app].
  all: rewrite take_app_le by (rewrite length_take, length_drop; lia).
  all: rewrite !take_take; f_equal; lia.
Qed.

Lemma Resize_wf b n : wf b -> wf (Resize b n).
Proof.
  intros [Hs Hw Hok]. unfold Resize.
  set (k := Nat.min (end_ b - start_ b) n).
  assert (length (mem_read (bytes_ b) (start_ b) k) = k) as Hl
    by (apply length_mem_read; lia).
  destruct (Nat.leb_spec n (size_ b)) as [Hle|Hgt]; split; cbn [bytes_ size_ start_ end_].
  - rewrite length_mem_write; lia.
  - lia.
  - apply mem_write_ok; auto using mem_read_ok.
  - rewrite length_mem_write; rewrite length_new_char; [done|]. lia.
  - lia.
  - apply mem_write_ok; auto using mem_read_ok, new_char_ok.
Qed.

Lemma Clear_spec b : wf b -> wf (Clear b) /\ contents (Clear b) = [].
Proof.
  intros [Hs Hw Hok]. split; [split|]; cbn [Clear bytes_ size_ start_ end_]; [| |  |done].
  - apply repeat_length.
  - lia.
  - apply Forall_forall. intros x Hx%list_elem_of_In%repeat_spec. subst. by split.
Qed.

(** [ReserveWriteBuffer] makes room without touching the unread bytes. *)
Lemma ReserveWriteBuffer_spec b n :
  wf b ->
  let '(off, b') := ReserveWriteBuffer b n in
  length (bytes_ b') = size_ b' /\ bytes_ok (bytes_ b') /\
  (start_ b' <= off)%nat /\ end_ b' = (off + n)%nat /\ (end_ b' <= size_ b')%nat /\
  mem_read (bytes_ b') (start_ b') (off - start_ b') = contents b /\
  byte_order_ b' = byte_order_ b.
Proof.
  intros Hb. unfold ReserveWriteBuffer.
  destruct (Nat.ltb_spec (Capacity b) (Length b + n)) as [Hlt|Hge].
  - pose proof (Resize_wf b (Length b + n) Hb) as [Hs Hw Hok].
    pose proof (Resize_contents b (Length b + n) Hb) as Hc.
    rewrite take_ge in Hc by (rewrite length_contents by done; lia).
    unfold contents, Length in Hc.
    cbn [bytes_ start_ end_ size_ byte_order_]. split_and!; auto; try lia.
    + unfold Resize in *. destruct (Nat.leb_spec (Length b + n) (size_ b));
        cbn [bytes_ start_ end_ size_] in *; unfold Length in *; lia.
    + unfold Resize. by destruct (_ <=? _)%nat.
  - destruct Hb as [Hs Hw Hok]. unfold Capacity, Length in *.
    cbn [bytes_ start_ end_ size_ byte_order_]. split_and!; auto; lia.
Qed.

(** Writing appends to the unread bytes. *)
Lemma WriteBytes_spec b v :
  wf b -> bytes_ok v ->
  wf (WriteBytes b v) /\ contents (WriteBytes b v) = contents b ++ v /\
  byte_order_ (WriteBytes b v) = byte_order_ b.
Proof.
  intros Hb Hv. unfold WriteBytes.
  pose proof (ReserveWriteBuffer_spec b (length v) Hb) as HR.
  destruct (ReserveWriteBuffer b (length v)) as [off b1].
  destruct HR as (Hs & Hok & Hoff & He & Hsz & Hc & Ho).
  split_and!; [split| |]; cbn [bytes_ size_ start_ end_ byte_order_]; auto.
  - rewrite length_mem_write; lia.
  - lia.
  - by apply mem_write_ok.
  - unfold contents, Length in *; cbn [bytes_ size_ start_ end_].
    rewrite He, mem_read_write_snoc by lia. by rewrite Hc.
Qed.

Lemma Consume_spec b n :
  wf b ->
  match Consume b n with
  | Some b' => (n <= Length b)%nat /\ wf b' /\ contents b' = drop n (contents b) /\
               byte_order_ b' = byte_order_ b
  | None => (Length b < n)%nat
  end.
Proof.
  intros [Hs Hw Hok]. unfold Consume. destruct (Nat.ltb_spec (Length b) n) as [|Hn]; [done|].
  unfold contents, Length, mem_read in *. cbn [set_start bytes_ start_ end_ byte_order_].
  split_and!; [done|split; cbn; auto; lia| |done].
  rewrite skipn_firstn_comm, drop_drop. f_equal; lia.
Qed.

(** ** Integers *)

Lemma length_enc o n v : length (enc o n v) = n.
Proof. destruct o; cbn [enc]; by autorewrite with jingle. Qed.
Lemma enc_ok o n v : bytes_ok (enc o n v).
Proof. destruct o; cbn [enc]; auto with jingle. Qed.
Lemma dec_enc o n v : is_u (8 * Z.of_nat n) v -> dec o (enc o n v) = v.
Proof.
  intros Hv. destruct o; cbn [dec enc]; [|by apply host_val_bytes].
  rewrite be_val_be_bytes. by apply Z.mod_small.
Qed.
Lemma dec_range o m : bytes_ok m -> is_u (8 * Z.of_nat (length m)) (dec o m).
Proof. intros. destruct o; cbn [dec]; [by apply be_val_range | by apply host_val_range]. Qed.

(** Every writer appends the encoding of its value. *)
Lemma WriteUInt16_enc b v : WriteUInt16 b v = WriteBytes b (enc (byte_order_ b) 2 v).
Proof. unfold WriteUInt16, enc. destruct (byte_order_ b); [by rewrite HostToNetwork16_bytes|done]. Qed.
Lemma WriteUInt32_enc b v : WriteUInt32 b v = WriteBytes b (enc (byte_order_ b) 4 v).
Proof. unfold WriteUInt32, enc. destruct (byte_order_ b); [by rewrite HostToNetwork32_bytes|done]. Qed.
Lemma WriteUInt64_enc b v : WriteUInt64 b v = WriteBytes b (enc (byte_order_ b) 8 v).
Proof. unfold WriteUInt64, enc. destruct (byte_order_ b); [by rewrite HostToNetwork64_bytes|done]. Qed.

Lemma le_bytes_S n v : le_bytes (S n) v = le_bytes n v ++ [(v / 256 ^ Z.of_nat n) `mod` 256].
Proof.
  revert v; induction n; intros v; [cbn; by rewrite Z.div_1_r|].

  change (le_bytes (S (S n)) v) with (v `mod` 256 :: le_bytes (S n) (v / 256)).
  rewrite IHn. change (le_bytes (S n) v) with (v `mod` 256 :: le_bytes n (v / 256)).
  cbn [app]. do 4 f_equal. rewrite Z.div_div by lia.
  f_equal. rewrite <- Z.pow_succ_r by lia. f_equal. lia.
Qed.

Lemma WriteUInt24_enc b v : WriteUInt24 b v = WriteBytes b (enc (byte_order_ b) 3 v).
Proof.
  assert (Hbe : mem_read (be_bytes 4 v) 1 3 = be_bytes 3 v).
  { unfold be_bytes. rewrite (le_bytes_S 3), rev_unit. reflexivity. }
  assert (Hle : mem_read (le_bytes 4 v) 0 3 = le_bytes 3 v).
  { rewrite (le_bytes_S 3). reflexivity. }
  unfold WriteUInt24, enc. destruct (byte_order_ b).
  - by rewrite HostToNetwork32_bytes, Hbe.
  - unfold host_bytes. destruct IsHostBigEndian; [by rewrite Hbe | by rewrite Hle].
Qed.
Lemma WriteUInt8_enc b v : WriteUInt8 b v = WriteBytes b (enc (byte_order_ b) 1 v).
Proof.
  unfold WriteUInt8, enc. destruct (byte_order_ b); [|done].
  unfold host_bytes. by destruct IsHostBigEndian.
Qed.

(** Every reader takes its bytes and decodes them. *)
Definition read_enc (b : t) (n : nat) : option (Z * t) :=
  match ReadBytes b n with
  | Some (m, b') => Some (dec (byte_order_ b) m, b')
  | None => None
  end.

Ltac read_enc_tac lem :=
  let Hb := fresh in
  intros Hb; unfold read_enc;
  match goal with |- context [ReadBytes ?b ?n] =>
    pose proof (ReadBytes_spec b n Hb); destruct (ReadBytes b n) as [[? ?]|]; [|done] end;
  match goal with |- context [byte_order_ ?b] => destruct (byte_order_ b) end; [|done];
  destruct_and!; cbn [dec]; by rewrite lem.

Lemma ReadUInt16_dec b : wf b -> ReadUInt16 b = read_enc b 2.
Proof. unfold ReadUInt16. read_enc_tac NetworkToHost16_val. Qed.
Lemma ReadUInt32_dec b : wf b -> ReadUInt32 b = read_enc b 4.
Proof. unfold ReadUInt32. read_enc_tac NetworkToHost32_val. Qed.
Lemma ReadUInt64_dec b : wf b -> ReadUInt64 b = read_enc b 8.
Proof. unfold ReadUInt64. read_enc_tac NetworkToHost64_val. Qed.

Lemma ReadUInt8_dec b : wf b -> ReadUInt8 b = read_enc b 1.
Proof.
  intros Hb. unfold ReadUInt8, read_enc. pose proof (ReadBytes_spec b 1 Hb) as HR.
  destruct (ReadBytes b 1) as [[m b']|]; [|done].
  destruct HR as (_ & _ & _ & Hl & _). destruct m as [|x [|]]; try done.
  unfold dec, host_val. by destruct (byte_order_ b), IsHostBigEndian.
Qed.

Lemma ReadUInt24_dec b : wf b -> ReadUInt24 b = read_enc b 3.
Proof.
  intros Hb. unfold ReadUInt24, read_enc. pose proof (ReadBytes_spec b 3 Hb) as HR.
  destruct (ReadBytes b 3) as [[m b']|]; [|done].
  destruct HR as (_ & _ & _ & Hl & Hm & _). do 2 f_equal.
  destruct m as [|x [|y [|z [|]]]]; try done.
  assert (Hz : host_bytes 4 0 = [0; 0; 0; 0]) by (unfold host_bytes; by destruct IsHostBigEndian).
  rewrite Hz. destruct (byte_order_ b); cbn [dec].
  - cbn [mem_write take drop app length Nat.add]. rewrite NetworkToHost32_val; [| |done].
    + unfold be_val. cbn [rev app le_val fold_right]. lia.
    + constructor; [by split|done].
  - unfold host_val. destruct IsHostBigEndian;
      cbn [mem_write take drop app length Nat.add]; unfold be_val;
      cbn [rev app le_val fold_right]; lia.
Qed.

(** Reading what was written at the front of the queue. *)
Lemma read_enc_spec b n v rest :
  wf b -> contents b = enc (byte_order_ b) n v ++ rest -> is_u (8 * Z.of_nat n) v ->
  exists b', read_enc b n = Some (v, b') /\ wf b' /\ contents b' = rest /\
    byte_order_ b' = byte_order_ b.
Proof.
  intros Hb Hc Hv. unfold read_enc. pose proof (ReadBytes_spec b n Hb) as HR.
  pose proof (length_contents b Hb) as HL. rewrite Hc, length_app, length_enc in HL.
  destruct (ReadBytes b n) as [[m b']|]; [|lia].
  destruct HR as (_ & Hb' & Hc' & Hl & Hm & Ho). rewrite Hc in Hc'.
  apply app_inj_1 in Hc' as [<- ->]; [|by rewrite length_enc].
  exists b'. split_and!; auto. by rewrite dec_enc.
Qed.

Lemma ReadBytes_app b m rest :
  wf b -> contents b = m ++ rest ->
  exists b', ReadBytes b (length m) = Some (m, b') /\ wf b' /\ contents b' = rest /\
    byte_order_ b' = byte_order_ b.
Proof.
  intros Hb Hc. pose proof (ReadBytes_spec b (length m) Hb) as HR.
  pose proof (length_contents b Hb) as HL. rewrite Hc, length_app in HL.
  destruct (ReadBytes b (length m)) as [[m' b']|]; [|lia].
  destruct HR as (_ & Hb' & Hc' & Hl & Hm & Ho). rewrite Hc in Hc'.
  apply app_inj_1 in Hc' as [<- ->]; [|done]. eauto 6.
Qed.

Lemma ReadString_ReadBytes b val n :
  ReadString b val n =
  match ReadBytes b n with Some (m, b') => Some (val ++ m, b') | None => None end.
Proof. unfold ReadString, ReadBytes. by destruct (_ <? _)%nat. Qed.

(** ** Refinement: the object is a queue of bytes *)

Inductive op :=
  | OpWriteUInt8 (v : Z) | OpWriteUInt16 (v : Z) | OpWriteUInt24 (v : Z)
  | OpWriteUInt32 (v : Z) | OpWriteUInt64 (v : Z)
  | OpWriteString (v : bytes) | OpWriteBytes (v : bytes)
  | OpReadUInt8 | OpReadUInt16 | OpReadUInt24 | OpReadUInt32 | OpReadUInt64
  | OpReadString (val : bytes) (n : nat) | OpReadBytes (n : nat)
  | OpConsume (n : nat) | OpResize (n : nat) | OpClear.

(** What a call returns: nothing, false, or true with an output. *)
Inductive res := Void | Refused | Int (v : Z) | Str (v : bytes) | Done.

Definition ret_int (b : t) (r : option (Z * t)) : res * t :=
  match r with Some (v, b') => (Int v, b') | None => (Refused, b) end.
Definition ret_str (b : t) (r : option (bytes * t)) : res * t :=
  match r with Some (v, b') => (Str v, b') | None => (Refused, b) end.

Definition exec (b : t) (o : op) : res * t :=
  match o with
  | OpWriteUInt8 v => (Void, WriteUInt8 b v)
  | OpWriteUInt16 v => (Void, WriteUInt16 b v)
  | OpWriteUInt24 v => (Void, WriteUInt24 b v)
  | OpWriteUInt32 v => (Void, WriteUInt32 b v)
  | OpWriteUInt64 v => (Void, WriteUInt64 b v)
  | OpWriteString v => (Void, WriteString b v)
  | OpWriteBytes v => (Void, WriteBytes b v)
  | OpReadUInt8 => ret_int b (ReadUInt8 b)
  | OpReadUInt16 => ret_int b (ReadUInt16 b)
  | OpReadUInt24 => ret_int b (ReadUInt24 b)
  | OpReadUInt32 => ret_int b (ReadUInt32 b)
  | OpReadUInt64 => ret_int b (ReadUInt64 b)
  | OpReadString val n => ret_str b (ReadString b val n)
  | OpReadBytes n => ret_str b (ReadBytes b n)
  | OpConsume n => match Consume b n with Some b' => (Done, b') | None => (Refused, b) end
  | OpResize n => (Void, Resize b n)
  | OpClear => (Void, Clear b)
  end.

(** The abstract queue [q]. *)
Definition spec_read (q : bytes) (n : nat) (f : bytes -> res) : res * bytes :=
  if (length q <? n)%nat then (Refused, q) else (f (take n q), drop n q).

Definition spec (o : order) (q : bytes) (p : op) : res * bytes :=
  match p with
  | OpWriteUInt8 v => (Void, q ++ enc o 1 v)
  | OpWriteUInt16 v => (Void, q ++ enc o 2 v)
  | OpWriteUInt24 v => (Void, q ++ enc o 3 v)
  | OpWriteUInt32 v => (Void, q ++ enc o 4 v)
  | OpWriteUInt64 v => (Void, q ++ enc o 8 v)
  | OpWriteString v | OpWriteBytes v => (Void, q ++ v)
  | OpReadUInt8 => spec_read q 1 (fun m => Int (dec o m))
  | OpReadUInt16 => spec_read q 2 (fun m => Int (dec o m))
  | OpReadUInt24 => spec_read q 3 (fun m => Int (dec o m))
  | OpReadUInt32 => spec_read q 4 (fun m => Int (dec o m))
  | OpReadUInt64 => spec_read q 8 (fun m => Int (dec o m))
  | OpReadString val n => spec_read q n (fun m => Str (val ++ m))
  | OpReadBytes n => spec_read q n Str
  | OpConsume n => spec_read q n (fun _ => Done)
  | OpResize n => (Void, take n q)
  | OpClear => (Void, [])
  end.

Definition op_ok (p : op) : Prop :=
  match p with OpWriteString v | OpWriteBytes v => bytes_ok v | _ => True end.

(** [b] represents the queue [q]. *)
Definition repr (o : order) (b : t) (q : bytes) : Prop :=
  wf b /\ contents b = q /\ byte_order_ b = o.

Lemma repr_write o b q v :
  repr o b q -> bytes_ok v -> repr o (WriteBytes b v) (q ++ v).
Proof.
  intros (Hb & <- & <-) Hv. by apply WriteBytes_spec.
Qed.

Lemma repr_read o b q n (f : bytes -> res) :
  repr o b q ->
  let '(r, q') := spec_read q n f in
  let '(r', b') := match ReadBytes b n with
                   | Some (m, b') => (f m, b')
                   | None => (Refused, b) end in
  r' = r /\ repr o b' q'.
Proof.
  intros (Hb & <- & <-). unfold spec_read.
  pose proof (ReadBytes_spec b n Hb) as HR. rewrite length_contents by done.
  destruct (ReadBytes b n) as [[m b']|].
  - destruct HR as (Hn & Hb' & Hc & Hl & _ & Ho).
    destruct (Nat.ltb_spec (Length b) n); [lia|]. rewrite Hc.
    rewrite take_app_length', drop_app_length' by done. done.
  - destruct (Nat.ltb_spec (Length b) n); [done|lia].
Qed.

Lemma repr_read_int o b q n :
  repr o b q ->
  let '(r, q') := spec_read q n (fun m => Int (dec o m)) in
  let '(r', b') := ret_int b (read_enc b n) in
  r' = r /\ repr o b' q'.
Proof.
  intros HR. pose proof (repr_read o b q n (fun m => Int (dec o m)) HR) as Hspec.
  destruct HR as (_ & _ & Ho). unfold read_enc. rewrite Ho.
  by destruct (ReadBytes b n) as [[m b']|].
Qed.

Lemma exec_refines o b q p :
  repr o b q -> op_ok p ->
  (exec b p).1 = (spec o q p).1 /\ repr o (exec b p).2 (spec o q p).2.
Proof.
  intros HR Hp. pose proof HR as (Hb & Hc & Ho).
  destruct p; cbn [exec spec op_ok] in *.
  all: try (split; [done|]; unfold WriteString;
    rewrite ?WriteUInt8_enc, ?WriteUInt16_enc, ?WriteUInt24_enc, ?WriteUInt32_enc,
      ?WriteUInt64_enc, ?Ho; apply repr_write; auto using enc_ok).
  all: rewrite ?ReadUInt8_dec, ?ReadUInt16_dec, ?ReadUInt24_dec, ?ReadUInt32_dec,
    ?ReadUInt64_dec by done.
  all: try (match goal with R : repr _ _ _ |- context [read_enc _ ?n] =>
    let Hs := fresh in
    pose proof (repr_read_int _ _ _ n R) as Hs;
    by destruct (spec_read _ _ _), (ret_int _ _) end).
  - pose proof (repr_read o b q n (fun m => Str (val ++ m)) HR) as Hs.
    rewrite ReadString_ReadBytes. destruct (spec_read _ _ _).
    by destruct (ReadBytes b n) as [[m b']|].
  - pose proof (repr_read o b q n Str HR) as Hs. destruct (spec_read _ _ _).
    by destruct (ReadBytes b n) as [[m b']|].
  - pose proof (repr_read o b q n (fun _ => Done) HR) as Hs. destruct (spec_read _ _ _).
    unfold Consume, ReadBytes in *. by destruct (_ <? _)%nat.
  - cbn [fst snd]. split; [done|]. split_and!; [by apply Resize_wf|rewrite Resize_contents by done; by subst|].
    unfold Resize. by destruct (_ <=? _)%nat.
  - destruct (Clear_spec b Hb). done.
Qed.

(** Runs of several calls. *)
Fixpoint run (b : t) (ps : list op) : list res * t :=
  match ps with
  | [] => ([], b)
  | p :: ps' => let '(r, b1) := exec b p in let '(rs, b2) := run b1 ps' in (r :: rs, b2)
  end.
Fixpoint spec_run (o : order) (q : bytes) (ps : list op) : list res * bytes :=
  match ps with
  | [] => ([], q)
  | p :: ps' =>
      let '(r, q1) := spec o q p in let '(rs, q2) := spec_run o q1 ps' in (r :: rs, q2)
  end.

(** C34: every sequence of calls on a ByteBuffer, of either byte order and on
    either kind of host, returns what the same calls on a plain queue of bytes
    return (writers append the encoding of their value, readers take and decode
    a prefix or refuse without effect when too few bytes are left) and leaves
    the unread bytes equal to that queue; reallocation, the moves inside the
    array and indeterminate memory are never observable. *)
Theorem buffer_refines_queue o b ps :
  wf b -> byte_order_ b = o -> Forall op_ok ps ->
  (run b ps).1 = (spec_run o (contents b) ps).1 /\
  wf (run b ps).2 /\ contents (run b ps).2 = (spec_run o (contents b) ps).2.
Proof.
  intros Hb Ho Hps. assert (HR : repr o b (contents b)) by done.
  generalize dependent (contents b). revert b Hb Ho.
  induction Hps as [|p ps Hp Hps IH]; intros b Hb Ho q HR; [by destruct HR as (?&?&?)|].
  cbn [run spec_run]. destruct (exec_refines o b q p HR Hp) as [Hr HR'].
  destruct (exec b p) as [r b1], (spec o q p) as [r' q1]. cbn in Hr, HR'. subst r'.
  pose proof HR' as (Hb1 & _ & Ho1). specialize (IH b1 Hb1 Ho1 q1 HR').
  destruct (run b1 ps), (spec_run o q1 ps). cbn in *. intuition congruence.
Qed.

Definition is_read (p : op) : bool :=
  match p with
  | OpReadUInt8 | OpReadUInt16 | OpReadUInt24 | OpReadUInt32 | OpReadUInt64
  | OpReadString _ _ | OpReadBytes _ | OpConsume _ => true
  | _ => false
  end.

Definition same_data (b c : t) : Prop :=
  bytes_ c = bytes_ b /\ size_ c = size_ b /\ end_ c = end_ b /\ version_ c = version_ b /\
  byte_order_ c = byte_order_ b.

Lemma read_same_data b p : is_read p = true -> same_data b (exec b p).2.
Proof.
  unfold same_data. destruct p; try done; intros _; cbn [exec];
    unfold ReadUInt8, ReadUInt16, ReadUInt24, ReadUInt32, ReadUInt64, ReadString, ReadBytes, Consume;
    by destruct (_ <? _)%nat.
Qed.

Lemma run_same_data b ps : forallb is_read ps = true -> same_data b (run b ps).2.
Proof.
  revert b. induction ps as [|p ps IH]; intros b; [done|]. cbn [forallb run].
  intros [Hp Hps]%andb_prop. pose proof (read_same_data b p Hp) as H1.
  destruct (exec b p) as [r b1]. specialize (IH b1 Hps). destruct (run b1 ps) as [rs b2].
  cbn in *. unfold same_data in *. intuition congruence.
Qed.

(** a remembered read position is restored exactly after any number of
    reads, and is refused once the buffer was resized or cleared. *)
Theorem read_position_rewind b ps :
  forallb is_read ps = true ->
  SetReadPosition (run b ps).2 (GetReadPosition b) = Some b /\
  (forall n, SetReadPosition (Resize b n) (GetReadPosition b) = None) /\
  SetReadPosition (Clear b) (GetReadPosition b) = None.
Proof.
  intros Hps. pose proof (run_same_data b ps Hps) as (H1 & H2 & H3 & H4 & H5).
  destruct (run b ps) as [rs [bs sz st e v o]]. cbn in *. subst. destruct b. split_and!.
  - unfold SetReadPosition; cbn. by rewrite Z.eqb_refl.
  - intros n. unfold SetReadPosition, Resize. destruct (_ <=? _)%nat; cbn;
      by destruct (Z.eqb_spec version_0 (version_0 + 1)); [lia|].
  - unfold SetReadPosition; cbn. by destruct (Z.eqb_spec version_0 (version_0 + 1)); [lia|].
Qed.

End ByteBuffer.

(** A run on the little-endian machine: a 3-byte buffer that reallocates. *)
Lemma buffer_refines_queue_witness :
  let b := @new_from x86 [1; 2; 3] ORDER_NETWORK in
  (@run x86 b [OpReadUInt16; OpWriteUInt32 (2 ^ 31 + 5); OpReadUInt24; OpReadUInt32]).1
    = [Int 258; Void; Int 229376; Refused] /\
  (@run x86 b [OpReadUInt16; OpWriteUInt32 (2 ^ 31 + 5); OpReadUInt24; OpReadUInt32]).1
    = (@spec_run x86 ORDER_NETWORK (contents b)
         [OpReadUInt16; OpWriteUInt32 (2 ^ 31 + 5); OpReadUInt24; OpReadUInt32]).1.
Proof.
  split; [vm_compute; reflexivity|].
  apply buffer_refines_queue; [|reflexivity|repeat constructor; exact I].
  apply (@new_from_spec x86). solve_bytes.
Defined.

Lemma read_position_rewind_witness :
  let b := @new_from x86 [1; 2; 3] ORDER_NETWORK in
  SetReadPosition (@run x86 b [OpReadUInt8; OpConsume 1]).2 (GetReadPosition b) = Some b.
Proof. cbv zeta. apply (@read_position_rewind x86). reflexivity. Defined.

#[export] Hint Resolve enc_ok contents_ok new_char_ok : jingle.
#[export] Hint Rewrite @length_enc @length_new_char : jingle.
