(* ===== verification/Crc32.v ===== *)
(** * base/crc32.cc: the CRC-32 of RFC 1952

    The table is a global that the first use fills; [UpdateCrc32] threads it.
    The reference is the bit-serial register: feeding a byte XORs it into the
    register and shifts eight times.  Besides the equivalence the file proves
    that updates chain and that the checksum detects any change confined to
    four consecutive bytes. *)

From S2P Require Import Prelude.

Module Crc32.

Definition kCrc32Polynomial : Z := 0xEDB88320.
Definition kTableSize : nat := 256.

(** The table before its first use. *)
Definition zero_table : list Z := repeat 0 kTableSize.

Definition crc_step (c : Z) : Z :=
  if Z.land c 1 =? 0 then Z.shiftr c 1 else Z.lxor kCrc32Polynomial (Z.shiftr c 1).

(** [iter n f x]: the [for] loops of fixed count. *)
Fixpoint iter {A} (n : nat) (f : A -> A) (x : A) : A :=
  match n with O => x | S n' => iter n' f (f x) end.

Definition table_entry (i : nat) : Z := iter 8 crc_step (Z.of_nat i).

Definition EnsureCrc32TableInited (table : list Z) : list Z :=
  if negb (nth (kTableSize - 1) table 0 =? 0) then table
  else map table_entry (seq 0 kTableSize).

Definition crc_byte (table : list Z) (c u : Z) : Z :=
  Z.lxor (nth (Z.to_nat (Z.land (Z.lxor c u) 0xFF)) table 0) (Z.shiftr c 8).

Definition UpdateCrc32 (table : list Z) (start : Z) (buf : bytes) : Z * list Z :=
  let table := EnsureCrc32TableInited table in
  let c := fold_left (crc_byte table) buf (Z.lxor start 0xFFFFFFFF) in
  (Z.lxor c 0xFFFFFFFF, table).

(** The inline [ComputeCrc32]; the table it leaves is always the same, so
    callers may start from any state of the global. *)
Definition ComputeCrc32 (buf : bytes) : Z := (UpdateCrc32 zero_table 0 buf).1.

(** ** The bit-serial reference *)

Definition ref_byte (c u : Z) : Z := iter 8 crc_step (Z.lxor c u).

Definition crc_ref (start : Z) (buf : bytes) : Z :=
  Z.lxor (fold_left ref_byte buf (Z.lxor start 0xFFFFFFFF)) 0xFFFFFFFF.

Definition crc_table : list Z := map table_entry (seq 0 kTableSize).

Lemma land_1_eqb c : (Z.land c 1 =? 0) = negb (Z.testbit c 0).
Proof.
  rewrite Z.bit0_odd. change (Z.land c 1) with (Z.land c (Z.ones 1)).
  rewrite Z.land_ones by lia. change (2 ^ 1) with 2. rewrite Zmod_odd.
  by destruct (Z.odd c).
Qed.

Lemma crc_step_bits c n :
  0 <= n ->
  Z.testbit (crc_step c) n =
  xorb (Z.testbit c (n + 1)) (Z.testbit c 0 && Z.testbit kCrc32Polynomial n).
Proof.
  intros Hn. unfold crc_step. rewrite land_1_eqb. destruct (Z.testbit c 0); cbn [negb].
  - rewrite Z.lxor_spec, Z.shiftr_spec by done. apply xorb_comm.
  - rewrite Z.shiftr_spec by done. by rewrite xorb_false_r.
Qed.

Lemma crc_step_lxor a b : crc_step (Z.lxor a b) = Z.lxor (crc_step a) (crc_step b).
Proof.
  bits_eq n Hn. rewrite !crc_step_bits, !Z.lxor_spec by done.
  destruct (Z.testbit a 0), (Z.testbit b 0), (Z.testbit a (n + 1)),
    (Z.testbit b (n + 1)), (Z.testbit kCrc32Polynomial n); done.
Qed.

Lemma crc_step_shiftl h k : 0 <= k -> crc_step (Z.shiftl h (k + 1)) = Z.shiftl h k.
Proof.
  intros Hk. apply Z.bits_inj'; intros n Hn. rewrite crc_step_bits by done.
  rewrite (Z.shiftl_spec_low h (k + 1) 0) by lia. cbn [andb]. rewrite xorb_false_r.
  rewrite !Z.shiftl_spec by lia. f_equal. lia.
Qed.

Lemma iter_lxor k a b :
  iter k crc_step (Z.lxor a b) = Z.lxor (iter k crc_step a) (iter k crc_step b).
Proof. revert a b; induction k; intros a b; [done|]. cbn. by rewrite crc_step_lxor, IHk. Qed.

Lemma iter_shiftl k h : iter k crc_step (Z.shiftl h (Z.of_nat k)) = h.
Proof.
  revert h; induction k; intros h; [by rewrite Z.shiftl_0_r|].
  cbn [iter]. replace (Z.of_nat (S k)) with (Z.of_nat k + 1) by lia.
  by rewrite crc_step_shiftl by lia.
Qed.

Lemma split_low c k : 0 <= k -> c = Z.lxor (Z.land c (Z.ones k)) (Z.shiftl (Z.shiftr c k) k).
Proof.
  intros Hk. bits_eq n Hn. destruct (Z.lt_ge_cases n k).
  - rewrite Z.ones_spec_low, Z.shiftl_spec_low by lia. by rewrite andb_true_r, xorb_false_r.
  - rewrite Z.ones_spec_high, Z.shiftl_spec, Z.shiftr_spec by lia.
    rewrite andb_false_r, xorb_false_l. f_equal. lia.
Qed.

(** The table lookup is eight serial steps. *)
Lemma crc_byte_ref c u : is_byte u -> crc_byte crc_table c u = ref_byte c u.
Proof.
  intros Hu. unfold crc_byte, ref_byte, crc_table. set (x := Z.lxor c u).
  assert (Hr : 0 <= Z.land x 0xFF < 256).
  { change 0xFF with (Z.ones 8). rewrite Z.land_ones by lia. by apply Z.mod_pos_bound. }
  rewrite (nth_indep _ 0 (table_entry 0))
    by (rewrite length_map, length_seq; unfold kTableSize; lia).
  rewrite map_nth, seq_nth by (unfold kTableSize; lia).
  unfold table_entry. rewrite Nat.add_0_l, Z2Nat.id by lia.
  rewrite (split_low x 8) at 2 by lia. rewrite iter_lxor. f_equal.
  rewrite (iter_shiftl 8).
  subst x. rewrite Z.shiftr_lxor. unfold is_byte in Hu.
  rewrite (Z.shiftr_div_pow2 u), (Z.div_small u), Z.lxor_0_r; lia.
Qed.

Lemma fold_crc_byte_ref buf c :
  bytes_ok buf -> fold_left (crc_byte crc_table) buf c = fold_left ref_byte buf c.
Proof.
  intros Hb. revert c; induction Hb as [|u buf Hu _ IH]; intros c; [done|].
  cbn. rewrite crc_byte_ref by done. apply IH.
Qed.

Lemma EnsureCrc32TableInited_zero : EnsureCrc32TableInited zero_table = crc_table.
Proof. reflexivity. Qed.

Lemma EnsureCrc32TableInited_idem : EnsureCrc32TableInited crc_table = crc_table.
Proof. vm_compute. reflexivity. Qed.

(** The states of the global: untouched or filled. *)
Definition table_inv (t : list Z) : Prop := t = zero_table \/ t = crc_table.

Lemma EnsureCrc32TableInited_inv t : table_inv t -> EnsureCrc32TableInited t = crc_table.
Proof.
  intros [-> | ->]; [apply EnsureCrc32TableInited_zero | apply EnsureCrc32TableInited_idem].
Qed.

Lemma UpdateCrc32_ref t start buf :
  table_inv t -> bytes_ok buf -> UpdateCrc32 t start buf = (crc_ref start buf, crc_table).
Proof.
  intros Ht Hb. unfold UpdateCrc32, crc_ref. rewrite EnsureCrc32TableInited_inv by done.
  by rewrite fold_crc_byte_ref.
Qed.

Lemma ComputeCrc32_ref buf : bytes_ok buf -> ComputeCrc32 buf = crc_ref 0 buf.
Proof. intros. unfold ComputeCrc32. rewrite UpdateCrc32_ref; [done|by left|done]. Qed.

Lemma lxor_cancel a b : Z.lxor (Z.lxor a b) b = a.
Proof. by rewrite Z.lxor_assoc, Z.lxor_nilpotent, Z.lxor_0_r. Qed.

(** from either state of the global table, the table-driven update equals
    the bit-serial CRC register, leaves the table filled, and two updates in a
    row equal one update over the concatenation. *)
Theorem UpdateCrc32_correct t start a b :
  table_inv t -> bytes_ok a -> bytes_ok b ->
  UpdateCrc32 t start a = (crc_ref start a, crc_table) /\
  (let '(c, t') := UpdateCrc32 t start a in UpdateCrc32 t' c b) = UpdateCrc32 t start (a ++ b).
Proof.
  intros Ht Ha Hb. assert (Hab : bytes_ok (a ++ b)) by (by apply bytes_ok_app).
  rewrite (UpdateCrc32_ref t start (a ++ b)), (UpdateCrc32_ref t start a) by done.
  split; [done|]. rewrite UpdateCrc32_ref by (done || by right). f_equal.
  unfold crc_ref. rewrite fold_left_app. do 2 f_equal. apply lxor_cancel.
Qed.

(** ** Error detection *)

Lemma crc_step_range c : is_u 32 c -> is_u 32 (crc_step c).
Proof.
  intros Hc. assert (0 <= Z.shiftr c 1 < 2 ^ 31).
  { rewrite Z.shiftr_div_pow2 by lia. unfold is_u in Hc. dlia. }
  unfold crc_step. destruct (_ =? _); [unfold is_u; lia|].
  assert (0 <= Z.lxor kCrc32Polynomial (Z.shiftr c 1)) by (apply Z.lxor_nonneg; unfold kCrc32Polynomial; lia).
  split; [done|]. destruct (Z.eq_dec (Z.lxor kCrc32Polynomial (Z.shiftr c 1)) 0) as [->|]; [lia|].
  apply Z.log2_lt_pow2; [lia|].
  eapply Z.le_lt_trans; [apply Z.log2_lxor; unfold kCrc32Polynomial; lia|].
  apply Z.max_lub_lt; [unfold kCrc32Polynomial; by cbn|].
  destruct (Z.eq_dec (Z.shiftr c 1) 0) as [->|]; [done|]. apply Z.log2_lt_pow2; lia.
Qed.

Lemma high_bit_zero w c n : 0 <= w -> is_u w c -> w <= n -> Z.testbit c n = false.
Proof.
  intros Hw Hc Hn. rewrite <- (Z.mod_small c (2 ^ w)) by done.
  by apply Z.mod_pow2_bits_high.
Qed.

(** The polynomial has its top bit, so a step loses nothing. *)
Lemma crc_step_inj0 c : is_u 32 c -> crc_step c = 0 -> c = 0.
Proof.
  intros Hc H0.
  assert (H31 : Z.testbit c 0 = false).
  { pose proof (crc_step_bits c 31 ltac:(lia)) as Hb. rewrite H0, Z.bits_0 in Hb.
    rewrite (high_bit_zero 32 c (31 + 1)) in Hb by (done || lia).
    change (Z.testbit kCrc32Polynomial 31) with true in Hb.
    rewrite andb_true_r in Hb. by destruct (Z.testbit c 0). }
  apply Z.bits_inj'; intros n Hn. rewrite Z.bits_0.
  destruct (Z.eq_dec n 0) as [->|]; [done|].
  pose proof (crc_step_bits c (n - 1) ltac:(lia)) as Hb.
  rewrite H0, Z.bits_0, H31, andb_false_l, xorb_false_r in Hb.
  replace (n - 1 + 1) with n in Hb by lia. done.
Qed.

Lemma iter_range k c : is_u 32 c -> is_u 32 (iter k crc_step c).
Proof. revert c; induction k; intros c Hc; [done|]. by apply IHk, crc_step_range. Qed.

Lemma iter_inj0 k c : is_u 32 c -> iter k crc_step c = 0 -> c = 0.
Proof.
  revert c; induction k; intros c Hc; [done|]. cbn. intros H0.
  apply crc_step_inj0; [done|]. by apply IHk; [apply crc_step_range|].
Qed.

Lemma lxor_range w a b : 0 <= w -> is_u w a -> is_u w b -> is_u w (Z.lxor a b).
Proof.
  intros Hw Ha Hb. assert (Z.lxor a b = Z.lxor a b `mod` 2 ^ w) as ->.
  { rewrite <- Z.land_ones by done. bits_eq n Hn. destruct (Z.lt_ge_cases n w).
    - rewrite Z.ones_spec_low by lia. by rewrite andb_true_r.
    - rewrite (high_bit_zero w a), (high_bit_zero w b) by done. done. }
  apply Z.mod_pos_bound. lia.
Qed.

Lemma byte_u32 u : is_byte u -> is_u 32 u.
Proof. unfold is_byte, is_u. lia. Qed.

Lemma fold_ref_range buf c :
  bytes_ok buf -> is_u 32 c -> is_u 32 (fold_left ref_byte buf c).
Proof.
  intros Hb. revert c; induction Hb as [|u buf Hu _ IH]; intros c Hc; [done|].
  cbn [fold_left]. apply IH, iter_range, lxor_range; auto using byte_u32. lia.
Qed.

(** The register is linear in its state: a difference travels alone. *)
Lemma fold_ref_lxor buf c d :
  fold_left ref_byte buf (Z.lxor c d) =
  Z.lxor (fold_left ref_byte buf c) (iter (8 * length buf) crc_step d).
Proof.
  revert c d; induction buf as [|u buf IH]; intros c d; [done|].
  cbn [fold_left length]. unfold ref_byte at 2 4.
  replace (Z.lxor (Z.lxor c d) u) with (Z.lxor (Z.lxor c u) d)
    by (rewrite !Z.lxor_assoc; f_equal; apply Z.lxor_comm).
  rewrite iter_lxor, IH. f_equal.
  replace (8 * S (length buf))%nat with (8 + 8 * length buf)%nat by lia.
  generalize (8 * length buf)%nat as n. intros n. cbn. done.
Qed.

(** Feeding at most four bytes is XORing their little-endian value. *)
Lemma fold_ref_le_val w c :
  bytes_ok w ->
  fold_left ref_byte w c = iter (8 * length w) crc_step (Z.lxor c (le_val w)).
Proof.
  intros Hw. revert c; induction Hw as [|u w Hu Hw IH]; intros c.
  { cbn. by rewrite Z.lxor_0_r. }
  cbn [fold_left length le_val fold_right]. fold (le_val w). rewrite IH. unfold ref_byte.
  replace (8 * S (length w))%nat with (8 + 8 * length w)%nat by lia.
  assert (Hit : forall n k x, iter (n + k) crc_step x = iter k crc_step (iter n crc_step x)).
  { induction n; intros; cbn; auto. }
  rewrite Hit. f_equal.
  assert (u + 256 * le_val w = Z.lxor u (Z.shiftl (le_val w) 8)) as ->.
  { rewrite <- Z.add_nocarry_lxor; [rewrite Z.shiftl_mul_pow2; lia|].
    apply Z.bits_inj'. intros n Hn. rewrite Z.land_spec, Z.bits_0.
    destruct (Z.lt_ge_cases n 8); [by rewrite (Z.shiftl_spec_low _ 8), andb_false_r|].
    rewrite <- (Z.mod_small u (2 ^ 8)) by (exact Hu). by rewrite Z.mod_pow2_bits_high. }
  rewrite <- Z.lxor_assoc, (iter_lxor 8 (Z.lxor c u)), (iter_shiftl 8). done.
Qed.

(** a change confined to at most four consecutive bytes (any burst of up to
    32 bits on byte boundaries) always changes the checksum. *)
Theorem crc_detects_burst p s w1 w2 :
  bytes_ok (p ++ w1 ++ s) -> bytes_ok (p ++ w2 ++ s) ->
  length w1 = length w2 -> (length w1 <= 4)%nat -> w1 <> w2 ->
  ComputeCrc32 (p ++ w1 ++ s) <> ComputeCrc32 (p ++ w2 ++ s).
Proof.
  intros H1 H2 Hl H4 Hne Heq. rewrite !ComputeCrc32_ref in Heq by done. unfold crc_ref in Heq.
  apply (f_equal (fun x => Z.lxor x 0xFFFFFFFF)) in Heq. rewrite !lxor_cancel in Heq.
  rewrite !fold_left_app in Heq. rewrite !bytes_ok_app in H1, H2.
  destruct H1 as (Hp & Hw1 & Hs), H2 as (_ & Hw2 & _).
  set (c := fold_left ref_byte p _) in Heq. rewrite (fold_ref_le_val w1), (fold_ref_le_val w2) in Heq by done.
  rewrite <- Hl in Heq. set (d := Z.lxor (le_val w1) (le_val w2)).
  assert (Hd : is_u 32 d).
  { assert (Hle : 2 ^ (8 * Z.of_nat (length w1)) <= 2 ^ 32) by (apply Z.pow_le_mono_r; lia).
    apply lxor_range; [lia| |].
    - pose proof (le_val_range w1 Hw1). unfold is_u in *. lia.
    - pose proof (le_val_range w2 Hw2). rewrite Hl in Hle. unfold is_u in *. lia. }
  replace (Z.lxor c (le_val w1)) with (Z.lxor (Z.lxor c (le_val w2)) d) in Heq.
  2:{ subst d. rewrite (Z.lxor_comm (le_val w1)), Z.lxor_assoc, <- (Z.lxor_assoc (le_val w2)).
      by rewrite Z.lxor_nilpotent, Z.lxor_0_l. }
  rewrite (iter_lxor _ _ d) in Heq.
  rewrite fold_ref_lxor in Heq.
  apply (f_equal (Z.lxor (fold_left ref_byte s (iter (8 * length w1) crc_step (Z.lxor c (le_val w2)))))) in Heq.
  rewrite <- Z.lxor_assoc, Z.lxor_nilpotent, Z.lxor_0_l in Heq.
  apply iter_inj0 in Heq; [|by apply iter_range]. apply iter_inj0 in Heq; [|done].
  apply Hne. rewrite <- (le_bytes_le_val w1), <- (le_bytes_le_val w2) by done.
  rewrite Hl. f_equal. subst d. by apply Z.lxor_eq.
Qed.

(** The check value of the standard: CRC-32 of "123456789". *)
Example crc_check_value : ComputeCrc32 (str "123456789") = 0xCBF43926.
Proof. vm_compute. reflexivity. Qed.

Lemma UpdateCrc32_correct_witness :
  UpdateCrc32 zero_table 0 (str "1234") = (0x9BE3E0A3, crc_table) /\
  UpdateCrc32 crc_table 0x9BE3E0A3 (str "56789") = UpdateCrc32 zero_table 0 (str "123456789").
Proof.
  destruct (UpdateCrc32_correct zero_table 0 (str "1234") (str "56789")) as [H1 H2];
    [by left|solve_bytes|solve_bytes|].
  split; [vm_compute; reflexivity|]. rewrite H1 in H2. exact H2.
Defined.

Lemma crc_detects_burst_witness : ComputeCrc32 [1; 2; 3] <> ComputeCrc32 [1; 7; 3].
Proof.
  apply (crc_detects_burst [1] [3] [2] [7]); try reflexivity; try solve_bytes;
    [cbn; lia | intros ?; congruence].
Defined.

End Crc32.
