(* ===== verification/Blocks.v ===== *)
(** * Absorbing a byte stream in blocks of 64

    The common part of the hash functions: [absorb f st s] folds [f] over the
    complete 64-byte blocks of [s], [residue s] is what is left.  The laws say
    that a stream may be absorbed in pieces. *)

From S2P Require Import Prelude.

Section Absorb.
Context {St : Type} (f : St -> bytes -> St).

Fixpoint absorb_n (n : nat) (st : St) (s : bytes) : St :=
  match n with
  | O => st
  | S n' => absorb_n n' (f st (take 64 s)) (drop 64 s)
  end.

Definition absorb (st : St) (s : bytes) : St := absorb_n (length s / 64) st s.
Definition residue (s : bytes) : bytes := drop (64 * (length s / 64)) s.

Lemma length_residue s : length (residue s) = (length s mod 64)%nat.
Proof.
  unfold residue. rewrite length_drop. pose proof (Nat.div_mod_eq (length s) 64). lia.
Qed.

Lemma residue_small s : (length s < 64)%nat -> residue s = s.
Proof. intros. unfold residue. by rewrite Nat.div_small. Qed.

Lemma absorb_small st s : (length s < 64)%nat -> absorb st s = st.
Proof. intros. unfold absorb. by rewrite Nat.div_small. Qed.

Lemma div64_block (b s : bytes) : length b = 64%nat -> (length (b ++ s) / 64 = S (length s / 64))%nat.
Proof.
  intros Hb. rewrite length_app, Hb. replace (64 + length s)%nat with (length s + 1 * 64)%nat by lia.
  rewrite Nat.div_add by lia. lia.
Qed.

Lemma absorb_block st (b s : bytes) : length b = 64%nat -> absorb st (b ++ s) = absorb (f st b) s.
Proof.
  intros Hb. unfold absorb. rewrite div64_block by done. cbn [absorb_n].
  by rewrite take_app_length', drop_app_length' by done.
Qed.

Lemma residue_block (b s : bytes) : length b = 64%nat -> residue (b ++ s) = residue s.
Proof.
  intros Hb. unfold residue. rewrite div64_block by done.
  replace (64 * S (length s / 64))%nat with (length b + 64 * (length s / 64))%nat by lia.
  by rewrite drop_app_add.
Qed.

Lemma absorb_residue_app s d st :
  absorb st (s ++ d) = absorb (absorb st s) (residue s ++ d) /\
  residue (s ++ d) = residue (residue s ++ d).
Proof.
  remember (length s / 64)%nat as n eqn:Hn. revert s st Hn. induction n; intros s st Hn.
  - assert (length s < 64)%nat by (apply Nat.div_small_iff; lia).
    by rewrite (absorb_small st s), (residue_small s).
  - assert (64 <= length s)%nat.
    { destruct (Nat.lt_ge_cases (length s) 64); [|done]. rewrite Nat.div_small in Hn by done. lia. }
    rewrite <- (take_drop 64 s). set (b := take 64 s) in *. set (s' := drop 64 s) in *.
    assert (Hb : length b = 64%nat) by (subst b; rewrite length_take; lia).
    assert (n = (length s' / 64)%nat).
    { rewrite <- (take_drop 64 s) in Hn. fold b s' in Hn. rewrite div64_block in Hn; lia. }
    rewrite <- app_assoc, (absorb_block st b (s' ++ d)), (absorb_block st b s'),
      (residue_block b (s' ++ d)), (residue_block b s') by done.
    by apply IHn.
Qed.

Lemma absorb_app st s d : absorb st (s ++ d) = absorb (absorb st s) (residue s ++ d).
Proof. apply absorb_residue_app. Qed.

(** What every block establishes holds after absorbing. *)
Lemma absorb_inv (P : St -> Prop) st s :
  (forall st' b, P st' -> P (f st' b)) -> P st -> P (absorb st s).
Proof.
  intros Hf. unfold absorb. generalize (length s / 64)%nat as n. intros n.
  revert st s; induction n; intros st s Hst; [done|]. by apply IHn, Hf.
Qed.
End Absorb.

Lemma residue_app s d : residue (s ++ d) = residue (residue s ++ d).
Proof. apply (absorb_residue_app (fun (x : unit) _ => x) s d tt). Qed.

(** Memory as 4-byte words. *)
Fixpoint chunk4 (l : bytes) : list bytes :=
  match l with
  | a :: b :: c :: d :: r => [a; b; c; d] :: chunk4 r
  | _ => []
  end.

Lemma chunk4_app l k : (length l mod 4 = 0)%nat -> chunk4 (l ++ k) = chunk4 l ++ chunk4 k.
Proof.
  remember (length l) as n eqn:Hn. revert l Hn.
  induction n as [n IH] using lt_wf_ind; intros l Hn Hm.
  destruct l as [|a [|b [|c [|d l]]]]; cbn [length] in Hn; subst n; try done.
  cbn [app chunk4]. f_equal. apply (IH (length l)); [lia|done|].
  replace (S (S (S (S (length l))))) with (length l + 1 * 4)%nat in Hm by lia.
  by rewrite Nat.Div0.mod_add in Hm.
Qed.

Lemma chunk4_concat l : (length l mod 4 = 0)%nat -> concat (chunk4 l) = l.
Proof.
  remember (length l) as n eqn:Hn. revert l Hn.
  induction n as [n IH] using lt_wf_ind; intros l Hn Hm.
  destruct l as [|a [|b [|c [|d l]]]]; cbn [length] in Hn; subst n; try done.
  cbn [chunk4 concat app]. do 4 f_equal. apply (IH (length l)); [lia|done|].
  replace (S (S (S (S (length l))))) with (length l + 1 * 4)%nat in Hm by lia.
  by rewrite Nat.Div0.mod_add in Hm.
Qed.

Lemma chunk4_of_concat (ws : list bytes) :
  Forall (fun w => length w = 4%nat) ws -> chunk4 (concat ws) = ws.
Proof.
  induction 1 as [|w ws Hw _ IH]; [done|].
  destruct w as [|a [|b [|c [|d [|]]]]]; try done. cbn. by rewrite IH.
Qed.

Lemma chunk4_length4 l : Forall (fun w => length w = 4%nat) (chunk4 l).
Proof.
  remember (length l) as n eqn:Hn. revert l Hn.
  induction n as [n IH] using lt_wf_ind; intros l Hn.
  destruct l as [|a [|b [|c [|d l]]]]; cbn [chunk4]; constructor; [done|].
  apply (IH (length l)); [subst n; cbn; lia|done].
Qed.

Lemma chunk4_ok l : bytes_ok l -> Forall bytes_ok (chunk4 l).
Proof.
  remember (length l) as n eqn:Hn. revert l Hn.
  induction n as [n IH] using lt_wf_ind; intros l Hn Hok.
  destruct l as [|a [|b [|c [|d l]]]]; cbn [chunk4]; constructor.
  - by apply (Forall_app is_byte [a; b; c; d] l) in Hok as [? _].
  - apply (IH (length l)); [subst n; cbn; lia|done|].
    by apply (Forall_app is_byte [a; b; c; d] l) in Hok as [_ ?].
Qed.

Lemma length_chunk4 l : length (chunk4 l) = (length l / 4)%nat.
Proof.
  remember (length l) as n eqn:Hn. revert l Hn.
  induction n as [n IH] using lt_wf_ind; intros l Hn.
  destruct l as [|a [|b [|c [|d l]]]]; cbn [length] in Hn; subst n; try done.
  cbn [chunk4 length]. rewrite (IH (length l)) by (done || lia).
  replace (S (S (S (S (length l))))) with (length l + 1 * 4)%nat by lia.
  rewrite Nat.div_add by lia. lia.
Qed.
