(* ===== verification/Md5.v ===== *)
(** * base/md5.cc: the MD5 message digest

    [MD5Context] is the struct: chaining value, 64-bit bit count in two words,
    and the 64-byte input buffer.  The transform is written out step by step as
    in the source.  On a big-endian host [ByteReverse] swaps the words of the
    buffer in place; the model follows both variants.  The reference is the
    padded-message definition: a context that absorbed a stream [s], in
    whatever pieces, finishes with [md5_ref s]. *)

From S2P Require Import Prelude ByteOrder Blocks.
Import ByteOrder.

Module Md5.

Definition word4 : Type := Z * Z * Z * Z.

Record MD5Context := mkctx {
  buf : word4;
  bits0 : Z;
  bits1 : Z;
  in_ : bytes;
}.

Definition F1 (x y z : Z) : Z := Z.lxor z (Z.land x (Z.lxor y z)).
Definition F2 (x y z : Z) : Z := F1 z x y.
Definition F3 (x y z : Z) : Z := Z.lxor (Z.lxor x y) z.
Definition F4 (x y z : Z) : Z := Z.lxor y (Z.lor x (u32 (Z.lnot z))).

Definition MD5STEP (f : Z -> Z -> Z -> Z) (w x y z data s : Z) : Z :=
  let w := u32 (w + u32 (f x y z + data)) in
  let w := Z.lor (u32 (Z.shiftl w s)) (Z.shiftr w (32 - s)) in
  u32 (w + x).

(** The 64 steps on the working variables; [MD5Transform] adds the result
    into the chaining value. *)
Definition MD5Rounds (buf : word4) (words : list Z) : word4 :=
  let '(a0, b0, c0, d0) := buf in
  let in_ i k := u32 (nth i words 0 + k) in
  let a := a0 in let b := b0 in let c := c0 in let d := d0 in

  let a := MD5STEP F1 a b c d (in_ 0%nat 0xd76aa478) 7 in
  let d := MD5STEP F1 d a b c (in_ 1%nat 0xe8c7b756) 12 in
  let c := MD5STEP F1 c d a b (in_ 2%nat 0x242070db) 17 in
  let b := MD5STEP F1 b c d a (in_ 3%nat 0xc1bdceee) 22 in
  let a := MD5STEP F1 a b c d (in_ 4%nat 0xf57c0faf) 7 in
  let d := MD5STEP F1 d a b c (in_ 5%nat 0x4787c62a) 12 in
  let c := MD5STEP F1 c d a b (in_ 6%nat 0xa8304613) 17 in
  let b := MD5STEP F1 b c d a (in_ 7%nat 0xfd469501) 22 in
  let a := MD5STEP F1 a b c d (in_ 8%nat 0x698098d8) 7 in
  let d := MD5STEP F1 d a b c (in_ 9%nat 0x8b44f7af) 12 in
  let c := MD5STEP F1 c d a b (in_ 10%nat 0xffff5bb1) 17 in
  let b := MD5STEP F1 b c d a (in_ 11%nat 0x895cd7be) 22 in
  let a := MD5STEP F1 a b c d (in_ 12%nat 0x6b901122) 7 in
  let d := MD5STEP F1 d a b c (in_ 13%nat 0xfd987193) 12 in
  let c := MD5STEP F1 c d a b (in_ 14%nat 0xa679438e) 17 in
  let b := MD5STEP F1 b c d a (in_ 15%nat 0x49b40821) 22 in

  let a := MD5STEP F2 a b c d (in_ 1%nat 0xf61e2562) 5 in
  let d := MD5STEP F2 d a b c (in_ 6%nat 0xc040b340) 9 in
  let c := MD5STEP F2 c d a b (in_ 11%nat 0x265e5a51) 14 in
  let b := MD5STEP F2 b c d a (in_ 0%nat 0xe9b6c7aa) 20 in
  let a := MD5STEP F2 a b c d (in_ 5%nat 0xd62f105d) 5 in
  let d := MD5STEP F2 d a b c (in_ 10%nat 0x02441453) 9 in
  let c := MD5STEP F2 c d a b (in_ 15%nat 0xd8a1e681) 14 in
  let b := MD5STEP F2 b c d a (in_ 4%nat 0xe7d3fbc8) 20 in
  let a := MD5STEP F2 a b c d (in_ 9%nat 0x21e1cde6) 5 in
  let d := MD5STEP F2 d a b c (in_ 14%nat 0xc33707d6) 9 in
  let c := MD5STEP F2 c d a b (in_ 3%nat 0xf4d50d87) 14 in
  let b := MD5STEP F2 b c d a (in_ 8%nat 0x455a14ed) 20 in
  let a := MD5STEP F2 a b c d (in_ 13%nat 0xa9e3e905) 5 in
  let d := MD5STEP F2 d a b c (in_ 2%nat 0xfcefa3f8) 9 in
  let c := MD5STEP F2 c d a b (in_ 7%nat 0x676f02d9) 14 in
  let b := MD5STEP F2 b c d a (in_ 12%nat 0x8d2a4c8a) 20 in

  let a := MD5STEP F3 a b c d (in_ 5%nat 0xfffa3942) 4 in
  let d := MD5STEP F3 d a b c (in_ 8%nat 0x8771f681) 11 in
  let c := MD5STEP F3 c d a b (in_ 11%nat 0x6d9d6122) 16 in
  let b := MD5STEP F3 b c d a (in_ 14%nat 0xfde5380c) 23 in
  let a := MD5STEP F3 a b c d (in_ 1%nat 0xa4beea44) 4 in
  let d := MD5STEP F3 d a b c (in_ 4%nat 0x4bdecfa9) 11 in
  let c := MD5STEP F3 c d a b (in_ 7%nat 0xf6bb4b60) 16 in
  let b := MD5STEP F3 b c d a (in_ 10%nat 0xbebfbc70) 23 in
  let a := MD5STEP F3 a b c d (in_ 13%nat 0x289b7ec6) 4 in
  let d := MD5STEP F3 d a b c (in_ 0%nat 0xeaa127fa) 11 in
  let c := MD5STEP F3 c d a b (in_ 3%nat 0xd4ef3085) 16 in
  let b := MD5STEP F3 b c d a (in_ 6%nat 0x04881d05) 23 in
  let a := MD5STEP F3 a b c d (in_ 9%nat 0xd9d4d039) 4 in
  let d := MD5STEP F3 d a b c (in_ 12%nat 0xe6db99e5) 11 in
  let c := MD5STEP F3 c d a b (in_ 15%nat 0x1fa27cf8) 16 in
  let b := MD5STEP F3 b c d a (in_ 2%nat 0xc4ac5665) 23 in

  let a := MD5STEP F4 a b c d (in_ 0%nat 0xf4292244) 6 in
  let d := MD5STEP F4 d a b c (in_ 7%nat 0x432aff97) 10 in
  let c := MD5STEP F4 c d a b (in_ 14%nat 0xab9423a7) 15 in
  let b := MD5STEP F4 b c d a (in_ 5%nat 0xfc93a039) 21 in
  let a := MD5STEP F4 a b c d (in_ 12%nat 0x655b59c3) 6 in
  let d := MD5STEP F4 d a b c (in_ 3%nat 0x8f0ccc92) 10 in
  let c := MD5STEP F4 c d a b (in_ 10%nat 0xffeff47d) 15 in
  let b := MD5STEP F4 b c d a (in_ 1%nat 0x85845dd1) 21 in
  let a := MD5STEP F4 a b c d (in_ 8%nat 0x6fa87e4f) 6 in
  let d := MD5STEP F4 d a b c (in_ 15%nat 0xfe2ce6e0) 10 in
  let c := MD5STEP F4 c d a b (in_ 6%nat 0xa3014314) 15 in
  let b := MD5STEP F4 b c d a (in_ 13%nat 0x4e0811a1) 21 in
  let a := MD5STEP F4 a b c d (in_ 4%nat 0xf7537e82) 6 in
  let d := MD5STEP F4 d a b c (in_ 11%nat 0xbd3af235) 10 in
  let c := MD5STEP F4 c d a b (in_ 2%nat 0x2ad7d2bb) 15 in
  let b := MD5STEP F4 b c d a (in_ 9%nat 0xeb86d391) 21 in
  (a, b, c, d).

Definition MD5Transform (buf : word4) (words : list Z) : word4 :=
  let '(a0, b0, c0, d0) := buf in
  let '(a, b, c, d) := MD5Rounds buf words in
  (u32 (a0 + a), u32 (b0 + b), u32 (c0 + c), u32 (d0 + d)).

Definition word4_ok (w : word4) : Prop :=
  let '(a, b, c, d) := w in is_u 32 a /\ is_u 32 b /\ is_u 32 c /\ is_u 32 d.

Lemma MD5Transform_ok buf words : word4_ok (MD5Transform buf words).
Proof.
  unfold MD5Transform. destruct buf as [[[a0 b0] c0] d0].
  destruct (MD5Rounds _ _) as [[[a b] c] d]. split_and!; by apply wrap_range.
Qed.

#[global] Arguments MD5Transform : simpl never.
#[local] Opaque MD5Transform MD5Rounds.

Section Host.
Context `{Machine}.

(** [ByteReverse(buf, len)]: nothing on little endian, in-place swap of the
    first [len] words on big endian. *)
Definition ByteReverse (mem : bytes) (len : nat) : bytes :=
  if IsHostBigEndian then
    concat (map (fun w => host_bytes 4 (GetLE32 w)) (take len (chunk4 mem)))
      ++ drop (4 * len) mem
  else mem.

(** The buffer seen as an array of uint32. *)
Definition words (mem : bytes) : list Z := map host_val (chunk4 mem).

Definition MD5Init (in0 : bytes) : MD5Context :=
  {| buf := (0x67452301, 0xefcdab89, 0x98badcfe, 0x10325476);
     bits0 := 0; bits1 := 0; in_ := in0 |}.

(** Fill the buffer at its start with 64 bytes and transform. *)
Definition MD5Chunk (st : word4 * bytes) (chunk : bytes) : word4 * bytes :=
  let m := ByteReverse (mem_write st.2 0 chunk) 16 in
  (MD5Transform st.1 (words m), m).

(** The loop over 64-byte chunks; [n] is the number of iterations left. *)
Fixpoint MD5Loop (n : nat) (st : word4 * bytes) (data : bytes) : (word4 * bytes) * bytes :=
  match n with
  | O => (st, data)
  | S n' =>
      if (length data <? 64)%nat then (st, data)
      else MD5Loop n' (MD5Chunk st (take 64 data)) (drop 64 data)
  end.

Definition MD5Update (ctx : MD5Context) (data : bytes) : MD5Context :=
  let len := Z.of_nat (length data) in
  let t := bits0 ctx in
  let b0 := u32 (t + u32 (Z.shiftl (u32 len) 3)) in
  let b1 := if b0 <? t then u32 (bits1 ctx + 1) else bits1 ctx in
  let b1 := u32 (b1 + u32 (Z.shiftr len 29)) in
  let t := Z.to_nat (Z.land (Z.shiftr t 3) 0x3f) in
  let finish '(st, rest) :=
    {| buf := st.1; bits0 := b0; bits1 := b1; in_ := mem_write st.2 0 rest |} in
  if (t =? 0)%nat then finish (MD5Loop (length data) (buf ctx, in_ ctx) data)
  else
    if (length data <? 64 - t)%nat then
      {| buf := buf ctx; bits0 := b0; bits1 := b1; in_ := mem_write (in_ ctx) t data |}
    else
      let m := ByteReverse (mem_write (in_ ctx) t (take (64 - t) data)) 16 in
      let rest := drop (64 - t) data in
      finish (MD5Loop (length rest) (MD5Transform (buf ctx) (words m), m) rest).

Definition MD5Digest (ctx : MD5Context) : bytes :=
  let count := Z.to_nat (Z.land (Z.shiftr (bits0 ctx) 3) 0x3F) in
  let m := mem_write (in_ ctx) count [0x80] in
  let p := S count in
  let count := (64 - 1 - count)%nat in
  let '(b, m) :=
    if (count <? 8)%nat then
      let m := ByteReverse (mem_write m p (repeat 0 count)) 16 in
      (MD5Transform (buf ctx) (words m), mem_write m 0 (repeat 0 56))
    else (buf ctx, mem_write m p (repeat 0 (count - 8))) in
  let m := ByteReverse m 14 in
  let m := mem_write m 56 (host_bytes 4 (bits0 ctx)) in
  let m := mem_write m 60 (host_bytes 4 (bits1 ctx)) in
  let '(a, b, c, d) := MD5Transform b (words m) in
  ByteReverse (concat (map (host_bytes 4) [a; b; c; d])) 4.

(** The digest, and the context overwritten with zeros. *)
Definition MD5Final (ctx : MD5Context) : bytes * MD5Context :=
  (MD5Digest ctx, {| buf := (0, 0, 0, 0); bits0 := 0; bits1 := 0; in_ := repeat 0 64 |}).

(** The two results of [MD5Final]. *)
Lemma MD5Final_split ctx :
  exists ctx', MD5Final ctx = (MD5Digest ctx, ctx') /\ in_ ctx' = repeat 0 64.
Proof. eexists. split; reflexivity. Qed.

(** ** Reference: padding, then the transform over the blocks *)

Definition md5_block (st : word4) (block : bytes) : word4 :=
  MD5Transform st (map le_val (chunk4 block)).

Definition md5_pad (n : nat) : bytes :=
  [0x80] ++ repeat 0 ((119 - n mod 64) mod 64)%nat
    ++ le_bytes 8 (8 * Z.of_nat n).

Definition md5_init : word4 := (0x67452301, 0xefcdab89, 0x98badcfe, 0x10325476).

Definition md5_ref (s : bytes) : bytes :=
  let '(a, b, c, d) := absorb md5_block md5_init (s ++ md5_pad (length s)) in
  concat (map (le_bytes 4) [a; b; c; d]).

(** ** The buffer as words *)

Lemma words_LE (l : list bytes) :
  Forall (fun w => length w = 4%nat) l -> Forall bytes_ok l ->
  map host_val (map (fun w => host_bytes 4 (GetLE32 w)) l) = map le_val l.
Proof.
  intros Hl Hok. rewrite map_map. apply map_ext_Forall.
  eapply Forall_impl; [apply Forall_and; split; [exact Hl | exact Hok]|].
  intros w [Hw Hb]. rewrite GetLE32_le by done. apply host_val_bytes.
  pose proof (le_val_range w Hb). by rewrite Hw in *.
Qed.

Lemma map_LE_length (l : list bytes) :
  Forall (fun w => length w = 4%nat) (map (fun w => host_bytes 4 (GetLE32 w)) l).
Proof. apply Forall_map, Forall_true. intros. apply length_host_bytes. Qed.

Lemma length_concat4 (l : list bytes) :
  Forall (fun w => length w = 4%nat) l -> length (concat l) = (4 * length l)%nat.
Proof. induction 1 as [|w l Hw _ IH]; [done|]. cbn. rewrite length_app, Hw, IH. lia. Qed.

(** The first [n] words after [ByteReverse] hold little-endian values. *)
Lemma take_ByteReverse_words mem n :
  bytes_ok mem -> (4 * n <= length mem)%nat ->
  length (take (4 * n) (ByteReverse mem n)) = (4 * n)%nat /\
  words (take (4 * n) (ByteReverse mem n)) = map le_val (chunk4 (take (4 * n) mem)).
Proof.
  intros Hok Hn.
  assert (Hmod : (length (take (4 * n) mem) mod 4 = 0)%nat).
  { rewrite length_take, Nat.min_l by lia. by rewrite Nat.mul_comm, Nat.Div0.mod_mul. }
  assert (Htake : take n (chunk4 mem) = chunk4 (take (4 * n) mem)).
  { rewrite <- (take_drop (4 * n) mem) at 1. rewrite chunk4_app by done.
    rewrite take_app_length'; [done|]. rewrite length_chunk4, length_take, Nat.min_l by lia.
    by rewrite Nat.mul_comm, Nat.div_mul. }
  assert (Hf : Forall bytes_ok (chunk4 (take (4 * n) mem))) by (by apply chunk4_ok, Forall_take).
  unfold ByteReverse, words. destruct IsHostBigEndian eqn:E.
  - rewrite Htake.
    assert (Hc : length (concat (map (fun w => host_bytes 4 (GetLE32 w))
                   (chunk4 (take (4 * n) mem)))) = (4 * n)%nat).
    { rewrite length_concat4 by apply map_LE_length.
      rewrite length_map, length_chunk4, length_take, Nat.min_l by lia.
      rewrite (Nat.mul_comm 4 n), Nat.div_mul by done. lia. }
    rewrite take_app_length' by done. split; [done|].
    rewrite chunk4_of_concat by apply map_LE_length.
    apply words_LE; [apply chunk4_length4|done].
  - split; [rewrite length_take; lia|]. apply map_ext. intros w. unfold host_val. by rewrite E.
Qed.

Lemma ByteReverse_length mem n :
  (4 * n <= length mem)%nat -> length (ByteReverse mem n) = length mem.
Proof.
  intros Hn. unfold ByteReverse. destruct IsHostBigEndian; [|done].
  rewrite length_app, length_concat4 by apply map_LE_length.
  rewrite length_map, length_take, length_drop, length_chunk4.
  rewrite Nat.min_l; [lia|]. apply Nat.div_le_lower_bound; lia.
Qed.

Lemma ByteReverse_ok mem n : bytes_ok mem -> bytes_ok (ByteReverse mem n).
Proof.
  intros Hok. unfold ByteReverse. destruct IsHostBigEndian; [|done].
  apply bytes_ok_app. split; [|by apply Forall_drop].
  generalize (take n (chunk4 mem)) as l. induction l; [constructor|].
  cbn. apply bytes_ok_app. split; [apply host_bytes_ok|done].
Qed.

Lemma words_ByteReverse mem :
  bytes_ok mem -> length mem = 64%nat ->
  words (ByteReverse mem 16) = map le_val (chunk4 mem).
Proof.
  intros Hok Hl. destruct (take_ByteReverse_words mem 16 Hok ltac:(lia)) as [_ Hw].
  rewrite !take_ge in Hw; [done|lia|rewrite ByteReverse_length; lia].
Qed.

(** ** Updating *)

Lemma MD5Chunk_spec st chunk :
  length st.2 = 64%nat -> bytes_ok chunk -> length chunk = 64%nat ->
  (MD5Chunk st chunk).1 = md5_block st.1 chunk /\
  length (MD5Chunk st chunk).2 = 64%nat /\ bytes_ok (MD5Chunk st chunk).2.
Proof.
  intros Hm Hok Hl. unfold MD5Chunk. cbn [fst snd].
  rewrite mem_write_end by lia. rewrite take_0. cbn [app]. split_and!.
  - unfold md5_block. by rewrite words_ByteReverse.
  - rewrite ByteReverse_length; lia.
  - by apply ByteReverse_ok.
Qed.

Lemma MD5Loop_spec n st data :
  length st.2 = 64%nat -> bytes_ok st.2 -> bytes_ok data -> (length data / 64 <= n)%nat ->
  exists m, MD5Loop n st data = ((absorb md5_block st.1 data, m), residue data) /\
    length m = 64%nat /\ bytes_ok m.
Proof.
  revert st data; induction n as [|n IH]; intros st data Hm Hmok Hok Hn.
  { assert (length data < 64)%nat by (apply Nat.div_small_iff; lia).
    exists st.2. rewrite absorb_small, residue_small by done. by destruct st. }
  cbn [MD5Loop]. destruct (Nat.ltb_spec (length data) 64) as [Hlt|Hge].
  { exists st.2. rewrite absorb_small, residue_small by done. by destruct st. }
  assert (Ht : length (take 64 data) = 64%nat) by (rewrite length_take; lia).
  destruct (MD5Chunk_spec st (take 64 data) Hm) as (H1 & H2 & H3); [by apply Forall_take|done|].
  rewrite <- (take_drop 64 data), div64_block in Hn by done.
  destruct (IH (MD5Chunk st (take 64 data)) (drop 64 data)) as (m & -> & Hm' & Hok');
    [done|done|by apply Forall_drop|lia|].
  exists m. rewrite H1, <- absorb_block, take_drop by done.
  rewrite <- (residue_block (take 64 data)), take_drop by done. done.
Qed.

(** The bit count: two 32-bit words holding a 64-bit counter. *)
Lemma md5_bit_count_add t h n b0 b1 :
  is_u 32 t -> is_u 32 h -> 0 <= n ->
  b0 = u32 (t + u32 (Z.shiftl (u32 n) 3)) ->
  b1 = u32 ((if b0 <? t then u32 (h + 1) else h) + u32 (Z.shiftr n 29)) ->
  is_u 32 b0 /\ is_u 32 b1 /\
  b0 + 2 ^ 32 * b1 = (t + 2 ^ 32 * h + 8 * n) `mod` 2 ^ 64.
Proof.
  unfold u32, wrap, is_u. rewrite Z.shiftl_mul_pow2, Z.shiftr_div_pow2 by lia.
  intros Ht Hh Hn -> ->. split; [apply Z.mod_pos_bound; lia|].
  split; [apply Z.mod_pos_bound; lia|]. destruct (Z.ltb_spec ((t + (n mod 2 ^ 32 * 2 ^ 3) mod 2 ^ 32) mod 2 ^ 32) t).
  all: dlia.
Qed.

Record absorbed (ctx : MD5Context) (s : bytes) : Prop := {
  abs_buf : buf ctx = absorb md5_block md5_init s;
  abs_len : length (in_ ctx) = 64%nat;
  abs_ok : bytes_ok (in_ ctx);
  abs_in : take (length s mod 64)%nat (in_ ctx) = residue s;
  abs_b0 : is_u 32 (bits0 ctx);
  abs_b1 : is_u 32 (bits1 ctx);
  abs_bits : bits0 ctx + 2 ^ 32 * bits1 ctx = (8 * Z.of_nat (length s)) `mod` 2 ^ 64;
}.

Lemma md5_absorbed_init in0 :
  length in0 = 64%nat -> bytes_ok in0 -> absorbed (MD5Init in0) [].
Proof. intros. split; try done; unfold is_u; cbn; lia. Qed.

(** The position in the buffer is the length of the residue. *)
Lemma md5_bits_index ctx s :
  absorbed ctx s -> Z.to_nat (Z.land (Z.shiftr (bits0 ctx) 3) 0x3f) = (length s mod 64)%nat.
Proof.
  intros [_ _ _ _ H0 H1 Hb]. change 0x3f with (Z.ones 6). rewrite Z.land_ones by lia.
  rewrite Z.shiftr_div_pow2 by lia. unfold is_u in *.
  assert ((bits0 ctx / 2 ^ 3) mod 2 ^ 6 = Z.of_nat (length s) mod 64) as -> by dlia.
  rewrite <- (Nat2Z.inj_mod _ 64), Nat2Z.id. done.
Qed.

Lemma MD5Update_absorbed ctx s data :
  absorbed ctx s -> bytes_ok data -> absorbed (MD5Update ctx data) (s ++ data).
Proof.
  intros Ha Hd. pose proof (md5_bits_index ctx s Ha) as Hidx.
  destruct Ha as [Hbuf Hlen Hok Hin H0 H1 Hbits].
  unfold MD5Update. rewrite Hidx.
  remember (u32 (bits0 ctx + u32 (Z.shiftl (u32 (Z.of_nat (length data))) 3))) as b0 eqn:E0.
  remember (u32 ((if b0 <? bits0 ctx then u32 (bits1 ctx + 1) else bits1 ctx)
                 + u32 (Z.shiftr (Z.of_nat (length data)) 29))) as b1 eqn:E1.
  destruct (md5_bit_count_add _ _ _ b0 b1 H0 H1 (Nat2Z.is_nonneg _) E0 E1) as (Hr0 & Hr1 & Hsum).
  clear E0 E1.
  assert (Hsum' : b0 + 2 ^ 32 * b1 = (8 * Z.of_nat (length (s ++ data))) `mod` 2 ^ 64).
  { rewrite Hsum, Hbits, length_app. rewrite Zplus_mod_idemp_l. f_equal. lia. }
  assert (Hrl : length (residue s) = (length s mod 64)%nat) by apply length_residue.
  assert (Hlt : (length s mod 64 < 64)%nat) by (by apply Nat.mod_upper_bound).
  assert (Hmod : (length (s ++ data) mod 64 = (length s mod 64 + length data) mod 64)%nat)
    by (by rewrite length_app, Nat.Div0.add_mod_idemp_l).
  destruct (Nat.eqb_spec (length s mod 64) 0) as [Hz|Hnz].
  - destruct (MD5Loop_spec (length data) (buf ctx, in_ ctx) data) as (m & -> & Hm & Hmok);
      [done|done|done|apply Nat.Div0.div_le_upper_bound; lia|].
    assert (Hres : residue s = []) by (apply length_zero_iff_nil; lia).
    assert (Hrd : length (residue data) = (length (s ++ data) mod 64)%nat)
      by (by rewrite Hmod, Hz, length_residue).
    split; cbn [buf bits0 bits1 in_ fst snd]; auto.
    + by rewrite absorb_app, Hres, <- Hbuf.
    + rewrite length_mem_write; [done|]. rewrite Hrd.
      pose proof (Nat.mod_upper_bound (length (s ++ data)) 64). lia.
    + apply mem_write_ok; [done|]. by apply Forall_drop.
    + rewrite residue_app, Hres, <- Hrd. cbn [app].
      pose proof (take_mem_write m 0 (residue data)) as Ht. rewrite take_0 in Ht.
      apply Ht. lia.
  - set (t := (length s mod 64)%nat) in *.
    destruct (Nat.ltb_spec (length data) (64 - t)) as [Hsh|Hlg].
    + assert (Hsm : (length (residue s ++ data) < 64)%nat) by (rewrite length_app; lia).
      split; cbn [buf bits0 bits1 in_]; auto.
      * by rewrite absorb_app, absorb_small, <- Hbuf.
      * rewrite length_mem_write; [done|lia].
      * by apply mem_write_ok.
      * rewrite Hmod, Nat.mod_small by lia. rewrite take_mem_write by lia.
        rewrite residue_app, residue_small, Hin by done. done.
    + set (block := mem_write (in_ ctx) t (take (64 - t) data)).
      assert (Hblk : block = residue s ++ take (64 - t) data).
      { subst block. rewrite mem_write_end; [by rewrite Hin|]. rewrite length_take. lia. }
      assert (Hbl : length block = 64%nat) by (rewrite Hblk, length_app, length_take; lia).
      assert (Hbok : bytes_ok block) by (apply mem_write_ok; [done|by apply Forall_take]).
      destruct (MD5Loop_spec (length (drop (64 - t) data))
        (MD5Transform (buf ctx) (words (ByteReverse block 16)), ByteReverse block 16)
        (drop (64 - t) data)) as (m & -> & Hm & Hmok); cbn [fst snd].
      { rewrite ByteReverse_length; lia. }
      { by apply ByteReverse_ok. }
      { by apply Forall_drop. }
      { apply Nat.Div0.div_le_upper_bound; lia. }
      assert (Hsplit : residue s ++ data = block ++ drop (64 - t) data)
        by (by rewrite Hblk, <- app_assoc, take_drop).
      assert (Hrd : length (residue (drop (64 - t) data)) = (length (s ++ data) mod 64)%nat).
      { rewrite Hmod, length_residue, length_drop.
        replace (t + length data)%nat with (length data - (64 - t) + 1 * 64)%nat by lia.
        by rewrite Nat.Div0.mod_add. }
      split; cbn [buf bits0 bits1 in_ fst snd]; auto.
      * rewrite words_ByteReverse, absorb_app, Hsplit, absorb_block by done.
        unfold md5_block at 3. by rewrite Hbuf.
      * rewrite length_mem_write; [done|]. rewrite Hrd.
        pose proof (Nat.mod_upper_bound (length (s ++ data)) 64). lia.
      * apply mem_write_ok; [done|]. by apply Forall_drop, Forall_drop.
      * rewrite residue_app, Hsplit, residue_block, <- Hrd by done.
        pose proof (take_mem_write m 0 (residue (drop (64 - t) data))) as Ht.
        rewrite take_0 in Ht. apply Ht. lia.
Qed.

(** ** Finishing *)

Lemma zeros_ok n : bytes_ok (repeat 0 n).
Proof. induction n; constructor; [by split|done]. Qed.

Lemma chunk4_le8 v : chunk4 (le_bytes 8 v) = [le_bytes 4 v; le_bytes 4 (v / 2 ^ 32)].
Proof. rewrite (le_bytes_app 4 4). reflexivity. Qed.

Lemma host_word4 w : is_u 32 w -> host_val (host_bytes 4 w) = w.
Proof. intros. by apply host_val_bytes. Qed.

(** The last block: 56 bytes reversed as words, then the two count words. *)
Lemma words_last mem b0 b1 n :
  bytes_ok mem -> length mem = 64%nat -> is_u 32 b0 -> is_u 32 b1 ->
  b0 + 2 ^ 32 * b1 = n `mod` 2 ^ 64 ->
  words (mem_write (mem_write (ByteReverse mem 14) 56 (host_bytes 4 b0)) 60 (host_bytes 4 b1))
  = map le_val (chunk4 (take 56 mem ++ le_bytes 8 n)).
Proof.
  intros Hok Hl H0 H1 Hn.
  destruct (take_ByteReverse_words mem 14 Hok ltac:(lia)) as [Hlen Hw].
  change (4 * 14)%nat with 56%nat in *.
  pose proof (ByteReverse_length mem 14 ltac:(lia)) as HlR. set (R := ByteReverse mem 14) in *.
  pose proof (length_host_bytes 4 b0) as Hb0. pose proof (length_host_bytes 4 b1) as Hb1.
  rewrite (mem_write_end _ 60) by (rewrite length_mem_write; lia).
  pose proof (take_mem_write R 56 (host_bytes 4 b0) ltac:(lia)) as Ht.
  rewrite Hb0 in Ht. change (56 + 4)%nat with 60%nat in Ht. rewrite Ht, <- app_assoc.
  unfold words in *. rewrite chunk4_app by (by rewrite Hlen).
  assert (Hlm : length (take 56 mem) = 56%nat) by (rewrite length_take; lia).
  rewrite (chunk4_app (take 56 mem)) by (by rewrite Hlm). rewrite !map_app, Hw. f_equal.
  rewrite <- (le_bytes_mod 8 n). change (256 ^ Z.of_nat 8) with (2 ^ 64).
  rewrite <- Hn, chunk4_le8. unfold is_u in *.
  assert ((b0 + 2 ^ 32 * b1) / 2 ^ 32 = b1) as -> by dlia.
  replace (host_bytes 4 b0 ++ host_bytes 4 b1) with (concat [host_bytes 4 b0; host_bytes 4 b1])
      by (cbn [concat]; by rewrite app_nil_r).
  rewrite chunk4_of_concat by (repeat constructor; done). cbn [map].
  rewrite !host_word4, !le_val_le_bytes by done. change (2 ^ (8 * Z.of_nat 4)) with (2 ^ 32).
  f_equal; [|f_equal]; dlia.
Qed.

(** The digest is the little-endian bytes of the state, on either host. *)
Lemma digest_bytes (ws : list Z) :
  length ws = 4%nat -> Forall (is_u 32) ws ->
  ByteReverse (concat (map (host_bytes 4) ws)) 4 = concat (map (le_bytes 4) ws).
Proof.
  intros Hl Hw. unfold ByteReverse. destruct IsHostBigEndian eqn:E.
  - assert (H4 : Forall (fun w => length w = 4%nat) (map (host_bytes 4) ws))
      by (apply Forall_map, Forall_true; intros; apply length_host_bytes).
    rewrite chunk4_of_concat by done.
    rewrite take_ge by (rewrite length_map; lia).
    rewrite drop_ge, app_nil_r by (rewrite length_concat4, length_map by done; lia).
    rewrite map_map. f_equal. apply map_ext_in. intros w Hin.
    rewrite GetLE32_le by (auto using host_bytes_ok, length_host_bytes).
    unfold host_bytes. rewrite E. unfold be_bytes.
    pose proof (le_bytes_ok 4 w) as Hok.
    pose proof (le_bytes_le_val (rev (le_bytes 4 w)) ltac:(by apply Forall_rev)) as Hr.
    rewrite length_rev, length_le_bytes in Hr. by rewrite Hr, rev_involutive.
  - f_equal. apply map_ext. intros w. unfold host_bytes. by rewrite E.
Qed.

Lemma md5_state_ok s : word4_ok (absorb md5_block md5_init s).
Proof.
  apply absorb_inv; [intros; apply MD5Transform_ok|]. unfold md5_init, word4_ok, is_u. lia.
Qed.

(** Padding closes one block or two. *)
Lemma md5_pad_short s :
  (length s mod 64 < 56)%nat ->
  residue s ++ md5_pad (length s) =
  (residue s ++ [0x80] ++ repeat 0 (55 - length s mod 64)) ++ le_bytes 8 (8 * Z.of_nat (length s)).
Proof.
  intros Hr. unfold md5_pad.
  replace ((119 - length s mod 64) mod 64)%nat with (55 - length s mod 64)%nat.
  - by rewrite <- !app_assoc.
  - replace (119 - length s mod 64)%nat with (55 - length s mod 64 + 1 * 64)%nat by lia.
    rewrite Nat.Div0.mod_add, (Nat.mod_small (55 - _)); lia.
Qed.

Lemma md5_pad_long s :
  (56 <= length s mod 64)%nat ->
  residue s ++ md5_pad (length s) =
  (residue s ++ [0x80] ++ repeat 0 (63 - length s mod 64)) ++
  (repeat 0 56 ++ le_bytes 8 (8 * Z.of_nat (length s))).
Proof.
  intros Hr. pose proof (Nat.mod_upper_bound (length s) 64 ltac:(lia)). unfold md5_pad.
  replace ((119 - length s mod 64) mod 64)%nat with (63 - length s mod 64 + 56)%nat
    by (rewrite (Nat.mod_small (119 - _)); lia).
  rewrite repeat_app. by rewrite <- !app_assoc.
Qed.

(** The tail of [MD5Final]: the count words and the last transform. *)
Lemma final_block ctx b m s :
  absorbed ctx s -> word4_ok b -> bytes_ok m -> length m = 64%nat ->
  (let m := ByteReverse m 14 in
   let m := mem_write m 56 (host_bytes 4 (bits0 ctx)) in
   let m := mem_write m 60 (host_bytes 4 (bits1 ctx)) in
   let '(a, b, c, d) := MD5Transform b (words m) in
   ByteReverse (concat (map (host_bytes 4) [a; b; c; d])) 4) =
  let '(a, b, c, d) := md5_block b (take 56 m ++ le_bytes 8 (8 * Z.of_nat (length s))) in
  concat (map (le_bytes 4) [a; b; c; d]).
Proof.
  intros [_ _ _ _ H0 H1 Hb] Hw Hok Hl. cbv zeta.
  rewrite (words_last m _ _ (8 * Z.of_nat (length s))) by done. unfold md5_block.
  pose proof (MD5Transform_ok b (map le_val
    (chunk4 (take 56 m ++ le_bytes 8 (8 * Z.of_nat (length s)))))) as HT.
  destruct (MD5Transform _ _) as [[[x y] z] w]. destruct HT as (? & ? & ? & ?).
  apply (digest_bytes [x; y; z; w]); [done|]. repeat (apply Forall_cons; split; [done|]). done.
Qed.

Lemma MD5Final_ref ctx s : absorbed ctx s -> (MD5Final ctx).1 = md5_ref s.
Proof.
  intros Ha. pose proof (md5_bits_index ctx s Ha) as Hidx.
  pose proof Ha as [Hbuf Hlen Hok Hin _ _ _].
  set (r := (length s mod 64)%nat) in *.
  assert (Hlt : (r < 64)%nat) by (by apply Nat.mod_upper_bound).
  assert (Hrl : length (residue s) = r) by apply length_residue.
  cbn [MD5Final fst]. unfold MD5Digest, md5_ref. rewrite Hidx.
  set (m1 := mem_write (in_ ctx) r [0x80]).
  assert (Hm1 : length m1 = 64%nat) by (subst m1; rewrite length_mem_write; cbn; lia).
  assert (Hm1ok : bytes_ok m1) by (apply mem_write_ok; [done|solve_bytes]).
  assert (Ht1 : take (S r) m1 = residue s ++ [0x80]).
  { subst m1. pose proof (take_mem_write (in_ ctx) r [0x80] ltac:(lia)) as Ht.
    cbn [length] in Ht. rewrite Nat.add_1_r in Ht. by rewrite Ht, Hin. }
  rewrite absorb_app, <- Hbuf.
  assert (Hwok : word4_ok (buf ctx)) by (rewrite Hbuf; apply md5_state_ok).
  destruct (Nat.ltb_spec (64 - 1 - r) 8) as [Hlong|Hshort].
  - set (blk := mem_write m1 (S r) (repeat 0 (64 - 1 - r))).
    assert (Hblk : blk = residue s ++ [0x80] ++ repeat 0 (63 - r)).
    { subst blk. rewrite mem_write_end by (rewrite repeat_length; lia).
      rewrite Ht1, <- app_assoc. reflexivity. }
    assert (Hbl : length blk = 64%nat)
      by (rewrite Hblk, !length_app, repeat_length; cbn [length]; lia).
    assert (Hbok : bytes_ok blk) by (apply mem_write_ok; auto using zeros_ok).
    rewrite words_ByteReverse by done.
    rewrite (final_block ctx _ _ s); [|done|apply MD5Transform_ok| |].
    + rewrite md5_pad_long by (fold r; lia). fold r. rewrite <- Hblk, absorb_block by done.
      pose proof (take_mem_write (ByteReverse blk 16) 0 (repeat 0 56)) as Ht.
      rewrite repeat_length, take_0 in Ht. cbn [Nat.add] in Ht. rewrite Ht by lia. cbn [app].
      rewrite <- (app_nil_r (repeat 0 56 ++ _)), absorb_block; [|done].
      rewrite absorb_small by (cbn; lia). done.
    + apply mem_write_ok; [by apply ByteReverse_ok|apply zeros_ok].
    + rewrite length_mem_write; rewrite ByteReverse_length, ?repeat_length; lia.
  - rewrite (final_block ctx _ _ s); [|done|done| |].
    + rewrite md5_pad_short by (fold r; lia). fold r.
      pose proof (take_mem_write m1 (S r) (repeat 0 (64 - 1 - r - 8)) ltac:(lia)) as Ht.
      rewrite repeat_length in Ht. replace (S r + (64 - 1 - r - 8))%nat with 56%nat in Ht by lia.
      rewrite Ht, Ht1. replace (64 - 1 - r - 8)%nat with (55 - r)%nat by lia.
      rewrite <- (app_assoc (residue s) [_]).
      set (X := (residue s ++ [0x80] ++ repeat 0 (55 - r)) ++ _).
      rewrite <- (app_nil_r X) at 2. rewrite absorb_block, absorb_small; [done|cbn; lia|].
      subst X. rewrite !length_app, repeat_length, length_le_bytes. cbn [length]. lia.
    + apply mem_write_ok; auto using zeros_ok.
    + rewrite length_mem_write; rewrite ?repeat_length; lia.
Qed.

(** Contexts reached by updates. *)
Lemma MD5Updates_absorbed ctx s chunks :
  absorbed ctx s -> Forall bytes_ok chunks ->
  absorbed (fold_left MD5Update chunks ctx) (s ++ concat chunks).
Proof.
  intros Ha Hc. revert ctx s Ha; induction Hc as [|c cs Hc _ IH]; intros ctx s Ha;
    [by rewrite app_nil_r|]. cbn [fold_left concat]. rewrite app_assoc.
  by apply IH, MD5Update_absorbed.
Qed.

(** hashing a message in arbitrary pieces with MD5Init, MD5Update and
    MD5Final, on either kind of host and whatever the context's buffer held
    before, yields the digest of the padded concatenation: the reference that
    appends 0x80, zeros and the 64-bit little-endian bit count and runs the
    transform over the 64-byte blocks. *)
Theorem md5_streaming in0 chunks :
  length in0 = 64%nat -> bytes_ok in0 -> Forall bytes_ok chunks ->
  (MD5Final (fold_left MD5Update chunks (MD5Init in0))).1 = md5_ref (concat chunks).
Proof.
  intros. apply MD5Final_ref. apply (MD5Updates_absorbed _ []); [|done].
  by apply md5_absorbed_init.
Qed.

(** The comment on F1, "optimized somewhat": the multiplexer of RFC 1321. *)
Lemma F1_optimised x y z :
  is_u 32 x -> is_u 32 y -> is_u 32 z ->
  F1 x y z = Z.lor (Z.land x y) (Z.land (u32 (Z.lnot x)) z).
Proof.
  intros Hx Hy Hz. unfold F1, u32, wrap. rewrite <- Z.land_ones by lia.
  bits_eq n Hn. destruct (Z.lt_ge_cases n 32) as [Hl|Hg].
  - rewrite Z.ones_spec_low, Z.lnot_spec by lia.
    by destruct (Z.testbit x n), (Z.testbit y n), (Z.testbit z n).
  - assert (Hh : forall c, is_u 32 c -> Z.testbit c n = false).
    { intros c Hc. rewrite <- (Z.mod_small c (2 ^ 32)) by done. by apply Z.mod_pow2_bits_high. }
    rewrite (Hh x Hx), (Hh y Hy), (Hh z Hz). by rewrite !andb_false_r.
Qed.

End Host.

(** The test vectors of RFC 1321, through the code and through the reference. *)
Example md5_abc :
  (@MD5Final x86 (@MD5Update x86 (@MD5Init (repeat 7 64)) (str "abc"))).1
  = be_bytes 16 0x900150983cd24fb0d6963f7d28e17f72.
Proof. vm_compute. reflexivity. Qed.
Example md5_empty : md5_ref [] = be_bytes 16 0xd41d8cd98f00b204e9800998ecf8427e.
Proof. vm_compute. reflexivity. Qed.

Lemma md5_streaming_witness :
  (@MD5Final x86 (fold_left (@MD5Update x86) [str "message"; []; str " digest"] (@MD5Init (repeat 7 64)))).1
  = md5_ref (str "message digest") /\
  md5_ref (str "message digest") = be_bytes 16 0xf96b697d7cb7938d525a2f31aaf161d0.
Proof.
  split; [|vm_compute; reflexivity].
  apply (@md5_streaming x86 (repeat 7 64) [str "message"; []; str " digest"]).
  - reflexivity.
  - solve_bytes.
  - repeat (apply List.Forall_cons; [solve_bytes|]); apply List.Forall_nil.
Defined.

End Md5.
