(* ===== verification/Sha1.v ===== *)
(** * base/sha1.cc: the SHA-1 message digest

    [SHA1Transform] is the unrolled transform of the source: a list of the
    eighty round macros with their register arguments, run on the five working
    variables and the 16-word circular schedule that the rounds expand in
    place.  It is proved equal to the textbook compression function
    ([compress]: an 80-word schedule and a rotating state).  [SHA1Update] and
    [SHA1Final] are proved to compute the padded-message digest for any split
    of the message into pieces. *)

From S2P Require Import Prelude ByteOrder Blocks.
Import ByteOrder.

Module Sha1.

Definition SHA1_DIGEST_SIZE : nat := 20.

Definition word5 : Type := Z * Z * Z * Z * Z.

Record SHA1_CTX := mkctx {
  state : list Z;
  count0 : Z;
  count1 : Z;
  buffer : bytes;
}.

Definition rol (value bits : Z) : Z :=
  Z.lor (u32 (Z.shiftl value bits)) (Z.shiftr value (32 - bits)).

(** The round macros by number: [Rnd k v w x y z i] is [Rk(v,w,x,y,z,i)], the
    registers a..e being 0..4. *)
Inductive kind := R0 | R1 | R2 | R3 | R4.
Record round := Rnd { rk : kind; rv : nat; rw : nat; rx : nat; ry : nat; rz : nat; ri : nat }.

Definition reg (regs : list Z) (r : nat) : Z := nth r regs 0.

Section Host.
Context `{Machine}.

(** [blk0(i)]: load the i-th word big endian, in place. *)
Definition blk0 (l : list Z) (i : nat) : list Z * Z :=
  let v := reg l i in
  let v := if IsHostBigEndian then v
           else Z.lor (Z.land (rol v 24) 0xFF00FF00) (Z.land (rol v 8) 0x00FF00FF) in
  (<[i := v]> l, v).

(** [blk(i)]: expand the schedule in place. *)
Definition blk (l : list Z) (i : nat) : list Z * Z :=
  let v := rol (Z.lxor (Z.lxor (Z.lxor (reg l ((i + 13) mod 16)) (reg l ((i + 8) mod 16)))
                  (reg l ((i + 2) mod 16))) (reg l (i mod 16))) 1 in
  (<[(i mod 16)%nat := v]> l, v).

Definition mix (k : kind) (w x y : Z) : Z :=
  match k with
  | R0 | R1 => Z.lxor (Z.land w (Z.lxor x y)) y
  | R2 | R4 => Z.lxor (Z.lxor w x) y
  | R3 => Z.lor (Z.land (Z.lor w x) y) (Z.land w x)
  end.
Definition konst (k : kind) : Z :=
  match k with
  | R0 | R1 => 0x5A827999
  | R2 => 0x6ED9EBA1
  | R3 => 0x8F1BBCDC
  | R4 => 0xCA62C1D6
  end.

(** One macro: [z += mix(w,x,y) + blk + K + rol(v,5); w = rol(w,30);] *)
Definition do_round (st : list Z * list Z) (r : round) : list Z * list Z :=
  let '(regs, l) := st in
  let '(l, b) := match rk r with R0 => blk0 l (ri r) | _ => blk l (ri r) end in
  let z := u32 (reg regs (rz r) + mix (rk r) (reg regs (rw r)) (reg regs (rx r)) (reg regs (ry r))
                + b + konst (rk r) + rol (reg regs (rv r)) 5) in
  let regs := <[rz r := z]> regs in
  let regs := <[rw r := rol (reg regs (rw r)) 30]> regs in
  (regs, l).

Definition a := 0%nat.
Definition b := 1%nat.
Definition c := 2%nat.
Definition d := 3%nat.
Definition e := 4%nat.

Definition rounds : list round := [
  Rnd R0 a b c d e 0; Rnd R0 e a b c d 1; Rnd R0 d e a b c 2; Rnd R0 c d e a b 3;
  Rnd R0 b c d e a 4; Rnd R0 a b c d e 5; Rnd R0 e a b c d 6; Rnd R0 d e a b c 7;
  Rnd R0 c d e a b 8; Rnd R0 b c d e a 9; Rnd R0 a b c d e 10; Rnd R0 e a b c d 11;
  Rnd R0 d e a b c 12; Rnd R0 c d e a b 13; Rnd R0 b c d e a 14; Rnd R0 a b c d e 15;
  Rnd R1 e a b c d 16; Rnd R1 d e a b c 17; Rnd R1 c d e a b 18; Rnd R1 b c d e a 19;
  Rnd R2 a b c d e 20; Rnd R2 e a b c d 21; Rnd R2 d e a b c 22; Rnd R2 c d e a b 23;
  Rnd R2 b c d e a 24; Rnd R2 a b c d e 25; Rnd R2 e a b c d 26; Rnd R2 d e a b c 27;
  Rnd R2 c d e a b 28; Rnd R2 b c d e a 29; Rnd R2 a b c d e 30; Rnd R2 e a b c d 31;
  Rnd R2 d e a b c 32; Rnd R2 c d e a b 33; Rnd R2 b c d e a 34; Rnd R2 a b c d e 35;
  Rnd R2 e a b c d 36; Rnd R2 d e a b c 37; Rnd R2 c d e a b 38; Rnd R2 b c d e a 39;
  Rnd R3 a b c d e 40; Rnd R3 e a b c d 41; Rnd R3 d e a b c 42; Rnd R3 c d e a b 43;
  Rnd R3 b c d e a 44; Rnd R3 a b c d e 45; Rnd R3 e a b c d 46; Rnd R3 d e a b c 47;
  Rnd R3 c d e a b 48; Rnd R3 b c d e a 49; Rnd R3 a b c d e 50; Rnd R3 e a b c d 51;
  Rnd R3 d e a b c 52; Rnd R3 c d e a b 53; Rnd R3 b c d e a 54; Rnd R3 a b c d e 55;
  Rnd R3 e a b c d 56; Rnd R3 d e a b c 57; Rnd R3 c d e a b 58; Rnd R3 b c d e a 59;
  Rnd R4 a b c d e 60; Rnd R4 e a b c d 61; Rnd R4 d e a b c 62; Rnd R4 c d e a b 63;
  Rnd R4 b c d e a 64; Rnd R4 a b c d e 65; Rnd R4 e a b c d 66; Rnd R4 d e a b c 67;
  Rnd R4 c d e a b 68; Rnd R4 b c d e a 69; Rnd R4 a b c d e 70; Rnd R4 e a b c d 71;
  Rnd R4 d e a b c 72; Rnd R4 c d e a b 73; Rnd R4 b c d e a 74; Rnd R4 a b c d e 75;
  Rnd R4 e a b c d 76; Rnd R4 d e a b c 77; Rnd R4 c d e a b 78; Rnd R4 b c d e a 79 ].

Definition SHA1Transform (st : list Z) (blockc : bytes) : list Z :=
  let block := map host_val (chunk4 blockc) in
  let '(regs, _) := fold_left do_round rounds (st, block) in
  zip_with (fun x y => u32 (x + y)) st regs.

Definition SHA1Init (buf0 : bytes) : SHA1_CTX :=
  {| state := [0x67452301; 0xEFCDAB89; 0x98BADCFE; 0x10325476; 0xC3D2E1F0];
     count0 := 0; count1 := 0; buffer := buf0 |}.

(** [for (; i + 63 < input_len; i += 64)]: the state and the final [i]. *)
Fixpoint SHA1Loop (n : nat) (st : list Z) (data : bytes) (i : nat) : list Z * nat :=
  match n with
  | O => (st, i)
  | S n' =>
      if (i + 63 <? length data)%nat
      then SHA1Loop n' (SHA1Transform st (mem_read data i 64)) data (i + 64)
      else (st, i)
  end.

Definition SHA1Update (ctx : SHA1_CTX) (data : bytes) : SHA1_CTX :=
  let input_len := Z.of_nat (length data) in
  let index := Z.to_nat (Z.land (Z.shiftr (count0 ctx) 3) 63) in
  let inc := u32 (Z.shiftl input_len 3) in
  let c0 := u32 (count0 ctx + inc) in
  let c1 := if c0 <? inc then u32 (count1 ctx + 1) else count1 ctx in
  let c1 := u32 (c1 + u32 (Z.shiftr input_len 29)) in
  let '(st, buf, i, index) :=
    if (63 <? index + length data)%nat then
      let i := (64 - index)%nat in
      let buf := mem_write (buffer ctx) index (take i data) in
      let '(st, i) := SHA1Loop (length data) (SHA1Transform (state ctx) buf) data i in
      (st, buf, i, 0%nat)
    else (state ctx, buffer ctx, 0%nat, index) in
  {| state := st; count0 := c0; count1 := c1; buffer := mem_write buf index (drop i data) |}.

(** [while ((count[0] & 504) != 448) SHA1Update(context, "\0", 1)]: at most 64
    iterations change the low bits of the count. *)
Fixpoint pad_loop (n : nat) (ctx : SHA1_CTX) : SHA1_CTX :=
  match n with
  | O => ctx
  | S n' => if Z.land (count0 ctx) 504 =? 448 then ctx else pad_loop n' (SHA1Update ctx [0])
  end.

Definition pad_fuel : nat := 64.

Definition SHA1Digest (ctx : SHA1_CTX) : bytes :=
  let finalcount :=
    map (fun i : nat =>
      Z.land (Z.shiftr (if (4 <=? i)%nat then count0 ctx else count1 ctx)
                (Z.of_nat (3 - i mod 4) * 8)) 255) (seq 0 8) in
  let ctx := SHA1Update ctx [128] in
  let ctx := pad_loop pad_fuel ctx in
  let ctx := SHA1Update ctx finalcount in
  map (fun i : nat =>
    Z.land (Z.shiftr (reg (state ctx) (i / 4)) (Z.of_nat (3 - i mod 4) * 8)) 255)
    (seq 0 SHA1_DIGEST_SIZE).

(** The digest, and the context with its variables wiped and the transform
    run once over the wiped buffer. *)
Definition SHA1Final (ctx : SHA1_CTX) : bytes * SHA1_CTX :=
  let zeros := repeat 0 64 in
  (SHA1Digest ctx,
   {| state := SHA1Transform (repeat 0 5) zeros; count0 := 0; count1 := 0; buffer := zeros |}).

End Host.

(** The two results of [SHA1Final]. *)
Lemma SHA1Final_split `{Machine} ctx :
  exists ctx', SHA1Final ctx = (SHA1Digest ctx, ctx') /\ buffer ctx' = repeat 0 64.
Proof. eexists. split; reflexivity. Qed.

(** ** The textbook compression function (FIPS 180) *)

Definition ref_f (t : nat) (b c d : Z) : Z :=
  if (t <? 20)%nat then Z.lor (Z.land b c) (Z.land (u32 (Z.lnot b)) d)
  else if (t <? 40)%nat then Z.lxor (Z.lxor b c) d
  else if (t <? 60)%nat then Z.lxor (Z.lxor (Z.land b c) (Z.land b d)) (Z.land c d)
  else Z.lxor (Z.lxor b c) d.
Definition ref_k (t : nat) : Z :=
  if (t <? 20)%nat then 0x5A827999 else if (t <? 40)%nat then 0x6ED9EBA1
  else if (t <? 60)%nat then 0x8F1BBCDC else 0xCA62C1D6.

(** The message schedule: [n] more words after [ws]. *)
Fixpoint schedule (n : nat) (ws : list Z) : list Z :=
  match n with
  | O => ws
  | S n' =>
      let t := length ws in
      schedule n' (ws ++ [rol (Z.lxor (Z.lxor (Z.lxor (reg ws (t - 3)) (reg ws (t - 8)))
                                 (reg ws (t - 14))) (reg ws (t - 16))) 1])
  end.

Definition ref_step (ws : list Z) (st : word5) (t : nat) : word5 :=
  let '(a, b, c, d, e) := st in
  (u32 (rol a 5 + ref_f t b c d + e + ref_k t + reg ws t), a, rol b 30, c, d).

Definition compress (st : list Z) (block : bytes) : list Z :=
  let ws := schedule 64 (map be_val (chunk4 block)) in
  match st with
  | [a; b; c; d; e] =>
      let '(a', b', c', d', e') := fold_left (ref_step ws) (seq 0 80) (a, b, c, d, e) in
      [u32 (a + a'); u32 (b + b'); u32 (c + c'); u32 (d + d'); u32 (e + e')]
  | _ => st
  end.

Definition sha1_init : list Z := [0x67452301; 0xEFCDAB89; 0x98BADCFE; 0x10325476; 0xC3D2E1F0].

Definition sha1_pad (n : nat) : bytes :=
  [0x80] ++ repeat 0 ((119 - n mod 64) mod 64)%nat ++ be_bytes 8 (8 * Z.of_nat n).

Definition sha1_ref (s : bytes) : bytes :=
  concat (map (be_bytes 4) (absorb compress sha1_init (s ++ sha1_pad (length s)))).

(** ** The in-place byte swap of [blk0] loads a word big endian *)

Lemma le_val_lor x0 x1 x2 x3 :
  bytes_ok [x0; x1; x2; x3] ->
  le_val [x0; x1; x2; x3] =
  Z.lor (Z.lor (Z.lor (Z.shiftl x3 24) (Z.shiftl x2 16)) (Z.shiftl x1 8)) (Z.shiftl x0 0).
Proof.
  intros Hok. rewrite <- GetLE32_le, GetLE32_rev by done. unfold GetBE32, Get8, u32.
  bytes_inv. cbn [nth]. by rewrite !wrap_shiftl by (done || lia).
Qed.

Lemma testbit_byte x n : is_byte x -> 8 <= n -> Z.testbit x n = false.
Proof.
  intros Hx Hn. rewrite <- (Z.mod_small x (2 ^ 8)) by exact Hx.
  apply Z.mod_pow2_bits_high. lia.
Qed.

Lemma testbit_u32 x n : is_u 32 x -> 32 <= n -> Z.testbit x n = false.
Proof.
  intros Hx Hn. rewrite <- (Z.mod_small x (2 ^ 32)) by exact Hx.
  apply Z.mod_pow2_bits_high. lia.
Qed.

(** Bits of a word whose bytes are known. *)
Lemma testbit_le_word x0 x1 x2 x3 n :
  bytes_ok [x0; x1; x2; x3] -> 0 <= n ->
  Z.testbit (le_val [x0; x1; x2; x3]) n =
  if n <? 8 then Z.testbit x0 n
  else if n <? 16 then Z.testbit x1 (n - 8)
  else if n <? 24 then Z.testbit x2 (n - 16)
  else if n <? 32 then Z.testbit x3 (n - 24) else false.
Proof.
  intros Hok Hn. rewrite le_val_lor by done. bytes_inv.
  rewrite !Z.lor_spec, !Z.shiftl_spec by done. rewrite Z.sub_0_r.
  repeat match goal with |- context [?m <? ?k] => destruct (Z.ltb_spec m k) end;
    repeat first
      [ rewrite (Z.testbit_neg_r x3) by lia | rewrite (Z.testbit_neg_r x2) by lia
      | rewrite (Z.testbit_neg_r x1) by lia
      | rewrite (testbit_byte x0) by (done || lia) | rewrite (testbit_byte x1) by (done || lia)
      | rewrite (testbit_byte x2) by (done || lia) | rewrite (testbit_byte x3) by (done || lia) ];
    by rewrite ?orb_false_r, ?orb_false_l.
Qed.

Lemma testbit_rol v k n :
  is_u 32 v -> 0 < k < 32 -> 0 <= n ->
  Z.testbit (rol v k) n =
  if n <? k then Z.testbit v (n + (32 - k))
  else if n <? 32 then Z.testbit v (n - k) else false.
Proof.
  intros Hv Hk Hn. unfold rol, u32, wrap.
  rewrite Z.lor_spec, Z.shiftr_spec by done.
  destruct (Z.ltb_spec n k) as [H1|H1], (Z.ltb_spec n 32) as [H2|H2]; try lia.
  - rewrite Z.mod_pow2_bits_low, Z.shiftl_spec_low by lia. done.
  - rewrite Z.mod_pow2_bits_low, Z.shiftl_spec by lia.
    rewrite (testbit_u32 v (n + (32 - k))) by (done || lia). apply orb_false_r.
  - rewrite Z.mod_pow2_bits_high by lia. rewrite testbit_u32 by (done || lia). done.
Qed.

Lemma le4_range x0 x1 x2 x3 : bytes_ok [x0; x1; x2; x3] -> is_u 32 (le_val [x0; x1; x2; x3]).
Proof. apply (le_val_range [x0; x1; x2; x3]). Qed.

Ltac word_bits :=
  repeat match goal with |- context [?m <? ?k] =>
    let H := fresh in destruct (Z.ltb_spec m k) as [H|H]; try (exfalso; lia) end.

Lemma swap_word x0 x1 x2 x3 :
  bytes_ok [x0; x1; x2; x3] ->
  (let v := le_val [x0; x1; x2; x3] in
   Z.lor (Z.land (rol v 24) 0xFF00FF00) (Z.land (rol v 8) 0x00FF00FF))
  = be_val [x0; x1; x2; x3].
Proof.
  intros Hok. cbv zeta. change (be_val [x0; x1; x2; x3]) with (le_val [x3; x2; x1; x0]).
  assert (Hok' : bytes_ok [x3; x2; x1; x0])
    by (change (bytes_ok (rev [x0; x1; x2; x3])); by apply Forall_rev).
  pose proof (le4_range _ _ _ _ Hok) as Hr. bits_eq n Hn.
  rewrite !testbit_rol by (done || lia).
  rewrite (testbit_le_word x3 x2 x1 x0) by done.
  assert (Hm : Z.testbit 0xFF00FF00 n =
    if n <? 8 then false else if n <? 16 then true else if n <? 24 then false else n <? 32).
  { destruct (Z.lt_ge_cases n 32).
    - assert (Hf : forall k : nat, (k < 32)%nat -> Z.testbit 0xFF00FF00 (Z.of_nat k) =
        if Z.of_nat k <? 8 then false else if Z.of_nat k <? 16 then true
        else if Z.of_nat k <? 24 then false else Z.of_nat k <? 32)
        by (intros k Hk; do 32 (destruct k as [|k]; [reflexivity|]); lia).
      specialize (Hf (Z.to_nat n)). rewrite Z2Nat.id in Hf by done. apply Hf. lia.
    - rewrite testbit_u32 by (done || lia). by word_bits. }
  assert (Hm' : Z.testbit 0x00FF00FF n =
    if n <? 8 then true else if n <? 16 then false else n <? 24).
  { destruct (Z.lt_ge_cases n 32).
    - assert (Hf : forall k : nat, (k < 32)%nat -> Z.testbit 0x00FF00FF (Z.of_nat k) =
        if Z.of_nat k <? 8 then true else if Z.of_nat k <? 16 then false
        else Z.of_nat k <? 24)
        by (intros k Hk; do 32 (destruct k as [|k]; [reflexivity|]); lia).
      specialize (Hf (Z.to_nat n)). rewrite Z2Nat.id in Hf by done. apply Hf. lia.
    - rewrite testbit_u32 by (done || lia). by word_bits. }
  rewrite Hm, Hm'. clear Hm Hm'.
  word_bits; rewrite ?andb_false_r, ?andb_true_r, ?orb_false_r, ?orb_false_l;
    rewrite ?testbit_le_word by (done || lia); word_bits; f_equal; lia.
Qed.

(** ** The transform computes the compression function *)

Section Transform.
Context `{Machine}.

Lemma blk0_value l i w :
  length w = 4%nat -> bytes_ok w -> reg l i = host_val w ->
  blk0 l i = (<[i := be_val w]> l, be_val w).
Proof.
  intros Hw Hok Hi. unfold blk0. rewrite Hi. unfold host_val.
  destruct IsHostBigEndian; [done|].
  destruct w as [|x0 [|x1 [|x2 [|x3 [|]]]]]; try done. by rewrite <- swap_word.
Qed.

Lemma reg_insert l i j v :
  (i < length l)%nat -> reg (<[i := v]> l) j = if decide (i = j) then v else reg l j.
Proof.
  intros Hi. unfold reg. rewrite !nth_lookup. destruct (decide (i = j)) as [<-|Hne].
  - by rewrite list_lookup_insert_eq.
  - by rewrite list_lookup_insert_ne.
Qed.

Lemma reg_map (g : bytes -> Z) l i :
  (i < length l)%nat -> reg (map g l) i = g (nth i l []).
Proof.
  intros Hi. unfold reg. rewrite (nth_indep _ 0 (g [])) by (by rewrite length_map).
  apply map_nth.
Qed.

(** The schedule extends the words it is given by the recurrence. *)
Definition expand (ws : list Z) (t : nat) : Z :=
  rol (Z.lxor (Z.lxor (Z.lxor (reg ws (t - 3)) (reg ws (t - 8))) (reg ws (t - 14)))
         (reg ws (t - 16))) 1.

Lemma reg_app_l ws k i : (i < length ws)%nat -> reg (ws ++ k) i = reg ws i.
Proof. intros. unfold reg. by apply app_nth1. Qed.

Lemma schedule_prefix n ws t : (t < length ws)%nat -> reg (schedule n ws) t = reg ws t.
Proof.
  revert ws; induction n as [|n IH]; intros ws Ht; [done|]. cbn [schedule].
  rewrite IH by (rewrite length_app; lia). by apply reg_app_l.
Qed.

Lemma schedule_step n ws t :
  (16 <= length ws)%nat -> (length ws <= t < length ws + n)%nat ->
  reg (schedule n ws) t = expand (schedule n ws) t.
Proof.
  revert ws; induction n as [|n IH]; intros ws H16 Ht; [lia|].
  destruct (decide (t = length ws)) as [->|Hne].
  - unfold expand. rewrite (schedule_prefix _ _ (length ws - 3)), (schedule_prefix _ _ (length ws - 8)),
      (schedule_prefix _ _ (length ws - 14)), (schedule_prefix _ _ (length ws - 16)) by lia.
    cbn [schedule].
    rewrite schedule_prefix by (rewrite length_app; cbn; lia).
    unfold reg at 1. by rewrite app_nth2, Nat.sub_diag by lia.
  - cbn [schedule]. apply IH; rewrite length_app; cbn [length]; lia.
Qed.

(** The circular workspace after [t] rounds. *)
Record sched (ws : list Z) (chunks : list bytes) (t : nat) (l : list Z) : Prop := {
  sched_len : length l = 16%nat;
  sched_done : forall i, (i < t)%nat -> (t <= i + 16)%nat -> reg l (i mod 16) = reg ws i;
  sched_todo : forall i, (t <= i < 16)%nat -> reg l i = host_val (nth i chunks []);
}.

Lemma mod16_ne i t : (i < t)%nat -> (t < i + 16)%nat -> (t mod 16 <> i mod 16)%nat.
Proof.
  intros H1 H2 He. pose proof (Nat.div_mod_eq i 16). pose proof (Nat.div_mod_eq t 16).
  lia.
Qed.

Definition load (t : nat) (l : list Z) : list Z * Z :=
  if (t <? 16)%nat then blk0 l t else blk l t.

Lemma load_spec block ws t l :
  length block = 64%nat -> bytes_ok block ->
  ws = schedule 64 (map be_val (chunk4 block)) -> (t < 80)%nat ->
  sched ws (chunk4 block) t l ->
  load t l = (<[(t mod 16)%nat := reg ws t]> l, reg ws t).
Proof.
  intros Hb Hok Hws Ht [Hl Hd Ho]. unfold load.
  assert (Hc : length (chunk4 block) = 16%nat) by (rewrite length_chunk4, Hb; done).
  destruct (Nat.ltb_spec t 16) as [H16|H16].
  - rewrite (Nat.mod_small t) by done.
    assert (Hin : In (nth t (chunk4 block) []) (chunk4 block)) by (apply nth_In; lia).
    rewrite (blk0_value l t (nth t (chunk4 block) [])).
    + subst ws. rewrite schedule_prefix by (rewrite length_map; lia).
      by rewrite (reg_map be_val) by lia.
    + pose proof (chunk4_length4 block) as Hf. rewrite List.Forall_forall in Hf. by apply Hf.
    + pose proof (chunk4_ok block Hok) as Hf. rewrite List.Forall_forall in Hf. by apply Hf.
    + apply Ho. lia.
  - assert (Hv : reg ws t = expand ws t).
    { subst ws. apply schedule_step; rewrite length_map; lia. }
    unfold blk. rewrite Hv. unfold expand.
    assert (Hmod : forall k, (k <= 16)%nat -> ((t + (16 - k)) mod 16 = (t - k) mod 16)%nat).
    { intros k Hk. replace (t + (16 - k))%nat with (t - k + 1 * 16)%nat by lia.
      by rewrite Nat.Div0.mod_add. }
    rewrite <- (Hd (t - 3)%nat), <- (Hd (t - 8)%nat), <- (Hd (t - 14)%nat), <- (Hd (t - 16)%nat) by lia.
    rewrite <- (Hmod 3%nat), <- (Hmod 8%nat), <- (Hmod 14%nat), <- (Hmod 16%nat) by lia.
    cbn [Nat.sub]. by rewrite Nat.add_0_r.
Qed.

Lemma load_sched ws chunks t l :
  sched ws chunks t l -> sched ws chunks (S t) (<[(t mod 16)%nat := reg ws t]> l).
Proof.
  intros [Hl Hd Ho]. pose proof (Nat.mod_upper_bound t 16 ltac:(lia)).
  split; [by rewrite length_insert| |].
  - intros i H1 H2. rewrite reg_insert by lia. case_decide as He.
    + destruct (decide (i = t)) as [->|]; [done|]. exfalso. apply (mod16_ne i t); lia.
    + destruct (decide (i = t)) as [->|]; [done|]. apply Hd; lia.
  - intros i Hi. rewrite reg_insert by lia. rewrite (Nat.mod_small t) by lia.
    case_decide; [lia|]. apply Ho. lia.
Qed.

(** The round list by index. *)
Definition kind_of (t : nat) : kind :=
  if (t <? 16)%nat then R0 else if (t <? 20)%nat then R1 else if (t <? 40)%nat then R2
  else if (t <? 60)%nat then R3 else R4.
Definition mk_round (t : nat) : round :=
  let m := (t mod 5)%nat in
  Rnd (kind_of t) ((5 - m) mod 5) ((6 - m) mod 5) ((7 - m) mod 5) ((8 - m) mod 5)
    ((9 - m) mod 5) t.

Lemma rounds_eq : rounds = map mk_round (seq 0 80).
Proof. reflexivity. Qed.

Lemma load_kind t l :
  (match kind_of t with R0 => blk0 l t | _ => blk l t end) = load t l.
Proof.
  unfold kind_of, load. destruct (t <? 16)%nat; [done|].
  destruct (t <? 20)%nat; [done|]. destruct (t <? 40)%nat; [done|]. by destruct (t <? 60)%nat.
Qed.

(** Where the rotating textbook state sits in the registers. *)
Definition regs_of (m : nat) (st : word5) : list Z :=
  let '(a, b, c, d, e) := st in
  match m with
  | 0 => [a; b; c; d; e] | 1 => [b; c; d; e; a] | 2 => [c; d; e; a; b]
  | 3 => [d; e; a; b; c] | _ => [e; a; b; c; d]
  end%nat.

Definition word5_ok (st : word5) : Prop :=
  let '(a, b, c, d, e) := st in
  is_u 32 a /\ is_u 32 b /\ is_u 32 c /\ is_u 32 d /\ is_u 32 e.

Lemma rol_u32 v k : is_u 32 v -> 0 < k < 32 -> is_u 32 (rol v k).
Proof.
  intros Hv Hk. assert (rol v k = u32 (rol v k)) as ->; [|by apply wrap_range].
  unfold u32, wrap. bits_eq n Hn. destruct (Z.lt_ge_cases n 32).
  - by rewrite Z.mod_pow2_bits_low by lia.
  - rewrite Z.mod_pow2_bits_high, testbit_rol by (done || lia). by word_bits.
Qed.

Lemma mix_ref t b c d :
  is_u 32 b -> is_u 32 c -> is_u 32 d -> mix (kind_of t) b c d = ref_f t b c d.
Proof.
  intros Hb Hc Hd.
  assert (HCh : mix R0 b c d = Z.lor (Z.land b c) (Z.land (u32 (Z.lnot b)) d)).
  { unfold mix, u32, wrap. rewrite <- Z.land_ones by lia.
    bits_eq n Hn. destruct (Z.lt_ge_cases n 32) as [Hl|Hg].
    - rewrite Z.ones_spec_low, Z.lnot_spec by lia.
      by destruct (Z.testbit b n), (Z.testbit c n), (Z.testbit d n).
    - rewrite (testbit_u32 b n), (testbit_u32 c n), (testbit_u32 d n) by done.
      by rewrite !andb_false_r. }
  unfold kind_of, ref_f.
  destruct (Nat.ltb_spec t 16), (Nat.ltb_spec t 20); try lia; try exact HCh.
  destruct (Nat.ltb_spec t 40); [done|]. destruct (Nat.ltb_spec t 60); [|done].
  unfold mix. bits_eq n Hn. by destruct (Z.testbit b n), (Z.testbit c n), (Z.testbit d n).
Qed.

Lemma konst_ref t : konst (kind_of t) = ref_k t.
Proof.
  unfold kind_of, ref_k. destruct (Nat.ltb_spec t 16), (Nat.ltb_spec t 20); try lia; try done.
  destruct (Nat.ltb_spec t 40); [done|]. by destruct (Nat.ltb_spec t 60).
Qed.

Lemma round_step ws t st l l' :
  word5_ok st -> load t l = (l', reg ws t) ->
  do_round (regs_of (t mod 5) st, l) (mk_round t)
  = (regs_of (S t mod 5) (ref_step ws st t), l').
Proof.
  intros Hst Hload. destruct st as [[[[a b] c] d] e]. destruct Hst as (Ha & Hb & Hc & Hd & He).
  unfold do_round, mk_round. cbn [rk rv rw rx ry rz ri]. rewrite load_kind, Hload.
  assert (Hm : forall z, u32 (z + mix (kind_of t) b c d + reg ws t + konst (kind_of t) + rol a 5)
    = u32 (rol a 5 + ref_f t b c d + z + ref_k t + reg ws t)).
  { intros z. rewrite mix_ref, konst_ref by done. f_equal. lia. }
  cbn [ref_step]. rewrite <- Hm. clear Hm Hload.
  rewrite <- (Nat.add_1_r t), <- (Nat.Div0.add_mod_idemp_l t 1).
  pose proof (Nat.mod_upper_bound t 5 ltac:(lia)) as Hlt.
  remember (t mod 5)%nat as m. clear Heqm. do 5 (destruct m as [|m]; [reflexivity|]). lia.
Qed.

Lemma ref_step_ok ws st t : word5_ok st -> word5_ok (ref_step ws st t).
Proof.
  destruct st as [[[[a b] c] d] e]. intros (Ha & Hb & Hc & Hd & He). cbn [ref_step word5_ok].
  split_and!; try done; [by apply wrap_range | by apply rol_u32].
Qed.

Lemma rounds_spec block ws n t st l :
  length block = 64%nat -> bytes_ok block ->
  ws = schedule 64 (map be_val (chunk4 block)) ->
  (t + n = 80)%nat -> word5_ok st -> sched ws (chunk4 block) t l ->
  (fold_left do_round (map mk_round (seq t n)) (regs_of (t mod 5) st, l)).1 =
  regs_of 0 (fold_left (ref_step ws) (seq t n) st).
Proof.
  intros Hb Hok Hws. revert t st l; induction n as [|n IH]; intros t st l Ht Hst Hs.
  { assert (t = 80%nat) as -> by lia. done. }
  cbn [seq map fold_left].
  pose proof (load_spec block ws t l Hb Hok Hws ltac:(lia) Hs) as Hl.
  rewrite (round_step ws t st l _ Hst Hl).
  apply IH; [lia | by apply ref_step_ok | by apply load_sched].
Qed.

(** The five chaining words. *)
Definition state_ok (st : list Z) : Prop := exists w, st = regs_of 0 w /\ word5_ok w.

Lemma transform_compress st block :
  state_ok st -> length block = 64%nat -> bytes_ok block ->
  SHA1Transform st block = compress st block.
Proof.
  intros (w & -> & Hw) Hb Hok. destruct w as [[[[a b] c] d] e]. unfold SHA1Transform.
  assert (Hc : length (chunk4 block) = 16%nat) by (rewrite length_chunk4, Hb; done).
  pose proof (rounds_spec block (schedule 64 (map be_val (chunk4 block))) 80 0 (a, b, c, d, e)
    (map host_val (chunk4 block)) Hb Hok eq_refl eq_refl Hw) as Hr.
  rewrite rounds_eq. change (0 mod 5)%nat with 0%nat in Hr.
  destruct (fold_left do_round _ _) as [regs l]. cbn [fst] in Hr. rewrite Hr.
  - unfold compress. cbn [regs_of].
    by destruct (fold_left _ _ _) as [[[[a' b'] c'] d'] e'].
  - split.
    + by rewrite length_map.
    + intros i Hi. lia.
    + intros i Hi. by rewrite reg_map by lia.
Qed.

Lemma compress_ok st block : state_ok st -> state_ok (compress st block).
Proof.
  intros (w & -> & Hw). destruct w as [[[[a b] c] d] e]. unfold compress. cbn [regs_of].
  destruct (fold_left _ _ _) as [[[[a' b'] c'] d'] e'].
  eexists (_, _, _, _, _). split; [reflexivity|]. split_and!; by apply wrap_range.
Qed.

Lemma sha1_state_ok s : state_ok (absorb compress sha1_init s).
Proof.
  apply absorb_inv; [intros; by apply compress_ok|].
  eexists (_, _, _, _, _). split; [reflexivity|]. unfold word5_ok, is_u. lia.
Qed.

(** ** Updating *)

Lemma SHA1Loop_spec n st data i :
  state_ok st -> bytes_ok data -> (i <= length data)%nat ->
  (length (drop i data) / 64 <= n)%nat ->
  exists j, SHA1Loop n st data i = (absorb compress st (drop i data), j) /\
    drop j data = residue (drop i data).
Proof.
  revert st i; induction n as [|n IH]; intros st i Hst Hok Hi Hn.
  { assert (length (drop i data) < 64)%nat by (apply Nat.div_small_iff; lia).
    exists i. by rewrite absorb_small, residue_small by done. }
  cbn [SHA1Loop]. rewrite length_drop in Hn. destruct (Nat.ltb_spec (i + 63) (length data)).
  - assert (Hl : length (mem_read data i 64) = 64%nat) by (apply length_mem_read; lia).
    assert (Hsp : drop i data = mem_read data i 64 ++ drop (i + 64) data).
    { unfold mem_read. rewrite <- (drop_drop data), take_drop. done. }
    assert (Hro : bytes_ok (mem_read data i 64)) by (by apply mem_read_ok).
    destruct (IH (SHA1Transform st (mem_read data i 64)) (i + 64)%nat) as (j & Hj & Hd).
    + rewrite transform_compress by done. by apply compress_ok.
    + done.
    + lia.
    + rewrite length_drop. replace (length data - i)%nat with (length data - (i + 64) + 1 * 64)%nat in Hn by lia.
      rewrite Nat.div_add in Hn; lia.
    + exists j. rewrite Hj, Hd, Hsp, absorb_block, residue_block, transform_compress by done. done.
  - exists i. by rewrite absorb_small, residue_small by (rewrite length_drop; lia).
Qed.

Lemma sha1_bit_count_add t h n b0 b1 :
  is_u 32 t -> is_u 32 h -> 0 <= n ->
  b0 = u32 (t + u32 (Z.shiftl n 3)) ->
  b1 = u32 ((if b0 <? u32 (Z.shiftl n 3) then u32 (h + 1) else h) + u32 (Z.shiftr n 29)) ->
  is_u 32 b0 /\ is_u 32 b1 /\
  b0 + 2 ^ 32 * b1 = (t + 2 ^ 32 * h + 8 * n) `mod` 2 ^ 64.
Proof.
  unfold u32, wrap, is_u. rewrite Z.shiftl_mul_pow2, Z.shiftr_div_pow2 by lia.
  intros Ht Hh Hn -> ->. split; [apply Z.mod_pos_bound; lia|].
  split; [apply Z.mod_pos_bound; lia|].
  destruct (Z.ltb_spec ((t + (n * 2 ^ 3) mod 2 ^ 32) mod 2 ^ 32) ((n * 2 ^ 3) mod 2 ^ 32)).
  all: dlia.
Qed.

Record absorbed (ctx : SHA1_CTX) (s : bytes) : Prop := {
  abs_state : state ctx = absorb compress sha1_init s;
  abs_len : length (buffer ctx) = 64%nat;
  abs_ok : bytes_ok (buffer ctx);
  abs_in : take (length s mod 64)%nat (buffer ctx) = residue s;
  abs_b0 : is_u 32 (count0 ctx);
  abs_b1 : is_u 32 (count1 ctx);
  abs_bits : count0 ctx + 2 ^ 32 * count1 ctx = (8 * Z.of_nat (length s)) `mod` 2 ^ 64;
}.

Lemma sha1_absorbed_init in0 :
  length in0 = 64%nat -> bytes_ok in0 -> absorbed (SHA1Init in0) [].
Proof. intros. split; try done; unfold is_u; cbn; lia. Qed.

(** The low nine bits of the count: the position in the buffer, in bits. *)
Lemma count_low ctx s :
  absorbed ctx s -> count0 ctx mod 2 ^ 9 = 8 * Z.of_nat (length s mod 64)%nat.
Proof.
  intros [_ _ _ _ H0 H1 Hb]. unfold is_u in *. rewrite (Nat2Z.inj_mod _ 64). dlia.
Qed.

Lemma sha1_bits_index ctx s :
  absorbed ctx s -> Z.to_nat (Z.land (Z.shiftr (count0 ctx) 3) 63) = (length s mod 64)%nat.
Proof.
  intros Ha. pose proof (count_low _ _ Ha) as Hc. change 63 with (Z.ones 6).
  rewrite Z.land_ones, Z.shiftr_div_pow2 by lia.
  assert ((count0 ctx / 2 ^ 3) mod 2 ^ 6 = Z.of_nat (length s mod 64)%nat) as -> by dlia.
  by rewrite Nat2Z.id.
Qed.

Lemma SHA1Update_absorbed ctx s data :
  absorbed ctx s -> bytes_ok data -> absorbed (SHA1Update ctx data) (s ++ data).
Proof.
  intros Ha Hd. pose proof (sha1_bits_index ctx s Ha) as Hidx.
  destruct Ha as [Hst Hlen Hok Hin H0 H1 Hbits].
  unfold SHA1Update. rewrite Hidx.
  remember (u32 (count0 ctx + u32 (Z.shiftl (Z.of_nat (length data)) 3))) as b0 eqn:E0.
  remember (u32 ((if b0 <? u32 (Z.shiftl (Z.of_nat (length data)) 3)
      then u32 (count1 ctx + 1) else count1 ctx)
    + u32 (Z.shiftr (Z.of_nat (length data)) 29))) as b1 eqn:E1.
  destruct (sha1_bit_count_add _ _ _ b0 b1 H0 H1 (Nat2Z.is_nonneg _) E0 E1) as (Hr0 & Hr1 & Hsum).
  clear E0 E1.
  assert (Hsum' : b0 + 2 ^ 32 * b1 = (8 * Z.of_nat (length (s ++ data))) `mod` 2 ^ 64).
  { rewrite Hsum, Hbits, length_app. rewrite Zplus_mod_idemp_l. f_equal. lia. }
  pose proof (length_residue s) as Hrl.
  assert (Hmod : (length (s ++ data) mod 64 = (length s mod 64 + length data) mod 64)%nat)
    by (by rewrite length_app, Nat.Div0.add_mod_idemp_l).
  pose proof (Nat.mod_upper_bound (length s) 64 ltac:(lia)) as Hlt.
  set (t := (length s mod 64)%nat) in *.
  destruct (Nat.ltb_spec 63 (t + length data)) as [Hlg|Hsh].
  - set (block := mem_write (buffer ctx) t (take (64 - t) data)).
    assert (Hblk : block = residue s ++ take (64 - t) data).
    { subst block. rewrite mem_write_end; [by rewrite Hin|]. rewrite length_take. lia. }
    assert (Hbl : length block = 64%nat) by (rewrite Hblk, length_app, length_take; lia).
    assert (Hbok : bytes_ok block) by (apply mem_write_ok; [done|by apply Forall_take]).
    assert (Hsok : state_ok (state ctx)) by (rewrite Hst; apply sha1_state_ok).
    rewrite transform_compress by done.
    destruct (SHA1Loop_spec (length data) (compress (state ctx) block) data (64 - t)%nat)
      as (j & -> & Hj); [by apply compress_ok|done|lia| |].
    { apply Nat.Div0.div_le_upper_bound. rewrite length_drop. lia. }
    rewrite Hj.
    assert (Hsplit : residue s ++ data = block ++ drop (64 - t) data)
      by (by rewrite Hblk, <- app_assoc, take_drop).
    assert (Hrd : length (residue (drop (64 - t) data)) = (length (s ++ data) mod 64)%nat).
    { rewrite Hmod, length_residue, length_drop.
      replace (t + length data)%nat with (length data - (64 - t) + 1 * 64)%nat by lia.
      by rewrite Nat.Div0.mod_add. }
    split; cbn [state count0 count1 buffer]; auto.
    + by rewrite absorb_app, Hsplit, absorb_block, Hst.
    + rewrite length_mem_write; [done|]. rewrite Hrd.
      pose proof (Nat.mod_upper_bound (length (s ++ data)) 64). lia.
    + apply mem_write_ok; [done|]. by apply Forall_drop, Forall_drop.
    + rewrite residue_app, Hsplit, residue_block, <- Hrd by done.
      pose proof (take_mem_write block 0 (residue (drop (64 - t) data))) as Ht.
      rewrite take_0 in Ht. apply Ht. lia.
  - assert (Hsm : (length (residue s ++ data) < 64)%nat) by (rewrite length_app; lia).
    rewrite drop_0. split; cbn [state count0 count1 buffer]; auto.
    + by rewrite absorb_app, absorb_small, <- Hst.
    + rewrite length_mem_write; [done|lia].
    + by apply mem_write_ok.
    + rewrite Hmod, Nat.mod_small by lia. rewrite take_mem_write by lia.
      rewrite residue_app, residue_small, Hin by done. done.
Qed.

(** ** Finishing *)

Lemma count_448 ctx s :
  absorbed ctx s -> Z.land (count0 ctx) 504 = 448 <-> (length s mod 64 = 56)%nat.
Proof.
  intros Ha. pose proof (count_low _ _ Ha) as Hc.
  assert (Z.land (count0 ctx) 504 = count0 ctx mod 2 ^ 9) as ->; [|lia].
  rewrite <- Z.land_ones by lia. bits_eq n Hn.
  destruct (Z.lt_ge_cases n 3) as [Hl|Hg].
  - assert (Z.testbit (count0 ctx) n = Z.testbit (count0 ctx mod 2 ^ 9) n) as ->
      by (by rewrite Z.mod_pow2_bits_low by lia).
    rewrite Hc. replace (8 * Z.of_nat (length s mod 64)%nat)
      with (Z.shiftl (Z.of_nat (length s mod 64)%nat) 3)
      by (rewrite Z.shiftl_mul_pow2; lia).
    by rewrite Z.shiftl_spec_low by lia.
  - f_equal. change 504 with (Z.shiftl (Z.ones 6) 3). rewrite Z.shiftl_spec by lia.
    rewrite !Z.testbit_ones by lia. lia.
Qed.

Lemma pad_loop_spec n ctx s k :
  absorbed ctx s -> k = ((120 - length s mod 64) mod 64)%nat -> (k < n)%nat ->
  absorbed (pad_loop n ctx) (s ++ repeat 0 k).
Proof.
  revert ctx s k; induction n as [|n IH]; intros ctx s k Ha Hk Hn; [lia|].
  cbn [pad_loop]. pose proof (count_448 ctx s Ha) as Hc.
  pose proof (Nat.mod_upper_bound (length s) 64 ltac:(lia)) as Hlt.
  destruct (Z.eqb_spec (Z.land (count0 ctx) 504) 448) as [He|Hne].
  - apply Hc in He. rewrite He in Hk. change k with k. subst k. by rewrite app_nil_r.
  - assert (Hne' : (length s mod 64 <> 56)%nat) by (by rewrite <- Hc).
    assert (Hk0 : (k <> 0)%nat).
    { intros ->. pose proof (Nat.div_mod_eq (120 - length s mod 64) 64). lia. }
    destruct k as [|k]; [lia|]. cbn [repeat].
    change (0 :: repeat 0 k) with ([0] ++ repeat 0 k). rewrite app_assoc. apply IH.
    + apply SHA1Update_absorbed; [done|solve_bytes].
    + rewrite length_app. cbn [length].
      rewrite <- (Nat.Div0.add_mod_idemp_l (length s) 1).
      pose proof (Nat.div_mod_eq (120 - length s mod 64) 64).
      destruct (decide (length s mod 64 = 63)%nat) as [E|E].
      * rewrite E in *. change ((63 + 1) mod 64)%nat with 0%nat. vm_compute in Hk. by simplify_eq.
      * rewrite (Nat.mod_small (length s mod 64 + 1)) by lia.
        pose proof (Nat.mod_upper_bound (120 - length s mod 64) 64 ltac:(lia)).
        pose proof (Nat.div_mod_eq (120 - (length s mod 64 + 1)) 64).
        pose proof (Nat.mod_upper_bound (120 - (length s mod 64 + 1)) 64 ltac:(lia)). lia.
    + lia.
Qed.

(** [finalcount] is the 64-bit count, big endian. *)
Lemma be_byte (n i : nat) v :
  (i < n)%nat -> nth i (be_bytes n v) 0 = v / 256 ^ Z.of_nat (n - 1 - i) mod 256.
Proof.
  intros Hi. unfold be_bytes. rewrite rev_nth by (by rewrite length_le_bytes).
  rewrite length_le_bytes. replace (n - S i)%nat with (n - 1 - i)%nat by lia.
  assert (Hk : (n - 1 - i < n)%nat) by lia. revert Hk. generalize (n - 1 - i)%nat as k. clear.
  intros k; revert v k. induction n as [|n IH]; intros v k Hk; [lia|].
  destruct k as [|k]; [cbn [le_bytes nth]; by rewrite Z.div_1_r|].
  cbn [le_bytes nth]. rewrite IH by lia. f_equal.
  rewrite Z.div_div by lia. f_equal. rewrite <- Z.pow_succ_r by lia. f_equal. lia.
Qed.

Lemma land255 v k : 0 <= k -> Z.land (Z.shiftr v k) 255 = v / 2 ^ k mod 256.
Proof. intros. change 255 with (Z.ones 8). by rewrite Z.land_ones, Z.shiftr_div_pow2 by lia. Qed.

Lemma be4_spell v :
  be_bytes 4 v = [Z.land (Z.shiftr v 24) 255; Z.land (Z.shiftr v 16) 255;
                  Z.land (Z.shiftr v 8) 255; Z.land (Z.shiftr v 0) 255].
Proof.
  rewrite !land255 by lia. unfold be_bytes. cbn [le_bytes rev app].
  rewrite Z.div_1_r, !Z.div_div by lia. done.
Qed.

Lemma be_bytes8 c0 c1 n :
  is_u 32 c0 -> is_u 32 c1 -> c0 + 2 ^ 32 * c1 = n `mod` 2 ^ 64 ->
  be_bytes 8 n = be_bytes 4 c1 ++ be_bytes 4 c0.
Proof.
  intros H0 H1 Hn. unfold be_bytes. rewrite <- rev_app_distr. f_equal.
  rewrite <- (le_bytes_mod 8 n). change (256 ^ Z.of_nat 8) with (2 ^ 64). rewrite <- Hn.
  rewrite (le_bytes_app 4 4). unfold is_u in *. f_equal.
  - rewrite <- le_bytes_mod. f_equal. change (256 ^ Z.of_nat 4) with (2 ^ 32). dlia.
  - f_equal. change (256 ^ Z.of_nat 4) with (2 ^ 32). dlia.
Qed.

Lemma pad_zeros (s : bytes) :
  ((120 - length (s ++ [128%Z]) mod 64) mod 64)%nat = ((119 - length s mod 64) mod 64)%nat.
Proof.
  rewrite length_app. cbn [length]. rewrite <- (Nat.Div0.add_mod_idemp_l (length s) 1).
  pose proof (Nat.mod_upper_bound (length s) 64 ltac:(lia)).
  destruct (decide (length s mod 64 = 63)%nat) as [->|E]; [done|].
  rewrite (Nat.mod_small (length s mod 64 + 1)) by lia. f_equal. lia.
Qed.

Lemma SHA1Digest_ref ctx s : absorbed ctx s -> SHA1Digest ctx = sha1_ref s.
Proof.
  intros Ha. unfold SHA1Digest. remember (map (fun i : nat => _) (seq 0 8)) as fc eqn:Hfc.
  assert (Hf : fc = be_bytes 8 (8 * Z.of_nat (length s))).
  { rewrite (be_bytes8 _ _ _ (abs_b0 _ _ Ha) (abs_b1 _ _ Ha) (abs_bits _ _ Ha)).
    subst fc. by rewrite !be4_spell. }
  rewrite Hf. clear fc Hfc Hf.
  apply (SHA1Update_absorbed _ _ [128]) in Ha; [|solve_bytes].
  assert (Hp : absorbed (pad_loop pad_fuel (SHA1Update ctx [128]))
    ((s ++ [128]) ++ repeat 0 ((119 - length s mod 64) mod 64))).
  { apply pad_loop_spec; [done|by rewrite pad_zeros|].
    unfold pad_fuel. by apply Nat.mod_upper_bound. }
  apply (SHA1Update_absorbed _ _ (be_bytes 8 (8 * Z.of_nat (length s)))) in Hp;
    [|apply be_bytes_ok].
  rewrite <- !app_assoc in Hp. unfold sha1_ref. fold (sha1_pad (length s)) in Hp.
  rewrite (abs_state _ _ Hp).
  destruct (sha1_state_ok (s ++ sha1_pad (length s))) as ([[[[a b] c] d] e] & -> & _).
  cbn [regs_of map concat]. by rewrite !be4_spell.
Qed.

Lemma SHA1Updates_absorbed ctx s chunks :
  absorbed ctx s -> Forall bytes_ok chunks ->
  absorbed (fold_left SHA1Update chunks ctx) (s ++ concat chunks).
Proof.
  intros Ha Hc. revert ctx s Ha; induction Hc as [|c cs Hc _ IH]; intros ctx s Ha;
    [by rewrite app_nil_r|]. cbn [fold_left concat]. rewrite app_assoc.
  by apply IH, SHA1Update_absorbed.
Qed.

(** the unrolled transform with its circular 16-word schedule, expanded
    in place and byte-swapped on a little-endian host, computes the FIPS 180
    compression function with its 80-word schedule, on either kind of host. *)
Theorem sha1_transform_correct a b c d e block :
  Forall (is_u 32) [a; b; c; d; e] -> length block = 64%nat -> bytes_ok block ->
  SHA1Transform [a; b; c; d; e] block = compress [a; b; c; d; e] block.
Proof.
  intros Hw Hl Hok. apply transform_compress; [|done|done].
  exists (a, b, c, d, e). split; [done|].
  rewrite List.Forall_forall in Hw. split_and!; apply Hw; cbn; tauto.
Qed.

(** hashing a message in arbitrary pieces with SHA1Init, SHA1Update and
    SHA1Final, whatever the context's buffer held before, yields the digest
    of the padded concatenation (0x80, zeros, the 64-bit big-endian bit
    count); the padding loop of SHA1Final stops. *)
Theorem sha1_streaming in0 chunks :
  length in0 = 64%nat -> bytes_ok in0 -> Forall bytes_ok chunks ->
  (SHA1Final (fold_left SHA1Update chunks (SHA1Init in0))).1 = sha1_ref (concat chunks).
Proof.
  intros. apply SHA1Digest_ref. apply (SHA1Updates_absorbed _ []); [|done].
  by apply sha1_absorbed_init.
Qed.

End Transform.

(** The vectors of FIPS 180. *)
Example sha1_abc : sha1_ref (str "abc") = be_bytes 20 0xa9993e364706816aba3e25717850c26c9cd0d89d.
Proof. vm_compute. reflexivity. Qed.

Lemma sha1_transform_correct_witness :
  @SHA1Transform x86 [1; 2; 3; 4; 5] (repeat 6 64) = compress [1; 2; 3; 4; 5] (repeat 6 64).
Proof.
  apply (@sha1_transform_correct x86 1 2 3 4 5 (repeat 6 64)).
  - repeat (apply List.Forall_cons; [unfold is_u; lia|]). apply List.Forall_nil.
  - reflexivity.
  - solve_bytes.
Defined.

Lemma sha1_streaming_witness :
  (@SHA1Final x86 (fold_left (@SHA1Update x86) [str "ab"; []; str "c"] (@SHA1Init (repeat 7 64)))).1
  = sha1_ref (str "abc").
Proof.
  apply (@sha1_streaming x86 (repeat 7 64) [str "ab"; []; str "c"]).
  - reflexivity.
  - solve_bytes.
  - repeat (apply List.Forall_cons; [solve_bytes|]); apply List.Forall_nil.
Defined.

End Sha1.
