(* ===== verification/Base64.v ===== *)
(** * base/base64.cc: base64 encoding and decoding

    The encoder writes into a result string of the size computed in advance
    ([None]: an index past that size); the decoder follows [GetNextQuantum]
    with its parse, padding and termination flags.  The reference is
    [b64], the encoding by triples of bytes. *)

From S2P Require Import Prelude.
Open Scope jingle_scope.

Module Base64.

Definition DecodeFlags : Type := Z.
Definition DO_PARSE_STRICT : Z := 1.
Definition DO_PARSE_WHITE : Z := 2.
Definition DO_PARSE_ANY : Z := 3.
Definition DO_PARSE_MASK : Z := 3.
Definition DO_PAD_YES : Z := 4.
Definition DO_PAD_ANY : Z := 8.
Definition DO_PAD_NO : Z := 12.
Definition DO_PAD_MASK : Z := 12.
Definition DO_TERM_BUFFER : Z := 16.
Definition DO_TERM_CHAR : Z := 32.
Definition DO_TERM_ANY : Z := 48.
Definition DO_TERM_MASK : Z := 48.
Definition DO_STRICT : Z := Z.lor (Z.lor DO_PARSE_STRICT DO_PAD_YES) DO_TERM_BUFFER.
Definition DO_LAX : Z := Z.lor (Z.lor DO_PARSE_ANY DO_PAD_ANY) DO_TERM_CHAR.

Definition kPad : Z := chr "=".
Definition pd : Z := 0xFD.
Definition sp : Z := 0xFE.
Definition il : Z := 0xFF.

Definition Base64Table : bytes :=
  str "ABCDEFGHIJKLMNOPQRSTUVWXYZabcdefghijklmnopqrstuvwxyz0123456789+/".

Definition DecodeTable : list Z := [
  il;il;il;il;il;il;il;il;il;sp;
  sp;sp;sp;sp;il;il;il;il;il;il;
  il;il;il;il;il;il;il;il;il;il;
  il;il;sp;il;il;il;il;il;il;il;
  il;il;il;62;il;il;il;63;52;53;
  54;55;56;57;58;59;60;61;il;il;
  il;pd;il;il;il; 0; 1; 2; 3; 4;
   5; 6; 7; 8; 9;10;11;12;13;14;
  15;16;17;18;19;20;21;22;23;24;
  25;il;il;il;il;il;il;26;27;28;
  29;30;31;32;33;34;35;36;37;38;
  39;40;41;42;43;44;45;46;47;48;
  49;50;51;il;il;il;il;il;il;il;
  il;il;il;il;il;il;il;il;il;il;
  il;il;il;il;il;il;il;il;il;il;
  il;il;il;il;il;il;il;il;il;il;
  il;il;il;il;il;il;il;il;il;il;
  il;il;il;il;il;il;il;il;il;il;
  il;il;il;il;il;il;il;il;il;il;
  il;il;il;il;il;il;il;il;il;il;
  il;il;il;il;il;il;il;il;il;il;
  il;il;il;il;il;il;il;il;il;il;
  il;il;il;il;il;il;il;il;il;il;
  il;il;il;il;il;il;il;il;il;il;
  il;il;il;il;il;il;il;il;il;il;
  il;il;il;il;il;il ].

Definition tbl (c : Z) : Z := nth (Z.to_nat c) Base64Table 0.
Definition dec (ch : Z) : Z := nth (Z.to_nat ch) DecodeTable il.

Definition IsBase64Char (ch : Z) : bool :=
  ((chr "A" <=? ch) && (ch <=? chr "Z")) ||
  ((chr "a" <=? ch) && (ch <=? chr "z")) ||
  ((chr "0" <=? ch) && (ch <=? chr "9")) ||
  (ch =? chr "+") || (ch =? chr "/").

(** The outer [None] is a read past the end of the table; the inner one is
    [return false]. *)
Definition GetNextBase64Char (ch : Z) : option (option Z) :=
  match strchr Base64Table ch with
  | None => Some None
  | Some p =>
      let p := S p in
      if (p <? length Base64Table)%nat then Some (Some (nth p Base64Table 0))
      else if (p =? length Base64Table)%nat then Some (Some (nth 0 Base64Table 0))
      else None
  end.

Definition IsBase64Encoded (s : bytes) : bool := forallb IsBase64Char s.

(** ** Encoding *)

(** [result[dest_ix++] = c]. *)
Definition put (st : bytes * nat) (c : Z) : option (bytes * nat) :=
  let '(result, dest_ix) := st in
  require! (dest_ix <? length result)%nat in Some (<[dest_ix := c]> result, S dest_ix).

(** One iteration of the loop, from input index [i]. *)
Definition encode_step (data : bytes) (st : bytes * nat) (i : nat) : option (bytes * nat * nat) :=
  let len := length data in
  let byte i := nth i data 0 in
  let c := Z.land (Z.shiftr (byte i) 2) 0x3f in
  let? st := put st (tbl c) in
  let c := Z.land (Z.shiftl (byte i) 4) 0x3f in
  let i := S i in
  let c := if (i <? len)%nat then Z.lor c (Z.land (Z.shiftr (byte i) 4) 0x0f) else c in
  let? st := put st (tbl c) in
  let? (st, i) :=
    (if (i <? len)%nat then
       let c := Z.land (Z.shiftl (byte i) 2) 0x3f in
       let i := S i in
       let c := if (i <? len)%nat then Z.lor c (Z.land (Z.shiftr (byte i) 6) 0x03) else c in
       let? st := put st (tbl c) in Some (st, i)
     else let? st := put st kPad in Some (st, i)) in
  if (i <? len)%nat then
    let c := Z.land (byte i) 0x3f in
    let? st := put st (tbl c) in Some (st, S i)
  else let? st := put st kPad in Some (st, i).

(** [while (i < len)]; [n] bounds the iterations. *)
Fixpoint encode_loop (n : nat) (data : bytes) (st : bytes * nat) (i : nat) : option (bytes * nat) :=
  if (i <? length data)%nat then
    match n with
    | O => None
    | S n' => let? (st, i) := encode_step data st i in encode_loop n' data st i
    end
  else Some st.

Definition EncodeFromArray (data : bytes) : option bytes :=
  let result := repeat 0 ((length data + 2) / 3 * 4) in
  let? (result, _) := encode_loop (length data) data (result, 0%nat) 0 in Some result.

Definition Encode (data : bytes) : option bytes := EncodeFromArray data.

(** ** Decoding *)

(** The local variables of [GetNextQuantum] and the position of the caller. *)
Record quantum := mkq {
  byte_len : nat;
  pad_len : nat;
  pad_start : nat;
  qbuf : list Z;
  dpos : nat;
}.

(** The loop of [GetNextQuantum]; [n] is at least the number of characters
    left. *)
Fixpoint quantum_loop (n : nat) (parse_flags : DecodeFlags) (illegal_pads : bool)
    (data : bytes) (q : quantum) : quantum :=
  match n with
  | O => q
  | S n' =>
      if ((byte_len q <? 4) && (dpos q <? length data))%nat then
        let v := dec (nth (dpos q) data 0) in
        let q := {| byte_len := byte_len q; pad_len := pad_len q; pad_start := pad_start q;
                    qbuf := <[byte_len q := v]> (qbuf q); dpos := dpos q |} in
        let next q := quantum_loop n' parse_flags illegal_pads data
          {| byte_len := byte_len q; pad_len := pad_len q; pad_start := pad_start q;
             qbuf := qbuf q; dpos := S (dpos q) |} in
        if (il =? v) || (illegal_pads && (pd =? v)) then
          if negb (parse_flags =? DO_PARSE_ANY) then q else next q
        else if sp =? v then
          if parse_flags =? DO_PARSE_STRICT then q else next q
        else if pd =? v then
          if (byte_len q <? 2)%nat then
            if negb (parse_flags =? DO_PARSE_ANY) then q else next q
          else if (4 <=? byte_len q + pad_len q)%nat then
            if negb (parse_flags =? DO_PARSE_ANY) then q else next q
          else
            next {| byte_len := byte_len q; pad_len := S (pad_len q);
                    pad_start := if (S (pad_len q) =? 1)%nat then dpos q else pad_start q;
                    qbuf := qbuf q; dpos := dpos q |}
        else
          if (0 <? pad_len q)%nat && negb (parse_flags =? DO_PARSE_ANY) then q
          else next {| byte_len := S (byte_len q); pad_len := 0; pad_start := pad_start q;
                       qbuf := qbuf q; dpos := dpos q |}
      else q
  end.

(** Returns the length, the new position, the buffer and [padded]. *)
Definition GetNextQuantum (parse_flags : DecodeFlags) (illegal_pads : bool) (data : bytes)
    (dpos0 : nat) (qbuf0 : list Z) : nat * nat * list Z * bool :=
  let q := quantum_loop (length data - dpos0) parse_flags illegal_pads data
    {| byte_len := 0; pad_len := 0; pad_start := 0; qbuf := qbuf0; dpos := dpos0 |} in
  let buf := take (byte_len q) (qbuf q) ++ repeat 0 (4 - byte_len q) in
  if (4 =? byte_len q + pad_len q)%nat then (byte_len q, dpos q, buf, true)
  else (byte_len q, if (pad_len q =? 0)%nat then dpos q else pad_start q, buf, false).

(** [while (dpos < len)]: the result, [success] and the final position;
    [None] when [n] iterations are not enough. *)
Fixpoint decode_loop (n : nat) (flags : DecodeFlags) (data : bytes)
    (result : bytes) (dpos : nat) (qbuf : list Z) : option (bytes * bool * nat) :=
  let parse_flags := Z.land flags DO_PARSE_MASK in
  let pad_flags := Z.land flags DO_PAD_MASK in
  let term_flags := Z.land flags DO_TERM_MASK in
  if (dpos <? length data)%nat then
    match n with
    | O => None
    | S n' =>
        let '(qlen, dpos, q, padded) :=
          GetNextQuantum parse_flags (DO_PAD_NO =? pad_flags) data dpos qbuf in
        let q_ i := nth i q 0 in
        let c := u8 (Z.lor (Z.shiftl (q_ 0%nat) 2) (Z.land (Z.shiftr (q_ 1%nat) 4) 0x3)) in
        let '(result, c) :=
          if (2 <=? qlen)%nat then
            let result := result ++ [c] in
            let c := Z.lor (Z.land (Z.shiftl (q_ 1%nat) 4) 0xf0)
                       (Z.land (Z.shiftr (q_ 2%nat) 2) 0xf) in
            if (3 <=? qlen)%nat then
              let result := result ++ [c] in
              let c := Z.lor (Z.land (Z.shiftl (q_ 2%nat) 6) 0xc0) (q_ 3%nat) in
              if (4 <=? qlen)%nat then (result ++ [c], 0) else (result, c)
            else (result, c)
          else (result, c) in
        if (qlen <? 4)%nat then
          let unused_bits := negb (term_flags =? DO_TERM_ANY) && negb (0 =? c) in
          let expected_padding := (DO_PAD_YES =? pad_flags) && negb padded in
          Some (result, negb unused_bits && negb expected_padding, dpos)
        else decode_loop n' flags data result dpos q
    end
  else Some (result, true, dpos).

(** Returns [success], the result and [data_used]; [qbuf0] is what the
    uninitialised array holds. *)
Definition DecodeFromArray (qbuf0 : list Z) (data : bytes) (flags : DecodeFlags)
  : option (bool * bytes * nat) :=
  let? (result, success, dpos) := decode_loop (length data) flags data [] 0 qbuf0 in
  let success :=
    if (DO_TERM_BUFFER =? Z.land flags DO_TERM_MASK) && negb (dpos =? length data)%nat
    then false else success in
  Some (success, result, dpos).

Definition valid_flags (flags : DecodeFlags) : Prop :=
  0 <= flags < 64 /\ Z.land flags DO_PARSE_MASK <> 0 /\ Z.land flags DO_PAD_MASK <> 0
  /\ Z.land flags DO_TERM_MASK <> 0.

(** ** Reference encoding, three bytes at a time *)

Fixpoint b64 (data : bytes) : bytes :=
  match data with
  | x :: y :: z :: r =>
      tbl (x / 4) :: tbl (x mod 4 * 16 + y / 16) :: tbl (y mod 16 * 4 + z / 64)
      :: tbl (z mod 64) :: b64 r
  | [x; y] => [tbl (x / 4); tbl (x mod 4 * 16 + y / 16); tbl (y mod 16 * 4); kPad]
  | [x] => [tbl (x / 4); tbl (x mod 4 * 16); kPad; kPad]
  | [] => []
  end.

Example enc_ex : map (fun s => EncodeFromArray (str s)) ["Man"; "Ma"; "M"; ""]%string
  = map (fun s => Some (str s)) ["TWFu"; "TWE="; "TQ=="; ""]%string.
Proof. vm_compute. reflexivity. Qed.
Example dec_ex : map (fun s => DecodeFromArray [9;9;9;9] (str s) DO_STRICT) ["TWFu"; "TWE="; "TQ=="; "TQ"]%string
  = [Some (true, str "Man", 4%nat); Some (true, str "Ma", 4%nat); Some (true, str "M", 4%nat);
     Some (false, str "M", 2%nat)].
Proof. vm_compute. reflexivity. Qed.

(** ** The tables *)

Lemma tbl_facts : forall k, 0 <= k < 64 ->
  (dec (tbl k) =? k) && IsBase64Char (tbl k) && (0 <=? tbl k) && (tbl k <? 256) = true.
Proof. apply (forall_below 64). vm_compute. reflexivity. Qed.

Lemma dec_tbl k : 0 <= k < 64 -> dec (tbl k) = k.
Proof. intros H%tbl_facts. bool_simpl. done. Qed.

Lemma tbl_byte k : 0 <= k < 64 -> is_byte (tbl k).
Proof. intros H%tbl_facts. bool_simpl. by split. Qed.

Lemma dec_facts : forall c, 0 <= c < 256 ->
  ((dec c <? 64) && (0 <=? dec c) && (tbl (dec c) =? c)) || (dec c =? il) || (dec c =? sp)
  || ((dec c =? pd) && (c =? kPad)) = true.
Proof. apply (forall_below 256). vm_compute. reflexivity. Qed.

(** The four classes of input characters. *)
Lemma dec_cases c :
  is_byte c ->
  (0 <= dec c < 64 /\ tbl (dec c) = c) \/ dec c = il \/ dec c = sp \/ (dec c = pd /\ c = kPad).
Proof.
  intros Hc%dec_facts. rewrite !orb_true_iff in Hc.
  destruct Hc as [[[H|H]|H]|H]; bool_simpl; auto 6 with lia.
Qed.

(** ** Encoding computes the reference *)

Lemma put_snoc d r c :
  put (d ++ 0 :: r, length d) c = Some ((d ++ [c]) ++ r, length (d ++ [c])).
Proof.
  unfold put. rewrite !length_app. cbn [length].
  destruct (Nat.ltb_spec (length d) (length d + S (length r))); [|lia].
  rewrite insert_app_r_alt, Nat.sub_diag by lia. cbn. rewrite <- app_assoc, Nat.add_1_r. done.
Qed.

(** The bit fields of three bytes. *)
Lemma enc_bits x y :
  is_byte x -> is_byte y ->
  Z.land (Z.shiftr x 2) 0x3f = x / 4 /\
  Z.land (Z.shiftl x 4) 0x3f = x mod 4 * 16 /\
  Z.lor (Z.land (Z.shiftl x 4) 0x3f) (Z.land (Z.shiftr y 4) 0x0f) = x mod 4 * 16 + y / 16 /\
  Z.land (Z.shiftl x 2) 0x3f = x mod 16 * 4 /\
  Z.lor (Z.land (Z.shiftl x 2) 0x3f) (Z.land (Z.shiftr y 6) 0x03) = x mod 16 * 4 + y / 64 /\
  Z.land x 0x3f = x mod 64.
Proof.
  unfold is_byte. intros Hx Hy. change 0x3f with (2 ^ 6 - 1). change 0x0f with (2 ^ 4 - 1).
  change 0x03 with (2 ^ 2 - 1).
  rewrite !land_mask, !Z.shiftr_div_pow2, !Z.shiftl_mul_pow2 by lia.
  assert ((x * 2 ^ 4) mod 2 ^ 6 = x mod 4 * 16) as -> by dlia.
  assert ((x * 2 ^ 2) mod 2 ^ 6 = x mod 16 * 4) as -> by dlia.
  assert ((y / 2 ^ 4) mod 2 ^ 4 = y / 16) as -> by dlia.
  assert ((y / 2 ^ 6) mod 2 ^ 2 = y / 64) as -> by dlia.
  pose proof (lor_add 4 (x mod 4) (y / 16)) as H4. pose proof (lor_add 2 (x mod 16) (y / 64)) as H2.
  change (2 ^ 4) with 16 in *. change (2 ^ 2) with 4 in *.
  split_and!; dlia.
Qed.

(** Rewrite the index tests that the context decides. *)
Ltac ltb_known :=
  repeat match goal with
  | H : (?a < ?b)%nat |- context [(?a <? ?b)%nat] => rewrite (proj2 (Nat.ltb_lt a b) H)
  | H : (?b <= ?a)%nat |- context [(?a <? ?b)%nat] => rewrite (proj2 (Nat.ltb_ge a b) H)
  end.

Lemma encode_step_3 data d r i x y z s :
  is_byte x -> is_byte y -> is_byte z -> drop i data = x :: y :: z :: s ->
  encode_step data (d ++ repeat 0 4 ++ r, length d) i =
  Some ((d ++ take 4 (b64 (x :: y :: z :: s))) ++ r,
        length (d ++ take 4 (b64 (x :: y :: z :: s))), S (S (S i))).
Proof.
  intros Hx Hy Hz Hd. destruct (drop_cons_inv _ _ _ _ Hd) as (H1 & L1 & Hd1).
  destruct (drop_cons_inv _ _ _ _ Hd1) as (H2 & L2 & Hd2).
  destruct (drop_cons_inv _ _ _ _ Hd2) as (H3 & L3 & _).
  unfold encode_step. cbv zeta. cbn [repeat app]. rewrite put_snoc, H1.
  ltb_known. rewrite put_snoc, H2.
  ltb_known. rewrite put_snoc, H3.
  rewrite put_snoc.
  destruct (enc_bits x y Hx Hy) as (-> & _ & -> & _).
  destruct (enc_bits y z Hy Hz) as (_ & _ & _ & _ & -> & _).
  destruct (enc_bits z z Hz Hz) as (_ & _ & _ & _ & _ & ->).
  ltb_known. cbn [b64 take]. by rewrite <- !app_assoc.
Qed.

Lemma encode_step_2 data d r i x y :
  is_byte x -> is_byte y -> drop i data = [x; y] ->
  encode_step data (d ++ repeat 0 4 ++ r, length d) i =
  Some ((d ++ b64 [x; y]) ++ r, length (d ++ b64 [x; y]), S (S i)).
Proof.
  intros Hx Hy Hd. destruct (drop_cons_inv _ _ _ _ Hd) as (H1 & L1 & Hd1).
  destruct (drop_cons_inv _ _ _ _ Hd1) as (H2 & L2 & Hd2%drop_nil_inv).
  unfold encode_step. cbv zeta. cbn [repeat app]. rewrite put_snoc, H1.
  ltb_known. rewrite put_snoc, H2.
  ltb_known. rewrite put_snoc, put_snoc.
  destruct (enc_bits x y Hx Hy) as (-> & _ & -> & _).
  destruct (enc_bits y y Hy Hy) as (_ & _ & _ & -> & _).
  ltb_known. rewrite ?put_snoc. cbn [b64]. by rewrite <- !app_assoc.
Qed.

Lemma encode_step_1 data d r i x :
  is_byte x -> drop i data = [x] ->
  encode_step data (d ++ repeat 0 4 ++ r, length d) i =
  Some ((d ++ b64 [x]) ++ r, length (d ++ b64 [x]), S i).
Proof.
  intros Hx Hd. destruct (drop_cons_inv _ _ _ _ Hd) as (H1 & L1 & Hd1%drop_nil_inv).
  unfold encode_step. cbv zeta. cbn [repeat app]. rewrite put_snoc, H1.
  ltb_known. rewrite put_snoc, put_snoc.
  ltb_known. rewrite put_snoc.
  destruct (enc_bits x x Hx Hx) as (-> & -> & _).
  ltb_known. rewrite ?put_snoc. cbn [b64]. by rewrite <- !app_assoc.
Qed.

(** Induction by triples. *)
Lemma triples_ind (P : bytes -> Prop) :
  P [] -> (forall x, P [x]) -> (forall x y, P [x; y]) ->
  (forall x y z s, P s -> P (x :: y :: z :: s)) -> forall s, P s.
Proof.
  intros H0 H1 H2 H3. fix IH 1. intros [|x [|y [|z s]]]; [exact H0|apply H1|apply H2|apply H3, IH].
Qed.

Lemma length_b64 s : length (b64 s) = ((length s + 2) / 3 * 4)%nat.
Proof.
  induction s as [|x|x y|x y z s IH] using triples_ind; [done..|].
  cbn [b64 length]. rewrite IH.
  replace (S (S (S (length s))) + 2)%nat with (length s + 2 + 1 * 3)%nat by lia.
  rewrite Nat.div_add by lia. lia.
Qed.

Lemma encode_loop_spec s : forall n data d i,
  bytes_ok s -> drop i data = s -> (length s <= n)%nat ->
  encode_loop n data (d ++ repeat 0 (length (b64 s)), length d) i
  = Some (d ++ b64 s, length (d ++ b64 s)).
Proof.
  induction s as [|x|x y|x y z s IH] using triples_ind; intros n data d i Hok Hd Hn.
  - apply drop_nil_inv in Hd. destruct n; cbn [encode_loop]; ltb_known;
      by rewrite !app_nil_r.
  - destruct (drop_cons_inv _ _ _ _ Hd) as (_ & L1 & Hd1%drop_nil_inv).
    inversion_clear Hok. destruct n as [|n]; [cbn in Hn; lia|]. cbn [encode_loop].
    ltb_known.
    change (length (b64 [x])) with 4%nat.
    rewrite <- (app_nil_r (repeat 0 _)), (encode_step_1 data d [] i x) by done.
    destruct n; cbn [encode_loop]; ltb_known; by rewrite app_nil_r.
  - destruct (drop_cons_inv _ _ _ _ Hd) as (_ & L1 & Hd1).
    destruct (drop_cons_inv _ _ _ _ Hd1) as (_ & L2 & Hd2%drop_nil_inv).
    inversion_clear Hok as [|? ? ? Hok']. inversion_clear Hok'.
    destruct n as [|n]; [cbn in Hn; lia|]. cbn [encode_loop].
    ltb_known.
    change (length (b64 [x; y])) with 4%nat.
    rewrite <- (app_nil_r (repeat 0 _)), (encode_step_2 data d [] i x y) by done.
    destruct n; cbn [encode_loop]; ltb_known; by rewrite app_nil_r.
  - destruct (drop_cons_inv _ _ _ _ Hd) as (_ & L1 & Hd1).
    destruct (drop_cons_inv _ _ _ _ Hd1) as (_ & L2 & Hd2).
    destruct (drop_cons_inv _ _ _ _ Hd2) as (_ & L3 & Hd3).
    inversion_clear Hok as [|? ? Hx Hok1]. inversion_clear Hok1 as [|? ? Hy Hok2].
    inversion_clear Hok2 as [|? ? Hz Hok3].
    destruct n as [|n]; [cbn in Hn; lia|]. cbn [encode_loop].
    ltb_known.
    change (length (b64 (x :: y :: z :: s))) with (4 + length (b64 s))%nat.
    rewrite repeat_app, (encode_step_3 data d _ i x y z s) by done.
    rewrite (IH n data) by (try done; cbn [length] in Hn; lia).
    cbn [b64 take]. rewrite take_0, <- !app_assoc. done.
Qed.

Lemma EncodeFromArray_b64 data : bytes_ok data -> EncodeFromArray data = Some (b64 data).
Proof.
  intros Hok. unfold EncodeFromArray. rewrite <- length_b64.
  pose proof (encode_loop_spec data (length data) data [] 0 Hok eq_refl ltac:(lia)) as H.
  cbn [app length] in H. by rewrite H.
Qed.

(** ** The decoder's quantum as an automaton on the remaining characters *)

Fixpoint quantum_aut (parse : Z) (illegal_pads : bool) (s : bytes) (vals : list Z) (p : nat)
  : list Z * nat * bytes :=
  match s with
  | [] => (vals, p, s)
  | c :: r =>
      if (4 <=? length vals)%nat then (vals, p, s) else
      let v := dec c in
      let skip := quantum_aut parse illegal_pads r vals p in
      if (il =? v) || (illegal_pads && (pd =? v)) then
        if negb (parse =? DO_PARSE_ANY) then (vals, p, s) else skip
      else if sp =? v then if parse =? DO_PARSE_STRICT then (vals, p, s) else skip
      else if pd =? v then
        if (length vals <? 2)%nat then if negb (parse =? DO_PARSE_ANY) then (vals, p, s) else skip
        else if (4 <=? length vals + p)%nat then
          if negb (parse =? DO_PARSE_ANY) then (vals, p, s) else skip
        else quantum_aut parse illegal_pads r vals (S p)
      else
        if (0 <? p)%nat && negb (parse =? DO_PARSE_ANY) then (vals, p, s)
        else quantum_aut parse illegal_pads r (vals ++ [v]) 0
  end.

(** The state of the loop that corresponds to a state of the automaton. *)
Definition aut_rel (data : bytes) (q : quantum) (vals : list Z) (p : nat) (s : bytes) : Prop :=
  byte_len q = length vals /\ pad_len q = p /\ (dpos q <= length data)%nat /\
  drop (dpos q) data = s /\ length (qbuf q) = 4%nat /\ (length vals <= 4)%nat /\
  take (length vals) (qbuf q) = vals /\ (pad_start q <= length data)%nat.

Lemma take_insert_ge' (l : list Z) n v : take n (<[n := v]> l) = take n l.
Proof. apply take_insert_ge. lia. Qed.

Lemma quantum_loop_aut parse ip data : forall s n q vals p,
  aut_rel data q vals p s -> (length s <= n)%nat ->
  let '(vals', p', s') := quantum_aut parse ip s vals p in
  aut_rel data (quantum_loop n parse ip data q) vals' p' s'.
Proof.
  intros s; induction s as [|c r IH]; intros n q vals p Hr Hn.
  - cbn [quantum_aut]. destruct n as [|n]; cbn [quantum_loop]; [done|].
    destruct Hr as (Hb & Hp & Hd & Hs & Hrest). apply drop_nil_inv in Hs.
    rewrite (proj2 (Nat.ltb_ge (dpos q) _)), andb_false_r by lia.
    repeat split; try done; try tauto. by apply drop_ge.
  - destruct Hr as (Hb & Hp & Hd & Hs & Hq & Hl & Ht & Hps).
    destruct (drop_cons_inv _ _ _ _ Hs) as (Hc & Hlt & Hr).
    destruct n as [|n]; [cbn in Hn; lia|]. cbn [quantum_aut quantum_loop].
    rewrite (proj2 (Nat.ltb_lt (dpos q) _)), andb_true_r, Hb, Hp by done.
    destruct (Nat.leb_spec 4 (length vals)) as [H4|H4].
    { ltb_known. repeat split; auto; lia. }
    ltb_known. cbv zeta. rewrite Hc. cbn [byte_len pad_len pad_start qbuf dpos].
    assert (Hi : length (<[length vals := dec c]> (qbuf q)) = 4%nat) by (by rewrite length_insert).
    assert (Hn' : (length r <= n)%nat) by (cbn in Hn; lia).
    assert (Hkeep : forall ps b', b' = length vals -> (ps <= length data)%nat ->
      aut_rel data {| byte_len := b'; pad_len := p; pad_start := ps;
        qbuf := <[length vals := dec c]> (qbuf q); dpos := dpos q |} vals p (c :: r)).
    { intros ps b' -> ?. repeat split; auto. cbn [qbuf]. by rewrite take_insert_ge'. }
    assert (Hskip : forall ps p', (ps <= length data)%nat -> aut_rel data {| byte_len := length vals; pad_len := p'; pad_start := ps;
        qbuf := <[length vals := dec c]> (qbuf q); dpos := S (dpos q) |} vals p' r).
    { intros ps p' ?. repeat split; auto. cbn [qbuf]. by rewrite take_insert_ge'. }
    assert (Hadd : forall ps, (ps <= length data)%nat -> aut_rel data {| byte_len := S (length vals); pad_len := 0; pad_start := ps;
        qbuf := <[length vals := dec c]> (qbuf q); dpos := S (dpos q) |} (vals ++ [dec c]) 0 r).
    { intros ps ?. repeat split; cbn [byte_len pad_len dpos qbuf]; rewrite ?length_app; cbn [length];
        auto; try lia. rewrite Nat.add_1_r.
      rewrite (take_S_r _ _ (dec c)), take_insert_ge', Ht by (apply list_lookup_insert_eq; lia). done. }
    repeat split_if; first [apply Hkeep; [done|lia] | by apply IH; [apply Hskip; lia|]
                           | by apply IH; [apply Hadd; lia|]].
Qed.

(** [GetNextQuantum] in terms of the automaton, when it reads pads or no pad. *)
Lemma GetNextQuantum_aut parse ip data i qb vals p s' :
  length qb = 4%nat -> (i <= length data)%nat ->
  quantum_aut parse ip (drop i data) [] 0 = (vals, p, s') ->
  exists i', GetNextQuantum parse ip data i qb
    = (length vals, i', vals ++ repeat 0 (4 - length vals), (4 =? length vals + p)%nat)
  /\ ((length vals + p = 4)%nat \/ p = 0%nat -> drop i' data = s')
  /\ (i' <= length data)%nat /\ (length vals <= 4)%nat.
Proof.
  intros Hqb Hi Ha. unfold GetNextQuantum.
  pose proof (quantum_loop_aut parse ip data (drop i data) (length data - i)
    {| byte_len := 0; pad_len := 0; pad_start := 0; qbuf := qb; dpos := i |} [] 0) as H.
  rewrite Ha in H. destruct H as (Hb & Hp & Hd & Hs & Hq & Hl & Ht & Hps).
  { repeat split; auto; cbn; lia. }
  { rewrite length_drop. lia. }
  rewrite Hb, Hp, Ht. destruct (Nat.eqb_spec 4 (length vals + p)) as [E|E].
  - eexists. split; [reflexivity|]. auto.
  - eexists. split; [reflexivity|]. split; [intros [Hx | ->]; [lia|done]|].
    split; [by case_match|done].
Qed.

(** The automaton on characters of a known class. *)
Ltac aut_char Hk :=
  cbn [quantum_aut length app]; rewrite ?dec_tbl by done;
  change (dec kPad) with pd;
  repeat match goal with
  | H : 0 <= ?k < 64 |- context [?z =? ?k] =>
      rewrite (proj2 (Z.eqb_neq z k)) by (unfold il, sp, pd; lia)
  end; rewrite ?andb_false_r; cbn [orb andb Nat.leb Nat.ltb Nat.add].

Lemma aut_full parse ip a b c d r :
  0 <= a < 64 -> 0 <= b < 64 -> 0 <= c < 64 -> 0 <= d < 64 ->
  quantum_aut parse ip (tbl a :: tbl b :: tbl c :: tbl d :: r) [] 0 = ([a; b; c; d], 0%nat, r).
Proof. intros. do 4 aut_char tt. by destruct r. Qed.

Lemma aut_pad1 parse a b c :
  0 <= a < 64 -> 0 <= b < 64 -> 0 <= c < 64 ->
  quantum_aut parse false [tbl a; tbl b; tbl c; kPad] [] 0 = ([a; b; c], 1%nat, []).
Proof. intros. do 4 aut_char tt. done. Qed.

Lemma aut_pad2 parse a b :
  0 <= a < 64 -> 0 <= b < 64 ->
  quantum_aut parse false [tbl a; tbl b; kPad; kPad] [] 0 = ([a; b], 2%nat, []).
Proof. intros. do 4 aut_char tt. done. Qed.

(** ** Decoding an encoding *)

Definition three (a b c d : Z) : bytes :=
  [a * 4 + b / 16; b mod 16 * 16 + c / 4; c mod 4 * 64 + d].

Lemma dec_bits a b c d :
  0 <= a < 64 -> 0 <= b < 64 -> 0 <= c < 64 -> 0 <= d < 64 ->
  u8 (Z.lor (Z.shiftl a 2) (Z.land (Z.shiftr b 4) 0x3)) = a * 4 + b / 16 /\
  Z.lor (Z.land (Z.shiftl b 4) 0xf0) (Z.land (Z.shiftr c 2) 0xf) = b mod 16 * 16 + c / 4 /\
  Z.lor (Z.land (Z.shiftl c 6) 0xc0) d = c mod 4 * 64 + d.
Proof.
  intros Ha Hb Hc Hd.
  assert (H1 : forall b, 0 <= b < 64 ->
    (Z.land (Z.shiftl b 4) 0xf0 =? b mod 16 * 16) = true)
    by (apply (forall_below 64); vm_compute; reflexivity).
  assert (H2 : forall c, 0 <= c < 64 ->
    (Z.land (Z.shiftl c 6) 0xc0 =? c mod 4 * 64) = true)
    by (apply (forall_below 64); vm_compute; reflexivity).
  rewrite (proj1 (Z.eqb_eq _ _) (H1 b Hb)), (proj1 (Z.eqb_eq _ _) (H2 c Hc)).
  change 0x3 with (2 ^ 2 - 1). change 0xf with (2 ^ 4 - 1).
  rewrite !land_mask, !Z.shiftr_div_pow2, Z.shiftl_mul_pow2 by lia.
  rewrite (lor_add 2 a), (lor_add 4 (b mod 16)), (lor_add 6 (c mod 4)) by dlia.
  unfold u8, wrap. split_and!; dlia.
Qed.

(** The effect of one iteration on a full quantum. *)
Lemma decode_full flags n data res i qb a b c d s' :
  0 <= a < 64 -> 0 <= b < 64 -> 0 <= c < 64 -> 0 <= d < 64 ->
  length qb = 4%nat -> (i < length data)%nat ->
  quantum_aut (Z.land flags DO_PARSE_MASK) (DO_PAD_NO =? Z.land flags DO_PAD_MASK)
    (drop i data) [] 0 = ([a; b; c; d], 0%nat, s') ->
  exists i', drop i' data = s' /\ (i' <= length data)%nat /\
    decode_loop (S n) flags data res i qb
    = decode_loop n flags data (res ++ three a b c d) i' [a; b; c; d].
Proof.
  intros Ha Hb Hc Hd Hqb Hi Haut.
  destruct (GetNextQuantum_aut _ _ data i qb _ _ _ Hqb ltac:(lia) Haut) as (i' & Hq & Hs & Hi' & _).
  exists i'. split; [auto|]. split; [done|].
  cbn [decode_loop]. ltb_known. rewrite Hq. cbn [length Nat.leb Nat.ltb Nat.sub repeat app nth].
  destruct (dec_bits a b c d Ha Hb Hc Hd) as (-> & -> & ->).
  by rewrite <- !app_assoc.
Qed.

(** The effect of the last iteration, on a padded quantum. *)
Lemma decode_pad1 flags n data res i qb a b c s' :
  0 <= a < 64 -> 0 <= b < 64 -> 0 <= c < 64 ->
  length qb = 4%nat -> (i < length data)%nat ->
  quantum_aut (Z.land flags DO_PARSE_MASK) (DO_PAD_NO =? Z.land flags DO_PAD_MASK)
    (drop i data) [] 0 = ([a; b; c], 1%nat, s') ->
  exists i', drop i' data = s' /\ (i' <= length data)%nat /\
    decode_loop (S n) flags data res i qb
    = Some (res ++ take 2 (three a b c 0),
            (Z.land flags DO_TERM_MASK =? DO_TERM_ANY) || (c mod 4 =? 0), i').
Proof.
  intros Ha Hb Hc Hqb Hi Haut.
  destruct (GetNextQuantum_aut _ _ data i qb _ _ _ Hqb ltac:(lia) Haut) as (i' & Hq & Hs & Hi' & _).
  exists i'. split; [auto|]. split; [done|].
  cbn [decode_loop]. ltb_known. rewrite Hq.
  cbn [length Nat.leb Nat.ltb Nat.sub repeat app nth Nat.add Nat.eqb].
  destruct (dec_bits a b c 0 Ha Hb Hc ltac:(lia)) as (-> & -> & ->).
  rewrite <- !app_assoc. cbn [negb app three take]. rewrite andb_false_r, andb_true_r.
  do 3 f_equal. rewrite negb_andb, !negb_involutive. f_equal. lia.
Qed.

Lemma decode_pad2 flags n data res i qb a b s' :
  0 <= a < 64 -> 0 <= b < 64 ->
  length qb = 4%nat -> (i < length data)%nat ->
  quantum_aut (Z.land flags DO_PARSE_MASK) (DO_PAD_NO =? Z.land flags DO_PAD_MASK)
    (drop i data) [] 0 = ([a; b], 2%nat, s') ->
  exists i', drop i' data = s' /\ (i' <= length data)%nat /\
    decode_loop (S n) flags data res i qb
    = Some (res ++ take 1 (three a b 0 0),
            (Z.land flags DO_TERM_MASK =? DO_TERM_ANY) || (b mod 16 =? 0), i').
Proof.
  intros Ha Hb Hqb Hi Haut.
  destruct (GetNextQuantum_aut _ _ data i qb _ _ _ Hqb ltac:(lia) Haut) as (i' & Hq & Hs & Hi' & _).
  exists i'. split; [auto|]. split; [done|].
  cbn [decode_loop]. ltb_known. rewrite Hq.
  cbn [length Nat.leb Nat.ltb Nat.sub repeat app nth Nat.add Nat.eqb].
  destruct (dec_bits a b 0 0 Ha Hb ltac:(lia) ltac:(lia)) as (-> & -> & _).
  cbn [negb app three take]. rewrite andb_false_r, andb_true_r.
  do 3 f_equal. rewrite negb_andb, !negb_involutive. f_equal.
  rewrite Z.div_0_l, Z.add_0_r by lia. lia.
Qed.

(** The digits of three bytes, and back. *)
Lemma three_digits x y z :
  is_byte x -> is_byte y -> is_byte z ->
  let a := x / 4 in let b := x mod 4 * 16 + y / 16 in
  let c := y mod 16 * 4 + z / 64 in let d := z mod 64 in
  0 <= a < 64 /\ 0 <= b < 64 /\ 0 <= c < 64 /\ 0 <= d < 64 /\ three a b c d = [x; y; z].
Proof.
  unfold is_byte. intros Hx Hy Hz. cbv zeta. unfold three. split_and!; try dlia. repeat f_equal; dlia.
Qed.

Lemma decode_loop_b64 flags : (DO_PAD_NO =? Z.land flags DO_PAD_MASK) = false ->
  forall s n data res i qb,
  bytes_ok s -> length qb = 4%nat -> (i <= length data)%nat -> drop i data = b64 s ->
  (length s < n)%nat ->
  decode_loop n flags data res i qb = Some (res ++ s, true, length data).
Proof.
  intros Hf s; induction s as [|x|x y|x y z s IH] using triples_ind;
    intros n data res i qb Hok Hqb Hi Hd Hn; destruct n as [|n]; try (cbn in Hn; lia).
  - apply drop_nil_inv in Hd. assert (i = length data) as -> by lia.
    cbn [decode_loop]. rewrite Nat.ltb_irrefl, app_nil_r. done.
  - inversion_clear Hok as [|? ? Hx _].
    destruct (three_digits x 0 0 Hx ltac:(done) ltac:(done)) as (Ha & Hb & _ & _ & H3).
    rewrite (Z.div_0_l 16), Z.add_0_r in * by lia.
    assert (Hlt : (i < length data)%nat).
    { apply (f_equal length) in Hd. rewrite length_drop in Hd. cbn in Hd. lia. }
    edestruct (decode_pad2 flags n data res i qb (x / 4) (x mod 4 * 16)) as (i' & Hi' & Hle & ->);
      [done..| |].
    { rewrite Hf, Hd. by apply aut_pad2. }
    apply drop_nil_inv in Hi'. change (0 mod 16 * 4 + 0 / 64) with 0 in H3.
    change (0 mod 64) with 0 in H3. rewrite H3. cbn [take].
    assert (((x mod 4 * 16) mod 16 =? 0) = true) as -> by (by rewrite Z_mod_mult).
    rewrite orb_true_r. do 3 f_equal. lia.
  - inversion_clear Hok as [|? ? Hx Hok']. inversion_clear Hok' as [|? ? Hy _].
    destruct (three_digits x y 0 Hx Hy ltac:(done)) as (Ha & Hb & Hc & _ & H3).
    change (0 / 64) with 0 in *. rewrite Z.add_0_r in *. change (0 mod 64) with 0 in H3.
    assert (Hlt : (i < length data)%nat).
    { apply (f_equal length) in Hd. rewrite length_drop in Hd. cbn in Hd. lia. }
    edestruct (decode_pad1 flags n data res i qb (x / 4) (x mod 4 * 16 + y / 16) (y mod 16 * 4))
      as (i' & Hi' & Hle & ->); [done..| |].
    { rewrite Hf, Hd. by apply aut_pad1. }
    apply drop_nil_inv in Hi'. rewrite H3. cbn [take].
    assert (((y mod 16 * 4) mod 4 =? 0) = true) as -> by (by rewrite Z_mod_mult).
    rewrite orb_true_r. do 3 f_equal. lia.
  - inversion_clear Hok as [|? ? Hx Hok1]. inversion_clear Hok1 as [|? ? Hy Hok2].
    inversion_clear Hok2 as [|? ? Hz Hok3].
    destruct (three_digits x y z Hx Hy Hz) as (Ha & Hb & Hc & Hd' & H3).
    assert (Hlt : (i < length data)%nat).
    { apply (f_equal length) in Hd. rewrite length_drop in Hd. cbn in Hd. lia. }
    edestruct (decode_full flags n data res i qb (x / 4) (x mod 4 * 16 + y / 16)
      (y mod 16 * 4 + z / 64) (z mod 64)) as (i' & Hi' & Hle & ->); [done..| |].
    { rewrite Hf, Hd. by apply aut_full. }
    rewrite H3, (IH n data) by (try done; cbn [length] in Hn; lia).
    by rewrite <- app_assoc.
Qed.

(** ** Every quantum of the decoder, and termination *)

Lemma aut_progress parse ip s : forall vals p,
  (length vals < 4 \/ p = 0)%nat -> (length vals <= 4)%nat ->
  let '(vals', p', s') := quantum_aut parse ip s vals p in
  (length vals' + length s' <= length vals + length s)%nat /\
  (length vals' < 4 \/ p' = 0)%nat.
Proof.
  induction s as [|c r IH]; intros vals p Hp Hl; cbn [quantum_aut]; [auto|].
  pose proof (IH vals p Hp Hl) as H1.
  pose proof (fun H => IH vals (S p) (or_introl H) Hl) as H2.
  pose proof (fun H => IH (vals ++ [dec c]) 0%nat (or_intror eq_refl) H) as H3.
  rewrite length_app in H3. cbn [length] in *.
  destruct (quantum_aut parse ip r vals p) as [[v1 p1] s1].
  destruct (quantum_aut parse ip r vals (S p)) as [[v2 p2] s2].
  destruct (quantum_aut parse ip r (vals ++ [dec c]) 0) as [[v3 p3] s3].
  repeat split_if; bool_simpl; cbn [length]; lia.
Qed.

Lemma quantum_total flags data i qb :
  length qb = 4%nat -> (i < length data)%nat ->
  exists qlen i' q padded,
    GetNextQuantum (Z.land flags DO_PARSE_MASK) (DO_PAD_NO =? Z.land flags DO_PAD_MASK) data i qb
    = (qlen, i', q, padded) /\ (i' <= length data)%nat /\ length q = 4%nat /\
    (qlen < 4 \/ i < i')%nat.
Proof.
  intros Hqb Hi.
  destruct (quantum_aut (Z.land flags DO_PARSE_MASK) (DO_PAD_NO =? Z.land flags DO_PAD_MASK)
    (drop i data) [] 0) as [[vals p] s'] eqn:Ha.
  pose proof (aut_progress (Z.land flags DO_PARSE_MASK) (DO_PAD_NO =? Z.land flags DO_PAD_MASK)
    (drop i data) [] 0) as Hp. rewrite Ha in Hp.
  destruct Hp as [Hp1 Hp2]; [by right|cbn; lia|].
  destruct (GetNextQuantum_aut _ _ data i qb _ _ _ Hqb ltac:(lia) Ha) as (i' & -> & Hs & Hi' & Hl).
  eexists _, _, _, _. split; [reflexivity|]. split; [done|].
  split; [rewrite length_app, repeat_length; lia|].
  destruct (decide (length vals < 4)%nat) as [|Hg]; [by left|right].
  destruct Hp2 as [|Hp2]; [done|]. specialize (Hs (or_intror Hp2)).
  apply (f_equal length) in Hs. rewrite length_drop in *. cbn [length] in *. lia.
Qed.

Lemma decode_loop_total flags data n : forall res i qb,
  length qb = 4%nat -> (i <= length data)%nat -> (length data - i <= n)%nat ->
  exists res' ok i', decode_loop n flags data res i qb = Some (res', ok, i') /\
    (i' <= length data)%nat.
Proof.
  induction n as [|n IH]; intros res i qb Hqb Hi Hn; cbn [decode_loop].
  { rewrite (proj2 (Nat.ltb_ge i _)) by lia. eauto. }
  destruct (Nat.ltb_spec i (length data)) as [Hlt|]; [|eauto].
  destruct (quantum_total flags data i qb Hqb Hlt) as (qlen & i' & q & padded & -> & Hi' & Hq & Hpr).
  match goal with |- context [let '(_, _) := ?e in _] => destruct e as [res' c'] end.
  destruct (Nat.ltb_spec qlen 4); [eauto|]. apply IH; [done..|lia].
Qed.

(** ** Strict decoding *)

(** What a quantum can be under the strictest flags. *)
Definition strict_quantum (s : bytes) (vals : list Z) (p : nat) (s' : bytes) : Prop :=
  match vals with
  | [a; b; c; d] => p = 0%nat /\ s = tbl a :: tbl b :: tbl c :: tbl d :: s'
  | [a; b; c] => p = 0%nat \/ s = tbl a :: tbl b :: tbl c :: kPad :: s' /\ p = 1%nat
  | [a; b] => (p < 2)%nat \/ s = tbl a :: tbl b :: kPad :: kPad :: s' /\ p = 2%nat
  | [_] | [] => p = 0%nat
  | _ => False
  end.

(** Read one more character of [s], by its class. *)
Ltac strict_done :=
  unfold DO_PARSE_STRICT, DO_PARSE_ANY, sp, pd, il; cbn -[tbl]; split; [repeat (apply List.Forall_cons; [assumption|]); apply List.Forall_nil|];
  first [done | lia | by left; lia | by right].
Ltac strict_char s Hok :=
  destruct s as [|?c s]; [strict_done|];
  match type of Hok with Forall _ (?c :: _) =>
    let Hc := fresh in let Hk := fresh in let He := fresh in let k := fresh "k" in
    pose proof (Forall_inv Hok : is_byte c) as Hc; apply Forall_inv_tail in Hok;
    destruct (dec_cases c Hc) as [[Hk He]|[He|[He|[He ->]]]];
    [ remember (dec c) as k eqn:Hek; clear Hek; subst c; clear Hc; aut_char tt
    | cbn [quantum_aut length app]; rewrite ?He; strict_done
    | cbn [quantum_aut length app]; rewrite ?He; strict_done
    | cbn [quantum_aut length app]; try strict_done ]
  end.

Lemma strict_aut s :
  bytes_ok s ->
  let '(vals, p, s') := quantum_aut DO_PARSE_STRICT false s [] 0 in
  Forall (fun v => 0 <= v < 64) vals /\ strict_quantum s vals p s'.
Proof.
  unfold bytes_ok. intros Hok. do 5 (try strict_char s Hok).
  all: strict_done.
Qed.

(** Bytes from digits, and their digits. *)
Lemma digits_three a b c d :
  0 <= a < 64 -> 0 <= b < 64 -> 0 <= c < 64 -> 0 <= d < 64 ->
  bytes_ok (three a b c d) /\ b64 (three a b c d) = [tbl a; tbl b; tbl c; tbl d] /\
  (d = 0 -> c mod 4 = 0 -> b64 (take 2 (three a b c d)) = [tbl a; tbl b; tbl c; kPad]) /\
  (d = 0 -> c = 0 -> b mod 16 = 0 -> b64 (take 1 (three a b c d)) = [tbl a; tbl b; kPad; kPad]).
Proof.
  intros. unfold three. cbn [b64 take]. split_and!.
  - repeat (apply List.Forall_cons; [unfold is_byte; dlia|]). apply List.Forall_nil.
  - repeat f_equal; dlia.
  - intros. repeat f_equal; dlia.
  - intros. repeat f_equal; dlia.
Qed.

Lemma decode_short flags n data res i qb vals p s' :
  length qb = 4%nat -> (i < length data)%nat ->
  DO_PAD_YES = Z.land flags DO_PAD_MASK ->
  quantum_aut (Z.land flags DO_PARSE_MASK) false (drop i data) [] 0 = (vals, p, s') ->
  (length vals < 4)%nat -> (length vals + p <> 4)%nat ->
  exists res' i', decode_loop (S n) flags data res i qb = Some (res', false, i').
Proof.
  intros Hqb Hi Hpad Haut Hl Hp.
  assert (Hno : (DO_PAD_NO =? Z.land flags DO_PAD_MASK) = false) by (by rewrite <- Hpad).
  destruct (GetNextQuantum_aut _ _ data i qb _ _ _ Hqb ltac:(lia) Haut) as (i' & Hq & _).
  cbn [decode_loop]. ltb_known. rewrite Hno, Hq.
  match goal with |- context [let '(_, _) := ?e in _] => destruct e as [res' c'] end.
  ltb_known. rewrite <- Hpad, (proj2 (Nat.eqb_neq _ _)) by lia. rewrite Z.eqb_refl.
  cbn [negb andb]. rewrite andb_false_r. eauto.
Qed.

Lemma decode_strict n : forall data res i qb res',
  bytes_ok data -> length qb = 4%nat -> (i <= length data)%nat -> (length data - i <= n)%nat ->
  decode_loop n DO_STRICT data res i qb = Some (res', true, length data) ->
  exists t, res' = res ++ t /\ drop i data = b64 t /\ bytes_ok t.
Proof.
  induction n as [|n IH]; intros data res i qb res' Hok Hqb Hi Hn Hdec.
  { cbn [decode_loop] in Hdec. rewrite (proj2 (Nat.ltb_ge i _)) in Hdec by lia.
    injection Hdec as <-. exists []. rewrite app_nil_r, drop_ge by lia.
    split_and!; [done..|]. apply List.Forall_nil. }
  destruct (Nat.lt_ge_cases i (length data)) as [Hlt|Hge].
  2: { cbn [decode_loop] in Hdec. rewrite (proj2 (Nat.ltb_ge i _)) in Hdec by lia.
    injection Hdec as <-. exists []. rewrite app_nil_r, drop_ge by lia.
    split_and!; [done..|]. apply List.Forall_nil. }
  pose proof (strict_aut (drop i data) ltac:(by apply Forall_drop)) as Hs.
  destruct (quantum_aut DO_PARSE_STRICT false (drop i data) [] 0) as [[vals p] s'] eqn:Haut.
  destruct Hs as [Hv Hs].
  assert (Hshort : (length vals < 4)%nat -> (length vals + p <> 4)%nat -> False).
  { intros Hl Hp. destruct (decode_short DO_STRICT n data res i qb vals p s') as (r & j & Hd);
      [done..|]. rewrite Hd in Hdec. done. }
  destruct vals as [|a [|b [|c [|d [|]]]]]; cbn [strict_quantum length] in *; try done;
    try (exfalso; lia).
  - (* two digits *)
    destruct Hs as [Hs|[Hs ->]]; [exfalso; lia|].
    apply List.Forall_cons_iff in Hv as [Ha Hv]. apply List.Forall_cons_iff in Hv as [Hb _].
    destruct (decode_pad2 DO_STRICT n data res i qb a b s' Ha Hb Hqb Hlt Haut) as (i' & Hi' & _ & Hd).
    rewrite Hd in Hdec. injection Hdec as <- Hz ->. rewrite drop_ge in Hi' by done. subst s'.
    destruct (digits_three a b 0 0 Ha Hb ltac:(lia) ltac:(lia)) as (Hok3 & _ & _ & H1).
    exists (take 1 (three a b 0 0)). rewrite H1 by (done || by apply Z.eqb_eq).
    split_and!; [done..|]. by apply Forall_take.
  - (* three digits *)
    destruct Hs as [Hs|[Hs ->]]; [exfalso; lia|].
    apply List.Forall_cons_iff in Hv as [Ha Hv]. apply List.Forall_cons_iff in Hv as [Hb Hv].
    apply List.Forall_cons_iff in Hv as [Hc _].
    destruct (decode_pad1 DO_STRICT n data res i qb a b c s' Ha Hb Hc Hqb Hlt Haut)
      as (i' & Hi' & _ & Hd).
    rewrite Hd in Hdec. injection Hdec as <- Hz ->. rewrite drop_ge in Hi' by done. subst s'.
    destruct (digits_three a b c 0 Ha Hb Hc ltac:(lia)) as (Hok3 & _ & H2 & _).
    exists (take 2 (three a b c 0)). rewrite H2 by (done || by apply Z.eqb_eq).
    split_and!; [done..|]. by apply Forall_take.
  - (* a full quantum *)
    destruct Hs as [-> Hs].
    apply List.Forall_cons_iff in Hv as [Ha Hv]. apply List.Forall_cons_iff in Hv as [Hb Hv].
    apply List.Forall_cons_iff in Hv as [Hc Hv]. apply List.Forall_cons_iff in Hv as [Hd _].
    destruct (decode_full DO_STRICT n data res i qb a b c d s' Ha Hb Hc Hd Hqb Hlt Haut)
      as (i' & Hi' & Hle & Hdl).
    rewrite Hdl in Hdec.
    assert (Hlen : (length data - i' <= n)%nat).
    { apply (f_equal length) in Hs, Hi'. rewrite length_drop in *. cbn [length] in *. lia. }
    destruct (IH data _ i' [a; b; c; d] res' Hok eq_refl Hle Hlen Hdec) as (t & -> & Ht & Hokt).
    destruct (digits_three a b c d Ha Hb Hc Hd) as (Hok3 & H3 & _).
    exists (three a b c d ++ t). rewrite <- app_assoc. split; [done|].
    split; [|by apply bytes_ok_app].
    rewrite Hs, <- Hi', Ht. change (b64 (three a b c d ++ t)) with
      (take 4 (b64 (three a b c d)) ++ b64 t). by rewrite H3.
Qed.

(** ** Properties *)

(** Decoding inverts the reference encoding. *)
Lemma DecodeFromArray_b64 qbuf0 data flags :
  bytes_ok data -> length qbuf0 = 4%nat -> Z.land flags DO_PAD_MASK <> DO_PAD_NO ->
  DecodeFromArray qbuf0 (b64 data) flags = Some (true, data, length (b64 data)).
Proof.
  intros Hok Hq Hf. unfold DecodeFromArray.
  assert (Hno : (DO_PAD_NO =? Z.land flags DO_PAD_MASK) = false)
    by (apply Z.eqb_neq; congruence).
  assert (Hl : (length data <= length (b64 data))%nat).
  { rewrite length_b64. pose proof (Nat.div_mod_eq (length data + 2) 3).
    pose proof (Nat.mod_upper_bound (length data + 2) 3). lia. }
  destruct (decide (data = [])) as [->|Hne].
  - cbn. by rewrite andb_false_r.
  - assert (Hlt : (length data < length (b64 data))%nat).
    { rewrite length_b64 in *. pose proof (Nat.div_mod_eq (length data + 2) 3).
      pose proof (Nat.mod_upper_bound (length data + 2) 3).
      destruct data; [done|]. cbn [length] in *. lia. }
    rewrite (decode_loop_b64 flags Hno data) by (done || lia).
    by rewrite Nat.eqb_refl, andb_false_r.
Qed.

(** Any string of whole quanta of base64 digits is an encoding. *)
Lemma b64_digits n ds : length ds = (4 * n)%nat -> Forall (fun d => 0 <= d < 64) ds ->
  exists data, bytes_ok data /\ length data = (3 * n)%nat /\ b64 data = map tbl ds.
Proof.
  revert ds; induction n as [|n IH]; intros ds Hl Hd.
  { exists []. destruct ds; [|cbn in Hl; lia]. by split; [apply List.Forall_nil|]. }
  destruct ds as [|a [|b [|c [|d ds]]]]; try (cbn in Hl; lia).
  apply Forall_cons in Hd as [Ha Hd]. apply Forall_cons in Hd as [Hb Hd].
  apply Forall_cons in Hd as [Hc Hd]. apply Forall_cons in Hd as [Hdd Hd].
  destruct (IH ds) as (data & Hok & Hlen & E); [cbn in Hl; lia|done|].
  destruct (digits_three a b c d) as (Hok3 & E3 & _); [done..|].
  exists (three a b c d ++ data). split; [by apply bytes_ok_app|]. split; [rewrite length_app; cbn; lia|].
  cbn [map]. rewrite <- E. unfold three in *. cbn [app b64] in *. by injection E3 as -> -> -> ->.
Qed.

(** whatever the flags, unless they disallow padding, decoding what
    EncodeFromArray produces succeeds, returns the encoded bytes and uses the
    whole input; the encoder fills exactly the result it sized in advance, of
    four characters per three bytes. *)
Theorem base64_roundtrip qbuf0 data flags :
  bytes_ok data -> length qbuf0 = 4%nat -> Z.land flags DO_PAD_MASK <> DO_PAD_NO ->
  exists enc, EncodeFromArray data = Some enc
  /\ length enc = ((length data + 2) / 3 * 4)%nat
  /\ DecodeFromArray qbuf0 enc flags = Some (true, data, length enc).
Proof.
  intros Hok Hq Hf. exists (b64 data). rewrite EncodeFromArray_b64 by done.
  split_and!; [done|apply length_b64|by apply DecodeFromArray_b64].
Qed.

(** C35: strict decoding accepts exactly the canonical encodings: it returns
    true with result [d] precisely for the one string that the encoder
    produces from [d] (padding in place, unused bits zero, nothing left). *)
Theorem base64_strict_canonical qbuf0 s d used :
  bytes_ok s -> length qbuf0 = 4%nat ->
  DecodeFromArray qbuf0 s DO_STRICT = Some (true, d, used) <->
  bytes_ok d /\ EncodeFromArray d = Some s /\ used = length s.
Proof.
  intros Hs Hq. split.
  - unfold DecodeFromArray. intros H.
    destruct (decode_loop _ _ _ _ _ _) as [[[r ok] i]|] eqn:Hd; [|done].
    change (DO_TERM_BUFFER =? Z.land DO_STRICT DO_TERM_MASK) with true in H.
    destruct (Nat.eqb_spec i (length s)) as [->|]; [|done]. cbn in H.
    injection H as -> -> <-.
    destruct (decode_strict (length s) s [] 0 qbuf0 d Hs Hq (Nat.le_0_l _) ltac:(lia) Hd)
      as (t & -> & Ht & Hok). cbn [app]. rewrite EncodeFromArray_b64 by done.
    rewrite drop_0 in Ht. by rewrite <- Ht.
  - intros (Hd & He & ->). rewrite EncodeFromArray_b64 in He by done. injection He as <-.
    unfold DecodeFromArray. destruct d as [|x d]; [done|].
    rewrite (decode_loop_b64 DO_STRICT eq_refl (x :: d)); [|done|done|lia|done|].
    + by rewrite Nat.eqb_refl.
    + rewrite length_b64. pose proof (Nat.div_mod_eq (length (x :: d) + 2) 3).
      pose proof (Nat.mod_upper_bound (length (x :: d) + 2) 3). cbn [length] in *. lia.
Qed.

Lemma DecodeFromArray_total qbuf0 data flags : length qbuf0 = 4%nat ->
  exists ok res used, DecodeFromArray qbuf0 data flags = Some (ok, res, used) /\ (used <= length data)%nat.
Proof.
  intros Hq. unfold DecodeFromArray.
  destruct (decode_loop_total flags data (length data) [] 0 qbuf0) as (res & ok & i & -> & Hi);
    [done|lia|lia|]. eauto.
Qed.

(** decoding terminates for every input and every flag word, within one
    iteration per character, and never reports more characters used than
    there are. *)
Theorem base64_decode_total qbuf0 data flags :
  length qbuf0 = 4%nat ->
  exists ok res used, DecodeFromArray qbuf0 data flags = Some (ok, res, used) /\
    (used <= length data)%nat.
Proof. apply DecodeFromArray_total. Qed.

(** IsBase64Char is membership in the table, and GetNextBase64Char walks the
    table cyclically; only the NUL character, which [strchr] finds at the
    terminator, makes it read past the end. *)
Lemma GetNextBase64Char_spec ch :
  is_byte ch ->
  GetNextBase64Char ch =
  if ch =? 0 then None
  else if IsBase64Char ch then Some (Some (tbl ((dec ch + 1) mod 64))) else Some None.
Proof.
  set (beq := fun x y : option (option Z) => match x, y with
    | None, None | Some None, Some None => true
    | Some (Some a), Some (Some b) => a =? b | _, _ => false end).
  assert (Hb : forall x y, beq x y = true -> x = y).
  { intros [[a|]|] [[b|]|]; cbn; try done. by intros ->%Z.eqb_eq. }
  intros Hc. apply Hb. revert ch Hc. apply (forall_below 256). vm_compute. reflexivity.
Qed.

Lemma base64_roundtrip_witness :
  exists enc, EncodeFromArray (str "hello") = Some enc
  /\ length enc = ((length (str "hello") + 2) / 3 * 4)%nat
  /\ DecodeFromArray [1; 2; 3; 4] enc DO_STRICT = Some (true, str "hello", length enc).
Proof. apply base64_roundtrip; [solve_bytes | reflexivity | discriminate]. Defined.

Lemma base64_strict_canonical_witness :
  bytes_ok (str "hello") /\ EncodeFromArray (str "hello") = Some (str "aGVsbG8=") /\
  8%nat = length (str "aGVsbG8=").
Proof.
  apply (base64_strict_canonical [1; 2; 3; 4] (str "aGVsbG8=") (str "hello") 8);
    [solve_bytes | reflexivity | vm_compute; reflexivity].
Defined.

Lemma base64_decode_total_witness :
  exists ok res used, DecodeFromArray [1; 2; 3; 4] (str "a=G=") DO_LAX = Some (ok, res, used) /\
    (used <= length (str "a=G="))%nat.
Proof. apply base64_decode_total. reflexivity. Defined.

End Base64.
