(* ===== verification/StringEncode.v ===== *)
(** * base/stringencode.cc: string encodings into bounded buffers

    A buffer of [buflen] chars being filled is the list of chars written so
    far: [bufpos] is its length, [emit] writes at the end and [finish] writes
    the terminating NUL; either is [None] when it would write at or past
    [buflen].  [srcpos] is represented by the suffix of the source still to be
    read.  A call returns the chars written before the NUL, whose number is
    the return value.  Chars are bytes; [char] is signed where the source
    compares it. *)

From S2P Require Import Prelude.
Open Scope jingle_scope.

Module StringEncode.

Definition emit (buflen : nat) (out chunk : bytes) : option bytes :=
  require! (length out + length chunk <=? buflen)%nat in Some (out ++ chunk).
Definition finish (buflen : nat) (out : bytes) : option bytes :=
  require! (length out <? buflen)%nat in Some out.

(** [::strchr(illegal, ch)] as a condition. *)
Definition in_str (illegal : bytes) (ch : Z) : bool :=
  match strchr illegal ch with Some _ => true | None => false end.

(** ** Hex digits *)

Definition HEX : bytes := str "0123456789abcdef".

Definition hex_encode (val : Z) : Z :=
  if val <? 16 then nth (Z.to_nat val) HEX 0 else chr "!".

Definition hex_decode (ch : Z) : option Z :=
  if (chr "0" <=? ch) && (ch <=? chr "9") then Some (ch - chr "0")
  else if (chr "A" <=? ch) && (ch <=? chr "Z") then Some (ch - chr "A" + 10)
  else if (chr "a" <=? ch) && (ch <=? chr "z") then Some (ch - chr "a" + 10)
  else None.

(** [(h1 << 4) | h2] stored in a char. *)
Definition hex_pair (h1 h2 : Z) : Z := u8 (Z.lor (Z.shiftl h1 4) h2).

(** ** escape and encode *)

Fixpoint escape_loop (buflen : nat) (illegal : bytes) (esc : Z) (source out : bytes)
  : option bytes :=
  match source with
  | [] => finish buflen out
  | ch :: source =>
      if (length out + 1 <? buflen)%nat then
        if (ch =? esc) || in_str illegal ch then
          if (buflen <=? length out + 2)%nat then finish buflen out
          else
            let? out := emit buflen out [esc] in
            let? out := emit buflen out [ch] in
            escape_loop buflen illegal esc source out
        else
          let? out := emit buflen out [ch] in
          escape_loop buflen illegal esc source out
      else finish buflen out
  end.
Definition escape (buflen : nat) (source illegal : bytes) (esc : Z) : option bytes :=
  if (buflen <=? 0)%nat then Some [] else escape_loop buflen illegal esc source [].

Fixpoint unescape_loop (buflen : nat) (esc : Z) (source out : bytes) : option bytes :=
  match source with
  | [] => finish buflen out
  | ch :: source =>
      if (length out + 1 <? buflen)%nat then
        match source with
        | ch' :: source' =>
            if ch =? esc then
              let? out := emit buflen out [ch'] in unescape_loop buflen esc source' out
            else let? out := emit buflen out [ch] in unescape_loop buflen esc source out
        | [] => let? out := emit buflen out [ch] in unescape_loop buflen esc source out
        end
      else finish buflen out
  end.
Definition unescape (buflen : nat) (source : bytes) (esc : Z) : option bytes :=
  if (buflen <=? 0)%nat then Some [] else unescape_loop buflen esc source [].

Definition hex_chars (ch : Z) : bytes :=
  [hex_encode (Z.land (Z.shiftr ch 4) 0xF); hex_encode (Z.land ch 0xF)].

Fixpoint encode_loop (buflen : nat) (illegal : bytes) (esc : Z) (source out : bytes)
  : option bytes :=
  match source with
  | [] => finish buflen out
  | ch :: source =>
      if (length out + 1 <? buflen)%nat then
        if negb (ch =? esc) && negb (in_str illegal ch) then
          let? out := emit buflen out [ch] in encode_loop buflen illegal esc source out
        else if (buflen <=? length out + 3)%nat then finish buflen out
        else
          let? out := emit buflen out (esc :: hex_chars ch) in
          encode_loop buflen illegal esc source out
      else finish buflen out
  end.
Definition encode (buflen : nat) (source illegal : bytes) (esc : Z) : option bytes :=
  if (buflen <=? 0)%nat then Some [] else encode_loop buflen illegal esc source [].

Fixpoint decode_loop (buflen : nat) (esc : Z) (source out : bytes) : option bytes :=
  match source with
  | [] => finish buflen out
  | ch :: source =>
      if (length out + 1 <? buflen)%nat then
        let plain := let? out := emit buflen out [ch] in decode_loop buflen esc source out in
        match source with
        | c1 :: c2 :: source' =>
            match (if ch =? esc then hex_decode c1 else None), hex_decode c2 with
            | Some h1, Some h2 =>
                let? out := emit buflen out [hex_pair h1 h2] in
                decode_loop buflen esc source' out
            | _, _ => plain
            end
        | _ => plain
        end
      else finish buflen out
  end.
Definition decode (buflen : nat) (source : bytes) (esc : Z) : option bytes :=
  if (buflen <=? 0)%nat then Some [] else decode_loop buflen esc source [].

(** ** URL, XML and HTML *)

Definition URL_UNSAFE : Z := 0x1.
Definition XML_UNSAFE : Z := 0x2.
Definition HTML_UNSAFE : Z := 0x2.

Definition ASCII_CLASS : list Z := [
  1;1;1;1;1;1;1;1;1;1;1;1;1;1;1;1;1;1;1;1;1;1;1;1;1;1;1;1;1;1;1;1;
  1;0;3;1;1;1;3;2;0;0;0;1;1;0;0;1;0;0;0;0;0;0;0;0;0;0;1;1;3;1;3;1;
  1;0;0;0;0;0;0;0;0;0;0;0;0;0;0;0;0;0;0;0;0;0;0;0;0;0;0;1;1;1;1;0;
  1;0;0;0;0;0;0;0;0;0;0;0;0;0;0;0;0;0;0;0;0;0;0;0;0;0;0;1;1;1;0;1 ].

(** [(ch < 128) && (ASCII_CLASS[ch] & mask)]. *)
Definition unsafe_char (mask ch : Z) : bool :=
  (ch <? 128) && negb (Z.land (nth (Z.to_nat ch) ASCII_CLASS 0) mask =? 0).

Fixpoint url_encode_loop (buflen : nat) (source out : bytes) : option bytes :=
  match source with
  | [] => finish buflen out
  | ch :: source =>
      if (length out + 1 <? buflen)%nat then
        if unsafe_char URL_UNSAFE ch then
          if (buflen <=? length out + 3)%nat then finish buflen out
          else
            let? out := emit buflen out (chr "%" :: hex_chars ch) in
            url_encode_loop buflen source out
        else let? out := emit buflen out [ch] in url_encode_loop buflen source out
      else finish buflen out
  end.
Definition url_encode (buflen : nat) (source : bytes) : option bytes :=
  if (buflen <=? 0)%nat then Some [] else url_encode_loop buflen source [].
(** With a NULL buffer: the size to allocate. *)
Definition url_encode_size (source : bytes) : nat := length source * 3 + 1.

Fixpoint url_decode_loop (buflen : nat) (source out : bytes) : option bytes :=
  match source with
  | [] => finish buflen out
  | ch :: source =>
      if (length out + 1 <? buflen)%nat then
        if ch =? chr "+" then
          let? out := emit buflen out [chr " "] in url_decode_loop buflen source out
        else
          let plain := let? out := emit buflen out [ch] in url_decode_loop buflen source out in
          match source with
          | c1 :: c2 :: source' =>
              match (if ch =? chr "%" then hex_decode c1 else None), hex_decode c2 with
              | Some h1, Some h2 =>
                  let? out := emit buflen out [hex_pair h1 h2] in
                  url_decode_loop buflen source' out
              | _, _ => plain
              end
          | _ => plain
          end
      else finish buflen out
  end.
Definition url_decode (buflen : nat) (source : bytes) : option bytes :=
  if (buflen <=? 0)%nat then Some [] else url_decode_loop buflen source [].
Definition url_decode_size (source : bytes) : nat := length source + 1.

(** The number of bytes used (0: invalid) and the value; the source has at
    least one byte. *)
Definition utf8_decode (s : bytes) : nat * Z :=
  let srclen := length s in
  let s_ i := nth i s 0 in
  if Z.land (s_ 0%nat) 0x80 =? 0x00 then (1%nat, s_ 0%nat)
  else if (srclen <? 2)%nat || negb (Z.land (s_ 1%nat) 0xC0 =? 0x80) then (0%nat, 0)
  else
    let value16 := Z.land (s_ 1%nat) 0x3F in
    if Z.land (s_ 0%nat) 0xE0 =? 0xC0 then
      (2%nat, Z.lor (Z.shiftl (Z.land (s_ 0%nat) 0x1F) 6) value16)
    else if (srclen <? 3)%nat || negb (Z.land (s_ 2%nat) 0xC0 =? 0x80) then (0%nat, 0)
    else
      let value16 := Z.lor (Z.shiftl value16 6) (Z.land (s_ 2%nat) 0x3F) in
      if Z.land (s_ 0%nat) 0xF0 =? 0xE0 then
        (3%nat, Z.lor (Z.shiftl (Z.land (s_ 0%nat) 0x0F) 12) value16)
      else if (srclen <? 4)%nat || negb (Z.land (s_ 3%nat) 0xC0 =? 0x80) then (0%nat, 0)
      else
        let value16 := Z.lor (Z.shiftl value16 6) (Z.land (s_ 3%nat) 0x3F) in
        if Z.land (s_ 0%nat) 0xF8 =? 0xF0 then
          (4%nat, Z.lor (Z.shiftl (Z.land (s_ 0%nat) 0x07) 18) value16)
        else (0%nat, 0).

(** The bytes written; the empty list is the return value 0. *)
Definition utf8_encode (buflen : nat) (value : Z) : bytes :=
  let trail v := Z.lor 0x80 (Z.land v 0x3F) in
  if (value <=? 0x7F) && (1 <=? buflen)%nat then [value]
  else if (value <=? 0x7FF) && (2 <=? buflen)%nat then
    [Z.lor 0xC0 (Z.shiftr value 6); trail value]
  else if (value <=? 0xFFFF) && (3 <=? buflen)%nat then
    [Z.lor 0xE0 (Z.shiftr value 12); trail (Z.shiftr value 6); trail value]
  else if (value <=? 0x1FFFFF) && (4 <=? buflen)%nat then
    [Z.lor 0xF0 (Z.shiftr value 18); trail (Z.shiftr value 12); trail (Z.shiftr value 6);
     trail value]
  else [].

(** [sprintfn(..., "%lu", val)]: the decimal digits. *)
Fixpoint decimal_loop (n : nat) (v : Z) (acc : bytes) : bytes :=
  match n with
  | O => acc
  | S n' =>
      let acc := (chr "0" + v mod 10) :: acc in
      if v <? 10 then acc else decimal_loop n' (v / 10) acc
  end.
Definition decimal (v : Z) : bytes := decimal_loop 20 v [].

(** The escape sequence of a character the table marks; [None] is the
    [ASSERT(false)]. *)
Definition markup (quote : bytes) (ch : Z) : option bytes :=
  if ch =? chr "<" then Some (str "&lt;")
  else if ch =? chr ">" then Some (str "&gt;")
  else if ch =? chr "'" then Some quote
  else if ch =? 34 then Some (str "&quot;")
  else if ch =? chr "&" then Some (str "&amp;")
  else None.

(** [n] bounds the iterations: each one consumes a char. *)
Fixpoint html_encode_loop (n : nat) (buflen : nat) (source out : bytes) : option bytes :=
  match n, source with
  | _, [] => finish buflen out
  | O, _ => None
  | S n', ch :: rest =>
      if (length out + 1 <? buflen)%nat then
        if ch <? 128 then
          if unsafe_char HTML_UNSAFE ch then
            let? escseq := markup (str "&#39;") ch in
            if (buflen <=? length out + length escseq)%nat then finish buflen out
            else let? out := emit buflen out escseq in html_encode_loop n' buflen rest out
          else let? out := emit buflen out [ch] in html_encode_loop n' buflen rest out
        else
          let '(vallen, val) := utf8_decode source in
          let '(srclen, val) := if (vallen =? 0)%nat then (1%nat, ch) else (vallen, val) in
          let escseq := str "&#" ++ decimal val ++ str ";" in
          if (buflen <=? length out + length escseq)%nat then finish buflen out
          else
            let? out := emit buflen out escseq in
            html_encode_loop n' buflen (drop srclen source) out
      else finish buflen out
  end.
Definition html_encode (buflen : nat) (source : bytes) : option bytes :=
  if (buflen <=? 0)%nat then Some [] else html_encode_loop (length source) buflen source [].

Fixpoint xml_encode_loop (buflen : nat) (source out : bytes) : option bytes :=
  match source with
  | [] => finish buflen out
  | ch :: source =>
      if (length out + 1 <? buflen)%nat then
        if unsafe_char XML_UNSAFE ch then
          let? escseq := markup (str "&apos;") ch in
          if (buflen <=? length out + length escseq)%nat then finish buflen out
          else let? out := emit buflen out escseq in xml_encode_loop buflen source out
        else let? out := emit buflen out [ch] in xml_encode_loop buflen source out
      else finish buflen out
  end.
Definition xml_encode (buflen : nat) (source : bytes) : option bytes :=
  if (buflen <=? 0)%nat then Some [] else xml_encode_loop buflen source [].

(** [strtoul(s, &ptr, base)] for the bases 10 and 16: the value and the
    number of chars up to [ptr] (0 when there is no number).  The memory after
    the source holds a NUL. *)
Definition isspace (c : Z) : bool := (c =? 32) || ((9 <=? c) && (c <=? 13)).
Definition digit_of (base c : Z) : option Z :=
  match hex_decode c with
  | Some d => if d <? base then Some d else None
  | None => None
  end.
Fixpoint strtoul_spaces (s : bytes) : nat :=
  match s with c :: s' => if isspace c then S (strtoul_spaces s') else 0 | [] => 0 end%nat.
Fixpoint strtoul_digits (base : Z) (s : bytes) (acc : Z) : Z * nat :=
  match s with
  | c :: s' =>
      match digit_of base c with
      | Some d => let '(v, n) := strtoul_digits base s' (acc * base + d) in (v, S n)
      | None => (acc, 0%nat)
      end
  | [] => (acc, 0%nat)
  end.
Definition strtoul (base : Z) (s : bytes) : Z * nat :=
  let skip := strtoul_spaces s in
  let s := drop skip s in
  let '(neg, sgn) :=
    match s with
    | c :: _ => if c =? chr "-" then (true, 1%nat) else if c =? chr "+" then (false, 1%nat)
                else (false, 0%nat)
    | [] => (false, 0%nat)
    end in
  let s := drop sgn s in
  let pre :=
    match s with
    | z :: x :: d :: _ =>
        if (base =? 16) && (z =? chr "0") && ((x =? chr "x") || (x =? chr "X"))
           && match digit_of 16 d with Some _ => true | None => false end
        then 2%nat else 0%nat
    | _ => 0%nat
    end in
  let '(v, n) := strtoul_digits base (drop pre s) 0 in
  if (n =? 0)%nat then (0, 0%nat)
  else
    let v := if 2 ^ 64 <=? v then 2 ^ 64 - 1 else if neg then (- v) mod 2 ^ 64 else v in
    (v, (skip + sgn + pre + n)%nat).

(** [(k < srclen - srcpos) && memcmp(source + srcpos, lit, length lit) == 0]. *)
Definition at_lit (lit s : bytes) : bool :=
  (length lit <=? length s)%nat && bool_decide (take (length lit) s = lit).

Fixpoint xml_decode_loop (n : nat) (buflen : nat) (source out : bytes) : option bytes :=
  match n, source with
  | _, [] => finish buflen out
  | O, _ => None
  | S n', ch :: source =>
      if (length out + 1 <? buflen)%nat then
        let put c k :=
          let? out := emit buflen out [c] in xml_decode_loop n' buflen (drop k source) out in
        if negb (ch =? chr "&") then put ch 0%nat
        else if at_lit (str "lt;") source then put (chr "<") 3%nat
        else if at_lit (str "gt;") source then put (chr ">") 3%nat
        else if at_lit (str "apos;") source then put (chr "'") 5%nat
        else if at_lit (str "quot;") source then put 34 5%nat
        else if at_lit (str "amp;") source then put (chr "&") 4%nat
        else if at_lit (str "#") source then
          let '(int_base, source) :=
            if at_lit (str "x") (drop 1 source) then (16, drop 1 source) else (10, source) in
          let '(val, len) := strtoul int_base (drop 1 source) in
          let ptr := (1 + len)%nat in
          if (ptr <? length source)%nat && (nth ptr source 0 =? chr ";") then
            let seq := utf8_encode (buflen - length out) val in
            match seq with
            | [] => finish buflen out
            | _ => let? out := emit buflen out seq in
                   xml_decode_loop n' buflen (drop (ptr + 1) source) out
            end
          else finish buflen out
        else finish buflen out
      else finish buflen out
  end.
Definition xml_decode (buflen : nat) (source : bytes) : option bytes :=
  if (buflen <=? 0)%nat then Some [] else xml_decode_loop (length source) buflen source [].

Definition html_decode (buflen : nat) (source : bytes) : option bytes := xml_decode buflen source.

(** ** Hex strings; a delimiter of 0 means none *)

Fixpoint hex_encode_loop (buflen : nat) (delimiter : Z) (source out : bytes) : option bytes :=
  match source with
  | [] => finish buflen out
  | ch :: source =>
      let? out := emit buflen out (hex_chars ch) in
      if negb (delimiter =? 0) && (0 <? length source)%nat then
        let? out := emit buflen out [delimiter] in
        hex_encode_loop buflen delimiter source out
      else hex_encode_loop buflen delimiter source out
  end.
Definition hex_encode_with_delimiter (buflen : nat) (source : bytes) (delimiter : Z)
  : option bytes :=
  if (buflen =? 0)%nat then Some [] else
  let srclen := length source in
  let needed := if negb (delimiter =? 0) then (srclen * 3)%nat else (srclen * 2 + 1)%nat in
  if (buflen <? needed)%nat then Some []
  else hex_encode_loop buflen delimiter source [].

(** The [std::string] version with its stack buffer. *)
Definition hex_encode_string (source : bytes) (delimiter : Z) : option bytes :=
  hex_encode_with_delimiter (length source * 3) source delimiter.

(** The return value and the bytes written. *)
Fixpoint hex_decode_loop (n : nat) (buflen : nat) (delimiter : Z) (source out : bytes)
  : option (nat * bytes) :=
  match n, source with
  | _, [] => Some (length out, out)
  | S n', c1 :: c2 :: source =>
      match hex_decode c1, hex_decode c2 with
      | Some h1, Some h2 =>
          let? out := emit buflen out [hex_pair h1 h2] in
          if negb (delimiter =? 0) && (1 <? length source)%nat then
            if negb (nth 0 source 0 =? delimiter) then Some (0%nat, out)
            else hex_decode_loop n' buflen delimiter (drop 1 source) out
          else hex_decode_loop n' buflen delimiter source out
      | _, _ => Some (0%nat, out)
      end
  | S _, [_] => Some (0%nat, out)
  | O, _ => None
  end.
Definition hex_decode_with_delimiter (buflen : nat) (source : bytes) (delimiter : Z)
  : option (nat * bytes) :=
  if (buflen =? 0)%nat then Some (0%nat, []) else
  let srclen := length source in
  let needed := if negb (delimiter =? 0) then ((srclen + 1) / 3)%nat else (srclen / 2)%nat in
  if (buflen <? needed)%nat then Some (0%nat, [])
  else hex_decode_loop (length source) buflen delimiter source [].

(** ** Transforms of std::string *)

(** [transform(value, maxlen, source, t)] and [s_transform], whose transform
    answers the NULL buffer with a size. *)
Definition transform (t : nat -> bytes -> option bytes) (maxlen : nat) (source : bytes)
  : option bytes := t (maxlen + 1)%nat source.
Definition s_transform (size : bytes -> nat) (t : nat -> bytes -> option bytes) (source : bytes)
  : option bytes := t (size source) source.
Definition s_url_encode (source : bytes) : option bytes :=
  s_transform url_encode_size url_encode source.
Definition s_url_decode (source : bytes) : option bytes :=
  s_transform url_decode_size url_decode source.

(** ** Splitting *)

(** [source.substr(pos, len)]. *)
Definition substr (source : bytes) (pos len : nat) : bytes := take len (drop pos source).

Fixpoint tokenize_loop (n i : nat) (source : bytes) (delimiter : Z) (last : nat)
    (fields : list bytes) : nat * list bytes :=
  match n with
  | O => (last, fields)
  | S n' =>
      if nth i source 0 =? delimiter then
        let fields := if (i =? last)%nat then fields
                      else fields ++ [substr source last (i - last)] in
        tokenize_loop n' (S i) source delimiter (S i) fields
      else tokenize_loop n' (S i) source delimiter last fields
  end.
Definition tokenize (source : bytes) (delimiter : Z) : list bytes :=
  let '(last, fields) := tokenize_loop (length source) 0 source delimiter 0 [] in
  if (last =? length source)%nat then fields
  else fields ++ [substr source last (length source - last)].

Definition tokenize_append (source : bytes) (delimiter : Z) (fields : list bytes) : list bytes :=
  fields ++ tokenize source delimiter.

(** [source.find(c, pos)]. *)
Fixpoint find_from (n pos : nat) (source : bytes) (c : Z) : option nat :=
  match n with
  | O => None
  | S n' => if nth pos source 0 =? c then Some pos else find_from n' (S pos) source c
  end.
Definition find (source : bytes) (c : Z) (pos : nat) : option nat :=
  find_from (length source - pos) pos source c.

Fixpoint tokenize_marks_loop (n : nat) (remain : bytes) (delimiter start_mark end_mark : Z)
    (fields : list bytes) : option (list bytes) :=
  match n, remain with
  | _, [] => Some (tokenize_append remain delimiter fields)
  | O, _ => None
  | S n', _ =>
      match find remain start_mark 0 with
      | None => Some (tokenize_append remain delimiter fields)
      | Some start_pos =>
          let pre_mark := if (0 <? start_pos)%nat then substr remain 0 (start_pos - 1) else [] in
          let start_pos := S start_pos in
          match find remain end_mark start_pos with
          | None => Some (tokenize_append remain delimiter fields)
          | Some end_pos =>
              let fields := tokenize_append pre_mark delimiter fields in
              let fields := fields ++ [substr remain start_pos (end_pos - start_pos)] in
              tokenize_marks_loop n' (drop (end_pos + 1) remain) delimiter start_mark end_mark fields
          end
      end
  end.
Definition tokenize_marks (source : bytes) (delimiter start_mark end_mark : Z)
  : option (list bytes) :=
  tokenize_marks_loop (length source) source delimiter start_mark end_mark [].

Fixpoint split_loop (n i : nat) (source : bytes) (delimiter : Z) (last : nat)
    (fields : list bytes) : nat * list bytes :=
  match n with
  | O => (last, fields)
  | S n' =>
      if nth i source 0 =? delimiter then
        split_loop n' (S i) source delimiter (S i) (fields ++ [substr source last (i - last)])
      else split_loop n' (S i) source delimiter last fields
  end.
Definition split (source : bytes) (delimiter : Z) : list bytes :=
  let '(last, fields) := split_loop (length source) 0 source delimiter 0 [] in
  fields ++ [substr source last (length source - last)].

(** [char] is signed: the bytes from 128 are below 32. *)
Definition make_char_safe_for_filename (c : Z) : Z :=
  if (c <? 32) || (128 <=? c) then chr "_"
  else if (c =? chr "<") || (c =? chr ">") || (c =? chr ":") || (c =? 34) || (c =? chr "/")
       || (c =? chr "\") || (c =? chr "|") || (c =? chr "*") || (c =? chr "?") then chr "_"
  else c.

Example ex1 : xml_encode 100 (str "a<b&'c'") = Some (str "a&lt;b&amp;&apos;c&apos;").
Proof. reflexivity. Qed.
Example ex2 : xml_decode 100 (str "a&lt;b&#x41;&#66; &amp;&apos;c&bad") = Some (str "a<bAB &'c").
Proof. reflexivity. Qed.
Example ex3 : url_decode 20 (str "a+%41%zz") = Some (str "a A" ++ [hex_pair 35 35]).
Proof. vm_compute. reflexivity. Qed.
Example ex4 : map (fun s => split (str s) (chr ",")) ["a,b,,c"; ""; ","]%string
  = [[str "a"; str "b"; []; str "c"]; [[]]; [[];[]]].
Proof. reflexivity. Qed.

(** ** The encoders write chunks while they fit *)

(** The longest prefix of the chunks that fits in [room] chars. *)
Fixpoint greedy (room : nat) (chunks : list bytes) : bytes :=
  match chunks with
  | [] => []
  | c :: cs => if (length c <=? room)%nat then c ++ greedy (room - length c) cs else []
  end.

Lemma greedy_length room chunks : (length (greedy room chunks) <= room)%nat.
Proof.
  revert room; induction chunks as [|c cs IH]; intros room; cbn [greedy length]; [lia|].
  destruct (Nat.leb_spec (length c) room); cbn [length]; [|lia].
  rewrite length_app. specialize (IH (room - length c)%nat). lia.
Qed.

Lemma greedy_fits room chunks :
  (length (concat chunks) <= room)%nat -> greedy room chunks = concat chunks.
Proof.
  revert room; induction chunks as [|c cs IH]; intros room; cbn [greedy concat]; [done|].
  rewrite length_app. intros Hr. rewrite (proj2 (Nat.leb_le _ _)), IH by lia. done.
Qed.

Lemma greedy_prefix room chunks : greedy room chunks `prefix_of` concat chunks.
Proof.
  revert room; induction chunks as [|c cs IH]; intros room; cbn [greedy concat]; [done|].
  case_match; [by apply prefix_app|apply prefix_nil].
Qed.

Lemma emit_ok buflen out chunk :
  (length out + length chunk <= buflen)%nat -> emit buflen out chunk = Some (out ++ chunk).
Proof. intros. unfold emit. by rewrite (proj2 (Nat.leb_le _ _)). Qed.

Lemma finish_ok buflen out : (length out < buflen)%nat -> finish buflen out = Some out.
Proof. intros. unfold finish. by rewrite (proj2 (Nat.ltb_lt _ _)). Qed.

Definition escape_chunk (illegal : bytes) (esc ch : Z) : bytes :=
  if (ch =? esc) || in_str illegal ch then [esc; ch] else [ch].
Definition encode_chunk (illegal : bytes) (esc ch : Z) : bytes :=
  if negb (ch =? esc) && negb (in_str illegal ch) then [ch] else esc :: hex_chars ch.
Definition url_chunk (ch : Z) : bytes :=
  if unsafe_char URL_UNSAFE ch then chr "%" :: hex_chars ch else [ch].
Definition markup_chunk (quote : bytes) (ch : Z) : bytes :=
  if unsafe_char XML_UNSAFE ch then default [] (markup quote ch) else [ch].

(** The shared step: a chunk of a char either is written or ends the output. *)
Ltac greedy_step :=
  cbn [map greedy length app];
  repeat match goal with |- context [(?a <? ?b)%nat] => destruct (Nat.ltb_spec a b); try lia
                  | |- context [(?a <=? ?b)%nat] => destruct (Nat.leb_spec a b); try lia end;
  rewrite ?emit_ok by (rewrite ?length_app; cbn [length]; lia);
  rewrite ?finish_ok by lia; rewrite ?app_nil_r; try done.

Ltac greedy_room :=
  match goal with
  | |- Some (_ ++ greedy ?a ?l) = Some (_ ++ _ ++ greedy ?b ?l) =>
      replace a with b by (rewrite !length_app; cbn [length]; lia); by rewrite <- !app_assoc
  | |- Some (_ ++ greedy ?a ?l) = Some (_ ++ _ :: greedy ?b ?l) =>
      replace a with b by (rewrite !length_app; cbn [length]; lia); by rewrite <- !app_assoc
  | |- Some (_ ++ greedy ?a ?l) = Some (_ ++ _ :: _ :: greedy ?b ?l) =>
      replace a with b by (rewrite !length_app; cbn [length]; lia); by rewrite <- !app_assoc
  | |- Some (_ ++ greedy ?a ?l) = Some (_ ++ _ :: _ :: _ :: greedy ?b ?l) =>
      replace a with b by (rewrite !length_app; cbn [length]; lia); by rewrite <- !app_assoc
  end.
Ltac greedy_next IH :=
  rewrite IH by (try done; rewrite ?length_app; cbn [length]; lia); greedy_room.

Lemma escape_greedy buflen illegal esc source out :
  (length out < buflen)%nat ->
  escape_loop buflen illegal esc source out =
  Some (out ++ greedy (buflen - 1 - length out) (map (escape_chunk illegal esc) source)).
Proof.
  revert out; induction source as [|ch source IH]; intros out Ho; cbn [escape_loop].
  { rewrite finish_ok by done. by rewrite app_nil_r. }
  cbn [map]. change (escape_chunk illegal esc ch) with
    (if (ch =? esc) || in_str illegal ch then [esc; ch] else [ch]).
  destruct ((ch =? esc) || in_str illegal ch); greedy_step.
  all: greedy_next IH.
Qed.

Lemma encode_greedy buflen illegal esc source out :
  (length out < buflen)%nat ->
  encode_loop buflen illegal esc source out =
  Some (out ++ greedy (buflen - 1 - length out) (map (encode_chunk illegal esc) source)).
Proof.
  revert out; induction source as [|ch source IH]; intros out Ho; cbn [encode_loop].
  { rewrite finish_ok by done. by rewrite app_nil_r. }
  cbn [map]. change (encode_chunk illegal esc ch) with
    (if negb (ch =? esc) && negb (in_str illegal ch) then [ch] else esc :: hex_chars ch).
  unfold hex_chars.
  destruct (negb (ch =? esc) && negb (in_str illegal ch)); greedy_step; greedy_next IH.
Qed.

Lemma url_encode_greedy buflen source out :
  (length out < buflen)%nat ->
  url_encode_loop buflen source out =
  Some (out ++ greedy (buflen - 1 - length out) (map url_chunk source)).
Proof.
  revert out; induction source as [|ch source IH]; intros out Ho; cbn [url_encode_loop].
  { rewrite finish_ok by done. by rewrite app_nil_r. }
  cbn [map]. change (url_chunk ch) with
    (if unsafe_char URL_UNSAFE ch then chr "%" :: hex_chars ch else [ch]).
  unfold hex_chars. destruct (unsafe_char URL_UNSAFE ch); greedy_step; greedy_next IH.
Qed.

(** The table marks exactly the characters the switch handles. *)
Lemma markup_some quote ch :
  unsafe_char XML_UNSAFE ch = true -> is_byte ch -> is_Some (markup quote ch).
Proof.
  intros Hu Hc.
  assert (H : forall c, 0 <= c < 256 -> negb (unsafe_char XML_UNSAFE c) ||
    match markup [] c with Some _ => true | None => false end = true)
    by (apply (forall_below 256); vm_compute; reflexivity).
  specialize (H ch Hc). rewrite Hu in H. cbn [negb orb] in H. revert H. unfold markup.
  repeat case_match; by eauto.
Qed.

Lemma markup_length quote ch seq :
  markup quote ch = Some seq -> (1 <= length quote)%nat -> (1 <= length seq)%nat.
Proof. unfold markup. repeat case_match; intros; simplify_eq; cbn; lia. Qed.

Lemma xml_encode_greedy buflen source out :
  (length out < buflen)%nat -> bytes_ok source ->
  xml_encode_loop buflen source out =
  Some (out ++ greedy (buflen - 1 - length out) (map (markup_chunk (str "&apos;")) source)).
Proof.
  intros Ho Hok. revert out Ho; induction Hok as [|ch source Hc _ IH]; intros out Ho;
    cbn [xml_encode_loop].
  { rewrite finish_ok by done. by rewrite app_nil_r. }
  cbn [map]. change (markup_chunk (str "&apos;") ch) with
    (if unsafe_char XML_UNSAFE ch then default [] (markup (str "&apos;") ch) else [ch]).
  destruct (unsafe_char XML_UNSAFE ch) eqn:Hu.
  - destruct (markup_some (str "&apos;") ch Hu Hc) as [seq Hs]. rewrite Hs.
    pose proof (markup_length _ _ _ Hs ltac:(cbn; lia)). change (default [] (Some seq)) with seq. greedy_step.
    greedy_next IH.
  - greedy_step. greedy_next IH.
Qed.

(** [html_encode] by whole UTF-8 sequences. *)
Fixpoint html_chunks (n : nat) (source : bytes) : list bytes :=
  match n, source with
  | S n', ch :: rest =>
      if ch <? 128 then
        (if unsafe_char HTML_UNSAFE ch then default [] (markup (str "&#39;") ch) else [ch])
        :: html_chunks n' rest
      else
        let '(vallen, val) := utf8_decode source in
        let '(k, val) := if (vallen =? 0)%nat then (1%nat, ch) else (vallen, val) in
        (str "&#" ++ decimal val ++ str ";") :: html_chunks n' (drop k source)
  | _, _ => []
  end.

Lemma utf8_decode_len s : (utf8_decode s).1 = 0%nat \/ (1 <= (utf8_decode s).1 <= 4)%nat.
Proof. unfold utf8_decode. repeat case_match; cbn; lia. Qed.

Lemma html_encode_greedy n buflen source out :
  (length out < buflen)%nat -> bytes_ok source -> (length source <= n)%nat ->
  html_encode_loop n buflen source out =
  Some (out ++ greedy (buflen - 1 - length out) (html_chunks n source)).
Proof.
  revert source out; induction n as [|n IH]; intros source out Ho Hok Hn.
  { destruct source; [|cbn in Hn; lia]. cbn. by rewrite finish_ok, app_nil_r. }
  destruct source as [|ch source]; cbn [html_encode_loop html_chunks].
  { rewrite finish_ok by done. by rewrite app_nil_r. }
  inversion_clear Hok as [|? ? Hc Hok']. cbn [length] in Hn.
  destruct (ch <? 128) eqn:Hasc.
  - destruct (unsafe_char HTML_UNSAFE ch) eqn:Hu.
    + destruct (markup_some (str "&#39;") ch Hu Hc) as [seq Hs]. rewrite Hs.
      pose proof (markup_length _ _ _ Hs ltac:(cbn; lia)). change (default [] (Some seq)) with seq. greedy_step.
      greedy_next IH.
    + greedy_step. greedy_next IH.
  - pose proof (utf8_decode_len (ch :: source)) as Hlen.
    destruct (utf8_decode (ch :: source)) as [vallen val]. cbn [fst] in Hlen.
    assert (Hk : exists k v, (if (vallen =? 0)%nat then (1%nat, ch) else (vallen, val)) = (S k, v)).
    { destruct vallen as [|k]; cbn; eauto. }
    destruct Hk as (k & v & ->).
    assert (Hpos : (3 <= length (str "&#" ++ decimal v ++ str ";"))%nat)
      by (rewrite !length_app; cbn [str length]; lia).
    remember (str "&#" ++ decimal v ++ str ";") as seq. clear Heqseq. greedy_step.
    cbn [drop]. rewrite IH.
    + greedy_room.
    + rewrite length_app. lia.
    + by apply Forall_drop.
    + rewrite length_drop. lia.
Qed.

(** ** Hex digits *)

Lemma hex_digit_facts : forall k, 0 <= k < 16 ->
  match hex_decode (hex_encode k) with Some d => d =? k | None => false end = true.
Proof. apply (forall_below 16). vm_compute. reflexivity. Qed.

Lemma hex_decode_encode k : 0 <= k < 16 -> hex_decode (hex_encode k) = Some k.
Proof.
  intros H%hex_digit_facts. destruct (hex_decode _) as [d|]; [|done]. bool_simpl. by subst.
Qed.

Lemma nibbles ch : is_byte ch ->
  Z.land (Z.shiftr ch 4) 0xF = ch / 16 /\ Z.land ch 0xF = ch mod 16 /\
  0 <= ch / 16 < 16 /\ 0 <= ch mod 16 < 16 /\ hex_pair (ch / 16) (ch mod 16) = ch.
Proof.
  unfold is_byte. intros Hc. change 0xF with (2 ^ 4 - 1). unfold hex_pair, u8, wrap.
  rewrite !land_mask, !Z.shiftr_div_pow2, Z.shiftl_mul_pow2, lor_add by dlia.
  change (2 ^ 4) with 16. change (2 ^ 8) with 256. split_and!; dlia.
Qed.

(** The two hex chars of a byte, read back. *)
Lemma hex_chars_decode ch :
  is_byte ch -> exists c1 c2 h1 h2, hex_chars ch = [c1; c2] /\
    hex_decode c1 = Some h1 /\ hex_decode c2 = Some h2 /\ hex_pair h1 h2 = ch.
Proof.
  intros Hc. destruct (nibbles ch Hc) as (E1 & E2 & H1 & H2 & Hp). unfold hex_chars.
  rewrite E1, E2. eexists _, _, _, _. split; [done|].
  rewrite !hex_decode_encode by done. done.
Qed.

(** ** Round trips of the char-by-char encodings *)

Lemma unescape_chunks buflen illegal esc s out :
  (length out + length s < buflen)%nat ->
  unescape_loop buflen esc (concat (map (escape_chunk illegal esc) s)) out = Some (out ++ s).
Proof.
  revert out; induction s as [|ch s IH]; intros out Ho; cbn [map concat length] in *.
  { cbn [unescape_loop]. by rewrite finish_ok, app_nil_r by lia. }
  assert (Hnext : forall o, o = out ++ [ch] ->
    unescape_loop buflen esc (concat (map (escape_chunk illegal esc) s)) o = Some (out ++ ch :: s)).
  { intros o ->. rewrite IH by (rewrite length_app; cbn [length]; lia). by rewrite <- app_assoc. }
  unfold escape_chunk at 1. destruct ((ch =? esc) || in_str illegal ch) eqn:E; cbn [app unescape_loop].
  - rewrite (proj2 (Nat.ltb_lt _ _)), Z.eqb_refl, emit_ok by (cbn [length]; lia). by apply Hnext.
  - bool_simpl. rewrite (proj2 (Nat.ltb_lt _ _)) by lia.
    rewrite (proj2 (Z.eqb_neq ch esc)), emit_ok by (done || (cbn [length]; lia)).
    destruct (concat _) eqn:Ec; by apply Hnext.
Qed.

Lemma decode_chunks buflen illegal esc s out :
  bytes_ok s -> (length out + length s < buflen)%nat ->
  decode_loop buflen esc (concat (map (encode_chunk illegal esc) s)) out = Some (out ++ s).
Proof.
  intros Hok. revert out; induction Hok as [|ch s Hc _ IH]; intros out Ho; cbn [map concat length] in *.
  { cbn [decode_loop]. by rewrite finish_ok, app_nil_r by lia. }
  assert (Hnext : forall o, o = out ++ [ch] ->
    decode_loop buflen esc (concat (map (encode_chunk illegal esc) s)) o = Some (out ++ ch :: s)).
  { intros o ->. rewrite IH by (rewrite length_app; cbn [length]; lia). by rewrite <- app_assoc. }
  unfold encode_chunk at 1.
  destruct (negb (ch =? esc) && negb (in_str illegal ch)) eqn:E; cbn [app decode_loop].
  - bool_simpl. rewrite (proj2 (Nat.ltb_lt _ _)) by lia.
    rewrite (proj2 (Z.eqb_neq ch esc)), emit_ok by (done || (cbn [length]; lia)).
    destruct (concat _) as [|? [|]] eqn:Ec; by apply Hnext.
  - destruct (hex_chars_decode ch Hc) as (c1 & c2 & h1 & h2 & -> & Hh1 & Hh2 & Hp).
    cbn [app decode_loop]. rewrite (proj2 (Nat.ltb_lt _ _)), Z.eqb_refl, Hh1, Hh2 by lia.
    rewrite emit_ok by (cbn [length]; lia). apply Hnext. by rewrite Hp.
Qed.

Lemma url_safe_char ch :
  is_byte ch -> unsafe_char URL_UNSAFE ch = false -> ch <> chr "+" /\ ch <> chr "%".
Proof. intros _ Hu. split; intros ->; vm_compute in Hu; discriminate. Qed.

Lemma url_chunks buflen s out :
  bytes_ok s -> (length out + length s < buflen)%nat ->
  url_decode_loop buflen (concat (map url_chunk s)) out = Some (out ++ s).
Proof.
  intros Hok. revert out; induction Hok as [|ch s Hc _ IH]; intros out Ho; cbn [map concat length] in *.
  { cbn [url_decode_loop]. by rewrite finish_ok, app_nil_r by lia. }
  assert (Hnext : forall o, o = out ++ [ch] ->
    url_decode_loop buflen (concat (map url_chunk s)) o = Some (out ++ ch :: s)).
  { intros o ->. rewrite IH by (rewrite length_app; cbn [length]; lia). by rewrite <- app_assoc. }
  unfold url_chunk at 1. destruct (unsafe_char URL_UNSAFE ch) eqn:E; cbn [app url_decode_loop].
  - destruct (hex_chars_decode ch Hc) as (c1 & c2 & h1 & h2 & -> & Hh1 & Hh2 & Hp).
    cbn [app url_decode_loop]. rewrite (proj2 (Nat.ltb_lt _ _)) by lia.
    change (chr "%" =? chr "+") with false. change (chr "%" =? chr "%") with true.
    cbn match. rewrite Hh1, Hh2, emit_ok by (cbn [length]; lia). apply Hnext. by rewrite Hp.
  - destruct (url_safe_char ch Hc E) as [H1 H2]. rewrite (proj2 (Nat.ltb_lt _ _)) by lia.
    rewrite (proj2 (Z.eqb_neq ch (chr "+")) H1), (proj2 (Z.eqb_neq ch (chr "%")) H2).
    rewrite emit_ok by (cbn [length]; lia).
    destruct (concat _) as [|? [|]] eqn:Ec; by apply Hnext.
Qed.

(** ** XML *)

Lemma at_lit_cons a l b s : at_lit (a :: l) (b :: s) = (a =? b) && at_lit l s.
Proof.
  unfold at_lit. cbn [length take].
  change (S (length l) <=? S (length s))%nat with (length l <=? length s)%nat.
  destruct (length l <=? length s)%nat; [|by rewrite andb_false_r]. cbn [andb].
  destruct (Z.eqb_spec a b) as [->|Hne]; cbn [andb].
  - apply bool_decide_ext. split; [by intros [= ?]|by intros ->].
  - apply bool_decide_eq_false. congruence.
Qed.
Lemma at_lit_nil_l s : at_lit [] s = true.
Proof. unfold at_lit. by rewrite take_0. Qed.
Lemma at_lit_nil_r a l : at_lit (a :: l) [] = false.
Proof. done. Qed.

(** Evaluate literal tests on a source that starts with known chars. *)
Ltac lits :=
  repeat match goal with |- context [str ?x] => let v := eval vm_compute in (str x) in change (str x) with v end;
  repeat match goal with |- context [chr ?x] => let v := eval vm_compute in (chr x) in change (chr x) with v end;
  cbn [app]; rewrite ?at_lit_cons, ?at_lit_nil_l; cbn [Z.eqb Pos.eqb andb negb].

(** One unit of the source: the chars [u] decode to the bytes [w]. *)
Definition xml_unit (u w : bytes) : Prop :=
  forall n buflen rest out,
    (length (u ++ rest) <= n)%nat -> (length out + length w < buflen)%nat ->
    exists n', (length rest <= n')%nat /\
      xml_decode_loop n buflen (u ++ rest) out = xml_decode_loop n' buflen rest (out ++ w).

Lemma xml_units us ws n buflen out :
  Forall2 xml_unit us ws -> (length (concat us) <= n)%nat ->
  (length out + length (concat ws) < buflen)%nat ->
  xml_decode_loop n buflen (concat us) out = Some (out ++ concat ws).
Proof.
  intros Hf. revert n out; induction Hf as [|u w us ws Hu _ IH]; intros n out Hn Ho;
    cbn [concat] in *.
  { destruct n; cbn; rewrite app_nil_r; apply finish_ok; cbn in Ho; lia. }
  rewrite length_app in Ho.
  destruct (Hu n buflen (concat us) out Hn ltac:(lia)) as (n' & Hn' & ->).
  rewrite IH by (rewrite ?length_app; lia). by rewrite app_assoc.
Qed.

Lemma xml_unit_plain ch : ch <> chr "&" -> xml_unit [ch] [ch].
Proof.
  intros Hne n buflen rest out Hn Ho. destruct n as [|n]; [cbn in Hn; lia|].
  exists n. split; [cbn in Hn; lia|]. cbn [app xml_decode_loop].
  rewrite (proj2 (Nat.ltb_lt _ _)) by (cbn in Ho; lia).
  rewrite (proj2 (Z.eqb_neq ch (chr "&")) Hne). cbn [negb].
  by rewrite emit_ok by (cbn in *; lia).
Qed.

Lemma xml_unit_lit quote ch seq :
  markup quote ch = Some seq -> ch <> chr "'" -> xml_unit seq [ch].
Proof.
  intros Hs Hq n buflen rest out Hn Ho. destruct n as [|n].
  { pose proof (markup_length [0] ch seq) as Hl. rewrite length_app in Hn.
    assert (1 <= length seq)%nat; [|lia]. apply Hl; [|cbn; lia].
    revert Hs. unfold markup. repeat case_match; try done. bool_simpl. congruence. }
  exists n. split; [rewrite length_app in Hn; pose proof (markup_length [0] ch seq);
    assert (1 <= length seq)%nat; [|lia]; apply H; [|cbn; lia];
    revert Hs; unfold markup; repeat case_match; try done; bool_simpl; congruence|].
  cbn [length] in Ho. revert Hs. unfold markup.
  repeat case_match; intros; simplify_eq; bool_simpl; subst; try done;
    cbn [xml_decode_loop str app]; rewrite (proj2 (Nat.ltb_lt _ _)) by lia;
    lits; by rewrite emit_ok by (cbn [length]; lia).
Qed.

Lemma xml_unit_apos : xml_unit (str "&apos;") [chr "'"].
Proof.
  intros n buflen rest out Hn Ho. destruct n as [|n]; [cbn in Hn; lia|].
  exists n. split; [cbn in Hn; lia|]. cbn [length] in Ho.
  cbn [xml_decode_loop str app]. rewrite (proj2 (Nat.ltb_lt _ _)) by lia.
  lits. by rewrite emit_ok by (cbn [length]; lia).
Qed.

Lemma xml_unit_char ch : is_byte ch -> xml_unit (markup_chunk (str "&apos;") ch) [ch].
Proof.
  intros Hc. unfold markup_chunk. destruct (unsafe_char XML_UNSAFE ch) eqn:Hu.
  - destruct (markup_some (str "&apos;") ch Hu Hc) as [seq Hs]. rewrite Hs. cbn.
    destruct (decide (ch = chr "'")) as [->|Hne].
    + vm_compute in Hs. injection Hs as <-. apply xml_unit_apos.
    + by eapply xml_unit_lit.
  - apply xml_unit_plain. intros ->. vm_compute in Hu. discriminate.
Qed.

(** ** UTF-8 *)

(** The encoding of a value, when there is room. *)
Definition utf8 (v : Z) : bytes := utf8_encode 4 v.

Lemma utf8_room buflen v : (length (utf8 v) <= buflen)%nat -> utf8_encode buflen v = utf8 v.
Proof.
  unfold utf8, utf8_encode. change (1 <=? 4)%nat with true. change (2 <=? 4)%nat with true.
  change (3 <=? 4)%nat with true. change (4 <=? 4)%nat with true.
  destruct (v <=? 0x7F) eqn:H1, (v <=? 0x7FF) eqn:H2, (v <=? 0xFFFF) eqn:H3,
    (v <=? 0x1FFFFF) eqn:H4; bool_simpl; try lia; cbn [andb length]; intros;
    rewrite ?(proj2 (Nat.leb_le _ buflen)) by lia; done.
Qed.

Lemma trail_facts : forall k, 0 <= k < 64 ->
  (Z.land (Z.lor 0x80 k) 0xC0 =? 0x80) && (Z.land (Z.lor 0x80 k) 0x3F =? k) = true.
Proof. apply (forall_below 64). vm_compute. reflexivity. Qed.
Lemma trail_ok k : 0 <= k < 64 ->
  Z.land (Z.lor 0x80 k) 0xC0 = 0x80 /\ Z.land (Z.lor 0x80 k) 0x3F = k.
Proof. intros H%trail_facts. by bool_simpl. Qed.

Lemma lead2 : forall k, 0 <= k < 32 ->
  negb (Z.land (Z.lor 0xC0 k) 0x80 =? 0) && (Z.land (Z.lor 0xC0 k) 0xE0 =? 0xC0)
  && (Z.land (Z.lor 0xC0 k) 0x1F =? k) = true.
Proof. apply (forall_below 32). vm_compute. reflexivity. Qed.
Lemma lead3 : forall k, 0 <= k < 16 ->
  negb (Z.land (Z.lor 0xE0 k) 0x80 =? 0) && negb (Z.land (Z.lor 0xE0 k) 0xE0 =? 0xC0)
  && (Z.land (Z.lor 0xE0 k) 0xF0 =? 0xE0) && (Z.land (Z.lor 0xE0 k) 0x0F =? k) = true.
Proof. apply (forall_below 16). vm_compute. reflexivity. Qed.
Lemma lead4 : forall k, 0 <= k < 8 ->
  negb (Z.land (Z.lor 0xF0 k) 0x80 =? 0) && negb (Z.land (Z.lor 0xF0 k) 0xE0 =? 0xC0)
  && negb (Z.land (Z.lor 0xF0 k) 0xF0 =? 0xE0) && (Z.land (Z.lor 0xF0 k) 0xF8 =? 0xF0)
  && (Z.land (Z.lor 0xF0 k) 0x07 =? k) = true.
Proof. apply (forall_below 8). vm_compute. reflexivity. Qed.

Lemma ascii_facts : forall k, 0 <= k < 128 -> (Z.land k 0x80 =? 0) = true.
Proof. apply (forall_below 128). vm_compute. reflexivity. Qed.

(** The fields of the encoding as quotients and remainders. *)
Lemma utf8_fields v :
  0 <= v < 0x200000 ->
  utf8 v =
    if v <=? 0x7F then [v]
    else if v <=? 0x7FF then [Z.lor 0xC0 (v / 2 ^ 6); Z.lor 0x80 (v mod 2 ^ 6)]
    else if v <=? 0xFFFF then
      [Z.lor 0xE0 (v / 2 ^ 12); Z.lor 0x80 (v / 2 ^ 6 mod 2 ^ 6); Z.lor 0x80 (v mod 2 ^ 6)]
    else [Z.lor 0xF0 (v / 2 ^ 18); Z.lor 0x80 (v / 2 ^ 12 mod 2 ^ 6);
          Z.lor 0x80 (v / 2 ^ 6 mod 2 ^ 6); Z.lor 0x80 (v mod 2 ^ 6)].
Proof.
  intros Hv. unfold utf8, utf8_encode. cbn [Nat.leb]. rewrite !andb_true_r.
  change 0x3F with (2 ^ 6 - 1). rewrite !land_mask, !Z.shiftr_div_pow2 by lia.
  destruct (v <=? 0x7F); [done|]. destruct (v <=? 0x7FF); [done|].
  destruct (v <=? 0xFFFF); [done|]. destruct (Z.leb_spec v 0x1FFFFF); [done|lia].
Qed.

(** Rewrite the tests on trailer bytes. *)
Ltac trail k :=
  let H := fresh in
  destruct (trail_ok k) as [H ?]; [dlia|]; rewrite ?H; clear H.

Lemma utf8_decode_utf8 v rest :
  0 <= v < 0x200000 -> utf8_decode (utf8 v ++ rest) = (length (utf8 v), v).
Proof.
  intros Hv. rewrite utf8_fields by done.
  destruct (Z.leb_spec v 0x7F) as [H1|H1].
  { unfold utf8_decode. cbn [app nth length]. by rewrite ascii_facts by lia. }
  destruct (Z.leb_spec v 0x7FF) as [H2|H2]; [|destruct (Z.leb_spec v 0xFFFF) as [H3|H3]].
  - pose proof (lead2 (v / 2 ^ 6) ltac:(dlia)) as HL. bool_simpl.
    destruct (trail_ok (v mod 2 ^ 6) ltac:(dlia)) as [T1 T2].
    unfold utf8_decode. cbn [app nth length].
    rewrite (proj2 (Z.eqb_neq _ 0)) by done. rewrite T1, T2. cbn [Nat.ltb Nat.leb orb negb Z.eqb Pos.eqb].
    rewrite (proj2 (Z.eqb_eq _ _)) by eassumption.
    f_equal. repeat match goal with H : Z.land (Z.lor _ _) _ = _ |- _ => rewrite H end.
    rewrite Z.shiftl_mul_pow2, lor_add by dlia. dlia.
  - pose proof (lead3 (v / 2 ^ 12) ltac:(dlia)) as HL. bool_simpl.
    destruct (trail_ok (v mod 2 ^ 6) ltac:(dlia)) as [T1 T2].
    destruct (trail_ok (v / 2 ^ 6 mod 2 ^ 6) ltac:(dlia)) as [T3 T4].
    unfold utf8_decode. cbn [app nth length].
    rewrite (proj2 (Z.eqb_neq _ 0)) by done. rewrite T1, T2, T3, T4.
    cbn [Nat.ltb Nat.leb orb negb Z.eqb Pos.eqb].
    rewrite (proj2 (Z.eqb_neq _ 0xC0)) by done. rewrite (proj2 (Z.eqb_eq _ 0xE0)) by eassumption.
    f_equal. repeat match goal with H : Z.land (Z.lor _ _) _ = _ |- _ => rewrite H end.
    rewrite (Z.shiftl_mul_pow2 _ 6), (Z.shiftl_mul_pow2 _ 12), (lor_add 6), (lor_add 12) by dlia. dlia.
  - pose proof (lead4 (v / 2 ^ 18) ltac:(dlia)) as HL. bool_simpl.
    destruct (trail_ok (v mod 2 ^ 6) ltac:(dlia)) as [T1 T2].
    destruct (trail_ok (v / 2 ^ 6 mod 2 ^ 6) ltac:(dlia)) as [T3 T4].
    destruct (trail_ok (v / 2 ^ 12 mod 2 ^ 6) ltac:(dlia)) as [T5 T6].
    unfold utf8_decode. cbn [app nth length].
    rewrite (proj2 (Z.eqb_neq _ 0)) by done. rewrite T1, T2, T3, T4, T5, T6.
    cbn [Nat.ltb Nat.leb orb negb Z.eqb Pos.eqb].
    rewrite (proj2 (Z.eqb_neq _ 0xC0)) by done. rewrite (proj2 (Z.eqb_neq _ 0xE0)) by done.
    rewrite (proj2 (Z.eqb_eq _ 0xF0)) by eassumption.
    f_equal. repeat match goal with H : Z.land (Z.lor _ _) _ = _ |- _ => rewrite H end.
    rewrite !(Z.shiftl_mul_pow2 _ 6), (Z.shiftl_mul_pow2 _ 18), !(lor_add 6), (lor_add 18) by dlia.
    dlia.
Qed.

Lemma utf8_length v : 0 <= v < 0x200000 -> (1 <= length (utf8 v) <= 4)%nat.
Proof. intros. rewrite utf8_fields by done. repeat case_match; cbn; lia. Qed.

(** ** Decimal numbers *)

Lemma decimal_loop_spec n v acc : 0 <= v < 10 ^ Z.of_nat n -> (0 < n)%nat ->
  exists ds, decimal_loop n v acc = ds ++ acc /\ (1 <= length ds <= n)%nat /\
    Forall (fun c => chr "0" <= c <= chr "9") ds /\
    fold_left (fun a c => a * 10 + (c - chr "0")) ds 0 = v.
Proof.
  revert v acc; induction n as [|n IH]; intros v acc Hv Hn; [lia|]. cbn [decimal_loop].
  assert (Hd : chr "0" <= chr "0" + v mod 10 <= chr "9") by (change (chr "9") with (chr "0" + 9); dlia).
  destruct (Z.ltb_spec v 10) as [Hs|Hb].
  - exists [chr "0" + v mod 10]. split; [done|]. split; [cbn; lia|].
    split; [by apply List.Forall_cons; [|apply List.Forall_nil]|].
    cbn [fold_left]. dlia.
  - assert (Hn' : (0 < n)%nat) by (destruct n; [cbn in Hv|]; lia).
    rewrite Nat2Z.inj_succ, Z.pow_succ_r in Hv by lia.
    destruct (IH (v / 10) ((chr "0" + v mod 10) :: acc)) as (ds & -> & Hl & Hf & Hval);
      [dlia|done|].
    exists (ds ++ [chr "0" + v mod 10]). rewrite <- app_assoc. split; [done|].
    split; [rewrite length_app; cbn; lia|]. 
    split; [apply Forall_app; split; [done|by apply List.Forall_cons; [|apply List.Forall_nil]]|].
    rewrite fold_left_app, Hval. cbn [fold_left]. dlia.
Qed.

Lemma digits_read ds rest acc :
  Forall (fun c => chr "0" <= c <= chr "9") ds -> digit_of 10 (nth 0 rest 0) = None ->
  strtoul_digits 10 (ds ++ rest) acc
  = (fold_left (fun a c => a * 10 + (c - chr "0")) ds acc, length ds).
Proof.
  intros Hf Hr. revert acc; induction Hf as [|c ds Hc _ IH]; intros acc; cbn [app strtoul_digits].
  - destruct rest as [|c rest]; [done|]. cbn [nth] in Hr. cbn [strtoul_digits]. by rewrite Hr.
  - assert (Hd : digit_of 10 c = Some (c - chr "0")).
    { unfold digit_of, hex_decode. rewrite (proj2 (Z.leb_le _ c)), (proj2 (Z.leb_le c _)) by lia.
      cbn [andb]. rewrite (proj2 (Z.ltb_lt _ _)); [done|]. change (chr "9") with (chr "0" + 9) in Hc. lia. }
    rewrite Hd, IH. done.
Qed.

(** [strtoul] reads back a printed number before a semicolon. *)
Lemma strtoul_decimal v rest :
  0 <= v < 0x200000 ->
  strtoul 10 (decimal v ++ chr ";" :: rest) = (v, length (decimal v)) /\
  (1 <= length (decimal v))%nat.
Proof.
  intros Hv. unfold decimal.
  destruct (decimal_loop_spec 20 v [] ltac:(lia) ltac:(lia)) as (ds & -> & Hl & Hf & Hval).
  rewrite app_nil_r. split; [|lia]. destruct ds as [|c ds]; [cbn in Hl; lia|].
  assert (Hc : chr "0" <= c <= chr "9") by (by inversion Hf).
  change (chr "0") with 48 in Hc. change (chr "9") with 57 in Hc.
  unfold strtoul. cbn [app strtoul_spaces]. unfold isspace.
  rewrite (proj2 (Z.eqb_neq c 32)), (proj2 (Z.leb_gt c 13)) by lia. rewrite andb_false_r. cbn [orb drop].
  rewrite (proj2 (Z.eqb_neq c (chr "-"))) by (change (chr "-") with 45; lia).
  rewrite (proj2 (Z.eqb_neq c (chr "+"))) by (change (chr "+") with 43; lia). cbn [drop].
  match goal with |- context [drop ?pre _] => assert (pre = 0%nat) as -> end.
  { destruct (ds ++ chr ";" :: rest) as [|? [|]]; done. }
  cbn [drop]. change (c :: ds ++ chr ";" :: rest) with ((c :: ds) ++ chr ";" :: rest).
  rewrite digits_read, Hval by done. cbn [Nat.eqb length].
  rewrite (proj2 (Z.leb_gt _ v)) by lia. done.
Qed.

(** ** HTML *)

(** The escape of one code point. *)
Definition html_unit (v : Z) : bytes :=
  if v <? 128 then markup_chunk (str "&#39;") v else str "&#" ++ decimal v ++ str ";".

Lemma utf8_head v : 0 <= v < 0x200000 ->
  exists ch t, utf8 v = ch :: t /\ ((v < 128 /\ ch = v /\ t = []) \/ (128 <= v /\ 128 <= ch)).
Proof.
  intros Hv. rewrite utf8_fields by done.
  destruct (Z.leb_spec v 0x7F); [eexists _, _; split; [done|]; left; split_and!; auto; lia|].
  assert (H2 : forall k, 0 <= k < 32 -> (128 <=? Z.lor 0xC0 k) = true)
    by (apply (forall_below 32); vm_compute; reflexivity).
  assert (H3 : forall k, 0 <= k < 16 -> (128 <=? Z.lor 0xE0 k) = true)
    by (apply (forall_below 16); vm_compute; reflexivity).
  assert (H4 : forall k, 0 <= k < 8 -> (128 <=? Z.lor 0xF0 k) = true)
    by (apply (forall_below 8); vm_compute; reflexivity).
  destruct (Z.leb_spec v 0x7FF); [|destruct (Z.leb_spec v 0xFFFF)];
    (eexists _, _; split; [done|]; right; split; [lia|]; apply Z.leb_le);
    [apply H2 | apply H3 | apply H4]; dlia.
Qed.

Lemma html_chunks_cps n cps :
  Forall (fun v => 0 <= v < 0x200000) cps -> (length (concat (map utf8 cps)) <= n)%nat ->
  html_chunks n (concat (map utf8 cps)) = map html_unit cps.
Proof.
  intros Hf. revert n; induction Hf as [|v cps Hv _ IH]; intros n Hn; cbn [map concat] in *.
  { by destruct n. }
  rewrite length_app in Hn. pose proof (utf8_length v Hv) as Hl.
  pose proof (utf8_decode_utf8 v (concat (map utf8 cps)) Hv) as Hd.
  destruct (utf8_head v Hv) as (ch & t & E & Hch). rewrite E in *. cbn [app length] in *.
  destruct n as [|n]; [lia|]. cbn [html_chunks]. unfold html_unit at 1.
  destruct Hch as [(Hlt & -> & ->)|[Hge Hge']].
  - rewrite (proj2 (Z.ltb_lt _ _)) by lia. cbn [app]. by rewrite IH by lia.
  - rewrite !(proj2 (Z.ltb_ge _ 128)) by lia. rewrite Hd. cbn [Nat.eqb]. f_equal.
    cbn [drop]. rewrite drop_app_length. apply IH. lia.
Qed.

Lemma xml_unit_html v : 0 <= v < 0x200000 -> xml_unit (html_unit v) (utf8 v).
Proof.
  intros Hv. unfold html_unit. destruct (Z.ltb_spec v 128) as [Hlt|Hge].
  { assert (utf8 v = [v]) as -> by (rewrite utf8_fields by done; destruct (Z.leb_spec v 0x7F); [done|lia]).
    unfold markup_chunk. destruct (unsafe_char XML_UNSAFE v) eqn:Hu.
    - destruct (markup_some (str "&#39;") v Hu ltac:(unfold is_byte; lia)) as [seq Hs]. rewrite Hs. cbn.
      destruct (decide (v = chr "'")) as [->|Hne]; [|by eapply xml_unit_lit].
      vm_compute in Hs. injection Hs as <-.
      intros n buflen rest out Hn Ho. destruct n as [|n]; [cbn in Hn; lia|].
      exists n. split; [cbn in Hn; lia|]. cbn [length] in Ho.
      cbn [xml_decode_loop str app]. rewrite (proj2 (Nat.ltb_lt _ _)) by lia. lits. cbn [drop].
      pose proof (strtoul_decimal 39 rest ltac:(lia)) as [Hst _].
      change (decimal 39) with [51; 57] in Hst. cbn [app length] in Hst.
      change (chr ";") with 59 in Hst. rewrite at_lit_cons. cbn [Z.eqb Pos.eqb andb].
      cbn [drop]. rewrite Hst.
      cbn [length Nat.add Nat.ltb Nat.leb nth Z.eqb Pos.eqb andb drop].
      rewrite (utf8_room (buflen - length out) 39) by (cbn; lia).
      change (utf8 39) with [39]. by rewrite emit_ok by (cbn [length]; lia).
    - apply xml_unit_plain. intros ->. vm_compute in Hu. discriminate. }
  intros n buflen rest out Hn Ho. destruct n as [|n]; [cbn in Hn; lia|].
  exists n. split; [rewrite !length_app in Hn; cbn in Hn; lia|].
  pose proof (utf8_length v Hv) as Hl. destruct (strtoul_decimal v rest Hv) as [Hst Hdl].
  change (str "&#") with [38; 35]. change (str ";") with [59]. rewrite <- !app_assoc. cbn [app].
  change (chr ";") with 59 in Hst.
  destruct (decimal v) as [|c ds] eqn:Ed; [cbn in Hdl; lia|].
  cbn [app] in Hst. assert (Hx : (120 =? c) = false).
  { destruct (decimal_loop_spec 20 v [] ltac:(lia) ltac:(lia)) as (ds' & Ed' & _ & Hf & _).
    fold (decimal v) in Ed'. rewrite Ed, app_nil_r in Ed'. subst ds'. inversion_clear Hf as [|? ? Hc _].
    change (chr "9") with 57 in Hc. lia. }
  cbn [xml_decode_loop]. rewrite (proj2 (Nat.ltb_lt _ _)) by lia. lits. cbn [drop app].
  rewrite at_lit_cons, Hx. cbn [andb drop]. rewrite Hst.
  assert (Hnth : nth (1 + length (c :: ds)) (35 :: c :: ds ++ 59 :: rest) 0 = 59).
  { change (nth (length (c :: ds)) ((c :: ds) ++ 59 :: rest) 0 = 59).
    by rewrite app_nth2, Nat.sub_diag by lia. }
  rewrite Hnth, (proj2 (Nat.ltb_lt _ _)) by (cbn [length]; rewrite length_app; cbn [length]; lia).
  cbn [Z.eqb Pos.eqb andb]. rewrite utf8_room by lia.
  assert (Hdrop : drop (1 + length (c :: ds) + 1) (35 :: c :: ds ++ 59 :: rest) = rest).
  { replace (35 :: c :: ds ++ 59 :: rest) with ((35 :: c :: ds ++ [59]) ++ rest)
      by (cbn; by rewrite <- app_assoc).
    apply drop_app_length'. cbn [length]. rewrite length_app. cbn. lia. }
  rewrite Hdrop, emit_ok by lia. destruct (utf8 v); [cbn in Hl; lia|done].
Qed.

(** ** Hex strings *)

Fixpoint hex_text (delimiter : Z) (s : bytes) : bytes :=
  match s with
  | [] => []
  | [c] => hex_chars c
  | c :: s' => hex_chars c ++ (if delimiter =? 0 then [] else [delimiter]) ++ hex_text delimiter s'
  end.

Lemma hex_text_cons d c s : hex_text d (c :: s) =
  hex_chars c ++ (if negb (d =? 0) && (0 <? length s)%nat then [d] else []) ++ hex_text d s.
Proof.
  destruct s; cbn [hex_text length]; [by rewrite andb_false_r, app_nil_r|].
  change (0 <? S (length s))%nat with true. rewrite andb_true_r. by destruct (d =? 0).
Qed.

Lemma hex_text_length d s :
  length (hex_text d s) = if d =? 0 then (2 * length s)%nat else (3 * length s - 1)%nat.
Proof.
  induction s as [|c s IH]; [by destruct (d =? 0)|]. rewrite hex_text_cons, !length_app, IH.
  destruct (d =? 0); cbn [negb andb length hex_chars]; [lia|].
  destruct s; cbn [length Nat.ltb Nat.leb]; lia.
Qed.

Lemma hex_encode_text buflen d s out :
  (length out + length (hex_text d s) < buflen)%nat ->
  hex_encode_loop buflen d s out = Some (out ++ hex_text d s).
Proof.
  revert out; induction s as [|c s IH]; intros out Ho; cbn [hex_encode_loop].
  { by rewrite finish_ok, app_nil_r by (cbn in Ho; lia). }
  rewrite hex_text_cons, !length_app in Ho. rewrite emit_ok by (cbn [length hex_chars] in *; lia).
  rewrite hex_text_cons. destruct (negb (d =? 0) && (0 <? length s)%nat).
  - rewrite emit_ok by (rewrite length_app; cbn [length hex_chars] in *; lia).
    rewrite IH by (rewrite !length_app; cbn [length hex_chars] in *; lia). by rewrite <- !app_assoc.
  - rewrite IH by (rewrite !length_app; cbn [length hex_chars] in *; lia). by rewrite <- !app_assoc.
Qed.

Lemma hex_decode_text n buflen d s out :
  bytes_ok s -> (length (hex_text d s) <= n)%nat -> (length out + length s <= buflen)%nat ->
  hex_decode_loop n buflen d (hex_text d s) out = Some (length (out ++ s), out ++ s).
Proof.
  intros Hok. revert n out; induction Hok as [|c s Hc _ IH]; intros n out Hn Ho.
  { cbn [hex_text]. rewrite app_nil_r. by destruct n. }
  rewrite hex_text_cons in *. cbn [length] in Ho.
  destruct (hex_chars_decode c Hc) as (c1 & c2 & h1 & h2 & E & Hh1 & Hh2 & Hp). rewrite E in *.
  rewrite !length_app in Hn. cbn [length] in Hn. destruct n as [|n]; [lia|].
  cbn [app hex_decode_loop]. rewrite Hh1, Hh2, Hp, emit_ok by (cbn [length]; lia).
  pose proof (hex_text_length d s) as Hl.
  assert (Hnext : forall k, (length (hex_text d s) <= k)%nat ->
    hex_decode_loop k buflen d (hex_text d s) (out ++ [c])
    = Some (length (out ++ c :: s), out ++ c :: s)).
  { intros k Hk. rewrite IH by (rewrite ?length_app; cbn [length]; lia). by rewrite <- app_assoc. }
  destruct (Z.eqb_spec d 0) as [->|Hd]; cbn [negb andb app] in *; [apply Hnext; lia|].
  destruct s as [|c' s]; [cbn [length Nat.ltb Nat.leb app hex_text] in *; apply Hnext; lia|].
  change (0 <? length (c' :: s))%nat with true in *. cbn [app length] in *.
  rewrite (proj2 (Nat.ltb_lt _ _)) by lia. cbn [nth]. rewrite Z.eqb_refl. cbn [negb drop]. apply Hnext. lia.
Qed.

(** ** Splitting *)

(** Reference: the fields between delimiters, by recursion on the string. *)
Fixpoint fields_ref (d : Z) (s : bytes) : list bytes :=
  match s with
  | [] => [[]]
  | c :: s' =>
      if c =? d then [] :: fields_ref d s'
      else match fields_ref d s' with f :: fs => (c :: f) :: fs | [] => [[c]] end
  end.
(** Put chars before the first field. *)
Definition prepend (p : bytes) (fs : list bytes) : list bytes :=
  match fs with f :: fs => (p ++ f) :: fs | [] => [p] end.
Definition nonempty (f : bytes) : bool := negb (length f =? 0)%nat.
Fixpoint join (d : Z) (fs : list bytes) : bytes :=
  match fs with [] => [] | [f] => f | f :: fs => f ++ d :: join d fs end.

Lemma fields_ref_cons d s : exists f fs, fields_ref d s = f :: fs.
Proof. destruct s as [|c s]; cbn; [eauto|]. repeat case_match; eauto. Qed.

Lemma prepend_nil d s : prepend [] (fields_ref d s) = fields_ref d s.
Proof. by destruct (fields_ref_cons d s) as (f & fs & ->). Qed.

Lemma substr_snoc source last i c r :
  (last <= i)%nat -> drop i source = c :: r ->
  substr source last (S i - last) = substr source last (i - last) ++ [c].
Proof.
  intros Hl Hd. unfold substr. replace (S i - last)%nat with (S (i - last)) by lia.
  apply take_S_r. rewrite lookup_drop. replace (last + (i - last))%nat with i by lia.
  rewrite <- (Nat.add_0_r i), <- lookup_drop, Hd. done.
Qed.

Lemma substr_nil source i : substr source i (i - i) = [].
Proof. unfold substr. by rewrite Nat.sub_diag, take_0. Qed.

(** What the scan has still to add, with [p] the field in progress. *)
Definition pending (d : Z) (source : bytes) (last i : nat) : list bytes :=
  prepend (substr source last (i - last)) (fields_ref d (drop i source)).

Lemma pending_delim d source last i r :
  drop i source = d :: r -> pending d source last i
  = substr source last (i - last) :: pending d source (S i) (S i).
Proof.
  intros Hd. destruct (drop_cons_inv _ _ _ _ Hd) as (_ & _ & Hr). unfold pending.
  rewrite Hd, substr_nil, Hr. cbn [fields_ref]. rewrite Z.eqb_refl, prepend_nil.
  cbn [prepend]. by rewrite app_nil_r.
Qed.

Lemma pending_char d source last i c r :
  (last <= i)%nat -> drop i source = c :: r -> c <> d ->
  pending d source last i = pending d source last (S i).
Proof.
  intros Hl Hd Hne. destruct (drop_cons_inv _ _ _ _ Hd) as (_ & _ & Hr). unfold pending.
  rewrite (substr_snoc source last i c r), Hd, Hr by done. cbn [fields_ref].
  rewrite (proj2 (Z.eqb_neq c d) Hne). destruct (fields_ref_cons d r) as (f & fs & ->).
  cbn [prepend]. by rewrite <- app_assoc.
Qed.

Lemma pending_end d source last :
  (last <= length source)%nat ->
  pending d source last (length source) = [substr source last (length source - last)].
Proof. intros. unfold pending. rewrite drop_all. cbn. by rewrite app_nil_r. Qed.

Lemma split_loop_spec d n source : forall i last fields,
  (i + n = length source)%nat -> (last <= i)%nat ->
  let '(last', fields') := split_loop n i source d last fields in
  (last' <= length source)%nat /\
  fields' ++ [substr source last' (length source - last')] = fields ++ pending d source last i.
Proof.
  induction n as [|n IH]; intros i last fields Hn Hl; cbn [split_loop].
  { assert (i = length source) as -> by lia. by rewrite pending_end. }
  destruct (drop i source) as [|c r] eqn:Hd; [apply drop_nil_inv in Hd; lia|].
  destruct (drop_cons_inv _ _ _ _ Hd) as (-> & _ & _). destruct (Z.eqb_spec c d) as [->|Hne].
  - specialize (IH (S i) (S i) (fields ++ [substr source last (i - last)]) ltac:(lia) ltac:(lia)).
    destruct (split_loop _ _ _ _ _ _) as [last' fields']. destruct IH as [? ->]. split; [done|].
    by rewrite (pending_delim d source last i r), <- app_assoc.
  - specialize (IH (S i) last fields ltac:(lia) ltac:(lia)).
    destruct (split_loop _ _ _ _ _ _) as [last' fields']. destruct IH as [? ->]. split; [done|].
    by rewrite (pending_char d source last i c r).
Qed.

Lemma split_fields source d : split source d = fields_ref d source.
Proof.
  unfold split. pose proof (split_loop_spec d (length source) source 0 0 [] eq_refl (le_n _)) as H.
  destruct (split_loop _ _ _ _ _ _) as [last fields]. destruct H as [_ ->].
  unfold pending. rewrite substr_nil, drop_0. apply prepend_nil.
Qed.

Lemma substr_nonempty source last i :
  (last <= i)%nat -> (i <= length source)%nat ->
  nonempty (substr source last (i - last)) = negb (i =? last)%nat.
Proof.
  intros. unfold nonempty, substr. rewrite length_take, length_drop.
  destruct (Nat.eqb_spec i last) as [->|]; [rewrite Nat.sub_diag; done|].
  destruct (Nat.eqb_spec (Nat.min (i - last) (length source - last)) 0); [lia|done].
Qed.

Lemma tokenize_loop_spec d n source : forall i last fields,
  (i + n = length source)%nat -> (last <= i)%nat ->
  let '(last', fields') := tokenize_loop n i source d last fields in
  (last' <= length source)%nat /\
  fields' ++ List.filter nonempty [substr source last' (length source - last')]
  = fields ++ List.filter nonempty (pending d source last i).
Proof.
  induction n as [|n IH]; intros i last fields Hn Hl; cbn [tokenize_loop].
  { assert (i = length source) as -> by lia. by rewrite pending_end. }
  destruct (drop i source) as [|c r] eqn:Hd; [apply drop_nil_inv in Hd; lia|].
  destruct (drop_cons_inv _ _ _ _ Hd) as (-> & Hi & _). destruct (Z.eqb_spec c d) as [->|Hne].
  - match goal with |- context [tokenize_loop n (S i) source d (S i) ?f] =>
      specialize (IH (S i) (S i) f ltac:(lia) ltac:(lia)) end.
    destruct (tokenize_loop _ _ _ _ _ _) as [last' fields']. destruct IH as [? ->]. split; [done|].
    rewrite (pending_delim d source last i r) by done. cbn [List.filter].
    rewrite substr_nonempty by lia. destruct (i =? last)%nat; cbn [negb]; [done|].
    by rewrite <- app_assoc.
  - specialize (IH (S i) last fields ltac:(lia) ltac:(lia)).
    destruct (tokenize_loop _ _ _ _ _ _) as [last' fields']. destruct IH as [? ->]. split; [done|].
    by rewrite (pending_char d source last i c r).
Qed.

Lemma tokenize_fields source d : tokenize source d = List.filter nonempty (fields_ref d source).
Proof.
  unfold tokenize.
  pose proof (tokenize_loop_spec d (length source) source 0 0 [] eq_refl (le_n _)) as H.
  destruct (tokenize_loop _ _ _ _ _ _) as [last fields]. destruct H as [Hl H].
  unfold pending in H. rewrite substr_nil, drop_0, prepend_nil in H. cbn [app] in H. rewrite <- H.
  cbn [List.filter]. rewrite substr_nonempty by lia. rewrite Nat.eqb_sym.
  destruct (length source =? last)%nat; cbn [negb]; by rewrite ?app_nil_r.
Qed.

Lemma join_fields d s : join d (fields_ref d s) = s.
Proof.
  induction s as [|c s IH]; [done|]. cbn [fields_ref].
  destruct (fields_ref_cons d s) as (f & fs & E). rewrite E in *.
  destruct (Z.eqb_spec c d) as [->|]; cbn [join app]; [by f_equal|].
  destruct fs; cbn [join app] in *; by f_equal.
Qed.

Lemma fields_no_delim d s : Forall (fun f => ~ In d f) (fields_ref d s).
Proof.
  induction s as [|c s IH]; cbn [fields_ref].
  { apply List.Forall_cons; [by intros []|apply List.Forall_nil]. }
  destruct (Z.eqb_spec c d) as [->|Hne]; [by apply List.Forall_cons; [by intros []|]|].
  destruct (fields_ref_cons d s) as (f & fs & E). rewrite E in *.
  inversion_clear IH as [|? ? Hf Hfs]. apply List.Forall_cons; [|done].
  by intros [|].
Qed.

Lemma find_from_bound n pos source c k :
  find_from n pos source c = Some k -> (pos <= k < pos + n)%nat.
Proof.
  revert pos; induction n as [|n IH]; intros pos; cbn; [done|].
  case_match; [intros [= ->]; lia|]. intros Hk%IH. lia.
Qed.

(** Tokenizing with marks terminates: each round drops the marked field. *)
Lemma tokenize_marks_total source d sm em : is_Some (tokenize_marks source d sm em).
Proof.
  unfold tokenize_marks. assert (H : forall n source fields, (length source <= n)%nat ->
    is_Some (tokenize_marks_loop n source d sm em fields)); [|by apply H].
  clear source. induction n as [|n IH]; intros source fields Hn.
  { destruct source; [cbn; eauto|cbn in Hn; lia]. }
  destruct source as [|c s]; [cbn; eauto|]. cbn [tokenize_marks_loop].
  destruct (find (c :: s) sm 0) as [sp|] eqn:E1; [|eauto].
  destruct (find (c :: s) em (S sp)) as [ep|] eqn:E2; [|eauto]. apply IH.
  rewrite length_drop. lia.
Qed.

(** ** Decoders stay inside their buffer *)

(** A loop that, on at most [n] chars, returns what it has room for. *)
Definition bounded (buflen n : nat) (loop : bytes -> bytes -> option bytes) : Prop :=
  forall s out, (length s <= n)%nat -> (length out < buflen)%nat ->
  exists r, loop s out = Some r /\ (length r < buflen)%nat /\
    (length r <= length out + length s)%nat.

(** One char written, the rest of the source read by the loop. *)
Lemma bounded_next buflen n loop (s s' out : bytes) x :
  bounded buflen n loop -> (length s' <= length s <= n)%nat -> (length out + 1 < buflen)%nat ->
  exists r, (let? out := emit buflen out [x] in loop s' out) = Some r /\ (length r < buflen)%nat /\
    (length r <= length out + S (length s))%nat.
Proof.
  intros Hb Hs Ho. rewrite emit_ok by (cbn [length]; lia).
  destruct (Hb s' (out ++ [x])) as (r & -> & ? & Hr); [lia| |].
  - rewrite length_app. cbn. lia.
  - exists r. rewrite length_app in Hr. cbn in Hr. split_and!; [done|done|lia].
Qed.

(** The frame of the three proofs: nothing left, no room, or one step. *)
Ltac bounded_start IH n ch s loop :=
  induction n as [|n IH]; intros [|ch s] out Hn Ho; cbn [length loop] in *; try lia;
  try solve [rewrite finish_ok by done; eauto with lia];
  match goal with |- context [(?a <? ?b)%nat] => destruct (Nat.ltb_spec a b) end;
  [|rewrite finish_ok by done; eauto with lia];
  cbv zeta.
Ltac bounded_step IH := eapply (bounded_next _ _ _ _ _ _ _ IH); cbn [length] in *; lia.

Lemma unescape_bound buflen esc n : bounded buflen n (unescape_loop buflen esc).
Proof.
  bounded_start IH n ch s unescape_loop. destruct s as [|ch' s]; [bounded_step IH|].
  destruct (ch =? esc); bounded_step IH.
Qed.

Lemma decode_bound buflen esc n : bounded buflen n (decode_loop buflen esc).
Proof.
  bounded_start IH n ch s decode_loop. destruct s as [|c1 [|c2 s]]; try bounded_step IH.
  destruct (ch =? esc), (hex_decode c1), (hex_decode c2); bounded_step IH.
Qed.

Lemma url_decode_bound buflen n : bounded buflen n (url_decode_loop buflen).
Proof.
  bounded_start IH n ch s url_decode_loop. destruct (ch =? chr "+"); [bounded_step IH|].
  destruct s as [|c1 [|c2 s]]; try bounded_step IH.
  destruct (ch =? chr "%"), (hex_decode c1), (hex_decode c2); bounded_step IH.
Qed.

(** What a numeric reference decodes to is no longer than the reference. *)
Lemma strtoul_none base s : (strtoul base s).2 = 0%nat -> (strtoul base s).1 = 0.
Proof.
  unfold strtoul. destruct (match drop _ s with [] => _ | _ => _ end) as [neg sgn].
  destruct (strtoul_digits _ _ _) as [v n]. destruct (Nat.eqb_spec n 0); cbn; [done|lia].
Qed.

Lemma utf8_encode_length buflen v : (length (utf8_encode buflen v) <= buflen)%nat /\
  (length (utf8_encode buflen v) <= 4)%nat.
Proof. unfold utf8_encode. repeat split_if; bool_simpl; cbn [length]; lia. Qed.

Lemma xml_decode_bound n buflen : forall s out,
  (length s <= n)%nat -> (length out + length s < buflen)%nat ->
  exists r, xml_decode_loop n buflen s out = Some r /\
    (length r <= length out + length s)%nat.
Proof.
  induction n as [|n IH]; intros [|ch s] out Hn Ho; cbn [length xml_decode_loop] in *; try lia;
    try solve [rewrite finish_ok by lia; eauto with lia].
  rewrite (proj2 (Nat.ltb_lt _ _)) by lia.
  assert (Hput : forall c k, exists r,
    (let? out := emit buflen out [c] in xml_decode_loop n buflen (drop k s) out) = Some r /\
    (length r <= length out + S (length s))%nat).
  { intros c k. rewrite emit_ok by (cbn [length]; lia).
    destruct (IH (drop k s) (out ++ [c])) as (r & -> & Hr); rewrite ?length_app, length_drop in *;
      cbn [length] in *; try lia. eauto with lia. }
  cbv zeta. do 6 (split_if; [apply Hput|]). split_if; [|rewrite finish_ok by lia; eauto with lia].
  assert (Hs : exists base s', (if at_lit (str "x") (drop 1 s) then (16, drop 1 s) else (10, s))
    = (base, s') /\ (length s' <= length s)%nat).
  { split_if; eexists _, _; (split; [reflexivity|]); rewrite ?length_drop; lia. }
  destruct Hs as (base & s' & -> & Hs').
  pose proof (strtoul_none base (drop 1 s')) as H0.
  destruct (strtoul base (drop 1 s')) as [val len]. cbn [fst snd] in H0.
  split_if; [|rewrite finish_ok by lia; eauto with lia]. bool_simpl.
  destruct (utf8_encode_length (buflen - length out) val) as [Hu1 Hu4].
  assert (Hu : (length (utf8_encode (buflen - length out) val) <= 3 + len)%nat).
  { destruct len as [|len]; [|lia]. rewrite H0 by done. unfold utf8_encode.
    rewrite (proj2 (Nat.leb_le 1 _)) by lia. cbn. lia. }
  destruct (utf8_encode _ _) as [|b bs] eqn:E; [rewrite finish_ok by lia; eauto with lia|].
  rewrite emit_ok by lia.
  destruct (IH (drop (1 + len + 1) s') (out ++ b :: bs)) as (r & -> & Hr);
    rewrite ?length_app, length_drop in *; cbn [length] in *; try lia. eauto with lia.
Qed.

(** ** Properties *)

(** every encoder (escape, encode, url_encode, xml_encode, html_encode)
    writes the longest prefix of the encoded units (chars, or for html_encode
    UTF-8 sequences) that fits in its buffer with the terminating NUL: no write
    past the buffer, never half an escape sequence, and the whole encoding
    when the buffer is large enough. *)
Theorem encoders_fill buflen source illegal esc :
  (0 < buflen)%nat -> bytes_ok source ->
  escape buflen source illegal esc
    = Some (greedy (buflen - 1) (map (escape_chunk illegal esc) source)) /\
  encode buflen source illegal esc
    = Some (greedy (buflen - 1) (map (encode_chunk illegal esc) source)) /\
  url_encode buflen source = Some (greedy (buflen - 1) (map url_chunk source)) /\
  xml_encode buflen source
    = Some (greedy (buflen - 1) (map (markup_chunk (str "&apos;")) source)) /\
  html_encode buflen source = Some (greedy (buflen - 1) (html_chunks (length source) source)).
Proof.
  intros Hb Hok. unfold escape, encode, url_encode, xml_encode, html_encode.
  rewrite (proj2 (Nat.leb_gt buflen 0)) by done.
  rewrite escape_greedy, encode_greedy, url_encode_greedy, xml_encode_greedy, html_encode_greedy
    by (done || (cbn; lia)).
  cbn [length app]. by rewrite Nat.sub_0_r.
Qed.

(** unescape, decode, url_decode and xml_decode invert escape, encode,
    url_encode and xml_encode on every byte string, whatever the illegal and
    escape characters, when the buffers hold the encoding and the source. *)
Theorem codecs_roundtrip s illegal esc :
  bytes_ok s ->
  (forall b1 b2, (length (concat (map (escape_chunk illegal esc) s)) < b1)%nat -> (length s < b2)%nat ->
    exists e, escape b1 s illegal esc = Some e /\ unescape b2 e esc = Some s) /\
  (forall b1 b2, (length (concat (map (encode_chunk illegal esc) s)) < b1)%nat -> (length s < b2)%nat ->
    exists e, encode b1 s illegal esc = Some e /\ decode b2 e esc = Some s) /\
  (exists e, s_url_encode s = Some e /\ s_url_decode e = Some s) /\
  (forall b1 b2, (6 * length s < b1)%nat -> (length s < b2)%nat ->
    exists e, xml_encode b1 s = Some e /\ xml_decode b2 e = Some s).
Proof.
  intros Hok. unfold escape, unescape, encode, decode, s_url_encode, s_url_decode, s_transform,
    url_encode, url_decode, xml_encode, xml_decode. split_and!.
  - intros b1 b2 H1 H2. eexists. rewrite !(proj2 (Nat.leb_gt _ 0)), escape_greedy by (cbn; lia).
    split; [done|]. cbn [app length]. rewrite greedy_fits by lia. by apply unescape_chunks.
  - intros b1 b2 H1 H2. eexists. rewrite !(proj2 (Nat.leb_gt _ 0)), encode_greedy by (cbn; lia).
    split; [done|]. cbn [app length]. rewrite greedy_fits by lia. by apply decode_chunks.
  - assert (Hl : (length s <= length (concat (map url_chunk s)) <= 3 * length s)%nat).
    { clear Hok. induction s as [|c s IH]; cbn [map concat length]; [lia|]. rewrite length_app.
      assert (1 <= length (url_chunk c) <= 3)%nat; [|lia].
      unfold url_chunk. destruct (unsafe_char URL_UNSAFE c); cbn; lia. }
    eexists. unfold url_encode_size. rewrite (proj2 (Nat.leb_gt _ 0)) by lia.
    rewrite url_encode_greedy by (cbn; lia). split; [done|]. cbn [app length].
    rewrite greedy_fits by lia. unfold url_decode_size. rewrite (proj2 (Nat.leb_gt _ 0)) by lia.
    apply url_chunks; [done|]. cbn [length]. lia.
  - intros b1 b2 H1 H2. eexists. rewrite !(proj2 (Nat.leb_gt _ 0)) by lia.
    rewrite xml_encode_greedy by (done || (cbn; lia)). split; [done|]. cbn [app length].
    assert (Hl : (length (concat (map (markup_chunk (str "&apos;")) s)) <= 6 * length s)%nat).
    { clear - s. induction s as [|c s IH]; cbn [map concat length]; [lia|]. rewrite length_app.
      assert (length (markup_chunk (str "&apos;") c) <= 6)%nat; [|lia].
      unfold markup_chunk, markup. repeat case_match; cbn; lia. }
    rewrite greedy_fits by lia.
    assert (Hc : forall l : bytes, concat (map (fun c => [c]) l) = l)
      by (induction l; cbn; congruence).
    rewrite <- (Hc s) at 3.
    apply (xml_units _ (map (fun c => [c]) s)); [|lia|cbn [length]; rewrite Hc; lia].
    clear - Hok. induction Hok as [|c s Hc _ IH]; constructor; [by apply xml_unit_char|done].
Qed.

(** html_decode inverts html_encode on valid UTF-8 text: a sequence of
    code points below 0x200000 in their shortest encoding is written as
    character references and read back exactly. *)
Theorem html_roundtrip cps b1 b2 :
  Forall (fun v => 0 <= v < 0x200000) cps ->
  (length (concat (map html_unit cps)) < b1)%nat -> (length (concat (map utf8 cps)) < b2)%nat ->
  bytes_ok (concat (map utf8 cps)) ->
  exists e, html_encode b1 (concat (map utf8 cps)) = Some e /\
    html_decode b2 e = Some (concat (map utf8 cps)).
Proof.
  intros Hf H1 H2 Hok. unfold html_encode, html_decode, xml_decode. eexists.
  rewrite !(proj2 (Nat.leb_gt _ 0)) by lia.
  rewrite html_encode_greedy by (done || (cbn; lia)). split; [done|]. cbn [app length].
  rewrite html_chunks_cps, greedy_fits by (done || lia).
  apply (xml_units (map html_unit cps) (map utf8 cps) _ b2 []); [|lia|done].
  clear - Hf. induction Hf as [|v cps Hv _ IH]; cbn [map]; constructor; [by apply xml_unit_html|done].
Qed.

(** hex_decode inverts hex_encode, with and without a delimiter, whatever
    the delimiter is; the string version's buffer is large enough. *)
Theorem hex_roundtrip s d buflen :
  bytes_ok s -> (0 < buflen)%nat -> (length s <= buflen)%nat ->
  hex_encode_string s d = Some (hex_text d s) /\
  hex_decode_with_delimiter buflen (hex_text d s) d = Some (length s, s).
Proof.
  intros Hok Hb Hl. pose proof (hex_text_length d s) as Ht. split.
  - unfold hex_encode_string, hex_encode_with_delimiter. destruct s as [|c s]; [done|].
    rewrite (proj2 (Nat.eqb_neq _ 0)) by (cbn [length]; lia).
    destruct (Z.eqb_spec d 0) as [->|Hd]; cbn [negb] in *; cbn [length] in *;
      rewrite (proj2 (Nat.ltb_ge _ _)) by lia;
      apply hex_encode_text; cbn [length] in *; lia.
  - unfold hex_decode_with_delimiter. rewrite (proj2 (Nat.eqb_neq _ 0)) by lia.
    assert (Hn : (buflen <? (if negb (d =? 0)%Z then ((length (hex_text d s) + 1) / 3)%nat
                             else (length (hex_text d s) / 2)%nat))%nat = false).
    { apply Nat.ltb_ge. rewrite Ht. destruct (d =? 0); cbn [negb];
        apply Nat.Div0.div_le_upper_bound; lia. }
    rewrite Hn. by rewrite hex_decode_text by (done || (cbn; lia)).
Qed.

(** unescape, decode and url_decode never write outside their buffer and
    never produce more chars than they read; xml_decode and html_decode do so
    whenever the buffer is larger than the source. *)
Theorem decoders_bounded buflen s esc :
  (0 < buflen)%nat ->
  (exists r, unescape buflen s esc = Some r /\ (length r < buflen)%nat /\ (length r <= length s)%nat) /\
  (exists r, decode buflen s esc = Some r /\ (length r < buflen)%nat /\ (length r <= length s)%nat) /\
  (exists r, url_decode buflen s = Some r /\ (length r < buflen)%nat /\ (length r <= length s)%nat) /\
  ((length s < buflen)%nat ->
    exists r, html_decode buflen s = Some r /\ (length r <= length s)%nat).
Proof.
  intros Hb. unfold unescape, decode, url_decode, html_decode, xml_decode.
  rewrite (proj2 (Nat.leb_gt buflen 0)) by done. split_and!.
  - by apply (unescape_bound buflen esc (length s) s []).
  - by apply (decode_bound buflen esc (length s) s []).
  - by apply (url_decode_bound buflen (length s) s []).
  - intros Hs. by apply (xml_decode_bound (length s) buflen s []).
Qed.

(** With a smaller buffer a character reference can fill it completely, and
    the NUL goes one past its end. *)
Lemma xml_decode_overflow : xml_decode 3 (str "&#2048;") = None.
Proof. vm_compute. reflexivity. Qed.

(** split returns the fields between delimiters (joining them gives the
    source back and none contains the delimiter), and tokenize returns the
    non-empty ones of these; tokenizing with marks terminates. *)
Theorem split_tokenize source d sm em :
  join d (split source d) = source /\
  Forall (fun f => ~ In d f) (split source d) /\
  tokenize source d = List.filter nonempty (split source d) /\
  is_Some (tokenize_marks source d sm em).
Proof.
  rewrite split_fields, tokenize_fields. split_and!; auto using join_fields, fields_no_delim,
    tokenize_marks_total.
Qed.

(** The example of the header comes out as documented only because the char
    dropped before the start mark is a delimiter there. *)
Lemma tokenize_marks_drops_char :
  tokenize_marks (str "filename " ++ [34] ++ str "a b" ++ [34]) 32 34 34 = Some [str "filename"; str "a b"] /\
  tokenize_marks (str "ab" ++ [34] ++ str "c d" ++ [34]) 32 34 34 = Some [str "a"; str "c d"].
Proof. vm_compute. done. Qed.

Lemma encoders_fill_witness :
  xml_encode 6 (str "a<b") = Some (greedy 5 (map (markup_chunk (str "&apos;")) (str "a<b"))).
Proof. apply (encoders_fill 6 (str "a<b") [] 0); [lia | solve_bytes]. Defined.

Lemma codecs_roundtrip_witness :
  exists e, s_url_encode (str "a b+c%") = Some e /\ s_url_decode e = Some (str "a b+c%").
Proof. apply (codecs_roundtrip (str "a b+c%") [] 0). solve_bytes. Defined.

Lemma html_roundtrip_witness :
  exists e, html_encode 100 (concat (map utf8 [60; 0x20AC; 39])) = Some e /\
    html_decode 20 e = Some (concat (map utf8 [60; 0x20AC; 39])).
Proof.
  apply (html_roundtrip [60; 0x20AC; 39] 100 20).
  - repeat (apply List.Forall_cons; [lia|]). apply List.Forall_nil.
  - vm_compute. lia.
  - vm_compute. lia.
  - solve_bytes.
Defined.

Lemma hex_roundtrip_witness :
  hex_encode_string [1; 255] 58 = Some (hex_text 58 [1; 255]) /\
  hex_decode_with_delimiter 2 (hex_text 58 [1; 255]) 58 = Some (2%nat, [1; 255]).
Proof. apply (hex_roundtrip [1; 255] 58 2); [solve_bytes | lia | cbn; lia]. Defined.

Lemma decoders_bounded_witness :
  exists r, url_decode 3 (str "a%20bc") = Some r /\ (length r < 3)%nat /\ (length r <= 6)%nat.
Proof. apply (decoders_bounded 3 (str "a%20bc") 0). lia. Defined.

End StringEncode.
