(* ===== verification/UrlEncode.v ===== *)
(** * base/urlencode.cc: URL encoding of C strings

    Source strings end at their first NUL ([cstr]); [InternalUrlEncode] writes
    at most [max] chars and then a NUL, [None] when that NUL falls outside the
    [max] chars of the destination. *)

From S2P Require Import Prelude.
Open Scope jingle_scope.

Module UrlEncode.

(** The chars of a C string: up to the first NUL. *)
Fixpoint cstr (s : bytes) : bytes :=
  match s with
  | [] => []
  | c :: s' => if c =? 0 then [] else c :: cstr s'
  end.

(** [HexPairValue(code)] on the two chars it reads; -1 is [None]. *)
Definition digit_value (digit : Z) : option Z :=
  if (chr "0" <=? digit) && (digit <=? chr "9") then Some (digit - chr "0")
  else if (chr "A" <=? digit) && (digit <=? chr "F") then Some (digit - chr "A" + 10)
  else if (chr "a" <=? digit) && (digit <=? chr "f") then Some (digit - chr "a" + 10)
  else None.
Definition HexPairValue (c1 c2 : Z) : option Z :=
  let? d1 := digit_value c1 in
  let value := Z.shiftl d1 4 in
  let? d2 := digit_value c2 in
  Some (value + d2).

(** The source is a C string without its NUL; the result is what is written
    before the final NUL. *)
Fixpoint InternalUrlDecode (source : bytes) (encode_space_as_plus : bool) : bytes :=
  match source with
  | [] => []
  | c :: source =>
      if c =? chr "+" then
        (if encode_space_as_plus then chr " " else c)
        :: InternalUrlDecode source encode_space_as_plus
      else if c =? chr "%" then
        match source with
        | c1 :: c2 :: source' =>
            match HexPairValue c1 c2 with
            | Some value => value :: InternalUrlDecode source' encode_space_as_plus
            | None => chr "?" :: InternalUrlDecode source encode_space_as_plus
            end
        | _ => chr "?" :: InternalUrlDecode source encode_space_as_plus
        end
      else c :: InternalUrlDecode source encode_space_as_plus
  end.

Definition UrlDecode (source : bytes) : bytes := InternalUrlDecode source true.
Definition UrlDecodeWithoutEncodingSpaceAsPlus (source : bytes) : bytes :=
  InternalUrlDecode source false.

(** In the C locale. *)
Definition isalnum (ch : Z) : bool :=
  ((chr "0" <=? ch) && (ch <=? chr "9")) || ((chr "A" <=? ch) && (ch <=? chr "Z"))
  || ((chr "a" <=? ch) && (ch <=? chr "z")).

Definition unsafe_chars : bytes := str "\" ++ [34] ++ str "^&`<>[]{}".
Definition mark_chars : bytes := str "-_.!~*'()".

(** [char] is signed: the bytes from 128 are below the space. *)
Definition IsValidUrlChar (ch : Z) (unsafe_only : bool) : bool :=
  let in_ s := match strchr s ch with Some _ => true | None => false end in
  if unsafe_only then negb ((ch <=? chr " ") || (128 <=? ch) || in_ unsafe_chars)
  else isalnum ch || in_ mark_chars.

Definition digits : bytes := str "0123456789ABCDEF".

Definition finish (max : nat) (out : bytes) : option bytes :=
  require! (length out <? max)%nat in Some out.

Fixpoint encode_loop (source out : bytes) (max : nat) (encode_space_as_plus unsafe_only : bool)
  : bytes :=
  match source with
  | [] => out
  | ch :: source =>
      if (length out <? max)%nat then
        if (ch =? chr " ") && encode_space_as_plus && negb unsafe_only then
          encode_loop source (out ++ [chr "+"]) max encode_space_as_plus unsafe_only
        else if IsValidUrlChar ch unsafe_only then
          encode_loop source (out ++ [ch]) max encode_space_as_plus unsafe_only
        else if (max <? length out + 4)%nat then out
        else
          encode_loop source
            (out ++ [chr "%"; nth (Z.to_nat (Z.land (Z.shiftr ch 4) 0x0F)) digits 0;
                     nth (Z.to_nat (Z.land ch 0x0F)) digits 0])
            max encode_space_as_plus unsafe_only
      else out
  end.

Definition InternalUrlEncode (source : bytes) (max : nat)
    (encode_space_as_plus unsafe_only : bool) : option bytes :=
  if (max =? 0)%nat then Some []
  else finish max (encode_loop source [] max encode_space_as_plus unsafe_only).

Definition UrlEncode (source : bytes) (max : nat) : option bytes :=
  InternalUrlEncode source max true false.
Definition UrlEncodeWithoutEncodingSpaceAsPlus (source : bytes) (max : nat) : option bytes :=
  InternalUrlEncode source max false false.
Definition UrlEncodeOnlyUnsafeChars (source : bytes) (max : nat) : option bytes :=
  InternalUrlEncode source max false true.

(** The std::string versions: the buffer is read back as a C string; decoding
    writes into [length + 1] chars. *)
Definition InternalUrlDecodeString (encoded : bytes) (encode_space_as_plus : bool)
  : option bytes :=
  let needed_length := (length encoded + 1)%nat in
  let? buf := finish needed_length (InternalUrlDecode (cstr encoded) encode_space_as_plus) in
  Some (cstr buf).
Definition UrlDecodeString (encoded : bytes) : option bytes :=
  InternalUrlDecodeString encoded true.
Definition UrlDecodeStringWithoutEncodingSpaceAsPlus (encoded : bytes) : option bytes :=
  InternalUrlDecodeString encoded false.

Definition InternalUrlEncodeString (decoded : bytes) (encode_space_as_plus unsafe_only : bool)
  : option bytes :=
  let needed_length := (length decoded * 3 + 1)%nat in
  let? buf := InternalUrlEncode (cstr decoded) needed_length encode_space_as_plus unsafe_only in
  Some (cstr buf).
Definition UrlEncodeString (decoded : bytes) : option bytes :=
  InternalUrlEncodeString decoded true false.
Definition UrlEncodeStringWithoutEncodingSpaceAsPlus (decoded : bytes) : option bytes :=
  InternalUrlEncodeString decoded false false.
Definition UrlEncodeStringForOnlyUnsafeChars (decoded : bytes) : option bytes :=
  InternalUrlEncodeString decoded false true.

Example url_ex : UrlEncodeString (str "a b/c+%") = Some (str "a+b%2Fc%2B%25").
Proof. reflexivity. Qed.

(** ** One char at a time *)

Definition url_unit (plus unsafe_only : bool) (ch : Z) : bytes :=
  if (ch =? chr " ") && plus && negb unsafe_only then [chr "+"]
  else if IsValidUrlChar ch unsafe_only then [ch]
  else [chr "%"; nth (Z.to_nat (Z.land (Z.shiftr ch 4) 0x0F)) digits 0;
        nth (Z.to_nat (Z.land ch 0x0F)) digits 0].

Lemma url_unit_length plus uo ch : (1 <= length (url_unit plus uo ch) <= 3)%nat.
Proof. unfold url_unit. repeat split_if; cbn; lia. Qed.

Lemma url_units_length plus uo s :
  (length (concat (map (url_unit plus uo) s)) <= 3 * length s)%nat.
Proof.
  induction s as [|c s IH]; cbn [map concat length]; [lia|]. rewrite length_app.
  pose proof (url_unit_length plus uo c). lia.
Qed.

Lemma encode_loop_units plus uo s out max :
  (length out + length (concat (map (url_unit plus uo) s)) < max)%nat ->
  encode_loop s out max plus uo = out ++ concat (map (url_unit plus uo) s).
Proof.
  revert out; induction s as [|ch s IH]; intros out Hl; cbn [encode_loop map concat] in *;
    [by rewrite app_nil_r|].
  rewrite length_app in Hl. rewrite (proj2 (Nat.ltb_lt _ _)) by lia. revert Hl. unfold url_unit at 1 3.
  repeat split_if; cbn [length]; intros Hl; bool_simpl; try lia;
    rewrite IH by (rewrite ?length_app; cbn [length]; lia); by rewrite <- app_assoc.
Qed.

(** Decoding one unit. *)
Lemma unit_facts plus : forall ch, 0 <= ch < 256 ->
  (ch =? 0) ||
  (match url_unit plus false ch with
   | [c] => (if c =? chr "+" then if plus then chr " " else c else c) =? ch
   | [p; c1; c2] => (p =? chr "%") && match HexPairValue c1 c2 with Some v => v =? ch | None => false end
   | _ => false
   end
   && match url_unit plus false ch with [c] => negb (c =? chr "%") | _ => true end
   && forallb (fun c => negb (c =? 0)) (url_unit plus false ch)) = true.
Proof. destruct plus; apply (forall_below 256); vm_compute; reflexivity. Qed.

Lemma decode_unit plus ch rest :
  is_byte ch -> ch <> 0 ->
  InternalUrlDecode (url_unit plus false ch ++ rest) plus = ch :: InternalUrlDecode rest plus.
Proof.
  intros Hc Hne. pose proof (unit_facts plus ch Hc) as Hf.
  rewrite (proj2 (Z.eqb_neq ch 0) Hne) in Hf. cbn [orb] in Hf.
  apply andb_prop in Hf as [Hf _]. apply andb_prop in Hf as [Hf Hp].
  destruct (url_unit plus false ch) as [|c [|c1 [|c2 [|]]]]; try done; cbn [app InternalUrlDecode].
  - rewrite (proj1 (negb_true_iff _) Hp). destruct (c =? chr "+"); apply Z.eqb_eq in Hf; by subst.
  - apply andb_prop in Hf as [->%Z.eqb_eq Hv]. change (chr "%" =? chr "+") with false.
    change (chr "%" =? chr "%") with true. destruct (HexPairValue c1 c2) as [v|]; [|done].
    by apply Z.eqb_eq in Hv as ->.
Qed.

Lemma cstr_no_nul s : Forall (fun c => c <> 0) s -> cstr s = s.
Proof.
  induction 1 as [|c s Hc _ IH]; [done|]. cbn. rewrite (proj2 (Z.eqb_neq c 0) Hc). by rewrite IH.
Qed.

Lemma units_no_nul plus s : bytes_ok s -> Forall (fun c => c <> 0) s ->
  Forall (fun c => c <> 0) (concat (map (url_unit plus false) s)).
Proof.
  intros Hok Hn. induction Hn as [|ch s Hne _ IH]; cbn [map concat]; [apply List.Forall_nil|].
  inversion_clear Hok as [|? ? Hc Hok']. apply Forall_app. split; [|by apply IH].
  pose proof (unit_facts plus ch Hc) as Hf.
  rewrite (proj2 (Z.eqb_neq ch 0) Hne) in Hf. cbn [orb] in Hf. apply andb_prop in Hf as [_ Hf].
  rewrite forallb_forall in Hf. apply List.Forall_forall. intros c Hin%Hf. by bool_simpl.
Qed.

Lemma decode_units plus s : bytes_ok s -> Forall (fun c => c <> 0) s ->
  InternalUrlDecode (concat (map (url_unit plus false) s)) plus = s.
Proof.
  intros Hok Hn. induction Hn as [|ch s Hne _ IH]; cbn [map concat]; [done|].
  inversion_clear Hok as [|? ? Hc Hok']. rewrite decode_unit by done. by rewrite IH.
Qed.

Lemma InternalUrlDecode_length n s plus : (length s <= n)%nat ->
  (length (InternalUrlDecode s plus) <= length s)%nat.
Proof.
  revert s; induction n as [|n IH]; intros [|c s] Hn; cbn [length InternalUrlDecode] in *; try lia.
  assert (H1 : forall x, (length (x :: InternalUrlDecode s plus) <= S (length s))%nat)
    by (intros; cbn [length]; pose proof (IH s); lia).
  split_if; [apply H1|]. split_if; [|apply H1]. destruct s as [|c1 [|c2 s]]; try apply H1.
  destruct (HexPairValue c1 c2); [|apply H1]. cbn [length] in *. pose proof (IH s). lia.
Qed.

(** for every string without NULs, UrlDecodeString inverts
    UrlEncodeString, and the same without the encoding of spaces as plus; the
    buffers of both are large enough. *)
Theorem url_string_roundtrip s :
  bytes_ok s -> Forall (fun c => c <> 0) s ->
  (exists e, UrlEncodeString s = Some e /\ UrlDecodeString e = Some s) /\
  (exists e, UrlEncodeStringWithoutEncodingSpaceAsPlus s = Some e /\
     UrlDecodeStringWithoutEncodingSpaceAsPlus e = Some s).
Proof.
  intros Hok Hn.
  assert (H : forall plus, exists e, InternalUrlEncodeString s plus false = Some e /\
    InternalUrlDecodeString e plus = Some s); [|split; apply H].
  intros plus. unfold InternalUrlEncodeString, InternalUrlEncode, InternalUrlDecodeString, finish.
  pose proof (url_units_length plus false s) as Hl.
  rewrite (proj2 (Nat.eqb_neq _ 0)), cstr_no_nul, encode_loop_units by (done || (cbn [length]; lia)).
  cbn [app]. rewrite (proj2 (Nat.ltb_lt _ _)) by lia. rewrite cstr_no_nul by (by apply units_no_nul).
  eexists. split; [done|]. rewrite cstr_no_nul by (by apply units_no_nul).
  rewrite decode_units by done.
  pose proof (InternalUrlDecode_length _ (concat (map (url_unit plus false) s)) plus (le_n _)) as Hd.
  rewrite decode_units in Hd by done.
  rewrite (proj2 (Nat.ltb_lt _ _)) by lia. by rewrite cstr_no_nul.
Qed.

(** decoding a string never overruns its buffer, whatever the string. *)
Theorem url_decode_total s plus : is_Some (InternalUrlDecodeString s plus).
Proof.
  unfold InternalUrlDecodeString, finish.
  pose proof (InternalUrlDecode_length _ (cstr s) plus (le_n _)) as Hd.
  assert (length (cstr s) <= length s)%nat.
  { clear. induction s as [|c s IH]; cbn; [lia|]. case_match; cbn; lia. }
  rewrite (proj2 (Nat.ltb_lt _ _)) by lia. eauto.
Qed.

(** The loop of [InternalUrlEncode] may fill all [max] chars, so that the NUL
    is written one past them. *)
Lemma url_encode_overflow : UrlEncode (str "ab") 2 = None.
Proof. reflexivity. Qed.

Lemma url_string_roundtrip_witness :
  exists e, UrlEncodeString (str "a b&c") = Some e /\ UrlDecodeString e = Some (str "a b&c").
Proof.
  apply (url_string_roundtrip (str "a b&c")); [solve_bytes|].
  repeat (apply List.Forall_cons; [discriminate|]). apply List.Forall_nil.
Defined.

End UrlEncode.
