(* ===== verification/MessageDigest.v ===== *)
(** * base/messagedigest.cc: digest objects, digests by name, HMAC

    [MessageDigest] is the abstract class: a state type with its operations.
    [DigestLaws] states what a client may rely on: an object that absorbed a
    byte string finishes with its hash and is then fresh.  [md5_laws] and
    [sha1_laws] discharge it for the two implementations; [ComputeDigest] and
    [ComputeHmac] are proved correct against the laws alone, so they hold for
    every implementation (also for one outside this code).  The factory is the
    variant without OpenSSL. *)

From S2P Require Import Prelude ByteOrder Blocks Md5 Sha1 StringEncode.
Open Scope jingle_scope.

Module MessageDigest.

(** The virtual class.  [Finish] returns the bytes written, whose number is
    the return value. *)
Record MessageDigest := {
  State : Type;
  Size : nat;
  Update : State -> bytes -> State;
  Finish : State -> nat -> State * bytes;
}.

(** The contract, for a hash function and a relation between states and the
    bytes they have absorbed. *)
Class DigestLaws (D : MessageDigest) (hash : bytes -> bytes)
    (absorbed : State D -> bytes -> Prop) := {
  laws_size s : bytes_ok s -> length (hash s) = Size D;
  laws_bytes s : bytes_ok s -> bytes_ok (hash s);
  laws_update st s d : absorbed st s -> bytes_ok d -> absorbed (Update D st d) (s ++ d);
  laws_finish st s len :
    absorbed st s -> bytes_ok s -> (Size D <= len)%nat ->
    exists st', Finish D st len = (st', hash s) /\ absorbed st' [];
  laws_short st len : (len < Size D)%nat -> Finish D st len = (st, []);
}.

(** ** The two implementations (md5digest.h, sha1digest.h) *)

Section Implementations.
Context `{Machine}.

Definition Md5Digest : MessageDigest := {|
  State := Md5.MD5Context;
  Size := 16;
  Update := Md5.MD5Update;
  Finish := fun ctx len =>
    if (len <? 16)%nat then (ctx, [])
    else
      let '(buf, ctx) := Md5.MD5Final ctx in
      (Md5.MD5Init (Md5.in_ ctx), buf);
|}.

Definition Sha1Digest : MessageDigest := {|
  State := Sha1.SHA1_CTX;
  Size := Sha1.SHA1_DIGEST_SIZE;
  Update := Sha1.SHA1Update;
  Finish := fun ctx len =>
    if (len <? Sha1.SHA1_DIGEST_SIZE)%nat then (ctx, [])
    else
      let '(buf, ctx) := Sha1.SHA1Final ctx in
      (Sha1.SHA1Init (Sha1.buffer ctx), buf);
|}.

(** Fresh memory for the [k]-th allocation. *)
Definition new_uint8 (k : Z) (n : nat) : bytes := map (uninit k) (seq 0 n).

(** An object: its class and its state. *)
Record Object := { class_ : MessageDigest; state_ : State class_ }.

Definition DIGEST_MD5 : bytes := str "md5".
Definition DIGEST_SHA_1 : bytes := str "sha-1".
Definition DIGEST_SHA_224 : bytes := str "sha-224".
Definition DIGEST_SHA_256 : bytes := str "sha-256".
Definition DIGEST_SHA_384 : bytes := str "sha-384".
Definition DIGEST_SHA_512 : bytes := str "sha-512".
Definition kBlockSize : nat := 64.

(** [MessageDigestFactory::Create]; the contexts' buffers start uninitialised. *)
Definition Create (alg : bytes) : option Object :=
  if bool_decide (alg = DIGEST_MD5) then
    Some {| class_ := Md5Digest; state_ := Md5.MD5Init (new_uint8 0 64) |}
  else if bool_decide (alg = DIGEST_SHA_1) then
    Some {| class_ := Sha1Digest; state_ := Sha1.SHA1Init (new_uint8 0 64) |}
  else None.

Definition IsFips180DigestAlgorithm (alg : bytes) : bool :=
  bool_decide (alg = DIGEST_SHA_1) || bool_decide (alg = DIGEST_SHA_224) ||
  bool_decide (alg = DIGEST_SHA_256) || bool_decide (alg = DIGEST_SHA_384) ||
  bool_decide (alg = DIGEST_SHA_512).

(** ** Digests *)

Definition ComputeDigest (D : MessageDigest) (digest : State D) (input : bytes) (out_len : nat)
  : State D * bytes :=
  let digest := Update D digest input in
  Finish D digest out_len.

(** By name: the bytes written (none when there is no such digest). *)
Definition ComputeDigest_alg (alg input : bytes) (out_len : nat) : bytes :=
  match Create alg with
  | Some o => (ComputeDigest (class_ o) (state_ o) input out_len).2
  | None => []
  end.

(** The hex string of the digest ([None]: the buffer of hex_encode). *)
Definition ComputeDigest_hex (D : MessageDigest) (digest : State D) (input : bytes)
  : option bytes :=
  let output := (ComputeDigest D digest input (Size D)).2 in
  StringEncode.hex_encode_string output 0.

(** The result code and the string. *)
Definition ComputeDigest_string (alg input : bytes) : option (bool * bytes) :=
  match Create alg with
  | None => Some (false, [])
  | Some o => let? s := ComputeDigest_hex (class_ o) (state_ o) input in Some (true, s)
  end.
Definition MD5 (input : bytes) : option bytes :=
  let? (_, s) := ComputeDigest_string DIGEST_MD5 input in Some s.

(** ** HMAC *)

Definition ComputeHmac (D : MessageDigest) (digest : State D) (key input : bytes) (out_len : nat)
  : State D * bytes :=
  let block_len := kBlockSize in
  if (32 <? Size D)%nat then (digest, []) else
  let new_key := new_uint8 1 block_len in
  let key_len := length key in
  let '(digest, new_key) :=
    if (block_len <? key_len)%nat then
      let '(digest, d) := ComputeDigest D digest key block_len in
      let new_key := mem_write new_key 0 d in
      (digest, mem_write new_key (Size D) (repeat 0 (block_len - Size D)))
    else
      let new_key := mem_write new_key 0 key in
      (digest, mem_write new_key key_len (repeat 0 (block_len - key_len))) in
  let o_pad := map (fun b => Z.lxor 0x5c b) new_key in
  let i_pad := map (fun b => Z.lxor 0x36 b) new_key in
  let digest := Update D digest i_pad in
  let digest := Update D digest input in
  let '(digest, inner) := Finish D digest (Size D) in
  let digest := Update D digest o_pad in
  let digest := Update D digest inner in
  Finish D digest out_len.

Definition ComputeHmac_alg (alg key input : bytes) (out_len : nat) : bytes :=
  match Create alg with
  | Some o => (ComputeHmac (class_ o) (state_ o) key input out_len).2
  | None => []
  end.

Definition ComputeHmac_hex (D : MessageDigest) (digest : State D) (key input : bytes)
  : option bytes :=
  let output := (ComputeHmac D digest key input (Size D)).2 in
  StringEncode.hex_encode_string output 0.

Definition ComputeHmac_string (alg key input : bytes) : option (bool * bytes) :=
  match Create alg with
  | None => Some (false, [])
  | Some o => let? s := ComputeHmac_hex (class_ o) (state_ o) key input in Some (true, s)
  end.

#[local] Opaque Sha1.SHA1Update Sha1.SHA1Digest Sha1.SHA1Transform Sha1.SHA1Final.
#[local] Opaque Md5.MD5Update Md5.MD5Digest Md5.MD5Final.

(** ** The implementations satisfy the contract *)

Lemma new_uint8_ok k n : bytes_ok (new_uint8 k n).
Proof. apply Forall_map, Forall_true. intros. apply uninit_byte. Qed.

Lemma length_new_uint8 k n : length (new_uint8 k n) = n.
Proof. unfold new_uint8. by rewrite length_map, length_seq. Qed.

Lemma length_concat_map {A} (f : A -> bytes) k l :
  (forall x, length (f x) = k) -> length (concat (map f l)) = (length l * k)%nat.
Proof. intros Hf. induction l; cbn; [done|]. rewrite length_app, Hf, IHl. lia. Qed.

Lemma concat_map_ok {A} (f : A -> bytes) l :
  (forall x, bytes_ok (f x)) -> bytes_ok (concat (map f l)).
Proof.
  intros Hf. induction l; cbn; [apply List.Forall_nil|]. by apply bytes_ok_app.
Qed.

#[export] Instance md5_laws : DigestLaws Md5Digest Md5.md5_ref Md5.absorbed.
Proof.
  split.
  - intros s _. cbn. unfold Md5.md5_ref. destruct (absorb _ _ _) as [[[a b] c] d].
    apply (length_concat_map _ 4). intros. apply length_le_bytes.
  - intros s _. unfold Md5.md5_ref. destruct (absorb _ _ _) as [[[a b] c] d].
    apply (concat_map_ok (le_bytes 4) [a; b; c; d]). intros. apply le_bytes_ok.
  - intros st s d. cbn [Update Md5Digest State]. apply Md5.MD5Update_absorbed.
  - intros st s len Ha Hok Hlen. cbn [Size Md5Digest Finish] in *.
    rewrite (proj2 (Nat.ltb_ge _ _)) by done.
    destruct (Md5.MD5Final_split st) as (ctx & Hs & Hb).
    pose proof (Md5.MD5Final_ref st s Ha) as Hf. rewrite Hs in *. cbn [fst] in Hf. rewrite Hf.
    eexists. split; [reflexivity|]. rewrite Hb.
    apply Md5.md5_absorbed_init; [done|apply (Md5.zeros_ok 64)].
  - intros st len Hl. cbn [Size Md5Digest Finish] in *. by rewrite (proj2 (Nat.ltb_lt _ _)).
Qed.

#[export] Instance sha1_laws : DigestLaws Sha1Digest Sha1.sha1_ref Sha1.absorbed.
Proof.
  assert (Hst : forall s, length (absorb Sha1.compress Sha1.sha1_init s) = 5%nat).
  { intros s. destruct (Sha1.sha1_state_ok s) as ([[[[a b] c] d] e] & -> & _). done. }
  split.
  - intros s _. cbn [Size Sha1Digest]. unfold Sha1.sha1_ref.
    rewrite (length_concat_map _ 4), Hst by (intros; apply length_be_bytes). done.
  - intros s _. apply concat_map_ok. intros. apply be_bytes_ok.
  - intros st s d. cbn [Update Sha1Digest State]. apply Sha1.SHA1Update_absorbed.
  - intros st s len Ha Hok Hlen. cbn [Size Sha1Digest Finish] in *.
    rewrite (proj2 (Nat.ltb_ge _ _)) by done.
    destruct (Sha1.SHA1Final_split st) as (ctx & -> & Hb).
    rewrite (Sha1.SHA1Digest_ref st s Ha). eexists. split; [reflexivity|].
    rewrite Hb. apply Sha1.sha1_absorbed_init; [done|apply (Md5.zeros_ok 64)].
  - intros st len Hl. cbn [Size Sha1Digest Finish] in *. by rewrite (proj2 (Nat.ltb_lt _ _)).
Qed.

(** ** Clients of the contract *)

Section Client.
Context (D : MessageDigest) (hash : bytes -> bytes) (absorbed : State D -> bytes -> Prop).
Context `{L : !DigestLaws D hash absorbed}.

(** RFC 2104, for hash functions with 64-byte blocks. *)
Definition hmac_key (key : bytes) : bytes :=
  let k := if (64 <? length key)%nat then hash key else key in
  k ++ repeat 0 (64 - length k).
Definition hmac_ref (key text : bytes) : bytes :=
  hash (map (Z.lxor 0x5c) (hmac_key key) ++
        hash (map (Z.lxor 0x36) (hmac_key key) ++ text)).

Lemma ComputeDigest_spec st s input len :
  absorbed st s -> bytes_ok s -> bytes_ok input -> (Size D <= len)%nat ->
  exists st', ComputeDigest D st input len = (st', hash (s ++ input)) /\ absorbed st' [].
Proof.
  intros Ha Hs Hi Hl. unfold ComputeDigest.
  apply (laws_finish _ (s ++ input)); [by apply laws_update|by apply bytes_ok_app|done].
Qed.

Lemma lxor_ok k l : is_byte k -> bytes_ok l -> bytes_ok (map (Z.lxor k) l).
Proof.
  intros Hk Hl. apply Forall_map. eapply Forall_impl; [exact Hl|]. cbn. intros b Hb.
  unfold is_byte in *. change 256 with (2 ^ 8) in *.
  split; [apply Z.lxor_nonneg; lia|].
  destruct (Z.eq_dec (Z.lxor k b) 0) as [->|Hne]; [done|].
  assert (0 <= Z.lxor k b) by (apply Z.lxor_nonneg; lia).
  apply Z.log2_lt_pow2; [lia|]. eapply Z.le_lt_trans; [apply Z.log2_lxor; lia|].
  destruct (Z.max_spec (Z.log2 k) (Z.log2 b)) as [[_ ->]|[_ ->]].
  - destruct (Z.eq_dec b 0) as [->|]; [done|]. apply Z.log2_lt_pow2; lia.
  - destruct (Z.eq_dec k 0) as [->|]; [done|]. apply Z.log2_lt_pow2; lia.
Qed.

(** Two writes that cover a buffer. *)
Lemma mem_write_pad m k n : length m = n -> (length k <= n)%nat ->
  mem_write (mem_write m 0 k) (length k) (repeat 0 (n - length k)) = k ++ repeat 0 (n - length k).
Proof.
  intros Hm Hk. rewrite mem_write_end by (rewrite length_mem_write, repeat_length; cbn; lia).
  f_equal. pose proof (take_mem_write m 0 k ltac:(lia)) as Ht. by rewrite take_0 in Ht.
Qed.

Lemma hmac_key_ok key : bytes_ok key -> bytes_ok (hmac_key key).
Proof.
  intros Hk. unfold hmac_key. apply bytes_ok_app. split; [|apply Md5.zeros_ok].
  split_if; [by apply (laws_bytes key)|done].
Qed.

Lemma ComputeHmac_spec st key input out_len :
  absorbed st [] -> bytes_ok key -> bytes_ok input -> (Size D <= 32)%nat -> (Size D <= out_len)%nat ->
  exists st', ComputeHmac D st key input out_len = (st', hmac_ref key input) /\ absorbed st' [].
Proof.
  intros Ha Hk Hi Hsz Hout. unfold ComputeHmac, kBlockSize.
  rewrite (proj2 (Nat.ltb_ge 32 _)) by done.
  pose proof (hmac_key_ok key Hk) as Hkok.
  match goal with |- context [let '(_, _) := ?e in _] =>
    assert (He : exists st', e = (st', hmac_key key) /\ absorbed st' []) end.
  { unfold hmac_key. destruct (64 <? length key)%nat eqn:E; bool_simpl.
    - destruct (ComputeDigest_spec st [] key 64 Ha (List.Forall_nil _) Hk ltac:(lia))
        as (st' & -> & Ha'). cbn [app]. exists st'. split; [|done].
      f_equal. rewrite <- (laws_size key) by done. apply mem_write_pad; [apply length_new_uint8|].
      rewrite laws_size by done. lia.
    - exists st. split; [|done]. f_equal. apply mem_write_pad; [apply length_new_uint8|lia]. }
  destruct He as (st1 & -> & Ha1).
  set (ik := map (fun b => Z.lxor 0x36 b) (hmac_key key)).
  set (ok := map (fun b => Z.lxor 0x5c b) (hmac_key key)).
  assert (Hik : bytes_ok ik) by (apply (lxor_ok 0x36); [by split|done]).
  assert (Hokk : bytes_ok ok) by (apply (lxor_ok 0x5c); [by split|done]).
  assert (Hin : bytes_ok (ik ++ input)) by (by apply bytes_ok_app).
  destruct (laws_finish (Update D (Update D st1 ik) input) (ik ++ input) (Size D))
    as (st2 & -> & Ha2); [|done|done|].
  { apply laws_update; [|done]. by apply (laws_update st1 []). }
  apply (laws_finish _ (ok ++ hash (ik ++ input))); [| |done].
  - apply laws_update; [by apply (laws_update st2 [])|by apply (laws_bytes (ik ++ input))].
  - apply bytes_ok_app. split; [done|by apply (laws_bytes (ik ++ input))].
Qed.

Lemma ComputeHmac_short st key input out_len :
  (32 < Size D)%nat \/ (out_len < Size D)%nat -> (ComputeHmac D st key input out_len).2 = [].
Proof.
  intros Hs. unfold ComputeHmac. destruct (Nat.ltb_spec 32 (Size D)) as [|H32]; [done|].
  destruct Hs as [|Hs]; [lia|].
  match goal with |- context [let '(_, _) := ?e in _] => destruct e as [st1 k1] end.
  match goal with |- context [let '(_, _) := ?e in _] => destruct e as [st2 k2] end.
  by rewrite laws_short.
Qed.

Lemma hmac_ref_size key text :
  bytes_ok key -> bytes_ok text -> length (hmac_ref key text) = Size D.
Proof.
  intros Hk Ht. pose proof (hmac_key_ok key Hk) as Hkok. unfold hmac_ref.
  apply (laws_size (hash := hash)), bytes_ok_app.
  split; [apply lxor_ok; [by split|done]|]. apply (laws_bytes (hash := hash)), bytes_ok_app.
  split; [apply lxor_ok; [by split|done]|done].
Qed.
End Client.

(** ** Properties *)

(** C36: ComputeHmac is the HMAC of RFC 2104 for every digest object that
    satisfies the contract (state = all bytes absorbed, Finish resets) with
    at most 32 bytes of output, whatever the length of the key; the object is
    fresh again afterwards, so it can be reused.  A digest that is too large
    or an output buffer that is too short writes nothing. *)
Theorem hmac_rfc2104 D hash absorbed (L : DigestLaws D hash absorbed) st key input out_len :
  absorbed st [] -> bytes_ok key -> bytes_ok input ->
  ((Size D <= 32)%nat -> (Size D <= out_len)%nat ->
    exists st', ComputeHmac D st key input out_len = (st', hmac_ref hash key input)
                /\ absorbed st' []) /\
  ((32 < Size D)%nat \/ (out_len < Size D)%nat -> (ComputeHmac D st key input out_len).2 = []).
Proof.
  intros Ha Hk Hi. split; intros; [by apply (ComputeHmac_spec D hash absorbed)|].
  by apply (ComputeHmac_short D hash absorbed).
Qed.

(** digests by name: ComputeDigest and ComputeHmac with "md5" or "sha-1"
    return the MD5 or SHA-1 hash (HMAC) of the whole input, an unknown name
    or a short buffer returns nothing, and the string versions return the
    lower-case hex digits. *)
Theorem digest_by_name alg input key out_len :
  bytes_ok input -> bytes_ok key ->
  let spec hash size :=
    ComputeDigest_alg alg input out_len = (if (out_len <? size)%nat then [] else hash input) /\
    ComputeHmac_alg alg key input out_len
      = (if (out_len <? size)%nat then [] else hmac_ref hash key input) /\
    ComputeDigest_string alg input = Some (true, StringEncode.hex_text 0 (hash input)) /\
    ComputeHmac_string alg key input
      = Some (true, StringEncode.hex_text 0 (hmac_ref hash key input)) in
  (alg = DIGEST_MD5 -> spec Md5.md5_ref 16%nat) /\
  (alg = DIGEST_SHA_1 -> spec Sha1.sha1_ref 20%nat) /\
  (alg <> DIGEST_MD5 -> alg <> DIGEST_SHA_1 ->
    ComputeDigest_alg alg input out_len = [] /\ ComputeHmac_alg alg key input out_len = [] /\
    ComputeDigest_string alg input = Some (false, [])).
Proof.
  intros Hi Hk spec.
  assert (Hhex : forall l n, length l = S n ->
    StringEncode.hex_encode_string l 0 = Some (StringEncode.hex_text 0 l)).
  { intros l n Hl. unfold StringEncode.hex_encode_string, StringEncode.hex_encode_with_delimiter.
    rewrite (proj2 (Nat.eqb_neq _ 0)), (proj2 (Nat.ltb_ge _ _)) by (cbn [negb Z.eqb]; lia).
    apply StringEncode.hex_encode_text. rewrite StringEncode.hex_text_length. cbn; lia. }
  assert (Hgen : forall D hash absorbed (L : DigestLaws D hash absorbed) st n,
    absorbed st [] -> (S n <= 32)%nat -> Size D = S n ->
    Create alg = Some {| class_ := D; state_ := st |} -> spec hash (S n)).
  { intros D hash absorbed L st n Ha Hn Hs Hc. unfold spec, ComputeDigest_alg, ComputeHmac_alg,
      ComputeDigest_string, ComputeHmac_string, ComputeDigest_hex, ComputeHmac_hex.
    rewrite Hc. cbn [class_ state_].
    assert (Hd : forall len, (S n <= len)%nat -> (ComputeDigest D st input len).2 = hash input).
    { intros len Hlen. destruct (ComputeDigest_spec D hash absorbed st [] input len) as (? & -> & _);
        [done|apply List.Forall_nil|done|lia|done]. }
    assert (Hh : forall len, (S n <= len)%nat -> (ComputeHmac D st key input len).2 = hmac_ref hash key input).
    { intros len Hlen. destruct (ComputeHmac_spec D hash absorbed st key input len) as (? & -> & _);
        [done..|lia|lia|done]. }
    split_and!.
    - destruct (Nat.ltb_spec out_len (S n)); [|by apply Hd].
      unfold ComputeDigest. by rewrite laws_short by lia.
    - destruct (Nat.ltb_spec out_len (S n)); [|by apply Hh].
      apply (ComputeHmac_short D hash absorbed). right. lia.
    - rewrite Hd, (Hhex _ n) by (rewrite ?(laws_size input); lia || done). done.
    - rewrite Hh, (Hhex _ n); [done| |lia].
      by rewrite (hmac_ref_size D hash absorbed). }
  pose proof (length_new_uint8 0 64) as Hl. pose proof (new_uint8_ok 0 64) as Hok.
  split_and!.
  - intros ->. apply (Hgen Md5Digest _ _ md5_laws (Md5.MD5Init (new_uint8 0 64)) 15%nat); try done;
      first [by apply Md5.md5_absorbed_init|lia].
  - intros ->. apply (Hgen Sha1Digest _ _ sha1_laws (Sha1.SHA1Init (new_uint8 0 64)) 19%nat);
      try done; first [by apply Sha1.sha1_absorbed_init|lia].
  - intros H1 H2. unfold ComputeDigest_alg, ComputeHmac_alg, ComputeDigest_string, Create.
    rewrite !bool_decide_eq_false_2 by done. done.
Qed.

End Implementations.

(** RFC 2202, test case 2 of each. *)
Example hmac_md5_2 :
  @ComputeHmac_alg x86 (str "md5") (str "Jefe") (str "what do ya want for nothing?") 16
  = be_bytes 16 0x750c783e6ab0b503eaa86e310a5db738.
Proof. vm_compute. reflexivity. Qed.
Example hmac_sha1_2 :
  @ComputeHmac_alg x86 (str "sha-1") (str "Jefe") (str "what do ya want for nothing?") 20
  = be_bytes 20 0xeffcdf6ae5eb2fa2d27416d5f184df9c259a7c79.
Proof. vm_compute. reflexivity. Qed.

Lemma hmac_rfc2104_witness :
  exists st' : State (@Sha1Digest x86),
    @ComputeHmac x86 (@Sha1Digest x86) (@Sha1.SHA1Init (repeat 0 64)) (str "key") (str "text") 20
    = (st', hmac_ref Sha1.sha1_ref (str "key") (str "text")) /\ @Sha1.absorbed st' [].
Proof.
  apply (@hmac_rfc2104 x86 (@Sha1Digest x86) Sha1.sha1_ref Sha1.absorbed (@sha1_laws x86)).
  - by apply Sha1.sha1_absorbed_init; [|apply (Md5.zeros_ok 64)].
  - solve_bytes.
  - solve_bytes.
  - vm_compute. lia.
  - vm_compute. lia.
Defined.

Lemma digest_by_name_witness :
  @ComputeDigest_alg x86 DIGEST_SHA_1 (str "abc") 24
  = (if (24 <? 20)%nat then [] else Sha1.sha1_ref (str "abc")).
Proof.
  destruct (@digest_by_name x86 DIGEST_SHA_1 (str "abc") (str "key") 24) as [_ [H _]].
  - solve_bytes.
  - solve_bytes.
  - destruct (H eq_refl) as [Hd _]. exact Hd.
Defined.
End MessageDigest.
