(* ===== verification/IpAddress.v ===== *)
(** * base/ipaddress.cc and base/socketaddress.cc

    An [IPAddress] is its family and the 16 bytes of the union, in memory
    (network) order; integers are read from it through the host's byte order
    as the source does.  [inet_pton] and [inet_ntop] are code outside the
    sources and parameters of the functions that use them.  A socket address
    adds the hostname, the port and the scope. *)

From S2P Require Import Prelude ByteOrder.
Import ByteOrder.
Open Scope jingle_scope.

Module IpAddress.

Inductive family := AF_UNSPEC | AF_INET | AF_INET6.
#[export] Instance family_eq_dec : EqDecision family.
Proof. solve_decision. Defined.

Record IPAddress := mkip { family_ : family; u_ : bytes }.
#[export] Instance IPAddress_eq_dec : EqDecision IPAddress.
Proof. solve_decision. Defined.

Definition ip_nil : IPAddress := mkip AF_UNSPEC (repeat 0 16).
(** From an [in_addr] (4 bytes) and from an [in6_addr] (16 bytes). *)
Definition ip_of_v4 (ip4 : bytes) : IPAddress := mkip AF_INET (ip4 ++ repeat 0 12).
Definition ip_of_v6 (ip6 : bytes) : IPAddress := mkip AF_INET6 ip6.

Definition ipv4_address (ip : IPAddress) : bytes := take 4 (u_ ip).
Definition ipv6_address (ip : IPAddress) : bytes := u_ ip.

(** [memcmp(a, b, n) < 0], on equally long strings, and the order of
    std::string. *)
Fixpoint lex_lt (a b : bytes) : bool :=
  match a, b with
  | _, [] => false
  | [], _ :: _ => true
  | x :: a, y :: b => (x <? y) || ((x =? y) && lex_lt a b)
  end.

Section Host.
Context `{Machine}.

Definition ip_of_int (ip_in_host_byte_order : Z) : IPAddress :=
  ip_of_v4 (host_bytes 4 (HostToNetwork32 ip_in_host_byte_order)).

(** The uint32 seen at word [i] of an address in memory. *)
Definition as_int (addr : bytes) (i : nat) : Z := host_val (mem_read addr (4 * i) 4).

Definition v4AddressAsHostOrderInteger (ip : IPAddress) : Z :=
  match family_ ip with
  | AF_INET => NetworkToHost32 (host_val (ipv4_address ip))
  | _ => 0
  end.

Definition Size (ip : IPAddress) : nat :=
  match family_ ip with AF_INET => 4 | AF_INET6 => 16 | AF_UNSPEC => 0 end.

Definition ip_eqb (a b : IPAddress) : bool :=
  if negb (bool_decide (family_ a = family_ b)) then false
  else match family_ a with
       | AF_INET => bool_decide (ipv4_address a = ipv4_address b)
       | AF_INET6 => bool_decide (ipv6_address a = ipv6_address b)
       | AF_UNSPEC => true
       end.
Definition ip_neqb (a b : IPAddress) : bool := negb (ip_eqb a b).

Definition ip_ltb (a b : IPAddress) : bool :=
  if negb (bool_decide (family_ a = family_ b)) then
    match family_ a, family_ b with
    | AF_UNSPEC, _ => true
    | AF_INET, AF_INET6 => true
    | _, _ => false
    end
  else
    match family_ a with
    | AF_INET => NetworkToHost32 (host_val (ipv4_address a))
                 <? NetworkToHost32 (host_val (ipv4_address b))
    | AF_INET6 => lex_lt (ipv6_address a) (ipv6_address b)
    | AF_UNSPEC => false
    end.
Definition ip_gtb (a b : IPAddress) : bool := ip_neqb a b && negb (ip_ltb a b).

Definition kV4MappedPrefix : bytes := repeat 0 10 ++ [0xFF; 0xFF] ++ repeat 0 4.
Definition k6To4Prefix : bytes := [0x20; 0x02] ++ repeat 0 14.
Definition kTeredoPrefix : bytes := [0x20; 0x01; 0x00; 0x00] ++ repeat 0 12.
Definition kV4CompatibilityPrefix : bytes := repeat 0 16.
Definition k6BonePrefix : bytes := [0x3f; 0xfe] ++ repeat 0 14.

Definition in6addr_any : bytes := repeat 0 16.
Definition in6addr_loopback : bytes := repeat 0 15 ++ [1].
Definition INADDR_ANY : Z := 0.
Definition INADDR_LOOPBACK : Z := 0x7F000001.

Definition IPIsHelper (ip : IPAddress) (tomatch : bytes) (length : nat) : bool :=
  bool_decide (take (length / 8) (ipv6_address ip) = take (length / 8) tomatch).
Definition IPIs6Bone (ip : IPAddress) : bool := IPIsHelper ip k6BonePrefix 16.
Definition IPIs6To4 (ip : IPAddress) : bool := IPIsHelper ip k6To4Prefix 16.
Definition IPIsSiteLocal (ip : IPAddress) : bool :=
  let addr := ipv6_address ip in
  (nth 0 addr 0 =? 0xFE) && (Z.land (nth 1 addr 0) 0xC0 =? 0xC0).
Definition IPIsULA (ip : IPAddress) : bool := Z.land (nth 0 (ipv6_address ip) 0) 0xFE =? 0xFC.
Definition IPIsTeredo (ip : IPAddress) : bool := IPIsHelper ip kTeredoPrefix 32.
Definition IPIsV4Compatibility (ip : IPAddress) : bool := IPIsHelper ip kV4CompatibilityPrefix 96.
Definition IPIsV4Mapped (ip : IPAddress) : bool := IPIsHelper ip kV4MappedPrefix 96.

Definition ExtractMappedAddress (in6 : bytes) : bytes := mem_read in6 12 4.

Definition Normalized (ip : IPAddress) : IPAddress :=
  if negb (bool_decide (family_ ip = AF_INET6)) then ip
  else if negb (IPIsV4Mapped ip) then ip
  else ip_of_v4 (ExtractMappedAddress (u_ ip)).

Definition AsIPv6Address (ip : IPAddress) : IPAddress :=
  if negb (bool_decide (family_ ip = AF_INET)) then ip
  else ip_of_v6 (mem_write kV4MappedPrefix 12 (ipv4_address ip)).

Definition IsPrivateV4 (ip_in_host_order : Z) : bool :=
  (Z.shiftr ip_in_host_order 24 =? 127) ||
  (Z.shiftr ip_in_host_order 24 =? 10) ||
  (Z.shiftr ip_in_host_order 20 =? Z.lor (Z.shiftl 172 4) 1) ||
  (Z.shiftr ip_in_host_order 16 =? Z.lor (Z.shiftl 192 8) 168) ||
  (Z.shiftr ip_in_host_order 16 =? Z.lor (Z.shiftl 169 8) 254).

Definition IPIsAny (ip : IPAddress) : bool :=
  match family_ ip with
  | AF_INET => ip_eqb ip (ip_of_int INADDR_ANY)
  | AF_INET6 => ip_eqb ip (ip_of_v6 in6addr_any)
  | AF_UNSPEC => false
  end.
Definition IPIsLoopback (ip : IPAddress) : bool :=
  match family_ ip with
  | AF_INET => ip_eqb ip (ip_of_int INADDR_LOOPBACK)
  | AF_INET6 => ip_eqb ip (ip_of_v6 in6addr_loopback)
  | AF_UNSPEC => false
  end.
Definition IPIsPrivate (ip : IPAddress) : bool :=
  match family_ ip with
  | AF_INET => IsPrivateV4 (v4AddressAsHostOrderInteger ip)
  | AF_INET6 =>
      let v6 := ipv6_address ip in
      ((nth 0 v6 0 =? 0xFE) && (nth 1 v6 0 =? 0x80)) || IPIsLoopback ip
  | AF_UNSPEC => false
  end.
Definition IPIsUnspec (ip : IPAddress) : bool := bool_decide (family_ ip = AF_UNSPEC).

Definition HashIP (ip : IPAddress) : Z :=
  match family_ ip with
  | AF_INET => host_val (ipv4_address ip)
  | AF_INET6 =>
      let v6_as_ints := as_int (ipv6_address ip) in
      Z.lxor (Z.lxor (Z.lxor (v6_as_ints 0%nat) (v6_as_ints 1%nat)) (v6_as_ints 2%nat))
        (v6_as_ints 3%nat)
  | AF_UNSPEC => 0
  end.

(** The loop over the four words of [TruncateIP]. *)
Definition truncate_word (v6addr : bytes) (position : nat) (inner_mask : Z) (i : nat) : bytes :=
  if (i =? position)%nat then
    let host_order_inner := NetworkToHost32 (as_int v6addr i) in
    mem_write v6addr (4 * i) (host_bytes 4 (HostToNetwork32 (Z.land host_order_inner inner_mask)))
  else if (position <? i)%nat then mem_write v6addr (4 * i) (host_bytes 4 0)
  else v6addr.

Definition TruncateIP (ip : IPAddress) (length : Z) : IPAddress :=
  if length <? 0 then ip_nil
  else match family_ ip with
  | AF_INET =>
      if 31 <? length then ip
      else if length =? 0 then ip_of_int INADDR_ANY
      else
        let mask := u32 (Z.shiftl 0xFFFFFFFF (32 - length)) in
        let host_order_ip := NetworkToHost32 (host_val (ipv4_address ip)) in
        ip_of_v4 (host_bytes 4 (HostToNetwork32 (Z.land host_order_ip mask)))
  | AF_INET6 =>
      if 127 <? length then ip
      else if length =? 0 then ip_of_v6 in6addr_any
      else
        let v6addr := ipv6_address ip in
        let position := length / 32 in
        let inner_length := 32 - (length - position * 32) in
        let inner_mask := u32 (Z.shiftl 0xFFFFFFFF inner_length) in
        ip_of_v6 (fold_left (fun a i => truncate_word a (Z.to_nat position) inner_mask i)
                    (seq 0 4) v6addr)
  | AF_UNSPEC => ip_nil
  end.

(** The first of the words [i..3] that is not all ones. *)
Fixpoint first_word (n i : nat) (v6addr : bytes) : nat :=
  match n with
  | O => i
  | S n' => if negb (as_int v6addr i =? 0xFFFFFFFF) then i else first_word n' (S i) v6addr
  end.

Definition CountIPMaskBits (mask : IPAddress) : Z :=
  let count word_to_count bits :=
    if word_to_count =? 0 then bits
    else
      let zeroes := 32 in
      let w := Z.land word_to_count (u32 (- s32 word_to_count)) in
      let zeroes := if negb (w =? 0) then zeroes - 1 else zeroes in
      let zeroes := if negb (Z.land w 0x0000FFFF =? 0) then zeroes - 16 else zeroes in
      let zeroes := if negb (Z.land w 0x00FF00FF =? 0) then zeroes - 8 else zeroes in
      let zeroes := if negb (Z.land w 0x0F0F0F0F =? 0) then zeroes - 4 else zeroes in
      let zeroes := if negb (Z.land w 0x33333333 =? 0) then zeroes - 2 else zeroes in
      let zeroes := if negb (Z.land w 0x55555555 =? 0) then zeroes - 1 else zeroes in
      bits + (32 - zeroes) in
  match family_ mask with
  | AF_INET => count (NetworkToHost32 (host_val (ipv4_address mask))) 0
  | AF_INET6 =>
      let v6addr := ipv6_address mask in
      let i := first_word 4 0 v6addr in
      let word_to_count := if (i <? 4)%nat then NetworkToHost32 (as_int v6addr i) else 0 in
      count word_to_count (Z.of_nat (i * 32))
  | AF_UNSPEC => 0
  end.

Definition IPAddressPrecedence (ip : IPAddress) : Z :=
  match family_ ip with
  | AF_INET => 30
  | AF_INET6 =>
      if IPIsLoopback ip then 60
      else if IPIsULA ip then 50
      else if IPIsV4Mapped ip then 30
      else if IPIs6To4 ip then 20
      else if IPIsTeredo ip then 10
      else if IPIsV4Compatibility ip || IPIsSiteLocal ip || IPIs6Bone ip then 1
      else 40
  | AF_UNSPEC => 0
  end.

(** [inet_pton(family, str, &addr)]: the address, or none for the result 0. *)
Definition IPFromString (inet_pton : family -> bytes -> option bytes) (str : bytes)
  : bool * IPAddress :=
  match inet_pton AF_INET str with
  | None =>
      match inet_pton AF_INET6 str with
      | None => (false, ip_nil)
      | Some addr6 => (true, ip_of_v6 addr6)
      end
  | Some addr => (true, ip_of_v4 addr)
  end.

(** ** Socket addresses *)

Record SocketAddress := mksa {
  hostname_ : bytes;
  ip_ : IPAddress;
  port_ : Z;
  scope_id_ : Z;
  literal_ : bool;
}.

Definition sa_clear : SocketAddress :=
  {| hostname_ := []; ip_ := ip_nil; port_ := 0; scope_id_ := 0; literal_ := false |}.

Definition SetIP (ip : IPAddress) (a : SocketAddress) : SocketAddress :=
  {| hostname_ := []; ip_ := ip; port_ := port_ a; scope_id_ := 0; literal_ := false |}.
Definition SetIP_hostname (inet_pton : family -> bytes -> option bytes) (hostname : bytes)
    (a : SocketAddress) : SocketAddress :=
  let '(literal, ip) := IPFromString inet_pton hostname in
  {| hostname_ := hostname; ip_ := if negb literal then ip_nil else ip; port_ := port_ a;
     scope_id_ := 0; literal_ := literal |}.
Definition SetResolvedIP (ip : IPAddress) (a : SocketAddress) : SocketAddress :=
  {| hostname_ := hostname_ a; ip_ := ip; port_ := port_ a; scope_id_ := 0;
     literal_ := literal_ a |}.
(** The port is a uint16. *)
Definition SetPort (port : Z) (a : SocketAddress) : SocketAddress :=
  {| hostname_ := hostname_ a; ip_ := ip_ a; port_ := u16 port; scope_id_ := scope_id_ a;
     literal_ := literal_ a |}.
Definition SetScopeID (id : Z) (a : SocketAddress) : SocketAddress :=
  {| hostname_ := hostname_ a; ip_ := ip_ a; port_ := port_ a; scope_id_ := id;
     literal_ := literal_ a |}.

(** The constructors from an address and from a host name. *)
Definition sa_of_ip (ip : IPAddress) (port : Z) : SocketAddress := SetPort port (SetIP ip sa_clear).
Definition sa_of_hostname (inet_pton : family -> bytes -> option bytes) (hostname : bytes)
    (port : Z) : SocketAddress := SetPort port (SetIP_hostname inet_pton hostname sa_clear).

Definition IsNil (a : SocketAddress) : bool :=
  bool_decide (hostname_ a = []) && IPIsUnspec (ip_ a) && (0 =? port_ a).
Definition IsComplete (a : SocketAddress) : bool := negb (IPIsAny (ip_ a)) && negb (0 =? port_ a).
Definition IsAnyIP (a : SocketAddress) : bool := IPIsAny (ip_ a).
Definition IsLoopbackIP (a : SocketAddress) : bool :=
  IPIsLoopback (ip_ a) || (IPIsAny (ip_ a) && bool_decide (hostname_ a = str "localhost")).
Definition IsPrivateIP (a : SocketAddress) : bool := IPIsPrivate (ip_ a).
Definition IsUnresolvedIP (a : SocketAddress) : bool :=
  IPIsUnspec (ip_ a) && negb (literal_ a) && negb (bool_decide (hostname_ a = [])).

Definition EqualIPs (a addr : SocketAddress) : bool :=
  ip_eqb (ip_ a) (ip_ addr) &&
  (negb (IPIsAny (ip_ a)) || bool_decide (hostname_ a = hostname_ addr)).
Definition EqualPorts (a addr : SocketAddress) : bool := port_ a =? port_ addr.
Definition sa_eqb (a addr : SocketAddress) : bool := EqualIPs a addr && EqualPorts a addr.

Definition sa_ltb (a addr : SocketAddress) : bool :=
  if ip_ltb (ip_ a) (ip_ addr) then true
  else if ip_ltb (ip_ addr) (ip_ a) then false
  else if IsAnyIP addr then
    if lex_lt (hostname_ a) (hostname_ addr) then true
    else if lex_lt (hostname_ addr) (hostname_ a) then false
    else port_ a <? port_ addr
  else port_ a <? port_ addr.

(** A 64-bit size_t: the int is sign extended. *)
Definition Hash (a : SocketAddress) : Z :=
  Z.lxor (Z.lxor 0 (HashIP (ip_ a))) (u64 (s32 (Z.lor (port_ a) (Z.shiftl (port_ a) 16)))).

(** A sockaddr_storage: family, address bytes, port in network order, scope. *)
Record sockaddr := mksockaddr {
  ss_family : family;
  ss_addr : bytes;
  ss_port : Z;
  ss_scope_id : Z;
}.

Definition ToSockAddrStorageHelper (ip : IPAddress) (port scope_id : Z) : sockaddr :=
  match family_ ip with
  | AF_INET6 => mksockaddr AF_INET6 (ipv6_address ip) (HostToNetwork16 port) scope_id
  | AF_INET => mksockaddr AF_INET (ipv4_address ip) (HostToNetwork16 port) 0
  | AF_UNSPEC => mksockaddr AF_UNSPEC [] 0 0
  end.
Definition ToDualStackSockAddrStorage (a : SocketAddress) : sockaddr :=
  ToSockAddrStorageHelper (AsIPv6Address (ip_ a)) (port_ a) (scope_id_ a).
Definition ToSockAddrStorage (a : SocketAddress) : sockaddr :=
  ToSockAddrStorageHelper (ip_ a) (port_ a) (scope_id_ a).

Definition SocketAddressFromSockAddrStorage (addr : sockaddr) : option SocketAddress :=
  match ss_family addr with
  | AF_INET => Some (sa_of_ip (ip_of_v4 (ss_addr addr)) (NetworkToHost16 (ss_port addr)))
  | AF_INET6 =>
      Some (SetScopeID (ss_scope_id addr)
              (sa_of_ip (ip_of_v6 (ss_addr addr)) (NetworkToHost16 (ss_port addr))))
  | AF_UNSPEC => None
  end.

Definition EmptySocketAddressWithFamily (f : family) : SocketAddress :=
  match f with
  | AF_INET => sa_of_ip (ip_of_int INADDR_ANY) 0
  | AF_INET6 => sa_of_ip (ip_of_v6 in6addr_any) 0
  | AF_UNSPEC => sa_clear
  end.

(** ** The orders *)

Definition ip_ok (ip : IPAddress) : Prop := length (u_ ip) = 16%nat /\ bytes_ok (u_ ip).

Lemma lex_lt_be a : forall b, bytes_ok a -> bytes_ok b -> length a = length b ->
  lex_lt a b = (be_val a <? be_val b).
Proof.
  induction a as [|x a IH]; intros [|y b] Ha Hb Hl; try done.
  inversion_clear Ha as [|? ? Hx Ha']. inversion_clear Hb as [|? ? Hy Hb'].
  injection Hl as Hl. cbn [lex_lt]. rewrite !be_val_cons, IH, Hl by done.
  pose proof (be_val_range a Ha') as Ra. pose proof (be_val_range b Hb') as Rb.
  rewrite Hl in Ra. unfold is_u in *.
  assert (Hp : 256 ^ Z.of_nat (length b) = 2 ^ (8 * Z.of_nat (length b)))
    by (by rewrite Z.pow_mul_r by lia). rewrite Hp.
  assert (0 < 2 ^ (8 * Z.of_nat (length b))) by lia.
  set (P := 2 ^ (8 * Z.of_nat (length b))) in *.
  destruct (Z.lt_trichotomy x y) as [Hlt|[->|Hgt]].
  - rewrite (proj2 (Z.ltb_lt x y)) by done. symmetry. apply Z.ltb_lt. nia.
  - rewrite Z.ltb_irrefl, Z.eqb_refl. cbn [orb andb].
    destruct (Z.ltb_spec (be_val a) (be_val b)); symmetry; [apply Z.ltb_lt|apply Z.ltb_ge]; lia.
  - rewrite (proj2 (Z.ltb_ge x y)), (proj2 (Z.eqb_neq x y)) by lia. symmetry. apply Z.ltb_ge. nia.
Qed.

(** Family rank and value of the address bytes. *)
Definition rank (f : family) : Z :=
  match f with AF_UNSPEC => 0 | AF_INET => 1 | AF_INET6 => 2 end.
Definition ip_value (ip : IPAddress) : Z :=
  match family_ ip with
  | AF_UNSPEC => 0
  | AF_INET => be_val (ipv4_address ip)
  | AF_INET6 => be_val (ipv6_address ip)
  end.
Definition ip_key (ip : IPAddress) : Z * Z := (rank (family_ ip), ip_value ip).
Definition key_lt (a b : Z * Z) : Prop := a.1 < b.1 \/ (a.1 = b.1 /\ a.2 < b.2).

Lemma v4_ok ip : ip_ok ip -> length (ipv4_address ip) = 4%nat /\ bytes_ok (ipv4_address ip).
Proof.
  intros [Hl Hok]. unfold ipv4_address. rewrite length_take, Hl.
  split; [done|by apply Forall_take].
Qed.

Lemma ip_ltb_key a b : ip_ok a -> ip_ok b -> ip_ltb a b = true <-> key_lt (ip_key a) (ip_key b).
Proof.
  intros Ha Hb. destruct (v4_ok a Ha) as [La Oa]. destruct (v4_ok b Hb) as [Lb Ob].
  destruct Ha as [Ha1 Ha2], Hb as [Hb1 Hb2].
  unfold ip_ltb, key_lt, ip_key, ip_value. cbn [fst snd].
  destruct (family_ a) eqn:Ea, (family_ b) eqn:Eb; cbn [rank];
    repeat case_bool_decide; try done; cbn [negb].
  all: try (split; [intros; lia || done|intros; lia || done]).
  - rewrite !NetworkToHost32_val, Z.ltb_lt by done. split; [by right|]. intros [|]; [lia|tauto].
  - unfold ipv6_address. rewrite lex_lt_be, Z.ltb_lt by congruence.
    split; [by right|]. intros [|]; [lia|tauto].
Qed.

Lemma ip_eqb_key a b : ip_ok a -> ip_ok b -> ip_eqb a b = true <-> ip_key a = ip_key b.
Proof.
  intros Ha Hb. destruct (v4_ok a Ha) as [La Oa]. destruct (v4_ok b Hb) as [Lb Ob].
  destruct Ha as [Ha1 Ha2], Hb as [Hb1 Hb2].
  unfold ip_eqb, ip_key, ip_value.
  destruct (family_ a) eqn:Ea, (family_ b) eqn:Eb; cbn [rank];
    repeat case_bool_decide; try done; cbn [negb].
  all: split; try done; try congruence.
  all: intros [= Hv]; exfalso; match goal with H : _ <> _ |- _ => apply H end.
  all: apply be_val_inj; unfold ipv6_address in *; congruence.
Qed.

Lemma key_lt_trans a b c : key_lt a b -> key_lt b c -> key_lt a c.
Proof. unfold key_lt. lia. Qed.
Lemma key_tri a b : key_lt a b \/ a = b \/ key_lt b a.
Proof.
  unfold key_lt. destruct a as [a1 a2], b as [b1 b2]; cbn [fst snd].
  destruct (Z.lt_trichotomy a1 b1) as [|[->|]]; [lia| |lia].
  destruct (Z.lt_trichotomy a2 b2) as [|[->|]]; [lia|by right; left|lia].
Qed.
Lemma key_lt_irrefl a : ~ key_lt a a.
Proof. unfold key_lt. lia. Qed.

(** The order of std::string. *)
Lemma lex_lt_irrefl a : lex_lt a a = false.
Proof. induction a as [|x a IH]; [done|]. cbn. by rewrite Z.ltb_irrefl, Z.eqb_refl, IH. Qed.
Lemma lex_lt_cons x y a b : lex_lt (x :: a) (y :: b) = true <-> x < y \/ (x = y /\ lex_lt a b = true).
Proof. cbn [lex_lt]. by rewrite orb_true_iff, andb_true_iff, Z.ltb_lt, Z.eqb_eq. Qed.
Lemma lex_lt_trans a : forall b c, lex_lt a b = true -> lex_lt b c = true -> lex_lt a c = true.
Proof.
  induction a as [|x a IH]; intros [|y b] [|z c]; try done.
  rewrite !lex_lt_cons. intros [?|[-> Ha]] [?|[-> Hb]]; [lia..|right; eauto].
Qed.
Lemma lex_lt_tri a : forall b, lex_lt a b = true \/ a = b \/ lex_lt b a = true.
Proof.
  induction a as [|x a IH]; intros [|y b]; [auto..|].
  rewrite !lex_lt_cons. destruct (Z.lt_trichotomy x y) as [|[->|]]; [auto| |auto].
  destruct (IH b) as [?|[->|?]]; auto.
Qed.

(** The three components the socket address order compares. *)
Definition sa_host (a : SocketAddress) : bytes := if IPIsAny (ip_ a) then hostname_ a else [].
Definition sa_lt (a b : SocketAddress) : Prop :=
  key_lt (ip_key (ip_ a)) (ip_key (ip_ b)) \/
  (ip_key (ip_ a) = ip_key (ip_ b) /\
   (lex_lt (sa_host a) (sa_host b) = true \/ (sa_host a = sa_host b /\ port_ a < port_ b))).
Definition sa_eq (a b : SocketAddress) : Prop :=
  ip_key (ip_ a) = ip_key (ip_ b) /\ sa_host a = sa_host b /\ port_ a = port_ b.

Lemma ip_ok_int v : ip_ok (ip_of_int v).
Proof.
  split; cbn.
  - by rewrite length_app, length_host_bytes.
  - apply bytes_ok_app. split; [apply host_bytes_ok|solve_bytes].
Qed.
Lemma ip_ok_any : ip_ok (ip_of_v6 in6addr_any).
Proof. split; [done|]. unfold ip_of_v6. cbn [u_]. solve_bytes. Qed.

Lemma bool_iff (b : bool) (P Q : Prop) : (b = true <-> P) -> (P <-> Q) -> b = true <-> Q.
Proof. tauto. Qed.

Lemma family_key a b : ip_key a = ip_key b -> family_ a = family_ b.
Proof. unfold ip_key. by destruct (family_ a), (family_ b). Qed.

Lemma any_key a b : ip_ok a -> ip_ok b -> ip_key a = ip_key b -> IPIsAny a = IPIsAny b.
Proof.
  intros Ha Hb Hk. unfold IPIsAny. rewrite <- (family_key a b Hk).
  destruct (family_ a); [done| |].
  - apply eq_iff_eq_true. rewrite !ip_eqb_key, Hk by (done || apply ip_ok_int). done.
  - apply eq_iff_eq_true. rewrite !ip_eqb_key, Hk by (done || apply ip_ok_any). done.
Qed.

Lemma sa_ltb_lt a b : ip_ok (ip_ a) -> ip_ok (ip_ b) -> sa_ltb a b = true <-> sa_lt a b.
Proof.
  intros Ha Hb. unfold sa_ltb, sa_lt, sa_host, IsAnyIP.
  pose proof (ip_ltb_key _ _ Ha Hb) as Hab. pose proof (ip_ltb_key _ _ Hb Ha) as Hba.
  destruct (key_tri (ip_key (ip_ a)) (ip_key (ip_ b))) as [Hlt|[Heq|Hlt]].
  - rewrite (proj2 Hab Hlt). tauto.
  - rewrite Heq in *. pose proof (key_lt_irrefl (ip_key (ip_ b))).
    destruct (ip_ltb (ip_ a) (ip_ b)), (ip_ltb (ip_ b) (ip_ a)); try tauto.
    rewrite (any_key _ _ Ha Hb Heq).
    destruct (IPIsAny (ip_ b)); [|rewrite Z.ltb_lt; intuition discriminate].
    destruct (lex_lt_tri (hostname_ a) (hostname_ b)) as [Hl|[Hl|Hl]].
    + rewrite Hl. tauto.
    + rewrite Hl, lex_lt_irrefl, Z.ltb_lt. intuition discriminate.
    + rewrite Hl. destruct (lex_lt (hostname_ a) (hostname_ b)) eqn:E; [tauto|].
      split; [done|]. intros [?|[_ [?|[E' _]]]]; [tauto|done|].
      rewrite E', lex_lt_irrefl in Hl. done.
  - rewrite (proj2 Hba Hlt). destruct (ip_ltb (ip_ a) (ip_ b)) eqn:E; [tauto|].
    split; [done|]. intros [Hl|[He _]].
    + destruct (key_lt_irrefl _ (key_lt_trans _ _ _ Hl Hlt)).
    + rewrite He in Hlt. destruct (key_lt_irrefl _ Hlt).
Qed.

Lemma sa_eqb_eq a b : ip_ok (ip_ a) -> ip_ok (ip_ b) -> sa_eqb a b = true <-> sa_eq a b.
Proof.
  intros Ha Hb. unfold sa_eqb, EqualIPs, EqualPorts, sa_eq, sa_host.
  rewrite !andb_true_iff, ip_eqb_key, Z.eqb_eq, orb_true_iff, negb_true_iff, bool_decide_eq_true by done.
  split; [intros [[Hk ?] ?]|intros (Hk & ? & ?)]; pose proof (any_key _ _ Ha Hb Hk) as Hany;
    rewrite Hany in *; destruct (IPIsAny (ip_ b)); intuition (done || discriminate).
Qed.

(** The order and the equality of addresses and of socket addresses fit
    together: they are a strict weak order, whose incomparability is
    [operator==]. *)
Definition strict_order_with {A} (ok : A -> Prop) (ltb eqb : A -> A -> bool) : Prop :=
  (forall a b, ok a -> ok b ->
     (ltb a b = true /\ eqb a b = false /\ ltb b a = false) \/
     (ltb a b = false /\ eqb a b = true /\ ltb b a = false) \/
     (ltb a b = false /\ eqb a b = false /\ ltb b a = true)) /\
  (forall a b c, ok a -> ok b -> ok c -> ltb a b = true -> ltb b c = true -> ltb a c = true) /\
  (forall a b c, ok a -> ok b -> ok c -> eqb a b = true -> eqb b c = true -> eqb a c = true).

Lemma strict_order_of {A} (ok : A -> Prop) (ltb eqb : A -> A -> bool) (lt eq : A -> A -> Prop) :
  (forall a b, ok a -> ok b -> ltb a b = true <-> lt a b) ->
  (forall a b, ok a -> ok b -> eqb a b = true <-> eq a b) ->
  (forall a b, lt a b \/ eq a b \/ lt b a) ->
  (forall a b, lt a b -> eq a b -> False) ->
  (forall a b c, lt a b -> lt b c -> lt a c) ->
  (forall a b, eq a b -> eq b a) ->
  (forall a b c, eq a b -> eq b c -> eq a c) ->
  (forall a, eq a a) ->
  strict_order_with ok ltb eqb.
Proof.
  intros Hlt Heq Htri Hex Htr Hsym Heqtr Hrefl. unfold strict_order_with. split_and!.
  - intros a b Ha Hb. rewrite <- !not_true_iff_false, !Hlt, Heq by done.
    pose proof (Hex a b). pose proof (fun h => Hex b a h).
    pose proof (Hsym a b). pose proof (fun h1 h2 => Hex a a (Htr a b a h1 h2) (Hrefl a)).
    destruct (Htri a b) as [?|[?|?]]; tauto.
  - intros a b c Ha Hb Hc. rewrite !Hlt by done. eauto.
  - intros a b c Ha Hb Hc. rewrite !Heq by done. eauto.
Qed.

Lemma sa_lt_trans a b c : sa_lt a b -> sa_lt b c -> sa_lt a c.
Proof.
  unfold sa_lt. intros [H1|[E1 H1]] [H2|[E2 H2]].
  - left. eapply key_lt_trans; eauto.
  - left. by rewrite <- E2.
  - left. by rewrite E1.
  - right. split; [congruence|].
    destruct H1 as [H1|[-> H1]], H2 as [H2|[<- H2]]; [left; eapply lex_lt_trans; eauto|auto..|].
    right. split; [done|lia].
Qed.

(** operator< and operator== of IPAddress are one strict order: of any two
    addresses exactly one of a < b, a == b, b < a holds, both relations are
    transitive, and the same holds of SocketAddress (address, then the host
    name of the any address, then port). *)
Theorem address_orders :
  strict_order_with ip_ok ip_ltb ip_eqb /\
  strict_order_with (fun a => ip_ok (ip_ a)) sa_ltb sa_eqb.
Proof.
  split.
  - eapply (strict_order_of _ _ _ (fun a b => key_lt (ip_key a) (ip_key b))
              (fun a b => ip_key a = ip_key b)).
    + apply ip_ltb_key.
    + apply ip_eqb_key.
    + intros. apply key_tri.
    + intros a b Hl He. rewrite He in Hl. apply (key_lt_irrefl _ Hl).
    + intros. eapply key_lt_trans; eauto.
    + congruence.
    + congruence.
    + done.
  - apply (strict_order_of _ _ _ sa_lt sa_eq); unfold sa_eq.
    + intros. by apply sa_ltb_lt.
    + intros. by apply sa_eqb_eq.
    + intros a b. unfold sa_lt. destruct (key_tri (ip_key (ip_ a)) (ip_key (ip_ b))) as [?|[->|?]]; auto.
      destruct (lex_lt_tri (sa_host a) (sa_host b)) as [?|[->|?]]; auto 6.
      destruct (Z.lt_trichotomy (port_ a) (port_ b)) as [?|[->|?]]; auto 7.
    + intros a b Hl (E1 & E2 & E3). unfold sa_lt in Hl. rewrite E1, E2, E3, lex_lt_irrefl in Hl.
      pose proof (key_lt_irrefl (ip_key (ip_ b))). intuition (lia || discriminate).
    + apply sa_lt_trans.
    + intuition congruence.
    + intuition congruence.
    + auto.
Qed.

(** ** TruncateIP *)

(** The number of bits of an address. *)
Definition width (ip : IPAddress) : Z := 8 * Z.of_nat (Size ip).

Lemma mask_floor x k : is_u 32 x -> 0 <= k <= 32 ->
  Z.land x (u32 (Z.shiftl 0xFFFFFFFF k)) = x / 2 ^ k * 2 ^ k.
Proof.
  intros Hx Hk. rewrite <- Z.shiftl_mul_pow2, <- Z.shiftr_div_pow2 by lia.
  apply Z.bits_inj'. intros n Hn. rewrite Z.land_spec. unfold u32, wrap.
  destruct (Z.lt_ge_cases n 32) as [Hlt|Hge].
  - rewrite Z.mod_pow2_bits_low by lia.
    destruct (Z.lt_ge_cases n k); [rewrite !Z.shiftl_spec_low by done; apply andb_false_r|].
    rewrite !Z.shiftl_spec by done. change 0xFFFFFFFF with (Z.ones 32).
    rewrite Z.ones_spec_low, Z.shiftr_spec, andb_true_r by lia. f_equal. lia.
  - rewrite Z.mod_pow2_bits_high, andb_false_r by lia.
    rewrite Z.shiftl_spec, Z.shiftr_spec by lia.
    rewrite <- (Z.mod_small x (2 ^ 32)) by done. by rewrite Z.mod_pow2_bits_high by lia.
Qed.

Lemma be_val_nil : be_val [] = 0.
Proof. done. Qed.

Lemma ipv4_of_v4 b : length b = 4%nat -> ipv4_address (ip_of_v4 b) = b.
Proof. intros Hb. unfold ipv4_address, ip_of_v4. cbn [u_]. rewrite take_app_le, take_ge by lia. done. Qed.

Lemma ip_value_v4 b : length b = 4%nat -> ip_value (ip_of_v4 b) = be_val b.
Proof. intros Hb. unfold ip_value. cbn [family_ ip_of_v4]. by rewrite ipv4_of_v4. Qed.

Lemma be_val_be4 v : is_u 32 v -> be_val (be_bytes 4 v) = v.
Proof. intros. rewrite be_val_be_bytes. by apply Z.mod_small. Qed.

Lemma floor_range x w k : is_u w x -> 0 <= k -> is_u w (x / 2 ^ k * 2 ^ k).
Proof.
  unfold is_u. intros Hx Hk. assert (0 < 2 ^ k) by lia.
  pose proof (Z.mul_div_le x (2 ^ k)). pose proof (Z.div_pos x (2 ^ k)). nia.
Qed.

(** An IPv6 address is four big-endian words. *)
Definition of_words (w : list Z) : bytes := concat (map (be_bytes 4) w).

Lemma words_of n : forall l, bytes_ok l -> length l = (4 * n)%nat ->
  exists ws, length ws = n /\ Forall (is_u 32) ws /\ l = of_words ws.
Proof.
  induction n as [|n IH]; intros l Hok Hl.
  - exists []. split_and!; [done|by apply List.Forall_nil|by apply nil_length_inv].
  - destruct (IH (drop 4 l)) as (ws & Hn & Hws & Heq);
      [by apply Forall_drop|rewrite length_drop; lia|].
    assert (Ht : length (take 4 l) = 4%nat) by (rewrite length_take; lia).
    assert (Htok : bytes_ok (take 4 l)) by (by apply Forall_take).
    exists (be_val (take 4 l) :: ws). split_and!; [cbn; lia| |].
    + apply List.Forall_cons; [|done]. pose proof (be_val_range _ Htok) as R. by rewrite Ht in R.
    + unfold of_words. cbn [map concat]. fold (of_words ws). rewrite <- Heq.
      pose proof (be_bytes_be_val _ Htok) as E. rewrite Ht in E. rewrite E. by rewrite take_drop.
Qed.

Lemma as_int_words ws i : (i < length ws)%nat -> Forall (is_u 32) ws ->
  NetworkToHost32 (as_int (of_words ws) i) = nth i ws 0.
Proof.
  intros Hi Hws. unfold as_int, mem_read.
  assert (Hd : take 4 (drop (4 * i) (of_words ws)) = be_bytes 4 (nth i ws 0)).
  { clear Hws. revert i Hi. induction ws as [|w ws IH]; intros [|i] Hi; cbn in Hi; [lia..| |].
    - unfold of_words. cbn [map concat nth]. rewrite drop_0.
      rewrite take_app_le by (by rewrite length_be_bytes).
      rewrite take_ge by (by rewrite length_be_bytes). done.
    - unfold of_words. cbn [map concat nth]. fold (of_words ws).
      rewrite drop_app_ge by (rewrite length_be_bytes; lia). rewrite length_be_bytes.
      replace (4 * S i - 4)%nat with (4 * i)%nat by lia. apply IH. lia. }
  rewrite Hd, NetworkToHost32_val by (apply be_bytes_ok || apply length_be_bytes).
  apply be_val_be4. apply List.Forall_nth; done.
Qed.

Lemma length_of_words ws : length (of_words ws) = (4 * length ws)%nat.
Proof.
  induction ws as [|w ws IH]; [done|]. unfold of_words in *. cbn [map concat length].
  rewrite length_app, length_be_bytes, IH. lia.
Qed.

Lemma write_words ws i v : (i < length ws)%nat ->
  mem_write (of_words ws) (4 * i) (be_bytes 4 v) = of_words (<[i:=v]> ws).
Proof.
  revert i; induction ws as [|w ws IH]; intros [|i] Hi; cbn in Hi; try lia.
  - unfold mem_write, of_words. rewrite take_0, length_be_bytes. cbn [map concat list_insert insert].
    done.
  - unfold mem_write, of_words. cbn [map concat]. fold (of_words ws).
    rewrite take_app_ge, drop_app_ge by (rewrite length_be_bytes; lia).
    change (<[S i:=v]> (w :: ws)) with (w :: <[i:=v]> ws).
    cbn [map concat]. fold (of_words (<[i:=v]> ws)). rewrite <- IH by lia.
    unfold mem_write. rewrite !length_be_bytes, <- app_assoc.
    repeat f_equal; lia.
Qed.

Lemma zero_word : host_bytes 4 0 = be_bytes 4 0.
Proof. by rewrite <- HostToNetwork32_bytes; destruct H as [[|]]. Qed.

(** What the loop writes in word [i]. *)
Definition trunc_word (p : nat) (m : Z) (i : nat) (w : Z) : Z :=
  if (i =? p)%nat then Z.land w m else if (p <? i)%nat then 0 else w.

Lemma truncate_word_words ws p m i : (i < length ws)%nat -> Forall (is_u 32) ws ->
  truncate_word (of_words ws) p m i = of_words (<[i := trunc_word p m i (nth i ws 0)]> ws).
Proof.
  intros Hi Hws. unfold truncate_word, trunc_word. destruct (i =? p)%nat.
  - rewrite as_int_words, HostToNetwork32_bytes by done. by apply write_words.
  - destruct (p <? i)%nat; [rewrite zero_word; by apply write_words|].
    rewrite list_insert_id; [done|].
    destruct (nth_lookup_or_length ws i 0) as [Hn|?]; [done|lia].
Qed.

Lemma trunc_word_u p m i w : is_u 32 m -> is_u 32 w -> is_u 32 (trunc_word p m i w).
Proof.
  unfold trunc_word, is_u. intros Hm Hw. destruct (i =? p)%nat; [|destruct (p <? i)%nat; lia].
  assert (0 <= Z.land w m) by (apply Z.land_nonneg; lia). split; [done|].
  replace w with (w mod 2 ^ 32) by (apply Z.mod_small; lia).
  rewrite <- Z.land_ones by lia. rewrite <- Z.land_assoc, (Z.land_comm (Z.ones 32)), Z.land_assoc.
  rewrite Z.land_ones by lia. apply Z.mod_pos_bound. lia.
Qed.

Lemma truncate_words w0 w1 w2 w3 p m : Forall (is_u 32) [m; w0; w1; w2; w3] ->
  fold_left (fun a i => truncate_word a p m i) (seq 0 4) (of_words [w0; w1; w2; w3]) =
  of_words [trunc_word p m 0 w0; trunc_word p m 1 w1; trunc_word p m 2 w2; trunc_word p m 3 w3].
Proof.
  intros Hu. rewrite List.Forall_forall in Hu. cbn [seq fold_left].
  assert (Hf : forall l, (forall x, In x l -> is_u 32 x) -> Forall (is_u 32) l)
    by (intros; by apply List.Forall_forall).
  assert (Hin : forall i w, In w [m; w0; w1; w2; w3] -> is_u 32 (trunc_word p m i w))
    by (intros; apply trunc_word_u; apply Hu; cbn in *; auto).
  rewrite truncate_word_words; [cbn [nth insert list_insert]|cbn; lia|].
  1: rewrite truncate_word_words; [cbn [nth insert list_insert]|cbn; lia|].
  1: rewrite truncate_word_words; [cbn [nth insert list_insert]|cbn; lia|].
  1: rewrite truncate_word_words; [done|cbn; lia|].
  all: apply Hf; intros x Hx; cbn in Hx; intuition subst; first [apply Hin|apply Hu]; cbn; auto 6.
Qed.

Lemma be_val_words w0 w1 w2 w3 : Forall (is_u 32) [w0; w1; w2; w3] ->
  be_val (of_words [w0; w1; w2; w3]) = ((w0 * 2 ^ 32 + w1) * 2 ^ 32 + w2) * 2 ^ 32 + w3.
Proof.
  intros Hu. rewrite List.Forall_forall in Hu. unfold of_words. cbn [map concat].
  rewrite !be_val_app, !length_app, !length_be_bytes, be_val_nil.
  rewrite !be_val_be4 by (apply Hu; cbn; auto 6). cbn [length]. cbn. lia.
Qed.

Lemma floor_low A w k : 0 <= k <= 32 ->
  (A * 2 ^ 32 + w) / 2 ^ k * 2 ^ k = A * 2 ^ 32 + w / 2 ^ k * 2 ^ k.
Proof.
  intros Hk. replace (2 ^ 32) with (2 ^ (32 - k) * 2 ^ k)
    by (rewrite <- Z.pow_add_r by lia; f_equal; lia).
  rewrite Z.mul_assoc, Z.div_add_l by lia. ring.
Qed.

Lemma floor_high A w k : is_u 32 w -> 0 <= k ->
  (A * 2 ^ 32 + w) / 2 ^ (k + 32) * 2 ^ (k + 32) = A / 2 ^ k * 2 ^ k * 2 ^ 32.
Proof.
  intros Hw Hk. rewrite Z.pow_add_r, (Z.mul_comm (2 ^ k) (2 ^ 32)) by lia.
  rewrite <- Z.div_div by lia. rewrite Z.div_add_l, (Z.div_small w) by (done || lia).
  rewrite Z.add_0_r. ring.
Qed.

Lemma truncate_v6 l n : bytes_ok l -> length l = 16%nat -> 0 < n < 128 ->
  be_val (u_ (TruncateIP (ip_of_v6 l) n)) = be_val l / 2 ^ (128 - n) * 2 ^ (128 - n).
Proof.
  intros Hok Hl Hn. destruct (words_of 4 l Hok Hl) as (ws & Hws & Hu & ->).
  destruct ws as [|w0 [|w1 [|w2 [|w3 [|]]]]]; try discriminate.
  unfold TruncateIP. cbn [family_ ip_of_v6].
  rewrite (proj2 (Z.ltb_ge n 0)), (proj2 (Z.ltb_ge 127 n)), (proj2 (Z.eqb_neq n 0)) by lia.
  unfold ipv6_address. cbn [u_ ip_of_v6].
  set (q := n / 32). set (k := 32 - (n - q * 32)).
  assert (Hq : 0 <= q <= 3 /\ 1 <= k <= 32 /\ 128 - n = k + 32 * (3 - q)) by (unfold k, q; dlia).
  destruct Hq as (Hq & Hk & He). clearbody k q. rewrite He.
  rewrite truncate_words by (apply List.Forall_cons; [apply (wrap_range 32); lia|done]).
  repeat (apply Forall_cons in Hu; destruct Hu as [? Hu]).
  rewrite !be_val_words.
  - assert (Hq' : q = 0 \/ q = 1 \/ q = 2 \/ q = 3) by lia.
    destruct Hq' as [->|[->|[->| ->]]]; unfold trunc_word;
      [change (Z.to_nat 0) with 0%nat|change (Z.to_nat 1) with 1%nat
      |change (Z.to_nat 2) with 2%nat|change (Z.to_nat 3) with 3%nat];
      cbv [Nat.eqb Nat.ltb Nat.leb]; rewrite mask_floor by (done || lia).
    + replace (k + 32 * (3 - 0)) with (k + 32 + 32 + 32) by lia.
      rewrite !floor_high by (done || lia). ring.
    + replace (k + 32 * (3 - 1)) with (k + 32 + 32) by lia.
      rewrite !floor_high, floor_low by (done || lia). ring.
    + replace (k + 32 * (3 - 2)) with (k + 32) by lia.
      rewrite !floor_high, floor_low by (done || lia). ring.
    + replace (k + 32 * (3 - 3)) with k by lia. by rewrite floor_low by lia.
  - repeat (apply List.Forall_cons; [done|]). by apply List.Forall_nil.
  - pose proof (wrap_range 32 (Z.shiftl 0xFFFFFFFF k) ltac:(lia)).
    repeat (apply List.Forall_cons; [by apply trunc_word_u|]). by apply List.Forall_nil.
Qed.

Lemma be_val_host_ip v : is_u 32 v -> be_val (host_bytes 4 (HostToNetwork32 v)) = v.
Proof. intros. by rewrite HostToNetwork32_bytes, be_val_be4. Qed.

(** TruncateIP keeps the family and clears exactly the bits after the
    first [n]: the address, read as a number, is rounded down to a multiple of
    2 to the number of bits dropped (none when n exceeds the width); a negative
    length, or an address without a family, gives the nil address. *)
Theorem TruncateIP_floor ip n : ip_ok ip ->
  if (n <? 0) || bool_decide (family_ ip = AF_UNSPEC) then TruncateIP ip n = ip_nil
  else family_ (TruncateIP ip n) = family_ ip /\
       ip_value (TruncateIP ip n) =
         ip_value ip / 2 ^ (width ip - n `min` width ip) * 2 ^ (width ip - n `min` width ip).
Proof.
  intros Hok. pose proof (v4_ok ip Hok) as [L4 O4]. destruct Hok as [Hl Hb].
  assert (Hnone : forall v, v = v / 2 ^ 0 * 2 ^ 0) by (intros; rewrite Z.pow_0_r, Z.div_1_r; lia).
  assert (Hall : forall w v, 0 <= w -> is_u w v -> 0 = v / 2 ^ w * 2 ^ w)
    by (intros; rewrite Z.div_small by done; lia).
  pose proof (be_val_range _ Hb) as R6. rewrite Hl in R6.
  pose proof (be_val_range _ O4) as R4. rewrite L4 in R4.
  destruct (Z.ltb_spec n 0) as [Hn|Hn]; cbn [orb].
  { unfold TruncateIP. by rewrite (proj2 (Z.ltb_lt n 0)). }
  case_bool_decide as Hf; [unfold TruncateIP; by rewrite Hf, (proj2 (Z.ltb_ge n 0))|].
  destruct ip as [f l]. unfold width in *. cbn [family_ u_ Size] in *.
  destruct f; [done| |].
  - unfold TruncateIP. cbn [family_ Size]. rewrite (proj2 (Z.ltb_ge n 0)) by done.
    destruct (Z.ltb_spec 31 n); [|destruct (Z.eqb_spec n 0) as [->|]].
    + rewrite Z.min_r by lia. split; [done|apply Hnone].
    + split; [done|]. unfold ip_of_int. rewrite ip_value_v4 by apply length_host_bytes.
      rewrite Z.min_l by lia. rewrite be_val_host_ip by (unfold is_u, INADDR_ANY; lia).
      by apply Hall.
    + split; [done|]. rewrite ip_value_v4 by apply length_host_bytes.
      rewrite NetworkToHost32_val, mask_floor by (done || lia).
      rewrite be_val_host_ip by (apply floor_range; [done|lia]). rewrite Z.min_l by lia. done.
  - change (mkip AF_INET6 l) with (ip_of_v6 l).
    change (8 * Z.of_nat (Size (ip_of_v6 l))) with 128.
    destruct (Z.ltb_spec 127 n); [|destruct (Z.eqb_spec n 0) as [->|]].
    + unfold TruncateIP. cbn [family_ Size ip_of_v6].
      rewrite (proj2 (Z.ltb_ge n 0)), (proj2 (Z.ltb_lt 127 n)) by done.
      rewrite Z.min_r by lia. split; [done|apply Hnone].
    + split; [done|]. rewrite Z.min_l by lia. by apply (Hall 128).
    + assert (Hf6 : family_ (TruncateIP (ip_of_v6 l) n) = AF_INET6).
      { unfold TruncateIP. cbn [family_ Size ip_of_v6].
        rewrite (proj2 (Z.ltb_ge n 0)), (proj2 (Z.ltb_ge 127 n)), (proj2 (Z.eqb_neq n 0)) by done.
        done. }
      split; [done|]. unfold ip_value. rewrite Hf6. unfold ipv6_address.
      rewrite Z.min_l by lia. cbn [family_ ip_of_v6]. apply truncate_v6; [done..|lia].
Qed.

(** The netmask of [n] bits of a family. *)
Definition netmask (f : family) (n : Z) : IPAddress :=
  TruncateIP (match f with AF_INET => ip_of_v4 (repeat 255 4) | _ => mkip f (repeat 255 16) end) n.

(** ** IPv4-mapped addresses *)

Lemma v6_of_v4 ip : ip_ok ip -> family_ ip = AF_INET ->
  AsIPv6Address ip = ip_of_v6 (take 12 kV4MappedPrefix ++ ipv4_address ip).
Proof.
  intros Hok Hf. destruct (v4_ok ip Hok) as [L4 _]. unfold AsIPv6Address. rewrite Hf.
  rewrite bool_decide_true by done. cbn [negb]. f_equal.
  rewrite mem_write_end; [done|]. rewrite L4. cbn. lia.
Qed.

(** an IPv4 address survives the round trip through its IPv4-mapped IPv6
    form: AsIPv6Address gives an IPv6 address recognised as V4-mapped, and
    Normalized gives an address equal to the original; the other addresses are
    left alone by AsIPv6Address. *)
Theorem mapped_roundtrip ip : ip_ok ip ->
  (family_ ip = AF_INET ->
     family_ (AsIPv6Address ip) = AF_INET6 /\ IPIsV4Mapped (AsIPv6Address ip) = true /\
     ip_eqb (Normalized (AsIPv6Address ip)) ip = true) /\
  (family_ ip <> AF_INET -> AsIPv6Address ip = ip).
Proof.
  intros Hok. destruct (v4_ok ip Hok) as [L4 _]. split; intros Hf.
  - rewrite v6_of_v4 by done. split; [done|].
    assert (Hm : IPIsV4Mapped (ip_of_v6 (take 12 kV4MappedPrefix ++ ipv4_address ip)) = true)
      by (unfold IPIsV4Mapped, IPIsHelper; by apply bool_decide_true).
    split; [done|]. unfold Normalized. rewrite Hm. cbn [family_ ip_of_v6 u_ negb].
    rewrite bool_decide_true by done. cbn [negb].
    unfold ExtractMappedAddress, mem_read. rewrite drop_app_ge by done.
    change (12 - length (take 12 kV4MappedPrefix))%nat with 0%nat. rewrite drop_0, take_ge by lia.
    unfold ip_eqb. cbn [family_ ip_of_v4]. rewrite Hf, bool_decide_true by done. cbn [negb].
    apply bool_decide_true, ipv4_of_v4, L4.
  - unfold AsIPv6Address. by rewrite bool_decide_false.
Qed.

(** ** sockaddr_storage *)

Lemma be16_roundtrip p : is_u 16 p -> NetworkToHost16 (HostToNetwork16 p) = p.
Proof.
  intros Hp. unfold NetworkToHost16. rewrite HostToNetwork16_bytes.
  rewrite GetBE16_be by (apply be_bytes_ok || apply length_be_bytes).
  rewrite be_val_be_bytes. by apply Z.mod_small.
Qed.

(** writing a socket address into a sockaddr_storage and reading it back
    gives an equal IP address, the port, and for IPv6 the scope; an address
    without a family cannot be read back.  The dual-stack form of an IPv4
    address reads back as its V4-mapped address with the same port. *)
Theorem sockaddr_roundtrip a : ip_ok (ip_ a) -> is_u 16 (port_ a) ->
  match SocketAddressFromSockAddrStorage (ToSockAddrStorage a) with
  | Some b => family_ (ip_ a) <> AF_UNSPEC /\ ip_eqb (ip_ b) (ip_ a) = true /\ port_ b = port_ a /\
              scope_id_ b = (if bool_decide (family_ (ip_ a) = AF_INET6) then scope_id_ a else 0)
  | None => family_ (ip_ a) = AF_UNSPEC
  end /\
  (family_ (ip_ a) = AF_INET ->
   exists b, SocketAddressFromSockAddrStorage (ToDualStackSockAddrStorage a) = Some b /\
             ip_ b = AsIPv6Address (ip_ a) /\ port_ b = port_ a).
Proof.
  intros Hok Hp. destruct (v4_ok _ Hok) as [L4 _].
  assert (Hport : u16 (NetworkToHost16 (HostToNetwork16 (port_ a))) = port_ a)
    by (rewrite be16_roundtrip by done; by apply wrap_small).
  split.
  - unfold ToSockAddrStorage, ToSockAddrStorageHelper.
    destruct (family_ (ip_ a)) eqn:Hf; [done| |];
      cbn [SocketAddressFromSockAddrStorage ss_family ss_addr ss_port ss_scope_id
           ip_ port_ scope_id_ sa_of_ip SetPort SetIP SetScopeID sa_clear];
      unfold SocketAddressFromSockAddrStorage; cbn [ss_family ss_addr ss_port ss_scope_id];
      unfold sa_of_ip; cbn [ip_ port_ scope_id_ SetPort SetIP SetScopeID sa_clear];
      rewrite Hport; (split_and!; [done| |done|done]); unfold ip_eqb; cbn [family_ ip_of_v4 ip_of_v6];
      rewrite Hf, bool_decide_true by done; cbn [negb]; apply bool_decide_true.
    + by apply ipv4_of_v4.
    + done.
  - intros Hf. unfold ToDualStackSockAddrStorage, ToSockAddrStorageHelper.
    rewrite v6_of_v4 by done. cbn [family_ ip_of_v6].
    eexists. split; [reflexivity|]. split; [done|]. exact Hport.
Qed.

(** Two unresolved socket addresses with different host names and the same
    port compare equal. *)
Lemma unresolved_equal h1 h2 p :
  let unresolved h := sa_of_hostname (fun _ _ => None) h p in
  sa_eqb (unresolved h1) (unresolved h2) = true.
Proof. cbn. unfold sa_eqb, EqualIPs, EqualPorts. cbn. by rewrite Z.eqb_refl. Qed.

End Host.

(** the netmask routines are inverse: truncating the all-ones address to n
    bits and counting the mask bits gives n back, for every length of both
    families. *)
Theorem CountIPMaskBits_netmask `{H : Machine} :
  (forall n, 0 <= n <= 32 -> CountIPMaskBits (netmask AF_INET n) = n) /\
  (forall n, 0 <= n <= 128 -> CountIPMaskBits (netmask AF_INET6 n) = n).
Proof.
  destruct H as [e u Hu]. split; intros n Hn; apply Z.eqb_eq.
  - apply (forall_below 33 (fun n => CountIPMaskBits (netmask AF_INET n) =? n)); [|lia].
    destruct e; vm_compute; reflexivity.
  - apply (forall_below 129 (fun n => CountIPMaskBits (netmask AF_INET6 n) =? n)); [|lia].
    destruct e; vm_compute; reflexivity.
Qed.

Lemma mapped_roundtrip_witness :
  ip_eqb (Normalized (AsIPv6Address (ip_of_v4 [192; 168; 1; 2]))) (ip_of_v4 [192; 168; 1; 2]) = true.
Proof.
  assert (Hok : ip_ok (ip_of_v4 [192; 168; 1; 2])) by (split; [done|unfold ip_of_v4; cbn [u_]; solve_bytes]).
  destruct (mapped_roundtrip (ip_of_v4 [192; 168; 1; 2]) Hok) as [H1 _]. apply H1. reflexivity.
Defined.

Lemma TruncateIP_floor_witness :
  let ip := ip_of_v4 [192; 168; 77; 2] in
  ip_value (@TruncateIP x86 ip 16) = 0xC0A80000.
Proof.
  intros ip.
  assert (Hok : ip_ok ip) by (split; [done|unfold ip, ip_of_v4; cbn [u_]; solve_bytes]).
  destruct (@TruncateIP_floor x86 ip 16 Hok) as [_ H1]. rewrite H1. vm_compute. reflexivity.
Defined.

Lemma sockaddr_roundtrip_witness :
  let a := sa_of_ip (ip_of_v4 [10; 0; 0; 1]) 5349 in
  exists b, @SocketAddressFromSockAddrStorage x86 (@ToDualStackSockAddrStorage x86 a) = Some b /\ port_ b = 5349.
Proof.
  intros a.
  assert (Hok : ip_ok (ip_ a)) by (split; [done|unfold a, ip_of_v4; cbn [u_]; solve_bytes]).
  destruct (@sockaddr_roundtrip x86 a Hok) as [_ H1]; [vm_compute; split; [discriminate|reflexivity]|].
  destruct H1 as (b & Hb & _ & Hp); [reflexivity|]. exists b. split; [exact Hb|]. rewrite Hp. reflexivity.
Defined.

(** The mask 255.0.255.0 is counted up to its last set bit. *)
Example CountIPMaskBits_holes :
  CountIPMaskBits (H := x86) (ip_of_v4 [0xFF; 0; 0xFF; 0]) = 24.
Proof. vm_compute. reflexivity. Qed.

End IpAddress.
