(* ===== verification/Stun.v ===== *)
(** * p2p/base/stun.cc: STUN, TURN and ICE messages

    A message is its type, its length field, its transaction id and its
    attributes; an attribute is its type, its length and a value of one of the
    seven attribute classes.  The owner pointer of an XOR address can only
    be the message that holds the attribute, so it is a flag and the owner's
    transaction id an argument.  [Read] and [Write] return the source's boolean
    with the object and the buffer as they stand at the return, failures
    included.  The functions over raw packets read them at explicit positions;
    [None] is a read outside the packet.  The NULL pointer of an empty byte
    string is the empty string. *)

From S2P Require Import Prelude ByteOrder ByteBuffer Crc32 MessageDigest IpAddress.
Import ByteOrder IpAddress.
Open Scope jingle_scope.

Module Stun.

Abbreviation buffer := ByteBuffer.t.

(** ** Constants *)

Definition STUN_ATTR_MAPPED_ADDRESS : Z := 0x0001.
Definition STUN_ATTR_USERNAME : Z := 0x0006.
Definition STUN_ATTR_MESSAGE_INTEGRITY : Z := 0x0008.
Definition STUN_ATTR_ERROR_CODE : Z := 0x0009.
Definition STUN_ATTR_UNKNOWN_ATTRIBUTES : Z := 0x000a.
Definition STUN_ATTR_REALM : Z := 0x0014.
Definition STUN_ATTR_NONCE : Z := 0x0015.
Definition STUN_ATTR_XOR_MAPPED_ADDRESS : Z := 0x0020.
Definition STUN_ATTR_SOFTWARE : Z := 0x8022.
Definition STUN_ATTR_ALTERNATE_SERVER : Z := 0x8023.
Definition STUN_ATTR_FINGERPRINT : Z := 0x8028.
Definition STUN_ATTR_RETRANSMIT_COUNT : Z := 0xFF00.
(** RelayMessage *)
Definition STUN_ATTR_LIFETIME : Z := 0x000d.
Definition STUN_ATTR_MAGIC_COOKIE : Z := 0x000f.
Definition STUN_ATTR_BANDWIDTH : Z := 0x0010.
Definition STUN_ATTR_DESTINATION_ADDRESS : Z := 0x0011.
Definition STUN_ATTR_SOURCE_ADDRESS2 : Z := 0x0012.
Definition STUN_ATTR_DATA : Z := 0x0013.
Definition STUN_ATTR_OPTIONS : Z := 0x8001.
(** TurnMessage *)
Definition STUN_ATTR_CHANNEL_NUMBER : Z := 0x000C.
Definition STUN_ATTR_TURN_LIFETIME : Z := 0x000d.
Definition STUN_ATTR_XOR_PEER_ADDRESS : Z := 0x0012.
Definition STUN_ATTR_XOR_RELAYED_ADDRESS : Z := 0x0016.
Definition STUN_ATTR_EVEN_PORT : Z := 0x0018.
Definition STUN_ATTR_REQUESTED_TRANSPORT : Z := 0x0019.
Definition STUN_ATTR_DONT_FRAGMENT : Z := 0x001A.
Definition STUN_ATTR_RESERVATION_TOKEN : Z := 0x0022.
(** IceMessage *)
Definition STUN_ATTR_PRIORITY : Z := 0x0024.
Definition STUN_ATTR_USE_CANDIDATE : Z := 0x0025.
Definition STUN_ATTR_ICE_CONTROLLED : Z := 0x8029.
Definition STUN_ATTR_ICE_CONTROLLING : Z := 0x802A.

Definition kStunTypeMask : Z := 0x0110.
Definition kStunAttributeHeaderSize : nat := 4.
Definition kStunHeaderSize : nat := 20.
Definition kStunTransactionIdOffset : nat := 8.
Definition kStunTransactionIdLength : nat := 12.
Definition kStunMagicCookie : Z := 0x2112A442.
Definition kStunMagicCookieLength : nat := 4.
Definition kStunLegacyTransactionIdLength : nat := 16.
Definition kStunMessageIntegritySize : nat := 20.
Definition STUN_FINGERPRINT_XOR_VALUE : Z := 0x5354554E.
Definition EMPTY_TRANSACTION_ID : bytes := str "0000000000000000".

Inductive StunAttributeValueType :=
  | STUN_VALUE_UNKNOWN | STUN_VALUE_ADDRESS | STUN_VALUE_XOR_ADDRESS | STUN_VALUE_UINT32
  | STUN_VALUE_UINT64 | STUN_VALUE_BYTE_STRING | STUN_VALUE_ERROR_CODE | STUN_VALUE_UINT16_LIST.
#[export] Instance value_type_eq_dec : EqDecision StunAttributeValueType.
Proof. solve_decision. Defined.

(** ** Data *)

Inductive attr_value :=
  | StunAddressAttribute (address_ : SocketAddress)
  | StunXorAddressAttribute (address_ : SocketAddress) (owner_ : bool)
  | StunUInt32Attribute (bits_ : Z)
  | StunUInt64Attribute (bits_ : Z)
  | StunByteStringAttribute (bytes_ : bytes)
  | StunErrorCodeAttribute (class_ number_ : Z) (reason_ : bytes)
  | StunUInt16ListAttribute (attr_types_ : list Z).

Record StunAttribute := mkattr { attr_type : Z; attr_length : Z; value_ : attr_value }.

Record StunMessage := mkmsg {
  type_ : Z;
  length_ : Z;
  transaction_id_ : bytes;
  attrs_ : list StunAttribute;
}.

(** The class of a message decides which attributes it knows. *)
Inductive message_class := StunMessageClass | RelayMessage | TurnMessage | IceMessage.

Definition value_type (a : StunAttribute) : StunAttributeValueType :=
  match value_ a with
  | StunAddressAttribute _ => STUN_VALUE_ADDRESS
  | StunXorAddressAttribute _ _ => STUN_VALUE_XOR_ADDRESS
  | StunUInt32Attribute _ => STUN_VALUE_UINT32
  | StunUInt64Attribute _ => STUN_VALUE_UINT64
  | StunByteStringAttribute _ => STUN_VALUE_BYTE_STRING
  | StunErrorCodeAttribute _ _ _ => STUN_VALUE_ERROR_CODE
  | StunUInt16ListAttribute _ => STUN_VALUE_UINT16_LIST
  end.

Definition stun_value_type (type : Z) : StunAttributeValueType :=
  if type =? STUN_ATTR_MAPPED_ADDRESS then STUN_VALUE_ADDRESS
  else if type =? STUN_ATTR_USERNAME then STUN_VALUE_BYTE_STRING
  else if type =? STUN_ATTR_MESSAGE_INTEGRITY then STUN_VALUE_BYTE_STRING
  else if type =? STUN_ATTR_ERROR_CODE then STUN_VALUE_ERROR_CODE
  else if type =? STUN_ATTR_UNKNOWN_ATTRIBUTES then STUN_VALUE_UINT16_LIST
  else if type =? STUN_ATTR_REALM then STUN_VALUE_BYTE_STRING
  else if type =? STUN_ATTR_NONCE then STUN_VALUE_BYTE_STRING
  else if type =? STUN_ATTR_XOR_MAPPED_ADDRESS then STUN_VALUE_XOR_ADDRESS
  else if type =? STUN_ATTR_SOFTWARE then STUN_VALUE_BYTE_STRING
  else if type =? STUN_ATTR_ALTERNATE_SERVER then STUN_VALUE_BYTE_STRING
  else if type =? STUN_ATTR_FINGERPRINT then STUN_VALUE_UINT32
  else if type =? STUN_ATTR_RETRANSMIT_COUNT then STUN_VALUE_UINT32
  else STUN_VALUE_UNKNOWN.

Definition relay_value_type (type : Z) : StunAttributeValueType :=
  if type =? STUN_ATTR_LIFETIME then STUN_VALUE_UINT32
  else if type =? STUN_ATTR_MAGIC_COOKIE then STUN_VALUE_BYTE_STRING
  else if type =? STUN_ATTR_BANDWIDTH then STUN_VALUE_UINT32
  else if type =? STUN_ATTR_DESTINATION_ADDRESS then STUN_VALUE_ADDRESS
  else if type =? STUN_ATTR_SOURCE_ADDRESS2 then STUN_VALUE_ADDRESS
  else if type =? STUN_ATTR_DATA then STUN_VALUE_BYTE_STRING
  else if type =? STUN_ATTR_OPTIONS then STUN_VALUE_UINT32
  else stun_value_type type.

Definition turn_value_type (type : Z) : StunAttributeValueType :=
  if type =? STUN_ATTR_CHANNEL_NUMBER then STUN_VALUE_UINT32
  else if type =? STUN_ATTR_TURN_LIFETIME then STUN_VALUE_UINT32
  else if type =? STUN_ATTR_XOR_PEER_ADDRESS then STUN_VALUE_XOR_ADDRESS
  else if type =? STUN_ATTR_DATA then STUN_VALUE_BYTE_STRING
  else if type =? STUN_ATTR_XOR_RELAYED_ADDRESS then STUN_VALUE_XOR_ADDRESS
  else if type =? STUN_ATTR_EVEN_PORT then STUN_VALUE_BYTE_STRING
  else if type =? STUN_ATTR_REQUESTED_TRANSPORT then STUN_VALUE_UINT32
  else if type =? STUN_ATTR_DONT_FRAGMENT then STUN_VALUE_BYTE_STRING
  else if type =? STUN_ATTR_RESERVATION_TOKEN then STUN_VALUE_BYTE_STRING
  else stun_value_type type.

Definition ice_value_type (type : Z) : StunAttributeValueType :=
  if type =? STUN_ATTR_PRIORITY then STUN_VALUE_UINT32
  else if type =? STUN_ATTR_USE_CANDIDATE then STUN_VALUE_BYTE_STRING
  else if type =? STUN_ATTR_ICE_CONTROLLED then STUN_VALUE_UINT64
  else if type =? STUN_ATTR_ICE_CONTROLLING then STUN_VALUE_UINT64
  else stun_value_type type.

(** The virtual method. *)
Definition GetAttributeValueType (c : message_class) (type : Z) : StunAttributeValueType :=
  match c with
  | StunMessageClass => stun_value_type type
  | RelayMessage => relay_value_type type
  | TurnMessage => turn_value_type type
  | IceMessage => ice_value_type type
  end.

(** ** Attributes *)

Definition SetLength (length : Z) (a : StunAttribute) : StunAttribute :=
  mkattr (attr_type a) (u16 length) (value_ a).
Definition set_value (v : attr_value) (a : StunAttribute) : StunAttribute :=
  mkattr (attr_type a) (attr_length a) v.

Definition SIZE_UNDEF : Z := 0.
Definition SIZE_IP4 : Z := 8.
Definition SIZE_IP6 : Z := 20.
Definition UINT32_SIZE : Z := 4.
Definition UINT64_SIZE : Z := 8.
Definition MIN_SIZE : Z := 4.

Inductive StunAddressFamily := STUN_ADDRESS_UNDEF | STUN_ADDRESS_IPV4 | STUN_ADDRESS_IPV6.
Definition family_code (f : StunAddressFamily) : Z :=
  match f with STUN_ADDRESS_UNDEF => 0 | STUN_ADDRESS_IPV4 => 1 | STUN_ADDRESS_IPV6 => 2 end.
Definition family (addr : SocketAddress) : StunAddressFamily :=
  match IpAddress.family_ (IpAddress.ip_ addr) with
  | IpAddress.AF_INET => STUN_ADDRESS_IPV4
  | IpAddress.AF_INET6 => STUN_ADDRESS_IPV6
  | IpAddress.AF_UNSPEC => STUN_ADDRESS_UNDEF
  end.

Definition EnsureAddressLength (addr : SocketAddress) : Z :=
  match family addr with
  | STUN_ADDRESS_IPV4 => SIZE_IP4
  | STUN_ADDRESS_IPV6 => SIZE_IP6
  | STUN_ADDRESS_UNDEF => SIZE_UNDEF
  end.

(** The address of the two address classes, and its assignment. *)
Definition GetSocketAddress (a : StunAttribute) : SocketAddress :=
  match value_ a with
  | StunAddressAttribute addr | StunXorAddressAttribute addr _ => addr
  | _ => IpAddress.sa_clear
  end.
Definition SetAddress (addr : SocketAddress) (a : StunAttribute) : StunAttribute :=
  match value_ a with
  | StunXorAddressAttribute _ owner =>
      SetLength (EnsureAddressLength addr) (set_value (StunXorAddressAttribute addr owner) a)
  | _ => SetLength (EnsureAddressLength addr) (set_value (StunAddressAttribute addr) a)
  end.
Definition SetIP (ip : IPAddress) (a : StunAttribute) : StunAttribute :=
  SetAddress (IpAddress.SetIP ip (GetSocketAddress a)) a.
Definition SetPort (port : Z) (a : StunAttribute) : StunAttribute :=
  match value_ a with
  | StunXorAddressAttribute addr owner =>
      set_value (StunXorAddressAttribute (IpAddress.SetPort port addr) owner) a
  | _ => set_value (StunAddressAttribute (IpAddress.SetPort port (GetSocketAddress a))) a
  end.

(** Constructors. *)
Definition new_address (type : Z) (addr : SocketAddress) : StunAttribute :=
  SetAddress addr (mkattr type 0 (StunAddressAttribute IpAddress.sa_clear)).
Definition new_xor_address (type : Z) (addr : SocketAddress) : StunAttribute :=
  SetAddress addr (mkattr type 0 (StunXorAddressAttribute IpAddress.sa_clear false)).
Definition new_uint32 (type value : Z) : StunAttribute :=
  mkattr type UINT32_SIZE (StunUInt32Attribute value).
Definition new_uint64 (type value : Z) : StunAttribute :=
  mkattr type UINT64_SIZE (StunUInt64Attribute value).

Definition SetBytes (bytes : bytes) (a : StunAttribute) : StunAttribute :=
  SetLength (Z.of_nat (length bytes)) (set_value (StunByteStringAttribute bytes) a).
Definition CopyBytes (bytes : bytes) (a : StunAttribute) : StunAttribute := SetBytes bytes a.
Definition new_byte_string (type : Z) (str : bytes) : StunAttribute :=
  CopyBytes str (mkattr type 0 (StunByteStringAttribute [])).

Definition SetCode (code : Z) (a : StunAttribute) : StunAttribute :=
  match value_ a with
  | StunErrorCodeAttribute _ _ reason =>
      set_value (StunErrorCodeAttribute (u8 (code ÷ 100)) (u8 (Z.rem code 100)) reason) a
  | _ => a
  end.
Definition code (a : StunAttribute) : Z :=
  match value_ a with
  | StunErrorCodeAttribute class number _ => class * 100 + number
  | _ => 0
  end.
Definition SetReason (reason : bytes) (a : StunAttribute) : StunAttribute :=
  match value_ a with
  | StunErrorCodeAttribute class number _ =>
      SetLength (MIN_SIZE + u16 (Z.of_nat (length reason)))
        (set_value (StunErrorCodeAttribute class number reason) a)
  | _ => a
  end.
Definition new_error_code (type code : Z) (reason : bytes) : StunAttribute :=
  SetReason reason (SetCode code (mkattr type 0 (StunErrorCodeAttribute 0 0 []))).

Definition AddType (value : Z) (a : StunAttribute) : StunAttribute :=
  match value_ a with
  | StunUInt16ListAttribute types =>
      SetLength (u16 (Z.of_nat (length (types ++ [value])) * 2))
        (set_value (StunUInt16ListAttribute (types ++ [value])) a)
  | _ => a
  end.

Definition GetBit (bits index : Z) : bool := negb (Z.land (Z.shiftr bits index) 1 =? 0).
Definition SetBit (index : Z) (value : bool) (bits : Z) : Z :=
  let bits := u32 (Z.land bits (Z.lnot (Z.shiftl 1 index))) in
  Z.lor bits (if value then Z.shiftl 1 index else 0).

(** The single-element accessors (their index is asserted to be in range; the
    list update is without effect otherwise). *)
Definition GetByte (index : nat) (a : StunAttribute) : Z :=
  match value_ a with StunByteStringAttribute bytes => nth index bytes 0 | _ => 0 end.
Definition SetByte (index : nat) (value : Z) (a : StunAttribute) : StunAttribute :=
  match value_ a with
  | StunByteStringAttribute bytes => set_value (StunByteStringAttribute (<[index := value]> bytes)) a
  | _ => a
  end.
Definition SetClass (eclass : Z) (a : StunAttribute) : StunAttribute :=
  match value_ a with
  | StunErrorCodeAttribute _ number reason => set_value (StunErrorCodeAttribute eclass number reason) a
  | _ => a
  end.
Definition SetNumber (number : Z) (a : StunAttribute) : StunAttribute :=
  match value_ a with
  | StunErrorCodeAttribute class _ reason => set_value (StunErrorCodeAttribute class number reason) a
  | _ => a
  end.
Definition SetListType (index : nat) (value : Z) (a : StunAttribute) : StunAttribute :=
  match value_ a with
  | StunUInt16ListAttribute types => set_value (StunUInt16ListAttribute (<[index := value]> types)) a
  | _ => a
  end.

Definition CreateAddress (type : Z) : StunAttribute :=
  mkattr type 0 (StunAddressAttribute IpAddress.sa_clear).
Definition CreateXorAddress (type : Z) : StunAttribute :=
  mkattr type 0 (StunXorAddressAttribute IpAddress.sa_clear false).
Definition CreateUInt64 (type : Z) : StunAttribute := new_uint64 type 0.
Definition CreateUInt32 (type : Z) : StunAttribute := new_uint32 type 0.
Definition CreateByteString (type : Z) : StunAttribute := mkattr type 0 (StunByteStringAttribute []).
Definition CreateErrorCode : StunAttribute :=
  mkattr STUN_ATTR_ERROR_CODE MIN_SIZE (StunErrorCodeAttribute 0 0 []).
Definition CreateUnknownAttributes : StunAttribute :=
  mkattr STUN_ATTR_UNKNOWN_ATTRIBUTES 0 (StunUInt16ListAttribute []).

Definition Create (vt : StunAttributeValueType) (type length : Z) (owner : bool)
  : option StunAttribute :=
  match vt with
  | STUN_VALUE_ADDRESS => Some (mkattr type length (StunAddressAttribute IpAddress.sa_clear))
  | STUN_VALUE_XOR_ADDRESS =>
      Some (mkattr type length (StunXorAddressAttribute IpAddress.sa_clear owner))
  | STUN_VALUE_UINT32 => Some (new_uint32 type 0)
  | STUN_VALUE_UINT64 => Some (new_uint64 type 0)
  | STUN_VALUE_BYTE_STRING => Some (mkattr type length (StunByteStringAttribute []))
  | STUN_VALUE_ERROR_CODE => Some (mkattr type length (StunErrorCodeAttribute 0 0 []))
  | STUN_VALUE_UINT16_LIST => Some (mkattr type length (StunUInt16ListAttribute []))
  | STUN_VALUE_UNKNOWN => None
  end.

Section Host.
Context `{Machine}.

Definition ConsumePadding (a : StunAttribute) (buf : buffer) : buffer :=
  let remainder := attr_length a mod 4 in
  if 0 <? remainder then default buf (ByteBuffer.Consume buf (Z.to_nat (4 - remainder))) else buf.
Definition WritePadding (a : StunAttribute) (buf : buffer) : buffer :=
  let remainder := attr_length a mod 4 in
  if 0 <? remainder then ByteBuffer.WriteBytes buf (repeat 0 (Z.to_nat (4 - remainder))) else buf.

(** *** Addresses *)

(** [StunAddressAttribute::Read], of both address classes. *)
Definition Address_Read (a : StunAttribute) (buf : buffer) : bool * StunAttribute * buffer :=
  match ByteBuffer.ReadUInt8 buf with
  | None => (false, a, buf)
  | Some (_, buf) =>
  match ByteBuffer.ReadUInt8 buf with
  | None => (false, a, buf)
  | Some (stun_family, buf) =>
  match ByteBuffer.ReadUInt16 buf with
  | None => (false, a, buf)
  | Some (port, buf) =>
      if stun_family =? family_code STUN_ADDRESS_IPV4 then
        if negb (attr_length a =? SIZE_IP4) then (false, a, buf)
        else match ByteBuffer.ReadBytes buf 4 with
        | None => (false, a, buf)
        | Some (v4addr, buf) =>
            (true, SetAddress (IpAddress.sa_of_ip (IpAddress.ip_of_v4 v4addr) port) a, buf)
        end
      else if stun_family =? family_code STUN_ADDRESS_IPV6 then
        if negb (attr_length a =? SIZE_IP6) then (false, a, buf)
        else match ByteBuffer.ReadBytes buf 16 with
        | None => (false, a, buf)
        | Some (v6addr, buf) =>
            (true, SetAddress (IpAddress.sa_of_ip (IpAddress.ip_of_v6 v6addr) port) a, buf)
        end
      else (false, a, buf)
  end end end.

(** The bytes of the address of the IP's family. *)
Definition ip_write (ip : IPAddress) (buf : buffer) : buffer :=
  match IpAddress.family_ ip with
  | IpAddress.AF_INET => ByteBuffer.WriteBytes buf (IpAddress.ipv4_address ip)
  | IpAddress.AF_INET6 => ByteBuffer.WriteBytes buf (IpAddress.ipv6_address ip)
  | IpAddress.AF_UNSPEC => buf
  end.

Definition Address_Write (addr : SocketAddress) (buf : buffer) : bool * buffer :=
  match family addr with
  | STUN_ADDRESS_UNDEF => (false, buf)
  | address_family =>
      let buf := ByteBuffer.WriteUInt8 buf 0 in
      let buf := ByteBuffer.WriteUInt8 buf (family_code address_family) in
      let buf := ByteBuffer.WriteUInt16 buf (IpAddress.port_ addr) in
      (true, ip_write (IpAddress.ip_ addr) buf)
  end.

(** [p[i] ^= v] on the words of an object in memory. *)
Definition xor_word (p : bytes) (i : nat) (v : Z) : bytes :=
  mem_write p (4 * i) (host_bytes 4 (Z.lxor (IpAddress.as_int p i) v)).

Definition GetXoredIP (owner_ : bool) (transaction_id : bytes) (ip : IPAddress) : IPAddress :=
  if owner_ then
    match IpAddress.family_ ip with
    | IpAddress.AF_INET =>
        let v4addr := IpAddress.ipv4_address ip in
        let s_addr := Z.lxor (host_val v4addr) (HostToNetwork32 kStunMagicCookie) in
        IpAddress.ip_of_v4 (host_bytes 4 s_addr)
    | IpAddress.AF_INET6 =>
        let v6addr := IpAddress.ipv6_address ip in
        if (length transaction_id =? kStunTransactionIdLength)%nat then
          let transactionid_as_ints := IpAddress.as_int transaction_id in
          let v6addr := xor_word v6addr 0 (HostToNetwork32 kStunMagicCookie) in
          let v6addr := xor_word v6addr 1 (transactionid_as_ints 0%nat) in
          let v6addr := xor_word v6addr 2 (transactionid_as_ints 1%nat) in
          let v6addr := xor_word v6addr 3 (transactionid_as_ints 2%nat) in
          IpAddress.ip_of_v6 v6addr
        else IpAddress.ip_nil
    | IpAddress.AF_UNSPEC => IpAddress.ip_nil
    end
  else IpAddress.ip_nil.

Definition xored_port (port : Z) : Z := u16 (Z.lxor port (Z.shiftr kStunMagicCookie 16)).

Definition XorAddress_Read (owner_ : bool) (transaction_id : bytes) (a : StunAttribute)
    (buf : buffer) : bool * StunAttribute * buffer :=
  let '(ok, a, buf) := Address_Read a buf in
  if negb ok then (false, a, buf)
  else
    let addr := GetSocketAddress a in
    let xoredport := xored_port (IpAddress.port_ addr) in
    let xored_ip := GetXoredIP owner_ transaction_id (IpAddress.ip_ addr) in
    (true, SetAddress (IpAddress.sa_of_ip xored_ip xoredport) a, buf).

Definition XorAddress_Write (owner_ : bool) (transaction_id : bytes) (addr : SocketAddress)
    (buf : buffer) : bool * buffer :=
  match family addr with
  | STUN_ADDRESS_UNDEF => (false, buf)
  | address_family =>
      let xored_ip := GetXoredIP owner_ transaction_id (IpAddress.ip_ addr) in
      if bool_decide (IpAddress.family_ xored_ip = IpAddress.AF_UNSPEC) then (false, buf)
      else
        let buf := ByteBuffer.WriteUInt8 buf 0 in
        let buf := ByteBuffer.WriteUInt8 buf (family_code address_family) in
        let buf := ByteBuffer.WriteUInt16 buf (xored_port (IpAddress.port_ addr)) in
        (true, ip_write xored_ip buf)
  end.

(** *** The other classes *)

Definition ErrorCode_Read (a : StunAttribute) (buf : buffer) : bool * StunAttribute * buffer :=
  if attr_length a <? MIN_SIZE then (false, a, buf)
  else match ByteBuffer.ReadUInt32 buf with
  | None => (false, a, buf)
  | Some (val, buf) =>
      let class := Z.land (Z.shiftr val 8) 0x7 in
      let number := Z.land val 0xff in
      let reason := match value_ a with StunErrorCodeAttribute _ _ reason => reason | _ => [] end in
      match ByteBuffer.ReadString buf reason (Z.to_nat (attr_length a - 4)) with
      | None => (false, set_value (StunErrorCodeAttribute class number reason) a, buf)
      | Some (reason, buf) =>
          (true, set_value (StunErrorCodeAttribute class number reason) a, ConsumePadding a buf)
      end
  end.

Fixpoint read_types (n : nat) (types : list Z) (buf : buffer) : bool * list Z * buffer :=
  match n with
  | O => (true, types, buf)
  | S n' =>
      match ByteBuffer.ReadUInt16 buf with
      | None => (false, types, buf)
      | Some (attr, buf) => read_types n' (types ++ [attr]) buf
      end
  end.

Definition UInt16List_Read (a : StunAttribute) (buf : buffer) : bool * StunAttribute * buffer :=
  if negb (attr_length a mod 2 =? 0) then (false, a, buf)
  else
    let types := match value_ a with StunUInt16ListAttribute types => types | _ => [] end in
    let '(ok, types, buf) := read_types (Z.to_nat (attr_length a / 2)) types buf in
    let a := set_value (StunUInt16ListAttribute types) a in
    if negb ok then (false, a, buf) else (true, a, ConsumePadding a buf).

Definition ByteString_Read (a : StunAttribute) (buf : buffer) : bool * StunAttribute * buffer :=
  let n := Z.to_nat (attr_length a) in
  match ByteBuffer.ReadBytes buf n with
  | None => (false, set_value (StunByteStringAttribute (ByteBuffer.new_char 0 n)) a, buf)
  | Some (bytes, buf) => (true, set_value (StunByteStringAttribute bytes) a, ConsumePadding a buf)
  end.

(** The virtual methods; [tid] is the transaction id of the owner. *)
Definition attr_Read (tid : bytes) (a : StunAttribute) (buf : buffer)
  : bool * StunAttribute * buffer :=
  match value_ a with
  | StunAddressAttribute _ => Address_Read a buf
  | StunXorAddressAttribute _ owner => XorAddress_Read owner tid a buf
  | StunUInt32Attribute _ =>
      if negb (attr_length a =? UINT32_SIZE) then (false, a, buf)
      else match ByteBuffer.ReadUInt32 buf with
      | None => (false, a, buf)
      | Some (bits, buf) => (true, set_value (StunUInt32Attribute bits) a, buf)
      end
  | StunUInt64Attribute _ =>
      if negb (attr_length a =? UINT64_SIZE) then (false, a, buf)
      else match ByteBuffer.ReadUInt64 buf with
      | None => (false, a, buf)
      | Some (bits, buf) => (true, set_value (StunUInt64Attribute bits) a, buf)
      end
  | StunByteStringAttribute _ => ByteString_Read a buf
  | StunErrorCodeAttribute _ _ _ => ErrorCode_Read a buf
  | StunUInt16ListAttribute _ => UInt16List_Read a buf
  end.

Definition attr_Write (tid : bytes) (a : StunAttribute) (buf : buffer) : bool * buffer :=
  match value_ a with
  | StunAddressAttribute addr => Address_Write addr buf
  | StunXorAddressAttribute addr owner => XorAddress_Write owner tid addr buf
  | StunUInt32Attribute bits => (true, ByteBuffer.WriteUInt32 buf bits)
  | StunUInt64Attribute bits => (true, ByteBuffer.WriteUInt64 buf bits)
  | StunByteStringAttribute bytes =>
      (true, WritePadding a (ByteBuffer.WriteBytes buf (take (Z.to_nat (attr_length a)) bytes)))
  | StunErrorCodeAttribute class number reason =>
      let buf := ByteBuffer.WriteUInt32 buf (Z.lor (Z.shiftl class 8) number) in
      (true, WritePadding a (ByteBuffer.WriteString buf reason))
  | StunUInt16ListAttribute types =>
      (true, WritePadding a (fold_left ByteBuffer.WriteUInt16 types buf))
  end.

(** ** Messages *)

Definition new_message : StunMessage := mkmsg 0 0 EMPTY_TRANSACTION_ID [].

Definition set_type (t : Z) (m : StunMessage) : StunMessage :=
  mkmsg t (length_ m) (transaction_id_ m) (attrs_ m).
Definition set_length (n : Z) (m : StunMessage) : StunMessage :=
  mkmsg (type_ m) n (transaction_id_ m) (attrs_ m).
Definition set_transaction_id (s : bytes) (m : StunMessage) : StunMessage :=
  mkmsg (type_ m) (length_ m) s (attrs_ m).
Definition set_attrs (l : list StunAttribute) (m : StunMessage) : StunMessage :=
  mkmsg (type_ m) (length_ m) (transaction_id_ m) l.

Definition SetType (type : Z) (m : StunMessage) : StunMessage := set_type (u16 type) m.

Definition IsValidTransactionId (transaction_id : bytes) : bool :=
  (length transaction_id =? kStunTransactionIdLength)%nat ||
  (length transaction_id =? kStunLegacyTransactionIdLength)%nat.

Definition SetTransactionID (str : bytes) (m : StunMessage) : bool * StunMessage :=
  if negb (IsValidTransactionId str) then (false, m) else (true, set_transaction_id str m).

Definition IsLegacy (m : StunMessage) : bool :=
  (length (transaction_id_ m) =? kStunLegacyTransactionIdLength)%nat.

Definition SetOwner (a : StunAttribute) : StunAttribute :=
  match value_ a with
  | StunXorAddressAttribute addr _ => set_value (StunXorAddressAttribute addr true) a
  | _ => a
  end.

Definition AddAttribute (c : message_class) (attr : StunAttribute) (m : StunMessage)
  : bool * StunMessage :=
  if negb (bool_decide (value_type attr = GetAttributeValueType c (attr_type attr))) then (false, m)
  else
    let m := set_attrs (attrs_ m ++ [SetOwner attr]) m in
    let length := attr_length attr in
    let length := if negb (length mod 4 =? 0) then length + (4 - length mod 4) else length in
    (true, set_length (u16 (length_ m + u16 (length + Z.of_nat kStunAttributeHeaderSize))) m).

Definition GetAttribute (type : Z) (m : StunMessage) : option StunAttribute :=
  find (fun a => attr_type a =? type) (attrs_ m).
Definition GetAddress (type : Z) (m : StunMessage) : option StunAttribute :=
  if type =? STUN_ATTR_MAPPED_ADDRESS then
    match GetAttribute STUN_ATTR_MAPPED_ADDRESS m with
    | None => GetAttribute STUN_ATTR_XOR_MAPPED_ADDRESS m
    | mapped_address => mapped_address
    end
  else GetAttribute type m.
Definition GetUInt32 (type : Z) (m : StunMessage) : option StunAttribute := GetAttribute type m.
Definition GetUInt64 (type : Z) (m : StunMessage) : option StunAttribute := GetAttribute type m.
Definition GetByteString (type : Z) (m : StunMessage) : option StunAttribute := GetAttribute type m.
Definition GetErrorCode (m : StunMessage) : option StunAttribute :=
  GetAttribute STUN_ATTR_ERROR_CODE m.
Definition GetUnknownAttributes (m : StunMessage) : option StunAttribute :=
  GetAttribute STUN_ATTR_UNKNOWN_ATTRIBUTES m.

Definition CreateAttribute (c : message_class) (type length : Z) : option StunAttribute :=
  Create (GetAttributeValueType c type) type (u16 length) true.

Fixpoint write_attrs (tid : bytes) (attrs : list StunAttribute) (buf : buffer) : bool * buffer :=
  match attrs with
  | [] => (true, buf)
  | a :: attrs =>
      let buf := ByteBuffer.WriteUInt16 buf (attr_type a) in
      let buf := ByteBuffer.WriteUInt16 buf (u16 (attr_length a)) in
      let '(ok, buf) := attr_Write tid a buf in
      if negb ok then (false, buf) else write_attrs tid attrs buf
  end.

Definition Write (m : StunMessage) (buf : buffer) : bool * buffer :=
  let buf := ByteBuffer.WriteUInt16 buf (type_ m) in
  let buf := ByteBuffer.WriteUInt16 buf (length_ m) in
  let buf := if negb (IsLegacy m) then ByteBuffer.WriteUInt32 buf kStunMagicCookie else buf in
  let buf := ByteBuffer.WriteString buf (transaction_id_ m) in
  write_attrs (transaction_id_ m) (attrs_ m) buf.

(** The loop of [Read], while more than [rest] bytes are left.  Every
    iteration consumes at least the four header bytes; without fuel the loop
    is cut short ([read_attrs_fuel] shows that this never happens). *)
Fixpoint read_attrs (c : message_class) (fuel rest : nat) (m : StunMessage) (buf : buffer)
  : bool * StunMessage * buffer :=
  match fuel with
  | O => (false, m, buf)
  | S fuel =>
      if (rest <? ByteBuffer.Length buf)%nat then
        match ByteBuffer.ReadUInt16 buf with
        | None => (false, m, buf)
        | Some (type, buf) =>
        match ByteBuffer.ReadUInt16 buf with
        | None => (false, m, buf)
        | Some (length, buf) =>
            match CreateAttribute c type length with
            | None =>
                let length :=
                  if negb (length mod 4 =? 0) then u16 (length + (4 - length mod 4)) else length in
                match ByteBuffer.Consume buf (Z.to_nat length) with
                | None => (false, m, buf)
                | Some buf => read_attrs c fuel rest m buf
                end
            | Some attr =>
                let '(ok, attr, buf) := attr_Read (transaction_id_ m) attr buf in
                if negb ok then (false, m, buf)
                else read_attrs c fuel rest (set_attrs (attrs_ m ++ [attr]) m) buf
            end
        end end
      else (true, m, buf)
  end.

Definition Read (c : message_class) (m : StunMessage) (buf : buffer)
  : bool * StunMessage * buffer :=
  match ByteBuffer.ReadUInt16 buf with
  | None => (false, m, buf)
  | Some (t, buf) =>
  let m := set_type t m in
  if negb (Z.land (type_ m) 0x8000 =? 0) then (false, m, buf)
  else match ByteBuffer.ReadUInt16 buf with
  | None => (false, m, buf)
  | Some (n, buf) =>
  let m := set_length n m in
  match ByteBuffer.ReadString buf [] kStunMagicCookieLength with
  | None => (false, m, buf)
  | Some (magic_cookie, buf) =>
  match ByteBuffer.ReadString buf [] kStunTransactionIdLength with
  | None => (false, m, buf)
  | Some (transaction_id, buf) =>
  let magic_cookie_int := host_val magic_cookie in
  let transaction_id :=
    if negb (NetworkToHost32 magic_cookie_int =? kStunMagicCookie)
    then magic_cookie ++ transaction_id else transaction_id in
  let m := set_transaction_id transaction_id m in
  if negb (length_ m =? Z.of_nat (ByteBuffer.Length buf)) then (false, m, buf)
  else
    let m := set_attrs [] m in
    let rest := (ByteBuffer.Length buf - Z.to_nat (length_ m))%nat in
    read_attrs c (S (ByteBuffer.Length buf)) rest m buf
  end end end end.

(** ** MESSAGE-INTEGRITY and FINGERPRINT *)

(** Change of an attribute already added, through the pointer to it. *)
Definition update_attr (i : nat) (f : StunAttribute -> StunAttribute) (m : StunMessage) : StunMessage :=
  set_attrs (alter f i (attrs_ m)) m.

Definition AddMessageIntegrity (c : message_class) (key : bytes) (m : StunMessage)
  : bool * StunMessage :=
  let msg_integrity_attr :=
    new_byte_string STUN_ATTR_MESSAGE_INTEGRITY (repeat 48 kStunMessageIntegritySize) in
  let i := length (attrs_ m) in
  let '(_, m) := AddAttribute c msg_integrity_attr m in
  let '(ok, buf) := Write m (ByteBuffer.new_empty ByteBuffer.ORDER_NETWORK) in
  if negb ok then (false, m)
  else
    let msg_len_for_hmac :=
      (ByteBuffer.Length buf - kStunAttributeHeaderSize
       - Z.to_nat (attr_length msg_integrity_attr))%nat in
    let hmac := MessageDigest.ComputeHmac_alg MessageDigest.DIGEST_SHA_1 key
                  (take msg_len_for_hmac (ByteBuffer.Data buf)) kStunMessageIntegritySize in
    if negb (length hmac =? kStunMessageIntegritySize)%nat then (false, m)
    else (true, update_attr i (CopyBytes hmac) m).

Definition AddFingerprint (c : message_class) (m : StunMessage) : bool * StunMessage :=
  let fingerprint_attr := new_uint32 STUN_ATTR_FINGERPRINT 0 in
  let i := length (attrs_ m) in
  let '(_, m) := AddAttribute c fingerprint_attr m in
  let '(ok, buf) := Write m (ByteBuffer.new_empty ByteBuffer.ORDER_NETWORK) in
  if negb ok then (false, m)
  else
    let msg_len_for_crc32 :=
      (ByteBuffer.Length buf - kStunAttributeHeaderSize
       - Z.to_nat (attr_length fingerprint_attr))%nat in
    let c := Crc32.ComputeCrc32 (take msg_len_for_crc32 (ByteBuffer.Data buf)) in
    (true, update_attr i (set_value (StunUInt32Attribute (Z.lxor c STUN_FINGERPRINT_XOR_VALUE))) m).

(** Big-endian reads of the packet, inside it. *)
Definition BE16_at (data : bytes) (pos : nat) : option Z :=
  require! (pos + 2 <=? length data)%nat in Some (GetBE16 (mem_read data pos 2)).

(** [memcmp] of [n] bytes at [pos]. *)
Definition memcmp_at (data : bytes) (pos n : nat) (s : bytes) : option bool :=
  require! (pos + n <=? length data)%nat in Some (bool_decide (mem_read data pos n = s)).

(** The search for the attribute: its position, or the boolean the function
    returns at once. *)
Fixpoint find_integrity (fuel : nat) (data : bytes) (current_pos : nat) : option (nat + bool) :=
  match fuel with
  | O => Some (inr false)
  | S fuel =>
      if (current_pos <? length data)%nat then
        let? type := BE16_at data current_pos in
        let? alen := BE16_at data (current_pos + 2) in
        if type =? STUN_ATTR_MESSAGE_INTEGRITY then
          if negb (alen =? Z.of_nat kStunMessageIntegritySize)
             || (length data <? current_pos + Z.to_nat alen)%nat
          then Some (inr false)
          else Some (inl current_pos)
        else
          let current_pos := (current_pos + 4 + Z.to_nat alen)%nat in
          let current_pos :=
            if negb (alen mod 4 =? 0) then (current_pos + Z.to_nat (4 - alen mod 4))%nat
            else current_pos in
          find_integrity fuel data current_pos
      else Some (inr false)
  end.

Definition ValidateMessageIntegrity (data : bytes) (password : bytes) : option bool :=
  let size := length data in
  if negb (size mod 4 =? 0)%nat then Some false
  else
    let? msg_length := BE16_at data 2 in
    if negb (size =? Z.to_nat msg_length + kStunHeaderSize)%nat then Some false
    else
      let? r := find_integrity size data kStunHeaderSize in
      match r with
      | inr b => Some b
      | inl mi_pos =>
          let temp_data := take mi_pos data in
          let temp_data :=
            if (mi_pos + kStunAttributeHeaderSize + kStunMessageIntegritySize <? size)%nat then
              let extra_offset :=
                (size - (mi_pos + kStunAttributeHeaderSize + kStunMessageIntegritySize))%nat in
              let new_adjusted_len := (size - extra_offset - kStunHeaderSize)%nat in
              mem_write temp_data 2 (SetBE16 (u16 (Z.of_nat new_adjusted_len)))
            else temp_data in
          let hmac := MessageDigest.ComputeHmac_alg MessageDigest.DIGEST_SHA_1 password temp_data
                        kStunMessageIntegritySize in
          if negb (length hmac =? kStunMessageIntegritySize)%nat then Some false
          else memcmp_at data (mi_pos + kStunAttributeHeaderSize) kStunMessageIntegritySize hmac
      end.

Definition ValidateFingerprint (data : bytes) : bool :=
  let size := length data in
  let fingerprint_attr_size := (kStunAttributeHeaderSize + Z.to_nat UINT32_SIZE)%nat in
  if negb (size mod 4 =? 0)%nat || (size <? kStunHeaderSize + fingerprint_attr_size)%nat then false
  else if negb (GetBE32 (mem_read data (kStunTransactionIdOffset - kStunMagicCookieLength) 4)
                =? kStunMagicCookie) then false
  else
    let pos := (size - fingerprint_attr_size)%nat in
    if negb (GetBE16 (mem_read data pos 2) =? STUN_ATTR_FINGERPRINT)
       || negb (GetBE16 (mem_read data (pos + 2) 2) =? UINT32_SIZE) then false
    else
      let fingerprint := GetBE32 (mem_read data (pos + kStunAttributeHeaderSize) 4) in
      Z.lxor fingerprint STUN_FINGERPRINT_XOR_VALUE =? Crc32.ComputeCrc32 (take pos data).

(** ** Message types *)

Definition IsStunRequestType (msg_type : Z) : bool := Z.land msg_type kStunTypeMask =? 0x000.
Definition IsStunIndicationType (msg_type : Z) : bool := Z.land msg_type kStunTypeMask =? 0x010.
Definition IsStunSuccessResponseType (msg_type : Z) : bool := Z.land msg_type kStunTypeMask =? 0x100.
Definition IsStunErrorResponseType (msg_type : Z) : bool := Z.land msg_type kStunTypeMask =? 0x110.
Definition GetStunSuccessResponseType (req_type : Z) : Z :=
  if IsStunRequestType req_type then Z.lor req_type 0x100 else -1.
Definition GetStunErrorResponseType (req_type : Z) : Z :=
  if IsStunRequestType req_type then Z.lor req_type 0x110 else -1.

Definition ComputeStunCredentialHash (username realm password : bytes) : option bytes :=
  let input := username ++ [58] ++ realm ++ [58] ++ password in
  let digest := MessageDigest.ComputeDigest_alg MessageDigest.DIGEST_MD5 input 64 in
  if (length digest =? 0)%nat then None else Some digest.

End Host.
End Stun.
