(* ===== verification/StunWire.v ===== *)
(** * The wire format of STUN messages

    [enc_msg] is the abstract encoding of a message (RFC 5389 TLVs with the
    padding and the XOR addresses); the writers of Stun.v append it, the
    readers invert it, and the integrity and fingerprint checks accept what
    the corresponding operations add. *)

From S2P Require Import Prelude ByteOrder ByteBuffer Crc32 Md5 Sha1 MessageDigest IpAddress Stun.
Import ByteOrder IpAddress Stun.
Open Scope jingle_scope.

Module StunWire.

(** ** Exclusive or of byte strings *)

Lemma mod_lxor_256 a b : (Z.lxor a b) mod 256 = Z.lxor (a mod 256) (b mod 256).
Proof.
  change 256 with (2 ^ 8). rewrite <- !Z.land_ones by lia. bits_eq n Hn.
  by destruct (Z.testbit a n), (Z.testbit b n), (Z.testbit (Z.ones 8) n).
Qed.

Lemma div_lxor_256 a b : (Z.lxor a b) / 256 = Z.lxor (a / 256) (b / 256).
Proof. change 256 with (2 ^ 8). rewrite <- !Z.shiftr_div_pow2 by lia. apply Z.shiftr_lxor. Qed.

Lemma le_bytes_lxor n a b : le_bytes n (Z.lxor a b) = zip_with Z.lxor (le_bytes n a) (le_bytes n b).
Proof.
  revert a b; induction n as [|n IH]; intros a b; [done|]. cbn [le_bytes zip_with].
  by rewrite mod_lxor_256, div_lxor_256, IH.
Qed.

Lemma zip_with_rev (l k : bytes) : length l = length k ->
  rev (zip_with Z.lxor l k) = zip_with Z.lxor (rev l) (rev k).
Proof.
  revert k; induction l as [|x l IH]; intros [|y k] Hl; try done. cbn [rev zip_with].
  injection Hl as Hl. rewrite IH by done. rewrite zip_with_app; [done|]. by rewrite !length_rev.
Qed.

Section Host.
Context `{Machine}.

Lemma host_bytes_lxor n x y : bytes_ok x -> bytes_ok y -> length x = n -> length y = n ->
  host_bytes n (Z.lxor (host_val x) (host_val y)) = zip_with Z.lxor x y.
Proof.
  intros Hx Hy Lx Ly. unfold host_bytes, host_val. destruct IsHostBigEndian.
  - unfold be_bytes, be_val. rewrite le_bytes_lxor.
    rewrite zip_with_rev by (by rewrite !length_le_bytes).
    fold (be_bytes n (le_val (rev x))) (be_bytes n (le_val (rev y))).
    fold (be_val x) (be_val y). rewrite <- Lx at 1. rewrite <- Ly. by rewrite !be_bytes_be_val.
  - rewrite le_bytes_lxor. rewrite <- Lx at 1. rewrite <- Ly. by rewrite !le_bytes_le_val.
Qed.

Definition xor_bytes (l k : bytes) : bytes := zip_with Z.lxor l k.

Lemma xor_bytes_ok l k : bytes_ok l -> bytes_ok k -> bytes_ok (xor_bytes l k).
Proof.
  intros Hl. revert k. induction Hl as [|x l Hx Hl IH]; intros k Hk; [by apply List.Forall_nil|].
  destruct Hk as [|y k Hy Hk]; [by apply List.Forall_nil|].
  apply List.Forall_cons; [|by apply IH]. by apply (Crc32.lxor_range 8).
Qed.

Lemma xor_bytes_twice l k : (length l <= length k)%nat -> xor_bytes (xor_bytes l k) k = l.
Proof.
  revert k; induction l as [|x l IH]; intros [|y k] Hl; try done; cbn in Hl; [lia|].
  unfold xor_bytes in *. cbn [zip_with]. rewrite IH by lia. f_equal.
  by rewrite Z.lxor_assoc, Z.lxor_nilpotent, Z.lxor_0_r.
Qed.

Lemma length_xor_bytes l k : (length l <= length k)%nat -> length (xor_bytes l k) = length l.
Proof. intros. unfold xor_bytes. rewrite length_zip_with. lia. Qed.

Lemma xor_bytes_app_r l k t : length l = length k -> xor_bytes l (k ++ t) = xor_bytes l k.
Proof.
  revert k; induction l as [|x l IH]; intros [|y k] Hl; try done.
  unfold xor_bytes in *. cbn [app zip_with]. injection Hl as Hl. by rewrite IH.
Qed.

(** The magic cookie followed by the transaction id. *)
Definition xor_mask (tid : bytes) : bytes := be_bytes 4 kStunMagicCookie ++ tid.

Lemma cookie_host : HostToNetwork32 kStunMagicCookie = host_val (be_bytes 4 kStunMagicCookie).
Proof. unfold HostToNetwork32. by rewrite SetBE32_be. Qed.

Lemma xor_word_at a i m : bytes_ok a -> bytes_ok m -> length m = 4%nat ->
  (4 * i + 4 <= length a)%nat ->
  xor_word a i (host_val m) =
  take (4 * i) a ++ xor_bytes (mem_read a (4 * i) 4) m ++ drop (4 * i + 4) a.
Proof.
  intros Ha Hm Hl Hi. unfold xor_word, as_int.
  rewrite host_bytes_lxor; [|by apply mem_read_ok|done|by apply length_mem_read|done].
  unfold mem_write, xor_bytes. rewrite length_zip_with, length_mem_read by done.
  by rewrite Hl.
Qed.

(** The first [4 * i] bytes exclusive-ored with the mask. *)
Definition xor_prefix (a m : bytes) (i : nat) : bytes :=
  xor_bytes (take (4 * i) a) (take (4 * i) m) ++ drop (4 * i) a.

Lemma xor_prefix_step a m i : bytes_ok a -> bytes_ok m ->
  (4 * i + 4 <= length a)%nat -> (4 * i + 4 <= length m)%nat ->
  xor_word (xor_prefix a m i) i (host_val (mem_read m (4 * i) 4)) = xor_prefix a m (S i).
Proof.
  intros Ha Hm La Lm.
  assert (Lp : length (xor_bytes (take (4 * i) a) (take (4 * i) m)) = (4 * i)%nat)
    by (rewrite length_xor_bytes; rewrite !length_take; lia).
  assert (Hok : bytes_ok (xor_prefix a m i)).
  { apply bytes_ok_app. split; [|by apply Forall_drop]. by apply xor_bytes_ok; apply Forall_take. }
  rewrite xor_word_at; [|done|by apply mem_read_ok|by apply length_mem_read|].
  2: unfold xor_prefix; rewrite length_app, Lp, length_drop; lia.
  unfold xor_prefix, mem_read. rewrite take_app_length' by done. rewrite drop_app_length' by done.
  rewrite drop_app_ge by lia. rewrite Lp, drop_drop.
  replace (4 * S i)%nat with (4 * i + 4)%nat by lia. rewrite app_assoc. f_equal; [|f_equal; lia].
  unfold xor_bytes. rewrite <- zip_with_app by (rewrite !length_take; lia).
  f_equal; apply take_take_drop.
Qed.

(** GetXoredIP on an IPv6 address: all sixteen bytes at once. *)
Lemma xor_words a t : bytes_ok a -> length a = 16%nat -> bytes_ok t -> length t = 12%nat ->
  xor_word (xor_word (xor_word (xor_word a 0 (HostToNetwork32 kStunMagicCookie))
     1 (as_int t 0)) 2 (as_int t 1)) 3 (as_int t 2) = xor_bytes a (xor_mask t).
Proof.
  intros Ha La Ht Lt. set (m := xor_mask t).
  assert (Hm : bytes_ok m) by (apply bytes_ok_app; split; [apply be_bytes_ok|done]).
  assert (Lm : length m = 16%nat) by (unfold m, xor_mask; rewrite length_app, length_be_bytes; lia).
  assert (Hi : forall i, as_int t i = host_val (mem_read m (4 * S i) 4)).
  { intros i. unfold as_int, mem_read, m, xor_mask. f_equal. f_equal.
    rewrite drop_app_ge by (rewrite length_be_bytes; lia). rewrite length_be_bytes. f_equal. lia. }
  assert (H0 : HostToNetwork32 kStunMagicCookie = host_val (mem_read m (4 * 0) 4)).
  { rewrite cookie_host. unfold mem_read, m, xor_mask. rewrite drop_0, take_app_length'; [done|].
    by rewrite length_be_bytes. }
  rewrite H0, !Hi. replace a with (xor_prefix a m 0) at 1 by done.
  rewrite !xor_prefix_step by (done || lia).
  unfold xor_prefix. rewrite !take_ge, drop_ge, app_nil_r by lia. done.
Qed.

(** The bytes of an address, and what GetXoredIP computes on them. *)
Definition ip_bytes (ip : IPAddress) : bytes :=
  match family_ ip with
  | AF_INET => ipv4_address ip
  | AF_INET6 => ipv6_address ip
  | AF_UNSPEC => []
  end.
Definition ip_build (f : IpAddress.family) (b : bytes) : IPAddress :=
  match f with AF_INET => ip_of_v4 b | AF_INET6 => ip_of_v6 b | AF_UNSPEC => ip_nil end.

Lemma GetXoredIP_xor ip tid : ip_ok ip -> bytes_ok tid ->
  family_ ip <> AF_UNSPEC -> (family_ ip = AF_INET6 -> length tid = 12%nat) ->
  GetXoredIP true tid ip = ip_build (family_ ip) (xor_bytes (ip_bytes ip) (xor_mask tid)).
Proof.
  intros Hok Ht Hu Hl. destruct (v4_ok ip Hok) as [L4 O4]. destruct Hok as [L16 O16].
  unfold GetXoredIP, ip_bytes, ip_build. destruct (family_ ip) eqn:Hf; [done| |].
  - rewrite cookie_host, host_bytes_lxor; [|done|apply be_bytes_ok|done|apply length_be_bytes].
    f_equal. symmetry. apply xor_bytes_app_r. by rewrite length_be_bytes.
  - rewrite (proj2 (Nat.eqb_eq _ _)) by (by apply Hl). unfold ipv6_address.
    rewrite xor_words by (done || by apply Hl). done.
Qed.

(** ** The buffer as a queue *)

(** [buf] holds the bytes [q], in network order. *)
Abbreviation rb := (ByteBuffer.repr ByteBuffer.ORDER_NETWORK).

Lemma W8 b q v : rb b q -> rb (ByteBuffer.WriteUInt8 b v) (q ++ be_bytes 1 v).
Proof.
  intros Hb. rewrite ByteBuffer.WriteUInt8_enc. pose proof Hb as (_ & _ & ->).
  by apply ByteBuffer.repr_write; [|apply be_bytes_ok].
Qed.
Lemma W16 b q v : rb b q -> rb (ByteBuffer.WriteUInt16 b v) (q ++ be_bytes 2 v).
Proof.
  intros Hb. rewrite ByteBuffer.WriteUInt16_enc. pose proof Hb as (_ & _ & ->).
  by apply ByteBuffer.repr_write; [|apply be_bytes_ok].
Qed.
Lemma W32 b q v : rb b q -> rb (ByteBuffer.WriteUInt32 b v) (q ++ be_bytes 4 v).
Proof.
  intros Hb. rewrite ByteBuffer.WriteUInt32_enc. pose proof Hb as (_ & _ & ->).
  by apply ByteBuffer.repr_write; [|apply be_bytes_ok].
Qed.
Lemma W64 b q v : rb b q -> rb (ByteBuffer.WriteUInt64 b v) (q ++ be_bytes 8 v).
Proof.
  intros Hb. rewrite ByteBuffer.WriteUInt64_enc. pose proof Hb as (_ & _ & ->).
  by apply ByteBuffer.repr_write; [|apply be_bytes_ok].
Qed.
Lemma WB b q d : rb b q -> bytes_ok d -> rb (ByteBuffer.WriteBytes b d) (q ++ d).
Proof. apply ByteBuffer.repr_write. Qed.

Lemma Renc b q n v : rb b (be_bytes n v ++ q) -> is_u (8 * Z.of_nat n) v ->
  exists b', ByteBuffer.read_enc b n = Some (v, b') /\ rb b' q.
Proof.
  intros (Hb & Hc & Ho) Hv.
  destruct (ByteBuffer.read_enc_spec b n v q) as (b' & ? & ? & ? & Ho'); [done|by rewrite Ho|done|].
  exists b'. split; [done|]. split_and!; [done..|by rewrite Ho'].
Qed.
Lemma R8 b q v : rb b (be_bytes 1 v ++ q) -> is_u 8 v ->
  exists b', ByteBuffer.ReadUInt8 b = Some (v, b') /\ rb b' q.
Proof. intros Hb Hv. rewrite ByteBuffer.ReadUInt8_dec by apply Hb. by apply Renc. Qed.
Lemma R16 b q v : rb b (be_bytes 2 v ++ q) -> is_u 16 v ->
  exists b', ByteBuffer.ReadUInt16 b = Some (v, b') /\ rb b' q.
Proof. intros Hb Hv. rewrite ByteBuffer.ReadUInt16_dec by apply Hb. by apply Renc. Qed.
Lemma R32 b q v : rb b (be_bytes 4 v ++ q) -> is_u 32 v ->
  exists b', ByteBuffer.ReadUInt32 b = Some (v, b') /\ rb b' q.
Proof. intros Hb Hv. rewrite ByteBuffer.ReadUInt32_dec by apply Hb. by apply Renc. Qed.
Lemma R64 b q v : rb b (be_bytes 8 v ++ q) -> is_u 64 v ->
  exists b', ByteBuffer.ReadUInt64 b = Some (v, b') /\ rb b' q.
Proof. intros Hb Hv. rewrite ByteBuffer.ReadUInt64_dec by apply Hb. by apply Renc. Qed.
Lemma RB b q d n : rb b (d ++ q) -> length d = n ->
  exists b', ByteBuffer.ReadBytes b n = Some (d, b') /\ rb b' q.
Proof.
  intros (Hb & Hc & Ho) <-. destruct (ByteBuffer.ReadBytes_app b d q Hb Hc) as (b' & ? & ? & ? & Ho').
  exists b'. split; [done|]. split_and!; [done..|by rewrite Ho'].
Qed.
Lemma RS b q d n : rb b (d ++ q) -> length d = n ->
  exists b', ByteBuffer.ReadString b [] n = Some (d, b') /\ rb b' q.
Proof.
  intros Hb Hn. rewrite ByteBuffer.ReadString_ReadBytes.
  destruct (RB b q d n Hb Hn) as (b' & -> & ?). by exists b'.
Qed.
Lemma RC b q d n : rb b (d ++ q) -> length d = n ->
  exists b', ByteBuffer.Consume b n = Some b' /\ rb b' q.
Proof.
  intros (Hb & Hc & Ho) Hn. pose proof (ByteBuffer.Consume_spec b n Hb) as HC.
  pose proof (ByteBuffer.length_contents b Hb) as HL. rewrite Hc, length_app in HL.
  destruct (ByteBuffer.Consume b n) as [b'|]; [|lia]. destruct HC as (_ & ? & Hc' & Ho').
  exists b'. split; [done|]. split_and!; [done| |by rewrite Ho'].
  by rewrite Hc', Hc, drop_app_length'.
Qed.

(** ** The encoding of an attribute *)

(** The padding after a body of [n] bytes. *)
Definition pad (n : Z) : bytes := repeat 0 (Z.to_nat ((4 - n mod 4) mod 4)).

Definition enc_address (addr : SocketAddress) (port : Z) (b : bytes) : bytes :=
  be_bytes 1 0 ++ be_bytes 1 (family_code (family addr)) ++ be_bytes 2 port ++ b.

(** The body of an attribute of a message with transaction id [tid]. *)
Definition body (tid : bytes) (a : StunAttribute) : bytes :=
  match value_ a with
  | StunAddressAttribute addr => enc_address addr (port_ addr) (ip_bytes (ip_ addr))
  | StunXorAddressAttribute addr _ =>
      enc_address addr (Z.lxor (port_ addr) 0x2112) (xor_bytes (ip_bytes (ip_ addr)) (xor_mask tid))
  | StunUInt32Attribute bits => be_bytes 4 bits
  | StunUInt64Attribute bits => be_bytes 8 bits
  | StunByteStringAttribute s => s ++ pad (attr_length a)
  | StunErrorCodeAttribute class number reason =>
      be_bytes 4 (class * 256 + number) ++ reason ++ pad (attr_length a)
  | StunUInt16ListAttribute types => concat (map (be_bytes 2) types) ++ pad (attr_length a)
  end.
Definition enc_attr (tid : bytes) (a : StunAttribute) : bytes :=
  be_bytes 2 (attr_type a) ++ be_bytes 2 (attr_length a) ++ body tid a.

(** An address with nothing but an IP and a port. *)
Definition addr_ok (addr : SocketAddress) : Prop :=
  is_u 16 (port_ addr) /\
  exists f b, bytes_ok b /\ addr = sa_of_ip (ip_build f b) (port_ addr) /\
    match f with AF_INET => length b = 4%nat | AF_INET6 => length b = 16%nat | AF_UNSPEC => False end.

(** Attributes that the messages can carry without loss. *)
Definition attr_ok (tid : bytes) (a : StunAttribute) : Prop :=
  is_u 16 (attr_type a) /\ is_u 16 (attr_length a) /\
  match value_ a with
  | StunAddressAttribute addr => addr_ok addr /\ attr_length a = EnsureAddressLength addr
  | StunXorAddressAttribute addr owner =>
      addr_ok addr /\ attr_length a = EnsureAddressLength addr /\ owner = true /\
      (family_ (ip_ addr) = AF_INET6 -> length tid = 12%nat)
  | StunUInt32Attribute bits => attr_length a = 4 /\ is_u 32 bits
  | StunUInt64Attribute bits => attr_length a = 8 /\ is_u 64 bits
  | StunByteStringAttribute s => attr_length a = Z.of_nat (length s) /\ bytes_ok s
  | StunErrorCodeAttribute class number reason =>
      0 <= class < 8 /\ is_byte number /\ bytes_ok reason /\
      attr_length a = 4 + Z.of_nat (length reason)
  | StunUInt16ListAttribute types =>
      attr_length a = 2 * Z.of_nat (length types) /\ Forall (is_u 16) types
  end.

Lemma pad_ok n : bytes_ok (pad n).
Proof. apply Md5.zeros_ok. Qed.

Lemma WritePadding_spec a b q : rb b q -> rb (WritePadding a b) (q ++ pad (attr_length a)).
Proof.
  intros Hb. unfold WritePadding, pad.
  destruct (Z.ltb_spec 0 (attr_length a mod 4)) as [Hlt|Hle].
  - replace ((4 - attr_length a mod 4) mod 4) with (4 - attr_length a mod 4) by dlia.
    apply WB; [done|apply Md5.zeros_ok].
  - replace (attr_length a mod 4) with 0 by dlia. change ((4 - 0) mod 4) with 0.
    change (repeat 0 (Z.to_nat 0)) with (@nil Z). by rewrite app_nil_r.
Qed.

Lemma ConsumePadding_spec a b q : rb b (pad (attr_length a) ++ q) -> rb (ConsumePadding a b) q.
Proof.
  intros Hb. unfold ConsumePadding, pad in *.
  destruct (Z.ltb_spec 0 (attr_length a mod 4)) as [Hlt|Hle].
  - replace ((4 - attr_length a mod 4) mod 4) with (4 - attr_length a mod 4) in Hb by dlia.
    destruct (RC _ _ _ _ Hb (repeat_length _ _)) as (b' & -> & ?). done.
  - replace (attr_length a mod 4) with 0 in Hb by dlia. exact Hb.
Qed.

(** *** Addresses *)

Lemma addr_family addr f b :
  addr = sa_of_ip (ip_build f b) (port_ addr) -> f <> AF_UNSPEC -> family_ (ip_ addr) = f.
Proof. intros -> ?. by destruct f. Qed.

Lemma ip_bytes_build f b :
  match f with AF_INET => length b = 4%nat | AF_INET6 => length b = 16%nat | AF_UNSPEC => False end ->
  ip_bytes (ip_build f b) = b.
Proof. destruct f; [done| |done]. intros. by apply ipv4_of_v4. Qed.

Lemma ip_write_spec ip b q : ip_ok ip -> rb b q -> rb (ip_write ip b) (q ++ ip_bytes ip).
Proof.
  intros Hok Hb. unfold ip_write, ip_bytes. destruct (family_ ip).
  - by rewrite app_nil_r.
  - apply WB; [done|]. by apply (v4_ok ip Hok).
  - apply WB; [done|]. apply Hok.
Qed.

Lemma ip_build_ok f b : bytes_ok b ->
  match f with AF_INET => length b = 4%nat | AF_INET6 => length b = 16%nat | AF_UNSPEC => False end ->
  ip_ok (ip_build f b).
Proof.
  intros Hb Hl. destruct f; [done|..]; split; cbn [ip_build ip_of_v4 ip_of_v6 u_].
  - rewrite length_app, Hl. done.
  - apply bytes_ok_app. split; [done|apply (Md5.zeros_ok 12)].
  - done.
  - done.
Qed.

Lemma addr_ok_ip addr : addr_ok addr ->
  ip_ok (ip_ addr) /\ family_ (ip_ addr) <> AF_UNSPEC /\
  ip_build (family_ (ip_ addr)) (ip_bytes (ip_ addr)) = ip_ addr /\
  addr = sa_of_ip (ip_ addr) (port_ addr) /\
  length (ip_bytes (ip_ addr)) = Size (ip_ addr).
Proof.
  intros (Hp & f & b & Hb & Ha & Hl).
  assert (Hi : ip_ addr = ip_build f b) by (by rewrite Ha). rewrite Hi.
  assert (Hf : family_ (ip_build f b) = f) by (by destruct f).
  split_and!.
  - by apply ip_build_ok.
  - rewrite Hf. by destruct f.
  - rewrite Hf. f_equal. by apply ip_bytes_build.
  - done.
  - rewrite ip_bytes_build by done. unfold Size. rewrite Hf. by destruct f.
Qed.

Lemma family_write addr port b q : family_ (ip_ addr) <> AF_UNSPEC -> rb b q ->
  rb (ByteBuffer.WriteUInt16 (ByteBuffer.WriteUInt8 (ByteBuffer.WriteUInt8 b 0)
        (family_code (family addr))) port)
     (q ++ be_bytes 1 0 ++ be_bytes 1 (family_code (family addr)) ++ be_bytes 2 port).
Proof. intros _ Hb. rewrite !app_assoc. by apply W16, W8, W8. Qed.

Lemma Address_Write_spec addr b q : addr_ok addr -> rb b q ->
  exists b', Address_Write addr b = (true, b') /\
    rb b' (q ++ enc_address addr (port_ addr) (ip_bytes (ip_ addr))).
Proof.
  intros Hok Hb. destruct (addr_ok_ip addr Hok) as (Hip & Hf & _).
  pose proof (ip_write_spec (ip_ addr) _ _ Hip (family_write addr (port_ addr) b q Hf Hb)) as Hw.
  unfold Address_Write, enc_address. rewrite <- !app_assoc in Hw.
  unfold family in *. destruct (family_ (ip_ addr)); [done|eauto|eauto].
Qed.

Lemma Address_Read_spec addr0 port a b q :
  is_u 16 port -> family_ (ip_ addr0) <> AF_UNSPEC -> attr_length a = EnsureAddressLength addr0 ->
  forall d, length d = Size (ip_ addr0) -> rb b (enc_address addr0 port d ++ q) ->
  exists b', Address_Read a b =
      (true, SetAddress (sa_of_ip (ip_build (family_ (ip_ addr0)) d) port) a, b') /\ rb b' q.
Proof.
  intros Hp Hf Hl d Hd Hb. unfold enc_address in Hb. rewrite <- !app_assoc in Hb.
  destruct (R8 _ _ _ Hb) as (b1 & E1 & H1); [done|].
  destruct (R8 _ _ _ H1) as (b2 & E2 & H2); [unfold family; by destruct (family_ (ip_ addr0))|].
  destruct (R16 _ _ _ H2) as (b3 & E3 & H3); [done|].
  unfold Address_Read. rewrite E1, E2, E3, Hl. unfold EnsureAddressLength, family in *.
  unfold Size in Hd. destruct (family_ (ip_ addr0)); [done| |].
  all: destruct (RB _ _ _ _ H3 Hd) as (b4 & E4 & H4); exists b4; split; [|done].
  - change (family_code STUN_ADDRESS_IPV4 =? family_code STUN_ADDRESS_IPV4) with true.
    change (SIZE_IP4 =? SIZE_IP4) with true. cbn [negb]. by rewrite E4.
  - change (family_code STUN_ADDRESS_IPV6 =? family_code STUN_ADDRESS_IPV4) with false.
    change (family_code STUN_ADDRESS_IPV6 =? family_code STUN_ADDRESS_IPV6) with true.
    change (SIZE_IP6 =? SIZE_IP6) with true. cbn [negb]. by rewrite E4.
Qed.

Lemma port_mask : Z.shiftr kStunMagicCookie 16 = 0x2112.
Proof. done. Qed.

Lemma xored_port_lxor p : is_u 16 p -> xored_port p = Z.lxor p 0x2112 /\ is_u 16 (Z.lxor p 0x2112).
Proof.
  intros Hp. unfold xored_port. rewrite port_mask.
  assert (is_u 16 (Z.lxor p 0x2112)) by (apply Crc32.lxor_range; [lia|done|by split]).
  split; [by apply wrap_small|done].
Qed.

Lemma family_build f b : family_ (ip_build f b) = f.
Proof. by destruct f. Qed.

Lemma mask_long addr tid : addr_ok addr -> (family_ (ip_ addr) = AF_INET6 -> length tid = 12%nat) ->
  (length (ip_bytes (ip_ addr)) <= length (xor_mask tid))%nat.
Proof.
  intros Hok Ht. destruct (addr_ok_ip addr Hok) as (_ & Hf & _ & _ & ->).
  unfold xor_mask, Size. rewrite length_app, length_be_bytes.
  destruct (family_ (ip_ addr)); [done|lia|]. rewrite Ht by done. lia.
Qed.

Lemma xor_bytes_size addr tid : addr_ok addr -> bytes_ok tid ->
  (family_ (ip_ addr) = AF_INET6 -> length tid = 12%nat) ->
  let d := xor_bytes (ip_bytes (ip_ addr)) (xor_mask tid) in
  length d = Size (ip_ addr) /\ bytes_ok d /\ ip_ok (ip_build (family_ (ip_ addr)) d) /\
  ip_bytes (ip_build (family_ (ip_ addr)) d) = d.
Proof.
  intros Hok Ht Hl d. pose proof (mask_long addr tid Hok Hl) as Hm.
  destruct (addr_ok_ip addr Hok) as (Hip & Hf & _ & _ & Hs).
  assert (Hd : length d = Size (ip_ addr)) by (unfold d; by rewrite length_xor_bytes).
  assert (Hb : bytes_ok d).
  { apply xor_bytes_ok; [|apply bytes_ok_app; split; [apply be_bytes_ok|done]].
    unfold ip_bytes. pose proof (v4_ok _ Hip) as [_ ?]. destruct Hip as [_ ?].
    by destruct (family_ (ip_ addr)). }
  unfold Size in Hd. split_and!; [done|done| |].
  - apply ip_build_ok; [done|]. by destruct (family_ (ip_ addr)).
  - apply ip_bytes_build. by destruct (family_ (ip_ addr)).
Qed.

Lemma XorAddress_Write_spec tid addr b q :
  addr_ok addr -> bytes_ok tid -> (family_ (ip_ addr) = AF_INET6 -> length tid = 12%nat) -> rb b q ->
  exists b', XorAddress_Write true tid addr b = (true, b') /\
    rb b' (q ++ enc_address addr (Z.lxor (port_ addr) 0x2112)
                  (xor_bytes (ip_bytes (ip_ addr)) (xor_mask tid))).
Proof.
  intros Hok Ht Hl Hb. destruct (addr_ok_ip addr Hok) as (Hip & Hf & _).
  destruct (xor_bytes_size addr tid Hok Ht Hl) as (_ & _ & Hxok & Hxb).
  destruct (xored_port_lxor (port_ addr)) as [Hp _]; [apply Hok|].
  pose proof (ip_write_spec _ _ _ Hxok (family_write addr (Z.lxor (port_ addr) 0x2112) b q Hf Hb)) as Hw.
  rewrite Hxb, <- !app_assoc in Hw.
  unfold XorAddress_Write, enc_address. rewrite GetXoredIP_xor, Hp by done.
  rewrite bool_decide_false by (by rewrite family_build).
  unfold family in *. destruct (family_ (ip_ addr)); [done|eauto|eauto].
Qed.

Lemma EnsureAddressLength_u16 addr : u16 (EnsureAddressLength addr) = EnsureAddressLength addr.
Proof. unfold EnsureAddressLength. by destruct (family addr). Qed.

Lemma SetAddress_length a addr : attr_type (SetAddress addr a) = attr_type a /\
  attr_length (SetAddress addr a) = EnsureAddressLength addr.
Proof.
  unfold SetAddress. split; destruct (value_ a); try done;
    cbn [SetLength attr_length]; apply EnsureAddressLength_u16.
Qed.

Lemma SetAddress_eq addr a : attr_length a = EnsureAddressLength addr ->
  (value_ a = StunAddressAttribute addr -> forall v,
     SetAddress addr (mkattr (attr_type a) v (StunAddressAttribute sa_clear)) = a) /\
  (forall x, value_ a = StunXorAddressAttribute addr true -> forall v,
     SetAddress addr (mkattr (attr_type a) v (StunXorAddressAttribute x true)) = a).
Proof.
  intros Hl. destruct a as [t n v]; cbn [attr_length attr_type value_] in *; subst n.
  split; [intros -> ?|intros x -> ?]; unfold SetAddress, SetLength, set_value;
    cbn [attr_length attr_type value_]; by rewrite EnsureAddressLength_u16.
Qed.

Lemma port_sa ip p : is_u 16 p -> port_ (sa_of_ip ip p) = p.
Proof. intros. by apply wrap_small. Qed.

Lemma XorAddress_Read_spec tid addr a b q :
  addr_ok addr -> bytes_ok tid -> (family_ (ip_ addr) = AF_INET6 -> length tid = 12%nat) ->
  attr_length a = EnsureAddressLength addr -> value_ a = StunXorAddressAttribute addr true ->
  rb b (enc_address addr (Z.lxor (port_ addr) 0x2112)
          (xor_bytes (ip_bytes (ip_ addr)) (xor_mask tid)) ++ q) ->
  exists b', XorAddress_Read true tid
      (mkattr (attr_type a) (attr_length a) (StunXorAddressAttribute sa_clear true)) b = (true, a, b') /\
    rb b' q.
Proof.
  intros Hok Ht Hl Hlen Hv Hb. destruct (addr_ok_ip addr Hok) as (Hip & Hf & Hbuild & Haddr & Hs).
  destruct (xor_bytes_size addr tid Hok Ht Hl) as (Hd & _ & Hxok & Hxb).
  destruct (xored_port_lxor (port_ addr)) as [Hp Hpu]; [apply Hok|].
  set (a0 := mkattr (attr_type a) (attr_length a) (StunXorAddressAttribute sa_clear true)).
  destruct (Address_Read_spec addr (Z.lxor (port_ addr) 0x2112) a0 b q Hpu Hf Hlen _ Hd Hb)
    as (b1 & E1 & H1).
  exists b1. split; [|done]. unfold XorAddress_Read. rewrite E1. cbn [negb].
  f_equal. f_equal. set (d := xor_bytes (ip_bytes (ip_ addr)) (xor_mask tid)) in *.
  change (GetSocketAddress (SetAddress ?x a0)) with x.
  rewrite port_sa by done. cbn [ip_ sa_of_ip IpAddress.SetPort IpAddress.SetIP].
  rewrite GetXoredIP_xor; [|done|done|by rewrite family_build|by rewrite family_build].
  rewrite Hxb, family_build. unfold d. rewrite xor_bytes_twice by (by apply mask_long).
  rewrite Hbuild. destruct (xored_port_lxor _ Hpu) as [Hp2 _]. rewrite Hp2, Z.lxor_assoc.
  change (Z.lxor 0x2112 0x2112) with 0. rewrite Z.lxor_0_r, <- Haddr.
  destruct (SetAddress_eq addr a Hlen) as [_ Hx].
  rewrite <- (Hx sa_clear Hv (attr_length (SetAddress (sa_of_ip (ip_build (family_ (ip_ addr)) d)
     (Z.lxor (port_ addr) 0x2112)) a0))). done.
Qed.

(** ** Attributes are read back as they were written *)

Lemma write_types types b q : rb b q ->
  rb (fold_left ByteBuffer.WriteUInt16 types b) (q ++ concat (map (be_bytes 2) types)).
Proof.
  revert b q; induction types as [|t types IH]; intros b q Hb; cbn [fold_left map concat].
  - by rewrite app_nil_r.
  - rewrite app_assoc. by apply IH, W16.
Qed.

Lemma read_types_spec types b q acc : Forall (is_u 16) types ->
  rb b (concat (map (be_bytes 2) types) ++ q) ->
  exists b', read_types (length types) acc b = (true, acc ++ types, b') /\ rb b' q.
Proof.
  intros Hu. revert b acc; induction Hu as [|t types Ht Hu IH]; intros b acc Hb.
  - exists b. cbn. by rewrite app_nil_r.
  - cbn [map concat] in Hb. rewrite <- app_assoc in Hb.
    destruct (R16 _ _ _ Hb Ht) as (b1 & E1 & H1). cbn [length read_types]. rewrite E1.
    destruct (IH b1 (acc ++ [t]) H1) as (b' & E & Hb'). exists b'. rewrite E.
    by rewrite <- app_assoc.
Qed.

Lemma attr_Write_spec tid a b q : attr_ok tid a -> bytes_ok tid -> rb b q ->
  exists b', attr_Write tid a b = (true, b') /\ rb b' (q ++ body tid a).
Proof.
  intros (_ & Hlu & Hok) Ht Hb. unfold attr_Write, body.
  destruct (value_ a) as [addr|addr owner|bits|bits|s|class number reason|types].
  - apply Address_Write_spec; [apply Hok|done].
  - destruct Hok as (Ha & _ & -> & Hl). by apply XorAddress_Write_spec.
  - eexists. split; [reflexivity|]. by apply W32.
  - eexists. split; [reflexivity|]. by apply W64.
  - destruct Hok as [Hl Hs]. eexists. split; [reflexivity|].
    rewrite take_ge by lia. rewrite app_assoc. by apply WritePadding_spec, WB.
  - destruct Hok as (Hc & Hn & Hr & Hl). eexists. split; [reflexivity|].
    rewrite !app_assoc. apply WritePadding_spec. unfold ByteBuffer.WriteString.
    apply WB; [|done]. rewrite Z.shiftl_mul_pow2, lor_add by (unfold is_byte in Hn; lia).
    by apply W32.
  - eexists. split; [reflexivity|]. rewrite app_assoc. by apply WritePadding_spec, write_types.
Qed.

(** The object [Create] makes for an attribute. *)
Definition fresh (a : StunAttribute) : StunAttribute :=
  mkattr (attr_type a) (attr_length a)
    (match value_ a with
     | StunAddressAttribute _ => StunAddressAttribute sa_clear
     | StunXorAddressAttribute _ _ => StunXorAddressAttribute sa_clear true
     | StunUInt32Attribute _ => StunUInt32Attribute 0
     | StunUInt64Attribute _ => StunUInt64Attribute 0
     | StunByteStringAttribute _ => StunByteStringAttribute []
     | StunErrorCodeAttribute _ _ _ => StunErrorCodeAttribute 0 0 []
     | StunUInt16ListAttribute _ => StunUInt16ListAttribute []
     end).

Lemma Create_fresh tid a : attr_ok tid a ->
  Create (value_type a) (attr_type a) (attr_length a) true = Some (fresh a).
Proof.
  intros (_ & _ & Hok). unfold value_type, Create, fresh. destruct (value_ a); try done;
    destruct Hok as [-> _]; done.
Qed.

Lemma ErrorCode_Read_spec a b q class number reason :
  value_ a = StunErrorCodeAttribute class number reason ->
  0 <= class < 8 -> is_byte number -> attr_length a = 4 + Z.of_nat (length reason) ->
  rb b (body [] a ++ q) ->
  exists b', ErrorCode_Read (fresh a) b = (true, a, b') /\ rb b' q.
Proof.
  intros Hv Hc Hn Hl Hb. destruct a as [ty len v]. cbn in Hv, Hl. subst v.
  unfold body, fresh, ErrorCode_Read in *. cbn [value_ attr_type attr_length] in *.
  rewrite <- !app_assoc in Hb. unfold is_byte in Hn.
  destruct (R32 _ _ _ Hb) as (b1 & E1 & H1); [unfold is_u; lia|].
  assert (Hm : Z.to_nat (len - 4) = length reason) by lia.
  destruct (RS _ _ _ (Z.to_nat (len - 4)) H1) as (b2 & E2 & H2); [done|].
  rewrite (proj2 (Z.ltb_ge len MIN_SIZE)) by (unfold MIN_SIZE; lia).
  rewrite E1, E2. exists (ConsumePadding (mkattr ty len (StunErrorCodeAttribute 0 0 [])) b2).
  split; [|by apply ConsumePadding_spec].
  unfold set_value. cbn [attr_type attr_length]. do 4 f_equal.
  - change 0x7 with (2 ^ 3 - 1). rewrite land_mask, Z.shiftr_div_pow2 by lia.
    rewrite Z.div_add_l, (Z.div_small number) by lia. rewrite Z.mod_small by lia. lia.
  - change 0xff with (2 ^ 8 - 1). rewrite land_mask by lia.
    rewrite Z.add_comm, Z_mod_plus_full. by apply Z.mod_small.
Qed.

Lemma attr_Read_spec tid a b q : attr_ok tid a -> bytes_ok tid -> rb b (body tid a ++ q) ->
  exists b', attr_Read tid (fresh a) b = (true, a, b') /\ rb b' q.
Proof.
  intros (_ & Hlu & Hok) Ht Hb. unfold attr_Read.
  destruct (value_ a) as [addr|addr owner|bits|bits|s|class number reason|types] eqn:Hv;
    (replace (value_ (fresh a)) with (value_ (fresh (mkattr 0 0 (value_ a))))
       by done); rewrite Hv; cbn [fresh value_]; unfold body in Hb; rewrite Hv in Hb.
  - destruct Hok as [Ha Hlen]. destruct (addr_ok_ip addr Ha) as (Hip & Hf & Hbuild & Haddr & Hs).
    destruct (Address_Read_spec addr (port_ addr) (fresh a) b q) with (d := ip_bytes (ip_ addr))
      as (b1 & E1 & H1); [apply Ha|done..|].
    exists b1. split; [|done]. rewrite E1, Hbuild, <- Haddr. f_equal. f_equal.
    unfold fresh. rewrite Hv. by apply SetAddress_eq.
  - destruct Hok as (Ha & Hlen & -> & Hl6). unfold fresh. rewrite Hv.
    by apply (XorAddress_Read_spec tid addr).
  - destruct Hok as [Hl Hu]. cbn [fresh attr_length]. rewrite Hl.
    destruct (R32 _ _ _ Hb Hu) as (b1 & E1 & H1). exists b1. split; [|done].
    change (4 =? UINT32_SIZE) with true. cbn [negb]. rewrite E1. f_equal. f_equal.
    destruct a; cbn in *; by subst.
  - destruct Hok as [Hl Hu]. cbn [fresh attr_length]. rewrite Hl.
    destruct (R64 _ _ _ Hb Hu) as (b1 & E1 & H1). exists b1. split; [|done].
    change (8 =? UINT64_SIZE) with true. cbn [negb]. rewrite E1. f_equal. f_equal.
    destruct a; cbn in *; by subst.
  - destruct Hok as [Hl Hs]. unfold ByteString_Read. cbn [fresh attr_length].
    rewrite <- app_assoc in Hb.
    destruct (RB _ _ _ (Z.to_nat (attr_length a)) Hb) as (b1 & E1 & H1); [lia|]. rewrite E1.
    exists (ConsumePadding (fresh a) b1). split; [|by apply ConsumePadding_spec]. f_equal. f_equal.
    destruct a; cbn in *; by subst.
  - destruct Hok as (Hc & Hn & Hr & Hl). apply (ErrorCode_Read_spec a b q class number reason); auto.
    unfold body. by rewrite Hv.
  - destruct Hok as [Hl Hu]. unfold UInt16List_Read. rewrite <- app_assoc in Hb.
    destruct (read_types_spec types b _ [] Hu Hb) as (b1 & E1 & H1).
    cbn [fresh attr_length]. rewrite Hl.
    replace (2 * Z.of_nat (length types) mod 2) with 0 by dlia.
    change (0 =? 0) with true. cbn [negb].
    replace (2 * Z.of_nat (length types) / 2) with (Z.of_nat (length types)) by dlia.
    rewrite Nat2Z.id. replace (value_ (fresh a)) with (StunUInt16ListAttribute [])
      by (unfold fresh; by rewrite Hv).
    rewrite E1. cbn [app negb]. eexists (ConsumePadding (set_value _ (fresh a)) b1). split.
    + f_equal. f_equal. destruct a; cbn in *; by subst.
    + by apply ConsumePadding_spec.
Qed.

(** ** Messages *)

Definition padded (n : Z) : Z := n + (4 - n mod 4) mod 4.

Lemma length_pad n : 0 <= n -> Z.of_nat (length (pad n)) = padded n - n.
Proof. intros. unfold pad, padded. rewrite repeat_length. dlia. Qed.

Lemma length_types types : length (concat (map (be_bytes 2) types)) = (2 * length types)%nat.
Proof.
  induction types as [|t l IH]; [done|]. cbn [map concat length].
  rewrite length_app, length_be_bytes, IH. lia.
Qed.

Lemma padded_mult n : 0 <= n -> n mod 4 = 0 -> padded n = n.
Proof. intros ? Hn. unfold padded. rewrite Hn. change ((4 - 0) mod 4) with 0. lia. Qed.

Lemma length_body tid a : attr_ok tid a ->
  Z.of_nat (length (body tid a)) = padded (attr_length a).
Proof.
  intros (_ & Hu & Hok). unfold is_u in Hu. unfold body.
  assert (Hp := length_pad (attr_length a) ltac:(lia)).
  destruct (value_ a) as [addr|addr owner|bits|bits|s|class number reason|types];
    unfold enc_address; rewrite ?length_app, ?length_be_bytes, ?length_types.
  - destruct Hok as [Ha ->]. destruct (addr_ok_ip addr Ha) as (_ & Hf & _ & _ & ->).
    unfold EnsureAddressLength, family, Size. by destruct (family_ (ip_ addr)).
  - destruct Hok as (Ha & -> & _ & Hl). rewrite length_xor_bytes by (by apply mask_long).
    destruct (addr_ok_ip addr Ha) as (_ & Hf & _ & _ & ->).
    unfold EnsureAddressLength, family, Size. by destruct (family_ (ip_ addr)).
  - by destruct Hok as [-> _].
  - by destruct Hok as [-> _].
  - destruct Hok as [Hl _]. lia.
  - destruct Hok as (_ & _ & _ & Hl). lia.
  - destruct Hok as (Hl & _). lia.
Qed.

Lemma body_ok tid a : attr_ok tid a -> bytes_ok tid -> bytes_ok (body tid a).
Proof.
  intros (_ & _ & Hok) Ht. unfold body.
  destruct (value_ a) as [addr|addr owner|bits|bits|s|class number reason|types];
    unfold enc_address; rewrite ?bytes_ok_app; try apply be_bytes_ok.
  - destruct Hok as [Ha _]. destruct (addr_ok_ip addr Ha) as (Hip & _).
    split_and!; try apply be_bytes_ok. pose proof (v4_ok _ Hip) as [_ ?]. destruct Hip as [_ ?].
    unfold ip_bytes. destruct (family_ (ip_ addr)); [by apply List.Forall_nil|done|done].
  - destruct Hok as (Ha & _ & _ & Hl). split_and!; try apply be_bytes_ok.
    by apply xor_bytes_size.
  - split; [apply Hok|apply pad_ok].
  - split_and!; [apply be_bytes_ok|apply Hok|apply pad_ok].
  - split; [|apply pad_ok]. clear Hok. induction types as [|t l IH]; [by apply List.Forall_nil|].
    cbn [map concat]. apply bytes_ok_app. split; [apply be_bytes_ok|done].
Qed.

Definition enc_attrs (tid : bytes) (l : list StunAttribute) : bytes := concat (map (enc_attr tid) l).

(** The 20 bytes of the header of a message with [n] bytes of attributes. *)
Definition header (ty n : Z) (tid : bytes) : bytes :=
  be_bytes 2 ty ++ be_bytes 2 n ++
  (if (length tid =? 16)%nat then [] else be_bytes 4 kStunMagicCookie) ++ tid.

Definition enc_msg (m : StunMessage) : bytes :=
  header (type_ m) (length_ m) (transaction_id_ m) ++ enc_attrs (transaction_id_ m) (attrs_ m).

(** A transaction id of RFC 5389, or of RFC 3489 (which must not start with
    the magic cookie). *)
Definition tid_ok (tid : bytes) : Prop :=
  bytes_ok tid /\
  (length tid = 12%nat \/ (length tid = 16%nat /\ be_val (take 4 tid) <> kStunMagicCookie)).

(** Messages of a class that can be sent: the length field is the size of the
    attributes. *)
Record msg_ok (c : message_class) (m : StunMessage) : Prop := {
  msg_type : 0 <= type_ m < 0x8000;
  msg_tid : tid_ok (transaction_id_ m);
  msg_attrs : Forall (attr_ok (transaction_id_ m)) (attrs_ m);
  msg_class : Forall (fun a => value_type a = GetAttributeValueType c (attr_type a)) (attrs_ m);
  msg_length : length_ m = Z.of_nat (length (enc_attrs (transaction_id_ m) (attrs_ m)));
  msg_bound : length_ m < 2 ^ 16;
}.

Lemma length_enc_attr tid a : attr_ok tid a ->
  Z.of_nat (length (enc_attr tid a)) = 4 + padded (attr_length a).
Proof.
  intros Ha. unfold enc_attr. rewrite !length_app, !length_be_bytes.
  rewrite <- (length_body tid a Ha). lia.
Qed.

Lemma enc_attrs_app tid l k : enc_attrs tid (l ++ k) = enc_attrs tid l ++ enc_attrs tid k.
Proof. unfold enc_attrs. by rewrite map_app, concat_app. Qed.

Lemma enc_attrs_cons tid a l : enc_attrs tid (a :: l) = enc_attr tid a ++ enc_attrs tid l.
Proof. done. Qed.

Lemma enc_attrs_one tid a : enc_attrs tid [a] = enc_attr tid a.
Proof. unfold enc_attrs. cbn [map concat]. apply app_nil_r. Qed.

Lemma enc_attrs_mult tid l : Forall (attr_ok tid) l -> (length (enc_attrs tid l) mod 4 = 0)%nat.
Proof.
  induction 1 as [|a l Ha Hl IH]; [done|]. rewrite enc_attrs_cons, length_app.
  pose proof (length_enc_attr tid a Ha). unfold padded in *.
  apply Nat2Z.inj. rewrite Nat2Z.inj_mod, Nat2Z.inj_add.
  apply (f_equal Z.of_nat) in IH. rewrite Nat2Z.inj_mod in IH.
  change (Z.of_nat 4) with 4 in *. change (Z.of_nat 0) with 0 in *. dlia.
Qed.

Lemma enc_attrs_ok tid l : Forall (attr_ok tid) l -> bytes_ok tid -> bytes_ok (enc_attrs tid l).
Proof.
  intros Hl Ht. induction Hl as [|a l Ha Hl IH]; [by apply List.Forall_nil|].
  rewrite enc_attrs_cons. unfold enc_attr. rewrite !bytes_ok_app.
  split_and!; [apply be_bytes_ok|apply be_bytes_ok|by apply body_ok|done].
Qed.

Lemma tid_length tid : tid_ok tid -> length tid = 12%nat \/ length tid = 16%nat.
Proof. intros [_ [?|[? _]]]; auto. Qed.

Lemma length_header ty n tid : tid_ok tid -> length (header ty n tid) = 20%nat.
Proof.
  intros Ht%tid_length. unfold header. rewrite !length_app, !length_be_bytes.
  destruct (Nat.eqb_spec (length tid) 16); cbn [length]; rewrite ?length_be_bytes; lia.
Qed.

Lemma header_ok ty n tid : tid_ok tid -> bytes_ok (header ty n tid).
Proof.
  intros [Ht _]. unfold header. rewrite !bytes_ok_app.
  split_and!; try apply be_bytes_ok; [|done].
  destruct (_ =? _)%nat; [by apply List.Forall_nil|apply be_bytes_ok].
Qed.

(** *** Writing *)

Lemma write_attrs_spec tid l b q : Forall (attr_ok tid) l -> bytes_ok tid -> rb b q ->
  exists b', write_attrs tid l b = (true, b') /\ rb b' (q ++ enc_attrs tid l).
Proof.
  intros Hl Ht. revert b q; induction Hl as [|a l Ha Hl IH]; intros b q Hb.
  - exists b. unfold enc_attrs. cbn. by rewrite app_nil_r.
  - cbn [write_attrs]. destruct (attr_Write_spec tid a _ _ Ha Ht (W16 _ _ (u16 (attr_length a))
      (W16 _ _ (attr_type a) Hb))) as (b1 & E1 & H1).
    rewrite E1. cbn [negb]. destruct (IH _ _ H1) as (b2 & E2 & H2). exists b2. split; [done|].
    rewrite enc_attrs_cons. unfold enc_attr. destruct Ha as (_ & Hu & _).
    unfold u16 in H2. rewrite wrap_small in H2 by done. by rewrite <- !app_assoc in *.
Qed.

Lemma Write_spec m b q :
  tid_ok (transaction_id_ m) -> Forall (attr_ok (transaction_id_ m)) (attrs_ m) -> rb b q ->
  exists b', Write m b = (true, b') /\ rb b' (q ++ enc_msg m).
Proof.
  intros Ht Ha Hb. unfold Write, enc_msg, header, IsLegacy, kStunLegacyTransactionIdLength.
  pose proof (proj1 Ht) as Htb.
  pose proof (W16 _ _ (length_ m) (W16 _ _ (type_ m) Hb)) as H1.
  destruct (Nat.eqb_spec (length (transaction_id_ m)) 16) as [El|El]; cbn [negb].
  - destruct (write_attrs_spec _ _ _ _ Ha Htb (WB _ _ _ H1 Htb)) as (b2 & E2 & H2).
    exists b2. split; [done|]. rewrite <- !app_assoc in *. exact H2.
  - destruct (write_attrs_spec _ _ _ _ Ha Htb (WB _ _ _ (W32 _ _ kStunMagicCookie H1) Htb))
      as (b2 & E2 & H2).
    exists b2. split; [done|]. rewrite <- !app_assoc in *. exact H2.
Qed.

(** *** Reading *)

Lemma rb_Length b q : rb b q -> ByteBuffer.Length b = length q.
Proof. intros (Hb & <- & _). by rewrite ByteBuffer.length_contents. Qed.

Lemma set_attrs_eq m l : attrs_ m = l -> set_attrs l m = m.
Proof. intros <-. by destruct m. Qed.

Lemma read_attrs_spec c tid l : Forall (attr_ok tid) l -> bytes_ok tid ->
  Forall (fun a => value_type a = GetAttributeValueType c (attr_type a)) l ->
  forall fuel m b, (length l < fuel)%nat -> transaction_id_ m = tid -> rb b (enc_attrs tid l) ->
  exists b', read_attrs c fuel 0 m b = (true, set_attrs (attrs_ m ++ l) m, b') /\ rb b' [].
Proof.
  intros Hl Ht Hc. induction Hl as [|a l Ha Hl IH]; intros fuel m b Hf Hm Hb.
  - destruct fuel as [|fuel]; [lia|]. cbn [read_attrs].
    rewrite (rb_Length _ _ Hb). exists b. cbn. rewrite app_nil_r, set_attrs_eq by done. done.
  - apply Forall_cons in Hc as [Hca Hc]. destruct fuel as [|fuel]; [lia|].
    rewrite enc_attrs_cons in Hb. cbn [read_attrs].
    rewrite (proj2 (Nat.ltb_lt 0 _)).
    2: { rewrite (rb_Length _ _ Hb), length_app. pose proof (length_enc_attr tid a Ha).
         unfold padded in *. destruct Ha as (_ & Hu & _). unfold is_u in Hu. dlia. }
    unfold enc_attr in Hb. rewrite <- !app_assoc in Hb. pose proof Ha as (Hty & Hlen & _).
    destruct (R16 _ _ _ Hb Hty) as (b1 & E1 & H1). rewrite E1.
    destruct (R16 _ _ _ H1 Hlen) as (b2 & E2 & H2). rewrite E2.
    unfold CreateAttribute. rewrite <- Hca. unfold u16. rewrite wrap_small by done.
    rewrite (Create_fresh tid a Ha), Hm.
    destruct (attr_Read_spec tid a _ _ Ha Ht H2) as (b3 & E3 & H3). rewrite E3. cbn [negb].
    destruct (IH Hc fuel (set_attrs (attrs_ m ++ [a]) m) b3) as (b' & E & Hb'); [cbn in Hf; lia|done..|].
    exists b'. split; [|done]. rewrite E. cbn [set_attrs attrs_]. by rewrite <- app_assoc.
Qed.

(** The sixteen bytes after the length: cookie and id, as the reader splits
    them. *)
Lemma tid_split tid : tid_ok tid ->
  exists c4 t12, length c4 = 4%nat /\ length t12 = 12%nat /\ bytes_ok c4 /\
    (if (length tid =? 16)%nat then [] else be_bytes 4 kStunMagicCookie) ++ tid = c4 ++ t12 /\
    (if negb (NetworkToHost32 (host_val c4) =? kStunMagicCookie) then c4 ++ t12 else t12) = tid.
Proof.
  intros [Hok Ht]. destruct Ht as [Hl|[Hl Hne]]; rewrite Hl; cbn [Nat.eqb].
  - exists (be_bytes 4 kStunMagicCookie), tid.
    split_and!; [done|done|apply be_bytes_ok|done|].
    rewrite NetworkToHost32_val, be_val_be4 by (done || apply be_bytes_ok). done.
  - exists (take 4 tid), (drop 4 tid).
    assert (Hc : bytes_ok (take 4 tid)) by (by apply Forall_take).
    assert (Hc4 : length (take 4 tid) = 4%nat) by (rewrite length_take; lia).
    rewrite take_drop. split_and!; [done|rewrite length_drop; lia|done|done|].
    rewrite NetworkToHost32_val by done. by rewrite (proj2 (Z.eqb_neq _ _) Hne).
Qed.

Lemma land_8000 t : 0 <= t < 0x8000 -> Z.land t 0x8000 = 0.
Proof.
  intros Ht. apply Z.bits_inj'. intros n Hn. rewrite Z.land_spec, Z.bits_0.
  change 0x8000 with (2 ^ 15). rewrite Z.pow2_bits_eqb by lia.
  destruct (Z.eqb_spec 15 n) as [<-|]; [|apply andb_false_r]. rewrite andb_true_r.
  rewrite <- (Z.mod_small t (2 ^ 15)) by lia. by rewrite Z.mod_pow2_bits_high by lia.
Qed.

Lemma msg_eta m : mkmsg (type_ m) (length_ m) (transaction_id_ m) (attrs_ m) = m.
Proof. by destruct m. Qed.

Lemma enc_attrs_count tid l : Forall (attr_ok tid) l -> (length l <= length (enc_attrs tid l))%nat.
Proof.
  induction 1 as [|a l Ha Hl IH]; [done|]. rewrite enc_attrs_cons, length_app.
  pose proof (length_enc_attr tid a Ha). destruct Ha as (_ & Hu & _). unfold is_u, padded in *.
  cbn [length]. assert (0 <= (4 - attr_length a mod 4) mod 4) by (apply Z.mod_pos_bound; lia). lia.
Qed.

Lemma Read_spec c m m0 b : msg_ok c m -> rb b (enc_msg m) ->
  exists b', Read c m0 b = (true, m, b') /\ rb b' [].
Proof.
  intros [Hty Ht Ha Hc Hl Hb2] Hb.
  destruct (tid_split _ Ht) as (c4 & t12 & L4 & L12 & Hc4 & Hsplit & Htid).
  unfold enc_msg, header in Hb. rewrite Hsplit, <- !app_assoc in Hb.
  assert (Hlu : is_u 16 (length_ m)) by (unfold is_u; lia).
  destruct (R16 _ _ _ Hb) as (b1 & E1 & H1); [unfold is_u; lia|].
  destruct (R16 _ _ _ H1 Hlu) as (b2 & E2 & H2).
  destruct (RS _ _ _ kStunMagicCookieLength H2 L4) as (b3 & E3 & H3).
  destruct (RS _ _ _ kStunTransactionIdLength H3 L12) as (b4 & E4 & H4).
  unfold Read. rewrite E1. cbn [set_type type_]. rewrite land_8000 by done.
  change (0 =? 0) with true. cbn [negb]. rewrite E2, E3, E4, Htid.
  cbn [set_length set_transaction_id set_type length_ type_ transaction_id_ attrs_].
  pose proof (rb_Length _ _ H4) as HL. rewrite HL, <- Hl, Z.eqb_refl. cbn [negb].
  unfold set_attrs, set_transaction_id, set_length, set_type.
  cbn [length_ type_ transaction_id_ attrs_].
  replace (length (enc_attrs (transaction_id_ m) (attrs_ m)) - Z.to_nat (length_ m))%nat with 0%nat by lia.
  destruct (read_attrs_spec c _ _ Ha (proj1 Ht) Hc
    (S (length (enc_attrs (transaction_id_ m) (attrs_ m))))
    (mkmsg (type_ m) (length_ m) (transaction_id_ m) []) b4) as (b' & E & Hb'); [|done|done|].
  - pose proof (enc_attrs_count _ _ Ha). lia.
  - exists b'. split; [|done]. rewrite E. f_equal. f_equal. by destruct m.
Qed.

(** What is written is the encoding, and what is read is the message. *)
Lemma Write_Read c m m0 : msg_ok c m ->
  exists buf, Write m (ByteBuffer.new_empty ByteBuffer.ORDER_NETWORK) = (true, buf) /\
    ByteBuffer.contents buf = enc_msg m /\
    exists buf', Read c m0 (ByteBuffer.new_from (enc_msg m) ByteBuffer.ORDER_NETWORK)
                 = (true, m, buf') /\ ByteBuffer.Length buf' = 0%nat.
Proof.
  intros Hm. pose proof Hm as [Hty Ht Ha Hc Hl Hb2].
  assert (H0 : rb (ByteBuffer.new_empty ByteBuffer.ORDER_NETWORK) [])
    by (apply ByteBuffer.new_empty_spec).
  destruct (Write_spec m _ _ Ht Ha H0) as (buf & -> & Hbuf). exists buf.
  split; [done|]. split; [apply Hbuf|].
  assert (Hok : bytes_ok (enc_msg m)).
  { apply bytes_ok_app. split; [by apply header_ok|]. by apply enc_attrs_ok; [|apply Ht]. }
  assert (H1 : rb (ByteBuffer.new_from (enc_msg m) ByteBuffer.ORDER_NETWORK) (enc_msg m))
    by (by apply ByteBuffer.new_from_spec).
  destruct (Read_spec c m m0 _ Hm H1) as (b' & -> & Hb'). exists b'. split; [done|].
  by rewrite (rb_Length _ _ Hb').
Qed.

(** C37: STUN messages survive the wire: a message of any class, with any
    attributes that class knows (addresses of both families, XOR addresses,
    integers, byte strings, error codes, lists, in any order and number up to
    the 16-bit length), of RFC 5389 or RFC 3489, is written successfully as
    its header and its padded TLVs, and reading those bytes into any message
    object gives the message back and consumes them all. *)
Theorem stun_roundtrip c m m0 : msg_ok c m ->
  exists buf, Write m (ByteBuffer.new_empty ByteBuffer.ORDER_NETWORK) = (true, buf) /\
    ByteBuffer.contents buf = enc_msg m /\
    exists buf', Read c m0 (ByteBuffer.new_from (enc_msg m) ByteBuffer.ORDER_NETWORK)
                 = (true, m, buf') /\ ByteBuffer.Length buf' = 0%nat.
Proof. apply Write_Read. Qed.

(** ** Adding attributes *)

(** The message with one attribute more. *)
Definition add (a : StunAttribute) (m : StunMessage) : StunMessage :=
  mkmsg (type_ m) (length_ m + 4 + padded (attr_length a)) (transaction_id_ m) (attrs_ m ++ [a]).

Lemma padded_bounds n : 0 <= n -> n <= padded n < n + 4 /\ padded n mod 4 = 0.
Proof. intros. unfold padded. dlia. Qed.

Lemma SetOwner_same a : attr_length (SetOwner a) = attr_length a /\ attr_type (SetOwner a) = attr_type a /\
  value_type (SetOwner a) = value_type a.
Proof. unfold SetOwner, value_type. destruct (value_ a) eqn:E; cbn [set_value value_ attr_length attr_type]; by rewrite ?E. Qed.

Lemma AddAttribute_add c a m :
  value_type a = GetAttributeValueType c (attr_type a) -> is_u 16 (attr_length a) ->
  0 <= length_ m -> length_ m + 4 + padded (attr_length a) < 2 ^ 16 ->
  AddAttribute c a m = (true, add (SetOwner a) m).
Proof.
  intros Hv Hu H0 Hb. unfold AddAttribute, add. rewrite bool_decide_true by done. cbn [negb].
  f_equal. unfold set_attrs, set_length. cbn [type_ length_ transaction_id_ attrs_].
  destruct (SetOwner_same a) as (-> & _). f_equal.
  assert (Hp : (if negb (attr_length a mod 4 =? 0) then attr_length a + (4 - attr_length a mod 4)
                else attr_length a) = padded (attr_length a)).
  { unfold padded. destruct (Z.eqb_spec (attr_length a mod 4) 0) as [E|E]; cbn [negb]; [|dlia].
    rewrite E. change ((4 - 0) mod 4) with 0. lia. }
  rewrite Hp. unfold u16. change (Z.of_nat kStunAttributeHeaderSize) with 4.
  destruct (padded_bounds (attr_length a)) as [? _]; [apply Hu|]. unfold is_u in Hu.
  rewrite (wrap_small 16 (padded _ + 4)) by (unfold is_u; lia).
  rewrite wrap_small by (unfold is_u; lia). lia.
Qed.

Lemma add_ok c a m : msg_ok c m -> attr_ok (transaction_id_ m) a ->
  value_type a = GetAttributeValueType c (attr_type a) ->
  length_ m + 4 + padded (attr_length a) < 2 ^ 16 -> msg_ok c (add a m).
Proof.
  intros [Hty Ht Ha Hc Hl Hb] Hok Hv Hlt. split; cbn [add type_ length_ transaction_id_ attrs_]; try done.
  - apply Forall_app. split; [done|by apply List.Forall_cons].
  - apply Forall_app. split; [done|by apply List.Forall_cons].
  - rewrite enc_attrs_app, enc_attrs_one, length_app. pose proof (length_enc_attr _ _ Hok). lia.
Qed.

(** AddAttribute keeps messages well formed: an attribute of the class the
    message type expects is appended with its owner set, and the length field
    stays the size of the padded attributes as long as it fits 16 bits; an
    attribute of another class is refused without effect. *)
Theorem AddAttribute_spec c a m : msg_ok c m -> attr_ok (transaction_id_ m) (SetOwner a) ->
  length_ m + 4 + padded (attr_length a) < 2 ^ 16 ->
  if bool_decide (value_type a = GetAttributeValueType c (attr_type a))
  then AddAttribute c a m = (true, add (SetOwner a) m) /\ msg_ok c (add (SetOwner a) m)
  else AddAttribute c a m = (false, m).
Proof.
  intros Hm Ha Hlt. destruct (SetOwner_same a) as (Hl & Hty & Hvt).
  case_bool_decide as Hv.
  - split.
    + apply AddAttribute_add; [done| | |done].
      * rewrite <- Hl. apply Ha.
      * rewrite (msg_length _ _ Hm). lia.
    + apply add_ok; [done|done| |by rewrite Hl]. by rewrite Hvt, Hty.
  - unfold AddAttribute. by rewrite bool_decide_false.
Qed.

Lemma take_Data b q k : rb b q -> (k <= length q)%nat -> take k (ByteBuffer.Data b) = take k q.
Proof.
  intros Hb Hk. pose proof (rb_Length _ _ Hb) as HL. destruct Hb as (Hwf & <- & _).
  unfold ByteBuffer.contents, ByteBuffer.Data, mem_read in *. rewrite take_take. f_equal. lia.
Qed.

Lemma update_last f l (a : StunAttribute) : alter f (length l) (l ++ [a]) = l ++ [f a].
Proof. induction l as [|x l IH]; [done|]. cbn [length app]. by rewrite <- IH. Qed.

(** What the checksum operations see: everything before the attribute. *)
Definition before (n : Z) (m : StunMessage) : bytes :=
  header (type_ m) (length_ m + 4 + padded n) (transaction_id_ m)
  ++ enc_attrs (transaction_id_ m) (attrs_ m).

Lemma enc_add a m : enc_msg (add a m) = before (attr_length a) m ++ enc_attr (transaction_id_ m) a.
Proof.
  unfold enc_msg, before, add. cbn [type_ length_ transaction_id_ attrs_].
  by rewrite enc_attrs_app, enc_attrs_one, app_assoc.
Qed.

Lemma before_ok c m n : msg_ok c m -> bytes_ok (before n m).
Proof.
  intros [? Ht Ha ? ? ?]. apply bytes_ok_app. split; [by apply header_ok|].
  apply enc_attrs_ok; [done|apply Ht].
Qed.

Lemma length_before c m n : msg_ok c m -> Z.of_nat (length (before n m)) = 20 + length_ m.
Proof.
  intros [? Ht Ha ? Hl ?]. unfold before. rewrite length_app, length_header by done. lia.
Qed.

(** Writing the message to compute a checksum over what precedes the last
    attribute. *)
Lemma Write_before c m a : msg_ok c m -> attr_ok (transaction_id_ m) a ->
  exists buf, Write (add a m) (ByteBuffer.new_empty ByteBuffer.ORDER_NETWORK) = (true, buf) /\
    forall n, n = Z.to_nat (padded (attr_length a)) ->
    take (ByteBuffer.Length buf - 4 - n) (ByteBuffer.Data buf) = before (attr_length a) m.
Proof.
  intros Hm Ha. pose proof Hm as [? Ht Hattrs ? ? ?].
  assert (H0 : rb (ByteBuffer.new_empty ByteBuffer.ORDER_NETWORK) [])
    by (apply ByteBuffer.new_empty_spec).
  destruct (Write_spec (add a m) (ByteBuffer.new_empty ByteBuffer.ORDER_NETWORK) [] Ht)
    as (buf & E & Hbuf); [|done|].
  { cbn [add attrs_ transaction_id_]. apply Forall_app. split; [done|by apply List.Forall_cons]. }
  cbn [app] in Hbuf. exists buf. split; [exact E|]. intros n ->. rewrite enc_add in Hbuf.
  pose proof (rb_Length _ _ Hbuf) as HL. rewrite length_app in HL.
  pose proof (length_enc_attr _ _ Ha) as Hlen. pose proof Ha as (_ & Hu & _). unfold is_u in Hu.
  destruct (padded_bounds (attr_length a)) as [Hp _]; [lia|].
  rewrite (take_Data _ _ _ Hbuf) by (rewrite length_app; lia).
  apply take_app_length'. lia.
Qed.

(** *** FINGERPRINT *)

Definition fingerprint (m : StunMessage) : Z :=
  Z.lxor (Crc32.ComputeCrc32 (before 4 m)) STUN_FINGERPRINT_XOR_VALUE.
Definition with_fingerprint (m : StunMessage) : StunMessage :=
  add (new_uint32 STUN_ATTR_FINGERPRINT (fingerprint m)) m.

Lemma fingerprint_range c m : msg_ok c m -> is_u 32 (fingerprint m).
Proof.
  intros Hm. pose proof (before_ok c m 4 Hm) as Hb.
  unfold fingerprint. apply Crc32.lxor_range; [lia| |by split].
  rewrite Crc32.ComputeCrc32_ref by done. unfold Crc32.crc_ref.
  apply Crc32.lxor_range; [lia| |by split]. by apply Crc32.fold_ref_range.
Qed.

Lemma uint32_ok tid ty v : is_u 16 ty -> is_u 32 v -> attr_ok tid (new_uint32 ty v).
Proof. intros. split_and!; [done|by split|done]. Qed.

Lemma fingerprint_class c v :
  value_type (new_uint32 STUN_ATTR_FINGERPRINT v) = GetAttributeValueType c STUN_ATTR_FINGERPRINT.
Proof. by destruct c. Qed.

Lemma AddFingerprint_eq c m : msg_ok c m -> length_ m + 8 < 2 ^ 16 ->
  AddFingerprint c m = (true, with_fingerprint m) /\ msg_ok c (with_fingerprint m).
Proof.
  intros Hm Hlt. unfold AddFingerprint. set (fp := new_uint32 STUN_ATTR_FINGERPRINT 0).
  assert (Hfp : forall v, is_u 32 v -> attr_ok (transaction_id_ m) (new_uint32 STUN_ATTR_FINGERPRINT v))
    by (intros; apply uint32_ok; [by split|done]).
  assert (H0 : 0 <= length_ m) by (rewrite (msg_length _ _ Hm); lia).
  rewrite AddAttribute_add; [|by destruct c|by split|done|exact ltac:(vm_compute (padded _); lia)].
  change (SetOwner fp) with fp.
  destruct (Write_before c m fp Hm) as (buf & E & Hdata); [apply Hfp; by split|].
  rewrite E. cbn [negb]. split.
  - f_equal. unfold with_fingerprint, update_attr.
    change (attrs_ (add fp m)) with (attrs_ m ++ [fp]). rewrite update_last.
    change kStunAttributeHeaderSize with 4%nat. rewrite Hdata by done. done.
  - apply add_ok; [done|by apply Hfp, (fingerprint_range c)|by destruct c|].
    change (padded _) with 4. lia.
Qed.

Lemma GetBE16_at l v pos : mem_read l pos 2 = be_bytes 2 v -> is_u 16 v -> GetBE16 (mem_read l pos 2) = v.
Proof.
  intros -> Hv. rewrite GetBE16_be by (apply be_bytes_ok || apply length_be_bytes).
  rewrite be_val_be_bytes. by apply Z.mod_small.
Qed.

Lemma GetBE32_at l v pos : mem_read l pos 4 = be_bytes 4 v -> is_u 32 v -> GetBE32 (mem_read l pos 4) = v.
Proof.
  intros -> Hv. rewrite GetBE32_be by (apply be_bytes_ok || apply length_be_bytes).
  rewrite be_val_be_bytes. by apply Z.mod_small.
Qed.

Lemma mem_read_app_l p d q pos n : length p = pos -> length d = n -> mem_read (p ++ d ++ q) pos n = d.
Proof.
  intros Hp Hd. unfold mem_read. rewrite drop_app_length' by done. by rewrite take_app_length' by done.
Qed.

Lemma ValidateFingerprint_with c m : msg_ok c m -> length (transaction_id_ m) = 12%nat ->
  ValidateFingerprint (enc_msg (with_fingerprint m)) = true.
Proof.
  intros Hm Htid. unfold with_fingerprint. rewrite enc_add.
  change (attr_length (new_uint32 STUN_ATTR_FINGERPRINT (fingerprint m))) with 4.
  pose proof (length_before c m 4 Hm) as Hlen. pose proof (fingerprint_range c m Hm) as Hr.
  assert (Hb : before 4 m = be_bytes 2 (type_ m) ++ be_bytes 2 (length_ m + 4 + padded 4) ++
    be_bytes 4 kStunMagicCookie ++ transaction_id_ m ++ enc_attrs (transaction_id_ m) (attrs_ m)).
  { unfold before, header. rewrite Htid. cbn [Nat.eqb]. by rewrite <- !app_assoc. }
  assert (Hm4 : (length (before 4 m) mod 4 = 0)%nat).
  { unfold before. rewrite length_app, length_header by apply Hm.
    pose proof (enc_attrs_mult _ _ (msg_attrs _ _ Hm)).
    rewrite Nat.Div0.add_mod, H0. done. }
  set (b := before 4 m) in *. unfold enc_attr.
  change (body (transaction_id_ m) (new_uint32 STUN_ATTR_FINGERPRINT (fingerprint m)))
    with (be_bytes 4 (fingerprint m)).
  cbn [new_uint32 attr_type attr_length].
  set (tail := be_bytes 2 STUN_ATTR_FINGERPRINT ++ be_bytes 2 UINT32_SIZE ++ be_bytes 4 (fingerprint m)).
  assert (Ltail : length tail = 8%nat) by done.
  unfold ValidateFingerprint. rewrite length_app, Ltail.
  change (kStunAttributeHeaderSize + Z.to_nat UINT32_SIZE)%nat with 8%nat.
  change (kStunTransactionIdOffset - kStunMagicCookieLength)%nat with 4%nat.
  replace (length b + 8 - 8)%nat with (length b) by lia.
  replace ((length b + 8) mod 4)%nat with 0%nat
    by (rewrite Nat.Div0.add_mod, Hm4; done).
  rewrite (proj2 (Nat.ltb_ge _ _)) by (change kStunHeaderSize with 20%nat;
    pose proof (msg_length _ _ Hm); lia).
  cbn [Nat.eqb negb orb]. rewrite (GetBE32_at _ kStunMagicCookie 4); [| |by split].
  2: { replace (b ++ tail) with ((be_bytes 2 (type_ m) ++ be_bytes 2 (length_ m + 4 + padded 4)) ++
         be_bytes 4 kStunMagicCookie ++
         (transaction_id_ m ++ enc_attrs (transaction_id_ m) (attrs_ m)) ++ tail)
         by (rewrite Hb, <- !app_assoc; done). by apply mem_read_app_l. }
  rewrite Z.eqb_refl. cbn [negb].
  rewrite (GetBE16_at _ STUN_ATTR_FINGERPRINT); [|by apply mem_read_app_l|by split].
  rewrite (GetBE16_at _ UINT32_SIZE); [|unfold tail; rewrite app_assoc; apply mem_read_app_l;
    [by rewrite length_app, length_be_bytes|done]|by split].
  rewrite (GetBE32_at _ (fingerprint m)); [| |done].
  2: { replace (b ++ tail) with ((b ++ be_bytes 2 STUN_ATTR_FINGERPRINT ++ be_bytes 2 UINT32_SIZE) ++
         be_bytes 4 (fingerprint m) ++ []) by (rewrite app_nil_r, <- !app_assoc; done).
       apply mem_read_app_l; [|done]. rewrite !length_app, !length_be_bytes. done. }
  rewrite !Z.eqb_refl. cbn [negb orb]. rewrite take_app_length' by done.
  unfold fingerprint. fold b. rewrite Crc32.lxor_cancel. apply Z.eqb_refl.
Qed.

(** *** MESSAGE-INTEGRITY *)

Definition hmac_sha1 (key text : bytes) : bytes :=
  MessageDigest.ComputeHmac_alg MessageDigest.DIGEST_SHA_1 key text kStunMessageIntegritySize.

Lemma hmac_sha1_ok key text : bytes_ok key -> bytes_ok text ->
  length (hmac_sha1 key text) = 20%nat /\ bytes_ok (hmac_sha1 key text).
Proof.
  intros Hk Ht. unfold hmac_sha1, MessageDigest.ComputeHmac_alg.
  assert (Hc : MessageDigest.Create MessageDigest.DIGEST_SHA_1 =
    Some {| MessageDigest.class_ := MessageDigest.Sha1Digest;
            MessageDigest.state_ := Sha1.SHA1Init (MessageDigest.new_uint8 0 64) |}) by reflexivity.
  rewrite Hc. cbn [MessageDigest.class_ MessageDigest.state_].
  destruct (MessageDigest.ComputeHmac_spec _ _ _ (L := MessageDigest.sha1_laws)
    (Sha1.SHA1Init (MessageDigest.new_uint8 0 64)) key text kStunMessageIntegritySize)
    as (st & -> & _); [|done|done|apply Nat.leb_le; reflexivity..|].
  { apply Sha1.sha1_absorbed_init; [apply MessageDigest.length_new_uint8|apply MessageDigest.new_uint8_ok]. }
  cbn [snd]. split.
  - by rewrite (MessageDigest.hmac_ref_size _ _ _ (L := MessageDigest.sha1_laws)).
  - unfold MessageDigest.hmac_ref, Sha1.sha1_ref.
    apply MessageDigest.concat_map_ok. intros. apply be_bytes_ok.
Qed.

(** The attribute the operation leaves in the message. *)
Definition integrity_attr (key text : bytes) : StunAttribute :=
  mkattr STUN_ATTR_MESSAGE_INTEGRITY 20 (StunByteStringAttribute (hmac_sha1 key text)).
Definition with_integrity (key : bytes) (m : StunMessage) : StunMessage :=
  add (integrity_attr key (before 20 m)) m.

Lemma integrity_ok tid s : length s = 20%nat -> bytes_ok s ->
  attr_ok tid (mkattr STUN_ATTR_MESSAGE_INTEGRITY 20 (StunByteStringAttribute s)).
Proof. intros Hl Hs. split_and!; cbn [attr_type attr_length value_]; [by split|by split|]. by rewrite Hl. Qed.

Lemma AddMessageIntegrity_eq c key m : msg_ok c m -> bytes_ok key -> length_ m + 24 < 2 ^ 16 ->
  AddMessageIntegrity c key m = (true, with_integrity key m) /\ msg_ok c (with_integrity key m).
Proof.
  intros Hm Hk Hlt. unfold AddMessageIntegrity.
  change (new_byte_string STUN_ATTR_MESSAGE_INTEGRITY (repeat 48 kStunMessageIntegritySize))
    with (mkattr STUN_ATTR_MESSAGE_INTEGRITY 20 (StunByteStringAttribute (repeat 48 20))).
  set (mi := mkattr STUN_ATTR_MESSAGE_INTEGRITY 20 (StunByteStringAttribute (repeat 48 20))).
  assert (Hmi : attr_ok (transaction_id_ m) mi) by (apply integrity_ok; [done|solve_bytes]).
  assert (H0 : 0 <= length_ m) by (rewrite (msg_length _ _ Hm); lia).
  rewrite AddAttribute_add; [|by destruct c|by split|done|change (padded _) with 20; lia].
  change (SetOwner mi) with mi.
  destruct (Write_before c m mi Hm Hmi) as (buf & E & Hdata). rewrite E. cbn [negb].
  change kStunAttributeHeaderSize with 4%nat. rewrite Hdata by done.
  change (attr_length mi) with 20.
  destruct (hmac_sha1_ok key (before 20 m) Hk (before_ok c m 20 Hm)) as [Hh1 Hh2].
  fold (hmac_sha1 key (before 20 m)). rewrite Hh1.
  change (20 =? kStunMessageIntegritySize)%nat with true. cbn [negb]. split.
  - f_equal. unfold update_attr. change (attrs_ (add mi m)) with (attrs_ m ++ [mi]).
    rewrite update_last. unfold CopyBytes, SetBytes. rewrite Hh1. done.
  - apply add_ok; [done|by apply integrity_ok|by destruct c|].
    change (padded _) with 20. lia.
Qed.

Lemma BE16_at_app p v q pos : length p = pos -> is_u 16 v -> BE16_at (p ++ be_bytes 2 v ++ q) pos = Some v.
Proof.
  intros Hp Hv. unfold BE16_at. rewrite !length_app, length_be_bytes.
  rewrite (proj2 (Nat.leb_le _ _)) by lia. f_equal. apply GetBE16_at; [|done].
  by apply mem_read_app_l.
Qed.

(** The reads at the start of an attribute. *)
Lemma attr_reads tid a p q : attr_ok tid a ->
  let data := p ++ enc_attr tid a ++ q in
  (length p <? length data)%nat = true /\
  BE16_at data (length p) = Some (attr_type a) /\
  BE16_at data (length p + 2) = Some (attr_length a) /\
  Z.of_nat (length data) = Z.of_nat (length p) + (4 + padded (attr_length a)) + Z.of_nat (length q).
Proof.
  intros Ha data. pose proof (length_enc_attr tid a Ha) as HL. pose proof Ha as (Ht & Hl & _).
  assert (Hlen : Z.of_nat (length data) =
    Z.of_nat (length p) + (4 + padded (attr_length a)) + Z.of_nat (length q))
    by (unfold data; rewrite !length_app; lia).
  destruct (padded_bounds (attr_length a)) as [Hp _]; [apply Hl|]. unfold is_u in Hl.
  split_and!; [apply Nat.ltb_lt; lia| | |done].
  - unfold data, enc_attr. rewrite <- !app_assoc. by apply BE16_at_app.
  - unfold data, enc_attr. rewrite <- !app_assoc, (app_assoc p).
    apply BE16_at_app; [by rewrite length_app, length_be_bytes|done].
Qed.

(** Where the attribute after [a] starts. *)
Lemma next_pos tid a p : attr_ok tid a ->
  (if negb (attr_length a mod 4 =? 0)
   then (length p + 4 + Z.to_nat (attr_length a) + Z.to_nat (4 - attr_length a mod 4))%nat
   else (length p + 4 + Z.to_nat (attr_length a))%nat) = length (p ++ enc_attr tid a).
Proof.
  intros Ha. pose proof (length_enc_attr tid a Ha) as HL. destruct Ha as (_ & Hl & _).
  unfold is_u, padded in *. rewrite length_app.
  destruct (Z.eqb_spec (attr_length a mod 4) 0) as [E|E]; cbn [negb].
  - rewrite E in HL. change ((4 - 0) mod 4) with 0 in HL. lia.
  - rewrite (Z.mod_small (4 - _)) in HL by dlia. dlia.
Qed.

Lemma find_integrity_spec tid l1 a l2 : Forall (attr_ok tid) l1 ->
  Forall (fun x => attr_type x <> STUN_ATTR_MESSAGE_INTEGRITY) l1 ->
  attr_ok tid a -> attr_type a = STUN_ATTR_MESSAGE_INTEGRITY -> attr_length a = 20 ->
  forall fuel p, (length l1 < fuel)%nat ->
  find_integrity fuel (p ++ enc_attrs tid (l1 ++ a :: l2)) (length p) =
  Some (inl (length p + length (enc_attrs tid l1))%nat).
Proof.
  intros Hl1 Hn Ha Hty Hlen. induction Hl1 as [|x l1 Hx Hl1 IH]; intros fuel p Hf;
    (destruct fuel as [|fuel]; [lia|]); cbn [find_integrity app]; rewrite enc_attrs_cons.
  - destruct (attr_reads tid a p (enc_attrs tid l2) Ha) as (-> & -> & -> & HL).
    rewrite Hlen in *. rewrite Hty. change (padded 20) with 20 in HL.
    change (STUN_ATTR_MESSAGE_INTEGRITY =? STUN_ATTR_MESSAGE_INTEGRITY) with true.
    change (20 =? Z.of_nat kStunMessageIntegritySize) with true. cbn [negb orb].
    rewrite (proj2 (Nat.ltb_ge _ _)) by lia.
    change (length (enc_attrs tid [])) with 0%nat. by rewrite Nat.add_0_r.
  - apply Forall_cons in Hn as [Hnx Hn].
    destruct (attr_reads tid x p (enc_attrs tid (l1 ++ a :: l2)) Hx) as (-> & -> & -> & _).
    rewrite (proj2 (Z.eqb_neq _ _) Hnx), (next_pos tid x p Hx), app_assoc.
    rewrite IH by (done || cbn in Hf; lia). rewrite enc_attrs_cons, !length_app. do 2 f_equal. lia.
Qed.

(** Correcting the length field of the header. *)
Lemma header_fix ty n n' tid q :
  mem_write (header ty n tid ++ q) 2 (be_bytes 2 n') = header ty n' tid ++ q.
Proof.
  unfold mem_write, header. rewrite <- !app_assoc.
  rewrite take_app_length' by (by rewrite length_be_bytes).
  rewrite drop_app_ge by (rewrite !length_be_bytes; lia). rewrite !length_be_bytes.
  rewrite drop_app_length' by (by rewrite length_be_bytes). done.
Qed.

Lemma Validate_spec ty tid l1 l2 key : tid_ok tid -> bytes_ok key -> Forall (attr_ok tid) (l1 ++ l2) ->
  Forall (fun x => attr_type x <> STUN_ATTR_MESSAGE_INTEGRITY) l1 ->
  let n1 := Z.of_nat (length (enc_attrs tid l1)) + 24 in
  let mi := integrity_attr key (header ty n1 tid ++ enc_attrs tid l1) in
  let n := n1 + Z.of_nat (length (enc_attrs tid l2)) in
  n < 2 ^ 16 ->
  ValidateMessageIntegrity (header ty n tid ++ enc_attrs tid (l1 ++ mi :: l2)) key = Some true.
Proof.
  intros Ht Hk Hl Hno n1 mi n Hn. apply Forall_app in Hl as [Hl1 Hl2].
  assert (Htext : bytes_ok (header ty n1 tid ++ enc_attrs tid l1)).
  { apply bytes_ok_app. split; [by apply header_ok|]. by apply enc_attrs_ok; [|apply Ht]. }
  destruct (hmac_sha1_ok key _ Hk Htext) as [Hh1 Hh2].
  assert (Hmi : attr_ok tid mi) by (by apply integrity_ok).
  pose proof (length_enc_attr tid mi Hmi) as Lmi. change (padded (attr_length mi)) with 20 in Lmi.
  set (data := header ty n tid ++ enc_attrs tid (l1 ++ mi :: l2)).
  assert (Hdata : data = (header ty n tid ++ enc_attrs tid l1) ++ enc_attr tid mi ++ enc_attrs tid l2)
    by (unfold data; by rewrite enc_attrs_app, enc_attrs_cons, app_assoc).
  assert (Hlen : Z.of_nat (length data) = 20 + n)
    by (rewrite Hdata, !length_app, length_header by done; lia).
  assert (Hm4 : (length data mod 4 = 0)%nat).
  { unfold data. rewrite length_app, length_header, Nat.Div0.add_mod, enc_attrs_mult; [done| |done].
    apply Forall_app. split; [done|by apply List.Forall_cons]. }
  unfold ValidateMessageIntegrity. rewrite Hm4. cbn [Nat.eqb negb].
  assert (Hr : BE16_at data 2 = Some n).
  { unfold data, header. rewrite <- !app_assoc. apply BE16_at_app; [done|unfold is_u; lia]. }
  rewrite Hr. change kStunHeaderSize with 20%nat.
  rewrite (proj2 (Nat.eqb_eq (length data) _)) by lia. cbn [negb].
  assert (Hf : find_integrity (length data) data 20 = Some (inl (20 + length (enc_attrs tid l1))%nat)).
  { unfold data at 2. rewrite <- (length_header ty n tid Ht) at 1 2.
    apply find_integrity_spec; try done. pose proof (enc_attrs_count tid l1 Hl1). lia. }
  rewrite Hf. set (pos := (20 + length (enc_attrs tid l1))%nat) in *.
  assert (Htake : take pos data = header ty n tid ++ enc_attrs tid l1)
    by (rewrite Hdata; apply take_app_length'; by rewrite length_app, length_header).
  rewrite Htake. change kStunAttributeHeaderSize with 4%nat. change kStunMessageIntegritySize with 20%nat.
  match goal with |- context [MessageDigest.ComputeHmac_alg _ _ ?t _] =>
    replace t with (header ty n1 tid ++ enc_attrs tid l1) end.
  - change (MessageDigest.ComputeHmac_alg MessageDigest.DIGEST_SHA_1 key ?t 20) with (hmac_sha1 key t).
    rewrite Hh1. cbn [Nat.eqb negb]. unfold memcmp_at.
    rewrite (proj2 (Nat.leb_le _ _)) by lia. f_equal. apply bool_decide_true.
    rewrite Hdata. unfold enc_attr. change (body tid mi) with (hmac_sha1 key (header ty n1 tid ++ enc_attrs tid l1) ++ []).
    rewrite app_nil_r, <- !app_assoc, (app_assoc _ (be_bytes 2 (attr_type mi))), (app_assoc _ (be_bytes 2 _)).
    rewrite !app_assoc, <- (app_assoc _ (hmac_sha1 _ _)).
    apply mem_read_app_l; [|done]. rewrite !length_app, length_header, !length_be_bytes by done. lia.
  - destruct (Nat.ltb_spec (pos + 4 + 20) (length data)) as [Hlt|Hge].
    + rewrite SetBE16_be. replace (u16 _) with n1; [by rewrite header_fix|].
      unfold u16. rewrite wrap_small by (unfold is_u; lia). lia.
    + f_equal. unfold n. replace (length (enc_attrs tid l2)) with 0%nat; [|lia]. f_equal. lia.
Qed.

Lemma Validate_msg c key m l2 : msg_ok c m -> bytes_ok key ->
  Forall (fun a => attr_type a <> STUN_ATTR_MESSAGE_INTEGRITY) (attrs_ m) ->
  Forall (attr_ok (transaction_id_ m)) l2 ->
  length_ m + 24 + Z.of_nat (length (enc_attrs (transaction_id_ m) l2)) < 2 ^ 16 ->
  ValidateMessageIntegrity (enc_msg (mkmsg (type_ m)
      (length_ m + 24 + Z.of_nat (length (enc_attrs (transaction_id_ m) l2))) (transaction_id_ m)
      (attrs_ m ++ integrity_attr key (before 20 m) :: l2))) key = Some true.
Proof.
  intros [Hty Ht Ha Hc Hl Hb] Hk Hno Hl2 Hlt. unfold enc_msg. cbn [type_ length_ transaction_id_ attrs_].
  pose proof (Validate_spec (type_ m) (transaction_id_ m) (attrs_ m) l2 key Ht Hk) as HV.
  cbv zeta in HV. rewrite <- Hl in HV. unfold before.
  replace (length_ m + 4 + padded 20) with (length_ m + 24) by (change (padded 20) with 20; lia).
  apply HV; [by apply Forall_app|done|done].
Qed.

(** A message with integrity, and then with a fingerprint. *)
Lemma with_both c key m : msg_ok c m -> bytes_ok key ->
  length (transaction_id_ m) = 12%nat -> length_ m + 32 < 2 ^ 16 ->
  Forall (fun a => attr_type a <> STUN_ATTR_MESSAGE_INTEGRITY) (attrs_ m) ->
  let m1 := with_integrity key m in let m2 := with_fingerprint m1 in
  AddMessageIntegrity c key m = (true, m1) /\ AddFingerprint c m1 = (true, m2) /\ msg_ok c m1 /\ msg_ok c m2 /\
  ValidateMessageIntegrity (enc_msg m1) key = Some true /\
  ValidateMessageIntegrity (enc_msg m2) key = Some true /\ ValidateFingerprint (enc_msg m2) = true.
Proof.
  intros Hm Hk Htid Hlt Hno. cbv zeta. pose proof Hm as [Hty Ht Ha Hc Hl Hb].
  destruct (AddMessageIntegrity_eq c key m Hm Hk) as [E1 Hm1]; [lia|].
  assert (Hl1 : length_ (with_integrity key m) = length_ m + 24) by (cbn; change (padded 20) with 20; lia).
  destruct (AddFingerprint_eq c _ Hm1) as [E2 Hm2]; [lia|].
  set (fp := new_uint32 STUN_ATTR_FINGERPRINT (fingerprint (with_integrity key m))).
  assert (Hfp : attr_ok (transaction_id_ m) fp)
    by (apply uint32_ok; [by split|by eapply fingerprint_range]).
  split_and!; [done|done|done|done| | |by eapply ValidateFingerprint_with].
  - replace (enc_msg (with_integrity key m)) with (enc_msg (mkmsg (type_ m)
      (length_ m + 24 + Z.of_nat (length (enc_attrs (transaction_id_ m) []))) (transaction_id_ m)
      (attrs_ m ++ integrity_attr key (before 20 m) :: []))).
    + apply (Validate_msg c key m []); auto. cbn; lia.
    + unfold with_integrity, add. change (padded _) with 20. do 2 f_equal. cbn; lia.
  - replace (enc_msg (with_fingerprint _)) with (enc_msg (mkmsg (type_ m)
      (length_ m + 24 + Z.of_nat (length (enc_attrs (transaction_id_ m) [fp]))) (transaction_id_ m)
      (attrs_ m ++ integrity_attr key (before 20 m) :: [fp]))).
    + apply (Validate_msg c key m [fp]); auto.
      rewrite enc_attrs_one, length_enc_attr by done. change (padded (attr_length fp)) with 4. lia.
    + rewrite enc_attrs_one, length_enc_attr by done. change (padded (attr_length fp)) with 4.
      unfold with_fingerprint, add. fold fp. change (padded (attr_length fp)) with 4.
      change (attrs_ (with_integrity key m)) with (attrs_ m ++ [integrity_attr key (before 20 m)]).
      rewrite Hl1, <- app_assoc. f_equal. f_equal. lia.
Qed.

(** C38: what the operations add, the checks accept: for every well-formed RFC
    5389 message without MESSAGE-INTEGRITY and with room for 32 more bytes,
    AddMessageIntegrity and then AddFingerprint succeed and keep the message
    well formed; the packet written after the first has a valid message
    integrity for the key, and the packet written after both still has (the
    checker corrects the header length for what follows) and has a valid
    fingerprint. *)
Theorem integrity_and_fingerprint c key m : msg_ok c m -> bytes_ok key ->
  length (transaction_id_ m) = 12%nat -> length_ m + 32 < 2 ^ 16 ->
  Forall (fun a => attr_type a <> STUN_ATTR_MESSAGE_INTEGRITY) (attrs_ m) ->
  exists m1 m2, AddMessageIntegrity c key m = (true, m1) /\ AddFingerprint c m1 = (true, m2) /\
    msg_ok c m1 /\ msg_ok c m2 /\
    ValidateMessageIntegrity (enc_msg m1) key = Some true /\
    ValidateMessageIntegrity (enc_msg m2) key = Some true /\
    ValidateFingerprint (enc_msg m2) = true.
Proof.
  intros Hm Hk Htid Hlt Hno. exists (with_integrity key m), (with_fingerprint (with_integrity key m)). by apply with_both.
Qed.

(** ** XOR addresses *)

(** XOR addresses are those of RFC 5389: GetXoredIP is the bytewise
    exclusive or of the address with the magic cookie followed by the
    transaction id (for IPv4 with the cookie alone), of the same family, and
    is its own inverse; without an owner, a family, or for IPv6 a 96-bit
    transaction id, the result is the nil address. *)
Theorem GetXoredIP_spec tid ip : ip_ok ip -> bytes_ok tid ->
  GetXoredIP false tid ip = ip_nil /\
  (family_ ip = AF_INET ->
     GetXoredIP true tid ip = ip_of_v4 (xor_bytes (ipv4_address ip) (be_bytes 4 kStunMagicCookie)) /\
     ip_eqb (GetXoredIP true tid (GetXoredIP true tid ip)) ip = true) /\
  (family_ ip = AF_INET6 ->
     if (length tid =? 12)%nat then
       GetXoredIP true tid ip = ip_of_v6 (xor_bytes (u_ ip) (be_bytes 4 kStunMagicCookie ++ tid)) /\
       GetXoredIP true tid (GetXoredIP true tid ip) = ip
     else GetXoredIP true tid ip = ip_nil) /\
  (family_ ip = AF_UNSPEC -> GetXoredIP true tid ip = ip_nil).
Proof.
  intros Hok Ht. destruct (v4_ok ip Hok) as [L4 O4]. pose proof Hok as [L16 O16].
  assert (Lc : length (be_bytes 4 kStunMagicCookie) = 4%nat) by apply length_be_bytes.
  split; [done|]. split_and!; intros Hf.
  - assert (Hx : forall ip', ip_ok ip' -> family_ ip' = AF_INET -> GetXoredIP true tid ip' =
      ip_of_v4 (xor_bytes (ipv4_address ip') (be_bytes 4 kStunMagicCookie))).
    { intros ip' Hok' Hf'. rewrite GetXoredIP_xor by (done || by rewrite Hf'). rewrite Hf'.
      unfold ip_bytes. rewrite Hf'. cbn [ip_build]. unfold xor_mask.
      destruct (v4_ok ip' Hok') as [L4' _].
      by rewrite xor_bytes_app_r by (by rewrite length_be_bytes). }
    rewrite Hx by done. split; [done|].
    assert (Hlx : length (xor_bytes (ipv4_address ip) (be_bytes 4 kStunMagicCookie)) = 4%nat)
      by (rewrite length_xor_bytes by lia; done).
    rewrite Hx; [|apply (ip_build_ok AF_INET); [by apply xor_bytes_ok; [|apply be_bytes_ok]|done]|done].
    rewrite ipv4_of_v4, xor_bytes_twice by lia. unfold ip_eqb. cbn [family_ ip_of_v4].
    rewrite Hf, bool_decide_true by done. cbn [negb]. by apply bool_decide_true, ipv4_of_v4.
  - destruct (Nat.eqb_spec (length tid) 12) as [Htl|Htl].
    + rewrite (GetXoredIP_xor ip) by (done || by rewrite Hf). unfold ip_bytes. rewrite Hf.
      cbn [ip_build]. split; [done|].
      assert (Hm : length (xor_mask tid) = 16%nat) by (unfold xor_mask; rewrite length_app; lia).
      assert (Hxo : bytes_ok (xor_bytes (ipv6_address ip) (xor_mask tid)))
        by (apply xor_bytes_ok; [done|apply bytes_ok_app; split; [apply be_bytes_ok|done]]).
      assert (Hlx : length (xor_bytes (ipv6_address ip) (xor_mask tid)) = 16%nat)
        by (rewrite length_xor_bytes by (unfold ipv6_address; lia); done).
      rewrite GetXoredIP_xor; [|by apply (ip_build_ok AF_INET6)|done|done|done].
      cbn [family_ ip_of_v6 ip_bytes ip_build ipv6_address u_]. unfold ip_bytes.
      cbn [family_ ip_of_v6]. unfold ipv6_address at 1. cbn [u_ ip_of_v6].
      rewrite xor_bytes_twice by (unfold ipv6_address; lia).
      destruct ip; cbn in *; by subst.
    + unfold GetXoredIP. rewrite Hf. unfold kStunTransactionIdLength.
      by rewrite (proj2 (Nat.eqb_neq _ _) Htl).
  - unfold GetXoredIP. by rewrite Hf.
Qed.

(** ** Message types *)

Lemma land_pow2 t k : 0 <= k -> Z.land t (2 ^ k) = if Z.testbit t k then 2 ^ k else 0.
Proof.
  intros Hk. apply Z.bits_inj'. intros n Hn. rewrite Z.land_spec, Z.pow2_bits_eqb by done.
  destruct (Z.eqb_spec k n) as [<-|Hne].
  - rewrite andb_true_r. destruct (Z.testbit t k); [|by rewrite Z.bits_0].
    by rewrite Z.pow2_bits_true.
  - rewrite andb_false_r. destruct (Z.testbit t k); [|by rewrite Z.bits_0].
    symmetry. by apply Z.pow2_bits_false.
Qed.

Lemma land_type_mask t : Z.land t kStunTypeMask =
  (if Z.testbit t 4 then 0x10 else 0) + (if Z.testbit t 8 then 0x100 else 0).
Proof.
  change kStunTypeMask with (Z.lor (2 ^ 4) (2 ^ 8)). rewrite Z.land_lor_distr_r, !land_pow2 by lia.
  by destruct (Z.testbit t 4), (Z.testbit t 8).
Qed.

Lemma response_bits t r : Z.land t kStunTypeMask = 0 -> Z.land r kStunTypeMask = r ->
  Z.land (Z.lor t r) kStunTypeMask = r /\ Z.ldiff (Z.lor t r) kStunTypeMask = t.
Proof.
  intros Ht Hr. split; [by rewrite Z.land_lor_distr_l, Ht, Hr|].
  apply Z.bits_inj'. intros n Hn. rewrite Z.ldiff_spec, Z.lor_spec.
  apply (f_equal (fun z => Z.testbit z n)) in Ht, Hr. rewrite Z.land_spec in Ht, Hr.
  rewrite Z.bits_0 in Ht.
  destruct (Z.testbit t n), (Z.testbit r n), (Z.testbit kStunTypeMask n); done.
Qed.

(** the four classes of message types partition them; the response types
    of a request are of the success and error classes and keep its method (all
    other bits), and there are none for anything but a request. *)
Theorem message_types t :
  (Nat.b2n (IsStunRequestType t) + Nat.b2n (IsStunIndicationType t) +
   Nat.b2n (IsStunSuccessResponseType t) + Nat.b2n (IsStunErrorResponseType t) = 1)%nat /\
  (if IsStunRequestType t
   then IsStunSuccessResponseType (GetStunSuccessResponseType t) = true /\
        IsStunErrorResponseType (GetStunErrorResponseType t) = true /\
        Z.ldiff (GetStunSuccessResponseType t) kStunTypeMask = t /\
        Z.ldiff (GetStunErrorResponseType t) kStunTypeMask = t
   else GetStunSuccessResponseType t = -1 /\ GetStunErrorResponseType t = -1).
Proof.
  unfold GetStunSuccessResponseType, GetStunErrorResponseType, IsStunRequestType,
    IsStunIndicationType, IsStunSuccessResponseType, IsStunErrorResponseType.
  split; [rewrite land_type_mask; by destruct (Z.testbit t 4), (Z.testbit t 8)|].
  destruct (Z.eqb_spec (Z.land t kStunTypeMask) 0) as [E|E]; [|done].
  destruct (response_bits t 0x100 E eq_refl) as [-> ->].
  destruct (response_bits t 0x110 E eq_refl) as [-> ->]. done.
Qed.

(** ** The bounds of ValidateMessageIntegrity *)

Lemma BE16_range data pos v : bytes_ok data -> BE16_at data pos = Some v -> is_u 16 v.
Proof.
  intros Hd. unfold BE16_at. destruct (Nat.leb_spec (pos + 2) (length data)); [|done].
  intros [= <-]. assert (Hok : bytes_ok (mem_read data pos 2)) by (by apply mem_read_ok).
  assert (Hl : length (mem_read data pos 2) = 2%nat) by (by apply length_mem_read).
  rewrite GetBE16_be by done. pose proof (be_val_range _ Hok) as R. by rewrite Hl in R.
Qed.

Lemma BE16_inside data pos : (pos + 2 <= length data)%nat -> exists v, BE16_at data pos = Some v.
Proof. intros Hl. unfold BE16_at. rewrite (proj2 (Nat.leb_le _ _) Hl). eauto. Qed.

Lemma mult4 a : (a mod 4 = 0)%nat -> exists k, a = (4 * k)%nat.
Proof. intros Ha. exists (a / 4)%nat. pose proof (Nat.div_mod_eq a 4). lia. Qed.

(** The scan stays inside a packet of whole words, and an attribute it finds
    has room for its 20 bytes counted from its header. *)
Lemma find_integrity_bounds fuel data pos : bytes_ok data ->
  (length data mod 4 = 0)%nat -> (pos mod 4 = 0)%nat ->
  match find_integrity fuel data pos with
  | None => False
  | Some (inl p) => (pos <= p)%nat /\ (p mod 4 = 0)%nat /\ (p + 20 <= length data)%nat
  | Some (inr b) => b = false
  end.
Proof.
  intros Hd Hm. revert pos. induction fuel as [|fuel IH]; intros pos Hp; [done|].
  cbn [find_integrity]. destruct (Nat.ltb_spec pos (length data)) as [Hlt|]; [|done].
  assert (Hroom : (pos + 4 <= length data)%nat) by (destruct (mult4 _ Hm), (mult4 _ Hp); lia).
  destruct (BE16_inside data pos) as [ty Ety]; [lia|]. rewrite Ety.
  destruct (BE16_inside data (pos + 2)) as [len Elen]; [lia|]. rewrite Elen.
  pose proof (BE16_range _ _ _ Hd Elen) as Hlen. unfold is_u in Hlen.
  destruct (ty =? STUN_ATTR_MESSAGE_INTEGRITY).
  - destruct (Z.eqb_spec len (Z.of_nat kStunMessageIntegritySize)) as [->|]; cbn [negb orb]; [|done].
    change (Z.to_nat (Z.of_nat kStunMessageIntegritySize)) with 20%nat.
    destruct (Nat.ltb_spec (length data) (pos + 20)); [done|]. auto.
  - set (pos' := if negb (len mod 4 =? 0) then _ else _).
    assert (Hp' : (pos' mod 4 = 0)%nat /\ (pos <= pos')%nat).
    { unfold pos'. destruct (Z.eqb_spec (len mod 4) 0); cbn [negb];
        (split; [|lia]); apply Nat2Z.inj; rewrite Nat2Z.inj_mod;
        apply (f_equal Z.of_nat) in Hp; rewrite Nat2Z.inj_mod in Hp;
        change (Z.of_nat 4) with 4 in *; change (Z.of_nat 0) with 0 in *; dlia. }
    destruct Hp' as [Hp' Hle]. specialize (IH pos' Hp'). clearbody pos'.
    destruct (find_integrity fuel data pos') as [[p|b]|]; [|done|done].
    destruct IH as (? & ? & ?). split_and!; [lia|done|done].
Qed.

(** C39: memory safety of ValidateMessageIntegrity on arbitrary bytes: the scan
    never reads outside the packet, and the function as a whole does so in
    exactly two cases: the empty packet (its length field is read), and a
    packet of consistent length whose first MESSAGE-INTEGRITY attribute
    declares 20 bytes and has only 16 left (the bound check forgets the four
    header bytes, and memcmp reads four bytes past the end). *)
Theorem integrity_bounds data key : bytes_ok data -> bytes_ok key ->
  (length data mod 4 = 0 -> data <> [] -> find_integrity (length data) data 20 <> None)%nat /\
  (ValidateMessageIntegrity data key = None <->
   data = [] \/
   (length data mod 4 = 0)%nat /\
   BE16_at data 2 = Some (Z.of_nat (length data) - 20) /\
   exists pos, find_integrity (length data) data 20 = Some (inl pos) /\ (pos + 20 = length data)%nat).
Proof.
  intros Hd Hk. split.
  { intros Hm _ E. pose proof (find_integrity_bounds (length data) data 20 Hd Hm eq_refl) as HB.
    by rewrite E in HB. }
  unfold ValidateMessageIntegrity.
  destruct (Nat.eqb_spec (length data mod 4) 0) as [Hm|Hm]; cbn [negb].
  2: { split; [done|]. intros [->|[? _]]; [|done]. by destruct Hm. }
  destruct (decide (data = [])) as [->|Hne]; [by split; [left|]|].
  assert (Hroom : (4 <= length data)%nat)
    by (assert (length data <> 0%nat) by (by intros ?%nil_length_inv); destruct (mult4 _ Hm); lia).
  destruct (BE16_inside data 2) as [n En]; [lia|]. rewrite En.
  pose proof (BE16_range _ _ _ Hd En) as Hn. unfold is_u in Hn. change kStunHeaderSize with 20%nat.
  destruct (Nat.eqb_spec (length data) (Z.to_nat n + 20)) as [El|El]; cbn [negb].
  2: { split; [done|]. intros [?|(_ & [= Heq] & _)]; [done|]. lia. }
  pose proof (find_integrity_bounds (length data) data 20 Hd Hm eq_refl) as HB.
  destruct (find_integrity (length data) data 20) as [[pos|b]|] eqn:Ef; [| |done].
  2: { split; [done|]. intros [?|(_ & _ & pos & [=] & _)]; done. }
  destruct HB as (Hpos & Hp4 & Hin).
  match goal with |- context [MessageDigest.ComputeHmac_alg _ _ ?t ?n] =>
    change (MessageDigest.ComputeHmac_alg MessageDigest.DIGEST_SHA_1 key t n) with (hmac_sha1 key t);
    destruct (hmac_sha1_ok key t Hk) as [Hh _] end.
  { assert (bytes_ok (take pos data)) by (by apply Forall_take).
    destruct (_ <? _)%nat; [|done]. apply mem_write_ok; [done|].
    rewrite SetBE16_be. apply be_bytes_ok. }
  rewrite Hh. cbn [Nat.eqb negb kStunMessageIntegritySize]. unfold memcmp_at.
  change kStunAttributeHeaderSize with 4%nat. change kStunMessageIntegritySize with 20%nat.
  destruct (Nat.leb_spec (pos + 4 + 20) (length data)) as [Hle|Hgt].
  - split; [done|]. intros [?|(_ & _ & p & [= ->] & ?)]; [done|lia].
  - split; [intros _|done]. right. split_and!; [done|f_equal; lia|].
    exists pos. split; [done|]. destruct (mult4 _ Hm), (mult4 _ Hp4). lia.
Qed.

(** ** Reading arbitrary packets *)

(** [b'] is a well-formed buffer with at most [n] bytes. *)
Definition left (n : nat) (b' : buffer) : Prop := ByteBuffer.wf b' /\ (ByteBuffer.Length b' <= n)%nat.

Definition reads {A} (r : option (A * buffer)) (n : nat) : Prop :=
  match r with Some (_, b') => left n b' | None => True end.

Lemma reads_bytes b n k : left k b -> reads (ByteBuffer.ReadBytes b n) (k - n).
Proof.
  intros [Hb Hk]. pose proof (ByteBuffer.ReadBytes_spec b n Hb) as HR. unfold reads.
  destruct (ByteBuffer.ReadBytes b n) as [[m b']|]; [|done].
  destruct HR as (Hn & Hb' & Hc & Hl & _). split; [done|].
  apply (f_equal length) in Hc. rewrite length_app, !ByteBuffer.length_contents in Hc by done. lia.
Qed.
Lemma reads_enc b n k : left k b -> reads (ByteBuffer.read_enc b n) (k - n).
Proof.
  intros Hb. pose proof (reads_bytes b n k Hb) as HR. unfold ByteBuffer.read_enc.
  by destruct (ByteBuffer.ReadBytes b n) as [[m b']|].
Qed.
Lemma reads_8 b k : left k b -> reads (ByteBuffer.ReadUInt8 b) (k - 1).
Proof. intros Hb. rewrite ByteBuffer.ReadUInt8_dec by apply Hb. by apply reads_enc. Qed.
Lemma reads_16 b k : left k b -> reads (ByteBuffer.ReadUInt16 b) (k - 2).
Proof. intros Hb. rewrite ByteBuffer.ReadUInt16_dec by apply Hb. by apply reads_enc. Qed.
Lemma reads_32 b k : left k b -> reads (ByteBuffer.ReadUInt32 b) (k - 4).
Proof. intros Hb. rewrite ByteBuffer.ReadUInt32_dec by apply Hb. by apply reads_enc. Qed.
Lemma reads_64 b k : left k b -> reads (ByteBuffer.ReadUInt64 b) (k - 8).
Proof. intros Hb. rewrite ByteBuffer.ReadUInt64_dec by apply Hb. by apply reads_enc. Qed.
Lemma reads_string b s n k : left k b -> reads (ByteBuffer.ReadString b s n) (k - n).
Proof.
  intros Hb. pose proof (reads_bytes b n k Hb) as HR. rewrite ByteBuffer.ReadString_ReadBytes.
  by destruct (ByteBuffer.ReadBytes b n) as [[m b']|].
Qed.
Lemma left_consume b n k : left k b ->
  match ByteBuffer.Consume b n with Some b' => left k b' | None => True end.
Proof.
  intros [Hb Hk]. pose proof (ByteBuffer.Consume_spec b n Hb) as HC.
  destruct (ByteBuffer.Consume b n) as [b'|]; [|done]. destruct HC as (_ & Hb' & Hc & _).
  split; [done|]. apply (f_equal length) in Hc.
  rewrite length_drop, !ByteBuffer.length_contents in Hc by done. lia.
Qed.
Lemma left_padding a b k : left k b -> left k (ConsumePadding a b).
Proof.
  intros Hb. unfold ConsumePadding. destruct (0 <? _); [|done].
  pose proof (left_consume b (Z.to_nat (4 - attr_length a mod 4)) k Hb) as HC.
  by destruct (ByteBuffer.Consume b _).
Qed.
Lemma left_weaken b k n : left k b -> (k <= n)%nat -> left n b.
Proof. intros [? ?] ?. split; [done|lia]. Qed.

(** Case analysis on the next read of the goal. *)
Ltac read_step :=
  match goal with
  | |- context [match ByteBuffer.ReadUInt8 ?b with _ => _ end] =>
      let R := fresh "R" in epose proof (reads_8 b _ ltac:(eassumption)) as R;
      destruct (ByteBuffer.ReadUInt8 b) as [[? ?]|]; cbn [reads] in R
  | |- context [match ByteBuffer.ReadUInt16 ?b with _ => _ end] =>
      let R := fresh "R" in epose proof (reads_16 b _ ltac:(eassumption)) as R;
      destruct (ByteBuffer.ReadUInt16 b) as [[? ?]|]; cbn [reads] in R
  | |- context [match ByteBuffer.ReadUInt32 ?b with _ => _ end] =>
      let R := fresh "R" in epose proof (reads_32 b _ ltac:(eassumption)) as R;
      destruct (ByteBuffer.ReadUInt32 b) as [[? ?]|]; cbn [reads] in R
  | |- context [match ByteBuffer.ReadUInt64 ?b with _ => _ end] =>
      let R := fresh "R" in epose proof (reads_64 b _ ltac:(eassumption)) as R;
      destruct (ByteBuffer.ReadUInt64 b) as [[? ?]|]; cbn [reads] in R
  | |- context [match ByteBuffer.ReadBytes ?b ?n with _ => _ end] =>
      let R := fresh "R" in epose proof (reads_bytes b n _ ltac:(eassumption)) as R;
      destruct (ByteBuffer.ReadBytes b n) as [[? ?]|]; cbn [reads] in R
  | |- context [match ByteBuffer.ReadString ?b ?s ?n with _ => _ end] =>
      let R := fresh "R" in epose proof (reads_string b s n _ ltac:(eassumption)) as R;
      destruct (ByteBuffer.ReadString b s n) as [[? ?]|]; cbn [reads] in R
  end.

(** What reading an attribute never changes. *)
Definition kept (k : nat) (a : StunAttribute) (r : bool * StunAttribute * buffer) : Prop :=
  left k r.2 /\ attr_type r.1.2 = attr_type a /\ value_type r.1.2 = value_type a.

Lemma SetAddress_kept addr a :
  value_type a = STUN_VALUE_ADDRESS \/ value_type a = STUN_VALUE_XOR_ADDRESS ->
  attr_type (SetAddress addr a) = attr_type a /\ value_type (SetAddress addr a) = value_type a.
Proof.
  unfold SetAddress, value_type. destruct a as [t l v]; cbn [value_].
  by destruct v; cbn; intros [?|?].
Qed.

Ltac kept_tac := repeat first [read_step | split_if]; unfold kept; cbn [fst snd];
  (split; [try apply left_padding; eapply left_weaken; [eassumption|lia]|]).

Lemma Address_Read_kept a b k : left k b ->
  value_type a = STUN_VALUE_ADDRESS \/ value_type a = STUN_VALUE_XOR_ADDRESS ->
  kept k a (Address_Read a b).
Proof.
  intros Hb Hv. unfold Address_Read. kept_tac; try done; by apply SetAddress_kept.
Qed.

Lemma read_types_left n types b k : left k b -> left k (read_types n types b).2.
Proof.
  revert types b k; induction n as [|n IH]; intros types b k Hb; cbn [read_types]; [done|].
  read_step; [|done]. apply IH. eapply left_weaken; [eassumption|lia].
Qed.

Lemma attr_Read_kept tid a b k : left k b -> kept k a (attr_Read tid a b).
Proof.
  intros Hb. unfold attr_Read.
  destruct (value_ a) as [addr|addr owner|bits|bits|s|class number reason|types] eqn:Hv.
  - apply Address_Read_kept; [done|]. left. unfold value_type. by rewrite Hv.
  - unfold XorAddress_Read.
    assert (Hvt : value_type a = STUN_VALUE_XOR_ADDRESS) by (unfold value_type; by rewrite Hv).
    destruct (Address_Read_kept a b k Hb (or_intror Hvt)) as (HL & Ht & Hvt').
    destruct (Address_Read a b) as [[ok a'] b']. cbn [fst snd] in *.
    destruct ok; cbn [negb]; [|by split_and!]. split; [done|]. cbn [fst snd].
    destruct (SetAddress_kept (sa_of_ip (GetXoredIP owner tid (ip_ (GetSocketAddress a')))
      (xored_port (port_ (GetSocketAddress a')))) a') as [E1 E2]; [right; congruence|]. by rewrite E1, E2.
  - kept_tac; by unfold value_type; rewrite ?Hv.
  - kept_tac; by unfold value_type; rewrite ?Hv.
  - unfold ByteString_Read. kept_tac; by unfold value_type; rewrite ?Hv.
  - unfold ErrorCode_Read. kept_tac; by unfold value_type; rewrite ?Hv.
  - unfold UInt16List_Read. destruct (negb _); [by unfold kept|].
    pose proof (read_types_left (Z.to_nat (attr_length a / 2))
      (match value_ a with StunUInt16ListAttribute types => types | _ => [] end) b k Hb) as HL.
    destruct (read_types _ _ b) as [[ok types'] b']. cbn [snd] in HL.
    destruct ok; cbn [negb]; (split; [by try apply left_padding|]);
      unfold value_type; by rewrite Hv.
Qed.

(** Every attribute has the class the message type gives its number. *)
Definition typed (c : message_class) (m : StunMessage) : Prop :=
  Forall (fun a => value_type a = GetAttributeValueType c (attr_type a)) (attrs_ m).

Lemma Create_typed vt ty len owner a : Create vt ty len owner = Some a ->
  value_type a = vt /\ attr_type a = ty.
Proof. by destruct vt; intros [= <-]. Qed.

(** With more fuel than bytes the loop ends by itself. *)
Lemma read_attrs_more c rest m b fuel fuel' :
  ByteBuffer.wf b -> (ByteBuffer.Length b < fuel)%nat -> (fuel <= fuel')%nat ->
  read_attrs c fuel rest m b = read_attrs c fuel' rest m b.
Proof.
  revert m b fuel'; induction fuel as [|fuel IH]; intros m b fuel' Hb Hf Hle; [lia|].
  destruct fuel' as [|fuel']; [lia|]. cbn [read_attrs].
  destruct (Nat.ltb_spec rest (ByteBuffer.Length b)) as [Hr|]; [|done].
  assert (Hl : left (ByteBuffer.Length b) b) by (by split).
  read_step; [|done]. read_step; [|done].
  destruct (CreateAttribute c z z0) as [attr|].
  - pose proof (attr_Read_kept (transaction_id_ m) attr t0 _ R0) as (HL & _).
    destruct (attr_Read _ attr t0) as [[ok a'] b']. cbn [fst snd] in HL.
    destruct ok; cbn [negb]; [|done]. destruct HL as [? ?]. apply IH; [done|lia|lia].
  - set (n := if negb _ then _ else _). clearbody n.
    pose proof (left_consume t0 (Z.to_nat n) _ R0) as HC.
    destruct (ByteBuffer.Consume t0 (Z.to_nat n)) as [b'|]; [|done].
    destruct HC as [? ?]. apply IH; [done|lia|lia].
Qed.

Lemma read_attrs_typed c fuel rest m b : ByteBuffer.wf b -> typed c m ->
  typed c (read_attrs c fuel rest m b).1.2 /\
  ((read_attrs c fuel rest m b).1.1 = true ->
   (ByteBuffer.Length (read_attrs c fuel rest m b).2 <= rest)%nat) /\
  transaction_id_ (read_attrs c fuel rest m b).1.2 = transaction_id_ m.
Proof.
  revert m b; induction fuel as [|fuel IH]; intros m b Hb Hm; [done|]. cbn [read_attrs].
  destruct (Nat.ltb_spec rest (ByteBuffer.Length b)) as [Hr|]; [|done].
  assert (Hl : left (ByteBuffer.Length b) b) by (by split).
  read_step; [|done]. read_step; [|done].
  destruct (CreateAttribute c z z0) as [attr|] eqn:Ec.
  - apply Create_typed in Ec as [Ev Et].
    pose proof (attr_Read_kept (transaction_id_ m) attr t0 _ R0) as (HL & Ht & Hv).
    destruct (attr_Read _ attr t0) as [[ok a'] b']. cbn [fst snd] in *.
    destruct ok; cbn [negb]; [|done]. apply (IH (set_attrs (attrs_ m ++ [a']) m)); [apply HL|].
    unfold typed. cbn [set_attrs attrs_]. apply Forall_app. split; [done|].
    apply List.Forall_cons; [|by apply List.Forall_nil]. by rewrite Hv, Ht, Ev, Et.
  - set (n := if negb _ then _ else _). clearbody n.
    pose proof (left_consume t0 (Z.to_nat n) _ R0) as HC.
    destruct (ByteBuffer.Consume t0 (Z.to_nat n)) as [b'|]; [|done]. apply IH; [apply HC|done].
Qed.

Lemma read_attrs_type c fuel rest m b :
  type_ (read_attrs c fuel rest m b).1.2 = type_ m.
Proof.
  revert m b; induction fuel as [|fuel IH]; intros m b; [done|]. cbn [read_attrs].
  destruct (_ <? _)%nat; [|done].
  destruct (ByteBuffer.ReadUInt16 b) as [[ty b1]|]; [|done].
  destruct (ByteBuffer.ReadUInt16 b1) as [[n b2]|]; [|done].
  destruct (CreateAttribute c ty n) as [attr|].
  - destruct (attr_Read _ attr b2) as [[ok a'] b']. destruct ok; [|done]. cbn [negb]. by rewrite IH.
  - destruct (ByteBuffer.Consume b2 _); [by rewrite IH|done].
Qed.

(** C40: type safety of parsing: whatever the bytes, after Read (successful or
    not) every attribute of the message is of the class its number has for
    that kind of message, so the casts of the typed getters are sound; a
    successful Read consumed the whole buffer and left a transaction id of 12
    or 16 bytes, and the loop ended by itself (more fuel changes nothing). *)
Theorem Read_typed c m b : ByteBuffer.wf b -> typed c m ->
  let '(ok, m', b') := Read c m b in
  typed c m' /\
  (forall ty a, GetAttribute ty m' = Some a -> value_type a = GetAttributeValueType c ty) /\
  (ok = true -> ByteBuffer.Length b' = 0%nat /\ IsValidTransactionId (transaction_id_ m') = true /\
                Z.testbit (type_ m') 15 = false) /\
  (forall fuel rest m1, (ByteBuffer.Length b < fuel)%nat ->
     read_attrs c fuel rest m1 b = read_attrs c (S (ByteBuffer.Length b)) rest m1 b).
Proof.
  intros Hb Hm.
  assert (Hget : forall m', typed c m' -> forall ty a, GetAttribute ty m' = Some a ->
    value_type a = GetAttributeValueType c ty).
  { intros m' Ht ty a [Hin Heq]%find_some. bool_simpl. unfold typed in Ht.
    rewrite List.Forall_forall in Ht. rewrite <- Heq. by apply Ht. }
  assert (Hfuel : forall fuel rest m1, (ByteBuffer.Length b < fuel)%nat ->
     read_attrs c fuel rest m1 b = read_attrs c (S (ByteBuffer.Length b)) rest m1 b).
  { intros fuel rest m1 Hf. symmetry. apply read_attrs_more; [done|lia|lia]. }
  enough (HR : let '(ok, m', b') := Read c m b in typed c m' /\
    (ok = true -> ByteBuffer.Length b' = 0%nat /\ IsValidTransactionId (transaction_id_ m') = true /\
                Z.testbit (type_ m') 15 = false)).
  { destruct (Read c m b) as [[ok m'] b']. destruct HR as [HR1 HR2].
    split; [done|]. split; [by apply Hget|]. by split. }
  assert (Hl : left (ByteBuffer.Length b) b) by (by split).
  unfold Read. read_step; [|done]. cbn [set_type type_].
  destruct (Z.eqb_spec (Z.land z 0x8000) 0) as [Ez|]; cbn [negb]; [|done].
  read_step; [|done]. rewrite ByteBuffer.ReadString_ReadBytes.
  pose proof (ByteBuffer.ReadBytes_spec t0 kStunMagicCookieLength (proj1 R0)) as H1.
  destruct (ByteBuffer.ReadBytes t0 _) as [[ck b1]|]; [|done].
  destruct H1 as (_ & W1 & _ & Lck & _). rewrite ByteBuffer.ReadString_ReadBytes.
  pose proof (ByteBuffer.ReadBytes_spec b1 kStunTransactionIdLength W1) as H2.
  destruct (ByteBuffer.ReadBytes b1 _) as [[ti b2]|]; [|done].
  destruct H2 as (_ & W2 & _ & Lti & _). cbn [app].
  set (tid := if negb (_ =? kStunMagicCookie) then _ else _).
  assert (Hval : IsValidTransactionId tid = true).
  { unfold IsValidTransactionId, tid.
    destruct (negb _); rewrite ?length_app, ?Lck, ?Lti; reflexivity. }
  clearbody tid. cbv zeta.
  match goal with |- context [set_transaction_id tid ?x] => set (m1 := set_transaction_id tid x) in * end.
  destruct (Z.eqb_spec (length_ m1) (Z.of_nat (ByteBuffer.Length b2))) as [El|]; cbn [negb]; [|done].
  change (length_ (set_attrs [] m1)) with (length_ m1). rewrite El, Nat2Z.id, Nat.sub_diag. set (m2 := set_attrs [] m1).
  assert (Hm2 : typed c m2) by apply List.Forall_nil.
  pose proof (read_attrs_typed c (S (ByteBuffer.Length b2)) 0 m2 b2 W2 Hm2) as (HT & HL & Htid).
  pose proof (read_attrs_type c (S (ByteBuffer.Length b2)) 0 m2 b2) as Hty.
  destruct (read_attrs c _ 0 m2 b2) as [[ok m'] b']. cbn [fst snd] in *.
  split; [done|]. intros Hok. split; [specialize (HL Hok); lia|]. split; [by rewrite Htid|].
  rewrite Hty. change (type_ m2) with z.
  apply (f_equal (fun x => Z.testbit x 15)) in Ez. rewrite Z.land_spec in Ez.
  change (Z.testbit 0x8000 15) with true in Ez. by rewrite andb_true_r in Ez.
Qed.

End Host.

(** ** Concrete messages *)

Definition sample_tid : bytes := str "0123456789ab".
Definition sample_attrs : list StunAttribute :=
  [ new_byte_string STUN_ATTR_USERNAME (str "user1");
    mkattr STUN_ATTR_XOR_MAPPED_ADDRESS 8
      (StunXorAddressAttribute (sa_of_ip (ip_of_v4 [172; 23; 64; 54]) 21372) true);
    new_uint32 STUN_ATTR_PRIORITY 0x6E0001FF;
    new_uint64 STUN_ATTR_ICE_CONTROLLED 0x932FF9B151263B36;
    mkattr STUN_ATTR_ERROR_CODE 16 (StunErrorCodeAttribute 4 1 (str "Unauthorized"));
    mkattr STUN_ATTR_UNKNOWN_ATTRIBUTES 6 (StunUInt16ListAttribute [1; 0x1000; 0xAB0C]) ].
Definition sample : StunMessage := mkmsg 0x0001 76 sample_tid sample_attrs.

Ltac small := vm_compute; split; [discriminate|reflexivity].
Ltac each :=
  lazymatch goal with
  | |- Forall _ (_ :: _) => apply List.Forall_cons; [|each]
  | |- Forall _ [] => apply List.Forall_nil
  end.

Lemma sample_attrs_ok : Forall (attr_ok sample_tid) sample_attrs.
Proof.
  unfold sample_attrs. each; (split; [small|split; [small|]]; cbn [value_ new_byte_string CopyBytes SetBytes set_value
    SetLength new_uint32 new_uint64]).
  - split; [reflexivity|solve_bytes].
  - split_and!; [|reflexivity|reflexivity|done].
    split; [small|]. exists AF_INET, [172; 23; 64; 54]. split; [solve_bytes|done].
  - split; [reflexivity|small].
  - split; [reflexivity|small].
  - split; [lia|]. split; [unfold is_byte; lia|]. split; [solve_bytes|reflexivity].
  - split; [reflexivity|]. each; small.
Qed.

Lemma sample_ok : msg_ok IceMessage sample.
Proof.
  split.
  - done.
  - split; [cbn [sample transaction_id_]; solve_bytes|by left].
  - exact sample_attrs_ok.
  - change (attrs_ sample) with sample_attrs. unfold sample_attrs. each; reflexivity.
  - vm_compute. reflexivity.
  - done.
Qed.

Lemma stun_roundtrip_witness : exists buf buf',
  @Write x86 sample (@ByteBuffer.new_empty x86 ByteBuffer.ORDER_NETWORK) = (true, buf) /\
  @Read x86 IceMessage new_message (@ByteBuffer.new_from x86 (enc_msg sample) ByteBuffer.ORDER_NETWORK)
    = (true, sample, buf').
Proof.
  destruct (@stun_roundtrip x86 IceMessage sample new_message sample_ok) as (buf & Hw & _ & buf' & Hr & _).
  exists buf, buf'. split; [exact Hw|exact Hr].
Defined.

Lemma AddAttribute_spec_witness :
  AddAttribute IceMessage (new_uint32 STUN_ATTR_PRIORITY 7) sample =
  (true, add (new_uint32 STUN_ATTR_PRIORITY 7) sample).
Proof.
  pose proof (@AddAttribute_spec IceMessage (new_uint32 STUN_ATTR_PRIORITY 7) sample sample_ok) as HA.
  apply HA; [apply uint32_ok; small|vm_compute; reflexivity].
Defined.

Lemma integrity_and_fingerprint_witness :
  exists m1 m2, @AddMessageIntegrity x86 IceMessage (str "VOkJxbRl1RmTxUk/WvJxBt") sample = (true, m1) /\
    @AddFingerprint x86 IceMessage m1 = (true, m2) /\ ValidateFingerprint (enc_msg m2) = true.
Proof.
  destruct (@integrity_and_fingerprint x86 IceMessage (str "VOkJxbRl1RmTxUk/WvJxBt") sample sample_ok)
    as (m1 & m2 & H1 & H2 & _ & _ & _ & _ & H3).
  - solve_bytes.
  - reflexivity.
  - reflexivity.
  - change (attrs_ sample) with sample_attrs. unfold sample_attrs. each; discriminate.
  - exists m1, m2. split; [exact H1|split; [exact H2|exact H3]].
Defined.

Lemma GetXoredIP_spec_witness :
  @GetXoredIP x86 true sample_tid (ip_of_v4 [172; 23; 64; 54]) = ip_of_v4 [141; 5; 228; 116].
Proof.
  destruct (@GetXoredIP_spec x86 sample_tid (ip_of_v4 [172; 23; 64; 54])) as (_ & H4 & _).
  - split; [reflexivity|unfold ip_of_v4; cbn [u_]; solve_bytes].
  - solve_bytes.
  - destruct (H4 eq_refl) as [E _]. rewrite E. reflexivity.
Defined.

(** A packet of 40 bytes whose only attribute is cut short. *)
Definition short_packet : bytes :=
  header 1 20 sample_tid ++ be_bytes 2 STUN_ATTR_MESSAGE_INTEGRITY ++ be_bytes 2 20 ++ repeat 0 16.

Lemma integrity_bounds_witness : @ValidateMessageIntegrity x86 short_packet (str "key") = None.
Proof.
  destruct (@integrity_bounds x86 short_packet (str "key")) as [_ [_ H2]].
  - solve_bytes.
  - solve_bytes.
  - apply H2. right. split; [reflexivity|split; [reflexivity|]]. exists 20%nat.
    split; [vm_compute; reflexivity|reflexivity].
Defined.

Lemma Read_typed_witness :
  let b := @ByteBuffer.new_from x86 short_packet ByteBuffer.ORDER_NETWORK in
  let '(ok, m', b') := @Read x86 IceMessage new_message b in typed IceMessage m'.
Proof.
  assert (Hb : ByteBuffer.wf (@ByteBuffer.new_from x86 short_packet ByteBuffer.ORDER_NETWORK))
    by (apply (@ByteBuffer.new_from_spec x86); solve_bytes).
  pose proof (@Read_typed x86 IceMessage new_message _ Hb (List.Forall_nil _)) as HR.
  cbv zeta. destruct (Read IceMessage new_message _) as [[ok m'] b']. apply HR.
Defined.

End StunWire.
