(* ===== verification/FifoBuffer.v ===== *)
(** * base/stream.cc: FifoBuffer, the circular buffer

    The object is its array, the two positions and the state; the lock makes
    every call one atomic step and the posted event is a result.  The abstract
    view is the array unrolled at the read position ([ring]): the unread bytes
    come first, the free space after them, and all wrap-around arithmetic is
    gone.  GetWriteBuffer hands out a pointer: its offset, through which the
    caller writes ([poke]) before ConsumeWriteBuffer. *)

From S2P Require Import Prelude ByteOrder.

Module FifoBuffer.

Inductive StreamState := SS_CLOSED | SS_OPENING | SS_OPEN.
#[export] Instance StreamState_eq_dec : EqDecision StreamState.
Proof. solve_decision. Defined.
Inductive StreamResult := SR_ERROR | SR_SUCCESS | SR_BLOCK | SR_EOS.
Inductive StreamEvent := SE_READ | SE_WRITE.

Record t := mk {
  state_ : StreamState;
  buffer_ : bytes;
  buffer_length_ : nat;
  data_length_ : nat;
  read_position_ : nat;
}.

Definition set_read (position length : nat) (f : t) : t :=
  mk (state_ f) (buffer_ f) (buffer_length_ f) length position.
Definition set_buffer (b : bytes) (f : t) : t :=
  mk (state_ f) b (buffer_length_ f) (data_length_ f) (read_position_ f).

Section Host.
Context `{Machine}.

Definition new_char (n : nat) : bytes := map (uninit 0) (seq 0 n).

Definition new (size : nat) : t := mk SS_OPEN (new_char size) size 0 0.

Definition GetBuffered (f : t) : nat := data_length_ f.
Definition GetWriteRemaining (f : t) : nat := buffer_length_ f - data_length_ f.
Definition GetState (f : t) : StreamState := state_ f.
Definition Close (f : t) : t :=
  mk SS_CLOSED (buffer_ f) (buffer_length_ f) (data_length_ f) (read_position_ f).

Definition SetCapacity (f : t) (size : nat) : bool * t :=
  if (size <? data_length_ f)%nat then (false, f)
  else if (size =? buffer_length_ f)%nat then (true, f)
  else
    let buffer := new_char size in
    let copy := data_length_ f in
    let tail_copy := Nat.min copy (buffer_length_ f - read_position_ f) in
    let buffer := mem_write buffer 0 (mem_read (buffer_ f) (read_position_ f) tail_copy) in
    let buffer := mem_write buffer tail_copy (mem_read (buffer_ f) 0 (copy - tail_copy)) in
    (true, mk (state_ f) buffer size (data_length_ f) 0).

(** The result and the bytes copied out. *)
Definition ReadOffsetLocked (f : t) (bytes offset : nat) : StreamResult * list Z :=
  if (data_length_ f <=? offset)%nat then
    (if bool_decide (state_ f = SS_CLOSED) then SR_EOS else SR_BLOCK, [])
  else
    let available := (data_length_ f - offset)%nat in
    let read_position := ((read_position_ f + offset) mod buffer_length_ f)%nat in
    let copy := Nat.min bytes available in
    let tail_copy := Nat.min copy (buffer_length_ f - read_position) in
    (SR_SUCCESS, mem_read (buffer_ f) read_position tail_copy
                 ++ mem_read (buffer_ f) 0 (copy - tail_copy)).

(** The result, the number of bytes taken and the new state. *)
Definition WriteOffsetLocked (f : t) (buffer : bytes) (offset : nat) : StreamResult * nat * t :=
  if bool_decide (state_ f = SS_CLOSED) then (SR_EOS, 0%nat, f)
  else if (buffer_length_ f <=? data_length_ f + offset)%nat then (SR_BLOCK, 0%nat, f)
  else
    let available := (buffer_length_ f - data_length_ f - offset)%nat in
    let write_position := ((read_position_ f + data_length_ f + offset) mod buffer_length_ f)%nat in
    let copy := Nat.min (length buffer) available in
    let tail_copy := Nat.min copy (buffer_length_ f - write_position) in
    let b := mem_write (buffer_ f) write_position (take tail_copy buffer) in
    let b := mem_write b 0 (take (copy - tail_copy) (drop tail_copy buffer)) in
    (SR_SUCCESS, copy, set_buffer b f).

Definition ReadOffset := ReadOffsetLocked.
Definition WriteOffset := WriteOffsetLocked.

Definition Read (f : t) (bytes : nat) : StreamResult * list Z * option StreamEvent * t :=
  let was_writable := (data_length_ f <? buffer_length_ f)%nat in
  let '(result, data) := ReadOffsetLocked f bytes 0 in
  match result with
  | SR_SUCCESS =>
      let copy := length data in
      (result, data, if negb was_writable && (0 <? copy)%nat then Some SE_WRITE else None,
       set_read ((read_position_ f + copy) mod buffer_length_ f) (data_length_ f - copy) f)
  | _ => (result, data, None, f)
  end.

Definition Write (f : t) (buffer : bytes) : StreamResult * nat * option StreamEvent * t :=
  let was_readable := (0 <? data_length_ f)%nat in
  let '(result, copy, f) := WriteOffsetLocked f buffer 0 in
  match result with
  | SR_SUCCESS =>
      (result, copy, if negb was_readable && (0 <? copy)%nat then Some SE_READ else None,
       set_read (read_position_ f) (data_length_ f + copy) f)
  | _ => (result, copy, None, f)
  end.

(** The contiguous readable bytes. *)
Definition GetReadData (f : t) : bytes :=
  let size := if (read_position_ f + data_length_ f <=? buffer_length_ f)%nat then data_length_ f
              else (buffer_length_ f - read_position_ f)%nat in
  mem_read (buffer_ f) (read_position_ f) size.

Definition ConsumeReadData (f : t) (size : nat) : option StreamEvent * t :=
  let was_writable := (data_length_ f <? buffer_length_ f)%nat in
  (if negb was_writable && (0 <? size)%nat then Some SE_WRITE else None,
   set_read ((read_position_ f + size) mod buffer_length_ f) (data_length_ f - size) f).

(** The offset and the size of the contiguous free space. *)
Definition GetWriteBuffer (f : t) : option (nat * nat) * t :=
  if bool_decide (state_ f = SS_CLOSED) then (None, f)
  else
    let f := if (data_length_ f =? 0)%nat then set_read 0 (data_length_ f) f else f in
    let write_position := ((read_position_ f + data_length_ f) mod buffer_length_ f)%nat in
    let size := if (read_position_ f <? write_position)%nat || (data_length_ f =? 0)%nat
                then (buffer_length_ f - write_position)%nat
                else (read_position_ f - write_position)%nat in
    (Some (write_position, size), f).
Definition poke (f : t) (position : nat) (data : bytes) : t :=
  set_buffer (mem_write (buffer_ f) position data) f.

Definition ConsumeWriteBuffer (f : t) (size : nat) : option StreamEvent * t :=
  let was_readable := (0 <? data_length_ f)%nat in
  (if negb was_readable && (0 <? size)%nat then Some SE_READ else None,
   set_read (read_position_ f) (data_length_ f + size) f).

(** ** The unrolled view *)

Record wf (f : t) : Prop := {
  wf_length : length (buffer_ f) = buffer_length_ f;
  wf_pos : (0 < buffer_length_ f)%nat;
  wf_data : (data_length_ f <= buffer_length_ f)%nat;
  wf_read : (read_position_ f < buffer_length_ f)%nat;
}.

Definition ring (f : t) : bytes := drop (read_position_ f) (buffer_ f) ++ take (read_position_ f) (buffer_ f).
Definition contents (f : t) : bytes := take (data_length_ f) (ring f).

Lemma length_ring f : wf f -> length (ring f) = buffer_length_ f.
Proof. intros []. unfold ring. rewrite length_app, length_drop, length_take. lia. Qed.

Lemma fifo_length_contents f : wf f -> length (contents f) = data_length_ f.
Proof. intros Hf. unfold contents. rewrite length_take, length_ring by done. destruct Hf. lia. Qed.

Lemma mod_wrap a n : (a < 2 * n)%nat -> (a mod n = if a <? n then a else a - n)%nat.
Proof.
  intros Ha. destruct (Nat.ltb_spec a n); [by apply Nat.mod_small|].
  assert (n <> 0)%nat by lia. replace a with ((a - n) + 1 * n)%nat at 1 by lia.
  rewrite Nat.Div0.mod_add. apply Nat.mod_small. lia.
Qed.

(** Reading [n] bytes at the logical position [p]. *)
Lemma ring_read f p n : wf f -> (p + n <= buffer_length_ f)%nat -> (p < buffer_length_ f)%nat ->
  let pos := ((read_position_ f + p) mod buffer_length_ f)%nat in
  let tail := Nat.min n (buffer_length_ f - pos) in
  mem_read (buffer_ f) pos tail ++ mem_read (buffer_ f) 0 (n - tail) = mem_read (ring f) p n.
Proof.
  intros [Hl Hp Hd Hr] Hn Hpl pos tail. subst pos tail.
  rewrite mod_wrap by lia. unfold ring, mem_read.
  destruct (Nat.ltb_spec (read_position_ f + p) (buffer_length_ f)) as [Hlt|Hge].
  - rewrite drop_app_le by (rewrite length_drop; lia). rewrite drop_drop, drop_0.
    rewrite (take_app (drop (read_position_ f + p) (buffer_ f))), length_drop, take_take, Hl.
    f_equal.
    + destruct (Nat.min_spec n (buffer_length_ f - (read_position_ f + p))) as [[? ->]|[? ->]]; [done|].
      rewrite !take_ge by (rewrite length_drop; lia). done.
    + f_equal. lia.
  - rewrite drop_app_ge by (rewrite length_drop; lia). rewrite length_drop, Hl.
    replace (Nat.min n _) with n by lia. rewrite Nat.sub_diag. cbn [take]. rewrite app_nil_r.
    replace (p - (buffer_length_ f - read_position_ f))%nat
      with (read_position_ f + p - buffer_length_ f)%nat by lia.
    rewrite skipn_firstn_comm, take_take. f_equal. lia.
Qed.

Lemma lookup_mem_write (l d : bytes) pos i : (pos + length d <= length l)%nat ->
  mem_write l pos d !! i =
  if (pos <=? i)%nat && (i <? pos + length d)%nat then d !! (i - pos)%nat else l !! i.
Proof.
  intros Hl. unfold mem_write.
  destruct (Nat.leb_spec pos i); cbn [andb].
  - rewrite lookup_app_r by (rewrite length_take; lia). rewrite length_take, Nat.min_l by lia.
    destruct (Nat.ltb_spec i (pos + length d)).
    + by rewrite lookup_app_l by lia.
    + rewrite lookup_app_r by lia. rewrite lookup_drop. f_equal. lia.
  - rewrite lookup_app_l by (rewrite length_take; lia). by rewrite lookup_take_lt by lia.
Qed.

(** The index in the array of a logical position. *)
Definition at_ (f : t) (i : nat) : nat :=
  if (read_position_ f + i <? buffer_length_ f)%nat then read_position_ f + i
  else read_position_ f + i - buffer_length_ f.

Lemma lookup_ring f i : wf f -> (i < buffer_length_ f)%nat -> ring f !! i = buffer_ f !! at_ f i.
Proof.
  intros [Hl Hp Hd Hr] Hi. unfold ring, at_.
  destruct (Nat.ltb_spec (read_position_ f + i) (buffer_length_ f)).
  - rewrite lookup_app_l by (rewrite length_drop; lia). by rewrite lookup_drop.
  - rewrite lookup_app_r by (rewrite length_drop; lia). rewrite length_drop, lookup_take_lt by lia.
    f_equal. lia.
Qed.

Lemma list_eq_len (l k : bytes) n : length l = n -> length k = n ->
  (forall i, (i < n)%nat -> l !! i = k !! i) -> l = k.
Proof.
  intros Hl Hk H1. apply list_eq. intros i. destruct (decide (i < n)%nat) as [|Hi]; [by apply H1|].
  rewrite !lookup_ge_None_2 by lia. done.
Qed.

(** Writing [d] at the logical position [p]. *)
Lemma ring_write f p d : wf f -> (p + length d <= buffer_length_ f)%nat -> (p < buffer_length_ f)%nat ->
  let pos := ((read_position_ f + p) mod buffer_length_ f)%nat in
  let tail := Nat.min (length d) (buffer_length_ f - pos) in
  let b := mem_write (mem_write (buffer_ f) pos (take tail d)) 0 (take (length d - tail) (drop tail d)) in
  wf (set_buffer b f) /\ ring (set_buffer b f) = mem_write (ring f) p d.
Proof.
  intros Hf Hn Hpl pos tail b. pose proof Hf as [Hl Hp Hd Hr].
  assert (Hpos : pos = at_ f p) by (unfold pos, at_; rewrite mod_wrap by lia; done). 
  assert (Htail : tail = Nat.min (length d) (buffer_length_ f - pos)) by done.
  assert (Hlt : (pos < buffer_length_ f)%nat)
    by (rewrite Hpos; unfold at_; destruct (Nat.ltb_spec (read_position_ f + p) (buffer_length_ f)); lia).
  clearbody pos tail.
  assert (L1 : length (take tail d) = tail) by (rewrite length_take; lia).
  assert (L2 : length (take (length d - tail) (drop tail d)) = (length d - tail)%nat)
    by (rewrite length_take, length_drop; lia).
  assert (Hb1 : length (mem_write (buffer_ f) pos (take tail d)) = buffer_length_ f)
    by (rewrite length_mem_write; lia).
  assert (Hb : length b = buffer_length_ f) by (unfold b; rewrite length_mem_write; lia).
  assert (Hwf : wf (set_buffer b f)) by (by split).
  split; [done|]. apply (list_eq_len _ _ (buffer_length_ f)).
  - by rewrite length_ring.
  - rewrite length_mem_write; rewrite length_ring by done; lia.
  - intros i Hi. rewrite lookup_ring by done. change (at_ (set_buffer b f) i) with (at_ f i).
    cbn [set_buffer buffer_]. unfold b.
    rewrite !lookup_mem_write by (rewrite ?length_ring, ?L1, ?L2, ?Hb1 by done; lia).
    rewrite L1, L2, lookup_ring by done. rewrite Nat.sub_0_r. cbn [Nat.add].
    rewrite Hpos in *. unfold at_ in *.
    destruct (Nat.ltb_spec (read_position_ f + p) (buffer_length_ f)),
      (Nat.ltb_spec (read_position_ f + i) (buffer_length_ f));
      repeat match goal with
      | |- context [(?a <=? ?b)%nat] => destruct (Nat.leb_spec a b); cbn [andb]
      | |- context [(?a <? ?b)%nat] => destruct (Nat.ltb_spec a b); cbn [andb]
      end; try lia; try done;
      rewrite ?lookup_take_lt by lia; rewrite ?lookup_drop; f_equal; lia.
Qed.

(** Moving the read position [c] bytes on. *)
Lemma ring_advance f c n : wf f -> (c <= buffer_length_ f)%nat -> (n <= buffer_length_ f)%nat ->
  let f' := set_read ((read_position_ f + c) mod buffer_length_ f) n f in
  wf f' /\ ring f' = drop c (ring f) ++ take c (ring f).
Proof.
  intros Hf Hc Hn f'. pose proof Hf as [Hl Hp Hd Hr].
  assert (Hr' : (read_position_ f' < buffer_length_ f)%nat) by (apply Nat.mod_upper_bound; lia).
  assert (Hwf : wf f') by (by split). split; [done|].
  apply (list_eq_len _ _ (buffer_length_ f)).
  - by rewrite (length_ring f').
  - rewrite length_app, length_drop, length_take, length_ring by done. lia.
  - intros i Hi. rewrite lookup_ring by done. unfold at_. cbn [f' set_read read_position_ buffer_length_ buffer_].
    rewrite mod_wrap by lia.
    destruct (decide (i < buffer_length_ f - c)%nat) as [Hlt|Hge].
    + rewrite lookup_app_l by (rewrite length_drop, length_ring by done; lia).
      rewrite lookup_drop, lookup_ring by (done || lia). unfold at_. f_equal.
      repeat match goal with |- context [(?a <? ?b)%nat] => destruct (Nat.ltb_spec a b) end; lia.
    + rewrite lookup_app_r by (rewrite length_drop, length_ring by done; lia).
      rewrite length_drop, length_ring, lookup_take_lt, lookup_ring by (done || lia).
      unfold at_. f_equal.
      repeat match goal with |- context [(?a <? ?b)%nat] => destruct (Nat.ltb_spec a b) end; lia.
Qed.

(** *** The operations on the unrolled view *)

Definition blocked (f : t) : StreamResult := if bool_decide (state_ f = SS_CLOSED) then SR_EOS else SR_BLOCK.

Lemma ReadOffset_ring f k off : wf f ->
  ReadOffsetLocked f k off =
  if (data_length_ f <=? off)%nat then (blocked f, [])
  else (SR_SUCCESS, mem_read (ring f) off (Nat.min k (data_length_ f - off))).
Proof.
  intros Hf. unfold ReadOffsetLocked. destruct (Nat.leb_spec (data_length_ f) off); [done|].
  f_equal. apply ring_read; [done|..]; destruct Hf; lia.
Qed.

Lemma WriteOffset_ring f d off : wf f ->
  match WriteOffsetLocked f d off with
  | (r, n, f') =>
      if bool_decide (state_ f = SS_CLOSED) then r = SR_EOS /\ n = 0%nat /\ f' = f
      else if (buffer_length_ f <=? data_length_ f + off)%nat then r = SR_BLOCK /\ n = 0%nat /\ f' = f
      else r = SR_SUCCESS /\ n = Nat.min (length d) (buffer_length_ f - data_length_ f - off) /\
           wf f' /\ ring f' = mem_write (ring f) (data_length_ f + off) (take n d) /\
           state_ f' = state_ f /\ buffer_length_ f' = buffer_length_ f /\
           data_length_ f' = data_length_ f /\ read_position_ f' = read_position_ f
  end.
Proof.
  intros Hf. unfold WriteOffsetLocked. destruct (bool_decide _); [done|].
  destruct (Nat.leb_spec (buffer_length_ f) (data_length_ f + off)) as [|Hlt]; [done|].
  set (n := Nat.min (length d) (buffer_length_ f - data_length_ f - off)).
  assert (Hn : length (take n d) = n) by (rewrite length_take; lia).
  pose proof (ring_write f (data_length_ f + off) (take n d) Hf) as HW. cbv zeta in HW.
  rewrite Hn, !Nat.add_assoc in HW. destruct HW as [HW1 HW2]; [lia..|].
  set (pos := ((read_position_ f + data_length_ f + off) mod buffer_length_ f)%nat) in *.
  set (tail := Nat.min n (buffer_length_ f - pos)) in *.
  rewrite take_take, Nat.min_l in HW1, HW2 by lia.
  assert (Hd : take (n - tail) (drop tail (take n d)) = take (n - tail) (drop tail d)).
  { rewrite skipn_firstn_comm, take_take. f_equal. lia. }
  rewrite Hd in HW1, HW2. done.
Qed.

(** ** Refinement *)

(** The abstract buffer: its state, the bytes from the read position on (the
    unread ones first), and how many are unread. *)
Record spec := mkspec { s_state : StreamState; s_ring : bytes; s_len : nat }.
Definition abs (f : t) : spec := mkspec (state_ f) (ring f) (data_length_ f).

Inductive op :=
  | OpRead (n : nat) | OpWrite (d : bytes) | OpReadOffset (n off : nat) | OpWriteOffset (d : bytes) (off : nat)
  | OpConsumeReadData (n : nat) | OpConsumeWriteBuffer (n : nat) | OpSetCapacity (n : nat)
  | OpGetBuffered | OpGetWriteRemaining | OpClose.

(** What a call returns. *)
Record res := mkres { r_result : StreamResult; r_data : bytes; r_count : nat; r_event : option StreamEvent }.

Definition exec (f : t) (o : op) : res * t :=
  match o with
  | OpRead n => let '(r, d, e, f) := Read f n in (mkres r d (length d) e, f)
  | OpWrite d => let '(r, n, e, f) := Write f d in (mkres r [] n e, f)
  | OpReadOffset n off => let '(r, d) := ReadOffset f n off in (mkres r d (length d) None, f)
  | OpWriteOffset d off => let '(r, n, f) := WriteOffset f d off in (mkres r [] n None, f)
  | OpConsumeReadData n => let '(e, f) := ConsumeReadData f n in (mkres SR_SUCCESS [] n e, f)
  | OpConsumeWriteBuffer n => let '(e, f) := ConsumeWriteBuffer f n in (mkres SR_SUCCESS [] n e, f)
  | OpSetCapacity n => let '(b, f) := SetCapacity f n in (mkres (if b then SR_SUCCESS else SR_ERROR) [] 0 None, f)
  | OpGetBuffered => (mkres SR_SUCCESS [] (GetBuffered f) None, f)
  | OpGetWriteRemaining => (mkres SR_SUCCESS [] (GetWriteRemaining f) None, f)
  | OpClose => (mkres SR_SUCCESS [] 0 None, Close f)
  end.

Definition s_closed (s : spec) : bool := bool_decide (s_state s = SS_CLOSED).
Definition s_cap (s : spec) : nat := length (s_ring s).
Definition s_blocked (s : spec) : StreamResult := if s_closed s then SR_EOS else SR_BLOCK.
(** [n] unread bytes become free space at the end. *)
Definition s_consume (n : nat) (s : spec) : spec :=
  mkspec (s_state s) (drop n (s_ring s) ++ take n (s_ring s)) (s_len s - n).
(** The events: the transitions full to not full and empty to not empty. *)
Definition s_freed (n : nat) (s : spec) : option StreamEvent :=
  if (s_len s =? s_cap s)%nat && (0 <? n)%nat then Some SE_WRITE else None.
Definition s_filled (n : nat) (s : spec) : option StreamEvent :=
  if (s_len s =? 0)%nat && (0 <? n)%nat then Some SE_READ else None.

Definition spec_exec (s : spec) (o : op) : res * spec :=
  match o with
  | OpRead n =>
      if (s_len s =? 0)%nat then (mkres (s_blocked s) [] 0 None, s)
      else
        let d := take (Nat.min n (s_len s)) (s_ring s) in
        (mkres SR_SUCCESS d (length d) (s_freed (length d) s), s_consume (length d) s)
  | OpReadOffset n off =>
      if (s_len s <=? off)%nat then (mkres (s_blocked s) [] 0 None, s)
      else
        let d := mem_read (s_ring s) off (Nat.min n (s_len s - off)) in
        (mkres SR_SUCCESS d (length d) None, s)
  | OpWrite d =>
      if s_closed s then (mkres SR_EOS [] 0 None, s)
      else if (s_len s =? s_cap s)%nat then (mkres SR_BLOCK [] 0 None, s)
      else
        let d := take (s_cap s - s_len s) d in
        (mkres SR_SUCCESS [] (length d) (s_filled (length d) s),
         mkspec (s_state s) (mem_write (s_ring s) (s_len s) d) (s_len s + length d))
  | OpWriteOffset d off =>
      if s_closed s then (mkres SR_EOS [] 0 None, s)
      else if (s_cap s <=? s_len s + off)%nat then (mkres SR_BLOCK [] 0 None, s)
      else
        let d := take (s_cap s - s_len s - off) d in
        (mkres SR_SUCCESS [] (length d) None,
         mkspec (s_state s) (mem_write (s_ring s) (s_len s + off) d) (s_len s))
  | OpConsumeReadData n => (mkres SR_SUCCESS [] n (s_freed n s), s_consume n s)
  | OpConsumeWriteBuffer n =>
      (mkres SR_SUCCESS [] n (s_filled n s), mkspec (s_state s) (s_ring s) (s_len s + n))
  | OpSetCapacity n =>
      if (n <? s_len s)%nat then (mkres SR_ERROR [] 0 None, s)
      else if (n =? s_cap s)%nat then (mkres SR_SUCCESS [] 0 None, s)
      else (mkres SR_SUCCESS [] 0 None,
            mkspec (s_state s) (take (s_len s) (s_ring s) ++ drop (s_len s) (new_char n)) (s_len s))
  | OpGetBuffered => (mkres SR_SUCCESS [] (s_len s) None, s)
  | OpGetWriteRemaining => (mkres SR_SUCCESS [] (s_cap s - s_len s) None, s)
  | OpClose => (mkres SR_SUCCESS [] 0 None, mkspec SS_CLOSED (s_ring s) (s_len s))
  end.

(** The asserted preconditions, and no empty array. *)
Definition op_ok (s : spec) (o : op) : Prop :=
  match o with
  | OpConsumeReadData n => (n <= s_len s)%nat
  | OpConsumeWriteBuffer n => (n <= s_cap s - s_len s)%nat
  | OpSetCapacity n => (0 < n)%nat
  | _ => True
  end.

Definition refines (f : t) (o : op) : Prop :=
  (exec f o).1 = (spec_exec (abs f) o).1 /\ wf (exec f o).2 /\
  abs (exec f o).2 = (spec_exec (abs f) o).2.

Lemma s_cap_abs f : wf f -> s_cap (abs f) = buffer_length_ f.
Proof. apply length_ring. Qed.

Lemma was_full f : wf f -> negb (data_length_ f <? buffer_length_ f)%nat = (data_length_ f =? buffer_length_ f)%nat.
Proof.
  intros [_ _ Hd _]. destruct (Nat.ltb_spec (data_length_ f) (buffer_length_ f)),
    (Nat.eqb_spec (data_length_ f) (buffer_length_ f)); done || lia.
Qed.
Lemma was_empty f : negb (0 <? data_length_ f)%nat = (data_length_ f =? 0)%nat.
Proof. by destruct (data_length_ f). Qed.

Lemma freed_abs f n : wf f ->
  (if negb (data_length_ f <? buffer_length_ f)%nat && (0 <? n)%nat then Some SE_WRITE else None)
  = s_freed n (abs f).
Proof. intros Hf. unfold s_freed. by rewrite s_cap_abs, was_full by done. Qed.
Lemma filled_abs f n :
  (if negb (0 <? data_length_ f)%nat && (0 <? n)%nat then Some SE_READ else None) = s_filled n (abs f).
Proof. unfold s_filled. by rewrite was_empty. Qed.

Lemma advance_abs f c : wf f -> (c <= data_length_ f)%nat ->
  let f' := set_read ((read_position_ f + c) mod buffer_length_ f) (data_length_ f - c) f in
  wf f' /\ abs f' = s_consume c (abs f).
Proof.
  intros Hf Hc f'. destruct (ring_advance f c (data_length_ f - c) Hf) as [Hwf Hr];
    [destruct Hf; lia..|]. split; [exact Hwf|]. unfold abs, s_consume. cbn [s_state s_ring s_len].
  unfold f'. by rewrite Hr.
Qed.

Lemma Read_refines f n : wf f -> refines f (OpRead n).
Proof.
  intros Hf. unfold refines. cbn [exec spec_exec]. unfold Read. rewrite ReadOffset_ring by done.
  change (s_len (abs f)) with (data_length_ f). change (s_ring (abs f)) with (ring f).
  destruct (Nat.leb_spec (data_length_ f) 0) as [H0|H0].
  - rewrite (proj2 (Nat.eqb_eq (data_length_ f) 0)) by lia.
    unfold blocked, s_blocked, s_closed. change (s_state (abs f)) with (state_ f).
    by destruct (bool_decide (state_ f = SS_CLOSED)).
  - rewrite (proj2 (Nat.eqb_neq _ 0)) by lia. rewrite Nat.sub_0_r. unfold mem_read. rewrite drop_0.
    set (d := take (Nat.min n (data_length_ f)) (ring f)).
    assert (Hd : (length d <= data_length_ f)%nat) by (unfold d; rewrite length_take; lia).
    destruct (advance_abs f (length d) Hf Hd) as [Hwf Habs]. cbn [fst snd].
    rewrite freed_abs by done. done.
Qed.

Lemma consume_refines f n : wf f -> (n <= data_length_ f)%nat -> refines f (OpConsumeReadData n).
Proof.
  intros Hf Hn. unfold refines. cbn [exec spec_exec]. unfold ConsumeReadData.
  destruct (advance_abs f n Hf Hn) as [Hwf Habs]. cbn [fst snd]. by rewrite freed_abs.
Qed.

Lemma take_min (d : bytes) n : take (Nat.min (length d) n) d = take n d.
Proof.
  destruct (Nat.min_spec (length d) n) as [[? ->]|[? ->]]; [|done].
  by rewrite !take_ge by lia.
Qed.

Lemma WriteOffset_refines f d off : wf f -> refines f (OpWriteOffset d off).
Proof.
  intros Hf. pose proof (WriteOffset_ring f d off Hf) as HW. unfold refines. cbn [exec spec_exec].
  unfold WriteOffset. destruct (WriteOffsetLocked f d off) as [[r n] f'].
  rewrite s_cap_abs by done. unfold s_closed. cbn [abs s_state s_len s_ring].
  destruct (bool_decide _); [by destruct HW as (-> & -> & ->)|].
  destruct (_ <=? _)%nat; [by destruct HW as (-> & -> & ->)|].
  destruct HW as (-> & -> & Hwf & Hr & Hs & Hb & Hl & Hp). cbn [fst snd].
  rewrite take_min in Hr. rewrite length_take. split; [f_equal; lia|]. split; [done|].
  unfold abs. by rewrite Hs, Hr, Hl.
Qed.

Lemma Write_refines f d : wf f -> refines f (OpWrite d).
Proof.
  intros Hf. pose proof (WriteOffset_ring f d 0 Hf) as HW. unfold refines. cbn [exec spec_exec].
  unfold Write. destruct (WriteOffsetLocked f d 0) as [[r n] f'].
  rewrite s_cap_abs by done. unfold s_closed. cbn [abs s_state s_len s_ring].
  rewrite Nat.add_0_r, Nat.sub_0_r in HW.
  destruct (bool_decide _); [by destruct HW as (-> & -> & ->)|].
  pose proof (wf_data f Hf) as Hd.
  destruct (Nat.leb_spec (buffer_length_ f) (data_length_ f)) as [Hle|Hlt].
  - rewrite (proj2 (Nat.eqb_eq _ _)) by lia. by destruct HW as (-> & -> & ->).
  - rewrite (proj2 (Nat.eqb_neq _ _)) by lia.
    destruct HW as (-> & -> & Hwf & Hr & Hs & Hb & Hl & Hp). cbn [fst snd].
    rewrite take_min in Hr. rewrite length_take, filled_abs. rewrite (Nat.min_comm (length d)).
    split; [done|]. split.
    + destruct Hwf as [W1 W2 W3 W4]. split; cbn [set_read buffer_ buffer_length_ data_length_ read_position_];
        [done|done|rewrite Hl, Hb; lia|done].
    + unfold abs. cbn [set_read state_ data_length_]. rewrite Hs, Hl.
      unfold ring in *. cbn [set_read read_position_ buffer_]. by rewrite Hr.
Qed.

Lemma SetCapacity_refines f n : wf f -> (0 < n)%nat -> refines f (OpSetCapacity n).
Proof.
  intros Hf Hn. unfold refines. cbn [exec spec_exec]. unfold SetCapacity. rewrite s_cap_abs by done.
  cbn [abs s_len]. destruct (Nat.ltb_spec n (data_length_ f)); [done|].
  destruct (n =? buffer_length_ f)%nat; [done|]. cbn [fst snd]. pose proof Hf as [Hl Hp Hd Hr].
  set (tail := Nat.min (data_length_ f) (buffer_length_ f - read_position_ f)).
  assert (Hc : mem_read (buffer_ f) (read_position_ f) tail
               ++ mem_read (buffer_ f) 0 (data_length_ f - tail) = contents f).
  { pose proof (ring_read f 0 (data_length_ f) Hf) as HR. cbv zeta in HR.
    rewrite Nat.add_0_r, Nat.mod_small in HR by done. fold tail in HR.
    rewrite HR by lia. done. }
  assert (Lc : length (contents f) = data_length_ f) by (by apply fifo_length_contents).
  assert (L1 : length (mem_read (buffer_ f) (read_position_ f) tail) = tail) by (apply length_mem_read; lia).
  assert (L2 : length (mem_read (buffer_ f) 0 (data_length_ f - tail)) = (data_length_ f - tail)%nat)
    by (apply length_mem_read; lia).
  assert (Ln : length (new_char n) = n) by (unfold new_char; by rewrite length_map, length_seq).
  set (b1 := mem_write (new_char n) 0 (mem_read (buffer_ f) (read_position_ f) tail)).
  assert (Hb : mem_write b1 tail (mem_read (buffer_ f) 0 (data_length_ f - tail)) =
    contents f ++ drop (data_length_ f) (new_char n)).
  { unfold b1, mem_write. rewrite L1, L2, take_0. cbn [app Nat.add].
    rewrite take_app_length' by done. rewrite drop_app_ge by (rewrite L1; lia).
    rewrite L1, drop_drop, app_assoc, Hc. f_equal. f_equal. lia. }
  rewrite Hb. split; [done|]. split.
  - split; cbn [buffer_ buffer_length_ data_length_ read_position_]; [|done|lia|done].
    rewrite length_app, length_drop. lia.
  - unfold abs, ring. cbn [buffer_ read_position_ state_ data_length_ s_state].
    by rewrite drop_0, take_0, app_nil_r.
Qed.

Lemma exec_spec f o : wf f -> op_ok (abs f) o -> refines f o.
Proof.
  intros Hf Ho. destruct o; cbn [op_ok] in Ho.
  - by apply Read_refines.
  - by apply Write_refines.
  - unfold refines. cbn [exec spec_exec]. unfold ReadOffset. rewrite ReadOffset_ring by done.
    change (s_len (abs f)) with (data_length_ f). destruct (_ <=? _)%nat; [|done].
    unfold blocked, s_blocked, s_closed. change (s_state (abs f)) with (state_ f).
    by destruct (bool_decide (state_ f = SS_CLOSED)).
  - by apply WriteOffset_refines.
  - by apply consume_refines.
  - unfold refines. cbn [exec spec_exec]. unfold ConsumeWriteBuffer. rewrite filled_abs.
    split; [done|]. split; [|done]. rewrite s_cap_abs in Ho by done.
    destruct Hf as [W1 W2 W3 W4]. cbn [abs s_len] in Ho.
    split; cbn [snd set_read buffer_ buffer_length_ data_length_ read_position_]; [done|done|lia|done].
  - by apply SetCapacity_refines.
  - done.
  - unfold refines. cbn [exec spec_exec]. rewrite s_cap_abs by done. done.
  - by destruct Hf.
Qed.

(** Runs of several calls, and the preconditions along them. *)
Fixpoint run (f : t) (os : list op) : list res * t :=
  match os with
  | [] => ([], f)
  | o :: os => let '(r, f) := exec f o in let '(rs, f) := run f os in (r :: rs, f)
  end.
Fixpoint spec_run (s : spec) (os : list op) : list res * spec :=
  match os with
  | [] => ([], s)
  | o :: os => let '(r, s) := spec_exec s o in let '(rs, s) := spec_run s os in (r :: rs, s)
  end.
Fixpoint ops_ok (s : spec) (os : list op) : Prop :=
  match os with [] => True | o :: os => op_ok s o /\ ops_ok (spec_exec s o).2 os end.

(** FifoBuffer implements a bounded queue with a write window: every
    sequence of calls (reads and writes, reads and writes at an offset,
    explicit consumption, resizing, closing) returns the results, data, counts
    and events of the unrolled buffer, in which reading takes a prefix, writing
    appends after the unread bytes up to the capacity, and writing at an offset
    prepares bytes beyond them; no wrap-around is observable. *)
Theorem fifo_refines f os : wf f -> ops_ok (abs f) os ->
  (run f os).1 = (spec_run (abs f) os).1 /\
  wf (run f os).2 /\ abs (run f os).2 = (spec_run (abs f) os).2.
Proof.
  revert f; induction os as [|o os IH]; intros f Hf Hos; [done|]. destruct Hos as [Ho Hos].
  destruct (exec_spec f o Hf Ho) as (H1 & H2 & H3). cbn [run spec_run].
  destruct (exec f o) as [r f1], (spec_exec (abs f) o) as [r' s1]. cbn [fst snd] in *.
  subst r' s1. destruct (IH f1 H2 Hos) as (I1 & I2 & I3).
  destruct (run f1 os), (spec_run (abs f1) os). cbn [fst snd] in *. by subst.
Qed.

(** GetReadData: a prefix of the unread bytes, empty only if there are none. *)
Lemma GetReadData_prefix f : wf f ->
  GetReadData f `prefix_of` contents f /\ (GetReadData f = [] <-> data_length_ f = 0%nat).
Proof.
  intros Hf. pose proof Hf as [Hl Hp Hd Hr]. pose proof (fifo_length_contents f Hf) as Lc.
  unfold GetReadData. set (size := if (_ <=? _)%nat then _ else _).
  assert (Hs : (size <= data_length_ f)%nat /\ (read_position_ f + size <= buffer_length_ f)%nat /\
    (size = 0%nat <-> data_length_ f = 0%nat))
    by (unfold size; destruct (Nat.leb_spec (read_position_ f + data_length_ f) (buffer_length_ f)); lia).
  clearbody size. destruct Hs as (Hs1 & Hs2 & Hs3).
  pose proof (ring_read f 0 size Hf) as HR. cbv zeta in HR. rewrite Nat.add_0_r, Nat.mod_small in HR by done.
  rewrite Nat.min_l in HR by lia. rewrite Nat.sub_diag in HR.
  assert (Heq : mem_read (buffer_ f) (read_position_ f) size = take size (ring f)).
  { rewrite <- (app_nil_r (mem_read _ _ _)). change [] with (mem_read (buffer_ f) 0 0).
    rewrite HR by lia. done. }
  rewrite Heq. split.
  - exists (drop size (contents f)). unfold contents. rewrite skipn_firstn_comm.
    replace (data_length_ f) with (size + (data_length_ f - size))%nat at 1 by lia.
    by rewrite <- take_take_drop.
  - rewrite <- Hs3. split; [|intros ->; by rewrite take_0].
    intros E. apply (f_equal length) in E. rewrite length_take, length_ring in E by done.
    cbn in E. lia.
Qed.

(** ** The view of a client: a queue of bytes with a window behind it *)

Lemma Write_contents f d : wf f -> state_ f <> SS_CLOSED ->
  (length d <= buffer_length_ f - data_length_ f)%nat ->
  exists r ev f', Write f d = (r, length d, ev, f') /\ wf f' /\ contents f' = contents f ++ d /\
    state_ f' = state_ f /\ buffer_length_ f' = buffer_length_ f.
Proof.
  intros Hf Ho Hd. pose proof (WriteOffset_ring f d 0 Hf) as HW. pose proof (fifo_length_contents f Hf) as Lc.
  pose proof (wf_data f Hf) as Hl. unfold Write.
  destruct (WriteOffsetLocked f d 0) as [[r n] f']. rewrite Nat.add_0_r, Nat.sub_0_r in HW.
  rewrite bool_decide_eq_false_2 in HW by done.
  destruct (Nat.leb_spec (buffer_length_ f) (data_length_ f)).
  - destruct HW as (-> & -> & ->). assert (d = []) as -> by (destruct d; [done|cbn in *; lia]).
    eexists _, _, _. split; [reflexivity|]. by rewrite app_nil_r.
  - destruct HW as (-> & -> & Hwf & Hr & Hs & Hb & Hdl & Hp). rewrite Nat.min_l in * by lia.
    rewrite take_ge in Hr by done. eexists _, _, _. split; [reflexivity|].
    split; [|split_and!; [|done|done]].
    + destruct Hwf as [W1 W2 W3 W4]. split; cbn [set_read buffer_ buffer_length_ data_length_ read_position_];
        [done|done|lia|done].
    + unfold contents. change (ring (set_read (read_position_ f') (data_length_ f' + length d) f')) with (ring f').
      cbn [set_read data_length_]. rewrite Hr, Hdl, take_mem_write; [done|]. rewrite length_ring by done. lia.
Qed.

Lemma ConsumeReadData_contents f n : wf f -> (n <= data_length_ f)%nat ->
  let f' := (ConsumeReadData f n).2 in
  wf f' /\ contents f' = drop n (contents f) /\ state_ f' = state_ f /\ buffer_length_ f' = buffer_length_ f /\
  data_length_ f' = (data_length_ f - n)%nat /\ ring f' = drop n (ring f) ++ take n (ring f).
Proof.
  intros Hf Hn f'. destruct (ring_advance f n (data_length_ f - n) Hf) as [Hwf Hr]; [destruct Hf; lia..|].
  split_and!; try done. unfold contents. change (data_length_ f') with (data_length_ f - n)%nat.
  rewrite skipn_firstn_comm. change (ring f') with (ring (set_read ((read_position_ f + n) mod buffer_length_ f) (data_length_ f - n) f)).
  rewrite Hr, take_app_le; [done|]. rewrite length_drop, length_ring by done. destruct Hf; lia.
Qed.

Lemma Read_contents f n : wf f -> state_ f <> SS_CLOSED ->
  exists r d ev f', Read f n = (r, d, ev, f') /\ wf f' /\ state_ f' = state_ f /\
    buffer_length_ f' = buffer_length_ f /\ d = take n (contents f) /\ contents f' = drop n (contents f) /\
    data_length_ f' = (data_length_ f - length d)%nat /\
    ring f' = drop (length d) (ring f) ++ take (length d) (ring f) /\
    (if (data_length_ f =? 0)%nat then r = SR_BLOCK /\ f' = f else r = SR_SUCCESS).
Proof.
  intros Hf Ho. pose proof (fifo_length_contents f Hf) as Lc. unfold Read. rewrite ReadOffset_ring by done.
  destruct (Nat.leb_spec (data_length_ f) 0).
  - rewrite (proj2 (Nat.eqb_eq _ _)) by lia. unfold blocked. rewrite bool_decide_eq_false_2 by done.
    assert (Hc : contents f = []) by (apply length_zero_iff_nil; lia). rewrite Hc, take_nil, drop_nil.
    eexists _, _, _, _. split; [reflexivity|]. split_and!; try done; [cbn; lia|by rewrite drop_0, take_0, app_nil_r].
  - rewrite (proj2 (Nat.eqb_neq _ _)) by lia. rewrite Nat.sub_0_r.
    assert (Hd : mem_read (ring f) 0 (Nat.min n (data_length_ f)) = take n (contents f)).
    { unfold mem_read, contents. by rewrite drop_0, take_take. }
    rewrite Hd. set (d := take n (contents f)).
    assert (Ld : length d = Nat.min n (data_length_ f)) by (unfold d; by rewrite length_take, Lc).
    destruct (ConsumeReadData_contents f (length d) Hf) as (W & C & S1 & B & D & R); [lia|].
    eexists _, _, _, _. split; [reflexivity|]. split_and!; try done.
    change (contents (ConsumeReadData f (length d)).2 = drop n (contents f)). rewrite C, Ld.
    destruct (Nat.min_spec n (data_length_ f)) as [[? ->]|[? ->]]; [done|]. by rewrite !drop_ge by lia.
Qed.

Lemma SetCapacity_contents f n : wf f -> (0 < n)%nat -> (data_length_ f <= n)%nat ->
  exists f', SetCapacity f n = (true, f') /\ wf f' /\ contents f' = contents f /\ state_ f' = state_ f /\
    buffer_length_ f' = n /\ data_length_ f' = data_length_ f.
Proof.
  intros Hf Hn Hd. destruct (SetCapacity_refines f n Hf Hn) as (H1 & H2 & H3). cbn [exec spec_exec] in *.
  change (s_len (abs f)) with (data_length_ f) in *. rewrite s_cap_abs in * by done.
  rewrite (proj2 (Nat.ltb_ge _ _)) in H1, H3 by done.
  destruct (Nat.eqb_spec n (buffer_length_ f)) as [->|Hne]; cbn [fst snd] in *.
  - unfold SetCapacity. rewrite (proj2 (Nat.ltb_ge _ _)), Nat.eqb_refl by done. exists f. by split_and!.
  - assert (E : exists f', SetCapacity f n = (true, f') /\ buffer_length_ f' = n /\ data_length_ f' = data_length_ f /\ state_ f' = state_ f).
    { unfold SetCapacity. rewrite (proj2 (Nat.ltb_ge _ _)), (proj2 (Nat.eqb_neq _ _)) by done.
      eexists. split; [reflexivity|]. done. }
    destruct E as (f' & E & Hb & Hl & Hst). rewrite E in *. exists f'. cbn [fst snd] in *.
    split_and!; try done. unfold abs in H3. injection H3 as _ Hr. unfold contents. rewrite Hl, Hr.
    rewrite take_app_le by (rewrite length_take, length_ring by done; destruct Hf; lia). rewrite take_take. f_equal. lia.
Qed.

End Host.

Lemma fifo_refines_witness :
  let f := @new x86 4 in
  let os := [OpWrite [1; 2; 3]; OpRead 2; OpWriteOffset [9; 8] 1; OpWrite [4]; OpConsumeWriteBuffer 1;
             OpSetCapacity 6; OpRead 9] in
  (@run x86 f os).1 = (@spec_run x86 (abs f) os).1.
Proof.
  cbv zeta. apply (@fifo_refines x86).
  - split; vm_compute; lia.
  - vm_compute. repeat split; lia.
Defined.

End FifoBuffer.
