(* ===== verification/PseudoTcp.v ===== *)
(** * p2p/base/pseudotcp.cc: TCP over an unreliable datagram channel

    The object is a record in groups of fields, with one setter per field.
    The surroundings are [IPseudoTcpNotify]: the readings of the system clock,
    numbered, and the answer of TcpWritePacket to each packet, given what was
    written before; the callbacks are recorded in the trace with the packets
    (a callback that re-enters the object is not modelled).  A step that would
    have undefined behaviour (an access outside an array or a list, a shift by
    32 or more, a division by zero) or fail an assertion on which memory safety
    depends is [None]; the one assertion about a peer's timestamp is compiled
    out, as in a release build.  uint32 arithmetic wraps where the source's
    does.  The keep-alive code is disabled in the source. *)

From S2P Require Import Prelude TimeUtils ByteOrder ByteBuffer FifoBuffer.
Import ByteOrder.
Open Scope jingle_scope.

Module PseudoTcp.

Inductive TcpState := TCP_LISTEN | TCP_SYN_SENT | TCP_SYN_RECEIVED | TCP_ESTABLISHED | TCP_CLOSED.
#[export] Instance TcpState_eq_dec : EqDecision TcpState.
Proof. solve_decision. Defined.
Inductive Shutdown := SD_NONE | SD_GRACEFUL | SD_FORCEFUL.
#[export] Instance Shutdown_eq_dec : EqDecision Shutdown.
Proof. solve_decision. Defined.
Inductive SendFlags := sfNone | sfDelayedAck | sfImmediateAck.
Inductive WriteResult := WR_SUCCESS | WR_TOO_LARGE | WR_FAIL.
Inductive Option := OPT_NODELAY | OPT_ACKDELAY | OPT_RCVBUF | OPT_SNDBUF.
Inductive Errno := NO_ERROR | EINVAL | ENOTCONN | EWOULDBLOCK | ECONNABORTED | ECONNRESET.
#[export] Instance Errno_eq_dec : EqDecision Errno.
Proof. solve_decision. Defined.

(** What the object does to its surroundings. *)
Inductive Event :=
  | TcpOpen | TcpReadable | TcpWriteable | TcpClosed (err : Errno) | TcpPacket (buffer : bytes).
#[export] Instance Event_eq_dec : EqDecision Event.
Proof. solve_decision. Defined.

Class IPseudoTcpNotify := {
  Time : nat -> Z;
  TcpWritePacket : list Event -> bytes -> WriteResult;
}.

(** Surroundings for evaluation: a steady clock and a socket that accepts
    every packet. *)
Definition steady : IPseudoTcpNotify :=
  {| Time := fun n => 1000 + Z.of_nat n; TcpWritePacket := fun _ _ => WR_SUCCESS |}.

Record Segment := mkSegment {
  seg_conv : Z; seg_seq : Z; seg_ack : Z; seg_flags : Z; seg_wnd : Z;
  seg_data : bytes; seg_len : Z; seg_tsval : Z; seg_tsecr : Z;
}.
Record SSegment := mkSSegment { s_seq : Z; s_len : Z; s_xmit : Z; s_bCtrl : bool }.
Record RSegment := mkRSegment { r_seq : Z; r_len : Z }.

(** ** The object *)

Record Tcb := mkTcb {
  tcb_shutdown : Shutdown;
  tcb_error : Errno;
  tcb_state : TcpState;
  tcb_conv : Z;
  tcb_bReadEnable : bool;
  tcb_bWriteEnable : bool;
  tcb_bOutgoing : bool;
  tcb_lasttraffic : Z;
}.
Record Incoming := mkIncoming {
  inc_rlist : list RSegment;
  inc_rbuf_len : Z;
  inc_rcv_nxt : Z;
  inc_rcv_wnd : Z;
  inc_lastrecv : Z;
  inc_rwnd_scale : Z;
  inc_rbuf : FifoBuffer.t;
}.
Record Outgoing := mkOutgoing {
  out_slist : list SSegment;
  out_sbuf_len : Z;
  out_snd_nxt : Z;
  out_snd_wnd : Z;
  out_lastsend : Z;
  out_snd_una : Z;
  out_swnd_scale : Z;
  out_sbuf : FifoBuffer.t;
}.
Record SegmentSize := mkSegmentSize {
  siz_mss : Z;
  siz_msslevel : nat;
  siz_largest : Z;
  siz_mtu_advise : Z;
}.
Record Timers := mkTimers {
  tim_rto_base : Z;
  tim_ts_recent : Z;
  tim_ts_lastack : Z;
  tim_rx_rttvar : Z;
  tim_rx_srtt : Z;
  tim_rx_rto : Z;
  tim_t_ack : Z;
}.
Record Congestion := mkCongestion {
  cng_ssthresh : Z;
  cng_cwnd : Z;
  cng_dup_acks : Z;
  cng_recover : Z;
}.
Record Options := mkOptions {
  opt_use_nagling : bool;
  opt_ack_delay : Z;
  opt_support_wnd_scale : bool;
}.
Record Environment := mkEnvironment {
  env_clock : nat;
  env_trace : list Event;
}.
Record t := mk {
  tcb : Tcb;
  inc : Incoming;
  out : Outgoing;
  siz : SegmentSize;
  tim : Timers;
  cng : Congestion;
  opt : Options;
  env : Environment;
}.

Definition with_tcb (x : Tcb) (s : t) : t := mk x (inc s) (out s) (siz s) (tim s) (cng s) (opt s) (env s).
Definition with_inc (x : Incoming) (s : t) : t := mk (tcb s) x (out s) (siz s) (tim s) (cng s) (opt s) (env s).
Definition with_out (x : Outgoing) (s : t) : t := mk (tcb s) (inc s) x (siz s) (tim s) (cng s) (opt s) (env s).
Definition with_siz (x : SegmentSize) (s : t) : t := mk (tcb s) (inc s) (out s) x (tim s) (cng s) (opt s) (env s).
Definition with_tim (x : Timers) (s : t) : t := mk (tcb s) (inc s) (out s) (siz s) x (cng s) (opt s) (env s).
Definition with_cng (x : Congestion) (s : t) : t := mk (tcb s) (inc s) (out s) (siz s) (tim s) x (opt s) (env s).
Definition with_opt (x : Options) (s : t) : t := mk (tcb s) (inc s) (out s) (siz s) (tim s) (cng s) x (env s).
Definition with_env (x : Environment) (s : t) : t := mk (tcb s) (inc s) (out s) (siz s) (tim s) (cng s) (opt s) x.

Definition m_shutdown (s : t) : Shutdown := tcb_shutdown (tcb s).
Definition m_error (s : t) : Errno := tcb_error (tcb s).
Definition m_state (s : t) : TcpState := tcb_state (tcb s).
Definition m_conv (s : t) : Z := tcb_conv (tcb s).
Definition m_bReadEnable (s : t) : bool := tcb_bReadEnable (tcb s).
Definition m_bWriteEnable (s : t) : bool := tcb_bWriteEnable (tcb s).
Definition m_bOutgoing (s : t) : bool := tcb_bOutgoing (tcb s).
Definition m_lasttraffic (s : t) : Z := tcb_lasttraffic (tcb s).
Definition m_rlist (s : t) : list RSegment := inc_rlist (inc s).
Definition m_rbuf_len (s : t) : Z := inc_rbuf_len (inc s).
Definition m_rcv_nxt (s : t) : Z := inc_rcv_nxt (inc s).
Definition m_rcv_wnd (s : t) : Z := inc_rcv_wnd (inc s).
Definition m_lastrecv (s : t) : Z := inc_lastrecv (inc s).
Definition m_rwnd_scale (s : t) : Z := inc_rwnd_scale (inc s).
Definition m_rbuf (s : t) : FifoBuffer.t := inc_rbuf (inc s).
Definition m_slist (s : t) : list SSegment := out_slist (out s).
Definition m_sbuf_len (s : t) : Z := out_sbuf_len (out s).
Definition m_snd_nxt (s : t) : Z := out_snd_nxt (out s).
Definition m_snd_wnd (s : t) : Z := out_snd_wnd (out s).
Definition m_lastsend (s : t) : Z := out_lastsend (out s).
Definition m_snd_una (s : t) : Z := out_snd_una (out s).
Definition m_swnd_scale (s : t) : Z := out_swnd_scale (out s).
Definition m_sbuf (s : t) : FifoBuffer.t := out_sbuf (out s).
Definition m_mss (s : t) : Z := siz_mss (siz s).
Definition m_msslevel (s : t) : nat := siz_msslevel (siz s).
Definition m_largest (s : t) : Z := siz_largest (siz s).
Definition m_mtu_advise (s : t) : Z := siz_mtu_advise (siz s).
Definition m_rto_base (s : t) : Z := tim_rto_base (tim s).
Definition m_ts_recent (s : t) : Z := tim_ts_recent (tim s).
Definition m_ts_lastack (s : t) : Z := tim_ts_lastack (tim s).
Definition m_rx_rttvar (s : t) : Z := tim_rx_rttvar (tim s).
Definition m_rx_srtt (s : t) : Z := tim_rx_srtt (tim s).
Definition m_rx_rto (s : t) : Z := tim_rx_rto (tim s).
Definition m_t_ack (s : t) : Z := tim_t_ack (tim s).
Definition m_ssthresh (s : t) : Z := cng_ssthresh (cng s).
Definition m_cwnd (s : t) : Z := cng_cwnd (cng s).
Definition m_dup_acks (s : t) : Z := cng_dup_acks (cng s).
Definition m_recover (s : t) : Z := cng_recover (cng s).
Definition m_use_nagling (s : t) : bool := opt_use_nagling (opt s).
Definition m_ack_delay (s : t) : Z := opt_ack_delay (opt s).
Definition m_support_wnd_scale (s : t) : bool := opt_support_wnd_scale (opt s).
Definition m_clock (s : t) : nat := env_clock (env s).
Definition m_trace (s : t) : list Event := env_trace (env s).

Definition set_shutdown (v : Shutdown) (s : t) : t :=
  with_tcb (mkTcb v (m_error s) (m_state s) (m_conv s) (m_bReadEnable s) (m_bWriteEnable s) (m_bOutgoing s) (m_lasttraffic s)) s.
Definition set_error (v : Errno) (s : t) : t :=
  with_tcb (mkTcb (m_shutdown s) v (m_state s) (m_conv s) (m_bReadEnable s) (m_bWriteEnable s) (m_bOutgoing s) (m_lasttraffic s)) s.
Definition set_state (v : TcpState) (s : t) : t :=
  with_tcb (mkTcb (m_shutdown s) (m_error s) v (m_conv s) (m_bReadEnable s) (m_bWriteEnable s) (m_bOutgoing s) (m_lasttraffic s)) s.
Definition set_conv (v : Z) (s : t) : t :=
  with_tcb (mkTcb (m_shutdown s) (m_error s) (m_state s) v (m_bReadEnable s) (m_bWriteEnable s) (m_bOutgoing s) (m_lasttraffic s)) s.
Definition set_bReadEnable (v : bool) (s : t) : t :=
  with_tcb (mkTcb (m_shutdown s) (m_error s) (m_state s) (m_conv s) v (m_bWriteEnable s) (m_bOutgoing s) (m_lasttraffic s)) s.
Definition set_bWriteEnable (v : bool) (s : t) : t :=
  with_tcb (mkTcb (m_shutdown s) (m_error s) (m_state s) (m_conv s) (m_bReadEnable s) v (m_bOutgoing s) (m_lasttraffic s)) s.
Definition set_bOutgoing (v : bool) (s : t) : t :=
  with_tcb (mkTcb (m_shutdown s) (m_error s) (m_state s) (m_conv s) (m_bReadEnable s) (m_bWriteEnable s) v (m_lasttraffic s)) s.
Definition set_lasttraffic (v : Z) (s : t) : t :=
  with_tcb (mkTcb (m_shutdown s) (m_error s) (m_state s) (m_conv s) (m_bReadEnable s) (m_bWriteEnable s) (m_bOutgoing s) v) s.
Definition set_rlist (v : list RSegment) (s : t) : t :=
  with_inc (mkIncoming v (m_rbuf_len s) (m_rcv_nxt s) (m_rcv_wnd s) (m_lastrecv s) (m_rwnd_scale s) (m_rbuf s)) s.
Definition set_rbuf_len (v : Z) (s : t) : t :=
  with_inc (mkIncoming (m_rlist s) v (m_rcv_nxt s) (m_rcv_wnd s) (m_lastrecv s) (m_rwnd_scale s) (m_rbuf s)) s.
Definition set_rcv_nxt (v : Z) (s : t) : t :=
  with_inc (mkIncoming (m_rlist s) (m_rbuf_len s) v (m_rcv_wnd s) (m_lastrecv s) (m_rwnd_scale s) (m_rbuf s)) s.
Definition set_rcv_wnd (v : Z) (s : t) : t :=
  with_inc (mkIncoming (m_rlist s) (m_rbuf_len s) (m_rcv_nxt s) v (m_lastrecv s) (m_rwnd_scale s) (m_rbuf s)) s.
Definition set_lastrecv (v : Z) (s : t) : t :=
  with_inc (mkIncoming (m_rlist s) (m_rbuf_len s) (m_rcv_nxt s) (m_rcv_wnd s) v (m_rwnd_scale s) (m_rbuf s)) s.
Definition set_rwnd_scale (v : Z) (s : t) : t :=
  with_inc (mkIncoming (m_rlist s) (m_rbuf_len s) (m_rcv_nxt s) (m_rcv_wnd s) (m_lastrecv s) v (m_rbuf s)) s.
Definition set_rbuf (v : FifoBuffer.t) (s : t) : t :=
  with_inc (mkIncoming (m_rlist s) (m_rbuf_len s) (m_rcv_nxt s) (m_rcv_wnd s) (m_lastrecv s) (m_rwnd_scale s) v) s.
Definition set_slist (v : list SSegment) (s : t) : t :=
  with_out (mkOutgoing v (m_sbuf_len s) (m_snd_nxt s) (m_snd_wnd s) (m_lastsend s) (m_snd_una s) (m_swnd_scale s) (m_sbuf s)) s.
Definition set_sbuf_len (v : Z) (s : t) : t :=
  with_out (mkOutgoing (m_slist s) v (m_snd_nxt s) (m_snd_wnd s) (m_lastsend s) (m_snd_una s) (m_swnd_scale s) (m_sbuf s)) s.
Definition set_snd_nxt (v : Z) (s : t) : t :=
  with_out (mkOutgoing (m_slist s) (m_sbuf_len s) v (m_snd_wnd s) (m_lastsend s) (m_snd_una s) (m_swnd_scale s) (m_sbuf s)) s.
Definition set_snd_wnd (v : Z) (s : t) : t :=
  with_out (mkOutgoing (m_slist s) (m_sbuf_len s) (m_snd_nxt s) v (m_lastsend s) (m_snd_una s) (m_swnd_scale s) (m_sbuf s)) s.
Definition set_lastsend (v : Z) (s : t) : t :=
  with_out (mkOutgoing (m_slist s) (m_sbuf_len s) (m_snd_nxt s) (m_snd_wnd s) v (m_snd_una s) (m_swnd_scale s) (m_sbuf s)) s.
Definition set_snd_una (v : Z) (s : t) : t :=
  with_out (mkOutgoing (m_slist s) (m_sbuf_len s) (m_snd_nxt s) (m_snd_wnd s) (m_lastsend s) v (m_swnd_scale s) (m_sbuf s)) s.
Definition set_swnd_scale (v : Z) (s : t) : t :=
  with_out (mkOutgoing (m_slist s) (m_sbuf_len s) (m_snd_nxt s) (m_snd_wnd s) (m_lastsend s) (m_snd_una s) v (m_sbuf s)) s.
Definition set_sbuf (v : FifoBuffer.t) (s : t) : t :=
  with_out (mkOutgoing (m_slist s) (m_sbuf_len s) (m_snd_nxt s) (m_snd_wnd s) (m_lastsend s) (m_snd_una s) (m_swnd_scale s) v) s.
Definition set_mss (v : Z) (s : t) : t :=
  with_siz (mkSegmentSize v (m_msslevel s) (m_largest s) (m_mtu_advise s)) s.
Definition set_msslevel (v : nat) (s : t) : t :=
  with_siz (mkSegmentSize (m_mss s) v (m_largest s) (m_mtu_advise s)) s.
Definition set_largest (v : Z) (s : t) : t :=
  with_siz (mkSegmentSize (m_mss s) (m_msslevel s) v (m_mtu_advise s)) s.
Definition set_mtu_advise (v : Z) (s : t) : t :=
  with_siz (mkSegmentSize (m_mss s) (m_msslevel s) (m_largest s) v) s.
Definition set_rto_base (v : Z) (s : t) : t :=
  with_tim (mkTimers v (m_ts_recent s) (m_ts_lastack s) (m_rx_rttvar s) (m_rx_srtt s) (m_rx_rto s) (m_t_ack s)) s.
Definition set_ts_recent (v : Z) (s : t) : t :=
  with_tim (mkTimers (m_rto_base s) v (m_ts_lastack s) (m_rx_rttvar s) (m_rx_srtt s) (m_rx_rto s) (m_t_ack s)) s.
Definition set_ts_lastack (v : Z) (s : t) : t :=
  with_tim (mkTimers (m_rto_base s) (m_ts_recent s) v (m_rx_rttvar s) (m_rx_srtt s) (m_rx_rto s) (m_t_ack s)) s.
Definition set_rx_rttvar (v : Z) (s : t) : t :=
  with_tim (mkTimers (m_rto_base s) (m_ts_recent s) (m_ts_lastack s) v (m_rx_srtt s) (m_rx_rto s) (m_t_ack s)) s.
Definition set_rx_srtt (v : Z) (s : t) : t :=
  with_tim (mkTimers (m_rto_base s) (m_ts_recent s) (m_ts_lastack s) (m_rx_rttvar s) v (m_rx_rto s) (m_t_ack s)) s.
Definition set_rx_rto (v : Z) (s : t) : t :=
  with_tim (mkTimers (m_rto_base s) (m_ts_recent s) (m_ts_lastack s) (m_rx_rttvar s) (m_rx_srtt s) v (m_t_ack s)) s.
Definition set_t_ack (v : Z) (s : t) : t :=
  with_tim (mkTimers (m_rto_base s) (m_ts_recent s) (m_ts_lastack s) (m_rx_rttvar s) (m_rx_srtt s) (m_rx_rto s) v) s.
Definition set_ssthresh (v : Z) (s : t) : t :=
  with_cng (mkCongestion v (m_cwnd s) (m_dup_acks s) (m_recover s)) s.
Definition set_cwnd (v : Z) (s : t) : t :=
  with_cng (mkCongestion (m_ssthresh s) v (m_dup_acks s) (m_recover s)) s.
Definition set_dup_acks (v : Z) (s : t) : t :=
  with_cng (mkCongestion (m_ssthresh s) (m_cwnd s) v (m_recover s)) s.
Definition set_recover (v : Z) (s : t) : t :=
  with_cng (mkCongestion (m_ssthresh s) (m_cwnd s) (m_dup_acks s) v) s.
Definition set_use_nagling (v : bool) (s : t) : t :=
  with_opt (mkOptions v (m_ack_delay s) (m_support_wnd_scale s)) s.
Definition set_ack_delay (v : Z) (s : t) : t :=
  with_opt (mkOptions (m_use_nagling s) v (m_support_wnd_scale s)) s.
Definition set_support_wnd_scale (v : bool) (s : t) : t :=
  with_opt (mkOptions (m_use_nagling s) (m_ack_delay s) v) s.
Definition set_clock (v : nat) (s : t) : t :=
  with_env (mkEnvironment v (m_trace s)) s.
Definition set_trace (v : list Event) (s : t) : t :=
  with_env (mkEnvironment (m_clock s) v) s.

(** ** Constants *)

Definition PACKET_MAXIMUMS : list Z := [65535; 32000; 17914; 8166; 4352; 2002; 1492; 1006; 508; 296; 0].
Definition MAX_PACKET : Z := 65535.
Definition MIN_PACKET : Z := 296.
Definition IP_HEADER_SIZE : Z := 20.
Definition UDP_HEADER_SIZE : Z := 8.
Definition JINGLE_HEADER_SIZE : Z := 64.
Definition DEFAULT_RCV_BUF_SIZE : Z := 60 * 1024.
Definition DEFAULT_SND_BUF_SIZE : Z := 90 * 1024.
Definition HEADER_SIZE : Z := 24.
Definition PACKET_OVERHEAD : Z := HEADER_SIZE + UDP_HEADER_SIZE + IP_HEADER_SIZE + JINGLE_HEADER_SIZE.
Definition MIN_RTO : Z := 250.
Definition DEF_RTO : Z := 3000.
Definition MAX_RTO : Z := 60000.
Definition DEF_ACK_DELAY : Z := 100.
Definition FLAG_CTL : Z := 0x02.
Definition FLAG_RST : Z := 0x04.
Definition CTL_CONNECT : Z := 0.
Definition TCP_OPT_EOL : Z := 0.
Definition TCP_OPT_NOOP : Z := 1.
Definition TCP_OPT_MSS : Z := 2.
Definition TCP_OPT_WND_SCALE : Z := 3.
Definition DEFAULT_TIMEOUT : Z := 4000.
Definition CLOSED_TIMEOUT : Z := 60 * 1000.

(** ** Helper functions *)

Definition bound (lower middle upper : Z) : Z := Z.min (Z.max lower middle) upper.

Abbreviation TimeDiff := TimeUtils.TimeDiff.

Definition is_established (s : t) : bool := bool_decide (m_state s = TCP_ESTABLISHED).
Definition is_flag (flags f : Z) : bool := negb (Z.land flags f =? 0).

Definition log (e : Event) (s : t) : t := set_trace (m_trace s ++ [e]) s.

Definition WriteRemaining (f : FifoBuffer.t) : Z := u32 (Z.of_nat (FifoBuffer.GetWriteRemaining f)).
Definition Buffered (f : FifoBuffer.t) : Z := u32 (Z.of_nat (FifoBuffer.GetBuffered f)).

Section Host.
Context `{Machine} `{IPseudoTcpNotify}.

Definition long_to_bytes (val : Z) : bytes := host_bytes 4 (HostToNetwork32 val).
Definition short_to_bytes (val : Z) : bytes := host_bytes 2 (HostToNetwork16 val).
Definition bytes_to_long (buf : bytes) : Z := NetworkToHost32 (host_val buf).
Definition bytes_to_short (buf : bytes) : Z := NetworkToHost16 (host_val buf).

(** The current time, and the object with that reading used up. *)
Definition Now (s : t) : Z * t := (u32 (Time (m_clock s)), set_clock (S (m_clock s)) s).

(** m_notify->TcpWritePacket. *)
Definition write_packet (buffer : bytes) (s : t) : WriteResult * t :=
  (TcpWritePacket (m_trace s) buffer, log (TcpPacket buffer) s).

Definition new (conv : Z) (clock : nat) : t :=
  let now := u32 (Time clock) in
  let mss := MIN_PACKET - PACKET_OVERHEAD in
  mk (mkTcb SD_NONE NO_ERROR TCP_LISTEN conv true false false now)
     (mkIncoming [] DEFAULT_RCV_BUF_SIZE 0 DEFAULT_RCV_BUF_SIZE now 0
        (FifoBuffer.new (Z.to_nat DEFAULT_RCV_BUF_SIZE)))
     (mkOutgoing [] DEFAULT_SND_BUF_SIZE 0 1 now 0 0
        (FifoBuffer.new (Z.to_nat DEFAULT_SND_BUF_SIZE)))
     (mkSegmentSize mss 0 0 MAX_PACKET)
     (mkTimers 0 0 0 0 0 DEF_RTO 0)
     (mkCongestion DEFAULT_RCV_BUF_SIZE (2 * mss) 0 0)
     (mkOptions true DEF_ACK_DELAY true)
     (mkEnvironment (S clock) []).

(** ** Sending *)

Definition header (seq flags now : Z) (s : t) : bytes :=
  long_to_bytes (m_conv s) ++ long_to_bytes seq ++ long_to_bytes (m_rcv_nxt s) ++ [0; flags]
  ++ short_to_bytes (u16 (Z.shiftr (m_rcv_wnd s) (m_rwnd_scale s)))
  ++ long_to_bytes now ++ long_to_bytes (m_ts_recent s).

(** The payload: [len] bytes of the send buffer from [offset]. *)
Definition payload (offset len : Z) (s : t) : option bytes :=
  if len =? 0 then Some []
  else match FifoBuffer.ReadOffset (m_sbuf s) (Z.to_nat len) (Z.to_nat offset) with
       | (FifoBuffer.SR_SUCCESS, data) => require! (Z.of_nat (length data) =? len) in Some data
       | _ => None
       end.

Definition packet (seq flags offset len : Z) (s : t) : option (WriteResult * t) :=
  require! (HEADER_SIZE + len <=? MAX_PACKET) in
  let '(now, s) := Now s in
  let buffer := header seq flags now s in
  let s := set_ts_lastack (m_rcv_nxt s) s in
  let? data := payload offset len s in
  let '(wres, s) := write_packet (buffer ++ data) s in
  let sent :=
    let s := set_t_ack 0 s in
    let s := if 0 <? len then set_lastsend now s else s in
    let s := set_lasttraffic now s in
    Some (WR_SUCCESS, set_bOutgoing true s) in
  match wres with
  | WR_SUCCESS => sent
  | _ => if len =? 0 then sent else Some (wres, s)
  end.

Definition closedown (err : Errno) (s : t) : t := log (TcpClosed err) (set_state TCP_CLOSED s).

(** The inner loop of transmit: the next packet sizes down to one below
    [nTransmit].  The boolean says that there is one. *)
Fixpoint lower_mss (fuel : nat) (nTransmit : Z) (s : t) : option (bool * t) :=
  match fuel with
  | O => None
  | S fuel =>
      let? next := PACKET_MAXIMUMS !! S (m_msslevel s) in
      if next =? 0 then Some (false, s)
      else
        let s := set_msslevel (S (m_msslevel s)) s in
        let s := set_mss (u32 (next - PACKET_OVERHEAD)) s in
        let s := set_cwnd (u32 (2 * m_mss s)) s in
        if m_mss s <? nTransmit then Some (true, s) else lower_mss fuel nTransmit s
  end.

(** The outer loop: the number of bytes that went out, if any did. *)
Fixpoint send_segment (fuel : nat) (seg : SSegment) (nTransmit : Z) (s : t)
  : option (option Z * t) :=
  match fuel with
  | O => None
  | S fuel =>
      let flags := if s_bCtrl seg then FLAG_CTL else 0 in
      let? (wres, s) := packet (s_seq seg) flags (u32 (s_seq seg - m_snd_una s)) nTransmit s in
      match wres with
      | WR_SUCCESS => Some (Some nTransmit, s)
      | WR_FAIL => Some (None, s)
      | WR_TOO_LARGE =>
          let? (lower, s) := lower_mss (length PACKET_MAXIMUMS) nTransmit s in
          if lower then send_segment fuel seg (m_mss s) s else Some (None, s)
      end
  end.

(** What is left of a segment after its first [len] bytes, and the insertion
    of segments in the place of the one at [i]. *)
Definition subseg (seg : SSegment) (len xmit : Z) : SSegment :=
  mkSSegment (u32 (s_seq seg + len)) (u32 (s_len seg - len)) xmit (s_bCtrl seg).
Definition replace_at (i : nat) (segs : list SSegment) (l : list SSegment) : list SSegment :=
  take i l ++ segs ++ drop (S i) l.

Definition transmit (i : nat) (now : Z) (s : t) : option (bool * t) :=
  let? seg := m_slist s !! i in
  if (if is_established s then 15 else 30) <=? s_xmit seg then Some (false, s)
  else
    let? (sent, s) := send_segment (length PACKET_MAXIMUMS) seg (Z.min (s_len seg) (m_mss s)) s in
    match sent with
    | None => Some (false, s)
    | Some nTransmit =>
        let rest := if nTransmit <? s_len seg then [subseg seg nTransmit (s_xmit seg)] else [] in
        let len := if nTransmit <? s_len seg then nTransmit else s_len seg in
        let first := mkSSegment (s_seq seg) len (u8 (s_xmit seg + 1)) (s_bCtrl seg) in
        let s := set_slist (replace_at i (first :: rest) (m_slist s)) s in
        let s := if s_xmit seg =? 0 then set_snd_nxt (u32 (m_snd_nxt s + len)) s else s in
        let s := if m_rto_base s =? 0 then set_rto_base now s else s in
        Some (true, s)
    end.

(** The first segment that was never transmitted. *)
Fixpoint first_unsent (l : list SSegment) : option nat :=
  match l with
  | [] => None
  | seg :: l => if s_xmit seg =? 0 then Some 0%nat else option_map S (first_unsent l)
  end.

(** The number of bytes the windows allow to send now. *)
Definition send_window (s : t) : Z :=
  let cwnd := if (m_dup_acks s =? 1) || (m_dup_acks s =? 2)
              then u32 (m_cwnd s + m_dup_acks s * m_mss s) else m_cwnd s in
  let nWindow := Z.min (m_snd_wnd s) cwnd in
  let nInFlight := u32 (m_snd_nxt s - m_snd_una s) in
  let nUseable := if nInFlight <? nWindow then nWindow - nInFlight else 0 in
  let nAvailable := Z.min (u32 (Buffered (m_sbuf s) - nInFlight)) (m_mss s) in
  if nUseable <? nAvailable then
    if u32 (nUseable * 4) <? nWindow then 0 else nUseable
  else nAvailable.

Fixpoint attemptSend_loop (fuel : nat) (now : Z) (sflags : SendFlags) (s : t) : option t :=
  match fuel with
  | O => None
  | S fuel =>
      let nAvailable := send_window s in
      if nAvailable =? 0 then
        match sflags with
        | sfNone => Some s
        | _ =>
            if match sflags with sfImmediateAck => true | _ => false end || negb (m_t_ack s =? 0)
            then let? (_, s) := packet (m_snd_nxt s) 0 0 0 s in Some s
            else let '(now, s) := Now s in Some (set_t_ack now s)
        end
      else if m_use_nagling s && (m_snd_una s <? m_snd_nxt s) && (nAvailable <? m_mss s) then Some s
      else
        let? i := first_unsent (m_slist s) in
        let? seg := m_slist s !! i in
        let s := if nAvailable <? s_len seg
                 then set_slist (replace_at i [mkSSegment (s_seq seg) nAvailable (s_xmit seg) (s_bCtrl seg);
                                           subseg seg nAvailable 0] (m_slist s)) s
                 else s in
        let? (ok, s) := transmit i now s in
        if ok then attemptSend_loop fuel now sfNone s else Some s
  end.

Definition attemptSend (sflags : SendFlags) (s : t) : option t :=
  let '(now, s) := Now s in
  let s := if m_rx_rto s <? TimeDiff now (m_lastsend s) then set_cwnd (m_mss s) s else s in
  attemptSend_loop (S (FifoBuffer.GetBuffered (m_sbuf s))) now sflags s.

(** The number of bytes taken. *)
Definition queue (data : bytes) (bCtrl : bool) (s : t) : option (Z * t) :=
  let available_space := WriteRemaining (m_sbuf s) in
  let len := u32 (Z.of_nat (length data)) in
  let? len := if available_space <? len
              then require! negb bCtrl in Some available_space else Some len in
  let append := m_slist s ++ [mkSSegment (u32 (m_snd_una s + Buffered (m_sbuf s))) len 0 bCtrl] in
  let slist :=
    match last (m_slist s) with
    | Some back =>
        if Bool.eqb (s_bCtrl back) bCtrl && (s_xmit back =? 0)
        then replace_at (pred (length (m_slist s)))
               [mkSSegment (s_seq back) (u32 (s_len back + len)) (s_xmit back) (s_bCtrl back)]
               (m_slist s)
        else append
    | None => append
    end in
  let s := set_slist slist s in
  let '(_, written, _, sbuf) := FifoBuffer.Write (m_sbuf s) (take (Z.to_nat len) data) in
  Some (u32 (Z.of_nat written), set_sbuf sbuf s).

Definition queueConnectMessage (s : t) : option t :=
  let buf := ByteBuffer.new_empty ByteBuffer.ORDER_NETWORK in
  let buf := ByteBuffer.WriteUInt8 buf CTL_CONNECT in
  let buf :=
    if m_support_wnd_scale s then
      let buf := ByteBuffer.WriteUInt8 buf TCP_OPT_WND_SCALE in
      let buf := ByteBuffer.WriteUInt8 buf 1 in
      ByteBuffer.WriteUInt8 buf (m_rwnd_scale s)
    else buf in
  let s := set_snd_wnd (u32 (Z.of_nat (ByteBuffer.Length buf))) s in
  let? (_, s) := queue (take (ByteBuffer.Length buf) (ByteBuffer.Data buf)) true s in
  Some s.

Definition disableWindowScale (s : t) : t := set_support_wnd_scale false s.
Definition isReceiveBufferFull (s : t) : bool := (FifoBuffer.GetWriteRemaining (m_rbuf s) =? 0)%nat.

(** ** Packet sizes and buffers *)

(** The first level, from [n] on, whose packet size is within the advice. *)
Fixpoint mtu_level (fuel n : nat) (mtu : Z) : nat :=
  match fuel with
  | O => n
  | S fuel =>
      if 0 <? nth (S n) PACKET_MAXIMUMS 0 then
        if nth n PACKET_MAXIMUMS 0 <=? mtu then n else mtu_level fuel (S n) mtu
      else n
  end.

Definition adjustMTU (s : t) : t :=
  let s := set_msslevel (mtu_level (length PACKET_MAXIMUMS) 0 (m_mtu_advise s)) s in
  let s := set_mss (u32 (m_mtu_advise s - PACKET_OVERHEAD)) s in
  let s := set_ssthresh (Z.max (m_ssthresh s) (u32 (2 * m_mss s))) s in
  set_cwnd (Z.max (m_cwnd s) (m_mss s)) s.

Definition resizeSendBuffer (new_size : Z) (s : t) : t :=
  let s := set_sbuf_len new_size s in
  set_sbuf (FifoBuffer.SetCapacity (m_sbuf s) (Z.to_nat new_size)).2 s.

(** while (new_size > 0xFFFF): at most 16 halvings of a uint32. *)
Fixpoint scale_down (fuel : nat) (new_size scale_factor : Z) : Z * Z :=
  match fuel with
  | O => (new_size, scale_factor)
  | S fuel =>
      if 0xFFFF <? new_size then scale_down fuel (Z.shiftr new_size 1) (u8 (scale_factor + 1))
      else (new_size, scale_factor)
  end.

Definition resizeReceiveBuffer (new_size : Z) (s : t) : option t :=
  let '(new_size, scale_factor) := scale_down 16 new_size 0 in
  let new_size := u32 (Z.shiftl new_size scale_factor) in
  let '(result, rbuf) := FifoBuffer.SetCapacity (m_rbuf s) (Z.to_nat new_size) in
  require! result in
  let s := set_rbuf rbuf s in
  let s := set_rbuf_len new_size s in
  let s := set_rwnd_scale scale_factor s in
  let s := set_ssthresh new_size s in
  Some (set_rcv_wnd (WriteRemaining (m_rbuf s)) s).

(** ** Options of a connect message *)

Definition applyWindowScaleOption (scale_factor : Z) (s : t) : t := set_swnd_scale scale_factor s.

Definition applyOption (kind : Z) (data : bytes) (len : Z) (s : t) : option t :=
  if kind =? TCP_OPT_MSS then Some s
  else if kind =? TCP_OPT_WND_SCALE then
    if negb (len =? 1) then Some s
    else let? scale := data !! 0%nat in Some (applyWindowScaleOption scale s)
  else Some s.

(** The boolean: the list did not end in an invalid option length. *)
Fixpoint options_loop (fuel : nat) (buf : ByteBuffer.t) (specified : list Z) (s : t)
  : option (bool * list Z * t) :=
  match fuel with
  | O => None
  | S fuel =>
      if (ByteBuffer.Length buf =? 0)%nat then Some (true, specified, s)
      else
        let '(kind, buf) := default (TCP_OPT_EOL, buf) (ByteBuffer.ReadUInt8 buf) in
        if kind =? TCP_OPT_EOL then Some (true, specified, s)
        else if kind =? TCP_OPT_NOOP then options_loop fuel buf specified s
        else
          let '(opt_len, buf) := default (0, buf) (ByteBuffer.ReadUInt8 buf) in
          if (Z.to_nat opt_len <=? ByteBuffer.Length buf)%nat then
            let? s := applyOption kind (ByteBuffer.Data buf) opt_len s in
            let? buf := ByteBuffer.Consume buf (Z.to_nat opt_len) in
            options_loop fuel buf (kind :: specified) s
          else Some (false, specified, s)
  end.

Definition parseOptions (data : bytes) (s : t) : option t :=
  let buf := ByteBuffer.new_from data ByteBuffer.ORDER_NETWORK in
  let? (complete, specified, s) := options_loop (S (length data)) buf [] s in
  if negb complete then Some s
  else if bool_decide (TCP_OPT_WND_SCALE ∈ specified) then Some s
  else if 0 <? m_rwnd_scale s then
    let? s := resizeReceiveBuffer DEFAULT_RCV_BUF_SIZE s in Some (set_swnd_scale 0 s)
  else Some s.

(** ** Processing a segment *)

(** Control data: whether to go on, and whether it was a connect message. *)
Definition process_control (seg : Segment) (s : t) : option (bool * bool * t) :=
  if negb (is_flag (seg_flags seg) FLAG_CTL) then Some (true, false, s)
  else if seg_len seg =? 0 then Some (false, false, s)
  else
    let? code := seg_data seg !! 0%nat in
    if code =? CTL_CONNECT then
      let? s := parseOptions (take (Z.to_nat (seg_len seg - 1)) (drop 1 (seg_data seg))) s in
      match m_state s with
      | TCP_LISTEN => let? s := queueConnectMessage (set_state TCP_SYN_RECEIVED s) in Some (true, true, s)
      | TCP_SYN_SENT => Some (true, true, log TcpOpen (adjustMTU (set_state TCP_ESTABLISHED s)))
      | _ => Some (true, true, s)
      end
    else Some (false, false, s).

Definition update_timestamp (seg : Segment) (s : t) : t :=
  if (seg_seq seg <=? m_ts_lastack s) && (m_ts_lastack s <? u32 (seg_seq seg + seg_len seg))
  then set_ts_recent (seg_tsval seg) s else s.

Definition update_rtt (now tsecr : Z) (s : t) : t :=
  let rtt := TimeDiff now tsecr in
  if (tsecr =? 0) || (rtt <? 0) then s
  else
    let s :=
      if m_rx_srtt s =? 0 then set_rx_rttvar (rtt / 2) (set_rx_srtt rtt s)
      else
        let abs_err := if m_rx_srtt s <? rtt then rtt - m_rx_srtt s else m_rx_srtt s - rtt in
        let s := set_rx_rttvar (u32 (u32 (3 * m_rx_rttvar s) + abs_err) / 4) s in
        set_rx_srtt (u32 (u32 (7 * m_rx_srtt s) + rtt) / 8) s in
    set_rx_rto (bound MIN_RTO (u32 (m_rx_srtt s + Z.max 1 (u32 (4 * m_rx_rttvar s)))) MAX_RTO) s.

(** seg.wnd << m_swnd_scale *)
Definition update_window (seg : Segment) (s : t) : option t :=
  require! (m_swnd_scale s <? 32) in
  Some (set_snd_wnd (u32 (Z.shiftl (seg_wnd seg) (m_swnd_scale s))) s).

(** Release [nFree] acknowledged bytes; also the longest segment released. *)
Fixpoint free_segments (nFree : Z) (slist : list SSegment) (largest : Z)
  : option (list SSegment * Z) :=
  if nFree <=? 0 then Some (slist, largest)
  else
    match slist with
    | [] => None
    | front :: rest =>
        if nFree <? s_len front
        then Some (mkSSegment (s_seq front) (s_len front - nFree) (s_xmit front) (s_bCtrl front) :: rest,
                   largest)
        else free_segments (nFree - s_len front) rest (Z.max largest (s_len front))
    end.

Definition ConsumeReadData (f : FifoBuffer.t) (n : Z) : option FifoBuffer.t :=
  require! (Z.to_nat n <=? FifoBuffer.data_length_ f)%nat in
  Some (FifoBuffer.ConsumeReadData f (Z.to_nat n)).2.
Definition ConsumeWriteBuffer (f : FifoBuffer.t) (n : Z) : option FifoBuffer.t :=
  require! (Z.to_nat n <=? FifoBuffer.buffer_length_ f - FifoBuffer.data_length_ f)%nat in
  Some (FifoBuffer.ConsumeWriteBuffer f (Z.to_nat n)).2.

Definition flight (s : t) : Z := u32 (m_snd_nxt s - m_snd_una s).

(** transmit(m_slist.begin(), now), or the connection is aborted. *)
Definition retransmit (now : Z) (s : t) : option (bool * t) :=
  let? (ok, s) := transmit 0 now s in
  if ok then Some (true, s) else Some (false, closedown ECONNABORTED s).

(** The congestion window after an acknowledgement of [nAcked] new bytes. *)
Definition update_congestion (now nAcked : Z) (s : t) : option (bool * t) :=
  if 3 <=? m_dup_acks s then
    if m_recover s <=? m_snd_una s then
      let s := set_cwnd (Z.min (m_ssthresh s) (u32 (flight s + m_mss s))) s in
      Some (true, set_dup_acks 0 s)
    else
      let? (ok, s) := retransmit now s in
      if ok then Some (true, set_cwnd (u32 (m_cwnd s + u32 (m_mss s - Z.min nAcked (m_cwnd s)))) s)
      else Some (false, s)
  else
    let s := set_dup_acks 0 s in
    if m_cwnd s <? m_ssthresh s then Some (true, set_cwnd (u32 (m_cwnd s + m_mss s)) s)
    else
      require! negb (m_cwnd s =? 0) in
      Some (true, set_cwnd (u32 (m_cwnd s + Z.max 1 (u32 (m_mss s * m_mss s) / m_cwnd s))) s).

Definition process_new_ack (now : Z) (seg : Segment) (s : t) : option (bool * t) :=
  let s := update_rtt now (seg_tsecr seg) s in
  let? s := update_window seg s in
  let nAcked := u32 (seg_ack seg - m_snd_una s) in
  let s := set_snd_una (seg_ack seg) s in
  let s := set_rto_base (if m_snd_una s =? m_snd_nxt s then 0 else now) s in
  let? sbuf := ConsumeReadData (m_sbuf s) nAcked in
  let s := set_sbuf sbuf s in
  let? (slist, largest) := free_segments nAcked (m_slist s) (m_largest s) in
  let s := set_largest largest (set_slist slist s) in
  update_congestion now nAcked s.

Definition enter_recovery (s : t) : t :=
  let s := set_recover (m_snd_nxt s) s in
  let s := set_ssthresh (Z.max (flight s / 2) (u32 (2 * m_mss s))) s in
  set_cwnd (u32 (m_ssthresh s + u32 (3 * m_mss s))) s.

Definition process_same_ack (now : Z) (seg : Segment) (s : t) : option (bool * t) :=
  let? s := update_window seg s in
  if 0 <? seg_len seg then Some (true, s)
  else if negb (m_snd_una s =? m_snd_nxt s) then
    let s := set_dup_acks (u8 (m_dup_acks s + 1)) s in
    if m_dup_acks s =? 3 then
      let? (ok, s) := retransmit now s in
      if ok then Some (true, enter_recovery s) else Some (false, s)
    else if 3 <? m_dup_acks s then Some (true, set_cwnd (u32 (m_cwnd s + m_mss s)) s)
    else Some (true, s)
  else Some (true, set_dup_acks 0 s).

Definition process_ack (now : Z) (seg : Segment) (s : t) : option (bool * t) :=
  if (m_snd_una s <? seg_ack seg) && (seg_ack seg <=? m_snd_nxt s) then process_new_ack now seg s
  else if seg_ack seg =? m_snd_una s then process_same_ack now seg s
  else Some (true, s).

Definition open_connection (bConnect : bool) (s : t) : t :=
  if bool_decide (m_state s = TCP_SYN_RECEIVED) && negb bConnect
  then log TcpOpen (adjustMTU (set_state TCP_ESTABLISHED s)) else s.

Definition notify_writeable (s : t) : t :=
  let kIdealRefillSize := u32 (m_sbuf_len s + m_rbuf_len s) / 2 in
  if m_bWriteEnable s && (Buffered (m_sbuf s) <? kIdealRefillSize)
  then log TcpWriteable (set_bWriteEnable false s) else s.

Definition ack_flags (seg : Segment) (s : t) : SendFlags :=
  if negb (seg_seq seg =? m_rcv_nxt s) then sfImmediateAck
  else if negb (seg_len seg =? 0) then
    if m_ack_delay s =? 0 then sfImmediateAck else sfDelayedAck
  else sfNone.

Definition with_data (seq len : Z) (data : bytes) (seg : Segment) : Segment :=
  mkSegment (seg_conv seg) seq (seg_ack seg) (seg_flags seg) (seg_wnd seg) data len
    (seg_tsval seg) (seg_tsecr seg).

(** The part of the segment that fits the receive buffer. *)
Definition fit_segment (seg : Segment) (s : t) : Segment :=
  let seg :=
    if seg_seq seg <? m_rcv_nxt s then
      let nAdjust := m_rcv_nxt s - seg_seq seg in
      if nAdjust <? seg_len seg
      then with_data (seg_seq seg + nAdjust) (seg_len seg - nAdjust) (drop (Z.to_nat nAdjust) (seg_data seg)) seg
      else with_data (seg_seq seg) 0 (seg_data seg) seg
    else seg in
  let available_space := WriteRemaining (m_rbuf s) in
  let last := u32 (seg_seq seg + seg_len seg - m_rcv_nxt s) in
  if available_space <? last then
    let nAdjust := last - available_space in
    with_data (seg_seq seg) (if nAdjust <? seg_len seg then seg_len seg - nAdjust else 0) (seg_data seg) seg
  else seg.

Definition advance (n : Z) (s : t) : option t :=
  let? rbuf := ConsumeWriteBuffer (m_rbuf s) n in
  let s := set_rbuf rbuf s in
  let s := set_rcv_nxt (u32 (m_rcv_nxt s + n)) s in
  Some (set_rcv_wnd (u32 (m_rcv_wnd s - n)) s).

(** The saved segments that the stream has reached. *)
Fixpoint recover_saved (rlist : list RSegment) (sflags : SendFlags) (s : t) : option (SendFlags * t) :=
  match rlist with
  | [] => Some (sflags, set_rlist [] s)
  | r :: rest =>
      if r_seq r <=? m_rcv_nxt s then
        if m_rcv_nxt s <? u32 (r_seq r + r_len r) then
          let? s := advance (u32 (r_seq r + r_len r) - m_rcv_nxt s) s in
          recover_saved rest sfImmediateAck s
        else recover_saved rest sflags s
      else Some (sflags, set_rlist rlist s)
  end.

Fixpoint insert_saved (r : RSegment) (rlist : list RSegment) : list RSegment :=
  match rlist with
  | [] => [r]
  | x :: rest => if r_seq x <? r_seq r then x :: insert_saved r rest else r :: rlist
  end.

(** The data of the (already fitted) segment: new data for the user? *)
Definition receive_data (seg : Segment) (sflags : SendFlags) (s : t) : option (SendFlags * bool * t) :=
  let bIgnoreData := is_flag (seg_flags seg) FLAG_CTL || negb (bool_decide (m_shutdown s = SD_NONE)) in
  if seg_len seg <=? 0 then Some (sflags, false, s)
  else if bIgnoreData then
    Some (sflags, false,
          if seg_seq seg =? m_rcv_nxt s then set_rcv_nxt (u32 (m_rcv_nxt s + seg_len seg)) s else s)
  else
    let nOffset := u32 (seg_seq seg - m_rcv_nxt s) in
    let data := take (Z.to_nat (seg_len seg)) (seg_data seg) in
    let '(result, _, rbuf) := FifoBuffer.WriteOffset (m_rbuf s) data (Z.to_nat nOffset) in
    match result with
    | FifoBuffer.SR_SUCCESS =>
        let s := set_rbuf rbuf s in
        if seg_seq seg =? m_rcv_nxt s then
          let? s := advance (seg_len seg) s in
          let? (sflags, s) := recover_saved (m_rlist s) sflags s in
          Some (sflags, true, s)
        else
          let rseg := mkRSegment (seg_seq seg) (seg_len seg) in
          Some (sflags, false, set_rlist (insert_saved rseg (m_rlist s)) s)
    | _ => None
    end.

Definition notify_readable (bNewData : bool) (s : t) : t :=
  if bNewData && m_bReadEnable s then log TcpReadable (set_bReadEnable false s) else s.

(** From the acknowledgement on. *)
Definition process_rest (bConnect : bool) (seg : Segment) (s : t) : option (bool * t) :=
  let s := open_connection bConnect s in
  let s := notify_writeable s in
  let sflags := ack_flags seg s in
  let seg := fit_segment seg s in
  let? (sflags, bNewData, s) := receive_data seg sflags s in
  let? s := attemptSend sflags s in
  Some (true, notify_readable bNewData s).

Definition process (seg : Segment) (s : t) : option (bool * t) :=
  if negb (seg_conv seg =? m_conv s) then Some (false, s)
  else
    let '(now, s) := Now s in
    let s := set_bOutgoing false (set_lasttraffic now (set_lastrecv now s)) in
    if bool_decide (m_state s = TCP_CLOSED) then Some (false, s)
    else if is_flag (seg_flags seg) FLAG_RST then Some (false, closedown ECONNRESET s)
    else
      let? (ok, bConnect, s) := process_control seg s in
      if negb ok then Some (false, s)
      else
        let s := update_timestamp seg s in
        let? (ok, s) := process_ack now seg s in
        if negb ok then Some (false, s) else process_rest bConnect seg s.

(** The segment in a packet of [size] bytes, [None] if it reads past it. *)
Definition parse_segment (buffer : bytes) : option Segment :=
  require! (HEADER_SIZE <=? Z.of_nat (length buffer)) in
  Some (mkSegment (bytes_to_long (mem_read buffer 0 4)) (bytes_to_long (mem_read buffer 4 4))
          (bytes_to_long (mem_read buffer 8 4)) (nth 13 buffer 0) (bytes_to_short (mem_read buffer 14 2))
          (drop (Z.to_nat HEADER_SIZE) buffer) (Z.of_nat (length buffer) - HEADER_SIZE)
          (bytes_to_long (mem_read buffer 16 4)) (bytes_to_long (mem_read buffer 20 4))).

Definition parse (buffer : bytes) (s : t) : option (bool * t) :=
  if (length buffer <? 12)%nat then Some (false, s)
  else let? seg := parse_segment buffer in process seg s.

(** ** The interface *)

Definition Connect (s : t) : option (Z * t) :=
  if negb (bool_decide (m_state s = TCP_LISTEN)) then Some (-1, set_error EINVAL s)
  else
    let? s := queueConnectMessage (set_state TCP_SYN_SENT s) in
    let? s := attemptSend sfNone s in
    Some (0, s).

Definition NotifyMTU (mtu : Z) (s : t) : t :=
  let s := set_mtu_advise mtu s in
  if is_established s then adjustMTU s else s.

(** The retransmission timer: whether the connection lives on. *)
Definition clock_retransmit (now : Z) (s : t) : option (bool * t) :=
  if negb (m_rto_base s =? 0) && (TimeDiff (u32 (m_rto_base s + m_rx_rto s)) now <=? 0) then
    let? (ok, s) := retransmit now s in
    if negb ok then Some (false, s)
    else
      let s := set_ssthresh (Z.max (flight s / 2) (u32 (2 * m_mss s))) s in
      let s := set_cwnd (m_mss s) s in
      let rto_limit :=
        match m_state s with TCP_LISTEN | TCP_SYN_SENT | TCP_SYN_RECEIVED => DEF_RTO | _ => MAX_RTO end in
      let s := set_rx_rto (Z.min rto_limit (u32 (m_rx_rto s * 2))) s in
      Some (true, set_rto_base now s)
  else Some (true, s).

(** The probe of a closed window. *)
Definition clock_probe (now : Z) (s : t) : option (bool * t) :=
  if (m_snd_wnd s =? 0) && (TimeDiff (u32 (m_lastsend s + m_rx_rto s)) now <=? 0) then
    if 15000 <=? TimeDiff now (m_lastrecv s) then Some (false, closedown ECONNABORTED s)
    else
      let? (_, s) := packet (u32 (m_snd_nxt s - 1)) 0 0 0 s in
      let s := set_lastsend now s in
      Some (true, set_rx_rto (Z.min MAX_RTO (u32 (m_rx_rto s * 2))) s)
  else Some (true, s).

Definition clock_ack (now : Z) (s : t) : option t :=
  if negb (m_t_ack s =? 0) && (TimeDiff (u32 (m_t_ack s + m_ack_delay s)) now <=? 0)
  then let? (_, s) := packet (m_snd_nxt s) 0 0 0 s in Some s else Some s.

Definition NotifyClock (now : Z) (s : t) : option t :=
  if bool_decide (m_state s = TCP_CLOSED) then Some s
  else
    let? (ok, s) := clock_retransmit now s in
    if negb ok then Some s
    else
      let? (ok, s) := clock_probe now s in
      if negb ok then Some s else clock_ack now s.

Definition NotifyPacket (buffer : bytes) (s : t) : option (bool * t) :=
  if MAX_PACKET <? Z.of_nat (length buffer) then Some (false, s) else parse buffer s.

(** clock_check: false, or true with the timeout. *)
Definition GetNextClock (now : Z) (s : t) : option Z :=
  let closing := (FifoBuffer.GetBuffered (m_sbuf s) =? 0)%nat && (m_t_ack s =? 0) in
  if bool_decide (m_shutdown s = SD_FORCEFUL)
     || (bool_decide (m_shutdown s = SD_GRACEFUL) && (negb (is_established s) || closing)) then None
  else if bool_decide (m_state s = TCP_CLOSED) then Some CLOSED_TIMEOUT
  else
    let nTimeout := DEFAULT_TIMEOUT in
    let nTimeout := if m_t_ack s =? 0 then nTimeout
                    else Z.min nTimeout (TimeDiff (u32 (m_t_ack s + m_ack_delay s)) now) in
    let nTimeout := if m_rto_base s =? 0 then nTimeout
                    else Z.min nTimeout (TimeDiff (u32 (m_rto_base s + m_rx_rto s)) now) in
    Some (if m_snd_wnd s =? 0
          then Z.min nTimeout (TimeDiff (u32 (m_lastsend s + m_rx_rto s)) now) else nTimeout).

Definition GetOption (o : Option) (s : t) : Z :=
  match o with
  | OPT_NODELAY => if m_use_nagling s then 0 else 1
  | OPT_ACKDELAY => s32 (m_ack_delay s)
  | OPT_SNDBUF => s32 (m_sbuf_len s)
  | OPT_RCVBUF => s32 (m_rbuf_len s)
  end.

Definition SetOption (o : Option) (value : Z) (s : t) : option t :=
  match o with
  | OPT_NODELAY => Some (set_use_nagling (value =? 0) s)
  | OPT_ACKDELAY => Some (set_ack_delay (u32 value) s)
  | OPT_SNDBUF =>
      require! (bool_decide (m_state s = TCP_LISTEN)) in Some (resizeSendBuffer (u32 value) s)
  | OPT_RCVBUF =>
      require! (bool_decide (m_state s = TCP_LISTEN)) in resizeReceiveBuffer (u32 value) s
  end.

Definition GetCongestionWindow (s : t) : Z := m_cwnd s.
Definition GetBytesInFlight (s : t) : Z := flight s.
Definition GetBytesBufferedNotSent (s : t) : Z :=
  u32 (m_snd_una s + Z.of_nat (FifoBuffer.GetBuffered (m_sbuf s)) - m_snd_nxt s).
Definition GetRoundTripTimeEstimateMs (s : t) : Z := m_rx_srtt s.

(** The return value (-1 is SOCKET_ERROR) and the bytes delivered. *)
Definition Recv (len : nat) (s : t) : option (Z * bytes * t) :=
  if negb (is_established s) then Some (-1, [], set_error ENOTCONN s)
  else
    let '(result, data, _, rbuf) := FifoBuffer.Read (m_rbuf s) len in
    match result with
    | FifoBuffer.SR_BLOCK => Some (-1, [], set_error EWOULDBLOCK (set_bReadEnable true s))
    | FifoBuffer.SR_SUCCESS =>
        let s := set_rbuf rbuf s in
        let available_space := WriteRemaining (m_rbuf s) in
        let read := s32 (Z.of_nat (length data)) in
        if Z.min (m_rbuf_len s / 2) (m_mss s) <=? u32 (available_space - m_rcv_wnd s) then
          let bWasClosed := m_rcv_wnd s =? 0 in
          let s := set_rcv_wnd available_space s in
          if bWasClosed then let? s := attemptSend sfImmediateAck s in Some (read, data, s)
          else Some (read, data, s)
        else Some (read, data, s)
    | _ => None
    end.

Definition Send (buffer : bytes) (s : t) : option (Z * t) :=
  if negb (is_established s) then Some (-1, set_error ENOTCONN s)
  else if (FifoBuffer.GetWriteRemaining (m_sbuf s) =? 0)%nat
  then Some (-1, set_error EWOULDBLOCK (set_bWriteEnable true s))
  else
    let? (written, s) := queue buffer false s in
    let? s := attemptSend sfNone s in
    Some (s32 written, s).

Definition Close (force : bool) (s : t) : t := set_shutdown (if force then SD_FORCEFUL else SD_GRACEFUL) s.
Definition GetError (s : t) : Errno := m_error s.
Definition State (s : t) : TcpState := m_state s.

End Host.

End PseudoTcp.
