(* ===== verification/PseudoTcpSend.v ===== *)
(** * The sending side of PseudoTcp

    [Q] is the stream the application (and the connection set-up) queued so
    far; its first [c] bytes are the connect message.  [queue_ok] relates the
    send list and the send buffer to it, [tune_ok] bounds the window and timer
    variables, [link_ok] ties the timers to the data in flight, and
    [trace_ok] says that every packet written carries the bytes of the stream
    at its sequence number.  Every sending operation is shown to be defined
    and to preserve the four ([sender_ok]). *)

From S2P Require Import Prelude ByteOrder ByteBuffer FifoBuffer PseudoTcp.
Import ByteOrder PseudoTcp.
Open Scope jingle_scope.

Module PseudoTcpSend.

(** ** The segment list *)

(** Consecutive segments from sequence number [a] to [b]; only the last may
    be empty.  [chainp]: none is. *)
Fixpoint chain (P : SSegment -> Prop) (a : Z) (l : list SSegment) (b : Z) : Prop :=
  match l with
  | [] => a = b
  | g :: l => s_seq g = a /\ 0 <= s_len g /\ (0 < s_len g \/ l = []) /\ P g /\ chain P (a + s_len g) l b
  end.
Fixpoint chainp (P : SSegment -> Prop) (a : Z) (l : list SSegment) (b : Z) : Prop :=
  match l with
  | [] => a = b
  | g :: l => s_seq g = a /\ 0 < s_len g /\ P g /\ chainp P (a + s_len g) l b
  end.

(** A segment that was transmitted lies below [nxt], another one above it;
    the control segments cover the first [c] bytes. *)
Definition seg_ok (c nxt : Z) (g : SSegment) : Prop :=
  0 <= s_xmit g <= 30 /\
  (if s_xmit g =? 0 then nxt <= s_seq g else 0 < s_len g /\ s_seq g + s_len g <= nxt) /\
  (if s_bCtrl g then 0 < s_len g /\ s_seq g + s_len g <= c else c <= s_seq g).

Ltac destruct_state s := destruct s as [[] [] [] [] [] [] [] []].

(** The constants of the source, as numerals. *)
Ltac consts :=
  change PACKET_OVERHEAD with 116 in *; change MAX_PACKET with 65535 in *;
  change HEADER_SIZE with 24 in *; change MIN_RTO with 250 in *; change MAX_RTO with 60000 in *;
  change DEF_RTO with 3000 in *.

Section Chains.
Variable P : SSegment -> Prop.

Lemma chain_le a l b : chain P a l b -> a <= b.
Proof.
  revert a; induction l as [|g l IH]; cbn; intros a; [lia|]. intros (_ & H & _ & _ & IH'%IH). lia.
Qed.
Lemma chainp_le a l b : chainp P a l b -> a <= b /\ (l <> [] -> a < b).
Proof.
  revert a; induction l as [|g l IH]; cbn; intros a; [intros ->; split; [lia|done]|].
  intros (_ & Hl & _ & H%IH). lia.
Qed.

Lemma chain_app a l k b : k <> [] ->
  (chain P a (l ++ k) b <-> exists m, chainp P a l m /\ chain P m k b).
Proof.
  intros Hk. revert a; induction l as [|g l IH]; cbn; intros a.
  - split; [eauto|]. by intros (m & -> & ?).
  - rewrite IH. split.
    + intros (? & ? & [?|Hn] & ? & m & ? & ?); [by eauto 10|].
      apply app_eq_nil in Hn. by destruct Hn.
    + intros (m & (? & ? & ? & ?) & ?). split_and!; eauto with lia.
Qed.

Lemma chainp_app a l k b : chainp P a (l ++ k) b <-> exists m, chainp P a l m /\ chainp P m k b.
Proof.
  revert a; induction l as [|g l IH]; cbn; intros a.
  - split; [eauto|]. by intros (m & -> & ?).
  - rewrite IH. split; [intros (? & ? & ? & m & ? & ?) | intros (m & (? & ? & ? & ?) & ?)]; eauto 10.
Qed.

Lemma chainp_chain a l b : chainp P a l b -> chain P a l b.
Proof.
  revert a; induction l as [|g l IH]; cbn; intros a; [done|].
  intros (? & ? & ? & ?%IH). split_and!; auto with lia.
Qed.

Lemma chain_weaken (P' : SSegment -> Prop) a l b :
  (forall g, P g -> a <= s_seq g -> s_seq g + s_len g <= b -> P' g) -> chain P a l b -> chain P' a l b.
Proof.
  intros HP H. assert (Hgen : forall a', a <= a' -> chain P a' l b -> chain P' a' l b);
    [|by apply Hgen].
  clear H. induction l as [|g l IH]; cbn; intros a' Ha; [done|].
  intros (<- & Hl & Hd & Hg & Hc). pose proof (chain_le _ _ _ Hc).
  split_and!; try done; [apply HP; [done|lia..]|]. apply IH; [|done]. lia.
Qed.
End Chains.

Lemma chainp_weaken (P P' : SSegment -> Prop) a l b :
  (forall g, P g -> a <= s_seq g -> 0 < s_len g -> s_seq g + s_len g <= b -> P' g) ->
  chainp P a l b -> chainp P' a l b.
Proof.
  intros HP H. assert (Hgen : forall a', a <= a' -> chainp P a' l b -> chainp P' a' l b);
    [|by apply Hgen].
  clear H. induction l as [|g l IH]; cbn; intros a' Ha; [done|].
  intros (<- & Hl & Hg & Hc). pose proof (proj1 (chainp_le _ _ _ _ Hc)).
  split_and!; try done; [apply HP; [done|lia..]|]. apply IH; [|done]. lia.
Qed.

(** Transmitted segments end below [nxt]. *)
Lemma chainp_sent c nxt a l m : chainp (seg_ok c nxt) a l m -> Forall (fun g => s_xmit g <> 0) l ->
  a <= nxt -> m <= nxt.
Proof.
  revert a; induction l as [|g l IH]; cbn; intros a; [by intros ->|].
  intros (Hs & Hl & (_ & Hg & _) & Hc) HF Ha. inversion HF as [|? ? Hx HF']; subst.
  apply (IH _ Hc HF'). destruct (Z.eqb_spec (s_xmit g) 0); [done|lia].
Qed.

(** If not everything was transmitted there is a first segment to transmit,
    and it starts at [nxt]. *)
Lemma first_unsent_spec c nxt a l b : chain (seg_ok c nxt) a l b -> a <= nxt < b ->
  exists k g r, first_unsent l = Some (length k) /\ l = k ++ g :: r /\ s_xmit g = 0 /\
    Forall (fun g => s_xmit g <> 0) k /\ s_seq g = nxt /\ 0 < s_len g.
Proof.
  revert a; induction l as [|g l IH]; cbn [first_unsent chain]; intros a H Ha; [lia|].
  destruct H as (Hs & Hl & Hd & (Hx & Hg & Hc) & Hch).
  destruct (Z.eqb_spec (s_xmit g) 0) as [H0|H0].
  - exists [], g, l. split_and!; try done; [lia|]. destruct Hd as [?| ->]; [done|]. cbn in Hch. lia.
  - destruct (IH _ Hch ltac:(lia)) as (k & g' & r & E & -> & ? & ? & ? & ?).
    exists (g :: k), g', r. rewrite E. split_and!; try done. by apply List.Forall_cons.
Qed.

(** ** The invariant *)

Record queue_ok (Q : bytes) (c : Z) (l : list SSegment) (nxt una : Z) (sbuf : FifoBuffer.t) : Prop := {
  q_wf : FifoBuffer.wf sbuf;
  q_open : FifoBuffer.state_ sbuf = FifoBuffer.SS_OPEN;
  q_cap : Z.of_nat (FifoBuffer.buffer_length_ sbuf) < 2 ^ 31;
  q_contents : FifoBuffer.contents sbuf = drop (Z.to_nat una) Q;
  q_range : 0 <= una <= nxt /\ nxt <= Z.of_nat (length Q) < 2 ^ 32;
  q_chain : chain (seg_ok c nxt) una l (Z.of_nat (length Q));
}.

Record tune_ok (mss : Z) (level : nat) (ssthresh cwnd dup_acks swnd_scale rx_rto : Z) : Prop := {
  t_mss : 1 <= mss <= MAX_PACKET - PACKET_OVERHEAD;
  t_level : (level <= 9)%nat;
  t_ssthresh : 0 < ssthresh < 2 ^ 32;
  t_cwnd : 0 <= cwnd < 2 ^ 32;
  t_dup : 0 <= dup_acks < 256;
  t_scale : 0 <= swnd_scale < 32;
  t_rto : MIN_RTO <= rx_rto <= MAX_RTO;
}.

Definition link_ok (nxt una rto_base recover : Z) : Prop :=
  (rto_base <> 0 -> una < nxt) /\ 0 <= recover <= nxt.

(** The bytes of the stream from sequence number [seq] on. *)
Definition slice (Q : bytes) (seq len : Z) : bytes := mem_read Q (Z.to_nat seq) (Z.to_nat len).

Definition segment_of (Q : bytes) (c : Z) (seg : Segment) : Prop :=
  seg_len seg = 0 \/
  0 <= seg_seq seg /\ 0 < seg_len seg /\ seg_seq seg + seg_len seg <= Z.of_nat (length Q) /\
  seg_data seg = slice Q (seg_seq seg) (seg_len seg) /\
  (if is_flag (seg_flags seg) FLAG_CTL then seg_seq seg + seg_len seg <= c else c <= seg_seq seg).

Section Host.
Context `{HM : Machine} `{HN : IPseudoTcpNotify}.

Definition packet_ok (Q : bytes) (c : Z) (buffer : bytes) : Prop :=
  exists seg, parse_segment buffer = Some seg /\ segment_of Q c seg /\
    is_flag (seg_flags seg) FLAG_RST = false /\ (length buffer <= Z.to_nat MAX_PACKET)%nat.
Definition event_ok (Q : bytes) (c : Z) (e : Event) : Prop :=
  match e with TcpPacket buffer => packet_ok Q c buffer | _ => True end.
Definition trace_ok (Q : bytes) (c : Z) (tr : list Event) : Prop := Forall (event_ok Q c) tr.

Record sender_ok (Q : bytes) (c : Z) (s : t) : Prop := {
  s_queue : queue_ok Q c (m_slist s) (m_snd_nxt s) (m_snd_una s) (m_sbuf s);
  s_tune : tune_ok (m_mss s) (m_msslevel s) (m_ssthresh s) (m_cwnd s) (m_dup_acks s) (m_swnd_scale s)
             (m_rx_rto s);
  s_link : link_ok (m_snd_nxt s) (m_snd_una s) (m_rto_base s) (m_recover s);
  s_trace : trace_ok Q c (m_trace s);
}.

(** ** Packets *)

Lemma long_roundtrip v : bytes_to_long (long_to_bytes v) = u32 v.
Proof.
  unfold bytes_to_long, long_to_bytes. rewrite HostToNetwork32_bytes.
  rewrite NetworkToHost32_val by auto with jingle. by rewrite be_val_be_bytes.
Qed.
Lemma short_roundtrip v : bytes_to_short (short_to_bytes v) = u16 v.
Proof.
  unfold bytes_to_short, short_to_bytes. rewrite HostToNetwork16_bytes.
  rewrite NetworkToHost16_val by auto with jingle. by rewrite be_val_be_bytes.
Qed.

Lemma length_long v : length (long_to_bytes v) = 4%nat.
Proof. apply length_host_bytes. Qed.
Lemma length_short v : length (short_to_bytes v) = 2%nat.
Proof. apply length_host_bytes. Qed.

Lemma mem_read_mid (a b c : bytes) i n : length a = i -> length b = n -> mem_read (a ++ b ++ c) i n = b.
Proof.
  intros <- <-. unfold mem_read. rewrite drop_app_length. apply take_app_length.
Qed.

Lemma length_packet_header seq flags now s : length (header seq flags now s) = 24%nat.
Proof.
  unfold header. rewrite !length_app, !length_long, length_short. done.
Qed.

(** The receiver of a packet parses the header that was written. *)
Lemma header_roundtrip seq flags now s data :
  parse_segment (header seq flags now s ++ data) =
  Some (mkSegment (u32 (m_conv s)) (u32 seq) (u32 (m_rcv_nxt s)) flags
          (u16 (Z.shiftr (m_rcv_wnd s) (m_rwnd_scale s))) data (Z.of_nat (length data))
          (u32 now) (u32 (m_ts_recent s))).
Proof.
  unfold parse_segment. rewrite length_app, length_packet_header. unfold HEADER_SIZE.
  rewrite (proj2 (Z.leb_le _ _)) by lia. f_equal.
  rewrite drop_app_length' by (by rewrite length_packet_header).
  unfold header. rewrite <- !app_assoc. set (v := u16 (Z.shiftr _ _)).
  assert (Hv : v = u16 v) by (unfold v, u16; by rewrite wrap_wrap).
  pose proof (length_long (m_conv s)) as L1. pose proof (length_long seq) as L2.
  pose proof (length_long (m_rcv_nxt s)) as L3. pose proof (length_short v) as L4.
  pose proof (length_long now) as L5.
  clearbody v. rewrite <- !long_roundtrip.
  f_equal; try lia; try f_equal; try (rewrite length_long; f_equal).
  - by apply (mem_read_mid []).
  - by apply (mem_read_mid (long_to_bytes _)).
  - rewrite (app_assoc _ (long_to_bytes seq)). apply mem_read_mid; [rewrite length_app; lia|apply length_long].
  - rewrite !app_nth2 by lia. by rewrite L1, L2, L3.
  - rewrite (app_assoc _ (long_to_bytes seq)), (app_assoc _ (long_to_bytes (m_rcv_nxt s))), (app_assoc _ [0; flags]).
    rewrite Hv at 2. rewrite <- short_roundtrip. f_equal. apply mem_read_mid; [rewrite !length_app; cbn; lia|done].
  - rewrite (app_assoc _ (long_to_bytes seq)), (app_assoc _ (long_to_bytes (m_rcv_nxt s))), (app_assoc _ [0; flags]),
      (app_assoc _ (short_to_bytes v)). apply mem_read_mid; [rewrite !length_app; cbn; lia|done].
  - rewrite (app_assoc _ (long_to_bytes seq)), (app_assoc _ (long_to_bytes (m_rcv_nxt s))), (app_assoc _ [0; flags]),
      (app_assoc _ (short_to_bytes v)), (app_assoc _ (long_to_bytes now)).
    apply mem_read_mid; [rewrite !length_app; cbn; lia|apply length_long].
Qed.

(** What writing a packet changes besides the trace. *)
Definition touch (lasttraffic : Z) (bOutgoing : bool) (lastsend ts_lastack t_ack : Z) (clock : nat)
    (tr : list Event) (s : t) : t :=
  set_trace tr (set_clock clock (set_ts_lastack ts_lastack (set_t_ack t_ack
    (set_lastsend lastsend (set_bOutgoing bOutgoing (set_lasttraffic lasttraffic s)))))).
Definition touched (tr : list Event) (s s' : t) : Prop :=
  exists lt bo ls la ta k, s' = touch lt bo ls la ta k tr s.

Lemma touched_intro tr s s' :
  s' = touch (m_lasttraffic s') (m_bOutgoing s') (m_lastsend s') (m_ts_lastack s') (m_t_ack s') (m_clock s') tr s ->
  touched tr s s'.
Proof. intros ->. by do 6 eexists. Qed.

Lemma packet_spec seq flags offset len s data :
  payload offset len s = Some data -> HEADER_SIZE + len <= MAX_PACKET ->
  exists r s' now k, packet seq flags offset len s = Some (r, s') /\
    touched (m_trace s ++ [TcpPacket (header seq flags now (set_clock k s) ++ data)]) s s'.
Proof.
  intros Hd Hl. unfold packet. rewrite (proj2 (Z.leb_le _ _)) by done. unfold Now.
  set (s0 := set_ts_lastack _ _). change (payload offset len s0) with (payload offset len s).
  rewrite Hd. unfold write_packet. subst s0.
  destruct (TcpWritePacket _ _); [|destruct (len =? 0)..];
    (eexists _, _, (u32 (Time (m_clock s))), (S (m_clock s)); split; [reflexivity|]);
    apply touched_intro; destruct_state s; destruct (0 <? len); reflexivity.
Qed.

Lemma segment_of_ack Q c conv seq ack flags wnd data tsval tsecr :
  segment_of Q c (mkSegment conv seq ack flags wnd data 0 tsval tsecr).
Proof. by left. Qed.

Lemma trace_ok_snoc Q c tr b : trace_ok Q c tr -> packet_ok Q c b -> trace_ok Q c (tr ++ [TcpPacket b]).
Proof. intros Ht Hb. apply Forall_app. split; [done|]. by apply List.Forall_cons. Qed.

(** An acknowledgement is always possible. *)
Lemma packet_ack Q c seq s : sender_ok Q c s ->
  exists r s', packet seq 0 0 0 s = Some (r, s') /\ sender_ok Q c s' /\ exists tr, touched tr s s'.
Proof.
  intros Hs. destruct (packet_spec seq 0 0 0 s [] eq_refl ltac:(done)) as (r & s' & now & k & E & Ht).
  exists r, s'. split; [done|]. split; [|by eexists].
  destruct Ht as (lt & bo & ls & la & ta & k' & ->), Hs as [Hq Htu Hli Htr]. split; try assumption.
  apply trace_ok_snoc; [exact Htr|]. eexists. rewrite header_roundtrip. split_and!; [reflexivity|by left|done|].
  rewrite length_app, length_packet_header. consts. cbn [length]. lia.
Qed.

(** The payload of a range of the stream that is still buffered. *)
Lemma payload_slice Q c s seq len : sender_ok Q c s -> m_snd_una s <= seq -> 0 < len ->
  seq + len <= Z.of_nat (length Q) ->
  payload (u32 (seq - m_snd_una s)) len s = Some (slice Q seq len).
Proof.
  intros [[Hwf _ _ Hc Hr _] _ _ _] Hseq Hlen Hend. unfold payload.
  rewrite (proj2 (Z.eqb_neq len 0)) by lia.
  assert (Hu : u32 (seq - m_snd_una s) = seq - m_snd_una s) by (apply wrap_small; unfold is_u; lia).
  rewrite Hu. clear Hu.
  assert (Hdl : FifoBuffer.data_length_ (m_sbuf s) = (length Q - Z.to_nat (m_snd_una s))%nat)
    by (rewrite <- FifoBuffer.fifo_length_contents, Hc by done; apply length_drop).
  unfold FifoBuffer.ReadOffset. rewrite FifoBuffer.ReadOffset_ring by done.
  rewrite (proj2 (Nat.leb_gt _ _)) by lia.
  rewrite Nat.min_l by lia.
  assert (Hm : mem_read (FifoBuffer.ring (m_sbuf s)) (Z.to_nat (seq - m_snd_una s)) (Z.to_nat len) = slice Q seq len).
  { unfold slice, mem_read. transitivity (take (Z.to_nat len) (drop (Z.to_nat (seq - m_snd_una s)) (FifoBuffer.contents (m_sbuf s)))).
    - unfold FifoBuffer.contents. rewrite skipn_firstn_comm, take_take. f_equal. lia.
    - rewrite Hc, drop_drop. do 2 f_equal. lia. }
  rewrite Hm. unfold slice. rewrite length_mem_read by lia.
  by rewrite (proj2 (Z.eqb_eq _ _)) by lia.
Qed.

(** What sending a segment changes besides: the packet size. *)
Definition resized (s s' : t) : Prop :=
  exists cw m lv lt bo ls la ta k tr,
    s' = touch lt bo ls la ta k tr (set_cwnd cw (set_mss m (set_msslevel lv s))).

Lemma resized_intro s s' :
  s' = touch (m_lasttraffic s') (m_bOutgoing s') (m_lastsend s') (m_ts_lastack s') (m_t_ack s') (m_clock s')
         (m_trace s') (set_cwnd (m_cwnd s') (set_mss (m_mss s') (set_msslevel (m_msslevel s') s))) ->
  resized s s'.
Proof. intros ->. by do 10 eexists. Qed.
Lemma resized_refl s : resized s s.
Proof. apply resized_intro. by destruct_state s. Qed.
Lemma resized_trans s s' s'' : resized s s' -> resized s' s'' -> resized s s''.
Proof.
  intros (? & ? & ? & ? & ? & ? & ? & ? & ? & ? & ->) (? & ? & ? & ? & ? & ? & ? & ? & ? & ? & ->).
  apply resized_intro. by destruct_state s.
Qed.
Lemma resized_touched tr s s' : touched tr s s' -> resized s s'.
Proof. intros (? & ? & ? & ? & ? & ? & ->). apply resized_intro. by destruct_state s. Qed.

Lemma lower_mss_spec Q c n fuel s : sender_ok Q c s -> (10 - m_msslevel s <= fuel)%nat ->
  exists b s', lower_mss fuel n s = Some (b, s') /\ sender_ok Q c s' /\ resized s s' /\
    (b = true -> (m_msslevel s < m_msslevel s')%nat /\ m_mss s' < n).
Proof.
  revert s; induction fuel as [|fuel IH]; intros s Hs Hf; [destruct Hs as [_ [] _ _]; lia|].
  cbn [lower_mss].
  assert (Hn : exists next, PACKET_MAXIMUMS !! S (m_msslevel s) = Some next /\
    (next = 0 \/ (m_msslevel s <= 8)%nat /\ 296 <= next <= 32000)).
  { destruct Hs as [_ [_ Hl _ _ _ _ _] _ _]. destruct (m_msslevel s) as [|[|[|[|[|[|[|[|[|[|]]]]]]]]]]; try lia;
      (eexists; split; [reflexivity|lia]). }
  destruct Hn as (next & -> & Hn). destruct (Z.eqb_spec next 0) as [H0|H0].
  { exists false, s. split_and!; [done|done|apply resized_refl|done]. }
  destruct Hn as [?|[Hl Hn]]; [done|].
  set (s1 := set_cwnd _ _).
  assert (Hm : m_mss s1 = next - PACKET_OVERHEAD).
  { change (m_mss s1) with (u32 (next - PACKET_OVERHEAD)). apply wrap_small. unfold is_u. consts. lia. }
  assert (Hs1 : sender_ok Q c s1).
  { destruct Hs as [Hq [] Hli Htr]. split; [exact Hq| |exact Hli|exact Htr].
    rewrite Hm. split; try done.
    - consts. lia.
    - change (m_msslevel s1) with (S (m_msslevel s)). lia.
    - apply (wrap_range 32). lia. }
  assert (Hr : resized s s1) by (apply resized_intro; by destruct_state s).
  change (m_msslevel s1) with (S (m_msslevel s)) in *.
  destruct (Z.ltb_spec (m_mss s1) n) as [Hlt|Hge].
  - exists true, s1. split_and!; [done|done|done|]. intros _. split; [cbn; lia|done].
  - destruct (IH s1 Hs1) as (b & s' & E & Hs' & Hr' & Hb); [cbn; lia|].
    exists b, s'. split_and!; [done|done|by apply (resized_trans _ s1)|].
    intros [? ?]%Hb. split; [|done]. change (m_msslevel s1) with (S (m_msslevel s)) in *. lia.
Qed.

Lemma slice_take Q seq n m : 0 <= m <= n -> slice Q seq m = take (Z.to_nat m) (slice Q seq n).
Proof. intros. unfold slice, mem_read. rewrite take_take. f_equal. lia. Qed.

Lemma length_slice Q seq n : 0 <= seq -> 0 <= n -> seq + n <= Z.of_nat (length Q) ->
  length (slice Q seq n) = Z.to_nat n.
Proof. intros. apply length_mem_read. lia. Qed.

(** The packet of a range of the stream. *)
Lemma packet_data Q c seq len (ctl : bool) s : sender_ok Q c s -> m_snd_una s <= seq -> 0 < len ->
  HEADER_SIZE + len <= MAX_PACKET -> seq + len <= Z.of_nat (length Q) ->
  (if ctl then seq + len <= c else c <= seq) ->
  exists r s', packet seq (if ctl then FLAG_CTL else 0) (u32 (seq - m_snd_una s)) len s = Some (r, s') /\
    sender_ok Q c s' /\ resized s s' /\ m_msslevel s' = m_msslevel s /\ m_mss s' = m_mss s.
Proof.
  intros Hs Hseq Hlen Hm Hend Hc.
  pose proof (payload_slice Q c s seq len Hs Hseq Hlen Hend) as Hp.
  destruct (packet_spec seq (if ctl then FLAG_CTL else 0) _ len s _ Hp Hm) as (r & s' & now & k & E & Ht).
  exists r, s'. split; [exact E|]. pose proof (resized_touched _ _ _ Ht) as Hr.
  destruct Ht as (lt & bo & ls & la & ta & k' & ->).
  split; [|done]. destruct Hs as [Hq Htu Hli Htr]. split; try assumption.
  destruct Hq as [_ _ _ _ Hra _].
  apply trace_ok_snoc; [exact Htr|]. eexists. rewrite header_roundtrip. split; [reflexivity|]. split_and!.
  - right. cbn [seg_len seg_seq seg_data seg_flags]. rewrite length_slice by lia.
    assert (Hu : u32 seq = seq) by (apply wrap_small; unfold is_u; lia). rewrite Hu, Z2Nat.id by lia.
    split_and!; try done; [lia|]. by destruct ctl.
  - by destruct ctl.
  - rewrite length_app, length_packet_header, length_slice by lia. consts. lia.
Qed.

Lemma send_segment_spec Q c seg n fuel s : sender_ok Q c s -> (10 - m_msslevel s <= fuel)%nat ->
  (0 < fuel)%nat ->
  m_snd_una s <= s_seq seg -> 0 < n <= MAX_PACKET - HEADER_SIZE -> s_seq seg + n <= Z.of_nat (length Q) ->
  (if s_bCtrl seg then s_seq seg + n <= c else c <= s_seq seg) ->
  exists r s', send_segment fuel seg n s = Some (r, s') /\ sender_ok Q c s' /\ resized s s' /\
    (forall n', r = Some n' -> 0 < n' <= n).
Proof.
  revert n s; induction fuel as [|fuel IH]; intros n s Hs Hf Hf0 Hseq Hn Hend Hc; [lia|].
  cbn [send_segment].
  destruct (packet_data Q c (s_seq seg) n (s_bCtrl seg) s Hs Hseq ltac:(lia) ltac:(lia) Hend Hc)
    as (r & s1 & E & Hs1 & Hr1 & Hl1 & Hm1).
  rewrite E. destruct r.
  - exists (Some n), s1. split_and!; try done. intros ? [= <-]. lia.
  - destruct (lower_mss_spec Q c n (length PACKET_MAXIMUMS) s1 Hs1) as (b & s2 & E2 & Hs2 & Hr2 & Hb);
      [cbn; lia|]. rewrite E2.
    destruct b.
    + destruct (Hb eq_refl) as [Hl2 Hm2]. pose proof (s_tune _ _ _ Hs2) as [Hmss Hlev _ _ _ _ _].
      assert (Hu : m_snd_una s2 = m_snd_una s).
      { destruct Hr1 as (? & ? & ? & ? & ? & ? & ? & ? & ? & ? & ->), Hr2 as (? & ? & ? & ? & ? & ? & ? & ? & ? & ? & ->). done. }
      destruct (IH (m_mss s2) s2 Hs2) as (r & s3 & E3 & Hs3 & Hr3 & Hn3); try lia.
      { destruct (s_bCtrl seg); lia. }
      exists r, s3. split_and!; [done|done|by apply (resized_trans _ s1), (resized_trans _ s2)|].
      intros n' Hn'. specialize (Hn3 n' Hn'). lia.
    + exists None, s2. split_and!; try done. by apply (resized_trans _ s1).
  - exists None, s1. by split_and!.
Qed.

(** What a transmission changes besides: the send list, the next sequence
    number and the retransmission timer. *)
Definition moved (s s' : t) : Prop :=
  exists sl nx rb cw m lv lt bo ls la ta k tr,
    s' = touch lt bo ls la ta k tr (set_cwnd cw (set_mss m (set_msslevel lv
           (set_rto_base rb (set_snd_nxt nx (set_slist sl s)))))).

Lemma moved_intro s s' :
  s' = touch (m_lasttraffic s') (m_bOutgoing s') (m_lastsend s') (m_ts_lastack s') (m_t_ack s') (m_clock s')
         (m_trace s') (set_cwnd (m_cwnd s') (set_mss (m_mss s') (set_msslevel (m_msslevel s')
           (set_rto_base (m_rto_base s') (set_snd_nxt (m_snd_nxt s') (set_slist (m_slist s') s)))))) ->
  moved s s'.
Proof. intros ->. by do 13 eexists. Qed.
Lemma moved_refl s : moved s s.
Proof. apply moved_intro. by destruct_state s. Qed.
Lemma moved_trans s s' s'' : moved s s' -> moved s' s'' -> moved s s''.
Proof.
  intros (? & ? & ? & ? & ? & ? & ? & ? & ? & ? & ? & ? & ? & ->)
    (? & ? & ? & ? & ? & ? & ? & ? & ? & ? & ? & ? & ? & ->).
  apply moved_intro. by destruct_state s.
Qed.
Lemma moved_resized s s' : resized s s' -> moved s s'.
Proof.
  intros (? & ? & ? & ? & ? & ? & ? & ? & ? & ? & ->). apply moved_intro. by destruct_state s.
Qed.

Lemma replace_at_app l g r segs : replace_at (length l) segs (l ++ g :: r) = l ++ segs ++ r.
Proof.
  unfold replace_at. rewrite take_app_length. f_equal. f_equal.
  rewrite drop_app_ge by lia. by replace (S (length l) - length l)%nat with 1%nat by lia.
Qed.

(** Splitting a segment at [n] keeps the list consecutive. *)
Lemma chain_split_seg P a l g r b n x : chain P a (l ++ g :: r) b -> 0 < n < s_len g -> 0 <= a ->
  b < 2 ^ 32 -> P (mkSSegment (s_seq g) n (s_xmit g) (s_bCtrl g)) -> P (subseg g n x) ->
  chain P a (l ++ mkSSegment (s_seq g) n (s_xmit g) (s_bCtrl g) :: subseg g n x :: r) b.
Proof.
  intros Hch Hn Ha Hb H1 H2. apply chain_app in Hch as (m & Hl & Hg); [|done].
  apply chain_app; [done|]. exists m. split; [done|]. cbn in *.
  destruct Hg as (Hs & Hlen & Hd & HP & Hr). pose proof (chain_le _ _ _ _ Hr).
  pose proof (proj1 (chainp_le _ _ _ _ Hl)).
  assert (Hu : u32 (s_seq g + n) = s_seq g + n) by (apply wrap_small; unfold is_u; lia).
  assert (Hv : u32 (s_len g - n) = s_len g - n) by (apply wrap_small; unfold is_u; lia).
  rewrite Hu, Hv. split_and!; try done; try lia. replace (m + n + (s_len g - n)) with (m + s_len g) by lia.
  done.
Qed.

(** The list after the transmission of [n] bytes of [g]. *)
Lemma chain_transmit c nxt una l g r b n :
  chain (seg_ok c nxt) una (l ++ g :: r) b -> Forall (fun g => s_xmit g <> 0) l ->
  0 <= una <= nxt -> nxt <= b < 2 ^ 32 -> 0 < s_len g -> 0 < n <= s_len g -> s_xmit g < 30 ->
  let rest := if n <? s_len g then [subseg g n (s_xmit g)] else [] in
  let len := if n <? s_len g then n else s_len g in
  let nxt' := if s_xmit g =? 0 then u32 (nxt + len) else nxt in
  chain (seg_ok c nxt') una (l ++ (mkSSegment (s_seq g) len (u8 (s_xmit g + 1)) (s_bCtrl g) :: rest) ++ r) b /\
  (if s_xmit g =? 0 then nxt' = nxt + len else una < nxt) /\ nxt <= nxt' <= b /\ 0 < len.
Proof.
  intros Hch Hl Ha Hb Hg Hn Hx rest len nxt'.
  assert (Hlen : len = n /\ (n = s_len g -> rest = []) /\ (n < s_len g -> rest = [subseg g n (s_xmit g)])).
  { subst rest len. destruct (Z.ltb_spec n (s_len g)); split_and!; try done; lia. }
  clearbody rest len. destruct Hlen as (-> & Hrest1 & Hrest2).
  apply chain_app in Hch as (m & Hcl & Hcg); [|done]. cbn in Hcg.
  destruct Hcg as (Hs & _ & _ & (Hxr & Hok & Hc) & Hr).
  pose proof (chain_le _ _ _ _ Hr) as Hrle. pose proof (proj1 (chainp_le _ _ _ _ Hcl)) as Hlle.
  pose proof (chainp_sent _ _ _ _ _ Hcl Hl (proj2 Ha)) as Hm.
  assert (Hnx : (s_xmit g = 0 /\ nxt = m /\ nxt' = nxt + n) \/ (s_xmit g <> 0 /\ m + s_len g <= nxt /\ nxt' = nxt)).
  { subst nxt'. destruct (Z.eqb_spec (s_xmit g) 0); [left|right; lia].
    split_and!; [done|lia|]. apply wrap_small. unfold is_u. lia. }
  split; [|split_and!; [destruct (Z.eqb_spec (s_xmit g) 0); lia|lia..]].
  clearbody nxt'. apply chain_app; [done|]. exists m. split.
  { apply (chainp_weaken (seg_ok c nxt)); [|done]. intros g' (? & Hg' & ?) ? ? ?. split_and!; try done; [lia..|].
    destruct (Z.eqb_spec (s_xmit g') 0); lia. }
  assert (Hu8 : u8 (s_xmit g + 1) = s_xmit g + 1) by (apply wrap_small; unfold is_u; lia). rewrite Hu8.
  assert (Hr' : chain (seg_ok c nxt') (m + s_len g) r b).
  { apply (chain_weaken (seg_ok c nxt)); [|done]. intros g' (? & Hg' & ?) ? ?. split_and!; try done; [lia..|].
    destruct (Z.eqb_spec (s_xmit g') 0); lia. }
  assert (Hfirst : seg_ok c nxt' (mkSSegment (s_seq g) n (s_xmit g + 1) (s_bCtrl g))).
  { unfold seg_ok. cbn. rewrite (proj2 (Z.eqb_neq (s_xmit g + 1) 0)) by lia. destruct (s_bCtrl g); lia. }
  cbn. split_and!; try done; [lia..|].
  destruct (decide (n = s_len g)) as [->|Hne]; [by rewrite Hrest1|]. rewrite Hrest2 by lia.
  assert (Hu : u32 (s_seq g + n) = s_seq g + n) by (apply wrap_small; unfold is_u; lia).
  assert (Hv : u32 (s_len g - n) = s_len g - n) by (apply wrap_small; unfold is_u; lia).
  cbn. rewrite Hu, Hv. split_and!; [lia|lia|lia| |by replace (m + n + (s_len g - n)) with (m + s_len g) by lia].
  unfold seg_ok. cbn. rewrite Hu, Hv.
  destruct (Z.eqb_spec (s_xmit g) 0), (s_bCtrl g); lia.
Qed.

Lemma transmit_spec Q c now s l g r : sender_ok Q c s -> m_slist s = l ++ g :: r ->
  Forall (fun g => s_xmit g <> 0) l -> 0 < s_len g ->
  exists ok s', transmit (length l) now s = Some (ok, s') /\ sender_ok Q c s' /\ moved s s' /\
    m_snd_nxt s <= m_snd_nxt s' /\ (ok = true -> s_xmit g = 0 -> m_snd_nxt s < m_snd_nxt s').
Proof.
  intros Hs Hsl Hl Hg. unfold transmit. rewrite Hsl, list_lookup_middle by done.
  set (lim := if is_established s then 15 else 30).
  assert (Hlim : lim <= 30) by (unfold lim; destruct (is_established s); lia). clearbody lim.
  destruct (Z.leb_spec lim (s_xmit g)) as [Hge|Hlt].
  { exists false, s. split_and!; [done|done|apply moved_refl|lia|done]. }
  pose proof Hs as [[Hwf Hop Hcap Hco Hra Hch] Htu [Hl1 Hl2] Htr]. rewrite Hsl in Hch.
  pose proof Hch as Hch'. apply chain_app in Hch' as (m & Hcl & Hcg); [|done]. cbn in Hcg.
  destruct Hcg as (Hseq & _ & _ & (Hxr & Hok & Hc) & Hr).
  pose proof (chain_le _ _ _ _ Hr) as Hrle. pose proof (proj1 (chainp_le _ _ _ _ Hcl)) as Hlle.
  pose proof (t_mss _ _ _ _ _ _ _ Htu) as Hmss. consts.
  destruct (send_segment_spec Q c g (Z.min (s_len g) (m_mss s)) (length PACKET_MAXIMUMS) s Hs)
    as (res & s1 & E & Hs1 & Hm1 & Hn); try (change (length PACKET_MAXIMUMS) with 11%nat; consts; lia).
  { destruct (s_bCtrl g); lia. }
  rewrite E. clear E. destruct res as [n|].
  2: { exists false, s1. split_and!; [done|done|by apply moved_resized| |done].
       destruct Hm1 as (? & ? & ? & ? & ? & ? & ? & ? & ? & ? & ->). apply Z.le_refl. }
  specialize (Hn n eq_refl). pose proof Hm1 as (cw & ms & lv & lt & bo & ls & la & ta & k & tr & E).
  assert (Hsl1 : m_slist s1 = l ++ g :: r) by (rewrite E; exact Hsl).
  assert (Hnx1 : m_snd_nxt s1 = m_snd_nxt s) by (by rewrite E).
  assert (Hun1 : m_snd_una s1 = m_snd_una s) by (by rewrite E).
  assert (Hsb1 : m_sbuf s1 = m_sbuf s) by (by rewrite E).
  assert (Hrb1 : m_rto_base s1 = m_rto_base s) by (by rewrite E). 
  assert (Hrc1 : m_recover s1 = m_recover s) by (by rewrite E).
  destruct (chain_transmit c (m_snd_nxt s) (m_snd_una s) l g r _ n Hch Hl) as (Hch2 & Hnx2 & Hle2 & Hlen);
    [lia..|]. cbv zeta in Hch2, Hnx2, Hle2. 
  rewrite Hsl1, replace_at_app.
  set (rest := if n <? s_len g then [subseg g n (s_xmit g)] else []) in *.
  set (len := if n <? s_len g then n else s_len g) in *. clearbody rest len.
  set (nx := if s_xmit g =? 0 then u32 (m_snd_nxt s + len) else m_snd_nxt s) in *.
  set (s2 := set_slist (l ++ (mkSSegment (s_seq g) len (u8 (s_xmit g + 1)) (s_bCtrl g) :: rest) ++ r) s1).
  set (s3 := if s_xmit g =? 0 then _ else s2).
  assert (Hnx3 : m_snd_nxt s3 = nx).
  { unfold s3, nx. destruct (s_xmit g =? 0); [|done]. change (u32 (m_snd_nxt s1 + len) = u32 (m_snd_nxt s + len)).
    by rewrite Hnx1. }
  set (s4 := if m_rto_base s3 =? 0 then _ else s3).
  assert (Hs4 : m_snd_nxt s4 = m_snd_nxt s3 /\ m_snd_una s4 = m_snd_una s1 /\ m_sbuf s4 = m_sbuf s1 /\
    m_slist s4 = m_slist s2 /\ m_recover s4 = m_recover s1 /\
    siz s4 = siz s1 /\ cng s4 = cng s1 /\ m_swnd_scale s4 = m_swnd_scale s1 /\ m_rx_rto s4 = m_rx_rto s1 /\
    m_trace s4 = m_trace s1).
  { unfold s4. destruct (m_rto_base s3 =? 0); unfold s3; destruct (s_xmit g =? 0); split_and!; reflexivity. }
  assert (Hmv : moved s s4).
  { apply (moved_trans _ s1); [by apply moved_resized|]. apply moved_intro. unfold s4.
    clear -s1. destruct (m_rto_base s3 =? 0); unfold s3; destruct (s_xmit g =? 0); by destruct_state s1. }
  destruct Hs4 as (E1 & E2 & E3 & E4 & E5 & E6 & E7 & E8 & E9 & E10).
  rewrite Hnx3 in E1. rewrite Hun1 in E2. rewrite Hsb1 in E3. rewrite Hrc1 in E5.
  assert (Hlt4 : m_snd_una s < nx).
  { destruct (s_xmit g =? 0) in Hnx2; lia. }
  clearbody s4. exists true, s4. split; [done|]. split; [|split_and!; [done|rewrite E1; lia|]].
  - destruct Hs1 as [Hq1 Ht1 _ Htr1]. split.
    + rewrite E1, E2, E3, E4. by split; [..|lia|].
    + unfold m_mss, m_msslevel, m_ssthresh, m_cwnd, m_dup_acks. by rewrite E6, E7, E8, E9.
    + rewrite E1, E2, E5. split; [lia|]. lia.
    + by rewrite E10.
  - intros _ H0. rewrite E1. rewrite H0 in Hnx2. cbn in Hnx2. lia.
Qed.

(** With data in flight the head of the list can be transmitted again. *)
Lemma head_sent Q c s : sender_ok Q c s -> m_snd_una s < m_snd_nxt s ->
  exists g r, m_slist s = g :: r /\ s_xmit g <> 0 /\ 0 < s_len g.
Proof.
  intros [[_ _ _ _ Hra Hch] _ _ _] Hlt. destruct (m_slist s) as [|g r]; cbn in Hch; [lia|].
  destruct Hch as (Hs & Hl & Hd & (Hx & Hok & Hc) & Hr). exists g, r. split; [done|].
  destruct (Z.eqb_spec (s_xmit g) 0); [lia|]. split; [done|]. lia.
Qed.

Lemma closedown_ok Q c e s : sender_ok Q c s -> sender_ok Q c (closedown e s).
Proof.
  intros []. split; try assumption. apply Forall_app. split; [done|]. by apply List.Forall_cons.
Qed.

Lemma retransmit_spec Q c now s : sender_ok Q c s -> m_snd_una s < m_snd_nxt s ->
  exists ok s', retransmit now s = Some (ok, s') /\ sender_ok Q c s' /\
    (if ok then moved s s' else exists s1, moved s s1 /\ s' = closedown ECONNABORTED s1) /\
    m_snd_una s' < m_snd_nxt s'.
Proof.
  intros Hs Hlt. destruct (head_sent Q c s Hs Hlt) as (g & r & Hsl & Hx & Hl).
  destruct (transmit_spec Q c now s [] g r Hs Hsl (List.Forall_nil _) Hl) as (ok & s1 & E & Hs1 & Hm & Hle & _).
  unfold retransmit. cbn [length] in E. rewrite E.
  assert (Hu : m_snd_una s1 = m_snd_una s)
    by (by destruct Hm as (? & ? & ? & ? & ? & ? & ? & ? & ? & ? & ? & ? & ? & ->)).
  destruct ok; [exists true, s1|exists false, (closedown ECONNABORTED s1)]; split_and!; try done; try lia.
  - by apply closedown_ok.
  - by exists s1.
  - change (m_snd_una s1 < m_snd_nxt s1). lia.
Qed.

(** ** attemptSend *)

Lemma buffered_length Q c s : sender_ok Q c s ->
  Buffered (m_sbuf s) = Z.of_nat (length Q) - m_snd_una s /\
  Z.of_nat (FifoBuffer.GetBuffered (m_sbuf s)) = Z.of_nat (length Q) - m_snd_una s /\
  flight s = m_snd_nxt s - m_snd_una s.
Proof.
  intros [[Hwf _ _ Hc Hr _] _ _ _]. unfold Buffered, flight, FifoBuffer.GetBuffered.
  assert (Hdl : FifoBuffer.data_length_ (m_sbuf s) = (length Q - Z.to_nat (m_snd_una s))%nat)
    by (rewrite <- FifoBuffer.fifo_length_contents, Hc by done; apply length_drop).
  split_and!; [rewrite (wrap_small 32); unfold is_u|..|apply (wrap_small 32); unfold is_u]; lia.
Qed.

Lemma send_window_spec Q c s : sender_ok Q c s ->
  0 <= m_snd_wnd s ->
  0 <= send_window s <= m_mss s /\ send_window s <= Z.of_nat (length Q) - m_snd_nxt s.
Proof.
  intros Hs Hw. destruct (buffered_length Q c s Hs) as (Hb & _ & Hf).
  destruct Hs as [[_ _ _ _ Hr _] [] _ _]. unfold send_window. fold (flight s).
  assert (Hu : u32 (Buffered (m_sbuf s) - flight s) = Z.of_nat (length Q) - m_snd_nxt s)
    by (rewrite Hb, Hf, (wrap_small 32); unfold is_u; lia).
  rewrite Hu. set (cwnd := if _ || _ then _ else _). clearbody cwnd.
  set (use := if _ <? Z.min _ _ then _ else 0).
  assert (Huse : 0 <= use) by (unfold use; split_if; bool_simpl; lia). clearbody use.
  split_if; bool_simpl; [|lia]. split_if; lia.
Qed.

Lemma split_sender_ok Q c s l g r n : sender_ok Q c s -> m_slist s = l ++ g :: r -> s_xmit g = 0 ->
  0 < n < s_len g ->
  sender_ok Q c (set_slist (l ++ [mkSSegment (s_seq g) n (s_xmit g) (s_bCtrl g); subseg g n 0] ++ r) s).
Proof.
  intros [[Hwf Hop Hcap Hco Hra Hch] Htu Hli Htr] Hsl Hx Hn. split; try assumption.
  split; try assumption. change (m_slist (set_slist ?v s)) with v. rewrite Hsl in Hch.
  change (chain (seg_ok c (m_snd_nxt s)) (m_snd_una s)
    (l ++ mkSSegment (s_seq g) n (s_xmit g) (s_bCtrl g) :: subseg g n 0 :: r) (Z.of_nat (length Q))).
  pose proof Hch as Hch'. apply chain_app in Hch' as (m & Hcl & Hcg); [|done]. cbn in Hcg.
  destruct Hcg as (Hseq & _ & _ & (Hxr & Hok & Hc) & Hr). rewrite Hx in Hok. cbn in Hok.
  pose proof (chain_le _ _ _ _ Hr). pose proof (proj1 (chainp_le _ _ _ _ Hcl)).
  assert (Hu : u32 (s_seq g + n) = s_seq g + n) by (apply wrap_small; unfold is_u; lia).
  assert (Hv : u32 (s_len g - n) = s_len g - n) by (apply wrap_small; unfold is_u; lia).
  apply chain_split_seg; try done; [lia|lia|..]; unfold seg_ok; cbn; rewrite ?Hu, ?Hv, ?Hx; cbn;
    destruct (s_bCtrl g); lia.
Qed.

Lemma attemptSend_loop_spec Q c now fuel sflags s : sender_ok Q c s -> 0 <= m_snd_wnd s ->
  Z.of_nat (length Q) - m_snd_nxt s < Z.of_nat fuel ->
  exists s', attemptSend_loop fuel now sflags s = Some s' /\ sender_ok Q c s' /\ moved s s'.
Proof.
  revert sflags s; induction fuel as [|fuel IH]; intros sflags s Hs Hw Hf.
  { destruct Hs as [[_ _ _ _ Hr _] _ _ _]. lia. }
  cbn [attemptSend_loop]. destruct (send_window_spec Q c s Hs Hw) as [Hmss Hav].
  set (n := send_window s) in *. clearbody n.
  destruct (Z.eqb_spec n 0) as [H0|H0].
  { set (im := match sflags with sfImmediateAck => true | _ => false end || negb (m_t_ack s =? 0)).
    destruct sflags; [by exists s; split_and!; try done; apply moved_refl| |]; destruct im;
      try (destruct (packet_ack Q c (m_snd_nxt s) s Hs) as (res & s' & E & Hs' & tr & Ht); rewrite E;
           exists s'; split_and!; try done; by apply moved_resized, (resized_touched tr));
      unfold Now; (eexists; split; [reflexivity|]; split; [by destruct Hs; split|]);
      apply moved_intro; by destruct_state s. }
  destruct (_ && _ && _); [by exists s; split_and!; try done; apply moved_refl|].
  pose proof Hs as [[_ _ _ _ Hra Hch] _ _ _].
  destruct (first_unsent_spec c (m_snd_nxt s) (m_snd_una s) (m_slist s) _ Hch ltac:(lia))
    as (k & g & r & E & Hsl & Hx & Hk & Hseq & Hlen).
  assert (Hlk : m_slist s !! length k = Some g) by (rewrite Hsl; by apply list_lookup_middle).
  rewrite E, Hlk.
  assert (Hsplit : exists g' r' s1,
    (if n <? s_len g then set_slist (replace_at (length k)
       [mkSSegment (s_seq g) n (s_xmit g) (s_bCtrl g); subseg g n 0] (m_slist s)) s else s) = s1 /\
    sender_ok Q c s1 /\ moved s s1 /\ m_slist s1 = k ++ g' :: r' /\ s_xmit g' = 0 /\ 0 < s_len g' /\
    m_snd_nxt s1 = m_snd_nxt s).
  { destruct (Z.ltb_spec n (s_len g)).
    - exists (mkSSegment (s_seq g) n (s_xmit g) (s_bCtrl g)), (subseg g n 0 :: r).
      eexists. split; [reflexivity|]. rewrite Hsl, replace_at_app.
      split_and!; try done; [apply split_sender_ok; try done; lia| |cbn; lia].
      apply moved_intro. by destruct_state s.
    - exists g, r, s. split_and!; try done. apply moved_refl. }
  destruct Hsplit as (g' & r' & s1 & -> & Hs1 & Hm1 & Hsl1 & Hx1 & Hl1 & Hn1).
  destruct (transmit_spec Q c now s1 k g' r' Hs1 Hsl1 Hk Hl1) as (ok & s2 & E2 & Hs2 & Hm2 & _ & Hlt).
  rewrite E2. pose proof (moved_trans _ _ _ Hm1 Hm2) as Hm.
  destruct ok; [|by exists s2]. specialize (Hlt eq_refl Hx1).
  destruct (IH sfNone s2 Hs2) as (s3 & E3 & Hs3 & Hm3); [|lia|].
  { destruct Hm as (? & ? & ? & ? & ? & ? & ? & ? & ? & ? & ? & ? & ? & ->). exact Hw. }
  exists s3. split_and!; [done|done|by apply (moved_trans _ s2)].
Qed.

Lemma attemptSend_spec Q c sflags s : sender_ok Q c s -> 0 <= m_snd_wnd s ->
  exists s', attemptSend sflags s = Some s' /\ sender_ok Q c s' /\ moved s s'.
Proof.
  intros Hs Hw. unfold attemptSend, Now.
  set (s1 := if _ <? _ then _ else _).
  assert (Hs1 : sender_ok Q c s1).
  { unfold s1. destruct Hs as [Hq [] Hli Htr].
    split_if; (split; [exact Hq| |exact Hli|exact Htr]); (split; try assumption).
    change (0 <= m_mss s < 2 ^ 32). consts. lia. }
  assert (Hm1 : moved s s1).
  { apply moved_intro. unfold s1. destruct (_ <? _); by destruct_state s. }
  assert (E1 : m_sbuf s1 = m_sbuf s /\ m_snd_wnd s1 = m_snd_wnd s) by (unfold s1; by destruct (_ <? _)).
  destruct E1 as [E1 E2]. clearbody s1. destruct (buffered_length Q c s1 Hs1) as (_ & Hb & _).
  destruct (attemptSend_loop_spec Q c (u32 (Time (m_clock s))) (S (FifoBuffer.GetBuffered (m_sbuf s1))) sflags s1 Hs1)
    as (s2 & E & Hs2 & Hm2); [by rewrite E2| |].
  { destruct Hs1 as [[_ _ _ _ Hr _] _ _ _]. lia. }
  exists s2. rewrite E1 in E |- *. split_and!; [done|done|by apply (moved_trans _ s1)].
Qed.

End Host.
End PseudoTcpSend.
