(* ===== verification/PseudoTcpAck.v ===== *)
(** * Queueing, acknowledgements and timers of PseudoTcp

    The operations that extend the stream ([queue], [queueConnectMessage]),
    release its acknowledged part, and adapt windows and timers, each shown
    to be defined and to preserve the sender's invariant. *)

From S2P Require Import Prelude ByteOrder ByteBuffer FifoBuffer PseudoTcp PseudoTcpSend.
Import ByteOrder PseudoTcp PseudoTcpSend.
Open Scope jingle_scope.

Module PseudoTcpAck.

(** What no sending operation changes: the incoming half and the mode. *)
Record kept (s s' : t) : Prop := {
  k_inc : inc s' = inc s;
  k_shutdown : m_shutdown s' = m_shutdown s;
  k_conv : m_conv s' = m_conv s;
  k_mtu : m_mtu_advise s' = m_mtu_advise s;
  k_state : m_state s' = m_state s \/ m_state s' = TCP_CLOSED;
  k_cap : FifoBuffer.buffer_length_ (m_sbuf s') = FifoBuffer.buffer_length_ (m_sbuf s);
  k_opt : opt s' = opt s;
}.

Lemma kept_refl s : kept s s.
Proof. split; auto. Qed.
Lemma kept_trans s s' s'' : kept s s' -> kept s' s'' -> kept s s''.
Proof.
  intros [A1 A2 A3 A4 A5 A6 A7] [B1 B2 B3 B4 B5 B6 B7]. split; [congruence..| |congruence|congruence].
  destruct B5 as [->| ->]; auto.
Qed.
Lemma kept_moved s s' : moved s s' -> kept s s'.
Proof. intros (? & ? & ? & ? & ? & ? & ? & ? & ? & ? & ? & ? & ? & ->). split; auto. Qed.
Lemma kept_touched tr s s' : touched tr s s' -> kept s s'.
Proof. intros (? & ? & ? & ? & ? & ? & ->). split; auto. Qed.
Lemma kept_closedown e s : kept s (closedown e s).
Proof. split; auto. Qed.

Lemma slice_app Q d seq len : 0 <= seq -> 0 <= len -> seq + len <= Z.of_nat (length Q) ->
  slice (Q ++ d) seq len = slice Q seq len.
Proof.
  intros. unfold slice, mem_read. rewrite drop_app_le by lia. apply take_app_le.
  rewrite length_drop. lia.
Qed.

Lemma segment_of_app Q d c seg : segment_of Q c seg -> segment_of (Q ++ d) c seg.
Proof.
  intros [?|(? & ? & ? & ? & ?)]; [by left|right]. rewrite length_app, slice_app by lia.
  split_and!; try done. lia.
Qed.
Lemma segment_of_nil c seg : segment_of [] c seg -> seg_len seg = 0.
Proof. intros [?|(? & ? & Hl & _)]; [done|]. cbn in Hl. lia. Qed.

(** The last element of a chain. *)
Lemma chain_snoc P a l g b : chain P a (l ++ [g]) b <->
  exists m, chainp P a l m /\ s_seq g = m /\ 0 <= s_len g /\ P g /\ m + s_len g = b.
Proof.
  rewrite chain_app by done. cbn. split.
  - intros (m & ? & ? & ? & _ & ? & ?). eauto 10.
  - intros (m & ? & ? & ? & ? & ?). exists m. split_and!; auto.
Qed.

(** All segments of a chain are non-empty if the last one is. *)
Lemma chain_chainp P a l b : chain P a l b -> (forall g, last l = Some g -> P g -> 0 < s_len g) -> chainp P a l b.
Proof.
  destruct l as [|g l] using rev_ind; [done|]. intros Hc Hl. apply chain_snoc in Hc as (m & ? & ? & ? & ? & ?).
  apply chainp_app. exists m. split; [done|]. cbn. split_and!; try done. apply Hl; [|done]. by rewrite last_snoc.
Qed.

Section Host.
Context `{HM : Machine} `{HN : IPseudoTcpNotify}.

Record sending (Q : bytes) (c : Z) (s : t) : Prop := {
  sending_ok : sender_ok Q c s;
  sending_wnd : 0 <= m_snd_wnd s;
}.

Lemma trace_ok_app Q d c tr : trace_ok Q c tr -> trace_ok (Q ++ d) c tr.
Proof.
  intros Ht. eapply Forall_impl; [exact Ht|]. intros [| | | |b]; try done.
  intros (seg & Hp & Hs & Hf & Hl). exists seg. split_and!; try done. by apply segment_of_app.
Qed.
Lemma trace_ok_start d c c' tr : trace_ok [] c tr -> trace_ok d c' tr.
Proof.
  intros Ht. eapply Forall_impl; [exact Ht|]. intros [| | | |b]; try done.
  intros (seg & Hp & Hs & Hf & Hl). exists seg. split_and!; try done. left. by apply segment_of_nil in Hs.
Qed.

Lemma write_remaining Q c s : sender_ok Q c s ->
  WriteRemaining (m_sbuf s) =
  Z.of_nat (FifoBuffer.buffer_length_ (m_sbuf s) - FifoBuffer.data_length_ (m_sbuf s)).
Proof.
  intros [[Hwf _ Hcap _ _ _] _ _ _]. apply (wrap_small 32). unfold FifoBuffer.GetWriteRemaining, is_u. lia.
Qed.

Lemma seg_ok_grow c nxt g n : seg_ok c nxt g -> s_xmit g = 0 -> s_bCtrl g = false ->
  seg_ok c nxt (mkSSegment (s_seq g) n (s_xmit g) (s_bCtrl g)).
Proof. unfold seg_ok. cbn. intros (? & Hx & Hc) H0 Hb. rewrite H0, Hb in *. by cbn in *. Qed.

(** The send list after queueing [n] bytes of data. *)
Lemma chain_queue c nxt una l Q n :
  chain (seg_ok c nxt) una l Q -> 0 <= una -> nxt <= Q -> 0 <= n -> Q + n < 2 ^ 32 -> c <= Q ->
  chain (seg_ok c nxt) una
    (match last l with
     | Some back =>
         if Bool.eqb (s_bCtrl back) false && (s_xmit back =? 0)
         then replace_at (pred (length l))
                [mkSSegment (s_seq back) (u32 (s_len back + n)) (s_xmit back) (s_bCtrl back)] l
         else l ++ [mkSSegment Q n 0 false]
     | None => l ++ [mkSSegment Q n 0 false]
     end) (Q + n).
Proof.
  intros Hch Ha Hn Hn0 Hb Hc.
  assert (Happ : (forall g, last l = Some g -> seg_ok c nxt g -> 0 < s_len g) ->
    chain (seg_ok c nxt) una (l ++ [mkSSegment Q n 0 false]) (Q + n)).
  { intros Hlast. apply chain_snoc. exists Q. split; [by apply chain_chainp|]. by cbn. }
  destruct (last l) as [back|] eqn:El; [|by apply Happ].
  apply last_Some in El as [k ->].
  destruct (s_bCtrl back) eqn:Eb; cbn [Bool.eqb andb].
  { apply Happ. intros g Hg (_ & _ & Hok). injection Hg as <-. rewrite Eb in Hok. lia. }
  destruct (Z.eqb_spec (s_xmit back) 0) as [H0|H0].
  2: { apply Happ. intros g [= <-] (_ & Hok & _). rewrite (proj2 (Z.eqb_neq _ _)) in Hok by done. lia. }
  rewrite length_app, Nat.add_1_r. cbn [pred]. rewrite replace_at_app. cbn [app].
  apply chain_snoc in Hch as (m & Hk & Hs & Hl & Hok & Hm). pose proof (proj1 (chainp_le _ _ _ _ Hk)).
  assert (Hu : u32 (s_len back + n) = s_len back + n) by (apply wrap_small; unfold is_u; lia).
  apply chain_snoc. exists m. cbn. rewrite Hu. split_and!; try done; [lia| |lia].
  rewrite <- Eb. by apply seg_ok_grow.
Qed.

Lemma queue_data Q c s d : sending Q c s -> c <= Z.of_nat (length Q) ->
  Z.of_nat (length Q + length d) < 2 ^ 32 ->
  exists n s', queue d false s = Some (Z.of_nat n, s') /\ sending (Q ++ take n d) c s' /\ kept s s' /\
    n = Nat.min (length d) (FifoBuffer.buffer_length_ (m_sbuf s) - FifoBuffer.data_length_ (m_sbuf s)).
Proof.
  intros [Hs Hw] Hc Hlen. unfold queue. rewrite (write_remaining Q c s Hs).
  destruct (buffered_length Q c s Hs) as (Hb & _ & _). rewrite Hb. pose proof Hs as [[Hwf Hop Hcap Hco Hra Hch] Htu Hli Htr].
  set (space := (FifoBuffer.buffer_length_ (m_sbuf s) - FifoBuffer.data_length_ (m_sbuf s))%nat).
  assert (Hul : u32 (Z.of_nat (length d)) = Z.of_nat (length d)) by (apply wrap_small; unfold is_u; lia).
  rewrite Hul. set (n := Nat.min (length d) space).
  assert (Hn : (if Z.of_nat space <? Z.of_nat (length d) then Some (Z.of_nat space) else Some (Z.of_nat (length d)))
    = Some (Z.of_nat n)) by (destruct (Z.ltb_spec (Z.of_nat space) (Z.of_nat (length d))); f_equal; lia).
  cbn [negb]. rewrite Hn, Nat2Z.id.
  assert (Hus : u32 (m_snd_una s + (Z.of_nat (length Q) - m_snd_una s)) = Z.of_nat (length Q))
    by (rewrite (wrap_small 32); unfold is_u; lia). rewrite Hus.
  pose proof (chain_queue c _ _ _ _ (Z.of_nat n) Hch ltac:(lia) ltac:(lia) ltac:(lia) ltac:(lia) Hc) as Hch'.
  set (sl := match last (m_slist s) with Some _ => _ | None => _ end) in *. clearbody sl.
  change (m_sbuf (set_slist sl s)) with (m_sbuf s).
  destruct (FifoBuffer.Write_contents (m_sbuf s) (take n d) Hwf) as (r & ev & f' & -> & Hwf' & Hco' & Hst' & Hbl');
    [by rewrite Hop|rewrite length_take; lia|].
  assert (Hnl : length (take n d) = n) by (rewrite length_take; lia). rewrite Hnl.
  exists n, (set_sbuf f' (set_slist sl s)).
  assert (Hun : u32 (Z.of_nat n) = Z.of_nat n) by (apply wrap_small; unfold is_u; lia). rewrite Hun.
  split; [done|]. split; [|split; [by split; auto|done]]. split; [|exact Hw]. split; [|exact Htu|exact Hli|by apply trace_ok_app].
  assert (HQ : Z.of_nat (length (Q ++ take n d)) = Z.of_nat (length Q) + Z.of_nat n)
    by (rewrite length_app, Hnl; lia).
  split; [exact Hwf'|by rewrite <- Hop|change (Z.of_nat (FifoBuffer.buffer_length_ f') < 2 ^ 31); by rewrite Hbl'| | |].
  - change (FifoBuffer.contents f' = drop (Z.to_nat (m_snd_una s)) (Q ++ take n d)).
    rewrite Hco', Hco, drop_app_le by lia. done.
  - rewrite HQ. change (0 <= m_snd_una s <= m_snd_nxt s /\ m_snd_nxt s <= Z.of_nat (length Q) + Z.of_nat n < 2 ^ 32). lia.
  - rewrite HQ. exact Hch'.
Qed.

(** ** The connect message *)

Definition connect_message (wnd_scale : option Z) : bytes :=
  CTL_CONNECT :: match wnd_scale with Some k => [TCP_OPT_WND_SCALE; 1; k] | None => [] end.
Definition own_scale (s : t) : option Z := if m_support_wnd_scale s then Some (m_rwnd_scale s) else None.

Lemma enc_byte o v : is_byte v -> ByteBuffer.enc o 1 v = [v].
Proof.
  intros Hv. unfold is_byte in Hv.
  destruct o; cbn [ByteBuffer.enc]; unfold host_bytes; try destruct IsHostBigEndian;
    unfold be_bytes; cbn [le_bytes rev app]; by rewrite Z.mod_small.
Qed.

Lemma write_byte b v : ByteBuffer.wf b -> is_byte v ->
  ByteBuffer.wf (ByteBuffer.WriteUInt8 b v) /\
  ByteBuffer.contents (ByteBuffer.WriteUInt8 b v) = ByteBuffer.contents b ++ [v].
Proof.
  intros Hb Hv. rewrite ByteBuffer.WriteUInt8_enc.
  destruct (ByteBuffer.WriteBytes_spec b (ByteBuffer.enc (ByteBuffer.byte_order_ b) 1 v) Hb (ByteBuffer.enc_ok _ _ _))
    as (Hw & Hc & _).
  split; [done|]. by rewrite Hc, enc_byte.
Qed.

Lemma queue_ctl s c d : sending [] c s -> m_slist s = [] -> d <> [] ->
  (length d <= FifoBuffer.buffer_length_ (m_sbuf s))%nat ->
  exists s', queue d true s = Some (Z.of_nat (length d), s') /\ sending d (Z.of_nat (length d)) s' /\ kept s s' /\
    m_snd_una s = 0 /\ m_snd_nxt s = 0 /\ m_snd_una s' = 0 /\ m_snd_nxt s' = 0.
Proof.
  intros [Hs Hw] Hsl Hd Hlen. unfold queue. rewrite (write_remaining _ c s Hs).
  destruct (buffered_length _ c s Hs) as (Hb & _ & _). pose proof Hs as [[Hwf Hop Hcap Hco Hra Hch] Htu Hli Htr].
  cbn [length] in Hb, Hra. assert (Hun : m_snd_una s = 0 /\ m_snd_nxt s = 0) by lia. destruct Hun as [Hu0 Hn0].
  rewrite drop_nil in Hco. rewrite Hb, Hu0, Hsl.
  pose proof (FifoBuffer.fifo_length_contents _ Hwf) as Hdl. rewrite Hco in Hdl. cbn in Hdl. rewrite <- Hdl, Nat.sub_0_r.
  assert (Hul : u32 (Z.of_nat (length d)) = Z.of_nat (length d)) by (apply wrap_small; unfold is_u; lia).
  rewrite Hul, (proj2 (Z.ltb_ge _ _)), Nat2Z.id, firstn_all by lia. cbn [last].
  change (u32 (0 + (Z.of_nat 0 - 0))) with 0.
  set (sl := [] ++ _). change (m_sbuf (set_slist sl s)) with (m_sbuf s).
  destruct (FifoBuffer.Write_contents (m_sbuf s) d Hwf) as (r & ev & f' & -> & Hwf' & Hco' & Hst' & Hbl');
    [by rewrite Hop|lia|]. rewrite Hul.
  exists (set_sbuf f' (set_slist sl s)). split; [done|]. split; [|split_and!; try done; by split; auto].
  split; [|exact Hw]. split; [|exact Htu|exact Hli|by apply (trace_ok_start d c)].
  assert (Hpos : (0 < length d)%nat) by (destruct d; [done|cbn; lia]).
  split; [exact Hwf'|by rewrite <- Hop|change (Z.of_nat (FifoBuffer.buffer_length_ f') < 2 ^ 31); by rewrite Hbl'| | |].
  - change (FifoBuffer.contents f' = drop (Z.to_nat (m_snd_una s)) d). by rewrite Hco', Hco, Hu0.
  - change (0 <= m_snd_una s <= m_snd_nxt s /\ m_snd_nxt s <= Z.of_nat (length d) < 2 ^ 32). lia.
  - change (chain (seg_ok (Z.of_nat (length d)) (m_snd_nxt s)) (m_snd_una s) sl (Z.of_nat (length d))).
    rewrite Hu0, Hn0. cbn. unfold seg_ok. cbn. split_and!; try done; lia.
Qed.

Lemma queueConnectMessage_spec c s : sending [] c s -> m_slist s = [] -> is_byte (m_rwnd_scale s) ->
  (4 <= FifoBuffer.buffer_length_ (m_sbuf s))%nat ->
  exists s', queueConnectMessage s = Some s' /\
    sending (connect_message (own_scale s)) (Z.of_nat (length (connect_message (own_scale s)))) s' /\ kept s s' /\
    m_snd_una s = 0 /\ m_snd_nxt s = 0 /\ m_snd_una s' = 0 /\ m_snd_nxt s' = 0.
Proof.
  intros Hs Hsl Hb Hcap. unfold queueConnectMessage.
  destruct (ByteBuffer.new_empty_spec ByteBuffer.ORDER_NETWORK) as (W0 & C0 & _).
  destruct (write_byte _ CTL_CONNECT W0) as (W1 & C1); [done|]. rewrite C0 in C1.
  set (buf := if m_support_wnd_scale s then _ else _).
  assert (Hbuf : ByteBuffer.wf buf /\ ByteBuffer.contents buf = connect_message (own_scale s)).
  { unfold buf, own_scale. destruct (m_support_wnd_scale s); [|done].
    destruct (write_byte _ TCP_OPT_WND_SCALE W1) as (W2 & C2); [done|].
    destruct (write_byte _ 1 W2) as (W3 & C3); [done|].
    destruct (write_byte _ (m_rwnd_scale s) W3 Hb) as (W4 & C4). split; [done|].
    by rewrite C4, C3, C2, C1. }
  clearbody buf. destruct Hbuf as [Hw Hc].
  change (take (ByteBuffer.Length buf) (ByteBuffer.Data buf)) with (ByteBuffer.contents buf).
  assert (Hl : ByteBuffer.Length buf = length (connect_message (own_scale s)))
    by (rewrite <- Hc; symmetry; by apply ByteBuffer.length_contents).
  rewrite Hc, Hl. set (m := connect_message (own_scale s)) in *.
  assert (Hm : m <> [] /\ (length m <= 4)%nat) by (unfold m, connect_message; destruct (own_scale s); cbn; auto with lia).
  set (s1 := set_snd_wnd _ s).
  destruct (queue_ctl s1 c m) as (s' & E & Hs' & Hk & Hz1 & Hz2 & Hz3 & Hz4); [|done|apply Hm| |].
  - split; [|apply wrap_range; lia]. by destruct Hs as [[] _]; split.
  - change (length m <= FifoBuffer.buffer_length_ (m_sbuf s))%nat. lia.
  - rewrite E. exists s'. split_and!; try done. apply (kept_trans _ s1); [by split; auto|done].
Qed.

Lemma read_byte b x l : ByteBuffer.wf b -> ByteBuffer.contents b = x :: l -> is_byte x ->
  exists b', ByteBuffer.ReadUInt8 b = Some (x, b') /\ ByteBuffer.wf b' /\ ByteBuffer.contents b' = l.
Proof.
  intros Hb Hc Hx. rewrite ByteBuffer.ReadUInt8_dec by done.
  destruct (ByteBuffer.read_enc_spec b 1 x l Hb) as (b' & E & Hw & Hc' & _); [by rewrite enc_byte|done|].
  by exists b'.
Qed.

Lemma buffer_head b x l : ByteBuffer.wf b -> ByteBuffer.contents b = x :: l -> ByteBuffer.Data b !! 0%nat = Some x.
Proof.
  intros Hb Hc. unfold ByteBuffer.contents, mem_read in Hc. fold (ByteBuffer.Data b) in Hc.
  destruct (ByteBuffer.Data b); [by rewrite take_nil in Hc|].
  destruct (ByteBuffer.Length b); [done|]. by injection Hc as ->.
Qed.

(** The peer's window scale is what its connect message says. *)
Lemma parseOptions_spec (k : option Z) s : (forall v, k = Some v -> is_byte v) ->
  (k = None -> m_rwnd_scale s = 0) ->
  parseOptions (tail (connect_message k)) s =
  Some (match k with Some v => set_swnd_scale v s | None => s end).
Proof.
  intros Hk Hn. unfold parseOptions. destruct k as [v|]; cbn [connect_message tail].
  2: { cbn [length options_loop]. destruct (ByteBuffer.new_from_spec [] ByteBuffer.ORDER_NETWORK) as (W & C & _); [apply List.Forall_nil|].
       pose proof (ByteBuffer.length_contents _ W) as L. rewrite C in L. rewrite <- L. cbn.
       by rewrite (Hn eq_refl). }
  assert (Hv : is_byte v) by (by apply Hk).
  assert (Hok : bytes_ok [TCP_OPT_WND_SCALE; 1; v]) by (repeat apply List.Forall_cons; done).
  destruct (ByteBuffer.new_from_spec _ ByteBuffer.ORDER_NETWORK Hok) as (W & C & _).
  set (b := ByteBuffer.new_from _ _) in *. clearbody b. cbn [length options_loop].
  pose proof (ByteBuffer.length_contents _ W) as L. rewrite C in L. rewrite <- L. cbn [length Nat.eqb].
  destruct (read_byte b _ _ W C) as (b1 & E1 & W1 & C1); [done|]. rewrite E1. change (default ?d (Some ?x)) with x. cbv iota beta.
  change (TCP_OPT_WND_SCALE =? TCP_OPT_EOL) with false. change (TCP_OPT_WND_SCALE =? TCP_OPT_NOOP) with false.
  destruct (read_byte b1 _ _ W1 C1) as (b2 & E2 & W2 & C2); [done|]. rewrite E2. change (default ?d (Some ?x)) with x. cbv iota beta.
  pose proof (ByteBuffer.length_contents _ W2) as L2. rewrite C2 in L2. rewrite <- L2.
  change (Z.to_nat 1 <=? length [v])%nat with true. cbv iota. unfold applyOption.
  change (TCP_OPT_WND_SCALE =? TCP_OPT_MSS) with false. change (TCP_OPT_WND_SCALE =? TCP_OPT_WND_SCALE) with true.
  change (negb (1 =? 1)) with false. cbv iota. rewrite (buffer_head b2 v [] W2 C2).
  pose proof (ByteBuffer.Consume_spec b2 (Z.to_nat 1) W2) as HC.
  destruct (ByteBuffer.Consume b2 (Z.to_nat 1)) as [b3|]; [|rewrite <- L2 in HC; cbn in HC; lia].
  destruct HC as (_ & W3 & C3 & _). rewrite C2 in C3.
  pose proof (ByteBuffer.length_contents _ W3) as L3. rewrite C3 in L3. rewrite <- L3. reflexivity.
Qed.

(** ** Assignments to the tuning variables *)

Ltac sending_set :=
  let H1 := fresh in let H2 := fresh in let H3 := fresh in let H4 := fresh in
  match goal with
  | H : sending ?Q ?c ?s |- sending ?Q ?c _ =>
      destruct H as [[H1 [] H2 H3] H4];
      (split; [split; [exact H1 | split; try assumption | exact H2 | exact H3] | exact H4])
  end.

Section Assign.
Variables (Q : bytes) (c : Z) (s : t).
Hypothesis Hs : sending Q c s.

Lemma set_cwnd_ok v : 0 <= v < 2 ^ 32 -> sending Q c (set_cwnd v s).
Proof. intros. sending_set. Qed.
Lemma set_dup_acks_ok v : 0 <= v < 256 -> sending Q c (set_dup_acks v s).
Proof. intros. sending_set. Qed.
Lemma set_ssthresh_ok v : 0 < v < 2 ^ 32 -> sending Q c (set_ssthresh v s).
Proof. intros. sending_set. Qed.
Lemma set_rx_rto_ok v : MIN_RTO <= v <= MAX_RTO -> sending Q c (set_rx_rto v s).
Proof. intros. sending_set. Qed.
Lemma set_swnd_scale_ok v : 0 <= v < 32 -> sending Q c (set_swnd_scale v s).
Proof. intros. sending_set. Qed.
Lemma set_recover_ok : sending Q c (set_recover (m_snd_nxt s) s).
Proof.
  destruct Hs as [[Hq Ht [Hl1 Hl2] Htr] Hw]. split; [split; [exact Hq|exact Ht| |exact Htr]|exact Hw].
  destruct Hq. split; [exact Hl1|]. change (0 <= m_snd_nxt s <= m_snd_nxt s). lia.
Qed.
Lemma set_rto_base_ok v : m_snd_una s < m_snd_nxt s -> sending Q c (set_rto_base v s).
Proof.
  intros Hlt. destruct Hs as [[Hq Ht [Hl1 Hl2] Htr] Hw]. split; [split; [exact Hq|exact Ht| |exact Htr]|exact Hw].
  by split.
Qed.
Lemma log_ok e : event_ok Q c e -> sending Q c (log e s).
Proof.
  intros He. destruct Hs as [[Hq Ht Hl Htr] Hw]. split; [split; [exact Hq|exact Ht|exact Hl|]|exact Hw].
  apply Forall_app. split; [done|]. by apply List.Forall_cons.
Qed.
Lemma set_wnd_ok v : 0 <= v -> sending Q c (set_snd_wnd v s).
Proof. intros. destruct Hs as [[Hq Ht Hl Htr] Hw]. by split; [split|]. Qed.
End Assign.

Lemma u32_range v : 0 <= u32 v < 2 ^ 32.
Proof. apply (wrap_range 32). lia. Qed.
Lemma u8_range v : 0 <= u8 v < 256.
Proof. apply (wrap_range 8). lia. Qed.

Lemma update_rtt_spec Q c now tsecr s : sending Q c s ->
  exists a b d, update_rtt now tsecr s = set_rx_rto a (set_rx_srtt b (set_rx_rttvar d s)) /\
    MIN_RTO <= a <= MAX_RTO.
Proof.
  intros [[_ [] _ _] _]. unfold update_rtt.
  destruct (_ || _).
  { exists (m_rx_rto s), (m_rx_srtt s), (m_rx_rttvar s). split; [by destruct_state s|done]. }
  destruct (m_rx_srtt s =? 0); (do 3 eexists); (split; [destruct_state s; reflexivity|]); unfold bound; consts; lia.
Qed.

(** An acknowledgement that falls between two segments. *)
Definition ack_boundary (s : t) (ack : Z) : Prop :=
  Exists (fun g => s_seq g = ack) (m_slist s) \/ ack = m_snd_nxt s.

Lemma chain_exists_ge P a l b k : chain P a l b -> Exists (fun g => s_seq g = k) l -> a <= k.
Proof.
  revert a; induction l as [|g l IH]; intros a Hc Hk; [by inversion Hk|].
  cbn in Hc. destruct Hc as (? & ? & _ & _ & Hc). apply Exists_cons in Hk as [?|Hk]; [lia|].
  specialize (IH _ Hc Hk). lia.
Qed.

Lemma free_segments_spec P a l b k lg : chain P a l b -> a <= k ->
  Exists (fun g => s_seq g = k) l \/ k = b ->
  exists l' lg', free_segments (k - a) l lg = Some (l', lg') /\ chain P k l' b.
Proof.
  revert a lg; induction l as [|g l IH]; intros a lg Hch Hak Hk.
  { cbn in Hch. destruct Hk as [Hk|Hk]; [by inversion Hk|]. cbn [free_segments].
    rewrite (proj2 (Z.leb_le _ _)) by lia. exists [], lg. split; [done|]. cbn. lia. }
  cbn [free_segments]. destruct (Z.leb_spec (k - a) 0) as [H0|H0].
  { exists (g :: l), lg. split; [done|]. by replace k with a by lia. }
  cbn [chain] in Hch. destruct Hch as (Hs & Hl & Hd & HP & Hc). pose proof (chain_le _ _ _ _ Hc).
  assert (Hge : s_len g <= k - a).
  { destruct Hk as [Hk|Hk]; [|lia]. apply Exists_cons in Hk as [Hk|Hk]; [lia|].
    pose proof (chain_exists_ge _ _ _ _ _ Hc Hk). lia. }
  rewrite (proj2 (Z.ltb_ge _ _)) by done.
  replace (k - a - s_len g) with (k - (a + s_len g)) by lia. apply IH; [done|lia|].
  destruct Hk as [Hk|Hk]; [|by right]. apply Exists_cons in Hk as [Hk|Hk]; [lia|by left].
Qed.

Lemma ack_boundary_end Q c s ack : sender_ok Q c s -> ack_boundary s ack -> m_snd_una s <= m_snd_nxt s ->
  Exists (fun g => s_seq g = ack) (m_slist s) \/ ack = Z.of_nat (length Q).
Proof.
  intros [[_ _ _ _ Hr Hch] _ _ _] [?| ->] Hle; [by left|].
  destruct (decide (m_snd_nxt s = Z.of_nat (length Q))) as [|Hne]; [by right|left].
  destruct (first_unsent_spec _ _ _ _ _ Hch) as (k & g & r & _ & -> & _ & _ & Hs & _); [lia|].
  apply Exists_app. right. by apply Exists_cons; left.
Qed.

Definition moved_or_closed (ok : bool) (s s' : t) : Prop := kept s s' /\ (ok = false -> m_state s' = TCP_CLOSED).

Lemma retransmit_ok Q c now s : sending Q c s -> m_snd_una s < m_snd_nxt s ->
  exists ok s', retransmit now s = Some (ok, s') /\ sending Q c s' /\ moved_or_closed ok s s' /\
    m_snd_una s' < m_snd_nxt s'.
Proof.
  intros [Hs Hw] Hlt. destruct (retransmit_spec Q c now s Hs Hlt) as (ok & s' & E & Hs' & Hm & Hlt').
  exists ok, s'. split_and!; try done.
  - split; [done|]. destruct ok.
    + destruct Hm as (? & ? & ? & ? & ? & ? & ? & ? & ? & ? & ? & ? & ? & ->). exact Hw.
    + destruct Hm as (s1 & (? & ? & ? & ? & ? & ? & ? & ? & ? & ? & ? & ? & ? & ->) & ->). exact Hw.
  - destruct ok; [by split; [apply kept_moved|]|]. destruct Hm as (s1 & Hm & ->).
    split; [|done]. apply (kept_trans _ s1); [by apply kept_moved|apply kept_closedown].
Qed.

Lemma kept_set (f : t -> t) s s' : kept s s' -> inc (f s') = inc s' -> tcb (f s') = tcb s' -> siz (f s') = siz s' ->
  m_sbuf (f s') = m_sbuf s' -> opt (f s') = opt s' -> kept s (f s').
Proof.
  intros [] Hi Ht Hz Hb Ho. unfold m_shutdown, m_conv, m_mtu_advise, m_state in *.
  split; unfold m_shutdown, m_conv, m_mtu_advise, m_state; by rewrite ?Hi, ?Ht, ?Hz, ?Hb, ?Ho.
Qed.

Lemma update_congestion_spec Q c now n s : sending Q c s ->
  exists ok s', update_congestion now n s = Some (ok, s') /\ sending Q c s' /\ moved_or_closed ok s s'.
Proof.
  intros Hs. pose proof Hs as [[[_ _ _ _ Hr _] [] [_ Hrec] _] _]. unfold update_congestion.
  destruct (Z.leb_spec 3 (m_dup_acks s)).
  - destruct (Z.leb_spec (m_recover s) (m_snd_una s)).
    + eexists true, _. split; [reflexivity|]. split; [|by split; [by apply (kept_set (fun s => set_dup_acks 0 (set_cwnd _ s))); [apply kept_refl|..]|]].
      apply set_dup_acks_ok; [|lia]. apply set_cwnd_ok; [done|]. pose proof (u32_range (flight s + m_mss s)). lia.
    + destruct (retransmit_ok Q c now s Hs) as (ok & s' & -> & Hs' & Hm & _); [lia|].
      destruct ok; [|by exists false, s']. eexists true, _. split; [reflexivity|].
      split; [apply set_cwnd_ok; [done|]; apply u32_range|]. split; [|done].
      apply (kept_set (set_cwnd _)); [apply Hm|done..].
  - pose proof (set_dup_acks_ok Q c s Hs 0 ltac:(lia)) as Hs0. set (s0 := set_dup_acks 0 s) in *.
    assert (Hk0 : kept s s0) by (by apply (kept_set (set_dup_acks 0)); [apply kept_refl|..]).
    change (m_cwnd s0) with (m_cwnd s). change (m_ssthresh s0) with (m_ssthresh s).
    destruct (Z.ltb_spec (m_cwnd s) (m_ssthresh s)); [|rewrite (proj2 (Z.eqb_neq _ _)) by lia; cbn [negb]];
      (eexists true, _; split; [reflexivity|]; split; [apply set_cwnd_ok; [done|]; apply u32_range|];
       split; [|done]; by apply (kept_set (set_cwnd _))).
Qed.

Lemma update_window_spec Q c seg s : sending Q c s ->
  exists w, update_window seg s = Some (set_snd_wnd w s) /\ sending Q c (set_snd_wnd w s).
Proof.
  intros Hs. unfold update_window. destruct (sending_ok _ _ _ Hs) as [_ [] _ _].
  rewrite (proj2 (Z.ltb_lt _ _)) by lia. eexists. split; [reflexivity|].
  apply set_wnd_ok; [done|]. apply u32_range.
Qed.

(** ** Acknowledgements *)

Lemma kept_by_fields s s' : inc s' = inc s -> tcb s' = tcb s -> m_mtu_advise s' = m_mtu_advise s ->
  FifoBuffer.buffer_length_ (m_sbuf s') = FifoBuffer.buffer_length_ (m_sbuf s) -> opt s' = opt s -> kept s s'.
Proof.
  intros Hi Ht Hm Hb Ho. split; unfold m_shutdown, m_conv, m_state; rewrite ?Hi, ?Ht; auto.
Qed.

(** Releasing the stream up to [ack]. *)
Lemma release_queue Q c s ack : sender_ok Q c s -> m_snd_una s < ack <= m_snd_nxt s -> ack_boundary s ack ->
  exists sbuf sl lg, u32 (ack - m_snd_una s) = ack - m_snd_una s /\
    ConsumeReadData (m_sbuf s) (ack - m_snd_una s) = Some sbuf /\
    free_segments (ack - m_snd_una s) (m_slist s) (m_largest s) = Some (sl, lg) /\
    queue_ok Q c sl (m_snd_nxt s) ack sbuf /\
    FifoBuffer.buffer_length_ sbuf = FifoBuffer.buffer_length_ (m_sbuf s).
Proof.
  intros Hs Hack Hbd. pose proof (ack_boundary_end Q c s _ Hs Hbd ltac:(lia)) as Hb.
  destruct Hs as [[Hwf Hop Hcap Hco Hra Hch] _ _ _].
  pose proof (FifoBuffer.fifo_length_contents _ Hwf) as Hdl. rewrite Hco, length_drop in Hdl.
  destruct (FifoBuffer.ConsumeReadData_contents (m_sbuf s) (Z.to_nat (ack - m_snd_una s)) Hwf)
    as (Hwf' & Hco' & Hop' & Hbl' & _); [lia|].
  unfold ConsumeReadData. rewrite (proj2 (Nat.leb_le _ _)) by lia.
  destruct (free_segments_spec _ _ _ _ ack (m_largest s) Hch ltac:(lia) Hb) as (sl & lg & -> & Hch').
  eexists _, _, _. split; [apply wrap_small; unfold is_u; lia|]. split_and!; [reflexivity..| |done].
  split; [done|by rewrite Hop'|by rewrite Hbl'| |lia|done].
  rewrite Hco', Hco, drop_drop. f_equal. lia.
Qed.

Lemma process_new_ack_spec Q c now seg s : sending Q c s ->
  m_snd_una s < seg_ack seg <= m_snd_nxt s -> ack_boundary s (seg_ack seg) ->
  exists ok s', process_new_ack now seg s = Some (ok, s') /\ sending Q c s' /\ moved_or_closed ok s s'.
Proof.
  intros Hs Hack Hbd. unfold process_new_ack.
  destruct (update_rtt_spec Q c now (seg_tsecr seg) s Hs) as (a & b & d & -> & Ha).
  set (s1 := set_rx_rto a _).
  assert (Hs1 : sending Q c s1) by (apply set_rx_rto_ok; [|done]; by destruct Hs as [[] ?]; split; [split|]).
  destruct (update_window_spec Q c seg s1 Hs1) as (w & -> & Hs2).
  set (s2 := set_snd_wnd w s1) in *.
  destruct (release_queue Q c s2 (seg_ack seg) (sending_ok _ _ _ Hs2) Hack Hbd) as (sbuf & sl & lg & Hu & E1 & E2 & Hq & Hbl).
  rewrite Hu. set (s3 := set_rto_base _ _). change (m_sbuf s3) with (m_sbuf s2). rewrite E1.
  change (m_slist (set_sbuf sbuf s3)) with (m_slist s2). change (m_largest (set_sbuf sbuf s3)) with (m_largest s2).
  rewrite E2. set (s5 := set_largest lg _).
  assert (Hs5 : sending Q c s5).
  { destruct Hs2 as [[_ Ht [Hl1 Hl2] Htr] Hw]. split; [|exact Hw]. split; [exact Hq|exact Ht| |exact Htr].
    split; [|exact Hl2].
    change ((if seg_ack seg =? m_snd_nxt s then 0 else now) <> 0 -> seg_ack seg < m_snd_nxt s).
    destruct (Z.eqb_spec (seg_ack seg) (m_snd_nxt s)); [done|lia]. }
  destruct (update_congestion_spec Q c now (seg_ack seg - m_snd_una s2) s5 Hs5) as (ok & s' & -> & Hs' & Hk & Hcl).
  exists ok, s'. split_and!; try done. split; [|done].
  apply (kept_trans _ s5); [by apply kept_by_fields|done].
Qed.

Lemma enter_recovery_ok Q c s : sending Q c s ->
  sending Q c (enter_recovery s) /\ kept s (enter_recovery s).
Proof.
  intros Hs. split; [|by apply kept_by_fields]. unfold enter_recovery.
  apply set_cwnd_ok; [|apply u32_range]. apply set_ssthresh_ok; [by apply set_recover_ok|].
  destruct Hs as [[_ [] _ _] _]. set (f := flight _).
  assert (0 <= f < 2 ^ 32) by apply u32_range. change (m_mss (set_recover ?v s)) with (m_mss s).
  assert (Hu : u32 (2 * m_mss s) = 2 * m_mss s) by (apply wrap_small; unfold is_u; consts; lia).
  rewrite Hu. consts. assert (0 <= f / 2 < 2 ^ 31) by dlia. lia.
Qed.

Lemma process_same_ack_spec Q c now seg s : sending Q c s ->
  exists ok s', process_same_ack now seg s = Some (ok, s') /\ sending Q c s' /\ moved_or_closed ok s s'.
Proof.
  intros Hs. unfold process_same_ack.
  destruct (update_window_spec Q c seg s Hs) as (w & -> & Hs1). set (s1 := set_snd_wnd w s) in *.
  assert (Hk1 : kept s s1) by (by apply kept_by_fields).
  destruct (0 <? seg_len seg); [by exists true, s1|].
  destruct (Z.eqb_spec (m_snd_una s1) (m_snd_nxt s1)) as [He|Hne]; cbn [negb].
  { eexists true, _. split; [reflexivity|]. split; [by apply set_dup_acks_ok|]. split; [|done].
    by apply (kept_set (set_dup_acks 0)). }
  set (s2 := set_dup_acks _ s1).
  assert (Hs2 : sending Q c s2) by (apply set_dup_acks_ok; [done|apply u8_range]).
  assert (Hk2 : kept s s2) by (by apply (kept_set (set_dup_acks _))).
  assert (Hlt : m_snd_una s2 < m_snd_nxt s2).
  { destruct Hs1 as [[[_ _ _ _ Hr _] _ _ _] _]. change (m_snd_una s1 < m_snd_nxt s1). lia. }
  destruct (_ =? 3); [|destruct (3 <? _)].
  - destruct (retransmit_ok Q c now s2 Hs2 Hlt) as (ok & s3 & -> & Hs3 & [Hk3 Hcl] & _).
    pose proof (kept_trans _ _ _ Hk2 Hk3) as Hk. destruct ok; [|by exists false, s3].
    destruct (enter_recovery_ok Q c s3 Hs3) as [Hs4 Hk4]. eexists true, _. split; [reflexivity|].
    split; [done|]. split; [|done]. by apply (kept_trans _ s3).
  - eexists true, _. split; [reflexivity|]. split; [apply set_cwnd_ok; [done|]; apply u32_range|].
    split; [|done]. by apply (kept_set (set_cwnd _)).
  - by exists true, s2.
Qed.

Lemma process_ack_spec Q c now seg s : sending Q c s ->
  (m_snd_una s < seg_ack seg <= m_snd_nxt s -> ack_boundary s (seg_ack seg)) ->
  exists ok s', process_ack now seg s = Some (ok, s') /\ sending Q c s' /\ moved_or_closed ok s s'.
Proof.
  intros Hs Hbd. unfold process_ack.
  destruct (Z.ltb_spec (m_snd_una s) (seg_ack seg)), (Z.leb_spec (seg_ack seg) (m_snd_nxt s)); cbn [andb].
  1: apply process_new_ack_spec; auto with lia.
  all: destruct (seg_ack seg =? m_snd_una s); [by apply process_same_ack_spec|].
  all: exists true, s; split_and!; try done; split; [apply kept_refl|done].
Qed.

(** ** Packet size, timers *)

Lemma mtu_level_le fuel n mtu : (n <= 9)%nat -> (mtu_level fuel n mtu <= 9)%nat.
Proof.
  revert n; induction fuel as [|fuel IH]; intros n Hn; [done|]. cbn [mtu_level].
  destruct (Z.ltb_spec 0 (nth (S n) PACKET_MAXIMUMS 0)) as [Hp|]; [|done].
  destruct (_ <=? mtu); [done|]. apply IH.
  destruct (decide (n = 9%nat)) as [->|]; [cbn in Hp; lia|lia].
Qed.

Definition mtu_ok (mtu : Z) : Prop := PACKET_OVERHEAD < mtu <= MAX_PACKET.

Lemma adjustMTU_ok Q c s : sending Q c s -> mtu_ok (m_mtu_advise s) -> sending Q c (adjustMTU s).
Proof.
  intros [[Hq Ht Hli Htr] Hw] Hm. split; [split; [exact Hq| |exact Hli|exact Htr]|exact Hw].
  unfold mtu_ok in Hm. consts. destruct Ht.
  assert (Hu : u32 (m_mtu_advise s - PACKET_OVERHEAD) = m_mtu_advise s - PACKET_OVERHEAD)
    by (apply wrap_small; unfold is_u; consts; lia).
  assert (Em : m_mss (adjustMTU s) = m_mtu_advise s - PACKET_OVERHEAD) by (rewrite <- Hu; reflexivity).
  assert (Es : m_ssthresh (adjustMTU s) = Z.max (m_ssthresh s) (u32 (2 * m_mss (adjustMTU s)))) by reflexivity.
  assert (Ec : m_cwnd (adjustMTU s) = Z.max (m_cwnd s) (m_mss (adjustMTU s))) by reflexivity.
  pose proof (u32_range (2 * m_mss (adjustMTU s))).
  split; [rewrite Em|apply (mtu_level_le _ 0); lia|rewrite Es|rewrite Ec, Em|exact t_dup0|exact t_scale0|exact t_rto0];
    consts; lia.
Qed.

Lemma clock_retransmit_spec Q c now s : sending Q c s ->
  exists ok s', clock_retransmit now s = Some (ok, s') /\ sending Q c s' /\ moved_or_closed ok s s'.
Proof.
  intros Hs. unfold clock_retransmit. destruct (Z.eqb_spec (m_rto_base s) 0) as [H0|H0]; cbn [negb andb].
  { exists true, s. split_and!; [done|done|split; [apply kept_refl|done]]. }
  destruct (_ <=? 0); [|exists true, s; split_and!; [done|done|split; [apply kept_refl|done]]].
  assert (Hlt : m_snd_una s < m_snd_nxt s) by (destruct Hs as [[_ _ [Hl _] _] _]; auto).
  destruct (retransmit_ok Q c now s Hs Hlt) as (ok & s1 & -> & Hs1 & [Hk1 Hcl] & Hlt1).
  destruct ok; cbn [negb]; [|by exists false, s1].
  eexists true, _. split; [reflexivity|]. pose proof Hs1 as [[_ [] _ _] _].
  set (lim := match m_state _ with TCP_LISTEN | TCP_SYN_SENT | TCP_SYN_RECEIVED => _ | _ => _ end).
  assert (Hlim : MIN_RTO <= lim <= MAX_RTO) by (unfold lim; destruct (m_state _); consts; lia). clearbody lim.
  split; [|split; [|done]].
  - apply set_rto_base_ok; [|exact Hlt1]. consts. apply set_rx_rto_ok; [apply set_cwnd_ok; [apply set_ssthresh_ok; [done|]|]|].
    + assert (0 <= flight s1 < 2 ^ 32) by apply u32_range.
      assert (Hu : u32 (2 * m_mss s1) = 2 * m_mss s1) by (apply wrap_small; unfold is_u; lia). rewrite Hu.
      assert (0 <= flight s1 / 2 < 2 ^ 31) by dlia. lia.
    + change (0 <= m_mss s1 < 2 ^ 32). lia.
    + consts. set (x := u32 _).
      assert (Hx : x = m_rx_rto s1 * 2) by (apply wrap_small; unfold is_u; change (0 <= m_rx_rto s1 * 2 < 2 ^ 32); lia).
      lia.
  - apply (kept_trans _ s1); [done|by apply kept_by_fields].
Qed.

Lemma packet_ack_ok Q c seq s : sending Q c s ->
  exists r s', packet seq 0 0 0 s = Some (r, s') /\ sending Q c s' /\ kept s s' /\
    m_snd_nxt s' = m_snd_nxt s /\ m_rx_rto s' = m_rx_rto s.
Proof.
  intros [Hs Hw]. destruct (packet_ack Q c seq s Hs) as (r & s' & E & Hs' & tr & Ht).
  exists r, s'. split; [done|]. pose proof Ht as (? & ? & ? & ? & ? & ? & ->).
  split_and!; try done. by apply (kept_touched tr).
Qed.

Lemma clock_probe_spec Q c now s : sending Q c s ->
  exists ok s', clock_probe now s = Some (ok, s') /\ sending Q c s' /\ moved_or_closed ok s s'.
Proof.
  intros Hs. unfold clock_probe. destruct (_ && _).
  2: { exists true, s. split_and!; [done|done|split; [apply kept_refl|done]]. }
  destruct (15000 <=? _).
  { exists false, (closedown ECONNABORTED s). split; [done|]. split; [|split; [apply kept_closedown|done]].
    destruct Hs as [Hs Hw]. split; [by apply closedown_ok|exact Hw]. }
  destruct (packet_ack_ok Q c (u32 (m_snd_nxt s - 1)) s Hs) as (r & s1 & -> & Hs1 & Hk & _ & Hr).
  eexists true, _. split; [reflexivity|]. split.
  - apply set_rx_rto_ok; [by destruct Hs1 as [[] ?]; split; [split|]|].
    destruct Hs1 as [[_ [] _ _] _]. change (m_rx_rto (set_lastsend now s1)) with (m_rx_rto s1).
    assert (Hx : u32 (m_rx_rto s1 * 2) = m_rx_rto s1 * 2) by (apply wrap_small; unfold is_u; consts; lia).
    rewrite Hx. consts. lia.
  - split; [|done]. apply (kept_trans _ s1); [done|by apply kept_by_fields].
Qed.

Lemma clock_ack_spec Q c now s : sending Q c s ->
  exists s', clock_ack now s = Some s' /\ sending Q c s' /\ kept s s'.
Proof.
  intros Hs. unfold clock_ack. destruct (_ && _); [|exists s; split_and!; [done|done|apply kept_refl]].
  destruct (packet_ack_ok Q c (m_snd_nxt s) s Hs) as (r & s1 & -> & Hs1 & Hk & _). by exists s1.
Qed.

Lemma NotifyClock_spec Q c now s : sending Q c s ->
  exists s', NotifyClock now s = Some s' /\ sending Q c s' /\ kept s s'.
Proof.
  intros Hs. unfold NotifyClock. destruct (bool_decide _); [exists s; split_and!; [done|done|apply kept_refl]|].
  destruct (clock_retransmit_spec Q c now s Hs) as (ok & s1 & -> & Hs1 & Hk1 & _).
  destruct ok; cbn [negb]; [|by exists s1].
  destruct (clock_probe_spec Q c now s1 Hs1) as (ok & s2 & -> & Hs2 & Hk2 & _).
  pose proof (kept_trans _ _ _ Hk1 Hk2). destruct ok; cbn [negb]; [|by exists s2].
  destruct (clock_ack_spec Q c now s2 Hs2) as (s3 & -> & Hs3 & Hk3).
  exists s3. split_and!; try done. by apply (kept_trans _ s2).
Qed.

Lemma attemptSend_ok Q c sflags s : sending Q c s ->
  exists s', attemptSend sflags s = Some s' /\ sending Q c s' /\ kept s s'.
Proof.
  intros [Hs Hw]. destruct (attemptSend_spec Q c sflags s Hs Hw) as (s' & E & Hs' & Hm).
  exists s'. split; [done|]. split; [|by apply kept_moved]. split; [done|].
  destruct Hm as (? & ? & ? & ? & ? & ? & ? & ? & ? & ? & ? & ? & ? & ->). exact Hw.
Qed.

End Host.
End PseudoTcpAck.
