(* ===== verification/PseudoTcpRecv.v ===== *)
(** * The receiving side of PseudoTcp

    [P] is the peer's stream, whose first [c] bytes are its connect message,
    and [D] what the application has received.  [window_ok] says that [D] and
    the readable part of the receive buffer are the stream up to [rcv_nxt];
    [held] that the buffer holds, beyond it, the right bytes of a saved
    segment.  A segment of the stream, in whatever order it arrives, keeps
    both. *)

From S2P Require Import Prelude ByteOrder ByteBuffer FifoBuffer PseudoTcp PseudoTcpSend PseudoTcpAck.
Import ByteOrder PseudoTcp PseudoTcpSend PseudoTcpAck.
Open Scope jingle_scope.

Module PseudoTcpRecv.

Section Window.
Variables (P : bytes) (c : Z).

(** The application's part of the peer's stream. *)
Definition app_stream : bytes := drop (Z.to_nat c) P.

Record buffer_ok (f : FifoBuffer.t) : Prop := {
  b_wf : FifoBuffer.wf f;
  b_open : FifoBuffer.state_ f = FifoBuffer.SS_OPEN;
  b_cap : 4 <= Z.of_nat (FifoBuffer.buffer_length_ f) < 2 ^ 31;
}.

Definition window_ok (D : bytes) (f : FifoBuffer.t) (nxt : Z) : Prop :=
  c <= nxt /\ D ++ FifoBuffer.contents f = take (Z.to_nat (nxt - c)) app_stream.

(** The bytes of the stream at [a] .. [b - 1] that are not yet readable are
    in their place behind the readable part. *)
Definition held (f : FifoBuffer.t) (nxt a b : Z) : Prop :=
  forall x, a <= x < b -> nxt <= x ->
    let i := (FifoBuffer.data_length_ f + Z.to_nat (x - nxt))%nat in
    (i < FifoBuffer.buffer_length_ f)%nat /\ FifoBuffer.ring f !! i = P !! Z.to_nat x.

Definition saved_ok (f : FifoBuffer.t) (nxt : Z) (r : RSegment) : Prop :=
  0 <= r_seq r /\ 0 <= r_len r /\ r_seq r + r_len r <= Z.of_nat (length P) /\
  held f nxt (r_seq r) (r_seq r + r_len r).

Lemma free_space f : buffer_ok f ->
  WriteRemaining f = Z.of_nat (FifoBuffer.buffer_length_ f - FifoBuffer.data_length_ f).
Proof. intros [_ _ Hc]. apply (wrap_small 32). unfold FifoBuffer.GetWriteRemaining, is_u. lia. Qed.

(** ConsumeWriteBuffer, once the next [n] bytes are in place. *)
Lemma consume_window D f nxt n : buffer_ok f -> window_ok D f nxt -> 0 <= c -> 0 <= n ->
  nxt + n <= Z.of_nat (length P) -> held f nxt nxt (nxt + n) ->
  exists f', ConsumeWriteBuffer f n = Some f' /\ buffer_ok f' /\ window_ok D f' (nxt + n) /\
    (forall a b, held f nxt a b -> held f' (nxt + n) a b).
Proof.
  intros [Hwf Hop Hcap] [Hc Hw] Hc0 Hn Hend Hh. pose proof Hwf as [W1 W2 W3 W4].
  assert (Hroom : (Z.to_nat n <= FifoBuffer.buffer_length_ f - FifoBuffer.data_length_ f)%nat).
  { destruct (decide (n = 0)) as [->|]; [lia|]. destruct (Hh (nxt + n - 1)) as [Hi _]; lia. }
  unfold ConsumeWriteBuffer. rewrite (proj2 (Nat.leb_le _ _)) by done.
  set (f' := (FifoBuffer.ConsumeWriteBuffer f (Z.to_nat n)).2).
  assert (Hring : FifoBuffer.ring f' = FifoBuffer.ring f) by done.
  assert (Hdl : FifoBuffer.data_length_ f' = (FifoBuffer.data_length_ f + Z.to_nat n)%nat) by done.
  exists f'. split; [done|]. split_and!.
  - split; [|exact Hop|exact Hcap]. split; [exact W1|exact W2| |exact W4]. rewrite Hdl.
    change (FifoBuffer.buffer_length_ f') with (FifoBuffer.buffer_length_ f). lia.
  - split; [lia|].
    assert (Hct : FifoBuffer.contents f' = FifoBuffer.contents f ++ slice P nxt n).
    { unfold FifoBuffer.contents. rewrite Hring, Hdl.
      change (take (FifoBuffer.data_length_ f + Z.to_nat n) (FifoBuffer.ring f)) with
        (mem_read (FifoBuffer.ring f) 0 (FifoBuffer.data_length_ f + Z.to_nat n)).
      rewrite mem_read_split, Nat.add_0_l. f_equal. pose proof (FifoBuffer.length_ring f Hwf).
      unfold slice. apply (FifoBuffer.list_eq_len _ _ (Z.to_nat n)); [apply length_mem_read; lia..|].
      intros m Hm. unfold mem_read. rewrite !lookup_take_lt, !lookup_drop by done.
      destruct (Hh (nxt + Z.of_nat m)) as [_ He]; [lia..|]. cbv zeta in He.
      replace (Z.to_nat (nxt + Z.of_nat m - nxt)) with m in He by lia. rewrite He. f_equal. lia. }
    rewrite Hct, app_assoc, Hw. unfold app_stream, slice, mem_read.
    replace (Z.to_nat (nxt + n - c)) with (Z.to_nat (nxt - c) + Z.to_nat n)%nat by lia.
    rewrite <- take_take_drop, drop_drop. do 3 f_equal. lia.
  - intros a b Hab x Hx Hnx. destruct (Hab x Hx ltac:(lia)) as [Hi He]. cbv zeta in *.
    rewrite Hring, Hdl. change (FifoBuffer.buffer_length_ f') with (FifoBuffer.buffer_length_ f).
    replace (FifoBuffer.data_length_ f + Z.to_nat n + Z.to_nat (x - (nxt + n)))%nat
      with (FifoBuffer.data_length_ f + Z.to_nat (x - nxt))%nat by lia. done.
Qed.

(** Writing a part of the stream in its place. *)
Lemma write_window D f nxt seq len : buffer_ok f -> window_ok D f nxt -> 0 <= nxt <= seq -> 0 < len ->
  seq + len <= Z.of_nat (length P) ->
  seq + len - nxt <= Z.of_nat (FifoBuffer.buffer_length_ f - FifoBuffer.data_length_ f) ->
  exists m f', FifoBuffer.WriteOffset f (slice P seq len) (Z.to_nat (seq - nxt)) = (FifoBuffer.SR_SUCCESS, m, f') /\
    buffer_ok f' /\ window_ok D f' nxt /\ held f' nxt seq (seq + len) /\
    (forall a b, held f nxt a b -> held f' nxt a b).
Proof.
  intros [Hwf Hop Hcap] [Hc Hw] Hseq Hlen Hend Hroom. pose proof Hwf as [W1 W2 W3 W4].
  pose proof (FifoBuffer.WriteOffset_ring f (slice P seq len) (Z.to_nat (seq - nxt)) Hwf) as HR.
  unfold FifoBuffer.WriteOffset. destruct (FifoBuffer.WriteOffsetLocked _ _ _) as [[r m] f'].
  rewrite bool_decide_eq_false_2 in HR by (by rewrite Hop). rewrite (proj2 (Nat.leb_gt _ _)) in HR by lia.
  destruct HR as (-> & Hm & Hwf' & Hring & Hst & Hbl & Hdl & _).
  assert (Hsl : length (slice P seq len) = Z.to_nat len) by (apply length_slice; lia).
  rewrite take_ge in Hring by (rewrite Hsl; lia). pose proof (FifoBuffer.length_ring f Hwf) as Lr.
  set (pos := (FifoBuffer.data_length_ f + Z.to_nat (seq - nxt))%nat) in *.
  assert (Hlk : forall i, (i < FifoBuffer.buffer_length_ f)%nat -> FifoBuffer.ring f' !! i =
    if (pos <=? i)%nat && (i <? pos + Z.to_nat len)%nat then P !! (Z.to_nat seq + (i - pos))%nat
    else FifoBuffer.ring f !! i).
  { intros i Hi. rewrite Hring, FifoBuffer.lookup_mem_write by (rewrite Hsl; lia). rewrite Hsl.
    destruct (Nat.leb_spec pos i), (Nat.ltb_spec i (pos + Z.to_nat len)); cbn [andb]; try done.
    unfold slice, mem_read. rewrite lookup_take_lt, lookup_drop by lia. done. }
  exists m, f'. split; [done|]. split; [split; [done|by rewrite Hst|by rewrite Hbl]|]. split_and!.
  - split; [done|]. rewrite <- Hw. f_equal. unfold FifoBuffer.contents. rewrite Hdl, Hring.
    unfold mem_write. rewrite take_app_le by (rewrite length_take; lia). rewrite take_take. f_equal. lia.
  - intros x Hx Hnx. cbv zeta. rewrite Hdl, Hbl. split; [lia|]. rewrite Hlk by lia.
    rewrite (proj2 (Nat.leb_le _ _)), (proj2 (Nat.ltb_lt _ _)) by lia. cbn [andb]. f_equal. lia.
  - intros a b Hab x Hx Hnx. destruct (Hab x Hx Hnx) as [Hi He]. cbv zeta in *. rewrite Hdl, Hbl.
    split; [done|]. rewrite Hlk by done.
    destruct (Nat.leb_spec pos (FifoBuffer.data_length_ f + Z.to_nat (x - nxt))),
      (Nat.ltb_spec (FifoBuffer.data_length_ f + Z.to_nat (x - nxt)) (pos + Z.to_nat len)); cbn [andb]; try done.
    f_equal. lia.
Qed.

(** The application reads. *)
Lemma read_window D f nxt n : buffer_ok f -> window_ok D f nxt ->
  exists r d ev f', FifoBuffer.Read f n = (r, d, ev, f') /\ buffer_ok f' /\ window_ok (D ++ d) f' nxt /\
    d = take n (FifoBuffer.contents f) /\
    (forall a b, held f nxt a b -> held f' nxt a b) /\
    (if (FifoBuffer.data_length_ f =? 0)%nat then r = FifoBuffer.SR_BLOCK /\ f' = f else r = FifoBuffer.SR_SUCCESS).
Proof.
  intros [Hwf Hop Hcap] [Hc Hw]. pose proof Hwf as [W1 W2 W3 W4].
  destruct (FifoBuffer.Read_contents f n Hwf) as (r & d & ev & f' & E & Hwf' & Hst & Hbl & Hd & Hct & Hdl & Hring & Hr);
    [by rewrite Hop|].
  exists r, d, ev, f'. split; [done|]. split; [split; [done|by rewrite Hst|by rewrite Hbl]|].
  pose proof (FifoBuffer.length_ring f Hwf) as Lr.
  assert (Ld : (length d <= FifoBuffer.data_length_ f)%nat)
    by (rewrite Hd, length_take, FifoBuffer.fifo_length_contents by done; lia).
  split_and!; try done.
  - split; [done|]. by rewrite Hct, <- app_assoc, Hd, take_drop.
  - intros a b Hab x Hx Hnx. destruct (Hab x Hx Hnx) as [Hi He]. cbv zeta in *. rewrite Hdl, Hbl.
    split; [lia|]. rewrite Hring, lookup_app_l by (rewrite length_drop; lia).
    rewrite lookup_drop, <- He. f_equal. lia.
Qed.
End Window.

(** ** The incoming half of the state *)

Record receiving (P : bytes) (c : Z) (D : bytes) (s : t) : Prop := {
  rv_buf : buffer_ok (m_rbuf s);
  rv_nxt : 0 <= m_rcv_nxt s <= Z.of_nat (length P) /\ Z.of_nat (length P) < 2 ^ 32;
  rv_connect : 0 <= c <= 4;
  rv_scale : 0 <= m_rwnd_scale s <= 16;
  rv_prefix : exists n, D ++ FifoBuffer.contents (m_rbuf s) = take n (app_stream P c);
  rv_sync : m_shutdown s = SD_NONE ->
    (m_rcv_nxt s = 0 /\ D = [] /\ FifoBuffer.contents (m_rbuf s) = [] /\ m_rlist s = []) \/
    (window_ok P c D (m_rbuf s) (m_rcv_nxt s) /\ Forall (saved_ok P (m_rbuf s) (m_rcv_nxt s)) (m_rlist s));
}.

(** Only the incoming half changed, and not its window scale. *)
Definition incoming (s s' : t) : Prop :=
  exists i, s' = with_inc i s /\ inc_rwnd_scale i = m_rwnd_scale s.
Lemma incoming_trans s s' s'' : incoming s s' -> incoming s' s'' -> incoming s s''.
Proof. intros (i & -> & Hi) (j & -> & Hj). exists j. split; [done|]. by rewrite Hj. Qed.
Lemma incoming_refl s : incoming s s.
Proof. exists (inc s). by destruct_state s. Qed.

(** What is left of a segment of the stream after the adjustment. *)
Definition fitted (P : bytes) (c : Z) (s : t) (seg : Segment) : Prop :=
  seg_len seg = 0 \/
  m_rcv_nxt s <= seg_seq seg /\ 0 < seg_len seg /\ seg_seq seg + seg_len seg <= Z.of_nat (length P) /\
  seg_seq seg + seg_len seg - m_rcv_nxt s <= WriteRemaining (m_rbuf s) /\
  take (Z.to_nat (seg_len seg)) (seg_data seg) = slice P (seg_seq seg) (seg_len seg).

Lemma drop_slice P seq len n : 0 <= seq -> 0 <= n <= len ->
  drop (Z.to_nat n) (slice P seq len) = slice P (seq + n) (len - n).
Proof.
  intros. unfold slice, mem_read. rewrite skipn_firstn_comm, drop_drop. f_equal; [lia|]. f_equal. lia.
Qed.

Lemma take_all_slice P seq len : 0 <= seq -> 0 <= len -> seq + len <= Z.of_nat (length P) ->
  take (Z.to_nat len) (slice P seq len) = slice P seq len.
Proof. intros. apply take_ge. rewrite length_slice by done. lia. Qed.

Lemma fit_segment_spec P c seg s : segment_of P c seg -> 0 <= m_rcv_nxt s -> Z.of_nat (length P) < 2 ^ 32 ->
  0 <= WriteRemaining (m_rbuf s) ->
  fitted P c s (fit_segment seg s) /\ seg_flags (fit_segment seg s) = seg_flags seg /\
  (seg_len seg <> 0 -> seg_seq seg + seg_len seg <= m_rcv_nxt s -> seg_len (fit_segment seg s) = 0) /\
  (m_rcv_nxt s <= seg_seq seg -> seg_seq (fit_segment seg s) = seg_seq seg) /\
  (seg_len seg = 0 -> seg_len (fit_segment seg s) = 0).
Proof.
  intros Hseg Hn HP Hav. unfold fit_segment.
  set (seg1 := if seg_seq seg <? m_rcv_nxt s then _ else seg).
  assert (H1 : seg_flags seg1 = seg_flags seg /\ (m_rcv_nxt s <= seg_seq seg -> seg1 = seg) /\
    (seg_len seg1 = 0 \/ m_rcv_nxt s <= seg_seq seg1 /\ 0 < seg_len seg1 /\
       seg_seq seg1 + seg_len seg1 <= Z.of_nat (length P) /\ seg_data seg1 = slice P (seg_seq seg1) (seg_len seg1)) /\
    (seg_len seg <> 0 -> seg_seq seg + seg_len seg <= m_rcv_nxt s -> seg_len seg1 = 0) /\
    (seg_len seg = 0 -> seg_len seg1 = 0)).
  { unfold seg1. destruct (Z.ltb_spec (seg_seq seg) (m_rcv_nxt s)) as [Hlt|Hge].
    - destruct (Z.ltb_spec (m_rcv_nxt s - seg_seq seg) (seg_len seg)); cbn [with_data seg_flags seg_len seg_seq seg_data].
      + destruct Hseg as [?|(? & ? & ? & Hd & _)]; [lia|]. split_and!; [done|lia| |lia|lia].
        right. rewrite Hd, drop_slice by lia. split_and!; [lia..|]. done.
      + split_and!; [done|lia|by left|done|done].
    - split_and!; [done|done| | |]; destruct Hseg as [?|(? & ? & ? & ? & _)]; [by left|by right|done|lia|done|lia]. }
  clearbody seg1. destruct H1 as (Hf & Heq & Hfit & Hz & Hz0).
  set (last := u32 _). assert (Hlast : 0 <= last) by (apply (wrap_range 32); lia).
  destruct (Z.ltb_spec (WriteRemaining (m_rbuf s)) last) as [Hlt|Hge].
  - cbn [with_data seg_flags seg_len seg_seq seg_data]. split_and!; [|done| |by intros ->%Heq|].
    + destruct (Z.ltb_spec (last - WriteRemaining (m_rbuf s)) (seg_len seg1)) as [Hl|Hl]; [|by left].
      destruct Hfit as [?|(? & ? & ? & Hd)]; [lia|right].
      assert (Hu : last = seg_seq seg1 + seg_len seg1 - m_rcv_nxt s) by (apply wrap_small; unfold is_u; lia).
      cbn [with_data seg_flags seg_len seg_seq seg_data]. rewrite Hd.
      split_and!; try lia. rewrite <- slice_take by lia. done.
    + intros Hne Hend. rewrite Hz by done. destruct (Z.ltb_spec (last - WriteRemaining (m_rbuf s)) 0); lia.
    + intros E. rewrite Hz0 by done. destruct (Z.ltb_spec (last - WriteRemaining (m_rbuf s)) 0); lia.
  - split_and!; [|done|done|by intros ->%Heq|done]. destruct Hfit as [?|(? & ? & ? & Hd)]; [by left|right].
    assert (Hu : last = seg_seq seg1 + seg_len seg1 - m_rcv_nxt s) by (apply wrap_small; unfold is_u; lia).
    split_and!; try lia. rewrite Hd. apply take_all_slice; lia.
Qed.

(** A segment that fits as it is. *)
Lemma fit_exact seg s : m_rcv_nxt s <= seg_seq seg -> 0 <= seg_len seg ->
  seg_seq seg + seg_len seg - m_rcv_nxt s <= WriteRemaining (m_rbuf s) ->
  seg_seq seg + seg_len seg - m_rcv_nxt s < 2 ^ 32 -> fit_segment seg s = seg.
Proof.
  intros H1 H2 H3 H4. unfold fit_segment. rewrite (proj2 (Z.ltb_ge (seg_seq seg) (m_rcv_nxt s))) by done.
  assert (Hu : u32 (seg_seq seg + seg_len seg - m_rcv_nxt s) = seg_seq seg + seg_len seg - m_rcv_nxt s)
    by (apply wrap_small; unfold is_u; lia).
  by rewrite Hu, (proj2 (Z.ltb_ge _ _)) by done.
Qed.

Lemma advance_spec P c D n s : buffer_ok (m_rbuf s) -> window_ok P c D (m_rbuf s) (m_rcv_nxt s) ->
  0 <= c -> 0 <= n -> m_rcv_nxt s + n <= Z.of_nat (length P) -> Z.of_nat (length P) < 2 ^ 32 ->
  held P (m_rbuf s) (m_rcv_nxt s) (m_rcv_nxt s) (m_rcv_nxt s + n) ->
  exists s', advance n s = Some s' /\ incoming s s' /\ buffer_ok (m_rbuf s') /\
    window_ok P c D (m_rbuf s') (m_rcv_nxt s') /\ m_rcv_nxt s' = m_rcv_nxt s + n /\
    m_rwnd_scale s' = m_rwnd_scale s /\ m_rlist s' = m_rlist s /\
    (forall a b, held P (m_rbuf s) (m_rcv_nxt s) a b -> held P (m_rbuf s') (m_rcv_nxt s') a b).
Proof.
  intros Hb Hw Hc Hn Hend HP Hh.
  destruct (consume_window P c D (m_rbuf s) (m_rcv_nxt s) n Hb Hw Hc Hn Hend Hh) as (f' & E & Hb' & Hw' & Hk).
  unfold advance. rewrite E. eexists. split; [reflexivity|].
  assert (Hu : u32 (m_rcv_nxt s + n) = m_rcv_nxt s + n) by (apply wrap_small; unfold is_u; destruct Hw; lia).
  set (s' := set_rcv_wnd _ _). assert (En : m_rcv_nxt s' = m_rcv_nxt s + n) by (rewrite <- Hu; reflexivity).
  rewrite En. split_and!; try done. by eexists.
Qed.

Lemma saved_ok_held P f f' nxt nxt' r : saved_ok P f nxt r ->
  (forall a b, held P f nxt a b -> held P f' nxt' a b) -> saved_ok P f' nxt' r.
Proof. intros (? & ? & ? & ?) Hk. split_and!; auto. Qed.

Lemma Forall_saved_held P f f' nxt nxt' l : Forall (saved_ok P f nxt) l ->
  (forall a b, held P f nxt a b -> held P f' nxt' a b) -> Forall (saved_ok P f' nxt') l.
Proof. intros Hl Hk. eapply Forall_impl; [exact Hl|]. intros r Hr. by eapply saved_ok_held. Qed.

Lemma recover_saved_spec P c D l sflags s : buffer_ok (m_rbuf s) ->
  window_ok P c D (m_rbuf s) (m_rcv_nxt s) -> 0 <= c -> Z.of_nat (length P) < 2 ^ 32 ->
  0 <= m_rcv_nxt s <= Z.of_nat (length P) ->
  Forall (saved_ok P (m_rbuf s) (m_rcv_nxt s)) l ->
  exists fl s', recover_saved l sflags s = Some (fl, s') /\ incoming s s' /\ buffer_ok (m_rbuf s') /\
    window_ok P c D (m_rbuf s') (m_rcv_nxt s') /\ m_rcv_nxt s <= m_rcv_nxt s' <= Z.of_nat (length P) /\
    m_rwnd_scale s' = m_rwnd_scale s /\ Forall (saved_ok P (m_rbuf s') (m_rcv_nxt s')) (m_rlist s').
Proof.
  revert sflags s; induction l as [|r l IH]; intros sflags s Hb Hw Hc HP Hn Hl; cbn [recover_saved].
  { eexists _, _. split; [reflexivity|]. split_and!; try done; [by eexists|apply Hn]. }
  inversion Hl as [|? ? Hr Hl']; subst. destruct (Z.leb_spec (r_seq r) (m_rcv_nxt s)) as [Hle|Hgt].
  2: { eexists _, _. split; [reflexivity|]. split_and!; try done; [by eexists|apply Hn]. }
  destruct Hr as (H1 & H2 & H3 & Hh).
  assert (Hu : u32 (r_seq r + r_len r) = r_seq r + r_len r) by (apply wrap_small; unfold is_u; lia). rewrite Hu.
  destruct (Z.ltb_spec (m_rcv_nxt s) (r_seq r + r_len r)) as [Hlt|Hge]; [|by apply IH].
  assert (Hu2 : u32 (r_seq r + r_len r) - m_rcv_nxt s = r_seq r + r_len r - m_rcv_nxt s) by lia.
  destruct (advance_spec P c D (r_seq r + r_len r - m_rcv_nxt s) s Hb Hw Hc ltac:(lia) ltac:(lia) HP)
    as (s1 & -> & Hi1 & Hb1 & Hw1 & Hn1 & Hs1 & _ & Hk).
  { intros x Hx Hnx. apply Hh; [lia|done]. }
  destruct (IH sfImmediateAck s1 Hb1 Hw1 Hc HP) as (fl & s2 & -> & Hi2 & Hb2 & Hw2 & Hn2 & Hs2 & Hl2); [lia| |].
  { by eapply Forall_saved_held. }
  exists fl, s2. split_and!; try done; [by apply (incoming_trans _ s1)|lia|lia|congruence].
Qed.

Lemma Forall_insert_saved Pr r l : Pr r -> Forall Pr l -> Forall Pr (insert_saved r l).
Proof.
  intros Hr. induction 1 as [|x l Hx Hl IH]; cbn; [by apply List.Forall_cons|].
  destruct (_ <? _); repeat apply List.Forall_cons; done.
Qed.

(** The data of a fitted segment: control data advances the stream without
    being stored, other data arrives after the connect message. *)
Definition arrival_ok (c : Z) (s : t) (seg : Segment) : Prop :=
  if is_flag (seg_flags seg) FLAG_CTL
  then m_shutdown s = SD_NONE -> seg_seq seg = m_rcv_nxt s -> m_rcv_nxt s = 0 /\ seg_len seg = c
  else c <= m_rcv_nxt s.

Lemma receive_data_spec P c D seg sflags s : receiving P c D s -> fitted P c s seg ->
  (seg_len seg <> 0 -> arrival_ok c s seg) ->
  exists fl new s', receive_data seg sflags s = Some (fl, new, s') /\ incoming s s' /\ receiving P c D s'.
Proof.
  intros [Hb Hn Hc Hsc Hp Hsync] Hfit Harr. unfold receive_data.
  destruct Hfit as [H0|(F1 & F2 & F3 & F4 & F5)].
  { rewrite H0. cbn. exists sflags, false, s. split_and!; try done. apply incoming_refl. }
  rewrite (proj2 (Z.leb_gt _ _)) by done. specialize (Harr ltac:(lia)). unfold arrival_ok in Harr.
  destruct (is_flag (seg_flags seg) FLAG_CTL || negb (bool_decide (m_shutdown s = SD_NONE))) eqn:Hig.
  - destruct (Z.eqb_spec (seg_seq seg) (m_rcv_nxt s)) as [Hs|Hs];
      [|exists sflags, false, s; split_and!; try done; apply incoming_refl].
    eexists _, _, _. split; [reflexivity|]. split; [by eexists|].
    assert (Hu : u32 (m_rcv_nxt s + seg_len seg) = m_rcv_nxt s + seg_len seg)
      by (apply wrap_small; unfold is_u; lia). rewrite Hu.
    split; try assumption; [change (0 <= m_rcv_nxt s + seg_len seg <= Z.of_nat (length P) /\ Z.of_nat (length P) < 2 ^ 32); lia|].
    intros Hsd. change (m_shutdown s = SD_NONE) in Hsd. rewrite bool_decide_eq_true_2, orb_false_r in Hig by done.
    rewrite Hig in Harr. destruct (Harr Hsd Hs) as [Hz Hl]. right.
    change (m_rlist (set_rcv_nxt ?v s)) with (m_rlist s). change (m_rbuf (set_rcv_nxt ?v s)) with (m_rbuf s).
    change (m_rcv_nxt (set_rcv_nxt ?v s)) with v. rewrite Hz, Hl.
    destruct (Hsync Hsd) as [(_ & -> & Hct & ->)|[[Hw1 Hw2] Hsv]]; [|lia].
    split; [|done]. split; [lia|]. rewrite Hct. replace (Z.to_nat (0 + c - c)) with 0%nat by lia. by rewrite take_0.
  - apply orb_false_iff in Hig as [Hctl Hsd]. rewrite Hctl in Harr. bool_simpl.
    apply bool_decide_eq_true_1 in Hsd.
    assert (Hwin : window_ok P c D (m_rbuf s) (m_rcv_nxt s) /\ Forall (saved_ok P (m_rbuf s) (m_rcv_nxt s)) (m_rlist s)).
    { destruct (Hsync Hsd) as [(Hz & -> & Hct & ->)|?]; [|done]. split; [|done]. split; [done|].
      rewrite Hct. replace (Z.to_nat (m_rcv_nxt s - c)) with 0%nat by lia. by rewrite take_0. }
    destruct Hwin as [Hw Hsv]. rewrite (free_space _ Hb) in F4.
    assert (Hu : u32 (seg_seq seg - m_rcv_nxt s) = seg_seq seg - m_rcv_nxt s) by (apply wrap_small; unfold is_u; lia).
    rewrite F5, Hu.
    destruct (write_window P c D (m_rbuf s) (m_rcv_nxt s) (seg_seq seg) (seg_len seg) Hb Hw)
      as (m & f' & -> & Hb' & Hw' & Hh' & Hk'); [lia..|].
    pose proof (Forall_saved_held _ _ _ _ _ _ Hsv Hk') as Hsv'. set (s1 := set_rbuf f' s).
    change (m_rcv_nxt s1) with (m_rcv_nxt s). change (m_rlist s1) with (m_rlist s).
    destruct (Z.eqb_spec (seg_seq seg) (m_rcv_nxt s)) as [Hs|Hs].
    + rewrite Hs in Hh'.
      destruct (advance_spec P c D (seg_len seg) s1 Hb' Hw') as (s2 & -> & Hi2 & Hb2 & Hw2 & Hn2 & Hsc2 & Hrl2 & Hk2);
        [lia|lia|change (m_rcv_nxt s + seg_len seg <= Z.of_nat (length P)); lia|apply Hn|exact Hh'|].
      destruct (recover_saved_spec P c D (m_rlist s2) sflags s2 Hb2 Hw2) as (fl & s3 & -> & Hi3 & Hb3 & Hw3 & Hn3 & Hsc3 & Hsv3);
        [lia|apply Hn|rewrite Hn2; change (m_rcv_nxt s1) with (m_rcv_nxt s); lia| |].
      { rewrite Hrl2. by eapply Forall_saved_held. }
      exists fl, true, s3. split; [done|].
      assert (Hi : incoming s s3) by (apply (incoming_trans _ s1); [by eexists|by apply (incoming_trans _ s2)]).
      split; [done|]. rewrite Hn2 in Hn3. change (m_rcv_nxt s1) with (m_rcv_nxt s) in Hn3.
      split; [done|lia|done| | |intros _; by right].
      * rewrite Hsc3, Hsc2. exact Hsc.
      * destruct Hw3 as [_ ->]. by eexists.
    + eexists _, _, _. split; [reflexivity|]. split; [by eexists|]. split; [done|exact Hn|done|exact Hsc| |intros _; right].
      * destruct Hw' as [_ Hw']. eexists. exact Hw'.
      * split; [done|]. apply (Forall_insert_saved (saved_ok P f' (m_rcv_nxt s))); [|done].
        split_and!; try done; cbn; lia.
Qed.

Lemma receiving_read P c D s n : receiving P c D s ->
  exists r d ev f', FifoBuffer.Read (m_rbuf s) n = (r, d, ev, f') /\ receiving P c (D ++ d) (set_rbuf f' s) /\
    (r = FifoBuffer.SR_SUCCESS \/ r = FifoBuffer.SR_BLOCK /\ d = []) /\ Z.of_nat (length d) < 2 ^ 31.
Proof.
  intros [Hb Hn Hc Hsc Hp Hsync]. pose proof Hb as [Hwf Hop Hcap].
  destruct (FifoBuffer.Read_contents (m_rbuf s) n Hwf)
    as (r & d & ev & f' & E & Hwf' & Hst & Hbl & Hd & Hct & Hdl & Hring & Hr); [by rewrite Hop|].
  exists r, d, ev, f'. split; [done|].
  assert (Hb' : buffer_ok f') by (split; [done|by rewrite Hst|by rewrite Hbl]).
  assert (Hp' : (D ++ d) ++ FifoBuffer.contents f' = D ++ FifoBuffer.contents (m_rbuf s))
    by (by rewrite Hct, Hd, <- app_assoc, take_drop).
  split; [split; try assumption|split].
  - change (m_rbuf (set_rbuf f' s)) with f'. by rewrite Hp'.
  - intros Hsd. destruct (Hsync Hsd) as [(Hz & -> & Hc0 & Hl)|[Hw Hsv]].
    + left. rewrite Hc0, take_nil in Hd. subst d. split_and!; try done. by rewrite Hc0, drop_nil in Hct.
    + right. destruct (read_window P c D (m_rbuf s) (m_rcv_nxt s) n Hb Hw) as (r2 & d2 & ev2 & f2 & E2 & _ & Hw2 & _ & Hk & _).
      rewrite E in E2. injection E2 as <- <- <- <-. split; [done|]. by eapply Forall_saved_held.
  - destruct (_ =? 0)%nat eqn:H0; [|by left]. right. destruct Hr as [-> ->]. split; [done|]. bool_simpl.
    rewrite Hd. assert (FifoBuffer.contents (m_rbuf s) = []) as ->; [|apply take_nil].
    apply length_zero_iff_nil. by rewrite FifoBuffer.fifo_length_contents.
  - rewrite Hd, length_take, FifoBuffer.fifo_length_contents by done. destruct Hwf. lia.
Qed.

End PseudoTcpRecv.
