(* ===== verification/PseudoTcpSafety.v ===== *)
(** * PseudoTcp: runs of calls, safety and delivery

    The operations of the interface as a type [op] with [exec]; the invariant
    of a whole connection end, the caller's and the peer's obligations
    ([guard]), and the theorems about arbitrary runs: no undefined behaviour
    and termination of every call, packets that carry the stream, delivery of
    a prefix of the peer's stream, and their composition for two ends joined
    by a network that loses, duplicates and reorders packets. *)

From S2P Require Import Prelude ByteOrder ByteBuffer FifoBuffer PseudoTcp PseudoTcpSend PseudoTcpAck.
From S2P Require Import PseudoTcpRecv.
Import ByteOrder PseudoTcp PseudoTcpSend PseudoTcpAck PseudoTcpRecv.
Open Scope jingle_scope.

Module PseudoTcpSafety.

Inductive op :=
  | OpConnect | OpRecv (len : nat) | OpSend (data : bytes) | OpClose (force : bool)
  | OpNotifyMTU (mtu : Z) | OpNotifyClock (now : Z) | OpNotifyPacket (buffer : bytes)
  | OpSetOption (o : Option) (value : Z).

Section Host.
Context `{HM : Machine} `{HN : IPseudoTcpNotify}.

(** A call: its return value and the bytes it hands out. *)
Definition exec (o : op) (s : t) : option (Z * bytes * t) :=
  match o with
  | OpConnect => let? (r, s) := Connect s in Some (r, [], s)
  | OpRecv n => Recv n s
  | OpSend d => let? (r, s) := Send d s in Some (r, [], s)
  | OpClose force => Some (0, [], Close force s)
  | OpNotifyMTU mtu => Some (0, [], NotifyMTU mtu s)
  | OpNotifyClock now => let? s := NotifyClock now s in Some (0, [], s)
  | OpNotifyPacket b => let? (r, s) := NotifyPacket b s in Some (if r : bool then 1 else 0, [], s)
  | OpSetOption o v => let? s := SetOption o v s in Some (0, [], s)
  end.

Fixpoint run (os : list op) (s : t) : option (list (Z * bytes) * t) :=
  match os with
  | [] => Some ([], s)
  | o :: os =>
      let? (r, d, s) := exec o s in
      let? (rs, s) := run os s in
      Some ((r, d) :: rs, s)
  end.

(** What the application handed over, and what it got. *)
Definition accepted (o : op) (r : Z) : bytes :=
  match o with OpSend d => if 0 <=? r then take (Z.to_nat r) d else [] | _ => [] end.
Fixpoint sent_stream (os : list op) (rs : list (Z * bytes)) : bytes :=
  match os, rs with
  | o :: os, (r, _) :: rs => accepted o r ++ sent_stream os rs
  | _, _ => []
  end.
Definition received_stream (rs : list (Z * bytes)) : bytes := concat (map snd rs).

(** ** The invariant of one end

    The peer queued the connect message [connect_message pk] and then the
    application data [PS]. *)

Definition scale_ok (k : option Z) : Prop := match k with Some v => 0 <= v <= 16 | None => True end.

Section Peer.
Variables (pk : option Z) (PS : bytes).
Definition P : bytes := connect_message pk ++ PS.
Definition pc : Z := Z.of_nat (length (connect_message pk)).
Hypothesis Hpk : scale_ok pk.
Hypothesis HP : Z.of_nat (length P) < 2 ^ 32.

(** What may already be known of this end's own connect message. *)
Variable own : option (option Z).

(** [Q] is what this end queued, [S] the application's part of it, and [D]
    what the application received. *)
Record conn_ok (Q : bytes) (c : Z) (S D : bytes) (s : t) : Prop := {
  c_send : sending Q c s;
  c_recv : receiving P pc D s;
  c_mtu : mtu_ok (m_mtu_advise s);
  c_state :
    (Q = [] /\ 0 < c /\ S = [] /\ (m_state s = TCP_LISTEN \/ m_state s = TCP_CLOSED) /\
     (m_state s = TCP_LISTEN -> m_rcv_nxt s = 0 /\ FifoBuffer.contents (m_rbuf s) = [] /\
        (4 <= FifoBuffer.buffer_length_ (m_sbuf s))%nat) /\ own = None) \/
    (m_state s <> TCP_LISTEN /\ exists k, scale_ok k /\ Q = connect_message k ++ S /\
       c = Z.of_nat (length (connect_message k)) /\ k = own_scale s /\ (own = None \/ own = Some k));
}.

Lemma pc_range : 1 <= pc <= 4.
Proof. unfold pc. destruct pk; cbn; lia. Qed.

Lemma receiving_same D s s' : receiving P pc D s -> inc s' = inc s -> m_shutdown s' = m_shutdown s ->
  receiving P pc D s'.
Proof.
  intros [] Hi Hs. unfold m_rbuf, m_rcv_nxt, m_rwnd_scale, m_rlist in *.
  split; unfold m_rbuf, m_rcv_nxt, m_rwnd_scale, m_rlist; rewrite ?Hi, ?Hs; assumption.
Qed.

(** Sending operations. *)
Lemma kept_own s s' : kept s s' -> own_scale s' = own_scale s.
Proof.
  intros [Ki _ _ _ _ _ Ko]. unfold own_scale, m_support_wnd_scale, m_rwnd_scale. by rewrite Ki, Ko.
Qed.

Lemma conn_kept Q c S D s s' : conn_ok Q c S D s -> kept s s' -> sending Q c s' -> conn_ok Q c S D s'.
Proof.
  intros [Hs Hr Hm Hst] [Ki Ks Kc Km Kst Kcap Ko] Hs'. split; [done|by eapply receiving_same|by rewrite Km|].
  destruct Hst as [(? & ? & ? & Hl & Hl' & Ho)|(Hne & Hk)].
  - left. split_and!; try done; [destruct Kst as [-> | ->]; auto|].
    intros Hli. destruct Kst as [E|E]; [|congruence]. rewrite E in Hli.
    unfold m_rcv_nxt, m_rbuf in *. rewrite Ki, Kcap. by apply Hl'.
  - right. split; [destruct Kst as [-> | ->]; done|]. rewrite (kept_own s s'); [done|by split].
Qed.

Lemma slist_nil c s : sending [] c s -> 0 < c -> m_slist s = [].
Proof.
  intros [[[_ _ _ _ Hr Hch] _ _ _] _] Hc. destruct (m_slist s) as [|g l]; [done|]. cbn in Hch, Hr.
  destruct Hch as (Hs & Hl & _ & (_ & _ & Hok) & Hrest). apply chain_le in Hrest.
  destruct (s_bCtrl g); lia.
Qed.

Lemma conn_queue_connect c D s st : conn_ok [] c [] D s -> m_state s = TCP_LISTEN -> st <> TCP_LISTEN ->
  exists s' k, queueConnectMessage (set_state st s) = Some s' /\ kept (set_state st s) s' /\ m_state s' = st /\
    conn_ok (connect_message k) (Z.of_nat (length (connect_message k))) [] D s' /\
    m_snd_una s = 0 /\ m_snd_nxt s = 0 /\ m_snd_una s' = 0 /\ m_snd_nxt s' = 0.
Proof.
  intros [Hs Hr Hm Hst] Hl Hne.
  destruct Hst as [(_ & Hc & _ & _ & Hcap & Ho)|(Hn & _)]; [|done]. destruct (Hcap Hl) as (Hn0 & Hct & Hbl).
  assert (Hsc : 0 <= m_rwnd_scale s <= 16) by (by destruct Hr).
  set (s1 := set_state st s).
  assert (Hs1 : sending [] c s1) by (destruct Hs as [[] ?]; by split; [split|]).
  destruct (queueConnectMessage_spec c s1 Hs1 (slist_nil _ _ Hs Hc)) as (s' & E & Hs' & Hk & Hz1 & Hz2 & Hz3 & Hz4);
    [split; [apply Hsc|change (m_rwnd_scale s < 256); lia]|exact Hbl|].
  exists s', (own_scale s1).
  assert (Est : m_state s' = st).
  { clear -E. unfold queueConnectMessage, queue in E. set (buf := if m_support_wnd_scale s1 then _ else _) in E.
    clearbody buf. set (s2 := set_snd_wnd _ s1) in E. assert (E2 : m_state s2 = st) by done. clearbody s2.
    destruct (if WriteRemaining (m_sbuf s2) <? _ then _ else _); [|done].
    match type of E with context [FifoBuffer.Write ?a ?b] => destruct (FifoBuffer.Write a b) as [[[? ?] ?] ?] end.
    injection E as <-. exact E2. }
  split_and!; try done. pose proof Hk as [Ki Ks Kc Km _ _ _].
  split; [done|eapply receiving_same; [exact Hr|done|done]|by rewrite Km|].
  right. rewrite Est. split; [done|]. exists (own_scale s1). rewrite app_nil_r. split_and!; try done; [|by rewrite (kept_own _ _ Hk)|by left].
  unfold own_scale. destruct (m_support_wnd_scale s1); [|done]. change (0 <= m_rwnd_scale s <= 16). lia.
Qed.

(** What the peer owes: segments of its stream, the connect message in one
    piece, data only after it, acknowledgements that fall between segments,
    and window scaling if this end uses it. *)
Record segment_guard (s : t) (seg : Segment) : Prop := {
  sg_stream : segment_of P pc seg;
  sg_connect : seg_len seg <> 0 -> is_flag (seg_flags seg) FLAG_CTL = true ->
    seg_seq seg = 0 /\ seg_len seg = pc /\ (pk = None -> m_rwnd_scale s = 0);
  sg_data : seg_len seg <> 0 -> is_flag (seg_flags seg) FLAG_CTL = false -> pc <= m_rcv_nxt s;
  sg_ack : m_snd_una s < seg_ack seg <= m_snd_nxt s -> ack_boundary s (seg_ack seg);
}.

Lemma segment_guard_same s s' seg : segment_guard s seg -> m_rcv_nxt s' = m_rcv_nxt s ->
  m_rwnd_scale s' = m_rwnd_scale s -> m_snd_una s' = m_snd_una s -> m_snd_nxt s' = m_snd_nxt s ->
  (m_slist s' = m_slist s \/ m_snd_una s = m_snd_nxt s) -> segment_guard s' seg.
Proof.
  intros [H1 H2 H3 H4] E1 E2 E3 E4 E5. split; try done; rewrite ?E1, ?E2; try done. intros Hack.
  rewrite E3, E4 in Hack. destruct E5 as [E5|E5]; [|lia]. unfold ack_boundary. rewrite E4, E5. by apply H4.
Qed.
Definition conn (S D : bytes) (s : t) : Prop := exists Q c, conn_ok Q c S D s.

Lemma slice_connect : slice P 0 pc = connect_message pk.
Proof.
  unfold slice, P, pc, mem_read. rewrite Nat2Z.id, drop_0. apply take_app_length.
Qed.

Lemma app_stream_P : app_stream P pc = PS.
Proof. unfold app_stream, P, pc. rewrite Nat2Z.id. apply drop_app_length. Qed.

(** The peer's connect message. *)
Lemma process_control_spec Q c S D seg s : conn_ok Q c S D s -> segment_guard s seg -> 0 <= seg_len seg ->
  exists ok b s' Q' c', process_control seg s = Some (ok, b, s') /\ conn_ok Q' c' S D s' /\
    (ok = true -> segment_guard s' seg /\
       (is_flag (seg_flags seg) FLAG_CTL = true -> seg_len seg <> 0 /\ m_state s' <> TCP_LISTEN)).
Proof.
  intros Hc Hg Hlen. unfold process_control.
  destruct (is_flag (seg_flags seg) FLAG_CTL) eqn:Hctl; cbn [negb].
  2: { exists true, false, s, Q, c. split_and!; try done. }
  destruct (Z.eqb_spec (seg_len seg) 0) as [H0|H0]; [by exists false, false, s, Q, c|].
  destruct (sg_connect _ _ Hg H0 Hctl) as (Hs0 & Hl & Hk).
  assert (Hdata : seg_data seg = connect_message pk).
  { destruct (sg_stream _ _ Hg) as [?|(_ & _ & _ & -> & _)]; [done|]. rewrite Hs0, Hl. apply slice_connect. }
  rewrite Hdata. change (connect_message pk !! 0%nat) with (Some CTL_CONNECT). cbn [Z.eqb CTL_CONNECT].
  assert (Hopt : take (Z.to_nat (seg_len seg - 1)) (drop 1 (connect_message pk)) = tail (connect_message pk)).
  { rewrite Hl. unfold pc. cbn [connect_message drop tail length]. apply take_ge. lia. }
  rewrite Hopt, parseOptions_spec; [|intros v ->; cbn in Hpk; split; lia|done].
  set (s1 := match pk with Some v => set_swnd_scale v s | None => s end).
  assert (Hs1 : conn_ok Q c S D s1).
  { unfold s1. destruct pk as [v|]; [|done]. destruct Hc as [Hs Hr Hm Hst].
    split; [apply set_swnd_scale_ok; [done|]; cbn in Hpk; lia|by destruct Hr; split|done|done]. }
  assert (Hg1 : segment_guard s1 seg).
  { apply (segment_guard_same s); try done; unfold s1; destruct pk; auto. }
  clearbody s1. clear Hc Hg Hk s.
  destruct (m_state s1) eqn:Est.
  - assert (HQ : Q = [] /\ S = []) by (destruct Hs1 as [_ _ _ [(? & _ & ? & _)|(? & _)]]; done).
    destruct HQ as [-> ->].
    destruct (conn_queue_connect c D s1 TCP_SYN_RECEIVED Hs1 Est) as (s2 & k & -> & Hk & Hst2 & Hc2 & Z1 & Z2 & Z3 & Z4); [done|].
    eexists true, true, _, _, _. split; [reflexivity|]. split; [exact Hc2|]. intros _. rewrite Hst2. split; [|done].
    apply (segment_guard_same s1); try done; [..|by rewrite Z1, Z3|by rewrite Z2, Z4|by right; rewrite Z1, Z2];
      destruct Hk as [Ki _ _ _ _ _ _]; unfold m_rcv_nxt, m_rwnd_scale; rewrite Ki; done.
  - eexists true, true, _, Q, c. split; [reflexivity|]. split.
    + destruct Hs1 as [Hs Hr Hm Hst]. set (s2 := set_state TCP_ESTABLISHED s1).
      assert (Hs2 : sending Q c s2) by (destruct Hs as [[] ?]; by split; [split|]).
      split; [apply log_ok; [by apply adjustMTU_ok|done]|by destruct Hr; split|exact Hm|].
      right. split; [done|]. by destruct Hst as [(_ & _ & _ & [?|?] & _)|(_ & ?)]; [congruence..|].
    + intros _. split; [|done]. by apply (segment_guard_same s1); auto.
  - exists true, true, s1, Q, c. split_and!; try done. intros _. by rewrite Est.
  - exists true, true, s1, Q, c. split_and!; try done. intros _. by rewrite Est.
  - exists true, true, s1, Q, c. split_and!; try done. intros _. by rewrite Est.
Qed.

(** Same incoming half and mode: only the sending half moved on. *)
Definition quiet (s s' : t) : Prop :=
  inc s' = inc s /\ m_shutdown s' = m_shutdown s /\ (m_state s' = TCP_LISTEN -> m_state s = TCP_LISTEN).

Lemma open_connection_spec Q c S D b s : conn_ok Q c S D s ->
  conn_ok Q c S D (open_connection b s) /\ quiet s (open_connection b s).
Proof.
  intros Hc. unfold open_connection, quiet. destruct (bool_decide _ && negb b) eqn:E; [|by split].
  apply andb_prop in E as [E _]. apply bool_decide_eq_true_1 in E. split; [|done].
  destruct Hc as [Hs Hr Hm Hst]. set (s2 := set_state TCP_ESTABLISHED s).
  assert (Hs2 : sending Q c s2) by (destruct Hs as [[] ?]; by split; [split|]).
  split; [apply log_ok; [by apply adjustMTU_ok|done]|by destruct Hr; split|exact Hm|].
  right. split; [done|]. by destruct Hst as [(_ & _ & _ & [?|?] & _)|(_ & ?)]; [congruence..|].
Qed.

Lemma conn_log Q c S D e s : conn_ok Q c S D s -> event_ok Q c e -> conn_ok Q c S D (log e s).
Proof. intros [Hs Hr Hm Hst] He. split; [by apply log_ok|by destruct Hr; split|done|done]. Qed.

Lemma notify_writeable_spec Q c S D s : conn_ok Q c S D s ->
  conn_ok Q c S D (notify_writeable s) /\ quiet s (notify_writeable s).
Proof.
  intros Hc. unfold notify_writeable, quiet. destruct (_ && _); [|by split]. split; [|done].
  apply conn_log; [|done]. destruct Hc as [Hs Hr Hm Hst].
  split; [by destruct Hs as [[] ?]; split; [split|]|by destruct Hr; split|done|done].
Qed.

Lemma notify_readable_spec Q c S D b s : conn_ok Q c S D s -> conn_ok Q c S D (notify_readable b s).
Proof.
  intros Hc. unfold notify_readable. destruct (_ && _); [|done].
  apply conn_log; [|done]. destruct Hc as [Hs Hr Hm Hst].
  split; [by destruct Hs as [[] ?]; split; [split|]|by destruct Hr; split|done|done].
Qed.

Lemma arrival_fitted D s seg : receiving P pc D s -> segment_of P pc seg ->
  (seg_len seg <> 0 -> is_flag (seg_flags seg) FLAG_CTL = true -> seg_seq seg = 0 /\ seg_len seg = pc) ->
  (seg_len seg <> 0 -> is_flag (seg_flags seg) FLAG_CTL = false -> pc <= m_rcv_nxt s) ->
  let seg' := fit_segment seg s in
  fitted P pc s seg' /\ (seg_len seg = 0 -> seg_len seg' = 0) /\ (seg_len seg' <> 0 -> arrival_ok pc s seg').
Proof.
  intros Hr Hseg Hctl Hdata seg'. pose proof Hr as [Hb Hn Hc Hsc Hp Hsync]. pose proof (free_space _ Hb) as Hav.
  destruct (fit_segment_spec P pc seg s Hseg) as (Hfit & Hfl & Hold & Hsq & Hz); [lia|lia|lia|].
  fold seg' in Hfit, Hfl, Hold, Hsq, Hz. split_and!; [done|done|]. intros Hne. unfold arrival_ok. rewrite Hfl.
  assert (Hne0 : seg_len seg <> 0) by (intros E; by apply Hne, Hz).
  destruct (is_flag (seg_flags seg) FLAG_CTL) eqn:Hf; [|by apply Hdata].
  destruct (Hctl Hne0 eq_refl) as [Hs0 Hl]. intros Hsd _. pose proof pc_range.
  destruct (Hsync Hsd) as [(Hz0 & _ & Hct & _)|[[Hw _] _]].
  - split; [done|]. unfold seg'. rewrite fit_exact; [done|lia|lia| |lia]. rewrite Hav, Hs0, Hl, Hz0.
    assert (Hdl : FifoBuffer.data_length_ (m_rbuf s) = 0%nat)
      by (rewrite <- FifoBuffer.fifo_length_contents, Hct by apply Hb; done).
    rewrite Hdl. destruct Hb as [_ _ Hcap]. lia.
  - exfalso. apply Hne, Hold; [done|]. lia.
Qed.

Lemma process_rest_spec Q c S D b seg s : conn_ok Q c S D s -> segment_of P pc seg ->
  (seg_len seg <> 0 -> is_flag (seg_flags seg) FLAG_CTL = true -> seg_seq seg = 0 /\ seg_len seg = pc) ->
  (seg_len seg <> 0 -> is_flag (seg_flags seg) FLAG_CTL = false -> pc <= m_rcv_nxt s) ->
  (is_flag (seg_flags seg) FLAG_CTL = true -> m_state s <> TCP_LISTEN) ->
  exists r s', process_rest b seg s = Some (r, s') /\ conn_ok Q c S D s'.
Proof.
  intros Hc Hseg Hctl Hdata Hlis. unfold process_rest.
  destruct (open_connection_spec Q c S D b s Hc) as [Hc1 [Hi1 [Hsd1 Hst1]]].
  destruct (notify_writeable_spec Q c S D _ Hc1) as [Hc2 [Hi2 [Hsd2 Hst2]]].
  set (s2 := notify_writeable _) in *.
  assert (Hi : m_rcv_nxt s2 = m_rcv_nxt s) by (unfold m_rcv_nxt; by rewrite Hi2, Hi1).
  assert (Hst : m_state s2 = TCP_LISTEN -> m_state s = TCP_LISTEN) by auto.
  set (fl := ack_flags seg s2). clearbody s2. clear Hi1 Hsd1 Hst1 Hi2 Hsd2 Hst2 Hc1.
  rewrite <- Hi in Hdata. pose proof Hc2 as [Hs2 Hr2 Hm2 Hc2'].
  destruct (arrival_fitted D s2 seg Hr2 Hseg Hctl Hdata) as (Hfit & Hz & Harr).
  destruct (receive_data_spec P pc D (fit_segment seg s2) fl s2 Hr2 Hfit Harr) as (fl' & new & s3 & E3 & (i & Hi3 & Hsc3) & Hr3).
  rewrite E3.
  assert (Hc3 : conn_ok Q c S D s3).
  { rewrite Hi3 in Hr3 |- *. split; [by destruct Hs2 as [[] ?]; split; [split|]|exact Hr3|exact Hm2|].
    destruct Hc2' as [(HQ & Hc0 & HS & Hl & Hl' & Ho)|Hk];
      [left|right; unfold own_scale; change (m_rwnd_scale (with_inc i s2)) with (inc_rwnd_scale i); by rewrite Hsc3]. split_and!; try done.
    intros Hli. change (m_state s2 = TCP_LISTEN) in Hli. destruct (Hl' Hli) as (N0 & C0 & B0).
    assert (Hlen0 : seg_len seg = 0).
    { destruct (decide (seg_len seg = 0)) as [|Hne]; [done|]. pose proof pc_range.
      destruct (is_flag (seg_flags seg) FLAG_CTL) eqn:Hf.
      - by destruct (Hlis eq_refl (Hst Hli)).
      - specialize (Hdata Hne eq_refl). lia. }
    unfold receive_data in E3. rewrite (Hz Hlen0) in E3. cbn in E3. injection E3 as _ _ E3.
    rewrite <- Hi3, <- E3. done. }
  clear Hi3 E3 Hr3. destruct (attemptSend_ok Q c fl' s3 (c_send _ _ _ _ _ Hc3)) as (s4 & -> & Hs4 & Hk4).
  eexists true, _. split; [reflexivity|]. apply notify_readable_spec. by apply (conn_kept Q c S D s3).
Qed.

Lemma process_spec S D seg s : conn S D s -> 0 <= seg_len seg ->
  (seg_conv seg = m_conv s -> segment_guard s seg) ->
  exists r s', process seg s = Some (r, s') /\ conn S D s'.
Proof.
  intros (Q & c & Hc) Hlen Hg. unfold process.
  destruct (Z.eqb_spec (seg_conv seg) (m_conv s)) as [Hcv|]; cbn [negb]; [|by exists false, s; split; [|exists Q, c]].
  specialize (Hg Hcv). unfold Now. set (now := u32 _). set (s1 := set_bOutgoing _ _).
  assert (Hc1 : conn_ok Q c S D s1).
  { destruct Hc as [Hs Hr Hm Hst]. split; [by destruct Hs as [[] ?]; split; [split|]|by destruct Hr; split|done|done]. }
  assert (Hg1 : segment_guard s1 seg) by (apply (segment_guard_same s); auto).
  clearbody s1 now. clear Hc Hg Hcv.
  destruct (bool_decide _); [by exists false, s1; split; [|exists Q, c]|].
  destruct (is_flag (seg_flags seg) FLAG_RST).
  { eexists false, _. split; [reflexivity|]. exists Q, c. apply (conn_kept Q c S D s1); [done|apply kept_closedown|].
    destruct Hc1 as [[Hs Hw] _ _ _]. split; [by apply closedown_ok|exact Hw]. }
  destruct (process_control_spec Q c S D seg s1 Hc1 Hg1 Hlen) as (ok & b & s2 & Q2 & c2 & -> & Hc2 & Hok).
  destruct ok; cbn [negb]; [|by exists false, s2; split; [|exists Q2, c2]].
  destruct (Hok eq_refl) as [Hg2 Hctl2]. clear Hok Hc1 Hg1.
  set (s3 := update_timestamp seg s2).
  assert (Hc3 : conn_ok Q2 c2 S D s3).
  { unfold s3, update_timestamp. destruct (_ && _); [|done]. destruct Hc2 as [Hs Hr Hm Hst].
    split; [by destruct Hs as [[] ?]; split; [split|]|by destruct Hr; split|done|done]. }
  assert (Hg3 : segment_guard s3 seg).
  { unfold s3, update_timestamp. destruct (_ && _); [|done]. apply (segment_guard_same s2); auto. }
  assert (Hst3 : m_state s3 = m_state s2) by (unfold s3, update_timestamp; by destruct (_ && _)).
  rewrite <- Hst3 in Hctl2. clearbody s3. clear Hst3 Hc2 Hg2.
  destruct (process_ack_spec Q2 c2 now seg s3 (c_send _ _ _ _ _ Hc3) (sg_ack _ _ Hg3))
    as (ok & s4 & -> & Hs4 & Hk4 & Hcl).
  pose proof (conn_kept Q2 c2 S D s3 s4 Hc3 Hk4 Hs4) as Hc4.
  destruct ok; cbn [negb]; [|by exists false, s4; split; [|exists Q2, c2]].
  destruct (process_rest_spec Q2 c2 S D b seg s4 Hc4 (sg_stream _ _ Hg3)) as (r & s5 & -> & Hc5).
  - intros Hne Hf. destruct (sg_connect _ _ Hg3 Hne Hf) as (? & ? & _). done.
  - intros Hne Hf. destruct Hk4 as [Ki _ _ _ _ _ _]. unfold m_rcv_nxt. rewrite Ki. by apply (sg_data _ _ Hg3).
  - intros Hf. destruct (Hctl2 Hf) as [_ Hl]. destruct (k_state _ _ Hk4) as [-> | ->]; done.
  - exists r, s5. split; [done|]. by exists Q2, c2.
Qed.
(** ** The interface *)

Lemma Connect_spec S D s : conn S D s -> exists r s', Connect s = Some (r, s') /\ conn S D s'.
Proof.
  intros (Q & c & Hc). unfold Connect. destruct (bool_decide (m_state s = TCP_LISTEN)) eqn:E; cbn [negb].
  2: { eexists _, _. split; [reflexivity|]. exists Q, c. destruct Hc as [Hs Hr Hm Hst].
       split; [by destruct Hs as [[] ?]; split; [split|]|by destruct Hr; split|done|done]. }
  apply bool_decide_eq_true_1 in E.
  assert (HQ : Q = [] /\ S = []) by (destruct Hc as [_ _ _ [(? & _ & ? & _)|(? & _)]]; done). destruct HQ as [-> ->].
  destruct (conn_queue_connect c D s TCP_SYN_SENT Hc E) as (s1 & k & -> & _ & _ & Hc1 & _); [done|].
  destruct (attemptSend_ok _ _ sfNone s1 (c_send _ _ _ _ _ Hc1)) as (s2 & -> & Hs2 & Hk2).
  eexists _, _. split; [reflexivity|]. eexists _, _. by apply (conn_kept _ _ _ _ s1).
Qed.

Lemma s32_small v : - 2 ^ 31 <= v < 2 ^ 31 -> s32 v = v.
Proof. intros. unfold s32. rewrite Z.mod_small by lia. lia. Qed.

Lemma Send_spec S D s d : conn S D s -> Z.of_nat (length d) + Buffered (m_sbuf s) + m_snd_una s < 2 ^ 32 ->
  exists r s', Send d s = Some (r, s') /\ conn (S ++ accepted (OpSend d) r) D s'.
Proof.
  intros (Q & c & Hc) Hd. unfold Send. unfold is_established. destruct (bool_decide (m_state s = _)) eqn:E; cbn [negb].
  2: { eexists _, _. split; [reflexivity|]. cbn. rewrite app_nil_r. exists Q, c. destruct Hc as [Hs Hr Hm Hst].
       split; [by destruct Hs as [[] ?]; split; [split|]|by destruct Hr; split|done|done]. }
  destruct (Nat.eqb_spec (FifoBuffer.GetWriteRemaining (m_sbuf s)) 0) as [H0|H0].
  { eexists _, _. split; [reflexivity|]. cbn. rewrite app_nil_r. exists Q, c. destruct Hc as [Hs Hr Hm Hst].
    split; [by destruct Hs as [[] ?]; split; [split|]|by destruct Hr; split|done|done]. }
  apply bool_decide_eq_true_1 in E. pose proof Hc as [Hs Hr Hm Hst].
  destruct Hst as [(_ & _ & _ & [?|?] & _)|(Hne & k & Hk & HQ & Hcc & Hks & Ho)]; [congruence..|].
  destruct (buffered_length Q c s (sending_ok _ _ _ Hs)) as (Hb & _ & _). rewrite Hb in Hd.
  destruct (queue_data Q c s d Hs) as (n & s1 & -> & Hs1 & Hk1 & Hn); [|lia|].
  { rewrite HQ, Hcc, length_app. lia. }
  destruct (attemptSend_ok _ _ sfNone s1 Hs1) as (s2 & -> & Hs2 & Hk2).
  eexists _, _. split; [reflexivity|]. unfold accepted.
  destruct Hs as [[[_ _ Hcap _ _ _] _ _ _] _]. rewrite s32_small by lia.
  rewrite (proj2 (Z.leb_le _ _)), Nat2Z.id by lia.
  exists (Q ++ take n d), c. pose proof (kept_trans _ _ _ Hk1 Hk2) as [Ki Ks Kc Km Kst _ Ko].
  split; [done|by eapply receiving_same|by rewrite Km|]. right. split; [destruct Kst as [-> | ->]; done|].
  exists k. split_and!; try done; [by rewrite HQ, app_assoc|].
  rewrite Hks. unfold own_scale, m_support_wnd_scale, m_rwnd_scale. by rewrite Ki, Ko.
Qed.

Lemma Recv_spec S D s n : conn S D s ->
  exists r d s', Recv n s = Some (r, d, s') /\ conn S (D ++ d) s' /\ (r = -1 /\ d = [] \/ r = Z.of_nat (length d)).
Proof.
  intros (Q & c & Hc). unfold Recv. unfold is_established. destruct (bool_decide (m_state s = _)) eqn:E; cbn [negb].
  2: { eexists _, _, _. split; [reflexivity|]. rewrite app_nil_r. split; [|by left]. exists Q, c.
       destruct Hc as [Hs Hr Hm Hst]. split; [by destruct Hs as [[] ?]; split; [split|]|by destruct Hr; split|done|done]. }
  apply bool_decide_eq_true_1 in E. pose proof Hc as [Hs Hr Hm Hst].
  destruct (receiving_read P pc D s n Hr) as (r & d & ev & f' & -> & Hr' & Hres & Hd).
  assert (Hst' : forall s' : t, m_state s' = m_state s -> m_state s' <> TCP_LISTEN) by (intros s' ->; congruence).
  assert (Hc1 : conn_ok Q c S (D ++ d) (set_rbuf f' s)).
  { split; [by destruct Hs as [[] ?]; split; [split|]|done|done|].
    destruct Hst as [(_ & _ & _ & [?|?] & _)|(_ & ?)]; [congruence..|]. right. split; [by apply Hst'|done]. }
  destruct Hres as [-> |[-> ->]].
  2: { eexists _, _, _. split; [reflexivity|]. split; [|by left]. rewrite app_nil_r. exists Q, c.
       split; [by destruct Hs as [[] ?]; split; [split|]|by destruct Hr; split|done|done]. }
  rewrite s32_small by lia. set (s1 := set_rbuf f' s) in *.
  destruct (_ <=? _); [|by eexists _, _, _; split; [reflexivity|]; split; [exists Q, c|right]].
  set (s2 := set_rcv_wnd _ s1).
  assert (Hc2 : conn_ok Q c S (D ++ d) s2).
  { destruct Hc1 as [Hs1 Hr1 Hm1 Hst1]. split; [by destruct Hs1 as [[] ?]; split; [split|]|by destruct Hr1; split|done|done]. }
  destruct (m_rcv_wnd s1 =? 0); [|by eexists _, _, _; split; [reflexivity|]; split; [exists Q, c|right]].
  destruct (attemptSend_ok _ _ sfImmediateAck s2 (c_send _ _ _ _ _ Hc2)) as (s3 & -> & Hs3 & Hk3).
  eexists _, _, _. split; [reflexivity|]. split; [|by right]. exists Q, c. by apply (conn_kept _ _ _ _ s2).
Qed.

Lemma scale_down_spec fuel n k : 0 <= k -> k + Z.of_nat fuel < 256 -> 0 <= n < 2 ^ (16 + Z.of_nat fuel) ->
  let '(m, k') := scale_down fuel n k in
  k <= k' <= k + Z.of_nat fuel /\ m = n / 2 ^ (k' - k) /\ m <= 65535 /\ (k' = k \/ 32768 <= m).
Proof.
  revert n k; induction fuel as [|fuel IH]; intros n k Hk Hf Hn; cbn [scale_down].
  { rewrite Z.sub_diag, Z.div_1_r. change (2 ^ (16 + Z.of_nat 0)) with 65536 in Hn. lia. }
  destruct (Z.ltb_spec 65535 n) as [Hgt|Hle]; [|rewrite Z.sub_diag, Z.div_1_r; lia].
  assert (Hu : u8 (k + 1) = k + 1) by (apply wrap_small; unfold is_u; lia). rewrite Hu, Z.shiftr_div_pow2 by lia.
  change (2 ^ 1) with 2. specialize (IH (n / 2) (k + 1) ltac:(lia) ltac:(lia)).
  destruct (scale_down fuel (n / 2) (k + 1)) as [m k']. destruct IH as (H1 & H2 & H3 & H4).
  { replace (16 + Z.of_nat (Datatypes.S fuel)) with (1 + (16 + Z.of_nat fuel)) in Hn by lia.
    rewrite Z.pow_add_r in Hn by lia. change (2 ^ 1) with 2 in Hn. dlia. }
  split; [lia|]. split.
  - rewrite H2, Z.div_div by lia. f_equal. replace (k' - k) with (1 + (k' - (k + 1))) by lia.
    rewrite Z.pow_add_r by lia. done.
  - split; [done|]. right. destruct H4 as [->|]; [|done]. rewrite H2, Z.sub_diag, Z.div_1_r. dlia.
Qed.

(** The capacity a resize settles on. *)
Lemma scaled_size n : 4 <= n < 2 ^ 32 ->
  let '(m, k) := scale_down 16 n 0 in
  0 <= k <= 16 /\ 4 <= u32 (Z.shiftl m k) <= n /\ Z.shiftr (u32 (Z.shiftl m k)) k <= 65535.
Proof.
  intros Hn. pose proof (scale_down_spec 16 n 0) as HS. change (16 + Z.of_nat 16) with 32 in HS.
  destruct (scale_down 16 n 0) as [m k]. destruct HS as (Hk & Hm & Hm2 & Hm3); [lia..|].
  rewrite Z.sub_0_r in Hm. split; [lia|]. rewrite Z.shiftl_mul_pow2 by lia.
  assert (Hp : 0 < 2 ^ k) by (apply Z.pow_pos_nonneg; lia).
  assert (Hle : m * 2 ^ k <= n) by (rewrite Hm, Z.mul_comm; by apply Z.mul_div_le).
  assert (Hge : 4 <= m * 2 ^ k).
  { destruct Hm3 as [->|]; [|nia]. change (2 ^ 0) with 1 in *. rewrite Hm, Z.div_1_r. lia. }
  assert (Hu : u32 (m * 2 ^ k) = m * 2 ^ k) by (apply wrap_small; unfold is_u; lia). rewrite Hu.
  split; [lia|]. rewrite Z.shiftr_div_pow2 by lia. rewrite Z.div_mul by lia. lia.
Qed.

Definition option_guard (o : Option) (v : Z) (s : t) : Prop :=
  match o with
  | OPT_RCVBUF | OPT_SNDBUF => m_state s = TCP_LISTEN /\ 4 <= v < 2 ^ 31
  | _ => True
  end.

Lemma conn_listen Q c S D s : conn_ok Q c S D s -> m_state s = TCP_LISTEN ->
  Q = [] /\ 0 < c /\ S = [] /\ m_rcv_nxt s = 0 /\ FifoBuffer.contents (m_rbuf s) = [] /\
  (4 <= FifoBuffer.buffer_length_ (m_sbuf s))%nat /\ own = None /\
  (m_shutdown s = SD_NONE -> D = [] /\ m_rlist s = []).
Proof.
  intros [_ [_ _ _ _ _ Hsync] _ Hst] Hl. destruct Hst as [(? & ? & ? & _ & H5 & ?)|(Hne & _)]; [|done].
  destruct (H5 Hl) as (Hn & Hct & Hb). split_and!; try done.
  intros Hsd. destruct (Hsync Hsd) as [(_ & ? & _ & ?)|[[Hw _] _]]; [done|]. pose proof pc_range. lia.
Qed.

Lemma resizeSend_spec S D v s : conn S D s -> m_state s = TCP_LISTEN -> 4 <= v < 2 ^ 31 ->
  conn S D (resizeSendBuffer v s).
Proof.
  intros (Q & c & Hc) Hl Hv. destruct (conn_listen _ _ _ _ _ Hc Hl) as (-> & Hc0 & -> & Hn & Hct & Hb & Ho & _).
  destruct Hc as [[[[Hwf Hop Hcap Hco Hra Hch] Htu Hli Htr] Hw] Hr Hm _].
  rewrite drop_nil in Hco. pose proof (FifoBuffer.fifo_length_contents _ Hwf) as Hdl. rewrite Hco in Hdl. cbn in Hdl.
  destruct (FifoBuffer.SetCapacity_contents (m_sbuf s) (Z.to_nat v) Hwf) as (f' & E & Hwf' & Hco' & Hop' & Hbl & _); [lia|lia|].
  unfold resizeSendBuffer. change (m_sbuf (set_sbuf_len v s)) with (m_sbuf s). rewrite E. cbn [snd].
  exists [], c. split; [|by destruct Hr; split|done|left; split_and!; try done; [by left|]].
  - split; [|exact Hw]. split; [|exact Htu|exact Hli|exact Htr].
    split; [done|change (FifoBuffer.state_ f' = FifoBuffer.SS_OPEN); by rewrite Hop'
      |change (Z.of_nat (FifoBuffer.buffer_length_ f') < 2 ^ 31); lia| |exact Hra|exact Hch].
    rewrite drop_nil. change (FifoBuffer.contents f' = []). by rewrite Hco'.
  - intros _. split_and!; [done|done|]. change (4 <= FifoBuffer.buffer_length_ f')%nat. lia.
Qed.

Lemma resizeReceive_spec S D v s : conn S D s -> m_state s = TCP_LISTEN -> 4 <= v < 2 ^ 31 ->
  exists s', resizeReceiveBuffer v s = Some s' /\ conn S D s'.
Proof.
  intros (Q & c & Hc) Hl Hv. destruct (conn_listen _ _ _ _ _ Hc Hl) as (-> & Hc0 & -> & Hn & Hct & Hb & Ho & Hsd).
  destruct Hc as [Hs Hr Hm _]. unfold resizeReceiveBuffer. pose proof (scaled_size v ltac:(lia)) as HS.
  destruct (scale_down 16 v 0) as [m k]. destruct HS as (Hk & Hsz & _).
  set (n := u32 (Z.shiftl m k)) in *. clearbody n. pose proof Hr as [[Hwf Hop Hcap] Hnx Hpc Hsc Hp Hsync].
  pose proof (FifoBuffer.fifo_length_contents _ Hwf) as Hdl. rewrite Hct in Hdl. cbn in Hdl.
  destruct (FifoBuffer.SetCapacity_contents (m_rbuf s) (Z.to_nat n) Hwf) as (f' & -> & Hwf' & Hco' & Hop' & Hbl & _); [lia|lia|].
  eexists. split; [reflexivity|]. exists [], c. split; [|split|exact Hm|].
  - assert (Hs' : sending [] c (set_ssthresh n s)) by (apply set_ssthresh_ok; [done|lia]).
    by destruct Hs' as [[] ?]; split; [split|].
  - split; [done|change (FifoBuffer.state_ f' = FifoBuffer.SS_OPEN); by rewrite Hop'|].
    change (4 <= Z.of_nat (FifoBuffer.buffer_length_ f') < 2 ^ 31). lia.
  - exact Hnx.
  - done.
  - change (0 <= k <= 16). lia.
  - change (exists n, D ++ FifoBuffer.contents f' = take n (app_stream P pc)). rewrite Hco'. exact Hp.
  - intros E. destruct (Hsd E) as [-> Hrl]. left. split_and!; try done.
    change (FifoBuffer.contents f' = []). by rewrite Hco'.
  - left. split_and!; try done; [by left|]. intros _. split_and!; [done| |done].
    change (FifoBuffer.contents f' = []). by rewrite Hco'.
Qed.

(** What the caller and the peer owe a call. *)
Definition guard (o : op) (s : t) : Prop :=
  match o with
  | OpSend d => Z.of_nat (length d) + Buffered (m_sbuf s) + m_snd_una s < 2 ^ 32
  | OpNotifyMTU mtu => mtu_ok mtu
  | OpSetOption o v => option_guard o v s
  | OpNotifyPacket b =>
      (length b < 12)%nat \/ MAX_PACKET < Z.of_nat (length b) \/
      exists seg, parse_segment b = Some seg /\ (seg_conv seg = m_conv s -> segment_guard s seg)
  | _ => True
  end.

Lemma NotifyMTU_spec S D mtu s : conn S D s -> mtu_ok mtu -> conn S D (NotifyMTU mtu s).
Proof.
  intros (Q & c & Hc) Hm. exists Q, c. unfold NotifyMTU. set (s1 := set_mtu_advise mtu s).
  assert (Hc1 : conn_ok Q c S D s1).
  { destruct Hc as [Hs Hr _ Hst]. split; [by destruct Hs as [[] ?]; split; [split|]|by destruct Hr; split|done|done]. }
  destruct (is_established s1); [|done]. destruct Hc1 as [Hs Hr Hm1 Hst].
  split; [by apply adjustMTU_ok|by destruct Hr; split|exact Hm1|exact Hst].
Qed.

Lemma NotifyPacket_spec S D b s : conn S D s -> guard (OpNotifyPacket b) s ->
  exists r s', NotifyPacket b s = Some (r, s') /\ conn S D s'.
Proof.
  intros Hc Hg. unfold NotifyPacket, parse.
  destruct (Z.ltb_spec MAX_PACKET (Z.of_nat (length b))); [by exists false, s|].
  destruct (Nat.ltb_spec (length b) 12); [by exists false, s|].
  destruct Hg as [?|[?|(seg & Hp & Hg)]]; [lia|lia|]. rewrite Hp. apply process_spec; try done.
  unfold parse_segment in Hp. destruct (Z.leb_spec HEADER_SIZE (Z.of_nat (length b))); [|done].
  injection Hp as <-. cbn. lia.
Qed.

Lemma call_spec o S D s : conn S D s -> guard o s ->
  exists r d s', exec o s = Some (r, d, s') /\ conn (S ++ accepted o r) (D ++ d) s'.
Proof.
  intros Hc Hg. destruct o; cbn [exec accepted]; rewrite ?app_nil_r.
  - destruct (Connect_spec S D s Hc) as (r & s' & -> & Hc'). eexists _, _, _. split; [reflexivity|]. by rewrite app_nil_r.
  - destruct (Recv_spec S D s len Hc) as (r & d & s' & -> & Hc' & _). by exists r, d, s'.
  - destruct (Send_spec S D s data Hc Hg) as (r & s' & -> & Hc'). eexists _, _, _. split; [reflexivity|]. by rewrite app_nil_r.
  - eexists _, _, _. split; [reflexivity|]. rewrite app_nil_r. destruct Hc as (Q & c & [Hs Hr Hm Hst]). exists Q, c.
    split; [by destruct Hs as [[] ?]; split; [split|]| |done|done]. destruct Hr. split; try done.
    intros E. by destruct force.
  - eexists _, _, _. split; [reflexivity|]. rewrite app_nil_r. by apply NotifyMTU_spec.
  - destruct Hc as (Q & c & Hc). destruct (NotifyClock_spec Q c now s (c_send _ _ _ _ _ Hc)) as (s' & -> & Hs' & Hk).
    eexists _, _, _. split; [reflexivity|]. rewrite app_nil_r. exists Q, c. by apply (conn_kept Q c S D s).
  - destruct (NotifyPacket_spec S D buffer s Hc Hg) as (r & s' & -> & Hc'). eexists _, _, _.
    split; [reflexivity|]. by rewrite app_nil_r.
  - assert (E : exists s', SetOption o value s = Some s' /\ conn S D s').
    { destruct o; cbn [SetOption option_guard guard] in *.
      - eexists. split; [reflexivity|]. destruct Hc as (Q & c & [Hs Hr Hm Hst]). exists Q, c.
        split; [by destruct Hs as [[] ?]; split; [split|]|by destruct Hr; split|done|done].
      - eexists. split; [reflexivity|]. destruct Hc as (Q & c & [Hs Hr Hm Hst]). exists Q, c.
        split; [by destruct Hs as [[] ?]; split; [split|]|by destruct Hr; split|done|done].
      - destruct Hg as [Hl Hv]. rewrite bool_decide_eq_true_2 by done.
        assert (Hu : u32 value = value) by (apply wrap_small; unfold is_u; lia). rewrite Hu. by apply resizeReceive_spec.
      - destruct Hg as [Hl Hv]. rewrite bool_decide_eq_true_2 by done.
        assert (Hu : u32 value = value) by (apply wrap_small; unfold is_u; lia). rewrite Hu.
        eexists. split; [reflexivity|]. by apply resizeSend_spec. }
    destruct E as (s' & -> & Hc'). eexists _, _, _. split; [reflexivity|]. by rewrite app_nil_r.
Qed.

(** What the calls of the application return. *)
Lemma Connect_result S D s : conn S D s ->
  exists r s', Connect s = Some (r, s') /\
    if decide (m_state s = TCP_LISTEN) then r = 0 else r = -1 /\ s' = set_error EINVAL s.
Proof.
  intros Hc. destruct (Connect_spec S D s Hc) as (r & s' & E & _). exists r, s'. split; [done|].
  unfold Connect in E. destruct (decide _) as [Hl|Hl].
  - rewrite bool_decide_eq_true_2 in E by done. cbn [negb] in E.
    destruct (queueConnectMessage _); [|done]. destruct (attemptSend _ _); [|done]. by injection E.
  - rewrite bool_decide_eq_false_2 in E by done. cbn [negb] in E. by injection E.
Qed.

Lemma Send_result S D s d : conn S D s -> Z.of_nat (length d) + Buffered (m_sbuf s) + m_snd_una s < 2 ^ 32 ->
  exists r s', Send d s = Some (r, s') /\
    if negb (is_established s) then r = -1 /\ s' = set_error ENOTCONN s
    else if (FifoBuffer.GetWriteRemaining (m_sbuf s) =? 0)%nat
    then r = -1 /\ s' = set_error EWOULDBLOCK (set_bWriteEnable true s)
    else r = Z.of_nat (Nat.min (length d) (FifoBuffer.GetWriteRemaining (m_sbuf s))).
Proof.
  intros Hc Hd. destruct (Send_spec S D s d Hc Hd) as (r & s' & E & _). exists r, s'. split; [done|].
  destruct Hc as (Q & c & [Hs _ _ Hst]). unfold Send in E. unfold is_established in *.
  destruct (bool_decide (m_state s = _)) eqn:Est; cbn [negb] in *; [|by injection E].
  destruct (_ =? 0)%nat; [by injection E|]. apply bool_decide_eq_true_1 in Est.
  destruct Hst as [(_ & _ & _ & [?|?] & _)|(_ & k & _ & HQ & Hcc & _)]; [congruence..|].
  destruct (buffered_length Q c s (sending_ok _ _ _ Hs)) as (Hb & _ & _). rewrite Hb in Hd.
  destruct (queue_data Q c s d Hs) as (n & s1 & E1 & _ & _ & Hn); [|lia|].
  { rewrite HQ, Hcc, length_app. lia. }
  rewrite E1 in E. destruct (attemptSend _ _); [|done]. injection E as <- _.
  destruct Hs as [[[_ _ Hcap _ _ _] _ _ _] _]. rewrite s32_small by lia. by rewrite Hn.
Qed.

Lemma Recv_result S D s n : conn S D s ->
  exists r data s', Recv n s = Some (r, data, s') /\
    if negb (is_established s) then r = -1 /\ data = [] /\ s' = set_error ENOTCONN s
    else if decide (FifoBuffer.contents (m_rbuf s) = [])
    then r = -1 /\ data = [] /\ s' = set_error EWOULDBLOCK (set_bReadEnable true s)
    else r = Z.of_nat (length data) /\ data = take n (FifoBuffer.contents (m_rbuf s)).
Proof.
  intros Hc. destruct (Recv_spec S D s n Hc) as (r & data & s' & E & _ & Hr). exists r, data, s'. split; [done|].
  destruct Hc as (Q & c & [_ [[Hwf Hop Hcap] _ _ _ _ _] _ _]). unfold Recv in E.
  destruct (is_established s); cbn [negb] in *; [|by injection E].
  destruct (FifoBuffer.Read_contents (m_rbuf s) n Hwf) as (r0 & d & ev & f' & E0 & _ & _ & _ & Hd & _ & _ & _ & Hr0);
    [by rewrite Hop|].
  rewrite E0 in E. pose proof (FifoBuffer.fifo_length_contents _ Hwf) as Hl.
  destruct (decide _) as [H0|H0].
  - rewrite H0 in Hl. cbn in Hl. rewrite <- Hl in Hr0. cbn in Hr0. destruct Hr0 as [-> _]. by injection E.
  - destruct (Nat.eqb_spec (FifoBuffer.data_length_ (m_rbuf s)) 0) as [Hz|_].
    { exfalso. apply H0, length_zero_iff_nil. by rewrite Hl. }
    subst r0. assert (Hdd : data = d /\ r = s32 (Z.of_nat (length d))).
    { destruct (_ <=? _); [|by injection E].
      destruct (_ =? 0); [|by injection E]. destruct (attemptSend _ _); [by injection E|done]. }
    destruct Hdd as [-> ->]. split; [|done]. apply s32_small. 
    assert (length d <= FifoBuffer.data_length_ (m_rbuf s))%nat by (rewrite Hd, length_take; lia).
    destruct Hwf. lia.
Qed.

(** ** Runs *)

(** Every call of a run is made within its guard. *)
Fixpoint guards (os : list op) (s : t) : Prop :=
  match os with
  | [] => True
  | o :: os => guard o s /\ forall r d s', exec o s = Some (r, d, s') -> guards os s'
  end.

Lemma run_spec os S D s : conn S D s -> guards os s ->
  exists rs s', run os s = Some (rs, s') /\ length rs = length os /\
    conn (S ++ sent_stream os rs) (D ++ received_stream rs) s'.
Proof.
  revert S D s; induction os as [|o os IH]; intros S D s Hc Hg; cbn [run].
  - exists [], s. cbn. by rewrite !app_nil_r.
  - destruct Hg as [Hg Hgs]. destruct (call_spec o S D s Hc Hg) as (r & d & s1 & E & Hc1). rewrite E.
    destruct (IH _ _ _ Hc1 (Hgs _ _ _ E)) as (rs & s2 & -> & Hl & Hc2).
    exists ((r, d) :: rs), s2. split; [done|]. cbn [length]. rewrite Hl. split; [done|].
    unfold received_stream in *. cbn. by rewrite !app_assoc.
Qed.
End Peer.

Lemma fifo_new_wf n : (0 < n)%nat -> FifoBuffer.wf (FifoBuffer.new n).
Proof.
  intros Hn. split; cbn [FifoBuffer.new FifoBuffer.buffer_ FifoBuffer.buffer_length_ FifoBuffer.data_length_
    FifoBuffer.read_position_]; [|lia..].
  unfold FifoBuffer.new_char. by rewrite length_map, length_seq.
Qed.
Lemma rcv_size : (0 < Z.to_nat DEFAULT_RCV_BUF_SIZE)%nat.
Proof. apply Nat2Z.inj_lt. by rewrite Z2Nat.id. Qed.
Lemma snd_size : (4 <= Z.to_nat DEFAULT_SND_BUF_SIZE)%nat.
Proof. apply Nat2Z.inj_le. by rewrite Z2Nat.id. Qed.

(** A new object, whatever the peer is going to send. *)
Lemma new_sending conv clock : sending [] 1 (new conv clock).
Proof.
  split; [split|done].
  - split; try done. apply fifo_new_wf. pose proof snd_size. lia.
  - assert (H : tune_ok 180 0 61440 360 0 0 3000) by (split; consts; lia). exact H.
  - split; cbn; [done|lia].
  - apply List.Forall_nil.
Qed.

Lemma new_conn_ok pk PS conv clock : scale_ok pk -> Z.of_nat (length (connect_message pk ++ PS)) < 2 ^ 32 ->
  conn_ok pk PS None [] 1 [] [] (new conv clock).
Proof.
  intros Hk HP. pose proof (pc_range pk PS Hk). split; [apply new_sending| |done|].
  - assert (Hn : 4 <= Z.of_nat (FifoBuffer.buffer_length_ (m_rbuf (new conv clock))) < 2 ^ 31).
    { change (4 <= Z.of_nat (Z.to_nat DEFAULT_RCV_BUF_SIZE) < 2 ^ 31). rewrite Z2Nat.id by done. done. }
    split; [split; [apply fifo_new_wf, rcv_size|done|exact Hn]|split; [|exact HP]|lia|done|by exists 0%nat|by left].
    split; [done|apply Nat2Z.is_nonneg].
  - left. split_and!; try done; [by left|]. intros _. split_and!; [done..|].
    exact snd_size.
Qed.

(** The bounds of the state variables. *)
Record in_bounds (s : t) : Prop := {
  ib_rto : MIN_RTO <= m_rx_rto s <= MAX_RTO;
  ib_mss : 1 <= m_mss s <= MAX_PACKET - PACKET_OVERHEAD;
  ib_window : 0 <= m_snd_una s <= m_snd_nxt s /\ m_snd_nxt s < 2 ^ 32;
  ib_recover : 0 <= m_recover s <= m_snd_nxt s;
  ib_ssthresh : 0 < m_ssthresh s;
  ib_timer : m_rto_base s <> 0 -> m_snd_una s < m_snd_nxt s;
  ib_send : (FifoBuffer.data_length_ (m_sbuf s) <= FifoBuffer.buffer_length_ (m_sbuf s))%nat;
  ib_receive : (FifoBuffer.data_length_ (m_rbuf s) <= FifoBuffer.buffer_length_ (m_rbuf s))%nat;
}.

Lemma conn_bounds pk PS K S D s : conn pk PS K S D s -> in_bounds s.
Proof.
  intros (Q & c & [[[Hq [] [Ht Hrec] _] _] [[Hwf _ _] _ _ _ _ _] _ _]). destruct Hq as [Hwf' _ _ _ Hr _].
  destruct Hwf, Hwf'. split; try done; lia.
Qed.

(** The data that went out belongs to the stream. *)
Lemma conn_packets pk PS S D s : conn pk PS None S D s ->
  exists k, forall b, TcpPacket b ∈ m_trace s -> exists seg, parse_segment b = Some seg /\
    segment_of (connect_message k ++ S) (Z.of_nat (length (connect_message k))) seg /\
    is_flag (seg_flags seg) FLAG_RST = false /\ Z.of_nat (length b) <= MAX_PACKET.
Proof.
  intros (Q & c & [[[_ _ _ Htr] _] _ _ Hst]). unfold trace_ok in Htr. rewrite Forall_forall in Htr.
  destruct Hst as [(-> & _ & -> & _)|(_ & k & _ & -> & -> & _)].
  - exists None. intros b Hb. destruct (Htr _ Hb) as (seg & Hp & Hs & Hf & Hl). exists seg.
    split_and!; try done; [left; by apply segment_of_nil in Hs|consts; lia].
  - exists k. intros b Hb. destruct (Htr _ Hb) as (seg & Hp & Hs & Hf & Hl). exists seg. split_and!; try done. consts. lia.
Qed.

(** The obligations can be checked. *)
#[export] Instance ack_boundary_dec s ack : Decision (ack_boundary s ack).
Proof. unfold ack_boundary. apply _. Defined.
#[export] Instance segment_of_dec Q c seg : Decision (segment_of Q c seg).
Proof. unfold segment_of. destruct (is_flag _ _); apply _. Defined.

#[export] Instance segment_guard_dec pk PS s seg : Decision (segment_guard pk PS s seg).
Proof.
  refine (cast_if (decide (segment_of (P pk PS) (pc pk) seg /\
    (seg_len seg <> 0 -> is_flag (seg_flags seg) FLAG_CTL = true ->
       seg_seq seg = 0 /\ seg_len seg = pc pk /\ (pk = None -> m_rwnd_scale s = 0)) /\
    (seg_len seg <> 0 -> is_flag (seg_flags seg) FLAG_CTL = false -> pc pk <= m_rcv_nxt s) /\
    (m_snd_una s < seg_ack seg <= m_snd_nxt s -> ack_boundary s (seg_ack seg))))).
  - abstract (destruct_and?; by split).
  - abstract (intros [H1 H2 H3 H4]; match goal with Hn : ~ _ |- _ => by apply Hn end).
Defined.

Lemma parsed_dec (b : bytes) (P : Segment -> Prop) `{HD : forall seg, Decision (P seg)} :
  Decision (exists seg, parse_segment b = Some seg /\ P seg).
Proof.
  destruct (parse_segment b) as [seg|]; [|right; by intros (? & ? & _)].
  destruct (HD seg) as [Hy|Hn]; [left; by exists seg|right; intros (? & [= <-] & ?); by apply Hn].
Defined.
#[export] Existing Instance parsed_dec.

#[export] Instance guard_dec pk PS o s : Decision (guard pk PS o s).
Proof. destruct o as [| | | | | | |[]]; cbn [guard option_guard]; unfold mtu_ok; apply _. Defined.

#[export] Instance guards_dec pk PS os s : Decision (guards pk PS os s).
Proof.
  revert s; induction os as [|o os IH]; intros s; cbn [guards]; [apply _|].
  destruct (decide (guard pk PS o s)) as [Hg|]; [|right; abstract (by intros [? _])].
  destruct (exec o s) as [[[r d] s1]|] eqn:E; [|left; abstract done].
  destruct (IH s1) as [Hy|Hn]; [left|right].
  - abstract (split; [done|]; intros ? ? ? [= <- <- <-]; done).
  - abstract (intros [_ H]; by eapply Hn, H).
Defined.

End Host.
End PseudoTcpSafety.
