(* ===== verification/PseudoTcpTimer.v ===== *)
(** * PseudoTcp: the retransmission timer

    An end whose data is not acknowledged retransmits at every expiry of the
    timer, doubling it up to MAX_RTO, and gives up after 15 transmissions of
    the same segment (30 while connecting): however the clock advances, a
    silent peer is detected after a bounded number of clock notifications. *)

From S2P Require Import Prelude ByteOrder ByteBuffer FifoBuffer PseudoTcp PseudoTcpSend PseudoTcpAck.
From S2P Require Import PseudoTcpRecv PseudoTcpSafety.
Import ByteOrder PseudoTcp PseudoTcpSend PseudoTcpAck PseudoTcpRecv PseudoTcpSafety.
Open Scope jingle_scope.

Module PseudoTcpTimer.
Section Host.
Context {HM : Machine} {HN : IPseudoTcpNotify}.

(** The transmissions a segment gets. *)
Definition limit (s : t) : Z := if is_established s then 15 else 30.
(** Those that the first segment has had. *)
Definition head_xmit (s : t) : Z := match m_slist s with [] => 0 | g :: _ => s_xmit g end.

Fixpoint clock_run (nows : list Z) (s : t) : option t :=
  match nows with
  | [] => Some s
  | now :: nows => let? s := NotifyClock now s in clock_run nows s
  end.

(** Clock readings at least MAX_RTO apart (and less than half the range of
    the clock), none of them the reserved 0. *)
Fixpoint spaced (base : Z) (nows : list Z) : Prop :=
  match nows with
  | [] => True
  | now :: nows => now <> 0 /\ MAX_RTO <= u32 (now - base) < 2 ^ 31 /\ spaced now nows
  end.

Definition gave_up (s : t) : Prop :=
  m_state s = TCP_CLOSED /\ last (m_trace s) = Some (TcpClosed ECONNABORTED).

Lemma gave_up_closedown s : gave_up (closedown ECONNABORTED s).
Proof. split; [done|]. apply last_snoc. Qed.

Lemma timer_due base rto now : MIN_RTO <= rto <= MAX_RTO -> MAX_RTO <= u32 (now - base) < 2 ^ 31 ->
  TimeDiff (u32 (base + rto)) now <= 0.
Proof.
  intros Hr Hd. unfold TimeDiff, s32, u32, wrap in *. consts. change (2 ^ 32) with 4294967296 in *.
  change (2 ^ 31) with 2147483648 in *. change (2 ^ (32 - 1)) with 2147483648 in *. dlia.
Qed.

Lemma retransmit_counts now s : 0 < head_xmit s <= 30 -> forall ok s', retransmit now s = Some (ok, s') ->
  if ok then head_xmit s < limit s /\ head_xmit s' = head_xmit s + 1 else gave_up s'.
Proof.
  intros Hx ok s'. unfold retransmit, transmit, head_xmit in *. destruct (m_slist s) as [|g r]; [lia|]. cbn [lookup list_lookup].
  fold (limit s). destruct (Z.leb_spec (limit s) (s_xmit g)) as [Hge|Hlt].
  { intros [= <- <-]. apply gave_up_closedown. }
  destruct (send_segment _ _ _ _) as [[[n|] s1]|]; [| |done].
  2: { intros [= <- <-]. apply gave_up_closedown. }
  assert (Hu : u8 (s_xmit g + 1) = s_xmit g + 1) by (apply wrap_small; unfold is_u; lia).
  destruct (s_xmit g =? 0) eqn:E0; [bool_simpl; lia|].
  set (s2 := set_slist _ s1).
  assert (Hs2 : exists rest, m_slist s2 = mkSSegment (s_seq g) (if n <? s_len g then n else s_len g) (s_xmit g + 1) (s_bCtrl g) :: rest).
  { unfold s2. rewrite Hu. eexists. reflexivity. }
  destruct Hs2 as [rest Hs2]. clearbody s2.
  destruct (m_rto_base s2 =? 0); intros [= <- <-]; (split; [done|]).
  - change (m_slist (set_rto_base now s2)) with (m_slist s2). by rewrite Hs2.
  - by rewrite Hs2.
Qed.

Lemma head_range Q c s : sender_ok Q c s -> m_snd_una s < m_snd_nxt s -> 0 < head_xmit s <= 30.
Proof.
  intros Hs Hlt. destruct (head_sent Q c s Hs Hlt) as (g & r & E & Hx & _). unfold head_xmit. rewrite E.
  destruct Hs as [[_ _ _ _ _ Hch] _ _ _]. rewrite E in Hch. cbn in Hch. destruct Hch as (_ & _ & _ & (Hr & _) & _). lia.
Qed.

(** One expiry. *)
Record ticked (now : Z) (s s' : t) : Prop := {
  tk_state : m_state s' = m_state s;
  tk_count : head_xmit s < limit s /\ head_xmit s' = head_xmit s + 1;
  tk_base : m_rto_base s' = now;
}.

Lemma retransmit_tick Q c now s : sending Q c s -> m_rto_base s <> 0 ->
  MAX_RTO <= u32 (now - m_rto_base s) < 2 ^ 31 ->
  exists ok s', clock_retransmit now s = Some (ok, s') /\ (if ok then ticked now s s' else gave_up s').
Proof.
  intros Hs H0 Hd. unfold clock_retransmit. rewrite (proj2 (Z.eqb_neq _ _)) by done. cbn [negb andb].
  assert (Hlt : m_snd_una s < m_snd_nxt s) by (destruct Hs as [[_ _ [Hl _] _] _]; auto).
  rewrite (proj2 (Z.leb_le _ _)) by (apply timer_due; [by destruct Hs as [[_ [] _ _] _]|done]).
  pose proof (retransmit_counts now s (head_range Q c s (sending_ok _ _ _ Hs) Hlt)) as Hcount.
  destruct (retransmit_ok Q c now s Hs Hlt) as (ok & s1 & E & Hs1 & [Hk _] & _). rewrite E.
  specialize (Hcount ok s1 E). destruct ok; cbn [negb]; [|by exists false, s1].
  eexists true, _. split; [reflexivity|]. split; [|exact Hcount|done].
  change (m_state s1 = m_state s). clear -E Hs Hlt.
  destruct (retransmit_spec Q c now s (sending_ok _ _ _ Hs) Hlt) as (ok & s2 & E2 & _ & Hm & _).
  rewrite E in E2. injection E2 as <- <-.
  destruct Hm as (? & ? & ? & ? & ? & ? & ? & ? & ? & ? & ? & ? & ? & ->). done.
Qed.

Lemma packet_ack_frame Q c seq s r s' : sending Q c s -> packet seq 0 0 0 s = Some (r, s') ->
  m_state s' = m_state s /\ head_xmit s' = head_xmit s /\ m_rto_base s' = m_rto_base s.
Proof.
  intros [Hs _] E. destruct (packet_ack Q c seq s Hs) as (r' & s1 & E1 & _ & tr & Ht). rewrite E in E1.
  injection E1 as <- <-. by destruct Ht as (? & ? & ? & ? & ? & ? & ->).
Qed.

Lemma NotifyClock_tick Q c now s : sending Q c s -> m_state s <> TCP_CLOSED -> m_rto_base s <> 0 ->
  MAX_RTO <= u32 (now - m_rto_base s) < 2 ^ 31 ->
  exists s', NotifyClock now s = Some s' /\ sending Q c s' /\ (ticked now s s' \/ gave_up s').
Proof.
  intros Hs Hst H0 Hd. destruct (NotifyClock_spec Q c now s Hs) as (s' & E & Hs' & _).
  exists s'. split; [done|]. split; [done|]. unfold NotifyClock in E. rewrite bool_decide_eq_false_2 in E by done.
  destruct (clock_retransmit_spec Q c now s Hs) as (ok & s1 & E1 & Hs1 & _).
  destruct (retransmit_tick Q c now s Hs H0 Hd) as (ok' & s1' & E1' & Ht). rewrite E1 in E1'. injection E1' as <- <-.
  rewrite E1 in E. destruct ok; cbn [negb] in E; [|injection E as <-; by right].
  destruct (clock_probe_spec Q c now s1 Hs1) as (ok & s2 & E2 & Hs2 & _). rewrite E2 in E.
  assert (H2 : if ok then m_state s2 = m_state s1 /\ head_xmit s2 = head_xmit s1 /\ m_rto_base s2 = m_rto_base s1
               else gave_up s2).
  { unfold clock_probe in E2. destruct (_ && _); [|by injection E2 as <- <-].
    destruct (15000 <=? _); [injection E2 as <- <-; apply gave_up_closedown|].
    destruct (packet _ _ _ _ _) as [[r s3]|] eqn:Ep; [|done]. injection E2 as <- <-.
    exact (packet_ack_frame Q c _ _ _ _ Hs1 Ep). }
  destruct ok; cbn [negb] in E; [|injection E as <-; by right].
  assert (H3 : m_state s' = m_state s2 /\ head_xmit s' = head_xmit s2 /\ m_rto_base s' = m_rto_base s2).
  { unfold clock_ack in E. destruct (_ && _); [|by injection E as <-].
    destruct (packet _ _ _ _ _) as [[r s3]|] eqn:Ep; [|done]. injection E as <-.
    exact (packet_ack_frame Q c _ _ _ _ Hs2 Ep). }
  left. destruct H2 as (A1 & A2 & A3), H3 as (B1 & B2 & B3), Ht as [T1 T2 T3].
  split; [congruence| |congruence]. by rewrite B2, A2.
Qed.

Lemma clock_closed nows s : m_state s = TCP_CLOSED -> clock_run nows s = Some s.
Proof.
  intros Hc. induction nows as [|now nows IH]; cbn; [done|]. unfold NotifyClock. by rewrite bool_decide_eq_true_2.
Qed.

Lemma clock_gives_up Q c nows s : sending Q c s -> m_state s <> TCP_CLOSED -> m_rto_base s <> 0 ->
  spaced (m_rto_base s) nows -> limit s - head_xmit s < Z.of_nat (length nows) -> nows <> [] ->
  exists s', clock_run nows s = Some s' /\ gave_up s'.
Proof.
  revert s; induction nows as [|now nows IH]; intros s Hs Hst H0 Hsp Hlen Hne; [done|].
  destruct Hsp as (Hn & Hd & Hsp). destruct (NotifyClock_tick Q c now s Hs Hst H0 Hd) as (s1 & E & Hs1 & Ht).
  cbn [clock_run length] in *. rewrite E. destruct Ht as [[T1 [T2 T3] T4]|Hg].
  2: { exists s1. split; [|done]. apply clock_closed, Hg. }
  assert (Hlim : limit s1 = limit s) by (unfold limit, is_established; by rewrite T1).
  apply IH; [done|congruence|congruence|by rewrite T4|lia|]. intros ->. cbn in Hlen. lia.
Qed.

Lemma limit_head s Q c : sending Q c s -> m_rto_base s <> 0 -> 0 < head_xmit s.
Proof.
  intros [Hs _] H0. apply (head_range Q c s Hs). destruct Hs as [_ _ [Hl _] _]. auto.
Qed.

(** C5: An end that is connecting or established with data in flight does
    not wait for ever: after any guarded run of calls that leaves the
    retransmission timer set, if the clock is then notified at readings at
    least MAX_RTO (60 s) apart and the peer stays silent, within 15
    notifications when established, 30 before, the object is closed and has
    reported ECONNABORTED in its last callback. *)
Theorem pseudotcp_gives_up pk PS conv clock os rs s nows :
  scale_ok pk -> Z.of_nat (length (connect_message pk ++ PS)) < 2 ^ 32 ->
  guards pk PS os (new conv clock) -> run os (new conv clock) = Some (rs, s) ->
  m_state s <> TCP_CLOSED -> m_rto_base s <> 0 ->
  spaced (m_rto_base s) nows -> limit s <= Z.of_nat (length nows) ->
  exists s', clock_run nows s = Some s' /\ gave_up s'.
Proof.
  intros Hk HP Hg E Hst H0 Hsp Hlen. pose proof (new_conn_ok pk PS conv clock Hk HP) as Hc0.
  destruct (run_spec pk PS Hk HP None os [] [] (new conv clock)) as (rs' & s' & E' & _ & Q & c & Hc); [by eexists _, _|done|].
  rewrite E in E'. injection E' as <- <-. pose proof (c_send _ _ _ _ _ _ _ _ Hc) as Hs.
  pose proof (limit_head s Q c Hs H0). apply (clock_gives_up Q c); try done; [lia|].
  intros ->. cbn in Hlen. unfold limit in Hlen. destruct (is_established s); lia.
Qed.

End Host.

(** The first Connect, with a silent peer: 30 minutes of clock. *)
Definition silence : list Z := map (fun i => 1002 + 60000 * Z.of_nat i) (seq 1 30).

Lemma pseudotcp_gives_up_witness :
  match @run x86 steady [OpConnect] (@new x86 steady 7 0) with
  | Some (_, s) => limit s = 30 /\ exists s', @clock_run x86 steady silence s = Some s' /\ gave_up s'
  | None => False
  end.
Proof.
  assert (Hv : option_map (fun '(rs, s) => (m_state s, m_rto_base s, limit s)) (@run x86 steady [OpConnect] (@new x86 steady 7 0)) =
    Some (TCP_SYN_SENT, 1001, 30)) by (vm_compute; reflexivity).
  destruct (@run x86 steady [OpConnect] (@new x86 steady 7 0)) as [[rs s]|] eqn:E; [|discriminate Hv].
  injection Hv as Hst Hb Hl. split; [exact Hl|].
  apply (@pseudotcp_gives_up x86 steady None [] 7 0 [OpConnect] rs s silence).
  - exact I.
  - reflexivity.
  - split; [exact I|]. intros. exact I.
  - exact E.
  - rewrite Hst. discriminate.
  - rewrite Hb. discriminate.
  - rewrite Hb. vm_compute. repeat split; discriminate.
  - rewrite Hl. discriminate.
Defined.
End PseudoTcpTimer.
