(* ===== verification/PseudoTcpNet.v ===== *)
(** * PseudoTcp: two ends and a network

    Two objects joined by a network that loses, duplicates, delays and
    reorders packets, but for the deliveries that [orderly] leaves out: the
    step relation [reach], its invariant ([half], one end relative to what the
    other queued), and the theorems about runs of one end and of the pair.
    What is left out breaks the code: the last section evaluates it. *)

From S2P Require Import Prelude ByteOrder ByteBuffer FifoBuffer PseudoTcp PseudoTcpSend PseudoTcpAck.
From S2P Require Import PseudoTcpRecv PseudoTcpSafety.
Import ByteOrder PseudoTcp PseudoTcpSend PseudoTcpAck PseudoTcpRecv PseudoTcpSafety.
Open Scope jingle_scope.

Module PseudoTcpNet.

(** ** One end, whatever the other goes on to send *)

(** What an end queued: nothing, or its connect message and the data. *)
Definition queued (K : option (option Z)) (S : bytes) : bytes :=
  match K with None => [] | Some k => connect_message k ++ S end.

(** A stream [pk], [PS] that the peer may end up with. *)
Record extends (K : option (option Z)) (S : bytes) (pk : option Z) (PS : bytes) : Prop := {
  e_scale : scale_ok pk;
  e_bound : Z.of_nat (length (connect_message pk ++ PS)) < 2 ^ 32;
  e_prefix : S `prefix_of` PS;
  e_same : forall k, K = Some k -> pk = k;
}.

Section Host.
Context {HM : Machine}.

Record half (K : option (option Z)) (S : bytes) (KP : option (option Z)) (SP D : bytes) (s : t) : Prop := {
  h_closed : K = None -> S = [];
  h_conn : exists c, forall pk PS, extends KP SP pk PS -> conn_ok pk PS K (queued K S) c S D s;
}.

Lemma conn_mix pk PS own Q c S D pk' PS' own' Q' c' S' D' s :
  conn_ok pk PS own Q c S D s -> conn_ok pk' PS' own' Q' c' S' D' s -> conn_ok pk PS own' Q' c' S' D s.
Proof. intros [_ Hr _ _] [Hs _ Hm Hst]. by split. Qed.

Lemma conn_tag pk PS own Q c S D s : conn_ok pk PS own Q c S D s ->
  exists K, (own = None \/ K = own) /\ Q = queued K S /\ (K = None -> S = []) /\ conn_ok pk PS K Q c S D s.
Proof.
  intros [Hs Hr Hm Hst]. pose proof Hst as [(-> & ? & -> & ? & ? & ->)|(? & k & ? & -> & ? & ? & Hown)].
  - exists None. split_and!; [by left|done..|by split].
  - exists (Some k). split_and!; [by destruct Hown; auto|done..|]. split; try done. right. split; [done|]. exists k. auto 10.
Qed.

Lemma prefix_app_r {A} (l k m : list A) : l ++ k `prefix_of` m -> l `prefix_of` m.
Proof. intros [x ->]. exists (k ++ x). by rewrite app_assoc. Qed.

(** What this end queued bounds what it sends. *)
Lemma half_extends K S KP SP D s pk0 PS0 : half K S KP SP D s -> extends KP SP pk0 PS0 ->
  exists pk, extends K S pk S.
Proof.
  intros [Hcl [c Hc]] Hx. destruct (Hc _ _ Hx) as [[[[_ _ _ _ Hr _] _ _ _] _] _ _ Hst]. destruct K as [k|].
  - exists k. destruct Hst as [(_ & _ & _ & _ & _ & ?)|(_ & k' & Hk & HQ & _ & _ & [?|E])]; [done..|].
    injection E as <-. split; [done|unfold queued in Hr; lia|done|by intros ? [= ->]].
  - exists None. rewrite Hcl by done. split; [done|cbn; lia|done|done].
Qed.

Lemma peer_grows K S KP SP KP' SP' D s : half K S KP SP D s -> (KP = None \/ KP' = KP) -> SP `prefix_of` SP' ->
  half K S KP' SP' D s.
Proof.
  intros [Hcl [c Hc]] HK [x ->]. split; [done|]. exists c. intros pk PS [H1 H2 H3 H4]. apply Hc.
  split; [done|done|by eapply prefix_app_r|]. intros k ->. apply H4. by destruct HK as [|].
Qed.

Lemma half_step {HN : IPseudoTcpNotify} K S KP SP D s o pk0 : half K S KP SP D s -> extends KP SP pk0 SP ->
  (forall pk PS, extends KP SP pk PS -> guard pk PS o s) ->
  exists r d s' K', exec o s = Some (r, d, s') /\ (K = None \/ K' = K) /\
    half K' (S ++ accepted o r) KP SP (D ++ d) s'.
Proof.
  intros [Hcl [c Hc]] Hx0 Hg.
  assert (Hall : forall pk PS, extends KP SP pk PS -> exists r d s', exec o s = Some (r, d, s') /\
    conn pk PS K (S ++ accepted o r) (D ++ d) s').
  { intros pk PS Hx. apply call_spec; [apply Hx|apply Hx| |by apply Hg]. exists (queued K S), c. by apply Hc. }
  destruct (Hall _ _ Hx0) as (r & d & s' & E & Q' & c' & Hc').
  destruct (conn_tag _ _ _ _ _ _ _ _ Hc') as (K' & HK & -> & Hcl' & Hc2).
  exists r, d, s', K'. split; [done|]. split; [done|]. split; [done|]. exists c'. intros pk PS Hx.
  destruct (Hall _ _ Hx) as (r1 & d1 & s1 & E1 & Q1 & c1 & H1). rewrite E in E1. injection E1 as <- <- <-.
  by eapply conn_mix.
Qed.

(** What an end received is a prefix of what the other sent. *)
Lemma half_prefix K S KP SP D s pk : half K S KP SP D s -> extends KP SP pk SP -> D `prefix_of` SP.
Proof.
  intros [_ [c Hc]] Hx. destruct (Hc _ _ Hx) as [_ [_ _ _ _ [n Hp] _] _ _].
  rewrite app_stream_P in Hp by apply Hx. apply (prefix_app_r _ (FifoBuffer.contents (m_rbuf s))).
  rewrite Hp. exists (drop n SP). by rewrite take_drop.
Qed.

(** ** The network *)

(** Beyond coming from the peer, a packet of this conversation must carry
    the connect message whole (to an end that scales its window only if the
    peer does), data only after it, and acknowledge whole segments. *)
Definition orderly (peer s : t) (b : bytes) : Prop :=
  forall seg, parse_segment b = Some seg -> seg_conv seg = m_conv s ->
    let hello := Z.of_nat (length (connect_message (own_scale peer))) in
    (seg_len seg <> 0 -> is_flag (seg_flags seg) FLAG_CTL = true ->
       seg_seq seg = 0 /\ seg_len seg = hello /\ (own_scale peer = None -> m_rwnd_scale s = 0)) /\
    (seg_len seg <> 0 -> is_flag (seg_flags seg) FLAG_CTL = false -> hello <= m_rcv_nxt s) /\
    (m_snd_una s < seg_ack seg <= m_snd_nxt s -> ack_boundary s (seg_ack seg)).

Definition allowed (o : op) (peer s : t) : Prop :=
  match o with
  | OpNotifyPacket b => TcpPacket b ∈ m_trace peer /\ orderly peer s b
  | _ => guard None [] o s
  end.

#[export] Instance orderly_dec peer s b : Decision (orderly peer s b).
Proof.
  unfold orderly. destruct (parse_segment b) as [seg|]; [|left; abstract done].
  match goal with |- Decision (forall x, _ -> @?Q x) => destruct (decide (Q seg)) as [Hy|Hn] end.
  - left. abstract (by intros ? [= <-]).
  - right. abstract (intros H; by apply Hn, H).
Defined.

#[export] Instance allowed_dec o peer s : Decision (allowed o peer s).
Proof. destruct o; apply _. Defined.

Lemma allowed_guard K S KP SP DP s p o pk0 : half KP SP K S DP p -> extends K S pk0 S ->
  allowed o p s -> forall pk PS, extends KP SP pk PS -> guard pk PS o s.
Proof.
  intros [Hcl [c Hc]] Hx0 Ha pk PS Hx. destruct o; try exact Ha. destruct Ha as [Hin Hord].
  destruct (Hc _ _ Hx0) as [[[_ _ _ Htr] _] _ _ Hst].
  unfold trace_ok in Htr. rewrite Forall_forall in Htr. destruct (Htr _ Hin) as (seg & Hp & Hseg & _).
  right; right. exists seg. split; [done|]. intros Hcv. destruct (Hord seg Hp Hcv) as (O1 & O2 & O3).
  destruct KP as [k|].
  - destruct Hst as [(_ & _ & _ & _ & _ & ?)|(_ & k' & Hk & HQ & Hcc & Hown & [?|E])]; [done..|]. injection E as <-.
    destruct Hx as [X1 X2 [x ->] X4]. pose proof (X4 k eq_refl) as ->. rewrite <- Hown in O1, O2. split; try done.
    unfold P, pc. rewrite app_assoc, <- Hcc. by apply segment_of_app.
  - apply segment_of_nil in Hseg as H0. split; try done. by left.
Qed.

Record ends := mkEnds { endA : t; endB : t; sentA : bytes; sentB : bytes; receivedA : bytes; receivedB : bytes }.

Section Pair.
Variables NA NB : IPseudoTcpNotify.

(** A call at one end. *)
Definition act (atA : bool) (o : op) (e : ends) : option ends :=
  if atA then
    let? (r, d, s) := @exec HM NA o (endA e) in
    Some (mkEnds s (endB e) (sentA e ++ accepted o r) (sentB e) (receivedA e ++ d) (receivedB e))
  else
    let? (r, d, s) := @exec HM NB o (endB e) in
    Some (mkEnds (endA e) s (sentA e) (sentB e ++ accepted o r) (receivedA e) (receivedB e ++ d)).

Definition permitted (atA : bool) (o : op) (e : ends) : Prop :=
  if atA then allowed o (endB e) (endA e) else allowed o (endA e) (endB e).

Inductive reach : ends -> Prop :=
  | reach_start convA convB clockA clockB :
      reach (mkEnds (@new HM NA convA clockA) (@new HM NB convB clockB) [] [] [] [])
  | reach_step e atA o e' : reach e -> permitted atA o e -> act atA o e = Some e' -> reach e'.

Record pair_ok (e : ends) (KA KB : option (option Z)) : Prop := {
  p_A : half KA (sentA e) KB (sentB e) (receivedA e) (endA e);
  p_B : half KB (sentB e) KA (sentA e) (receivedB e) (endB e);
  p_xA : exists pk, extends KA (sentA e) pk (sentA e);
  p_xB : exists pk, extends KB (sentB e) pk (sentB e);
}.

Lemma pair_start convA convB clockA clockB :
  pair_ok (mkEnds (@new HM NA convA clockA) (@new HM NB convB clockB) [] [] [] []) None None.
Proof.
  assert (Hx : exists pk, extends None [] pk []) by (exists None; by split).
  assert (Hh : forall (N : IPseudoTcpNotify) conv clock, half None [] None [] [] (new conv clock)).
  { intros N conv clock. split; [done|]. exists 1. intros pk PS [Hk HP _ _]. by apply new_conn_ok. }
  by split; cbn.
Qed.

Lemma pair_step e KA KB atA o : pair_ok e KA KB -> permitted atA o e ->
  exists e' KA' KB', act atA o e = Some e' /\ pair_ok e' KA' KB'.
Proof.
  intros [HA HB [pA XA] [pB XB]] Hp. destruct atA; unfold act, permitted in *.
  - destruct (@half_step NA _ _ _ _ _ _ o _ HA XB) as (r & d & s' & K' & E & HK & H').
    { by eapply allowed_guard. }
    rewrite E. eexists _, K', KB. split; [reflexivity|].
    split; cbn; [done| |by eapply half_extends|by exists pB]. eapply peer_grows; [done|done|by eexists].
  - destruct (@half_step NB _ _ _ _ _ _ o _ HB XA) as (r & d & s' & K' & E & HK & H').
    { by eapply allowed_guard. }
    rewrite E. eexists _, KA, K'. split; [reflexivity|].
    split; cbn; [|done|by exists pA|by eapply half_extends]. eapply peer_grows; [done|done|by eexists].
Qed.

Lemma reach_ok e : reach e -> exists KA KB, pair_ok e KA KB.
Proof.
  induction 1 as [|e atA o e' _ (KA & KB & Hok) Hp E].
  - exists None, None. apply pair_start.
  - destruct (pair_step e KA KB atA o Hok Hp) as (e1 & KA' & KB' & E1 & Hok'). rewrite E in E1.
    injection E1 as <-. by exists KA', KB'.
Qed.

(** ** Schedules

    A call at one end, or the delivery to it of the other's [n]th event (a
    packet); [play] checks each step and is a way to reach a state. *)
Inductive move := Call (atA : bool) (o : op) | Deliver (atA : bool) (n : nat).

Definition op_of (m : move) (e : ends) : option (bool * op) :=
  match m with
  | Call atA o => Some (atA, o)
  | Deliver atA n =>
      match m_trace (if atA then endB e else endA e) !! n with
      | Some (TcpPacket b) => Some (atA, OpNotifyPacket b)
      | _ => None
      end
  end.

#[export] Instance permitted_dec atA o e : Decision (permitted atA o e).
Proof. unfold permitted. destruct atA; apply _. Defined.

Fixpoint play (l : list move) (e : ends) : option ends :=
  match l with
  | [] => Some e
  | m :: l =>
      let? (atA, o) := op_of m e in
      if decide (permitted atA o e) then let? e := act atA o e in play l e else None
  end.

Lemma play_reach l e e' : reach e -> play l e = Some e' -> reach e'.
Proof.
  revert e; induction l as [|m l IH]; intros e He; cbn [play]; [by intros [= <-]|].
  destruct (op_of m e) as [[atA o]|]; [|done]. destruct (decide _) as [Hp|]; [|done].
  destruct (act atA o e) as [e1|] eqn:E; [|done]. apply IH. by eapply reach_step.
Qed.

(** C1: Two PseudoTcp objects joined by a network that loses, duplicates,
    delays and reorders the packets they write, with three exceptions
    ([orderly]): an end is given data only when it has the connect message of
    its peer; a connect message comes whole, and scales the window if that of
    the receiver is scaled; an acknowledgement is for whole segments.  In
    every state that is reached so, what each end received is a prefix of what
    the other end's Send calls accepted, and every further call - one of the
    interface, within its range ([guard]: fewer than 2^32 bytes in all, an MTU
    above 116, buffers set before connecting, of at least four bytes), or the
    delivery of any packet written so far but for the exceptions - is executed
    without undefined behaviour.  The exceptions are needed:
    [early_data_breaks_prefix] is a schedule of such a network, but for the
    first, in which Recv hands out bytes that were never sent, and after
    [inner_ack_undefined] the retransmission reads outside the send buffer. *)
Theorem pseudotcp_end_to_end e : reach e ->
  receivedB e `prefix_of` sentA e /\ receivedA e `prefix_of` sentB e /\
  forall atA o, permitted atA o e -> exists e', act atA o e = Some e'.
Proof.
  intros He. destruct (reach_ok e He) as (KA & KB & Hok). pose proof Hok as [HA HB [pA XA] [pB XB]].
  split; [by eapply half_prefix|]. split; [by eapply half_prefix|]. intros atA o Hp.
  destruct (pair_step e KA KB atA o Hok Hp) as (e' & _ & _ & E & _). by exists e'.
Qed.
End Pair.

Section Runs.
Context {HN : IPseudoTcpNotify}.
Variables (pk : option Z) (PS : bytes) (conv : Z) (clock : nat) (os : list op).
Hypothesis Hpk : scale_ok pk.
Hypothesis HPS : Z.of_nat (length (connect_message pk ++ PS)) < 2 ^ 32.
Hypothesis Hguards : guards pk PS os (new conv clock).

Lemma run_new : exists rs s, run os (new conv clock) = Some (rs, s) /\ length rs = length os /\
  conn pk PS None (sent_stream os rs) (received_stream rs) s.
Proof.
  apply (run_spec pk PS Hpk HPS None os [] []); [|done]. exists [], 1. by apply new_conn_ok.
Qed.

(** C4: Every run of calls on a new object, made within the caller's and the
    peer's obligations ([guard], [segment_guard]), is executed to the end: no access outside an array
    or a list, no shift by 32 or more, no division by zero, no failed
    assertion, no endless loop; the state variables keep their bounds. *)
Theorem pseudotcp_run_total : exists rs s, run os (new conv clock) = Some (rs, s) /\
  length rs = length os /\ in_bounds s.
Proof.
  destruct run_new as (rs & s & E & Hl & Hc). exists rs, s. split_and!; [done|done|]. by eapply conn_bounds.
Qed.

(** C3: If the acknowledgements an end gets are for whole segments (and its
    peer and its caller otherwise do as in C4), every packet a run of it
    writes is at most MAX_PACKET bytes and parses to a
    segment that is empty or carries exactly the bytes, at its sequence
    number, of the stream made of the connect message and what Send
    accepted: first transmissions, retransmissions, and segments cut to the
    window or the packet size alike.  After an acknowledgement inside a
    segment this fails ([inner_ack_undefined]). *)
Theorem pseudotcp_sends_stream : exists rs s k, run os (new conv clock) = Some (rs, s) /\
  forall b, TcpPacket b ∈ m_trace s -> exists seg, parse_segment b = Some seg /\
    segment_of (connect_message k ++ sent_stream os rs) (Z.of_nat (length (connect_message k))) seg /\
    is_flag (seg_flags seg) FLAG_RST = false /\ Z.of_nat (length b) <= MAX_PACKET.
Proof.
  destruct run_new as (rs & s & E & _ & Hc). destruct (conn_packets _ _ _ _ _ Hc) as (k & Hk).
  exists rs, s, k. by split.
Qed.

(** C2: Once the connect message of the peer has come, whole, the segments of
    its stream may arrive in whatever order and however often, with
    acknowledgements for whole segments, and be cut in any way: what Recv
    hands out over a run, followed by what is ready to be read, is a prefix of
    the data the peer sent.  (Before the connect message any segment without
    data may arrive, [segment_guard]; data that arrives then breaks the
    property, [early_data_breaks_prefix].) *)
Theorem pseudotcp_delivers_prefix : exists rs s, run os (new conv clock) = Some (rs, s) /\
  received_stream rs ++ FifoBuffer.contents (m_rbuf s) `prefix_of` PS.
Proof.
  destruct run_new as (rs & s & E & _ & Q & c & [_ [_ _ _ _ [n Hp] _] _ _]). exists rs, s. split; [done|].
  rewrite Hp, app_stream_P by done. exists (drop n PS). by rewrite take_drop.
Qed.

(** C6: After any guarded run the calls of the interface fail exactly when
    they should, with the error of the source and no other effect: Connect
    unless listening (EINVAL); Send unless established (ENOTCONN) and when
    the send buffer is full (EWOULDBLOCK, and the application will be told
    when there is room); Recv unless established and when nothing is ready.
    Otherwise Send accepts what fits and Recv hands out what is ready, up to
    the length asked for. *)
Theorem pseudotcp_call_errors rs s d n : run os (new conv clock) = Some (rs, s) ->
  Z.of_nat (length d) + Buffered (m_sbuf s) + m_snd_una s < 2 ^ 32 ->
  (exists r s', Connect s = Some (r, s') /\
     if decide (m_state s = TCP_LISTEN) then r = 0 else r = -1 /\ s' = set_error EINVAL s) /\
  (exists r s', Send d s = Some (r, s') /\
     if negb (is_established s) then r = -1 /\ s' = set_error ENOTCONN s
     else if (FifoBuffer.GetWriteRemaining (m_sbuf s) =? 0)%nat
     then r = -1 /\ s' = set_error EWOULDBLOCK (set_bWriteEnable true s)
     else r = Z.of_nat (Nat.min (length d) (FifoBuffer.GetWriteRemaining (m_sbuf s)))) /\
  (exists r data s', Recv n s = Some (r, data, s') /\
     if negb (is_established s) then r = -1 /\ data = [] /\ s' = set_error ENOTCONN s
     else if decide (FifoBuffer.contents (m_rbuf s) = [])
     then r = -1 /\ data = [] /\ s' = set_error EWOULDBLOCK (set_bReadEnable true s)
     else r = Z.of_nat (length data) /\ data = take n (FifoBuffer.contents (m_rbuf s))).
Proof.
  intros E Hd. destruct run_new as (rs' & s' & E' & _ & Hc). rewrite E in E'. injection E' as <- <-.
  split_and!; [by eapply Connect_result|by eapply Send_result|by eapply Recv_result].
Qed.
End Runs.

(** Whatever packet() writes, a peer's parse reads the fields back: the
    conversation, the sequence number, the acknowledgement (the next byte
    expected), the flags, the receive window in units of the window scale,
    the two timestamps, and the payload taken from the send buffer. *)
Theorem pseudotcp_packet_roundtrip {HN : IPseudoTcpNotify} seq flags offset len s data :
  payload offset len s = Some data -> HEADER_SIZE + len <= MAX_PACKET ->
  exists r s' b now, packet seq flags offset len s = Some (r, s') /\
    m_trace s' = m_trace s ++ [TcpPacket b] /\ length b = (24 + length data)%nat /\
    parse_segment b = Some {|
      seg_conv := u32 (m_conv s); seg_seq := u32 seq; seg_ack := u32 (m_rcv_nxt s); seg_flags := flags;
      seg_wnd := u16 (Z.shiftr (m_rcv_wnd s) (m_rwnd_scale s));
      seg_data := data; seg_len := Z.of_nat (length data);
      seg_tsval := u32 now; seg_tsecr := u32 (m_ts_recent s) |}.
Proof.
  intros Hd Hl. destruct (packet_spec seq flags offset len s data Hd Hl) as (r & s' & now & k & E & Ht).
  exists r, s', (header seq flags now (set_clock k s) ++ data), now. split_and!; [done| | |].
  - by destruct Ht as (? & ? & ? & ? & ? & ? & ->).
  - by rewrite length_app, length_packet_header.
  - by rewrite header_roundtrip.
Qed.
End Host.

(** ** Evaluation *)

Definition start : ends := mkEnds (@new x86 steady 7 0) (@new x86 steady 7 0) [] [] [] [].
(** Connect, one segment each way, one of them delivered twice. *)
Definition exchange : list move :=
  [Call true OpConnect; Deliver false 0; Deliver true 0; Call true (OpSend [1; 2; 3; 4; 5]); Deliver false 2;
   Deliver false 2; Call false (OpSend [9; 8]); Deliver true 4; Call false (OpRecv 3); Call true (OpRecv 4)].

Lemma pseudotcp_end_to_end_witness : exists e, @play x86 steady steady exchange start = Some e /\
  receivedB e = [1; 2; 3] /\ receivedA e = [9; 8] /\
  receivedB e `prefix_of` sentA e /\ receivedA e `prefix_of` sentB e /\
  exists e', @act x86 steady steady false (OpRecv 10) e = Some e'.
Proof.
  assert (Hv : option_map (fun e => (receivedB e, receivedA e)) (@play x86 steady steady exchange start) =
    Some ([1; 2; 3], [9; 8])) by (vm_compute; reflexivity).
  destruct (play steady steady exchange start) as [e|] eqn:E; [|discriminate Hv].
  injection Hv as Hb Ha. exists e.
  pose proof (@pseudotcp_end_to_end x86 steady steady e (play_reach _ _ _ _ _ (reach_start _ _ 7 7 0 0) E)) as (H1 & H2 & H3).
  split_and!; try assumption; [reflexivity|]. exact (H3 false (OpRecv 10) I).
Defined.

(** ** What the conditions leave out *)

(** A schedule without the check of [permitted]: any packet that the peer has
    written is delivered at any time. *)
Fixpoint replay (l : list move) (e : ends) : option ends :=
  match l with
  | [] => Some e
  | m :: l => let? (atA, o) := op_of m e in let? e := @act x86 steady steady atA o e in replay l e
  end.
(** Both ends connect; A has the connect message of B, and sends; its second
    segment overtakes its own connect message and its first. *)
Definition overtaking : list move :=
  [Call true (OpSetOption OPT_NODELAY 1); Call true OpConnect; Call false OpConnect; Deliver true 0;
   Call true (OpSend [1; 2; 3; 4]); Call true (OpSend [5; 6; 7; 8]);
   Deliver false 3; Deliver false 0; Deliver false 2; Call false (OpRecv 10)].

(** The early data stays where it was put, counted from before the connect
    message, and Recv hands out what is there instead. *)
Lemma early_data_breaks_prefix : exists e, replay overtaking start = Some e /\
  sentA e = [1; 2; 3; 4; 5; 6; 7; 8] /\ receivedB e = [1; 2; 3; 4; 0; 0; 0; 0] /\ ~ receivedB e `prefix_of` sentA e.
Proof.
  assert (Hv : option_map (fun e => (sentA e, receivedB e)) (replay overtaking start) =
    Some ([1; 2; 3; 4; 5; 6; 7; 8], [1; 2; 3; 4; 0; 0; 0; 0])) by (vm_compute; reflexivity).
  destruct (replay overtaking start) as [e|]; [|discriminate Hv]. injection Hv as Hs Hr. exists e.
  rewrite Hs, Hr. split_and!; try done. intros [k E]. discriminate E.
Qed.
(** It is the delivery of the early segment that is not permitted. *)
Lemma overtaking_permitted : map (fun n => match @play x86 steady steady (take n overtaking) start with Some _ => true | None => false end) [6; 7]%nat = [true; false].
Proof. vm_compute. reflexivity. Qed.

(** The calls of the end that connects, with the packets it got. *)
Definition answer : bytes :=
  [0; 0; 0; 7; 0; 0; 0; 0; 0; 0; 0; 4; 0; 2; 240; 0; 0; 0; 3; 235; 0; 0; 3; 234; 0; 3; 1; 0].
Definition reply : bytes :=
  [0; 0; 0; 7; 0; 0; 0; 4; 0; 0; 0; 9; 0; 0; 239; 251; 0; 0; 3; 243; 0; 0; 3; 239; 9; 8].
Definition calls : list op :=
  [OpConnect; OpNotifyPacket answer; OpSend [1; 2; 3; 4; 5]; OpNotifyClock 5000; OpNotifyPacket reply;
   OpNotifyPacket reply; OpRecv 1; OpSend [6]; OpClose false].
Lemma calls_guards : bool_decide (@guards x86 steady (Some 0) [9; 8] calls (@new x86 steady 7 0)) = true.
Proof. vm_compute. reflexivity. Qed.

(** An acknowledgement of three of the five bytes, which the guard leaves
    out: the segment keeps its sequence number, and its retransmission reads
    the send buffer from before its beginning. *)
Definition inner_ack : bytes :=
  [0; 0; 0; 7; 0; 0; 0; 4; 0; 0; 0; 7; 0; 0; 239; 251; 0; 0; 3; 243; 0; 0; 3; 239].
Lemma packet_outside {HM : Machine} {HN : IPseudoTcpNotify} seq flags offset len s : len <> 0 ->
  Z.of_nat (FifoBuffer.data_length_ (m_sbuf s)) <= offset -> packet seq flags offset len s = None.
Proof.
  intros Hl Ho. unfold packet. destruct (HEADER_SIZE + len <=? MAX_PACKET); [|done]. destruct (Now s) as [now s1] eqn:En. cbn zeta.
  assert (Hb : m_sbuf s1 = m_sbuf s) by (by injection En as _ <-). unfold payload. rewrite (proj2 (Z.eqb_neq _ _) Hl).
  change (m_sbuf (set_ts_lastack (m_rcv_nxt s1) s1)) with (m_sbuf s1). unfold FifoBuffer.ReadOffset, FifoBuffer.ReadOffsetLocked.
  rewrite Hb, (proj2 (Nat.leb_le _ _)) by lia. by destruct (bool_decide _).
Qed.
Lemma inner_ack_undefined : exists rs s,
  @run x86 steady (take 3 calls ++ [OpNotifyPacket inner_ack]) (@new x86 steady 7 0) = Some (rs, s) /\
  m_snd_una s = 7 /\ map (fun g => (s_seq g, s_len g)) (m_slist s) = [(4, 2)] /\
  forall flags, @packet x86 steady 4 flags (u32 (4 - m_snd_una s)) 2 s = None.
Proof.
  assert (Hv : option_map (fun '(rs, s) => (m_snd_una s, map (fun g => (s_seq g, s_len g)) (m_slist s), FifoBuffer.data_length_ (m_sbuf s)))
    (@run x86 steady (take 3 calls ++ [OpNotifyPacket inner_ack]) (@new x86 steady 7 0)) = Some (7, [(4, 2)], 2%nat))
    by (vm_compute; reflexivity).
  destruct (run _ _) as [[rs s]|]; [|discriminate Hv]. injection Hv as H1 H2 H3. exists rs, s. split_and!; [done..|].
  intros flags. apply packet_outside; [done|]. rewrite H1, H3. by vm_compute.
Qed.
Lemma inner_ack_guards : bool_decide (@guards x86 steady (Some 0) [9; 8] (take 3 calls ++ [OpNotifyPacket inner_ack]) (@new x86 steady 7 0)) = false.
Proof. vm_compute. reflexivity. Qed.

Lemma pseudotcp_run_total_witness : exists rs s, @run x86 steady calls (@new x86 steady 7 0) = Some (rs, s) /\
  length rs = 9%nat /\ in_bounds s.
Proof.
  apply (@pseudotcp_run_total x86 steady (Some 0) [9; 8] 7 0 calls);
    [split; discriminate|reflexivity|exact (bool_decide_eq_true_1 _ calls_guards)].
Defined.

Lemma pseudotcp_sends_stream_witness : exists rs s k, @run x86 steady calls (@new x86 steady 7 0) = Some (rs, s) /\
  forall b, TcpPacket b ∈ m_trace s -> exists seg, @parse_segment x86 b = Some seg /\
    segment_of (connect_message k ++ sent_stream calls rs) (Z.of_nat (length (connect_message k))) seg /\
    is_flag (seg_flags seg) FLAG_RST = false /\ Z.of_nat (length b) <= MAX_PACKET.
Proof.
  apply (@pseudotcp_sends_stream x86 steady (Some 0) [9; 8] 7 0 calls);
    [split; discriminate|reflexivity|exact (bool_decide_eq_true_1 _ calls_guards)].
Defined.

Lemma pseudotcp_delivers_prefix_witness : exists rs s, @run x86 steady calls (@new x86 steady 7 0) = Some (rs, s) /\
  received_stream rs ++ FifoBuffer.contents (m_rbuf s) `prefix_of` [9; 8].
Proof.
  apply (@pseudotcp_delivers_prefix x86 steady (Some 0) [9; 8] 7 0 calls);
    [split; discriminate|reflexivity|exact (bool_decide_eq_true_1 _ calls_guards)].
Defined.

Lemma pseudotcp_call_errors_witness :
  match @run x86 steady calls (@new x86 steady 7 0) with
  | Some (rs, s) =>
      (exists s', @Connect x86 steady s = Some (-1, s') /\ s' = set_error EINVAL s) /\
      (exists s', @Send x86 steady [1; 2] s = Some (2, s')) /\
      (exists s', @Recv x86 steady 5 s = Some (1, [8], s'))
  | None => False
  end.
Proof.
  assert (Hv : option_map (fun '(rs, s) => (m_state s, Z.of_nat (FifoBuffer.GetWriteRemaining (m_sbuf s)),
      Buffered (m_sbuf s), m_snd_una s, FifoBuffer.contents (m_rbuf s)))
    (@run x86 steady calls (@new x86 steady 7 0)) = Some (TCP_ESTABLISHED, 92159, 1, 9, [8]))
    by (vm_compute; reflexivity).
  destruct (@run x86 steady calls (@new x86 steady 7 0)) as [[rs s]|] eqn:E; [|discriminate Hv].
  injection Hv as Hst Hroom Hb Hu Hct.
  destruct (@pseudotcp_call_errors x86 steady (Some 0) [9; 8] 7 0 calls ltac:(split; discriminate) eq_refl
    (bool_decide_eq_true_1 _ calls_guards) rs s [1; 2] 5%nat E) as (HC & HS & HR); [rewrite Hb, Hu; reflexivity|].
  unfold is_established in HS, HR. rewrite Hst in HC, HS, HR. rewrite Hct in HR. clear E. split_and!.
  - destruct HC as (r & s' & -> & -> & ->). eexists. split; reflexivity.
  - destruct HS as (r & s' & H & Hr). exists s'. set (room := FifoBuffer.GetWriteRemaining (m_sbuf s)) in *.
    clearbody room. rewrite bool_decide_eq_true_2, (proj2 (Nat.eqb_neq room 0)) in Hr by (reflexivity || lia).
    cbn [negb length] in Hr.
    assert (r = 2) as -> by lia. exact H.
  - destruct HR as (r & data & s' & -> & -> & ->). eexists. reflexivity.
Defined.

Lemma pseudotcp_packet_roundtrip_witness :
  match @run x86 steady [OpConnect] (@new x86 steady 7 0) with
  | Some (_, s) => exists r s' b now, @packet x86 steady 1 FLAG_CTL 1 3 s = Some (r, s') /\
      m_trace s' = m_trace s ++ [TcpPacket b] /\ length b = 27%nat /\
      @parse_segment x86 b = Some (mkSegment 7 1 0 FLAG_CTL 61440 [3; 1; 0] 3 (u32 now) 0)
  | None => False
  end.
Proof.
  assert (Hv : option_map (fun '(rs, s) => (m_conv s, m_rcv_nxt s, u16 (Z.shiftr (m_rcv_wnd s) (m_rwnd_scale s)),
      m_ts_recent s, payload 1 3 s))
    (@run x86 steady [OpConnect] (@new x86 steady 7 0)) = Some (7, 0, 61440, 0, Some [3; 1; 0]))
    by (vm_compute; reflexivity).
  destruct (@run x86 steady [OpConnect] (@new x86 steady 7 0)) as [[rs s]|] eqn:E; [|discriminate Hv].
  injection Hv as H1 H2 H3 H4 H5.
  destruct (@pseudotcp_packet_roundtrip x86 steady 1 FLAG_CTL 1 3 s [3; 1; 0] H5 ltac:(discriminate))
    as (r & s' & b & now & A & B & C & D).
  exists r, s', b, now. rewrite H1, H2, H3, H4 in D. split_and!; assumption.
Defined.
End PseudoTcpNet.
