(* ===== verification/RtpUtils.v ===== *)
(** * media/base/rtputils.cc: RTP and RTCP headers

    A packet is the bytes of the buffer, and its length argument is that of
    the buffer.  The outer [option] is memory safety ([None]: an access
    outside the packet), the inner one the boolean with the value stored.  The
    setters do not look at the length, so they are undefined on a packet that
    is too short; those that can refuse their argument return the boolean with
    the packet as it stands. *)

From S2P Require Import Prelude ByteOrder.
Import ByteOrder.
Open Scope jingle_scope.

Module RtpUtils.

Definition kMinRtpPacketLen : nat := 12.
Definition kMaxRtpPacketLen : nat := 2048.
Definition kMinRtcpPacketLen : nat := 4.
Definition kRtpVersion : Z := 2.
Definition kRtpFlagsOffset : nat := 0.
Definition kRtpPayloadTypeOffset : nat := 1.
Definition kRtpSeqNumOffset : nat := 2.
Definition kRtpTimestampOffset : nat := 4.
Definition kRtpSsrcOffset : nat := 8.
Definition kRtcpPayloadTypeOffset : nat := 1.
Definition kRtcpTypeSR : Z := 200.
Definition kRtcpTypeRR : Z := 201.
Definition kRtcpTypeSDES : Z := 202.
Definition kRtcpTypeBye : Z := 203.
Definition kRtcpTypeApp : Z := 204.
Definition kRtcpTypeRTPFB : Z := 205.
Definition kRtcpTypePSFB : Z := 206.

Record RtpHeader := mkRtpHeader { payload_type : Z; seq_num : Z; timestamp : Z; ssrc : Z }.

(** The [n] bytes at [offset], and their replacement. *)
Definition load (data : bytes) (offset n : nat) : option bytes :=
  require! (offset + n <=? length data)%nat in Some (mem_read data offset n).
Definition store (data : bytes) (offset : nat) (v : bytes) : option bytes :=
  require! (offset + length v <=? length data)%nat in Some (mem_write data offset v).

Definition GetUint8 (data : bytes) (offset : nat) : option Z :=
  let? m := load data offset 1 in Some (Get8 m 0).
Definition GetUint16 (data : bytes) (offset : nat) : option Z :=
  let? m := load data offset 2 in Some (GetBE16 m).
Definition GetUint32 (data : bytes) (offset : nat) : option Z :=
  let? m := load data offset 4 in Some (GetBE32 m).
Definition SetUint8 (data : bytes) (offset : nat) (value : Z) : option bytes := store data offset [u8 value].
Definition SetUint16 (data : bytes) (offset : nat) (value : Z) : option bytes :=
  store data offset (SetBE16 (u16 value)).
Definition SetUint32 (data : bytes) (offset : nat) (value : Z) : option bytes :=
  store data offset (SetBE32 (u32 value)).

(** false on a packet shorter than [min]. *)
Definition at_least {A} (min : nat) (data : bytes) (get : option A) : option (option A) :=
  if (length data <? min)%nat then Some None else let? v := get in Some (Some v).

Definition GetRtpFlags (data : bytes) : option (option Z) :=
  at_least kMinRtpPacketLen data (GetUint8 data kRtpFlagsOffset).
Definition GetRtpPayloadType (data : bytes) : option (option Z) :=
  at_least kMinRtpPacketLen data (let? v := GetUint8 data kRtpPayloadTypeOffset in Some (Z.land v 0x7F)).
Definition GetRtpSeqNum (data : bytes) : option (option Z) :=
  at_least kMinRtpPacketLen data (GetUint16 data kRtpSeqNumOffset).
Definition GetRtpTimestamp (data : bytes) : option (option Z) :=
  at_least kMinRtpPacketLen data (GetUint32 data kRtpTimestampOffset).
Definition GetRtpSsrc (data : bytes) : option (option Z) :=
  at_least kMinRtpPacketLen data (GetUint32 data kRtpSsrcOffset).

Definition GetRtpHeaderLen (data : bytes) : option (option Z) :=
  let len := Z.of_nat (length data) in
  if len <? Z.of_nat kMinRtpPacketLen then Some None
  else
    let? flags := GetUint8 data 0 in
    let header_size := Z.of_nat kMinRtpPacketLen + Z.land flags 0xF * 4 in
    if len <? header_size then Some None
    else if Z.land flags 0x10 =? 0 then Some (Some header_size)
    else if len <? header_size + 4 then Some None
    else
      let? extension := GetUint16 data (Z.to_nat (header_size + 2)) in
      let header_size := header_size + (extension + 1) * 4 in
      if len <? header_size then Some None else Some (Some header_size).

Definition GetRtpVersion (data : bytes) : option (option Z) :=
  at_least 1 data (let? first := GetUint8 data 0 in Some (Z.land (Z.shiftr first 6) 0x3)).

Definition GetRtpHeader (data : bytes) : option (option RtpHeader) :=
  let? pt := GetRtpPayloadType data in
  let? seq := GetRtpSeqNum data in
  let? ts := GetRtpTimestamp data in
  let? src := GetRtpSsrc data in
  Some (match pt, seq, ts, src with
        | Some pt, Some seq, Some ts, Some src => Some (mkRtpHeader pt seq ts src)
        | _, _, _, _ => None
        end).

Definition GetRtcpType (data : bytes) : option (option Z) :=
  at_least kMinRtcpPacketLen data (GetUint8 data kRtcpPayloadTypeOffset).

Definition GetRtcpSsrc (data : bytes) : option (option Z) :=
  if (length data <? kMinRtcpPacketLen + 4)%nat then Some None
  else
    let? pl_type := GetRtcpType data in
    match pl_type with
    | None => Some None
    | Some pl_type =>
        if pl_type =? kRtcpTypeSDES then Some None
        else let? v := GetUint32 data 4 in Some (Some v)
    end.

Definition SetRtpHeaderFlags (data : bytes) (padding extension : bool) (csrc_count : Z)
  : option (bool * bytes) :=
  if 0x0F <? csrc_count then Some (false, data)
  else
    let flags := Z.lor 0 (Z.shiftl kRtpVersion 6) in
    let flags := Z.lor flags (Z.shiftl (if padding then 1 else 0) 5) in
    let flags := Z.lor flags (Z.shiftl (if extension then 1 else 0) 4) in
    let flags := Z.lor flags csrc_count in
    let? data := SetUint8 data kRtpFlagsOffset flags in Some (true, data).

Definition SetRtpPayloadType (data : bytes) (value : Z) : option (bool * bytes) :=
  if 0x7F <=? value then Some (false, data)
  else let? data := SetUint8 data kRtpPayloadTypeOffset (Z.land value 0x7F) in Some (true, data).

Definition SetRtpSeqNum (data : bytes) (value : Z) : option bytes := SetUint16 data kRtpSeqNumOffset value.
Definition SetRtpTimestamp (data : bytes) (value : Z) : option bytes := SetUint32 data kRtpTimestampOffset value.
Definition SetRtpSsrc (data : bytes) (value : Z) : option bytes := SetUint32 data kRtpSsrcOffset value.

Definition SetRtpHeader (data : bytes) (header : RtpHeader) : option (bool * bytes) :=
  let? (ok, data) := SetRtpHeaderFlags data false false 0 in
  if negb ok then Some (false, data)
  else
    let? (ok, data) := SetRtpPayloadType data (payload_type header) in
    if negb ok then Some (false, data)
    else
      let? data := SetRtpSeqNum data (seq_num header) in
      let? data := SetRtpTimestamp data (timestamp header) in
      let? data := SetRtpSsrc data (ssrc header) in
      Some (true, data).

(** ** Reading stays inside the packet *)

Lemma load_ok data offset n : (offset + n <= length data)%nat -> load data offset n = Some (mem_read data offset n).
Proof. intros. unfold load. by rewrite (proj2 (Nat.leb_le _ _)). Qed.

Lemma at_least_safe {A} min data (get : option A) : ((min <= length data)%nat -> is_Some get) ->
  exists r, at_least min data get = Some r /\ (is_Some r <-> (min <= length data)%nat) /\ (forall v, r = Some v -> get = Some v).
Proof.
  intros Hg. unfold at_least. destruct (Nat.ltb_spec (length data) min) as [Hlt|Hge].
  - exists None. split; [done|]. split; [|done]. split; [by intros []|lia].
  - destruct (Hg Hge) as [v ->]. exists (Some v). split; [done|]. split; [by split|]. by intros ? [= ->].
Qed.

Definition well_read {A} (min : nat) (data : bytes) (read : option (option A)) : Prop :=
  exists r, read = Some r /\ (is_Some r <-> (min <= length data)%nat).

Ltac read_here :=
  match goal with
  | |- well_read ?min ?data (at_least _ _ ?get) =>
      let H := fresh in
      assert (H : (min <= length data)%nat -> is_Some get);
        [ intros ?; unfold GetUint8, GetUint16, GetUint32;
          rewrite load_ok by (unfold kRtpFlagsOffset, kRtpPayloadTypeOffset, kRtpSeqNumOffset,
            kRtpTimestampOffset, kRtpSsrcOffset, kRtcpPayloadTypeOffset, kMinRtpPacketLen, kMinRtcpPacketLen in *; lia);
          by eexists
        | destruct (at_least_safe min data get H) as (r & E & Hr & _); by exists r ]
  end.

Lemma GetRtpFlags_read data : well_read 12 data (GetRtpFlags data). Proof. unfold GetRtpFlags; read_here. Qed.
Lemma GetRtpPayloadType_read data : well_read 12 data (GetRtpPayloadType data). Proof. unfold GetRtpPayloadType; read_here. Qed.
Lemma GetRtpSeqNum_read data : well_read 12 data (GetRtpSeqNum data). Proof. unfold GetRtpSeqNum; read_here. Qed.
Lemma GetRtpTimestamp_read data : well_read 12 data (GetRtpTimestamp data). Proof. unfold GetRtpTimestamp; read_here. Qed.
Lemma GetRtpSsrc_read data : well_read 12 data (GetRtpSsrc data). Proof. unfold GetRtpSsrc; read_here. Qed.
Lemma GetRtpVersion_read data : well_read 1 data (GetRtpVersion data). Proof. unfold GetRtpVersion; read_here. Qed.
Lemma GetRtcpType_read data : well_read 4 data (GetRtcpType data). Proof. unfold GetRtcpType; read_here. Qed.

(** The length of the header of a packet: the CSRC list, then the extension
    with its length in words. *)
Definition header_len (data : bytes) : option Z :=
  let len := Z.of_nat (length data) in
  let csrc := 12 + Get8 data 0 mod 16 * 4 in
  if len <? Z.max 12 csrc then None
  else if negb (Z.testbit (Get8 data 0) 4) then Some csrc
  else if len <? csrc + 4 then None
  else
    let total := csrc + 4 + be_val (mem_read data (Z.to_nat csrc + 2) 2) * 4 in
    if len <? total then None else Some total.

Lemma Get8_byte data i : bytes_ok data -> is_byte (Get8 data i).
Proof.
  intros Hok. unfold Get8. destruct (Nat.lt_ge_cases i (length data)).
  - by apply List.Forall_forall with (x := nth i data 0) in Hok; [|apply nth_In].
  - rewrite nth_overflow by done. done.
Qed.

Lemma GetUint8_at data i : (i < length data)%nat -> GetUint8 data i = Some (Get8 data i).
Proof.
  intros Hi. unfold GetUint8. rewrite load_ok by lia. f_equal. unfold Get8, mem_read.
  destruct (drop i data) as [|x r] eqn:E; [apply (f_equal length) in E; rewrite length_drop in E; cbn in E; lia|].
  apply drop_cons_inv in E as [<- _]. done.
Qed.

Lemma GetUint16_at data i : bytes_ok data -> (i + 2 <= length data)%nat ->
  GetUint16 data i = Some (be_val (mem_read data i 2)).
Proof.
  intros Hok Hi. unfold GetUint16. rewrite load_ok, GetBE16_be; [done| |by apply length_mem_read|done].
  by apply mem_read_ok.
Qed.
Lemma GetUint32_at data i : bytes_ok data -> (i + 4 <= length data)%nat ->
  GetUint32 data i = Some (be_val (mem_read data i 4)).
Proof.
  intros Hok Hi. unfold GetUint32. rewrite load_ok, GetBE32_be; [done| |by apply length_mem_read|done].
  by apply mem_read_ok.
Qed.

Lemma land_bit4 v : (Z.land v 0x10 =? 0) = negb (Z.testbit v 4).
Proof.
  assert (H : Z.land v 16 = if Z.testbit v 4 then 16 else 0).
  { bits_eq n Hn. destruct (Z.eqb_spec n 4) as [->|Hne].
    - change (Z.testbit 16 4) with true. rewrite andb_true_r. by destruct (Z.testbit v 4).
    - assert (E : Z.testbit 16 n = false) by (change 16 with (2 ^ 4); apply Z.pow2_bits_false; lia).
      rewrite E, andb_false_r. destruct (Z.testbit v 4); [by rewrite E|by rewrite Z.bits_0]. }
  rewrite H. by destruct (Z.testbit v 4).
Qed.

Lemma GetRtpHeaderLen_spec data : bytes_ok data -> GetRtpHeaderLen data = Some (header_len data).
Proof.
  intros Hok. unfold GetRtpHeaderLen, header_len. change (Z.of_nat kMinRtpPacketLen) with 12.
  pose proof (Get8_byte data 0 Hok) as Hb. unfold is_byte in Hb.
  destruct (Z.ltb_spec (Z.of_nat (length data)) 12) as [Hs|Hs].
  { by rewrite (proj2 (Z.ltb_lt _ _)) by lia. }
  rewrite GetUint8_at by lia. change 0xF with (2 ^ 4 - 1). rewrite land_mask by lia. change (2 ^ 4) with 16.
  set (csrc := 12 + Get8 data 0 mod 16 * 4). assert (Hc : 12 <= csrc <= 72) by (unfold csrc; dlia).
  rewrite Z.max_r by lia. destruct (Z.ltb_spec (Z.of_nat (length data)) csrc); [done|].
  rewrite land_bit4. destruct (negb _); [done|].
  destruct (Z.ltb_spec (Z.of_nat (length data)) (csrc + 4)); [done|].
  rewrite GetUint16_at by (done || lia). replace (Z.to_nat (csrc + 2)) with (Z.to_nat csrc + 2)%nat by lia.
  set (ext := be_val _). replace (csrc + (ext + 1) * 4) with (csrc + 4 + ext * 4) by lia.
  by destruct (_ <? _).
Qed.

Lemma header_len_bounds data n : bytes_ok data -> header_len data = Some n -> 12 <= n <= Z.of_nat (length data).
Proof.
  intros Hok. unfold header_len. pose proof (Get8_byte data 0 Hok) as Hb. unfold is_byte in Hb.
  set (csrc := 12 + Get8 data 0 mod 16 * 4). assert (Hc : 12 <= csrc) by (unfold csrc; dlia).
  pose proof (be_val_range (mem_read data (Z.to_nat csrc + 2) 2) (mem_read_ok _ _ _ Hok)) as [He _].
  repeat (split_if; [try done; try (intros [= <-]; bool_simpl; lia)|]); intros [= <-]; bool_simpl; lia.
Qed.

Lemma GetRtcpSsrc_spec data : bytes_ok data -> GetRtcpSsrc data =
  Some (if (length data <? 8)%nat || (Get8 data 1 =? kRtcpTypeSDES) then None else Some (be_val (mem_read data 4 4))).
Proof.
  intros Hok. unfold GetRtcpSsrc. change (kMinRtcpPacketLen + 4)%nat with 8%nat.
  destruct (Nat.ltb_spec (length data) 8); [done|]. cbn [orb]. unfold GetRtcpType, at_least, kMinRtcpPacketLen.
  rewrite (proj2 (Nat.ltb_ge _ _)) by lia. rewrite GetUint8_at by (unfold kRtcpPayloadTypeOffset; lia).
  unfold kRtcpPayloadTypeOffset. destruct (_ =? _); [done|]. by rewrite GetUint32_at.
Qed.

(** ** Writing a header *)

Lemma store_ok data offset v : (offset + length v <= length data)%nat -> store data offset v = Some (mem_write data offset v).
Proof. intros. unfold store. by rewrite (proj2 (Nat.leb_le _ _)). Qed.

(** The first twelve bytes of a packet with this header. *)
Definition enc_header (h : RtpHeader) : bytes :=
  [128; payload_type h] ++ be_bytes 2 (seq_num h) ++ be_bytes 4 (timestamp h) ++ be_bytes 4 (ssrc h).

Definition header_ok (h : RtpHeader) : Prop :=
  0 <= payload_type h < 127 /\ is_u 16 (seq_num h) /\ is_u 32 (timestamp h) /\ is_u 32 (ssrc h).

Lemma SetRtpHeader_spec data h : (12 <= length data)%nat -> header_ok h ->
  SetRtpHeader data h = Some (true, enc_header h ++ drop 12 data).
Proof.
  intros Hl (Hp & Hs & Ht & Hc).
  destruct data as [|b0 [|b1 [|b2 [|b3 [|b4 [|b5 [|b6 [|b7 [|b8 [|b9 [|b10 [|b11 rest]]]]]]]]]]]]; try (cbn in Hl; lia).
  assert (Hpt : u8 (Z.land (payload_type h) 127) = payload_type h).
  { change 127 with (2 ^ 7 - 1). rewrite land_mask by lia. rewrite Z.mod_small by lia. apply wrap_small. unfold is_u. lia. }
  unfold SetRtpHeader, SetRtpHeaderFlags, SetRtpPayloadType, SetRtpSeqNum, SetRtpTimestamp, SetRtpSsrc, SetUint8, SetUint16, SetUint32.
  change (0x0F <? 0) with false. cbn beta iota.
  rewrite store_ok by (cbn; lia). cbn beta iota. cbn [negb].
  rewrite (proj2 (Z.leb_gt _ _)) by lia. rewrite Hpt.
  assert (E2 : u16 (seq_num h) = seq_num h) by by apply wrap_small.
  assert (E3 : u32 (timestamp h) = timestamp h) by by apply wrap_small.
  assert (E4 : u32 (ssrc h) = ssrc h) by by apply wrap_small.
  rewrite E2, E3, E4, SetBE16_be, !SetBE32_be.
  repeat (rewrite store_ok by (cbn; lia); cbn beta iota; cbn [negb]). reflexivity.
Qed.

Lemma enc_header_ok h : header_ok h -> bytes_ok (enc_header h).
Proof.
  intros (Hp & _). unfold enc_header. rewrite !bytes_ok_app. split_and!; try apply be_bytes_ok.
  apply List.Forall_cons; [done|]. apply List.Forall_cons; [unfold is_byte; lia|done].
Qed.

Lemma read_header h rest : header_ok h -> bytes_ok rest ->
  GetRtpHeader (enc_header h ++ rest) = Some (Some h) /\ GetRtpVersion (enc_header h ++ rest) = Some (Some kRtpVersion) /\
  GetRtpHeaderLen (enc_header h ++ rest) = Some (Some 12).
Proof.
  intros Hh Hr. assert (Hok : bytes_ok (enc_header h ++ rest)) by (apply bytes_ok_app; auto using enc_header_ok).
  pose proof Hh as (Hp & Hs & Ht & Hc). set (data := enc_header h ++ rest) in *.
  assert (Hl : (12 <= length data)%nat) by (unfold data; cbn; lia).
  split_and!.
  - unfold GetRtpHeader, GetRtpPayloadType, GetRtpSeqNum, GetRtpTimestamp, GetRtpSsrc, at_least, kMinRtpPacketLen.
    rewrite (proj2 (Nat.ltb_ge _ _)) by done.
    unfold kRtpPayloadTypeOffset, kRtpSeqNumOffset, kRtpTimestampOffset, kRtpSsrcOffset.
    rewrite GetUint8_at, GetUint16_at, !GetUint32_at by (done || lia).
    assert (E1 : Get8 data 1 = payload_type h) by done.
    assert (E2 : mem_read data 2 2 = be_bytes 2 (seq_num h)) by done.
    assert (E3 : mem_read data 4 4 = be_bytes 4 (timestamp h)) by done.
    assert (E4 : mem_read data 8 4 = be_bytes 4 (ssrc h)) by done.
    rewrite E1, E2, E3, E4, !be_val_be_bytes. change 127 with (2 ^ 7 - 1). rewrite land_mask by lia.
    change (8 * Z.of_nat 2) with 16. change (8 * Z.of_nat 4) with 32.
    rewrite !Z.mod_small by (done || lia). by destruct h.
  - unfold GetRtpVersion, at_least. rewrite (proj2 (Nat.ltb_ge _ _)) by lia. by rewrite GetUint8_at by lia.
  - rewrite GetRtpHeaderLen_spec by done. unfold header_len. change (Get8 data 0) with 128.
    change (Z.testbit 128 4) with false. cbn [negb]. change (12 + 128 mod 16 * 4) with 12.
    by rewrite (proj2 (Z.ltb_ge _ _)) by lia.
Qed.

(** Every reader of an RTP or RTCP header, on any bytes whatever, stays
    inside the packet and succeeds exactly on packets of the minimum length;
    GetRtpHeaderLen moreover returns the CSRC list and the extension
    included, refuses a packet that ends before them, and never exceeds the
    packet; GetRtcpSsrc refuses source descriptions. *)
Theorem rtp_readers_safe data : bytes_ok data ->
  well_read 12 data (GetRtpFlags data) /\ well_read 12 data (GetRtpPayloadType data) /\
  well_read 12 data (GetRtpSeqNum data) /\ well_read 12 data (GetRtpTimestamp data) /\
  well_read 12 data (GetRtpSsrc data) /\ well_read 1 data (GetRtpVersion data) /\
  well_read 4 data (GetRtcpType data) /\
  GetRtpHeaderLen data = Some (header_len data) /\
  (forall n, header_len data = Some n -> 12 <= n <= Z.of_nat (length data)) /\
  GetRtcpSsrc data = Some (if (length data <? 8)%nat || (Get8 data 1 =? kRtcpTypeSDES) then None
                           else Some (be_val (mem_read data 4 4))).
Proof.
  intros Hok. split_and!; auto using GetRtpFlags_read, GetRtpPayloadType_read, GetRtpSeqNum_read,
    GetRtpTimestamp_read, GetRtpSsrc_read, GetRtpVersion_read, GetRtcpType_read, GetRtpHeaderLen_spec, GetRtcpSsrc_spec.
  intros n. by apply header_len_bounds.
Qed.

(** SetRtpHeader fills the first twelve bytes of any buffer long enough
    and nothing else, and what it wrote reads back: the header, version 2,
    and a header length of twelve bytes. *)
Theorem rtp_header_roundtrip data h : (12 <= length data)%nat -> bytes_ok data -> header_ok h ->
  exists data', SetRtpHeader data h = Some (true, data') /\ length data' = length data /\
    drop 12 data' = drop 12 data /\ GetRtpHeader data' = Some (Some h) /\
    GetRtpVersion data' = Some (Some kRtpVersion) /\ GetRtpHeaderLen data' = Some (Some 12).
Proof.
  intros Hl Hok Hh. exists (enc_header h ++ drop 12 data). rewrite SetRtpHeader_spec by done.
  destruct (read_header h (drop 12 data)) as (H1 & H2 & H3); [done|by apply Forall_drop|].
  split_and!; try done. cbn [enc_header]. rewrite length_app, length_drop. cbn. lia.
Qed.

Lemma rtp_readers_safe_witness :
  GetRtpHeaderLen [145; 8; 0; 1; 0; 0; 0; 2; 0; 0; 0; 3; 0; 0; 0; 4; 190; 222; 0; 1; 7; 7; 7; 7; 9] = Some (Some 24) /\
  exists r, GetRtpSeqNum [145; 8; 0; 1; 0; 0; 0; 2; 0; 0; 0; 3] = Some r.
Proof.
  destruct (rtp_readers_safe [145; 8; 0; 1; 0; 0; 0; 2; 0; 0; 0; 3; 0; 0; 0; 4; 190; 222; 0; 1; 7; 7; 7; 7; 9])
    as (_ & _ & _ & _ & _ & _ & _ & H & _); [solve_bytes|].
  destruct (rtp_readers_safe [145; 8; 0; 1; 0; 0; 0; 2; 0; 0; 0; 3]) as (_ & _ & (r & Hr & _) & _); [solve_bytes|].
  split; [exact H|]. by exists r.
Defined.

Lemma rtp_header_roundtrip_witness : exists data',
  SetRtpHeader (repeat 255 13) (mkRtpHeader 96 65535 7 4294967295) = Some (true, data') /\ length data' = 13%nat /\
  drop 12 data' = [255] /\ GetRtpHeader data' = Some (Some (mkRtpHeader 96 65535 7 4294967295)) /\
  GetRtpVersion data' = Some (Some 2) /\ GetRtpHeaderLen data' = Some (Some 12).
Proof.
  apply (rtp_header_roundtrip (repeat 255 13) (mkRtpHeader 96 65535 7 4294967295));
    [apply Nat.leb_le; reflexivity|solve_bytes|repeat split; discriminate].
Defined.
End RtpUtils.
