(* ===== verification/StreamParams.v ===== *)
(** * media/base/streamparams.cc: descriptions of media streams

    A stream has its SSRCs and groups of them (retransmission pairs FID,
    simulcast SIM, FEC); a selector picks streams by SSRC, or by group and
    stream id when its SSRC is zero.  Strings are byte strings.  The printing
    functions are left out. *)

From S2P Require Import Prelude.
Open Scope jingle_scope.

Module StreamParams.

Definition kFecSsrcGroupSemantics : bytes := str "FEC".
Definition kFidSsrcGroupSemantics : bytes := str "FID".
Definition kSimSsrcGroupSemantics : bytes := str "SIM".

Record SsrcGroup := mkSsrcGroup { semantics : bytes; group_ssrcs : list Z }.
#[export] Instance SsrcGroup_eq_dec : EqDecision SsrcGroup.
Proof. solve_decision. Defined.

Record StreamParams := mkStreamParams {
  groupid : bytes; id : bytes; ssrcs : list Z; ssrc_groups : list SsrcGroup;
  type : bytes; display : bytes; cname : bytes; sync_label : bytes;
}.
#[export] Instance StreamParams_eq_dec : EqDecision StreamParams.
Proof. solve_decision. Defined.

Definition CreateLegacy (ssrc : Z) : StreamParams := mkStreamParams [] [] [ssrc] [] [] [] [] [].

Definition has_semantics (semantics_in : bytes) (g : SsrcGroup) : bool :=
  bool_decide (semantics g = semantics_in) && (0 <? length (group_ssrcs g))%nat.

Definition first_ssrc (sp : StreamParams) : Z := match ssrcs sp with [] => 0 | s :: _ => s end.
Definition has_ssrcs (sp : StreamParams) : bool := negb (bool_decide (ssrcs sp = [])).
Definition has_ssrc (ssrc : Z) (sp : StreamParams) : bool := bool_decide (ssrc ∈ ssrcs sp).
Definition add_ssrc (ssrc : Z) (sp : StreamParams) : StreamParams :=
  mkStreamParams (groupid sp) (id sp) (ssrcs sp ++ [ssrc]) (ssrc_groups sp) (type sp) (display sp) (cname sp)
    (sync_label sp).
Definition has_ssrc_groups (sp : StreamParams) : bool := negb (bool_decide (ssrc_groups sp = [])).
Definition get_ssrc_group (semantics : bytes) (sp : StreamParams) : option SsrcGroup :=
  find (has_semantics semantics) (ssrc_groups sp).
Definition has_ssrc_group (semantics : bytes) (sp : StreamParams) : bool :=
  match get_ssrc_group semantics sp with Some _ => true | None => false end.

Definition AddSecondarySsrc (semantics : bytes) (primary_ssrc secondary_ssrc : Z) (sp : StreamParams)
  : bool * StreamParams :=
  if negb (has_ssrc primary_ssrc sp) then (false, sp)
  else
    let sp := add_ssrc secondary_ssrc sp in
    (true, mkStreamParams (groupid sp) (id sp) (ssrcs sp)
             (ssrc_groups sp ++ [mkSsrcGroup semantics [primary_ssrc; secondary_ssrc]])
             (type sp) (display sp) (cname sp) (sync_label sp)).

Fixpoint find_secondary (semantics : bytes) (primary_ssrc : Z) (groups : list SsrcGroup) : option Z :=
  match groups with
  | [] => None
  | g :: rest =>
      match has_semantics semantics g, group_ssrcs g with
      | true, p :: s :: _ => if p =? primary_ssrc then Some s else find_secondary semantics primary_ssrc rest
      | _, _ => find_secondary semantics primary_ssrc rest
      end
  end.
Definition GetSecondarySsrc (semantics : bytes) (primary_ssrc : Z) (sp : StreamParams) : option Z :=
  find_secondary semantics primary_ssrc (ssrc_groups sp).

Definition AddFidSsrc := AddSecondarySsrc kFidSsrcGroupSemantics.
Definition GetFidSsrc := GetSecondarySsrc kFidSsrcGroupSemantics.

Record StreamSelector := mkStreamSelector { sel_ssrc : Z; sel_groupid : bytes; sel_streamid : bytes }.
Definition by_ssrc (ssrc : Z) : StreamSelector := mkStreamSelector ssrc [] [].
Definition by_ids (groupid streamid : bytes) : StreamSelector := mkStreamSelector 0 groupid streamid.

Definition Matches (sel : StreamSelector) (stream : StreamParams) : bool :=
  if sel_ssrc sel =? 0
  then bool_decide (groupid stream = sel_groupid sel) && bool_decide (id stream = sel_streamid sel)
  else has_ssrc (sel_ssrc sel) stream.

Definition GetStream (streams : list StreamParams) (selector : StreamSelector) : option StreamParams :=
  find (Matches selector) streams.
Definition GetStreamBySsrc (streams : list StreamParams) (ssrc : Z) : option StreamParams :=
  GetStream streams (by_ssrc ssrc).
Definition GetStreamByIds (streams : list StreamParams) (groupid id : bytes) : option StreamParams :=
  GetStream streams (by_ids groupid id).

Fixpoint RemoveStream (streams : list StreamParams) (selector : StreamSelector) : bool * list StreamParams :=
  match streams with
  | [] => (false, [])
  | stream :: rest =>
      let '(ret, rest) := RemoveStream rest selector in
      if Matches selector stream then (true, rest) else (ret, stream :: rest)
  end.
Definition RemoveStreamBySsrc (streams : list StreamParams) (ssrc : Z) : bool * list StreamParams :=
  RemoveStream streams (by_ssrc ssrc).
Definition RemoveStreamByIds (streams : list StreamParams) (groupid id : bytes) : bool * list StreamParams :=
  RemoveStream streams (by_ids groupid id).

Definition IsOneSsrcStream (sp : StreamParams) : bool :=
  if (length (ssrcs sp) =? 1)%nat && bool_decide (ssrc_groups sp = []) then true
  else if (length (ssrcs sp) =? 2)%nat then
    match get_ssrc_group kFidSsrcGroupSemantics sp with
    | Some fid_group => bool_decide (ssrcs sp = group_ssrcs fid_group)
    | None => false
    end
  else false.

Fixpoint RemoveFirst (ssrcs : list Z) (value : Z) : list Z :=
  match ssrcs with
  | [] => []
  | s :: rest => if s =? value then rest else s :: RemoveFirst rest value
  end.

(** The loop over the groups: the second SSRC of each FID pair. *)
Fixpoint remove_rtx (groups : list SsrcGroup) (sp_ssrcs : list Z) : list Z :=
  match groups with
  | [] => sp_ssrcs
  | group :: rest =>
      match bool_decide (semantics group = kFidSsrcGroupSemantics), group_ssrcs group with
      | true, [_; rtx] => remove_rtx rest (RemoveFirst sp_ssrcs rtx)
      | _, _ => remove_rtx rest sp_ssrcs
      end
  end.

Definition IsSimulcastStream (sp : StreamParams) : bool :=
  match get_ssrc_group kSimSsrcGroupSemantics sp with
  | None => false
  | Some sg =>
      if (length (group_ssrcs sg) <? 2)%nat then false
      else
        let sp_ssrcs := fold_left RemoveFirst (group_ssrcs sg) (ssrcs sp) in
        let sp_ssrcs := remove_rtx (ssrc_groups sp) sp_ssrcs in
        (length sp_ssrcs =? 0)%nat
  end.

(** ** Selection *)

Lemma RemoveStream_filter streams sel :
  RemoveStream streams sel = (existsb (Matches sel) streams, List.filter (fun s => negb (Matches sel s)) streams).
Proof.
  induction streams as [|s l IH]; [done|]. cbn [RemoveStream existsb List.filter]. rewrite IH.
  by destruct (Matches sel s).
Qed.

Lemma GetStream_Some streams sel : (exists s, GetStream streams sel = Some s) <-> existsb (Matches sel) streams = true.
Proof.
  unfold GetStream. induction streams as [|s l IH]; cbn; [split; [by intros [? ?]|done]|].
  destruct (Matches sel s); [split; [done|by exists s]|exact IH].
Qed.

Lemma find_removed streams sel : GetStream (RemoveStream streams sel).2 sel = None.
Proof.
  rewrite RemoveStream_filter. cbn. unfold GetStream.
  induction streams as [|s l IH]; [done|]. cbn. destruct (Matches sel s) eqn:E; cbn; [done|by rewrite E].
Qed.

Lemma find_secondary_snoc sem p s q groups :
  find_secondary sem q (groups ++ [mkSsrcGroup sem [p; s]]) =
  match find_secondary sem q groups with Some x => Some x | None => if p =? q then Some s else None end.
Proof.
  induction groups as [|g gs IH]; cbn [app find_secondary group_ssrcs].
  - unfold has_semantics. by rewrite bool_decide_eq_true_2.
  - destruct (has_semantics sem g); [|done]. destruct (group_ssrcs g) as [|x [|y r]]; [done..|]. by destruct (x =? q).
Qed.

(** ** Simulcast *)

(** The retransmission SSRCs of the FID pairs. *)
Definition rtx_ssrcs (groups : list SsrcGroup) : list Z :=
  concat (map (fun g => match bool_decide (semantics g = kFidSsrcGroupSemantics), group_ssrcs g with
                        | true, [_; rtx] => [rtx]
                        | _, _ => []
                        end) groups).

Lemma remove_rtx_fold groups l : remove_rtx groups l = fold_left RemoveFirst (rtx_ssrcs groups) l.
Proof.
  revert l; induction groups as [|g gs IH]; intros l; [done|]. unfold rtx_ssrcs. cbn [map concat remove_rtx].
  fold (rtx_ssrcs gs). rewrite fold_left_app. destruct (bool_decide _); [|apply IH].
  destruct (group_ssrcs g) as [|a [|b [|c r]]]; apply IH.
Qed.

Lemma RemoveFirst_in l x : x ∈ l -> l ≡ₚ x :: RemoveFirst l x.
Proof.
  induction l as [|y l IH]; [by intros ?%elem_of_nil|]. intros Hx. cbn.
  destruct (Z.eqb_spec y x) as [->|Hne]; [done|]. apply elem_of_cons in Hx as [?|Hx]; [congruence|].
  rewrite (IH Hx) at 1. apply Permutation_swap.
Qed.
Lemma RemoveFirst_notin l x : x ∉ l -> RemoveFirst l x = l.
Proof.
  induction l as [|y l IH]; [done|]. intros Hx. cbn. apply not_elem_of_cons in Hx as [Hne Hx].
  destruct (Z.eqb_spec y x) as [->|_]; [done|]. by rewrite IH.
Qed.

(** Removing first occurrences leaves nothing iff the list is a
    sub-multiset of what is removed. *)
Lemma remove_all l k : fold_left RemoveFirst k l = [] <-> l ⊆+ k.
Proof.
  revert l; induction k as [|x k IH]; intros l; cbn [fold_left].
  - split; [by intros ->|]. intros H%submseteq_nil_r. done.
  - rewrite IH. destruct (decide (x ∈ l)) as [Hx|Hx].
    + pose proof (RemoveFirst_in l x Hx) as HP. split; intros H.
      * rewrite HP. by apply submseteq_skip.
      * rewrite HP in H. by apply (submseteq_app_inv_l _ _ [x]).
    + rewrite RemoveFirst_notin by done. split; [intros H; by apply submseteq_cons_r; left|].
      intros H. apply submseteq_cons_r in H as [?|(l' & Hl & _)]; [done|].
      exfalso. apply Hx. rewrite Hl. by left.
Qed.

(** IsSimulcastStream holds exactly of a stream whose first non-empty SIM
    group has at least two SSRCs and all of whose SSRCs, counted with their
    multiplicity, are accounted for by that group and the retransmission
    SSRCs of the FID pairs. *)
Theorem simulcast_spec sp : IsSimulcastStream sp = true <->
  exists sg, get_ssrc_group kSimSsrcGroupSemantics sp = Some sg /\ (2 <= length (group_ssrcs sg))%nat /\
    ssrcs sp ⊆+ group_ssrcs sg ++ rtx_ssrcs (ssrc_groups sp).
Proof.
  unfold IsSimulcastStream. destruct (get_ssrc_group _ sp) as [sg|]; [|split; [done|by intros (? & ? & _)]].
  destruct (Nat.ltb_spec (length (group_ssrcs sg)) 2).
  - split; [done|]. intros (sg' & [= <-] & ? & _). lia.
  - rewrite Nat.eqb_eq, length_zero_iff_nil, remove_rtx_fold, <- fold_left_app, remove_all. split; [by exists sg|]. by intros (? & [= <-] & _ & ?).
Qed.

(** Removal by a selector leaves exactly the streams that it does not
    match, in order, and reports whether a stream was found; afterwards
    nothing is found.  An SSRC added to a primary one as its retransmission
    SSRC is found again, and is an SSRC of the stream. *)
Theorem streams_select streams sel sp primary secondary :
  (RemoveStream streams sel).2 = List.filter (fun s => negb (Matches sel s)) streams /\
  ((RemoveStream streams sel).1 = true <-> exists s, GetStream streams sel = Some s) /\
  GetStream (RemoveStream streams sel).2 sel = None /\
  (has_ssrc primary sp = true -> GetFidSsrc primary sp = None ->
   exists sp', AddFidSsrc primary secondary sp = (true, sp') /\ GetFidSsrc primary sp' = Some secondary /\
     has_ssrc secondary sp' = true /\
     forall other, other <> primary -> GetFidSsrc other sp' = GetFidSsrc other sp).
Proof.
  split_and!.
  - by rewrite RemoveStream_filter.
  - by rewrite RemoveStream_filter, GetStream_Some.
  - apply find_removed.
  - intros Hp Hn. unfold AddFidSsrc, AddSecondarySsrc. rewrite Hp. eexists. split; [reflexivity|].
    unfold GetFidSsrc, GetSecondarySsrc in *. cbn [ssrc_groups add_ssrc].
    split_and!.
    + by rewrite find_secondary_snoc, Hn, Z.eqb_refl.
    + unfold has_ssrc. cbn. apply bool_decide_eq_true_2. apply elem_of_app. right. by apply list_elem_of_singleton.
    + intros q Hq. rewrite find_secondary_snoc, (proj2 (Z.eqb_neq primary q)) by congruence.
      by case_match.
Qed.

Definition sample : StreamParams :=
  mkStreamParams [] (str "s") [1; 2; 3] [mkSsrcGroup kSimSsrcGroupSemantics [1; 2]; mkSsrcGroup kFidSsrcGroupSemantics [1; 3]]
    [] [] [] [].

Lemma streams_select_witness :
  exists sp', AddFidSsrc 2 4 sample = (true, sp') /\ GetFidSsrc 2 sp' = Some 4 /\ has_ssrc 4 sp' = true /\
    forall other, other <> 2 -> GetFidSsrc other sp' = GetFidSsrc other sample.
Proof. apply (streams_select [] (by_ssrc 1) sample 2 4); reflexivity. Defined.

Lemma simulcast_spec_witness : IsSimulcastStream sample = true /\
  exists sg, get_ssrc_group kSimSsrcGroupSemantics sample = Some sg /\ (2 <= length (group_ssrcs sg))%nat /\
    ssrcs sample ⊆+ group_ssrcs sg ++ rtx_ssrcs (ssrc_groups sample).
Proof. split; [reflexivity|]. apply simulcast_spec. reflexivity. Defined.
End StreamParams.
