(* ===== verification/Helpers.v ===== *)
(** * base/helpers.cc: random strings and ids

    The random number generators are a class, as in the source: a state and
    Generate, which fills a buffer or fails.  TestRandomGenerator (the
    predictable one of the tests) is an instance; the operating system's
    generators are outside the sources. *)

From S2P Require Import Prelude ByteOrder Base64.
Import ByteOrder.
Open Scope jingle_scope.

Module Helpers.

Class RandomGenerator := {
  rng : Type;
  Generate : nat -> rng -> option bytes * rng;
  Generate_fills : forall n g b g', Generate n g = (Some b, g') -> length b = n /\ bytes_ok b;
}.

(** ** TestRandomGenerator *)

Definition GetRandom (seed_ : Z) : Z * Z :=
  let seed_ := s32 (seed_ * 214013 + 2531011) in (Z.land (Z.shiftr seed_ 16) 0x7fff, seed_).

Fixpoint test_generate (len : nat) (seed_ : Z) : bytes * Z :=
  match len with
  | O => ([], seed_)
  | S len =>
      let '(r, seed_) := GetRandom seed_ in
      let '(buf, seed_) := test_generate len seed_ in
      (u8 r :: buf, seed_)
  end.

Lemma test_generate_fills len seed_ : length (test_generate len seed_).1 = len /\ bytes_ok (test_generate len seed_).1.
Proof.
  revert seed_; induction len as [|len IH]; intros seed_; cbn [test_generate]; [by split; [|apply List.Forall_nil]|].
  destruct (GetRandom seed_) as [r s1]. specialize (IH s1). destruct (test_generate len s1) as [b s2].
  cbn in *. destruct IH as [-> Hok]. split; [done|]. apply List.Forall_cons; [apply u8_byte|done].
Qed.

Definition test_Generate (len : nat) (seed_ : Z) : option bytes * Z :=
  let '(buf, seed_) := test_generate len seed_ in (Some buf, seed_).

Lemma test_Generate_fills n g b g' : test_Generate n g = (Some b, g') -> length b = n /\ bytes_ok b.
Proof.
  unfold test_Generate. pose proof (test_generate_fills n g) as Hf. destruct (test_generate n g).
  by intros [= <- _].
Qed.

Definition TestRandomGenerator : RandomGenerator :=
  {| rng := Z; Generate := test_Generate; Generate_fills := test_Generate_fills |}.

(** The state of a new one. *)
Definition test_seed : Z := 7.

Definition BASE64 : bytes :=
  str "ABCDEFGHIJKLMNOPQRSTUVWXYZabcdefghijklmnopqrstuvwxyz0123456789+/".

Section Random.
Context `{RandomGenerator}.

(** The string, [None] where the source returns false. *)
Definition CreateRandomString_table (len : nat) (table : bytes) (table_size : Z) (g : rng) : option bytes * rng :=
  match Generate len g with
  | (Some buf, g) => (Some (map (fun b => nth (Z.to_nat (b mod table_size)) table 0) buf), g)
  | (None, g) => (None, g)
  end.

Definition CreateRandomString (len : nat) (g : rng) : option bytes * rng :=
  CreateRandomString_table len BASE64 64 g.

(** The id is an uninitialised variable if the generator fails. *)
Definition CreateRandomId `{Machine} (g : rng) : Z * rng :=
  match Generate 4 g with
  | (Some buf, g) => (host_val buf, g)
  | (None, g) => (host_val (map (uninit 0) (seq 0 4)), g)
  end.

Definition CreateRandomId64 `{Machine} (g : rng) : Z * rng :=
  let '(hi, g) := CreateRandomId g in
  let '(lo, g) := CreateRandomId g in
  (Z.lor (u64 (Z.shiftl hi 32)) lo, g).

(** A random string is made of base64 digits. *)
Lemma CreateRandomString_digits len g s g' : CreateRandomString len g = (Some s, g') ->
  exists ds, length ds = len /\ Forall (fun d => 0 <= d < 64) ds /\ s = map Base64.tbl ds.
Proof.
  unfold CreateRandomString, CreateRandomString_table. destruct (Generate len g) as [[buf|] g1] eqn:E; [|done].
  intros [= <- <-]. apply Generate_fills in E as [Hl Hok]. exists (map (fun b => b mod 64) buf).
  split; [by rewrite length_map|]. split.
  - apply List.Forall_map, List.Forall_forall. intros b _. dlia.
  - rewrite map_map. done.
Qed.
End Random.
End Helpers.
