(* ===== verification/SrtpFilter.v ===== *)
(** * session/media/srtpfilter.cc: SRTP key negotiation

    SrtpFilter is the offer/answer state machine that keys the four sessions;
    SrtpSession wraps a libsrtp handle, which is code outside the sources: the
    class [LibSrtp] has its functions, [LibSrtpLaws] what its documentation
    says of them.  The variant is HAVE_SRTP without ENABLE_EXTERNAL_AUTH.  A
    packet buffer is the bytes of the packet; what the library writes covers
    them from the start.  [None] is the use of a null session.  The wiring of
    the error signals is left out: a call returns the errors it signals. *)

From S2P Require Import Prelude ByteOrder Base64 RtpUtils TimeUtils.
Open Scope jingle_scope.

Module SrtpFilter.

Definition SRTP_MASTER_KEY_LEN : nat := 30.
Definition SRTP_MASTER_KEY_BASE64_LEN : nat := SRTP_MASTER_KEY_LEN * 4 / 3.
Definition CS_AES_CM_128_HMAC_SHA1_80 : bytes := str "AES_CM_128_HMAC_SHA1_80".
Definition CS_AES_CM_128_HMAC_SHA1_32 : bytes := str "AES_CM_128_HMAC_SHA1_32".

Record CryptoParams := mkCryptoParams {
  tag : Z; cipher_suite : bytes; key_params : bytes; session_params : bytes;
}.
Definition no_params : CryptoParams := mkCryptoParams 0 [] [] [].
Definition Matches (p params : CryptoParams) : bool :=
  (tag p =? tag params) && bool_decide (cipher_suite p = cipher_suite params).

Inductive ContentSource := CS_LOCAL | CS_REMOTE.
Inductive Mode := PROTECT | UNPROTECT.
Inductive Error := ERROR_NONE | ERROR_FAIL | ERROR_AUTH | ERROR_REPLAY.
Inductive State :=
  | ST_INIT | ST_SENTOFFER | ST_RECEIVEDOFFER | ST_SENTPRANSWER_NO_CRYPTO | ST_RECEIVEDPRANSWER_NO_CRYPTO
  | ST_ACTIVE | ST_SENTUPDATEDOFFER | ST_RECEIVEDUPDATEDOFFER | ST_SENTPRANSWER | ST_RECEIVEDPRANSWER.
#[export] Instance Mode_eq_dec : EqDecision Mode. Proof. solve_decision. Defined.
#[export] Instance Error_eq_dec : EqDecision Error. Proof. solve_decision. Defined.
#[export] Instance State_eq_dec : EqDecision State. Proof. solve_decision. Defined.

(** ** libsrtp *)

Inductive ssrc_type := ssrc_any_inbound | ssrc_any_outbound.
Inductive crypto_policy := aes_cm_128_hmac_sha1_80 | aes_cm_128_hmac_sha1_32.
Inductive err_status := err_status_ok | err_status_auth_fail | err_status_replay_fail | err_status_replay_old
  | err_status_other.
#[export] Instance err_status_eq_dec : EqDecision err_status. Proof. solve_decision. Defined.

Record srtp_policy := mkPolicy {
  ssrc_kind : ssrc_type; rtp : crypto_policy; rtcp : crypto_policy; key : bytes; window_size : Z; allow_repeat_tx : bool;
}.

Class LibSrtp := {
  srtp_t : Type;
  auth_tag_len : crypto_policy -> Z;
  srtp_init : bool;
  srtp_install_event_handler : bool;
  srtp_create : srtp_policy -> option srtp_t;
  srtp_protect : srtp_t -> bytes -> err_status * bytes * srtp_t;
  srtp_unprotect : srtp_t -> bytes -> err_status * bytes * srtp_t;
  srtp_protect_rtcp : srtp_t -> bytes -> err_status * bytes * srtp_t;
  srtp_unprotect_rtcp : srtp_t -> bytes -> err_status * bytes * srtp_t;
}.

(** ** SrtpStat: errors are signalled at most once per silent time *)

Definition FailureKey : Type := Z * Mode * Error.
Record SrtpStat := mkSrtpStat { failures_ : FailureKey -> Z; signal_silent_time_ : Z }.
Definition new_stat : SrtpStat := mkSrtpStat (fun _ => 0) 1000.

Definition HandleSrtpResult (now : Z) (k : FailureKey) (s : SrtpStat) : list FailureKey * SrtpStat :=
  if bool_decide (k.2 = ERROR_NONE) then ([], s)
  else
    let last_signal_time := failures_ s k in
    let current_time := now in
    if (last_signal_time =? 0) || (s32 (signal_silent_time_ s) <? TimeUtils.TimeDiff current_time last_signal_time)
    then ([k], mkSrtpStat (fun k' => if decide (k' = k) then current_time else failures_ s k') (signal_silent_time_ s))
    else ([], s).

Definition AddProtectRtpResult (now ssrc : Z) (result : err_status) (s : SrtpStat) : list FailureKey * SrtpStat :=
  let error := match result with
               | err_status_ok => ERROR_NONE
               | err_status_auth_fail => ERROR_AUTH
               | _ => ERROR_FAIL
               end in
  HandleSrtpResult now (ssrc, PROTECT, error) s.

Definition AddUnprotectRtpResult (now ssrc : Z) (result : err_status) (s : SrtpStat) : list FailureKey * SrtpStat :=
  let error := match result with
               | err_status_ok => ERROR_NONE
               | err_status_auth_fail => ERROR_AUTH
               | err_status_replay_fail | err_status_replay_old => ERROR_REPLAY
               | err_status_other => ERROR_FAIL
               end in
  HandleSrtpResult now (ssrc, UNPROTECT, error) s.

Definition AddProtectRtcpResult (now : Z) := AddProtectRtpResult now 0.
Definition AddUnprotectRtcpResult (now : Z) := AddUnprotectRtpResult now 0.

(** ** SrtpSession *)

Section Lib.
Context `{Machine} {L : LibSrtp}.

Record SrtpSession := mkSrtpSession {
  session_ : option srtp_t; rtp_auth_tag_len_ : Z; rtcp_auth_tag_len_ : Z; srtp_stat_ : SrtpStat;
}.
Definition new_session : SrtpSession := mkSrtpSession None 0 0 new_stat.
Definition set_signal_silent_time_session (t : Z) (s : SrtpSession) : SrtpSession :=
  mkSrtpSession (session_ s) (rtp_auth_tag_len_ s) (rtcp_auth_tag_len_ s)
    (mkSrtpStat (failures_ (srtp_stat_ s)) t).

(** The outcome of Init does not depend on whether it ran before. *)
Definition Init : bool := srtp_init && srtp_install_event_handler.

Definition policy_for (type : ssrc_type) (cs key : bytes) : option srtp_policy :=
  if bool_decide (cs = CS_AES_CM_128_HMAC_SHA1_80)
  then Some (mkPolicy type aes_cm_128_hmac_sha1_80 aes_cm_128_hmac_sha1_80 key 1024 true)
  else if bool_decide (cs = CS_AES_CM_128_HMAC_SHA1_32)
  then Some (mkPolicy type aes_cm_128_hmac_sha1_32 aes_cm_128_hmac_sha1_80 key 1024 true)
  else None.

Definition SetKey (type : ssrc_type) (cs key : bytes) (s : SrtpSession) : bool * SrtpSession :=
  if bool_decide (session_ s <> None) then (false, s)
  else if negb Init then (false, s)
  else
    match policy_for type cs key with
    | None => (false, s)
    | Some policy =>
        if negb (length key =? SRTP_MASTER_KEY_LEN)%nat then (false, s)
        else
          match srtp_create policy with
          | None => (false, s)
          | Some h => (true, mkSrtpSession (Some h) (auth_tag_len (rtp policy)) (auth_tag_len (rtcp policy)) (srtp_stat_ s))
          end
    end.
Definition SetSend := SetKey ssrc_any_outbound.
Definition SetRecv := SetKey ssrc_any_inbound.

(** A buffer after the library wrote [p'] over the packet [p]. *)
Definition overwrite (p p' : bytes) : bytes := p' ++ drop (length p') p.

Definition with_handle (h : srtp_t) (s : SrtpSession) : SrtpSession :=
  mkSrtpSession (Some h) (rtp_auth_tag_len_ s) (rtcp_auth_tag_len_ s) (srtp_stat_ s).
Definition with_stat (r : list FailureKey * SrtpStat) (s : SrtpSession) : list FailureKey * SrtpSession :=
  (r.1, mkSrtpSession (session_ s) (rtp_auth_tag_len_ s) (rtcp_auth_tag_len_ s) r.2).

(** The boolean, the packet, the errors signalled and the session.  The SSRC
    is read in the buffer after the call, with the length of the packet. *)
Definition result : Type := bool * bytes * list FailureKey * SrtpSession.

Definition rtp_stat (add : Z -> err_status -> SrtpStat -> list FailureKey * SrtpStat) (buffer : bytes)
    (err : err_status) (s : SrtpSession) : list FailureKey * SrtpSession :=
  match RtpUtils.GetRtpSsrc buffer with
  | Some (Some ssrc) => with_stat (add ssrc err (srtp_stat_ s)) s
  | _ => ([], s)
  end.

Definition session_ProtectRtp (now : Z) (p : bytes) (max_len : Z) (s : SrtpSession) : result :=
  match session_ s with
  | None => (false, p, [], s)
  | Some h =>
      let need_len := Z.of_nat (length p) + rtp_auth_tag_len_ s in
      if max_len <? need_len then (false, p, [], s)
      else
        let '(err, p', h) := srtp_protect h p in
        let s := with_handle h s in
        let '(signals, s) := rtp_stat (AddProtectRtpResult now) (take (length p) (overwrite p p')) err s in
        (bool_decide (err = err_status_ok), p', signals, s)
  end.

Definition session_ProtectRtcp (now : Z) (p : bytes) (max_len : Z) (s : SrtpSession) : result :=
  match session_ s with
  | None => (false, p, [], s)
  | Some h =>
      let need_len := Z.of_nat (length p) + 4 + rtcp_auth_tag_len_ s in
      if max_len <? need_len then (false, p, [], s)
      else
        let '(err, p', h) := srtp_protect_rtcp h p in
        let s := with_handle h s in
        let '(signals, s) := with_stat (AddProtectRtcpResult now err (srtp_stat_ s)) s in
        (bool_decide (err = err_status_ok), p', signals, s)
  end.

Definition session_UnprotectRtp (now : Z) (p : bytes) (s : SrtpSession) : result :=
  match session_ s with
  | None => (false, p, [], s)
  | Some h =>
      let '(err, p', h) := srtp_unprotect h p in
      let s := with_handle h s in
      let '(signals, s) := rtp_stat (AddUnprotectRtpResult now) (take (length p) (overwrite p p')) err s in
      (bool_decide (err = err_status_ok), p', signals, s)
  end.

Definition session_UnprotectRtcp (now : Z) (p : bytes) (s : SrtpSession) : result :=
  match session_ s with
  | None => (false, p, [], s)
  | Some h =>
      let '(err, p', h) := srtp_unprotect_rtcp h p in
      let s := with_handle h s in
      let '(signals, s) := with_stat (AddUnprotectRtcpResult now err (srtp_stat_ s)) s in
      (bool_decide (err = err_status_ok), p', signals, s)
  end.

(** ** SrtpFilter *)

Record t := mk {
  state_ : State;
  signal_silent_time_in_ms_ : Z;
  offer_params_ : list CryptoParams;
  send_session_ : option SrtpSession;
  recv_session_ : option SrtpSession;
  send_rtcp_session_ : option SrtpSession;
  recv_rtcp_session_ : option SrtpSession;
  applied_send_params_ : CryptoParams;
  applied_recv_params_ : CryptoParams;
}.
Definition new : t := mk ST_INIT 0 [] None None None None no_params no_params.

Definition set_state (st : State) (f : t) : t :=
  mk st (signal_silent_time_in_ms_ f) (offer_params_ f) (send_session_ f) (recv_session_ f) (send_rtcp_session_ f)
    (recv_rtcp_session_ f) (applied_send_params_ f) (applied_recv_params_ f).
Definition set_offer_params (ps : list CryptoParams) (f : t) : t :=
  mk (state_ f) (signal_silent_time_in_ms_ f) ps (send_session_ f) (recv_session_ f) (send_rtcp_session_ f)
    (recv_rtcp_session_ f) (applied_send_params_ f) (applied_recv_params_ f).
Definition set_sessions (send recv : option SrtpSession) (f : t) : t :=
  mk (state_ f) (signal_silent_time_in_ms_ f) (offer_params_ f) send recv (send_rtcp_session_ f)
    (recv_rtcp_session_ f) (applied_send_params_ f) (applied_recv_params_ f).
Definition set_rtcp_sessions (send recv : option SrtpSession) (f : t) : t :=
  mk (state_ f) (signal_silent_time_in_ms_ f) (offer_params_ f) (send_session_ f) (recv_session_ f) send recv
    (applied_send_params_ f) (applied_recv_params_ f).
Definition set_applied (send recv : CryptoParams) (f : t) : t :=
  mk (state_ f) (signal_silent_time_in_ms_ f) (offer_params_ f) (send_session_ f) (recv_session_ f)
    (send_rtcp_session_ f) (recv_rtcp_session_ f) send recv.

(** state_ >= ST_ACTIVE *)
Definition IsActive (f : t) : bool :=
  match state_ f with
  | ST_ACTIVE | ST_SENTUPDATEDOFFER | ST_RECEIVEDUPDATEDOFFER | ST_SENTPRANSWER | ST_RECEIVEDPRANSWER => true
  | _ => false
  end.

Definition ExpectOffer (source : ContentSource) (f : t) : bool :=
  match state_ f, source with
  | ST_INIT, _ | ST_ACTIVE, _ => true
  | ST_SENTOFFER, CS_LOCAL | ST_SENTUPDATEDOFFER, CS_LOCAL => true
  | ST_RECEIVEDOFFER, CS_REMOTE | ST_RECEIVEDUPDATEDOFFER, CS_REMOTE => true
  | _, _ => false
  end.

Definition StoreParams (params : list CryptoParams) (source : ContentSource) (f : t) : bool * t :=
  let f := set_offer_params params f in
  (true,
   if bool_decide (state_ f = ST_INIT)
   then set_state (match source with CS_LOCAL => ST_SENTOFFER | CS_REMOTE => ST_RECEIVEDOFFER end) f
   else set_state (match source with CS_LOCAL => ST_SENTUPDATEDOFFER | CS_REMOTE => ST_RECEIVEDUPDATEDOFFER end) f).

Definition SetOffer (offer_params : list CryptoParams) (source : ContentSource) (f : t) : bool * t :=
  if negb (ExpectOffer source f) then (false, f) else StoreParams offer_params source f.

Definition ExpectAnswer (source : ContentSource) (f : t) : bool :=
  match state_ f, source with
  | ST_SENTOFFER, CS_REMOTE | ST_RECEIVEDOFFER, CS_LOCAL => true
  | ST_SENTUPDATEDOFFER, CS_REMOTE | ST_RECEIVEDUPDATEDOFFER, CS_LOCAL => true
  | ST_SENTPRANSWER_NO_CRYPTO, CS_LOCAL | ST_SENTPRANSWER, CS_LOCAL => true
  | ST_RECEIVEDPRANSWER_NO_CRYPTO, CS_REMOTE | ST_RECEIVEDPRANSWER, CS_REMOTE => true
  | _, _ => false
  end.

Definition CreateSrtpSessions (f : t) : t :=
  let s := set_signal_silent_time_session (signal_silent_time_in_ms_ f) new_session in
  set_applied no_params no_params (set_sessions (Some s) (Some s) f).

Definition NegotiateParams (answer_params : list CryptoParams) (f : t) : option CryptoParams :=
  match answer_params with
  | [answer] => if bool_decide (offer_params_ f = []) then None else find (Matches answer) (offer_params_ f)
  | _ => None
  end.

Definition kInline : bytes := str "inline:".

(** The key, or the inner [None] where the source returns false. *)
Definition ParseKeyParams (key_params : bytes) (len : nat) : option (option bytes) :=
  if negb (bool_decide (take 7 key_params = kInline)) then Some None
  else
    let key_b64 := drop 7 key_params in
    let? (ok, key_str, _) := Base64.DecodeFromArray (map (uninit 0) (seq 0 4)) key_b64 Base64.DO_STRICT in
    Some (if ok && (length key_str =? len)%nat then Some key_str else None).

Definition set_send (cs key : bytes) (f : t) : option (bool * t) :=
  let? s := send_session_ f in
  let '(ok, s) := SetSend cs key s in Some (ok, set_sessions (Some s) (recv_session_ f) f).
Definition set_recv (cs key : bytes) (f : t) : option (bool * t) :=
  let? s := recv_session_ f in
  let '(ok, s) := SetRecv cs key s in Some (ok, set_sessions (send_session_ f) (Some s) f).

Definition ApplyParams (send_params recv_params : CryptoParams) (f : t) : option (bool * t) :=
  if bool_decide (cipher_suite (applied_send_params_ f) = cipher_suite send_params) &&
     bool_decide (key_params (applied_send_params_ f) = key_params send_params) &&
     bool_decide (cipher_suite (applied_recv_params_ f) = cipher_suite recv_params) &&
     bool_decide (key_params (applied_recv_params_ f) = key_params recv_params)
  then Some (true, f)
  else
    let? send_key := ParseKeyParams (key_params send_params) SRTP_MASTER_KEY_LEN in
    let? recv_key := match send_key with
                     | Some _ => ParseKeyParams (key_params recv_params) SRTP_MASTER_KEY_LEN
                     | None => Some None
                     end in
    match send_key, recv_key with
    | Some send_key, Some recv_key =>
        let f := CreateSrtpSessions f in
        let? (ok, f) := set_send (cipher_suite send_params) send_key f in
        if negb ok then Some (false, f)
        else
          let? (ok, f) := set_recv (cipher_suite recv_params) recv_key f in
          if negb ok then Some (false, f) else Some (true, set_applied send_params recv_params f)
    | _, _ => Some (false, f)
    end.

Definition ResetParams (f : t) : bool * t := (true, set_state ST_INIT (set_offer_params [] f)).

Definition DoSetAnswer (answer_params : list CryptoParams) (source : ContentSource) (final : bool) (f : t)
  : option (bool * t) :=
  if negb (ExpectAnswer source f) then Some (false, f)
  else
    match answer_params with
    | [] =>
        if final then Some (ResetParams f)
        else Some (true, set_state (match source with
                                    | CS_LOCAL => ST_SENTPRANSWER_NO_CRYPTO
                                    | CS_REMOTE => ST_RECEIVEDPRANSWER_NO_CRYPTO end) f)
    | answer :: _ =>
        match NegotiateParams answer_params f with
        | None => Some (false, f)
        | Some selected_params =>
            let '(send_params, recv_params) :=
              match source with CS_REMOTE => (selected_params, answer) | CS_LOCAL => (answer, selected_params) end in
            let? (ok, f) := ApplyParams send_params recv_params f in
            if negb ok then Some (false, f)
            else if final then Some (true, set_state ST_ACTIVE (set_offer_params [] f))
            else Some (true, set_state (match source with
                                        | CS_LOCAL => ST_SENTPRANSWER | CS_REMOTE => ST_RECEIVEDPRANSWER end) f)
        end
    end.

Definition SetAnswer (answer_params : list CryptoParams) (source : ContentSource) (f : t) : option (bool * t) :=
  DoSetAnswer answer_params source true f.
Definition SetProvisionalAnswer (answer_params : list CryptoParams) (source : ContentSource) (f : t)
  : option (bool * t) :=
  DoSetAnswer answer_params source false f.

Definition SetRtpParams (send_cs send_key recv_cs recv_key : bytes) (f : t) : option (bool * t) :=
  if bool_decide (state_ f = ST_ACTIVE) then Some (false, f)
  else
    let f := CreateSrtpSessions f in
    let? (ok, f) := set_send send_cs send_key f in
    if negb ok then Some (false, f)
    else
      let? (ok, f) := set_recv recv_cs recv_key f in
      if negb ok then Some (false, f) else Some (true, set_state ST_ACTIVE f).

(** Both sessions are keyed with SetRecv, as in the source. *)
Definition SetRtcpParams (send_cs send_key recv_cs recv_key : bytes) (f : t) : bool * t :=
  match send_rtcp_session_ f, recv_rtcp_session_ f with
  | None, None =>
      let s := set_signal_silent_time_session (signal_silent_time_in_ms_ f) new_session in
      let '(ok, send) := SetRecv send_cs send_key s in
      let f := set_rtcp_sessions (Some send) None f in
      if negb ok then (false, f)
      else
        let '(ok, recv) := SetRecv recv_cs recv_key s in
        (ok, set_rtcp_sessions (Some send) (Some recv) f)
  | _, _ => (false, f)
  end.

Definition set_signal_silent_time (time : Z) (f : t) : option t :=
  let f := mk (state_ f) time (offer_params_ f) (send_session_ f) (recv_session_ f) (send_rtcp_session_ f)
             (recv_rtcp_session_ f) (applied_send_params_ f) (applied_recv_params_ f) in
  if bool_decide (state_ f = ST_ACTIVE) then
    let? send := send_session_ f in
    let? recv := recv_session_ f in
    let f := set_sessions (Some (set_signal_silent_time_session time send))
               (Some (set_signal_silent_time_session time recv)) f in
    Some (set_rtcp_sessions (option_map (set_signal_silent_time_session time) (send_rtcp_session_ f))
            (option_map (set_signal_silent_time_session time) (recv_rtcp_session_ f)) f)
  else Some f.

(** The boolean, the packet and the errors signalled. *)
Definition ProtectRtp (now : Z) (p : bytes) (max_len : Z) (f : t) : option (bool * bytes * list FailureKey * t) :=
  if negb (IsActive f) then Some (false, p, [], f)
  else
    let? s := send_session_ f in
    let '(ok, p, signals, s) := session_ProtectRtp now p max_len s in
    Some (ok, p, signals, set_sessions (Some s) (recv_session_ f) f).

Definition ProtectRtcp (now : Z) (p : bytes) (max_len : Z) (f : t) : option (bool * bytes * list FailureKey * t) :=
  if negb (IsActive f) then Some (false, p, [], f)
  else
    match send_rtcp_session_ f with
    | Some s =>
        let '(ok, p, signals, s) := session_ProtectRtcp now p max_len s in
        Some (ok, p, signals, set_rtcp_sessions (Some s) (recv_rtcp_session_ f) f)
    | None =>
        let? s := send_session_ f in
        let '(ok, p, signals, s) := session_ProtectRtcp now p max_len s in
        Some (ok, p, signals, set_sessions (Some s) (recv_session_ f) f)
    end.

Definition UnprotectRtp (now : Z) (p : bytes) (f : t) : option (bool * bytes * list FailureKey * t) :=
  if negb (IsActive f) then Some (false, p, [], f)
  else
    let? s := recv_session_ f in
    let '(ok, p, signals, s) := session_UnprotectRtp now p s in
    Some (ok, p, signals, set_sessions (send_session_ f) (Some s) f).

Definition UnprotectRtcp (now : Z) (p : bytes) (f : t) : option (bool * bytes * list FailureKey * t) :=
  if negb (IsActive f) then Some (false, p, [], f)
  else
    match recv_rtcp_session_ f with
    | Some s =>
        let '(ok, p, signals, s) := session_UnprotectRtcp now p s in
        Some (ok, p, signals, set_rtcp_sessions (send_rtcp_session_ f) (Some s) f)
    | None =>
        let? s := recv_session_ f in
        let '(ok, p, signals, s) := session_UnprotectRtcp now p s in
        Some (ok, p, signals, set_sessions (send_session_ f) (Some s) f)
    end.
End Lib.
End SrtpFilter.
