(* ===== verification/MediaSession.v ===== *)
(** * session/media/mediasession.cc: crypto parameters of offers and answers

    The part of the session description factory that makes and selects SDES
    crypto parameters (RFC 4568): an offer lists a fresh key per supported
    suite, an answer selects one suite and makes its own key.  A function that
    can fail returns [None] for false; the random number generator is
    threaded. *)

From S2P Require Import Prelude ByteOrder Base64 Helpers SrtpFilter.
Import SrtpFilter.
Open Scope jingle_scope.

Module MediaSession.

Inductive MediaType := MEDIA_TYPE_AUDIO | MEDIA_TYPE_VIDEO | MEDIA_TYPE_DATA.
#[export] Instance MediaType_eq_dec : EqDecision MediaType. Proof. solve_decision. Defined.

Definition kInline : bytes := str "inline:".

Section Rng.
Context `{R : Helpers.RandomGenerator}.

Definition CreateCryptoParams (tag : Z) (cipher : bytes) (g : Helpers.rng) : option CryptoParams * Helpers.rng :=
  match Helpers.CreateRandomString SRTP_MASTER_KEY_BASE64_LEN g with
  | (Some key, g) => (Some (mkCryptoParams tag cipher (kInline ++ key) []), g)
  | (None, g) => (None, g)
  end.

Definition AddCryptoParams (cipher_suite : bytes) (out : list CryptoParams) (g : Helpers.rng)
  : option (list CryptoParams) * Helpers.rng :=
  let size := Z.of_nat (length out) in
  match CreateCryptoParams size cipher_suite g with
  | (Some p, g) => (Some (out ++ [p]), g)
  | (None, g) => (None, g)
  end.

Definition AddMediaCryptos (cryptos media : list CryptoParams) : list CryptoParams := media ++ cryptos.

Fixpoint create_cryptos (crypto_suites : list bytes) (cryptos : list CryptoParams) (g : Helpers.rng)
  : option (list CryptoParams) * Helpers.rng :=
  match crypto_suites with
  | [] => (Some cryptos, g)
  | cs :: rest =>
      match AddCryptoParams cs cryptos g with
      | (Some cryptos, g) => create_cryptos rest cryptos g
      | (None, g) => (None, g)
      end
  end.

(** The crypto parameters of the description, [media], get the new ones. *)
Definition CreateMediaCryptos (crypto_suites : list bytes) (media : list CryptoParams) (g : Helpers.rng)
  : option (list CryptoParams) * Helpers.rng :=
  match create_cryptos crypto_suites [] g with
  | (Some cryptos, g) => (Some (AddMediaCryptos cryptos media), g)
  | (None, g) => (None, g)
  end.

Definition FindMatchingCrypto (cryptos : list CryptoParams) (crypto : CryptoParams) : option CryptoParams :=
  find (Matches crypto) cryptos.

Definition GetSupportedDefaultCryptoSuites : list bytes := [CS_AES_CM_128_HMAC_SHA1_80].
Definition GetSupportedAudioCryptoSuites : list bytes := [CS_AES_CM_128_HMAC_SHA1_32; CS_AES_CM_128_HMAC_SHA1_80].
Definition GetSupportedVideoCryptoSuites : list bytes := GetSupportedDefaultCryptoSuites.
Definition GetSupportedDataCryptoSuites : list bytes := GetSupportedDefaultCryptoSuites.

Definition selectable (type : MediaType) (bundle : bool) (i : CryptoParams) : bool :=
  bool_decide (CS_AES_CM_128_HMAC_SHA1_80 = cipher_suite i) ||
  (bool_decide (CS_AES_CM_128_HMAC_SHA1_32 = cipher_suite i) && bool_decide (type = MEDIA_TYPE_AUDIO) && negb bundle).

Definition SelectCrypto (type : MediaType) (cryptos : list CryptoParams) (bundle : bool) (g : Helpers.rng)
  : option CryptoParams * Helpers.rng :=
  match find (selectable type bundle) cryptos with
  | Some i => CreateCryptoParams (tag i) (cipher_suite i) g
  | None => (None, g)
  end.

(** Pruning the suites of a bundle to the common ones. *)
Definition CryptoNotFound (crypto : CryptoParams) (filter : list CryptoParams) : bool :=
  negb (existsb (fun it => bool_decide (cipher_suite it = cipher_suite crypto)) filter).
Definition PruneCryptos (filter target_cryptos : list CryptoParams) : list CryptoParams :=
  List.filter (fun c => negb (CryptoNotFound c filter)) target_cryptos.

Definition supported_suites (type : MediaType) : list bytes :=
  match type with
  | MEDIA_TYPE_AUDIO => GetSupportedAudioCryptoSuites
  | MEDIA_TYPE_VIDEO => GetSupportedVideoCryptoSuites
  | MEDIA_TYPE_DATA => GetSupportedDataCryptoSuites
  end.

(** ** What is made is well formed *)

(** The parameters of a suite the SRTP layer knows, with a key of 30 bytes in
    base64. *)
Definition wf_params (p : CryptoParams) (k : bytes) : Prop :=
  (cipher_suite p = CS_AES_CM_128_HMAC_SHA1_80 \/ cipher_suite p = CS_AES_CM_128_HMAC_SHA1_32) /\
  bytes_ok k /\ length k = SRTP_MASTER_KEY_LEN /\ key_params p = kInline ++ Base64.b64 k.

Lemma CreateCryptoParams_wf tag cs g p g' : CreateCryptoParams tag cs g = (Some p, g') ->
  (cs = CS_AES_CM_128_HMAC_SHA1_80 \/ cs = CS_AES_CM_128_HMAC_SHA1_32) ->
  SrtpFilter.tag p = tag /\ cipher_suite p = cs /\ exists k, wf_params p k.
Proof.
  unfold CreateCryptoParams. destruct (Helpers.CreateRandomString _ g) as [[s|] g1] eqn:E; [|done].
  intros [= <- <-] Hcs. split_and!; [done..|]. apply Helpers.CreateRandomString_digits in E as (ds & Hl & Hd & ->).
  destruct (Base64.b64_digits 10 ds Hl Hd) as (k & Hok & Hk & E). exists k. unfold wf_params.
  by rewrite E.
Qed.

Lemma create_cryptos_wf suites : (forall cs, cs ∈ suites -> cs = CS_AES_CM_128_HMAC_SHA1_80 \/ cs = CS_AES_CM_128_HMAC_SHA1_32) ->
  forall acc g ps g', create_cryptos suites acc g = (Some ps, g') -> Forall (fun p => exists k, wf_params p k) acc ->
  Forall (fun p => exists k, wf_params p k) ps /\ map cipher_suite ps = map cipher_suite acc ++ suites.
Proof.
  induction suites as [|cs suites IH]; cbn [create_cryptos]; intros Hs acc g ps g' E Hacc.
  - injection E as <- <-. by rewrite app_nil_r.
  - unfold AddCryptoParams in E. destruct (CreateCryptoParams _ cs g) as [[p|] g1] eqn:Ep; [|done].
    apply CreateCryptoParams_wf in Ep as (_ & Hcs & Hp); [|apply Hs; by left].
    apply IH in E as [Hps Hm]; [|intros c Hc; apply Hs; by right|by apply Forall_app_2; [|apply Forall_cons]].
    split; [done|]. rewrite Hm, map_app, <- app_assoc. cbn. by rewrite Hcs.
Qed.

Lemma offer_wf type g offer g' : CreateMediaCryptos (supported_suites type) [] g = (Some offer, g') ->
  Forall (fun p => exists k, wf_params p k) offer /\
  exists p, In p offer /\ cipher_suite p = CS_AES_CM_128_HMAC_SHA1_80.
Proof.
  unfold CreateMediaCryptos. destruct (create_cryptos _ [] g) as [[ps|] g1] eqn:E; [|done]. intros [= <- <-].
  unfold AddMediaCryptos. cbn [app]. apply create_cryptos_wf in E as [Hwf Hm]; [| |by apply List.Forall_nil].
  - split; [done|]. cbn [map app] in Hm.
    assert (Hin : In CS_AES_CM_128_HMAC_SHA1_80 (map cipher_suite ps))
      by (rewrite Hm; destruct type; [right; by left|by left..]).
    apply in_map_iff in Hin as (p & Hp & Hin). by exists p.
  - intros cs Hcs. destruct type; cbn in Hcs; repeat (apply elem_of_cons in Hcs as [->|Hcs]; [by eauto|]); by apply elem_of_nil in Hcs.
Qed.

(** A key for the answer is all that selecting needs. *)
Lemma SelectCrypto_ok type offer bundle g key g' :
  Helpers.CreateRandomString SRTP_MASTER_KEY_BASE64_LEN g = (Some key, g') ->
  (exists p, In p offer /\ cipher_suite p = CS_AES_CM_128_HMAC_SHA1_80) ->
  exists p answer, In p offer /\ SelectCrypto type offer bundle g = (Some answer, g') /\ Matches answer p = true /\
    (type = MEDIA_TYPE_AUDIO /\ bundle = false \/ cipher_suite answer = CS_AES_CM_128_HMAC_SHA1_80) /\
    exists k, wf_params answer k.
Proof.
  intros Hk (p0 & Hin0 & Hs0). unfold SelectCrypto. destruct (find (selectable type bundle) offer) as [p|] eqn:E.
  - apply find_some in E as [Hin Hsel].
    destruct (CreateCryptoParams (tag p) (cipher_suite p) g) as [[answer|] g2] eqn:Ec;
      [|unfold CreateCryptoParams in Ec; by rewrite Hk in Ec].
    assert (Hcs : cipher_suite p = CS_AES_CM_128_HMAC_SHA1_80 \/
                  cipher_suite p = CS_AES_CM_128_HMAC_SHA1_32 /\ type = MEDIA_TYPE_AUDIO /\ bundle = false).
    { apply orb_true_iff in Hsel as [H|H]; [left; by apply bool_decide_eq_true in H|right].
      apply andb_true_iff in H as [[H1 H2]%andb_true_iff H3]. apply bool_decide_eq_true in H1, H2. by destruct bundle. }
    pose proof (CreateCryptoParams_wf _ _ _ _ _ Ec) as (Ht & Hc & Hwf); [destruct Hcs as [|(? & _)]; by eauto|].
    exists p, answer. split; [done|]. split.
    { unfold CreateCryptoParams in Ec. rewrite Hk in Ec. by injection Ec as <- <-. }
    split; [unfold Matches; by rewrite Ht, Hc, Z.eqb_refl, bool_decide_eq_true_2|]. split; [|done].
    destruct Hcs as [Hcs|(_ & ? & ?)]; [right; congruence|by left].
  - exfalso. pose proof (find_none _ _ E p0 Hin0) as Hn. unfold selectable in Hn.
    by rewrite Hs0, bool_decide_eq_true_2 in Hn.
Qed.
End Rng.
End MediaSession.
