(* ===== verification/SrtpNegotiation.v ===== *)
(** * Two SRTP filters negotiating and talking

    The same offers and answers are applied to the filters of both ends, to
    one as its own and to the other as the peer's, interleaved with RTP and
    RTCP packets protected by one end and unprotected by the other.  The
    theorems are proved against what libsrtp promises ([LibSrtpLaws]); a toy
    library that satisfies it instantiates the witnesses. *)

From S2P Require Import Prelude ByteOrder Base64 PseudoTcp Helpers SrtpFilter MediaSession.
Import SrtpFilter.
Open Scope jingle_scope.

Module SrtpNegotiation.

(** What the code relies on.  Initialisation and creation with a 30-byte key
    succeed: *)
Class LibSrtpCreates (L : LibSrtp) := {
  lib_init : srtp_init && srtp_install_event_handler = true;
  policy_of : srtp_t -> srtp_policy;
  lib_create p : length (key p) = SRTP_MASTER_KEY_LEN -> exists h, srtp_create p = Some h /\ policy_of h = p;
}.

(** The synchronisation source and the sequence number of an RTP packet. *)
Definition rtp_ssrc (p : bytes) : Z := ByteOrder.GetBE32 (drop 8 p).
Definition rtp_seq (p : bytes) : Z := ByteOrder.GetBE16 (drop 2 p).

(** The sequence numbers of the source of [p] in a history, newest first; and
    whether they only ever advanced, by less than half of their range. *)
Definition stream_seqs (h : list bytes) (p : bytes) : list Z :=
  map rtp_seq (List.filter (fun q => rtp_ssrc q =? rtp_ssrc p) h).
Fixpoint advancing (l : list Z) : bool :=
  match l with
  | s :: (s' :: _) as l' => (0 <? u16 (s - s')) && (u16 (s - s') <? 2 ^ 15) && advancing l'
  | _ => true
  end.

(** A packet that a receiver of the packets [h] has no reason to refuse as a
    replay: its sequence number is new in its stream, or the stream advances
    (and may have gone round). *)
Definition no_replay (h : list bytes) (p : bytes) : bool :=
  bool_decide (rtp_seq p ∉ stream_seqs h p) || advancing (rtp_seq p :: stream_seqs h p).

(** Protecting adds at most the tag (and the 4 bytes of the SRTCP index).  A
    receiver created with the sender's key and given every packet that the
    sender protected, the RTP packets [h] among them, never takes one for
    another; and it accepts the next one, unless that is an RTP packet whose
    sequence number was sent before: with allow_repeat_tx the sender protects
    it again, and the receiver refuses it as a replay.  The index of an RTCP
    packet is assigned by the sender's context, one more for each packet. *)
Class LibSrtpLaws (L : LibSrtp) := {
  lib_creates :: LibSrtpCreates L;
  in_sync : list bytes -> srtp_t -> srtp_t -> Prop;
  lib_in_sync ps pr hs hr : srtp_create ps = Some hs -> srtp_create pr = Some hr ->
    ssrc_kind ps = ssrc_any_outbound -> ssrc_kind pr = ssrc_any_inbound ->
    key ps = key pr -> rtp ps = rtp pr -> rtcp ps = rtcp pr -> in_sync [] hs hr;
  lib_protect h hs hr p err p' hs' : in_sync h hs hr -> srtp_protect hs p = (err, p', hs') ->
    policy_of hs' = policy_of hs /\
    if decide (err = err_status_ok)
    then Z.of_nat (length p') <= Z.of_nat (length p) + auth_tag_len (rtp (policy_of hs)) /\
         exists err' q hr', srtp_unprotect hr p' = (err', q, hr') /\ policy_of hr' = policy_of hr /\ in_sync (p :: h) hs' hr' /\
           (err' = err_status_ok /\ q = p \/ err' = err_status_replay_fail \/ err' = err_status_replay_old) /\
           (no_replay h p = true -> err' = err_status_ok)
    else in_sync h hs' hr;
  lib_protect_rtcp h hs hr p err p' hs' : in_sync h hs hr -> srtp_protect_rtcp hs p = (err, p', hs') ->
    policy_of hs' = policy_of hs /\
    if decide (err = err_status_ok)
    then Z.of_nat (length p') <= Z.of_nat (length p) + 4 + auth_tag_len (rtcp (policy_of hs)) /\
         exists hr', srtp_unprotect_rtcp hr p' = (err_status_ok, p, hr') /\ policy_of hr' = policy_of hr /\ in_sync h hs' hr'
    else in_sync h hs' hr;
}.

Lemma advancing_app l l' : advancing (l ++ l') = true -> advancing l = true.
Proof.
  induction l as [|s [|s' l] IH]; [done..|]. intros [Hs Hl]%andb_true_iff. change (advancing ((s' :: l) ++ l') = true) in Hl.
  change (advancing (s :: s' :: l)) with ((0 <? u16 (s - s')) && (u16 (s - s') <? 2 ^ 15) && advancing (s' :: l)). by rewrite Hs, IH.
Qed.

(** Less was received: there is no more reason to refuse. *)
Lemma no_replay_app h h' p : no_replay (h ++ h') p = true -> no_replay h p = true.
Proof.
  unfold no_replay, stream_seqs. rewrite List.filter_app, map_app. intros [Hn|Ha]%orb_true_iff; apply orb_true_iff.
  - left. apply bool_decide_eq_true in Hn. apply bool_decide_eq_true. rewrite elem_of_app in Hn. tauto.
  - right. rewrite app_comm_cons in Ha. by apply advancing_app in Ha.
Qed.

(** ** The two ends *)

Inductive event :=
  | Offer (by_a : bool) (ps : list CryptoParams)
  | Pranswer (by_a : bool) (ps : list CryptoParams)
  | Answer (by_a : bool) (ps : list CryptoParams)
  | Media (by_a is_rtcp : bool) (now : Z) (p : bytes) (max_len : Z).

(** The results at both ends; or the sender's result with the protected
    packet, and what the receiver made of it if it was sent. *)
Inductive outcome :=
  | Signalled (at_a at_b : bool)
  | Packet (sent : bool) (p' : bytes) (received : option (bool * bytes)).

Definition source_of (mine : bool) : ContentSource := if mine then CS_LOCAL else CS_REMOTE.

Section Ends.
Context `{HM : Machine} {L : LibSrtp}.

Definition send_packet (is_rtcp : bool) (now : Z) (p : bytes) (max_len : Z) (s r : t)
  : option (outcome * (t * t)) :=
  let? (ok, p', _, s) := (if is_rtcp then ProtectRtcp else ProtectRtp) now p max_len s in
  if negb ok then Some (Packet false p' None, (s, r))
  else
    let? (ok', q, _, r) := (if is_rtcp then UnprotectRtcp else UnprotectRtp) now p' r in
    Some (Packet true p' (Some (ok', q)), (s, r)).

Definition step (e : event) (ends : t * t) : option (outcome * (t * t)) :=
  let '(a, b) := ends in
  match e with
  | Offer by_a ps =>
      let '(ra, a) := SetOffer ps (source_of by_a) a in
      let '(rb, b) := SetOffer ps (source_of (negb by_a)) b in
      Some (Signalled ra rb, (a, b))
  | Pranswer by_a ps =>
      let? (ra, a) := SetProvisionalAnswer ps (source_of by_a) a in
      let? (rb, b) := SetProvisionalAnswer ps (source_of (negb by_a)) b in
      Some (Signalled ra rb, (a, b))
  | Answer by_a ps =>
      let? (ra, a) := SetAnswer ps (source_of by_a) a in
      let? (rb, b) := SetAnswer ps (source_of (negb by_a)) b in
      Some (Signalled ra rb, (a, b))
  | Media true is_rtcp now p max_len => send_packet is_rtcp now p max_len a b
  | Media false is_rtcp now p max_len =>
      let? (o, (b, a)) := send_packet is_rtcp now p max_len b a in Some (o, (a, b))
  end.

Fixpoint run (es : list event) (ends : t * t) : option (list outcome * (t * t)) :=
  match es with
  | [] => Some ([], ends)
  | e :: es =>
      let? (o, ends) := step e ends in
      let? (os, ends) := run es ends in
      Some (o :: os, ends)
  end.

(** ** No null session is used *)

Section NoNull.
Lemma ParseKeyParams_total kp n : exists r, ParseKeyParams kp n = Some r.
Proof.
  unfold ParseKeyParams. destruct (bool_decide _); cbn [negb]; [|by eexists].
  destruct (Base64.DecodeFromArray_total (map (uninit 0) (seq 0 4)) (drop 7 kp) Base64.DO_STRICT)
    as (ok & res & used & -> & _); [done|]. by eexists.
Qed.

Lemma NegotiateParams_suite answer ps f p : NegotiateParams (answer :: ps) f = Some p ->
  cipher_suite p = cipher_suite answer /\ p ∈ offer_params_ f.
Proof.
  unfold NegotiateParams. destruct ps; [|done]. case_bool_decide; [done|]. intros Hf. apply find_some in Hf as [Hin Hmt].
  apply andb_true_iff in Hmt as [_ Hs]. apply bool_decide_eq_true in Hs. split; [done|]. by apply list_elem_of_In.
Qed.

Definition has_sessions (f : t) : Prop := is_Some (send_session_ f) /\ is_Some (recv_session_ f).
(** A filter that is active, or has parameters in use, has its sessions. *)
Definition armed (f : t) : Prop := IsActive f = true \/ cipher_suite (applied_send_params_ f) <> [] -> has_sessions f.

Definition keeps (f f' : t) : Prop :=
  state_ f' = state_ f /\ applied_send_params_ f' = applied_send_params_ f /\ (has_sessions f -> has_sessions f').
Lemma keeps_armed f f' : keeps f f' -> armed f -> armed f'.
Proof. unfold armed, IsActive. intros (-> & -> & Hk) Ha H. by apply Hk, Ha. Qed.

(** The histories a caller keeps to: no new offer before the answer to the
    first one of a negotiation, and answers that name a suite. *)
Definition first_offer (f : t) : bool := bool_decide (state_ f = ST_SENTOFFER \/ state_ f = ST_RECEIVEDOFFER).
Definition allowed (e : event) (ends : t * t) : bool :=
  match e with
  | Offer _ _ => negb (first_offer ends.1 || first_offer ends.2)
  | Pranswer _ (p :: _) | Answer _ (p :: _) => negb (bool_decide (cipher_suite p = []))
  | _ => true
  end.
Fixpoint guarded (es : list event) (ends : t * t) : bool :=
  match es with
  | [] => true
  | e :: es =>
      allowed e ends && match step e ends with Some (_, ends) => guarded es ends | None => true end
  end.

Lemma set_send_sessions cs k f ok f' : set_send cs k f = Some (ok, f') -> has_sessions f ->
  has_sessions f' /\ state_ f' = state_ f.
Proof.
  unfold set_send. intros E [[s Es] Hr]. rewrite Es in E. destruct (SetSend cs k s) as [ok' s'].
  injection E as <- <-. by split; [split; [by eexists|]|].
Qed.
Lemma set_recv_sessions cs k f ok f' : set_recv cs k f = Some (ok, f') -> has_sessions f ->
  has_sessions f' /\ state_ f' = state_ f.
Proof.
  unfold set_recv. intros E [Hs [r Er]]. rewrite Er in E. destruct (SetRecv cs k r) as [ok' r'].
  injection E as <- <-. by split; [split; [|by eexists]|].
Qed.

Lemma ApplyParams_armed sp rp f ok f' : ApplyParams sp rp f = Some (ok, f') ->
  state_ f' = state_ f /\
  (has_sessions f' \/ f' = f /\ (ok = true -> cipher_suite (applied_send_params_ f) = cipher_suite sp)).
Proof.
  unfold ApplyParams. case_match eqn:Ec.
  { intros [= <- <-]. split; [done|]. right. split; [done|]. intros _.
    repeat (apply andb_true_iff in Ec as [Ec _]). by apply bool_decide_eq_true in Ec. }
  destruct (ParseKeyParams (key_params sp) _) as [sk|]; [|done].
  destruct (match sk with Some _ => _ | None => _ end) as [rk|]; [|done].
  destruct sk as [sk|]; [destruct rk as [rk|]|]; [|intros [= <- <-]; split; [done|]; by right..].
  assert (Hc : has_sessions (CreateSrtpSessions f)) by (split; by eexists).
  destruct (set_send _ _ _) as [[ok1 f1]|] eqn:E1; [|done]. apply set_send_sessions in E1 as [H1 S1]; [|done].
  destruct ok1; cbn [negb]; [|intros [= <- <-]; by split; [|left]].
  destruct (set_recv _ _ f1) as [[ok2 f2]|] eqn:E2; [|done]. apply set_recv_sessions in E2 as [H2 S2]; [|done].
  destruct ok2; cbn [negb]; intros [= <- <-]; (split; [cbn; by rewrite S2, S1|by left]).
Qed.

Lemma DoSetAnswer_armed ps m final f r f' : DoSetAnswer ps m final f = Some (r, f') ->
  match ps with p :: _ => cipher_suite p <> [] | [] => True end -> armed f -> armed f'.
Proof.
  unfold DoSetAnswer, armed. intros E Hps Hf. destruct (negb (ExpectAnswer m f)); [by injection E as <- <-|].
  destruct ps as [|answer ps].
  { destruct final; injection E as <- <-; [|destruct m]; cbn; intros [H|H]; try done; apply Hf; by right. }
  destruct (NegotiateParams _ f) as [sel|] eqn:Esel; [|by injection E as <- <-].
  apply NegotiateParams_suite in Esel as [Hcs _].
  destruct (match m with CS_REMOTE => _ | CS_LOCAL => _ end) as [sp rp] eqn:Em.
  assert (Hsp : cipher_suite sp <> []) by (destruct m; injection Em as <- <-; congruence). clear Em.
  destruct (ApplyParams sp rp f) as [[ok f1]|] eqn:Ea; [|done]. apply ApplyParams_armed in Ea as [Hst Ha].
  assert (Hs : ok = true -> has_sessions f1).
  { intros ->. destruct Ha as [|[-> Ha]]; [done|]. apply Hf. right. by rewrite Ha. }
  destruct ok; cbn [negb] in E.
  - destruct final; injection E as <- <-; intros _; by apply Hs.
  - injection E as <- <-. destruct Ha as [|[-> _]]; [done|exact Hf].
Qed.

Lemma SetOffer_armed ps m f : state_ f <> ST_SENTOFFER -> state_ f <> ST_RECEIVEDOFFER -> armed f ->
  armed (SetOffer ps m f).2.
Proof.
  unfold SetOffer, armed, IsActive. intros H1 H2 Hf. destruct (ExpectOffer m f) eqn:E; [|done]. cbn [negb].
  unfold StoreParams. cbn [snd]. case_bool_decide as Hi; cbn in Hi |- *.
  - intros [H|H]; [by destruct m|apply Hf; by right].
  - intros _. apply Hf. left. unfold ExpectOffer in E. by destruct (state_ f), m.
Qed.

Lemma DoSetAnswer_total ps m final f : exists r, DoSetAnswer ps m final f = Some r.
Proof.
  unfold DoSetAnswer. destruct (negb _); [by eexists|]. destruct ps as [|answer ps]; [destruct final; by eexists|].
  destruct (NegotiateParams _ f) as [sel|]; [|by eexists]. destruct (match m with CS_REMOTE => _ | CS_LOCAL => _ end) as [sp rp].
  enough (exists r, ApplyParams sp rp f = Some r) as [[ok f1] ->] by (destruct ok, final; by eexists).
  unfold ApplyParams. case_match; [by eexists|]. destruct (ParseKeyParams_total (key_params sp) SRTP_MASTER_KEY_LEN) as [[ks|] ->]; [|by eexists].
  destruct (ParseKeyParams_total (key_params rp) SRTP_MASTER_KEY_LEN) as [[kr|] ->]; [|by eexists].
  assert (H1 : exists ok f1, set_send (cipher_suite sp) ks (CreateSrtpSessions f) = Some (ok, f1) /\ has_sessions f1).
  { unfold set_send. cbn [CreateSrtpSessions set_applied set_sessions send_session_]. generalize (SetSend (cipher_suite sp) ks). intros g. destruct (g _) as [ok s]. do 2 eexists. split; [done|]. by split; eexists. }
  destruct H1 as (ok & f1 & -> & [_ [r Er]]). destruct ok; cbn [negb]; [|by eexists].
  unfold set_recv. rewrite Er. destruct (SetRecv _ _ r) as [[] ?]; by eexists.
Qed.

Lemma Protect_armed (is_rtcp : bool) now p max_len f : armed f -> exists ok q sig f',
  (if is_rtcp then ProtectRtcp else ProtectRtp) now p max_len f = Some (ok, q, sig, f') /\ armed f'.
Proof.
  intros Ha. assert (H : IsActive f = true -> has_sessions f) by (intros; apply Ha; by left).
  enough (exists ok q sig f', (if is_rtcp then ProtectRtcp else ProtectRtp) now p max_len f = Some (ok, q, sig, f') /\ keeps f f') as
    (ok & q & sig & f' & E & Hk) by (exists ok, q, sig, f'; split; [done|by eapply keeps_armed]).
  destruct is_rtcp; unfold ProtectRtcp, ProtectRtp; (destruct (IsActive f); cbn [negb]; [|by do 4 eexists]);
    destruct H as [[s Es] [r Er]]; try done; [destruct (send_rtcp_session_ f) as [sr|]|]; rewrite ?Es;
    match goal with |- context [?pr now p max_len ?x] => destruct (pr now p max_len x) as [[[ok q] sig] s'] end;
    do 4 eexists; (split; [done|]); unfold keeps, has_sessions; cbn; rewrite ?Es, ?Er; (split_and!; try done; intros _; split; by eexists).
Qed.

Lemma Unprotect_armed (is_rtcp : bool) now p f : armed f -> exists ok q sig f',
  (if is_rtcp then UnprotectRtcp else UnprotectRtp) now p f = Some (ok, q, sig, f') /\ armed f'.
Proof.
  intros Ha. assert (H : IsActive f = true -> has_sessions f) by (intros; apply Ha; by left).
  enough (exists ok q sig f', (if is_rtcp then UnprotectRtcp else UnprotectRtp) now p f = Some (ok, q, sig, f') /\ keeps f f') as
    (ok & q & sig & f' & E & Hk) by (exists ok, q, sig, f'; split; [done|by eapply keeps_armed]).
  destruct is_rtcp; unfold UnprotectRtcp, UnprotectRtp; (destruct (IsActive f); cbn [negb]; [|by do 4 eexists]);
    destruct H as [[s Es] [r Er]]; try done; [destruct (recv_rtcp_session_ f) as [sr|]|]; rewrite ?Er;
    match goal with |- context [?pr now p ?x] => destruct (pr now p x) as [[[ok q] sig] s'] end;
    do 4 eexists; (split; [done|]); unfold keeps, has_sessions; cbn; rewrite ?Es, ?Er; (split_and!; try done; intros _; split; by eexists).
Qed.

Lemma send_packet_armed is_rtcp now p max_len s r : armed s -> armed r ->
  exists o s' r', send_packet is_rtcp now p max_len s r = Some (o, (s', r')) /\ armed s' /\ armed r'.
Proof.
  intros Hs Hr. unfold send_packet. destruct (Protect_armed is_rtcp now p max_len s Hs) as (ok & q & sig & s' & -> & Hs').
  destruct ok; cbn [negb]; [|by do 3 eexists]. destruct (Unprotect_armed is_rtcp now q r Hr) as (ok & q' & sig' & r' & -> & Hr').
  by do 3 eexists.
Qed.

Lemma DoSetAnswer_both ps m m' final a b : match ps with p :: _ => cipher_suite p <> [] | [] => True end -> armed a -> armed b ->
  exists ra a' rb b', DoSetAnswer ps m final a = Some (ra, a') /\ DoSetAnswer ps m' final b = Some (rb, b') /\ armed a' /\ armed b'.
Proof.
  intros Hps Ha Hb. destruct (DoSetAnswer_total ps m final a) as [[ra a'] Ea], (DoSetAnswer_total ps m' final b) as [[rb b'] Eb].
  exists ra, a', rb, b'. split_and!; [done..| |]; by eapply DoSetAnswer_armed.
Qed.

Lemma step_armed e a b : allowed e (a, b) = true -> armed a -> armed b ->
  exists o a' b', step e (a, b) = Some (o, (a', b')) /\ armed a' /\ armed b'.
Proof.
  intros Hg Ha Hb. destruct e as [m ps|m ps|m ps|[] rc now p max_len]; cbn [step allowed fst snd] in *.
  - apply negb_true_iff, orb_false_iff in Hg as [Ga%bool_decide_eq_false Gb%bool_decide_eq_false].
    pose proof (SetOffer_armed ps (source_of m) a) as Sa. pose proof (SetOffer_armed ps (source_of (negb m)) b) as Sb.
    destruct (SetOffer _ _ a), (SetOffer _ _ b). do 3 eexists. split; [done|]. split; [apply Sa|apply Sb]; tauto.
  - destruct (DoSetAnswer_both ps (source_of m) (source_of (negb m)) false a b) as (ra & a' & rb & b' & Ea & Eb & H); [|done..|].
    { destruct ps; [done|]. by apply negb_true_iff, bool_decide_eq_false in Hg. }
    unfold SetProvisionalAnswer. rewrite Ea, Eb. by do 3 eexists.
  - destruct (DoSetAnswer_both ps (source_of m) (source_of (negb m)) true a b) as (ra & a' & rb & b' & Ea & Eb & H); [|done..|].
    { destruct ps; [done|]. by apply negb_true_iff, bool_decide_eq_false in Hg. }
    unfold SetAnswer. rewrite Ea, Eb. by do 3 eexists.
  - by apply send_packet_armed.
  - destruct (send_packet_armed rc now p max_len b a Hb Ha) as (o & b' & a' & -> & H1 & H2). by do 3 eexists.
Qed.

Lemma run_guarded es : forall a b, armed a -> armed b -> guarded es (a, b) = true -> exists x, run es (a, b) = Some x.
Proof.
  induction es as [|e es IH]; intros a b Ha Hb; cbn [run guarded]; [by eexists|].
  intros [Hg Hgs]%andb_true_iff. destruct (step_armed e a b Hg Ha Hb) as (o & a1 & b1 & E & Ha1 & Hb1). rewrite E in Hgs |- *.
  destruct (IH _ _ Ha1 Hb1 Hgs) as [[os ends] ->]. by eexists.
Qed.

(** C9: No use of a null session happens, at either end and whatever libsrtp
    answers, in a history in which no offer is made again before the first
    answer of a negotiation and answers name a cipher suite; the sequence of
    calls runs to its end. *)
Theorem srtp_no_null_session es : guarded es (new, new) = true -> exists os a b, run es (new, new) = Some (os, (a, b)).
Proof.
  intros Hg. destruct (run_guarded es new new) as [[os [a b]] E]; [by intros [H|H]..|done|by eexists _, _, _].
Qed.
End NoNull.

(** ** Mirrored states *)

Definition flip (st : State) : State :=
  match st with
  | ST_SENTOFFER => ST_RECEIVEDOFFER | ST_RECEIVEDOFFER => ST_SENTOFFER
  | ST_SENTPRANSWER_NO_CRYPTO => ST_RECEIVEDPRANSWER_NO_CRYPTO | ST_RECEIVEDPRANSWER_NO_CRYPTO => ST_SENTPRANSWER_NO_CRYPTO
  | ST_SENTUPDATEDOFFER => ST_RECEIVEDUPDATEDOFFER | ST_RECEIVEDUPDATEDOFFER => ST_SENTUPDATEDOFFER
  | ST_SENTPRANSWER => ST_RECEIVEDPRANSWER | ST_RECEIVEDPRANSWER => ST_SENTPRANSWER
  | ST_INIT => ST_INIT | ST_ACTIVE => ST_ACTIVE
  end.

Section Laws.
Context {HL : LibSrtpLaws L}.

(** A sender's session and the receiver's: neither has a key, or both have
    the same one and the receiver has seen the last packets of [h]. *)
Definition paired_session (h : list bytes) (s r : SrtpSession) : Prop :=
  match session_ s, session_ r with
  | None, None => True
  | Some hs, Some hr =>
      (exists h', h' `prefix_of` h /\ in_sync h' hs hr) /\ key (policy_of hs) = key (policy_of hr) /\
      rtp (policy_of hs) = rtp (policy_of hr) /\ rtcp (policy_of hs) = rtcp (policy_of hr) /\
      rtp_auth_tag_len_ s = auth_tag_len (rtp (policy_of hs)) /\
      rtcp_auth_tag_len_ s = auth_tag_len (rtcp (policy_of hs))
  | _, _ => False
  end.
Definition paired (h : list bytes) (s r : option SrtpSession) : Prop :=
  match s, r with
  | None, None => True
  | Some s, Some r => paired_session h s r
  | _, _ => False
  end.

(** The RTP packets that each end has sent, newest first. *)
Definition history : Type := list bytes * list bytes.

Record mirrored (h : history) (a b : t) : Prop := {
  mir_state : state_ b = flip (state_ a);
  mir_offer : offer_params_ b = offer_params_ a;
  mir_applied : applied_send_params_ b = applied_recv_params_ a /\ applied_recv_params_ b = applied_send_params_ a;
  mir_ab : paired h.1 (send_session_ a) (recv_session_ b);
  mir_ba : paired h.2 (send_session_ b) (recv_session_ a);
  mir_rtcp : send_rtcp_session_ a = None /\ recv_rtcp_session_ a = None /\ send_rtcp_session_ b = None /\ recv_rtcp_session_ b = None;
}.

Lemma flip_flip st : flip (flip st) = st.
Proof. by destruct st. Qed.

Lemma mirrored_sym h a b : mirrored h a b -> mirrored (h.2, h.1) b a.
Proof.
  intros [H1 H2 [H3 H4] H5 H6 (H7 & H8 & H9 & H10)]. split; [by rewrite H1, flip_flip|done..].
Qed.
Lemma mirrored_new h : mirrored h new new.
Proof. by split. Qed.

Lemma mirrored_active h a b : mirrored h a b -> IsActive b = IsActive a.
Proof. intros [H _ _ _ _ _]. unfold IsActive. rewrite H. by destruct (state_ a). Qed.

(** ** Signalling keeps the ends mirrored *)

Definition fresh_session (s : SrtpSession) : Prop := session_ s = None.

(** A session that was just made gets the key of a suite it knows, if that
    has the right length. *)
Lemma SetKey_cases type cs k s : fresh_session s ->
  SetKey type cs k s = (false, s) /\ (policy_for type cs k = None \/ length k <> SRTP_MASTER_KEY_LEN) \/
  exists pol h, policy_for type cs k = Some pol /\ length k = SRTP_MASTER_KEY_LEN /\ srtp_create pol = Some h /\
    policy_of h = pol /\
    SetKey type cs k s = (true, mkSrtpSession (Some h) (auth_tag_len (rtp pol)) (auth_tag_len (rtcp pol)) (srtp_stat_ s)).
Proof.
  unfold fresh_session, SetKey, Init. intros Hs. rewrite bool_decide_eq_false_2 by (rewrite Hs; by intros []).
  rewrite lib_init. cbn [negb]. destruct (policy_for type cs k) as [pol|] eqn:Ep; [|by left; split; [|left]].
  destruct (Nat.eqb_spec (length k) SRTP_MASTER_KEY_LEN) as [Hk|]; cbn [negb]; [|by left; split; [|right]].
  right. assert (key pol = k) as Hpk
    by (revert Ep; unfold policy_for; by repeat case_bool_decide; intros [= <-]).
  destruct (lib_create pol) as (h & E & Eh); [by rewrite Hpk|]. exists pol, h. by rewrite E.
Qed.

Lemma policy_for_in cs k :
  policy_for ssrc_any_inbound cs k =
  option_map (fun p => mkPolicy ssrc_any_inbound (rtp p) (rtcp p) (key p) (window_size p) (allow_repeat_tx p))
    (policy_for ssrc_any_outbound cs k).
Proof. unfold policy_for. by repeat case_bool_decide. Qed.
Lemma policy_for_kind type cs k p : policy_for type cs k = Some p -> ssrc_kind p = type /\ key p = k.
Proof. unfold policy_for. by repeat case_bool_decide; intros [= <-]. Qed.

Lemma SetKey_paired h cs k s r : fresh_session s -> fresh_session r ->
  (SetSend cs k s).1 = (SetRecv cs k r).1 /\ paired_session h (SetSend cs k s).2 (SetRecv cs k r).2 /\
  ((SetSend cs k s).1 = false -> (SetSend cs k s).2 = s /\ (SetRecv cs k r).2 = r).
Proof.
  intros Hs Hr. unfold SetSend, SetRecv.
  destruct (SetKey_cases ssrc_any_outbound cs k s Hs) as [[-> Hn]|(ps & hs & Eps & Hk & Ehs & Phs & ->)];
    destruct (SetKey_cases ssrc_any_inbound cs k r Hr) as [[-> Hn']|(pr & hr & Epr & Hk' & Ehr & Phr & ->)]; cbn.
  - unfold paired_session. by rewrite Hs, Hr.
  - exfalso. rewrite policy_for_in in Epr. destruct Hn as [Hn|Hn]; [by rewrite Hn in Epr|done].
  - exfalso. rewrite policy_for_in, Eps in Hn'. by destruct Hn'.
  - split; [done|]. split; [|done]. unfold paired_session. cbn. rewrite policy_for_in, Eps in Epr. cbn in Epr.
    apply policy_for_kind in Eps as [Hkind _]. injection Epr as <-. rewrite Phs, Phr. cbn. split_and!; try done.
    exists []. split; [apply prefix_nil|]. by eapply lib_in_sync.
Qed.

Lemma CreateSrtpSessions_fresh f :
  exists s, send_session_ (CreateSrtpSessions f) = Some s /\ recv_session_ (CreateSrtpSessions f) = Some s /\ fresh_session s.
Proof. by eexists. Qed.

Lemma mirrored_fresh h a b : mirrored h a b -> mirrored h (CreateSrtpSessions a) (CreateSrtpSessions b).
Proof. intros [H1 H2 [H3 H4] H5 H6 H7]. by split. Qed.

Lemma ParseKeyParams_length kp n k : ParseKeyParams kp n = Some (Some k) -> length k = n.
Proof.
  unfold ParseKeyParams. case_match; [done|]. destruct (Base64.DecodeFromArray _ _ _) as [[[ok s] u]|]; [|done].
  destruct (ok && (length s =? n)%nat) eqn:E; [|done]. intros [= <-]. by apply andb_true_iff in E as [_ ?%Nat.eqb_eq].
Qed.

Lemma policy_for_None type cs k k' : policy_for type cs k = None -> policy_for type cs k' = None.
Proof. unfold policy_for. by repeat case_bool_decide. Qed.

Lemma SetKey_agree cs k k' s s' : fresh_session s -> fresh_session s' -> length k = length k' ->
  (SetSend cs k s).1 = (SetSend cs k' s').1.
Proof.
  intros Hs Hs' Hl. unfold SetSend.
  destruct (SetKey_cases ssrc_any_outbound cs k s Hs) as [[-> Hn]|(p & h & E & Hk & _ & _ & ->)];
    destruct (SetKey_cases ssrc_any_outbound cs k' s' Hs') as [[-> Hn']|(p' & h' & E' & Hk' & _ & _ & ->)]; cbn; try done;
    exfalso.
  - destruct Hn as [Hn|Hn]; [|congruence]. by rewrite (policy_for_None _ _ _ k' Hn) in E'.
  - destruct Hn' as [Hn|Hn]; [|congruence]. by rewrite (policy_for_None _ _ _ k Hn) in E.
Qed.

(** Keying both directions of both ends, with fresh sessions. *)
Definition key_both (cs ks kr : bytes) (f : t) : option (bool * t) :=
  let? (ok, f) := set_send cs ks f in
  if negb ok then Some (false, f) else set_recv cs kr f.

Lemma key_both_mirrored h cs ks kr a b : mirrored h a b -> length ks = length kr ->
  exists ok a' b', key_both cs ks kr (CreateSrtpSessions a) = Some (ok, a') /\
    key_both cs kr ks (CreateSrtpSessions b) = Some (ok, b') /\ mirrored h a' b' /\
    state_ a' = state_ a /\ offer_params_ a' = offer_params_ a.
Proof.
  intros [H1 H2 _ _ _ H7] Hl. destruct (CreateSrtpSessions_fresh a) as (sa & Sa & Ra & Fa).
  destruct (CreateSrtpSessions_fresh b) as (sb & Sb & Rb & Fb).
  unfold key_both, set_send, set_recv. rewrite Sa, Sb.
  destruct (SetKey_paired h.1 cs ks sa sb Fa Fb) as (O1 & P1 & F1). destruct (SetKey_paired h.2 cs kr sb sa Fb Fa) as (O2 & P2 & F2).
  pose proof (SetKey_agree cs ks kr sa sb Fa Fb Hl) as O.
  destruct (SetSend cs ks sa) as [ok s1], (SetSend cs kr sb) as [ok2 s2], (SetRecv cs ks sb) as [ok3 r2] eqn:E3,
    (SetRecv cs kr sa) as [ok4 r1] eqn:E4. cbn in O, O1, O2, P1, P2, F1, F2. subst ok3 ok4 ok2.
  cbn [recv_session_ set_sessions]. rewrite Ra, Rb. cbn [send_session_ set_sessions]. destruct ok; cbn [negb].
  - rewrite E3, E4. do 3 eexists. split_and!; [done..| |done|done]. by split.
  - destruct F1 as [-> ->]; [done|]. destruct F2 as [-> ->]; [done|]. do 3 eexists. split_and!; [done..| |done|done].
    assert (P : forall g x y, fresh_session x -> fresh_session y -> paired_session g x y)
      by (unfold fresh_session, paired_session; by intros ? ? ? -> ->).
    by split; [..|apply P|apply P|].
Qed.

Lemma andb_swap4 a b c d : c && d && a && b = a && b && c && d.
Proof. by destruct a, b, c, d. Qed.

Lemma ApplyParams_key_both sp rp f ks kr :
  ParseKeyParams (key_params sp) SRTP_MASTER_KEY_LEN = Some (Some ks) ->
  ParseKeyParams (key_params rp) SRTP_MASTER_KEY_LEN = Some (Some kr) -> cipher_suite sp = cipher_suite rp ->
  ApplyParams sp rp f =
  if bool_decide (cipher_suite (applied_send_params_ f) = cipher_suite sp) &&
     bool_decide (key_params (applied_send_params_ f) = key_params sp) &&
     bool_decide (cipher_suite (applied_recv_params_ f) = cipher_suite rp) &&
     bool_decide (key_params (applied_recv_params_ f) = key_params rp)
  then Some (true, f)
  else let? (ok, f) := key_both (cipher_suite sp) ks kr (CreateSrtpSessions f) in
       if negb ok then Some (false, f) else Some (true, set_applied sp rp f).
Proof.
  intros Es Er Ecs. unfold ApplyParams, key_both. rewrite Es, Er, <- Ecs. case_match; [done|].
  destruct (set_send _ _ _) as [[ok f1]|]; [|done]. by destruct ok.
Qed.

(** Without two keys, only parameters already in use are accepted. *)
Lemma ApplyParams_refused h sp rp a b ks kr : mirrored h a b -> cipher_suite sp = cipher_suite rp ->
  ParseKeyParams (key_params sp) SRTP_MASTER_KEY_LEN = Some ks ->
  ParseKeyParams (key_params rp) SRTP_MASTER_KEY_LEN = Some kr -> ks = None \/ kr = None ->
  exists ok a' b', ApplyParams sp rp a = Some (ok, a') /\ ApplyParams rp sp b = Some (ok, b') /\ mirrored h a' b' /\
    state_ a' = state_ a /\ offer_params_ a' = offer_params_ a.
Proof.
  intros Hm Hcs Es Er Hn. pose proof Hm as [_ _ [Ha1 Ha2] _ _ _]. unfold ApplyParams. rewrite Es, Er, Ha1, Ha2, andb_swap4.
  case_match; [by eexists true, a, b|]. exists false, a, b. by destruct ks, kr; destruct Hn.
Qed.

Lemma ApplyParams_mirrored h sp rp a b : mirrored h a b -> cipher_suite sp = cipher_suite rp ->
  exists ok a' b', ApplyParams sp rp a = Some (ok, a') /\ ApplyParams rp sp b = Some (ok, b') /\ mirrored h a' b' /\
    state_ a' = state_ a /\ offer_params_ a' = offer_params_ a.
Proof.
  intros Hm Hcs. pose proof Hm as [_ _ [Ha1 Ha2] _ _ _].
  destruct (ParseKeyParams_total (key_params sp) SRTP_MASTER_KEY_LEN) as [[ks|] Es];
    destruct (ParseKeyParams_total (key_params rp) SRTP_MASTER_KEY_LEN) as [[kr|] Er].
  - erewrite (ApplyParams_key_both sp rp a), (ApplyParams_key_both rp sp b) by done.
    rewrite <- Hcs, Ha1, Ha2, andb_swap4. case_match; [by eexists true, a, b|].
    destruct (key_both_mirrored h (cipher_suite sp) ks kr a b Hm) as (ok & a' & b' & -> & -> & Hm' & Est & Eof).
    { by rewrite (ParseKeyParams_length _ _ _ Es), (ParseKeyParams_length _ _ _ Er). }
    destruct ok; cbn [negb].
    + eexists true, _, _. split_and!; [done..| |done|done]. destruct Hm'. by split.
    + by eexists false, _, _.
  - apply (ApplyParams_refused h sp rp a b (Some ks) None); by eauto.
  - apply (ApplyParams_refused h sp rp a b None (Some kr)); by eauto.
  - apply (ApplyParams_refused h sp rp a b None None); by eauto.
Qed.

Lemma ExpectOffer_mirrored h m a b : mirrored h a b -> ExpectOffer (source_of (negb m)) b = ExpectOffer (source_of m) a.
Proof. intros [H _ _ _ _ _]. unfold ExpectOffer. rewrite H. by destruct (state_ a), m. Qed.
Lemma ExpectAnswer_mirrored h m a b : mirrored h a b -> ExpectAnswer (source_of (negb m)) b = ExpectAnswer (source_of m) a.
Proof. intros [H _ _ _ _ _]. unfold ExpectAnswer. rewrite H. by destruct (state_ a), m. Qed.

Lemma mirrored_set h st st' ps a b : mirrored h a b -> st' = flip st ->
  mirrored h (set_state st (set_offer_params ps a)) (set_state st' (set_offer_params ps b)).
Proof. intros [] ->. by split. Qed.
Lemma mirrored_set_state h st st' a b : mirrored h a b -> st' = flip st -> mirrored h (set_state st a) (set_state st' b).
Proof. intros [] ->. by split. Qed.

Lemma SetOffer_mirrored h m ps a b : mirrored h a b ->
  (SetOffer ps (source_of m) a).1 = (SetOffer ps (source_of (negb m)) b).1 /\
  mirrored h (SetOffer ps (source_of m) a).2 (SetOffer ps (source_of (negb m)) b).2.
Proof.
  intros Hm. unfold SetOffer. rewrite (ExpectOffer_mirrored h m a b Hm). destruct (ExpectOffer _ _); [|done].
  cbn [negb]. unfold StoreParams. cbn [fst snd]. split; [done|]. pose proof (mir_state _ _ _ Hm) as H. cbn [state_ set_offer_params].
  rewrite H. assert (bool_decide (flip (state_ a) = ST_INIT) = bool_decide (state_ a = ST_INIT)) as -> by by destruct (state_ a).
  case_bool_decide; destruct m; by apply mirrored_set.
Qed.

Lemma DoSetAnswer_mirrored h m ps final a b : mirrored h a b ->
  exists r a' b', DoSetAnswer ps (source_of m) final a = Some (r, a') /\
    DoSetAnswer ps (source_of (negb m)) final b = Some (r, b') /\ mirrored h a' b'.
Proof.
  intros Hm. unfold DoSetAnswer. rewrite (ExpectAnswer_mirrored h m a b Hm). destruct (ExpectAnswer _ _); [|by eexists _, _, _].
  cbn [negb]. destruct ps as [|answer ps].
  - destruct final; [by eexists _, _, _; split; [|split; [|by apply (mirrored_set h ST_INIT ST_INIT [])]]|].
    eexists _, _, _. split; [done|]. split; [done|]. by destruct m; apply mirrored_set_state.
  - assert (NegotiateParams (answer :: ps) b = NegotiateParams (answer :: ps) a) as ->
      by (unfold NegotiateParams; by rewrite (mir_offer _ _ _ Hm)).
    destruct (NegotiateParams _ a) as [sel|] eqn:Esel; [|by eexists _, _, _].
    apply NegotiateParams_suite in Esel as [Hcs _].
    destruct (ApplyParams_mirrored h sel answer a b Hm Hcs) as (ok & a' & b' & E1 & E2 & Hm' & _).
    destruct (ApplyParams_mirrored h answer sel a b Hm (eq_sym Hcs)) as (ok2 & a2 & b2 & F1 & F2 & Hm2 & _).
    destruct m; cbn [source_of negb].
    + rewrite F1, F2. destruct ok2; cbn [negb]; [|by eexists _, _, _]. destruct final; eexists _, _, _; (split; [done|]; split; [done|]).
      * by apply mirrored_set.
      * by apply mirrored_set_state.
    + rewrite E1, E2. destruct ok; cbn [negb]; [|by eexists _, _, _]. destruct final; eexists _, _, _; (split; [done|]; split; [done|]).
      * by apply mirrored_set.
      * by apply mirrored_set_state.
Qed.

(** ** Media *)

(** What comes of a packet: if it is sent it fits the sender's buffer, and
    the receiver recovers it as it was or refuses it; an RTCP packet, and an
    RTP packet that is no replay of those sent before, is recovered. *)
Definition delivered (h : list bytes) (is_rtcp : bool) (p : bytes) (max_len : Z) (o : outcome) : Prop :=
  match o with
  | Packet true p' (Some (ok, q)) =>
      Z.of_nat (length p') <= max_len /\ (ok = true -> q = p) /\ (is_rtcp = true \/ no_replay h p = true -> ok = true)
  | Packet false _ received => received = None
  | _ => False
  end.

Definition same_keys (s s' : SrtpSession) : Prop :=
  session_ s = session_ s' /\ rtp_auth_tag_len_ s = rtp_auth_tag_len_ s' /\ rtcp_auth_tag_len_ s = rtcp_auth_tag_len_ s'.

Lemma rtp_stat_session add buffer err s : same_keys (rtp_stat add buffer err s).2 s.
Proof. unfold rtp_stat. destruct (RtpUtils.RtpUtils.GetRtpSsrc buffer) as [[?|]|]; done. Qed.

Lemma paired_same h s s' r r' : same_keys s s' -> same_keys r r' -> paired_session h s' r' -> paired_session h s r.
Proof. intros (E1 & E2 & E3) (F1 & _ & _). unfold paired_session. by rewrite E1, E2, E3, F1. Qed.

(** The session functions, for both kinds of packets. *)
Definition session_protect (is_rtcp : bool) := if is_rtcp then session_ProtectRtcp else session_ProtectRtp.
Definition session_unprotect (is_rtcp : bool) := if is_rtcp then session_UnprotectRtcp else session_UnprotectRtp.

Definition note (is_rtcp : bool) (p : bytes) (h : list bytes) : list bytes := if is_rtcp then h else p :: h.

Definition session_moved (h : list bytes) (is_rtcp : bool) (s r s' : SrtpSession) (o : bool * bytes) (p : bytes) (max_len : Z)
  (un : bytes -> result) : Prop :=
  if o.1 then
    exists ok q sig r', un o.2 = (ok, q, sig, r') /\ paired_session (note is_rtcp p h) s' r' /\
      delivered h is_rtcp p max_len (Packet true o.2 (Some (ok, q)))
  else paired_session h s' r.

Lemma session_rtp_moved h now p max_len s r : paired_session h s r ->
  let '(ok, p', _, s') := session_ProtectRtp now p max_len s in
  session_moved h false s r s' (ok, p') p max_len (fun q => session_UnprotectRtp now q r).
Proof.
  unfold session_ProtectRtp, session_UnprotectRtp, session_moved. intros Hp. unfold paired_session in Hp.
  destruct (session_ s) as [hs|] eqn:Es; destruct (session_ r) as [hr|] eqn:Er; try done; cbn;
    [|unfold paired_session; by rewrite Es, Er].
  destruct Hp as ((h' & Hpre & Hsync) & Hk & Hrtp & Hrtcp & Ht & Htc). destruct (Z.ltb_spec max_len (Z.of_nat (length p) + rtp_auth_tag_len_ s)).
  { unfold paired_session; rewrite Es, Er. split; [by exists h'|done]. }
  destruct (srtp_protect hs p) as [[err p'] hs'] eqn:Ep. destruct (lib_protect _ _ _ _ _ _ _ Hsync Ep) as [Hpol Hlib].
  pose proof (rtp_stat_session (AddProtectRtpResult now) (take (length p) (overwrite p p')) err (with_handle hs' s)) as Hst.
  destruct (rtp_stat _ _ _ _) as [sig s']. cbn [snd] in Hst |- *. destruct (decide (err = err_status_ok)) as [->|Hne].
  - rewrite bool_decide_eq_true_2 by done. cbn [fst snd].
    destruct Hlib as (Hlen & err' & q & hr' & Eu & Hpol' & Hsync' & Hrec & Hacc). rewrite <- Ht in Hlen. rewrite Eu.
    pose proof (rtp_stat_session (AddUnprotectRtpResult now) (take (length p') (overwrite p' q)) err' (with_handle hr' r)) as Hst'.
    destruct (rtp_stat _ _ _ _) as [sig' r']. cbn [snd] in Hst'. exists (bool_decide (err' = err_status_ok)), q, sig', r'.
    split; [done|]. split.
    + eapply paired_same; [exact Hst|exact Hst'|]. unfold paired_session. cbn. rewrite Hpol, Hpol'.
      split; [|done]. exists (p :: h'). split; [by apply prefix_cons|done].
    + cbn. split; [lia|]. split.
      * intros Hok%bool_decide_eq_true. subst err'. by destruct Hrec as [[_ ->]|[?|?]].
      * intros [?|Hn]; [done|]. apply bool_decide_eq_true, Hacc. destruct Hpre as [k ->]. by apply no_replay_app in Hn.
  - rewrite bool_decide_eq_false_2 by done. eapply paired_same; [exact Hst|by split|]. unfold paired_session. cbn.
    rewrite Er, Hpol. split; [by exists h'|done].
Qed.

Lemma session_rtcp_moved h now p max_len s r : paired_session h s r ->
  let '(ok, p', _, s') := session_ProtectRtcp now p max_len s in
  session_moved h true s r s' (ok, p') p max_len (fun q => session_UnprotectRtcp now q r).
Proof.
  unfold session_ProtectRtcp, session_UnprotectRtcp, session_moved. intros Hp. unfold paired_session in Hp.
  destruct (session_ s) as [hs|] eqn:Es; destruct (session_ r) as [hr|] eqn:Er; try done; cbn;
    [|unfold paired_session; by rewrite Es, Er].
  destruct Hp as ((h' & Hpre & Hsync) & Hk & Hrtp & Hrtcp & Ht & Htc). destruct (Z.ltb_spec max_len (Z.of_nat (length p) + 4 + rtcp_auth_tag_len_ s)).
  { unfold paired_session; rewrite Es, Er. split; [by exists h'|done]. }
  destruct (srtp_protect_rtcp hs p) as [[err p'] hs'] eqn:Ep. destruct (lib_protect_rtcp _ _ _ _ _ _ _ Hsync Ep) as [Hpol Hlib].
  cbn. destruct (decide (err = err_status_ok)) as [->|Hne].
  - cbn. destruct Hlib as (Hlen & hr' & Eu & Hpol' & Hsync'). rewrite <- Htc in Hlen. rewrite Eu. cbn.
    exists true. do 3 eexists. split; [done|]. split; [|by split; [lia|]]. unfold paired_session. cbn. rewrite Hpol, Hpol'.
    split; [by exists h'|done].
  - rewrite bool_decide_eq_false_2 by done. unfold paired_session. cbn. rewrite Er, Hpol. split; [by exists h'|done].
Qed.

(** The packets sent so far, after the outcome of one more. *)
Definition sent_by (by_a : bool) (h : history) : list bytes := if by_a then h.1 else h.2.
Definition noted (by_a is_rtcp : bool) (p : bytes) (o : outcome) (h : history) : history :=
  match o with
  | Packet true _ _ => if by_a then (note is_rtcp p h.1, h.2) else (h.1, note is_rtcp p h.2)
  | _ => h
  end.

Lemma send_packet_mirrored h is_rtcp now p max_len s r x : mirrored h s r ->
  send_packet is_rtcp now p max_len s r = Some x ->
  delivered h.1 is_rtcp p max_len x.1 /\ mirrored (noted true is_rtcp p x.1 h) x.2.1 x.2.2.
Proof.
  intros Hm E. pose proof (mirrored_active h s r Hm) as Har. pose proof Hm as [Hst Hof Hap Hab Hba (R1 & R2 & R3 & R4)].
  unfold send_packet in E. assert (Hpk : (if is_rtcp then ProtectRtcp else ProtectRtp) now p max_len s =
    if negb (IsActive s) then Some (false, p, [], s) else
    let? ss := send_session_ s in
    let '(ok, p, sig, ss) := session_protect is_rtcp now p max_len ss in Some (ok, p, sig, set_sessions (Some ss) (recv_session_ s) s)).
  { destruct is_rtcp; [|done]. unfold ProtectRtcp. by rewrite R1. }
  rewrite Hpk in E. destruct (IsActive s) eqn:Ea; cbn [negb] in E; [|by injection E as <-].
  destruct (send_session_ s) as [ss|] eqn:Ess; [|done]. destruct (recv_session_ r) as [rr|] eqn:Err; [|done].
  assert (Hun : forall q, (if is_rtcp then UnprotectRtcp else UnprotectRtp) now q r =
    let '(ok, p, sig, rr) := session_unprotect is_rtcp now q rr in Some (ok, p, sig, set_sessions (send_session_ r) (Some rr) r)).
  { intros q. destruct is_rtcp; unfold UnprotectRtcp, UnprotectRtp; by rewrite Har, ?R4, ?Err. }
  assert (Hmv : let '(ok, p', _, s') := session_protect is_rtcp now p max_len ss in
    session_moved h.1 is_rtcp ss rr s' (ok, p') p max_len (fun q => session_unprotect is_rtcp now q rr))
    by (destruct is_rtcp; [by apply session_rtcp_moved|by apply session_rtp_moved]).
  destruct (session_protect is_rtcp now p max_len ss) as [[[ok p'] sig] ss']. unfold session_moved in Hmv. cbn in Hmv.
  destruct ok; cbn [negb] in E.
  - destruct Hmv as (ok' & q & sig' & rr' & Eu & Hp & Hd). rewrite Hun, Eu in E. injection E as <-. split; [done|]. by split.
  - injection E as <-. split; [done|]. split; try done. cbn. by rewrite Err.
Qed.

(** ** Histories *)

(** What is shown of a sequence of events with its outcomes: equal results of
    the signalling at both ends, and the delivery of every packet; between the
    packets sent before and after. *)
Inductive agreed : history -> list event -> list outcome -> history -> Prop :=
  | agreed_nil h : agreed h [] [] h
  | agreed_offer by_a ps r h es os h' : agreed h es os h' -> agreed h (Offer by_a ps :: es) (Signalled r r :: os) h'
  | agreed_pranswer by_a ps r h es os h' : agreed h es os h' -> agreed h (Pranswer by_a ps :: es) (Signalled r r :: os) h'
  | agreed_answer by_a ps r h es os h' : agreed h es os h' -> agreed h (Answer by_a ps :: es) (Signalled r r :: os) h'
  | agreed_media by_a is_rtcp now p max_len o h es os h' : delivered (sent_by by_a h) is_rtcp p max_len o ->
      agreed (noted by_a is_rtcp p o h) es os h' -> agreed h (Media by_a is_rtcp now p max_len :: es) (o :: os) h'.

Lemma step_mirrored h e a b x : mirrored h a b -> step e (a, b) = Some x ->
  exists h1, mirrored h1 x.2.1 x.2.2 /\ forall es os h', agreed h1 es os h' -> agreed h (e :: es) (x.1 :: os) h'.
Proof.
  intros Hm. destruct e as [m ps|m ps|m ps|m rc now p max_len]; cbn [step].
  - pose proof (SetOffer_mirrored h m ps a b Hm) as [Hr Hm'].
    destruct (SetOffer ps (source_of m) a) as [ra a'], (SetOffer ps (source_of (negb m)) b) as [rb b']. cbn in *.
    intros [= <-]. subst rb. exists h. split; [done|]. by constructor.
  - destruct (DoSetAnswer_mirrored h m ps false a b Hm) as (r & a' & b' & Ea & Eb & Hm').
    unfold SetProvisionalAnswer. rewrite Ea, Eb. intros [= <-]. exists h. split; [done|]. by constructor.
  - destruct (DoSetAnswer_mirrored h m ps true a b Hm) as (r & a' & b' & Ea & Eb & Hm').
    unfold SetAnswer. rewrite Ea, Eb. intros [= <-]. exists h. split; [done|]. by constructor.
  - intros E. exists (noted m rc p x.1 h). destruct m.
    + destruct (send_packet_mirrored h _ _ _ _ _ _ _ Hm E) as [Hd Hm']. split; [done|]. by constructor.
    + apply mirrored_sym in Hm. destruct (send_packet rc now p max_len b a) as [[o [b' a']]|] eqn:Ey; [|done]. injection E as <-.
      destruct (send_packet_mirrored _ _ _ _ _ _ _ _ Hm Ey) as [Hd Hm']. cbn in Hd. split; [|by constructor].
      apply mirrored_sym in Hm'. destruct h. by destruct o as [|[] ? ?].
Qed.

Lemma run_agreed es : forall h a b x, mirrored h a b -> run es (a, b) = Some x ->
  exists h', agreed h es x.1 h' /\ mirrored h' x.2.1 x.2.2.
Proof.
  induction es as [|e es IH]; intros h a b x Hm; cbn [run]; [intros [= <-]; exists h; by split; [constructor|]|].
  destruct (step e (a, b)) as [[o [a1 b1]]|] eqn:E; [|done].
  destruct (step_mirrored h e a b _ Hm E) as (h1 & Hm1 & Hag). cbn in Hm1, Hag.
  destruct (run es (a1, b1)) as [[os ends]|] eqn:Er; [|done]. intros [= <-].
  destruct (IH _ _ _ _ Hm1 Er) as (h' & Hos & Hm2). exists h'. split; [|done]. by apply Hag.
Qed.

(** ** The SDES handshake *)

Definition keyed (type : ssrc_type) (cs k : bytes) (s : option SrtpSession) : Prop :=
  exists s' h, s = Some s' /\ session_ s' = Some h /\ policy_for type cs k = Some (policy_of h).

Lemma ParseKeyParams_b64 k n : bytes_ok k -> length k = n -> ParseKeyParams (MediaSession.kInline ++ Base64.b64 k) n = Some (Some k).
Proof.
  intros Hok Hl. unfold ParseKeyParams. rewrite take_app_length', drop_app_length' by done. cbn [negb bool_decide].
  rewrite bool_decide_eq_true_2 by done. cbn [negb]. rewrite Base64.DecodeFromArray_b64 by done. cbn [andb].
  by rewrite Hl, Nat.eqb_refl.
Qed.

Lemma key_both_ok cs ks kr f : policy_for ssrc_any_outbound cs ks <> None -> length ks = SRTP_MASTER_KEY_LEN ->
  length kr = SRTP_MASTER_KEY_LEN ->
  exists f', key_both cs ks kr (CreateSrtpSessions f) = Some (true, f') /\
    keyed ssrc_any_outbound cs ks (send_session_ f') /\ keyed ssrc_any_inbound cs kr (recv_session_ f').
Proof.
  intros Hp Hs Hr. destruct (CreateSrtpSessions_fresh f) as (s & Es & Er & Hf).
  unfold key_both, set_send, set_recv, SetSend, SetRecv. rewrite Es.
  destruct (SetKey_cases ssrc_any_outbound cs ks s Hf) as [[_ Hn]|(p & h & Ep & _ & _ & Ph & ->)]; [by destruct Hn|].
  cbn [negb recv_session_ set_sessions]. rewrite Er.
  destruct (SetKey_cases ssrc_any_inbound cs kr s Hf) as [[_ Hn]|(p' & h' & Ep' & _ & _ & Ph' & ->)].
  { exfalso. destruct Hn as [Hn|]; [|done]. rewrite policy_for_in in Hn.
    destruct (policy_for ssrc_any_outbound cs kr) eqn:E; [done|]. by apply (policy_for_None _ _ _ ks) in E. }
  eexists. split; [reflexivity|]. cbn. split; do 2 eexists; (split; [done|]); (split; [done|]); by rewrite ?Ph, ?Ph'.
Qed.

Lemma wf_policy p k type k' : MediaSession.wf_params p k -> policy_for type (cipher_suite p) k' <> None.
Proof. intros ([->| ->] & _); unfold policy_for; by repeat case_bool_decide. Qed.

Lemma ApplyParams_first sp rp ks kr f : MediaSession.wf_params sp ks -> MediaSession.wf_params rp kr ->
  cipher_suite sp = cipher_suite rp -> applied_send_params_ f = no_params ->
  exists f', ApplyParams sp rp f = Some (true, f') /\
    keyed ssrc_any_outbound (cipher_suite sp) ks (send_session_ f') /\
    keyed ssrc_any_inbound (cipher_suite sp) kr (recv_session_ f').
Proof.
  intros Hs Hr Hcs Hf. pose proof Hs as (Hcsp & Hoks & Hls & Ek). pose proof Hr as (_ & Hokr & Hlr & Ekr).
  rewrite (ApplyParams_key_both sp rp f ks kr); [|by rewrite Ek; apply ParseKeyParams_b64|by rewrite Ekr; apply ParseKeyParams_b64|done].
  rewrite Hf, (bool_decide_eq_false_2 (cipher_suite no_params = _)) by (by destruct Hcsp as [->| ->]). cbn [andb].
  destruct (key_both_ok (cipher_suite sp) ks kr f) as (f' & -> & Hks & Hkr); [by eapply wf_policy|done..|].
  cbn [negb]. eexists. split; [reflexivity|]. by split.
Qed.

Lemma find_matching answer offer p : In p offer -> Matches answer p = true ->
  exists p', find (Matches answer) offer = Some p' /\ In p' offer /\ cipher_suite p' = cipher_suite answer.
Proof.
  intros Hin Hm. destruct (find (Matches answer) offer) as [p'|] eqn:E.
  - apply find_some in E as [Hin' Hm']. exists p'. split_and!; [done..|].
    apply andb_true_iff in Hm' as [_ Hs]. by apply bool_decide_eq_true in Hs.
  - by rewrite (find_none _ _ E p Hin) in Hm.
Qed.

(** An answer made for an offer of well-formed parameters keys both ends. *)
Lemma handshake_keys offer answer k2 p : Forall (fun p => exists k, MediaSession.wf_params p k) offer ->
  MediaSession.wf_params answer k2 -> In p offer -> Matches answer p = true ->
  exists a b p' k1, run [Offer true offer; Answer false [answer]] (new, new) =
    Some ([Signalled true true; Signalled true true], (a, b)) /\
    IsActive a = true /\ In p' offer /\ MediaSession.wf_params p' k1 /\ cipher_suite p' = cipher_suite answer /\
    keyed ssrc_any_outbound (cipher_suite answer) k1 (send_session_ a) /\
    keyed ssrc_any_inbound (cipher_suite answer) k1 (recv_session_ b) /\
    keyed ssrc_any_outbound (cipher_suite answer) k2 (send_session_ b) /\
    keyed ssrc_any_inbound (cipher_suite answer) k2 (recv_session_ a).
Proof.
  intros Hall Hk2 Hin Hm. destruct (find_matching answer offer p Hin Hm) as (p' & Ef & Hin' & Hcs).
  pose proof (proj1 (List.Forall_forall _ _) Hall p' Hin') as [k1 Hk1].
  cbn [run step SetOffer]. unfold SetOffer. cbn [ExpectOffer new state_ source_of negb StoreParams].
  unfold StoreParams, SetAnswer. cbn [set_offer_params state_ new]. rewrite (bool_decide_eq_true_2 (ST_INIT = ST_INIT)) by done.
  assert (Hne : offer <> []) by (by intros ->).
  unfold DoSetAnswer, NegotiateParams. cbn. rewrite (bool_decide_eq_false_2 (offer = [])) by done. rewrite Ef.
  match goal with |- context [ApplyParams p' answer ?f] => destruct (ApplyParams_first p' answer k1 k2 f Hk1 Hk2 Hcs eq_refl) as (a & -> & Hsa & Hra) end.
  match goal with |- context [ApplyParams answer p' ?f] => destruct (ApplyParams_first answer p' k2 k1 f Hk2 Hk1 (eq_sym Hcs) eq_refl) as (b & -> & Hsb & Hrb) end.
  cbn. rewrite Hcs in *. by eexists _, _, p', k1.
Qed.

(** C7: Whatever sequence of offers, provisional and final answers the two
    ends exchange, interleaved with media, both filters give the same result
    to each of them and end in mirrored states: both or neither are active,
    what one sends with the other receives with, and each sending session is
    in step with the peer's receiving one, with the same key and suite.  Every
    packet a filter agrees to protect fits the sender's buffer, and the other
    end never takes it for another one: it recovers it byte for byte, or
    refuses it, which happens only to an RTP packet whose sequence number its
    sender had sent before in the same stream. *)
Theorem srtp_ends_agree es os a b : run es (new, new) = Some (os, (a, b)) ->
  exists h, agreed ([], []) es os h /\ mirrored h a b /\ IsActive a = IsActive b.
Proof.
  intros E. destruct (run_agreed es ([], []) new new _ (mirrored_new _) E) as (h & Ho & Hm). exists h. split; [done|]. split; [done|].
  symmetry. by eapply mirrored_active.
Qed.

(** Offer and answer key both ends, and media that follows is delivered. *)
Definition secured (offer : list CryptoParams) (answer : CryptoParams) (media : list event) : Prop :=
  exists p k1 k2 a b,
    run [Offer true offer; Answer false [answer]] (new, new) =
      Some ([Signalled true true; Signalled true true], (a, b)) /\
    IsActive a = true /\ IsActive b = true /\
    In p offer /\ MediaSession.wf_params p k1 /\ MediaSession.wf_params answer k2 /\ cipher_suite p = cipher_suite answer /\
    keyed ssrc_any_outbound (cipher_suite answer) k1 (send_session_ a) /\
    keyed ssrc_any_inbound (cipher_suite answer) k1 (recv_session_ b) /\
    keyed ssrc_any_outbound (cipher_suite answer) k2 (send_session_ b) /\
    keyed ssrc_any_inbound (cipher_suite answer) k2 (recv_session_ a) /\
    exists os ends h, run media (a, b) = Some (os, ends) /\ agreed ([], []) media os h.
Definition is_media (e : event) : Prop := match e with Media _ _ _ _ _ => True | _ => False end.

Lemma handshake_media offer answer k2 p media : Forall (fun p => exists k, MediaSession.wf_params p k) offer ->
  MediaSession.wf_params answer k2 -> In p offer -> Matches answer p = true -> Forall is_media media -> secured offer answer media.
Proof.
  intros Hwf Hk2 Hin Hm Hmedia.
  destruct (handshake_keys offer answer k2 p Hwf Hk2 Hin Hm) as (a & b & p' & k1 & E & Hact & Hin' & Hk1 & Hpc & Hkeys).
  assert (Hmir : mirrored ([], []) a b).
  { destruct (run_agreed _ ([], []) _ _ _ (mirrored_new _) E) as (h & Hag & Hmir).
    repeat match goal with H : agreed _ _ _ _ |- _ => inversion H; clear H; subst end. exact Hmir. }
  exists p', k1, k2, a, b. split; [done|]. split; [done|].
  split; [by rewrite (mirrored_active ([], []) a b)|]. destruct Hkeys as (K1 & K2 & K3 & K4).
  do 8 (split; [done|]).
  destruct (run_guarded media a b) as [[os ends] Er].
  - destruct K1 as (? & ? & ? & _), K4 as (? & ? & ? & _). intros _. by split; eexists.
  - destruct K2 as (? & ? & ? & _), K3 as (? & ? & ? & _). intros _. by split; eexists.
  - clear -Hmedia. revert a b. induction Hmedia as [|e es He _ IH]; intros a b; [done|]. cbn [guarded].
    destruct e; try done. cbn [allowed andb]. destruct (step _ _) as [[? [a' b']]|]; [apply IH|done].
  - destruct (run_agreed _ _ _ _ _ Hmir Er) as (h & Hag & _). by exists os, ends, h.
Qed.

Section Sdes.
Context `{R : Helpers.RandomGenerator}.

(** C8: If an offer's crypto parameters are created for the suites of a media
    type and the random number generator yields a key for the answer, an
    answer is selected (with the 80-bit suite, unless audio is not bundled),
    both filters accept the offer and the answer and are active, and each end
    sends with the key the other receives with: 30 random bytes of the
    generator.  Any media that follows runs, and every packet that is sent is
    recovered, unless it is an RTP packet whose sequence number was sent
    before in its stream (which the receiver may refuse as a replay). *)
Theorem srtp_sdes_handshake type bundle g g1 offer g2 g3 key media :
  MediaSession.CreateMediaCryptos (MediaSession.supported_suites type) [] g = (Some offer, g1) ->
  Helpers.CreateRandomString SRTP_MASTER_KEY_BASE64_LEN g2 = (Some key, g3) ->
  Forall is_media media ->
  exists answer, MediaSession.SelectCrypto type offer bundle g2 = (Some answer, g3) /\
    (type = MediaSession.MEDIA_TYPE_AUDIO /\ bundle = false \/ cipher_suite answer = CS_AES_CM_128_HMAC_SHA1_80) /\
    secured offer answer media.
Proof.
  intros Ho Hkey Hmedia. destruct (MediaSession.offer_wf _ _ _ _ Ho) as (Hwf & p0 & Hin0 & Hsel0).
  destruct (MediaSession.SelectCrypto_ok type offer bundle g2 key g3 Hkey) as (p1 & answer & Hin1 & Es & Hm & Hcs & k2 & Hk2);
    [by eexists|].
  exists answer. split; [done|]. split; [done|]. by eapply handshake_media.
Qed.
End Sdes.
End Laws.
End Ends.

(** ** A library that satisfies the laws: the tag is zeros *)

Definition toy_tag (c : crypto_policy) : nat := match c with aes_cm_128_hmac_sha1_80 => 10 | aes_cm_128_hmac_sha1_32 => 4 end.
Definition toy_protect (n : nat) (p : bytes) : bytes := p ++ repeat 0 n.
Definition toy_unprotect (n : nat) (p : bytes) : err_status * bytes :=
  if (length p <? n)%nat then (err_status_auth_fail, p)
  else if decide (drop (length p - n) p = repeat 0 n) then (err_status_ok, take (length p - n) p)
  else (err_status_auth_fail, p).

(** A receiver remembers the RTP packets it was given and refuses replays. *)
Definition toy_receive (seen : list bytes) (r : err_status * bytes) (p' : bytes) : err_status * bytes :=
  match r with
  | (err_status_ok, p) => if no_replay seen p then (err_status_ok, p) else (err_status_replay_fail, p')
  | _ => r
  end.

Definition toy_lib : LibSrtp := {|
  srtp_t := srtp_policy * list bytes;
  auth_tag_len c := Z.of_nat (toy_tag c);
  srtp_init := true;
  srtp_install_event_handler := true;
  srtp_create p := Some (p, []);
  srtp_protect h p := (err_status_ok, toy_protect (toy_tag (rtp h.1)) p, h);
  srtp_unprotect h p :=
    let r := toy_unprotect (toy_tag (rtp h.1)) p in
    (toy_receive h.2 r p, (h.1, if bool_decide (r.1 = err_status_ok) then r.2 :: h.2 else h.2));
  srtp_protect_rtcp h p := (err_status_ok, toy_protect (4 + toy_tag (rtcp h.1)) p, h);
  srtp_unprotect_rtcp h p := (toy_unprotect (4 + toy_tag (rtcp h.1)) p, h);
|}.

Lemma toy_inverse n p : toy_unprotect n (toy_protect n p) = (err_status_ok, p).
Proof.
  unfold toy_unprotect, toy_protect. rewrite length_app, repeat_length.
  replace (length p + n - n)%nat with (length p) by lia. rewrite drop_app_length, take_app_length.
  destruct (Nat.ltb_spec (length p + n) n); [lia|]. by destruct (decide _).
Qed.

#[local] Program Instance toy_creates : LibSrtpCreates toy_lib := {| policy_of h := h.1 |}.
Next Obligation. done. Qed.
Next Obligation. by eexists. Qed.

#[local] Program Instance toy_laws : LibSrtpLaws toy_lib := {|
  in_sync h hs hr := key hs.1 = key hr.1 /\ rtp hs.1 = rtp hr.1 /\ rtcp hs.1 = rtcp hr.1 /\ hr.2 = h;
|}.
Next Obligation. intros ps pr hs hr [= <-] [= <-] _ _ Hk Hr Hc. by split. Qed.
Next Obligation.
  intros h hs hr p err p' hs' (Hk & Hr & Hc & Hh) [= <- <- <-]. split; [done|].
  split; [unfold toy_protect; rewrite length_app, repeat_length; cbn; lia|].
  cbn [srtp_unprotect toy_lib]. rewrite <- Hr, toy_inverse. cbn [toy_receive fst snd]. rewrite bool_decide_eq_true_2, Hh by done.
  destruct (no_replay h p); do 3 eexists; (split; [done|]); (split; [done|]); (split; [by split|]); (split; [|done]); [by left|by right; left].
Qed.
Next Obligation.
  intros h hs hr p err p' hs' (Hk & Hr & Hc & Hh) [= <- <- <-]. split; [done|]. split; [|exists hr; cbn -[toy_protect toy_unprotect]; by rewrite <- Hc, toy_inverse].
  unfold toy_protect. rewrite length_app, repeat_length. cbn. lia.
Qed.

(** Audio: the answer takes the second suite; then both ends talk, and the
    first one makes a new offer while packets flow.  One packet is sent again
    and refused. *)
Definition sample_params (tag : Z) (cs : bytes) (k : Z) : CryptoParams :=
  mkCryptoParams tag cs (MediaSession.kInline ++ Base64.b64 (repeat k 30)) [].
Definition sample_offer : list CryptoParams :=
  [sample_params 0 CS_AES_CM_128_HMAC_SHA1_32 1; sample_params 1 CS_AES_CM_128_HMAC_SHA1_80 2].
Definition rtp_packet (seq : Z) : bytes := [128; 0] ++ ByteOrder.SetBE16 seq ++ repeat 7 8.
Definition sample_media : list event :=
  [Media true false 1 (rtp_packet 65535) 22; Media true false 2 (rtp_packet 0) 22; Media true false 3 (rtp_packet 65535) 22;
   Media false true 4 (repeat 9 8) 22].
Definition sample_history : list event :=
  [Media true false 0 [1; 2] 100; Offer true sample_offer; Pranswer false [sample_params 1 CS_AES_CM_128_HMAC_SHA1_80 3]] ++
  sample_media ++
  [Answer false [sample_params 1 CS_AES_CM_128_HMAC_SHA1_80 3];
   Offer false sample_offer; Media false false 3 (rtp_packet 5) 21;
   Answer true [sample_params 0 CS_AES_CM_128_HMAC_SHA1_32 4]; Media false false 4 (rtp_packet 5) 21].

(** Whether the event succeeded for its author, and for the receiver. *)
Definition successes (o : outcome) : bool * option bool :=
  match o with Signalled a b => (a, Some b) | Packet sent _ r => (sent, option_map fst r) end.

Lemma srtp_ends_agree_witness : exists os a b, @run x86 toy_lib sample_history (new, new) = Some (os, (a, b)) /\
  map successes os = [(false, None); (true, Some true); (true, Some true); (true, Some true); (true, Some true); (true, Some false);
    (true, Some true); (true, Some true); (true, Some true); (false, None); (true, Some true); (true, Some true)] /\
  exists h, agreed ([], []) sample_history os h /\ mirrored h a b /\ IsActive a = IsActive b.
Proof.
  assert (Hc : option_map (fun x => map successes x.1) (@run x86 toy_lib sample_history (new, new)) =
    Some [(false, None); (true, Some true); (true, Some true); (true, Some true); (true, Some true); (true, Some false);
      (true, Some true); (true, Some true); (true, Some true); (false, None); (true, Some true); (true, Some true)])
    by (vm_compute; reflexivity).
  destruct (@run x86 toy_lib sample_history (new, new)) as [[os [a b]]|] eqn:E; [|discriminate Hc].
  exists os, a, b. split; [reflexivity|]. split; [by injection Hc|].
  exact (@srtp_ends_agree x86 toy_lib toy_laws _ _ _ _ E).
Defined.

Lemma srtp_no_null_session_witness : @guarded x86 toy_lib sample_history (new, new) = true /\
  exists os a b, @run x86 toy_lib sample_history (new, new) = Some (os, (a, b)).
Proof.
  assert (H : @guarded x86 toy_lib sample_history (new, new) = true) by (vm_compute; reflexivity).
  split; [exact H|]. exact (@srtp_no_null_session x86 toy_lib sample_history H).
Defined.

Lemma srtp_sdes_handshake_witness : exists offer answer os a b h,
  @run x86 toy_lib [Offer true offer; Answer false [answer]] (new, new) = Some ([Signalled true true; Signalled true true], (a, b)) /\
  IsActive a = true /\ IsActive b = true /\ cipher_suite answer = CS_AES_CM_128_HMAC_SHA1_80 /\
  option_map fst (@run x86 toy_lib sample_media (a, b)) = Some os /\ agreed ([], []) sample_media os h.
Proof.
  destruct (@MediaSession.CreateMediaCryptos Helpers.TestRandomGenerator
    (MediaSession.supported_suites MediaSession.MEDIA_TYPE_VIDEO) [] Helpers.test_seed) as [[offer|] g1] eqn:E;
    [|vm_compute in E; discriminate].
  destruct (@Helpers.CreateRandomString Helpers.TestRandomGenerator SRTP_MASTER_KEY_BASE64_LEN 5) as [[key|] g3] eqn:Ek;
    [|vm_compute in Ek; discriminate].
  destruct (@srtp_sdes_handshake x86 toy_lib toy_laws Helpers.TestRandomGenerator MediaSession.MEDIA_TYPE_VIDEO true _ _ _ _ _ _
    sample_media
    E Ek) as (answer & _ & [[? ?]|Hcs] & p & k1 & k2 & a & b & Er & Ha & Hb & _ & _ & _ & _ & _ & _ & _ & _ & os & ends & h & Em & Ho);
    [by repeat constructor|discriminate|].
  exists offer, answer, os, a, b, h. rewrite Em. by split_and!.
Defined.

(** ** What the guard of [srtp_no_null_session] leaves out *)

(** A second offer before the answer makes the filter active with no session:
    the next packet dereferences a null pointer. *)
Lemma second_offer_null (HM : Machine) (L : LibSrtp) ps : let f := (SetOffer ps CS_LOCAL (SetOffer ps CS_LOCAL (@new L)).2).2 in
  (SetOffer ps CS_LOCAL (SetOffer ps CS_LOCAL (@new L)).2).1 = true /\ IsActive f = true /\ send_session_ f = None /\
  forall now p max_len, ProtectRtp now p max_len f = None.
Proof. by split_and!. Qed.

(** SetRtcpParams keys the sending session for receiving. *)
Lemma SetRtcpParams_inbound (L : LibSrtp) cs k cs' k' (f f' : @t L) s : SetRtcpParams cs k cs' k' f = (true, f') ->
  send_rtcp_session_ f' = Some s -> exists p h, srtp_create p = Some h /\ session_ s = Some h /\ ssrc_kind p = ssrc_any_inbound.
Proof.
  unfold SetRtcpParams, SetRecv, SetKey. destruct (send_rtcp_session_ f); [done|]. destruct (recv_rtcp_session_ f); [done|].
  cbn [session_ set_signal_silent_time_session new_session]. rewrite !(bool_decide_eq_false_2 (None <> None)) by tauto.
  destruct Init; cbn [negb]; [|done]. destruct (policy_for ssrc_any_inbound cs k) as [p|] eqn:Ep; [|done].
  destruct (negb _); [done|]. destruct (srtp_create p) as [h|] eqn:Eh; [|done]. cbn [negb].
  apply policy_for_kind in Ep as [Hkind _]. intros E Hs.
  match type of E with (let '(_, _) := ?x in _) = _ => destruct x as [ok r] end.
  injection E as _ <-. injection Hs as <-.
  by exists p, h.
Qed.
End SrtpNegotiation.
