(* ===== verification/MediaFilters.v ===== *)
(** * session/media/rtcpmuxfilter.cc and bundlefilter.cc

    RtcpMuxFilter is the offer/answer state machine that decides whether RTCP
    shares the RTP transport and tells the packets apart; BundleFilter decides
    whether a packet of a shared transport belongs to a channel. *)

From stdpp Require Import gmap.
From S2P Require Import Prelude ByteOrder RtpUtils StreamParams SrtpFilter SrtpNegotiation.
Import ByteOrder.
Import SrtpFilter(ContentSource, CS_LOCAL, CS_REMOTE) SrtpNegotiation(source_of).
Open Scope jingle_scope.

Module RtcpMux.

Inductive State := ST_INIT | ST_RECEIVEDOFFER | ST_SENTOFFER | ST_SENTPRANSWER | ST_RECEIVEDPRANSWER | ST_ACTIVE.
#[export] Instance State_eq_dec : EqDecision State. Proof. solve_decision. Defined.

Record RtcpMuxFilter := mk { state_ : State; offer_enable_ : bool }.
Definition new : RtcpMuxFilter := mk ST_INIT false.

Definition IsActive (f : RtcpMuxFilter) : bool :=
  match state_ f with ST_SENTPRANSWER | ST_RECEIVEDPRANSWER | ST_ACTIVE => true | _ => false end.

Definition ExpectOffer (offer_enable : bool) (source : ContentSource) (f : RtcpMuxFilter) : bool :=
  match state_ f, source with
  | ST_INIT, _ => true
  | ST_ACTIVE, _ => Bool.eqb offer_enable (offer_enable_ f)
  | ST_SENTOFFER, CS_LOCAL | ST_RECEIVEDOFFER, CS_REMOTE => true
  | _, _ => false
  end.

Definition ExpectAnswer (source : ContentSource) (f : RtcpMuxFilter) : bool :=
  match state_ f, source with
  | ST_SENTOFFER, CS_REMOTE | ST_RECEIVEDOFFER, CS_LOCAL => true
  | ST_SENTPRANSWER, CS_LOCAL | ST_RECEIVEDPRANSWER, CS_REMOTE => true
  | _, _ => false
  end.

Definition SetOffer (offer_enable : bool) (src : ContentSource) (f : RtcpMuxFilter) : bool * RtcpMuxFilter :=
  if negb (ExpectOffer offer_enable src f) then (false, f)
  else (true, mk (match src with CS_LOCAL => ST_SENTOFFER | CS_REMOTE => ST_RECEIVEDOFFER end) offer_enable).

Definition SetProvisionalAnswer (answer_enable : bool) (src : ContentSource) (f : RtcpMuxFilter)
  : bool * RtcpMuxFilter :=
  if negb (ExpectAnswer src f) then (false, f)
  else if offer_enable_ f then
    if answer_enable
    then (true, mk (match src with CS_REMOTE => ST_RECEIVEDPRANSWER | CS_LOCAL => ST_SENTPRANSWER end) (offer_enable_ f))
    else (true, mk (match src with CS_REMOTE => ST_SENTOFFER | CS_LOCAL => ST_RECEIVEDOFFER end) (offer_enable_ f))
  else if answer_enable then (false, f)
  else (true, f).

Definition SetAnswer (answer_enable : bool) (src : ContentSource) (f : RtcpMuxFilter) : bool * RtcpMuxFilter :=
  if negb (ExpectAnswer src f) then (false, f)
  else if offer_enable_ f && answer_enable then (true, mk ST_ACTIVE (offer_enable_ f))
  else if answer_enable then (false, f)
  else (true, mk ST_INIT (offer_enable_ f)).

(** state_ < ST_SENTOFFER *)
Definition before_sent_offer (st : State) : bool := match st with ST_INIT | ST_RECEIVEDOFFER => true | _ => false end.

Definition DemuxRtcp (data : bytes) (f : RtcpMuxFilter) : bool :=
  if negb (offer_enable_ f) || before_sent_offer (state_ f) then false
  else
    let type := if (2 <=? length data)%nat then Z.land (Get8 data 1) 0x7F else 0 in
    (64 <=? type) && (type <? 96).

(** ** Both ends *)

Inductive event := Offer (by_a enable : bool) | Pranswer (by_a enable : bool) | Answer (by_a enable : bool).

Definition apply (e : event) (mine : bool) (f : RtcpMuxFilter) : bool * RtcpMuxFilter :=
  match e with
  | Offer by_a enable => SetOffer enable (source_of (Bool.eqb by_a mine)) f
  | Pranswer by_a enable => SetProvisionalAnswer enable (source_of (Bool.eqb by_a mine)) f
  | Answer by_a enable => SetAnswer enable (source_of (Bool.eqb by_a mine)) f
  end.

(** The results and the final filter of the first end ([mine] true) or of the
    other one. *)
Fixpoint run (es : list event) (mine : bool) (f : RtcpMuxFilter) : list bool * RtcpMuxFilter :=
  match es with
  | [] => ([], f)
  | e :: es =>
      let '(r, f) := apply e mine f in
      let '(rs, f) := run es mine f in
      (r :: rs, f)
  end.

Definition flip (st : State) : State :=
  match st with
  | ST_SENTOFFER => ST_RECEIVEDOFFER | ST_RECEIVEDOFFER => ST_SENTOFFER
  | ST_SENTPRANSWER => ST_RECEIVEDPRANSWER | ST_RECEIVEDPRANSWER => ST_SENTPRANSWER
  | ST_INIT => ST_INIT | ST_ACTIVE => ST_ACTIVE
  end.
Definition mirrored (a b : RtcpMuxFilter) : Prop :=
  state_ b = flip (state_ a) /\ offer_enable_ b = offer_enable_ a /\ (IsActive a = true -> offer_enable_ a = true).

Lemma apply_mirrored e a b : mirrored a b ->
  (apply e true a).1 = (apply e false b).1 /\ mirrored (apply e true a).2 (apply e false b).2.
Proof.
  destruct a as [sa ea], b as [sb eb]. unfold mirrored. cbn. intros (-> & -> & He).
  destruct e as [[] []|[] []|[] []], sa, ea; cbn in *; split_and!; auto.
Qed.

Lemma run_mirrored es : forall a b, mirrored a b ->
  (run es true a).1 = (run es false b).1 /\ mirrored (run es true a).2 (run es false b).2.
Proof.
  induction es as [|e es IH]; intros a b Hm; [done|]. cbn [run]. destruct (apply_mirrored e a b Hm) as [Hr Hm'].
  destruct (apply e true a) as [r a'], (apply e false b) as [r' b']. cbn in Hr, Hm'. subst r'.
  destruct (IH a' b' Hm') as [Hrs Hm'']. destruct (run es true a') as [rs a''], (run es false b') as [rs' b''].
  cbn in *. by rewrite Hrs.
Qed.

(** What RFC 5761 says of the second byte of a packet. *)
Definition is_rtcp (data : bytes) : bool :=
  (2 <=? length data)%nat && (64 <=? Get8 data 1 mod 128) && (Get8 data 1 mod 128 <? 96).

Lemma demux_type data f : DemuxRtcp data f = offer_enable_ f && negb (before_sent_offer (state_ f)) && is_rtcp data.
Proof.
  unfold DemuxRtcp, is_rtcp. destruct (offer_enable_ f), (before_sent_offer (state_ f)); cbn [negb orb andb]; [done| |done..].
  change 0x7F with (2 ^ 7 - 1). rewrite land_mask by lia. by destruct (2 <=? length data)%nat.
Qed.

(** C10: Whatever offers, provisional and final answers are exchanged, the
    RTCP mux filters of both ends accept and refuse the same ones and agree on
    whether RTCP is muxed, which requires that the offer asked for it.  While
    it is muxed both ends, and an end that has offered it even before, tell
    RTCP from RTP by the second byte: an RTP header written by SetRtpHeader
    with a payload type outside 64..95 is taken as RTP, and packets whose RTCP
    type is 192..223 as RTCP. *)
Theorem rtcp_mux_agree es : let '(ra, a) := run es true new in let '(rb, b) := run es false new in
  ra = rb /\ state_ b = flip (state_ a) /\ IsActive a = IsActive b /\ (IsActive a = true -> offer_enable_ a = true) /\
  (forall data, IsActive a = true -> DemuxRtcp data a = is_rtcp data /\ DemuxRtcp data b = is_rtcp data) /\
  (forall data, state_ a = ST_SENTOFFER -> DemuxRtcp data a = offer_enable_ a && is_rtcp data) /\
  (forall h data data', RtpUtils.header_ok h -> (12 <= length data)%nat ->
   RtpUtils.SetRtpHeader data h = Some (true, data') -> ~ 64 <= RtpUtils.payload_type h < 96 -> is_rtcp data' = false) /\
  (forall data t, RtpUtils.GetRtcpType data = Some (Some t) -> 192 <= t <= 223 -> is_rtcp data = true).
Proof.
  destruct (run_mirrored es new new) as [Hr Hm]; [by split_and!|].
  destruct (run es true new) as [ra a], (run es false new) as [rb b]. cbn in Hr, Hm. destruct Hm as (Hs & Ho & He).
  split; [done|]. split; [done|]. split; [unfold IsActive; rewrite Hs; by destruct (state_ a)|]. split; [done|]. split.
  { intros data Ha. rewrite !demux_type, Ho, Hs, He by done. unfold IsActive in Ha. by destruct (state_ a). }
  split; [intros data E; by rewrite demux_type, E, andb_true_r|]. split.
  - intros h data data' Hh Hl E Hp. rewrite RtpUtils.SetRtpHeader_spec in E by done. injection E as <-.
    unfold is_rtcp. destruct Hh as (Hpt & _). cbn. rewrite Z.mod_small by lia.
    apply andb_false_iff. destruct (Z.leb_spec 64 (RtpUtils.payload_type h)); [right; apply Z.ltb_ge; lia|by left].
  - intros data t E Ht. unfold RtpUtils.GetRtcpType, RtpUtils.at_least in E.
    destruct (Nat.ltb_spec (length data) RtpUtils.kMinRtcpPacketLen) as [|Hl]; [done|]. unfold RtpUtils.kMinRtcpPacketLen in Hl.
    rewrite RtpUtils.GetUint8_at in E by (unfold RtpUtils.kRtcpPayloadTypeOffset; lia). injection E as <-.
    unfold RtpUtils.kRtcpPayloadTypeOffset in Ht. unfold is_rtcp. rewrite (proj2 (Nat.leb_le 2 _)) by lia.
    rewrite (proj2 (Z.leb_le _ _)), (proj2 (Z.ltb_lt _ _)) by dlia. done.
Qed.

Lemma rtcp_mux_agree_witness :
  let '(ra, a) := run [Offer true true; Pranswer false true; Answer false true] true new in
  ra = [true; true; true] /\ IsActive a = true /\ DemuxRtcp [128; 200; 0; 1] a = true /\
  is_rtcp (RtpUtils.enc_header (RtpUtils.mkRtpHeader 96 1 2 3) ++ []) = false.
Proof.
  pose proof (rtcp_mux_agree [Offer true true; Pranswer false true; Answer false true]) as H.
  change (run [Offer true true; Pranswer false true; Answer false true] true new) with ([true; true; true], mk ST_ACTIVE true) in *.
  change (run [Offer true true; Pranswer false true; Answer false true] false new) with ([true; true; true], mk ST_ACTIVE true) in H.
  destruct H as (_ & _ & _ & _ & Hd & _ & Hrtp & _). split; [reflexivity|]. split; [reflexivity|]. split.
  - destruct (Hd [128; 200; 0; 1] eq_refl) as [-> _]. reflexivity.
  - eapply (Hrtp (RtpUtils.mkRtpHeader 96 1 2 3) (repeat 0 12)); [by repeat split|cbn; lia|reflexivity|cbn; lia].
Defined.

(** The comment on ST_ACTIVE says the filter cannot be de-activated; a new
    offer, and an answer that declines it, do that. *)
Lemma rtcp_mux_deactivated :
  IsActive (run [Offer true true; Answer false true] true new).2 = true /\
  run [Offer true true; Answer false true; Offer true true; Answer false false] true new = ([true; true; true; true], mk ST_INIT true).
Proof. done. Qed.
End RtcpMux.

Module Bundle.

Definition kSsrc01 : Z := 0x01.

Record BundleFilter := mk { payload_types_ : gset Z; streams_ : list StreamParams.StreamParams }.
Definition new : BundleFilter := mk ∅ [].

Definition HasStreams (f : BundleFilter) : bool := negb (bool_decide (streams_ f = [])).
Definition FindStream (ssrc : Z) (f : BundleFilter) : bool :=
  if ssrc =? 0 then false
  else match StreamParams.GetStreamBySsrc (streams_ f) ssrc with Some _ => true | None => false end.
Definition FindPayloadType (pl_type : Z) (f : BundleFilter) : bool := bool_decide (pl_type ∈ payload_types_ f).
Definition AddPayloadType (payload_type : Z) (f : BundleFilter) : BundleFilter :=
  mk ({[payload_type]} ∪ payload_types_ f) (streams_ f).
Definition ClearAllPayloadTypes (f : BundleFilter) : BundleFilter := mk ∅ (streams_ f).
Definition AddStream (stream : StreamParams.StreamParams) (f : BundleFilter) : bool * BundleFilter :=
  match StreamParams.GetStreamBySsrc (streams_ f) (StreamParams.first_ssrc stream) with
  | Some _ => (false, f)
  | None => (true, mk (payload_types_ f) (streams_ f ++ [stream]))
  end.
Definition RemoveStream (ssrc : Z) (f : BundleFilter) : bool * BundleFilter :=
  let '(ret, streams) := StreamParams.RemoveStreamBySsrc (streams_ f) ssrc in (ret, mk (payload_types_ f) streams).

(** [None] would be a read past the packet. *)
Definition DemuxPacket (data : bytes) (rtcp : bool) (f : BundleFilter) : option bool :=
  if negb rtcp then
    let? payload_type := RtpUtils.GetRtpPayloadType data in
    match payload_type with
    | None => Some false
    | Some payload_type => Some (FindPayloadType payload_type f)
    end
  else
    let? pl_type := RtpUtils.GetRtcpType data in
    match pl_type with
    | None => Some false
    | Some pl_type =>
        if pl_type =? RtpUtils.kRtcpTypeSDES then Some true
        else
          let? ssrc := RtpUtils.GetRtcpSsrc data in
          match ssrc with
          | None => Some false
          | Some ssrc => if ssrc =? kSsrc01 then Some true else Some (negb (HasStreams f) || FindStream ssrc f)
          end
    end.

Definition packet_ssrc (data : bytes) : Z := be_val (mem_read data 4 4).

(** What the filter promises: RTP by payload type; RTCP by SSRC, letting
    through source descriptions, SSRC 1 and everything while it has no streams. *)
Definition accepts (data : bytes) (rtcp : bool) (f : BundleFilter) : Prop :=
  if rtcp then
    (4 <= length data)%nat /\
    (Get8 data 1 = RtpUtils.kRtcpTypeSDES \/
     (8 <= length data)%nat /\
     (packet_ssrc data = 1 \/ streams_ f = [] \/
      packet_ssrc data <> 0 /\ exists s, s ∈ streams_ f /\ packet_ssrc data ∈ StreamParams.ssrcs s))
  else (12 <= length data)%nat /\ Get8 data 1 mod 128 ∈ payload_types_ f.

Lemma GetStreamBySsrc_in streams ssrc : ssrc <> 0 ->
  (exists s, StreamParams.GetStreamBySsrc streams ssrc = Some s) <-> exists s, s ∈ streams /\ ssrc ∈ StreamParams.ssrcs s.
Proof.
  intros Hn. unfold StreamParams.GetStreamBySsrc. rewrite StreamParams.GetStream_Some, existsb_exists.
  unfold StreamParams.Matches, StreamParams.by_ssrc, StreamParams.has_ssrc. cbn. rewrite (proj2 (Z.eqb_neq _ _)) by done.
  split; intros (s & Hin & Hs); exists s; (split; [by apply list_elem_of_In|]); by apply bool_decide_eq_true in Hs || apply bool_decide_eq_true.
Qed.

Lemma FindStream_spec ssrc f : FindStream ssrc f = true <->
  ssrc <> 0 /\ exists s, s ∈ streams_ f /\ ssrc ∈ StreamParams.ssrcs s.
Proof.
  unfold FindStream. destruct (Z.eqb_spec ssrc 0) as [->|Hn]; [split; [done|by intros []]|].
  rewrite <- GetStreamBySsrc_in by done. destruct (StreamParams.GetStreamBySsrc _ _) as [s|]; split; try done.
  - by intros _; split; [|exists s].
  - by intros (_ & ? & ?).
Qed.

Lemma DemuxPacket_rtp data f : bytes_ok data ->
  DemuxPacket data false f = Some (bool_decide (accepts data false f)).
Proof.
  intros Hok. unfold DemuxPacket, RtpUtils.GetRtpPayloadType, RtpUtils.at_least, accepts, RtpUtils.kMinRtpPacketLen. cbn [negb].
  destruct (Nat.ltb_spec (length data) 12); [by rewrite bool_decide_eq_false_2 by lia|].
  rewrite RtpUtils.GetUint8_at by (unfold RtpUtils.kRtpPayloadTypeOffset; lia). unfold RtpUtils.kRtpPayloadTypeOffset, FindPayloadType.
  change 0x7F with (2 ^ 7 - 1). rewrite land_mask by lia. change (2 ^ 7) with 128. f_equal. apply bool_decide_ext. tauto.
Qed.

Lemma DemuxPacket_rtcp data f : bytes_ok data -> exists b, DemuxPacket data true f = Some b /\ (b = true <-> accepts data true f).
Proof.
  intros Hok. unfold DemuxPacket. rewrite RtpUtils.GetRtcpSsrc_spec by done. unfold RtpUtils.GetRtcpType, RtpUtils.at_least, accepts, RtpUtils.kMinRtcpPacketLen. cbn [negb].
  destruct (Nat.ltb_spec (length data) 4); [exists false; split; [done|]; split; [done|intros []; lia]|].
  rewrite RtpUtils.GetUint8_at by (unfold RtpUtils.kRtcpPayloadTypeOffset; lia). unfold RtpUtils.kRtcpPayloadTypeOffset.
  destruct (Z.eqb_spec (Get8 data 1) RtpUtils.kRtcpTypeSDES) as [->|Hn]; [exists true; split; [done|tauto]|]. rewrite orb_false_r.
  destruct (Nat.ltb_spec (length data) 8); [exists false; split; [done|]; split; [done|intros (_ & [?|[]]); [done|lia]]|].
  fold (packet_ssrc data). unfold kSsrc01. destruct (Z.eqb_spec (packet_ssrc data) 1); [exists true; split; [done|tauto]|].
  eexists. split; [reflexivity|]. rewrite orb_true_iff, FindStream_spec. unfold HasStreams. rewrite negb_involutive, bool_decide_eq_true. tauto.
Qed.

(** DemuxPacket never reads past a packet, whatever its bytes, and accepts
    exactly the packets the filter's contract lists.  A stream that was added
    gets its RTCP through under each of its SSRCs but zero, an RTP header
    written with an added payload type passes, and once the streams of an SSRC
    are removed, its RTCP no longer passes while other streams remain, except
    source descriptions and the special SSRC 1. *)
Theorem bundle_demux data f : bytes_ok data ->
  (forall rtcp, exists b, DemuxPacket data rtcp f = Some b /\ (b = true <-> accepts data rtcp f)) /\
  (forall s f', AddStream s f = (true, f') -> packet_ssrc data ∈ StreamParams.ssrcs s -> packet_ssrc data <> 0 ->
   (8 <= length data)%nat -> accepts data true f') /\
  (forall h data', RtpUtils.header_ok h -> (12 <= length data)%nat -> RtpUtils.SetRtpHeader data h = Some (true, data') ->
   accepts data' false (AddPayloadType (RtpUtils.payload_type h) f)) /\
  ~ accepts data false (ClearAllPayloadTypes f) /\
  (forall ssrc r f', RemoveStream ssrc f = (r, f') -> ssrc <> 0 -> ssrc <> 1 -> packet_ssrc data = ssrc ->
   Get8 data 1 <> RtpUtils.kRtcpTypeSDES -> streams_ f' <> [] -> ~ accepts data true f').
Proof.
  intros Hok. split.
  { intros []; [by apply DemuxPacket_rtcp|]. eexists. split; [by apply DemuxPacket_rtp|]. apply bool_decide_eq_true. }
  split; [|split; [|split]].
  - unfold AddStream, accepts. intros s f' E Hin Hn Hl. destruct (StreamParams.GetStreamBySsrc _ _); [done|]. injection E as <-.
    split; [lia|]. right. split; [done|]. right. right. split; [done|]. exists s. split; [|done]. cbn.
    apply elem_of_app. right. by apply list_elem_of_singleton.
  - intros h data' Hh Hl E. rewrite RtpUtils.SetRtpHeader_spec in E by done. injection E as <-. destruct Hh as (Hp & _).
    split; [cbn; lia|]. cbn. rewrite Z.mod_small by lia. apply elem_of_union. left. by apply elem_of_singleton.
  - unfold accepts. cbn. intros [_ H]. by apply elem_of_empty in H.
  - unfold RemoveStream, StreamParams.RemoveStreamBySsrc. intros ssrc r f' E H0 H1 Hs Ht Hne.
    rewrite StreamParams.RemoveStream_filter in E. injection E as _ <-.
    unfold accepts. cbn [streams_] in *. rewrite Hs. intros (_ & [?|(_ & [?|[?|(_ & s & Hin & Hss)]])]); try done.
    apply list_elem_of_In, filter_In in Hin as [_ Hm]. unfold StreamParams.Matches, StreamParams.by_ssrc, StreamParams.has_ssrc in Hm.
    cbn in Hm. rewrite (proj2 (Z.eqb_neq _ _)), bool_decide_eq_true_2 in Hm by done. done.
Qed.

Definition rtcp_packet (ssrc : Z) : bytes := [128; 200] ++ be_bytes 2 6 ++ be_bytes 4 ssrc.
Lemma bundle_demux_witness :
  DemuxPacket (rtcp_packet 7) true (AddStream (StreamParams.CreateLegacy 7) (AddStream (StreamParams.CreateLegacy 9) new).2).2 = Some true /\
  accepts (rtcp_packet 7) true (AddStream (StreamParams.CreateLegacy 7) (AddStream (StreamParams.CreateLegacy 9) new).2).2 /\
  ~ accepts (rtcp_packet 7) true (RemoveStream 7 (AddStream (StreamParams.CreateLegacy 7) (AddStream (StreamParams.CreateLegacy 9) new).2).2).2.
Proof.
  pose proof (bundle_demux (rtcp_packet 7)) as H. assert (Hok : bytes_ok (rtcp_packet 7)) by solve_bytes.
  split; [vm_compute; reflexivity|]. split.
  - destruct (H (AddStream (StreamParams.CreateLegacy 9) new).2 Hok) as [_ [Ha _]].
    eapply (Ha (StreamParams.CreateLegacy 7)); [reflexivity|by apply list_elem_of_singleton|discriminate|apply Nat.leb_le; reflexivity].
  - destruct (H (AddStream (StreamParams.CreateLegacy 7) (AddStream (StreamParams.CreateLegacy 9) new).2).2 Hok) as [_ [_ [_ [_ Hr]]]].
    eapply (Hr 7); [reflexivity|discriminate|discriminate|reflexivity|discriminate|discriminate].
Defined.

(** Streams without SSRCs are told apart by their ids: a second one with the
    same ids is refused, and removing SSRC 0 removes them all. *)
Lemma bundle_no_ssrc s s' : StreamParams.ssrcs s = [] -> StreamParams.groupid s = [] -> StreamParams.id s = [] ->
  StreamParams.ssrcs s' = [] -> (AddStream s' (AddStream s new).2).1 = false /\
  (RemoveStream 0 (AddStream s new).2).2 = new.
Proof.
  destruct s as [g i r ? ? ? ? ?], s' as [? ? r' ? ? ? ? ?]. cbn. intros -> -> -> ->. done.
Qed.
End Bundle.
