(* ===== verification/MessageQueue.v ===== *)
(** * base/messagequeue.cc: posted and delayed messages

    A handler or a message's data is a pointer, [Z] with 0 for NULL.  The
    priority queue of the standard library is its list in order, soonest
    first.  Each method is one atomic step (the lock); the wake-ups of a
    waiting thread, with what other threads do to the queue meanwhile, come
    from the environment: [wait n now cms] is the [n]-th call of Wait on the
    socket server, made at time [now].  Data that the queue deletes is returned with its message.
    ReceiveSends, which Thread overrides, does nothing. *)

From stdpp Require Import sorting.
From S2P Require Import Prelude TimeUtils.
Import TimeUtils.
Open Scope jingle_scope.

Module MessageQueue.

Definition kForever : Z := -1.
Definition kMaxMsgLatency : Z := 150.
Definition MQID_ANY : Z := u32 (-1).
Definition MQID_DISPOSE : Z := u32 (-2).

Record Message := mkMessage { phandler : Z; message_id : Z; pdata : Z; ts_sensitive : Z }.
#[export] Instance Message_eq_dec : EqDecision Message. Proof. solve_decision. Defined.
Definition no_message : Message := mkMessage 0 0 0 0.

Definition Match (handler id : Z) (m : Message) : bool :=
  ((handler =? 0) || (handler =? phandler m)) && ((id =? MQID_ANY) || (id =? message_id m)).

Record DelayedMessage := mkDelayed { cmsDelay_ : Z; msTrigger_ : Z; num_ : Z; msg_ : Message }.

(** operator<: the one to be processed first is the greater. *)
Definition lt (a b : DelayedMessage) : bool :=
  (msTrigger_ b <? msTrigger_ a) || ((msTrigger_ b =? msTrigger_ a) && (num_ b <? num_ a)).

Record t := mk {
  fStop_ : bool; fPeekKeep_ : bool; msgPeek_ : Message;
  msgq_ : list Message; dmsgq_ : list DelayedMessage; dmsgq_next_num_ : Z;
}.
Definition new : t := mk false false no_message [] [] 0.

Definition set_stop (b : bool) (q : t) : t := mk b (fPeekKeep_ q) (msgPeek_ q) (msgq_ q) (dmsgq_ q) (dmsgq_next_num_ q).
Definition set_peek (b : bool) (m : Message) (q : t) : t := mk (fStop_ q) b m (msgq_ q) (dmsgq_ q) (dmsgq_next_num_ q).
Definition set_queues (l : list Message) (d : list DelayedMessage) (q : t) : t :=
  mk (fStop_ q) (fPeekKeep_ q) (msgPeek_ q) l d (dmsgq_next_num_ q).

(** push of the priority queue *)
Fixpoint push (d : DelayedMessage) (l : list DelayedMessage) : list DelayedMessage :=
  match l with
  | [] => [d]
  | x :: rest => if lt x d then d :: l else x :: push d rest
  end.

Definition Quit (q : t) : t := set_stop true q.
Definition IsQuitting (q : t) : bool := fStop_ q.
Definition Restart (q : t) : t := set_stop false q.

Definition Post (now : Z) (phandler id pdata : Z) (time_sensitive : bool) (q : t) : t :=
  if fStop_ q then q
  else
    let msg := mkMessage phandler id pdata (if time_sensitive then u32 (now + kMaxMsgLatency) else 0) in
    set_queues (msgq_ q ++ [msg]) (dmsgq_ q) q.

Definition DoDelayPost (cmsDelay tstamp phandler id pdata : Z) (q : t) : t :=
  if fStop_ q then q
  else
    let msg := mkMessage phandler id pdata 0 in
    let dmsg := mkDelayed cmsDelay tstamp (dmsgq_next_num_ q) msg in
    mk (fStop_ q) (fPeekKeep_ q) (msgPeek_ q) (msgq_ q) (push dmsg (dmsgq_ q)) (u32 (dmsgq_next_num_ q + 1)).
Definition PostDelayed (now cmsDelay phandler id pdata : Z) (q : t) : t :=
  DoDelayPost cmsDelay (TimeAfter now cmsDelay) phandler id pdata q.
Definition PostAt (now tstamp phandler id pdata : Z) (q : t) : t :=
  DoDelayPost (TimeUntil now tstamp) tstamp phandler id pdata q.

Definition Dispose (now doomed : Z) (q : t) : t :=
  if doomed =? 0 then q else Post now 0 MQID_DISPOSE doomed false q.

Definition size (q : t) : nat := length (msgq_ q) + length (dmsgq_ q) + (if fPeekKeep_ q then 1 else 0).
Definition empty (q : t) : bool := (size q =? 0)%nat.

Definition GetDelay (now : Z) (q : t) : Z :=
  match msgq_ q, dmsgq_ q with
  | _ :: _, _ => 0
  | [], top :: _ => let delay := TimeUntil now (msTrigger_ top) in if delay <? 0 then 0 else delay
  | [], [] => kForever
  end.

(** The messages removed, which the caller gets or whose data is deleted. *)
Definition Clear (phandler id : Z) (q : t) : list Message * t :=
  let hit m := Match phandler id m in
  let peeked := fPeekKeep_ q && hit (msgPeek_ q) in
  ((if peeked then [msgPeek_ q] else []) ++ List.filter hit (msgq_ q) ++
     List.filter hit (map msg_ (dmsgq_ q)),
   mk (fStop_ q) (if peeked then false else fPeekKeep_ q) (msgPeek_ q)
     (List.filter (fun m => negb (hit m)) (msgq_ q)) (List.filter (fun d => negb (hit (msg_ d))) (dmsgq_ q))
     (dmsgq_next_num_ q)).

(** The delayed messages whose time has come, the wait until the next one, and
    those that remain. *)
Fixpoint take_due (msCurrent : Z) (l : list DelayedMessage) : list Message * Z * list DelayedMessage :=
  match l with
  | [] => ([], kForever, [])
  | top :: rest =>
      if TimeIsLater msCurrent (msTrigger_ top) then ([], TimeDiff (msTrigger_ top) msCurrent, l)
      else let '(due, next, rest) := take_due msCurrent rest in (msg_ top :: due, next, rest)
  end.

(** The next message, after the dispose messages before it are executed. *)
Fixpoint pull (l : list Message) : option Message * list Message * list Message :=
  match l with
  | [] => (None, [], [])
  | m :: rest =>
      if message_id m =? MQID_DISPOSE
      then let '(r, deleted, rest) := pull rest in (r, m :: deleted, rest)
      else (Some m, [], rest)
  end.

(** What other threads do while this one waits. *)
Inductive post :=
  | pPost (phandler id pdata : Z) (time_sensitive : bool)
  | pPostDelayed (cmsDelay phandler id pdata : Z)
  | pPostAt (tstamp phandler id pdata : Z)
  | pQuit.
Definition do_post (now : Z) (p : post) (q : t) : t :=
  match p with
  | pPost h id d ts => Post now h id d ts q
  | pPostDelayed cms h id d => PostDelayed now cms h id d q
  | pPostAt ts h id d => PostAt now ts h id d q
  | pQuit => Quit q
  end.

(** The messages a call adds to the queue. *)
Definition added (now : Z) (p : post) (q : t) : list Message :=
  if fStop_ q then []
  else
    match p with
    | pPost h id d ts => [mkMessage h id d (if ts then u32 (now + kMaxMsgLatency) else 0)]
    | pPostDelayed _ h id d | pPostAt _ h id d => [mkMessage h id d 0]
    | pQuit => []
    end.
Fixpoint do_posts (ps : list (Z * post)) (q : t) : list Message * t :=
  match ps with
  | [] => ([], q)
  | (now, p) :: ps => let '(l, q') := do_posts ps (do_post now p q) in (added now p q ++ l, q')
  end.

(** The return of Wait: its result, the time then, and the calls of other
    threads during it, with their times. *)
Record wakeup := mkWakeup { wait_ok : bool; woke_at : Z; meanwhile : list (Z * post) }.

(** The result of Get: the message if any, the time, the messages disposed of
    and those other threads added. *)
Record got := mkGot { message : option Message; got_at : Z; disposed : list Message; posted : list Message }.

Section Get.
Variable wait : nat -> Z -> Z -> wakeup.

Definition cms_next (cmsWait cmsDelayNext cmsElapsed : Z) : Z :=
  if cmsWait =? kForever then cmsDelayNext
  else
    let cmsNext := Z.max 0 (cmsWait - cmsElapsed) in
    if negb (cmsDelayNext =? kForever) && (cmsDelayNext <? cmsNext) then cmsDelayNext else cmsNext.

(** [None] while it is still waiting after [fuel] rounds. *)
Fixpoint get_loop (fuel n : nat) (cmsWait msStart msCurrent cmsElapsed : Z) (q : t) : option (got * t) :=
  match fuel with
  | O => None
  | S fuel =>
      let '(due, cmsDelayNext, rest) := take_due msCurrent (dmsgq_ q) in
      let '(r, deleted, l) := pull (msgq_ q ++ due) in
      let q := set_queues l rest q in
      match r with
      | Some m => Some (mkGot (Some m) msCurrent deleted [], q)
      | None =>
          if fStop_ q then Some (mkGot None msCurrent deleted [], q)
          else
            let w := wait n msCurrent (cms_next cmsWait cmsDelayNext cmsElapsed) in
            let '(others, q) := do_posts (meanwhile w) q in
            if negb (wait_ok w) then Some (mkGot None msCurrent deleted others, q)
            else
              let msCurrent := woke_at w in
              let cmsElapsed := TimeDiff msCurrent msStart in
              if negb (cmsWait =? kForever) && (cmsWait <=? cmsElapsed)
              then Some (mkGot None msCurrent deleted others, q)
              else
                let? (g, q) := get_loop fuel (S n) cmsWait msStart msCurrent cmsElapsed q in
                Some (mkGot (message g) (got_at g) (deleted ++ disposed g) (others ++ posted g), q)
      end
  end.

Definition Get (fuel : nat) (now cmsWait : Z) (q : t) : option (got * t) :=
  if fPeekKeep_ q then Some (mkGot (Some (msgPeek_ q)) now [] [], set_peek false (msgPeek_ q) q)
  else get_loop fuel 0 cmsWait now now 0 q.

Definition Peek (fuel : nat) (now cmsWait : Z) (q : t) : option (got * t) :=
  if fPeekKeep_ q then Some (mkGot (Some (msgPeek_ q)) now [] [], q)
  else
    let? (g, q) := Get fuel now cmsWait q in
    match message g with
    | None => Some (g, q)
    | Some m => Some (g, set_peek true m q)
    end.
End Get.

(** ** The manager of all queues *)

(** The instance, if there is one, with its queues: each has its pointer. *)
Definition manager : Type := option (list (Z * t)).

Definition Add (mq : Z) (q : t) (instance_ : manager) : manager :=
  match instance_ with None => Some [(mq, q)] | Some l => Some (l ++ [(mq, q)]) end.
Fixpoint erase (mq : Z) (l : list (Z * t)) : list (Z * t) :=
  match l with
  | [] => []
  | x :: l => if x.1 =? mq then l else x :: erase mq l
  end.
Definition RemoveQueue (mq : Z) (instance_ : manager) : manager :=
  match instance_ with
  | None => None
  | Some l => match erase mq l with [] => None | l => Some l end
  end.
(** What a handler's destructor calls. *)
Definition ClearHandler (handler : Z) (instance_ : manager) : manager :=
  option_map (map (fun x => (x.1, (Clear handler MQID_ANY x.2).2))) instance_.

(** The constructor and the destructor of a queue, with what is removed. *)
Definition create (mq : Z) (m : manager) : manager := Add mq new m.
Definition destroy (mq : Z) (q : t) (m : manager) : list Message * manager := ((Clear 0 MQID_ANY q).1, RemoveQueue mq m).

(** ** No message is lost, duplicated or freed twice *)

(** Permutations of concatenations of lists of messages, by counting. *)
Ltac perm_count :=
  change (option_list (@None Message)) with (@nil Message) in *;
  repeat match goal with H : @Permutation Message _ _ |- _ => rewrite (Permutation_count_occ Message_eq_dec) in H end;
  apply (Permutation_count_occ Message_eq_dec); intros perm_x;
  repeat match goal with H : forall x : Message, count_occ _ _ x = _ |- _ => specialize (H perm_x) end;
  repeat (progress (cbn [count_occ map msg_] in *; rewrite ?count_occ_app in *)); repeat case_match; lia.

(** What the queue holds. *)
Definition held (q : t) : list Message :=
  (if fPeekKeep_ q then [msgPeek_ q] else []) ++ msgq_ q ++ map msg_ (dmsgq_ q).

(** After a handler's destructor, no queue holds a message for it; what a
    queue held when it is destroyed is all freed. *)
Lemma ClearHandler_none handler l mq q m : handler <> 0 -> ClearHandler handler (Some l) = Some m -> In (mq, q) m ->
  forall x, In x (held q) -> phandler x <> handler.
Proof.
  intros Hh [= <-] [[mq' q0] [[= _ <-] _]]%in_map_iff x Hx E.
  assert (Hm : Match handler MQID_ANY x = true).
  { unfold Match. by rewrite E, Z.eqb_refl, orb_true_r. }
  unfold held, Clear in Hx. cbn in Hx. destruct (fPeekKeep_ q0) eqn:Ep; cbn in Hx.
  - destruct (Match handler MQID_ANY (msgPeek_ q0)) eqn:Em; cbn in Hx; [|destruct Hx as [<-|Hx]; [congruence|]];
      apply in_app_iff in Hx as [[_ Hx]%filter_In|[d [<- [_ Hx]%filter_In]]%in_map_iff]; by rewrite Hm in Hx.
  - apply in_app_iff in Hx as [[_ Hx]%filter_In|[d [<- [_ Hx]%filter_In]]%in_map_iff]; by rewrite Hm in Hx.
Qed.
Lemma destroy_frees mq q m : (destroy mq q m).1 = held q.
Proof.
  unfold destroy, Clear, held, Match. cbn. rewrite andb_true_r. f_equal.
  assert (Hf : forall A (l : list A), List.filter (fun _ => true) l = l) by (induction l as [|x l IH]; cbn; congruence).
  by rewrite !Hf.
Qed.

Lemma push_perm d l : push d l ≡ₚ d :: l.
Proof.
  induction l as [|x l IH]; [done|]. cbn. destruct (lt x d); [done|]. rewrite IH. apply Permutation_swap.
Qed.

Lemma do_post_held now p q : held (do_post now p q) ≡ₚ held q ++ added now p q.
Proof.
  unfold held, added. destruct p; cbn [do_post]; unfold Post, PostDelayed, PostAt, DoDelayPost, Quit, set_stop, set_queues;
    destruct (fStop_ q); cbn; rewrite ?app_nil_r, ?push_perm; try done; perm_count.
Qed.

Lemma do_posts_held ps : forall q, held (do_posts ps q).2 ≡ₚ held q ++ (do_posts ps q).1.
Proof.
  induction ps as [|[now p] ps IH]; intros q; cbn [do_posts]; [by rewrite app_nil_r|].
  specialize (IH (do_post now p q)). destruct (do_posts ps _) as [l q']. cbn in *.
  by rewrite IH, do_post_held, <- app_assoc.
Qed.

Lemma take_due_perm now l : let '(due, _, rest) := take_due now l in map msg_ l = due ++ map msg_ rest.
Proof.
  induction l as [|x l IH]; [done|]. cbn [take_due]. destruct (TimeIsLater _ _); [done|].
  destruct (take_due now l) as [[due next] rest]. cbn. by rewrite IH.
Qed.

Lemma pull_perm l : let '(r, deleted, rest) := pull l in l = deleted ++ option_list r ++ rest.
Proof.
  induction l as [|m l IH]; [done|]. cbn [pull]. destruct (_ =? _); [|done]. destruct (pull l) as [[r d] rest]. cbn. by rewrite IH.
Qed.

Lemma do_post_peek now p q : fPeekKeep_ (do_post now p q) = fPeekKeep_ q.
Proof. destruct p; cbn; unfold Post, PostDelayed, PostAt, DoDelayPost; by destruct (fStop_ q). Qed.
Lemma do_posts_peek ps : forall q, fPeekKeep_ (do_posts ps q).2 = fPeekKeep_ q.
Proof.
  induction ps as [|[now p] ps IH]; intros q; [done|]. cbn [do_posts]. specialize (IH (do_post now p q)).
  rewrite do_post_peek in IH. by destruct (do_posts ps _).
Qed.

Lemma pull_dispose l : let '(r, deleted, _) := pull l in
  Forall (fun m => message_id m = MQID_DISPOSE) deleted /\ forall m, r = Some m -> message_id m <> MQID_DISPOSE.
Proof.
  induction l as [|m l IH]; [by split; [apply List.Forall_nil|]|]. cbn [pull]. destruct (Z.eqb_spec (message_id m) MQID_DISPOSE) as [E|E].
  - destruct (pull l) as [[r d] rest]. destruct IH as [Hd Hr]. split; [by apply List.Forall_cons|done].
  - split; [apply List.Forall_nil|]. by intros ? [= <-].
Qed.

(** What a call of Get accounts for. *)
Definition balanced (q : t) (g : got) (q' : t) : Prop :=
  held q ++ posted g ≡ₚ option_list (message g) ++ disposed g ++ held q' /\
  Forall (fun m => message_id m = MQID_DISPOSE) (disposed g).

Lemma held_plain q : fPeekKeep_ q = false -> held q = msgq_ q ++ map msg_ (dmsgq_ q).
Proof. unfold held. by intros ->. Qed.

Lemma get_loop_balanced wait fuel : forall n cmsWait msStart now elapsed q g q', fPeekKeep_ q = false ->
  get_loop wait fuel n cmsWait msStart now elapsed q = Some (g, q') ->
  balanced q g q' /\ fPeekKeep_ q' = false /\ forall m, message g = Some m -> message_id m <> MQID_DISPOSE.
Proof.
  induction fuel as [|fuel IH]; intros n cmsWait msStart now elapsed q g q' Hp; [done|]. cbn [get_loop].
  pose proof (take_due_perm now (dmsgq_ q)) as Htd. destruct (take_due now (dmsgq_ q)) as [[due next] rest].
  pose proof (pull_perm (msgq_ q ++ due)) as Hpl. pose proof (pull_dispose (msgq_ q ++ due)) as Hds.
  destruct (pull (msgq_ q ++ due)) as [[r deleted] l]. destruct Hds as [Hds Hr].
  set (q1 := set_queues l rest q). assert (Hp1 : fPeekKeep_ q1 = false) by done.
  assert (Hb : held q ≡ₚ option_list r ++ deleted ++ held q1).
  { rewrite !held_plain, Htd by done. cbn [q1 set_queues msgq_ dmsgq_]. rewrite !(app_assoc (msgq_ q)), Hpl.
    clear. perm_count. }
  assert (Hstop : forall at_, Some (mkGot r at_ deleted [], q1) = Some (g, q') ->
    balanced q g q' /\ fPeekKeep_ q' = false /\ forall m, message g = Some m -> message_id m <> MQID_DISPOSE).
  { intros at_ [= <- <-]. unfold balanced. cbn [message disposed posted].
    split; [split; [by rewrite app_nil_r|exact Hds]|]. split; [exact Hp1|exact Hr]. }
  destruct r as [m|]; [apply Hstop|]. destruct (fStop_ q1); [apply Hstop|]. clear Hstop.
  set (w := wait n now _). pose proof (do_posts_held (meanwhile w) q1) as Hw. pose proof (do_posts_peek (meanwhile w) q1) as Hpw.
  destruct (do_posts (meanwhile w) q1) as [others q2]. cbn [fst snd option_list app] in Hw, Hpw.  rewrite Hp1 in Hpw.
  assert (Hret : forall at_, Some (mkGot None at_ deleted others, q2) = Some (g, q') ->
    balanced q g q' /\ fPeekKeep_ q' = false /\ forall m, message g = Some m -> message_id m <> MQID_DISPOSE).
  { intros at_ [= <- <-]. unfold balanced. cbn [message disposed posted option_list app] in *.
    split; [split; [|exact Hds]|by split]. clear -Hb Hw. perm_count. }
  destruct (negb (wait_ok w)); [apply Hret|]. destruct (negb _ && _); [apply Hret|]. clear Hret.
  destruct (get_loop _ _ _ _ _ _ _ _) as [[g1 q3]|] eqn:E; [|done]. intros [= <- <-].
  destruct (IH _ _ _ _ _ _ _ _ Hpw E) as ([Hb3 Hd3] & Hp3 & Hm3). split; [|done]. unfold balanced. cbn. split.
  - clear -Hb Hw Hb3. perm_count.
  - by apply Forall_app_2.
Qed.

(** ** Any use of the queue *)

Inductive op :=
  | oPost (p : post)
  | oGet (fuel : nat) (wait : nat -> Z -> Z -> wakeup) (cmsWait : Z)
  | oPeek (fuel : nat) (wait : nat -> Z -> Z -> wakeup) (cmsWait : Z)
  | oClear (handler id : Z)
  | oRestart.

(** The messages a call accepts, returns for good, disposes of, and removes
    for Clear. *)
Record effect := mkEffect { accepted : list Message; delivered : list Message; disposed_of : list Message; cleared : list Message }.
Definition no_effect : effect := mkEffect [] [] [] [].
Definition plus (e f : effect) : effect :=
  mkEffect (accepted e ++ accepted f) (delivered e ++ delivered f) (disposed_of e ++ disposed_of f) (cleared e ++ cleared f).

Definition exec (now : Z) (o : op) (q : t) : option (effect * t) :=
  match o with
  | oPost p => Some (mkEffect (added now p q) [] [] [], do_post now p q)
  | oGet fuel wait cms =>
      let? (g, q) := Get wait fuel now cms q in
      Some (mkEffect (posted g) (option_list (message g)) (disposed g) [], q)
  | oPeek fuel wait cms =>
      let? (g, q) := Peek wait fuel now cms q in Some (mkEffect (posted g) [] (disposed g) [], q)
  | oClear h id => let '(l, q) := Clear h id q in Some (mkEffect [] [] [] l, q)
  | oRestart => Some (no_effect, Restart q)
  end.

Fixpoint run (os : list (Z * op)) (q : t) : option (effect * t) :=
  match os with
  | [] => Some (no_effect, q)
  | (now, o) :: os =>
      let? (e, q) := exec now o q in
      let? (f, q) := run os q in
      Some (plus e f, q)
  end.

Definition accounted (q : t) (e : effect) (q' : t) : Prop :=
  held q ++ accepted e ≡ₚ delivered e ++ disposed_of e ++ cleared e ++ held q' /\
  Forall (fun m => message_id m = MQID_DISPOSE) (disposed_of e).

Lemma Clear_held h id q : held q ≡ₚ (Clear h id q).1 ++ held (Clear h id q).2.
Proof.
  assert (Hf : forall A (p : A -> bool) l, l ≡ₚ List.filter p l ++ List.filter (fun x => negb (p x)) l).
  { intros A p l. induction l as [|x l IH]; [done|]. cbn. destruct (p x); cbn; rewrite IH at 1; [done|]. apply Permutation_middle. }
  assert (Hm : forall (p : Message -> bool) l, map msg_ (List.filter (fun d => p (msg_ d)) l) = List.filter p (map msg_ l)).
  { intros p l. induction l as [|x l IH]; [done|]. cbn. destruct (p (msg_ x)); cbn; by rewrite IH. }
  unfold Clear, held. cbn. rewrite (Hm (fun m => negb (Match h id m))). set (p := Match h id).
  rewrite (Hf _ p (msgq_ q)) at 1. rewrite (Hf _ p (map msg_ (dmsgq_ q))) at 1.
  change (Match h id (msgPeek_ q)) with (p (msgPeek_ q)). clear. destruct (fPeekKeep_ q), (p (msgPeek_ q)); cbn; perm_count.
Qed.

Lemma Get_balanced wait fuel now cms q g q' : Get wait fuel now cms q = Some (g, q') -> balanced q g q' /\ fPeekKeep_ q' = false.
Proof.
  unfold Get. destruct (fPeekKeep_ q) eqn:Hp.
  - intros [= <- <-]. split; [|done]. unfold balanced, held. rewrite Hp. cbn. split; [by rewrite app_nil_r|apply List.Forall_nil].
  - intros E. destruct (get_loop_balanced _ _ _ _ _ _ _ _ _ _ Hp E) as (Hb & Hp' & _). by split.
Qed.

Lemma exec_accounted now o q e q' : exec now o q = Some (e, q') -> accounted q e q'.
Proof.
  unfold accounted. destruct o as [p|fuel wait cms|fuel wait cms|h id|]; cbn [exec].
  - intros [= <- <-]. cbn. split; [|apply List.Forall_nil]. by rewrite do_post_held.
  - destruct (Get wait fuel now cms q) as [[g q1]|] eqn:E; [|done]. intros [= <- <-]. by apply Get_balanced in E as [Hb _].
  - unfold Peek. destruct (fPeekKeep_ q) eqn:Hp.
    { intros [= <- <-]. cbn. split; [by rewrite app_nil_r|apply List.Forall_nil]. }
    destruct (Get wait fuel now cms q) as [[g q1]|] eqn:E; [|done]. apply Get_balanced in E as [[Hb Hd] Hp1].
    destruct (message g) as [m|] eqn:Em; intros [= <- <-]; cbn [accepted delivered disposed_of cleared]; (split; [|exact Hd]).
    + rewrite Hb. unfold held. rewrite Hp1. cbn. clear. perm_count.
    + by rewrite Hb.
  - pose proof (Clear_held h id q) as Hc. destruct (Clear h id q) as [l q1]. intros [= <- <-]. cbn in *.
    split; [by rewrite app_nil_r|apply List.Forall_nil].
  - intros [= <- <-]. cbn. split; [by rewrite app_nil_r|apply List.Forall_nil].
Qed.

(** C14: Whatever sequence of calls is made of a queue, from any threads, with
    messages posted while it waits, every message it accepted is, counted with
    its multiplicity, in exactly one place: returned by Get, disposed of (only
    the dispose messages), removed by Clear, or still held.  In particular
    none is delivered twice, or delivered after its data was deleted. *)
Theorem mq_conserves_messages os e q : run os new = Some (e, q) ->
  accepted e ≡ₚ delivered e ++ disposed_of e ++ cleared e ++ held q /\
  Forall (fun m => message_id m = MQID_DISPOSE) (disposed_of e).
Proof.
  change (accepted e) with (held new ++ accepted e). generalize new. revert e q.
  induction os as [|[now o] os IH]; intros e q q0; cbn [run].
  - intros [= <- <-]. cbn. split; [by rewrite app_nil_r|apply List.Forall_nil].
  - destruct (exec now o q0) as [[e1 q1]|] eqn:E1; [|done]. destruct (run os q1) as [[e2 q2]|] eqn:E2; [|done].
    intros [= <- <-]. apply exec_accounted in E1 as [H1 D1]. apply IH in E2 as [H2 D2]. cbn. split.
    + clear -H1 H2. perm_count.
    + by apply Forall_app_2.
Qed.

(** ** Delayed messages come out in order and on time *)

Definition before (a b : DelayedMessage) : Prop :=
  msTrigger_ a < msTrigger_ b \/ msTrigger_ a = msTrigger_ b /\ num_ a < num_ b.

Lemma lt_before x d : num_ x <> num_ d -> if lt x d then before d x else before x d.
Proof. intros Hn. unfold lt, before. destruct (_ || _) eqn:E; bool_simpl; lia. Qed.

Lemma push_sorted d l : StronglySorted before l -> Forall (fun x => num_ x <> num_ d) l -> StronglySorted before (push d l).
Proof.
  induction l as [|x l IH]; cbn [push]; intros Hs Hn; [by repeat constructor|].
  apply Forall_cons in Hn as [Hx Hn]. apply StronglySorted_inv in Hs as [Hs Hb]. pose proof (lt_before x d Hx) as Hl.
  destruct (lt x d).
  - constructor; [by constructor|]. apply List.Forall_cons; [done|]. eapply List.Forall_impl; [|exact Hb].
    unfold before in *. intros. lia.
  - constructor; [by apply IH|]. rewrite push_perm. by apply List.Forall_cons.
Qed.

(** The environment of a thread that is woken on time, or earlier, and whose
    queue nobody else uses. *)
Definition punctual (wait : nat -> Z -> Z -> wakeup) : Prop :=
  forall n now cms, 0 < cms -> exists k, 0 < k <= cms /\ wait n now cms = mkWakeup true (u32 (now + k)) [].

Lemma later_plain a b : is_u 32 a -> is_u 32 b -> - HALF < b - a < HALF -> TimeIsLater a b = (a <? b) /\ TimeDiff b a = b - a.
Proof.
  unfold is_u, TimeDiff. intros Ha Hb Hd. rewrite later_dist, s32_dist. unfold u32, wrap, HALF in *. change (2 ^ 32) with 4294967296 in *.
  destruct (Z.ltb_spec a b).
  - rewrite Z.mod_small by lia. rewrite !(proj2 (Z.ltb_lt _ _)) by lia. done.
  - destruct (Z.eqb_spec a b) as [->|Hn]; [by rewrite Z.sub_diag|].
    rewrite <- (Z.mod_unique (b - a) 4294967296 (-1) (b - a + 4294967296)) by lia. rewrite (proj2 (Z.ltb_ge _ 2147483648)) by lia.
    rewrite andb_false_r. split; [done|lia].
Qed.

(** A delayed message that is not due before [now], within the range in which
    timestamps compare as numbers. *)
Definition pending (now : Z) (d : DelayedMessage) : Prop :=
  now <= msTrigger_ d /\ msTrigger_ d - now < HALF /\ is_u 32 now /\ is_u 32 (msTrigger_ d) /\
  message_id (msg_ d) <> MQID_DISPOSE.

Lemma pending_later now now' d : pending now d -> now <= now' <= msTrigger_ d -> pending now' d.
Proof. unfold pending, is_u. intros (H1 & H2 & H3 & H4 & H5) Hn. split_and!; try done; lia. Qed.

Lemma take_due_split now l : StronglySorted before l -> Forall (pending now) l ->
  exists dl rest, l = dl ++ rest /\ Forall (fun d => msTrigger_ d = now) dl /\ Forall (fun d => now < msTrigger_ d) rest /\
    take_due now l = (map msg_ dl, match rest with [] => kForever | top :: _ => msTrigger_ top - now end, rest).
Proof.
  induction l as [|d l IH]; intros Hs Hp; [by exists [], []|]. apply StronglySorted_inv in Hs as [Hs Hb].
  apply Forall_cons in Hp as [Hd Hp]. pose proof Hd as (H1 & H2 & H3 & H4 & _).
  destruct (later_plain now (msTrigger_ d)) as [El Ed]; [done|done|unfold HALF in *; lia|]. cbn [take_due]. rewrite El, Ed.
  destruct (Z.ltb_spec now (msTrigger_ d)).
  - exists [], (d :: l). split_and!; [done|apply List.Forall_nil| |done]. apply List.Forall_cons; [done|].
    eapply List.Forall_impl; [|exact Hb]. unfold before. intros. lia.
  - destruct (IH Hs Hp) as (dl & rest & -> & Hdl & Hr & ->). exists (d :: dl), rest. split_and!; [done| |done|done].
    apply List.Forall_cons; [lia|done].
Qed.

Section Punctual.
Context (wait : nat -> Z -> Z -> wakeup) (Hw : punctual wait).

(** A queue whose ready messages are those of [dl]. *)
Definition waiting (dl rest : list DelayedMessage) (num : Z) : t := mk false false no_message (map msg_ dl) rest num.

Lemma pull_one d l : message_id (msg_ d) <> MQID_DISPOSE -> pull (msg_ d :: l) = (Some (msg_ d), [], l).
Proof. intros Hd. cbn. by rewrite (proj2 (Z.eqb_neq _ _) Hd). Qed.

(** The next message to come: a ready one at once, else the soonest at its
    time, however early the wake-ups before it. *)
Lemma get_ready fuel n start now elapsed d dl rest num : StronglySorted before rest -> Forall (pending now) rest ->
  message_id (msg_ d) <> MQID_DISPOSE ->
  exists dl' rest', rest = dl' ++ rest' /\ Forall (fun d => msTrigger_ d = now) dl' /\
    get_loop wait (S fuel) n kForever start now elapsed (waiting (d :: dl) rest num) =
      Some (mkGot (Some (msg_ d)) now [] [], waiting (dl ++ dl') rest' num).
Proof.
  intros Hs Hp Hd. destruct (take_due_split now rest Hs Hp) as (dl' & rest' & E & Hdl & _ & Et). exists dl', rest'.
  split_and!; [done..|]. cbn [get_loop waiting dmsgq_ msgq_]. rewrite Et. cbn [map app].
  rewrite pull_one by done. unfold waiting, set_queues. by rewrite map_app.
Qed.

Lemma get_soonest fuel : forall n start now elapsed d rest num, StronglySorted before (d :: rest) -> Forall (pending now) (d :: rest) ->
  msTrigger_ d - now < Z.of_nat fuel ->
  exists dl' rest', rest = dl' ++ rest' /\ Forall (fun x => msTrigger_ x = msTrigger_ d) dl' /\
    get_loop wait fuel n kForever start now elapsed (waiting [] (d :: rest) num) =
      Some (mkGot (Some (msg_ d)) (msTrigger_ d) [] [], waiting dl' rest' num).
Proof.
  induction fuel as [|fuel IH]; intros n start now elapsed d rest num Hs Hp Hf; pose proof Hp as [(H1 & H2 & H3 & H4 & H5) _]%Forall_cons; [lia|].
  destruct (take_due_split now (d :: rest) Hs Hp) as (dl & rest' & E & Hdl & Hr & Et).
  cbn [get_loop]. change (dmsgq_ (waiting [] (d :: rest) num)) with (d :: rest). rewrite Et.
  destruct dl as [|d' dl].
  - cbn [app] in E. subst rest'. cbn [msgq_ waiting map app pull fStop_ set_queues]. unfold cms_next. rewrite Z.eqb_refl.
    apply Forall_cons in Hr as [Hr _]. destruct (Hw n now (msTrigger_ d - now)) as (k & Hk & Ew); [lia|]. rewrite Ew.
    cbn [meanwhile do_posts wait_ok negb woke_at andb].
    assert (Ek : u32 (now + k) = now + k) by (apply wrap_small; unfold is_u in *; lia). rewrite Ek.
    destruct (IH (S n) start (now + k) (TimeDiff (now + k) start) d rest num) as (dl' & rest' & E & Hdl' & Eg); [done| |lia|].
    { pose proof Hs as [_ Hb]%StronglySorted_inv. apply Forall_cons in Hp as [Hpd Hpr]. apply List.Forall_cons.
      - apply (pending_later now); [done|lia].
      - apply List.Forall_forall. intros x Hx. apply (pending_later now); [by eapply List.Forall_forall in Hpr|].
        eapply List.Forall_forall in Hb; [|exact Hx]. unfold before in Hb. lia. }
    exists dl', rest'. split; [done|]. split; [done|]. unfold waiting, set_queues in *. cbn in *. by rewrite Eg.
  - cbn [app] in E. injection E as <- E. apply Forall_cons in Hdl as [Ed Hdl]. exists dl, rest'. rewrite Ed. split_and!; [done..|].
    cbn [msgq_ waiting map app]. rewrite pull_one by done. done.
Qed.
End Punctual.

(** [k] calls of Get, each waiting as long as it takes; the messages with the
    times they come at. *)
Fixpoint serve (wait : nat -> Z -> Z -> wakeup) (fuel k : nat) (now : Z) (q : t) : option (list (Z * Message) * t) :=
  match k with
  | O => Some ([], q)
  | S k =>
      let? (g, q) := Get wait fuel now kForever q in
      let? m := message g in
      let? (l, q) := serve wait fuel k (got_at g) q in
      Some ((got_at g, m) :: l, q)
  end.

Definition due_at (d : DelayedMessage) : Z * Message := (msTrigger_ d, msg_ d).

Lemma serve_sorted wait fuel : punctual wait -> forall k now dl rest num, (length dl + length rest)%nat = k ->
  StronglySorted before rest -> Forall (pending now) rest -> Forall (fun d => msTrigger_ d = now /\ message_id (msg_ d) <> MQID_DISPOSE) dl ->
  Forall (fun d => msTrigger_ d - now < Z.of_nat fuel) rest -> (0 < fuel)%nat ->
  serve wait fuel k now (waiting dl rest num) = Some (map due_at (dl ++ rest), waiting [] [] num).
Proof.
  intros Hw. induction k as [|k IH]; intros now dl rest num Hk Hs Hp Hdl Hf Hfuel.
  { destruct dl, rest; cbn in Hk; try lia. done. }
  cbn [serve]. unfold Get. change (fPeekKeep_ (waiting dl rest num)) with false. cbn iota.
  destruct dl as [|d dl]; [destruct rest as [|d rest]; [cbn in Hk; lia|]|].
  - apply Forall_cons in Hf as [Hfd Hf]. destruct (get_soonest wait Hw fuel 0 now now 0 d rest num Hs Hp Hfd) as (dl' & rest' & -> & Hdl' & ->).
    cbn [message got_at]. apply StronglySorted_inv in Hs as [Hs Hb]. apply Forall_cons in Hp as [Hpd Hp].
    rewrite (IH (msTrigger_ d) dl' rest' num); [done|cbn in Hk; rewrite length_app in Hk; lia|by apply StronglySorted_app_1_r in Hs| | | |done].
    + apply List.Forall_forall. intros x Hx. apply (pending_later now).
      * eapply List.Forall_forall in Hp; [exact Hp|]. apply in_app_iff. by right.
      * eapply List.Forall_forall in Hb; [|apply in_app_iff; right; exact Hx]. destruct Hpd. unfold before in Hb. lia.
    + apply List.Forall_forall. intros x Hx. split; [by eapply List.Forall_forall in Hdl'|].
      eapply List.Forall_forall in Hp; [apply Hp|]. apply in_app_iff. by left.
    + apply List.Forall_forall. intros x Hx. eapply List.Forall_forall in Hf; [|apply in_app_iff; right; exact Hx].
      destruct Hpd. cbn in Hf. lia.
  - apply Forall_cons in Hdl as [[Hd Hdd] Hdl]. destruct fuel as [|fuel]; [lia|].
    destruct (get_ready wait fuel 0 now now 0 d dl rest num Hs Hp Hdd) as (dl' & rest' & -> & Hdl' & ->).
    cbn [message got_at]. rewrite (IH now (dl ++ dl') rest' num); [rewrite <- app_assoc; cbn [map app]; change (due_at d) with (msTrigger_ d, msg_ d); by rewrite Hd| | | | | |done].
    + cbn in Hk. rewrite length_app in *. lia.
    + by apply StronglySorted_app_1_r in Hs.
    + by apply Forall_app in Hp as [_ Hp].
    + apply Forall_app_2; [done|]. apply Forall_app in Hp as [Hp _]. apply List.Forall_forall. intros x Hx.
      split; [by eapply List.Forall_forall in Hdl'|]. eapply List.Forall_forall in Hp; [apply Hp|done].
    + by apply Forall_app in Hf as [_ Hf].
Qed.

(** Messages posted at one time with their delays. *)
Record timer := mkTimer { delay : Z; to : Z; id : Z; data : Z }.
Definition post_all (now : Z) (l : list timer) (q : t) : t :=
  fold_left (fun q p => PostDelayed now (delay p) (to p) (id p) (data p) q) l q.

(** Their entries, numbered in the order of the calls. *)
Fixpoint entries (now n : Z) (l : list timer) : list DelayedMessage :=
  match l with
  | [] => []
  | p :: l => mkDelayed (delay p) (now + delay p) n (mkMessage (to p) (id p) (data p) 0) :: entries now (n + 1) l
  end.

Lemma post_all_entries now l : 0 <= now -> Forall (fun p => 0 <= delay p < HALF /\ now + delay p < 2 ^ 32) l ->
  forall n ds, StronglySorted before ds -> Forall (fun d => num_ d < n) ds -> 0 <= n -> n + Z.of_nat (length l) < 2 ^ 32 ->
  exists ds', post_all now l (waiting [] ds n) = waiting [] ds' (n + Z.of_nat (length l)) /\
    ds' ≡ₚ ds ++ entries now n l /\ StronglySorted before ds'.
Proof.
  intros Hnow Hl. induction Hl as [|p l [Hd Ht] _ IH]; intros n ds Hs Hn H0 Hlen; cbn [post_all fold_left entries].
  { exists ds. rewrite app_nil_r, Z.add_0_r. by split_and!. }
  cbn [length] in Hlen. unfold PostDelayed, TimeAfter, DoDelayPost. cbn [fStop_ waiting dmsgq_ dmsgq_next_num_ fPeekKeep_ msgPeek_ msgq_ map].
  assert (E : u32 (now + delay p) = now + delay p) by (apply wrap_small; unfold is_u; lia). rewrite E.
  assert (En : u32 (n + 1) = n + 1) by (apply wrap_small; unfold is_u; lia). rewrite En.
  set (d := mkDelayed _ _ n _). destruct (IH (n + 1) (push d ds)) as (ds' & E' & Hp & Hs'); [| |lia|lia|].
  - apply push_sorted; [done|]. eapply List.Forall_impl; [|exact Hn]. cbn. lia.
  - rewrite push_perm. apply List.Forall_cons; [cbn; lia|]. eapply List.Forall_impl; [|exact Hn]. cbn. lia.
  - exists ds'. split_and!; [refine (eq_trans E' _); f_equal; cbn [length]; lia| |done].
    rewrite Hp, push_perm. cbn. by rewrite Permutation_middle.
Qed.

Lemma entries_in now n l d : In d (entries now n l) ->
  exists p, In p l /\ msTrigger_ d = now + delay p /\ message_id (msg_ d) = id p.
Proof.
  revert n; induction l as [|p l IH]; intros n; [done|]. intros [<-|Hd]; [by exists p; split_and!; [left|..]|].
  destruct (IH _ Hd) as (p' & ? & ?). exists p'. by split; [right|].
Qed.

(** Messages posted with delays to a queue come out, one per call of Get
    that waits without limit, each exactly at its time, in the order of their
    times and, for equal times, of the calls that posted them; for any
    environment whose Wait returns at the latest after the time it is given
    (and is woken however often before), and timestamps that do not wrap. *)
Theorem mq_timers wait fuel now l : punctual wait -> 0 <= now -> Z.of_nat (length l) < 2 ^ 32 -> (0 < fuel)%nat ->
  Forall (fun p => 0 <= delay p < HALF /\ now + delay p < 2 ^ 32 /\ delay p < Z.of_nat fuel /\ id p <> MQID_DISPOSE) l ->
  exists ds, serve wait fuel (length l) now (post_all now l new) = Some (map due_at ds, waiting [] [] (Z.of_nat (length l))) /\
    ds ≡ₚ entries now 0 l /\ StronglySorted before ds.
Proof.
  intros Hw Hnow Hlen Hfuel Hl. destruct (post_all_entries now l Hnow) with (n := 0) (ds := @nil DelayedMessage) as (ds & E & Hp & Hs).
  { eapply List.Forall_impl; [|exact Hl]. intros p (H1 & H2 & _). by split. }
  { constructor. } { apply List.Forall_nil. } { lia. } { lia. }
  cbn [app] in Hp. exists ds. split; [|done].
  change new with (waiting [] [] 0). rewrite E, Z.add_0_l.
  assert (Hin : forall d, In d ds -> exists p, In p l /\ msTrigger_ d = now + delay p /\ message_id (msg_ d) = id p).
  { intros d Hd. apply (entries_in now 0). by rewrite <- Hp. }
  assert (Hall : forall d, In d ds -> pending now d /\ msTrigger_ d - now < Z.of_nat fuel).
  { intros d Hd. destruct (Hin d Hd) as (p & Hpl & Et & Ei). eapply List.Forall_forall in Hl as (H1 & H2 & H3 & H4); [|exact Hpl].
    unfold pending, is_u. rewrite Ei. split_and!; try done; lia. }
  rewrite (serve_sorted wait fuel Hw (length l) now [] ds (Z.of_nat (length l))); try done.
  - cbn. rewrite Hp. clear. generalize 0. induction l as [|p l IH]; intros n; [done|]. cbn. by rewrite IH.
  - apply List.Forall_forall. intros d Hd. by apply Hall.
  - apply List.Forall_forall. intros d Hd. by apply Hall.
Qed.

(** ** Witnesses *)

Definition lazy_wait (n : nat) (now cms : Z) : wakeup := mkWakeup true (u32 (now + cms)) [].
Lemma lazy_punctual : punctual lazy_wait.
Proof. intros n now cms Hc. exists cms. split; [lia|done]. Qed.

Definition sample_timers : list timer := [mkTimer 30 1 1 0; mkTimer 10 2 2 0; mkTimer 30 3 3 0].
Lemma mq_timers_witness : exists ds,
  serve lazy_wait 31 3 1000 (post_all 1000 sample_timers new) = Some (map due_at ds, waiting [] [] 3) /\
  ds ≡ₚ entries 1000 0 sample_timers /\ StronglySorted before ds /\ 
  map due_at ds = [(1010, mkMessage 2 2 0 0); (1030, mkMessage 1 1 0 0); (1030, mkMessage 3 3 0 0)].
Proof.
  destruct (mq_timers lazy_wait 31 1000 sample_timers lazy_punctual) as (ds & E & Hp & Hs); [lia|reflexivity|lia| |].
  { repeat constructor; cbn; unfold HALF; lia || discriminate. }
  exists ds. split; [exact E|]. split; [exact Hp|]. split; [exact Hs|].
  assert (E' : option_map fst (serve lazy_wait 31 3 1000 (post_all 1000 sample_timers new)) =
    Some [(1010, mkMessage 2 2 0 0); (1030, mkMessage 1 1 0 0); (1030, mkMessage 3 3 0 0)]) by (vm_compute; reflexivity).
  change (length sample_timers) with 3%nat in E. rewrite E in E'. cbn [option_map fst] in E'. congruence.
Defined.

Definition sample_ops : list (Z * op) :=
  [(5, oPost (pPost 1 7 11 false)); (5, oPost (pPost 0 MQID_DISPOSE 12 false)); (6, oPost (pPostDelayed 20 2 8 13));
   (6, oPost (pPostDelayed 20 3 8 14)); (7, oPeek 1 lazy_wait 0);
   (8, oGet 1 lazy_wait 0); (9, oClear 2 MQID_ANY); (9, oGet 3 (fun n now cms => mkWakeup true (now + cms) [(now, pPost 4 9 15 false)]) kForever)].
Lemma mq_conserves_messages_witness : exists e q, run sample_ops new = Some (e, q) /\
  map pdata (accepted e) = [11; 12; 13; 14; 15] /\ map pdata (delivered e) = [11; 15] /\
  accepted e ≡ₚ delivered e ++ disposed_of e ++ cleared e ++ held q.
Proof.
  destruct (run sample_ops new) as [[e q]|] eqn:E; [|vm_compute in E; discriminate]. exists e, q. split; [done|].
  pose proof (mq_conserves_messages _ _ _ E) as [Hc _].
  assert (Ha : option_map (fun x => (map pdata (accepted x.1), map pdata (delivered x.1))) (run sample_ops new) = Some ([11; 12; 13; 14; 15], [11; 15]))
    by (vm_compute; reflexivity).
  rewrite E in Ha. cbn in Ha. injection Ha as -> ->. by split_and!.
Defined.

(** The order of the priority queue does not wrap with the timestamps: a
    message due after the wrap hides one that is due before it. *)
Lemma mq_wrap_late :
  let q := PostDelayed 0xFFFFFF00 0x200 2 2 0 (PostDelayed 0xFFFFFF00 0x10 1 1 0 new) in
  Get lazy_wait 1 0xFFFFFF20 kForever q = None /\ GetDelay 0xFFFFFF20 q = 0x1E0 /\
  option_map (fun x => map snd x.1) (serve lazy_wait 2 2 0xFFFFFF20 q) = Some [mkMessage 2 2 0 0; mkMessage 1 1 0 0].
Proof. by vm_compute. Qed.
End MessageQueue.
