(* ===== verification/StunRequest.v ===== *)
(** * p2p/base/stunrequest.cc: STUN transactions

    A request object is a cell of [heap], named by its pointer; the manager's
    map and the thread's queue hold pointers, so that a message to a request
    that was deleted is the [None] of a use after free.  The virtual functions
    of a request are the changes Prepare makes to its message, and the events
    it is told of; these callbacks do not re-enter the manager.  The thread is
    the MessageQueue model, used by these requests only. *)

From stdpp Require Import gmap.
From S2P Require Import Prelude TimeUtils ByteOrder ByteBuffer Stun StunWire Helpers MessageQueue.
Import ByteOrder TimeUtils.
Open Scope jingle_scope.

Module StunRequest.

Definition MSG_STUN_SEND : Z := 1.
Definition MAX_SENDS : Z := 9.
Definition DELAY_UNIT : Z := 100.
Definition DELAY_MAX_FACTOR : Z := 16.

(** The virtual GetNextDelay: that of the base class, or that of a request
    that is sent once (ConnectionRequest of port.cc). *)
Inductive Delays := Retransmit | Once (delay : Z).

Record Request := mkRequest {
  count_ : Z; timeout_ : bool; manager_ : bool; msg_ : Stun.StunMessage; tstamp_ : Z;
  cls : Stun.message_class; prepare : Stun.StunMessage -> Stun.StunMessage; delays : Delays;
}.

Inductive event :=
  | SendPacket (request : Z) (data : bytes)
  | OnResponse (request : Z) (response : Stun.StunMessage)
  | OnErrorResponse (request : Z) (response : Stun.StunMessage)
  | OnTimeout (request : Z).

Record t := mk { heap : gmap Z Request; requests_ : gmap bytes Z; thread_ : MessageQueue.t }.
Definition new : t := mk ∅ ∅ MessageQueue.new.

Definition set_request (h : Z) (r : Request) (s : t) : t := mk (<[h := r]> (heap s)) (requests_ s) (thread_ s).
Definition set_thread (q : MessageQueue.t) (s : t) : t := mk (heap s) (requests_ s) q.
Definition set_msg (m : Stun.StunMessage) (r : Request) : Request :=
  mkRequest (count_ r) (timeout_ r) (manager_ r) m (tstamp_ r) (cls r) (prepare r) (delays r).
Definition set_manager (r : Request) : Request :=
  mkRequest (count_ r) (timeout_ r) true (msg_ r) (tstamp_ r) (cls r) (prepare r) (delays r).
Definition set_tstamp (now : Z) (r : Request) : Request :=
  mkRequest (count_ r) (timeout_ r) (manager_ r) (msg_ r) now (cls r) (prepare r) (delays r).

Definition type (r : Request) : Z := Stun.type_ (msg_ r).
Definition id (r : Request) : bytes := Stun.transaction_id_ (msg_ r).
Definition Elapsed (now : Z) (r : Request) : Z := u32 (TimeSince now (tstamp_ r)).

Definition GetNextDelay (r : Request) : Z * Request :=
  match delays r with
  | Once delay => (delay, mkRequest (count_ r) true (manager_ r) (msg_ r) (tstamp_ r) (cls r) (prepare r) (delays r))
  | Retransmit =>
  let delay := DELAY_UNIT * Z.min (Z.shiftl 1 (count_ r)) DELAY_MAX_FACTOR in
  let count := count_ r + 1 in
  (delay, mkRequest count (if count =? MAX_SENDS then true else timeout_ r) (manager_ r) (msg_ r) (tstamp_ r) (cls r) (prepare r) (delays r))
  end.

Definition Construct (r : Request) : Request :=
  if type r =? 0 then set_msg (prepare r (msg_ r)) r else r.

Section Ops.
Context `{HM : Machine} `{HR : Helpers.RandomGenerator}.

(** The constructors: the transaction id is a random string. *)
Definition new_request (msg : Stun.StunMessage) (cls : Stun.message_class) (prepare : Stun.StunMessage -> Stun.StunMessage)
    (delays : Delays) (g : Helpers.rng) : Request * Helpers.rng :=
  let '(str, g) := Helpers.CreateRandomString Stun.kStunTransactionIdLength g in
  let str := match str with Some s => s | None => [] end in
  (mkRequest 0 false false (Stun.SetTransactionID str msg).2 0 cls prepare delays, g).

(** The destructor, with StunRequestManager::Remove. *)
Definition Remove (h : Z) (r : Request) (s : t) : t :=
  match requests_ s !! id r with
  | Some _ => mk (heap s) (delete (id r) (requests_ s)) (MessageQueue.Clear h MessageQueue.MQID_ANY (thread_ s)).2
  | None => s
  end.
Definition destroy (h : Z) (s : t) : option t :=
  let? r := heap s !! h in
  let s := if manager_ r
           then let s := Remove h r s in set_thread (MessageQueue.Clear h MessageQueue.MQID_ANY (thread_ s)).2 s
           else s in
  Some (mk (delete h (heap s)) (requests_ s) (thread_ s)).

(** The assertions on the manager and on the id are obligations. *)
Definition SendDelayed (now : Z) (h delay : Z) (s : t) : option t :=
  let? r := heap s !! h in
  require! negb (manager_ r) in
  let r := set_manager r in
  require! bool_decide (requests_ s !! id r = None) in
  let r := Construct r in
  Some (mk (<[h := r]> (heap s)) (<[id r := h]> (requests_ s))
          (MessageQueue.PostDelayed now delay h MSG_STUN_SEND 0 (thread_ s))).
Definition Send (now : Z) (h : Z) (s : t) : option t := SendDelayed now h 0 s.

Fixpoint destroy_all (hs : list Z) (s : t) : option t :=
  match hs with
  | [] => Some s
  | h :: hs => let? s := destroy h s in destroy_all hs s
  end.
Definition Clear (s : t) : option t := destroy_all (map snd (map_to_list (requests_ s))) s.

(** The manager's destructor takes each entry out before it deletes the
    request.  (The order of the map is not that of the source; nothing here
    depends on it.) *)
Fixpoint destroy_entries (l : list (bytes * Z)) (s : t) : option t :=
  match l with
  | [] => Some s
  | (i, h) :: l =>
      let? s := destroy h (mk (heap s) (delete i (requests_ s)) (thread_ s)) in
      destroy_entries l s
  end.
Definition destroy_manager (s : t) : option t := destroy_entries (map_to_list (requests_ s)) s.

(** StunRequest::OnMessage *)
Definition OnMessage (now : Z) (h : Z) (s : t) : option (list event * t) :=
  let? r := heap s !! h in
  require! manager_ r in
  if timeout_ r then let? s := destroy h s in Some ([OnTimeout h], s)
  else
    let r := set_tstamp now r in
    let '(_, buf) := Stun.Write (msg_ r) (ByteBuffer.new_empty ByteBuffer.ORDER_NETWORK) in
    let '(delay, r) := GetNextDelay r in
    Some ([SendPacket h (ByteBuffer.contents buf)],
          mk (<[h := r]> (heap s)) (requests_ s) (MessageQueue.PostDelayed now delay h MSG_STUN_SEND 0 (thread_ s))).

Definition CheckResponse_msg (msg : Stun.StunMessage) (s : t) : option (bool * list event * t) :=
  match requests_ s !! Stun.transaction_id_ msg with
  | None => Some (false, [], s)
  | Some h =>
      let? r := heap s !! h in
      if Stun.type_ msg =? Stun.GetStunSuccessResponseType (type r)
      then let? s := destroy h s in Some (true, [OnResponse h msg], s)
      else if Stun.type_ msg =? Stun.GetStunErrorResponseType (type r)
      then let? s := destroy h s in Some (true, [OnErrorResponse h msg], s)
      else Some (false, [], s)
  end.

Definition CheckResponse (data : bytes) (s : t) : option (bool * list event * t) :=
  if (length data <? 20)%nat then Some (false, [], s)
  else
    let id := mem_read data Stun.kStunTransactionIdOffset Stun.kStunTransactionIdLength in
    match requests_ s !! id with
    | None => Some (false, [], s)
    | Some h =>
        let? r := heap s !! h in
        let '(ok, response, _) := Stun.Read (cls r) Stun.new_message (ByteBuffer.new_from data ByteBuffer.ORDER_NETWORK) in
        if negb ok then Some (false, [], s) else CheckResponse_msg response s
    end.

(** The thread takes one message, if one is ready, and dispatches it. *)
Definition no_wait (n : nat) (now cms : Z) : MessageQueue.wakeup := MessageQueue.mkWakeup true now [].
Definition pump (now : Z) (s : t) : option (list event * t) :=
  let? (g, q) := MessageQueue.Get no_wait 1 now 0 (thread_ s) in
  let s := set_thread q s in
  match MessageQueue.message g with
  | None => Some ([], s)
  | Some m =>
      require! (MessageQueue.message_id m =? MSG_STUN_SEND) in
      OnMessage now (MessageQueue.phandler m) s
  end.
End Ops.

(** ** The queue as seen by the requests *)

Definition cnt (h : Z) (l : list MessageQueue.Message) : nat :=
  length (List.filter (fun m => MessageQueue.phandler m =? h) l).

Lemma cnt_app h l k : cnt h (l ++ k) = (cnt h l + cnt h k)%nat.
Proof. unfold cnt. by rewrite List.filter_app, length_app. Qed.
Lemma cnt_perm h l k : l ≡ₚ k -> cnt h l = cnt h k.
Proof.
  unfold cnt. induction 1 as [|x l k _ IH|x y l|l k m _ IH1 _ IH2]; cbn; [done| | |congruence].
  - destruct (_ =? h); cbn; by rewrite IH.
  - by destruct (_ =? h), (_ =? h).
Qed.
Lemma cnt_0 h l : cnt h l = 0%nat -> forall m, In m l -> MessageQueue.phandler m <> h.
Proof.
  unfold cnt. intros Hc m Hin E. apply length_zero_iff_nil in Hc.
  assert (Hf : In m (List.filter (fun m => MessageQueue.phandler m =? h) l)) by (apply filter_In; split; [done|by apply Z.eqb_eq]).
  by rewrite Hc in Hf.
Qed.

Definition quiet (q : MessageQueue.t) : Prop := MessageQueue.fStop_ q = false /\ MessageQueue.fPeekKeep_ q = false.

Lemma post_held now delay h q : quiet q ->
  MessageQueue.held (MessageQueue.PostDelayed now delay h MSG_STUN_SEND 0 q) ≡ₚ
    MessageQueue.held q ++ [MessageQueue.mkMessage h MSG_STUN_SEND 0 0] /\
  quiet (MessageQueue.PostDelayed now delay h MSG_STUN_SEND 0 q).
Proof.
  intros [Hs Hp]. split.
  - pose proof (MessageQueue.do_post_held now (MessageQueue.pPostDelayed delay h MSG_STUN_SEND 0) q) as H.
    unfold MessageQueue.added in H. by rewrite Hs in H.
  - unfold quiet, MessageQueue.PostDelayed, MessageQueue.DoDelayPost. by rewrite Hs.
Qed.

Lemma clear_held h q : quiet q -> h <> 0 ->
  MessageQueue.held (MessageQueue.Clear h MessageQueue.MQID_ANY q).2 =
    List.filter (fun m => negb (MessageQueue.phandler m =? h)) (MessageQueue.held q) /\
  quiet (MessageQueue.Clear h MessageQueue.MQID_ANY q).2.
Proof.
  intros [Hs Hp] Hh. unfold MessageQueue.Clear, MessageQueue.held, quiet. cbn. rewrite Hp. cbn. split; [|done].
  assert (Hm : forall m, MessageQueue.Match h MessageQueue.MQID_ANY m = (MessageQueue.phandler m =? h)).
  { intros m. unfold MessageQueue.Match. rewrite (proj2 (Z.eqb_neq h 0) Hh), Z.eqb_refl, Z.eqb_sym. cbn. by rewrite andb_true_r. }
  rewrite List.filter_app. f_equal; [apply filter_ext; intros m; by rewrite Hm|].
  induction (MessageQueue.dmsgq_ q) as [|d l IH]; [done|]. cbn. rewrite Hm. destruct (_ =? h); cbn; by rewrite IH.
Qed.

Lemma get_held now q g q' : quiet q -> MessageQueue.Get no_wait 1 now 0 q = Some (g, q') ->
  Forall (fun m => MessageQueue.message_id m = MSG_STUN_SEND) (MessageQueue.held q) ->
  MessageQueue.held q ≡ₚ option_list (MessageQueue.message g) ++ MessageQueue.held q' /\ quiet q'.
Proof.
  intros [Hs Hp] E Hall. pose proof (MessageQueue.Get_balanced _ _ _ _ _ _ _ E) as [[Hb Hd] Hp'].
  unfold MessageQueue.Get in E. rewrite Hp in E. cbn [MessageQueue.get_loop] in E.
  destruct (MessageQueue.take_due now (MessageQueue.dmsgq_ q)) as [[due next] rest].
  destruct (MessageQueue.pull (MessageQueue.msgq_ q ++ due)) as [[r deleted] l]. cbn [MessageQueue.set_queues MessageQueue.fStop_] in E.
  rewrite Hs in E.
  assert (Hposted : MessageQueue.posted g = [] /\ MessageQueue.fStop_ q' = false).
  { destruct r; [by injection E as <- <-|]. cbn in E. replace (TimeDiff now now) with 0 in E; [by injection E as <- <-|].
    unfold TimeDiff. by rewrite Z.sub_diag. }
  destruct Hposted as [Hpo Hs']. rewrite Hpo, app_nil_r in Hb. split; [|by split].
  assert (Hnil : MessageQueue.disposed g = []).
  { destruct (MessageQueue.disposed g) as [|m l']; [done|]. exfalso. apply Forall_cons in Hd as [Hd _].
    rewrite Hb in Hall. apply Forall_app in Hall as [_ Hall]. cbn in Hall. apply Forall_cons in Hall as [Hm _]. by rewrite Hm in Hd. }
  by rewrite Hnil in Hb.
Qed.

Lemma get_total now q : exists g q', MessageQueue.Get no_wait 1 now 0 q = Some (g, q').
Proof.
  unfold MessageQueue.Get. destruct (MessageQueue.fPeekKeep_ q); [by do 2 eexists|]. cbn [MessageQueue.get_loop].
  destruct (MessageQueue.take_due _ _) as [[due next] rest]. destruct (MessageQueue.pull _) as [[r deleted] l].
  destruct r; [by do 2 eexists|]. destruct (MessageQueue.fStop_ _); [by do 2 eexists|]. cbn.
  replace (TimeDiff now now) with 0; [by do 2 eexists|]. unfold TimeDiff. by rewrite Z.sub_diag.
Qed.

(** ** The invariant *)

(** The times a request was sent. *)
Definition sent_count (r : Request) : Z :=
  match delays r with Retransmit => count_ r | Once _ => if timeout_ r then 1 else 0 end.

(** Every request that was sent is in the map under its id and has exactly one
    message in the queue (but the one being dispatched), and every message in
    the queue is for such a request. *)
Record inv_but (x : option Z) (s : t) : Prop := {
  inv_map : forall i h, requests_ s !! i = Some h <-> exists r, heap s !! h = Some r /\ manager_ r = true /\ id r = i;
  inv_null : heap s !! 0 = None;
  inv_held : Forall (fun m => MessageQueue.message_id m = MSG_STUN_SEND /\
    exists r, heap s !! MessageQueue.phandler m = Some r /\ manager_ r = true) (MessageQueue.held (thread_ s));
  inv_one : forall h r, heap s !! h = Some r -> manager_ r = true ->
    cnt h (MessageQueue.held (thread_ s)) = if decide (x = Some h) then 0%nat else 1%nat;
  inv_count : forall h r, heap s !! h = Some r -> 0 <= sent_count r <= MAX_SENDS /\ (delays r = Retransmit -> timeout_ r = (count_ r =? MAX_SENDS));
  inv_quiet : quiet (thread_ s);
}.
Abbreviation inv := (inv_but None).

Lemma inv_new : inv new.
Proof.
  split; cbn.
  - intros i h. rewrite lookup_empty. split; [done|]. intros (r & H & _). by rewrite lookup_empty in H.
  - apply lookup_empty.
  - apply List.Forall_nil.
  - intros h r H. by rewrite lookup_empty in H.
  - intros h r H. by rewrite lookup_empty in H.
  - done.
Qed.

Lemma filter_held (s : t) h l x : inv_but x s -> l = List.filter (fun m => negb (MessageQueue.phandler m =? h)) (MessageQueue.held (thread_ s)) ->
  Forall (fun m => MessageQueue.message_id m = MSG_STUN_SEND /\
    exists r, delete h (heap s) !! MessageQueue.phandler m = Some r /\ manager_ r = true) l /\
  forall h', h' <> h -> cnt h' l = cnt h' (MessageQueue.held (thread_ s)).
Proof.
  intros Hi ->. split.
  - apply List.Forall_forall. intros m [Hin Hn]%filter_In. pose proof (inv_held _ _ Hi) as Hh.
    eapply List.Forall_forall in Hh as (Hid & r & Hr & Hmg); [|exact Hin]. split; [done|]. exists r. split; [|done].
    rewrite lookup_delete_ne; [done|]. intros ->. by rewrite Z.eqb_refl in Hn.
  - intros h' Hne. unfold cnt. f_equal. induction (MessageQueue.held (thread_ s)) as [|m l IH]; [done|]. cbn.
    destruct (Z.eqb_spec (MessageQueue.phandler m) h) as [E|E]; cbn; rewrite IH; [|done].
    by rewrite E, (proj2 (Z.eqb_neq h h')) by congruence.
Qed.

(** Deleting a request leaves no pointer to it. *)
Lemma destroy_inv x s h r : inv_but x s -> heap s !! h = Some r ->
  exists s', destroy h s = Some s' /\ inv_but (if decide (x = Some h) then None else x) s' /\ heap s' = delete h (heap s) /\
    (forall i, requests_ s' !! i = if decide (manager_ r = true /\ id r = i) then None else requests_ s !! i).
Proof.
  intros Hi Hr. unfold destroy. rewrite Hr. pose proof (inv_quiet _ _ Hi) as Hq.
  assert (Hh : h <> 0) by (intros ->; by rewrite (inv_null _ _ Hi) in Hr).
  destruct (manager_ r) eqn:Hm.
  - assert (Hreq : requests_ s !! id r = Some h) by (apply (inv_map _ _ Hi); by exists r).
    unfold Remove, set_thread. rewrite Hreq. cbn [thread_ heap requests_].
    destruct (clear_held h (thread_ s) Hq Hh) as [Hc1 Hq1].
    destruct (clear_held h _ Hq1 Hh) as [Hc2 Hq2]. set (q2 := (MessageQueue.Clear h _ (MessageQueue.Clear h _ _).2).2) in *.
    assert (Hheld : MessageQueue.held q2 = List.filter (fun m => negb (MessageQueue.phandler m =? h)) (MessageQueue.held (thread_ s))).
    { rewrite Hc2, Hc1. clear. induction (MessageQueue.held (thread_ s)) as [|m l IH]; [done|]. cbn.
      destruct (negb _) eqn:E; cbn; rewrite ?E, IH; done. }
    destruct (filter_held s h _ x Hi Hheld) as [Hf Hcnt]. eexists. split; [reflexivity|]. cbn [heap requests_ thread_]. split; [|split].
    + split; cbn [heap requests_ thread_]; [| |done| | |done].
      * intros i h'. rewrite lookup_delete_Some, (inv_map _ _ Hi). split.
        -- intros (Hne & r' & Hr' & Hm' & Hid). exists r'. rewrite lookup_delete_ne; [done|]. intros <-. congruence.
        -- intros (r' & [Hne Hr']%lookup_delete_Some & Hm' & Hid). split; [|by exists r'].
           intros E. assert (requests_ s !! i = Some h') as E' by (apply (inv_map _ _ Hi); by exists r'). rewrite <- E in E'. congruence.
      * apply lookup_delete_None. right. apply (inv_null _ _ Hi).
      * intros h' r' [Hne Hr']%lookup_delete_Some Hm'. rewrite Hcnt by done. rewrite (inv_one _ _ Hi h' r' Hr' Hm').
        destruct (decide (x = Some h)) as [->|Hx]; [|done]. destruct (decide (Some h = Some h')); [congruence|]. by destruct (decide (None = Some h')).
      * intros h' r' [_ Hr']%lookup_delete_Some. by apply (inv_count _ _ Hi h').
    + done.
    + intros i. destruct (decide _) as [[_ <-]|Hn]; [by rewrite lookup_delete_eq|]. rewrite lookup_delete_ne; [done|tauto].
  - assert (Hc0 : cnt h (MessageQueue.held (thread_ s)) = 0%nat).
    { unfold cnt. destruct (List.filter _ _) as [|m l] eqn:E; [done|]. exfalso.
      assert (Hin : In m (m :: l)) by by left. rewrite <- E in Hin. apply filter_In in Hin as [Hin Hmh%Z.eqb_eq].
      pose proof (inv_held _ _ Hi) as Hall. eapply List.Forall_forall in Hall as (_ & r' & Hr' & Hm'); [|exact Hin].
      rewrite Hmh in Hr'. congruence. }
    assert (Hheld : MessageQueue.held (thread_ s) = List.filter (fun m => negb (MessageQueue.phandler m =? h)) (MessageQueue.held (thread_ s))).
    { pose proof (cnt_0 h _ Hc0) as Hn. clear -Hn. induction (MessageQueue.held (thread_ s)) as [|m l IH]; [done|]. cbn.
      rewrite (proj2 (Z.eqb_neq _ _)) by (apply Hn; by left). cbn. rewrite <- IH; [done|]. intros m' Hm'. apply Hn. by right. }
    destruct (filter_held s h _ x Hi Hheld) as [Hf Hcnt]. eexists. split; [reflexivity|]. cbn [heap requests_ thread_]. split; [|split].
    + split; cbn [heap requests_ thread_]; [| |done| | |done].
      * intros i h'. rewrite (inv_map _ _ Hi). split; intros (r' & Hr' & Hm' & Hid); exists r'.
        -- rewrite lookup_delete_ne; [done|]. intros <-. congruence.
        -- by apply lookup_delete_Some in Hr' as [_ Hr'].
      * apply lookup_delete_None. right. apply (inv_null _ _ Hi).
      * intros h' r' [Hne Hr']%lookup_delete_Some Hm'. rewrite (inv_one _ _ Hi h' r' Hr' Hm').
        destruct (decide (x = Some h)) as [->|Hx]; [|done]. destruct (decide (Some h = Some h')); [congruence|]. by destruct (decide (None = Some h')).
      * intros h' r' [_ Hr']%lookup_delete_Some. by apply (inv_count _ _ Hi h').
    + done.
    + intros i. by destruct (decide _) as [[? _]|_].
Qed.

Lemma new_request_inv s h r : inv s -> heap s !! h = None -> h <> 0 -> manager_ r = false -> count_ r = 0 -> timeout_ r = false ->
  inv (set_request h r s).
Proof.
  intros Hi Hn Hh Hm Hc Ht. split; cbn.
  - intros i h'. rewrite (inv_map _ _ Hi). split; intros (r' & Hr' & Hm' & Hid); exists r'.
    + rewrite lookup_insert_ne; [done|]. intros <-. congruence.
    + apply lookup_insert_Some in Hr' as [[<- <-]|[_ Hr']]; [congruence|done].
  - rewrite lookup_insert_ne by done. apply (inv_null _ _ Hi).
  - eapply List.Forall_impl; [|apply (inv_held _ _ Hi)]. intros m (Hid & r' & Hr' & Hm'). split; [done|]. exists r'.
    rewrite lookup_insert_ne; [done|]. intros E. rewrite <- E in Hr'. congruence.
  - intros h' r' [[<- <-]|[Hne Hr']]%lookup_insert_Some Hm'; [congruence|]. by apply (inv_one _ _ Hi h' r').
  - intros h' r' [[<- <-]|[Hne Hr']]%lookup_insert_Some; [|by apply (inv_count _ _ Hi h')]. unfold sent_count. rewrite Hc, Ht. by destruct (delays r).
  - apply (inv_quiet _ _ Hi).
Qed.

(** Scheduling the next message of a request. *)
Lemma post_inv x now delay s h r r' : inv_but x s -> heap s !! h = Some r -> (manager_ r = true -> x = Some h /\ id r = id r') ->
  (x = None \/ x = Some h) -> manager_ r' = true -> (requests_ s !! id r' = None \/ requests_ s !! id r' = Some h) ->
  0 <= sent_count r' <= MAX_SENDS /\ (delays r' = Retransmit -> timeout_ r' = (count_ r' =? MAX_SENDS)) ->
  inv (mk (<[h := r']> (heap s)) (<[id r' := h]> (requests_ s)) (MessageQueue.PostDelayed now delay h MSG_STUN_SEND 0 (thread_ s))).
Proof.
  intros Hi Hr Hmr Hx Hm' Hreq Hc. destruct (post_held now delay h (thread_ s) (inv_quiet _ _ Hi)) as [Hheld Hq].
  assert (Hh : h <> 0) by (intros ->; by rewrite (inv_null _ _ Hi) in Hr).
  assert (Hcnt : cnt h (MessageQueue.held (thread_ s)) = 0%nat).
  { destruct (manager_ r) eqn:Hm.
    - destruct (Hmr eq_refl) as [-> _]. rewrite (inv_one _ _ Hi h r Hr Hm). by destruct (decide _).
    - unfold cnt. destruct (List.filter _ _) as [|m l] eqn:E; [done|]. exfalso.
      assert (Hin : In m (m :: l)) by by left. rewrite <- E in Hin. apply filter_In in Hin as [Hin Hmh%Z.eqb_eq].
      pose proof (inv_held _ _ Hi) as Hall. eapply List.Forall_forall in Hall as (_ & r1 & Hr1 & Hm1); [|exact Hin].
      rewrite Hmh in Hr1. congruence. }
  split; cbn [heap requests_ thread_].
  - intros i h'. rewrite lookup_insert_Some. split.
    + intros [[<- <-]|[Hne Hi']].
      * exists r'. by rewrite lookup_insert_eq.
      * apply (inv_map _ _ Hi) in Hi' as (r1 & Hr1 & Hm1 & Hid). exists r1. rewrite lookup_insert_ne; [done|].
        intros <-. assert (r1 = r) by congruence. subst r1. destruct (Hmr Hm1) as [_ ?]. congruence.
    + intros (r1 & [[<- <-]|[Hne Hr1]]%lookup_insert_Some & Hm1 & Hid); [by left|]. right.
      assert (E : requests_ s !! i = Some h') by (apply (inv_map _ _ Hi); by exists r1). split; [|done].
      intros E'. rewrite E' in Hreq. destruct Hreq; congruence.
  - rewrite lookup_insert_ne by done. apply (inv_null _ _ Hi).
  - rewrite Hheld. apply Forall_app_2.
    + eapply List.Forall_impl; [|apply (inv_held _ _ Hi)]. intros m (Hid & r1 & Hr1 & Hm1). split; [done|].
      destruct (decide (MessageQueue.phandler m = h)) as [->|Hne]; [exists r'; by rewrite lookup_insert_eq|].
      exists r1. by rewrite lookup_insert_ne by congruence.
    + apply List.Forall_cons; [|apply List.Forall_nil]. cbn. split; [done|]. exists r'. by rewrite lookup_insert_eq.
  - intros h' r1 Hr1 Hm1. rewrite (cnt_perm _ _ _ Hheld), cnt_app. destruct (decide (None = Some h')); [done|].
    apply lookup_insert_Some in Hr1 as [[<- <-]|[Hne Hr1]].
    + rewrite Hcnt. unfold cnt. cbn. by rewrite Z.eqb_refl.
    + rewrite (inv_one _ _ Hi h' r1 Hr1 Hm1). unfold cnt. cbn. rewrite (proj2 (Z.eqb_neq h h') Hne). cbn.
      destruct (decide (x = Some h')); [destruct Hx; congruence|done].
  - intros h' r1 [[<- <-]|[Hne Hr1]]%lookup_insert_Some; [done|]. by apply (inv_count _ _ Hi h').
  - done.
Qed.

Section Steps.
Context `{HM : Machine} `{HR : Helpers.RandomGenerator}.

Definition keeps_id (prepare : Stun.StunMessage -> Stun.StunMessage) : Prop :=
  forall m, Stun.transaction_id_ (prepare m) = Stun.transaction_id_ m.

Lemma Construct_keeps r : keeps_id (prepare r) -> id (Construct r) = id r /\ manager_ (Construct r) = manager_ r /\
  count_ (Construct r) = count_ r /\ timeout_ (Construct r) = timeout_ r /\ delays (Construct r) = delays r.
Proof. intros Hk. unfold Construct, id. destruct (_ =? _); [|done]. cbn. by rewrite Hk. Qed.

Lemma SendDelayed_inv now h delay s r : inv s -> heap s !! h = Some r -> manager_ r = false -> keeps_id (prepare r) ->
  requests_ s !! id r = None -> exists s' r', SendDelayed now h delay s = Some s' /\ inv s' /\
    heap s' = <[h := r']> (heap s) /\ sent_count r' = sent_count r.
Proof.
  intros Hi Hr Hm Hk Hid. unfold SendDelayed. rewrite Hr, Hm. cbn [negb]. change (id (set_manager r)) with (id r).
  rewrite bool_decide_eq_true_2 by done. destruct (Construct_keeps (set_manager r) Hk) as (E1 & E2 & E3 & E4 & E5).
  assert (Es : sent_count (Construct (set_manager r)) = sent_count r) by (unfold sent_count; by rewrite E3, E4, E5).
  eexists _, _. split; [reflexivity|]. split; [|by split]. apply (post_inv None now delay s h r); try done; [congruence|by left| |].
  - left. by rewrite E1.
  - rewrite Es, E3, E4, E5. apply (inv_count _ _ Hi h r Hr).
Qed.

Definition count_ok (r : Request) : Prop :=
  0 <= sent_count r <= MAX_SENDS /\ (delays r = Retransmit -> timeout_ r = (count_ r =? MAX_SENDS)).

Lemma GetNextDelay_keeps now r : timeout_ r = false -> count_ok r ->
  let r' := (GetNextDelay (set_tstamp now r)).2 in
  id r' = id r /\ manager_ r' = manager_ r /\ sent_count r' = sent_count r + 1 /\ count_ok r'.
Proof.
  intros Ht Hok. destruct r as [c t m msg ts cl pr [|d]]; unfold GetNextDelay, count_ok, sent_count in *; cbn in *; subst t.
  - destruct Hok as [Hc Hd]. specialize (Hd eq_refl). symmetry in Hd. apply Z.eqb_neq in Hd. unfold MAX_SENDS in *.
    split_and!; try (done || lia). intros _. by destruct (Z.eqb_spec (c + 1) 9).
  - unfold MAX_SENDS. split_and!; (done || lia).
Qed.

Lemma OnMessage_inv now h s : inv_but (Some h) s -> (exists r, heap s !! h = Some r /\ manager_ r = true) ->
  exists evs s', OnMessage now h s = Some (evs, s') /\ inv s' /\
    forall r, heap s !! h = Some r ->
      if timeout_ r then evs = [OnTimeout h] /\ heap s' = delete h (heap s)
      else exists data r', evs = [SendPacket h data] /\ heap s' = <[h := r']> (heap s) /\ sent_count r' = sent_count r + 1.
Proof.
  intros Hi (r & Hr & Hm). unfold OnMessage. rewrite Hr, Hm. destruct (timeout_ r) eqn:Et.
  - destruct (destroy_inv _ s h r Hi Hr) as (s' & -> & Hi' & Hheap & _). rewrite decide_True in Hi' by done.
    do 2 eexists. split; [reflexivity|]. split; [done|]. intros r1 [= <-]. by rewrite Et.
  - destruct (Stun.Write _ _) as [ok buf].
    destruct (GetNextDelay_keeps now r Et (inv_count _ _ Hi h r Hr)) as (E1 & E2 & E3 & E4).
    destruct (GetNextDelay (set_tstamp now r)) as [delay r'] eqn:Eg. cbn [snd] in E1, E2, E3, E4.
    do 2 eexists. split; [reflexivity|]. split.
    + assert (E : requests_ s !! id r' = Some h) by (rewrite E1; apply (inv_map _ _ Hi); by exists r).
      pose proof (post_inv (Some h) now delay s h r r') as Hp. rewrite (insert_id (requests_ s)) in Hp by exact E.
      apply Hp; try done; [by right|congruence|by right].
    + intros r1 [= <-]. rewrite Et. by do 2 eexists.
Qed.

Lemma pump_inv now s : inv s -> exists evs s', pump now s = Some (evs, s') /\ inv s' /\
  (evs = [] /\ heap s' = heap s \/
   exists h r, heap s !! h = Some r /\
     if timeout_ r then evs = [OnTimeout h] /\ heap s' = delete h (heap s)
     else exists data r', evs = [SendPacket h data] /\ heap s' = <[h := r']> (heap s) /\ sent_count r' = sent_count r + 1).
Proof.
  intros Hi. unfold pump. destruct (get_total now (thread_ s)) as (g & q & E). rewrite E.
  destruct (get_held now (thread_ s) g q (inv_quiet _ _ Hi) E) as [Hheld Hq].
  { eapply List.Forall_impl; [|apply (inv_held _ _ Hi)]. by intros m [? _]. }
  pose proof (inv_held _ _ Hi) as Hall. rewrite Hheld in Hall. apply Forall_app in Hall as [Hm Hrest].
  assert (Hbut : forall x, (forall h r, heap s !! h = Some r -> manager_ r = true ->
            cnt h (MessageQueue.held q) = if decide (x = Some h) then 0%nat else 1%nat) -> inv_but x (set_thread q s)).
  { intros x Hx. destruct Hi. by split. }
  destruct (MessageQueue.message g) as [m|].
  - cbn [option_list] in Hm, Hheld. change (option_list (Some m)) with [m] in *. apply Forall_cons in Hm as [(Hid & r & Hr & Hmr) _].
    rewrite (proj2 (Z.eqb_eq _ _) Hid). destruct (OnMessage_inv now (MessageQueue.phandler m) (set_thread q s)) as (evs & s' & Es & Hi' & Hev).
    + apply Hbut. intros h r' Hr' Hmr'. pose proof (inv_one _ _ Hi h r' Hr' Hmr') as Hone.
      rewrite (cnt_perm _ _ _ Hheld), cnt_app in Hone. destruct (decide (None = Some h)); [done|]. unfold cnt in Hone at 1. cbn in Hone.
      destruct (Z.eqb_spec (MessageQueue.phandler m) h) as [->|Hne]; cbn in Hone.
      * destruct (decide (Some h = Some h)); [lia|done].
      * destruct (decide (Some _ = Some h)); [congruence|lia].
    + by exists r.
    + exists evs, s'. split; [done|]. split; [done|]. right. exists (MessageQueue.phandler m), r. split; [done|]. by apply Hev.
  - change (option_list None) with (@nil MessageQueue.Message) in *. eexists _, _. split; [reflexivity|]. split; [|by left]. apply Hbut. intros h r Hr Hmr.
    rewrite <- (cnt_perm _ _ _ Hheld). apply (inv_one _ _ Hi h r Hr Hmr).
Qed.
End Steps.

(** ** Any use of the manager *)

Inductive op :=
  | New (h : Z) (msg : Stun.StunMessage) (cls : Stun.message_class) (prepare : Stun.StunMessage -> Stun.StunMessage) (delays : Delays)
  | SendIt (h delay : Z)
  | Check (data : bytes)
  | Delete (h : Z)
  | ClearAll
  | Pump.

Section Runs.
Context `{HM : Machine} `{HR : Helpers.RandomGenerator}.

(** The state has the generator too. *)
Definition exec (now : Z) (o : op) (st : t * Helpers.rng) : option (list event * (t * Helpers.rng)) :=
  let '(s, g) := st in
  match o with
  | New h msg cls prepare delays =>
      let '(r, g) := new_request msg cls prepare delays g in Some ([], (set_request h r s, g))
  | SendIt h delay => let? s := SendDelayed now h delay s in Some ([], (s, g))
  | Check data => let? (_, evs, s) := CheckResponse data s in Some (evs, (s, g))
  | Delete h => let? s := destroy h s in Some ([], (s, g))
  | ClearAll => let? s := Clear s in Some ([], (s, g))
  | Pump => let? (evs, s) := pump now s in Some (evs, (s, g))
  end.

Fixpoint run (os : list (Z * op)) (st : t * Helpers.rng) : option (list event * (t * Helpers.rng)) :=
  match os with
  | [] => Some ([], st)
  | (now, o) :: os =>
      let? (evs, st) := exec now o st in
      let? (evs', st) := run os st in
      Some (evs ++ evs', st)
  end.

(** What the caller sees to: a new object has a new pointer; a request is
    sent once, under an id that is not in use and that its Prepare keeps; only
    requests that were sent are deleted. *)
Definition allowed (o : op) (used : list Z) (s : t) : Prop :=
  match o with
  | New h _ _ prepare _ => h <> 0 /\ (h ∉ used) /\ keeps_id prepare
  | SendIt h _ => exists r, heap s !! h = Some r /\ manager_ r = false /\ keeps_id (prepare r) /\ requests_ s !! id r = None
  | Delete h => exists r, heap s !! h = Some r /\ manager_ r = true
  | _ => True
  end.
Definition uses (o : op) : list Z := match o with New h _ _ _ _ => [h] | _ => [] end.
Fixpoint guarded (os : list (Z * op)) (used : list Z) (st : t * Helpers.rng) : Prop :=
  match os with
  | [] => True
  | (now, o) :: os =>
      allowed o used st.1 /\
      match exec now o st with Some (_, st) => guarded os (uses o ++ used) st | None => True end
  end.

(** The packets sent for a request, and the times it ended. *)
Definition sent_for (h : Z) (e : event) : bool := match e with SendPacket h' _ => h' =? h | _ => false end.
Definition ended_for (h : Z) (e : event) : bool :=
  match e with OnResponse h' _ | OnErrorResponse h' _ | OnTimeout h' => h' =? h | SendPacket _ _ => false end.
Definition sends (h : Z) (evs : list event) : Z := Z.of_nat (length (List.filter (sent_for h) evs)).
Definition ends (h : Z) (evs : list event) : Z := Z.of_nat (length (List.filter (ended_for h) evs)).

Record history (used : list Z) (evs : list event) (s : t) : Prop := {
  hist_live : forall h r, heap s !! h = Some r -> h ∈ used /\ ends h evs = 0 /\ sends h evs = sent_count r;
  hist_dead : forall h, heap s !! h = None -> ends h evs <= 1 /\ sends h evs <= MAX_SENDS /\ (h ∉ used -> ends h evs = 0 /\ sends h evs = 0);
}.

Lemma sends_app h l k : sends h (l ++ k) = sends h l + sends h k.
Proof. unfold sends. rewrite List.filter_app, length_app. lia. Qed.
Lemma ends_app h l k : ends h (l ++ k) = ends h l + ends h k.
Proof. unfold ends. rewrite List.filter_app, length_app. lia. Qed.

(** A step that deletes requests, with at most one event, of one of them. *)
Lemma history_delete used evs s s' e : history used evs s ->
  (forall h r, heap s !! h = Some r -> 0 <= sent_count r <= MAX_SENDS) ->
  (forall h, heap s' !! h = heap s !! h \/ heap s' !! h = None) ->
  match e with [] => True | [e] => exists h, ended_for h e = true /\ is_Some (heap s !! h) /\ heap s' !! h = None | _ => False end ->
  history used (evs ++ e) s'.
Proof.
  intros [Hl Hd] Hc Hh He.
  assert (Hs : forall h, sends h e = 0).
  { intros h. destruct e as [|e [|? ?]]; [done| |done]. destruct He as (h' & He & _). unfold sends. by destruct e. }
  assert (Hb : forall h, ends h e = 0 \/ ends h e = 1 /\ is_Some (heap s !! h) /\ heap s' !! h = None).
  { intros h. destruct e as [|e [|? ?]]; [by left| |done]. destruct He as (h' & He & Hs' & Hn). unfold ends. cbn.
    destruct (ended_for h e) eqn:E; [right|by left]. split; [done|].
    assert (h = h') as ->; [|done]. destruct e; cbn in *; bool_simpl; congruence. }
  split; intros h.
  - intros r Hr. destruct (Hh h) as [E|E]; [|congruence]. rewrite E in Hr. destruct (Hl h r Hr) as (H1 & H2 & H3).
    rewrite ends_app, sends_app, Hs. destruct (Hb h) as [->|(_ & _ & Hn)]; [split_and!; [done|lia..]|congruence].
  - intros Hn. rewrite ends_app, sends_app, Hs. destruct (heap s !! h) as [r|] eqn:Hr.
    + destruct (Hl h r Hr) as (H1 & H2 & H3). pose proof (Hc h r Hr). split; [destruct (Hb h) as [->|(-> & _)]; lia|]. split; [lia|].
      intros Hu. by destruct Hu.
    + destruct (Hd h Hr) as (H1 & H2 & H3). destruct (Hb h) as [->|(_ & [? ?] & _)]; [|congruence]. rewrite !Z.add_0_r. by split_and!.
Qed.

Lemma destroy_all_inv hs : forall s, inv s -> NoDup hs -> (forall h, h ∈ hs -> is_Some (heap s !! h)) ->
  exists s', destroy_all hs s = Some s' /\ inv s' /\ forall h, heap s' !! h = if decide (h ∈ hs) then None else heap s !! h.
Proof.
  induction hs as [|h hs IH]; intros s Hi Hnd Hin; cbn [destroy_all]; [by exists s|].
  destruct (Hin h ltac:(by left)) as [r Hr]. destruct (destroy_inv None s h r Hi Hr) as (s1 & -> & Hi1 & Hheap & _).
  rewrite decide_False in Hi1 by done. apply NoDup_cons in Hnd as [Hh Hnd].
  destruct (IH s1 Hi1 Hnd) as (s' & -> & Hi' & Hheap').
  - intros h' Hh'. rewrite Hheap, lookup_delete_ne by (intros <-; done). apply Hin. by right.
  - exists s'. split; [done|]. split; [done|]. intros h'. rewrite Hheap', Hheap.
    destruct (decide (h' ∈ hs)); [by rewrite decide_True by by right|]. destruct (decide (h' = h)) as [->|Hne].
    + rewrite lookup_delete_eq. destruct (decide _) as [|Hn]; [done|]. destruct Hn. by left.
    + rewrite lookup_delete_ne by congruence. rewrite decide_False; [done|]. by intros [?|?]%elem_of_cons.
Qed.

Lemma Clear_inv s : inv s -> exists s', Clear s = Some s' /\ inv s' /\
  forall h, heap s' !! h = heap s !! h \/ heap s' !! h = None.
Proof.
  intros Hi. unfold Clear. destruct (destroy_all_inv (map snd (map_to_list (requests_ s))) s Hi) as (s' & E & Hi' & Hh).
  - apply NoDup_fmap_2_strong; [|apply NoDup_map_to_list]. intros [i h] [i' h'] H1 H2 [= <-].
    apply elem_of_map_to_list in H1, H2. apply (inv_map _ _ Hi) in H1 as (r & Hr & _ & Hid), H2 as (r' & Hr' & _ & Hid'). congruence.
  - intros h Hin. apply list_elem_of_fmap in Hin as ([i h'] & -> & Hin). apply elem_of_map_to_list in Hin.
    apply (inv_map _ _ Hi) in Hin as (r & Hr & _). by exists r.
  - exists s'. split; [done|]. split; [done|]. intros h. rewrite Hh. destruct (decide _); [by right|by left].
Qed.

Lemma CheckResponse_msg_inv msg s : inv s -> exists ok evs s', CheckResponse_msg msg s = Some (ok, evs, s') /\ inv s' /\
  (ok = false /\ evs = [] /\ s' = s \/
   exists h, requests_ s !! Stun.transaction_id_ msg = Some h /\ ok = true /\ (evs = [OnResponse h msg] \/ evs = [OnErrorResponse h msg]) /\
     heap s' = delete h (heap s) /\ requests_ s' !! Stun.transaction_id_ msg = None).
Proof.
  intros Hi. unfold CheckResponse_msg. destruct (requests_ s !! Stun.transaction_id_ msg) as [h|] eqn:E;
    [|exists false, [], s; split; [done|]; split; [done|by left]].
  pose proof (proj1 (inv_map _ _ Hi _ _) E) as (r & Hr & Hm & Hid). rewrite Hr.
  destruct (destroy_inv None s h r Hi Hr) as (s1 & E1 & Hi1 & Hheap & Hreq). rewrite decide_False in Hi1 by done. rewrite E1.
  assert (Hn : requests_ s1 !! Stun.transaction_id_ msg = None) by (rewrite Hreq, decide_True by done; done).
  destruct (_ =? _); [|destruct (_ =? _)].
  - exists true, [OnResponse h msg], s1. split; [done|]. split; [done|]. right. exists h. split_and!; try done. by left.
  - exists true, [OnErrorResponse h msg], s1. split; [done|]. split; [done|]. right. exists h. split_and!; try done. by right.
  - exists false, [], s. split; [done|]. split; [done|by left].
Qed.

Lemma CheckResponse_inv data s : inv s -> exists ok evs s', CheckResponse data s = Some (ok, evs, s') /\ inv s' /\
  (evs = [] /\ s' = s \/
   exists h msg, is_Some (heap s !! h) /\ (evs = [OnResponse h msg] \/ evs = [OnErrorResponse h msg]) /\ heap s' = delete h (heap s)).
Proof.
  intros Hi. unfold CheckResponse. destruct (_ <? _)%nat; [exists false, [], s; split; [done|]; split; [done|by left]|].
  destruct (requests_ s !! _) as [h|] eqn:E; [|exists false, [], s; split; [done|]; split; [done|by left]].
  pose proof (proj1 (inv_map _ _ Hi _ _) E) as (r & Hr & _). rewrite Hr. destruct (Stun.Read _ _ _) as [[ok response] buf].
  destruct ok; cbn [negb]; [|exists false, [], s; split; [done|]; split; [done|by left]].
  destruct (CheckResponse_msg_inv response s Hi) as (ok & evs & s' & -> & Hi' & Hev). exists ok, evs, s'. split; [done|]. split; [done|].
  destruct Hev as [(_ & -> & ->)|(h' & Hreq & _ & Hev & Hheap & _)]; [by left|right]. exists h', response. split; [|done].
  apply (inv_map _ _ Hi) in Hreq as (r' & Hr' & _). by exists r'.
Qed.

Lemma history_update used evs s s' h r r' e : history used evs s -> heap s !! h = Some r -> heap s' = <[h := r']> (heap s) ->
  (e = [] /\ sent_count r' = sent_count r \/ exists data, e = [SendPacket h data] /\ sent_count r' = sent_count r + 1) -> history used (evs ++ e) s'.
Proof.
  intros [Hl Hd] Hr Hh He.
  assert (Hends : forall h', ends h' e = 0) by (intros h'; by destruct He as [[-> _]|(data & -> & _)]).
  assert (Hsends : forall h', sends h' e = if decide (h' = h) then sent_count r' - sent_count r else 0).
  { intros h'. destruct He as [[-> ->]|(data & -> & ->)]; [unfold sends; cbn; destruct (decide _); lia|]. unfold sends. cbn.
    destruct (Z.eqb_spec h h') as [->|Hne]; [rewrite decide_True by done; cbn; lia|by rewrite decide_False by congruence]. }
  split; intros h'; rewrite Hh, ends_app, sends_app, Hends, Hsends.
  - intros r1 [[<- <-]|[Hne Hr1]]%lookup_insert_Some.
    + rewrite decide_True by done. destruct (Hl h r Hr) as (? & ? & ?). split_and!; [done|lia..].
    + rewrite decide_False by congruence. destruct (Hl h' r1 Hr1) as (? & ? & ?). split_and!; [done|lia..].
  - intros [Hn Hne]%lookup_insert_None. rewrite decide_False by congruence. rewrite !Z.add_0_r. by apply Hd.
Qed.

Lemma exec_inv now o s g used evs : inv s -> history used evs s -> allowed o used s ->
  exists e s' g', exec now o (s, g) = Some (e, (s', g')) /\ inv s' /\ history (uses o ++ used) (evs ++ e) s'.
Proof.
  intros Hi Hh Hg. assert (Hc : forall h r, heap s !! h = Some r -> 0 <= sent_count r <= MAX_SENDS) by (intros h r Hr; by apply (inv_count _ _ Hi h)).
  destruct o as [h msg cls prepare delays|h delay|data|h| |]; cbn [exec uses app allowed] in *.
  - destruct Hg as (H0 & Hu & _). unfold new_request. destruct (Helpers.CreateRandomString _ g) as [str g']. do 3 eexists.
    split; [reflexivity|]. assert (Hn : heap s !! h = None).
    { destruct (heap s !! h) as [r|] eqn:E; [|done]. by destruct (hist_live _ _ _ Hh h r E). }
    split; [by apply new_request_inv|]. rewrite app_nil_r. destruct (hist_dead _ _ _ Hh h Hn) as (_ & _ & Hz).
    split; intros h'; cbn.
    + intros r' [[<- <-]|[Hne Hr]]%lookup_insert_Some.
      * destruct (Hz Hu) as [-> ->]. split_and!; [by left|done|by destruct delays].
      * destruct (hist_live _ _ _ Hh h' r' Hr) as (? & ? & ?). split_and!; [by right|done..].
    + intros [Hn' Hne]%lookup_insert_None. destruct (hist_dead _ _ _ Hh h' Hn') as (? & ? & Hz'). split_and!; [done..|].
      intros Hu'. apply Hz'. intros ?. apply Hu'. by right.
  - destruct Hg as (r & Hr & Hm & Hk & Hid). destruct (SendDelayed_inv now h delay s r Hi Hr Hm Hk Hid) as (s' & r' & -> & Hi' & Hheap & Hcr).
    do 3 eexists. split; [reflexivity|]. split; [done|]. eapply history_update; [done|exact Hr|exact Hheap|]. by left.
  - destruct (CheckResponse_inv data s Hi) as (ok & e & s' & -> & Hi' & Hev). do 3 eexists. split; [reflexivity|]. split; [done|].
    destruct Hev as [(-> & ->)|(h & msg & Hs & He & Hheap)]; [by rewrite app_nil_r|].
    apply (history_delete used evs s); [done|done| |].
    + intros h'. rewrite Hheap. destruct (decide (h' = h)) as [->|]; [right; apply lookup_delete_eq|left; by rewrite lookup_delete_ne by congruence].
    + destruct He as [-> | ->]; exists h; cbn; (split; [by apply Z.eqb_refl|]); (split; [done|]); rewrite Hheap; apply lookup_delete_eq.
  - destruct Hg as (r & Hr & _). destruct (destroy_inv None s h r Hi Hr) as (s' & -> & Hi' & Hheap & _). rewrite decide_False in Hi' by done.
    do 3 eexists. split; [reflexivity|]. split; [done|]. apply (history_delete used evs s); [done|done| |done].
    intros h'. rewrite Hheap. destruct (decide (h' = h)) as [->|]; [right; apply lookup_delete_eq|left; by rewrite lookup_delete_ne by congruence].
  - destruct (Clear_inv s Hi) as (s' & -> & Hi' & Hheap). do 3 eexists. split; [reflexivity|]. split; [done|].
    by apply (history_delete used evs s).
  - destruct (pump_inv now s Hi) as (e & s' & -> & Hi' & Hev). do 3 eexists. split; [reflexivity|]. split; [done|].
    destruct Hev as [(-> & Hheap)|(h & r & Hr & Hev)].
    + rewrite app_nil_r. destruct Hh as [H1 H2]. split; intros h; rewrite Hheap; auto.
    + destruct (timeout_ r).
      * destruct Hev as (-> & Hheap). apply (history_delete used evs s); [done|done| |].
        -- intros h'. rewrite Hheap. destruct (decide (h' = h)) as [->|]; [right; apply lookup_delete_eq|left; by rewrite lookup_delete_ne by congruence].
        -- exists h. cbn. split; [apply Z.eqb_refl|]. split; [by exists r|]. rewrite Hheap. apply lookup_delete_eq.
      * destruct Hev as (data & r' & -> & Hheap & Hcr). eapply history_update; [done|exact Hr|exact Hheap|]. right. by exists data.
Qed.

(** C11: In any use of a manager that respects the obligations of its callers,
    with sends, responses and other packets, deletions and the messages of the
    thread in any order and at any times, no deleted request is ever used:
    deleting one leaves neither an entry in the map nor a message in the
    queue.  Every request is sent at most nine times, and ends at most once,
    by a response, an error response or a timeout, after which it is gone. *)
Theorem stun_requests_safe os g : guarded os [] (new, g) -> exists evs s g', run os (new, g) = Some (evs, (s, g')) /\
  inv s /\ forall h, sends h evs <= MAX_SENDS /\ ends h evs <= 1 /\ (0 < ends h evs -> heap s !! h = None).
Proof.
  assert (Hgen : forall os s g used evs0, inv s -> history used evs0 s -> guarded os used (s, g) ->
    exists evs s' g' used', run os (s, g) = Some (evs, (s', g')) /\ inv s' /\ history used' (evs0 ++ evs) s').
  { clear. induction os as [|[now o] os IH]; intros s g used evs0 Hi Hh Hg; cbn [run guarded] in *.
    - exists [], s, g, used. by rewrite app_nil_r.
    - destruct Hg as [Ha Hg]. destruct (exec_inv now o s g used evs0 Hi Hh Ha) as (e & s1 & g1 & E & Hi1 & Hh1). rewrite E in *.
      destruct (IH s1 g1 _ _ Hi1 Hh1 Hg) as (evs & s' & g' & used' & -> & Hi' & Hh'). exists (e ++ evs), s', g', used'.
      by rewrite app_assoc. }
  intros Hg. destruct (Hgen os new g [] [] inv_new) as (evs & s & g' & used & E & Hi & Hh); [|done|].
  { split; intros h; [intros r Hr; cbn in Hr; by rewrite lookup_empty in Hr|done]. }
  exists evs, s, g'. split; [done|]. split; [done|]. intros h. cbn [app] in Hh. destruct (heap s !! h) as [r|] eqn:Hr.
  - destruct (hist_live _ _ _ Hh h r Hr) as (_ & H1 & H2). destruct (inv_count _ _ Hi h r Hr) as [? _]. split_and!; lia.
  - destruct (hist_dead _ _ _ Hh h Hr) as (H1 & H2 & _). by split_and!.
Qed.
End Runs.

Section Exchange.
Context `{HM : Machine}.

(** ** Responses *)

Lemma header_tid m : length (Stun.transaction_id_ m) = Stun.kStunTransactionIdLength ->
  mem_read (StunWire.enc_msg m) Stun.kStunTransactionIdOffset Stun.kStunTransactionIdLength = Stun.transaction_id_ m /\
  (length (StunWire.enc_msg m) <? 20)%nat = false.
Proof.
  intros Hl. unfold StunWire.enc_msg, StunWire.header. rewrite Hl. change (Stun.kStunTransactionIdLength =? 16)%nat with false. cbn iota.
  rewrite <- !app_assoc. unfold mem_read, Stun.kStunTransactionIdOffset. rewrite !app_assoc. rewrite <- (app_assoc (_ ++ _) (Stun.transaction_id_ m)).
  rewrite drop_app_length' by by rewrite !length_app, !length_be_bytes. split.
  - by rewrite take_app_length'.
  - apply Nat.ltb_ge. rewrite !length_app, !length_be_bytes, Hl. unfold Stun.kStunTransactionIdLength. lia.
Qed.

(** Read takes the id from the bytes 8 to 20, after the magic cookie; without
    the cookie it is the id of 16 bytes of RFC 3489. *)
Lemma Read_id c data m b : bytes_ok data ->
  Stun.Read c Stun.new_message (ByteBuffer.new_from data ByteBuffer.ORDER_NETWORK) = (true, m, b) ->
  Stun.transaction_id_ m = mem_read data Stun.kStunTransactionIdOffset Stun.kStunTransactionIdLength \/
  length (Stun.transaction_id_ m) = 16%nat.
Proof.
  intros Hd. destruct (ByteBuffer.new_from_spec data ByteBuffer.ORDER_NETWORK Hd) as (W0 & C0 & _).
  unfold Stun.Read. rewrite ByteBuffer.ReadUInt16_dec by done. unfold ByteBuffer.read_enc.
  pose proof (ByteBuffer.ReadBytes_spec _ 2 W0) as H1. destruct (ByteBuffer.ReadBytes _ 2) as [[x1 b1]|]; [|done].
  destruct H1 as (_ & W1 & C1 & L1 & _). destruct (negb _); [done|].
  rewrite ByteBuffer.ReadUInt16_dec by done. unfold ByteBuffer.read_enc.
  pose proof (ByteBuffer.ReadBytes_spec _ 2 W1) as H2. destruct (ByteBuffer.ReadBytes _ 2) as [[x2 b2]|]; [|done].
  destruct H2 as (_ & W2 & C2 & L2 & _). rewrite ByteBuffer.ReadString_ReadBytes.
  pose proof (ByteBuffer.ReadBytes_spec _ Stun.kStunMagicCookieLength W2) as H3.
  destruct (ByteBuffer.ReadBytes b2 _) as [[x3 b3]|]; [|done]. destruct H3 as (_ & W3 & C3 & L3 & _).
  rewrite ByteBuffer.ReadString_ReadBytes. pose proof (ByteBuffer.ReadBytes_spec _ Stun.kStunTransactionIdLength W3) as H4.
  destruct (ByteBuffer.ReadBytes b3 _) as [[x4 b4]|]; [|done]. destruct H4 as (_ & W4 & C4 & L4 & _). cbn [app].
  set (tid := if negb (_ =? Stun.kStunMagicCookie) then _ else _). cbv zeta. destruct (negb (Stun.length_ _ =? _)); [done|]. intros Hread.
  match type of Hread with Stun.read_attrs _ ?f ?n ?x _ = _ =>
    pose proof (StunWire.read_attrs_typed c f n x b4 W4 (List.Forall_nil _)) as (_ & _ & Htid) end.
  rewrite Hread in Htid. cbn [fst snd] in Htid. rewrite Htid. cbn [Stun.transaction_id_ Stun.set_attrs Stun.set_transaction_id].
  unfold tid. destruct (negb _); [right; by rewrite length_app, L3, L4|left].
  rewrite C0 in C1. unfold mem_read, Stun.kStunTransactionIdOffset. rewrite C1, C2, C3, C4, !app_assoc.
  rewrite <- (app_assoc _ x4), drop_app_length' by (by rewrite !length_app, L1, L2, L3). by rewrite take_app_length' by done.
Qed.

(** A packet that answers the request [r] at [h] with [m]. *)
Definition responds (s : t) (data : bytes) (h : Z) (r : Request) (m : Stun.StunMessage) : Prop :=
  (20 <= length data)%nat /\ requests_ s !! mem_read data Stun.kStunTransactionIdOffset Stun.kStunTransactionIdLength = Some h /\
  heap s !! h = Some r /\
  (Stun.Read (cls r) Stun.new_message (ByteBuffer.new_from data ByteBuffer.ORDER_NETWORK)).1 = (true, m) /\
  Stun.transaction_id_ m = mem_read data Stun.kStunTransactionIdOffset Stun.kStunTransactionIdLength /\
  (Stun.type_ m = Stun.GetStunSuccessResponseType (type r) \/ Stun.type_ m = Stun.GetStunErrorResponseType (type r)).

Lemma CheckResponse_responds s data h r m : inv s -> responds s data h r m ->
  exists s', CheckResponse data s = Some (true,
      [if Stun.type_ m =? Stun.GetStunSuccessResponseType (type r) then OnResponse h m else OnErrorResponse h m], s') /\
    inv s' /\ heap s' = delete h (heap s) /\ CheckResponse data s' = Some (false, [], s').
Proof.
  intros Hi (Hl & Hreq & Hr & Hread & Hid & Hty). unfold CheckResponse. rewrite (proj2 (Nat.ltb_ge _ _) Hl), Hreq, Hr.
  destruct (Stun.Read _ _ _) as [[ok response] b]. cbn [fst] in Hread. injection Hread as -> ->. cbn [negb].
  unfold CheckResponse_msg. rewrite Hid, Hreq, Hr.
  destruct (destroy_inv None s h r Hi Hr) as (s' & -> & Hi' & Hheap & Hrq). rewrite decide_False in Hi' by done.
  assert (Hr' : manager_ r = true /\ id r = mem_read data Stun.kStunTransactionIdOffset Stun.kStunTransactionIdLength).
  { apply (inv_map _ _ Hi) in Hreq as (r' & Hr' & Hm & Hid'). by assert (r' = r) as -> by congruence. }
  exists s'. rewrite (Hrq (mem_read data Stun.kStunTransactionIdOffset Stun.kStunTransactionIdLength)), decide_True by done.
  split; [|by split]. destruct (Z.eqb_spec (Stun.type_ m) (Stun.GetStunSuccessResponseType (type r))) as [|Hne]; [done|].
  destruct Hty as [|Hty]; [done|]. by rewrite (proj2 (Z.eqb_eq _ _) Hty).
Qed.

(** Any other packet is left alone. *)
Lemma CheckResponse_false data s evs s' : CheckResponse data s = Some (false, evs, s') -> evs = [] /\ s' = s.
Proof.
  unfold CheckResponse, CheckResponse_msg. intros E.
  repeat first [case_match; try done|match type of E with context [destroy ?h ?s] => destruct (destroy h s); try done end];
    try (by injection E as <- <-).
Qed.

Lemma CheckResponse_true s data ok evs s' : inv s -> bytes_ok data ->
  (forall i h, requests_ s !! i = Some h -> length i = Stun.kStunTransactionIdLength) ->
  CheckResponse data s = Some (ok, evs, s') -> ok = true -> exists h r m, responds s data h r m.
Proof.
  intros Hi Hd Hids E ->. revert E. unfold CheckResponse. destruct (Nat.ltb_spec (length data) 20) as [|Hl]; [done|].
  destruct (requests_ s !! _) as [h|] eqn:Hreq; [|done]. pose proof (proj1 (inv_map _ _ Hi _ _) Hreq) as (r & Hr & _). rewrite Hr.
  destruct (Stun.Read (cls r) _ _) as [[ok m] b] eqn:Hread. destruct ok; cbn [negb]; [|done]. unfold CheckResponse_msg.
  destruct (Read_id _ _ _ _ Hd Hread) as [Hid|Hlong].
  - rewrite Hid, Hreq, Hr. intros E. exists h, r, m. unfold responds. rewrite Hread. split_and!; try done.
    destruct (Z.eqb_spec (Stun.type_ m) (Stun.GetStunSuccessResponseType (type r))); [by left|].
    destruct (Z.eqb_spec (Stun.type_ m) (Stun.GetStunErrorResponseType (type r))); [by right|done].
  - destruct (requests_ s !! Stun.transaction_id_ m) eqn:E; [|done]. apply Hids in E. rewrite Hlong in E. discriminate.
Qed.

Lemma enc_msg_responds s m h r : requests_ s !! Stun.transaction_id_ m = Some h -> heap s !! h = Some r -> StunWire.msg_ok (cls r) m ->
  length (Stun.transaction_id_ m) = Stun.kStunTransactionIdLength ->
  (Stun.type_ m = Stun.GetStunSuccessResponseType (type r) \/ Stun.type_ m = Stun.GetStunErrorResponseType (type r)) ->
  responds s (StunWire.enc_msg m) h r m.
Proof.
  intros Hreq Hr Hok Hl Hty. destruct (header_tid m Hl) as [Htid Hlen]. pose proof Hok as [_ Ht Ha Hc _ _].
  assert (Hb : bytes_ok (StunWire.enc_msg m)).
  { apply bytes_ok_app. split; [by apply StunWire.header_ok|]. by apply StunWire.enc_attrs_ok; [|apply Ht]. }
  destruct (StunWire.Read_spec (cls r) m Stun.new_message (ByteBuffer.new_from (StunWire.enc_msg m) ByteBuffer.ORDER_NETWORK) Hok) as (b & E & _);
    [by apply ByteBuffer.new_from_spec|].
  unfold responds. rewrite Htid, E. split; [by apply Nat.ltb_ge|]. by split_and!.
Qed.

(** C12: For a manager whose outstanding requests have ids of 12 bytes, any
    packet, malformed ones included, is taken as a response exactly if it has
    at least 20 bytes, its bytes 8 to 20 are the id of an outstanding request,
    it parses as a message of the class of that request under that id (with
    the magic cookie), and the type is that of the success or the error
    response to the request.  It is then reported once, as a success or an
    error by its type, with the message that was parsed, and completes the
    request; sent again it is no longer a response.  Any other packet changes
    nothing.  The encoding of a well-formed message under the id of a request,
    of one of these types, is such a response, with the message as written. *)
Theorem stun_response_once s data : inv s -> bytes_ok data ->
  (forall i h, requests_ s !! i = Some h -> length i = Stun.kStunTransactionIdLength) ->
  exists ok evs s', CheckResponse data s = Some (ok, evs, s') /\ inv s' /\
    (ok = true <-> exists h r m, responds s data h r m) /\
    (ok = false -> evs = [] /\ s' = s) /\
    (forall h r m, responds s data h r m ->
       evs = [if Stun.type_ m =? Stun.GetStunSuccessResponseType (type r) then OnResponse h m else OnErrorResponse h m] /\
       heap s' = delete h (heap s) /\ CheckResponse data s' = Some (false, [], s')) /\
    (forall h r m, requests_ s !! Stun.transaction_id_ m = Some h -> heap s !! h = Some r -> StunWire.msg_ok (cls r) m ->
       Stun.type_ m = Stun.GetStunSuccessResponseType (type r) \/ Stun.type_ m = Stun.GetStunErrorResponseType (type r) ->
       responds s (StunWire.enc_msg m) h r m).
Proof.
  intros Hi Hd Hids.
  assert (Henc : forall h r m, requests_ s !! Stun.transaction_id_ m = Some h -> heap s !! h = Some r -> StunWire.msg_ok (cls r) m ->
       Stun.type_ m = Stun.GetStunSuccessResponseType (type r) \/ Stun.type_ m = Stun.GetStunErrorResponseType (type r) ->
       responds s (StunWire.enc_msg m) h r m) by (intros h r m Hreq **; apply enc_msg_responds; by eauto).
  destruct (CheckResponse_inv data s Hi) as (ok & evs & s' & E & Hi' & _). exists ok, evs, s'. split; [done|]. split; [done|].
  assert (Hyes : forall h r m, responds s data h r m -> ok = true /\
       evs = [if Stun.type_ m =? Stun.GetStunSuccessResponseType (type r) then OnResponse h m else OnErrorResponse h m] /\
       heap s' = delete h (heap s) /\ CheckResponse data s' = Some (false, [], s')).
  { intros h r m Hresp. destruct (CheckResponse_responds s data h r m Hi Hresp) as (s1 & E1 & _ & Hh & Ha). rewrite E in E1. by injection E1 as -> -> ->. }
  assert (Hiff : ok = true -> exists h r m, responds s data h r m) by exact (CheckResponse_true s data ok evs s' Hi Hd Hids E).
  split; [split; [exact Hiff|intros (h & r & m & Hresp); by apply (Hyes h r m)]|]. split; [|split; [|done]].
  - intros ->. by apply (CheckResponse_false data s evs).
  - intros h r m Hresp. by apply (Hyes h r m).
Qed.

(** ** The schedule of a request that nobody answers *)

(** The thread waits as long as it takes for its next message. *)
Definition timed_pump (wait : nat -> Z -> Z -> MessageQueue.wakeup) (fuel : nat) (now : Z) (s : t) : option (Z * list event * t) :=
  let? (g, q) := MessageQueue.Get wait fuel now MessageQueue.kForever (thread_ s) in
  let? m := MessageQueue.message g in
  let? (evs, s) := OnMessage (MessageQueue.got_at g) (MessageQueue.phandler m) (set_thread q s) in
  Some (MessageQueue.got_at g, evs, s).
Fixpoint timed_pumps (wait : nat -> Z -> Z -> MessageQueue.wakeup) (fuel k : nat) (now : Z) (s : t) : option (list (Z * event) * t) :=
  match k with
  | O => Some ([], s)
  | S k =>
      let? (now, evs, s) := timed_pump wait fuel now s in
      let? (l, s) := timed_pumps wait fuel k now s in
      Some (map (pair now) evs ++ l, s)
  end.

(** A request alone, with its message due. *)
Definition alone (h : Z) (r : Request) (d : MessageQueue.DelayedMessage) (num : Z) : t :=
  mk {[h := r]} {[id r := h]} (MessageQueue.waiting [] [d] num).
Definition due (delay T num h : Z) : MessageQueue.DelayedMessage :=
  MessageQueue.mkDelayed delay T num (MessageQueue.mkMessage h MSG_STUN_SEND 0 0).

Definition wire (r : Request) : bytes :=
  ByteBuffer.contents (Stun.Write (msg_ r) (ByteBuffer.new_empty ByteBuffer.ORDER_NETWORK)).2.

Lemma pump_alone wait fuel now h r delay T n num : MessageQueue.punctual wait -> 0 <= now <= T -> T - now < HALF -> T < 2 ^ 32 ->
  T - now < Z.of_nat fuel -> manager_ r = true ->
  timed_pump wait fuel now (alone h r (due delay T n h) num) =
  let? (evs, s) := OnMessage T h (mk {[h := r]} {[id r := h]} (MessageQueue.waiting [] [] num)) in Some (T, evs, s).
Proof.
  intros Hw Hn Hd HT Hf Hm. unfold timed_pump, MessageQueue.Get. cbn [alone thread_].
  change (MessageQueue.fPeekKeep_ (MessageQueue.waiting [] [due delay T n h] num)) with false. cbn iota.
  destruct (MessageQueue.get_soonest wait Hw fuel 0 now now 0 (due delay T n h) [] num) as (dl & rest & E & _ & ->).
  - by repeat constructor.
  - apply List.Forall_cons; [|apply List.Forall_nil]. unfold MessageQueue.pending, is_u. cbn. split_and!; lia || done.
  - cbn. lia.
  - symmetry in E. apply app_eq_nil in E as [-> ->]. cbn [MessageQueue.message MessageQueue.got_at due MessageQueue.msg_ MessageQueue.phandler MessageQueue.msTrigger_].
    reflexivity.
Qed.

Definition delay_of (c : Z) : Z := DELAY_UNIT * Z.min (Z.shiftl 1 c) DELAY_MAX_FACTOR.
Lemma delay_bounds c : 0 <= c -> 0 <= delay_of c <= 1600.
Proof.
  intros Hc. unfold delay_of, DELAY_UNIT, DELAY_MAX_FACTOR. rewrite Z.shiftl_1_l.
  pose proof (Z.pow_pos_nonneg 2 c ltac:(lia) Hc). lia.
Qed.

(** What happens to a request whose next message is at [T], with [k] more
    packets to send. *)
Fixpoint schedule (h : Z) (data : bytes) (k : nat) (c T : Z) : list (Z * event) :=
  match k with
  | O => [(T, OnTimeout h)]
  | S k => (T, SendPacket h data) :: schedule h data k (c + 1) (T + delay_of c)
  end.

Lemma OnMessage_send T h r num : manager_ r = true -> timeout_ r = false -> delays r = Retransmit -> 0 <= count_ r -> 0 <= T -> T + 1600 < 2 ^ 32 ->
  let r' := (GetNextDelay (set_tstamp T r)).2 in
  OnMessage T h (mk {[h := r]} {[id r := h]} (MessageQueue.waiting [] [] num)) =
  Some ([SendPacket h (wire r)], alone h r' (due (delay_of (count_ r)) (T + delay_of (count_ r)) num h) (u32 (num + 1))).
Proof.
  intros Hm Ht Hd Hc HT Hb. unfold OnMessage, wire. cbn [heap]. rewrite lookup_singleton_eq, Hm, Ht.
  cbn [msg_ set_tstamp]. destruct (Stun.Write _ _) as [ok buf]. cbn [snd]. unfold alone, GetNextDelay. cbn [set_tstamp delays]. rewrite Hd. cbn [snd].
  assert (E : TimeAfter T (delay_of (count_ r)) = T + delay_of (count_ r)).
  { pose proof (delay_bounds (count_ r) Hc). apply wrap_small. unfold is_u. lia. }
  unfold MessageQueue.PostDelayed. fold (delay_of (count_ r)). cbn [heap requests_ thread_ count_].
  rewrite insert_singleton_eq.
  unfold delay_of in E |- *. cbn [count_ set_tstamp]. rewrite E. reflexivity.
Qed.

Lemma OnMessage_timeout T h r num : manager_ r = true -> timeout_ r = true -> h <> 0 ->
  OnMessage T h (mk {[h := r]} {[id r := h]} (MessageQueue.waiting [] [] num)) =
  Some ([OnTimeout h], mk ∅ ∅ (MessageQueue.waiting [] [] num)).
Proof.
  intros Hm Ht Hh. unfold OnMessage, destroy. cbn [heap]. rewrite lookup_singleton_eq, Hm, Ht. unfold Remove. cbn [requests_ heap].
  rewrite lookup_singleton_eq. cbn [set_thread heap requests_ thread_]. rewrite !delete_singleton_eq. reflexivity.
Qed.

Lemma timed_schedule wait fuel h : MessageQueue.punctual wait -> (1600 < Z.of_nat fuel) -> h <> 0 ->
  forall k now r delay T n num, 0 <= now <= T -> T - now <= 1600 -> T + 1600 * Z.of_nat k < 2 ^ 32 -> manager_ r = true ->
  count_ r + Z.of_nat k = MAX_SENDS -> 0 <= count_ r -> timeout_ r = (count_ r =? MAX_SENDS) -> delays r = Retransmit ->
  exists num', timed_pumps wait fuel (S k) now (alone h r (due delay T n h) num) =
    Some (schedule h (wire r) k (count_ r) T, mk ∅ ∅ (MessageQueue.waiting [] [] num')).
Proof.
  intros Hw Hf Hh. induction k as [|k IH]; intros now r delay T n num Hn Hd HT Hm Hk Hc Ht Hdl; cbn [timed_pumps schedule];
    (rewrite pump_alone; [|done|lia|unfold HALF; lia|lia|lia|done]).
  - rewrite OnMessage_timeout; [by exists num|done| |done]. rewrite Ht. apply Z.eqb_eq. lia.
  - assert (Ht' : timeout_ r = false) by (rewrite Ht; apply Z.eqb_neq; lia). rewrite OnMessage_send by (done || lia).
    pose proof (delay_bounds (count_ r) Hc). set (r' := (GetNextDelay (set_tstamp T r)).2).
    assert (Hr' : manager_ r' = true /\ count_ r' = count_ r + 1 /\ wire r' = wire r /\
      timeout_ r' = (count_ r + 1 =? MAX_SENDS) /\ delays r' = Retransmit).
    { unfold r', wire. destruct r; cbn in *; subst. cbn. rewrite Ht'.
      by destruct (count_0 + 1 =? MAX_SENDS). }
    destruct Hr' as (E1 & E2 & E3 & E4 & E5).
    destruct (IH T r' (delay_of (count_ r)) (T + delay_of (count_ r)) num (u32 (num + 1))) as (num' & E);
      [lia..|done|lia|lia|congruence|done|].
    exists num'. cbn [timed_pumps] in E. rewrite E, E2, E3. reflexivity.
Qed.

(** C13: A request of the base class that nobody answers is sent nine times, each time the same
    packet, 0, 100, 300, 700, 1500, 3100, 4700, 6300 and 7900 ms after it was
    handed to the manager, and 9500 ms after it times out and is gone, with
    nothing of it left in the map or the queue; for any environment that wakes
    the thread on time. *)
Theorem stun_request_times_out wait fuel now h r : MessageQueue.punctual wait -> 1600 < Z.of_nat fuel -> h <> 0 ->
  0 <= now -> now + 14400 < 2 ^ 32 -> manager_ r = false -> count_ r = 0 -> timeout_ r = false ->
  delays r = Retransmit -> exists s, Send now h (mk {[h := r]} ∅ MessageQueue.new) = Some s /\
    let data := wire (Construct (set_manager r)) in
    exists num, timed_pumps wait fuel 10 now s =
      Some (map (fun k => (now + k, SendPacket h data)) [0; 100; 300; 700; 1500; 3100; 4700; 6300; 7900] ++
              [(now + 9500, OnTimeout h)],
            mk ∅ ∅ (MessageQueue.waiting [] [] num)).
Proof.
  intros Hw Hf Hh Hn Hb Hm Hc Ht Hd. unfold Send, SendDelayed. cbn [heap]. rewrite lookup_singleton_eq, Hm. cbn [negb requests_].
  rewrite lookup_empty, bool_decide_eq_true_2 by done. eexists. split; [reflexivity|]. cbn zeta.
  rewrite insert_singleton_eq. set (r1 := Construct (set_manager r)).
  assert (Hr1 : manager_ r1 = true /\ count_ r1 = 0 /\ timeout_ r1 = false /\ delays r1 = Retransmit) by (unfold r1, Construct; by destruct (_ =? _)).
  destruct Hr1 as (Hm1 & Hc1 & Ht1 & Hd1).
  destruct (timed_schedule wait fuel h Hw Hf Hh 9 now r1 0 now 0 1) as (num & E); try done; try lia.
  { by rewrite Hc1. } { by rewrite Ht1, Hc1. }
  exists num. cbn [thread_]. unfold alone in E.
  assert (Eq : MessageQueue.PostDelayed now 0 h MSG_STUN_SEND 0 MessageQueue.new = MessageQueue.waiting [] [due 0 now 0 h] 1).
  { unfold MessageQueue.PostDelayed, TimeAfter. rewrite Z.add_0_r. replace (u32 now) with now; [done|]. symmetry. apply wrap_small. unfold is_u. lia. }
  rewrite Eq. refine (eq_trans E _). rewrite Hc1. cbn [schedule map app].
  repeat match goal with |- context [delay_of ?c] => let v := eval vm_compute in (delay_of c) in change (delay_of c) with v end.
  apply f_equal, f_equal2; [|done]. repeat (apply f_equal2; [apply f_equal2; [lia|done]|]). done.
Qed.
End Exchange.

(** ** Witnesses *)

Definition binding : Stun.StunMessage := Stun.mkmsg 0x0001 0 StunWire.sample_tid [].
Definition sample_request : Request := mkRequest 0 false false binding 0 Stun.StunMessageClass (fun m => m) Retransmit.

Lemma stun_request_times_out_witness : exists s,
  @Send 5000 1 (mk {[1 := sample_request]} ∅ MessageQueue.new) = Some s /\
  let data := @wire x86 (Construct (set_manager sample_request)) in
  exists num, @timed_pumps x86 MessageQueue.lazy_wait 1601 10 5000 s =
    Some (map (fun k => (5000 + k, SendPacket 1 data)) [0; 100; 300; 700; 1500; 3100; 4700; 6300; 7900] ++
            [(5000 + 9500, OnTimeout 1)],
          mk ∅ ∅ (MessageQueue.waiting [] [] num)).
Proof.
  apply (@stun_request_times_out x86 MessageQueue.lazy_wait 1601 5000 1 sample_request);
    [exact MessageQueue.lazy_punctual|vm_compute; reflexivity|discriminate|discriminate|reflexivity..].
Defined.

(** A request that was sent, and its response. *)
Definition response : Stun.StunMessage := Stun.mkmsg 0x0101 0 StunWire.sample_tid [].
Definition outstanding : t :=
  mk {[1 := set_manager sample_request]} {[StunWire.sample_tid := 1]} (MessageQueue.PostDelayed 5000 0 1 MSG_STUN_SEND 0 MessageQueue.new).

Lemma outstanding_inv : inv outstanding.
Proof.
  assert (H0 : inv (set_request 1 sample_request new)) by (apply new_request_inv; [exact inv_new|done..]).
  destruct (SendDelayed_inv 5000 1 0 _ sample_request H0) as (s & r & E & Hi & _); [done|done|by intros m|done|].
  assert (Es : SendDelayed 5000 1 0 (set_request 1 sample_request new) = Some outstanding) by (vm_compute; reflexivity).
  rewrite Es in E. by injection E as <-.
Qed.

(** The response, and the same packet with a length that is wrong. *)
Definition truncated : bytes := mem_write (StunWire.enc_msg response) 3 [4].

Lemma stun_response_once_witness :
  (exists s', @CheckResponse x86 (StunWire.enc_msg response) outstanding = Some (true, [OnResponse 1 response], s') /\
     inv s' /\ heap s' = delete 1 (heap outstanding) /\
     @CheckResponse x86 (StunWire.enc_msg response) s' = Some (false, [], s')) /\
  @CheckResponse x86 truncated outstanding = Some (false, [], outstanding).
Proof.
  assert (Hids : forall i h, requests_ outstanding !! i = Some h -> length i = Stun.kStunTransactionIdLength).
  { intros i h H. cbn [requests_ outstanding] in H. apply lookup_singleton_Some in H as [<- _]. reflexivity. }
  split.
  - destruct (@stun_response_once x86 outstanding (StunWire.enc_msg response) outstanding_inv) as (ok & evs & s' & E & Hi & Hiff & _ & Hyes & Henc);
      [solve_bytes|exact Hids|].
    assert (Hresp : @responds x86 outstanding (StunWire.enc_msg response) 1 (set_manager sample_request) response).
    { apply Henc; [reflexivity..| |by left].
      split; [done|split; [solve_bytes|by left]|apply List.Forall_nil..|done|done]. }
    destruct (Hyes _ _ _ Hresp) as (He & Hh & Ha). exists s'. split; [|exact (conj Hi (conj Hh Ha))].
    rewrite E, He, (proj2 Hiff (ex_intro _ _ (ex_intro _ _ (ex_intro _ _ Hresp)))). reflexivity.
  - destruct (@stun_response_once x86 outstanding truncated outstanding_inv) as (ok & evs & s' & E & _ & _ & Hno & _);
      [solve_bytes|exact Hids|].
    assert (Hf : option_map (fun x => x.1.1) (@CheckResponse x86 truncated outstanding) = Some false) by (vm_compute; reflexivity).
    rewrite E in Hf |- *. injection Hf as Hf. cbn in Hf. subst ok. by destruct (Hno eq_refl) as [-> ->].
Defined.

(** Two requests: the first is answered, after a packet that is too short; the
    second is sent once, and then deleted by Clear. *)
Definition first_id : bytes :=
  match (@Helpers.CreateRandomString Helpers.TestRandomGenerator 12 Helpers.test_seed).1 with Some i => i | None => [] end.
Definition sample_ops : list (Z * op) :=
  [(100, New 1 binding Stun.StunMessageClass (fun m => m) Retransmit); (100, SendIt 1 0);
   (101, New 2 binding Stun.IceMessage (fun m => m) (Once 5000)); (101, SendIt 2 50);
   (102, Pump); (151, Pump); (160, Check [1; 2]); (170, Check (StunWire.enc_msg (Stun.mkmsg 0x0101 0 first_id []))); (180, ClearAll); (190, Pump)].

Lemma stun_requests_safe_witness : exists evs s g',
  @run x86 Helpers.TestRandomGenerator sample_ops (new, Helpers.test_seed) = Some (evs, (s, g')) /\
  inv s /\ forall h, sends h evs <= MAX_SENDS /\ ends h evs <= 1 /\ (0 < ends h evs -> heap s !! h = None).
Proof.
  apply (@stun_requests_safe x86 Helpers.TestRandomGenerator sample_ops Helpers.test_seed).
  repeat (split; [cbn [allowed]; try exact I;
    first [split; [discriminate|split; [set_solver|by intros m]]
          | eexists; split; [vm_compute; reflexivity|]; repeat split]|
    match goal with |- match ?e with _ => _ end => let v := eval vm_compute in e in change e with v; cbn iota beta zeta end]).
  exact I.
Defined.
End StunRequest.
