(* ===== verification/AsyncTcpSocket.v ===== *)
(** * base/asynctcpsocket.cc and p2p/base/asyncstuntcpsocket.cc: packets over TCP

    The socket below is the environment: [send] is what its Send returns on a
    buffer, [recv] what its Recv returns for a capacity ([None]: negative).
    The buffers are the first [inpos_] and [outpos_] bytes of the arrays.  The
    assertion of AppendToOutBuffer is an obligation ([None]).  The two
    subclasses are instances of the virtual methods [PacketSocket]. *)

From S2P Require Import Prelude ByteOrder IpAddress Stun.
Import ByteOrder.
Open Scope jingle_scope.

Module AsyncTcpSocket.

Definition kMaxPacketSize : Z := 64 * 1024.
Definition kPacketLenSize : Z := 2.

Inductive ConnState := CS_CLOSED | CS_CONNECTING | CS_CONNECTED.
Inductive State := STATE_CLOSED | STATE_BINDING | STATE_BOUND | STATE_CONNECTING | STATE_CONNECTED.
Inductive errno := EMSGSIZE | ENOTCONN.

Record t := mk { listen_ : bool; inbuf_ : bytes; insize_ : Z; outbuf_ : bytes; outsize_ : Z }.

(** What an operation does to its environment: [Sent] is the part of the
    buffer that the socket below took. *)
Inductive event :=
  | Sent (data : bytes)
  | SetError (error : errno)
  | SignalConnect
  | SignalReadPacket (data : bytes)
  | SignalReadyToSend
  | SignalClose (error : Z)
  | SignalNewConnection (socket : t) (primed : list event).

Definition new_base (listen : bool) (max_packet_size : Z) : t := mk listen [] max_packet_size [] max_packet_size.
Definition inpos_ (s : t) : Z := Z.of_nat (length (inbuf_ s)).
Definition outpos_ (s : t) : Z := Z.of_nat (length (outbuf_ s)).
Definition set_in (data : bytes) (s : t) : t := mk (listen_ s) data (insize_ s) (outbuf_ s) (outsize_ s).
Definition set_out (data : bytes) (s : t) : t := mk (listen_ s) (inbuf_ s) (insize_ s) data (outsize_ s).

Definition GetState (socket : ConnState) (s : t) : State :=
  match socket with
  | CS_CLOSED => STATE_CLOSED
  | CS_CONNECTING => if listen_ s then STATE_BOUND else STATE_CONNECTING
  | CS_CONNECTED => STATE_CONNECTED
  end.

(** ConnectSocket, on the results of Bind and Connect: is the socket kept? *)
Definition ConnectSocket (bind connect : Z) : bool :=
  if bind <? 0 then false else if connect <? 0 then false else true.

Definition IsOutBufferEmpty (s : t) : bool := outpos_ s =? 0.
Definition ClearOutBuffer (s : t) : t := set_out [] s.

Definition FlushOutBuffer (send : bytes -> Z) (s : t) : Z * t * list event :=
  let res := send (outbuf_ s) in
  if res <=? 0 then (res, s, [])
  else if res <=? outpos_ s
  then (res, set_out (drop (Z.to_nat res) (outbuf_ s)) s, [Sent (take (Z.to_nat res) (outbuf_ s))])
  else (-1, s, []).

Definition SendRaw (send : bytes -> Z) (pv : bytes) (s : t) : Z * t * list event :=
  if outsize_ s <? outpos_ s + Z.of_nat (length pv) then (-1, s, [SetError EMSGSIZE])
  else FlushOutBuffer send (set_out (outbuf_ s ++ pv) s).

Definition AppendToOutBuffer (pv : bytes) (s : t) : option t :=
  require! outpos_ s + Z.of_nat (length pv) <? outsize_ s in
  Some (set_out (outbuf_ s ++ pv) s).

Definition OnConnectEvent (s : t) : t * list event := (s, [SignalConnect]).
Definition OnCloseEvent (error : Z) (s : t) : t * list event := (s, [SignalClose error]).

Definition OnWriteEvent (send : bytes -> Z) (s : t) : t * list event :=
  let '(s, evs) := if 0 <? outpos_ s then let '(_, s, evs) := FlushOutBuffer send s in (s, evs) else (s, []) in
  (s, evs ++ if outpos_ s =? 0 then [SignalReadyToSend] else []).

(** The virtual methods: the size the constructor passes to the base class,
    Send, and ProcessInput, which gives what is left of the buffer and the
    packets it signals. *)
Class PacketSocket := {
  kBufSize : Z;
  Send : (bytes -> Z) -> bytes -> t -> option (Z * t * list event);
  ProcessInput : bytes -> option (bytes * list bytes);
}.

Section Base.
Context `{P : PacketSocket}.

Definition new (listen : bool) : t := new_base listen kBufSize.

Definition SendTo `{HM : Machine} (GetRemoteAddress : IpAddress.SocketAddress) (send : bytes -> Z) (pv : bytes)
    (addr : IpAddress.SocketAddress) (s : t) : option (Z * t * list event) :=
  if IpAddress.sa_eqb addr GetRemoteAddress then Send send pv s else Some (-1, s, [SetError ENOTCONN]).

(** The reading branch of OnReadEvent. *)
Definition read_input (recv : Z -> option bytes) (s : t) : option (t * list event) :=
  match recv (insize_ s - inpos_ s) with
  | None => Some (s, [])
  | Some data =>
      let? (data, packets) := ProcessInput (inbuf_ s ++ data) in
      Some (set_in (if insize_ s <=? Z.of_nat (length data) then [] else data) s,
            map SignalReadPacket packets)
  end.

(** OnReadEvent with HandleIncomingConnection: [accept] is what Accept
    returns, a connection by what it receives. *)
Definition OnReadEvent (accept : option (Z -> option bytes)) (recv : Z -> option bytes) (s : t) :
    option (t * list event) :=
  if listen_ s
  then match accept with
       | None => Some (s, [])
       | Some new_recv =>
           let? (new_socket, primed) := read_input new_recv (new false) in
           Some (s, [SignalNewConnection new_socket primed])
       end
  else read_input recv s.

End Base.

(** ** AsyncTCPSocket: a packet after its 16-bit length *)

Section Tcp.
Context `{HM : Machine}.

Definition tcp_kBufSize : Z := kMaxPacketSize + kPacketLenSize.

Definition tcp_Send (send : bytes -> Z) (pv : bytes) (s : t) : option (Z * t * list event) :=
  let cb := Z.of_nat (length pv) in
  if tcp_kBufSize <? cb then Some (-1, s, [SetError EMSGSIZE])
  else if negb (IsOutBufferEmpty s) then Some (cb, s, [])
  else
    let pkt_len := HostToNetwork16 (u16 cb) in
    let? s := AppendToOutBuffer (host_bytes 2 pkt_len) s in
    let? s := AppendToOutBuffer pv s in
    let '(res, s, evs) := FlushOutBuffer send s in
    if res <=? 0 then Some (res, ClearOutBuffer s, evs) else Some (cb, s, evs).

Fixpoint tcp_input_loop (fuel : nat) (data : bytes) : option (bytes * list bytes) :=
  match fuel with
  | O => None
  | S fuel =>
      let len := Z.of_nat (length data) in
      if len <? kPacketLenSize then Some (data, [])
      else
        let pkt_len := GetBE16 data in
        if len <? kPacketLenSize + pkt_len then Some (data, [])
        else
          let packet := take (Z.to_nat pkt_len) (drop (Z.to_nat kPacketLenSize) data) in
          let? (rest, packets) := tcp_input_loop fuel (drop (Z.to_nat (kPacketLenSize + pkt_len)) data) in
          Some (rest, packet :: packets)
  end.
Definition tcp_ProcessInput (data : bytes) : option (bytes * list bytes) :=
  tcp_input_loop (S (length data)) data.

#[global] Instance AsyncTCPSocket : PacketSocket :=
  {| kBufSize := tcp_kBufSize; Send := tcp_Send; ProcessInput := tcp_ProcessInput |}.

End Tcp.

(** ** AsyncStunTCPSocket: STUN messages and TURN channel data *)

Definition kPacketLenOffset : Z := 2.
Definition kStunHeaderSize : Z := Z.of_nat Stun.kStunHeaderSize.
Definition stun_kBufSize : Z := kMaxPacketSize + kStunHeaderSize.
Definition kTurnChannelDataHdrSize : Z := 4.

Definition IsStunMessage (msg_type : Z) : bool := if negb (Z.land msg_type 49152 =? 0) then false else true.

Definition GetExpectedLength (data : bytes) : Z * Z :=
  let pkt_len := GetBE16 (drop (Z.to_nat kPacketLenOffset) data) in
  let msg_type := GetBE16 data in
  if IsStunMessage msg_type then (kStunHeaderSize + pkt_len, 0)
  else
    let expected_pkt_len := kTurnChannelDataHdrSize + pkt_len in
    (expected_pkt_len, if negb (expected_pkt_len mod 4 =? 0) then 4 - expected_pkt_len mod 4 else 0).

Definition stun_Send (send : bytes -> Z) (pv : bytes) (s : t) : option (Z * t * list event) :=
  let cb := Z.of_nat (length pv) in
  if (stun_kBufSize <? cb) || (cb <? kPacketLenSize + kPacketLenOffset) then Some (-1, s, [SetError EMSGSIZE])
  else if negb (IsOutBufferEmpty s) then Some (cb, s, [])
  else
    let '(expected_pkt_len, pad_bytes) := GetExpectedLength pv in
    if negb (cb =? expected_pkt_len) then Some (-1, s, [])
    else
      let? s := AppendToOutBuffer pv s in
      let? s := AppendToOutBuffer (repeat 0 (Z.to_nat pad_bytes)) s in
      let '(res, s, evs) := FlushOutBuffer send s in
      if res <=? 0 then Some (res, ClearOutBuffer s, evs) else Some (cb, s, evs).

Fixpoint stun_input_loop (fuel : nat) (data : bytes) : option (bytes * list bytes) :=
  match fuel with
  | O => None
  | S fuel =>
      let len := Z.of_nat (length data) in
      if len <? kPacketLenOffset + kPacketLenSize then Some (data, [])
      else
        let '(expected_pkt_len, pad_bytes) := GetExpectedLength data in
        let actual_length := expected_pkt_len + pad_bytes in
        if len <? actual_length then Some (data, [])
        else
          let? (rest, packets) := stun_input_loop fuel (drop (Z.to_nat actual_length) data) in
          Some (rest, take (Z.to_nat expected_pkt_len) data :: packets)
  end.
Definition stun_ProcessInput (data : bytes) : option (bytes * list bytes) :=
  stun_input_loop (S (length data)) data.

Definition AsyncStunTCPSocket : PacketSocket :=
  {| kBufSize := stun_kBufSize; Send := stun_Send; ProcessInput := stun_ProcessInput |}.

End AsyncTcpSocket.
