(* ===== verification/AsyncTcpNet.v ===== *)
(** * Packets over TCP: the two ends of a connection

    What the virtual methods promise the base class ([PacketSocketLaws]): a
    packet that Send takes leaves as its frame, and ProcessInput cuts a
    sequence of frames back into packets, wherever TCP cut it.  Both
    subclasses satisfy it.  Against the laws alone: two ends and a stream
    between them, the packets delivered are the packets taken, in order. *)

From S2P Require Import Prelude ByteOrder IpAddress Stun AsyncTcpSocket.
Import ByteOrder AsyncTcpSocket.
Open Scope jingle_scope.

Module AsyncTcpNet.

(** The part of the stream an operation put on the wire, and the packets it
    delivered. *)
Definition wire_of (evs : list event) : bytes :=
  concat (map (fun e => match e with Sent d => d | _ => [] end) evs).
Definition packets_of (evs : list event) : list bytes :=
  concat (map (fun e => match e with SignalReadPacket p => [p] | _ => [] end) evs).

(** Socket::Send takes at most the buffer. *)
Definition send_ok (send : bytes -> Z) : Prop := forall b, send b <= Z.of_nat (length b).

Definition proper_prefix (a b : bytes) : Prop := exists c, b = a ++ c /\ c <> [].

Class PacketSocketLaws (P : PacketSocket) := {
  sendable : bytes -> bool;
  frame : bytes -> bytes;
  kBufSize_pos : 0 < kBufSize;
  frame_size : forall p, sendable p = true -> 0 < Z.of_nat (length (frame p)) < kBufSize;
  send_frame : forall send p s, sendable p = true -> outbuf_ s = [] -> outsize_ s = kBufSize ->
    Send send p s =
      (let '(res, s, evs) := FlushOutBuffer send (set_out (frame p) s) in
       if res <=? 0 then Some (res, ClearOutBuffer s, evs) else Some (Z.of_nat (length p), s, evs));
  send_drop : forall send p s, sendable p = true -> outbuf_ s <> [] ->
    Send send p s = Some (Z.of_nat (length p), s, []);
  send_refuse : forall send p s r, sendable p = false -> outbuf_ s = [] -> outsize_ s = kBufSize ->
    Send send p s = Some r -> r.1 = (-1, s) /\ wire_of r.2 = [];
  send_drop_other : forall send p s r, outbuf_ s <> [] -> Send send p s = Some r ->
    r.1.2 = s /\ wire_of r.2 = [];
  process_nil : ProcessInput [] = Some ([], []);
  process_partial : forall p data, sendable p = true -> proper_prefix data (frame p) ->
    ProcessInput data = Some (data, []);
  process_frame : forall p data, sendable p = true ->
    ProcessInput (frame p ++ data) =
      (let? (rest, packets) := ProcessInput data in Some (rest, p :: packets));
}.

(** ** Two ends *)

Record net := mkNet {
  sender : t; receiver : t; wire : bytes; taken : list bytes; delivered : list bytes;
}.

Inductive act :=
  | ASend (send : bytes -> Z) (pv : bytes)
  | AWrite (send : bytes -> Z)
  | ARead (k : nat)
  | ABlocked.

Section Net.
Context {P : PacketSocket}.

Definition start : net := mkNet (new false) (new false) [] [] [].

Definition put (evs : list event) (s : t) (n : net) : net :=
  mkNet s (receiver n) (wire n ++ wire_of evs) (taken n) (delivered n).
Definition take_packet (pv : bytes) (n : net) : net :=
  mkNet (sender n) (receiver n) (wire n) (taken n ++ [pv]) (delivered n).

(** [ARead k]: TCP hands over at most [k] bytes of what is on the wire. *)
Definition exec (a : act) (n : net) : option net :=
  match a with
  | ASend send pv =>
      let? (_, s, evs) := Send send pv (sender n) in
      let n := put evs s n in
      Some (if bool_decide (wire_of evs = []) then n else take_packet pv n)
  | AWrite send => let '(s, evs) := OnWriteEvent send (sender n) in Some (put evs s n)
  | ARead k =>
      let got := Z.to_nat (Z.min (Z.of_nat k) (insize_ (receiver n) - inpos_ (receiver n))) in
      let? (r, evs) := OnReadEvent None (fun cap => Some (take (Z.to_nat (Z.min (Z.of_nat k) cap)) (wire n))) (receiver n) in
      Some (mkNet (sender n) r (drop got (wire n)) (taken n) (delivered n ++ packets_of evs))
  | ABlocked =>
      let? (r, evs) := OnReadEvent None (fun _ => None) (receiver n) in
      Some (mkNet (sender n) r (wire n) (taken n) (delivered n ++ packets_of evs))
  end.

Fixpoint run (acts : list act) (n : net) : option net :=
  match acts with
  | [] => Some n
  | a :: acts => let? n := exec a n in run acts n
  end.

Definition act_ok (a : act) : Prop :=
  match a with ASend send _ | AWrite send => send_ok send | _ => True end.

Lemma run_app acts acts' n n1 : run acts n = Some n1 -> run (acts ++ acts') n = run acts' n1.
Proof.
  revert n. induction acts as [|a acts IH]; cbn [run app]; intros n Hr; [by simplify_eq|].
  destruct (exec a n); [eauto|done].
Qed.

Context {L : PacketSocketLaws P}.

Definition stream (ps : list bytes) : bytes := concat (map frame ps).
Definition act_sendable (a : act) : Prop := match a with ASend _ pv => sendable pv = true | _ => True end.

Record end_ok (s : t) : Prop := {
  eo_listen : listen_ s = false; eo_in : insize_ s = kBufSize; eo_out : outsize_ s = kBufSize;
}.

(** The packets not yet delivered are what is buffered at the receiver, on
    the wire and buffered at the sender. *)
Record inv (n : net) (rest : list bytes) : Prop := {
  iv_sender : end_ok (sender n); iv_receiver : end_ok (receiver n);
  iv_sendable : Forall (fun p => sendable p = true) rest;
  iv_taken : taken n = delivered n ++ rest;
  iv_stream : stream rest = inbuf_ (receiver n) ++ wire n ++ outbuf_ (sender n);
  iv_partial : forall q rest', rest = q :: rest' -> proper_prefix (inbuf_ (receiver n)) (frame q);
}.

Lemma stream_app ps qs : stream (ps ++ qs) = stream ps ++ stream qs.
Proof. unfold stream. by rewrite map_app, concat_app. Qed.

Lemma stream_one p : stream [p] = frame p.
Proof. apply app_nil_r. Qed.

Lemma frame_nonempty p : sendable p = true -> frame p <> [].
Proof. intros Hp He. pose proof (frame_size p Hp) as Hs. rewrite He in Hs. cbn in Hs. lia. Qed.

(** A prefix of a sequence of frames is whole frames and a part of one. *)
Lemma stream_cut rest data z :
  Forall (fun p => sendable p = true) rest -> stream rest = data ++ z ->
  exists ps rest' d, rest = ps ++ rest' /\ data = stream ps ++ d /\
    (rest' = [] -> d = []) /\ (forall q r, rest' = q :: r -> proper_prefix d (frame q)).
Proof.
  intros Hs. revert data. induction Hs as [|q rest Hq Hs IH]; intros data He.
  - destruct data; [|done]. exists [], [], []. split_and!; done.
  - change (frame q ++ stream rest = data ++ z) in He.
    destruct (decide (length (frame q) <= length data)%nat) as [Hl|Hl].
    + assert (Hd : data = frame q ++ drop (length (frame q)) data).
      { rewrite <- (take_drop (length (frame q)) data) at 1. f_equal.
        apply (f_equal (take (length (frame q)))) in He.
        rewrite take_app_length, take_app_le in He by done. done. }
      rewrite Hd, <- app_assoc in He. apply app_inv_head in He.
      destruct (IH _ He) as (ps & rest' & d & -> & Hdr & Hn & Hp).
      exists (q :: ps), rest', d. split_and!; [done| |done|done].
      rewrite Hd, Hdr at 1. unfold stream; cbn [map concat]. by rewrite app_assoc.
    + exists [], (q :: rest), data. split_and!; [done|done|done|].
      intros q' r [= <- <-]. exists (drop (length data) (frame q)). split.
      * rewrite <- (take_drop (length data) (frame q)) at 1. f_equal.
        apply (f_equal (take (length data))) in He.
        by rewrite take_app_length, take_app_le in He by lia.
      * intros Hnil%(f_equal length). rewrite length_drop in Hnil. cbn in Hnil. lia.
Qed.

(** ProcessInput on such a prefix delivers the whole frames. *)
Lemma process_stream ps q d :
  Forall (fun p => sendable p = true) ps ->
  (d = [] \/ sendable q = true /\ proper_prefix d (frame q)) ->
  ProcessInput (stream ps ++ d) = Some (d, ps).
Proof.
  intros Hps Hd. induction Hps as [|p ps Hp Hps IH].
  - cbn. destruct Hd as [->|[Hq Hd]]; [apply process_nil|by apply (process_partial q)].
  - unfold stream; cbn [map concat]. rewrite <- app_assoc, process_frame by done.
    fold (stream ps). by rewrite IH.
Qed.

Lemma partial_small d q : sendable q = true -> proper_prefix d (frame q) -> Z.of_nat (length d) < kBufSize.
Proof.
  intros Hq [c [He Hc]]. pose proof (frame_size q Hq) as Hs. rewrite He, length_app in Hs. lia.
Qed.

Lemma iv_room n rest : inv n rest -> inpos_ (receiver n) < insize_ (receiver n).
Proof.
  intros I. rewrite (eo_in _ (iv_receiver _ _ I)). unfold inpos_. destruct rest as [|q rest].
  - pose proof (iv_stream _ _ I) as He. destruct (inbuf_ (receiver n)); [|done]. apply kBufSize_pos.
  - apply (partial_small _ q); [|by apply (iv_partial _ _ I _ rest)].
    pose proof (iv_sendable _ _ I) as Hs. by inversion Hs.
Qed.

(** Reading: the packets that are complete are delivered. *)
Lemma read_inv k n rest :
  inv n rest -> exists n' ps rest', exec (ARead k) n = Some n' /\ rest = ps ++ rest' /\ inv n' rest' /\
    sender n' = sender n /\ taken n' = taken n /\
    (k <> O -> (length (wire n') <= length (wire n) - 1)%nat).
Proof.
  intros I. destruct I as [Is Ir Ise It Ist Ip] eqn:EI. clear EI.
  pose proof (iv_room n rest I) as Hroom.
  cbn [exec]. set (got := Z.to_nat (Z.min (Z.of_nat k) (insize_ (receiver n) - inpos_ (receiver n)))).
  unfold OnReadEvent, read_input. rewrite (eo_listen _ Ir). fold got.
  destruct (stream_cut rest (inbuf_ (receiver n) ++ take got (wire n)) (drop got (wire n) ++ outbuf_ (sender n)))
    as (ps & rest' & d & -> & Hd & Hn & Hp); [done| |].
  { rewrite Ist, <- app_assoc. f_equal. by rewrite app_assoc, take_drop. }
  apply Forall_app in Ise as [Hps Hrest].
  rewrite Hd. erewrite (process_stream ps (hd [] rest')); [|done|].
  2: { destruct rest' as [|q r]; [left; by apply Hn|right]. split; [by inversion Hrest|by apply (Hp q r)]. }
  assert (Hsmall : (insize_ (receiver n) <=? Z.of_nat (length d)) = false).
  { apply Z.leb_gt. rewrite (eo_in _ Ir). destruct rest' as [|q r].
    - rewrite Hn by done. apply kBufSize_pos.
    - apply (partial_small _ q); [by inversion Hrest|by apply (Hp q r)]. }
  rewrite Hsmall. eexists _, ps, rest'. split; [done|]. split; [done|]. split; [|split_and!; [done..|]].
  - assert (Hpk : packets_of (map SignalReadPacket ps) = ps).
    { unfold packets_of. rewrite map_map. clear. induction ps as [|p ps IH]; [done|]. cbn. by f_equal. }
    split; cbn [sender receiver wire taken delivered]; [done| |done| | |done].
    + destruct Ir as [? ? ?]. split; done.
    + rewrite Hpk, It. by rewrite app_assoc.
    + cbn [set_in inbuf_]. rewrite stream_app in Ist. apply (app_inv_head (stream ps)).
      rewrite Ist, (app_assoc (stream ps)), <- Hd, <- app_assoc. f_equal. by rewrite app_assoc, take_drop.
  - cbn [wire]. intros Hk. rewrite length_drop.
    assert (0 < got)%nat by (subst got; lia). lia.
Qed.

Lemma flush_inv send s res s' evs :
  send_ok send -> FlushOutBuffer send s = (res, s', evs) ->
  wire_of evs ++ outbuf_ s' = outbuf_ s /\ packets_of evs = [] /\ listen_ s' = listen_ s /\
  insize_ s' = insize_ s /\ outsize_ s' = outsize_ s /\
  (res <= 0 -> s' = s /\ evs = []) /\ (0 < res -> wire_of evs <> []).
Proof.
  intros Hok. unfold FlushOutBuffer. specialize (Hok (outbuf_ s)).
  destruct (_ <=? 0) eqn:Hr; bool_simpl.
  { intros [= <- <- <-]. split_and!; try done. lia. }
  rewrite (proj2 (Z.leb_le _ _)) by done.
  intros [= <- <- <-]. cbn [wire_of map concat]. unfold wire_of; cbn [map concat].
  rewrite app_nil_r. cbn [set_out outbuf_ listen_ insize_ outsize_]. rewrite take_drop.
  split_and!; try done; [lia|]. intros _ He%(f_equal length). rewrite length_take in He. cbn in He. lia.
Qed.

Lemma write_inv send n rest :
  send_ok send -> inv n rest -> exists n', exec (AWrite send) n = Some n' /\ inv n' rest /\
    receiver n' = receiver n /\ taken n' = taken n /\ delivered n' = delivered n /\
    ((forall b, send b = Z.of_nat (length b)) -> outbuf_ (sender n') = []).
Proof.
  intros Hok I. destruct I as [Is Ir Ise It Ist Ip] eqn:EI. clear EI.
  cbn [exec]. unfold OnWriteEvent.
  assert (Hpos : forall s, outpos_ s <= 0 -> outbuf_ s = []).
  { intros s Hs. unfold outpos_ in Hs. destruct (outbuf_ s); [done|cbn in Hs; lia]. }
  destruct (0 <? outpos_ _) eqn:Ho; bool_simpl.
  2: { eexists. split; [done|]. split; [|split_and!; [done..|auto]].
       rewrite app_nil_l. split; try done; cbn [put sender receiver wire taken delivered]; try done.
       rewrite Ist. destruct (outpos_ _ =? 0); unfold wire_of; cbn [map concat]; by rewrite ?app_nil_r. }
  destruct (FlushOutBuffer send (sender n)) as [[res s'] evs] eqn:Hf.
  destruct (flush_inv _ _ _ _ _ Hok Hf) as (Hw & Hpk & H1 & H2 & H3 & H4 & H5).
  assert (Hwe : forall tail, tail = [SignalReadyToSend] \/ tail = [] -> wire_of (evs ++ tail) = wire_of evs).
  { intros tail Ht. unfold wire_of. rewrite map_app, concat_app. destruct Ht as [->| ->]; apply app_nil_r. }
  eexists. split; [done|]. split; [|split_and!; [done..|]].
  - split; cbn [put sender receiver wire taken delivered]; try done.
    + destruct Is. split; congruence.
    + rewrite Hwe by (destruct (_ =? 0); auto). by rewrite Ist, <- app_assoc, Hw.
  - intros Hall. cbn [put sender]. apply Hpos. unfold FlushOutBuffer in Hf. rewrite Hall in Hf.
    fold (outpos_ (sender n)) in Hf. rewrite (proj2 (Z.leb_gt _ _)), Z.leb_refl in Hf by done.
    injection Hf as <- <- <-. unfold outpos_; cbn [set_out outbuf_]. rewrite length_drop.
    unfold outpos_. lia.
Qed.

(** Sending: a packet is taken whole, as its frame, or leaves no byte. *)
Lemma inv_keep s evs n rest :
  inv n rest -> end_ok s -> wire_of evs ++ outbuf_ s = outbuf_ (sender n) -> inv (put evs s n) rest.
Proof.
  intros [Is Ir Ise It Ist Ip] Hs Hw. split; cbn [put sender receiver wire taken delivered]; try done.
  by rewrite Ist, <- app_assoc, Hw.
Qed.

Lemma inv_take s evs pv n rest :
  inv n rest -> end_ok s -> sendable pv = true -> outbuf_ (sender n) = [] ->
  wire_of evs ++ outbuf_ s = frame pv -> inv (take_packet pv (put evs s n)) (rest ++ [pv]).
Proof.
  intros [Is Ir Ise It Ist Ip] Hs Hpv Ho Hw.
  split; cbn [take_packet put sender receiver wire taken delivered]; [done|done| | | |].
  - by apply Forall_app_2; [|constructor].
  - by rewrite It, app_assoc.
  - rewrite stream_app, stream_one, Ist, Ho, app_nil_r, <- Hw. by rewrite !app_assoc.
  - intros q r Heq. destruct rest as [|q' rest]; injection Heq as <- <-; [|by apply (Ip q' rest)].
    destruct (inbuf_ (receiver n)); [|done].
    exists (frame pv). split; [done|by apply frame_nonempty].
Qed.

Lemma send_inv send pv n rest :
  send_ok send -> inv n rest ->
  (forall n', exec (ASend send pv) n = Some n' ->
     receiver n' = receiver n /\ delivered n' = delivered n /\ (inv n' rest \/ inv n' (rest ++ [pv]))) /\
  (sendable pv = true -> is_Some (exec (ASend send pv) n)).
Proof.
  intros Hok I. pose proof (iv_sender _ _ I) as [Hl Hi Ho]. cbn [exec].
  assert (Hskip : forall s evs, s = sender n -> wire_of evs = [] ->
    let n' := if bool_decide (wire_of evs = []) then put evs s n else take_packet pv (put evs s n) in
    receiver n' = receiver n /\ delivered n' = delivered n /\ (inv n' rest \/ inv n' (rest ++ [pv]))).
  { intros s evs -> Hw. rewrite bool_decide_eq_true_2 by done. split_and!; [done..|left].
    apply inv_keep; [done|apply (iv_sender _ _ I)|by rewrite Hw]. }
  destruct (decide (outbuf_ (sender n) = [])) as [He|He].
  2: { split.
       - intros n' Hn'. destruct (Send send pv (sender n)) as [[[r s] evs]|] eqn:HS; [|done].
         destruct (send_drop_other _ _ _ _ He HS) as [Hs Hw]. injection Hn' as <-. by apply Hskip.
       - intros Hpv. rewrite send_drop by done. done. }
  destruct (sendable pv) eqn:Hpv.
  2: { split; [|done]. intros n' Hn'. destruct (Send send pv (sender n)) as [[[r s] evs]|] eqn:HS; [|done].
       destruct (send_refuse _ _ _ _ Hpv He Ho HS) as [Hs Hw]. injection Hn' as <-. apply Hskip; [|done].
       by injection Hs as _ ->. }
  rewrite send_frame by done.
  destruct (FlushOutBuffer send _) as [[res s'] evs] eqn:Hf.
  destruct (flush_inv _ _ _ _ _ Hok Hf) as (Hw & Hpk & H1 & H2 & H3 & H4 & H5).
  destruct (res <=? 0) eqn:Hr; bool_simpl.
  - split; [|done]. intros n' [= <-]. destruct H4 as [-> ->]; [done|].
    apply Hskip; [|done]. unfold ClearOutBuffer. destruct (sender n); cbn in *. by subst.
  - split; [|done]. intros n' [= <-]. rewrite bool_decide_eq_false_2 by auto.
    split_and!; [done..|right]. cbn [set_out outbuf_ listen_ insize_ outsize_] in *.
    apply inv_take; try done. split; congruence.
Qed.

Lemma net_exec_inv a n rest n' :
  act_ok a -> inv n rest -> exec a n = Some n' -> exists rest', inv n' rest'.
Proof.
  intros Ha I He. destruct a as [send pv|send|k|].
  - destruct (proj1 (send_inv send pv n rest Ha I) n' He) as (_ & _ & [?|?]); eauto.
  - destruct (write_inv send n rest Ha I) as (n1 & He1 & I1 & _). rewrite He in He1.
    injection He1 as <-. eauto.
  - destruct (read_inv k n rest I) as (n1 & ps & rest' & He1 & _ & I1 & _). rewrite He in He1.
    injection He1 as <-. eauto.
  - cbn [exec] in He. unfold OnReadEvent, read_input in He.
    rewrite (eo_listen _ (iv_receiver _ _ I)) in He. injection He as <-.
    exists rest. destruct I. split; try done. cbn. by rewrite app_nil_r.
Qed.

Lemma exec_total a n rest : act_ok a -> act_sendable a -> inv n rest -> is_Some (exec a n).
Proof.
  intros Ha Hs I. destruct a as [send pv|send|k|].
  - by apply (send_inv send pv n rest Ha I).
  - destruct (write_inv send n rest Ha I) as (n1 & -> & _). done.
  - destruct (read_inv k n rest I) as (n1 & ps & rest' & -> & _). done.
  - cbn [exec]. unfold OnReadEvent, read_input. by rewrite (eo_listen _ (iv_receiver _ _ I)).
Qed.

Lemma run_inv acts n rest n' :
  Forall act_ok acts -> inv n rest -> run acts n = Some n' -> exists rest', inv n' rest'.
Proof.
  intros Ha. revert n rest. induction Ha as [|a acts Ha Has IH]; cbn [run]; intros n rest I Hr.
  - injection Hr as <-. eauto.
  - destruct (exec a n) as [n1|] eqn:He; [|done].
    destruct (net_exec_inv _ _ _ _ Ha I He) as [r1 I1]. eauto.
Qed.

Lemma run_total acts n rest :
  Forall act_ok acts -> Forall act_sendable acts -> inv n rest -> is_Some (run acts n).
Proof.
  intros Ha. revert n rest. induction Ha as [|a acts Ha Has IH]; cbn [run]; intros n rest Hs I; [done|].
  apply Forall_cons in Hs as [Hsa Hs].
  destruct (exec_total a n rest Ha Hsa I) as [n1 He]. rewrite He.
  destruct (net_exec_inv _ _ _ _ Ha I He) as [r1 I1]. eauto.
Qed.

Lemma start_inv : inv start [].
Proof. split; try done; by split. Qed.

(** Reads empty the wire. *)
Lemma drain_wire m n rest :
  (length (wire n) <= m)%nat -> inv n rest -> outbuf_ (sender n) = [] ->
  exists n', run (repeat (ARead 1) m) n = Some n' /\ taken n' = taken n /\ delivered n' = taken n.
Proof.
  revert n rest. induction m as [|m IH]; intros n rest Hm I Ho; cbn [repeat run].
  - exists n. split_and!; [done..|]. pose proof (iv_stream _ _ I) as Hst.
    destruct (wire n); [|cbn in Hm; lia]. rewrite Ho, app_nil_r in Hst.
    rewrite (iv_taken _ _ I). destruct rest as [|q rest]; [by rewrite app_nil_r|exfalso].
    destruct (iv_partial _ _ I q rest eq_refl) as (c & Hc & Hn).
    change (frame q ++ stream rest = inbuf_ (receiver n)) in Hst.
    apply Hn. apply (f_equal length) in Hst, Hc. rewrite length_app in Hst, Hc.
    destruct c; [done|cbn in Hc; lia].
  - destruct (read_inv 1 n rest I) as (n1 & ps & rest' & -> & -> & I1 & Hs & Ht & Hw).
    destruct (IH n1 rest') as (n2 & Hn2 & Ht2 & Hd2); [|done|by rewrite Hs|exists n2; by rewrite <- Ht].
    specialize (Hw ltac:(done)). lia.
Qed.

End Net.

(** ** The subclasses satisfy the laws *)

(** Both loops cut one packet of [next] at a time. *)
Section Cut.
Variable next : bytes -> option (bytes * Z).
Hypothesis next_bound : forall data p k, next data = Some (p, k) -> 0 < k <= Z.of_nat (length data).

Fixpoint cut_loop (fuel : nat) (data : bytes) : option (bytes * list bytes) :=
  match fuel with
  | O => None
  | S fuel =>
      match next data with
      | None => Some (data, [])
      | Some (p, k) =>
          let? (rest, packets) := cut_loop fuel (drop (Z.to_nat k) data) in Some (rest, p :: packets)
      end
  end.

Lemma cut_loop_fuel n m data :
  (length data < n)%nat -> (length data < m)%nat -> cut_loop n data = cut_loop m data.
Proof.
  revert m data. induction n as [|n IH]; intros m data Hn Hm; [lia|].
  destruct m as [|m]; [lia|]. cbn [cut_loop].
  destruct (next data) as [[p k]|] eqn:Hk; [|done]. apply next_bound in Hk.
  by rewrite (IH m) by (rewrite length_drop; lia).
Qed.

Lemma cut_loop_total data : is_Some (cut_loop (S (length data)) data).
Proof.
  remember (S (length data)) as n eqn:Hn. assert (Hl : (length data < n)%nat) by lia. clear Hn.
  revert data Hl. induction n as [|n IH]; intros data Hl; [lia|]. cbn [cut_loop].
  destruct (next data) as [[p k]|] eqn:Hk; [|done]. apply next_bound in Hk.
  destruct (IH (drop (Z.to_nat k) data)) as [[rest ps] ->]; [rewrite length_drop; lia|done].
Qed.

Lemma cut_loop_frame p frame data :
  next (frame ++ data) = Some (p, Z.of_nat (length frame)) ->
  cut_loop (S (length (frame ++ data))) (frame ++ data) =
    (let? (rest, packets) := cut_loop (S (length data)) data in Some (rest, p :: packets)).
Proof.
  intros Hn. remember (length (frame ++ data)) as m. cbn [cut_loop]. rewrite Hn, Nat2Z.id, drop_app_length.
  apply next_bound in Hn. rewrite length_app in *.
  by rewrite (cut_loop_fuel m (S (length data))) by lia.
Qed.

End Cut.

Section Laws.
Context `{HM : Machine}.

(** The length is read back from its two bytes. *)
Lemma GetBE16_app a b : (2 <= length a)%nat -> GetBE16 (a ++ b) = GetBE16 a.
Proof. intros Ha. destruct a as [|x [|y a]]; cbn in Ha; [lia|lia|done]. Qed.

Lemma GetBE16_range a : 0 <= GetBE16 a < 65536.
Proof. apply (wrap_range 16). lia. Qed.

Definition tcp_sendable (p : bytes) : bool := Z.of_nat (length p) <? 65536.
Definition tcp_frame (p : bytes) : bytes := be_bytes 2 (Z.of_nat (length p)) ++ p.
Definition tcp_next (data : bytes) : option (bytes * Z) :=
  if Z.of_nat (length data) <? 2 then None
  else if Z.of_nat (length data) <? 2 + GetBE16 data then None
  else Some (take (Z.to_nat (GetBE16 data)) (drop 2 data), 2 + GetBE16 data).

Lemma tcp_next_bound data p k : tcp_next data = Some (p, k) -> 0 < k <= Z.of_nat (length data).
Proof.
  unfold tcp_next. pose proof (GetBE16_range data). repeat split_if; try done.
  intros [= <- <-]. bool_simpl. lia.
Qed.

Lemma tcp_loop n data : tcp_input_loop n data = cut_loop tcp_next n data.
Proof.
  revert data. induction n as [|n IH]; intros data; [done|]. cbn [tcp_input_loop cut_loop].
  unfold tcp_next, kPacketLenSize. repeat split_if; try done. by rewrite IH.
Qed.

Lemma tcp_frame_length p data : tcp_sendable p = true -> GetBE16 (tcp_frame p ++ data) = Z.of_nat (length p).
Proof.
  intros Hp. unfold tcp_frame, tcp_sendable in *. bool_simpl.
  rewrite <- app_assoc, GetBE16_app, GetBE16_be by (auto with jingle; by rewrite length_be_bytes).
  rewrite be_val_be_bytes. apply Z.mod_small. lia.
Qed.

Lemma tcp_next_frame p data :
  tcp_sendable p = true -> tcp_next (tcp_frame p ++ data) = Some (p, Z.of_nat (length (tcp_frame p))).
Proof.
  intros Hp. unfold tcp_next. rewrite (tcp_frame_length p data Hp).
  unfold tcp_frame. rewrite !length_app, length_be_bytes.
  rewrite (proj2 (Z.ltb_ge _ _)), (proj2 (Z.ltb_ge _ _)) by lia.
  rewrite <- app_assoc. do 2 f_equal; [|lia].
  rewrite drop_app_length', Nat2Z.id by (by rewrite length_be_bytes). apply take_app_length.
Qed.

Lemma tcp_next_partial p data :
  tcp_sendable p = true -> proper_prefix data (tcp_frame p) -> tcp_next data = None.
Proof.
  intros Hp (c & Hc & Hn). unfold tcp_next. destruct (_ <? 2) eqn:H2; [done|]. bool_simpl.
  assert (Hl : GetBE16 data = Z.of_nat (length p)).
  { rewrite <- (GetBE16_app data c), <- Hc by lia. rewrite <- (app_nil_r (tcp_frame p)).
    by apply tcp_frame_length. }
  rewrite Hl, (proj2 (Z.ltb_lt _ _)); [done|]. apply (f_equal length) in Hc.
  unfold tcp_frame in Hc. rewrite !length_app, length_be_bytes in Hc. destruct c; [done|cbn in Hc; lia].
Qed.

Lemma tcp_prefix_bytes p : tcp_sendable p = true -> host_bytes 2 (HostToNetwork16 (u16 (Z.of_nat (length p)))) = be_bytes 2 (Z.of_nat (length p)).
Proof.
  intros Hp. unfold tcp_sendable in Hp. bool_simpl. rewrite HostToNetwork16_bytes. f_equal.
  apply wrap_small. unfold is_u. lia.
Qed.

(** Appending on an empty buffer. *)
Lemma append_empty pv s :
  outbuf_ s = [] -> AppendToOutBuffer pv s =
    if Z.of_nat (length pv) <? outsize_ s then Some (set_out pv s) else None.
Proof. intros Ho. unfold AppendToOutBuffer, outpos_. by rewrite Ho. Qed.

Lemma append_next a b s :
  AppendToOutBuffer b (set_out a s) =
    if Z.of_nat (length a) + Z.of_nat (length b) <? outsize_ s then Some (set_out (a ++ b) s) else None.
Proof. done. Qed.

Lemma out_empty s : IsOutBufferEmpty s = bool_decide (outbuf_ s = []).
Proof. unfold IsOutBufferEmpty, outpos_. by destruct (outbuf_ s). Qed.

Lemma tcp_send_frame send p s :
  tcp_sendable p = true -> outbuf_ s = [] -> outsize_ s = tcp_kBufSize ->
  tcp_Send send p s =
    (let '(res, s, evs) := FlushOutBuffer send (set_out (tcp_frame p) s) in
     if res <=? 0 then Some (res, ClearOutBuffer s, evs) else Some (Z.of_nat (length p), s, evs)).
Proof.
  intros Hp Ho Hs. unfold tcp_Send. rewrite out_empty, bool_decide_eq_true_2, tcp_prefix_bytes by done.
  unfold tcp_sendable in Hp. bool_simpl. unfold tcp_kBufSize, kMaxPacketSize, kPacketLenSize in *.
  rewrite (proj2 (Z.ltb_ge _ _)), append_empty, length_be_bytes, Hs by (done || lia). cbn [negb].
  rewrite (proj2 (Z.ltb_lt _ _)), append_next, Hs, length_be_bytes, (proj2 (Z.ltb_lt _ _)) by lia. done.
Qed.

#[global] Instance AsyncTCPSocketLaws : PacketSocketLaws AsyncTCPSocket.
Proof.
  refine {| sendable := tcp_sendable; frame := tcp_frame |}; cbn [kBufSize Send ProcessInput AsyncTCPSocket].
  - done.
  - intros p Hp. unfold tcp_sendable in Hp. bool_simpl. unfold tcp_frame.
    rewrite length_app, length_be_bytes. unfold tcp_kBufSize, kMaxPacketSize, kPacketLenSize. lia.
  - apply tcp_send_frame.
  - intros send p s Hp Ho. unfold tcp_Send, tcp_sendable in *. bool_simpl.
    rewrite (proj2 (Z.ltb_ge _ _)) by (unfold tcp_kBufSize, kMaxPacketSize, kPacketLenSize; lia).
    by rewrite out_empty, bool_decide_eq_false_2.
  - intros send p s r Hp Ho Hs. unfold tcp_Send, tcp_sendable in *. bool_simpl.
    split_if; [by intros [= <-]|]. rewrite out_empty, bool_decide_eq_true_2 by done. cbn [negb].
    rewrite append_empty by done. autorewrite with jingle. rewrite Hs. cbn [Z.ltb].
    replace (_ <? tcp_kBufSize) with true by done. rewrite append_next. autorewrite with jingle.
    rewrite Hs, (proj2 (Z.ltb_ge _ _)); [done|]. unfold tcp_kBufSize, kMaxPacketSize, kPacketLenSize. lia.
  - intros send p s r Ho. unfold tcp_Send. rewrite out_empty, bool_decide_eq_false_2 by done.
    split_if; by intros [= <-].
  - done.
  - intros p data Hp Hd. unfold tcp_ProcessInput. rewrite tcp_loop. cbn [cut_loop].
    by rewrite (tcp_next_partial p).
  - intros p data Hp. unfold tcp_ProcessInput. rewrite !tcp_loop. apply cut_loop_frame; [apply tcp_next_bound|].
    by apply tcp_next_frame.
Defined.

Lemma expected_range data :
  4 <= (GetExpectedLength data).1 <= 65555 /\ 0 <= (GetExpectedLength data).2 <= 3 /\
  (GetExpectedLength data).1 + (GetExpectedLength data).2 < stun_kBufSize.
Proof.
  unfold GetExpectedLength. pose proof (GetBE16_range (drop (Z.to_nat kPacketLenOffset) data)) as Hr.
  unfold stun_kBufSize, kMaxPacketSize, kTurnChannelDataHdrSize, kStunHeaderSize.
  change (Z.of_nat Stun.kStunHeaderSize) with 20.
  destruct (IsStunMessage _); cbn [fst snd]; [lia|].
  set (e := 4 + _) in *. assert (0 <= e mod 4 < 4) by (apply Z.mod_pos_bound; lia).
  destruct (e mod 4 =? 0) eqn:E; bool_simpl; cbn [negb]; subst e; lia.
Qed.

Lemma expected_app data d : (4 <= length data)%nat -> GetExpectedLength (data ++ d) = GetExpectedLength data.
Proof.
  intros Hl. destruct data as [|a [|b [|c [|e data]]]]; cbn in Hl; try lia. done.
Qed.

Definition stun_sendable (p : bytes) : bool :=
  (4 <=? Z.of_nat (length p)) && (Z.of_nat (length p) =? (GetExpectedLength p).1).
Definition stun_frame (p : bytes) : bytes := p ++ repeat 0 (Z.to_nat (GetExpectedLength p).2).
Definition stun_next (data : bytes) : option (bytes * Z) :=
  if Z.of_nat (length data) <? 4 then None
  else if Z.of_nat (length data) <? (GetExpectedLength data).1 + (GetExpectedLength data).2 then None
  else Some (take (Z.to_nat (GetExpectedLength data).1) data, (GetExpectedLength data).1 + (GetExpectedLength data).2).

Lemma stun_next_bound data p k : stun_next data = Some (p, k) -> 0 < k <= Z.of_nat (length data).
Proof.
  unfold stun_next. pose proof (expected_range data). repeat split_if; try done.
  intros [= <- <-]. bool_simpl. lia.
Qed.

Lemma stun_loop n data : stun_input_loop n data = cut_loop stun_next n data.
Proof.
  revert data. induction n as [|n IH]; intros data; [done|]. cbn [stun_input_loop cut_loop].
  change (kPacketLenOffset + kPacketLenSize) with 4. unfold stun_next at 1.
  destruct (GetExpectedLength data) as [e pad]. cbn [fst snd].
  repeat split_if; try done. by rewrite IH.
Qed.

Lemma length_stun_frame p :
  stun_sendable p = true -> Z.of_nat (length (stun_frame p)) = (GetExpectedLength p).1 + (GetExpectedLength p).2.
Proof.
  intros Hp. unfold stun_sendable, stun_frame in *. bool_simpl. rewrite length_app, repeat_length.
  pose proof (expected_range p). lia.
Qed.

Lemma expected_frame p data : stun_sendable p = true -> GetExpectedLength (stun_frame p ++ data) = GetExpectedLength p.
Proof.
  intros Hp. unfold stun_sendable, stun_frame in *. bool_simpl. rewrite <- app_assoc. apply expected_app. lia.
Qed.

Lemma stun_next_frame p data :
  stun_sendable p = true -> stun_next (stun_frame p ++ data) = Some (p, Z.of_nat (length (stun_frame p))).
Proof.
  intros Hp. unfold stun_next. rewrite (expected_frame p data Hp), <- length_stun_frame by done.
  rewrite !length_app. pose proof (expected_range p). pose proof (length_stun_frame p Hp).
  rewrite (proj2 (Z.ltb_ge _ _)), (proj2 (Z.ltb_ge _ _)) by lia.
  do 2 f_equal. unfold stun_sendable in Hp. bool_simpl.
  match goal with H : Z.of_nat (length p) = _ |- _ => rewrite <- H end.
  rewrite Nat2Z.id. unfold stun_frame. by rewrite <- app_assoc, take_app_length.
Qed.

Lemma stun_next_partial p data :
  stun_sendable p = true -> proper_prefix data (stun_frame p) -> stun_next data = None.
Proof.
  intros Hp (c & Hc & Hn). unfold stun_next. destruct (_ <? 4) eqn:H2; [done|]. bool_simpl.
  assert (He : GetExpectedLength data = GetExpectedLength p).
  { rewrite <- (expected_app data c), <- Hc by lia. rewrite <- (app_nil_r (stun_frame p)).
    by apply expected_frame. }
  rewrite He, <- length_stun_frame, (proj2 (Z.ltb_lt _ _)); [done| |done].
  rewrite Hc, length_app. destruct c; [done|cbn; lia].
Qed.

Lemma stun_send_frame send p s :
  stun_sendable p = true -> outbuf_ s = [] -> outsize_ s = stun_kBufSize ->
  stun_Send send p s =
    (let '(res, s, evs) := FlushOutBuffer send (set_out (stun_frame p) s) in
     if res <=? 0 then Some (res, ClearOutBuffer s, evs) else Some (Z.of_nat (length p), s, evs)).
Proof.
  intros Hp Ho Hs. pose proof (length_stun_frame p Hp) as Hl. unfold stun_frame in *.
  unfold stun_sendable in Hp. bool_simpl. unfold stun_Send. pose proof (expected_range p).
  rewrite out_empty, bool_decide_eq_true_2 by done. unfold kPacketLenSize, kPacketLenOffset.
  rewrite (proj2 (Z.ltb_ge _ _)), (proj2 (Z.ltb_ge _ _)) by lia. cbn [orb negb].
  destruct (GetExpectedLength p) as [e pad]. cbn [fst snd] in *.
  rewrite (proj2 (Z.eqb_eq _ _)), append_empty, Hs, (proj2 (Z.ltb_lt _ _)) by (done || lia). cbn [negb].
  rewrite length_app in Hl. rewrite append_next, Hs, (proj2 (Z.ltb_lt _ _)) by lia. done.
Qed.

#[global] Instance AsyncStunTCPSocketLaws : PacketSocketLaws AsyncStunTCPSocket.
Proof.
  refine {| sendable := stun_sendable; frame := stun_frame |}; cbn [kBufSize Send ProcessInput AsyncStunTCPSocket].
  - done.
  - intros p Hp. rewrite length_stun_frame by done. pose proof (expected_range p). lia.
  - apply stun_send_frame.
  - intros send p s Hp Ho. unfold stun_Send, stun_sendable in *. bool_simpl. pose proof (expected_range p).
    unfold kPacketLenSize, kPacketLenOffset.
    rewrite (proj2 (Z.ltb_ge _ _)), (proj2 (Z.ltb_ge _ _)) by lia.
    by rewrite out_empty, bool_decide_eq_false_2.
  - intros send p s r Hp Ho Hs. unfold stun_Send, stun_sendable, kPacketLenSize, kPacketLenOffset in *.
    destruct (_ || _) eqn:Hg; [by intros [= <-]|]. bool_simpl.
    rewrite (proj2 (Z.leb_le _ _)) in Hp by lia. cbn [andb] in Hp.
    destruct (GetExpectedLength p) as [e pad]. cbn [fst] in Hp.
    rewrite Hp, out_empty, bool_decide_eq_true_2 by done. by intros [= <-].
  - intros send p s r Ho. unfold stun_Send. rewrite out_empty, bool_decide_eq_false_2 by done.
    split_if; by intros [= <-].
  - done.
  - intros p data Hp Hd. unfold stun_ProcessInput. rewrite stun_loop. cbn [cut_loop].
    by rewrite (stun_next_partial p).
  - intros p data Hp. unfold stun_ProcessInput. rewrite !stun_loop. apply cut_loop_frame; [apply stun_next_bound|].
    by apply stun_next_frame.
Defined.

End Laws.

(** ** Packets over TCP *)

Inductive kind := Tcp | StunTcp.
Definition virtuals `{HM : Machine} (k : kind) : PacketSocket :=
  match k with Tcp => AsyncTCPSocket | StunTcp => AsyncStunTCPSocket end.
Definition laws `{HM : Machine} (k : kind) : PacketSocketLaws (virtuals k) :=
  match k with Tcp => AsyncTCPSocketLaws | StunTcp => AsyncStunTCPSocketLaws end.

Section Order.
Context {P : PacketSocket} {L : PacketSocketLaws P}.

Lemma packets_in_order acts n :
  Forall act_ok acts -> run acts start = Some n ->
  (exists rest, taken n = delivered n ++ rest) /\
  (wire n = [] -> outbuf_ (sender n) = [] -> delivered n = taken n) /\
  (exists more n', Forall act_ok more /\ run more n = Some n' /\ taken n' = taken n /\ delivered n' = taken n) /\
  inpos_ (receiver n) < insize_ (receiver n) /\
  (forall more, Forall act_ok more -> Forall act_sendable more -> is_Some (run more n)).
Proof.
  intros Ha Hr. destruct (run_inv _ _ _ _ Ha start_inv Hr) as [rest I]. split_and!.
  - exists rest. apply I.
  - intros Hw Ho. destruct (drain_wire 0 n rest) as (n' & Hn & Ht & Hd); [by rewrite Hw|done|done|].
    injection Hn as <-. by rewrite Hd.
  - set (full := fun b : bytes => Z.of_nat (length b)).
    destruct (write_inv full n rest) as (n1 & H1 & I1 & Hrec & Ht1 & Hd1 & Ho); [by intros b|done|].
    destruct (drain_wire (length (wire n1)) n1 rest) as (n2 & H2 & Ht2 & Hd2); [done|done|by apply Ho|].
    exists (AWrite full :: repeat (ARead 1) (length (wire n1))), n2. split_and!.
    + constructor; [intros b; unfold full; lia|]. apply List.Forall_forall. intros a Hin%repeat_spec. by subst.
    + cbn [run]. by rewrite H1.
    + by rewrite Ht2.
    + by rewrite Hd2.
  - by apply (iv_room _ rest).
  - intros more Hm Hs. by apply (run_total _ _ rest).
Qed.

End Order.

(** C33: AsyncTCPSocket and AsyncStunTCPSocket keep packets over TCP: whatever
    part of a buffer the sockets below take and however TCP cuts the stream,
    the packets delivered are, whole and in order, a prefix of those that Send
    took (a packet sent while another is blocked, or of which no byte leaves,
    is dropped whole); all of them once the wire and the sender's buffer are
    empty, which writing and reading on from any state reaches; the receive
    buffer never fills, and with packets of the sizes allowed no buffer
    overflows. *)
Theorem tcp_packets_in_order `{HM : Machine} k acts n :
  Forall act_ok acts -> @run (virtuals k) acts (@start (virtuals k)) = Some n ->
  (exists rest, taken n = delivered n ++ rest) /\
  (wire n = [] -> outbuf_ (sender n) = [] -> delivered n = taken n) /\
  (exists more n', Forall act_ok more /\ @run (virtuals k) more n = Some n' /\
     taken n' = taken n /\ delivered n' = taken n) /\
  inpos_ (receiver n) < insize_ (receiver n) /\
  (forall more, Forall act_ok more -> Forall (@act_sendable _ (laws k)) more ->
     is_Some (@run (virtuals k) more n)).
Proof. apply (@packets_in_order _ (laws k)). Qed.

(** Two packets, the second in two writes; a third is dropped meanwhile; the
    stream is read in pieces that cut headers and bodies. *)
Definition sample_sends (b : bytes) : Z := Z.min 4 (Z.of_nat (length b)).
Definition sample_acts : list act :=
  [ASend (fun b => Z.of_nat (length b)) [1; 2; 3]; ASend sample_sends [4; 5; 6; 7]; ARead 1; ARead 3;
   ASend sample_sends [8; 8]; AWrite sample_sends; ARead 3; ABlocked; ARead 9].

Lemma sample_acts_ok : Forall act_ok sample_acts.
Proof. repeat constructor; intros b; unfold sample_sends; cbn; lia. Qed.

Lemma tcp_packets_in_order_witness :
  exists n, @run (@virtuals x86 Tcp) sample_acts (@start (@virtuals x86 Tcp)) = Some n /\
    delivered n = [[1; 2; 3]; [4; 5; 6; 7]] /\ exists rest, taken n = delivered n ++ rest.
Proof.
  set (n := mkNet (mk false [] 65538 [] 65538) (mk false [] 65538 [] 65538) []
              [[1; 2; 3]; [4; 5; 6; 7]] [[1; 2; 3]; [4; 5; 6; 7]]).
  assert (Hr : @run (@virtuals x86 Tcp) sample_acts (@start (@virtuals x86 Tcp)) = Some n)
    by (vm_compute; reflexivity).
  exists n. split; [exact Hr|]. split; [reflexivity|].
  exact (proj1 (@tcp_packets_in_order x86 Tcp sample_acts n sample_acts_ok Hr)).
Defined.

(** The guard of AsyncTCPSocket::Send lets through packets whose length does
    not fit in the 16-bit header and that overrun the buffer. *)
Lemma tcp_send_oversize `{HM : Machine} send p s :
  outbuf_ s = [] -> outsize_ s = tcp_kBufSize ->
  tcp_Send send p s = None <-> 65536 <= Z.of_nat (length p) <= 65538.
Proof.
  intros Ho Hs. destruct (tcp_sendable p) eqn:Hp.
  - rewrite tcp_send_frame by done. unfold tcp_sendable in Hp. bool_simpl.
    destruct (FlushOutBuffer _ _) as [[? ?] ?]. destruct (_ <=? 0); split; (done || lia).
  - unfold tcp_Send, tcp_sendable in *. bool_simpl.
    unfold tcp_kBufSize, kMaxPacketSize, kPacketLenSize in *.
    destruct (_ <? _) eqn:Hg; bool_simpl; [split; (done || lia)|].
    rewrite out_empty, bool_decide_eq_true_2 by done. cbn [negb].
    rewrite append_empty by done. autorewrite with jingle. rewrite Hs.
    replace (_ <? _) with true by done. rewrite append_next. autorewrite with jingle.
    rewrite Hs, (proj2 (Z.ltb_ge _ _)) by lia. split; [lia|done].
Qed.

End AsyncTcpNet.
