(* ===== verification/StringConv.v ===== *)
(** * base/stringencode.h, base/stringutils.h: numbers and C strings

    ToString and FromString of an int go through the streams of the standard
    library: a decimal numeral with a minus sign, read back after white space
    and an optional sign up to the first character that is no digit. *)

From S2P Require Import Prelude.
Open Scope jingle_scope.

Module StringConv.

(** ** Comparing C strings without regard to case *)

Definition tolower (c : Z) : Z := if (65 <=? c) && (c <=? 90) then c + 32 else c.

(** s.c_str(), as far as a C function reads it. *)
Fixpoint c_str (s : bytes) : bytes :=
  match s with
  | [] => []
  | c :: s => if c =? 0 then [] else c :: c_str s
  end.
(** _stricmp(a, b) == 0 *)
Definition stricmp_eq (a b : bytes) : bool := bool_decide (map tolower (c_str a) = map tolower (c_str b)).

Lemma stricmp_refl a : stricmp_eq a a = true.
Proof. by apply bool_decide_eq_true_2. Qed.
Lemma stricmp_sym a b : stricmp_eq a b = stricmp_eq b a.
Proof. apply bool_decide_ext. by split. Qed.
Lemma stricmp_trans a b c : stricmp_eq a b = true -> stricmp_eq b c = stricmp_eq a c.
Proof. intros H%bool_decide_eq_true. unfold stricmp_eq. by rewrite H. Qed.

(** ** Decimal numerals *)

Fixpoint digits (fuel : nat) (n : Z) (acc : bytes) : bytes :=
  match fuel with
  | O => acc
  | S fuel =>
      let acc := 48 + n mod 10 :: acc in
      if n / 10 =? 0 then acc else digits fuel (n / 10) acc
  end.
(** An int has at most ten digits. *)
Definition ToString_int (n : Z) : bytes := if n <? 0 then 45 :: digits 10 (- n) [] else digits 10 n [].

Definition is_digit (c : Z) : bool := (48 <=? c) && (c <=? 57).
Definition is_space (c : Z) : bool := (c =? 32) || ((9 <=? c) && (c <=? 13)).

Fixpoint skip_space (s : bytes) : bytes :=
  match s with
  | [] => []
  | c :: r => if is_space c then skip_space r else s
  end.
Fixpoint read_digits (s : bytes) (n : Z) : Z :=
  match s with
  | [] => n
  | c :: s => if is_digit c then read_digits s (10 * n + (c - 48)) else n
  end.
Definition starts_digit (s : bytes) : bool := match s with c :: _ => is_digit c | [] => false end.

Definition is_int (n : Z) : bool := (- 2 ^ 31 <=? n) && (n <? 2 ^ 31).

(** The value read, [None] where the stream fails. *)
Definition FromString_int (s : bytes) : option Z :=
  let s := skip_space s in
  let '(neg, s) := match s with c :: r => if c =? 45 then (true, r) else if c =? 43 then (false, r) else (false, s) | [] => (false, []) end in
  require! starts_digit s in
  let n := read_digits s 0 in
  let n := if (neg : bool) then - n else n in
  require! is_int n in
  Some n.
(** FromString with a default value, which a stream that fails leaves alone. *)
Definition FromString_default (defaultValue : Z) (s : bytes) : Z := default defaultValue (FromString_int s).

(** ** The round trip *)

Definition dval (l : bytes) (n : Z) : Z := fold_left (fun n c => 10 * n + (c - 48)) l n.

Lemma read_digits_val l : forall n, Forall (fun c => is_digit c = true) l -> read_digits l n = dval l n.
Proof. induction l as [|c l IH]; intros n; [done|]. intros [Hc Hl]%Forall_cons. cbn. rewrite Hc. by apply IH. Qed.

Lemma digits_app fuel : forall n acc, digits fuel n acc = digits fuel n [] ++ acc.
Proof.
  induction fuel as [|fuel IH]; intros n acc; [done|]. cbn [digits]. destruct (_ =? 0); [done|].
  rewrite IH, (IH _ [_]), <- app_assoc. done.
Qed.

Lemma digits_spec fuel : forall n, 0 <= n < 10 ^ Z.of_nat fuel -> (0 < fuel)%nat ->
  Forall (fun c => is_digit c = true) (digits fuel n []) /\ starts_digit (digits fuel n []) = true /\
  forall m, dval (digits fuel n []) m = m * 10 ^ Z.of_nat (length (digits fuel n [])) + n.
Proof.
  induction fuel as [|fuel IH]; intros n Hn Hf; [lia|]. cbn [digits].
  assert (Hd : is_digit (48 + n mod 10) = true) by (unfold is_digit; apply andb_true_iff; split; apply Z.leb_le; dlia).
  destruct (Z.eqb_spec (n / 10) 0) as [E|E].
  - split_and!; [by apply List.Forall_cons; [|apply List.Forall_nil]|done|]. intros m. cbn. dlia.
  - assert (Hb : 0 <= n / 10 < 10 ^ Z.of_nat fuel) by (rewrite Nat2Z.inj_succ, Z.pow_succ_r in Hn by lia; dlia).
    destruct (IH (n / 10) Hb) as (H1 & H2 & H3); [destruct fuel; [cbn in Hb|]; lia|].
    rewrite digits_app. split_and!.
    + apply Forall_app_2; [done|by apply List.Forall_cons; [|apply List.Forall_nil]].
    + by destruct (digits fuel (n / 10) []).
    + intros m. unfold dval. rewrite fold_left_app. fold (dval (digits fuel (n / 10) []) m). rewrite H3, length_app. cbn.
      rewrite Nat2Z.inj_add, Z.pow_add_r by lia. cbn. dlia.
Qed.

(** Reading what was printed. *)
Lemma int_roundtrip n : is_int n = true -> FromString_int (ToString_int n) = Some n.
Proof.
  intros Hi. assert (Hb : - 2 ^ 31 <= n < 2 ^ 31) by (unfold is_int in Hi; bool_simpl; lia).
  assert (Hd : forall m, 0 <= m <= 2 ^ 31 -> Forall (fun c => is_digit c = true) (digits 10 m []) /\
    starts_digit (digits 10 m []) = true /\ read_digits (digits 10 m []) 0 = m).
  { intros m Hm. destruct (digits_spec 10 m) as (H1 & H2 & H3); [lia..|]. split_and!; [done..|]. by rewrite read_digits_val, H3. }
  unfold FromString_int, ToString_int. destruct (Z.ltb_spec n 0) as [Hn|Hn].
  - destruct (Hd (- n)) as (_ & H2 & H3); [lia|]. cbn [skip_space]. change (is_space 45) with false. cbn iota.
    change (45 =? 45) with true. cbn iota zeta. rewrite H2, H3, Z.opp_involutive, Hi. done.
  - destruct (Hd n) as (H1 & H2 & H3); [lia|]. destruct (digits 10 n []) as [|c l]; [done|]. cbn in H2.
    assert (Hc : 48 <= c <= 57) by (unfold is_digit in H2; bool_simpl; lia).
    cbn [skip_space]. assert (is_space c = false) as -> by (unfold is_space; apply orb_false_iff; split;
      [apply Z.eqb_neq; lia|apply andb_false_iff; right; apply Z.leb_gt; lia]).
    rewrite (proj2 (Z.eqb_neq c 45)), (proj2 (Z.eqb_neq c 43)) by lia. cbn [starts_digit]. rewrite H2, H3, Hi. done.
Qed.

Lemma ToString_inj n m : is_int n = true -> is_int m = true -> ToString_int n = ToString_int m -> n = m.
Proof. intros Hn Hm E. apply int_roundtrip in Hn, Hm. congruence. Qed.
End StringConv.
