(* ===== verification/Codec.v ===== *)
(** * media/base/codec.cc: codecs, their parameters and feedback parameters

    An AudioCodec, VideoCodec or DataCodec is a Codec with fields of its own.
    The templates over the three classes (session/media/mediasession.cc) use
    the interface [CodecClass]: the base object and Matches. *)

From stdpp Require Import gmap.
From S2P Require Import Prelude StringConv.
Import StringConv.
Open Scope jingle_scope.

Module Codec.

Definition kMaxStaticPayloadId : Z := 95.
Definition kVideoCodecClockrate : Z := 90000.
Definition kDataCodecClockrate : Z := 90000.
Definition kRtxCodecName : bytes := str "rtx".
Definition kRedCodecName : bytes := str "red".
Definition kUlpfecCodecName : bytes := str "ulpfec".
Definition kCodecParamAssociatedPayloadType : bytes := str "apt".
Definition kCodecParamMaxBitrate : bytes := str "x-google-max-bitrate".
Definition kCodecParamMinBitrate : bytes := str "x-google-min-bitrate".

(** ** Feedback parameters *)

Record FeedbackParam := mkFeedbackParam { fb_id : bytes; fb_param : bytes }.

Definition fb_eq (a other : FeedbackParam) : bool :=
  stricmp_eq (fb_id other) (fb_id a) && stricmp_eq (fb_param other) (fb_param a).

Abbreviation FeedbackParams := (list FeedbackParam).

Definition Has (param : FeedbackParam) (params_ : FeedbackParams) : bool := existsb (fun p => fb_eq p param) params_.
Definition Add (param : FeedbackParam) (params_ : FeedbackParams) : FeedbackParams :=
  if bool_decide (fb_id param = []) then params_
  else if Has param params_ then params_
  else params_ ++ [param].
Definition Intersect (from params_ : FeedbackParams) : FeedbackParams := List.filter (fun p => Has p from) params_.
Fixpoint HasDuplicateEntries (params_ : FeedbackParams) : bool :=
  match params_ with
  | [] => false
  | p :: rest => existsb (fun found => fb_eq found p) rest || HasDuplicateEntries rest
  end.

(** ** Codecs *)

Record Codec := mkCodec {
  id : Z; name : bytes; clockrate : Z; preference : Z; params : gmap bytes bytes; feedback_params : FeedbackParams;
}.

Definition new_codec (id : Z) (name : bytes) (clockrate preference : Z) : Codec := mkCodec id name clockrate preference ∅ [].
Definition set_id (i : Z) (c : Codec) : Codec := mkCodec i (name c) (clockrate c) (preference c) (params c) (feedback_params c).
Definition set_params (p : gmap bytes bytes) (c : Codec) : Codec :=
  mkCodec (id c) (name c) (clockrate c) (preference c) p (feedback_params c).
Definition set_feedback (f : FeedbackParams) (c : Codec) : Codec :=
  mkCodec (id c) (name c) (clockrate c) (preference c) (params c) f.

Definition Matches (c codec : Codec) : bool :=
  if id codec <=? kMaxStaticPayloadId then id c =? id codec else stricmp_eq (name c) (name codec).

Definition GetParam (name : bytes) (c : Codec) : option bytes := params c !! name.
Definition GetParam_int (name : bytes) (c : Codec) : option Z := let? v := params c !! name in FromString_int v.
Definition SetParam (name value : bytes) (c : Codec) : Codec := set_params (<[name := value]> (params c)) c.
Definition SetParam_int (name : bytes) (value : Z) (c : Codec) : Codec := SetParam name (ToString_int value) c.
Definition AddFeedbackParam (param : FeedbackParam) (c : Codec) : Codec := set_feedback (Add param (feedback_params c)) c.
Definition HasFeedbackParam (param : FeedbackParam) (c : Codec) : bool := Has param (feedback_params c).
Definition IntersectFeedbackParams (other c : Codec) : Codec :=
  set_feedback (Intersect (feedback_params other) (feedback_params c)) c.
Definition Preferable (first other : Codec) : bool := preference other <? preference first.

(** ** The three classes *)

Record AudioCodec := mkAudio { audio_base : Codec; bitrate : Z; channels : Z }.
Record VideoCodec := mkVideo { video_base : Codec; width : Z; height : Z; framerate : Z }.
Record DataCodec := mkData { data_base : Codec }.

Definition new_audio (pt : Z) (nm : bytes) (cr br cs pr : Z) : AudioCodec := mkAudio (new_codec pt nm cr pr) br cs.
Definition new_video (pt : Z) (nm : bytes) (w h fr pr : Z) : VideoCodec := mkVideo (new_codec pt nm kVideoCodecClockrate pr) w h fr.
Definition new_data (id : Z) (name : bytes) (preference : Z) : DataCodec := mkData (new_codec id name kDataCodecClockrate preference).

Definition audio_Matches (c codec : AudioCodec) : bool :=
  Matches (audio_base c) (audio_base codec) &&
  ((clockrate (audio_base codec) =? 0) || (clockrate (audio_base c) =? clockrate (audio_base codec))) &&
  ((bitrate codec =? 0) || (bitrate c <=? 0) || (bitrate c =? bitrate codec)) &&
  (((channels codec <? 2) && (channels c <? 2)) || (channels c =? channels codec)).

Definition CreateRtxCodec (rtx_payload_type associated_payload_type : Z) : VideoCodec :=
  let rtx_codec := new_video rtx_payload_type kRtxCodecName 0 0 0 0 in
  mkVideo (SetParam_int kCodecParamAssociatedPayloadType associated_payload_type (video_base rtx_codec)) 0 0 0.

Inductive CodecType := CODEC_VIDEO | CODEC_RED | CODEC_ULPFEC | CODEC_RTX.
Definition GetCodecType (c : VideoCodec) : CodecType :=
  let payload_name := name (video_base c) in
  if stricmp_eq payload_name kRedCodecName then CODEC_RED
  else if stricmp_eq payload_name kUlpfecCodecName then CODEC_ULPFEC
  else if stricmp_eq payload_name kRtxCodecName then CODEC_RTX
  else CODEC_VIDEO.

Definition ValidateCodecFormat (c : VideoCodec) : bool :=
  let base := video_base c in
  if (id base <? 0) || (127 <? id base) then false
  else
    match GetCodecType c with
    | CODEC_VIDEO =>
        if (width c <=? 0) || (height c <=? 0) then false
        else
          match GetParam_int kCodecParamMinBitrate base, GetParam_int kCodecParamMaxBitrate base with
          | Some min_bitrate, Some max_bitrate => negb (max_bitrate <? min_bitrate)
          | _, _ => true
          end
    | _ => true
    end.

(** ** The interface to the templates *)

Class CodecClass (C : Type) := {
  base : C -> Codec;
  with_base : Codec -> C -> C;
  matches : C -> C -> bool;
  base_with b c : base (with_base b c) = b;
  with_base_base c : with_base (base c) c = c;
  with_base_with b b' c : with_base b (with_base b' c) = with_base b c;
  matches_base c d : matches c d = true -> Matches (base c) (base d) = true;
  matches_self i c : (id (base c) <= kMaxStaticPayloadId -> i = id (base c)) -> matches (with_base (set_id i (base c)) c) c = true;
}.

Lemma Matches_self i c : (id c <= kMaxStaticPayloadId -> i = id c) -> Matches (set_id i c) c = true.
Proof.
  unfold Matches. intros Hi. cbn. destruct (Z.leb_spec (id c) kMaxStaticPayloadId); [apply Z.eqb_eq; auto|apply stricmp_refl].
Qed.

#[export, refine] Instance AudioClass : CodecClass AudioCodec :=
  {| base := audio_base; with_base b c := mkAudio b (bitrate c) (channels c); matches := audio_Matches |}.
Proof.
  all: try by intros; repeat match goal with c : AudioCodec |- _ => destruct c end.
  - intros c d. unfold audio_Matches. intros H. by bool_simpl.
  - intros i c Hi. unfold audio_Matches. cbn. by rewrite Matches_self, !Z.eqb_refl, !orb_true_r.
Defined.
#[export, refine] Instance VideoClass : CodecClass VideoCodec :=
  {| base := video_base; with_base b c := mkVideo b (width c) (height c) (framerate c);
     matches c d := Matches (video_base c) (video_base d) |}.
Proof. all: try by intros; repeat match goal with c : VideoCodec |- _ => destruct c end. intros i c Hi. by apply Matches_self. Defined.
#[export, refine] Instance DataClass : CodecClass DataCodec :=
  {| base := data_base; with_base b c := mkData b; matches c d := Matches (data_base c) (data_base d) |}.
Proof. all: try by intros; repeat match goal with c : DataCodec |- _ => destruct c end. intros i c Hi. by apply Matches_self. Defined.

(** ** Feedback parameters are a set up to case *)

Lemma fb_eq_refl p : fb_eq p p = true.
Proof. unfold fb_eq. by rewrite !stricmp_refl. Qed.
Lemma fb_eq_sym p q : fb_eq p q = fb_eq q p.
Proof. unfold fb_eq. by rewrite (stricmp_sym (fb_id q)), (stricmp_sym (fb_param q)). Qed.
Lemma fb_eq_trans p q r : fb_eq p q = true -> fb_eq q r = fb_eq p r.
Proof.
  unfold fb_eq. intros H. bool_simpl. f_equal.
  - rewrite (stricmp_sym (fb_id r) (fb_id q)), (stricmp_sym (fb_id r) (fb_id p)). apply stricmp_trans. by rewrite stricmp_sym.
  - rewrite (stricmp_sym (fb_param r) (fb_param q)), (stricmp_sym (fb_param r) (fb_param p)). apply stricmp_trans. by rewrite stricmp_sym.
Qed.

Lemma Has_congr p q l : fb_eq q p = true -> Has q l = Has p l.
Proof.
  intros E. unfold Has. induction l as [|r l IH]; [done|]. cbn. rewrite IH. f_equal.
  rewrite (fb_eq_sym r q), (fb_eq_sym r p). symmetry. by apply fb_eq_trans.
Qed.

Lemma Has_Intersect p from l : Has p (Intersect from l) = Has p l && Has p from.
Proof.
  unfold Intersect, Has at 1 3. induction l as [|q l IH]; [done|]. cbn.
  destruct (fb_eq q p) eqn:E.
  - rewrite (Has_congr p q from E). destruct (Has p from) eqn:Ef; cbn; [by rewrite E|]. by rewrite IH, andb_false_r.
  - destruct (Has q from); cbn; by rewrite ?E, IH.
Qed.

Lemma existsb_filter {A} (p q : A -> bool) l : existsb p l = false -> existsb p (List.filter q l) = false.
Proof. induction l as [|x l IH]; [done|]. cbn. intros [H1 H2]%orb_false_iff. destruct (q x); cbn; by rewrite ?H1, IH. Qed.

Lemma Intersect_no_dup from l : HasDuplicateEntries l = false -> HasDuplicateEntries (Intersect from l) = false.
Proof.
  induction l as [|q l IH]; [done|]. cbn. intros [H1 H2]%orb_false_iff. destruct (Has q from); cbn; [|by apply IH].
  fold (Intersect from l). rewrite IH by done. rewrite orb_false_r. by apply existsb_filter.
Qed.

(** The assertion of Add. *)
Lemma Add_no_dup p l : HasDuplicateEntries l = false -> HasDuplicateEntries (Add p l) = false.
Proof.
  intros Hl. unfold Add. destruct (bool_decide _); [done|]. destruct (Has p l) eqn:E; [done|].
  revert E Hl; induction l as [|q l IH]; [done|]. cbn. intros [Eq E]%orb_false_iff [H1 H2]%orb_false_iff.
  rewrite IH by done. rewrite existsb_app, H1. cbn. by rewrite fb_eq_sym, Eq.
Qed.

Lemma CreateRtxCodec_apt pt apt : is_int apt = true ->
  GetParam_int kCodecParamAssociatedPayloadType (video_base (CreateRtxCodec pt apt)) = Some apt.
Proof. intros Ha. unfold GetParam_int. cbn. rewrite lookup_insert_eq. by apply int_roundtrip. Qed.
End Codec.
