(* ===== verification/Outcome.v ===== *)
(** * A monad for stateful operations that can fail

    For the operations that draw random numbers and return false or NULL: the
    state is threaded, [Fail] is the false or NULL that ends the operation,
    and [Stuck] undefined behaviour or a loop that has not ended within its
    fuel. *)

From S2P Require Import Prelude.
Open Scope jingle_scope.

Module Outcome.

Inductive outcome (S A : Type) :=
  | Ok (a : A) (s : S)
  | Fail (s : S)
  | Stuck.
Arguments Ok {S A}. Arguments Fail {S A}. Arguments Stuck {S A}.

Definition comp (S A : Type) : Type := S -> outcome S A.

Section Ops.
Context {S : Type}.

Definition ret {A} (a : A) : comp S A := fun s => Ok a s.
Definition fail {A} : comp S A := fun s => Fail s.
Definition stuck {A} : comp S A := fun _ => Stuck.
Definition bind {A B} (m : comp S A) (k : A -> comp S B) : comp S B :=
  fun s => match m s with Ok a s => k a s | Fail s => Fail s | Stuck => Stuck end.

(** An operation whose result false is not looked at, or is tested. *)
Definition attempt {A} (m : comp S A) : comp S (option A) :=
  fun s => match m s with Ok a s => Ok (Some a) s | Fail s => Ok None s | Stuck => Stuck end.

(** Operations written with the state in the open. *)
Definition lift {A} (f : S -> A * S) : comp S A := fun s => let '(a, s) := f s in Ok a s.
Definition lift_opt {A} (f : S -> option A * S) : comp S A :=
  fun s => match f s with (Some a, s) => Ok a s | (None, s) => Fail s end.
Definition of_option {A} (o : option A) : comp S A := match o with Some a => ret a | None => fail end.
Definition defined {A} (o : option A) : comp S A := match o with Some a => ret a | None => stuck end.
Definition guard (b : bool) : comp S unit := if b then ret tt else fail.

(** A loop over a list, with an accumulator. *)
Fixpoint foldM {A B} (f : B -> A -> comp S B) (l : list A) (b : B) : comp S B :=
  match l with
  | [] => ret b
  | a :: l => bind (f b a) (foldM f l)
  end.

(** ** What is known of a computation *)

(** If it returns a value, the value and the new state have [Q]. *)
Definition ensures {A} (m : comp S A) (s : S) (Q : A -> S -> Prop) : Prop := forall a s', m s = Ok a s' -> Q a s'.
(** It is not stuck, and ... *)
Definition runs {A} (m : comp S A) (s : S) (Q : A -> S -> Prop) : Prop :=
  match m s with Ok a s' => Q a s' | Fail _ => True | Stuck => False end.

Lemma bind_Ok {A B} (m : comp S A) (k : A -> comp S B) s b s' :
  bind m k s = Ok b s' -> exists a s1, m s = Ok a s1 /\ k a s1 = Ok b s'.
Proof. unfold bind. destruct (m s) as [a s1| |] eqn:E; [|done..]. by exists a, s1. Qed.
Lemma attempt_Ok {A} (m : comp S A) s o s' : attempt m s = Ok o s' ->
  match o with Some a => m s = Ok a s' | None => m s = Fail s' end.
Proof. unfold attempt. by destruct (m s); intros [= <- <-]. Qed.
Lemma lift_opt_Ok {A} (f : S -> option A * S) s a s' : lift_opt f s = Ok a s' -> f s = (Some a, s').
Proof. unfold lift_opt. destruct (f s) as [[?|] ?]; [by intros [= <- <-]|done]. Qed.
Lemma lift_opt_Fail {A} (f : S -> option A * S) s s' : lift_opt f s = Fail s' -> f s = (None, s').
Proof. unfold lift_opt. destruct (f s) as [[?|] ?]; [done|by intros [= <-]]. Qed.
Lemma lift_Ok {A} (f : S -> A * S) s a s' : lift f s = Ok a s' -> f s = (a, s').
Proof. unfold lift. destruct (f s). by intros [= <- <-]. Qed.
Lemma of_option_Ok {A} (o : option A) s a s' : of_option o s = Ok a s' -> o = Some a /\ s' = s.
Proof. destruct o; [by intros [= <- <-]|done]. Qed.
Lemma defined_Ok {A} (o : option A) s a s' : defined o s = Ok a s' -> o = Some a /\ s' = s.
Proof. destruct o; [by intros [= <- <-]|done]. Qed.
Lemma guard_Ok b s u s' : guard b s = Ok u s' -> b = true /\ s' = s.
Proof. destruct b; [by intros [= <- <-]|done]. Qed.
Lemma ret_Ok {A} (a : A) s b s' : ret a s = Ok b s' -> b = a /\ s' = s.
Proof. by intros [= <- <-]. Qed.

Lemma runs_bind {A B} (m : comp S A) (k : A -> comp S B) s Q :
  runs m s (fun a s' => runs (k a) s' Q) -> runs (bind m k) s Q.
Proof. unfold runs, bind. by destruct (m s). Qed.
Lemma runs_weaken {A} (m : comp S A) s (Q Q' : A -> S -> Prop) : runs m s Q -> (forall a s', Q a s' -> Q' a s') -> runs m s Q'.
Proof. unfold runs. destruct (m s); auto. Qed.
Lemma runs_ret {A} (a : A) s Q : Q a s -> runs (ret a) s Q.
Proof. done. Qed.
Lemma runs_fail {A} s (Q : A -> S -> Prop) : runs fail s Q.
Proof. done. Qed.
Lemma runs_guard b s Q : (b = true -> Q tt s) -> runs (guard b) s Q.
Proof. destruct b; cbn; auto. Qed.
Lemma runs_of_option {A} (o : option A) s Q : (forall a, o = Some a -> Q a s) -> runs (of_option o) s Q.
Proof. destruct o; cbn; auto. Qed.
Lemma runs_attempt {A} (m : comp S A) s (Q : option A -> S -> Prop) :
  match m s with Ok a s' => Q (Some a) s' | Fail s' => Q None s' | Stuck => False end -> runs (attempt m) s Q.
Proof. unfold runs, attempt. by destruct (m s). Qed.
Lemma runs_lift {A} (f : S -> A * S) s Q : Q (f s).1 (f s).2 -> runs (lift f) s Q.
Proof. unfold runs, lift. by destruct (f s). Qed.
Lemma runs_lift_opt {A} (f : S -> option A * S) s Q : (forall a s', f s = (Some a, s') -> Q a s') -> runs (lift_opt f) s Q.
Proof. unfold runs, lift_opt. destruct (f s) as [[a|] s']; auto. Qed.

Lemma foldM_runs {A B} (f : B -> A -> comp S B) (I : list A -> B -> S -> Prop) l :
  (forall a rest b s, I (a :: rest) b s -> In a l -> runs (f b a) s (I rest)) ->
  forall b s, I l b s -> runs (foldM f l b) s (I []).
Proof.
  intros Hf. assert (Hgen : forall l', (forall a, In a l' -> In a l) -> forall b s, I l' b s -> runs (foldM f l' b) s (I [])).
  { induction l' as [|a l' IH]; intros Hin b s HI; [done|]. cbn [foldM]. apply runs_bind.
    eapply runs_weaken; [apply Hf; [exact HI|apply Hin; by left]|]. intros b' s' HI'. apply IH; [|done]. intros x Hx. apply Hin. by right. }
  intros b s HI. by apply Hgen.
Qed.

(** It returns a value, and the value and the new state have [Q]. *)
Definition returns {A} (m : comp S A) (s : S) (Q : A -> S -> Prop) : Prop :=
  match m s with Ok a s' => Q a s' | _ => False end.
Lemma returns_bind {A B} (m : comp S A) (k : A -> comp S B) s Q :
  returns m s (fun a s' => returns (k a) s' Q) -> returns (bind m k) s Q.
Proof. unfold returns, bind. by destruct (m s). Qed.
Lemma returns_weaken {A} (m : comp S A) s (Q Q' : A -> S -> Prop) : returns m s Q -> (forall a s', Q a s' -> Q' a s') -> returns m s Q'.
Proof. unfold returns. destruct (m s); auto. Qed.
Lemma returns_Ok {A} (m : comp S A) s Q : returns m s Q <-> exists a s', m s = Ok a s' /\ Q a s'.
Proof. unfold returns. destruct (m s) as [a s'| |]; split; [by exists a, s'|by intros (? & ? & [= -> ->] & ?)|done|by intros (? & ? & ? & ?)|done|by intros (? & ? & ? & ?)]. Qed.
Lemma foldM_returns {A B} (f : B -> A -> comp S B) (I : list A -> B -> S -> Prop) l :
  (forall done_ a rest b s, l = done_ ++ a :: rest -> I done_ b s -> returns (f b a) s (I (done_ ++ [a]))) ->
  forall b s, I [] b s -> returns (foldM f l b) s (I l).
Proof.
  intros Hf. assert (Hgen : forall rest done_, l = done_ ++ rest -> forall b s, I done_ b s -> returns (foldM f rest b) s (I l)).
  { induction rest as [|a rest IH]; intros done_ -> b s HI; [by rewrite app_nil_r|]. cbn [foldM]. apply returns_bind.
    eapply returns_weaken; [by eapply Hf|]. intros b' s' HI'. apply (IH (done_ ++ [a])); [by rewrite <- app_assoc|done]. }
  intros b s HI. by apply (Hgen l []).
Qed.

Lemma foldM_ensures {A B} (f : B -> A -> comp S B) (I : list A -> B -> S -> Prop) l :
  (forall a rest b s, I (a :: rest) b s -> In a l -> ensures (f b a) s (I rest)) ->
  forall b s, I l b s -> ensures (foldM f l b) s (I []).
Proof.
  intros Hf. assert (Hgen : forall l', (forall a, In a l' -> In a l) -> forall b s, I l' b s -> ensures (foldM f l' b) s (I [])).
  { induction l' as [|a l' IH]; intros Hin b s HI b' s' E; cbn [foldM] in E; [by injection E as <- <-|].
    apply bind_Ok in E as (b1 & s1 & E1 & E2). apply (IH (fun x Hx => Hin x (or_intror Hx)) b1 s1); [|exact E2].
    exact (Hf a l' b s HI (Hin a (or_introl eq_refl)) b1 s1 E1). }
  intros b s HI. by apply Hgen.
Qed.
End Ops.

(** Inversion of a computation that returned. *)
Ltac outcome_inv :=
  repeat match goal with
  | H : bind _ _ _ = Ok _ _ |- _ => apply bind_Ok in H as (? & ? & ? & ?)
  | H : attempt _ _ = Ok _ _ |- _ => apply attempt_Ok in H
  | H : lift_opt _ _ = Ok _ _ |- _ => apply lift_opt_Ok in H
  | H : lift _ _ = Ok _ _ |- _ => apply lift_Ok in H
  | H : of_option _ _ = Ok _ _ |- _ => apply of_option_Ok in H as [? ->]
  | H : defined _ _ = Ok _ _ |- _ => apply defined_Ok in H as [? ->]
  | H : guard _ _ = Ok ?u _ |- _ => apply guard_Ok in H as [? ->]; destruct u
  | H : ret _ _ = Ok _ _ |- _ => apply ret_Ok in H as [-> ->]
  | H : fail _ = Ok _ _ |- _ => discriminate H
  | H : stuck _ = Ok _ _ |- _ => discriminate H
  end.
End Outcome.

Notation "x <- m ;; k" := (Outcome.bind m (fun x => k)) (at level 20, m at level 99, k at level 200, only parsing) : jingle_scope.
Notation "' p <- m ;; k" := (Outcome.bind m (fun x => match x with p => k end))
  (at level 20, p pattern, m at level 99, k at level 200, only parsing) : jingle_scope.
Notation "m ;;; k" := (Outcome.bind m (fun _ => k)) (at level 100, k at level 200, right associativity, only parsing) : jingle_scope.
