(* ===== verification/SessionDescription.v ===== *)
(** * p2p/base/sessiondescription.cc and what it holds

    Candidates, transport descriptions and session descriptions.  The
    description of a content is a pointer to an object of a class that depends
    on the kind of session: the type [D], NULL being [None]. *)

From S2P Require Import Prelude ByteOrder IpAddress StringConv.
Import StringConv.
Open Scope jingle_scope.

Module SessionDescription.

(** ** p2p/base/candidate.h *)

Record Candidate := mkCandidate {
  cand_id : bytes; component_ : Z; cand_protocol : bytes; address_ : IpAddress.SocketAddress; priority_ : Z;
  username_ : bytes; password_ : bytes; cand_type : bytes; network_name_ : bytes; generation_ : Z; foundation_ : bytes;
  related_address_ : IpAddress.SocketAddress;
}.
Section Machine.
Context `{HM : Machine}.
Definition IsEquivalent (a c : Candidate) : bool :=
  bool_decide (cand_id a = cand_id c) && (component_ a =? component_ c) &&
  bool_decide (cand_protocol a = cand_protocol c) && IpAddress.sa_eqb (address_ a) (address_ c) &&
  bool_decide (username_ a = username_ c) && bool_decide (password_ a = password_ c) &&
  bool_decide (cand_type a = cand_type c) && (generation_ a =? generation_ c) &&
  bool_decide (foundation_ a = foundation_ c) && IpAddress.sa_eqb (related_address_ a) (related_address_ c).

Definition GetPriority (type_preference network_adapter_preference : Z) (c : Candidate) : Z :=
  let addr_pref := IpAddress.IPAddressPrecedence (IpAddress.ip_ (address_ c)) in
  let local_preference := Z.lor (Z.shiftl network_adapter_preference 8) addr_pref in
  u32 (Z.lor (Z.lor (Z.shiftl type_preference 24) (Z.shiftl local_preference 8)) (256 - component_ c)).

(** The priority of RFC 5245, section 4.1.2.1. *)
Lemma GetPriority_rfc5245 type_preference network_adapter_preference c :
  0 <= type_preference < 256 -> 0 <= network_adapter_preference < 256 -> 1 <= component_ c <= 256 ->
  GetPriority type_preference network_adapter_preference c =
    2 ^ 24 * type_preference +
    2 ^ 8 * (2 ^ 8 * network_adapter_preference + IpAddress.IPAddressPrecedence (IpAddress.ip_ (address_ c))) +
    (256 - component_ c).
Proof.
  intros Ht Hn Hc. unfold GetPriority. set (p := IpAddress.IPAddressPrecedence _).
  assert (Hp : 0 <= p < 256) by (unfold p, IpAddress.IPAddressPrecedence; repeat case_match; lia).
  rewrite !Z.shiftl_mul_pow2, (lor_add 8 _ p), (lor_add 24) by lia.
  replace (type_preference * 2 ^ 24 + (network_adapter_preference * 2 ^ 8 + p) * 2 ^ 8)
    with ((type_preference * 2 ^ 16 + (network_adapter_preference * 2 ^ 8 + p)) * 2 ^ 8) by lia.
  rewrite lor_add by lia.
  unfold u32, wrap. rewrite Z.mod_small; lia.
Qed.
End Machine.

(** ** p2p/base/transportdescription.h *)

Inductive SecurePolicy := SEC_DISABLED | SEC_ENABLED | SEC_REQUIRED.
Inductive TransportProtocol := ICEPROTO_GOOGLE | ICEPROTO_HYBRID | ICEPROTO_RFC5245.
Inductive IceMode := ICEMODE_FULL | ICEMODE_LITE.
Inductive ConnectionRole :=
  | CONNECTIONROLE_NONE | CONNECTIONROLE_ACTIVE | CONNECTIONROLE_PASSIVE | CONNECTIONROLE_ACTPASS | CONNECTIONROLE_HOLDCONN.
#[export] Instance SecurePolicy_eq_dec : EqDecision SecurePolicy. Proof. solve_decision. Defined.
#[export] Instance TransportProtocol_eq_dec : EqDecision TransportProtocol. Proof. solve_decision. Defined.
#[export] Instance ConnectionRole_eq_dec : EqDecision ConnectionRole. Proof. solve_decision. Defined.

Definition CONNECTIONROLE_ACTIVE_STR : bytes := str "active".
Definition CONNECTIONROLE_PASSIVE_STR : bytes := str "passive".
Definition CONNECTIONROLE_ACTPASS_STR : bytes := str "actpass".
Definition CONNECTIONROLE_HOLDCONN_STR : bytes := str "holdconn".

Definition StringToConnectionRole (role_str : bytes) : option ConnectionRole :=
  if stricmp_eq CONNECTIONROLE_ACTIVE_STR role_str then Some CONNECTIONROLE_ACTIVE
  else if stricmp_eq CONNECTIONROLE_PASSIVE_STR role_str then Some CONNECTIONROLE_PASSIVE
  else if stricmp_eq CONNECTIONROLE_ACTPASS_STR role_str then Some CONNECTIONROLE_ACTPASS
  else if stricmp_eq CONNECTIONROLE_HOLDCONN_STR role_str then Some CONNECTIONROLE_HOLDCONN
  else None.
Definition ConnectionRoleToString (role : ConnectionRole) : option bytes :=
  match role with
  | CONNECTIONROLE_ACTIVE => Some CONNECTIONROLE_ACTIVE_STR
  | CONNECTIONROLE_ACTPASS => Some CONNECTIONROLE_ACTPASS_STR
  | CONNECTIONROLE_PASSIVE => Some CONNECTIONROLE_PASSIVE_STR
  | CONNECTIONROLE_HOLDCONN => Some CONNECTIONROLE_HOLDCONN_STR
  | CONNECTIONROLE_NONE => None
  end.

Record SSLFingerprint := mkFingerprint { algorithm : bytes; digest : bytes }.

(** The role is uninitialised ([None]) until it is set. *)
Record TransportDescription := mkTransport {
  transport_type : bytes; transport_options : list bytes; ice_ufrag : bytes; ice_pwd : bytes; ice_mode : IceMode;
  connection_role : option ConnectionRole; identity_fingerprint : option SSLFingerprint; candidates : list Candidate;
}.
Definition new_transport : TransportDescription := mkTransport [] [] [] [] ICEMODE_FULL None None [].

Definition HasOption (option : bytes) (d : TransportDescription) : bool := bool_decide (option ∈ transport_options d).
Definition AddOption (option : bytes) (d : TransportDescription) : TransportDescription :=
  mkTransport (transport_type d) (transport_options d ++ [option]) (ice_ufrag d) (ice_pwd d) (ice_mode d)
    (connection_role d) (identity_fingerprint d) (candidates d).
Definition secure (d : TransportDescription) : bool := match identity_fingerprint d with Some _ => true | None => false end.
Definition set_transport_type (t : bytes) (d : TransportDescription) : TransportDescription :=
  mkTransport t (transport_options d) (ice_ufrag d) (ice_pwd d) (ice_mode d) (connection_role d) (identity_fingerprint d) (candidates d).
Definition set_ice (ufrag pwd : bytes) (d : TransportDescription) : TransportDescription :=
  mkTransport (transport_type d) (transport_options d) ufrag pwd (ice_mode d) (connection_role d) (identity_fingerprint d) (candidates d).
Definition set_security (role : ConnectionRole) (f : SSLFingerprint) (d : TransportDescription) : TransportDescription :=
  mkTransport (transport_type d) (transport_options d) (ice_ufrag d) (ice_pwd d) (ice_mode d) (Some role) (Some f) (candidates d).

Record TransportInfo := mkTransportInfo { content_name : bytes; description : TransportDescription }.

(** ** p2p/base/sessiondescription.h *)

Record ContentInfo (D : Type) := mkContent { name : bytes; type : bytes; rejected : bool; content : option D }.
Arguments mkContent {D}. Arguments name {D}. Arguments type {D}. Arguments rejected {D}. Arguments content {D}.

Record ContentGroup := mkGroup { semantics_ : bytes; content_names_ : list bytes }.

Definition FirstContentName (g : ContentGroup) : option bytes := hd_error (content_names_ g).
Definition HasContentName (content_name : bytes) (g : ContentGroup) : bool := bool_decide (content_name ∈ content_names_ g).
Definition AddContentName (content_name : bytes) (g : ContentGroup) : ContentGroup :=
  if negb (HasContentName content_name g) then mkGroup (semantics_ g) (content_names_ g ++ [content_name]) else g.

(** The first element that satisfies a test, removed. *)
Fixpoint remove_first {A} (p : A -> bool) (l : list A) : option (list A) :=
  match l with
  | [] => None
  | x :: l => if p x then Some l else option_map (cons x) (remove_first p l)
  end.

Definition RemoveContentName (content_name : bytes) (g : ContentGroup) : bool * ContentGroup :=
  match remove_first (fun n => bool_decide (n = content_name)) (content_names_ g) with
  | None => (false, g)
  | Some l => (true, mkGroup (semantics_ g) l)
  end.

Section Session.
Context {D : Type}.

Record SessionDescription := mkSession {
  contents_ : list (ContentInfo D); transport_infos_ : list TransportInfo; content_groups_ : list ContentGroup;
}.
Definition new_session : SessionDescription := mkSession [] [] [].

Definition FindContentInfoByName (contents : list (ContentInfo D)) (n : bytes) : option (ContentInfo D) :=
  find (fun c => bool_decide (name c = n)) contents.
Definition FindContentInfoByType (contents : list (ContentInfo D)) (t : bytes) : option (ContentInfo D) :=
  find (fun c => bool_decide (type c = t)) contents.
Definition GetContentByName (n : bytes) (s : SessionDescription) : option (ContentInfo D) := FindContentInfoByName (contents_ s) n.
Definition GetContentDescriptionByName (n : bytes) (s : SessionDescription) : option D :=
  match FindContentInfoByName (contents_ s) n with None => None | Some c => content c end.
Definition FirstContentByType (t : bytes) (s : SessionDescription) : option (ContentInfo D) := FindContentInfoByType (contents_ s) t.
Definition FirstContent (s : SessionDescription) : option (ContentInfo D) := hd_error (contents_ s).
Definition AddContent_rejected (n t : bytes) (rejected : bool) (d : option D) (s : SessionDescription) : SessionDescription :=
  mkSession (contents_ s ++ [mkContent n t rejected d]) (transport_infos_ s) (content_groups_ s).
Definition AddContent (n t : bytes) (d : option D) (s : SessionDescription) : SessionDescription := AddContent_rejected n t false d s.
Definition RemoveContentByName (n : bytes) (s : SessionDescription) : bool * SessionDescription :=
  match remove_first (fun c => bool_decide (name c = n)) (contents_ s) with
  | None => (false, s)
  | Some l => (true, mkSession l (transport_infos_ s) (content_groups_ s))
  end.

Definition GetTransportInfoByName (n : bytes) (s : SessionDescription) : option TransportInfo :=
  find (fun t => bool_decide (content_name t = n)) (transport_infos_ s).
Definition GetTransportDescriptionByName (n : bytes) (s : SessionDescription) : option TransportDescription :=
  option_map description (GetTransportInfoByName n s).
Definition set_transport_infos (l : list TransportInfo) (s : SessionDescription) : SessionDescription :=
  mkSession (contents_ s) l (content_groups_ s).
(** [None] is the result false, which leaves the description as it is. *)
Definition AddTransportInfo (t : TransportInfo) (s : SessionDescription) : option SessionDescription :=
  match GetTransportInfoByName (content_name t) s with
  | Some _ => None
  | None => Some (set_transport_infos (transport_infos_ s ++ [t]) s)
  end.
Definition RemoveTransportInfoByName (n : bytes) (s : SessionDescription) : bool * SessionDescription :=
  match remove_first (fun t => bool_decide (content_name t = n)) (transport_infos_ s) with
  | None => (false, s)
  | Some l => (true, set_transport_infos l s)
  end.

Definition AddGroup (g : ContentGroup) (s : SessionDescription) : SessionDescription :=
  mkSession (contents_ s) (transport_infos_ s) (content_groups_ s ++ [g]).
Definition RemoveGroupByName (n : bytes) (s : SessionDescription) : SessionDescription :=
  match remove_first (fun g => bool_decide (semantics_ g = n)) (content_groups_ s) with
  | None => s
  | Some l => mkSession (contents_ s) (transport_infos_ s) l
  end.
Definition HasGroup (n : bytes) (s : SessionDescription) : bool := existsb (fun g => bool_decide (semantics_ g = n)) (content_groups_ s).
Definition GetGroupByName (n : bytes) (s : SessionDescription) : option ContentGroup :=
  find (fun g => bool_decide (semantics_ g = n)) (content_groups_ s).

Lemma find_app {A} (p : A -> bool) l k : find p (l ++ k) = match find p l with Some x => Some x | None => find p k end.
Proof. induction l as [|x l IH]; [done|]. cbn. by destruct (p x). Qed.

Lemma HasGroup_Get n s : HasGroup n s = true <-> is_Some (GetGroupByName n s).
Proof.
  unfold HasGroup, GetGroupByName. induction (content_groups_ s) as [|g l IH]; cbn; [split; [done|by intros [? ?]]|].
  destruct (bool_decide _); [by split|exact IH].
Qed.

Lemma AddTransportInfo_names t s s' : AddTransportInfo t s = Some s' ->
  map content_name (transport_infos_ s') = map content_name (transport_infos_ s) ++ [content_name t] /\
  content_name t ∉ map content_name (transport_infos_ s) /\ contents_ s' = contents_ s /\ content_groups_ s' = content_groups_ s.
Proof.
  unfold AddTransportInfo, GetTransportInfoByName. destruct (find _ _) as [i|] eqn:E; [done|]. intros [= <-]. cbn.
  split; [by rewrite map_app|]. split; [|done]. intros (x & Hx & Hin)%list_elem_of_fmap.
  apply list_elem_of_In in Hin. apply (find_none _ _ E) in Hin. by apply bool_decide_eq_false in Hin.
Qed.
End Session.
Arguments SessionDescription : clear implicits.

(** ** Roles as strings *)

Lemma role_roundtrip role s : ConnectionRoleToString role = Some s -> StringToConnectionRole s = Some role.
Proof. destruct role; intros [= <-]; reflexivity. Qed.
End SessionDescription.
