(* ===== verification/IceConnection.v ===== *)
(** * The Connection of p2p/base/port.cc: readability, writability and pings

    A connection is a pair of a local and a remote candidate that is checked
    with STUN pings.  This file has its state and the operations that need no
    port; its requests are a StunRequest manager of its own.  The signals and
    the messages it posts to itself are events; the handlers of the signals
    post to other threads and do not re-enter the connection.  Logging and the
    rate trackers are left out. *)

From S2P Require Import Prelude TimeUtils ByteOrder IpAddress Stun StunRequest SessionDescription.
Import TimeUtils.
Open Scope jingle_scope.

Module IceConnection.

Definition CONNECTION_READ_TIMEOUT : Z := 30 * 1000.
Definition CONNECTION_WRITE_TIMEOUT : Z := 15 * 1000.
Definition CONNECTION_WRITE_CONNECT_TIMEOUT : Z := 5 * 1000.
Definition CONNECTION_WRITE_CONNECT_FAILURES : Z := 5.
Definition CONNECTION_RESPONSE_TIMEOUT : Z := 5 * 1000.
Definition MINIMUM_RTT : Z := 100.
Definition MAXIMUM_RTT : Z := 3000.
Definition DEFAULT_RTT : Z := MAXIMUM_RTT.
Definition RTT_RATIO : Z := 3.

Inductive State := STATE_WAITING | STATE_INPROGRESS | STATE_SUCCEEDED | STATE_FAILED.
Inductive ReadState := STATE_READ_INIT | STATE_READABLE | STATE_READ_TIMEOUT.
Inductive WriteState := STATE_WRITABLE | STATE_WRITE_UNRELIABLE | STATE_WRITE_INIT | STATE_WRITE_TIMEOUT.
Inductive IceRole := ICEROLE_CONTROLLING | ICEROLE_CONTROLLED | ICEROLE_UNKNOWN.
#[export] Instance State_eq_dec : EqDecision State. Proof. solve_decision. Defined.
#[export] Instance ReadState_eq_dec : EqDecision ReadState. Proof. solve_decision. Defined.
#[export] Instance WriteState_eq_dec : EqDecision WriteState. Proof. solve_decision. Defined.
#[export] Instance IceRole_eq_dec : EqDecision IceRole. Proof. solve_decision. Defined.

Record Connection := mkConnection {
  local_candidate_index_ : nat; remote_candidate_ : SessionDescription.Candidate; read_state_ : ReadState; write_state_ : WriteState; connected_ : bool; pruned_ : bool;
  use_candidate_attr_ : bool; remote_ice_mode_ : SessionDescription.IceMode; requests_ : StunRequest.t; rtt_ : Z;
  last_ping_sent_ : Z; last_ping_received_ : Z; last_data_received_ : Z; last_ping_response_received_ : Z;
  pings_since_last_response_ : list Z; reported_ : bool; state_ : State;
}.

Definition put_local_candidate_index (v : nat) (c : Connection) : Connection :=
  mkConnection v (remote_candidate_ c) (read_state_ c) (write_state_ c) (connected_ c) (pruned_ c) (use_candidate_attr_ c) (remote_ice_mode_ c) (requests_ c) (rtt_ c) (last_ping_sent_ c) (last_ping_received_ c) (last_data_received_ c) (last_ping_response_received_ c) (pings_since_last_response_ c) (reported_ c) (state_ c).
Definition put_read_state (v : ReadState) (c : Connection) : Connection :=
  mkConnection (local_candidate_index_ c) (remote_candidate_ c) v (write_state_ c) (connected_ c) (pruned_ c) (use_candidate_attr_ c) (remote_ice_mode_ c) (requests_ c) (rtt_ c) (last_ping_sent_ c) (last_ping_received_ c) (last_data_received_ c) (last_ping_response_received_ c) (pings_since_last_response_ c) (reported_ c) (state_ c).
Definition put_write_state (v : WriteState) (c : Connection) : Connection :=
  mkConnection (local_candidate_index_ c) (remote_candidate_ c) (read_state_ c) v (connected_ c) (pruned_ c) (use_candidate_attr_ c) (remote_ice_mode_ c) (requests_ c) (rtt_ c) (last_ping_sent_ c) (last_ping_received_ c) (last_data_received_ c) (last_ping_response_received_ c) (pings_since_last_response_ c) (reported_ c) (state_ c).
Definition set_connected (v : bool) (c : Connection) : Connection :=
  mkConnection (local_candidate_index_ c) (remote_candidate_ c) (read_state_ c) (write_state_ c) v (pruned_ c) (use_candidate_attr_ c) (remote_ice_mode_ c) (requests_ c) (rtt_ c) (last_ping_sent_ c) (last_ping_received_ c) (last_data_received_ c) (last_ping_response_received_ c) (pings_since_last_response_ c) (reported_ c) (state_ c).
Definition put_pruned (v : bool) (c : Connection) : Connection :=
  mkConnection (local_candidate_index_ c) (remote_candidate_ c) (read_state_ c) (write_state_ c) (connected_ c) v (use_candidate_attr_ c) (remote_ice_mode_ c) (requests_ c) (rtt_ c) (last_ping_sent_ c) (last_ping_received_ c) (last_data_received_ c) (last_ping_response_received_ c) (pings_since_last_response_ c) (reported_ c) (state_ c).
Definition set_use_candidate_attr (v : bool) (c : Connection) : Connection :=
  mkConnection (local_candidate_index_ c) (remote_candidate_ c) (read_state_ c) (write_state_ c) (connected_ c) (pruned_ c) v (remote_ice_mode_ c) (requests_ c) (rtt_ c) (last_ping_sent_ c) (last_ping_received_ c) (last_data_received_ c) (last_ping_response_received_ c) (pings_since_last_response_ c) (reported_ c) (state_ c).
Definition set_remote_ice_mode (v : SessionDescription.IceMode) (c : Connection) : Connection :=
  mkConnection (local_candidate_index_ c) (remote_candidate_ c) (read_state_ c) (write_state_ c) (connected_ c) (pruned_ c) (use_candidate_attr_ c) v (requests_ c) (rtt_ c) (last_ping_sent_ c) (last_ping_received_ c) (last_data_received_ c) (last_ping_response_received_ c) (pings_since_last_response_ c) (reported_ c) (state_ c).
Definition put_requests (v : StunRequest.t) (c : Connection) : Connection :=
  mkConnection (local_candidate_index_ c) (remote_candidate_ c) (read_state_ c) (write_state_ c) (connected_ c) (pruned_ c) (use_candidate_attr_ c) (remote_ice_mode_ c) v (rtt_ c) (last_ping_sent_ c) (last_ping_received_ c) (last_data_received_ c) (last_ping_response_received_ c) (pings_since_last_response_ c) (reported_ c) (state_ c).
Definition put_rtt (v : Z) (c : Connection) : Connection :=
  mkConnection (local_candidate_index_ c) (remote_candidate_ c) (read_state_ c) (write_state_ c) (connected_ c) (pruned_ c) (use_candidate_attr_ c) (remote_ice_mode_ c) (requests_ c) v (last_ping_sent_ c) (last_ping_received_ c) (last_data_received_ c) (last_ping_response_received_ c) (pings_since_last_response_ c) (reported_ c) (state_ c).
Definition put_last_ping_sent (v : Z) (c : Connection) : Connection :=
  mkConnection (local_candidate_index_ c) (remote_candidate_ c) (read_state_ c) (write_state_ c) (connected_ c) (pruned_ c) (use_candidate_attr_ c) (remote_ice_mode_ c) (requests_ c) (rtt_ c) v (last_ping_received_ c) (last_data_received_ c) (last_ping_response_received_ c) (pings_since_last_response_ c) (reported_ c) (state_ c).
Definition put_last_ping_received (v : Z) (c : Connection) : Connection :=
  mkConnection (local_candidate_index_ c) (remote_candidate_ c) (read_state_ c) (write_state_ c) (connected_ c) (pruned_ c) (use_candidate_attr_ c) (remote_ice_mode_ c) (requests_ c) (rtt_ c) (last_ping_sent_ c) v (last_data_received_ c) (last_ping_response_received_ c) (pings_since_last_response_ c) (reported_ c) (state_ c).
Definition put_last_data_received (v : Z) (c : Connection) : Connection :=
  mkConnection (local_candidate_index_ c) (remote_candidate_ c) (read_state_ c) (write_state_ c) (connected_ c) (pruned_ c) (use_candidate_attr_ c) (remote_ice_mode_ c) (requests_ c) (rtt_ c) (last_ping_sent_ c) (last_ping_received_ c) v (last_ping_response_received_ c) (pings_since_last_response_ c) (reported_ c) (state_ c).
Definition put_last_ping_response_received (v : Z) (c : Connection) : Connection :=
  mkConnection (local_candidate_index_ c) (remote_candidate_ c) (read_state_ c) (write_state_ c) (connected_ c) (pruned_ c) (use_candidate_attr_ c) (remote_ice_mode_ c) (requests_ c) (rtt_ c) (last_ping_sent_ c) (last_ping_received_ c) (last_data_received_ c) v (pings_since_last_response_ c) (reported_ c) (state_ c).
Definition put_pings (v : list Z) (c : Connection) : Connection :=
  mkConnection (local_candidate_index_ c) (remote_candidate_ c) (read_state_ c) (write_state_ c) (connected_ c) (pruned_ c) (use_candidate_attr_ c) (remote_ice_mode_ c) (requests_ c) (rtt_ c) (last_ping_sent_ c) (last_ping_received_ c) (last_data_received_ c) (last_ping_response_received_ c) v (reported_ c) (state_ c).
Definition set_reported (v : bool) (c : Connection) : Connection :=
  mkConnection (local_candidate_index_ c) (remote_candidate_ c) (read_state_ c) (write_state_ c) (connected_ c) (pruned_ c) (use_candidate_attr_ c) (remote_ice_mode_ c) (requests_ c) (rtt_ c) (last_ping_sent_ c) (last_ping_received_ c) (last_data_received_ c) (last_ping_response_received_ c) (pings_since_last_response_ c) v (state_ c).
Definition set_state (v : State) (c : Connection) : Connection :=
  mkConnection (local_candidate_index_ c) (remote_candidate_ c) (read_state_ c) (write_state_ c) (connected_ c) (pruned_ c) (use_candidate_attr_ c) (remote_ice_mode_ c) (requests_ c) (rtt_ c) (last_ping_sent_ c) (last_ping_received_ c) (last_data_received_ c) (last_ping_response_received_ c) (pings_since_last_response_ c) (reported_ c) v.

(** The signals of a connection, and what it does with its thread: [PostDelete]
    is the message MSG_DELETE to itself. *)
Inductive conn_event :=
  | SignalStateChange
  | SignalReadPacket (data : bytes)
  | SignalReadyToSend
  | SignalUseCandidate
  | PostDelete.

Definition new (index : nat) (remote_candidate : SessionDescription.Candidate) : Connection :=
  mkConnection index remote_candidate STATE_READ_INIT STATE_WRITE_INIT true false false SessionDescription.ICEMODE_FULL
    StunRequest.new DEFAULT_RTT 0 0 0 0 [] false STATE_WAITING.

Definition readable (c : Connection) : bool := bool_decide (read_state_ c = STATE_READABLE).
Definition writable (c : Connection) : bool := bool_decide (write_state_ c = STATE_WRITABLE).

(** ** The tests on pings *)

Definition TooManyFailures (pings_since_last_response : list Z) (maximum_failures rtt_estimate now : Z) : bool :=
  if Z.of_nat (length pings_since_last_response) <? maximum_failures then false
  else u32 (nth (Z.to_nat (maximum_failures - 1)) pings_since_last_response 0 + rtt_estimate) <? now.

Definition TooLongWithoutResponse (pings_since_last_response : list Z) (maximum_time now : Z) : bool :=
  match pings_since_last_response with
  | [] => false
  | ping :: _ => u32 (ping + maximum_time) <? now
  end.

Definition ConservativeRTTEstimate (rtt : Z) : Z := Z.max MINIMUM_RTT (Z.min MAXIMUM_RTT (u32 (2 * rtt))).

(** ** The pair priority, of the local candidate's priority *)

Definition priority (role : IceRole) (local_priority : Z) (c : Connection) : Z :=
  match role with
  | ICEROLE_UNKNOWN => 0
  | _ =>
      let '(g, d) :=
        match role with
        | ICEROLE_CONTROLLING => (local_priority, SessionDescription.priority_ (remote_candidate_ c))
        | _ => (SessionDescription.priority_ (remote_candidate_ c), local_priority)
        end in
      let priority := u64 (Z.shiftl (Z.min g d) 32) in
      u64 (priority + u32 (u32 (2 * Z.max g d) + (if d <? g then 1 else 0)))
  end.

(** ** Changes of state *)

Definition CheckTimeout (c : Connection) : list conn_event :=
  if (bool_decide (read_state_ c = STATE_READ_TIMEOUT) || bool_decide (read_state_ c = STATE_READ_INIT)) &&
     bool_decide (write_state_ c = STATE_WRITE_TIMEOUT)
  then [PostDelete] else [].

Definition set_read_state (value : ReadState) (c : Connection) : Connection * list conn_event :=
  let old_value := read_state_ c in
  let c := put_read_state value c in
  (c, if negb (bool_decide (value = old_value)) then SignalStateChange :: CheckTimeout c else []).

Definition set_write_state (value : WriteState) (c : Connection) : Connection * list conn_event :=
  let old_value := write_state_ c in
  let c := put_write_state value c in
  (c, if negb (bool_decide (value = old_value)) then SignalStateChange :: CheckTimeout c else []).

(** Which signals a change of state may give. *)
Lemma state_events c e :
  (forall v, In e (set_read_state v c).2 -> e = SignalStateChange \/ e = PostDelete) /\
  (forall v, In e (set_write_state v c).2 -> e = SignalStateChange \/ e = PostDelete).
Proof.
  assert (Hc : forall c, In e (CheckTimeout c) -> e = PostDelete).
  { intros c'. unfold CheckTimeout. destruct (_ && _); [by intros [<-|[]]|done]. }
  split; intros v; cbn [set_read_state set_write_state snd]; destruct (negb _); try done; intros [<-|Hin%Hc]; auto.
Qed.

Definition OnReadyToSend (c : Connection) : list conn_event :=
  if bool_decide (write_state_ c = STATE_WRITABLE) then [SignalReadyToSend] else [].

Definition Prune (c : Connection) : option (Connection * list conn_event) :=
  if negb (pruned_ c) then
    let c := put_pruned true c in
    let? requests := StunRequest.Clear (requests_ c) in
    Some (set_write_state STATE_WRITE_TIMEOUT (put_requests requests c))
  else Some (c, []).

Definition Destroy (c : Connection) : Connection * list conn_event :=
  let '(c, evs) := set_read_state STATE_READ_TIMEOUT c in
  let '(c, evs') := set_write_state STATE_WRITE_TIMEOUT c in
  (c, evs ++ evs').

Definition ReceivedPing (now : Z) (c : Connection) : Connection * list conn_event :=
  set_read_state STATE_READABLE (put_last_ping_received now c).

(** [google]: the port's IsGoogleIce. *)
Definition UpdateState (google : bool) (now : Z) (c : Connection) : Connection * list conn_event :=
  let rtt := ConservativeRTTEstimate (rtt_ c) in
  let '(c, evs1) :=
    if google && bool_decide (read_state_ c = STATE_READABLE) &&
       (u32 (last_ping_received_ c + CONNECTION_READ_TIMEOUT) <=? now) &&
       (u32 (last_data_received_ c + CONNECTION_READ_TIMEOUT) <=? now)
    then set_read_state STATE_READ_TIMEOUT c else (c, []) in
  let '(c, evs2) :=
    if bool_decide (write_state_ c = STATE_WRITABLE) &&
       TooManyFailures (pings_since_last_response_ c) CONNECTION_WRITE_CONNECT_FAILURES rtt now &&
       TooLongWithoutResponse (pings_since_last_response_ c) CONNECTION_WRITE_CONNECT_TIMEOUT now
    then set_write_state STATE_WRITE_UNRELIABLE c else (c, []) in
  let '(c, evs3) :=
    if (bool_decide (write_state_ c = STATE_WRITE_UNRELIABLE) || bool_decide (write_state_ c = STATE_WRITE_INIT)) &&
       TooLongWithoutResponse (pings_since_last_response_ c) CONNECTION_WRITE_TIMEOUT now
    then set_write_state STATE_WRITE_TIMEOUT c else (c, []) in
  (c, evs1 ++ evs2 ++ evs3).

End IceConnection.
