(* ===== verification/IcePort.v ===== *)
(** * The Port of p2p/base/port.cc, and the connectivity checks

    A port owns its connections: [connections_] is the map from remote
    addresses, a connection is named by its address.  A port is one state with
    the random number generator; what it does (packets sent, signals) is a
    list of events.  SendTo is virtual: the packet sent is the event [SendTo].
    Assertions that the code goes on without are obligations ([None]), as are
    reads outside a packet.  [inet_ntop] is outside the sources. *)

From S2P Require Import Prelude TimeUtils ByteOrder ByteBuffer Crc32 Base64 IpAddress Stun StunWire Helpers StringConv StunRequest SessionDescription IceConnection.
Import ByteOrder TimeUtils IceConnection.
Open Scope jingle_scope.

Module IcePort.

Definition STUN_BINDING_REQUEST : Z := 0x0001.
Definition STUN_BINDING_INDICATION : Z := 0x0011.
Definition STUN_BINDING_RESPONSE : Z := 0x0101.
Definition STUN_BINDING_ERROR_RESPONSE : Z := 0x0111.
Definition STUN_ERROR_BAD_REQUEST : Z := 400.
Definition STUN_ERROR_UNAUTHORIZED : Z := 401.
Definition STUN_ERROR_UNKNOWN_ATTRIBUTE : Z := 420.
Definition STUN_ERROR_STALE_CREDENTIALS : Z := 430.
Definition STUN_ERROR_ROLE_CONFLICT : Z := 487.
Definition STUN_ERROR_SERVER_ERROR : Z := 500.
Definition STUN_ERROR_GLOBAL_FAILURE : Z := 600.
Definition STUN_ERROR_REASON_BAD_REQUEST : bytes := str "Bad Request".
Definition STUN_ERROR_REASON_UNAUTHORIZED : bytes := str "Unauthorized".
Definition STUN_ERROR_REASON_ROLE_CONFLICT : bytes := str "Role Conflict".
Definition ICE_UFRAG_LENGTH : nat := 16.
Definition ICE_PWD_LENGTH : nat := 24.
Definition ICE_CANDIDATE_COMPONENT_RTCP : Z := 2.
Definition ICE_CANDIDATE_COMPONENT_DEFAULT : Z := 1.
Definition ICE_TYPE_PREFERENCE_PRFLX : Z := 110.
Definition kPortTimeoutDelay : Z := 30 * 1000.
Definition PRFLX_PORT_TYPE : bytes := str "prflx".

Inductive ProtocolType := PROTO_UDP | PROTO_TCP | PROTO_SSLTCP.
Definition UDP_PROTOCOL_NAME : bytes := str "udp".
Definition TCP_PROTOCOL_NAME : bytes := str "tcp".
Definition SSLTCP_PROTOCOL_NAME : bytes := str "ssltcp".
Definition ProtoToString (proto : ProtocolType) : bytes :=
  match proto with PROTO_UDP => UDP_PROTOCOL_NAME | PROTO_TCP => TCP_PROTOCOL_NAME | PROTO_SSLTCP => SSLTCP_PROTOCOL_NAME end.
Definition StringToProto (value : bytes) : option ProtocolType :=
  if StringConv.stricmp_eq UDP_PROTOCOL_NAME value then Some PROTO_UDP
  else if StringConv.stricmp_eq TCP_PROTOCOL_NAME value then Some PROTO_TCP
  else if StringConv.stricmp_eq SSLTCP_PROTOCOL_NAME value then Some PROTO_SSLTCP
  else None.

Record Port := mkPort {
  type_ : bytes; send_retransmit_count_attribute_ : bool; network_preference : Z; network_name : bytes; ip_ : IpAddress.IPAddress;
  component_ : Z; generation_ : Z; ice_username_fragment_ : bytes; password_ : bytes;
  candidates_ : list SessionDescription.Candidate; connections_ : list (IpAddress.SocketAddress * Connection); timeout_delay_ : Z;
  enable_port_packets_ : bool; ice_protocol_ : SessionDescription.TransportProtocol; ice_role_ : IceRole; tiebreaker_ : Z; shared_socket_ : bool;
}.

Definition set_send_retransmit_count_attribute (v : bool) (p : Port) : Port :=
  mkPort (type_ p) v (network_preference p) (network_name p) (ip_ p) (component_ p) (generation_ p) (ice_username_fragment_ p) (password_ p) (candidates_ p) (connections_ p) (timeout_delay_ p) (enable_port_packets_ p) (ice_protocol_ p) (ice_role_ p) (tiebreaker_ p) (shared_socket_ p).
Definition set_component (v : Z) (p : Port) : Port :=
  mkPort (type_ p) (send_retransmit_count_attribute_ p) (network_preference p) (network_name p) (ip_ p) v (generation_ p) (ice_username_fragment_ p) (password_ p) (candidates_ p) (connections_ p) (timeout_delay_ p) (enable_port_packets_ p) (ice_protocol_ p) (ice_role_ p) (tiebreaker_ p) (shared_socket_ p).
Definition set_generation (v : Z) (p : Port) : Port :=
  mkPort (type_ p) (send_retransmit_count_attribute_ p) (network_preference p) (network_name p) (ip_ p) (component_ p) v (ice_username_fragment_ p) (password_ p) (candidates_ p) (connections_ p) (timeout_delay_ p) (enable_port_packets_ p) (ice_protocol_ p) (ice_role_ p) (tiebreaker_ p) (shared_socket_ p).
Definition put_candidates (v : list SessionDescription.Candidate) (p : Port) : Port :=
  mkPort (type_ p) (send_retransmit_count_attribute_ p) (network_preference p) (network_name p) (ip_ p) (component_ p) (generation_ p) (ice_username_fragment_ p) (password_ p) v (connections_ p) (timeout_delay_ p) (enable_port_packets_ p) (ice_protocol_ p) (ice_role_ p) (tiebreaker_ p) (shared_socket_ p).
Definition put_connections (v : list (IpAddress.SocketAddress * Connection)) (p : Port) : Port :=
  mkPort (type_ p) (send_retransmit_count_attribute_ p) (network_preference p) (network_name p) (ip_ p) (component_ p) (generation_ p) (ice_username_fragment_ p) (password_ p) (candidates_ p) v (timeout_delay_ p) (enable_port_packets_ p) (ice_protocol_ p) (ice_role_ p) (tiebreaker_ p) (shared_socket_ p).
Definition put_enable_port_packets (v : bool) (p : Port) : Port :=
  mkPort (type_ p) (send_retransmit_count_attribute_ p) (network_preference p) (network_name p) (ip_ p) (component_ p) (generation_ p) (ice_username_fragment_ p) (password_ p) (candidates_ p) (connections_ p) (timeout_delay_ p) v (ice_protocol_ p) (ice_role_ p) (tiebreaker_ p) (shared_socket_ p).
Definition SetIceProtocolType (v : SessionDescription.TransportProtocol) (p : Port) : Port :=
  mkPort (type_ p) (send_retransmit_count_attribute_ p) (network_preference p) (network_name p) (ip_ p) (component_ p) (generation_ p) (ice_username_fragment_ p) (password_ p) (candidates_ p) (connections_ p) (timeout_delay_ p) (enable_port_packets_ p) v (ice_role_ p) (tiebreaker_ p) (shared_socket_ p).
Definition SetIceRole (v : IceRole) (p : Port) : Port :=
  mkPort (type_ p) (send_retransmit_count_attribute_ p) (network_preference p) (network_name p) (ip_ p) (component_ p) (generation_ p) (ice_username_fragment_ p) (password_ p) (candidates_ p) (connections_ p) (timeout_delay_ p) (enable_port_packets_ p) (ice_protocol_ p) v (tiebreaker_ p) (shared_socket_ p).
Definition SetIceTiebreaker (v : Z) (p : Port) : Port :=
  mkPort (type_ p) (send_retransmit_count_attribute_ p) (network_preference p) (network_name p) (ip_ p) (component_ p) (generation_ p) (ice_username_fragment_ p) (password_ p) (candidates_ p) (connections_ p) (timeout_delay_ p) (enable_port_packets_ p) (ice_protocol_ p) (ice_role_ p) v (shared_socket_ p).

#[local] Existing Instances SessionDescription.TransportProtocol_eq_dec IpAddress.family_eq_dec.

Inductive event :=
  | SendTo (data : bytes) (addr : IpAddress.SocketAddress)
  | Conn (addr : IpAddress.SocketAddress) (e : conn_event)
  | SignalConnectionCreated (addr : IpAddress.SocketAddress)
  | SignalDestroyed (addr : IpAddress.SocketAddress)
  | SignalCandidateReady (c : SessionDescription.Candidate)
  | SignalPortComplete
  | SignalRoleConflict
  | SignalUnknownAddress (addr : IpAddress.SocketAddress) (proto : ProtocolType) (msg : Stun.StunMessage) (username : bytes)
  | PortReadPacket (data : bytes) (addr : IpAddress.SocketAddress)
  | PostCheckTimeout (delay : Z)
  | PortDestroyed.

Definition IsStandardIce (p : Port) : bool := bool_decide (ice_protocol_ p = SessionDescription.ICEPROTO_RFC5245).
Definition IsGoogleIce (p : Port) : bool := bool_decide (ice_protocol_ p = SessionDescription.ICEPROTO_GOOGLE).
Definition IsHybridIce (p : Port) : bool := bool_decide (ice_protocol_ p = SessionDescription.ICEPROTO_HYBRID).

(** The inner [None] of the base64 table leaves the character uninitialised. *)
Definition GetRtcpUfragFromRtpUfrag (rtp_ufrag : bytes) : option bytes :=
  match rev rtp_ufrag with
  | [] => Some rtp_ufrag
  | last :: front =>
      match Base64.GetNextBase64Char last with
      | Some (Some new_last_char) => Some (rev front ++ [new_last_char])
      | _ => None
      end
  end.

Definition username_fragment (p : Port) : option bytes :=
  if negb (IsStandardIce p) && (component_ p =? ICE_CANDIDATE_COMPONENT_RTCP)
  then GetRtcpUfragFromRtpUfrag (ice_username_fragment_ p)
  else Some (ice_username_fragment_ p).

(** std::string::find of a character, and of the values of attributes. *)
Fixpoint find_char (ch : Z) (s : bytes) : option nat :=
  match s with
  | [] => None
  | c :: s => if c =? ch then Some 0%nat else option_map S (find_char ch s)
  end.
Definition colon : Z := chr ":".
Definition GetString (a : Stun.StunAttribute) : bytes :=
  match Stun.value_ a with Stun.StunByteStringAttribute b => b | _ => [] end.
Definition value (a : Stun.StunAttribute) : Z :=
  match Stun.value_ a with Stun.StunUInt32Attribute v | Stun.StunUInt64Attribute v => v | _ => 0 end.

Section Ops.
Context `{HM : Machine} `{HR : Helpers.RandomGenerator}.
Variable inet_ntop : IpAddress.family -> bytes -> option bytes.

(** The keys of the map, by operator<. *)
Definition same_key (a b : IpAddress.SocketAddress) : bool := negb (IpAddress.sa_ltb a b) && negb (IpAddress.sa_ltb b a).
Definition GetConnection (remote_addr : IpAddress.SocketAddress) (p : Port) : option Connection :=
  option_map snd (find (fun e => same_key e.1 remote_addr) (connections_ p)).
Definition put_connection (addr : IpAddress.SocketAddress) (c : Connection) (p : Port) : Port :=
  put_connections (map (fun e => if same_key e.1 addr then (e.1, c) else e)
                     (connections_ p)) p.
Definition put_conn (addr : IpAddress.SocketAddress) (r : Connection * list conn_event) (p : Port) : Port * list event :=
  (put_connection addr r.1 p, map (Conn addr) r.2).

Definition addr_of (c : Connection) : IpAddress.SocketAddress := SessionDescription.address_ (remote_candidate_ c).

Definition IPToString (ip : IpAddress.IPAddress) : bytes :=
  match IpAddress.family_ ip with
  | IpAddress.AF_UNSPEC => []
  | IpAddress.AF_INET => default [] (inet_ntop IpAddress.AF_INET (IpAddress.ipv4_address ip))
  | IpAddress.AF_INET6 => default [] (inet_ntop IpAddress.AF_INET6 (IpAddress.ipv6_address ip))
  end.
Definition ComputeFoundation (type protocol : bytes) (base_address : IpAddress.SocketAddress) : bytes :=
  StringConv.ToString_int (Crc32.ComputeCrc32 (type ++ IPToString (IpAddress.ip_ base_address) ++ protocol)).

(** ** Creation, candidates and connections *)

Definition random_string (len : nat) (g : Helpers.rng) : bytes * Helpers.rng :=
  let '(s, g) := Helpers.CreateRandomString len g in (default [] s, g).

Definition Construct (p : Port) (g : Helpers.rng) : option (Port * Helpers.rng) :=
  if bool_decide (ice_username_fragment_ p = []) then
    require! bool_decide (password_ p = []) in
    let '(ufrag, g) := random_string ICE_UFRAG_LENGTH g in
    let '(pwd, g) := random_string ICE_PWD_LENGTH g in
    Some (mkPort (type_ p) (send_retransmit_count_attribute_ p) (network_preference p) (network_name p) (ip_ p) (component_ p)
            (generation_ p) ufrag pwd (candidates_ p) (connections_ p) (timeout_delay_ p) (enable_port_packets_ p)
            (ice_protocol_ p) (ice_role_ p) (tiebreaker_ p) (shared_socket_ p), g)
  else Some (p, g).
Definition new_port (type : bytes) (network_preference : Z) (network_name : bytes) (ip : IpAddress.IPAddress)
    (username_fragment password : bytes) (shared_socket : bool) (g : Helpers.rng) : option (Port * Helpers.rng) :=
  Construct (mkPort type false network_preference network_name ip ICE_CANDIDATE_COMPONENT_DEFAULT 0 username_fragment password
               [] [] kPortTimeoutDelay false SessionDescription.ICEPROTO_HYBRID ICEROLE_UNKNOWN 0 shared_socket) g.

Definition AddAddress (address base_address related_address : IpAddress.SocketAddress) (protocol type : bytes)
    (type_preference : Z) (final : bool) (p : Port) (g : Helpers.rng) : option (Port * Helpers.rng * list event) :=
  let '(id, g) := random_string 8 g in
  let? ufrag := username_fragment p in
  let c := SessionDescription.mkCandidate id (component_ p) protocol address 0 ufrag (password_ p) type (network_name p)
             (generation_ p) (ComputeFoundation type protocol base_address) related_address in
  let c := SessionDescription.mkCandidate id (component_ p) protocol address
             (SessionDescription.GetPriority type_preference (network_preference p) c) ufrag (password_ p) type (network_name p)
             (generation_ p) (ComputeFoundation type protocol base_address) related_address in
  Some (put_candidates (candidates_ p ++ [c]) p, g,
        SignalCandidateReady c :: if final then [SignalPortComplete] else []).

Definition AddConnection (conn : Connection) (p : Port) : Port * list event :=
  let addr := addr_of conn in
  (match GetConnection addr p with
   | Some _ => put_connection addr conn p
   | None => put_connections (connections_ p ++ [(addr, conn)]) p
   end, [SignalConnectionCreated addr]).

Definition OnReadyToSend (p : Port) : list event :=
  concat (map (fun e => map (Conn e.1) (IceConnection.OnReadyToSend e.2)) (connections_ p)).
Definition AddPrflxCandidate (local : SessionDescription.Candidate) (p : Port) : nat * Port :=
  (length (candidates_ p), put_candidates (candidates_ p ++ [local]) p).
Definition EnablePortPackets (p : Port) : Port := put_enable_port_packets true p.

Definition IsCompatibleAddress (addr : IpAddress.SocketAddress) (p : Port) : bool :=
  let family := IpAddress.family_ (ip_ p) in
  if negb (bool_decide (IpAddress.family_ (IpAddress.ip_ addr) = family)) then false
  else if bool_decide (family = IpAddress.AF_INET6) &&
          negb (Bool.eqb (IpAddress.IPIsPrivate (ip_ p)) (IpAddress.IPIsPrivate (IpAddress.ip_ addr)))
  then false else true.

(** ** Usernames *)

(** The local and the remote fragment, and the protocol of the sender. *)
Definition ParseStunUsername (stun_msg : Stun.StunMessage) (p : Port) :
    option (option (bytes * bytes * SessionDescription.TransportProtocol)) :=
  match Stun.GetByteString Stun.STUN_ATTR_USERNAME stun_msg with
  | None => Some None
  | Some username_attr =>
      let username_attr_str := GetString username_attr in
      let colon_pos := find_char colon username_attr_str in
      let remote_protocol_type :=
        if IsHybridIce p then match colon_pos with Some _ => SessionDescription.ICEPROTO_RFC5245 | None => SessionDescription.ICEPROTO_GOOGLE end
        else ice_protocol_ p in
      match remote_protocol_type with
      | SessionDescription.ICEPROTO_RFC5245 =>
          match colon_pos with
          | Some colon_pos => Some (Some (take colon_pos username_attr_str, drop (colon_pos + 1) username_attr_str, remote_protocol_type))
          | None => Some None
          end
      | SessionDescription.ICEPROTO_GOOGLE =>
          let? ufrag := username_fragment p in
          if (Z.of_nat (length username_attr_str) - Z.of_nat (length ufrag) <? 0) then Some None
          else Some (Some (take (length ufrag) username_attr_str, drop (length ufrag) username_attr_str, remote_protocol_type))
      | SessionDescription.ICEPROTO_HYBRID => Some (Some ([], [], remote_protocol_type))
      end
  end.

Definition CreateStunUsername (remote_username : bytes) (p : Port) : option bytes :=
  let? ufrag := username_fragment p in
  Some (remote_username ++ (if IsStandardIce p then [colon] else []) ++ ufrag).

(** ** Responses *)

Definition add_attr (a : Stun.StunAttribute) (m : Stun.StunMessage) : Stun.StunMessage :=
  (Stun.AddAttribute Stun.StunMessageClass a m).2.
Definition written (m : Stun.StunMessage) : bytes :=
  ByteBuffer.contents (Stun.Write m (ByteBuffer.new_empty ByteBuffer.ORDER_NETWORK)).2.

Definition SendBindingErrorResponse (request : Stun.StunMessage) (addr : IpAddress.SocketAddress) (error_code : Z) (reason : bytes)
    (p : Port) : option (list event) :=
  require! (Stun.type_ request =? STUN_BINDING_REQUEST) in
  let response := Stun.SetType STUN_BINDING_ERROR_RESPONSE Stun.new_message in
  let response := (Stun.SetTransactionID (Stun.transaction_id_ request) response).2 in
  let error_attr := Stun.CreateErrorCode in
  let error_attr :=
    if IsStandardIce p then Stun.SetCode error_code error_attr
    else if IsGoogleIce p then Stun.SetNumber (u8 (Z.rem error_code 256)) (Stun.SetClass (u8 (error_code ÷ 256)) error_attr)
    else error_attr in
  let error_attr := Stun.SetReason reason error_attr in
  let response := add_attr error_attr response in
  let response :=
    if IsStandardIce p then
      let response :=
        if negb (error_code =? STUN_ERROR_BAD_REQUEST) && negb (error_code =? STUN_ERROR_UNAUTHORIZED)
        then (Stun.AddMessageIntegrity Stun.StunMessageClass (password_ p) response).2 else response in
      (Stun.AddFingerprint Stun.StunMessageClass response).2
    else if IsGoogleIce p then
      match Stun.GetByteString Stun.STUN_ATTR_USERNAME request with
      | Some username_attr => add_attr (Stun.new_byte_string Stun.STUN_ATTR_USERNAME (GetString username_attr)) response
      | None => response
      end
    else response in
  Some [SendTo (written response) addr].

Definition binding_response (request : Stun.StunMessage) (username_attr : Stun.StunAttribute) (addr : IpAddress.SocketAddress)
    (p : Port) : Stun.StunMessage :=
  let response := Stun.SetType STUN_BINDING_RESPONSE Stun.new_message in
  let response := (Stun.SetTransactionID (Stun.transaction_id_ request) response).2 in
  let response :=
    match Stun.GetUInt32 Stun.STUN_ATTR_RETRANSMIT_COUNT request with
    | Some retransmit_attr => add_attr (Stun.new_uint32 Stun.STUN_ATTR_RETRANSMIT_COUNT (value retransmit_attr)) response
    | None => response
    end in
  if IsStandardIce p then
    let response := add_attr (Stun.new_xor_address Stun.STUN_ATTR_XOR_MAPPED_ADDRESS addr) response in
    let response := (Stun.AddMessageIntegrity Stun.StunMessageClass (password_ p) response).2 in
    (Stun.AddFingerprint Stun.StunMessageClass response).2
  else if IsGoogleIce p then
    let response := add_attr (Stun.new_address Stun.STUN_ATTR_MAPPED_ADDRESS addr) response in
    add_attr (Stun.new_byte_string Stun.STUN_ATTR_USERNAME (GetString username_attr)) response
  else response.

Definition SendBindingResponse (now : Z) (request : Stun.StunMessage) (addr : IpAddress.SocketAddress) (p : Port) :
    option (Port * list event) :=
  require! (Stun.type_ request =? STUN_BINDING_REQUEST) in
  match Stun.GetByteString Stun.STUN_ATTR_USERNAME request with
  | None => Some (p, [])
  | Some username_attr =>
      let response := binding_response request username_attr addr p in
      let '(p, evs) :=
        match GetConnection addr p with
        | Some conn => put_conn addr (ReceivedPing now conn) p
        | None => (p, [])
        end in
      Some (p, SendTo (written response) addr :: evs)
  end.

(** ** Packets *)

Inductive stun_result :=
  | NotStun
  | Handled
  | Message (msg : Stun.StunMessage) (username : bytes).

Definition GetStunMessage (data : bytes) (addr : IpAddress.SocketAddress) (p : Port) :
    option (stun_result * Port * list event) :=
  if IsStandardIce p && negb (Stun.ValidateFingerprint data) then Some (NotStun, p, [])
  else
    let '(ok, stun_msg, buf) := Stun.Read Stun.IceMessage Stun.new_message (ByteBuffer.new_from data ByteBuffer.ORDER_NETWORK) in
    if negb ok || (0 <? ByteBuffer.Length buf)%nat then Some (NotStun, p, [])
    else if Stun.type_ stun_msg =? STUN_BINDING_REQUEST then
      if negb (bool_decide (is_Some (Stun.GetByteString Stun.STUN_ATTR_USERNAME stun_msg))) ||
         (IsStandardIce p && negb (bool_decide (is_Some (Stun.GetByteString Stun.STUN_ATTR_MESSAGE_INTEGRITY stun_msg))))
      then
        let? evs := SendBindingErrorResponse stun_msg addr STUN_ERROR_BAD_REQUEST STUN_ERROR_REASON_BAD_REQUEST p in
        Some (Handled, p, evs)
      else
        let? parsed := ParseStunUsername stun_msg p in
        let? good :=
          match parsed with
          | Some (local_ufrag, remote_ufrag, remote_protocol_type) =>
              let? local := username_fragment p in
              Some (if bool_decide (local_ufrag = local) then Some (remote_ufrag, remote_protocol_type) else None)
          | None => Some None
          end in
        match good with
        | None =>
            let? evs := SendBindingErrorResponse stun_msg addr STUN_ERROR_UNAUTHORIZED STUN_ERROR_REASON_UNAUTHORIZED p in
            Some (Handled, p, evs)
        | Some (remote_ufrag, remote_protocol_type) =>
            let p := if IsHybridIce p then SetIceProtocolType remote_protocol_type p else p in
            let? valid := if IsStandardIce p then Stun.ValidateMessageIntegrity data (password_ p) else Some true in
            if negb valid then
              let? evs := SendBindingErrorResponse stun_msg addr STUN_ERROR_UNAUTHORIZED STUN_ERROR_REASON_UNAUTHORIZED p in
              Some (Handled, p, evs)
            else Some (Message stun_msg remote_ufrag, p, [])
        end
    else if Stun.type_ stun_msg =? STUN_BINDING_RESPONSE then Some (Message stun_msg [], p, [])
    else if Stun.type_ stun_msg =? STUN_BINDING_ERROR_RESPONSE then
      match Stun.GetErrorCode stun_msg with
      | Some _ => Some (Message stun_msg [], p, [])
      | None => Some (Handled, p, [])
      end
    else if Stun.type_ stun_msg =? STUN_BINDING_INDICATION then Some (Message stun_msg [], p, [])
    else Some (Handled, p, []).

(** Is the check to go on? *)
Definition MaybeIceRoleConflict (addr : IpAddress.SocketAddress) (stun_msg : Stun.StunMessage) (remote_ufrag : bytes) (p : Port) :
    option (bool * list event) :=
  let '(remote_ice_role, remote_tiebreaker) :=
    match Stun.GetUInt64 Stun.STUN_ATTR_ICE_CONTROLLING stun_msg with
    | Some stun_attr => (ICEROLE_CONTROLLING, value stun_attr)
    | None => (ICEROLE_UNKNOWN, 0)
    end in
  let? loopback :=
    if bool_decide (remote_ice_role = ICEROLE_CONTROLLING) then
      let? local := username_fragment p in
      Some (bool_decide (local = remote_ufrag) && (remote_tiebreaker =? tiebreaker_ p))
    else Some false in
  if loopback then Some (true, [])
  else
    let '(remote_ice_role, remote_tiebreaker) :=
      match Stun.GetUInt64 Stun.STUN_ATTR_ICE_CONTROLLED stun_msg with
      | Some stun_attr => (ICEROLE_CONTROLLED, value stun_attr)
      | None => (remote_ice_role, remote_tiebreaker)
      end in
    let refuse :=
      let? evs := SendBindingErrorResponse stun_msg addr STUN_ERROR_ROLE_CONFLICT STUN_ERROR_REASON_ROLE_CONFLICT p in
      Some (false, evs) in
    match ice_role_ p with
    | ICEROLE_CONTROLLING =>
        if bool_decide (ICEROLE_CONTROLLING = remote_ice_role) then
          if tiebreaker_ p <=? remote_tiebreaker then Some (true, [SignalRoleConflict]) else refuse
        else Some (true, [])
    | ICEROLE_CONTROLLED =>
        if bool_decide (ICEROLE_CONTROLLED = remote_ice_role) then
          if remote_tiebreaker <? tiebreaker_ p then Some (true, [SignalRoleConflict]) else refuse
        else Some (true, [])
    | ICEROLE_UNKNOWN => None
    end.

(** A packet from an address without a connection. *)
Definition OnReadPacket (data : bytes) (addr : IpAddress.SocketAddress) (proto : ProtocolType) (p : Port) :
    option (Port * list event) :=
  if enable_port_packets_ p then Some (p, [PortReadPacket data addr])
  else
    let? (r, p, evs) := GetStunMessage data addr p in
    match r with
    | NotStun | Handled => Some (p, evs)
    | Message msg remote_username =>
        if Stun.type_ msg =? STUN_BINDING_REQUEST then
          let? (go_on, evs') := if IsStandardIce p then MaybeIceRoleConflict addr msg remote_username p else Some (true, []) in
          if negb go_on then Some (p, evs ++ evs')
          else Some (p, evs ++ evs' ++ [SignalUnknownAddress addr proto msg remote_username])
        else Some (p, evs)
    end.

(** ** ConnectionRequest, and the operations of a connection on its port *)

Definition local_candidate (c : Connection) (p : Port) : option SessionDescription.Candidate :=
  candidates_ p !! local_candidate_index_ c.
Definition priority (c : Connection) (p : Port) : option Z :=
  match ice_role_ p with
  | ICEROLE_UNKNOWN => Some 0
  | role =>
      let? local := local_candidate c p in
      Some (IceConnection.priority role (SessionDescription.priority_ local) c)
  end.

Definition ice_attr (a : Stun.StunAttribute) (m : Stun.StunMessage) : Stun.StunMessage :=
  (Stun.AddAttribute Stun.IceMessage a m).2.

(** What Prepare reads of the connection and its port. *)
Definition Prepare (username : bytes) (local_priority : Z) (c : Connection) (p : Port) (request : Stun.StunMessage) : Stun.StunMessage :=
  let request := Stun.SetType STUN_BINDING_REQUEST request in
  let request := ice_attr (Stun.new_byte_string Stun.STUN_ATTR_USERNAME username) request in
  let request :=
    if send_retransmit_count_attribute_ p
    then ice_attr (Stun.new_uint32 Stun.STUN_ATTR_RETRANSMIT_COUNT (u32 (Z.of_nat (length (pings_since_last_response_ c)) - 1))) request
    else request in
  if IsStandardIce p then
    let request :=
      match ice_role_ p with
      | ICEROLE_CONTROLLING =>
          let request := ice_attr (Stun.new_uint64 Stun.STUN_ATTR_ICE_CONTROLLING (tiebreaker_ p)) request in
          if use_candidate_attr_ c then ice_attr (Stun.new_byte_string Stun.STUN_ATTR_USE_CANDIDATE []) request else request
      | ICEROLE_CONTROLLED => ice_attr (Stun.new_uint64 Stun.STUN_ATTR_ICE_CONTROLLED (tiebreaker_ p)) request
      | ICEROLE_UNKNOWN => request
      end in
    let prflx_priority := Z.lor (Z.shiftl ICE_TYPE_PREFERENCE_PRFLX 24) (Z.land local_priority 0x00FFFFFF) in
    let request := ice_attr (Stun.new_uint32 Stun.STUN_ATTR_PRIORITY prflx_priority) request in
    let request := (Stun.AddMessageIntegrity Stun.IceMessage (SessionDescription.password_ (remote_candidate_ c)) request).2 in
    (Stun.AddFingerprint Stun.IceMessage request).2
  else request.

(** [h] is the pointer to the new request. *)
Definition Ping (now h : Z) (c : Connection) (p : Port) (g : Helpers.rng) : option (Connection * Helpers.rng) :=
  require! connected_ c in
  let c := put_pings (pings_since_last_response_ c ++ [now]) (put_last_ping_sent now c) in
  let? username := CreateStunUsername (SessionDescription.username_ (remote_candidate_ c)) p in
  let? local := local_candidate c p in
  require! negb (IsStandardIce p) || negb (bool_decide (ice_role_ p = ICEROLE_UNKNOWN)) in
  let prepare := Prepare username (SessionDescription.priority_ local) c p in
  let '(req, g) := StunRequest.new_request Stun.new_message Stun.IceMessage prepare (StunRequest.Once CONNECTION_RESPONSE_TIMEOUT) g in
  let? requests := StunRequest.Send now h (StunRequest.set_request h req (requests_ c)) in
  Some (set_state STATE_INPROGRESS (put_requests requests c), g).

(** The thread dispatches a message of the connection's requests:
    OnSendStunPacket; OnConnectionRequestTimeout only logs. *)
Definition Pump (now : Z) (c : Connection) : option (Connection * list event) :=
  let? (evs, requests) := StunRequest.pump now (requests_ c) in
  Some (put_requests requests c,
        concat (map (fun e => match e with StunRequest.SendPacket _ data => [SendTo data (addr_of c)] | _ => [] end) evs)).

Definition MaybeAddPrflxCandidate (request : StunRequest.Request) (response : Stun.StunMessage) (addr : IpAddress.SocketAddress)
    (c : Connection) (p : Port) (g : Helpers.rng) : option (Connection * Port * Helpers.rng * list event) :=
  match Stun.GetAddress Stun.STUN_ATTR_XOR_MAPPED_ADDRESS response with
  | None => Some (c, p, g, [])
  | Some addr_attr =>
      let mapped := Stun.GetSocketAddress addr_attr in
      if existsb (fun cand => IpAddress.sa_eqb (SessionDescription.address_ cand) mapped) (candidates_ p) then Some (c, p, g, [])
      else
        match Stun.GetUInt32 Stun.STUN_ATTR_PRIORITY (StunRequest.msg_ request) with
        | None => Some (c, p, g, [])
        | Some priority_attr =>
            let '(id, g) := random_string 8 g in
            let? local := local_candidate c p in
            let new_local_candidate :=
              SessionDescription.mkCandidate id (SessionDescription.component_ local) (SessionDescription.cand_protocol local) mapped
                (value priority_attr) (SessionDescription.username_ local) (SessionDescription.password_ local) PRFLX_PORT_TYPE
                (SessionDescription.network_name_ local) 0
                (ComputeFoundation PRFLX_PORT_TYPE (SessionDescription.cand_protocol local) (SessionDescription.address_ local))
                (SessionDescription.address_ local) in
            let '(index, p) := AddPrflxCandidate new_local_candidate p in
            Some (put_local_candidate_index index c, p, g, [Conn addr SignalStateChange])
        end
  end.

Definition OnConnectionRequestResponse (now : Z) (request : StunRequest.Request) (response : Stun.StunMessage)
    (addr : IpAddress.SocketAddress) (c : Connection) (p : Port) (g : Helpers.rng) :
    option (Connection * Port * Helpers.rng * list event) :=
  let rtt := StunRequest.Elapsed now request in
  let '(c, evs1) := set_write_state STATE_WRITABLE c in
  let c := set_state STATE_SUCCEEDED c in
  let '(c, evs2) :=
    match remote_ice_mode_ c with SessionDescription.ICEMODE_LITE => ReceivedPing now c | SessionDescription.ICEMODE_FULL => (c, []) end in
  let c := put_last_ping_response_received now (put_pings [] c) in
  let c := put_rtt (u32 (u32 (RTT_RATIO * rtt_ c) + rtt) / (RTT_RATIO + 1)) c in
  let evs := map (Conn addr) (evs1 ++ evs2) in
  if IsStandardIce p then
    let? (c, p, g, evs') := MaybeAddPrflxCandidate request response addr c p g in Some (c, p, g, evs ++ evs')
  else Some (c, p, g, evs).

Definition eclass (a : Stun.StunAttribute) : Z := match Stun.value_ a with Stun.StunErrorCodeAttribute c _ _ => c | _ => 0 end.
Definition number (a : Stun.StunAttribute) : Z := match Stun.value_ a with Stun.StunErrorCodeAttribute _ n _ => n | _ => 0 end.

Definition OnConnectionRequestErrorResponse (response : Stun.StunMessage) (addr : IpAddress.SocketAddress) (c : Connection) (p : Port) :
    Connection * list event :=
  let error_code :=
    match Stun.GetErrorCode response with
    | Some error_attr => if IsGoogleIce p then eclass error_attr * 256 + number error_attr else Stun.code error_attr
    | None => STUN_ERROR_GLOBAL_FAILURE
    end in
  if (error_code =? STUN_ERROR_UNKNOWN_ATTRIBUTE) || (error_code =? STUN_ERROR_SERVER_ERROR) || (error_code =? STUN_ERROR_UNAUTHORIZED)
  then (c, [])
  else if error_code =? STUN_ERROR_STALE_CREDENTIALS then (c, [])
  else if error_code =? STUN_ERROR_ROLE_CONFLICT then (c, [SignalRoleConflict])
  else
    let '(c, evs) := set_write_state STATE_WRITE_TIMEOUT (set_state STATE_FAILED c) in (c, map (Conn addr) evs).

(** requests_.CheckResponse, with the callback of the request. *)
Definition CheckResponse (now : Z) (msg : Stun.StunMessage) (addr : IpAddress.SocketAddress) (c : Connection) (p : Port)
    (g : Helpers.rng) : option (Connection * Port * Helpers.rng * list event) :=
  let? (_, evs, requests) := StunRequest.CheckResponse_msg msg (requests_ c) in
  let old := StunRequest.heap (requests_ c) in
  let c := put_requests requests c in
  match evs with
  | StunRequest.OnResponse h response :: _ =>
      let? request := old !! h in OnConnectionRequestResponse now request response addr c p g
  | StunRequest.OnErrorResponse h response :: _ =>
      let '(c, evs) := OnConnectionRequestErrorResponse response addr c p in Some (c, p, g, evs)
  | _ => Some (c, p, g, [])
  end.

(** A packet of the connection at [addr] that is not STUN. *)
Definition received_data (now : Z) (data : bytes) (c : Connection) : Connection * list conn_event :=
  if bool_decide (read_state_ c = STATE_READABLE) then
    let c := put_last_data_received now c in
    let '(c, evs) :=
      if negb (pruned_ c) && bool_decide (write_state_ c = STATE_WRITE_TIMEOUT) then set_write_state STATE_WRITE_INIT c else (c, []) in
    (c, SignalReadPacket data :: evs)
  else (c, []).

(** A binding request with the username of the remote candidate, which has
    passed the port's checks. *)
Definition received_request (now : Z) (msg : Stun.StunMessage) (addr : IpAddress.SocketAddress) (p : Port) :
    option (Port * list event) :=
  let? (p, evs) := SendBindingResponse now msg addr p in
  let? c := GetConnection addr p in
  let '(p, evs') :=
    if negb (pruned_ c) && bool_decide (write_state_ c = STATE_WRITE_TIMEOUT)
    then put_conn addr (set_write_state STATE_WRITE_INIT c) p else (p, []) in
  let evs'' :=
    if IsStandardIce p && bool_decide (ice_role_ p = ICEROLE_CONTROLLED) &&
       bool_decide (is_Some (Stun.GetByteString Stun.STUN_ATTR_USE_CANDIDATE msg))
    then [Conn addr SignalUseCandidate] else [] in
  Some (p, evs ++ evs' ++ evs'').

(** Connection::OnReadPacket of the connection at [addr]. *)
Definition conn_OnReadPacket (now : Z) (data : bytes) (addr : IpAddress.SocketAddress) (p : Port) (g : Helpers.rng) :
    option (Port * Helpers.rng * list event) :=
  let? c := GetConnection addr p in
  let? (r, p, evs) := GetStunMessage data addr p in
  match r with
  | NotStun => let '(p, evs') := put_conn addr (received_data now data c) p in Some (p, g, evs ++ evs')
  | Handled => Some (p, g, evs)
  | Message msg remote_ufrag =>
      if Stun.type_ msg =? STUN_BINDING_REQUEST then
        if bool_decide (remote_ufrag = SessionDescription.username_ (remote_candidate_ c)) then
          let? (go_on, evs1) := if IsStandardIce p then MaybeIceRoleConflict addr msg remote_ufrag p else Some (true, []) in
          if negb go_on then Some (p, g, evs ++ evs1)
          else let? (p, evs2) := received_request now msg addr p in Some (p, g, evs ++ evs1 ++ evs2)
        else
          let? evs1 := SendBindingErrorResponse msg addr STUN_ERROR_UNAUTHORIZED STUN_ERROR_REASON_UNAUTHORIZED p in
          Some (p, g, evs ++ evs1)
      else if (Stun.type_ msg =? STUN_BINDING_RESPONSE) || (Stun.type_ msg =? STUN_BINDING_ERROR_RESPONSE) then
        let? valid :=
          if IsGoogleIce p then Some true
          else Stun.ValidateMessageIntegrity data (SessionDescription.password_ (remote_candidate_ c)) in
        if valid then
          let? (c, p, g, evs') := CheckResponse now msg addr c p g in Some (put_connection addr c p, g, evs ++ evs')
        else Some (p, g, evs)
      else if Stun.type_ msg =? STUN_BINDING_INDICATION then
        if IsStandardIce p && bool_decide (read_state_ c = STATE_READABLE) then
          let '(p, evs') := put_conn addr (ReceivedPing now c) p in Some (p, g, evs ++ evs')
        else Some (p, g, evs)
      else None
  end.

(** ** Deletion *)

Definition OnConnectionDestroyed (addr : IpAddress.SocketAddress) (p : Port) : option (Port * list event) :=
  let? _ := GetConnection addr p in
  Some (put_connections (List.filter (fun e => negb (same_key e.1 addr)) (connections_ p)) p,
        if bool_decide (ice_role_ p = ICEROLE_CONTROLLED) then [PostCheckTimeout (timeout_delay_ p)] else []).

(** The message MSG_DELETE of the connection at [addr]. *)
Definition conn_OnMessage (addr : IpAddress.SocketAddress) (p : Port) : option (Port * list event) :=
  let? (p, evs) := OnConnectionDestroyed addr p in Some (p, SignalDestroyed addr :: evs).

(** The message MSG_CHECKTIMEOUT: is the port destroyed? *)
Definition CheckTimeout (p : Port) : option (bool * list event) :=
  require! bool_decide (ice_role_ p = ICEROLE_CONTROLLED) in
  Some (match connections_ p with [] => (true, [PortDestroyed]) | _ => (false, []) end).

End Ops.

(** ProxyConnection::Send: [sent] is what SendTo returns; [None] is EWOULDBLOCK. *)
Definition Send (c : Connection) (sent : Z) : option Z :=
  match write_state_ c with
  | STATE_WRITE_INIT | STATE_WRITE_TIMEOUT => None
  | _ => Some sent
  end.

(** BaseSession::OnRoleConflict: the role of the transports, after the first
    conflict only. *)
Definition OnRoleConflict (initiator role_switch : bool) : bool * option IceRole :=
  if role_switch then (role_switch, None)
  else (true, Some (if initiator then ICEROLE_CONTROLLED else ICEROLE_CONTROLLING)).

End IcePort.
