(* ===== verification/IceCheck.v ===== *)
(** * ICE connectivity checks, end to end

    Two ports with the credentials of each other's candidates: a ping of one
    end is a packet that the other accepts, its response is one that the first
    accepts, and the connections become readable and writable; what a packet
    without the credentials can do; how a conflict of roles is resolved. *)

From stdpp Require Import gmap.
From S2P Require Import Prelude TimeUtils ByteOrder ByteBuffer Crc32 Base64 IpAddress Stun StunWire Helpers StringConv MessageQueue StunRequest SessionDescription IceConnection IcePort.
Import ByteOrder TimeUtils IceConnection IcePort.
Open Scope jingle_scope.

Module IceCheck.

Lemma all_bytes s : forallb (fun b => (0 <=? b) && (b <? 256)) s = true -> bytes_ok s.
Proof. rewrite forallb_forall. intros H. apply List.Forall_forall. intros b Hb%H. unfold is_byte in *. lia. Qed.

Section Messages.
Context `{HM : Machine}.

(** ** Messages as lists of attributes *)

Definition msg (ty : Z) (tid : bytes) (l : list Stun.StunAttribute) : Stun.StunMessage :=
  Stun.mkmsg ty (Z.of_nat (length (StunWire.enc_attrs tid l))) tid l.
Definition of_class (c : Stun.message_class) (l : list Stun.StunAttribute) : Prop :=
  Forall (fun a => Stun.value_type a = Stun.GetAttributeValueType c (Stun.attr_type a)) l.

Lemma msg_ok_msg c ty tid l : 0 <= ty < 0x8000 -> StunWire.tid_ok tid -> Forall (StunWire.attr_ok tid) l -> of_class c l ->
  Z.of_nat (length (StunWire.enc_attrs tid l)) < 2 ^ 16 -> StunWire.msg_ok c (msg ty tid l).
Proof. intros. by split. Qed.

Lemma AddAttribute_msg c a ty tid l :
  StunWire.attr_ok tid (Stun.SetOwner a) -> Stun.value_type a = Stun.GetAttributeValueType c (Stun.attr_type a) ->
  Z.of_nat (length (StunWire.enc_attrs tid (l ++ [Stun.SetOwner a]))) < 2 ^ 16 ->
  (Stun.AddAttribute c a (msg ty tid l)).2 = msg ty tid (l ++ [Stun.SetOwner a]).
Proof.
  intros Ha Hv Hb. destruct (StunWire.SetOwner_same a) as (Hl & _).
  rewrite StunWire.enc_attrs_app, StunWire.enc_attrs_one, length_app, Nat2Z.inj_add, StunWire.length_enc_attr in Hb by done.
  rewrite Hl in Hb. rewrite StunWire.AddAttribute_add; [|done|rewrite <- Hl; apply Ha|cbn; lia|cbn [Stun.length_ msg]; lia].
  unfold msg, StunWire.add. cbn [snd Stun.type_ Stun.length_ Stun.transaction_id_ Stun.attrs_]. f_equal.
  rewrite StunWire.enc_attrs_app, StunWire.enc_attrs_one, length_app, Nat2Z.inj_add, StunWire.length_enc_attr by done. lia.
Qed.

Definition add_all (c : Stun.message_class) (l : list Stun.StunAttribute) (m : Stun.StunMessage) : Stun.StunMessage :=
  fold_left (fun m a => (Stun.AddAttribute c a m).2) l m.

Lemma add_all_msg c ty tid l l0 :
  Forall (fun a => StunWire.attr_ok tid (Stun.SetOwner a)) l -> of_class c l ->
  Z.of_nat (length (StunWire.enc_attrs tid (l0 ++ map Stun.SetOwner l))) < 2 ^ 16 ->
  add_all c l (msg ty tid l0) = msg ty tid (l0 ++ map Stun.SetOwner l).
Proof.
  revert l0. induction l as [|a l IH]; intros l0 Ha Hc Hb; [by rewrite app_nil_r|].
  apply Forall_cons in Ha as [Ha Hl], Hc as [Hca Hcl].
  cbn [map] in *. change (Stun.SetOwner a :: map Stun.SetOwner l) with ([Stun.SetOwner a] ++ map Stun.SetOwner l) in *.
  rewrite app_assoc in Hb. cbn [add_all fold_left]. rewrite AddAttribute_msg; [|done|done|].
  - rewrite app_assoc. by apply IH.
  - rewrite StunWire.enc_attrs_app, length_app in Hb. lia.
Qed.

(** ** Integrity and fingerprint *)

Definition secured (key : bytes) (m : Stun.StunMessage) : Stun.StunMessage :=
  StunWire.with_fingerprint (StunWire.with_integrity key m).
Definition add_security (c : Stun.message_class) (key : bytes) (m : Stun.StunMessage) : Stun.StunMessage :=
  (Stun.AddFingerprint c (Stun.AddMessageIntegrity c key m).2).2.

(** Both kinds of message know the attributes of responses. *)
Record sealed (key : bytes) (m : Stun.StunMessage) : Prop := {
  se_ok : StunWire.msg_ok Stun.IceMessage m;
  se_tid : length (Stun.transaction_id_ m) = 12%nat;
  se_integrity : Stun.ValidateMessageIntegrity (StunWire.enc_msg m) key = Some true;
  se_fingerprint : Stun.ValidateFingerprint (StunWire.enc_msg m) = true;
}.

Lemma secured_spec c key m :
  StunWire.msg_ok c m -> StunWire.msg_ok Stun.IceMessage m -> length (Stun.transaction_id_ m) = 12%nat ->
  bytes_ok key -> Stun.length_ m + 32 < 2 ^ 16 ->
  Forall (fun a => Stun.attr_type a <> Stun.STUN_ATTR_MESSAGE_INTEGRITY) (Stun.attrs_ m) ->
  add_security c key m = secured key m /\ sealed key (secured key m).
Proof.
  intros Hm Hi Ht Hk Hl Hno.
  destruct (StunWire.with_both Stun.IceMessage key m Hi Hk Ht Hl Hno) as (_ & _ & H1 & H2 & _ & V2 & F2).
  assert (Hlen : Stun.length_ (StunWire.with_integrity key m) = Stun.length_ m + 24) by (cbn; change (StunWire.padded 20) with 20; lia).
  destruct (StunWire.AddMessageIntegrity_eq c key m Hm Hk) as [E1'' H1']; [lia|].
  destruct (StunWire.AddFingerprint_eq c _ H1') as [E2'' _]; [lia|].
  split; [|by split]. unfold add_security. rewrite E1''. cbn [snd]. by rewrite E2''.
Qed.

Lemma secured_fields key m :
  Stun.type_ (secured key m) = Stun.type_ m /\ Stun.transaction_id_ (secured key m) = Stun.transaction_id_ m /\
  exists mi fp, Stun.attrs_ (secured key m) = Stun.attrs_ m ++ [mi; fp] /\
    Stun.attr_type mi = Stun.STUN_ATTR_MESSAGE_INTEGRITY /\ Stun.attr_type fp = Stun.STUN_ATTR_FINGERPRINT.
Proof. split_and!; [done..|]. eexists _, _. split; [cbn; by rewrite <- app_assoc|by split]. Qed.

(** What the sender writes, the receiver reads. *)
Lemma sealed_wire key m : sealed key m -> written m = StunWire.enc_msg m /\
  exists buf, Stun.Read Stun.IceMessage Stun.new_message (ByteBuffer.new_from (StunWire.enc_msg m) ByteBuffer.ORDER_NETWORK) = (true, m, buf) /\
    ByteBuffer.Length buf = 0%nat.
Proof.
  intros [Hok _ _ _]. destruct (StunWire.Write_Read Stun.IceMessage m Stun.new_message Hok) as (buf & E & Hc & buf' & Hr & Hl).
  split; [|by exists buf']. unfold written. by rewrite E.
Qed.

(** ** The packet of a check *)

Definition role_attr (p : Port) : list Stun.StunAttribute :=
  match ice_role_ p with
  | ICEROLE_CONTROLLING => [Stun.new_uint64 Stun.STUN_ATTR_ICE_CONTROLLING (tiebreaker_ p)]
  | ICEROLE_CONTROLLED => [Stun.new_uint64 Stun.STUN_ATTR_ICE_CONTROLLED (tiebreaker_ p)]
  | ICEROLE_UNKNOWN => []
  end.
Definition prflx_priority (local_priority : Z) : Z :=
  Z.lor (Z.shiftl ICE_TYPE_PREFERENCE_PRFLX 24) (Z.land local_priority 0x00FFFFFF).
Definition nominates (c : Connection) (p : Port) : bool := bool_decide (ice_role_ p = ICEROLE_CONTROLLING) && use_candidate_attr_ c.
Definition check_attrs (username : bytes) (local_priority : Z) (c : Connection) (p : Port) : list Stun.StunAttribute :=
  [Stun.new_byte_string Stun.STUN_ATTR_USERNAME username] ++
  (if send_retransmit_count_attribute_ p
   then [Stun.new_uint32 Stun.STUN_ATTR_RETRANSMIT_COUNT (u32 (Z.of_nat (length (pings_since_last_response_ c)) - 1))] else []) ++
  role_attr p ++
  (if nominates c p then [Stun.new_byte_string Stun.STUN_ATTR_USE_CANDIDATE []] else []) ++
  [Stun.new_uint32 Stun.STUN_ATTR_PRIORITY (prflx_priority local_priority)].

Definition check (username : bytes) (local_priority : Z) (tid : bytes) (c : Connection) (p : Port) : Stun.StunMessage :=
  secured (SessionDescription.password_ (remote_candidate_ c)) (msg STUN_BINDING_REQUEST tid (check_attrs username local_priority c p)).

Lemma Prepare_adds username lp c p m : IsStandardIce p = true ->
  Prepare username lp c p m =
    add_security Stun.IceMessage (SessionDescription.password_ (remote_candidate_ c))
      (add_all Stun.IceMessage (check_attrs username lp c p) (Stun.SetType STUN_BINDING_REQUEST m)).
Proof.
  intros Hs. unfold Prepare, check_attrs, role_attr, nominates, add_security, add_all, ice_attr, prflx_priority. rewrite Hs.
  destruct (send_retransmit_count_attribute_ p), (ice_role_ p), (use_candidate_attr_ c);
    rewrite ?bool_decide_eq_true_2, ?bool_decide_eq_false_2 by done; cbn [app andb fold_left]; done.
Qed.

Lemma prflx_priority_eq lp : prflx_priority lp = 110 * 2 ^ 24 + lp mod 2 ^ 24.
Proof.
  unfold prflx_priority, ICE_TYPE_PREFERENCE_PRFLX. change 0x00FFFFFF with (2 ^ 24 - 1).
  rewrite land_mask by lia. rewrite Z.shiftl_mul_pow2 by lia. apply lor_add; [lia|]. apply Z.mod_pos_bound. lia.
Qed.

Lemma byte_string_ok tid ty s : is_u 16 ty -> bytes_ok s -> Z.of_nat (length s) < 2 ^ 16 ->
  StunWire.attr_ok tid (Stun.new_byte_string ty s) /\ Stun.attr_length (Stun.new_byte_string ty s) = Z.of_nat (length s).
Proof.
  intros Ht Hs Hl. assert (E : u16 (Z.of_nat (length s)) = Z.of_nat (length s)) by (apply wrap_small; unfold is_u; lia).
  unfold Stun.new_byte_string, Stun.CopyBytes, Stun.SetBytes, Stun.SetLength, Stun.set_value. cbn [Stun.attr_type Stun.attr_length Stun.value_].
  rewrite E. split; [|done]. unfold StunWire.attr_ok. cbn [Stun.attr_type Stun.attr_length Stun.value_].
  split; [done|]. split; [unfold is_u; lia|by split].
Qed.

Lemma uint64_ok tid ty v : is_u 16 ty -> is_u 64 v -> StunWire.attr_ok tid (Stun.new_uint64 ty v).
Proof. intros. split_and!; [done|by split|done]. Qed.

(** The size of an encoding from the lengths of the attributes. *)
Lemma enc_attrs_size tid l : Forall (StunWire.attr_ok tid) l ->
  Z.of_nat (length (StunWire.enc_attrs tid l)) = fold_right (fun a n => 4 + StunWire.padded (Stun.attr_length a) + n) 0 l.
Proof.
  induction 1 as [|a l Ha Hl IH]; [done|]. change (a :: l) with ([a] ++ l).
  rewrite StunWire.enc_attrs_app, StunWire.enc_attrs_one, length_app, Nat2Z.inj_add, StunWire.length_enc_attr, IH by done. done.
Qed.

Record check_ok (username : bytes) (tid : bytes) (c : Connection) (p : Port) : Prop := {
  ck_username : bytes_ok username; ck_length : Z.of_nat (length username) <= 65000;
  ck_tid : bytes_ok tid; ck_tid_length : length tid = 12%nat;
  ck_password : bytes_ok (SessionDescription.password_ (remote_candidate_ c));
  ck_tiebreaker : is_u 64 (tiebreaker_ p); ck_standard : IsStandardIce p = true;
}.

Lemma check_attrs_ok username lp tid c p : check_ok username tid c p ->
  Forall (StunWire.attr_ok tid) (check_attrs username lp c p) /\ map Stun.SetOwner (check_attrs username lp c p) = check_attrs username lp c p /\
  of_class Stun.IceMessage (check_attrs username lp c p) /\
  Forall (fun a => Stun.attr_type a <> Stun.STUN_ATTR_MESSAGE_INTEGRITY) (check_attrs username lp c p) /\
  Z.of_nat (length (StunWire.enc_attrs tid (check_attrs username lp c p))) <= Z.of_nat (length username) + 43.
Proof.
  intros H. destruct (byte_string_ok tid Stun.STUN_ATTR_USERNAME username) as [Hu Hl]; [by split|apply H|pose proof (ck_length _ _ _ _ H); lia|].
  assert (Hp : StunWire.attr_ok tid (Stun.new_uint32 Stun.STUN_ATTR_PRIORITY (prflx_priority lp))).
  { apply StunWire.uint32_ok; [by split|]. rewrite prflx_priority_eq. pose proof (Z.mod_pos_bound lp (2 ^ 24)). unfold is_u. lia. }
  assert (Hr : forall v, StunWire.attr_ok tid (Stun.new_uint32 Stun.STUN_ATTR_RETRANSMIT_COUNT (u32 v))).
  { intros v. apply StunWire.uint32_ok; [by split|]. apply wrap_range. lia. }
  assert (Hc : StunWire.attr_ok tid (Stun.new_byte_string Stun.STUN_ATTR_USE_CANDIDATE [])).
  { apply byte_string_ok; [by split|apply List.Forall_nil|cbn; lia]. }
  assert (Hro : forall ty, is_u 16 ty -> StunWire.attr_ok tid (Stun.new_uint64 ty (tiebreaker_ p))).
  { intros ty Hty. apply uint64_ok; [done|apply H]. }
  assert (Hall : Forall (StunWire.attr_ok tid) (check_attrs username lp c p)).
  { unfold check_attrs, role_attr. apply List.Forall_cons; [done|]. apply Forall_app_2; [|apply Forall_app_2; [|apply Forall_app_2]].
    - destruct (send_retransmit_count_attribute_ p); [|apply List.Forall_nil]. apply List.Forall_cons; [apply Hr|apply List.Forall_nil].
    - destruct (ice_role_ p); [..|apply List.Forall_nil]; (apply List.Forall_cons; [apply Hro; by split|apply List.Forall_nil]).
    - destruct (nominates c p); [|apply List.Forall_nil]. apply List.Forall_cons; [apply Hc|apply List.Forall_nil].
    - apply List.Forall_cons; [done|apply List.Forall_nil]. }
  split; [done|]. split; [|split; [|split]].
  - unfold check_attrs, role_attr. by destruct (send_retransmit_count_attribute_ p), (ice_role_ p), (nominates c p).
  - unfold check_attrs, role_attr, of_class. destruct (send_retransmit_count_attribute_ p), (ice_role_ p), (nominates c p); repeat constructor.
  - unfold check_attrs, role_attr. destruct (send_retransmit_count_attribute_ p), (ice_role_ p), (nominates c p); repeat constructor; done.
  - rewrite enc_attrs_size by done. unfold check_attrs, role_attr.
    pose proof (StunWire.padded_bounds (Z.of_nat (length username)) ltac:(lia)) as [Hpad _].
    destruct (send_retransmit_count_attribute_ p), (ice_role_ p), (nominates c p); cbn [app fold_right]; rewrite Hl;
      repeat match goal with |- context [StunWire.padded (Stun.attr_length ?a)] =>
        let v := eval vm_compute in (StunWire.padded (Stun.attr_length a)) in change (StunWire.padded (Stun.attr_length a)) with v end; lia.
Qed.

Lemma Prepare_check username lp tid c p : check_ok username tid c p ->
  Prepare username lp c p (Stun.mkmsg 0 0 tid []) = check username lp tid c p /\
  sealed (SessionDescription.password_ (remote_candidate_ c)) (check username lp tid c p).
Proof.
  intros H. destruct (check_attrs_ok username lp tid c p H) as (Ha & Ho & Hc & Hn & Hl). pose proof (ck_length _ _ _ _ H).
  rewrite Prepare_adds by apply H. change (Stun.SetType STUN_BINDING_REQUEST (Stun.mkmsg 0 0 tid [])) with (msg STUN_BINDING_REQUEST tid []).
  rewrite add_all_msg; [|..|].
  - cbn [app]. rewrite Ho. assert (Hok : StunWire.msg_ok Stun.IceMessage (msg STUN_BINDING_REQUEST tid (check_attrs username lp c p))).
    { apply msg_ok_msg; [done| |done|done|lia]. split; [apply H|left; apply H]. }
    apply secured_spec; [done|done|apply H|apply H|cbn [Stun.length_ msg]; lia|done].
  - apply (proj1 (List.Forall_map Stun.SetOwner (StunWire.attr_ok tid) _)). by rewrite Ho.
  - done.
  - cbn [app]. rewrite Ho. lia.
Qed.

(** What the receiver looks up. *)
Lemma check_gets username lp tid c p : let m := check username lp tid c p in
  Stun.GetAttribute Stun.STUN_ATTR_USERNAME m = Some (Stun.new_byte_string Stun.STUN_ATTR_USERNAME username) /\
  is_Some (Stun.GetAttribute Stun.STUN_ATTR_MESSAGE_INTEGRITY m) /\
  Stun.GetAttribute Stun.STUN_ATTR_RETRANSMIT_COUNT m =
    (if send_retransmit_count_attribute_ p
     then Some (Stun.new_uint32 Stun.STUN_ATTR_RETRANSMIT_COUNT (u32 (Z.of_nat (length (pings_since_last_response_ c)) - 1))) else None) /\
  Stun.GetAttribute Stun.STUN_ATTR_ICE_CONTROLLING m =
    (if bool_decide (ice_role_ p = ICEROLE_CONTROLLING) then Some (Stun.new_uint64 Stun.STUN_ATTR_ICE_CONTROLLING (tiebreaker_ p)) else None) /\
  Stun.GetAttribute Stun.STUN_ATTR_ICE_CONTROLLED m =
    (if bool_decide (ice_role_ p = ICEROLE_CONTROLLED) then Some (Stun.new_uint64 Stun.STUN_ATTR_ICE_CONTROLLED (tiebreaker_ p)) else None) /\
  (is_Some (Stun.GetAttribute Stun.STUN_ATTR_USE_CANDIDATE m) <-> nominates c p = true) /\
  Stun.GetAttribute Stun.STUN_ATTR_PRIORITY m = Some (Stun.new_uint32 Stun.STUN_ATTR_PRIORITY (prflx_priority lp)).
Proof.
  cbv zeta. unfold check. set (m0 := msg _ _ _). set (key := SessionDescription.password_ _).
  destruct (secured_fields key m0) as (_ & _ & mi & fp & Ha & Hmi & Hfp).
  unfold Stun.GetAttribute. rewrite Ha. unfold m0. cbn [Stun.attrs_ msg]. unfold check_attrs, role_attr.
  assert (Hn : nominates c p = bool_decide (ice_role_ p = ICEROLE_CONTROLLING) && use_candidate_attr_ c) by done.
  assert (Hno : ~ is_Some (@None Stun.StunAttribute)) by (by intros [? ?]).
  destruct (send_retransmit_count_attribute_ p), (ice_role_ p), (nominates c p);
    cbn [app find]; rewrite ?Hmi, ?Hfp; split_and!; try reflexivity; try (by eexists); try done.
Qed.

Lemma find_char_app ch a b : ~ In ch a -> find_char ch (a ++ [ch] ++ b) = Some (length a).
Proof.
  change ([ch] ++ b) with (ch :: b). induction a as [|x a IH]; cbn [find_char app length]; intros Hn; [by rewrite Z.eqb_refl|].
  destruct (Z.eqb_spec x ch) as [->|]; [destruct Hn; by left|]. rewrite IH; [done|]. intros Hi. apply Hn. by right.
Qed.

(** ** The check at its receiver *)

Lemma check_received username lp tid c p local remote addr q :
  check_ok username tid c p -> username = local ++ [colon] ++ remote -> ~ In colon local ->
  IsStandardIce q = true -> ice_username_fragment_ q = local -> password_ q = SessionDescription.password_ (remote_candidate_ c) ->
  let m := check username lp tid c p in
  GetStunMessage (StunWire.enc_msg m) addr q = Some (Message m remote, q, []).
Proof.
  intros H Hu Hn Hq Hl Hp m. destruct (Prepare_check username lp tid c p H) as [_ Hse]. fold m in Hse.
  destruct (check_gets username lp tid c p) as (Gu & Gm & _). fold m in Gu, Gm.
  destruct (sealed_wire _ _ Hse) as (_ & buf & Hread & Hlen).
  assert (Hub : GetString (Stun.new_byte_string Stun.STUN_ATTR_USERNAME username) = username) by done.
  unfold GetStunMessage. rewrite Hq, (se_fingerprint _ _ Hse), Hread, Hlen. cbn [negb andb orb Nat.ltb Nat.leb].
  change (Stun.type_ m) with STUN_BINDING_REQUEST. rewrite Z.eqb_refl.
  unfold Stun.GetByteString. rewrite Gu, (bool_decide_eq_true_2 (is_Some (Some _))), (bool_decide_eq_true_2 _ Gm) by done. cbn [negb orb].
  assert (Hpq : IsHybridIce q = false).
  { unfold IsHybridIce, IsStandardIce in *. apply bool_decide_eq_true_1 in Hq. by rewrite Hq. }
  assert (Hproto : ice_protocol_ q = SessionDescription.ICEPROTO_RFC5245) by (by apply bool_decide_eq_true_1 in Hq).
  unfold ParseStunUsername, Stun.GetByteString. rewrite Gu, Hub, Hpq, Hproto, Hu, find_char_app by done.
  unfold username_fragment. rewrite Hq, Hl. cbn [negb andb].
  rewrite take_app_length, bool_decide_eq_true_2 by done.
  rewrite app_assoc, drop_app_length' by (by rewrite length_app).
  rewrite Hp, (se_integrity _ _ Hse). done.
Qed.

(** ** Responses *)

Definition response_attrs (request : Stun.StunMessage) (addr : IpAddress.SocketAddress) : list Stun.StunAttribute :=
  (match Stun.GetUInt32 Stun.STUN_ATTR_RETRANSMIT_COUNT request with
   | Some retransmit_attr => [Stun.new_uint32 Stun.STUN_ATTR_RETRANSMIT_COUNT (value retransmit_attr)]
   | None => []
   end) ++ [Stun.SetOwner (Stun.new_xor_address Stun.STUN_ATTR_XOR_MAPPED_ADDRESS addr)].
Definition response (request : Stun.StunMessage) (addr : IpAddress.SocketAddress) (p : Port) : Stun.StunMessage :=
  secured (password_ p) (msg STUN_BINDING_RESPONSE (Stun.transaction_id_ request) (response_attrs request addr)).

Lemma xor_attr_ok tid addr : StunWire.addr_ok addr -> length tid = 12%nat ->
  StunWire.attr_ok tid (Stun.SetOwner (Stun.new_xor_address Stun.STUN_ATTR_XOR_MAPPED_ADDRESS addr)) /\
  Stun.attr_length (Stun.SetOwner (Stun.new_xor_address Stun.STUN_ATTR_XOR_MAPPED_ADDRESS addr)) <= 20.
Proof.
  intros Ha Ht. unfold Stun.new_xor_address, Stun.SetAddress, Stun.SetOwner, Stun.SetLength, Stun.set_value.
  cbn [Stun.value_ Stun.attr_type Stun.attr_length].
  assert (Hl : 0 <= Stun.EnsureAddressLength addr <= 20) by (unfold Stun.EnsureAddressLength; destruct (Stun.family addr); done).
  assert (E : u16 (Stun.EnsureAddressLength addr) = Stun.EnsureAddressLength addr) by (apply wrap_small; unfold is_u; lia).
  rewrite E. split; [|lia]. unfold StunWire.attr_ok. cbn [Stun.value_ Stun.attr_type Stun.attr_length].
  split; [by split|]. split; [unfold is_u; lia|]. by split_and!.
Qed.

Lemma response_spec request ua addr q :
  StunWire.addr_ok addr -> bytes_ok (Stun.transaction_id_ request) -> length (Stun.transaction_id_ request) = 12%nat ->
  bytes_ok (password_ q) -> IsStandardIce q = true ->
  (forall a, Stun.GetUInt32 Stun.STUN_ATTR_RETRANSMIT_COUNT request = Some a -> is_u 32 (value a)) ->
  binding_response request ua addr q = response request addr q /\ sealed (password_ q) (response request addr q).
Proof.
  intros Haddr Hb Ht Hk Hs Hr. set (tid := Stun.transaction_id_ request) in *.
  destruct (xor_attr_ok tid addr Haddr Ht) as [Hx Hxl].
  set (xa := Stun.new_xor_address Stun.STUN_ATTR_XOR_MAPPED_ADDRESS addr) in *.
  set (l := (match Stun.GetUInt32 Stun.STUN_ATTR_RETRANSMIT_COUNT request with
     | Some a => [Stun.new_uint32 Stun.STUN_ATTR_RETRANSMIT_COUNT (value a)] | None => [] end) ++ [xa]).
  assert (Hmap : map Stun.SetOwner l = response_attrs request addr).
  { unfold l, response_attrs. by destruct (Stun.GetUInt32 _ _). }
  assert (Hok : Forall (StunWire.attr_ok tid) (response_attrs request addr)).
  { unfold response_attrs. apply Forall_app_2; [|by apply List.Forall_cons; [|apply List.Forall_nil]].
    destruct (Stun.GetUInt32 _ _) as [a|] eqn:E; [|apply List.Forall_nil].
    apply List.Forall_cons; [|apply List.Forall_nil]. apply StunWire.uint32_ok; [by split|by apply Hr]. }
  assert (Hxv : Stun.value_type xa = Stun.STUN_VALUE_XOR_ADDRESS /\ Stun.attr_type xa = Stun.STUN_ATTR_XOR_MAPPED_ADDRESS) by done.
  assert (Hcl : forall cl, of_class cl l /\ of_class cl (response_attrs request addr)).
  { intros cl. unfold l, response_attrs, of_class. by destruct (Stun.GetUInt32 _ _), cl; split; repeat constructor. }
  assert (Hsize : Z.of_nat (length (StunWire.enc_attrs tid (response_attrs request addr))) <= 40).
  { rewrite enc_attrs_size by done. unfold response_attrs. fold xa. pose proof Hx as (_ & [Hx0 _] & _).
    pose proof (StunWire.padded_bounds _ Hx0) as [Hpad _].
    destruct (Stun.GetUInt32 _ _); cbn [app fold_right]; [change (StunWire.padded (Stun.attr_length (Stun.new_uint32 _ _))) with 4|]; lia. }
  assert (Hmsg : forall cl, StunWire.msg_ok cl (msg STUN_BINDING_RESPONSE tid (response_attrs request addr))).
  { intros cl. apply msg_ok_msg; [done| |done|apply Hcl|lia]. split; [done|by left]. }
  destruct (secured_spec Stun.StunMessageClass (password_ q) _ (Hmsg _) (Hmsg _)) as [E Hse]; try done.
  { cbn [Stun.length_ msg]. lia. }
  { cbn [Stun.attrs_ msg]. unfold response_attrs. destruct (Stun.GetUInt32 _ _); repeat constructor; done. }
  split; [|done]. unfold response. fold tid. rewrite <- E.
  unfold binding_response. rewrite Hs. unfold Stun.SetTransactionID, Stun.IsValidTransactionId. fold tid. rewrite Ht.
  change (12 =? Stun.kStunTransactionIdLength)%nat with true. cbn [orb negb snd].
  change (Stun.set_transaction_id tid (Stun.SetType STUN_BINDING_RESPONSE Stun.new_message)) with (msg STUN_BINDING_RESPONSE tid []).
  assert (Eall : add_all Stun.StunMessageClass l (msg STUN_BINDING_RESPONSE tid []) = msg STUN_BINDING_RESPONSE tid (response_attrs request addr)).
  { rewrite add_all_msg; cbn [app]; rewrite ?Hmap; [done| |apply Hcl|lia].
    apply (proj1 (List.Forall_map Stun.SetOwner (StunWire.attr_ok tid) _)). by rewrite Hmap. }
  rewrite <- Eall. fold xa. unfold l, add_security, add_all, add_attr. by destruct (Stun.GetUInt32 _ _).
Qed.

(** A sealed response, success or error, at the end that sent the check. *)
Lemma sealed_received key m addr p : sealed key m -> IsStandardIce p = true ->
  Stun.type_ m = STUN_BINDING_RESPONSE \/ Stun.type_ m = STUN_BINDING_ERROR_RESPONSE /\ is_Some (Stun.GetErrorCode m) ->
  GetStunMessage (StunWire.enc_msg m) addr p = Some (Message m [], p, []).
Proof.
  intros Hse Hs Hty. destruct (sealed_wire _ _ Hse) as (_ & buf & Hread & Hlen).
  unfold GetStunMessage. rewrite Hs, (se_fingerprint _ _ Hse), Hread, Hlen. cbn [negb andb orb Nat.ltb Nat.leb].
  destruct Hty as [-> |[-> [ec Hec]]].
  - change (STUN_BINDING_RESPONSE =? STUN_BINDING_REQUEST) with false. cbn iota. by rewrite Z.eqb_refl.
  - change (STUN_BINDING_ERROR_RESPONSE =? STUN_BINDING_REQUEST) with false. change (STUN_BINDING_ERROR_RESPONSE =? STUN_BINDING_RESPONSE) with false.
    cbn iota. by rewrite Z.eqb_refl, Hec.
Qed.

(** ** The connections of a port *)

Lemma GetConnection_put addr c0 c p : GetConnection addr p = Some c0 -> GetConnection addr (put_connection addr c p) = Some c.
Proof.
  unfold GetConnection, put_connection. cbn [put_connections connections_].
  induction (connections_ p) as [|[k d] l IH]; [done|]. cbn [find map fst].
  destruct (same_key k addr) eqn:E; cbn [find fst]; rewrite E; [done|apply IH].
Qed.

(** ** The request of a ping *)

Definition idle (num : Z) : StunRequest.t := StunRequest.mk ∅ ∅ (MessageQueue.waiting [] [] num).
Definition pending (h num : Z) (T : Z) (r : StunRequest.Request) : StunRequest.t :=
  StunRequest.mk {[h := r]} {[StunRequest.id r := h]} (MessageQueue.waiting [] [StunRequest.due CONNECTION_RESPONSE_TIMEOUT T num h] (u32 (num + 1))).

Lemma destroy_pending h num T r : StunRequest.manager_ r = true -> h <> 0 ->
  StunRequest.destroy h (pending h num T r) = Some (idle (u32 (num + 1))).
Proof.
  intros Hm Hh. unfold StunRequest.destroy, pending. cbn [StunRequest.heap]. rewrite lookup_singleton_eq, Hm.
  unfold StunRequest.Remove. cbn [StunRequest.requests_ StunRequest.heap StunRequest.thread_]. rewrite lookup_singleton_eq.
  unfold StunRequest.set_thread. cbn [StunRequest.requests_ StunRequest.heap StunRequest.thread_]. rewrite !delete_singleton_eq.
  unfold idle. do 2 f_equal. unfold MessageQueue.Clear, MessageQueue.waiting, StunRequest.due. cbn.
  assert (Hmatch : forall id pd ts, MessageQueue.Match h MessageQueue.MQID_ANY (MessageQueue.mkMessage h id pd ts) = true).
  { intros. unfold MessageQueue.Match. cbn. by rewrite Z.eqb_refl, orb_true_r. }
  by rewrite !Hmatch.
Qed.

Lemma pending_response h num T r m : StunRequest.manager_ r = true -> h <> 0 -> Stun.transaction_id_ m = StunRequest.id r ->
  StunRequest.type r = STUN_BINDING_REQUEST ->
  (Stun.type_ m = STUN_BINDING_RESPONSE ->
   StunRequest.CheckResponse_msg m (pending h num T r) = Some (true, [StunRequest.OnResponse h m], idle (u32 (num + 1)))) /\
  (Stun.type_ m = STUN_BINDING_ERROR_RESPONSE ->
   StunRequest.CheckResponse_msg m (pending h num T r) = Some (true, [StunRequest.OnErrorResponse h m], idle (u32 (num + 1)))).
Proof.
  intros Hm Hh Ht Hty. unfold StunRequest.CheckResponse_msg.
  assert (E1 : StunRequest.requests_ (pending h num T r) !! Stun.transaction_id_ m = Some h) by (rewrite Ht; apply lookup_singleton_eq).
  assert (E2 : StunRequest.heap (pending h num T r) !! h = Some r) by apply lookup_singleton_eq.
  rewrite E1, E2, Hty, destroy_pending by done. split; intros ->; reflexivity.
Qed.

End Messages.

(** The message of a request just sent. *)
Lemma pump_posted `{HM : Machine} now h num r d :
  is_u 32 now -> StunRequest.manager_ r = true -> StunRequest.timeout_ r = false -> StunRequest.delays r = StunRequest.Once d ->
  StunRequest.pump now (StunRequest.mk {[h := r]} {[StunRequest.id r := h]}
      (MessageQueue.PostDelayed now 0 h StunRequest.MSG_STUN_SEND 0 (MessageQueue.waiting [] [] num))) =
  Some ([StunRequest.SendPacket h (written (StunRequest.msg_ r))],
        StunRequest.mk {[h := StunRequest.mkRequest (StunRequest.count_ r) true true (StunRequest.msg_ r) now (StunRequest.cls r) (StunRequest.prepare r) (StunRequest.Once d)]}
          {[StunRequest.id r := h]}
          (MessageQueue.waiting [] [StunRequest.due d (TimeAfter now d) (u32 (num + 1)) h] (u32 (u32 (num + 1) + 1)))).
Proof.
  intros Hnow Hm Ht Hd. unfold StunRequest.pump. cbn [StunRequest.thread_].
  assert (Hta : TimeAfter now 0 = now) by (unfold TimeAfter; rewrite Z.add_0_r; by apply wrap_small).
  assert (Hlate : TimeIsLater now now = false) by (unfold TimeIsLater; by rewrite Z.sub_diag).
  assert (Hq : MessageQueue.PostDelayed now 0 h StunRequest.MSG_STUN_SEND 0 (MessageQueue.waiting [] [] num) =
    MessageQueue.mk false false MessageQueue.no_message [] [StunRequest.due 0 now num h] (u32 (num + 1)))
    by (unfold MessageQueue.PostDelayed; rewrite Hta; reflexivity).
  rewrite Hq. unfold MessageQueue.Get, StunRequest.due. cbn [MessageQueue.fPeekKeep_ MessageQueue.get_loop MessageQueue.dmsgq_ MessageQueue.take_due MessageQueue.msTrigger_].
  rewrite Hlate. cbn [map MessageQueue.msgq_ app MessageQueue.pull MessageQueue.msg_ MessageQueue.message_id].
  change (StunRequest.MSG_STUN_SEND =? MessageQueue.MQID_DISPOSE) with false. cbn [MessageQueue.message MessageQueue.message_id MessageQueue.phandler].
  change (StunRequest.MSG_STUN_SEND =? StunRequest.MSG_STUN_SEND) with true. unfold StunRequest.OnMessage, StunRequest.set_thread. cbn [StunRequest.heap StunRequest.requests_ StunRequest.thread_].
  rewrite lookup_singleton_eq, Hm, Ht. unfold StunRequest.set_tstamp, StunRequest.GetNextDelay, written. cbn [StunRequest.msg_ StunRequest.delays].
  destruct (Stun.Write _ _) as [ok buf]. rewrite Hd. cbn [snd]. rewrite insert_singleton_eq, Hm. reflexivity.
Qed.

Section Checks.
Context `{HM : Machine} `{HR : Helpers.RandomGenerator}.
Variable inet_ntop : IpAddress.family -> bytes -> option bytes.

(** A connection with no check outstanding pings: one packet. *)
Lemma ping_packet now h num c p g g' tid lc :
  requests_ c = idle num -> connected_ c = true -> h <> 0 -> is_u 32 now ->
  Helpers.CreateRandomString Stun.kStunTransactionIdLength g = (Some tid, g') ->
  local_candidate c p = Some lc -> ice_role_ p <> ICEROLE_UNKNOWN ->
  let username := SessionDescription.username_ (remote_candidate_ c) ++ [colon] ++ ice_username_fragment_ p in
  check_ok username tid c p ->
  let c0 := put_pings (pings_since_last_response_ c ++ [now]) (put_last_ping_sent now c) in
  let m := check username (SessionDescription.priority_ lc) tid c0 p in
  exists c1 r, Ping now h c p g = Some (c1, g') /\
    Pump now c1 = Some (set_state STATE_INPROGRESS (put_requests (pending h (u32 (num + 1)) (TimeAfter now 5000) r) c0), [SendTo (StunWire.enc_msg m) (addr_of c)]) /\
    StunRequest.manager_ r = true /\ StunRequest.id r = tid /\ StunRequest.type r = STUN_BINDING_REQUEST /\ StunRequest.msg_ r = m /\
    StunRequest.tstamp_ r = now /\ sealed (SessionDescription.password_ (remote_candidate_ c)) m.
Proof.
  intros Hr Hc Hh Hnow Hrs Hlc Hrole username Hck c0 m.
  assert (Hck0 : check_ok username tid c0 p) by (destruct Hck; by split).
  destruct (Prepare_check username (SessionDescription.priority_ lc) tid c0 p Hck0) as [Hprep Hse]. fold m in Hprep, Hse.
  pose proof (ck_standard _ _ _ _ Hck) as Hs.
  unfold Ping. rewrite Hc. unfold CreateStunUsername, username_fragment. rewrite Hs. cbn [negb andb orb].
  change (local_candidate (put_pings _ _) p) with (local_candidate c p). rewrite Hlc, bool_decide_eq_false_2 by done. cbn [negb].
  unfold StunRequest.new_request. rewrite Hrs.
  change (Stun.SetTransactionID tid Stun.new_message) with (if negb (Stun.IsValidTransactionId tid) then (false, Stun.new_message) else (true, Stun.mkmsg 0 0 tid [])).
  unfold Stun.IsValidTransactionId. rewrite (ck_tid_length _ _ _ _ Hck). change ((12 =? Stun.kStunTransactionIdLength)%nat) with true. cbn [orb negb snd].
  change (requests_ (put_pings _ _)) with (requests_ c). rewrite Hr.
  set (prep := Prepare _ _ _ p).
  set (r1 := StunRequest.mkRequest 0 false true m 0 Stun.IceMessage prep (StunRequest.Once CONNECTION_RESPONSE_TIMEOUT)).
  assert (Hid : StunRequest.id r1 = tid) by done. assert (Hprep' : prep (Stun.mkmsg 0 0 tid []) = m) by exact Hprep. clearbody prep.
  assert (Hsend : StunRequest.Send now h (StunRequest.set_request h (StunRequest.mkRequest 0 false false (Stun.mkmsg 0 0 tid []) 0 Stun.IceMessage prep
      (StunRequest.Once CONNECTION_RESPONSE_TIMEOUT)) (idle num)) =
    Some (StunRequest.mk {[h := r1]} {[StunRequest.id r1 := h]}
            (MessageQueue.PostDelayed now 0 h StunRequest.MSG_STUN_SEND 0 (MessageQueue.waiting [] [] num)))).
  { unfold StunRequest.Send, StunRequest.SendDelayed, StunRequest.set_request, idle. cbn [StunRequest.heap StunRequest.requests_ StunRequest.thread_].
    rewrite lookup_insert_eq. cbn [StunRequest.manager_ negb]. rewrite lookup_empty, bool_decide_eq_true_2 by done.
    assert (Hcons : StunRequest.Construct (StunRequest.set_manager (StunRequest.mkRequest 0 false false (Stun.mkmsg 0 0 tid []) 0 Stun.IceMessage prep
      (StunRequest.Once CONNECTION_RESPONSE_TIMEOUT))) = r1).
    { unfold StunRequest.Construct, StunRequest.set_manager, StunRequest.type, r1. cbn [StunRequest.msg_ Stun.type_ Z.eqb StunRequest.prepare].
      unfold StunRequest.set_msg. cbn [StunRequest.count_ StunRequest.timeout_ StunRequest.manager_ StunRequest.tstamp_ StunRequest.cls StunRequest.prepare StunRequest.delays].
      rewrite Hprep'. done. }
    rewrite Hcons, insert_insert_eq. done. }
  rewrite Hsend. eexists _, (StunRequest.mkRequest 0 true true m now Stun.IceMessage prep (StunRequest.Once CONNECTION_RESPONSE_TIMEOUT)).
  split; [reflexivity|]. destruct (sealed_wire _ _ Hse) as [Hw _]. split; [|by split_and!].
  unfold Pump. cbn [put_requests requests_ set_state].
  rewrite (pump_posted now h num r1 CONNECTION_RESPONSE_TIMEOUT) by done.
  change (StunRequest.msg_ r1) with m. rewrite Hw. reflexivity.
Qed.

(** Two ports, each with a connection to the other's address and the
    credentials of the other's candidates. *)
Record peers (pA : Port) (addrB : IpAddress.SocketAddress) (cA : Connection) (pB : Port) (addrA : IpAddress.SocketAddress) (cB : Connection) : Prop := {
  pe_a : GetConnection addrB pA = Some cA; pe_b : GetConnection addrA pB = Some cB;
  pe_standard_a : IsStandardIce pA = true; pe_standard_b : IsStandardIce pB = true;
  pe_addr_b : addr_of cA = addrB; pe_addr_a : StunWire.addr_ok addrA;
  pe_user_b : SessionDescription.username_ (remote_candidate_ cA) = ice_username_fragment_ pB;
  pe_password_b : SessionDescription.password_ (remote_candidate_ cA) = password_ pB;
  pe_user_a : SessionDescription.username_ (remote_candidate_ cB) = ice_username_fragment_ pA;
  pe_colon : ~ In colon (ice_username_fragment_ pB);
  pe_bytes : bytes_ok (ice_username_fragment_ pA) /\ bytes_ok (ice_username_fragment_ pB) /\ bytes_ok (password_ pB);
  pe_size : Z.of_nat (length (ice_username_fragment_ pA)) + Z.of_nat (length (ice_username_fragment_ pB)) <= 64000;
  pe_tiebreaker : is_u 64 (tiebreaker_ pA);
}.

Definition check_name (pA pB : Port) : bytes := ice_username_fragment_ pB ++ [colon] ++ ice_username_fragment_ pA.

Lemma peers_check pA addrB cA pB addrA cB tid c : peers pA addrB cA pB addrA cB -> bytes_ok tid -> length tid = 12%nat ->
  remote_candidate_ c = remote_candidate_ cA -> check_ok (check_name pA pB) tid c pA.
Proof.
  intros H Ht Hl Hc. destruct (pe_bytes _ _ _ _ _ _ H) as (H1 & H2 & H3). pose proof (pe_size _ _ _ _ _ _ H).
  split; [| |done|done|rewrite Hc, (pe_password_b _ _ _ _ _ _ H); done|apply H|apply H]; unfold check_name.
  - apply Forall_app_2; [done|]. apply Forall_app_2; [|done]. by apply List.Forall_cons; [|apply List.Forall_nil].
  - rewrite !length_app. cbn [length]. lia.
Qed.

(** Who gives way in a conflict, by the role both claim. *)
Definition yields (role : IceRole) (local_tiebreaker remote_tiebreaker : Z) : bool :=
  match role with
  | ICEROLE_CONTROLLING => local_tiebreaker <=? remote_tiebreaker
  | ICEROLE_CONTROLLED => remote_tiebreaker <? local_tiebreaker
  | ICEROLE_UNKNOWN => false
  end.
Definition loops_back (remote_ufrag : bytes) (pA pB : Port) : bool :=
  bool_decide (ice_role_ pA = ICEROLE_CONTROLLING) && bool_decide (ice_username_fragment_ pB = remote_ufrag) && (tiebreaker_ pA =? tiebreaker_ pB).

Lemma check_roles username lp tid c pA pB addr remote :
  IsStandardIce pB = true -> ice_role_ pA <> ICEROLE_UNKNOWN -> ice_role_ pB <> ICEROLE_UNKNOWN ->
  MaybeIceRoleConflict addr (check username lp tid c pA) remote pB =
    if loops_back remote pA pB || negb (bool_decide (ice_role_ pA = ice_role_ pB)) then Some (true, [])
    else if yields (ice_role_ pB) (tiebreaker_ pB) (tiebreaker_ pA) then Some (true, [SignalRoleConflict])
    else let? evs := SendBindingErrorResponse (check username lp tid c pA) addr STUN_ERROR_ROLE_CONFLICT STUN_ERROR_REASON_ROLE_CONFLICT pB in
         Some (false, evs).
Proof.
  intros Hs Ha Hb. destruct (check_gets username lp tid c pA) as (_ & _ & _ & G1 & G2 & _).
  unfold MaybeIceRoleConflict, Stun.GetUInt64, username_fragment, loops_back. rewrite G1, G2, Hs. cbn [negb andb].
  assert (Hv : forall ty v, value (Stun.new_uint64 ty v) = v) by done.
  destruct (ice_role_ pA) eqn:Ra; [| |done].
  - rewrite (bool_decide_eq_true_2 (ICEROLE_CONTROLLING = ICEROLE_CONTROLLING)), (bool_decide_eq_false_2 (ICEROLE_CONTROLLING = ICEROLE_CONTROLLED)) by done.
    cbn [andb]. rewrite Hv. destruct (bool_decide (ice_username_fragment_ pB = remote) && _) eqn:E; [done|]. cbn [orb].
    rewrite (bool_decide_eq_true_2 (ICEROLE_CONTROLLING = ICEROLE_CONTROLLING)) by done.
    destruct (ice_role_ pB) eqn:Rb; [|by rewrite !bool_decide_eq_false_2|done]. rewrite !bool_decide_eq_true_2 by done. reflexivity.
  - rewrite (bool_decide_eq_false_2 (ICEROLE_CONTROLLED = ICEROLE_CONTROLLING)), (bool_decide_eq_true_2 (ICEROLE_CONTROLLED = ICEROLE_CONTROLLED)) by done.
    cbn [andb orb]. rewrite Hv. rewrite (bool_decide_eq_false_2 (ICEROLE_UNKNOWN = ICEROLE_CONTROLLING)) by done.
    destruct (ice_role_ pB) eqn:Rb; [by rewrite !bool_decide_eq_false_2| |done]. rewrite !bool_decide_eq_true_2 by done. reflexivity.
Qed.

Definition of_conn (addr : IpAddress.SocketAddress) (e : event) : Prop := exists ce, e = Conn addr ce.
Lemma of_conn_map addr l : Forall (of_conn addr) (map (Conn addr) l).
Proof. apply List.Forall_map, List.Forall_forall. by eexists. Qed.

(** The check is accepted: the answer. *)
Lemma check_answered now m remote addr p c ev g :
  GetStunMessage (StunWire.enc_msg m) addr p = Some (Message m remote, p, []) ->
  GetConnection addr p = Some c -> remote = SessionDescription.username_ (remote_candidate_ c) ->
  IsStandardIce p = true -> Stun.type_ m = STUN_BINDING_REQUEST -> is_Some (Stun.GetByteString Stun.STUN_ATTR_USERNAME m) ->
  MaybeIceRoleConflict addr m remote p = Some (true, ev) ->
  StunWire.addr_ok addr -> bytes_ok (Stun.transaction_id_ m) -> length (Stun.transaction_id_ m) = 12%nat -> bytes_ok (password_ p) ->
  (forall a, Stun.GetUInt32 Stun.STUN_ATTR_RETRANSMIT_COUNT m = Some a -> is_u 32 (value a)) ->
  exists p' c' evs, conn_OnReadPacket inet_ntop now (StunWire.enc_msg m) addr p g = Some (p', g, ev ++ SendTo (StunWire.enc_msg (response m addr p)) addr :: evs) /\
    GetConnection addr p' = Some c' /\ read_state_ c' = STATE_READABLE /\ last_ping_received_ c' = now /\ remote_candidate_ c' = remote_candidate_ c /\
    sealed (password_ p) (response m addr p) /\ Forall (of_conn addr) evs /\
    (In (Conn addr SignalUseCandidate) evs <->
      ice_role_ p = ICEROLE_CONTROLLED /\ is_Some (Stun.GetByteString Stun.STUN_ATTR_USE_CANDIDATE m)).
Proof.
  intros HG Hc Hr Hs Hty [ua Hua] Hro Haddr Hb Hl Hk Hrc.
  destruct (response_spec m ua addr p Haddr Hb Hl Hk Hs Hrc) as [Eresp Hse].
  destruct (sealed_wire _ _ Hse) as [Hw _].
  unfold conn_OnReadPacket. rewrite Hc, HG, Hty, Z.eqb_refl, bool_decide_eq_true_2, Hs, Hro by done. cbn [negb app].
  unfold received_request, SendBindingResponse. rewrite Hty, Z.eqb_refl, Hua, Hc, Eresp, Hw.
  set (c1 := put_read_state STATE_READABLE (put_last_ping_received now c)).
  assert (Hn1 : ~ In (Conn addr SignalUseCandidate) (map (Conn addr) (ReceivedPing now c).2)).
  { intros (e & [= ->] & Hin)%in_map_iff. apply (proj1 (state_events (put_last_ping_received now c) _) STATE_READABLE) in Hin. by destruct Hin. }
  change (put_conn addr (ReceivedPing now c) p) with (put_connection addr c1 p, map (Conn addr) (ReceivedPing now c).2).
  cbn [fst snd]. rewrite (GetConnection_put addr c c1 p Hc).
  set (w := if negb (pruned_ c1) && _ then put_conn addr _ _ else (_, [])).
  assert (Hw2 : exists c', GetConnection addr w.1 = Some c' /\ read_state_ c' = STATE_READABLE /\ last_ping_received_ c' = now /\
    remote_candidate_ c' = remote_candidate_ c /\ IsStandardIce w.1 = true /\ ice_role_ w.1 = ice_role_ p /\ Forall (of_conn addr) w.2 /\ ~ In (Conn addr SignalUseCandidate) w.2).
  { unfold w. destruct (negb (pruned_ c1) && _).
    - exists (put_write_state STATE_WRITE_INIT c1). unfold put_conn. cbn [fst snd]. change ((set_write_state STATE_WRITE_INIT c1).1) with (put_write_state STATE_WRITE_INIT c1).
      rewrite (GetConnection_put addr c1) by (by apply (GetConnection_put addr c)). split_and!; try done; [apply of_conn_map|].
      intros (e & [= ->] & Hin)%in_map_iff. apply (proj2 (state_events c1 _) STATE_WRITE_INIT) in Hin. by destruct Hin.
    - exists c1. cbn [fst snd]. rewrite (GetConnection_put addr c) by done. split_and!; try done. by intros []. }
  destruct w as [p2 e2]. cbn [fst snd] in Hw2. destruct Hw2 as (c' & H1 & H2 & H3 & H4 & H5 & H6 & Hev & Hn2).
  rewrite H5, H6. exists p2, c'. eexists. split; [reflexivity|]. split_and!; [done..| |].
  { apply Forall_app_2; [apply of_conn_map|]. apply Forall_app_2; [done|]. destruct (_ && _); [|apply List.Forall_nil]. apply (of_conn_map addr [_]). }
  cbn [andb]. rewrite !in_app_iff. split.
  - intros [Hin|[Hin|Hin]]; [done|done|]. destruct (bool_decide _ && _) eqn:E; [|done]. apply andb_prop in E as [E1%bool_decide_eq_true_1 E2%bool_decide_eq_true_1]. done.
  - intros [E1 E2]. right. right. rewrite E1, (bool_decide_eq_true_2 (is_Some _)) by done. by left.
Qed.

Lemma response_address request addr q :
  exists a, Stun.GetAddress Stun.STUN_ATTR_XOR_MAPPED_ADDRESS (response request addr q) = Some a /\ Stun.GetSocketAddress a = addr.
Proof.
  unfold response. set (m0 := msg _ _ _). destruct (secured_fields (password_ q) m0) as (_ & _ & mi & fp & Ha & _).
  unfold Stun.GetAddress. change (Stun.STUN_ATTR_XOR_MAPPED_ADDRESS =? Stun.STUN_ATTR_MAPPED_ADDRESS) with false. cbn iota.
  unfold Stun.GetAttribute. rewrite Ha. unfold m0. cbn [Stun.attrs_ msg]. unfold response_attrs.
  exists (Stun.SetOwner (Stun.new_xor_address Stun.STUN_ATTR_XOR_MAPPED_ADDRESS addr)). by destruct (Stun.GetUInt32 _ _).
Qed.

(** The response is accepted: the connection is writable, and its local
    candidate is the one that the other end saw. *)
Lemma response_accepted now m addr mapped a p c h num T r lc prio g :
  GetConnection addr p = Some c -> IsStandardIce p = true -> requests_ c = pending h num T r -> StunRequest.manager_ r = true -> h <> 0 ->
  Stun.transaction_id_ m = StunRequest.id r -> StunRequest.type r = STUN_BINDING_REQUEST -> Stun.type_ m = STUN_BINDING_RESPONSE ->
  sealed (SessionDescription.password_ (remote_candidate_ c)) m ->
  Stun.GetAddress Stun.STUN_ATTR_XOR_MAPPED_ADDRESS m = Some a -> Stun.GetSocketAddress a = mapped ->
  Stun.GetUInt32 Stun.STUN_ATTR_PRIORITY (StunRequest.msg_ r) = Some prio -> local_candidate c p = Some lc ->
  exists p' c' g' evs, conn_OnReadPacket inet_ntop now (StunWire.enc_msg m) addr p g = Some (p', g', evs) /\
    GetConnection addr p' = Some c' /\ write_state_ c' = STATE_WRITABLE /\ state_ c' = STATE_SUCCEEDED /\ pings_since_last_response_ c' = [] /\
    requests_ c' = idle (u32 (num + 1)) /\ Forall (of_conn addr) evs /\
    if existsb (fun cand => IpAddress.sa_eqb (SessionDescription.address_ cand) mapped) (candidates_ p)
    then candidates_ p' = candidates_ p /\ local_candidate c' p' = Some lc
    else exists lc', local_candidate c' p' = Some lc' /\ SessionDescription.address_ lc' = mapped /\
           SessionDescription.priority_ lc' = value prio /\ SessionDescription.cand_type lc' = PRFLX_PORT_TYPE /\
           SessionDescription.related_address_ lc' = SessionDescription.address_ lc.
Proof.
  intros Hc Hs Hreq Hm Hh Hid Hty Hmt Hse Hx Hmap Hprio Hlc.
  pose proof (sealed_received _ m addr p Hse Hs (or_introl Hmt)) as HG.
  destruct (pending_response h num T r m Hm Hh Hid Hty) as [HC _]. specialize (HC Hmt).
  unfold conn_OnReadPacket. rewrite Hc, HG, Hmt. change (STUN_BINDING_RESPONSE =? STUN_BINDING_REQUEST) with false. cbn iota.
  rewrite Z.eqb_refl. cbn [orb].
  assert (Hg : IsGoogleIce p = false).
  { unfold IsGoogleIce, IsStandardIce in *. apply bool_decide_eq_true_1 in Hs. by rewrite Hs. }
  rewrite Hg, (se_integrity _ _ Hse). unfold CheckResponse. rewrite Hreq, HC.
  change (StunRequest.heap (pending h num T r)) with ({[h := r]} : gmap Z StunRequest.Request). rewrite lookup_singleton_eq.
  unfold OnConnectionRequestResponse. rewrite Hs.
  set (c0 := put_requests (idle (u32 (num + 1))) c).
  change (set_write_state STATE_WRITABLE c0) with (put_write_state STATE_WRITABLE c0, (set_write_state STATE_WRITABLE c0).2). cbn iota beta.
  set (w := match remote_ice_mode_ _ with SessionDescription.ICEMODE_LITE => _ | _ => _ end).
  assert (Hw : local_candidate_index_ w.1 = local_candidate_index_ c /\ write_state_ w.1 = STATE_WRITABLE /\ state_ w.1 = STATE_SUCCEEDED /\
    requests_ w.1 = idle (u32 (num + 1))).
  { unfold w. by destruct (remote_ice_mode_ _). }
  destruct w as [c1 e1]. cbn [fst] in Hw. destruct Hw as (W1 & W2 & W3 & W4).
  unfold MaybeAddPrflxCandidate. rewrite Hx, Hmap. destruct (existsb _ (candidates_ p)) eqn:Ek.
  - do 4 eexists. split; [reflexivity|]. rewrite (GetConnection_put addr c) by done. split; [done|].
    cbn [put_rtt put_last_ping_response_received put_pings write_state_ state_ pings_since_last_response_ requests_]. split_and!; try done.
    { repeat apply Forall_app_2; first [apply List.Forall_nil | apply of_conn_map | apply (of_conn_map addr [_])]. }
    unfold local_candidate in *. transitivity (candidates_ p !! local_candidate_index_ c1); [reflexivity|]. by rewrite W1.
  - rewrite Hprio. destruct (random_string 8 g) as [id g1]. unfold local_candidate at 1. cbn [put_rtt put_last_ping_response_received put_pings local_candidate_index_].
    rewrite W1. unfold local_candidate in Hlc. rewrite Hlc. cbn [AddPrflxCandidate].
    do 4 eexists. split; [reflexivity|]. rewrite (GetConnection_put addr c) by done. split; [done|].
    cbn [put_local_candidate_index put_rtt put_last_ping_response_received put_pings write_state_ state_ pings_since_last_response_ requests_]. split_and!; try done.
    { repeat apply Forall_app_2; first [apply List.Forall_nil | apply of_conn_map | apply (of_conn_map addr [_])]. }
    unfold local_candidate. cbn [put_connection put_connections put_candidates candidates_ local_candidate_index_].
    eexists. split; [apply (list_lookup_middle (candidates_ p) [] _ _ eq_refl)|]. by split_and!.
Qed.

Lemma random_tid g tid g' : Helpers.CreateRandomString Stun.kStunTransactionIdLength g = (Some tid, g') ->
  bytes_ok tid /\ length tid = 12%nat.
Proof.
  intros H. apply Helpers.CreateRandomString_digits in H as (ds & Hl & Hd & ->). rewrite length_map. split; [|done].
  apply List.Forall_map. eapply List.Forall_impl; [|exact Hd]. intros d Hd'.
  by apply Base64.tbl_byte.
Qed.

(** ** The check on its way *)

Record in_flight (now h num : Z) (pA : Port) (cA : Connection) (pB : Port) (addrA : IpAddress.SocketAddress) (lc : SessionDescription.Candidate)
    (tid : bytes) (m : Stun.StunMessage) (r : StunRequest.Request) (c2 : Connection) : Prop := {
  if_received : GetStunMessage (StunWire.enc_msg m) addrA pB = Some (Message m (ice_username_fragment_ pA), pB, []);
  if_roles : MaybeIceRoleConflict addrA m (ice_username_fragment_ pA) pB =
    if loops_back (ice_username_fragment_ pA) pA pB || negb (bool_decide (ice_role_ pA = ice_role_ pB)) then Some (true, [])
    else if yields (ice_role_ pB) (tiebreaker_ pB) (tiebreaker_ pA) then Some (true, [SignalRoleConflict])
    else let? evs := SendBindingErrorResponse m addrA STUN_ERROR_ROLE_CONFLICT STUN_ERROR_REASON_ROLE_CONFLICT pB in Some (false, evs);
  if_type : Stun.type_ m = STUN_BINDING_REQUEST; if_tid : Stun.transaction_id_ m = tid;
  if_user : is_Some (Stun.GetByteString Stun.STUN_ATTR_USERNAME m);
  if_retransmit : forall a, Stun.GetUInt32 Stun.STUN_ATTR_RETRANSMIT_COUNT m = Some a -> is_u 32 (value a);
  if_nominated : is_Some (Stun.GetByteString Stun.STUN_ATTR_USE_CANDIDATE m) <-> nominates cA pA = true;
  if_conn : c2 = set_state STATE_INPROGRESS (put_requests (pending h (u32 (num + 1)) (TimeAfter now 5000) r)
                   (put_pings (pings_since_last_response_ cA ++ [now]) (put_last_ping_sent now cA)));
  if_manager : StunRequest.manager_ r = true; if_id : StunRequest.id r = tid; if_rtype : StunRequest.type r = STUN_BINDING_REQUEST;
  if_priority : Stun.GetUInt32 Stun.STUN_ATTR_PRIORITY (StunRequest.msg_ r) =
    Some (Stun.new_uint32 Stun.STUN_ATTR_PRIORITY (prflx_priority (SessionDescription.priority_ lc)));
}.

Lemma check_sent now h num pA addrB cA pB addrA cB gA gA' tid lc :
  peers pA addrB cA pB addrA cB -> ice_role_ pA <> ICEROLE_UNKNOWN -> ice_role_ pB <> ICEROLE_UNKNOWN ->
  requests_ cA = idle num -> connected_ cA = true -> h <> 0 -> is_u 32 now -> local_candidate cA pA = Some lc ->
  Helpers.CreateRandomString Stun.kStunTransactionIdLength gA = (Some tid, gA') ->
  exists c1 c2 m r, Ping now h cA pA gA = Some (c1, gA') /\ Pump now c1 = Some (c2, [SendTo (StunWire.enc_msg m) addrB]) /\
    in_flight now h num pA cA pB addrA lc tid m r c2 /\ bytes_ok tid /\ length tid = 12%nat.
Proof.
  intros H HrA HrB Hreq Hcon Hh Hnow Hlc Hrs. destruct (random_tid _ _ _ Hrs) as [Htid Hlen].
  pose proof (peers_check _ _ _ _ _ _ tid cA H Htid Hlen eq_refl) as Hck.
  destruct (ping_packet now h num cA pA gA gA' tid lc Hreq Hcon Hh Hnow Hrs Hlc HrA) as (c1 & r & E1 & E2 & Hm & Hid & Hty & Hmsg & _ & Hse).
  { by rewrite (pe_user_b _ _ _ _ _ _ H). }
  rewrite (pe_user_b _ _ _ _ _ _ H) in *. fold (check_name pA pB) in *.
  set (c0 := put_pings _ _) in *. set (m := check _ _ _ _ _) in *. rewrite (pe_addr_b _ _ _ _ _ _ H) in E2.
  assert (Hck0 : check_ok (check_name pA pB) tid c0 pA) by (by apply (peers_check _ addrB cA _ addrA cB)).
  destruct (check_gets (check_name pA pB) (SessionDescription.priority_ lc) tid c0 pA) as (G1 & _ & G3 & _ & _ & G6 & G7). fold m in G1, G3, G6, G7.
  eexists c1, _, m, r. split; [exact E1|]. split; [exact E2|]. split; [|done].
  assert (Hpw : password_ pB = SessionDescription.password_ (remote_candidate_ c0)) by exact (eq_sym (pe_password_b _ _ _ _ _ _ H)).
  pose proof (check_received (check_name pA pB) (SessionDescription.priority_ lc) tid c0 pA (ice_username_fragment_ pB) (ice_username_fragment_ pA) addrA pB
    Hck0 eq_refl (pe_colon _ _ _ _ _ _ H) (pe_standard_b _ _ _ _ _ _ H) eq_refl Hpw) as HG. cbv zeta in HG. fold m in HG.
  pose proof (check_roles (check_name pA pB) (SessionDescription.priority_ lc) tid c0 pA pB addrA (ice_username_fragment_ pA)
    (pe_standard_b _ _ _ _ _ _ H) HrA HrB) as Hro. fold m in Hro.
  split; try done.
  - intros a Ha. unfold Stun.GetUInt32 in Ha. rewrite G3 in Ha. destruct (send_retransmit_count_attribute_ pA); [|done]. injection Ha as <-.
    apply wrap_range. lia.
  - unfold Stun.GetUInt32. by rewrite Hmsg.
Qed.

(** The answer of [pB] to the check, at the end that sent it. *)
Lemma answer_taken now1 now3 h num pA addrB cA pB addrA cB gA' tid lc m r c2 :
  peers pA addrB cA pB addrA cB -> in_flight now1 h num pA cA pB addrA lc tid m r c2 -> length tid = 12%nat -> h <> 0 -> local_candidate cA pA = Some lc ->
  sealed (password_ pB) (response m addrA pB) ->
  exists pA' cA' gA'' evsA, conn_OnReadPacket inet_ntop now3 (StunWire.enc_msg (response m addrA pB)) addrB (put_connection addrB c2 pA) gA' = Some (pA', gA'', evsA) /\
    (GetConnection addrB pA' = Some cA' /\ write_state_ cA' = STATE_WRITABLE /\ state_ cA' = STATE_SUCCEEDED /\
     pings_since_last_response_ cA' = [] /\ (exists num', requests_ cA' = idle num') /\
     if existsb (fun cand => IpAddress.sa_eqb (SessionDescription.address_ cand) addrA) (candidates_ pA)
     then candidates_ pA' = candidates_ pA /\ local_candidate cA' pA' = Some lc
     else exists lc', local_candidate cA' pA' = Some lc' /\ SessionDescription.address_ lc' = addrA /\
            SessionDescription.priority_ lc' = ICE_TYPE_PREFERENCE_PRFLX * 2 ^ 24 + SessionDescription.priority_ lc mod 2 ^ 24 /\
            SessionDescription.cand_type lc' = PRFLX_PORT_TYPE /\ SessionDescription.related_address_ lc' = SessionDescription.address_ lc) /\
    Forall (of_conn addrB) evsA.
Proof.
  intros H F Hlen Hh Hlc B5. set (pA1 := put_connection addrB _ pA).
  destruct (response_address m addrA pB) as (xa & X1 & X2).
  assert (Hc2 : GetConnection addrB pA1 = Some c2) by (apply (GetConnection_put addrB cA); apply H).
  pose proof (if_conn _ _ _ _ _ _ _ _ _ _ _ _ F) as Ec2.
  assert (Hsr : sealed (SessionDescription.password_ (remote_candidate_ c2)) (response m addrA pB)).
  { rewrite Ec2. change (sealed (SessionDescription.password_ (remote_candidate_ cA)) (response m addrA pB)). by rewrite (pe_password_b _ _ _ _ _ _ H). }
  assert (Htr : Stun.transaction_id_ (response m addrA pB) = StunRequest.id r).
  { rewrite (if_id _ _ _ _ _ _ _ _ _ _ _ _ F). exact (if_tid _ _ _ _ _ _ _ _ _ _ _ _ F). }
  assert (Hq : requests_ c2 = pending h (u32 (num + 1)) (TimeAfter now1 5000) r) by (by rewrite Ec2).
  assert (Hlc2 : local_candidate c2 pA1 = Some lc) by (rewrite Ec2; exact Hlc).
  destruct (response_accepted now3 (response m addrA pB) addrB addrA xa pA1 c2 h (u32 (num + 1)) (TimeAfter now1 5000) r lc _ gA'
              Hc2 (pe_standard_a _ _ _ _ _ _ H) Hq (if_manager _ _ _ _ _ _ _ _ _ _ _ _ F) Hh Htr (if_rtype _ _ _ _ _ _ _ _ _ _ _ _ F) eq_refl Hsr X1 X2
              (if_priority _ _ _ _ _ _ _ _ _ _ _ _ F) Hlc2)
    as (pA' & cA' & g'' & evsA & EA & A1 & A2 & A3 & A4 & A5 & Aev & A6).
  exists pA', cA', g'', evsA. split; [exact EA|]. split; [|done]. split_and!; [done..|by eexists|].
  change (candidates_ pA1) with (candidates_ pA) in A6. destruct (existsb _ _); [done|].
  destruct A6 as (lc' & L1 & L2 & L3 & L4 & L5). exists lc'. split_and!; try done. rewrite L3. apply prflx_priority_eq.
Qed.

(** C20: An ICE connectivity check, end to end: two ports with the credentials
    of each other's candidates and different roles.  A ping is one packet; the
    other end takes that packet, answers it with one packet to the address it
    came from and is readable, and signals USE-CANDIDATE exactly if the
    controlling end nominated; the first end takes the answer, is writable and
    SUCCEEDED with no ping or request outstanding, and its local candidate is
    the one whose address the other end saw: a peer reflexive one with the
    priority it announced, if it did not know it. *)
Theorem ice_check now1 now2 now3 h num pA addrB cA pB addrA cB gA gA' gB tid lc :
  peers pA addrB cA pB addrA cB -> ice_role_ pA <> ICEROLE_UNKNOWN -> ice_role_ pB <> ICEROLE_UNKNOWN -> ice_role_ pA <> ice_role_ pB ->
  requests_ cA = idle num -> connected_ cA = true -> h <> 0 -> is_u 32 now1 -> local_candidate cA pA = Some lc ->
  Helpers.CreateRandomString Stun.kStunTransactionIdLength gA = (Some tid, gA') ->
  exists c1 c2 request, Ping now1 h cA pA gA = Some (c1, gA') /\ Pump now1 c1 = Some (c2, [SendTo request addrB]) /\
  exists response pB' cB' evsB, conn_OnReadPacket inet_ntop now2 request addrA pB gB = Some (pB', gB, SendTo response addrA :: evsB) /\
    GetConnection addrA pB' = Some cB' /\ read_state_ cB' = STATE_READABLE /\ last_ping_received_ cB' = now2 /\
    (In (Conn addrA SignalUseCandidate) evsB <-> ice_role_ pA = ICEROLE_CONTROLLING /\ use_candidate_attr_ cA = true) /\
  exists pA' cA' gA'' evsA, conn_OnReadPacket inet_ntop now3 response addrB (put_connection addrB c2 pA) gA' = Some (pA', gA'', evsA) /\
    GetConnection addrB pA' = Some cA' /\ write_state_ cA' = STATE_WRITABLE /\ state_ cA' = STATE_SUCCEEDED /\
    pings_since_last_response_ cA' = [] /\ (exists num', requests_ cA' = idle num') /\
    if existsb (fun cand => IpAddress.sa_eqb (SessionDescription.address_ cand) addrA) (candidates_ pA)
    then candidates_ pA' = candidates_ pA /\ local_candidate cA' pA' = Some lc
    else exists lc', local_candidate cA' pA' = Some lc' /\ SessionDescription.address_ lc' = addrA /\
           SessionDescription.priority_ lc' = ICE_TYPE_PREFERENCE_PRFLX * 2 ^ 24 + SessionDescription.priority_ lc mod 2 ^ 24 /\
           SessionDescription.cand_type lc' = PRFLX_PORT_TYPE /\ SessionDescription.related_address_ lc' = SessionDescription.address_ lc.
Proof.
  intros H HrA HrB Hne Hreq Hcon Hh Hnow Hlc Hrs. destruct (pe_bytes _ _ _ _ _ _ H) as (_ & _ & Hpwd).
  destruct (check_sent now1 h num pA addrB cA pB addrA cB gA gA' tid lc H HrA HrB Hreq Hcon Hh Hnow Hlc Hrs) as (c1 & c2 & m & r & E1 & E2 & F & Htid & Hlen).
  pose proof (if_roles _ _ _ _ _ _ _ _ _ _ _ _ F) as Hro. rewrite (bool_decide_eq_false_2 _ Hne), orb_true_r in Hro.
  exists c1, c2, (StunWire.enc_msg m). split; [exact E1|]. split; [exact E2|].
  pose proof (if_tid _ _ _ _ _ _ _ _ _ _ _ _ F) as Htm.
  destruct (check_answered now2 m (ice_username_fragment_ pA) addrA pB cB [] gB (if_received _ _ _ _ _ _ _ _ _ _ _ _ F) (pe_b _ _ _ _ _ _ H)
    (eq_sym (pe_user_a _ _ _ _ _ _ H)) (pe_standard_b _ _ _ _ _ _ H) (if_type _ _ _ _ _ _ _ _ _ _ _ _ F) (if_user _ _ _ _ _ _ _ _ _ _ _ _ F) Hro
    (pe_addr_a _ _ _ _ _ _ H)) as (pB' & cB' & evs & EB & B1 & B2 & B3 & _ & B5 & _ & B6); [by rewrite Htm..|done|apply F|].
  exists (StunWire.enc_msg (response m addrA pB)), pB', cB', evs. split; [exact EB|]. split_and!; [done..| |].
  { rewrite B6, (if_nominated _ _ _ _ _ _ _ _ _ _ _ _ F). unfold nominates. rewrite andb_true_iff, bool_decide_eq_true.
    destruct (ice_role_ pA), (ice_role_ pB); split; try (by intros []); (intros (? & ? & ?) || intros [? ?]); done. }
  destruct (answer_taken now1 now3 h num pA addrB cA pB addrA cB gA' tid lc m r c2 H F Hlen Hh Hlc B5) as (pA' & cA' & g'' & evsA & EA & A & _).
  exists pA', cA', g'', evsA. split; [exact EA|exact A].
Qed.


(** ** The refusal of a check *)

Definition refusal_attrs : list Stun.StunAttribute :=
  [Stun.SetReason STUN_ERROR_REASON_ROLE_CONFLICT (Stun.SetCode STUN_ERROR_ROLE_CONFLICT Stun.CreateErrorCode)].
Definition refusal (request : Stun.StunMessage) (p : Port) : Stun.StunMessage :=
  secured (password_ p) (msg STUN_BINDING_ERROR_RESPONSE (Stun.transaction_id_ request) refusal_attrs).

Lemma refusal_spec request addr q :
  Stun.type_ request = STUN_BINDING_REQUEST -> bytes_ok (Stun.transaction_id_ request) -> length (Stun.transaction_id_ request) = 12%nat ->
  bytes_ok (password_ q) -> IsStandardIce q = true ->
  SendBindingErrorResponse request addr STUN_ERROR_ROLE_CONFLICT STUN_ERROR_REASON_ROLE_CONFLICT q = Some [SendTo (StunWire.enc_msg (refusal request q)) addr] /\
  sealed (password_ q) (refusal request q) /\
  exists a, Stun.GetErrorCode (refusal request q) = Some a /\ Stun.code a = STUN_ERROR_ROLE_CONFLICT.
Proof.
  intros Hty Hb Ht Hk Hs. set (tid := Stun.transaction_id_ request) in *.
  assert (Ha : Forall (StunWire.attr_ok tid) refusal_attrs).
  { apply List.Forall_cons; [|apply List.Forall_nil]. split; [by split|]. split; [by split|]. split_and!; [done..|by split| |done]. by apply all_bytes. }
  assert (Hmsg : forall cl, StunWire.msg_ok cl (msg STUN_BINDING_ERROR_RESPONSE tid refusal_attrs)).
  { intros cl. apply msg_ok_msg; [done|by split; [|left]|done|by destruct cl; repeat constructor|done]. }
  destruct (secured_spec Stun.StunMessageClass (password_ q) _ (Hmsg _) (Hmsg _)) as [E Hse]; try done.
  { by repeat constructor. }
  split; [|split; [done|]].
  - unfold SendBindingErrorResponse. rewrite Hty, Z.eqb_refl, Hs. do 3 f_equal.
    destruct (sealed_wire _ _ Hse) as [Hw _]. unfold refusal. fold tid. rewrite <- Hw, <- E. f_equal.
    unfold Stun.SetTransactionID, Stun.IsValidTransactionId. fold tid. rewrite Ht.
    change (12 =? Stun.kStunTransactionIdLength)%nat with true. cbn [orb negb snd].
    change (Stun.set_transaction_id tid (Stun.SetType STUN_BINDING_ERROR_RESPONSE Stun.new_message)) with (msg STUN_BINDING_ERROR_RESPONSE tid []).
    change (negb (STUN_ERROR_ROLE_CONFLICT =? STUN_ERROR_BAD_REQUEST) && negb (STUN_ERROR_ROLE_CONFLICT =? STUN_ERROR_UNAUTHORIZED)) with true. cbn iota.
    assert (Eall : add_all Stun.StunMessageClass refusal_attrs (msg STUN_BINDING_ERROR_RESPONSE tid []) = msg STUN_BINDING_ERROR_RESPONSE tid refusal_attrs).
    { rewrite add_all_msg; [reflexivity|apply List.Forall_cons; [exact (Forall_inv Ha)|apply List.Forall_nil]|by constructor|reflexivity]. }
    rewrite <- Eall. reflexivity.
  - unfold refusal. set (m0 := msg _ _ _). destruct (secured_fields (password_ q) m0) as (_ & _ & mi & fp & Hat & _).
    unfold Stun.GetErrorCode, Stun.GetAttribute. rewrite Hat. eexists. by split.
Qed.

(** The refusal at the end that sent the check. *)
Lemma refusal_taken now m addr p c h num T r g :
  GetConnection addr p = Some c -> IsStandardIce p = true -> requests_ c = pending h num T r -> StunRequest.manager_ r = true -> h <> 0 ->
  Stun.transaction_id_ m = StunRequest.id r -> StunRequest.type r = STUN_BINDING_REQUEST -> Stun.type_ m = STUN_BINDING_ERROR_RESPONSE ->
  sealed (SessionDescription.password_ (remote_candidate_ c)) m ->
  (exists a, Stun.GetErrorCode m = Some a /\ Stun.code a = STUN_ERROR_ROLE_CONFLICT) ->
  conn_OnReadPacket inet_ntop now (StunWire.enc_msg m) addr p g =
    Some (put_connection addr (put_requests (idle (u32 (num + 1))) c) p, g, [SignalRoleConflict]).
Proof.
  intros Hc Hs Hreq Hm Hh Hid Hty Hmt Hse (a & Hec & Hcode).
  assert (Hec' : is_Some (Stun.GetErrorCode m)) by (by rewrite Hec).
  pose proof (sealed_received _ m addr p Hse Hs (or_intror (conj Hmt Hec'))) as HG.
  destruct (pending_response h num T r m Hm Hh Hid Hty) as [_ HC]. specialize (HC Hmt).
  assert (Hg : IsGoogleIce p = false).
  { unfold IsGoogleIce, IsStandardIce in *. apply bool_decide_eq_true_1 in Hs. by rewrite Hs. }
  unfold conn_OnReadPacket. rewrite Hc, HG, Hmt. change (STUN_BINDING_ERROR_RESPONSE =? STUN_BINDING_REQUEST) with false. cbn iota.
  rewrite Z.eqb_refl, orb_true_r, Hg, (se_integrity _ _ Hse). unfold CheckResponse. rewrite Hreq, HC.
  unfold OnConnectionRequestErrorResponse. rewrite Hec, Hg, Hcode. reflexivity.
Qed.

(** C21: Role conflicts: two ports with the credentials of each other's
    candidates, the same role and different tiebreakers.  Exactly one of them
    has to give way, whichever sends the check, and it is the one that is told
    (SignalRoleConflict, once): if it is the end that receives the check, that
    end answers and both connections come up; if it is the end that sent it,
    the other refuses the check without a change of its state, and the refusal
    leaves the connection without a failure or a request outstanding.  The
    role that the session then gives it is the other one, once. *)
Theorem role_conflict_resolved now1 now2 now3 h num pA addrB cA pB addrA cB gA gA' gB tid lc :
  peers pA addrB cA pB addrA cB -> ice_role_ pA <> ICEROLE_UNKNOWN -> ice_role_ pA = ice_role_ pB -> tiebreaker_ pA <> tiebreaker_ pB ->
  requests_ cA = idle num -> connected_ cA = true -> h <> 0 -> is_u 32 now1 -> local_candidate cA pA = Some lc ->
  Helpers.CreateRandomString Stun.kStunTransactionIdLength gA = (Some tid, gA') ->
  let told := SignalRoleConflict in
  let B_yields := yields (ice_role_ pB) (tiebreaker_ pB) (tiebreaker_ pA) in
  yields (ice_role_ pA) (tiebreaker_ pA) (tiebreaker_ pB) = negb B_yields /\
  (let initiator := bool_decide (ice_role_ pA = ICEROLE_CONTROLLING) in
   exists role, OnRoleConflict initiator false = (true, Some role) /\ role <> ice_role_ pA /\ role <> ICEROLE_UNKNOWN /\ OnRoleConflict initiator true = (true, None)) /\
  exists c1 c2 request, Ping now1 h cA pA gA = Some (c1, gA') /\ Pump now1 c1 = Some (c2, [SendTo request addrB]) /\
    if B_yields then
      exists response pB' cB' evsB pA' cA' gA'' evsA,
        conn_OnReadPacket inet_ntop now2 request addrA pB gB = Some (pB', gB, told :: SendTo response addrA :: evsB) /\ ~ In told evsB /\
        GetConnection addrA pB' = Some cB' /\ read_state_ cB' = STATE_READABLE /\
        conn_OnReadPacket inet_ntop now3 response addrB (put_connection addrB c2 pA) gA' = Some (pA', gA'', evsA) /\ ~ In told evsA /\
        GetConnection addrB pA' = Some cA' /\ write_state_ cA' = STATE_WRITABLE /\ state_ cA' = STATE_SUCCEEDED
    else
      exists response num', conn_OnReadPacket inet_ntop now2 request addrA pB gB = Some (pB, gB, [SendTo response addrA]) /\
        conn_OnReadPacket inet_ntop now3 response addrB (put_connection addrB c2 pA) gA' =
          Some (put_connection addrB (put_requests (idle num') c2) (put_connection addrB c2 pA), gA', [told]) /\ state_ c2 = STATE_INPROGRESS.
Proof.
  intros H HrA Heq Hne Hreq Hcon Hh Hnow Hlc Hrs told B_yields. assert (HrB : ice_role_ pB <> ICEROLE_UNKNOWN) by (by rewrite <- Heq).
  split; [unfold B_yields; rewrite <- Heq; destruct (ice_role_ pA); cbn [yields]; lia || done|].
  split; [cbv zeta; destruct (ice_role_ pA); [rewrite bool_decide_eq_true_2 by done; by eexists|rewrite bool_decide_eq_false_2 by done; by eexists|done]|].
  destruct (pe_bytes _ _ _ _ _ _ H) as (_ & _ & Hpwd).
  destruct (check_sent now1 h num pA addrB cA pB addrA cB gA gA' tid lc H HrA HrB Hreq Hcon Hh Hnow Hlc Hrs) as (c1 & c2 & m & r & E1 & E2 & F & Htid & Hlen).
  exists c1, c2, (StunWire.enc_msg m). split; [exact E1|]. split; [exact E2|].
  pose proof (if_roles _ _ _ _ _ _ _ _ _ _ _ _ F) as Hro. pose proof (if_tid _ _ _ _ _ _ _ _ _ _ _ _ F) as Htm.
  pose proof (if_received _ _ _ _ _ _ _ _ _ _ _ _ F) as HG. pose proof (if_type _ _ _ _ _ _ _ _ _ _ _ _ F) as Hty.
  assert (Hlb : loops_back (ice_username_fragment_ pA) pA pB = false).
  { unfold loops_back. replace (tiebreaker_ pA =? tiebreaker_ pB) with false by lia. by rewrite andb_false_r. }
  rewrite Hlb, (bool_decide_eq_true_2 _ Heq) in Hro. cbn [negb orb] in Hro. fold B_yields in Hro.
  assert (Hno : forall addr evs, Forall (of_conn addr) evs -> ~ In told evs).
  { intros addr evs Hev Hin. rewrite List.Forall_forall in Hev. by destruct (Hev _ Hin). }
  destruct B_yields.
  - destruct (check_answered now2 m (ice_username_fragment_ pA) addrA pB cB [told] gB HG (pe_b _ _ _ _ _ _ H)
      (eq_sym (pe_user_a _ _ _ _ _ _ H)) (pe_standard_b _ _ _ _ _ _ H) Hty (if_user _ _ _ _ _ _ _ _ _ _ _ _ F) Hro
      (pe_addr_a _ _ _ _ _ _ H)) as (pB' & cB' & evs & EB & B1 & B2 & _ & _ & B5 & Bev & _); [by rewrite Htm..|done|apply F|].
    destruct (answer_taken now1 now3 h num pA addrB cA pB addrA cB gA' tid lc m r c2 H F Hlen Hh Hlc B5) as (pA' & cA' & g'' & evsA & EA & (A1 & A2 & A3 & _) & Aev).
    exists (StunWire.enc_msg (response m addrA pB)), pB', cB', evs, pA', cA', g'', evsA.
    split; [exact EB|]. split; [by eapply Hno|]. split; [exact B1|]. split; [exact B2|]. split; [exact EA|]. split; [by eapply Hno|]. by split_and!.
  - destruct (refusal_spec m addrA pB Hty) as (R1 & R2 & R3); [by rewrite Htm..|done|apply H|]. rewrite R1 in Hro.
    pose proof (if_conn _ _ _ _ _ _ _ _ _ _ _ _ F) as Ec2.
    exists (StunWire.enc_msg (refusal m pB)), (u32 (u32 (num + 1) + 1)). split; [|split; [|by rewrite Ec2]].
    + unfold conn_OnReadPacket. rewrite (pe_b _ _ _ _ _ _ H), HG, Hty, Z.eqb_refl, (pe_user_a _ _ _ _ _ _ H), bool_decide_eq_true_2, (pe_standard_b _ _ _ _ _ _ H) by done.
      by rewrite Hro.
    + assert (Hc2 : GetConnection addrB (put_connection addrB c2 pA) = Some c2) by (apply (GetConnection_put addrB cA); apply H).
      assert (Hq : requests_ c2 = pending h (u32 (num + 1)) (TimeAfter now1 5000) r) by (by rewrite Ec2).
      assert (Htr : Stun.transaction_id_ (refusal m pB) = StunRequest.id r) by (rewrite (if_id _ _ _ _ _ _ _ _ _ _ _ _ F); exact Htm).
      assert (Hse : sealed (SessionDescription.password_ (remote_candidate_ c2)) (refusal m pB)).
      { rewrite Ec2. change (sealed (SessionDescription.password_ (remote_candidate_ cA)) (refusal m pB)). by rewrite (pe_password_b _ _ _ _ _ _ H). }
      exact (refusal_taken now3 (refusal m pB) addrB _ c2 h _ _ r gA' Hc2 (pe_standard_a _ _ _ _ _ _ H) Hq (if_manager _ _ _ _ _ _ _ _ _ _ _ _ F) Hh Htr
        (if_rtype _ _ _ _ _ _ _ _ _ _ _ _ F) eq_refl Hse R3).
Qed.

End Checks.

(** ** Two sample ports: A is behind a NAT that B sees as [nat_addr] *)

Definition no_ntop (f : IpAddress.family) (b : bytes) : option bytes := None.
Definition v4 (b : bytes) (port : Z) : IpAddress.SocketAddress := IpAddress.sa_of_ip (IpAddress.ip_of_v4 b) port.
Definition host_addr : IpAddress.SocketAddress := v4 [10; 0; 0; 1] 1000.
Definition nat_addr : IpAddress.SocketAddress := v4 [192; 0; 2; 9] 4321.
Definition peer_addr : IpAddress.SocketAddress := v4 [10; 0; 0; 2] 2000.
Definition sample_port (role : IceRole) (tiebreaker : Z) (addr remote : IpAddress.SocketAddress) (ufrag pwd remote_ufrag remote_pwd : bytes) : Port :=
  let fallback := mkPort [] false 0 [] IpAddress.ip_nil 0 0 [] [] [] [] 0 false SessionDescription.ICEPROTO_HYBRID ICEROLE_UNKNOWN 0 false in
  let p := match @new_port Helpers.TestRandomGenerator (str "local") 0 (str "eth0") (IpAddress.ip_ addr) ufrag pwd false Helpers.test_seed with
           | Some (p, _) => p | None => fallback end in
  let p := SetIceTiebreaker tiebreaker (SetIceRole role (SetIceProtocolType SessionDescription.ICEPROTO_RFC5245 p)) in
  let p := match @AddAddress x86 Helpers.TestRandomGenerator no_ntop addr addr IpAddress.sa_clear (str "udp") (str "local") 126 true p Helpers.test_seed with
           | Some (p, _, _) => p | None => p end in
  let remote := SessionDescription.mkCandidate (str "r") 1 (str "udp") remote 2113937151 remote_ufrag remote_pwd (str "local") (str "") 0 (str "1")
                  IpAddress.sa_clear in
  (@AddConnection x86 (set_use_candidate_attr true (new 0 remote)) p).1.
Definition port_A (role : IceRole) : Port := sample_port role 5 host_addr peer_addr (str "userA") (str "passwordA") (str "userB") (str "passwordB").
Definition port_B (role : IceRole) : Port := sample_port role 9 peer_addr nat_addr (str "userB") (str "passwordB") (str "userA") (str "passwordA").
Definition conn_of (addr : IpAddress.SocketAddress) (p : Port) : Connection :=
  default (new 0 (SessionDescription.mkCandidate [] 0 [] addr 0 [] [] [] [] 0 [] addr)) (@GetConnection x86 addr p).
Definition sample_tid : bytes := default [] (@Helpers.CreateRandomString Helpers.TestRandomGenerator Stun.kStunTransactionIdLength Helpers.test_seed).1.

Lemma sample_peers rA rB : @peers x86 (port_A rA) peer_addr (conn_of peer_addr (port_A rA)) (port_B rB) nat_addr (conn_of nat_addr (port_B rB)).
Proof.
  split; try (vm_compute; reflexivity).
  - split; [split; vm_compute; done|]. exists IpAddress.AF_INET, [192; 0; 2; 9]. split; [by apply all_bytes|]. by split.
  - vm_compute. intuition lia.
  - split_and!; by apply all_bytes.
  - vm_compute. done.
  - vm_compute. done.
Qed.

Definition sample_lc (role : IceRole) : SessionDescription.Candidate :=
  nth 0 (candidates_ (port_A role)) (remote_candidate_ (conn_of nat_addr (port_A role))).
Definition sample_g : Z := (@Helpers.CreateRandomString Helpers.TestRandomGenerator Stun.kStunTransactionIdLength Helpers.test_seed).2.

Lemma sample_roles role : ice_role_ (port_A role) = role /\ ice_role_ (port_B role) = role /\
  tiebreaker_ (port_A role) = 5 /\ tiebreaker_ (port_B role) = 9.
Proof. split_and!; vm_compute; reflexivity. Qed.
Lemma sample_ready role : requests_ (conn_of peer_addr (port_A role)) = idle 0 /\ connected_ (conn_of peer_addr (port_A role)) = true /\
  local_candidate (conn_of peer_addr (port_A role)) (port_A role) = Some (sample_lc role) /\ is_u 32 100 /\
  @Helpers.CreateRandomString Helpers.TestRandomGenerator Stun.kStunTransactionIdLength Helpers.test_seed = (Some sample_tid, sample_g).
Proof. split_and!; try (vm_compute; reflexivity). split; vm_compute; done. Qed.

Lemma ice_check_witness :
  exists c1 c2 request, @Ping x86 Helpers.TestRandomGenerator 100 1 (conn_of peer_addr (port_A ICEROLE_CONTROLLING)) (port_A ICEROLE_CONTROLLING) Helpers.test_seed = Some (c1, sample_g) /\
    @Pump x86 100 c1 = Some (c2, [SendTo request peer_addr]).
Proof.
  pose proof (sample_peers ICEROLE_CONTROLLING ICEROLE_CONTROLLED) as Hp.
  destruct (sample_ready ICEROLE_CONTROLLING) as (H1 & H4 & H2 & H7 & H3).
  destruct (sample_roles ICEROLE_CONTROLLING) as (H5 & _), (sample_roles ICEROLE_CONTROLLED) as (_ & H6 & _).
  assert (H5' : ice_role_ (port_A ICEROLE_CONTROLLING) <> ICEROLE_UNKNOWN) by (by rewrite H5).
  assert (H6' : ice_role_ (port_B ICEROLE_CONTROLLED) <> ICEROLE_UNKNOWN) by (by rewrite H6).
  assert (H56 : ice_role_ (port_A ICEROLE_CONTROLLING) <> ice_role_ (port_B ICEROLE_CONTROLLED)) by (by rewrite H5, H6).
  assert (Hh : 1 <> 0) by done.
  pose proof (@ice_check x86 Helpers.TestRandomGenerator no_ntop 100 160 250 1 0 (port_A ICEROLE_CONTROLLING) peer_addr (conn_of peer_addr (port_A ICEROLE_CONTROLLING))
    (port_B ICEROLE_CONTROLLED) nat_addr (conn_of nat_addr (port_B ICEROLE_CONTROLLED)) Helpers.test_seed
    sample_g Helpers.test_seed sample_tid (sample_lc ICEROLE_CONTROLLING) Hp H5' H6' H56 H1 H4 Hh H7 H2 H3) as H.
  destruct H as (c1 & c2 & request & E1 & E2 & _). exists c1, c2, request. by split.
Defined.

(** Both controlling, and A has the smaller tiebreaker: A is told. *)
Lemma role_conflict_resolved_witness :
  exists c1 c2 request response num, @Ping x86 Helpers.TestRandomGenerator 100 1 (conn_of peer_addr (port_A ICEROLE_CONTROLLING)) (port_A ICEROLE_CONTROLLING) Helpers.test_seed = Some (c1, sample_g) /\
    @Pump x86 100 c1 = Some (c2, [SendTo request peer_addr]) /\
    let p := @put_connection x86 peer_addr c2 (port_A ICEROLE_CONTROLLING) in
    @conn_OnReadPacket x86 Helpers.TestRandomGenerator no_ntop 250 response peer_addr p sample_g =
      Some (@put_connection x86 peer_addr (put_requests (idle num) c2) p, sample_g, [SignalRoleConflict]).
Proof.
  pose proof (sample_peers ICEROLE_CONTROLLING ICEROLE_CONTROLLING) as Hp.
  destruct (sample_ready ICEROLE_CONTROLLING) as (H1 & H4 & H2 & H7 & H3).
  destruct (sample_roles ICEROLE_CONTROLLING) as (H5 & H6 & T5 & T9).
  assert (H5' : ice_role_ (port_A ICEROLE_CONTROLLING) <> ICEROLE_UNKNOWN) by (by rewrite H5).
  assert (H56 : ice_role_ (port_A ICEROLE_CONTROLLING) = ice_role_ (port_B ICEROLE_CONTROLLING)) by (by rewrite H5, H6).
  assert (Ht : tiebreaker_ (port_A ICEROLE_CONTROLLING) <> tiebreaker_ (port_B ICEROLE_CONTROLLING)) by (by rewrite T5, T9).
  assert (Hh : 1 <> 0) by done.
  pose proof (@role_conflict_resolved x86 Helpers.TestRandomGenerator no_ntop 100 160 250 1 0 (port_A ICEROLE_CONTROLLING) peer_addr (conn_of peer_addr (port_A ICEROLE_CONTROLLING))
    (port_B ICEROLE_CONTROLLING) nat_addr (conn_of nat_addr (port_B ICEROLE_CONTROLLING)) Helpers.test_seed
    sample_g Helpers.test_seed sample_tid (sample_lc ICEROLE_CONTROLLING) Hp H5' H56 Ht H1 H4 Hh H7 H2 H3) as H.
  destruct H as (_ & _ & c1 & c2 & request & E1 & E2 & E3). rewrite H6, T5, T9 in E3. cbn [yields] in E3. change (9 <=? 5) with false in E3. cbn iota in E3.
  destruct E3 as (response & num & _ & E3 & _). exists c1, c2, request, response, num. by split_and!.
Defined.

End IceCheck.
