(* ===== verification/IceSafety.v ===== *)
(** * ICE: what packets may change, and when pings time out

    A packet without the fingerprint and the MESSAGE-INTEGRITY of the
    credentials makes no connection of a standard ICE port readable or
    writable; a connection whose pings stay unanswered is given up, not too
    early and once; the two ends agree on the priority of a pair. *)

From stdpp Require Import gmap.
From S2P Require Import Prelude TimeUtils ByteOrder ByteBuffer Crc32 IpAddress Stun StunWire Helpers MessageQueue StunRequest SessionDescription IceConnection IcePort IceCheck.
Import ByteOrder TimeUtils IceConnection IcePort IceCheck.
Open Scope jingle_scope.

Module IceSafety.

Section Safety.
Context `{HM : Machine} `{HR : Helpers.RandomGenerator}.
Variable inet_ntop : IpAddress.family -> bytes -> option bytes.

(** ** Packets that are STUN, checks and responses *)

Definition parsed (data : bytes) (m : Stun.StunMessage) : Prop :=
  Stun.ValidateFingerprint data = true /\
  exists buf, Stun.Read Stun.IceMessage Stun.new_message (ByteBuffer.new_from data ByteBuffer.ORDER_NETWORK) = (true, m, buf) /\
    ByteBuffer.Length buf = 0%nat.

(** A check with the names of both ends, under the password of the port. *)
Definition by_check (data : bytes) (p : Port) (c : Connection) : Prop :=
  exists m a, parsed data m /\ Stun.type_ m = STUN_BINDING_REQUEST /\ Stun.ValidateMessageIntegrity data (password_ p) = Some true /\
    Stun.GetByteString Stun.STUN_ATTR_USERNAME m = Some a /\
    GetString a = ice_username_fragment_ p ++ [colon] ++ SessionDescription.username_ (remote_candidate_ c).

(** An answer to a request that is outstanding, under the password of the
    remote candidate. *)
Definition by_response (data : bytes) (c : Connection) : Prop :=
  exists m h, parsed data m /\ (Stun.type_ m = STUN_BINDING_RESPONSE \/ Stun.type_ m = STUN_BINDING_ERROR_RESPONSE) /\
    Stun.ValidateMessageIntegrity data (SessionDescription.password_ (remote_candidate_ c)) = Some true /\
    StunRequest.requests_ (requests_ c) !! Stun.transaction_id_ m = Some h.

Lemma find_char_split ch s n : find_char ch s = Some n -> s = take n s ++ [ch] ++ drop (n + 1) s.
Proof.
  revert n. induction s as [|c s IH]; intros n; cbn [find_char]; [done|].
  destruct (Z.eqb_spec c ch) as [->|]; [by intros [= <-]|]. destruct (find_char ch s) as [k|]; [|done]. cbn [option_map].
  intros [= <-]. cbn [take drop Nat.add app]. f_equal. by apply IH.
Qed.

Definition sends (addr : IpAddress.SocketAddress) (evs : list event) : Prop := Forall (fun e => exists d, e = SendTo d addr) evs.

Lemma error_sends m addr code reason p evs : SendBindingErrorResponse m addr code reason p = Some evs -> sends addr evs.
Proof.
  unfold SendBindingErrorResponse. destruct (Stun.type_ m =? STUN_BINDING_REQUEST); [|done]. intros [= <-].
  apply List.Forall_cons; [by eexists|apply List.Forall_nil].
Qed.

(** What the result of GetStunMessage says of the packet. *)
Definition result_ok (data : bytes) (p : Port) (r : stun_result) (evs : list event) : Prop :=
  match r with
  | NotStun => ~ exists m, parsed data m
  | Handled => True
  | Message m u => parsed data m /\ evs = [] /\
      (Stun.type_ m = STUN_BINDING_REQUEST -> Stun.ValidateMessageIntegrity data (password_ p) = Some true /\
         exists a, Stun.GetByteString Stun.STUN_ATTR_USERNAME m = Some a /\ GetString a = ice_username_fragment_ p ++ [colon] ++ u)
  end.

Lemma GetStunMessage_inv data addr p r p' evs : IsStandardIce p = true -> GetStunMessage data addr p = Some (r, p', evs) ->
  p' = p /\ sends addr evs /\ result_ok data p r evs.
Proof.
  intros Hs. unfold GetStunMessage. rewrite Hs. destruct (Stun.ValidateFingerprint data) eqn:Hf; cbn [negb andb].
  2: { intros [= <- <- <-]. split_and!; [done|apply List.Forall_nil|]. intros (m & E & _). congruence. }
  destruct (Stun.Read _ _ _) as [[ok m] buf] eqn:Er. destruct (negb ok || (0 <? ByteBuffer.Length buf)%nat) eqn:Eok.
  { intros [= <- <- <-]. split_and!; [done|apply List.Forall_nil|]. intros (m' & _ & buf' & E & Hb). rewrite Er in E. injection E as -> -> ->. by rewrite Hb in Eok. }
  apply orb_false_elim in Eok as [Eok1%negb_false_iff Eok2%Nat.ltb_ge]. subst ok.
  assert (Hp : parsed data m) by (split; [done|]; exists buf; split; [exact Er|lia]).
  assert (Hkeep : forall u, Stun.type_ m <> STUN_BINDING_REQUEST -> Some (Message m u, p, []) = Some (r, p', evs) ->
    p' = p /\ sends addr evs /\ result_ok data p r evs).
  { intros u Hn [= <- <- <-]. split; [done|]. split; [apply List.Forall_nil|]. split; [done|]. split; [done|]. by intros ?. }
  assert (Hno : Some (Handled, p, []) = Some (r, p', evs) -> p' = p /\ sends addr evs /\ result_ok data p r evs).
  { intros [= <- <- <-]. split_and!; [done|apply List.Forall_nil|done]. }
  assert (Herr : forall code reason, (let? e := SendBindingErrorResponse m addr code reason p in Some (Handled, p, e)) = Some (r, p', evs) ->
    p' = p /\ sends addr evs /\ result_ok data p r evs).
  { intros code reason. destruct (SendBindingErrorResponse _ _ _ _ _) as [e|] eqn:Ee; [|done]. intros [= <- <- <-]. split_and!; [done| |done].
    by eapply error_sends. }
  destruct (Z.eqb_spec (Stun.type_ m) STUN_BINDING_REQUEST) as [Hty|Hty].
  - destruct (negb _ || _) eqn:Eb; [apply Herr|].
    apply orb_false_elim in Eb as [Eu%negb_false_iff%bool_decide_eq_true_1 _].
    assert (Hpr : ice_protocol_ p = SessionDescription.ICEPROTO_RFC5245) by (by apply bool_decide_eq_true_1 in Hs).
    assert (Hhy : IsHybridIce p = false) by (unfold IsHybridIce; by rewrite Hpr).
    unfold ParseStunUsername. destruct Eu as [a Ea]. rewrite Ea, Hhy, Hpr.
    assert (Hufrag : username_fragment p = Some (ice_username_fragment_ p)) by (unfold username_fragment; by rewrite Hs).
    rewrite Hufrag. destruct (find_char colon (GetString a)) as [n|] eqn:Ef; [|apply Herr].
    destruct (bool_decide _) eqn:Eu; [apply bool_decide_eq_true_1 in Eu|apply Herr].
    rewrite Hs. destruct (Stun.ValidateMessageIntegrity data (password_ p)) as [[]|] eqn:Ev; [|apply Herr|done].
    cbn [negb]. intros [= <- <- <-]. split; [done|]. split; [apply List.Forall_nil|]. split; [exact Hp|]. split; [done|]. intros _. split; [done|].
    exists a. split; [done|]. rewrite <- Eu. by apply find_char_split.
  - destruct (Stun.type_ m =? STUN_BINDING_RESPONSE); [by apply Hkeep|].
    destruct (Stun.type_ m =? STUN_BINDING_ERROR_RESPONSE); [destruct (Stun.GetErrorCode m); [by apply Hkeep|apply Hno]|].
    destruct (Stun.type_ m =? STUN_BINDING_INDICATION); [by apply Hkeep|apply Hno].
Qed.

(** ** What a packet may do *)

(** Nothing but the candidates of the port and its connection at [addr]. *)
Definition others_same (addr : IpAddress.SocketAddress) (p p' : Port) : Prop :=
  put_candidates [] (put_connections [] p') = put_candidates [] (put_connections [] p) /\
  Forall2 (fun e e' => e'.1 = e.1 /\ (same_key e.1 addr = false -> e' = e)) (connections_ p) (connections_ p').

Lemma others_refl addr p : others_same addr p p.
Proof. split; [done|]. induction (connections_ p); constructor; auto. Qed.
Lemma others_put addr c p p' : others_same addr p p' -> others_same addr p (put_connection addr c p').
Proof.
  intros [H1 H2]. split; [done|]. cbn [put_connection put_connections connections_].
  induction H2 as [|e e' l l' [He Hs] _ IH]; [constructor|]. constructor; [|done].
  rewrite He. destruct (same_key e.1 addr); [done|]. by rewrite Hs.
Qed.
Lemma others_candidates addr l p : others_same addr p (put_candidates l p).
Proof. split; [done|]. apply (others_refl addr p). Qed.

(** Data: not STUN, on a readable connection. *)
Definition by_data (data : bytes) (c : Connection) : Prop := read_state_ c = STATE_READABLE /\ ~ exists m, parsed data m.

Definition allowed (data : bytes) (addr : IpAddress.SocketAddress) (p : Port) (c : Connection) (e : event) : Prop :=
  match e with
  | SendTo _ a => a = addr
  | SignalRoleConflict => by_check data p c \/ by_response data c
  | Conn a SignalUseCandidate => a = addr /\ by_check data p c /\ ice_role_ p = ICEROLE_CONTROLLED
  | Conn a (SignalReadPacket d) => a = addr /\ d = data /\ by_data data c
  | Conn a SignalStateChange => a = addr /\ (by_check data p c \/ by_response data c \/ by_data data c)
  | Conn a PostDelete => a = addr /\ by_response data c
  | _ => False
  end.

Record packet_effect (data : bytes) (addr : IpAddress.SocketAddress) (p : Port) (c : Connection) (g : Helpers.rng)
    (p' : Port) (c' : Connection) (g' : Helpers.rng) (evs : list event) : Prop := {
  pf_remote : remote_candidate_ c' = remote_candidate_ c; pf_others : others_same addr p p';
  pf_read : read_state_ c' <> read_state_ c ->
    read_state_ c' = STATE_READABLE /\ (by_check data p c \/ by_response data c /\ remote_ice_mode_ c = SessionDescription.ICEMODE_LITE);
  pf_write : write_state_ c' <> write_state_ c ->
    by_response data c \/
    write_state_ c = STATE_WRITE_TIMEOUT /\ write_state_ c' = STATE_WRITE_INIT /\ (by_check data p c \/ by_data data c);
  pf_state : by_response data c \/
    g' = g /\ candidates_ p' = candidates_ p /\ requests_ c' = requests_ c /\ state_ c' = state_ c /\
    pings_since_last_response_ c' = pings_since_last_response_ c /\ rtt_ c' = rtt_ c;
  pf_events : Forall (allowed data addr p c) evs;
}.

Lemma read_events c e : In e (set_read_state STATE_READABLE c).2 -> e = SignalStateChange.
Proof. unfold set_read_state, IceConnection.CheckTimeout. cbn. destruct (negb _); [|done]. by intros [<-|[]]. Qed.
Lemma write_events v c e : v <> STATE_WRITE_TIMEOUT -> In e (set_write_state v c).2 -> e = SignalStateChange.
Proof. intros Hv. unfold set_write_state, IceConnection.CheckTimeout. cbn [snd read_state_ write_state_ put_write_state]. rewrite (bool_decide_eq_false_2 (v = STATE_WRITE_TIMEOUT)), andb_false_r by done. destruct (negb _); [|done]. by intros [<-|[]]. Qed.

Lemma allowed_map data addr p c l : (forall e, In e l -> allowed data addr p c (Conn addr e)) -> Forall (allowed data addr p c) (map (Conn addr) l).
Proof. intros H. by apply List.Forall_map, List.Forall_forall. Qed.
Lemma allowed_sends data addr p c evs : sends addr evs -> Forall (allowed data addr p c) evs.
Proof. apply List.Forall_impl. by intros e [d ->]. Qed.

(** Nothing happens to the connection. *)
Lemma effect_none data addr p c g evs : Forall (allowed data addr p c) evs -> packet_effect data addr p c g p c g evs.
Proof. intros He. split; try done; [apply others_refl|by right]. Qed.

Lemma effect_data now data addr p c g : ~ (exists m, parsed data m) -> GetConnection addr p = Some c ->
  exists c', GetConnection addr (put_conn addr (received_data now data c) p).1 = Some c' /\
    packet_effect data addr p c g (put_conn addr (received_data now data c) p).1 c' g (put_conn addr (received_data now data c) p).2.
Proof.
  intros Hn Hc. exists (received_data now data c).1. split; [by apply (GetConnection_put addr c)|]. unfold received_data.
  destruct (bool_decide (read_state_ c = STATE_READABLE)) eqn:Er.
  2: { cbn [put_conn fst snd map]. split; try done; [apply others_put, others_refl|by right]. }
  apply bool_decide_eq_true_1 in Er. assert (Hd : by_data data c) by done.
  destruct (negb _ && bool_decide _) eqn:Ew.
  - apply andb_prop in Ew as [_ Ew%bool_decide_eq_true_1]. split; try done; [apply others_put, others_refl| |by right|].
    + intros _. right. split_and!; [done|done|by right].
    + apply List.Forall_cons; [by split_and!|]. apply allowed_map. intros e He%write_events; [|done]. subst e. split; [done|]. by right; right.
  - split; try done; [apply others_put, others_refl|by right|]. apply List.Forall_cons; [by split_and!|apply List.Forall_nil].
Qed.

Lemma effect_request now m data addr p c g p' evs : by_check data p c -> GetConnection addr p = Some c ->
  received_request now m addr p = Some (p', evs) ->
  exists c', GetConnection addr p' = Some c' /\ packet_effect data addr p c g p' c' g evs.
Proof.
  intros Hb Hc. unfold received_request, SendBindingResponse. destruct (Stun.type_ m =? STUN_BINDING_REQUEST); [|done].
  assert (Hlast : forall q : bool, (q = true -> ice_role_ p = ICEROLE_CONTROLLED) -> Forall (allowed data addr p c) (if q then [Conn addr SignalUseCandidate] else [])).
  { intros [] Hq; [|apply List.Forall_nil]. apply List.Forall_cons; [|apply List.Forall_nil]. split_and!; auto. }
  assert (Hst : forall l, (forall e, In e l -> e = SignalStateChange) -> Forall (allowed data addr p c) (map (Conn addr) l)).
  { intros l Hl. apply allowed_map. intros e ->%Hl. split; [done|by left]. }
  destruct (Stun.GetByteString Stun.STUN_ATTR_USERNAME m) as [ua|]; [rewrite Hc|].
  - set (c1 := put_read_state STATE_READABLE (put_last_ping_received now c)).
    change (put_conn addr (ReceivedPing now c) p) with (put_connection addr c1 p, map (Conn addr) (ReceivedPing now c).2). cbn iota beta.
    rewrite (GetConnection_put addr c c1 p Hc).
    assert (H1 : Forall (allowed data addr p c) (SendTo (written (binding_response m ua addr p)) addr :: map (Conn addr) (ReceivedPing now c).2)).
    { apply List.Forall_cons; [done|]. apply Hst. intros e. apply read_events. }
    destruct (negb (pruned_ c1) && _) eqn:Ew; unfold put_conn; cbn iota beta; intros [= <- <-].
    + apply andb_prop in Ew as [_ Ew%bool_decide_eq_true_1]. exists (put_write_state STATE_WRITE_INIT c1).
      split; [apply (GetConnection_put addr c1); by apply (GetConnection_put addr c)|].
      split; try done; [by apply others_put, others_put, others_refl|intros _; split; [done|by left]|intros _; right; split_and!; [done|done|by left]|by right|].
      refine (Forall_app_2 _ (_ :: map (Conn addr) (ReceivedPing now c).2) _ H1 _). apply Forall_app_2; [apply Hst; intros e; exact (write_events STATE_WRITE_INIT c1 e ltac:(done))|].
      apply (Hlast (_ && _)). by intros [[_ ?%bool_decide_eq_true_1]%andb_prop _]%andb_prop.
    + exists c1. split; [by apply (GetConnection_put addr c)|].
      split; try done; [by apply others_put, others_refl|intros _; split; [done|by left]|by right|].
      refine (Forall_app_2 _ (_ :: map (Conn addr) (ReceivedPing now c).2) _ H1 _). apply (Hlast (_ && _)). by intros [[_ ?%bool_decide_eq_true_1]%andb_prop _]%andb_prop.
  - rewrite Hc. destruct (negb (pruned_ c) && _) eqn:Ew; unfold put_conn; cbn iota beta; intros [= <- <-].
    + apply andb_prop in Ew as [_ Ew%bool_decide_eq_true_1]. exists (put_write_state STATE_WRITE_INIT c). split; [by apply (GetConnection_put addr c)|].
      split; try done; [by apply others_put, others_refl|intros _; right; split_and!; [done|done|by left]|by right|].
      refine (Forall_app_2 _ [] _ (List.Forall_nil _) _). apply Forall_app_2; [apply Hst; intros e; exact (write_events STATE_WRITE_INIT c e ltac:(done))|].
      apply (Hlast (_ && _)). by intros [[_ ?%bool_decide_eq_true_1]%andb_prop _]%andb_prop.
    + exists c. split; [done|]. apply effect_none. apply (Hlast (_ && _)). by intros [[_ ?%bool_decide_eq_true_1]%andb_prop _]%andb_prop.
Qed.

Lemma allowed_state data addr p c l : by_response data c -> (forall e, In e l -> e = SignalStateChange \/ e = PostDelete) ->
  Forall (allowed data addr p c) (map (Conn addr) l).
Proof. intros Hb Hl. apply allowed_map. intros e [-> | ->]%Hl; split; auto. Qed.

Lemma MaybeAddPrflx_keeps req m addr c p g c' p' g' evs : MaybeAddPrflxCandidate inet_ntop req m addr c p g = Some (c', p', g', evs) ->
  remote_candidate_ c' = remote_candidate_ c /\ read_state_ c' = read_state_ c /\
  (exists l, p' = put_candidates l p \/ p' = p) /\ Forall (fun e => e = Conn addr SignalStateChange) evs.
Proof.
  unfold MaybeAddPrflxCandidate. assert (Hn : Some (c, p, g, []) = Some (c', p', g', evs) -> remote_candidate_ c' = remote_candidate_ c /\ read_state_ c' = read_state_ c /\
    (exists l, p' = put_candidates l p \/ p' = p) /\ Forall (fun e => e = Conn addr SignalStateChange) evs).
  { intros [= <- <- <- <-]. split_and!; [done|done|exists []; by right|apply List.Forall_nil]. }
  destruct (Stun.GetAddress _ m) as [a|]; [|done]. destruct (existsb _ _); [done|]. destruct (Stun.GetUInt32 _ _) as [v|]; [|done].
  destruct (random_string 8 g) as [id g1]. destruct (local_candidate c p) as [lc|]; [|done]. cbn [AddPrflxCandidate].
  intros [= <- <- <- <-]. split_and!; [done|done|eexists; by left|]. by apply List.Forall_cons; [|apply List.Forall_nil].
Qed.

Lemma effect_response now m data addr p c g c' p' g' evs :
  parsed data m -> Stun.type_ m = STUN_BINDING_RESPONSE \/ Stun.type_ m = STUN_BINDING_ERROR_RESPONSE ->
  Stun.ValidateMessageIntegrity data (SessionDescription.password_ (remote_candidate_ c)) = Some true ->
  IsStandardIce p = true -> GetConnection addr p = Some c -> CheckResponse inet_ntop now m addr c p g = Some (c', p', g', evs) ->
  GetConnection addr (put_connection addr c' p') = Some c' /\ packet_effect data addr p c g (put_connection addr c' p') c' g' evs.
Proof.
  intros Hp Hty Hv Hs Hc. unfold CheckResponse. destruct (StunRequest.CheckResponse_msg m (requests_ c)) as [[[b e] s]|] eqn:Em; [|done].
  unfold StunRequest.CheckResponse_msg in Em. destruct (StunRequest.requests_ (requests_ c) !! Stun.transaction_id_ m) as [h|] eqn:Eh.
  2: { injection Em as <- <- <-. intros [= <- <- <- <-]. split; [by apply (GetConnection_put addr c)|].
       split; try done; [by apply others_put, others_refl|by right]. }
  assert (Hr : by_response data c) by (exists m, h; by split_and!).
  destruct (StunRequest.heap (requests_ c) !! h) as [r|] eqn:Er; [|done]. destruct (_ =? _).
  - destruct (StunRequest.destroy h _) as [s1|]; [|done]. injection Em as <- <- <-. rewrite Er.
    unfold OnConnectionRequestResponse. rewrite Hs. unfold set_write_state at 1. cbn iota beta zeta.
    set (w := match remote_ice_mode_ _ with SessionDescription.ICEMODE_LITE => _ | _ => _ end).
    assert (Hw : remote_candidate_ w.1 = remote_candidate_ c /\ (read_state_ w.1 <> read_state_ c -> read_state_ w.1 = STATE_READABLE /\ remote_ice_mode_ c = SessionDescription.ICEMODE_LITE) /\
      Forall (fun e => e = SignalStateChange) w.2).
    { unfold w. cbn [set_state put_write_state put_requests remote_ice_mode_]. destruct (remote_ice_mode_ c) eqn:El; [by split_and!; [|done|apply List.Forall_nil]|].
      split_and!; [done|done|]. apply List.Forall_forall. intros e. apply read_events. }
    destruct w as [c1 e1]. cbn [fst snd] in Hw. destruct Hw as (W1 & W2 & W3).
    match goal with |- context [MaybeAddPrflxCandidate _ _ _ _ ?c2 _ _] => set (c3 := c2) end.
    destruct (MaybeAddPrflxCandidate _ _ _ _ c3 _ _) as [[[[c4 p4] g4] e4]|] eqn:Ep; [|done].
    intros [= <- <- <- <-]. apply MaybeAddPrflx_keeps in Ep as (M1 & M2 & (l & Hl) & M3).
    assert (Hoth : others_same addr p (put_connection addr c4 p4)).
    { apply others_put. destruct Hl as [-> | ->]; [apply others_candidates|apply others_refl]. }
    split; [|split; try done; [by rewrite M1|intros Hne; rewrite M2 in *; apply W2 in Hne as [? ?]; auto|by left|by left|]].
    + apply (GetConnection_put addr c). by destruct Hl as [-> | ->].
    + apply Forall_app_2; [apply allowed_state; [done|]|].
      * intros e [He|He]%in_app_iff; left; [exact (write_events STATE_WRITABLE (put_requests s1 c) e ltac:(done) He)|]. rewrite List.Forall_forall in W3. by apply W3.
      * eapply List.Forall_impl; [|exact M3]. intros e ->. split; auto.
  - destruct (_ =? _).
    + destruct (StunRequest.destroy h _) as [s1|]; [|done]. injection Em as <- <- <-.
      unfold OnConnectionRequestErrorResponse. set (code := match Stun.GetErrorCode m with Some _ => _ | None => _ end).
      destruct (_ || _); [|destruct (code =? _); [|destruct (code =? _)]]; unfold set_write_state; cbn iota beta zeta; intros [= <- <- <- <-];
        (split; [by apply (GetConnection_put addr c)|]; split; try done; try (by apply others_put, others_refl); try (by left)).
      * apply List.Forall_cons; [by right|apply List.Forall_nil].
      * apply allowed_state; [done|]. intros e. apply (proj2 (state_events (set_state STATE_FAILED (put_requests s1 c)) e)).
    + injection Em as <- <- <-. intros [= <- <- <- <-]. split; [by apply (GetConnection_put addr c)|].
      split; try done; [by apply others_put, others_refl|by right].
Qed.

Lemma conflict_events addr m u p b evs : MaybeIceRoleConflict addr m u p = Some (b, evs) ->
  Forall (fun e => e = SignalRoleConflict \/ exists d, e = SendTo d addr) evs.
Proof.
  unfold MaybeIceRoleConflict. destruct (match Stun.GetUInt64 _ m with Some _ => _ | None => _ end) as [r1 t1].
  destruct (if bool_decide _ then _ else _) as [[]|]; [by intros [= <- <-]|..|done].
  destruct (match Stun.GetUInt64 _ m with Some _ => _ | None => _ end) as [r2 t2].
  assert (Hrefuse : (let? evs := SendBindingErrorResponse m addr STUN_ERROR_ROLE_CONFLICT STUN_ERROR_REASON_ROLE_CONFLICT p in Some (false, evs)) = Some (b, evs) ->
    Forall (fun e => e = SignalRoleConflict \/ exists d, e = SendTo d addr) evs).
  { destruct (SendBindingErrorResponse _ _ _ _ _) as [e|] eqn:Ee; [|done]. intros [= <- <-]. apply error_sends in Ee.
    eapply List.Forall_impl; [|exact Ee]. auto. }
  assert (Htold : Some (true, [SignalRoleConflict]) = Some (b, evs) -> Forall (fun e => e = SignalRoleConflict \/ exists d, e = SendTo d addr) evs).
  { intros [= <- <-]. by repeat constructor. }
  destruct (ice_role_ p); [..|done]; (destruct (bool_decide _); [|by intros [= <- <-]]).
  - destruct (_ <=? _); auto.
  - destruct (_ <? _); auto.
Qed.

(** C22: Only authenticated packets change a connection of a standard ICE port.
    Whatever the packet that arrives, a connection becomes readable only by a
    check with the fingerprint, the names of both ends and the MESSAGE-INTEGRITY
    of the port's password, or by a response if the remote end is lite; it
    becomes writable, changes its outstanding requests, state, round trip time
    or local candidate, or fails, only by a response to an outstanding request
    with the integrity of the remote password; USE-CANDIDATE and role conflicts
    are signalled only on such packets; other data is passed on only if the
    connection is readable, as it came; and no other connection and nothing
    else of the port changes. *)
Theorem packets_authenticated now data addr p c g p' g' evs :
  IsStandardIce p = true -> GetConnection addr p = Some c -> conn_OnReadPacket inet_ntop now data addr p g = Some (p', g', evs) ->
  exists c', GetConnection addr p' = Some c' /\ packet_effect data addr p c g p' c' g' evs.
Proof.
  intros Hs Hc. unfold conn_OnReadPacket. rewrite Hc.
  destruct (GetStunMessage data addr p) as [[[r p1] e1]|] eqn:Eg; [|done].
  apply GetStunMessage_inv in Eg as (-> & He1 & Hr); [|done]. destruct r as [| |m u]; cbn [result_ok] in Hr.
  - (* data *)
    destruct (effect_data now data addr p c g Hr Hc) as (c' & H1 & [H2 H3 H4 H5 H6 H7]).
    destruct (put_conn addr (received_data now data c) p) as [p2 e2]. cbn [fst snd] in *. intros [= <- <- <-]. exists c'. split; [done|].
    split; try done. apply Forall_app_2; [by apply allowed_sends|done].
  - intros [= <- <- <-]. exists c. split; [done|]. by apply effect_none, allowed_sends.
  - destruct Hr as (Hp & -> & Hreq). destruct (Z.eqb_spec (Stun.type_ m) STUN_BINDING_REQUEST) as [Hty|Hty].
    + destruct (bool_decide _) eqn:Eu; [apply bool_decide_eq_true_1 in Eu as ->|].
      * assert (Hb : by_check data p c) by (destruct (Hreq Hty) as (? & a & ? & ?); by exists m, a).
        rewrite Hs. destruct (MaybeIceRoleConflict addr m _ p) as [[go_on e2]|] eqn:Er; [|done]. apply conflict_events in Er.
        assert (He2 : Forall (allowed data addr p c) e2) by (eapply List.Forall_impl; [|exact Er]; intros e [-> |[d ->]]; [by left|done]).
        destruct go_on; cbn [negb].
        -- destruct (received_request now m addr p) as [[p2 e3]|] eqn:Eq; [|done]. intros [= <- <- <-].
           destruct (effect_request now m data addr p c g p2 e3 Hb Hc Eq) as (c' & H1 & [H2 H3 H4 H5 H6 H7]). exists c'. split; [done|].
           split; try done. by apply Forall_app_2.
        -- intros [= <- <- <-]. exists c. split; [done|]. by apply effect_none.
      * destruct (SendBindingErrorResponse _ _ _ _ _) as [e2|] eqn:Ee; [|done]. intros [= <- <- <-]. exists c. split; [done|].
        apply effect_none, allowed_sends. by eapply error_sends.
    + destruct (_ || _) eqn:Et.
      * assert (Hg : IsGoogleIce p = false).
        { unfold IsGoogleIce, IsStandardIce in *. apply bool_decide_eq_true_1 in Hs. by rewrite Hs. }
        rewrite Hg. destruct (Stun.ValidateMessageIntegrity data (SessionDescription.password_ _)) as [[]|] eqn:Ev; [| |done].
        -- destruct (CheckResponse _ _ _ _ _ _ _) as [[[[c2 p2] g2] e2]|] eqn:Ec; [|done]. intros [= <- <- <-].
           destruct (effect_response now m data addr p c g c2 p2 g2 e2) as [H1 H2]; try done; [lia|]. by exists c2.
        -- intros [= <- <- <-]. exists c. split; [done|]. apply effect_none, List.Forall_nil.
      * destruct (Stun.type_ m =? STUN_BINDING_INDICATION); [|done]. rewrite Hs. cbn [andb].
        destruct (bool_decide (read_state_ c = STATE_READABLE)) eqn:Er.
        -- apply bool_decide_eq_true_1 in Er. unfold put_conn. cbn iota beta. intros [= <- <- <-].
           exists (ReceivedPing now c).1. split; [by apply (GetConnection_put addr c)|]. cbn [app].
           split; try done; [by apply others_put, others_refl|by right|]. cbn [ReceivedPing set_read_state snd put_last_ping_received read_state_].
           rewrite (bool_decide_eq_true_2 (STATE_READABLE = _)) by done. apply List.Forall_nil.
        -- intros [= <- <- <-]. exists c. split; [done|]. apply effect_none, List.Forall_nil.
Qed.

End Safety.

(** Three bytes that are not STUN, on a connection that is not readable. *)
Lemma packets_authenticated_witness : exists c p' g' evs,
  @conn_OnReadPacket x86 Helpers.TestRandomGenerator no_ntop 100 [1; 2; 3] peer_addr (port_A ICEROLE_CONTROLLING) Helpers.test_seed = Some (p', g', evs) /\
  exists c', @GetConnection x86 peer_addr p' = Some c' /\
    @packet_effect x86 Helpers.TestRandomGenerator [1; 2; 3] peer_addr (port_A ICEROLE_CONTROLLING) c Helpers.test_seed p' c' g' evs.
Proof.
  assert (H1 : IsStandardIce (port_A ICEROLE_CONTROLLING) = true) by (vm_compute; reflexivity).
  assert (H2 : @GetConnection x86 peer_addr (port_A ICEROLE_CONTROLLING) = Some (conn_of peer_addr (port_A ICEROLE_CONTROLLING))) by (vm_compute; reflexivity).
  assert (Hr : match @conn_OnReadPacket x86 Helpers.TestRandomGenerator no_ntop 100 [1; 2; 3] peer_addr (port_A ICEROLE_CONTROLLING) Helpers.test_seed with
               | Some _ => true | None => false end = true) by (vm_compute; reflexivity).
  destruct (@conn_OnReadPacket x86 Helpers.TestRandomGenerator no_ntop 100 [1; 2; 3] peer_addr (port_A ICEROLE_CONTROLLING) Helpers.test_seed)
    as [[[p' g'] evs]|] eqn:E; [|discriminate].
  exists (conn_of peer_addr (port_A ICEROLE_CONTROLLING)), p', g', evs. split; [reflexivity|].
  exact (@packets_authenticated x86 Helpers.TestRandomGenerator no_ntop 100 [1; 2; 3] peer_addr _ _ _ p' g' evs H1 H2 E).
Defined.

(** The scan for the MESSAGE-INTEGRITY attribute steps over attributes by their
    declared lengths, Read does not for an attribute of 32 bits: a request that
    Read and the fingerprint accept, sent by anyone who knows the two user
    names, makes the scan read past the end of the packet. *)
Definition crafted_user : bytes := str "userA:userB".
Definition crafted_body : bytes :=
  be_bytes 2 0x0006 ++ be_bytes 2 11 ++ crafted_user ++ [0] ++
  be_bytes 2 0x0024 ++ be_bytes 2 0x0020 ++ be_bytes 4 1 ++
  be_bytes 2 0x0008 ++ be_bytes 2 20 ++ repeat 0 20 ++
  be_bytes 2 0x8022 ++ be_bytes 2 12 ++ (be_bytes 2 0x0008 ++ be_bytes 2 20 ++ repeat 0 8).
Definition crafted_header : bytes := be_bytes 2 1 ++ be_bytes 2 (Z.of_nat (length crafted_body) + 8) ++ be_bytes 4 0x2112A442 ++ repeat 7 12.
Definition crafted_check : bytes :=
  let m := crafted_header ++ crafted_body in
  m ++ be_bytes 2 0x8028 ++ be_bytes 2 4 ++ be_bytes 4 (Z.lxor (Crc32.ComputeCrc32 m) 0x5354554E).

Lemma crafted_check_overreads :
  Stun.ValidateFingerprint crafted_check = true /\
  match @Stun.Read x86 Stun.IceMessage Stun.new_message (@ByteBuffer.new_from x86 crafted_check ByteBuffer.ORDER_NETWORK) with
  | (ok, m, buf) => ok = true /\ Stun.type_ m = STUN_BINDING_REQUEST /\ ByteBuffer.Length buf = 0%nat
  end /\
  @conn_OnReadPacket x86 Helpers.TestRandomGenerator no_ntop 100 crafted_check peer_addr (port_A ICEROLE_CONTROLLING) Helpers.test_seed = None.
Proof.
  split; [vm_compute; reflexivity|]. split; [|].
  { vm_compute. by split. }
  assert (H : (match @conn_OnReadPacket x86 Helpers.TestRandomGenerator no_ntop 100 crafted_check peer_addr (port_A ICEROLE_CONTROLLING) Helpers.test_seed with
               | Some _ => false | None => true end) = true) by (vm_compute; reflexivity).
  by destruct (@conn_OnReadPacket _ _ _ _ _ _ _ _).
Qed.

End IceSafety.
