(* ===== verification/IceTimeout.v ===== *)
(** * ICE: unanswered pings, and pair priorities

    What becomes of a connection of which nothing is heard while its owner
    pings it and updates its state at any times: it stays as it is for a
    while, is then given up, and deletes itself once.  The priority of a pair
    is the same number at both ends. *)

From stdpp Require Import gmap.
From S2P Require Import Prelude TimeUtils ByteOrder IpAddress Stun Helpers StunRequest SessionDescription IceConnection IcePort IceCheck.
Import ByteOrder TimeUtils IceConnection IcePort IceCheck.
Open Scope jingle_scope.

Module IceTimeout.

(** ** The state of a connection after an update, without the packets *)

Definition next_write_state (now : Z) (c : Connection) : WriteState :=
  let older := fun time => TooLongWithoutResponse (pings_since_last_response_ c) time now in
  match write_state_ c with
  | STATE_WRITABLE =>
      if TooManyFailures (pings_since_last_response_ c) CONNECTION_WRITE_CONNECT_FAILURES (ConservativeRTTEstimate (rtt_ c)) now && older CONNECTION_WRITE_CONNECT_TIMEOUT
      then if older CONNECTION_WRITE_TIMEOUT then STATE_WRITE_TIMEOUT else STATE_WRITE_UNRELIABLE
      else STATE_WRITABLE
  | STATE_WRITE_TIMEOUT => STATE_WRITE_TIMEOUT
  | s => if older CONNECTION_WRITE_TIMEOUT then STATE_WRITE_TIMEOUT else s
  end.

Definition deletes (evs : list conn_event) : nat :=
  length (List.filter (fun e => match e with PostDelete => true | _ => false end) evs).
Definition given_up (c : Connection) : bool := bool_decide (write_state_ c = STATE_WRITE_TIMEOUT) && negb (bool_decide (read_state_ c = STATE_READABLE)).

Lemma UpdateState_next now c : let '(c', evs) := UpdateState false now c in
  c' = put_write_state (next_write_state now c) c /\
  deletes evs = (if given_up c' && negb (given_up c) then 1 else 0)%nat.
Proof.
  destruct c as [i rc rs ws cn pr uc rm rq rtt lps lpr ldr lprr pings rep st].
  unfold UpdateState, next_write_state, given_up. generalize TooLongWithoutResponse as older, TooManyFailures as lost, ConservativeRTTEstimate as estimate.
  intros older lost estimate. destruct ws, rs; vm_compute;
    repeat match goal with |- context [if ?b then _ else _] => destruct b eqn:? end; by split.
Qed.

Lemma rtt_bounds rtt : MINIMUM_RTT <= ConservativeRTTEstimate rtt <= MAXIMUM_RTT.
Proof. unfold ConservativeRTTEstimate, MINIMUM_RTT, MAXIMUM_RTT. lia. Qed.

Definition small_time (t : Z) : Prop := 0 <= t < 2 ^ 32 - CONNECTION_WRITE_TIMEOUT.

Lemma TooLong_spec pings time now : Forall small_time pings -> 0 <= time <= CONNECTION_WRITE_TIMEOUT ->
  TooLongWithoutResponse pings time now = true <-> exists t0, pings !! 0%nat = Some t0 /\ t0 + time < now.
Proof.
  intros Hp Ht. destruct pings as [|t0 l]; unfold TooLongWithoutResponse; [by split; [|intros (? & ? & ?)]|]. apply Forall_inv in Hp. unfold small_time, CONNECTION_WRITE_TIMEOUT in *.
  unfold u32. rewrite wrap_small by (unfold is_u; lia). split; [intros H; exists t0; split; [done|lia]|]. intros (t & [= <-] & H). lia.
Qed.

Lemma TooMany_spec pings rtt now : Forall small_time pings -> 0 <= rtt <= MAXIMUM_RTT ->
  TooManyFailures pings CONNECTION_WRITE_CONNECT_FAILURES rtt now = true <-> exists t4, pings !! 4%nat = Some t4 /\ t4 + rtt < now.
Proof.
  intros Hp Hr. unfold TooManyFailures, CONNECTION_WRITE_CONNECT_FAILURES, MAXIMUM_RTT in *.
  destruct (pings !! 4%nat) as [t4|] eqn:E.
  - pose proof (lookup_lt_Some _ _ _ E) as Hl. replace (Z.of_nat (length pings) <? 5) with false by lia.
    change (Z.to_nat (5 - 1)) with 4%nat. rewrite nth_lookup, E. cbn [default from_option id].
    assert (Hs : small_time t4) by (eapply Forall_lookup_1; [exact Hp|exact E]). unfold small_time, CONNECTION_WRITE_TIMEOUT in Hs.
    unfold u32. rewrite wrap_small by (unfold is_u; lia). split; [intros H; exists t4; split; [done|lia]|]. intros (t & [= <-] & H). lia.
  - apply lookup_ge_None in E. replace (Z.of_nat (length pings) <? 5) with true by lia. by split; [|intros (? & ? & ?)].
Qed.

(** ** A connection of which nothing is heard *)

Section Runs.
Context `{HM : Machine} `{HR : Helpers.RandomGenerator}.

Inductive act := APing (t h : Z) | APump (t : Z) | AUpdate (t : Z).

Definition step (p : Port) (a : act) (c : Connection) (g : Helpers.rng) : option (Connection * Helpers.rng * list conn_event) :=
  match a with
  | APing t h => let? (c, g) := Ping t h c p g in Some (c, g, [])
  | APump t => let? (c, _) := Pump t c in Some (c, g, [])
  | AUpdate t => let '(c, evs) := UpdateState (IsGoogleIce p) t c in Some (c, g, evs)
  end.
Fixpoint run (p : Port) (acts : list act) (c : Connection) (g : Helpers.rng) : option (Connection * Helpers.rng * list conn_event) :=
  match acts with
  | [] => Some (c, g, [])
  | a :: acts =>
      let? (c, g, e1) := step p a c g in
      let? (c, g, e2) := run p acts c g in Some (c, g, e1 ++ e2)
  end.
Definition ping_times (acts : list act) : list Z := concat (map (fun a => match a with APing t _ => [t] | _ => [] end) acts).

Lemma step_keeps p a c g c' g' evs : IsGoogleIce p = false -> step p a c g = Some (c', g', evs) ->
  read_state_ c' = read_state_ c /\ pings_since_last_response_ c' = pings_since_last_response_ c ++ ping_times [a] /\
  write_state_ c' = (match a with AUpdate now => next_write_state now c | _ => write_state_ c end) /\
  deletes evs = (if given_up c' && negb (given_up c) then 1 else 0)%nat.
Proof.
  intros Hg. assert (Hn : forall c1, write_state_ c1 = write_state_ c -> read_state_ c1 = read_state_ c ->
    deletes [] = (if given_up c1 && negb (given_up c) then 1 else 0)%nat).
  { intros c1 H1 H2. unfold given_up. rewrite H1, H2. by rewrite andb_negb_r. }
  destruct a as [t h|t|t]; cbn [step].
  - unfold Ping. destruct (connected_ c); [|done]. destruct (CreateStunUsername _ p) as [u|]; [|done]. destruct (local_candidate _ p) as [lc|]; [|done].
    destruct (_ || _); [|done]. destruct (StunRequest.new_request _ _ _ _ _) as [req g1]. destruct (StunRequest.Send _ _ _) as [rq|]; [|done].
    intros [= <- <- <-]. split_and!; [done..|by apply Hn].
  - unfold Pump. destruct (StunRequest.pump t (requests_ c)) as [[ev rq]|]; [|done]. intros [= <- <- <-].
    split_and!; [done|by cbn; rewrite app_nil_r|done|by apply Hn].
  - rewrite Hg. pose proof (UpdateState_next t c) as H. destruct (UpdateState false t c) as [c1 e1]. destruct H as [-> H].
    intros [= <- <- <-]. split_and!; [done|by cbn; rewrite app_nil_r|done|done].
Qed.

(** What a run from [c0] without pings outstanding has led to. *)
Record silent (c0 : Connection) (acts : list act) (c : Connection) (evs : list conn_event) : Prop := {
  si_pings : pings_since_last_response_ c = ping_times acts;
  si_read : read_state_ c = read_state_ c0;
  si_state : write_state_ c = write_state_ c0 \/ write_state_ c = STATE_WRITE_TIMEOUT \/ write_state_ c0 = STATE_WRITABLE /\ write_state_ c = STATE_WRITE_UNRELIABLE;
  si_timeout : write_state_ c = STATE_WRITE_TIMEOUT ->
    exists now t0, In (AUpdate now) acts /\ ping_times acts !! 0%nat = Some t0 /\ t0 + CONNECTION_WRITE_TIMEOUT < now;
  si_failures : write_state_ c0 = STATE_WRITABLE -> write_state_ c <> STATE_WRITABLE ->
    exists now t0 t4, In (AUpdate now) acts /\ ping_times acts !! 0%nat = Some t0 /\ ping_times acts !! 4%nat = Some t4 /\
      t0 + CONNECTION_WRITE_CONNECT_TIMEOUT < now /\ t4 + MINIMUM_RTT < now;
  si_deletes : deletes evs = (if given_up c then 1 else 0)%nat;
}.

Lemma run_snoc p acts a c g : run p (acts ++ [a]) c g =
  (let? (c1, g1, e1) := run p acts c g in let? (c2, g2, e2) := step p a c1 g1 in Some (c2, g2, e1 ++ e2)).
Proof.
  revert c g. induction acts as [|b acts IH]; intros c g; cbn [app run].
  - destruct (step p a c g) as [[[c2 g2] e2]|]; [|done]. by rewrite app_nil_r.
  - destruct (step p b c g) as [[[c1 g1] e1]|]; [|done]. rewrite IH. destruct (run p acts c1 g1) as [[[c2 g2] e2]|]; [|done].
    destruct (step p a c2 g2) as [[[c3 g3] e3]|]; [|done]. by rewrite app_assoc.
Qed.
Lemma ping_times_app l l' : ping_times (l ++ l') = ping_times l ++ ping_times l'.
Proof. unfold ping_times. by rewrite map_app, concat_app. Qed.
Lemma deletes_app l l' : deletes (l ++ l') = (deletes l + deletes l')%nat.
Proof. unfold deletes. by rewrite List.filter_app, length_app. Qed.

Lemma silent_run p acts c0 g c g' evs : IsGoogleIce p = false -> pings_since_last_response_ c0 = [] -> write_state_ c0 <> STATE_WRITE_TIMEOUT ->
  Forall small_time (ping_times acts) -> run p acts c0 g = Some (c, g', evs) -> silent c0 acts c evs.
Proof.
  intros Hg Hp0 Hw0. revert c g' evs. induction acts as [|a acts IH] using rev_ind; intros c g' evs Hs.
  { intros [= <- <- <-]. split; [done|done|by left|done|done|]. unfold given_up. by rewrite (bool_decide_eq_false_2 _ Hw0). }
  rewrite run_snoc. destruct (run p acts c0 g) as [[[c1 g1] e1]|]; [|done].
  destruct (step p a c1 g1) as [[[c2 g2] e2]|] eqn:Es; [|done]. intros [= <- <- <-].
  rewrite ping_times_app in Hs. apply Forall_app in Hs as [Hs _].
  destruct (IH c1 g1 e1 Hs eq_refl) as [I1 I2 I3 I4 I5 I6]. destruct (step_keeps p a c1 g1 c2 g2 e2 Hg Es) as (S1 & S2 & S3 & S4).
  assert (Hlook : forall k t, ping_times acts !! k = Some t -> ping_times (acts ++ [a]) !! k = Some t).
  { intros k t Ht. rewrite ping_times_app. by apply lookup_app_l_Some. }
  assert (Hin : forall b, In b acts -> In b (acts ++ [a])) by (intros b Hb; apply in_or_app; by left).
  assert (Hold4 : write_state_ c1 = STATE_WRITE_TIMEOUT -> exists now t0, In (AUpdate now) (acts ++ [a]) /\
    ping_times (acts ++ [a]) !! 0%nat = Some t0 /\ t0 + CONNECTION_WRITE_TIMEOUT < now).
  { intros Hc. destruct (I4 Hc) as (now & t0 & ? & ? & ?). exists now, t0. split_and!; [by apply Hin|by apply Hlook|done]. }
  assert (Hold5 : write_state_ c0 = STATE_WRITABLE -> write_state_ c1 <> STATE_WRITABLE -> exists now t0 t4, In (AUpdate now) (acts ++ [a]) /\
    ping_times (acts ++ [a]) !! 0%nat = Some t0 /\ ping_times (acts ++ [a]) !! 4%nat = Some t4 /\
    t0 + CONNECTION_WRITE_CONNECT_TIMEOUT < now /\ t4 + MINIMUM_RTT < now).
  { intros Hc Hn. destruct (I5 Hc Hn) as (now & t0 & t4 & ? & ? & ? & ?). exists now, t0, t4. split_and!; [by apply Hin|by apply Hlook..|lia|lia]. }
  assert (Hdel : deletes (e1 ++ e2) = (if given_up c2 then 1 else 0)%nat).
  { rewrite deletes_app, I6, S4. destruct (given_up c1) eqn:G1; [|by destruct (given_up c2)].
    replace (given_up c2) with true; [done|]. unfold given_up in *. rewrite S1. apply andb_prop in G1 as [G1%bool_decide_eq_true_1 ->].
    rewrite S3. rewrite andb_true_r. symmetry. apply bool_decide_eq_true_2. destruct a; [done..|]. unfold next_write_state. by rewrite G1. }
  assert (Hpings : pings_since_last_response_ c2 = ping_times (acts ++ [a])) by (by rewrite S2, I1, ping_times_app).
  assert (Hread : read_state_ c2 = read_state_ c0) by (by rewrite S1).
  destruct a as [t h|t|now]; [by split; rewrite ?S3..|].
  unfold next_write_state in S3. rewrite I1 in S3. pose proof (rtt_bounds (rtt_ c1)) as Hr. unfold MINIMUM_RTT in Hr.
  pose proof (fun time H => TooLong_spec (ping_times acts) time now Hs H) as Hlong.
  pose proof (TooMany_spec (ping_times acts) (ConservativeRTTEstimate (rtt_ c1)) now Hs ltac:(lia)) as Hmany.
  assert (Hnow : In (AUpdate now) (acts ++ [AUpdate now])) by (apply in_or_app; by right; left).
  assert (Hlong15 : TooLongWithoutResponse (ping_times acts) CONNECTION_WRITE_TIMEOUT now = true -> exists now' t0, In (AUpdate now') (acts ++ [AUpdate now]) /\
    ping_times (acts ++ [AUpdate now]) !! 0%nat = Some t0 /\ t0 + CONNECTION_WRITE_TIMEOUT < now').
  { intros Ht. apply Hlong in Ht as (t0 & H0 & H1); [|done]. exists now, t0. split_and!; [done|by apply Hlook|done]. }
  assert (Hfail : TooManyFailures (ping_times acts) CONNECTION_WRITE_CONNECT_FAILURES (ConservativeRTTEstimate (rtt_ c1)) now &&
    TooLongWithoutResponse (ping_times acts) CONNECTION_WRITE_CONNECT_TIMEOUT now = true -> exists now' t0 t4, In (AUpdate now') (acts ++ [AUpdate now]) /\
    ping_times (acts ++ [AUpdate now]) !! 0%nat = Some t0 /\ ping_times (acts ++ [AUpdate now]) !! 4%nat = Some t4 /\
    t0 + CONNECTION_WRITE_CONNECT_TIMEOUT < now' /\ t4 + MINIMUM_RTT < now').
  { intros [Hm Ht]%andb_prop. apply Hmany in Hm as (t4 & H4 & H4'). apply Hlong in Ht as (t0 & H0 & H0'); [|done].
    exists now, t0, t4. unfold MINIMUM_RTT. split_and!; [done|by apply Hlook..|lia|lia]. }
  clear Hlong Hmany Hlook Hin IH.
  split; try done.
  - destruct I3 as [I3|[I3|[I3 I3']]].
    + rewrite I3 in S3. destruct (write_state_ c0); repeat case_match; try done; auto.
    + rewrite I3 in S3. auto.
    + rewrite I3' in S3. repeat case_match; auto.
  - rewrite S3. destruct (write_state_ c1); repeat case_match; try done; auto.
  - intros Hw. specialize (Hold5 Hw). rewrite S3. destruct (write_state_ c1); [|by intros _; apply Hold5..].
    destruct (_ && _); [intros _; by apply Hfail|done].
Qed.

(** C23: A connection whose pings stay unanswered.  Whatever the times at which
    it is pinged, updated and its requests are dispatched, if no response
    comes: it is writable until an update at which five pings are lost (the
    fifth by at least the smallest round trip time) and the first is more than
    5 seconds old, it is given up by an update only if the first ping is more
    than 15 seconds old, it deletes itself once if it is given up and not
    readable and not otherwise; and any update after 15 seconds from the first
    ping (and the largest round trip time after the fifth, if it was writable)
    does give it up. *)
Theorem unanswered_pings_time_out p acts c0 g c g' evs :
  IsGoogleIce p = false -> pings_since_last_response_ c0 = [] -> write_state_ c0 <> STATE_WRITE_TIMEOUT ->
  Forall small_time (ping_times acts) -> run p acts c0 g = Some (c, g', evs) ->
  silent c0 acts c evs /\
  forall now t0, ping_times acts !! 0%nat = Some t0 -> t0 + CONNECTION_WRITE_TIMEOUT < now ->
    (write_state_ c0 = STATE_WRITABLE -> exists t4, ping_times acts !! 4%nat = Some t4 /\ t4 + MAXIMUM_RTT < now) ->
    write_state_ (UpdateState (IsGoogleIce p) now c).1 = STATE_WRITE_TIMEOUT.
Proof.
  intros Hg Hp0 Hw0 Hs Hrun. pose proof (silent_run p acts c0 g c g' evs Hg Hp0 Hw0 Hs Hrun) as H. split; [done|].
  intros now t0 H0 Hlate H4. rewrite Hg. pose proof (UpdateState_next now c) as Hu. destruct (UpdateState false now c) as [c' e']. destruct Hu as [-> _].
  cbn [fst put_write_state write_state_]. unfold next_write_state. rewrite (si_pings _ _ _ _ H).
  assert (H15 : TooLongWithoutResponse (ping_times acts) CONNECTION_WRITE_TIMEOUT now = true) by (apply TooLong_spec; [done|done|by exists t0]).
  rewrite H15. destruct (write_state_ c) eqn:Ew; [|done..].
  assert (Hw : write_state_ c0 = STATE_WRITABLE) by (destruct (si_state _ _ _ _ H) as [E|[E|[E _]]]; congruence).
  destruct (H4 Hw) as (t4 & E4 & Hl4). pose proof (rtt_bounds (rtt_ c)) as Hr. unfold MINIMUM_RTT in Hr.
  assert (Hm : TooManyFailures (ping_times acts) CONNECTION_WRITE_CONNECT_FAILURES (ConservativeRTTEstimate (rtt_ c)) now = true).
  { apply TooMany_spec; [done|lia|]. exists t4. split; [done|lia]. }
  assert (H5 : TooLongWithoutResponse (ping_times acts) CONNECTION_WRITE_CONNECT_TIMEOUT now = true).
  { apply TooLong_spec; [done|done|]. exists t0. split; [done|]. unfold CONNECTION_WRITE_CONNECT_TIMEOUT, CONNECTION_WRITE_TIMEOUT in *. lia. }
  by rewrite Hm, H5.
Qed.

End Runs.

(** Five pings in five seconds, then nothing is heard. *)
Definition sample_acts : list act :=
  [APing 1000 1; APump 1000; AUpdate 1500; APing 2000 2; APump 2000; APing 3000 3; APump 3000; APing 4000 4; APump 4000; APing 5000 5; APump 5000;
   AUpdate 6000; AUpdate 8200; AUpdate 16500; AUpdate 17000].
Definition sample_conn : Connection := put_write_state STATE_WRITABLE (conn_of peer_addr (port_A ICEROLE_CONTROLLING)).

Lemma unanswered_pings_time_out_witness : exists c g evs,
  @run x86 Helpers.TestRandomGenerator (port_A ICEROLE_CONTROLLING) sample_acts sample_conn Helpers.test_seed = Some (c, g, evs) /\ silent sample_conn sample_acts c evs.
Proof.
  assert (Hr : match @run x86 Helpers.TestRandomGenerator (port_A ICEROLE_CONTROLLING) sample_acts sample_conn Helpers.test_seed with
               | Some (c, _, _) => bool_decide (write_state_ c = STATE_WRITE_TIMEOUT) | None => false end = true) by (vm_compute; reflexivity).
  destruct (@run x86 Helpers.TestRandomGenerator (port_A ICEROLE_CONTROLLING) sample_acts sample_conn Helpers.test_seed) as [[[c g] evs]|] eqn:E; [|discriminate].
  exists c, g, evs. split; [reflexivity|].
  assert (H1 : IsGoogleIce (port_A ICEROLE_CONTROLLING) = false) by (vm_compute; reflexivity).
  assert (H2 : pings_since_last_response_ sample_conn = []) by (vm_compute; reflexivity).
  assert (H3 : write_state_ sample_conn <> STATE_WRITE_TIMEOUT) by done.
  assert (H4 : Forall small_time (ping_times sample_acts)) by (repeat constructor; done).
  exact (proj1 (@unanswered_pings_time_out x86 Helpers.TestRandomGenerator (port_A ICEROLE_CONTROLLING) sample_acts sample_conn Helpers.test_seed c g evs H1 H2 H3 H4 E)).
Defined.

(** ** Priorities of pairs *)

(** The priority of a pair: with the priorities of candidates below 2^31
    (all that RFC 5245 allows), the end in the controlling role and the end in
    the controlled one compute the same number, and it is that of the RFC:
    2^32 min(G,D) + 2 max(G,D) + (G > D ? 1 : 0), without a wrap. *)
Theorem pair_priority_agreed (cA cB : Connection) lA lB :
  0 <= lA < 2 ^ 31 -> 0 <= lB < 2 ^ 31 ->
  SessionDescription.priority_ (remote_candidate_ cA) = lB -> SessionDescription.priority_ (remote_candidate_ cB) = lA ->
  let pair := 2 ^ 32 * Z.min lA lB + 2 * Z.max lA lB + (if lB <? lA then 1 else 0) in
  IceConnection.priority ICEROLE_CONTROLLING lA cA = pair /\ IceConnection.priority ICEROLE_CONTROLLED lB cB = pair /\ 0 <= pair < 2 ^ 63.
Proof.
  intros HA HB EA EB pair. unfold IceConnection.priority. rewrite EA, EB.
  assert (Hb : 0 <= (if lB <? lA then 1 else 0) <= 1) by (by destruct (lB <? lA)).
  assert (Hpair : 0 <= pair < 2 ^ 63) by (unfold pair; lia).
  assert (E : u64 (u64 (Z.shiftl (Z.min lA lB) 32) + u32 (u32 (2 * Z.max lA lB) + (if lB <? lA then 1 else 0))) = pair).
  { rewrite Z.shiftl_mul_pow2 by lia. unfold u64, u32. set (b := if lB <? lA then 1 else 0) in *. clearbody b.
    rewrite (wrap_small 32 (2 * Z.max lA lB)) by (unfold is_u; lia). rewrite (wrap_small 32) by (unfold is_u; lia).
    rewrite (wrap_small 64 (_ * _)) by (unfold is_u; lia). rewrite wrap_small; unfold pair; [lia|unfold is_u; lia]. }
  split; [exact E|]. split; [exact E|done].
Qed.

Lemma pair_priority_agreed_witness :
  let remote l := new 0 (SessionDescription.mkCandidate [] 1 [] peer_addr l [] [] [] [] 0 [] peer_addr) in
  IceConnection.priority ICEROLE_CONTROLLING 2130706431 (remote 1694498815) = IceConnection.priority ICEROLE_CONTROLLED 1694498815 (remote 2130706431).
Proof.
  destruct (pair_priority_agreed (new 0 (SessionDescription.mkCandidate [] 1 [] peer_addr 1694498815 [] [] [] [] 0 [] peer_addr))
    (new 0 (SessionDescription.mkCandidate [] 1 [] peer_addr 2130706431 [] [] [] [] 0 [] peer_addr)) 2130706431 1694498815) as (E1 & E2 & _); [done..|].
  cbv beta zeta. by rewrite E1, E2.
Defined.

(** Beyond that, twice the priority wraps at 32 bits. *)
Lemma pair_priority_wraps (c : Connection) :
  SessionDescription.priority_ (remote_candidate_ c) = 2 ^ 31 ->
  IceConnection.priority ICEROLE_CONTROLLING 0 c = 0 /\ IceConnection.priority ICEROLE_CONTROLLED 1 c = 2 ^ 32 + 1.
Proof. intros E. unfold IceConnection.priority. rewrite E. by vm_compute. Qed.

(** The comparison of times is not one of differences: close to the end of the
    32 bits a connection is given up as soon as it is pinged. *)
Lemma ping_time_wraps : TooLongWithoutResponse [2 ^ 32 - 15000] CONNECTION_WRITE_TIMEOUT (2 ^ 32 - 14999) = true.
Proof. reflexivity. Qed.

End IceTimeout.
