(* ===== verification/P2PTransportChannel.v ===== *)
(** * The P2PTransportChannel of p2p/base/p2ptransportchannel.cc

    A channel has ports, makes connections from them to the candidates of the
    peer, pings the connections in turn and chooses the best one.  Pointers are
    names: a port has a number, a connection is the number of its port and its
    key there.  [heap] has the ports that exist, each with the number of its
    network; a name that is not there is a dangling pointer, and following it
    is [Stuck], as is a failed assertion that what follows relies on.  A
    handler is a computation over one state that ends with what it did
    ([trace_]); [Fail] is a returned false.  Signals of ports and connections
    call the channel's slots at once; messages to a thread are events.  The
    ports are UDPPorts.  Logging, statistics and socket options are left out. *)

From stdpp Require Import gmap.
From S2P Require Import Prelude TimeUtils ByteOrder Crc32 IpAddress Stun Helpers StringConv StunRequest SessionDescription IceConnection IcePort Outcome.
Import TimeUtils IceConnection Outcome.
Open Scope jingle_scope.

Module P2PTransportChannel.

#[local] Existing Instances SessionDescription.TransportProtocol_eq_dec IpAddress.family_eq_dec IpAddress.IPAddress_eq_dec.
#[export] Instance SocketAddress_eq_dec : EqDecision IpAddress.SocketAddress. Proof. solve_decision. Defined.
#[export] Instance IceMode_eq_dec : EqDecision SessionDescription.IceMode. Proof. solve_decision. Defined.

Notation Port := IcePort.Port.
Definition PING_PACKET_SIZE : Z := 60 * 8.
Definition WRITABLE_DELAY : Z := 1000 * PING_PACKET_SIZE / 1000.
Definition UNWRITABLE_DELAY : Z := 1000 * PING_PACKET_SIZE / 10000.
Definition MAX_CURRENT_WRITABLE_DELAY : Z := 900.
Definition kMinImprovement : Z := 10.
Definition ICE_TYPE_PREFERENCE_SRFLX : Z := 100.
Definition LOCAL_PORT_TYPE : bytes := str "local".
Definition STUN_PORT_TYPE : bytes := str "stun".
Definition RELAY_PORT_TYPE : bytes := str "relay".
Definition STUN_ERROR_REASON_STALE_CREDENTIALS : bytes := str "Stale Credentials".

(** The pointer to a connection: its port and its key there. *)
Notation cid := (Z * IpAddress.SocketAddress)%type.

Inductive out :=
  | Packet (port : Z) (data : bytes) (addr : IpAddress.SocketAddress)
  | SignalRouteChange (remote_candidate : SessionDescription.Candidate)
  | SignalReadableState
  | SignalWritableState
  | ReadyToSend
  | DataReceived (data : bytes)
  | RoleConflict
  | SignalRequestSignaling
  | SignalConnectionRemoved
  | PostSort
  | PostPing (delay : Z)
  | PostConnectionDelete (c : cid)
  | PostPortTimeout (port delay : Z)
  | StopGettingPorts
  | CreateSession (generation : Z)
  | PortPacket (port : Z) (data : bytes) (addr : IpAddress.SocketAddress).

(** std::find and erase. *)
Fixpoint remove_first `{EqDecision A} (a : A) (l : list A) : list A :=
  match l with
  | [] => []
  | b :: l => if decide (a = b) then l else b :: remove_first a l
  end.

Section Channel.
Context `{HM : Machine} `{HR : Helpers.RandomGenerator}.
Variable inet_ntop : IpAddress.family -> bytes -> option bytes.

Record t := mk {
  heap : gmap Z (Z * Port); rng_ : Helpers.rng; trace_ : list out; ports_ : list Z; connections_ : list cid; best_connection_ : option cid;
  pending_best_connection_ : option cid; remote_candidates_ : list (SessionDescription.Candidate * option Z); incoming_only_ : bool;
  waiting_for_signaling_ : bool; sort_dirty_ : bool; was_writable_ : bool; readable_ : bool; writable_ : bool; ice_ufrag_ : bytes; ice_pwd_
  : bytes; remote_ice_ufrag_ : bytes; remote_ice_pwd_ : bytes; protocol_type_ : SessionDescription.TransportProtocol; remote_ice_mode_ :
  SessionDescription.IceMode; ice_role_ : IceRole; tiebreaker_ : Z; remote_candidate_generation_ : Z; component_ : Z; allocator_sessions_ :
  Z;
}.

Definition put_heap (v : gmap Z (Z * Port)) (s : t) : t :=
  mk v (rng_ s) (trace_ s) (ports_ s) (connections_ s) (best_connection_ s) (pending_best_connection_ s) (remote_candidates_ s) (incoming_only_ s) (waiting_for_signaling_ s) (sort_dirty_ s) (was_writable_ s) (readable_ s) (writable_ s) (ice_ufrag_ s) (ice_pwd_ s) (remote_ice_ufrag_ s) (remote_ice_pwd_ s) (protocol_type_ s) (remote_ice_mode_ s) (ice_role_ s) (tiebreaker_ s) (remote_candidate_generation_ s) (component_ s) (allocator_sessions_ s).
Definition put_rng (v : Helpers.rng) (s : t) : t :=
  mk (heap s) v (trace_ s) (ports_ s) (connections_ s) (best_connection_ s) (pending_best_connection_ s) (remote_candidates_ s) (incoming_only_ s) (waiting_for_signaling_ s) (sort_dirty_ s) (was_writable_ s) (readable_ s) (writable_ s) (ice_ufrag_ s) (ice_pwd_ s) (remote_ice_ufrag_ s) (remote_ice_pwd_ s) (protocol_type_ s) (remote_ice_mode_ s) (ice_role_ s) (tiebreaker_ s) (remote_candidate_generation_ s) (component_ s) (allocator_sessions_ s).
Definition put_trace (v : list out) (s : t) : t :=
  mk (heap s) (rng_ s) v (ports_ s) (connections_ s) (best_connection_ s) (pending_best_connection_ s) (remote_candidates_ s) (incoming_only_ s) (waiting_for_signaling_ s) (sort_dirty_ s) (was_writable_ s) (readable_ s) (writable_ s) (ice_ufrag_ s) (ice_pwd_ s) (remote_ice_ufrag_ s) (remote_ice_pwd_ s) (protocol_type_ s) (remote_ice_mode_ s) (ice_role_ s) (tiebreaker_ s) (remote_candidate_generation_ s) (component_ s) (allocator_sessions_ s).
Definition put_ports (v : list Z) (s : t) : t :=
  mk (heap s) (rng_ s) (trace_ s) v (connections_ s) (best_connection_ s) (pending_best_connection_ s) (remote_candidates_ s) (incoming_only_ s) (waiting_for_signaling_ s) (sort_dirty_ s) (was_writable_ s) (readable_ s) (writable_ s) (ice_ufrag_ s) (ice_pwd_ s) (remote_ice_ufrag_ s) (remote_ice_pwd_ s) (protocol_type_ s) (remote_ice_mode_ s) (ice_role_ s) (tiebreaker_ s) (remote_candidate_generation_ s) (component_ s) (allocator_sessions_ s).
Definition put_connections (v : list cid) (s : t) : t :=
  mk (heap s) (rng_ s) (trace_ s) (ports_ s) v (best_connection_ s) (pending_best_connection_ s) (remote_candidates_ s) (incoming_only_ s) (waiting_for_signaling_ s) (sort_dirty_ s) (was_writable_ s) (readable_ s) (writable_ s) (ice_ufrag_ s) (ice_pwd_ s) (remote_ice_ufrag_ s) (remote_ice_pwd_ s) (protocol_type_ s) (remote_ice_mode_ s) (ice_role_ s) (tiebreaker_ s) (remote_candidate_generation_ s) (component_ s) (allocator_sessions_ s).
Definition put_best_connection (v : option cid) (s : t) : t :=
  mk (heap s) (rng_ s) (trace_ s) (ports_ s) (connections_ s) v (pending_best_connection_ s) (remote_candidates_ s) (incoming_only_ s) (waiting_for_signaling_ s) (sort_dirty_ s) (was_writable_ s) (readable_ s) (writable_ s) (ice_ufrag_ s) (ice_pwd_ s) (remote_ice_ufrag_ s) (remote_ice_pwd_ s) (protocol_type_ s) (remote_ice_mode_ s) (ice_role_ s) (tiebreaker_ s) (remote_candidate_generation_ s) (component_ s) (allocator_sessions_ s).
Definition put_pending_best_connection (v : option cid) (s : t) : t :=
  mk (heap s) (rng_ s) (trace_ s) (ports_ s) (connections_ s) (best_connection_ s) v (remote_candidates_ s) (incoming_only_ s) (waiting_for_signaling_ s) (sort_dirty_ s) (was_writable_ s) (readable_ s) (writable_ s) (ice_ufrag_ s) (ice_pwd_ s) (remote_ice_ufrag_ s) (remote_ice_pwd_ s) (protocol_type_ s) (remote_ice_mode_ s) (ice_role_ s) (tiebreaker_ s) (remote_candidate_generation_ s) (component_ s) (allocator_sessions_ s).
Definition put_remote_candidates (v : list (SessionDescription.Candidate * option Z)) (s : t) : t :=
  mk (heap s) (rng_ s) (trace_ s) (ports_ s) (connections_ s) (best_connection_ s) (pending_best_connection_ s) v (incoming_only_ s) (waiting_for_signaling_ s) (sort_dirty_ s) (was_writable_ s) (readable_ s) (writable_ s) (ice_ufrag_ s) (ice_pwd_ s) (remote_ice_ufrag_ s) (remote_ice_pwd_ s) (protocol_type_ s) (remote_ice_mode_ s) (ice_role_ s) (tiebreaker_ s) (remote_candidate_generation_ s) (component_ s) (allocator_sessions_ s).
Definition put_incoming_only (v : bool) (s : t) : t :=
  mk (heap s) (rng_ s) (trace_ s) (ports_ s) (connections_ s) (best_connection_ s) (pending_best_connection_ s) (remote_candidates_ s) v (waiting_for_signaling_ s) (sort_dirty_ s) (was_writable_ s) (readable_ s) (writable_ s) (ice_ufrag_ s) (ice_pwd_ s) (remote_ice_ufrag_ s) (remote_ice_pwd_ s) (protocol_type_ s) (remote_ice_mode_ s) (ice_role_ s) (tiebreaker_ s) (remote_candidate_generation_ s) (component_ s) (allocator_sessions_ s).
Definition put_waiting_for_signaling (v : bool) (s : t) : t :=
  mk (heap s) (rng_ s) (trace_ s) (ports_ s) (connections_ s) (best_connection_ s) (pending_best_connection_ s) (remote_candidates_ s) (incoming_only_ s) v (sort_dirty_ s) (was_writable_ s) (readable_ s) (writable_ s) (ice_ufrag_ s) (ice_pwd_ s) (remote_ice_ufrag_ s) (remote_ice_pwd_ s) (protocol_type_ s) (remote_ice_mode_ s) (ice_role_ s) (tiebreaker_ s) (remote_candidate_generation_ s) (component_ s) (allocator_sessions_ s).
Definition put_sort_dirty (v : bool) (s : t) : t :=
  mk (heap s) (rng_ s) (trace_ s) (ports_ s) (connections_ s) (best_connection_ s) (pending_best_connection_ s) (remote_candidates_ s) (incoming_only_ s) (waiting_for_signaling_ s) v (was_writable_ s) (readable_ s) (writable_ s) (ice_ufrag_ s) (ice_pwd_ s) (remote_ice_ufrag_ s) (remote_ice_pwd_ s) (protocol_type_ s) (remote_ice_mode_ s) (ice_role_ s) (tiebreaker_ s) (remote_candidate_generation_ s) (component_ s) (allocator_sessions_ s).
Definition put_was_writable (v : bool) (s : t) : t :=
  mk (heap s) (rng_ s) (trace_ s) (ports_ s) (connections_ s) (best_connection_ s) (pending_best_connection_ s) (remote_candidates_ s) (incoming_only_ s) (waiting_for_signaling_ s) (sort_dirty_ s) v (readable_ s) (writable_ s) (ice_ufrag_ s) (ice_pwd_ s) (remote_ice_ufrag_ s) (remote_ice_pwd_ s) (protocol_type_ s) (remote_ice_mode_ s) (ice_role_ s) (tiebreaker_ s) (remote_candidate_generation_ s) (component_ s) (allocator_sessions_ s).
Definition put_readable (v : bool) (s : t) : t :=
  mk (heap s) (rng_ s) (trace_ s) (ports_ s) (connections_ s) (best_connection_ s) (pending_best_connection_ s) (remote_candidates_ s) (incoming_only_ s) (waiting_for_signaling_ s) (sort_dirty_ s) (was_writable_ s) v (writable_ s) (ice_ufrag_ s) (ice_pwd_ s) (remote_ice_ufrag_ s) (remote_ice_pwd_ s) (protocol_type_ s) (remote_ice_mode_ s) (ice_role_ s) (tiebreaker_ s) (remote_candidate_generation_ s) (component_ s) (allocator_sessions_ s).
Definition put_writable (v : bool) (s : t) : t :=
  mk (heap s) (rng_ s) (trace_ s) (ports_ s) (connections_ s) (best_connection_ s) (pending_best_connection_ s) (remote_candidates_ s) (incoming_only_ s) (waiting_for_signaling_ s) (sort_dirty_ s) (was_writable_ s) (readable_ s) v (ice_ufrag_ s) (ice_pwd_ s) (remote_ice_ufrag_ s) (remote_ice_pwd_ s) (protocol_type_ s) (remote_ice_mode_ s) (ice_role_ s) (tiebreaker_ s) (remote_candidate_generation_ s) (component_ s) (allocator_sessions_ s).
Definition put_ice_ufrag (v : bytes) (s : t) : t :=
  mk (heap s) (rng_ s) (trace_ s) (ports_ s) (connections_ s) (best_connection_ s) (pending_best_connection_ s) (remote_candidates_ s) (incoming_only_ s) (waiting_for_signaling_ s) (sort_dirty_ s) (was_writable_ s) (readable_ s) (writable_ s) v (ice_pwd_ s) (remote_ice_ufrag_ s) (remote_ice_pwd_ s) (protocol_type_ s) (remote_ice_mode_ s) (ice_role_ s) (tiebreaker_ s) (remote_candidate_generation_ s) (component_ s) (allocator_sessions_ s).
Definition put_ice_pwd (v : bytes) (s : t) : t :=
  mk (heap s) (rng_ s) (trace_ s) (ports_ s) (connections_ s) (best_connection_ s) (pending_best_connection_ s) (remote_candidates_ s) (incoming_only_ s) (waiting_for_signaling_ s) (sort_dirty_ s) (was_writable_ s) (readable_ s) (writable_ s) (ice_ufrag_ s) v (remote_ice_ufrag_ s) (remote_ice_pwd_ s) (protocol_type_ s) (remote_ice_mode_ s) (ice_role_ s) (tiebreaker_ s) (remote_candidate_generation_ s) (component_ s) (allocator_sessions_ s).
Definition put_remote_ice_ufrag (v : bytes) (s : t) : t :=
  mk (heap s) (rng_ s) (trace_ s) (ports_ s) (connections_ s) (best_connection_ s) (pending_best_connection_ s) (remote_candidates_ s) (incoming_only_ s) (waiting_for_signaling_ s) (sort_dirty_ s) (was_writable_ s) (readable_ s) (writable_ s) (ice_ufrag_ s) (ice_pwd_ s) v (remote_ice_pwd_ s) (protocol_type_ s) (remote_ice_mode_ s) (ice_role_ s) (tiebreaker_ s) (remote_candidate_generation_ s) (component_ s) (allocator_sessions_ s).
Definition put_remote_ice_pwd (v : bytes) (s : t) : t :=
  mk (heap s) (rng_ s) (trace_ s) (ports_ s) (connections_ s) (best_connection_ s) (pending_best_connection_ s) (remote_candidates_ s) (incoming_only_ s) (waiting_for_signaling_ s) (sort_dirty_ s) (was_writable_ s) (readable_ s) (writable_ s) (ice_ufrag_ s) (ice_pwd_ s) (remote_ice_ufrag_ s) v (protocol_type_ s) (remote_ice_mode_ s) (ice_role_ s) (tiebreaker_ s) (remote_candidate_generation_ s) (component_ s) (allocator_sessions_ s).
Definition put_protocol_type (v : SessionDescription.TransportProtocol) (s : t) : t :=
  mk (heap s) (rng_ s) (trace_ s) (ports_ s) (connections_ s) (best_connection_ s) (pending_best_connection_ s) (remote_candidates_ s) (incoming_only_ s) (waiting_for_signaling_ s) (sort_dirty_ s) (was_writable_ s) (readable_ s) (writable_ s) (ice_ufrag_ s) (ice_pwd_ s) (remote_ice_ufrag_ s) (remote_ice_pwd_ s) v (remote_ice_mode_ s) (ice_role_ s) (tiebreaker_ s) (remote_candidate_generation_ s) (component_ s) (allocator_sessions_ s).
Definition put_remote_ice_mode (v : SessionDescription.IceMode) (s : t) : t :=
  mk (heap s) (rng_ s) (trace_ s) (ports_ s) (connections_ s) (best_connection_ s) (pending_best_connection_ s) (remote_candidates_ s) (incoming_only_ s) (waiting_for_signaling_ s) (sort_dirty_ s) (was_writable_ s) (readable_ s) (writable_ s) (ice_ufrag_ s) (ice_pwd_ s) (remote_ice_ufrag_ s) (remote_ice_pwd_ s) (protocol_type_ s) v (ice_role_ s) (tiebreaker_ s) (remote_candidate_generation_ s) (component_ s) (allocator_sessions_ s).
Definition put_ice_role (v : IceRole) (s : t) : t :=
  mk (heap s) (rng_ s) (trace_ s) (ports_ s) (connections_ s) (best_connection_ s) (pending_best_connection_ s) (remote_candidates_ s) (incoming_only_ s) (waiting_for_signaling_ s) (sort_dirty_ s) (was_writable_ s) (readable_ s) (writable_ s) (ice_ufrag_ s) (ice_pwd_ s) (remote_ice_ufrag_ s) (remote_ice_pwd_ s) (protocol_type_ s) (remote_ice_mode_ s) v (tiebreaker_ s) (remote_candidate_generation_ s) (component_ s) (allocator_sessions_ s).
Definition put_tiebreaker (v : Z) (s : t) : t :=
  mk (heap s) (rng_ s) (trace_ s) (ports_ s) (connections_ s) (best_connection_ s) (pending_best_connection_ s) (remote_candidates_ s) (incoming_only_ s) (waiting_for_signaling_ s) (sort_dirty_ s) (was_writable_ s) (readable_ s) (writable_ s) (ice_ufrag_ s) (ice_pwd_ s) (remote_ice_ufrag_ s) (remote_ice_pwd_ s) (protocol_type_ s) (remote_ice_mode_ s) (ice_role_ s) v (remote_candidate_generation_ s) (component_ s) (allocator_sessions_ s).
Definition put_remote_candidate_generation (v : Z) (s : t) : t :=
  mk (heap s) (rng_ s) (trace_ s) (ports_ s) (connections_ s) (best_connection_ s) (pending_best_connection_ s) (remote_candidates_ s) (incoming_only_ s) (waiting_for_signaling_ s) (sort_dirty_ s) (was_writable_ s) (readable_ s) (writable_ s) (ice_ufrag_ s) (ice_pwd_ s) (remote_ice_ufrag_ s) (remote_ice_pwd_ s) (protocol_type_ s) (remote_ice_mode_ s) (ice_role_ s) (tiebreaker_ s) v (component_ s) (allocator_sessions_ s).
Definition put_component (v : Z) (s : t) : t :=
  mk (heap s) (rng_ s) (trace_ s) (ports_ s) (connections_ s) (best_connection_ s) (pending_best_connection_ s) (remote_candidates_ s) (incoming_only_ s) (waiting_for_signaling_ s) (sort_dirty_ s) (was_writable_ s) (readable_ s) (writable_ s) (ice_ufrag_ s) (ice_pwd_ s) (remote_ice_ufrag_ s) (remote_ice_pwd_ s) (protocol_type_ s) (remote_ice_mode_ s) (ice_role_ s) (tiebreaker_ s) (remote_candidate_generation_ s) v (allocator_sessions_ s).
Definition put_allocator_sessions (v : Z) (s : t) : t :=
  mk (heap s) (rng_ s) (trace_ s) (ports_ s) (connections_ s) (best_connection_ s) (pending_best_connection_ s) (remote_candidates_ s) (incoming_only_ s) (waiting_for_signaling_ s) (sort_dirty_ s) (was_writable_ s) (readable_ s) (writable_ s) (ice_ufrag_ s) (ice_pwd_ s) (remote_ice_ufrag_ s) (remote_ice_pwd_ s) (protocol_type_ s) (remote_ice_mode_ s) (ice_role_ s) (tiebreaker_ s) (remote_candidate_generation_ s) (component_ s) v.


Notation M := (comp t).
Definition gets {A} (f : t -> A) : M A := fun s => Ok (f s) s.
Definition modify (f : t -> t) : M unit := fun s => Ok tt (f s).
Definition emit (e : out) : M unit := modify (fun s => put_trace (trace_ s ++ [e]) s).
Definition for_each {A} (f : A -> M unit) (l : list A) : M unit := foldM (fun _ a => f a) l tt.
Definition when (b : bool) (m : M unit) : M unit := if b then m else ret tt.
Definition oblige (b : bool) : M unit := if b then ret tt else stuck.

(** ** Following pointers *)

Definition network_port (pid : Z) : M (Z * Port) := fun s => match heap s !! pid with Some np => Ok np s | None => Stuck end.
Definition put_port (pid : Z) (p : Port) (s : t) : t :=
  match heap s !! pid with Some (n, _) => put_heap (<[pid := (n, p)]> (heap s)) s | None => s end.
Definition connection (c : cid) (s : t) : option Connection :=
  match heap s !! c.1 with Some (_, p) => IcePort.GetConnection c.2 p | None => None end.
Definition deref (c : cid) : M Connection := fun s => match connection c s with Some x => Ok x s | None => Stuck end.
Definition put_conn (c : cid) (x : Connection) (s : t) : t :=
  match heap s !! c.1 with Some (_, p) => put_port c.1 (IcePort.put_connection c.2 x p) s | None => s end.
Definition find_key (addr : IpAddress.SocketAddress) (p : Port) : option IpAddress.SocketAddress :=
  option_map fst (find (fun e => IcePort.same_key e.1 addr) (IcePort.connections_ p)).

(** ** Comparing connections *)

(** What the comparisons read of a connection and its port. *)
Record view := mkview { v_id : cid; v_network : Z; v_write : WriteState; v_priority : Z; v_generation : Z; v_rtt : Z }.
Definition view_of (c : cid) (s : t) : option view :=
  let? np := heap s !! c.1 in
  let? x := IcePort.GetConnection c.2 np.2 in
  let? priority := IcePort.priority x np.2 in
  Some (mkview c np.1 (write_state_ x) priority (u32 (SessionDescription.generation_ (remote_candidate_ x) + IcePort.generation_ np.2)) (rtt_ x)).
Definition look (c : cid) : M view := fun s => match view_of c s with Some v => Ok v s | None => Stuck end.

Definition write_value (w : WriteState) : Z :=
  match w with STATE_WRITABLE => 0 | STATE_WRITE_UNRELIABLE => 1 | STATE_WRITE_INIT => 2 | STATE_WRITE_TIMEOUT => 3 end.
Definition CompareConnectionCandidates (a b : view) : Z :=
  if v_priority b <? v_priority a then 1
  else if v_priority a <? v_priority b then -1
  else s32 (v_generation a - v_generation b).
Definition CompareConnections (a b : view) : Z :=
  if write_value (v_write a) <? write_value (v_write b) then 1
  else if write_value (v_write b) <? write_value (v_write a) then -1
  else CompareConnectionCandidates a b.
(** Its ASSERT that both ports have the same IceProtocol() is not an obligation:
    nothing after it depends on it.  It holds where the channel sorts, since
    a sort returns early while the channel is hybrid, and otherwise every port
    has got the protocol of the channel, which only a hybrid port changes. *)
Definition ConnectionCompare (a b : view) : bool :=
  let cmp := CompareConnections a b in
  if 0 <? cmp then true else if cmp <? 0 then false else v_rtt a <? v_rtt b.
Definition ShouldSwitch (a_conn b_conn : option view) : bool :=
  if bool_decide (option_map v_id a_conn = option_map v_id b_conn) then false
  else
    match a_conn, b_conn with
    | Some a, Some b =>
        let prefs_cmp := CompareConnections a b in
        if prefs_cmp <? 0 then true else if 0 <? prefs_cmp then false
        else v_rtt b <=? v_rtt a + kMinImprovement
    | _, _ => true
    end.

(** std::stable_sort *)
Fixpoint insert_sorted {A} (less : A -> A -> bool) (a : A) (l : list A) : list A :=
  match l with
  | [] => [a]
  | b :: l => if less b a then b :: insert_sorted less a l else a :: b :: l
  end.
Definition stable_sort {A} (less : A -> A -> bool) (l : list A) : list A := fold_right (insert_sorted less) [] l.
(** The elements of a std::set of pointers. *)
Fixpoint set_insert (n : Z) (l : list Z) : list Z :=
  match l with
  | [] => [n]
  | m :: l' => if n <? m then n :: l else if n =? m then l else m :: set_insert n l'
  end.

(** ** The state of the channel *)

Definition set_readable (readable : bool) : M unit :=
  r <- gets readable_ ;; when (negb (Bool.eqb r readable)) (modify (put_readable readable) ;;; emit SignalReadableState).
Definition set_writable (writable : bool) : M unit :=
  w <- gets writable_ ;;
  when (negb (Bool.eqb w writable)) (modify (put_writable writable) ;;; when writable (emit ReadyToSend) ;;; emit SignalWritableState).

Definition RequestSort : M unit :=
  dirty <- gets sort_dirty_ ;; when (negb dirty) (emit PostSort ;;; modify (put_sort_dirty true)).
Definition SwitchBestConnectionTo (conn : option cid) : M unit :=
  modify (put_best_connection conn) ;;;
  match conn with
  | Some c => x <- deref c ;; emit (SignalRouteChange (remote_candidate_ x))
  | None => ret tt
  end.
Definition HandleWritable : M unit :=
  w <- gets writable_ ;; when (negb w) (emit StopGettingPorts) ;;; modify (put_was_writable true) ;;; set_writable true.
Definition HandleNotWritable : M unit :=
  was <- gets was_writable_ ;; when was (modify (put_was_writable false) ;;; set_writable false).
Definition HandleAllTimedOut : M unit := HandleNotWritable.

Definition is_writable (c : option cid) : M bool :=
  match c with Some c => x <- deref c ;; ret (writable x) | None => ret false end.
Fixpoint any_connection (f : Connection -> bool) (l : list cid) : M bool :=
  match l with
  | [] => ret false
  | c :: l => x <- deref c ;; if f x then ret true else any_connection f l
  end.
Definition UpdateChannelState : M unit :=
  best <- gets best_connection_ ;; writable <- is_writable best ;;
  w <- gets writable_ ;; oblige (Bool.eqb writable w) ;;;
  conns <- gets connections_ ;; r <- any_connection readable conns ;; set_readable r.

(** ** The slots of a connection's signals *)

Definition OnConnectionStateChange (c : cid) : M unit :=
  protocol <- gets protocol_type_ ;; role <- gets ice_role_ ;;
  when (bool_decide (protocol = SessionDescription.ICEPROTO_RFC5245) && bool_decide (role = ICEROLE_CONTROLLED))
    (pending <- gets pending_best_connection_ ;;
     w <- (if bool_decide (pending = Some c) then is_writable (Some c) else ret false) ;;
     when w (modify (put_pending_best_connection None) ;;; SwitchBestConnectionTo (Some c))) ;;;
  RequestSort.
Definition OnUseCandidate (c : cid) : M unit :=
  role <- gets ice_role_ ;; oblige (bool_decide (role = ICEROLE_CONTROLLED)) ;;;
  protocol <- gets protocol_type_ ;; oblige (bool_decide (protocol = SessionDescription.ICEPROTO_RFC5245)) ;;;
  x <- deref c ;;
  if writable x then
    best <- gets best_connection_ ;;
    when (negb (bool_decide (best = Some c))) (modify (put_pending_best_connection None) ;;; SwitchBestConnectionTo (Some c) ;;; RequestSort)
  else modify (put_pending_best_connection (Some c)).
Definition OnReadPacket (c : cid) (data : bytes) : M unit :=
  conns <- gets connections_ ;; when (bool_decide (c ∈ conns)) (emit (DataReceived data)).
Definition OnReadyToSend (c : cid) : M unit :=
  best <- gets best_connection_ ;; w <- gets writable_ ;; when (bool_decide (best = Some c) && w) (emit ReadyToSend).
Definition conn_signal (c : cid) (e : conn_event) : M unit :=
  match e with
  | SignalStateChange => OnConnectionStateChange c
  | SignalReadPacket data => OnReadPacket c data
  | SignalReadyToSend => OnReadyToSend c
  | SignalUseCandidate => OnUseCandidate c
  | PostDelete => emit (PostConnectionDelete c)
  end.
(** A method of the connection, with the slots of its signals. *)
Definition call (c : cid) (f : Port -> Connection -> option (Connection * list conn_event)) : M unit :=
  np <- network_port c.1 ;; x <- deref c ;; r <- defined (f np.2 x) ;;
  modify (put_conn c r.1) ;;; for_each (conn_signal c) r.2.

Definition OnConnectionDestroyed (c : cid) : M unit :=
  conns <- gets connections_ ;; oblige (bool_decide (c ∈ conns)) ;;;
  modify (put_connections (remove_first c conns)) ;;;
  pending <- gets pending_best_connection_ ;; when (bool_decide (pending = Some c)) (modify (put_pending_best_connection None)) ;;;
  best <- gets best_connection_ ;; when (bool_decide (best = Some c)) (SwitchBestConnectionTo None ;;; RequestSort) ;;;
  emit SignalConnectionRemoved.

(** ** Sorting *)

Definition UpdateConnectionStates (now : Z) : M unit :=
  conns <- gets connections_ ;;
  for_each (fun c => call c (fun p x => Some (UpdateState (IcePort.IsGoogleIce p) now x))) conns.

Definition mapM {A B} (f : A -> M B) (l : list A) : M (list B) := foldM (fun acc a => b <- f a ;; ret (acc ++ [b])) l [].
Definition look_best : M (option view) :=
  best <- gets best_connection_ ;; match best with Some c => v <- look c ;; ret (Some v) | None => ret None end.
Fixpoint first_on_network (network : Z) (l : list cid) : M (option cid) :=
  match l with
  | [] => ret None
  | c :: l => np <- network_port c.1 ;; if np.1 =? network then ret (Some c) else first_on_network network l
  end.
Definition GetBestConnectionOnNetwork (network : Z) : M (option cid) :=
  best <- gets best_connection_ ;;
  b <- match best with Some c => np <- network_port c.1 ;; ret (np.1 =? network) | None => ret false end ;;
  if b then ret best else conns <- gets connections_ ;; first_on_network network conns.
Definition prune_worse (primier : cid) (network : Z) (c : cid) : M unit :=
  when (negb (bool_decide (c = primier)))
    (v <- look c ;;
     when (v_network v =? network) (vp <- look primier ;; when (0 <=? CompareConnectionCandidates vp v) (call c (fun _ x => Prune x)))).
Definition prune_network (network : Z) : M unit :=
  primier <- GetBestConnectionOnNetwork network ;;
  match primier with
  | None => ret tt
  | Some primier =>
      x <- deref primier ;;
      when (writable x) (conns <- gets connections_ ;; for_each (prune_worse primier network) conns)
  end.

Definition choose_best (sorted : list view) : M unit :=
  protocol <- gets protocol_type_ ;; role <- gets ice_role_ ;;
  when (negb (bool_decide (protocol = SessionDescription.ICEPROTO_RFC5245)) || bool_decide (role = ICEROLE_CONTROLLING))
    (best <- look_best ;; when (ShouldSwitch best (head sorted)) (SwitchBestConnectionTo (option_map v_id (head sorted)))).
Definition update_writable : M unit :=
  conns <- gets connections_ ;;
  some_alive <- any_connection (fun x => negb (bool_decide (write_state_ x = STATE_WRITE_TIMEOUT))) conns ;;
  best <- gets best_connection_ ;; w <- is_writable best ;;
  (if w then HandleWritable else if negb some_alive then HandleAllTimedOut else HandleNotWritable) ;;; UpdateChannelState.
Definition SortConnections (now : Z) : M unit :=
  UpdateConnectionStates now ;;;
  protocol <- gets protocol_type_ ;;
  if bool_decide (protocol = SessionDescription.ICEPROTO_HYBRID) then UpdateChannelState
  else
    modify (put_sort_dirty false) ;;;
    conns <- gets connections_ ;; views <- mapM look conns ;;
    let networks := fold_right set_insert [] (map v_network views) in
    let sorted := stable_sort ConnectionCompare views in
    modify (put_connections (map v_id sorted)) ;;;
    choose_best sorted ;;;
    for_each prune_network networks ;;;
    update_writable.

(** ** Pings *)

Definition IsPingable (writable : bool) (x : Connection) : bool :=
  if negb (connected_ x) then false
  else if writable then negb (bool_decide (write_state_ x = STATE_WRITE_TIMEOUT))
  else negb (bool_decide (write_state_ x = STATE_WRITE_TIMEOUT)) || negb (bool_decide (read_state_ x = STATE_READ_TIMEOUT)).
(** The scan of the connections: the oldest so far and its time. *)
Fixpoint oldest_pingable (w : bool) (oldest : option cid) (oldest_time : Z) (l : list cid) : M (option cid) :=
  match l with
  | [] => ret oldest
  | c :: l =>
      x <- deref c ;;
      if IsPingable w x && (last_ping_sent_ x <? oldest_time) then oldest_pingable w (Some c) (last_ping_sent_ x) l
      else oldest_pingable w oldest oldest_time l
  end.
(** The best connection is writable and its last ping is long ago. *)
Definition best_due (now : Z) : M bool :=
  best <- gets best_connection_ ;;
  match best with
  | Some c => x <- deref c ;; ret (writable x && (u32 (last_ping_sent_ x + MAX_CURRENT_WRITABLE_DELAY) <=? now))
  | None => ret false
  end.
Definition FindNextPingableConnection (now : Z) : M (option cid) :=
  due <- best_due now ;;
  if due then gets best_connection_
  else w <- gets writable_ ;; conns <- gets connections_ ;; oldest_pingable w None 0xFFFFFFFF conns.

Definition higher_priority (c : cid) (best : cid) : M bool :=
  a <- look c ;; b <- look best ;; ret (v_priority b <? v_priority a).
(** Is the ping of [c] to nominate it? *)
Definition use_candidate (c : cid) : M bool :=
  protocol <- gets protocol_type_ ;; mode <- gets remote_ice_mode_ ;; role <- gets ice_role_ ;; best <- gets best_connection_ ;;
  if bool_decide (protocol = SessionDescription.ICEPROTO_RFC5245) then
    if bool_decide (mode = SessionDescription.ICEMODE_FULL) && bool_decide (role = ICEROLE_CONTROLLING) then
      match best with
      | None => ret true
      | Some b =>
          if bool_decide (c = b) then ret true
          else w <- is_writable best ;; if negb w then ret true else higher_priority c b
      end
    else if bool_decide (mode = SessionDescription.ICEMODE_LITE) && bool_decide (best = Some c) then is_writable best
    else ret false
  else ret false.
(** [h] is the pointer to the request. *)
Definition PingConnection (now h : Z) (c : cid) : M unit :=
  use <- use_candidate c ;;
  np <- network_port c.1 ;; x <- deref c ;; g <- gets rng_ ;;
  r <- defined (IcePort.Ping now h (set_use_candidate_attr use x) np.2 g) ;;
  modify (put_conn c r.1) ;;; modify (put_rng r.2).
Definition OnPing (now h : Z) : M unit :=
  UpdateConnectionStates now ;;;
  conn <- FindNextPingableConnection now ;;
  match conn with Some c => PingConnection now h c | None => ret tt end ;;;
  w <- gets writable_ ;; emit (PostPing (if w then WRITABLE_DELAY else UNWRITABLE_DELAY)).
Definition OnSort (now : Z) : M unit := SortConnections now.

(** The thread dispatches the message of a connection's requests. *)
Definition PumpConnection (now : Z) (c : cid) : M unit :=
  x <- deref c ;; r <- defined (IcePort.Pump now x) ;;
  modify (put_conn c r.1) ;;;
  for_each (fun e => match e with IcePort.SendTo data addr => emit (Packet c.1 data addr) | _ => ret tt end) r.2.

(** ** Making connections *)

Definition AddConnection (c : cid) : M unit :=
  conns <- gets connections_ ;; modify (put_connections (conns ++ [c])) ;;;
  mode <- gets remote_ice_mode_ ;; x <- deref c ;; modify (put_conn c (set_remote_ice_mode mode x)).
(** UDPPort::CreateConnection *)
Definition port_CreateConnection (pid : Z) (address : SessionDescription.Candidate) : M cid :=
  np <- network_port pid ;;
  guard (bool_decide (SessionDescription.cand_protocol address = str "udp")) ;;;
  guard (IcePort.IsCompatibleAddress (SessionDescription.address_ address) np.2) ;;;
  when (IcePort.shared_socket_ np.2)
    (first <- defined (IcePort.candidates_ np.2 !! 0%nat) ;; oblige (bool_decide (SessionDescription.cand_type first = LOCAL_PORT_TYPE))) ;;;
  modify (put_port pid (IcePort.AddConnection (IceConnection.new 0 address) np.2).1) ;;;
  ret (pid, SessionDescription.address_ address).
Definition CreateConnection (now pid : Z) (remote_candidate : SessionDescription.Candidate) (origin_port : option Z) (readable : bool) : M unit :=
  np <- network_port pid ;;
  c <- match find_key (SessionDescription.address_ remote_candidate) np.2 with
       | Some key =>
           x <- deref (pid, key) ;; guard (SessionDescription.IsEquivalent remote_candidate (remote_candidate_ x)) ;;; ret (pid, key)
       | None =>
           incoming_only <- gets incoming_only_ ;;
           guard (negb (bool_decide (origin_port = None) && incoming_only)) ;;;
           c <- port_CreateConnection pid remote_candidate ;; AddConnection c ;;; ret c
       end ;;
  when readable (call c (fun _ x => Some (ReceivedPing now x))).

Definition with_address (a : IpAddress.SocketAddress) (c : SessionDescription.Candidate) : SessionDescription.Candidate :=
  SessionDescription.mkCandidate (SessionDescription.cand_id c) (SessionDescription.component_ c) (SessionDescription.cand_protocol c) a
    (SessionDescription.priority_ c) (SessionDescription.username_ c) (SessionDescription.password_ c) (SessionDescription.cand_type c)
    (SessionDescription.network_name_ c) (SessionDescription.generation_ c) (SessionDescription.foundation_ c) (SessionDescription.related_address_ c).
Definition with_priority (v : Z) (c : SessionDescription.Candidate) : SessionDescription.Candidate :=
  SessionDescription.mkCandidate (SessionDescription.cand_id c) (SessionDescription.component_ c) (SessionDescription.cand_protocol c) (SessionDescription.address_ c)
    v (SessionDescription.username_ c) (SessionDescription.password_ c) (SessionDescription.cand_type c)
    (SessionDescription.network_name_ c) (SessionDescription.generation_ c) (SessionDescription.foundation_ c) (SessionDescription.related_address_ c).
Definition with_remote (username password : bytes) (generation : Z) (c : SessionDescription.Candidate) : SessionDescription.Candidate :=
  SessionDescription.mkCandidate (SessionDescription.cand_id c) (SessionDescription.component_ c) (SessionDescription.cand_protocol c) (SessionDescription.address_ c)
    (SessionDescription.priority_ c) username password (SessionDescription.cand_type c)
    (SessionDescription.network_name_ c) generation (SessionDescription.foundation_ c) (SessionDescription.related_address_ c).

Definition GetRemoteCandidateGeneration (candidate : SessionDescription.Candidate) : M Z :=
  protocol <- gets protocol_type_ ;;
  if bool_decide (protocol = SessionDescription.ICEPROTO_GOOGLE) then ret (SessionDescription.generation_ candidate)
  else
    g <- gets remote_candidate_generation_ ;;
    oblige ((SessionDescription.generation_ candidate =? 0) || (SessionDescription.generation_ candidate =? g)) ;;; ret g.
Definition IsDuplicateRemoteCandidate (candidate : SessionDescription.Candidate) : M bool :=
  l <- gets remote_candidates_ ;; ret (existsb (fun e => SessionDescription.IsEquivalent e.1 candidate) l).
Definition RememberRemoteCandidate (remote_candidate : SessionDescription.Candidate) (origin_port : option Z) : M unit :=
  l <- gets remote_candidates_ ;;
  modify (put_remote_candidates (List.filter (fun e => negb (SessionDescription.generation_ e.1 <? SessionDescription.generation_ remote_candidate)) l)) ;;;
  duplicate <- IsDuplicateRemoteCandidate remote_candidate ;;
  when (negb duplicate) (l <- gets remote_candidates_ ;; modify (put_remote_candidates (l ++ [(remote_candidate, origin_port)]))).

(** Was a connection created from the origin port? *)
Definition CreateConnections (now : Z) (remote_candidate : SessionDescription.Candidate) (origin_port : option Z) (readable : bool) : M bool :=
  generation <- GetRemoteCandidateGeneration remote_candidate ;;
  remote_ufrag <- gets remote_ice_ufrag_ ;; remote_pwd <- gets remote_ice_pwd_ ;;
  let new_remote_candidate :=
    with_remote (if bool_decide (SessionDescription.username_ remote_candidate = []) then remote_ufrag else SessionDescription.username_ remote_candidate)
      (if bool_decide (SessionDescription.password_ remote_candidate = []) then remote_pwd else SessionDescription.password_ remote_candidate)
      generation remote_candidate in
  duplicate <- IsDuplicateRemoteCandidate new_remote_candidate ;;
  if bool_decide (origin_port = None) && duplicate then ret true
  else
    ports <- gets ports_ ;;
    created <- foldM (fun created pid =>
        r <- attempt (CreateConnection now pid new_remote_candidate origin_port readable) ;;
        ret (created || (bool_decide (is_Some r) && bool_decide (origin_port = Some pid)))) (rev ports) false ;;
    created <- match origin_port with
               | Some pid =>
                   if bool_decide (pid ∈ ports) then ret created
                   else r <- attempt (CreateConnection now pid new_remote_candidate origin_port readable) ;; ret (created || bool_decide (is_Some r))
               | None => ret created
               end ;;
    RememberRemoteCandidate new_remote_candidate origin_port ;;; ret created.
Definition OnCandidate (now : Z) (candidate : SessionDescription.Candidate) : M unit :=
  _ <- CreateConnections now candidate None false ;; SortConnections now.

(** ** Requests from unknown addresses *)

(** The search for the sender: the candidate, and the password if the name is known. *)
Fixpoint find_remote (ufrag_per_port : bool) (address : IpAddress.SocketAddress) (proto username : bytes) (known : option bytes)
    (l : list (SessionDescription.Candidate * option Z)) : option SessionDescription.Candidate * option bytes :=
  match l with
  | [] => (None, known)
  | (c, _) :: l =>
      if bool_decide (SessionDescription.username_ c = username) then
        if ufrag_per_port || (IpAddress.sa_eqb (SessionDescription.address_ c) address && bool_decide (SessionDescription.cand_protocol c = proto))
        then (Some c, Some (SessionDescription.password_ c))
        else find_remote ufrag_per_port address proto username (Some (SessionDescription.password_ c)) l
      else find_remote ufrag_per_port address proto username known l
  end.
Definition ufrags_differ (l : list (SessionDescription.Candidate * option Z)) : bool :=
  match l with
  | [] => false
  | (c0, _) :: _ => existsb (fun e => negb (bool_decide (SessionDescription.username_ e.1 = SessionDescription.username_ c0))) l
  end.
Definition send_all (pid : Z) (evs : list IcePort.event) : M unit :=
  for_each (fun e => match e with IcePort.SendTo data addr => emit (Packet pid data addr) | _ => ret tt end) evs.
Definition refuse (pid : Z) (stun_msg : Stun.StunMessage) (address : IpAddress.SocketAddress) (code : Z) (reason : bytes) : M unit :=
  np <- network_port pid ;; evs <- defined (IcePort.SendBindingErrorResponse stun_msg address code reason np.2) ;; send_all pid evs.
(** The port's SendBindingResponse, with the slots of its connection's signals. *)
Definition respond (now pid : Z) (stun_msg : Stun.StunMessage) (address : IpAddress.SocketAddress) : M unit :=
  np <- network_port pid ;; r <- defined (IcePort.SendBindingResponse now stun_msg address np.2) ;;
  modify (put_port pid r.1) ;;;
  for_each (fun e =>
    match e with
    | IcePort.SendTo data addr => emit (Packet pid data addr)
    | IcePort.Conn addr ce => match find_key addr r.1 with Some key => conn_signal (pid, key) ce | None => stuck end
    | _ => ret tt
    end) r.2.
Definition new_candidate (address : IpAddress.SocketAddress) (proto : IcePort.ProtocolType) (username password : bytes) (p : Port) : M SessionDescription.Candidate :=
  let type :=
    if IcePort.IsStandardIce p then IcePort.PRFLX_PORT_TYPE
    else if bool_decide (IcePort.type_ p = RELAY_PORT_TYPE) || IcePort.shared_socket_ p then STUN_PORT_TYPE
    else IcePort.type_ p in
  id <- lift (fun s => let '(id, g) := IcePort.random_string 8 (rng_ s) in (id, put_rng g s)) ;;
  component <- gets component_ ;;
  let c := SessionDescription.mkCandidate id component (IcePort.ProtoToString proto) address 0 username password type (IcePort.network_name p) 0
             (StringConv.ToString_int (Crc32.ComputeCrc32 id)) IpAddress.sa_clear in
  ret (with_priority (SessionDescription.GetPriority ICE_TYPE_PREFERENCE_SRFLX (IcePort.network_preference p) c) c).

Definition OnUnknownAddress (now pid : Z) (address : IpAddress.SocketAddress) (proto : IcePort.ProtocolType) (stun_msg : Stun.StunMessage)
    (remote_username : bytes) (port_muxed : bool) : M unit :=
  remotes <- gets remote_candidates_ ;;
  let ufrag_per_port := ufrags_differ remotes in
  match find_remote ufrag_per_port address (IcePort.ProtoToString proto) remote_username None remotes with
  | (_, None) =>
      if port_muxed then ret tt
      else refuse pid stun_msg address IcePort.STUN_ERROR_STALE_CREDENTIALS STUN_ERROR_REASON_STALE_CREDENTIALS
  | (candidate, Some remote_password) =>
      np <- network_port pid ;;
      new_remote_candidate <-
        match candidate with
        | Some c => ret (if ufrag_per_port then with_address address c else c)
        | None => new_candidate address proto remote_username remote_password np.2
        end ;;
      if IcePort.IsStandardIce np.2 then
        match Stun.GetUInt32 Stun.STUN_ATTR_PRIORITY stun_msg with
        | None => refuse pid stun_msg address IcePort.STUN_ERROR_BAD_REQUEST IcePort.STUN_ERROR_REASON_BAD_REQUEST
        | Some priority_attr =>
            let new_remote_candidate := with_priority (IcePort.value priority_attr) new_remote_candidate in
            if bool_decide (is_Some (find_key (SessionDescription.address_ new_remote_candidate) np.2)) then oblige port_muxed
            else
              created <- attempt (port_CreateConnection pid new_remote_candidate) ;;
              match created with
              | None => stuck
              | Some c =>
                  AddConnection c ;;; call c (fun _ x => Some (ReceivedPing now x)) ;;;
                  respond now pid stun_msg address ;;; SortConnections now
              end
        end
      else
        created <- CreateConnections now new_remote_candidate (Some pid) true ;; oblige created ;;;
        respond now pid stun_msg address ;;; SortConnections now
  end.

(** ** Ports and packets *)

Definition port_signal (now pid : Z) (e : IcePort.event) : M unit :=
  match e with
  | IcePort.SendTo data addr => emit (Packet pid data addr)
  | IcePort.Conn addr ce =>
      np <- network_port pid ;; match find_key addr np.2 with Some key => conn_signal (pid, key) ce | None => stuck end
  | IcePort.SignalRoleConflict => emit RoleConflict
  | IcePort.SignalUnknownAddress addr proto msg username => OnUnknownAddress now pid addr proto msg username false
  | IcePort.PortReadPacket data addr => emit (PortPacket pid data addr)
  | IcePort.PostCheckTimeout delay => emit (PostPortTimeout pid delay)
  | _ => ret tt
  end.
(** A packet for the port (UDPPort::OnReadPacket, not from a STUN server). *)
Definition OnPortPacket (now pid : Z) (data : bytes) (addr : IpAddress.SocketAddress) : M unit :=
  np <- network_port pid ;; g <- gets rng_ ;;
  match find_key addr np.2 with
  | Some _ =>
      r <- defined (IcePort.conn_OnReadPacket inet_ntop now data addr np.2 g) ;;
      modify (put_port pid r.1.1) ;;; modify (put_rng r.1.2) ;;; for_each (port_signal now pid) r.2
  | None =>
      r <- defined (IcePort.OnReadPacket data addr IcePort.PROTO_UDP np.2) ;;
      modify (put_port pid r.1) ;;; for_each (port_signal now pid) r.2
  end.
(** The message with which a connection deletes itself. *)
Definition OnConnectionDelete (c : cid) : M unit :=
  np <- network_port c.1 ;; r <- defined (IcePort.conn_OnMessage c.2 np.2) ;;
  modify (put_port c.1 r.1) ;;;
  for_each (fun e => match e with IcePort.PostCheckTimeout delay => emit (PostPortTimeout c.1 delay) | _ => ret tt end) r.2 ;;;
  OnConnectionDestroyed c.

Definition set_up (s : t) (p : Port) : Port :=
  IcePort.SetIceTiebreaker (tiebreaker_ s) (IcePort.SetIceRole (ice_role_ s) (IcePort.SetIceProtocolType (protocol_type_ s) p)).
(** [pid] is the new port [p], on the network [n]. *)
Definition OnPortReady (now pid n : Z) (p : Port) : M unit :=
  modify (fun s => put_heap (<[pid := (n, set_up s p)]> (heap s)) s) ;;;
  modify (fun s => put_ports (ports_ s ++ [pid]) s) ;;;
  remotes <- gets remote_candidates_ ;;
  for_each (fun r => _ <- attempt (CreateConnection now pid r.1 r.2 false) ;; ret tt) remotes ;;;
  SortConnections now.
Definition OnPortDestroyed (pid : Z) : M unit := modify (fun s => put_ports (remove_first pid (ports_ s)) s).
(** The message of the port to itself to see if it is of use: it has no
    connections when it is deleted. *)
Definition OnPortTimeout (pid : Z) : M unit :=
  np <- network_port pid ;; r <- defined (IcePort.CheckTimeout np.2) ;;
  when r.1 (OnPortDestroyed pid ;;; modify (fun s => put_heap (delete pid (heap s)) s)).

(** ** The transport *)

Definition for_ports (f : Port -> Port) : M unit :=
  ports <- gets ports_ ;; for_each (fun pid => np <- network_port pid ;; modify (put_port pid (f np.2))) ports.
Definition SetIceRole (ice_role : IceRole) : M unit :=
  role <- gets ice_role_ ;;
  when (negb (bool_decide (role = ice_role))) (modify (put_ice_role ice_role) ;;; for_ports (IcePort.SetIceRole ice_role)).
Definition SetIceTiebreaker (tiebreaker : Z) : M unit :=
  ports <- gets ports_ ;; when (bool_decide (ports = [])) (modify (put_tiebreaker tiebreaker)).
Definition SetIceProtocolType (type : SessionDescription.TransportProtocol) : M unit :=
  modify (put_protocol_type type) ;;; for_ports (IcePort.SetIceProtocolType type).
Definition Allocate : M unit := modify (put_waiting_for_signaling true) ;;; emit SignalRequestSignaling.
Definition SetIceCredentials (ice_ufrag ice_pwd : bytes) : M unit :=
  old_ufrag <- gets ice_ufrag_ ;; old_pwd <- gets ice_pwd_ ;;
  let ice_restart := negb (bool_decide (old_ufrag = [])) && negb (bool_decide (old_pwd = [])) &&
                     (negb (bool_decide (old_ufrag = ice_ufrag)) || negb (bool_decide (old_pwd = ice_pwd))) in
  modify (put_ice_ufrag ice_ufrag) ;;; modify (put_ice_pwd ice_pwd) ;;; when ice_restart Allocate.
Definition SetRemoteIceCredentials (ice_ufrag ice_pwd : bytes) : M unit :=
  old_ufrag <- gets remote_ice_ufrag_ ;; old_pwd <- gets remote_ice_pwd_ ;;
  let ice_restart := negb (bool_decide (old_ufrag = [])) && negb (bool_decide (old_pwd = [])) &&
                     (negb (bool_decide (old_ufrag = ice_ufrag)) || negb (bool_decide (old_pwd = ice_pwd))) in
  modify (put_remote_ice_ufrag ice_ufrag) ;;; modify (put_remote_ice_pwd ice_pwd) ;;;
  when ice_restart (modify (fun s => put_remote_candidate_generation (u32 (remote_candidate_generation_ s + 1)) s)).
Definition SetRemoteIceMode (mode : SessionDescription.IceMode) : M unit := modify (put_remote_ice_mode mode).
Definition AddAllocatorSession : M unit :=
  n <- gets allocator_sessions_ ;; modify (put_allocator_sessions (n + 1)) ;;; modify (put_ports []) ;;; emit (CreateSession n).
Definition OnSignalingReady : M unit :=
  waiting <- gets waiting_for_signaling_ ;; when waiting (modify (put_waiting_for_signaling false) ;;; AddAllocatorSession).
Definition Connect : M unit := Allocate ;;; emit (PostPing 0).
(** The allocator sessions own the ports; the connections die with them. *)
Definition Reset (connect_requested : bool) : M unit :=
  modify (put_heap ∅) ;;; modify (put_allocator_sessions 0) ;;; modify (put_ports []) ;;; modify (put_connections []) ;;;
  modify (put_best_connection None) ;;; modify (put_remote_candidates []) ;;;
  set_readable false ;;; set_writable false ;;;
  modify (put_waiting_for_signaling false) ;;; modify (put_sort_dirty false) ;;;
  when connect_requested Allocate ;;; emit (PostPing 0).

(** EINVAL, EWOULDBLOCK, or what the connection returns: [sent] is what SendTo returns. *)
Inductive send_result := SendInvalid | SendWouldBlock | Sent (n : Z).
Definition SendPacket (flags sent : Z) : M send_result :=
  if negb (flags =? 0) then ret SendInvalid
  else
    best <- gets best_connection_ ;;
    match best with
    | None => ret SendWouldBlock
    | Some c => x <- deref c ;; ret match IcePort.Send x sent with Some n => Sent n | None => SendWouldBlock end
    end.

End Channel.

Definition new_channel {HR : Helpers.RandomGenerator} (component : Z) (g : Helpers.rng) : t :=
  mk ∅ g [] [] [] None None [] false false false false false false [] [] [] [] SessionDescription.ICEPROTO_HYBRID SessionDescription.ICEMODE_FULL
    ICEROLE_UNKNOWN 0 0 component 0.

End P2PTransportChannel.
