(* ===== verification/ChannelState.v ===== *)
(** * The invariant of a channel, and what the slots of signals may change

    The ports' maps have distinct keys, the channel knows every connection of
    its ports and points to no other, and a channel that is writable remembers
    that it was.  A method called on a connection changes that connection; its
    signals may ask for a sort, and choose the nominated connection. *)

From stdpp Require Import gmap.
From S2P Require Import Prelude TimeUtils ByteOrder IpAddress Stun Helpers StunRequest SessionDescription IceConnection IcePort Outcome P2PTransportChannel.
Import ByteOrder TimeUtils IceConnection Outcome P2PTransportChannel.
Open Scope jingle_scope.

Module ChannelState.

Section State.
Context `{HM : Machine} `{HR : Helpers.RandomGenerator}.

(** ** Keys and entries of a port *)

Lemma ip_ltb_irrefl a : IpAddress.ip_ltb a a = false.
Proof.
  unfold IpAddress.ip_ltb. rewrite bool_decide_eq_true_2 by done. cbn [negb].
  destruct (IpAddress.family_ a); [done|apply Z.ltb_irrefl|apply IpAddress.lex_lt_irrefl].
Qed.
Lemma same_key_refl a : IcePort.same_key a a = true.
Proof.
  unfold IcePort.same_key, IpAddress.sa_ltb. by rewrite ip_ltb_irrefl, IpAddress.lex_lt_irrefl, Z.ltb_irrefl; destruct (IpAddress.IsAnyIP a).
Qed.

Definition entry (p : Port) (k : IpAddress.SocketAddress) (x : Connection) : Prop := In (k, x) (IcePort.connections_ p).
Definition keys_ok (p : Port) : Prop :=
  forall k x k' x', entry p k x -> entry p k' x' -> IcePort.same_key k k' = true -> (k, x) = (k', x').

Lemma find_entry p k x : keys_ok p -> entry p k x -> find (fun e => IcePort.same_key e.1 k) (IcePort.connections_ p) = Some (k, x).
Proof.
  intros Hk He. destruct (find _ _) as [[k' x']|] eqn:E.
  - apply List.find_some in E as [He' Ha']. cbn in Ha'. f_equal. by apply (Hk k' x' k x).
  - pose proof (List.find_none _ _ E (k, x) He) as Hn. cbn in Hn. by rewrite same_key_refl in Hn.
Qed.
Lemma GetConnection_entry p k x : keys_ok p -> entry p k x -> IcePort.GetConnection k p = Some x.
Proof. intros Hk He. unfold IcePort.GetConnection. by rewrite (find_entry p k x). Qed.
Lemma find_key_entry addr p k : find_key addr p = Some k -> exists x, entry p k x.
Proof.
  unfold find_key. destruct (find _ _) as [[k' x']|] eqn:E; [|done]. intros [= <-]. apply List.find_some in E as [E _]. by exists x'.
Qed.
Lemma GetConnection_key addr p x : IcePort.GetConnection addr p = Some x -> exists k, find_key addr p = Some k /\ entry p k x.
Proof.
  unfold IcePort.GetConnection, find_key. destruct (find _ _) as [[k y]|] eqn:E; [|done]. intros [= ->]. apply List.find_some in E as [E _]. by exists k.
Qed.

(** The port after a change of the connection at the key [k]. *)
Lemma put_entry p k x x' k0 y : keys_ok p -> entry p k x ->
  entry (IcePort.put_connection k x' p) k0 y <-> (k0 = k /\ y = x') \/ (k0 <> k /\ entry p k0 y).
Proof.
  intros Hk He. unfold entry, IcePort.put_connection. cbn [IcePort.put_connections IcePort.connections_]. rewrite in_map_iff. split.
  - intros ([k1 y1] & E & Hin). cbn in E. destruct (IcePort.same_key k1 k) eqn:Es; injection E as -> <-.
    + left. by injection (Hk k0 y1 k x Hin He Es).
    + right. split; [|done]. intros ->. by rewrite same_key_refl in Es.
  - intros [[-> ->]|[Hne Hin]]; [exists (k, x)|exists (k0, y)]; cbn; [by rewrite same_key_refl|].
    destruct (IcePort.same_key k0 k) eqn:Es; [|done]. by injection (Hk k0 y k x Hin He Es).
Qed.
Lemma put_keys_ok p k x x' : keys_ok p -> entry p k x -> keys_ok (IcePort.put_connection k x' p).
Proof.
  intros Hk He k1 y1 k2 y2 H1 H2 Hs. apply (put_entry p k x x') in H1, H2; [|done..].
  destruct H1 as [[-> ->]|[N1 E1]], H2 as [[-> ->]|[N2 E2]].
  - done.
  - by injection (Hk k x k2 y2 He E2 Hs).
  - by injection (Hk k1 y1 k x E1 He Hs).
  - by apply Hk.
Qed.

(** ** The invariant *)

(** What a connection owes to its port, and its requests to themselves. *)
Definition conn_ok (p : Port) (x : Connection) : Prop := is_Some (IcePort.local_candidate x p) /\ StunRequest.inv (requests_ x).

Record ok (s : t) : Prop := {
  ok_ports : forall pid n p, heap s !! pid = Some (n, p) -> keys_ok p /\ forall k x, entry p k x -> (pid, k) ∈ connections_ s /\ conn_ok p x;
  ok_candidates : forall pid n p, heap s !! pid = Some (n, p) -> IcePort.candidates_ p <> [];
  ok_live : forall c, c ∈ connections_ s -> exists n p x, heap s !! c.1 = Some (n, p) /\ entry p c.2 x;
  ok_nodup : NoDup (connections_ s);
  ok_best : forall c, best_connection_ s = Some c -> c ∈ connections_ s;
  ok_pending : forall c, pending_best_connection_ s = Some c -> c ∈ connections_ s;
  ok_was : writable_ s = true -> was_writable_ s = true;
}.

Lemma live_connection s c : ok s -> c ∈ connections_ s ->
  exists n p x, heap s !! c.1 = Some (n, p) /\ entry p c.2 x /\ connection c s = Some x /\ conn_ok p x /\ keys_ok p.
Proof.
  intros H Hc. destruct (ok_live s H c Hc) as (n & p & x & Hh & He). destruct (ok_ports s H _ _ _ Hh) as [Hk Hx].
  exists n, p, x. unfold connection. rewrite Hh. cbn.
  rewrite (GetConnection_entry p c.2 x) by done. repeat (split; [done|]). split; [by apply (Hx c.2)|done].
Qed.

(** A change of one connection, which keeps its local candidate and that its
    requests are well. *)
Definition conn_evolves (x x' : Connection) : Prop :=
  local_candidate_index_ x' = local_candidate_index_ x /\ remote_candidate_ x' = remote_candidate_ x /\ (StunRequest.inv (requests_ x) -> StunRequest.inv (requests_ x')).

Lemma heap_put_conn s c n p x' : heap s !! c.1 = Some (n, p) ->
  put_conn c x' s = put_heap (<[c.1 := (n, IcePort.put_connection c.2 x' p)]> (heap s)) s.
Proof. intros Hh. unfold put_conn, put_port. by rewrite Hh. Qed.

Lemma connection_put s c n p x x' d : ok s -> heap s !! c.1 = Some (n, p) -> entry p c.2 x -> d ∈ connections_ s ->
  connection d (put_conn c x' s) = if decide (d = c) then Some x' else connection d s.
Proof.
  intros H Hh He Hd. rewrite (heap_put_conn s c n p) by done. destruct (ok_ports s H _ _ _ Hh) as [Hk _].
  destruct (live_connection s d H Hd) as (n1 & p1 & x1 & Hh1 & He1 & Hc1 & _ & Hk1). unfold connection. cbn [put_heap heap].
  destruct (decide (d.1 = c.1)) as [E|E].
  - rewrite E, lookup_insert_eq, Hh. rewrite E, Hh in Hh1. injection Hh1 as <- <-.
    destruct (decide (d = c)) as [->|Hne]; [apply GetConnection_entry; [by eapply put_keys_ok|]; apply (put_entry p c.2 x); auto|].
    rewrite (GetConnection_entry p d.2 x1) by done. apply GetConnection_entry; [by eapply put_keys_ok|]. apply (put_entry p c.2 x); [done..|].
    right. split; [|done]. intros E2. apply Hne. destruct c, d; cbn in *; congruence.
  - rewrite lookup_insert_ne by done. destruct (decide (d = c)) as [->|_]; [by destruct E|done].
Qed.

Lemma ok_put s c n p x x' : ok s -> heap s !! c.1 = Some (n, p) -> entry p c.2 x -> conn_evolves x x' -> ok (put_conn c x' s).
Proof.
  intros H Hh He (Hi & _ & Hr). rewrite (heap_put_conn s c n p) by done. destruct (ok_ports s H _ _ _ Hh) as [Hk Hx].
  split; [|..]; cbn [put_heap heap connections_ best_connection_ pending_best_connection_ writable_ was_writable_]; try apply H.
  - intros pid n1 p1. destruct (decide (pid = c.1)) as [->|Hne]; [|rewrite lookup_insert_ne by done; apply H].
    rewrite lookup_insert_eq. intros [= <- <-]. split; [by eapply put_keys_ok|]. intros k y [[-> ->]|[_ Hy]]%(put_entry p c.2 x); [| |done..].
    + destruct (Hx c.2 x He) as [Hc [Hl Hq]]. split; [done|]. split; [|by apply Hr]. unfold IcePort.local_candidate in *. by rewrite Hi.
    + by apply Hx.
  - intros pid n1 p1. destruct (decide (pid = c.1)) as [->|Hne]; [|rewrite lookup_insert_ne by done; apply (ok_candidates s H)].
    rewrite lookup_insert_eq. intros [= <- <-]. by apply (ok_candidates s H c.1 n p).
  - intros d Hd. destruct (ok_live s H d Hd) as (n1 & p1 & x1 & Hh1 & He1). destruct (decide (d.1 = c.1)) as [E|E].
    + rewrite E, lookup_insert_eq. rewrite E, Hh in Hh1. injection Hh1 as <- <-.
      destruct (decide (d.2 = c.2)) as [E2|E2]; [exists n, (IcePort.put_connection c.2 x' p), x'|exists n, (IcePort.put_connection c.2 x' p), x1];
        (split; [done|]; apply (put_entry p c.2 x); auto).
    + rewrite lookup_insert_ne by done. by exists n1, p1, x1.
Qed.

(** ** What slots may change *)

(** The sort flag, the choice and what was done; the heap as given. *)
Definition slot_effect (s s' : t) : Prop :=
  exists tr d, s' = put_trace tr (put_sort_dirty d (put_pending_best_connection (pending_best_connection_ s')
                      (put_best_connection (best_connection_ s') (put_heap (heap s') s)))).

(** The choice stays, or it is the connection that the controlling side has nominated. *)
Definition nominated (s s' : t) : Prop :=
  (best_connection_ s' = best_connection_ s /\ pending_best_connection_ s' = pending_best_connection_ s) \/
  (protocol_type_ s = SessionDescription.ICEPROTO_RFC5245 /\ ice_role_ s = ICEROLE_CONTROLLED /\
   is_Some (pending_best_connection_ s) /\ best_connection_ s' = pending_best_connection_ s /\ pending_best_connection_ s' = None).

Record evolves (s s' : t) : Prop := { ev_effect : slot_effect s s'; ev_nominated : nominated s s' }.

Lemma slot_effect_refl s : slot_effect s s.
Proof. exists (trace_ s), (sort_dirty_ s). by destruct s. Qed.
Lemma slot_effect_trans s1 s2 s3 : slot_effect s1 s2 -> slot_effect s2 s3 -> slot_effect s1 s3.
Proof.
  intros (tr1 & d1 & E1) (tr2 & d2 & E2). exists tr2, d2. rewrite E2. rewrite E1. done.
Qed.
Lemma slot_effect_fields s s' : slot_effect s s' ->
  connections_ s' = connections_ s /\ protocol_type_ s' = protocol_type_ s /\ ice_role_ s' = ice_role_ s /\ writable_ s' = writable_ s /\
  was_writable_ s' = was_writable_ s /\ readable_ s' = readable_ s /\ ports_ s' = ports_ s /\ remote_ice_mode_ s' = remote_ice_mode_ s.
Proof. intros (tr & d & ->). done. Qed.

Lemma evolves_refl s : evolves s s.
Proof. split; [apply slot_effect_refl|by left]. Qed.
Lemma evolves_trans s1 s2 s3 : evolves s1 s2 -> evolves s2 s3 -> evolves s1 s3.
Proof.
  intros [E1 N1] [E2 N2]. split; [by eapply slot_effect_trans|]. destruct (slot_effect_fields _ _ E1) as (_ & Ep & Er & _).
  destruct N1 as [[B1 P1]|(? & ? & ? & B1 & P1)], N2 as [[B2 P2]|(? & ? & Hp & B2 & P2)].
  - left. split; congruence.
  - right. rewrite <- Ep, <- Er, <- P1. done.
  - right. repeat (split; [done|]). split; congruence.
  - rewrite P1 in Hp. by destruct Hp.
Qed.

Lemma evolves_ok s s' : evolves s s' -> heap s' = heap s -> ok s -> ok s'.
Proof.
  intros [E N] Hh H. destruct (slot_effect_fields _ _ E) as (Ec & _ & _ & Ew & Ewas & _). split; rewrite ?Hh, ?Ec, ?Ew, ?Ewas; try apply H.
  - intros c Hc. destruct N as [[B _]|(_ & _ & _ & B & _)]; rewrite B in Hc; [by apply (ok_best s H)|by apply (ok_pending s H)].
  - intros c Hc. destruct N as [[_ P]|(_ & _ & _ & _ & P)]; rewrite P in Hc; [by apply (ok_pending s H)|done].
Qed.

Lemma RequestSort_returns s : returns RequestSort s (fun _ s' => evolves s s' /\ heap s' = heap s).
Proof.
  unfold RequestSort, returns, bind, gets, when, emit, modify, ret. destruct (sort_dirty_ s); cbn [negb]; [split; [apply evolves_refl|done]|].
  split; [|done]. split; [|by left]. by do 2 eexists.
Qed.

(** A connection that is not writable is not chosen. *)
Definition kept_choice (s s' : t) : Prop := best_connection_ s' = best_connection_ s /\ pending_best_connection_ s' = pending_best_connection_ s.
Definition kept_unless_writable (x : Connection) (evs : list conn_event) (s s' : t) : Prop := evs = [] \/ writable x = false -> kept_choice s s'.

Lemma RequestSort_keeps s : returns RequestSort s (fun _ s' => kept_choice s s').
Proof. unfold RequestSort, returns, bind, gets, when, emit, modify, ret. by destruct (sort_dirty_ s). Qed.

Lemma OnConnectionStateChange_keeps c s x : connection c s = Some x -> writable x = false ->
  returns (OnConnectionStateChange c) s (fun _ s' => kept_choice s s').
Proof.
  intros Hx Hw. unfold OnConnectionStateChange. apply returns_bind. cbn [returns gets]. apply returns_bind. cbn [returns gets].
  apply returns_bind. destruct (_ && _); cbn [when]; [|apply RequestSort_keeps]. unfold returns, bind at 1, gets at 1.
  destruct (bool_decide _); cbn [ret bind when]; [|apply RequestSort_keeps].
  unfold is_writable, bind, deref. rewrite Hx. cbn [ret]. rewrite Hw. apply RequestSort_keeps.
Qed.

Lemma OnConnectionStateChange_returns c s : ok s -> c ∈ connections_ s ->
  returns (OnConnectionStateChange c) s (fun _ s' => evolves s s' /\ heap s' = heap s).
Proof.
  intros H Hc. destruct (live_connection s c H Hc) as (n & p & x & Hh & He & Hx & _). unfold OnConnectionStateChange.
  apply returns_bind. cbn [returns gets]. apply returns_bind. cbn [returns gets].
  assert (Hreq : forall s1, evolves s s1 -> heap s1 = heap s -> returns RequestSort s1 (fun _ s' => evolves s s' /\ heap s' = heap s)).
  { intros s1 He1 Hh1. eapply returns_weaken; [apply RequestSort_returns|]. intros _ s2 [He2 Hh2]. split; [by eapply evolves_trans|congruence]. }
  apply returns_bind. destruct (bool_decide _ && bool_decide _) eqn:E; cbn [when]; [|by apply Hreq; [apply evolves_refl|]].
  apply andb_true_iff in E as [Ep%bool_decide_eq_true Er%bool_decide_eq_true]. unfold returns, bind at 1, gets at 1.
  destruct (bool_decide (pending_best_connection_ s = Some c)) eqn:E; cbn [ret bind when]; [|by apply Hreq; [apply evolves_refl|]].
  apply bool_decide_eq_true in E. unfold is_writable, bind, deref. rewrite Hx. cbn [ret]. destruct (writable x); cbn [when ret]; [|by apply Hreq; [apply evolves_refl|]].
  unfold SwitchBestConnectionTo, modify, bind, deref, emit, connection. cbn [put_best_connection put_pending_best_connection heap]. fold (connection c s). rewrite Hx. cbn [modify].
  apply Hreq; [|done]. split; [by do 2 eexists|]. right. rewrite E. done.
Qed.

(** The signals of a change of state. *)
Definition state_event (e : conn_event) : Prop := e = SignalStateChange \/ e = PostDelete.

Lemma conn_signals_return c evs s : ok s -> c ∈ connections_ s -> Forall state_event evs ->
  returns (for_each (conn_signal c) evs) s (fun _ s' => evolves s s' /\ heap s' = heap s).
Proof.
  intros H Hc Hevs. unfold for_each. apply (foldM_returns (fun _ e => conn_signal c e) (fun _ _ s' => evolves s s' /\ heap s' = heap s)); [|by split; [apply evolves_refl|]].
  intros done_ e rest [] s1 -> [He Hh]. apply Forall_app in Hevs as [_ [[->| ->] _]%Forall_cons]; cbn [conn_signal].
  - eapply returns_weaken; [apply OnConnectionStateChange_returns; [by eapply evolves_ok|]|].
    + by destruct (slot_effect_fields _ _ (ev_effect _ _ He)) as (-> & _).
    + intros _ s2 [He2 Hh2]. split; [by eapply evolves_trans|congruence].
  - unfold returns, emit, modify. split; [|done]. eapply evolves_trans; [done|]. split; [by do 2 eexists|by left].
Qed.

Lemma conn_signals_keep c evs s x : connection c s = Some x -> evs = [] \/ writable x = false -> ok s -> c ∈ connections_ s -> Forall state_event evs ->
  returns (for_each (conn_signal c) evs) s (fun _ s' => kept_choice s s').
Proof.
  intros Hx [->|Hw] H Hc Hevs; [done|]. eapply returns_weaken with (Q := fun _ s' => (evolves s s' /\ heap s' = heap s) /\ kept_choice s s'); [|by intros ? ? [_ ?]].
  apply (foldM_returns (fun _ e => conn_signal c e) (fun _ _ s' => (evolves s s' /\ heap s' = heap s) /\ kept_choice s s')); [|by split; [split; [apply evolves_refl|]|]].
  intros done_ e rest [] s1 -> [[He Hh] [Hb Hp]]. assert (Hx1 : connection c s1 = Some x) by (unfold connection; rewrite Hh; exact Hx).
  assert (Hc1 : c ∈ connections_ s1) by (by destruct (slot_effect_fields _ _ (ev_effect _ _ He)) as (-> & _)).
  apply Forall_app in Hevs as [_ [[->| ->] _]%Forall_cons]; cbn [conn_signal].
  - pose proof (OnConnectionStateChange_returns c s1 ltac:(by eapply evolves_ok) Hc1) as H1.
    pose proof (OnConnectionStateChange_keeps c s1 x Hx1 Hw) as H2. unfold returns in *. destruct (OnConnectionStateChange c s1) as [u s2| |]; [|done..].
    destruct H1 as [He2 Hh2], H2 as [Hb2 Hp2]. split; [split; [by eapply evolves_trans|congruence]|]. split; congruence.
  - unfold returns, emit, modify. split; [|done]. split; [|done]. eapply evolves_trans; [done|]. split; [by do 2 eexists|by left].
Qed.

Lemma call_returns c f s n p x x' evs : ok s -> c ∈ connections_ s -> heap s !! c.1 = Some (n, p) -> entry p c.2 x ->
  f p x = Some (x', evs) -> conn_evolves x x' -> Forall state_event evs ->
  returns (call c f) s (fun _ s' => evolves s s' /\ ok s' /\ heap s' = heap (put_conn c x' s) /\ kept_unless_writable x' evs s s').
Proof.
  intros H Hc Hh He Hf Hx Hevs. pose proof (ok_put s c n p x x' H Hh He Hx) as H1. destruct (ok_ports s H _ _ _ Hh) as [Hk _].
  unfold call, returns, bind, network_port. rewrite Hh. unfold deref, connection. rewrite Hh. rewrite (GetConnection_entry p c.2 x) by done.
  cbn [snd]. rewrite Hf. cbn [defined ret modify fst snd].
  assert (E1 : evolves s (put_conn c x' s)).
  { rewrite (heap_put_conn s c n p) by done. split; [|by left]. exists (trace_ s), (sort_dirty_ s). by destruct s. }
  assert (Hc1 : c ∈ connections_ (put_conn c x' s)) by (by destruct (slot_effect_fields _ _ (ev_effect _ _ E1)) as (-> & _)).
  pose proof (conn_signals_return c evs _ H1 Hc1 Hevs) as H2. assert (Hx1 : connection c (put_conn c x' s) = Some x').
  { rewrite (connection_put s c n p x x') by done. by rewrite decide_True. }
  pose proof (fun Hw => conn_signals_keep c evs _ x' Hx1 Hw H1 Hc1 Hevs) as H3. unfold returns in *.
  destruct (for_each (conn_signal c) evs (put_conn c x' s)) as [u s2| |]; [|done..]. destruct H2 as [He2 Hh2].
  split; [by eapply evolves_trans|]. split; [by apply (evolves_ok (put_conn c x' s))|]. split; [done|].
  intros Hw. destruct (H3 Hw) as [Hb Hp]. rewrite (heap_put_conn s c n p) in Hb, Hp by done. done.
Qed.

(** ** Frames *)

(** The ports are the same but for their connections. *)
Definition same_ports (h h' : gmap Z (Z * Port)) : Prop :=
  forall pid n p, h !! pid = Some (n, p) -> exists l, h' !! pid = Some (n, IcePort.put_connections l p).
Definition conns_rel (R : Connection -> Connection -> Prop) (s s' : t) : Prop :=
  forall d x, d ∈ connections_ s -> connection d s = Some x -> exists x', connection d s' = Some x' /\ R x x'.
Record moved (s s' : t) : Prop := {
  mv_evolves : evolves s s'; mv_ports : same_ports (heap s) (heap s'); mv_conns : conns_rel conn_evolves s s' }.

#[export] Instance conn_evolves_preorder : PreOrder conn_evolves.
Proof. split; [by intros x|]. intros x y z (? & ? & ?) (? & ? & ?). split; [congruence|split; [congruence|auto]]. Qed.

Lemma moved_connections s s' : moved s s' -> connections_ s' = connections_ s.
Proof. intros H. by destruct (slot_effect_fields _ _ (ev_effect _ _ (mv_evolves _ _ H))) as (? & _). Qed.
Lemma conns_rel_refl (R : relation Connection) `{!Reflexive R} s : conns_rel R s s.
Proof. intros d x _ Hx. by exists x. Qed.
Lemma conns_rel_trans (R : relation Connection) `{!Transitive R} s1 s2 s3 : connections_ s2 = connections_ s1 ->
  conns_rel R s1 s2 -> conns_rel R s2 s3 -> conns_rel R s1 s3.
Proof.
  intros E H1 H2 d x Hd Hx. destruct (H1 d x Hd Hx) as (y & Hy & Rxy). destruct (H2 d y ltac:(by rewrite E) Hy) as (z & Hz & Ryz).
  exists z. split; [done|by transitivity y].
Qed.
Lemma same_ports_refl h : same_ports h h.
Proof. intros pid n p E. exists (IcePort.connections_ p). rewrite E. by destruct p. Qed.
Lemma same_ports_trans h1 h2 h3 : same_ports h1 h2 -> same_ports h2 h3 -> same_ports h1 h3.
Proof. intros H1 H2 pid n p E. destruct (H1 _ _ _ E) as (l & E1). destruct (H2 _ _ _ E1) as (l' & E2). by exists l'. Qed.
Lemma channel_moved_refl s : moved s s.
Proof. split; [apply evolves_refl|apply same_ports_refl|apply conns_rel_refl, _]. Qed.
Lemma channel_moved_trans s1 s2 s3 : moved s1 s2 -> moved s2 s3 -> moved s1 s3.
Proof.
  intros H1 H2. split; [by eapply evolves_trans; apply mv_evolves|by eapply same_ports_trans; apply mv_ports|].
  eapply conns_rel_trans; [apply _|by apply moved_connections|by apply mv_conns..].
Qed.

(** A call moves the state; the other connections are as they were. *)
Lemma call_moves c f s n p x x' evs : ok s -> c ∈ connections_ s -> heap s !! c.1 = Some (n, p) -> entry p c.2 x ->
  f p x = Some (x', evs) -> conn_evolves x x' -> Forall state_event evs ->
  returns (call c f) s (fun _ s' => moved s s' /\ ok s' /\ kept_unless_writable x' evs s s' /\
    forall d, d ∈ connections_ s -> connection d s' = if decide (d = c) then Some x' else connection d s).
Proof.
  intros H Hc Hh He Hf Hx Hevs. eapply returns_weaken; [by apply (call_returns c f s n p x x' evs)|].
  intros _ s' (He' & Hok & Hheap & Hkeep). assert (Hconn : forall d, d ∈ connections_ s -> connection d s' = if decide (d = c) then Some x' else connection d s).
  { intros d Hd. rewrite <- (connection_put s c n p x x' d) by done. unfold connection. by rewrite Hheap. }
  split; [|done]. split; [done| |].
  - rewrite Hheap, (heap_put_conn s c n p) by done. cbn [put_heap heap]. intros pid n1 p1 E. destruct (decide (pid = c.1)) as [->|Hne].
    + rewrite lookup_insert_eq. rewrite Hh in E. injection E as <- <-. by eexists.
    + rewrite lookup_insert_ne by done. by apply same_ports_refl.
  - intros d y Hd Hy. rewrite Hconn by done. destruct (decide (d = c)) as [->|]; [|by exists y]. exists x'. split; [done|].
    unfold connection in Hy. rewrite Hh, (GetConnection_entry p c.2 x) in Hy by (done || by apply (ok_ports s H c.1 n p)). by injection Hy as <-.
Qed.

Lemma for_each_calls (R : relation Connection) `{!PreOrder R} f l s : ok s -> (forall c, c ∈ l -> c ∈ connections_ s) ->
  (forall p x, conn_ok p x -> exists x' evs, f p x = Some (x', evs) /\ conn_evolves x x' /\ R x x' /\ Forall state_event evs) ->
  returns (for_each (fun c => call c f) l) s (fun _ s' => moved s s' /\ ok s' /\ conns_rel R s s').
Proof.
  intros H Hl Hf. unfold for_each. apply (foldM_returns (fun _ c => call c f) (fun _ _ s' => moved s s' /\ ok s' /\ conns_rel R s s'));
    [|by split; [apply channel_moved_refl|split; [done|apply conns_rel_refl, _]]].
  intros done_ c rest [] s1 -> (Hm & H1 & HR1). pose proof (moved_connections _ _ Hm) as Ec.
  assert (Hc : c ∈ connections_ s1) by (rewrite Ec; apply Hl; set_solver). destruct (live_connection s1 c H1 Hc) as (n & p & x & Hh & He & Hx & Hok & Hk).
  destruct (Hf p x Hok) as (x' & evs & Ef & Hev & HRx & Hevs). eapply returns_weaken; [by apply (call_moves c f s1 n p x x' evs)|].
  intros _ s2 (Hm2 & H2 & _ & Hconn). split; [by eapply channel_moved_trans|]. split; [done|]. eapply conns_rel_trans; [apply _|done|done|].
  intros d y Hd Hy. rewrite Hconn by done. destruct (decide (d = c)) as [->|]; [|by exists y]. exists x'. split; [done|]. by rewrite Hx in Hy; injection Hy as <-.
Qed.

(** ** Views *)

Definition static_view (v v' : view) : Prop :=
  v_id v' = v_id v /\ v_network v' = v_network v /\ v_priority v' = v_priority v /\ v_generation v' = v_generation v.

Lemma priority_Some x p : conn_ok p x -> is_Some (IcePort.priority x p).
Proof. intros [[l Hl] _]. unfold IcePort.priority. rewrite Hl. destruct (IcePort.ice_role_ p); by eexists. Qed.
Lemma view_of_ok s c x : ok s -> c ∈ connections_ s -> connection c s = Some x ->
  exists v, view_of c s = Some v /\ v_id v = c /\ v_write v = write_state_ x /\ v_rtt v = rtt_ x.
Proof.
  intros H Hc Hx. destruct (live_connection s c H Hc) as (n & p & y & Hh & He & Hy & Hok & Hk). rewrite Hx in Hy. injection Hy as <-.
  destruct (priority_Some x p Hok) as [pr Hpr]. unfold view_of. rewrite Hh. cbn. rewrite (GetConnection_entry p c.2 x), Hpr by done. by eexists.
Qed.
Lemma view_of_connection s c v : view_of c s = Some v -> exists x, connection c s = Some x /\ v_id v = c /\ v_write v = write_state_ x /\ v_rtt v = rtt_ x.
Proof.
  unfold view_of, connection. destruct (heap s !! c.1) as [[n p]|]; [|done]. cbn. destruct (IcePort.GetConnection c.2 p) as [x|]; [|done].
  destruct (IcePort.priority x p); [|done]. intros [= <-]. by exists x.
Qed.
Lemma view_moved s s' c v : ok s -> ok s' -> moved s s' -> c ∈ connections_ s -> view_of c s = Some v -> exists v', view_of c s' = Some v' /\ static_view v v'.
Proof.
  intros H H' Hm Hc Hv. destruct (view_of_connection s c v Hv) as (x & Hx & _). destruct (mv_conns _ _ Hm c x Hc Hx) as (x' & Hx' & Hi & Hr & _).
  destruct (view_of_ok s' c x' H' ltac:(by rewrite (moved_connections _ _ Hm)) Hx') as (v' & Hv' & _). exists v'. split; [done|].
  unfold view_of in Hv, Hv'. unfold connection in Hx, Hx'. destruct (heap s !! c.1) as [[n p]|] eqn:Hh; [|done]. destruct (mv_ports _ _ Hm _ _ _ Hh) as (l & Hh').
  rewrite Hh' in Hx', Hv'. cbn in Hv, Hv'. rewrite Hx in Hv. rewrite Hx' in Hv'.
  assert (Ep : IcePort.priority x' (IcePort.put_connections l p) = IcePort.priority x p).
  { unfold IcePort.priority, IcePort.local_candidate, IceConnection.priority. cbn [IcePort.put_connections IcePort.ice_role_ IcePort.candidates_]. by rewrite Hi, Hr. }
  rewrite Ep in Hv'. destruct (IcePort.priority x p); [|done]. injection Hv as <-. injection Hv' as <-. cbn. by rewrite Hr.
Qed.

End State.
End ChannelState.
