(* ===== verification/ChannelSort.v ===== *)
(** * The choice of the best connection

    SortConnections of p2p/base/p2ptransportchannel.cc: the comparison is an
    order when the generations are small, the first connection after the sort
    is at least as good as each of them, the best connection is then as good
    as any, and a connection is pruned only for a writable one on its network
    of at least its priority. *)

From Stdlib Require Import Sorted.
From stdpp Require Import gmap.
From S2P Require Import Prelude TimeUtils ByteOrder IpAddress Stun Helpers StunRequest SessionDescription IceConnection IcePort Outcome P2PTransportChannel ChannelState.
Import ByteOrder TimeUtils IceConnection Outcome P2PTransportChannel ChannelState.
Open Scope jingle_scope.

Module ChannelSort.

#[local] Existing Instances SessionDescription.TransportProtocol_eq_dec.

(** ** The comparison *)

Definition small (v : view) : Prop := 0 <= v_generation v < 2 ^ 31.
(** At least as good: better or equal write state, then priority, then generation. *)
Definition at_least (a b : view) : Prop :=
  write_value (v_write a) < write_value (v_write b) \/
  (write_value (v_write a) = write_value (v_write b) /\
   (v_priority b < v_priority a \/ (v_priority a = v_priority b /\ v_generation b <= v_generation a))).

Lemma generations_differ a b : small a -> small b -> s32 (v_generation a - v_generation b) = v_generation a - v_generation b.
Proof. unfold small, s32. intros Ha Hb. rewrite Z.mod_small; lia. Qed.
Lemma CompareConnections_spec a b : small a -> small b ->
  (0 <= CompareConnections a b <-> at_least a b) /\ (0 < CompareConnections a b <-> ~ at_least b a).
Proof.
  intros Ha Hb. unfold CompareConnections, CompareConnectionCandidates, at_least. rewrite generations_differ by done.
  repeat match goal with |- context [?x <? ?y] => destruct (Z.ltb_spec x y) end; lia.
Qed.
Lemma at_least_refl a : at_least a a.
Proof. right. split; [done|]. right. split; [done|lia]. Qed.
Lemma at_least_trans a b c : at_least a b -> at_least b c -> at_least a c.
Proof. unfold at_least. lia. Qed.
Lemma at_least_total a b : at_least a b \/ at_least b a.
Proof. unfold at_least. lia. Qed.
Lemma at_least_dec a b : {at_least a b} + {~ at_least a b}.
Proof.
  destruct (decide (write_value (v_write a) < write_value (v_write b))); [left; by left|].
  destruct (decide (write_value (v_write a) = write_value (v_write b) /\
     (v_priority b < v_priority a \/ (v_priority a = v_priority b /\ v_generation b <= v_generation a)))); [left; by right|].
  right. unfold at_least. tauto.
Qed.
Lemma ConnectionCompare_false a b : small a -> small b -> ConnectionCompare b a = false -> at_least a b.
Proof.
  intros Ha Hb. unfold ConnectionCompare. destruct (CompareConnections_spec b a Hb Ha) as [_ Hba].
  destruct (Z.ltb_spec 0 (CompareConnections b a)); [done|]. intros _. destruct (at_least_dec a b) as [|Hn]; [done|]. apply Hba in Hn. lia.
Qed.
Lemma ConnectionCompare_asym a b : small a -> small b -> ConnectionCompare a b = true -> ConnectionCompare b a = false.
Proof.
  intros Ha Hb. unfold ConnectionCompare. destruct (CompareConnections_spec a b Ha Hb) as [Hab Hab'], (CompareConnections_spec b a Hb Ha) as [Hba Hba'].
  pose proof (at_least_total a b) as Ht.
  destruct (Z.ltb_spec 0 (CompareConnections a b)), (Z.ltb_spec 0 (CompareConnections b a)), (Z.ltb_spec (CompareConnections a b) 0),
    (Z.ltb_spec (CompareConnections b a) 0); try done; try tauto; try lia.
  all: intros; exfalso; assert (at_least b a) by (apply Hba; lia); assert (at_least a b) by (apply Hab; lia); tauto.
Qed.

(** With generations that differ by a third of the range the comparison is no
    order: each of three connections is better than the next. *)
Definition of_generation (g : Z) : view := mkview (g, IpAddress.sa_clear) 0 STATE_WRITABLE 0 g 0.
Lemma compare_cycle : ConnectionCompare (of_generation 0x55555555) (of_generation 0) && ConnectionCompare (of_generation 0xAAAAAAAA) (of_generation 0x55555555) &&
  ConnectionCompare (of_generation 0) (of_generation 0xAAAAAAAA) = true.
Proof. reflexivity. Qed.

(** Between equals any connection that is not slower takes over. *)
Lemma min_improvement_ignored a b : v_id a <> v_id b -> CompareConnections a b = 0 -> v_rtt b <= v_rtt a -> ShouldSwitch (Some a) (Some b) = true.
Proof.
  intros Hid Hc Hr. unfold ShouldSwitch. rewrite bool_decide_eq_false_2 by (by intros [= ?]). rewrite Hc. unfold kMinImprovement. cbn. apply Z.leb_le. lia.
Qed.

(** ** The stable sort *)

Section Sort.
Context {A : Type} (less : A -> A -> bool) (P : A -> Prop) (le : A -> A -> Prop).
Hypothesis le_of : forall a b, P a -> P b -> less b a = false -> le a b.
Hypothesis less_asym : forall a b, P a -> P b -> less a b = true -> less b a = false.
Hypothesis le_trans : forall a b c, le a b -> le b c -> le a c.

Lemma insert_perm a l : insert_sorted less a l ≡ₚ a :: l.
Proof. induction l as [|b l IH]; [done|]. cbn [insert_sorted]. destruct (less b a); [|done]. rewrite IH. by apply perm_swap. Qed.
Lemma stable_sort_perm l : stable_sort less l ≡ₚ l.
Proof. induction l as [|a l IH]; [done|]. cbn [stable_sort fold_right]. rewrite insert_perm. by constructor. Qed.
Lemma insert_sorted_ok a l : P a -> Forall P l -> StronglySorted le l -> StronglySorted le (insert_sorted less a l).
Proof.
  intros Ha. induction l as [|b l IH]; intros HP Hs; [repeat constructor|]. cbn [insert_sorted].
  apply Forall_cons in HP as [Hb HP]. inversion Hs as [|? ? Hs' Hle]; subst. destruct (less b a) eqn:E.
  - constructor; [by apply IH|]. rewrite insert_perm. constructor; [|done]. apply le_of; [done..|]. by apply less_asym.
  - assert (Hab : le a b) by (by apply le_of). constructor; [by constructor|]. constructor; [done|].
    eapply List.Forall_impl; [|exact Hle]. intros c. by apply le_trans.
Qed.
Lemma stable_sort_sorted l : Forall P l -> StronglySorted le (stable_sort less l).
Proof.
  induction l as [|a l IH]; intros HP; [constructor|]. apply Forall_cons in HP as [Ha HP]. cbn [stable_sort fold_right].
  fold (stable_sort less l). apply insert_sorted_ok; [done| |by apply IH]. by rewrite stable_sort_perm.
Qed.
End Sort.

Lemma sort_head views : Forall small views ->
  match head (stable_sort ConnectionCompare views) with Some top => top ∈ views /\ forall v, v ∈ views -> top = v \/ at_least top v | None => views = [] end.
Proof.
  intros Hs. pose proof (stable_sort_perm ConnectionCompare views) as Hp.
  pose proof (stable_sort_sorted ConnectionCompare small at_least (fun a b Ha Hb => ConnectionCompare_false a b Ha Hb) ConnectionCompare_asym at_least_trans views Hs) as Hst.
  destruct (stable_sort ConnectionCompare views) as [|top rest]; cbn [head]; [by apply Permutation_nil in Hp|].
  inversion Hst as [|? ? _ Hle]; subst. split; [rewrite <- Hp; left|]. intros v Hv. rewrite <- Hp in Hv. apply elem_of_cons in Hv as [->|Hv]; [by left|].
  right. rewrite Forall_forall in Hle. by apply Hle.
Qed.

Lemma ShouldSwitch_false a b : small a -> small b -> ShouldSwitch (Some a) (Some b) = false -> v_id a = v_id b \/ at_least a b.
Proof.
  intros Ha Hb. unfold ShouldSwitch. destruct (bool_decide _) eqn:E; [left; apply bool_decide_eq_true in E; by injection E|].
  destruct (CompareConnections_spec a b Ha Hb) as [Hab _]. destruct (Z.ltb_spec (CompareConnections a b) 0); [done|]. right. by apply Hab.
Qed.

Section Phases.
Context `{HM : Machine} `{HR : Helpers.RandomGenerator}.

(** ** The states are brought up to date *)

(** What UpdateState does not touch. *)
Definition updated (x x' : Connection) : Prop :=
  pruned_ x' = pruned_ x /\ last_ping_sent_ x' = last_ping_sent_ x /\ connected_ x' = connected_ x /\ requests_ x' = requests_ x.
#[export] Instance updated_preorder : PreOrder updated.
Proof. split; [by intros x|]. intros x y z (? & ? & ? & ?) (? & ? & ? & ?). unfold updated. intuition congruence. Qed.
(** The time of the last ping stays. *)
Definition pings_kept (x x' : Connection) : Prop := last_ping_sent_ x' = last_ping_sent_ x.
#[export] Instance pings_kept_preorder : PreOrder pings_kept.
Proof. split; [by intros x|]. intros x y z ? ?. unfold pings_kept. congruence. Qed.

(** A change that only signals changes of state. *)
Definition quiet_change (x : Connection) (r : Connection * list conn_event) : Prop :=
  conn_evolves x r.1 /\ updated x r.1 /\ Forall state_event r.2.
Lemma quiet_read (b : bool) v x : quiet_change x (if b then set_read_state v x else (x, [])).
Proof.
  destruct b; split; [done| |reflexivity|]; (split; [done|]); [|constructor].
  apply List.Forall_forall. intros e He. by apply (proj1 (state_events x e) v).
Qed.
Lemma quiet_write (b : bool) v x : quiet_change x (if b then set_write_state v x else (x, [])).
Proof.
  destruct b; split; [done| |reflexivity|]; (split; [done|]); [|constructor].
  apply List.Forall_forall. intros e He. by apply (proj2 (state_events x e) v).
Qed.

Lemma UpdateState_ok google now x : quiet_change x (UpdateState google now x).
Proof.
  unfold UpdateState.
  match goal with |- context [if ?b then set_read_state ?v x else _] => destruct (quiet_read b v x) as (A1 & B1 & C1);
    destruct (if b then set_read_state v x else (x, [])) as [x1 e1] end. cbn [fst snd] in *.
  match goal with |- context [if ?b then set_write_state ?v x1 else _] => destruct (quiet_write b v x1) as (A2 & B2 & C2);
    destruct (if b then set_write_state v x1 else (x1, [])) as [x2 e2] end. cbn [fst snd] in *.
  match goal with |- context [if ?b then set_write_state ?v x2 else _] => destruct (quiet_write b v x2) as (A3 & B3 & C3);
    destruct (if b then set_write_state v x2 else (x2, [])) as [x3 e3] end. cbn [fst snd] in *.
  split; [by transitivity x1; [|transitivity x2]|split; [by transitivity x1; [|transitivity x2]|]]. by apply Forall_app_2; [|apply Forall_app_2].
Qed.

Lemma UpdateConnectionStates_returns now s : ok s ->
  returns (UpdateConnectionStates now) s (fun _ s' => moved s s' /\ ok s' /\ conns_rel updated s s').
Proof.
  intros H. unfold UpdateConnectionStates. apply returns_bind. cbn [returns gets]. apply for_each_calls; [apply _|done|done|].
  intros p x _. destruct (UpdateState_ok (IcePort.IsGoogleIce p) now x) as (H1 & H2 & H3). do 2 eexists. split; [by rewrite <- surjective_pairing|done].
Qed.

(** ** The views are read *)

Lemma look_views l s : ok s -> (forall c, c ∈ l -> c ∈ connections_ s) ->
  exists vs, mapM look l s = Ok vs s /\ Forall2 (fun c v => view_of c s = Some v /\ v_id v = c) l vs.
Proof.
  intros H Hl. unfold mapM.
  enough (Hret : returns (foldM (fun acc a => b <- look a ;; ret (acc ++ [b])) l []) s
            (fun vs s' => s' = s /\ Forall2 (fun c v => view_of c s = Some v /\ v_id v = c) l vs)).
  { apply returns_Ok in Hret as (vs & s' & E & -> & HF). by exists vs. }
  apply (foldM_returns _ (fun done_ vs s' => s' = s /\ Forall2 (fun c v => view_of c s = Some v /\ v_id v = c) done_ vs)); [|by split].
  intros done_ c rest vs s' -> [-> HF]. assert (Hc : c ∈ connections_ s) by (apply Hl; set_solver).
  destruct (live_connection s c H Hc) as (_ & _ & x & _ & _ & Hx & _). destruct (view_of_ok s c x H Hc Hx) as (v & Hv & Hid & _).
  unfold returns, bind, look. rewrite Hv. cbn [ret]. split; [done|]. apply Forall2_app; [done|]. by repeat constructor.
Qed.

(** ** The choice *)

Definition selects (s : t) : Prop := protocol_type_ s <> SessionDescription.ICEPROTO_RFC5245 \/ ice_role_ s = ICEROLE_CONTROLLING.
(** The best connection is at least as good as any. *)
Definition chosen (s : t) : Prop :=
  forall c v, c ∈ connections_ s -> view_of c s = Some v ->
  exists b vb, best_connection_ s = Some b /\ view_of b s = Some vb /\ at_least vb v.
Definition with_best (s s' : t) : Prop := exists tr b, s' = put_trace tr (put_best_connection b s).

Lemma SwitchBestConnectionTo_returns c s x : connection c s = Some x ->
  returns (SwitchBestConnectionTo (Some c)) s (fun _ s' => with_best s s' /\ best_connection_ s' = Some c).
Proof.
  intros Hx. unfold SwitchBestConnectionTo, returns, modify, bind, deref, emit, connection. cbn [put_best_connection heap]. fold (connection c s). rewrite Hx. cbn [modify].
  split; [by do 2 eexists|done].
Qed.

Lemma choose_best_returns s sorted : ok s -> map v_id sorted = connections_ s -> Forall small sorted ->
  (forall v, v ∈ sorted -> view_of (v_id v) s = Some v) -> StronglySorted at_least sorted ->
  returns (choose_best sorted) s (fun _ s' => with_best s s' /\ ok s' /\ (selects s -> chosen s')).
Proof.
  intros H Hids Hsm Hv Hst.
  assert (Hsame : with_best s s) by (exists (trace_ s), (best_connection_ s); by destruct s).
  assert (Hchosen : forall s' b vb, heap s' = heap s -> connections_ s' = connections_ s -> best_connection_ s' = Some b -> view_of b s = Some vb ->
            (forall top, head sorted = Some top -> at_least vb top) -> chosen s').
  { intros s' b vb Eh Ec Eb Evb Htop c v Hc Hvc. exists b, vb. assert (Evw : forall d, view_of d s' = view_of d s) by (intros d; unfold view_of; by rewrite Eh).
    rewrite Evw in Hvc |- *. split; [done|split; [done|]]. rewrite Ec, <- Hids in Hc. apply list_elem_of_fmap in Hc as (v' & -> & Hin). rewrite (Hv v' Hin) in Hvc. injection Hvc as <-.
    destruct sorted as [|top rest]; [by apply elem_of_nil in Hin|]. eapply at_least_trans; [by apply Htop|].
    inversion Hst as [|? ? _ Hle]; subst. apply elem_of_cons in Hin as [->|Hin]; [apply at_least_refl|]. rewrite Forall_forall in Hle. by apply Hle. }
  unfold choose_best. apply returns_bind. cbn [returns gets]. apply returns_bind. cbn [returns gets].
  destruct (negb _ || _) eqn:Esel; cbn [when].
  2: { split; [done|split; [done|]]. intros Hs. apply orb_false_iff in Esel as [E1%negb_false_iff%bool_decide_eq_true E2%bool_decide_eq_false]. by destruct Hs. }
  assert (Hlook : exists o, look_best s = Ok o s /\ match o with Some v => best_connection_ s = Some (v_id v) /\ view_of (v_id v) s = Some v | None => best_connection_ s = None end).
  { unfold look_best, bind, gets. destruct (best_connection_ s) as [c|] eqn:Eb; [|by exists None]. pose proof (ok_best s H c Eb) as Hc.
    destruct (live_connection s c H Hc) as (_ & _ & x & _ & _ & Hx & _). destruct (view_of_ok s c x H Hc Hx) as (v & Hvv & Hid & _).
    unfold look. rewrite Hvv. exists (Some v). split; [done|]. by rewrite Hid. }
  destruct Hlook as (o & Eo & Ho). unfold returns, bind. rewrite Eo. destruct (ShouldSwitch o (head sorted)) eqn:Esw; cbn [when ret].
  - destruct (head sorted) as [top|] eqn:Eh; cbn [option_map].
    + assert (Hin : top ∈ sorted) by (destruct sorted; [done|]; injection Eh as ->; left). pose proof (Hv top Hin) as Hvt.
      destruct (view_of_connection s _ top Hvt) as (x & Hx & _). eapply returns_weaken; [by eapply SwitchBestConnectionTo_returns|].
      intros _ s' [(tr & b & ->) Eb]. cbn [put_trace put_best_connection best_connection_] in Eb. subst b.
      assert (Htc : v_id top ∈ connections_ s) by (rewrite <- Hids; by apply list_elem_of_fmap_2).
      split; [by do 2 eexists|]. split.
      * split; try apply H. cbn. by intros c [= <-].
      * intros _. apply (Hchosen _ (v_id top) top); try done. intros top' [= <-]. apply at_least_refl.
    + unfold SwitchBestConnectionTo, modify, bind, ret. split; [exists (trace_ s), None; by destruct s|]. split; [split; try apply H; done|].
      intros _ c v Hc _. destruct sorted; [|done]. cbn in Hids. cbn [put_best_connection connections_] in Hc. rewrite <- Hids in Hc. by apply elem_of_nil in Hc.
  - split; [done|split; [done|]]. intros _. destruct o as [vb|].
    + destruct Ho as [Eb Evb]. apply (Hchosen _ (v_id vb) vb); try done. intros top Eh. rewrite Eh in Esw.
      assert (Hin : top ∈ sorted) by (destruct sorted; [done|]; injection Eh as ->; left).
      assert (Hbin : vb ∈ sorted). { pose proof (ok_best s H _ Eb) as Hc. rewrite <- Hids in Hc. apply list_elem_of_fmap in Hc as (v' & E & Hin'). pose proof (Hv v' Hin') as Hv'.
        rewrite <- E, Evb in Hv'. by injection Hv' as ->. }
      rewrite Forall_forall in Hsm. destruct (ShouldSwitch_false vb top) as [E|]; [by apply Hsm|by apply Hsm|done| |done].
      pose proof (Hv top Hin) as Hvt. rewrite <- E, Evb in Hvt. injection Hvt as ->. apply at_least_refl.
    + destruct (head sorted) eqn:Eh; [done|]. intros c v Hc _. destruct sorted; [|done]. rewrite <- Hids in Hc. by apply elem_of_nil in Hc.
Qed.

(** ** Pruning *)

Lemma Prune_ok x : StunRequest.inv (requests_ x) -> exists x' evs, Prune x = Some (x', evs) /\ conn_evolves x x' /\ pings_kept x x' /\ Forall state_event evs /\
  (x' = x /\ evs = [] \/ write_state_ x' = STATE_WRITE_TIMEOUT).
Proof.
  intros Hi. unfold Prune. destruct (pruned_ x); cbn [negb]; [exists x, []; split; [done|split; [reflexivity|split; [done|split; [constructor|by left]]]]|].
  destruct (StunRequest.Clear_inv _ Hi) as (r & Er & Hr & _). cbn [put_pruned requests_]. rewrite Er.
  do 2 eexists. split; [done|]. split; [done|]. split; [done|]. split; [|by right].
  apply List.Forall_forall. intros e He.
  by apply (proj2 (state_events (put_requests r (put_pruned true x)) e) STATE_WRITE_TIMEOUT).
Qed.

Definition on_network (s : t) (n : Z) (c : cid) : Prop := exists p, heap s !! c.1 = Some (n, p).

Lemma network_moved s s' n c : moved s s' -> on_network s n c -> on_network s' n c.
Proof. intros Hm [p Hp]. destruct (mv_ports _ _ Hm _ _ _ Hp) as (l & E). by eexists. Qed.
Lemma network_of s c : ok s -> c ∈ connections_ s -> exists n, on_network s n c.
Proof. intros H Hc. destruct (live_connection s c H Hc) as (n & p & _ & Hh & _). by exists n, p. Qed.
Lemma network_unique s n n' c : on_network s n c -> on_network s n' c -> n = n'.
Proof. intros [p Hp] [p' Hp']. congruence. Qed.
Lemma view_network s n c v : on_network s n c -> view_of c s = Some v -> v_network v = n.
Proof.
  intros [p Hp] Hv. unfold view_of in Hv. rewrite Hp in Hv. cbn in Hv. destruct (IcePort.GetConnection c.2 p); [|done]. destruct (IcePort.priority _ _); [|done]. by injection Hv as <-.
Qed.

Lemma network_port_returns s n c : on_network s n c -> exists p, network_port c.1 s = Ok (n, p) s.
Proof. intros [p Hp]. exists p. unfold network_port. by rewrite Hp. Qed.

(** The primier of a network: a connection there, and the best one if it is there. *)
Lemma first_on_network_ok s n l : ok s -> (forall c, c ∈ l -> c ∈ connections_ s) -> exists o, first_on_network n l s = Ok o s /\
  match o with Some c => c ∈ l /\ on_network s n c | None => True end.
Proof.
  intros H. induction l as [|c l IH]; intros Hl; [by exists None|]. cbn [first_on_network].
  destruct (network_of s c H ltac:(apply Hl; left)) as (m & Hm). destruct (network_port_returns s m c Hm) as (p & E). unfold bind. rewrite E. cbn [fst].
  destruct (Z.eqb_spec m n) as [->|]; [exists (Some c); split; [done|split; [left|done]]|].
  destruct IH as (o & Eo & Ho); [intros d Hd; apply Hl; by right|]. exists o. split; [done|]. destruct o; [|done]. destruct Ho. split; [by right|done].
Qed.
Lemma GetBestConnectionOnNetwork_ok s n : ok s -> exists o, GetBestConnectionOnNetwork n s = Ok o s /\
  match o with
  | Some c => c ∈ connections_ s /\ on_network s n c /\ forall b, best_connection_ s = Some b -> on_network s n b -> c = b
  | None => True
  end.
Proof.
  intros H. unfold GetBestConnectionOnNetwork, bind, gets. destruct (best_connection_ s) as [b|] eqn:Eb; cbn [ret].
  - pose proof (ok_best s H b Eb) as Hb. destruct (network_of s b H Hb) as (m & Hm). destruct (network_port_returns s m b Hm) as (p & E). rewrite E. cbn [ret fst].
    destruct (Z.eqb_spec m n) as [->|Hne].
    + exists (Some b). split; [done|]. split; [done|split; [done|]]. by intros b' [= ->].
    + destruct (first_on_network_ok s n (connections_ s) H) as (o & Eo & Ho); [done|]. exists o. split; [done|]. destruct o as [c|]; [|done]. destruct Ho. split; [done|split; [done|]].
      intros b' [= <-] Hb'. by destruct Hne; eapply network_unique.
  - destruct (first_on_network_ok s n (connections_ s) H) as (o & Eo & Ho); [done|]. exists o. split; [done|]. destruct o as [c|]; [|done]. destruct Ho. by split.
Qed.
Lemma first_on_network_moved s s' n l o : ok s -> ok s' -> moved s s' -> (forall c, c ∈ l -> c ∈ connections_ s) ->
  first_on_network n l s = Ok o s -> first_on_network n l s' = Ok o s'.
Proof.
  intros H H' Hm. induction l as [|c l IH]; intros Hl; cbn [first_on_network]; [by intros [= <-]|].
  destruct (network_of s c H ltac:(apply Hl; left)) as (m & Hc). destruct (network_port_returns s m c Hc) as (p & E).
  destruct (network_port_returns s' m c (network_moved s s' m c Hm Hc)) as (p' & E'). unfold bind. rewrite E, E'. cbn [fst].
  destruct (m =? n); [by intros [= <-]|]. apply IH. intros d Hd. apply Hl. by right.
Qed.
Lemma GetBestConnectionOnNetwork_moved s s' n o : ok s -> ok s' -> moved s s' -> kept_choice s s' ->
  GetBestConnectionOnNetwork n s = Ok o s -> GetBestConnectionOnNetwork n s' = Ok o s'.
Proof.
  intros H H' Hm [Hb _]. pose proof (moved_connections s s' Hm) as Ec. unfold GetBestConnectionOnNetwork, bind, gets. rewrite Hb.
  destruct (best_connection_ s) as [b|] eqn:Eb; cbn [ret]; cbv beta; rewrite ?Ec.
  - destruct (network_of s b H (ok_best s H b Eb)) as (m & Hc). destruct (network_port_returns s m b Hc) as (p & E).
    destruct (network_port_returns s' m b (network_moved s s' m b Hm Hc)) as (p' & E'). rewrite E, E'. cbn [ret fst].
    destruct (m =? n); [by intros [= <-]|]. cbv beta. rewrite Ec. by apply first_on_network_moved.
  - by apply first_on_network_moved.
Qed.

(** Why [d] is pruned, as seen in the state [s] before the first is: a writable
    connection on its network has at least its priority. *)
Definition prunable (s : t) (d : cid) : Prop :=
  exists n p x vp vd, on_network s n d /\ GetBestConnectionOnNetwork n s = Ok (Some p) s /\ d <> p /\ connection p s = Some x /\ writable x = true /\
    view_of p s = Some vp /\ view_of d s = Some vd /\ 0 <= CompareConnectionCandidates vp vd.
Record pruning (s s' : t) : Prop := {
  pr_moved : moved s s'; pr_ok : ok s'; pr_choice : kept_choice s s'; pr_pings : conns_rel pings_kept s s';
  pr_conns : forall d, d ∈ connections_ s -> connection d s' = connection d s \/
    (prunable s d /\ exists x, connection d s' = Some x /\ write_state_ x = STATE_WRITE_TIMEOUT) }.

Lemma pruning_refl s : ok s -> pruning s s.
Proof. intros H. split; [apply channel_moved_refl|done|done|apply conns_rel_refl, _|by left]. Qed.

Lemma static_compare v v' w w' : static_view v v' -> static_view w w' -> CompareConnectionCandidates v' w' = CompareConnectionCandidates v w.
Proof. intros (_ & _ & E1 & E2) (_ & _ & E3 & E4). unfold CompareConnectionCandidates. by rewrite E1, E2, E3, E4. Qed.

(** A primier is not pruned. *)
Lemma primier_kept s s' n p : ok s -> pruning s s' -> GetBestConnectionOnNetwork n s = Ok (Some p) s -> connection p s' = connection p s.
Proof.
  intros H Hp Ep. destruct (GetBestConnectionOnNetwork_ok s n H) as (o & E & Ho). rewrite Ep in E. injection E as <-. destruct Ho as (Hc & Hn & _).
  destruct (pr_conns _ _ Hp p Hc) as [|[(m & p' & x & vp & vd & Hm & Em & Hne & _) _]]; [done|]. rewrite (network_unique s n m p Hn Hm) in Ep. congruence.
Qed.

Lemma prune_worse_returns s s1 n p x c : ok s -> pruning s s1 -> GetBestConnectionOnNetwork n s = Ok (Some p) s -> connection p s = Some x -> writable x = true ->
  c ∈ connections_ s -> returns (prune_worse p n c) s1 (fun _ s2 => pruning s s2).
Proof.
  intros H Hp Ep Hx Hw Hc. unfold prune_worse. destruct (bool_decide (c = p)) eqn:Ecp; cbn [negb when]; [done|]. apply bool_decide_eq_false in Ecp.
  pose proof (pr_ok _ _ Hp) as H1. pose proof (pr_moved _ _ Hp) as Hm. pose proof (moved_connections _ _ Hm) as Econn.
  destruct (GetBestConnectionOnNetwork_ok s n H) as (o & E & Ho). rewrite Ep in E. injection E as <-. destruct Ho as (Hpc & Hpn & _).
  destruct (live_connection s1 c H1 ltac:(by rewrite Econn)) as (m & pt & xc & Hh & He & Hxc & [_ Hinv] & Hk).
  destruct (live_connection s c H Hc) as (m0 & pt0 & xc0 & Hh0 & _ & Hxc0 & _). destruct (view_of_ok s c xc0 H Hc Hxc0) as (vc0 & Hvc0 & _).
  destruct (view_moved s s1 c vc0 H H1 Hm Hc Hvc0) as (vc & Hvc & Hsc). destruct (view_of_ok s p x H Hpc Hx) as (vp0 & Hvp0 & _).
  destruct (view_moved s s1 p vp0 H H1 Hm Hpc Hvp0) as (vp & Hvp & Hsp).
  unfold returns, bind, look. rewrite Hvc. destruct (Z.eqb_spec (v_network vc) n) as [En|]; cbn [when ret]; [|done].
  rewrite Hvp, (static_compare _ _ _ _ Hsp Hsc). destruct (Z.leb_spec 0 (CompareConnectionCandidates vp0 vc0)) as [Hcmp|]; cbn [when ret]; [|done].
  destruct (Prune_ok xc Hinv) as (xc' & evs & EP & Hev & Hpk & Hevs & Hto). fold (returns (call c (fun _ x => Prune x)) s1 (fun _ s2 => pruning s s2)).
  eapply returns_weaken; [apply (call_moves c (fun _ x => Prune x) s1 m pt xc xc' evs); try done; by rewrite Econn|].
  intros _ s2 (Hm2 & H2 & Hkeep & Hconn). split; [by eapply channel_moved_trans|done| | |].
  - destruct (pr_choice _ _ Hp) as [B P]. assert (Hk2 : kept_choice s1 s2).
    { apply Hkeep. destruct Hto as [[_ ->]|Hto]; [by left|]. right. unfold writable. by rewrite Hto. }
    destruct Hk2. split; congruence.
  - apply (conns_rel_trans pings_kept s s1 s2 Econn (pr_pings _ _ Hp)). intros d y Hd Hy. rewrite Hconn by done.
    destruct (decide (d = c)) as [->|]; [|by exists y]. exists xc'. split; [done|]. rewrite Hxc in Hy. by injection Hy as <-.
  - intros d Hd. rewrite Hconn by (by rewrite Econn). destruct (decide (d = c)) as [->|Hne]; [|by apply (pr_conns _ _ Hp)].
    destruct Hto as [[-> _]|Hto]; [rewrite <- Hxc; by apply (pr_conns _ _ Hp)|]. right. split; [|by exists xc'].
    exists n, p, x, vp0, vc0. assert (Hn : on_network s n c).
    { exists pt0. rewrite Hh0. do 2 f_equal. rewrite <- En. destruct Hsc as (_ & -> & _). symmetry. eapply view_network; [|done]. by exists pt0. }
    repeat (split; [done|]). done.
Qed.

Lemma prune_network_returns s s1 n : ok s -> pruning s s1 -> returns (prune_network n) s1 (fun _ s2 => pruning s s2).
Proof.
  intros H Hp. destruct (GetBestConnectionOnNetwork_ok s n H) as (o & E & Ho).
  pose proof (GetBestConnectionOnNetwork_moved s s1 n o H (pr_ok _ _ Hp) (pr_moved _ _ Hp) (pr_choice _ _ Hp) E) as E1.
  unfold prune_network, returns, bind at 1. rewrite E1. destruct o as [p|]; [|done]. destruct Ho as (Hc & _).
  destruct (live_connection s p H Hc) as (_ & _ & x & _ & _ & Hx & _). unfold bind at 1, deref. rewrite (primier_kept s s1 n p H Hp E), Hx.
  destruct (writable x) eqn:Hw; cbn [when]; [|done]. unfold bind, gets. rewrite (moved_connections s s1 (pr_moved _ _ Hp)).
  apply (foldM_returns (fun _ c => prune_worse p n c) (fun _ _ s' => pruning s s')); [|done].
  intros done_ c rest [] s2 Ec Hp2. apply (prune_worse_returns s s2 n p x c); try done. rewrite Ec. set_solver.
Qed.
Lemma prune_networks_return s l : ok s -> returns (for_each prune_network l) s (fun _ s' => pruning s s').
Proof.
  intros H. apply (foldM_returns (fun _ n => prune_network n) (fun _ _ s' => pruning s s')); [|by apply pruning_refl].
  intros done_ n rest [] s1 _ Hp. by apply prune_network_returns.
Qed.

(** ** The states of the channel *)

Definition conn_is (f : Connection -> bool) (s : t) (c : cid) : bool := match connection c s with Some x => f x | None => false end.
Definition best_writable (s : t) : bool := match best_connection_ s with Some c => conn_is writable s c | None => false end.
(** Only the channel's own states are new. *)
Definition same_choice (s s' : t) : Prop :=
  heap s' = heap s /\ connections_ s' = connections_ s /\ best_connection_ s' = best_connection_ s /\ pending_best_connection_ s' = pending_best_connection_ s.

Lemma any_connection_ok f s l : ok s -> (forall c, c ∈ l -> c ∈ connections_ s) -> any_connection f l s = Ok (existsb (conn_is f s) l) s.
Proof.
  intros H. induction l as [|c l IH]; intros Hl; [done|]. cbn [any_connection existsb]. destruct (live_connection s c H ltac:(apply Hl; left)) as (_ & _ & x & _ & _ & Hx & _).
  unfold bind, deref. unfold conn_is at 1. rewrite Hx. destruct (f x); [done|]. apply IH. intros d Hd. apply Hl. by right.
Qed.
Lemma is_writable_ok s : ok s -> is_writable (best_connection_ s) s = Ok (best_writable s) s.
Proof.
  intros H. unfold is_writable, best_writable. destruct (best_connection_ s) as [c|] eqn:Eb; [|done].
  destruct (live_connection s c H (ok_best s H c Eb)) as (_ & _ & x & _ & _ & Hx & _). unfold bind, deref, conn_is. by rewrite Hx.
Qed.

Lemma UpdateChannelState_returns s : ok s -> writable_ s = best_writable s -> returns UpdateChannelState s (fun _ s' =>
  same_choice s s' /\ ok s' /\ writable_ s' = best_writable s' /\ readable_ s' = existsb (conn_is readable s') (connections_ s')).
Proof.
  intros H Hw. unfold UpdateChannelState, returns, bind, gets. rewrite (is_writable_ok s H), Hw. unfold oblige. rewrite eqb_reflx. cbn [ret].
  rewrite (any_connection_ok readable s (connections_ s) H) by done. unfold set_readable, bind, gets, when, modify, emit, ret.
  set (r := existsb (conn_is readable s) (connections_ s)). destruct (Bool.eqb (readable_ s) r) eqn:E; cbn [negb].
  - apply eqb_prop in E. done.
  - split; [done|]. split; [split; apply H|]. done.
Qed.

Lemma update_writable_returns s : ok s -> returns update_writable s (fun _ s' =>
  same_choice s s' /\ ok s' /\ writable_ s' = best_writable s' /\ readable_ s' = existsb (conn_is readable s') (connections_ s')).
Proof.
  intros H. unfold update_writable. unfold returns, bind at 1, gets at 1. unfold bind at 1. rewrite any_connection_ok by done.
  unfold bind at 1, gets at 1. unfold bind at 1. rewrite (is_writable_ok s H).
  match goal with |- context [bind (if best_writable s then _ else if ?alive then _ else _) _] => set (b := alive) end.
  assert (Hh : exists tr w1, (if best_writable s then HandleWritable else if b then HandleAllTimedOut else HandleNotWritable) s =
            Ok tt (put_trace tr (put_was_writable w1 (put_writable (best_writable s) s))) /\ (best_writable s = true -> w1 = true)).
  { pose proof (ok_was s H) as Hwas. destruct (best_writable s) eqn:E.
    - unfold HandleWritable, set_writable, bind, gets, when, emit, modify, ret. destruct (writable_ s) eqn:Ew; cbn [negb put_trace put_was_writable writable_]; rewrite ?Ew; cbn [negb Bool.eqb];
        [exists (trace_ s), true; split; [|done]; destruct s; cbn in *; by rewrite Ew|do 2 eexists; split; [reflexivity|done]].
    - assert (Hn : exists tr w1, HandleNotWritable s = Ok tt (put_trace tr (put_was_writable w1 (put_writable false s)))).
      { unfold HandleNotWritable, set_writable, bind, gets, when, emit, modify, ret. destruct (was_writable_ s) eqn:Ewas.
        - cbn [put_was_writable writable_]. destruct (writable_ s) eqn:Ew; cbn [negb Bool.eqb]; [do 2 eexists; reflexivity|].
          exists (trace_ s), false. destruct s; cbn in *. by rewrite Ew.
        - assert (Ew : writable_ s = false) by (apply not_true_is_false; intros E1%Hwas; congruence).
          exists (trace_ s), false. destruct s; cbn in *. by rewrite Ew, Ewas. }
      destruct Hn as (tr & w1 & En). exists tr, w1. by destruct b. }
  destruct Hh as (tr & w1 & Eh & Hw1). unfold bind at 1. rewrite Eh.
  set (s1 := put_trace _ _). assert (H1 : ok s1) by (split; try apply H; cbn; exact Hw1).
  eapply returns_weaken; [by apply (UpdateChannelState_returns s1)|]. done.
Qed.

(** ** The whole sort *)

Definition small_generations (s : t) : Prop := forall c v, c ∈ connections_ s -> view_of c s = Some v -> small v.

Lemma ok_perm s l d : ok s -> l ≡ₚ connections_ s -> ok (put_connections l (put_sort_dirty d s)).
Proof.
  intros H Hl. split; cbn [put_connections put_sort_dirty connections_ heap best_connection_ pending_best_connection_ writable_ was_writable_]; [|apply H| | | | |apply H].
  - intros pid n p Hh. destruct (ok_ports s H pid n p Hh) as [Hk Hx]. split; [done|]. intros k x He. rewrite Hl. by apply Hx.
  - intros c. rewrite Hl. apply H.
  - rewrite Hl. apply H.
  - intros c. rewrite Hl. apply H.
  - intros c. rewrite Hl. apply H.
Qed.

(** The phases: the states are updated ([s1]), the connections sorted and the
    best chosen ([s2]), connections pruned ([s3]), the channel's states set. *)
Record phases (s s1 s2 s3 s' : t) : Prop := {
  ph_update : moved s s1; ph_update_ok : ok s1; ph_updated : conns_rel updated s s1;
  ph_heap : heap s2 = heap s1; ph_perm : connections_ s2 ≡ₚ connections_ s1; ph_ok : ok s2; ph_chosen : selects s -> chosen s2;
  ph_pruning : pruning s2 s3;
  ph_same : same_choice s3 s'; ph_final : ok s';
  ph_writable : writable_ s' = best_writable s'; ph_readable : readable_ s' = existsb (conn_is readable s') (connections_ s') }.

Lemma SortConnections_phases now s : ok s -> protocol_type_ s <> SessionDescription.ICEPROTO_HYBRID -> small_generations s ->
  returns (SortConnections now) s (fun _ s' => exists s1 s2 s3, phases s s1 s2 s3 s').
Proof.
  intros H Hp Hsm. unfold SortConnections. apply returns_bind. eapply returns_weaken; [by apply UpdateConnectionStates_returns|].
  intros _ s1 (Hm & H1 & Hupd). destruct (slot_effect_fields _ _ (ev_effect _ _ (mv_evolves _ _ Hm))) as (Ec & Epr & Er & _).
  apply returns_bind. cbn [returns gets]. rewrite bool_decide_eq_false_2 by (by rewrite Epr).
  apply returns_bind. cbn [returns modify]. apply returns_bind. cbn [returns gets put_sort_dirty connections_].
  set (s1a := put_sort_dirty false s1). assert (H1a : ok s1a) by (split; apply H1).
  destruct (look_views (connections_ s1) s1a H1a) as (vs & Evs & HF); [done|]. apply returns_bind. unfold returns at 1. rewrite Evs.
  apply returns_bind. cbn [returns modify]. set (sorted := stable_sort ConnectionCompare vs). set (s2 := put_connections (map v_id sorted) s1a).
  assert (Hids : map v_id vs = connections_ s1).
  { clear -HF. induction HF as [|c v l l' [_ E] _ IH]; [done|]. cbn. by rewrite E, IH. }
  pose proof (stable_sort_perm ConnectionCompare vs) as Hperm. fold sorted in Hperm.
  assert (Hl : map v_id sorted ≡ₚ connections_ s1) by (rewrite <- Hids; by apply fmap_Permutation).
  assert (H2 : ok s2) by (by apply ok_perm).
  assert (Hv : forall v, v ∈ sorted -> v_id v ∈ connections_ s1 /\ view_of (v_id v) s1 = Some v).
  { intros v Hin. rewrite Hperm in Hin. split; [rewrite <- Hids; by apply list_elem_of_fmap_2|].
    apply list_elem_of_lookup_1 in Hin as [i Hi].
    destruct (Forall2_lookup_r _ _ _ _ _ HF Hi) as (c & _ & Hvw & ->). exact Hvw. }
  assert (Hsorted : Forall small sorted).
  { apply Forall_forall. intros v Hin. destruct (Hv v Hin) as [Hc Hvw]. rewrite Ec in Hc. destruct (live_connection s _ H Hc) as (_ & _ & x & _ & _ & Hx & _).
    destruct (view_of_ok s _ x H Hc Hx) as (v0 & Hv0 & _). destruct (view_moved s s1 _ v0 H H1 Hm Hc Hv0) as (v1 & Hv1 & (_ & _ & _ & Eg)).
    rewrite Hvw in Hv1. injection Hv1 as <-. unfold small. rewrite Eg. by eapply Hsm. }
  apply returns_bind. eapply returns_weaken; [apply (choose_best_returns s2 sorted H2); [done|done|intros v Hin; by apply Hv|]|].
  { apply (stable_sort_sorted ConnectionCompare small at_least); [intros; by apply ConnectionCompare_false|intros; by apply ConnectionCompare_asym|apply at_least_trans|].
    rewrite Hperm in Hsorted. exact Hsorted. }
  intros _ s3 ((tr & b & E3) & H3 & Hch). apply returns_bind. eapply returns_weaken; [by apply prune_networks_return|].
  intros u4 s4 Hpr. cbv beta in Hpr. eapply returns_weaken; [by apply update_writable_returns, (pr_ok _ _ Hpr)|].
  intros u5 s5 (Hsame & H5 & Hw & Hr). exists s1, s3, s4.
  assert (Eh3 : heap s3 = heap s1 /\ connections_ s3 = map v_id sorted) by (by rewrite E3). destruct Eh3 as [Eh3 Ec3].
  split; try done; rewrite ?Ec3; try done.
  intros Hs. apply Hch. unfold selects in *. cbn. by rewrite Epr, Er.
Qed.

Lemma same_choice_view s s' c : same_choice s s' -> view_of c s' = view_of c s /\ connection c s' = connection c s.
Proof. intros (E & _). unfold view_of, connection. by rewrite E. Qed.

Section After.
Context (s s1 s2 s3 s' : t) (Hph : phases s s1 s2 s3 s') (Hok : ok s).

Lemma ph_connections : connections_ s' = connections_ s2 /\ connections_ s' ≡ₚ connections_ s.
Proof.
  destruct (ph_same _ _ _ _ _ Hph) as (_ & Ec & _). pose proof (moved_connections _ _ (pr_moved _ _ (ph_pruning _ _ _ _ _ Hph))) as E3.
  rewrite Ec, E3. split; [done|]. rewrite (ph_perm _ _ _ _ _ Hph). by rewrite (moved_connections _ _ (ph_update _ _ _ _ _ Hph)).
Qed.
Lemma ph_best : best_connection_ s' = best_connection_ s2.
Proof. destruct (ph_same _ _ _ _ _ Hph) as (_ & _ & -> & _). apply (pr_choice _ _ (ph_pruning _ _ _ _ _ Hph)). Qed.
Lemma ph_connection c : connection c s' = connection c s3.
Proof. by apply same_choice_view, (ph_same _ _ _ _ _ Hph). Qed.

(** The best connection was not pruned, and what was has its reason. *)
Lemma ph_unless_pruned c : c ∈ connections_ s2 -> connection c s' = connection c s2 \/
  (prunable s2 c /\ best_connection_ s' <> Some c /\ exists x, connection c s' = Some x /\ write_state_ x = STATE_WRITE_TIMEOUT).
Proof.
  intros Hc. pose proof (ph_pruning _ _ _ _ _ Hph) as Hpr. destruct (pr_conns _ _ Hpr c Hc) as [E|[Hp (x & Hx & Hw)]].
  - left. by rewrite ph_connection.
  - right. split; [done|]. split; [|exists x; by rewrite ph_connection]. rewrite ph_best. intros Eb.
    destruct Hp as (n & p & _ & _ & _ & Hn & Ep & Hne & _). pose proof (ph_ok _ _ _ _ _ Hph) as H2.
    destruct (GetBestConnectionOnNetwork_ok s2 n H2) as (o & E & Ho). rewrite Ep in E. injection E as <-. destruct Ho as (_ & _ & Ho). by destruct Hne; rewrite (Ho c Eb Hn).
Qed.
Lemma ph_view c v : c ∈ connections_ s2 -> view_of c s2 = Some v -> exists v', view_of c s' = Some v' /\ static_view v v'.
Proof.
  intros Hc Hv. pose proof (ph_pruning _ _ _ _ _ Hph) as Hpr. destruct (view_moved s2 s3 c v (ph_ok _ _ _ _ _ Hph) (pr_ok _ _ Hpr) (pr_moved _ _ Hpr) Hc Hv) as (v' & Hv' & Hs).
  exists v'. split; [|done]. by rewrite (proj1 (same_choice_view s3 s' c (ph_same _ _ _ _ _ Hph))).
Qed.

Lemma ph_primier c : c ∈ connections_ s2 -> prunable s2 c -> exists p x vp vc, p ∈ connections_ s' /\ p <> c /\ connection p s' = Some x /\ writable x = true /\
  view_of p s' = Some vp /\ view_of c s' = Some vc /\ v_network vp = v_network vc /\ v_priority vc <= v_priority vp.
Proof.
  intros Hcc (n & p & x & vp & vc & Hn & Ep & Hne & Hx & Hw & Hvp & Hvc & Hcmp). pose proof (ph_ok _ _ _ _ _ Hph) as H2.
  destruct (GetBestConnectionOnNetwork_ok s2 n H2) as (o & E & Ho). rewrite Ep in E. injection E as <-. destruct Ho as (Hpc & Hpn & _).
  destruct (ph_view p vp Hpc Hvp) as (vp' & Hvp' & Hsp), (ph_view c vc Hcc Hvc) as (vc' & Hvc' & Hsc).
  exists p, x, vp', vc'. split; [by rewrite (proj1 ph_connections)|]. split; [done|].
  split; [rewrite ph_connection; by rewrite (primier_kept s2 s3 n p H2 (ph_pruning _ _ _ _ _ Hph) Ep)|].
  do 3 (split; [done|]). destruct Hsp as (_ & En & Epr & _), Hsc as (_ & En' & Epr' & _). rewrite En, En', Epr, Epr'.
  split; [by rewrite (view_network s2 n p vp), (view_network s2 n c vc)|]. unfold CompareConnectionCandidates in Hcmp.
  destruct (Z.ltb_spec (v_priority vc) (v_priority vp)); [lia|]. destruct (Z.ltb_spec (v_priority vp) (v_priority vc)); lia.
Qed.

Lemma ph_view_kept c v : c ∈ connections_ s2 -> connection c s' = connection c s2 -> view_of c s2 = Some v ->
  exists v', view_of c s' = Some v' /\ static_view v v' /\ v_write v' = v_write v.
Proof.
  intros Hc E Hv. destruct (ph_view c v Hc Hv) as (v' & Hv' & Hs). exists v'. split; [done|split; [done|]].
  destruct (view_of_connection s2 c v Hv) as (x & Hx & _ & -> & _). destruct (view_of_connection s' c v' Hv') as (x' & Hx' & _ & -> & _). congruence.
Qed.
Lemma at_least_static a a' b b' : static_view a a' -> static_view b b' -> v_write a' = v_write a -> v_write b' = v_write b -> at_least a b -> at_least a' b'.
Proof. intros (_ & _ & E1 & E2) (_ & _ & E3 & E4) E5 E6. unfold at_least. by rewrite E1, E2, E3, E4, E5, E6. Qed.

Lemma ph_chosen_after : selects s -> chosen s'.
Proof.
  intros Hs c v' Hc' Hv'. pose proof (ph_chosen _ _ _ _ _ Hph Hs) as Hch. pose proof (ph_ok _ _ _ _ _ Hph) as H2. rewrite (proj1 ph_connections) in Hc'.
  destruct (live_connection s2 c H2 Hc') as (_ & _ & x & _ & _ & Hx & _). destruct (view_of_ok s2 c x H2 Hc' Hx) as (v & Hv & _).
  destruct (Hch c v Hc' Hv) as (b & vb & Eb & Hvb & Hle). pose proof (ok_best s2 H2 b Eb) as Hb.
  assert (Hkb : connection b s' = connection b s2).
  { destruct (ph_unless_pruned b Hb) as [|(_ & Hne & _)]; [done|]. by rewrite ph_best in Hne. }
  destruct (ph_view_kept b vb Hb Hkb Hvb) as (vb' & Hvb' & Hsb & Hwb). exists b, vb'. rewrite ph_best. split; [done|split; [done|]].
  destruct (ph_unless_pruned c Hc') as [E|((n & p & xp & vp & vc & _ & Ep & _ & Hxp & Hwp & Hvp & _) & _ & (xc & Hxc & Hto))].
  - destruct (ph_view_kept c v Hc' E Hv) as (v1 & Hv1 & Hs1 & Hw1). rewrite Hv' in Hv1. injection Hv1 as <-. by apply (at_least_static vb vb' v v').
  - left. destruct (view_of_connection s' c v' Hv') as (y & Hy & _ & -> & _). rewrite Hxc in Hy. injection Hy as <-. rewrite Hto, Hwb.
    destruct (view_of_connection s2 p vp Hvp) as (z & Hz & _ & Hwz & _). rewrite Hxp in Hz. injection Hz as <-. apply bool_decide_eq_true in Hwp.
    assert (Hpc : p ∈ connections_ s2).
    { destruct (GetBestConnectionOnNetwork_ok s2 n H2) as (o & E & Ho). rewrite Ep in E. injection E as <-. by destruct Ho. }
    destruct (Hch p vp Hpc Hvp) as (b' & vb1 & Eb' & Hvb1 & Hle'). rewrite Eb in Eb'. injection Eb' as <-. rewrite Hvb in Hvb1. injection Hvb1 as <-.
    unfold at_least in Hle'. rewrite Hwz, Hwp in Hle'. cbn in Hle'. destruct (v_write vb); cbn in *; lia.
Qed.

Lemma chosen_writable st : ok st -> chosen st -> best_writable st = existsb (conn_is writable st) (connections_ st).
Proof.
  intros H Hch. apply eq_true_iff_eq. rewrite existsb_exists. split.
  - unfold best_writable. destruct (best_connection_ st) as [b|] eqn:Eb; [|done]. intros Hw. exists b. split; [|done]. by apply list_elem_of_In, (ok_best st H).
  - intros (c & Hc%list_elem_of_In & Hw). destruct (live_connection st c H Hc) as (_ & _ & x & _ & _ & Hx & _). unfold conn_is in Hw. rewrite Hx in Hw.
    destruct (view_of_ok st c x H Hc Hx) as (v & Hv & _ & Ew & _). destruct (Hch c v Hc Hv) as (b & vb & Eb & Hvb & Hle).
    destruct (view_of_connection st b vb Hvb) as (y & Hy & _ & Ew' & _). unfold best_writable, conn_is. rewrite Eb, Hy.
    apply bool_decide_eq_true in Hw. apply bool_decide_eq_true. unfold at_least in Hle. rewrite Ew, Ew', Hw in Hle. cbn in Hle. destruct (write_state_ y); cbn in Hle; (done || lia).
Qed.
End After.

End Phases.
End ChannelSort.
