(* ===== verification/ChannelPing.v ===== *)
(** * Which connection is pinged

    OnPing of p2p/base/p2ptransportchannel.cc: a ping goes to the best
    connection if it is writable and its last ping is long ago, else to the
    pingable connection whose last ping is the oldest.  No connection that
    stays pingable is passed over for ever. *)

From stdpp Require Import gmap.
From S2P Require Import Prelude TimeUtils ByteOrder IpAddress Stun Helpers StunRequest SessionDescription IceConnection IcePort Outcome P2PTransportChannel ChannelState ChannelSort.
Import ByteOrder TimeUtils IceConnection Outcome P2PTransportChannel ChannelState ChannelSort.
Open Scope jingle_scope.

Module ChannelPing.

Section Ping.
Context `{HM : Machine} `{HR : Helpers.RandomGenerator}.

(** The time of the last ping of a connection. *)
Definition last (s : t) (c : cid) : Z := match connection c s with Some x => last_ping_sent_ x | None => 0 end.
Definition pingable (s : t) (c : cid) : Prop := exists x, connection c s = Some x /\ IsPingable (writable_ s) x = true.
(** The clock has passed every ping, and has not come to its end. *)
Definition later (now : Z) (s : t) : Prop := now < 2 ^ 32 - 1 /\ forall c, c ∈ connections_ s -> last s c < now.

(** ** The choice *)

Lemma oldest_pingable_ok w s l : ok s -> (forall c, c ∈ l -> c ∈ connections_ s) -> forall o ot,
  exists r, oldest_pingable w o ot l s = Ok r s /\
  ((r = o /\ forall d y, d ∈ l -> connection d s = Some y -> IsPingable w y = true -> ot <= last_ping_sent_ y) \/
   (exists c x, r = Some c /\ c ∈ l /\ connection c s = Some x /\ IsPingable w x = true /\ last_ping_sent_ x < ot /\
      forall d y, d ∈ l -> connection d s = Some y -> IsPingable w y = true -> last_ping_sent_ x <= last_ping_sent_ y)).
Proof.
  intros H. induction l as [|c l IH]; intros Hl o ot.
  - exists o. split; [done|]. left. split; [done|]. by intros d y Hd%elem_of_nil.
  - cbn [oldest_pingable]. destruct (live_connection s c H ltac:(apply Hl; left)) as (_ & _ & x & _ & _ & Hx & _). unfold bind at 1, deref. rewrite Hx.
    assert (Hl' : forall d, d ∈ l -> d ∈ connections_ s) by (intros d Hd; apply Hl; by right).
    destruct (IsPingable w x) eqn:Ep; cbn [andb]; [destruct (Z.ltb_spec (last_ping_sent_ x) ot) as [Hlt|Hge]|].
    + destruct (IH Hl' (Some c) (last_ping_sent_ x)) as (r & E & Hr). exists r. split; [done|]. right. destruct Hr as [[-> Hmin]|(d & y & -> & Hd & Hy & Hpy & Hlty & Hmin)].
      * exists c, x. repeat (split; [done || left|]). intros d y [->|Hd]%elem_of_cons Hy Hp; [rewrite Hx in Hy; injection Hy as <-; lia|by apply (Hmin d)].
      * exists d, y. split; [done|split; [by right|]]. repeat (split; [done|]). split; [lia|].
        intros d' y' [->|Hd']%elem_of_cons Hy' Hp'; [rewrite Hx in Hy'; injection Hy' as <-; lia|by apply (Hmin d')].
    + destruct (IH Hl' o ot) as (r & E & Hr). exists r. split; [done|]. destruct Hr as [[-> Hmin]|(d & y & -> & Hd & Hy & Hpy & Hlty & Hmin)].
      * left. split; [done|]. intros d y [->|Hd]%elem_of_cons Hy Hp; [rewrite Hx in Hy; injection Hy as <-; lia|by apply (Hmin d)].
      * right. exists d, y. split; [done|split; [by right|]]. repeat (split; [done|]).
        intros d' y' [->|Hd']%elem_of_cons Hy' Hp'; [rewrite Hx in Hy'; injection Hy' as <-; lia|by apply (Hmin d')].
    + destruct (IH Hl' o ot) as (r & E & Hr). exists r. split; [done|]. destruct Hr as [[-> Hmin]|(d & y & -> & Hd & Hy & Hpy & Hlty & Hmin)].
      * left. split; [done|]. intros d y [->|Hd]%elem_of_cons Hy Hp; [congruence|by apply (Hmin d)].
      * right. exists d, y. split; [done|split; [by right|]]. repeat (split; [done|]).
        intros d' y' [->|Hd']%elem_of_cons Hy' Hp'; [congruence|by apply (Hmin d')].
Qed.

Lemma best_due_ok now s : ok s -> exists due, best_due now s = Ok due s /\ (due = true -> exists b, best_connection_ s = Some b).
Proof.
  intros H. unfold best_due, bind, gets. destruct (best_connection_ s) as [b|] eqn:Eb; [|by exists false].
  destruct (live_connection s b H (ok_best s H b Eb)) as (_ & _ & x & _ & _ & Hx & _). unfold deref. rewrite Hx. eexists. split; [done|]. by exists b.
Qed.

(** The connection to ping, and whether it is the best one because of its age. *)
Definition choice (now : Z) : comp t (bool * option cid) :=
  UpdateConnectionStates now ;;; due <- best_due now ;; c <- FindNextPingableConnection now ;; ret (due, c).

Lemma FindNextPingableConnection_ok now s : ok s -> later now s -> exists due r,
  best_due now s = Ok due s /\ FindNextPingableConnection now s = Ok r s /\
  match r with
  | None => due = false /\ forall c, c ∈ connections_ s -> ~ pingable s c
  | Some c => c ∈ connections_ s /\
      (if due then best_connection_ s = Some c
       else pingable s c /\ forall d, d ∈ connections_ s -> pingable s d -> last s c <= last s d)
  end.
Proof.
  intros H [Hnow Hlast]. destruct (best_due_ok now s H) as (due & E & Hb). exists due. unfold FindNextPingableConnection, bind at 1. rewrite E. destruct due.
  - destruct (Hb eq_refl) as (b & Eb). exists (Some b). unfold gets. rewrite Eb. split; [done|split; [done|]]. split; [by apply (ok_best s H)|done].
  - unfold bind, gets. destruct (oldest_pingable_ok (writable_ s) s (connections_ s) H ltac:(done) None 0xFFFFFFFF) as (r & Er & Hr).
    exists r. split; [done|split; [done|]]. destruct Hr as [[-> Hmin]|(c & x & -> & Hc & Hx & Hp & _ & Hmin)].
    + split; [done|]. intros c Hc (x & Hx & Hp). specialize (Hmin c x Hc Hx Hp). specialize (Hlast c Hc). unfold last in Hlast. rewrite Hx in Hlast. lia.
    + split; [done|]. split; [by exists x|]. intros d Hd (y & Hy & Hpy). unfold last. rewrite Hx, Hy. by apply (Hmin d).
Qed.

(** ** The ping *)

Lemma AddAttribute_tid c a m : Stun.transaction_id_ (Stun.AddAttribute c a m).2 = Stun.transaction_id_ m.
Proof. unfold Stun.AddAttribute. by destruct (negb _). Qed.
Lemma AddMessageIntegrity_tid c key m : Stun.transaction_id_ (Stun.AddMessageIntegrity c key m).2 = Stun.transaction_id_ m.
Proof.
  unfold Stun.AddMessageIntegrity. pose proof (AddAttribute_tid c (Stun.new_byte_string Stun.STUN_ATTR_MESSAGE_INTEGRITY (repeat 48 Stun.kStunMessageIntegritySize)) m) as E.
  destruct (Stun.AddAttribute c _ m) as [b m1]. cbn [snd] in E. destruct (Stun.Write m1 _) as [[] buf]; cbn [negb]; [|done]. by destruct (negb _).
Qed.
Lemma AddFingerprint_tid c m : Stun.transaction_id_ (Stun.AddFingerprint c m).2 = Stun.transaction_id_ m.
Proof.
  unfold Stun.AddFingerprint. pose proof (AddAttribute_tid c (Stun.new_uint32 Stun.STUN_ATTR_FINGERPRINT 0) m) as E.
  destruct (Stun.AddAttribute c _ m) as [b m1]. cbn [snd] in E. by destruct (Stun.Write m1 _) as [[] buf].
Qed.
Lemma Prepare_keeps_id username prio x p : StunRequest.keeps_id (IcePort.Prepare username prio x p).
Proof.
  intros m. unfold IcePort.Prepare, IcePort.ice_attr. destruct (IcePort.send_retransmit_count_attribute_ p), (IcePort.IsStandardIce p);
    rewrite ?AddFingerprint_tid, ?AddMessageIntegrity_tid, ?AddAttribute_tid; [destruct (IcePort.ice_role_ p), (use_candidate_attr_ x)| |destruct (IcePort.ice_role_ p), (use_candidate_attr_ x)|];
    by rewrite ?AddAttribute_tid.
Qed.

(** The transaction id that the next request draws. *)
Definition next_id (g : Helpers.rng) : bytes :=
  StunRequest.id (StunRequest.new_request Stun.new_message Stun.IceMessage (fun m => m) (StunRequest.Once CONNECTION_RESPONSE_TIMEOUT) g).1.

(** [x] can be pinged with a new request at [h]: its port has a name to give
    and a role, and neither the pointer nor the id is in use. *)
Record can_ping (h : Z) (g : Helpers.rng) (p : Port) (x : Connection) : Prop := {
  cp_connected : connected_ x = true; cp_name : is_Some (IcePort.username_fragment p);
  cp_role : IcePort.IsStandardIce p = true -> IcePort.ice_role_ p <> ICEROLE_UNKNOWN;
  cp_pointer : StunRequest.heap (requests_ x) !! h = None; cp_id : StunRequest.requests_ (requests_ x) !! next_id g = None }.

Lemma Ping_ok now h p x g : conn_ok p x -> can_ping h g p x -> h <> 0 -> exists x' g', IcePort.Ping now h x p g = Some (x', g') /\
  conn_evolves x x' /\ last_ping_sent_ x' = now.
Proof.
  intros [[local Hl] Hi] [Hc [u Hu] Hr Hh Hid] H0. unfold IcePort.Ping. rewrite Hc. cbn [negb]. unfold IcePort.CreateStunUsername.
  cbn [put_pings put_last_ping_sent remote_candidate_]. rewrite Hu. unfold IcePort.local_candidate in *. cbn [put_pings put_last_ping_sent local_candidate_index_]. rewrite Hl.
  assert (Er : negb (IcePort.IsStandardIce p) || negb (bool_decide (IcePort.ice_role_ p = ICEROLE_UNKNOWN)) = true).
  { destruct (IcePort.IsStandardIce p); [|done]. cbn. apply negb_true_iff, bool_decide_eq_false. by apply Hr. }
  rewrite Er. cbn [negb]. match goal with |- context [StunRequest.new_request _ _ ?f _ _] => pose proof (Prepare_keeps_id (SessionDescription.username_ (remote_candidate_ x) ++
    (if IcePort.IsStandardIce p then [IcePort.colon] else []) ++ u) (SessionDescription.priority_ local) (put_pings (pings_since_last_response_ x ++ [now]) (put_last_ping_sent now x)) p) as Hk; set (prep := f) in * end.
  unfold next_id in Hid. unfold StunRequest.new_request in *. destruct (Helpers.CreateRandomString _ g) as [str g'].
  cbn [fst] in Hid. set (r := StunRequest.mkRequest _ _ _ _ _ _ prep _).
  assert (Hinv : StunRequest.inv (StunRequest.set_request h r (requests_ x))) by (by apply StunRequest.new_request_inv).
  destruct (StunRequest.SendDelayed_inv now h 0 _ r Hinv) as (rs & r' & Es & Hrs & _); [apply lookup_insert_eq|done|done|done|].
  unfold StunRequest.Send. cbn [put_pings put_last_ping_sent requests_]. rewrite Es. do 2 eexists. split; [done|]. split; [|done]. done.
Qed.

(** Every connection can be pinged with a new request at [h]. *)
Definition ready (h : Z) (s : t) : Prop := h <> 0 /\
  forall c n p x, c ∈ connections_ s -> heap s !! c.1 = Some (n, p) -> entry p c.2 x -> can_ping h (rng_ s) p x.

Lemma ready_moved h s s' : ok s -> ok s' -> moved s s' -> conns_rel updated s s' -> ready h s -> ready h s'.
Proof.
  intros H H' Hm Hu [H0 Hr]. split; [done|]. intros c n p x Hc Hh He. rewrite (moved_connections s s' Hm) in Hc.
  destruct (live_connection s c H Hc) as (n0 & p0 & x0 & Hh0 & He0 & Hx0 & _). destruct (mv_ports _ _ Hm _ _ _ Hh0) as (l & Hh1). rewrite Hh in Hh1. injection Hh1 as -> ->.
  destruct (Hu c x0 Hc Hx0) as (x1 & Hx1 & _ & _ & Ec & Er). destruct (ok_ports s' H' _ _ _ Hh) as [Hk _].
  unfold connection in Hx1. rewrite Hh, (GetConnection_entry _ c.2 x) in Hx1 by done. injection Hx1 as ->. destruct (Hr c n0 p0 x0 Hc Hh0 He0) as [A B C D E].
  assert (Eg : rng_ s' = rng_ s) by (by destruct (ev_effect _ _ (mv_evolves _ _ Hm)) as (tr & d & ->)).
  rewrite Eg. split; rewrite ?Ec, ?Er; done.
Qed.
Lemma last_moved (R : relation Connection) s s' c : (forall x x', R x x' -> last_ping_sent_ x' = last_ping_sent_ x) -> ok s -> c ∈ connections_ s -> conns_rel R s s' -> last s' c = last s c.
Proof.
  intros HRl H Hc Hu. destruct (live_connection s c H Hc) as (_ & _ & x & _ & _ & Hx & _). destruct (Hu c x Hc Hx) as (x' & Hx' & Hr). unfold last. rewrite Hx, Hx'. by apply HRl.
Qed.
Lemma last_updated s s' c : ok s -> c ∈ connections_ s -> conns_rel updated s s' -> last s' c = last s c.
Proof. apply last_moved. by intros x x' (_ & ? & _). Qed.

Lemma use_candidate_ok s c : ok s -> c ∈ connections_ s -> exists u, use_candidate c s = Ok u s.
Proof.
  intros H Hc. unfold use_candidate, bind, gets. pose proof (is_writable_ok s H) as Hw. cbv beta.
  destruct (bool_decide _); [|by exists false]. destruct (_ && _).
  - destruct (best_connection_ s) as [b|] eqn:Eb; [|by exists true]. destruct (bool_decide (c = b)); [by exists true|]. rewrite Hw. destruct (best_writable s); [|by exists true].
    unfold higher_priority, bind, look. cbn [negb]. pose proof (ok_best s H b Eb) as Hb.
    destruct (live_connection s c H Hc) as (_ & _ & x & _ & _ & Hx & _), (live_connection s b H Hb) as (_ & _ & y & _ & _ & Hy & _).
    destruct (view_of_ok s c x H Hc Hx) as (v & -> & _), (view_of_ok s b y H Hb Hy) as (vb & -> & _). by eexists.
  - destruct (_ && _); [rewrite Hw; by eexists|by exists false].
Qed.

Lemma PingConnection_ok now h c s : ok s -> c ∈ connections_ s -> ready h s -> exists s', PingConnection now h c s = Ok tt s' /\ ok s' /\
  connections_ s' = connections_ s /\ (forall d, d ∈ connections_ s -> last s' d = if decide (d = c) then now else last s d) /\ trace_ s' = trace_ s /\ writable_ s' = writable_ s.
Proof.
  intros H Hc [H0 Hr]. destruct (use_candidate_ok s c H Hc) as (u & Eu). destruct (live_connection s c H Hc) as (n & p & x & Hh & He & Hx & Hok & Hk).
  destruct (Hr c n p x Hc Hh He) as [A B C D E]. destruct (Ping_ok now h p (set_use_candidate_attr u x) (rng_ s)) as (x' & g' & EP & Hev & Hl); [by destruct Hok|by split|done|].
  unfold PingConnection, bind, network_port, deref, gets, modify. rewrite Eu. cbv beta. rewrite Hh. cbv beta iota. rewrite Hx. cbn [snd]. rewrite EP. cbn [defined ret fst snd].
  eexists. split; [reflexivity|]. assert (H1 : ok (put_conn c x' s)) by (by apply (ok_put s c n p x x')). split; [by split; apply H1|].
  pose proof (heap_put_conn s c n p x' Hh) as Eh. split; [by rewrite Eh|]. split; [|by rewrite Eh]. intros d Hd. unfold last.
  change (connection d (put_rng g' (put_conn c x' s))) with (connection d (put_conn c x' s)). rewrite (connection_put s c n p x x') by done. by destruct (decide (d = c)).
Qed.

(** OnPing, when a request can be made: it goes to the chosen connection, if
    there is one, and to no other. *)
Lemma OnPing_ok now h s : ok s -> later now s -> ready h s -> exists due r s1 s',
  choice now s = Ok (due, r) s1 /\ OnPing now h s = Ok tt s' /\ ok s1 /\ connections_ s1 = connections_ s /\ ok s' /\ connections_ s' = connections_ s /\
  (forall c, c ∈ connections_ s -> last s1 c = last s c) /\
  match r with
  | None => due = false /\ forall c, c ∈ connections_ s1 -> ~ pingable s1 c
  | Some c => c ∈ connections_ s1 /\
      (if due then best_connection_ s1 = Some c else pingable s1 c /\ forall d, d ∈ connections_ s1 -> pingable s1 d -> last s1 c <= last s1 d)
  end /\
  forall d, d ∈ connections_ s -> last s' d = if decide (r = Some d) then now else last s d.
Proof.
  intros H Hl Hr. destruct (proj1 (returns_Ok _ _ _) (UpdateConnectionStates_returns now s H)) as ([] & s1 & E1 & Hm & H1 & Hu).
  pose proof (moved_connections s s1 Hm) as Ec. assert (Hlast : forall c, c ∈ connections_ s -> last s1 c = last s c) by (intros c Hc; by apply last_updated).
  assert (Hl1 : later now s1). { destruct Hl as [Hb Hl]. split; [done|]. intros c Hc. rewrite Ec in Hc. rewrite Hlast by done. by apply Hl. }
  destruct (FindNextPingableConnection_ok now s1 H1 Hl1) as (due & r & Ed & Ef & Hspec). exists due, r, s1.
  assert (Echoice : choice now s = Ok (due, r) s1) by (unfold choice, bind; by rewrite E1, Ed, Ef).
  assert (Hping : exists s', OnPing now h s = Ok tt s' /\ ok s' /\ connections_ s' = connections_ s /\
            forall d, d ∈ connections_ s -> last s' d = if decide (r = Some d) then now else last s d).
  { unfold OnPing, bind. rewrite E1, Ef. destruct r as [c|].
    - destruct Hspec as [Hc _]. destruct (PingConnection_ok now h c s1 H1 Hc (ready_moved h s s1 H H1 Hm Hu Hr)) as (s2 & E2 & H2 & Ec2 & Hl2 & _). rewrite E2.
      eexists. split; [reflexivity|]. split; [by split; apply H2|]. split; [by rewrite <- Ec, <- Ec2|]. intros d Hd. match goal with |- last ?st d = _ => change (last st d) with (last s2 d) end.
      rewrite Hl2 by (by rewrite Ec). rewrite Hlast by done. destruct (decide (d = c)) as [->|Hne]; [by rewrite decide_True|]. rewrite decide_False; [done|congruence].
    - cbn [ret]. eexists. split; [reflexivity|]. split; [by split; apply H1|]. split; [done|]. intros d Hd. match goal with |- last ?st d = _ => change (last st d) with (last s1 d) end. rewrite Hlast by done. done. }
  destruct Hping as (s' & E & H' & Ec' & Hl'). exists s'. repeat (split; [done|]). done.
Qed.

(** ** Fairness *)

(** What happens to the channel between two pings. *)
Definition no_ping (s s' : t) : Prop := ok s' /\ connections_ s' ≡ₚ connections_ s /\ forall c, c ∈ connections_ s -> last s' c = last s c.

Lemma sort_no_ping now s : ok s -> protocol_type_ s <> SessionDescription.ICEPROTO_HYBRID -> small_generations s ->
  exists s', SortConnections now s = Ok tt s' /\ no_ping s s'.
Proof.
  intros H Hp Hsm. destruct (proj1 (returns_Ok _ _ _) (SortConnections_phases now s H Hp Hsm)) as ([] & s' & E & s1 & s2 & s3 & Hph). exists s'. split; [done|].
  split; [apply Hph|]. split; [by apply (ph_connections s s1 s2 s3 s')|]. intros c Hc.
  assert (Hc1 : c ∈ connections_ s2) by (rewrite (ph_perm _ _ _ _ _ Hph), (moved_connections _ _ (ph_update _ _ _ _ _ Hph)); done).
  transitivity (last s3 c); [unfold last; by rewrite (ph_connection s s1 s2 s3 s' Hph)|].
  transitivity (last s2 c); [apply (last_moved pings_kept); [done|apply Hph|done|apply (ph_pruning _ _ _ _ _ Hph)]|].
  transitivity (last s1 c); [unfold last, connection; by rewrite (ph_heap _ _ _ _ _ Hph)|]. apply last_updated; [done..|apply Hph].
Qed.

(** [c] waits while [k] pings go to others by their age, and any number to
    the best connection because it is due; it could have been pinged each time. *)
Inductive waits (c : cid) (s0 : t) : nat -> t -> Prop :=
  | waits_start : waits c s0 0 s0
  | waits_other k s s' : waits c s0 k s -> no_ping s s' -> waits c s0 k s'
  | waits_ping k s s1 s' now h due r : waits c s0 k s -> later now s -> ready h s ->
      choice now s = Ok (due, r) s1 -> pingable s1 c -> r <> Some c -> OnPing now h s = Ok tt s' ->
      waits c s0 (if due then k else S k) s'.

(** The connections that are to be pinged before [c], or with it. *)
Definition older (c : cid) (s : t) (d : cid) : Prop := d <> c /\ last s d <= last s c.
#[export] Instance older_dec c s d : Decision (older c s d). Proof. unfold older. apply _. Defined.
Definition before (c : cid) (s : t) : list cid := filter (older c s) (connections_ s).

Lemma filter_length_le {A} (P Q : A -> Prop) `{forall a, Decision (P a)} `{forall a, Decision (Q a)} l :
  (forall a, a ∈ l -> P a -> Q a) -> (length (filter P l) <= length (filter Q l))%nat.
Proof.
  induction l as [|a l IH]; intros Hl; [done|]. assert (Hl' : forall b, b ∈ l -> P b -> Q b) by (intros b Hb; apply Hl; by right). specialize (IH Hl').
  rewrite !filter_cons. destruct (decide (P a)) as [Ha|]; [rewrite decide_True by (apply Hl; [left|done]); cbn; lia|]. destruct (decide (Q a)); cbn; lia.
Qed.
Lemma filter_length_lt {A} (P Q : A -> Prop) `{forall a, Decision (P a)} `{forall a, Decision (Q a)} l a :
  (forall a, a ∈ l -> P a -> Q a) -> a ∈ l -> Q a -> ~ P a -> (length (filter P l) < length (filter Q l))%nat.
Proof.
  induction l as [|b l IH]; intros Hl Ha HQ HP; [by apply elem_of_nil in Ha|]. assert (Hl' : forall b, b ∈ l -> P b -> Q b) by (intros d Hd; apply Hl; by right).
  rewrite !filter_cons. apply elem_of_cons in Ha as [<-|Ha].
  - rewrite decide_False, decide_True by done. cbn. pose proof (filter_length_le P Q l Hl'). lia.
  - specialize (IH Hl' Ha HQ HP). destruct (decide (P b)); [rewrite decide_True by (apply Hl; [left|done]); cbn; lia|]. destruct (decide (Q b)); cbn; lia.
Qed.

Lemma before_perm c s l : connections_ s ≡ₚ l -> length (before c s) = length (filter (older c s) l).
Proof. intros E. unfold before. apply Permutation_length. by rewrite E. Qed.

(** A ping of another connection: it is no longer before [c]. *)
Lemma ping_measure c s s1 s' now h due r : ok s -> c ∈ connections_ s -> later now s -> ready h s -> choice now s = Ok (due, r) s1 -> pingable s1 c -> r <> Some c ->
  OnPing now h s = Ok tt s' ->
  ok s' /\ connections_ s' = connections_ s /\ (length (before c s') + (if due then 0 else 1) <= length (before c s))%nat.
Proof.
  intros H Hc Hl Hr Ech Hp Hne E. destruct (OnPing_ok now h s H Hl Hr) as (due' & r' & s1' & s2 & Ech' & E' & H1 & Ec1 & H2 & Ec2 & Hl1 & Hspec & Hl2).
  rewrite Ech in Ech'. injection Ech' as <- <- <-. rewrite E in E'. injection E' as <-. split; [done|split; [done|]].
  rewrite (before_perm c s' (connections_ s)) by (by rewrite Ec2). unfold before.
  assert (Hlc : last s' c = last s c) by (rewrite Hl2 by done; by rewrite decide_False).
  assert (Hsub : forall d, d ∈ connections_ s -> older c s' d -> older c s d).
  { intros d Hd [Hdc Hle]. split; [done|]. rewrite Hlc, Hl2 in Hle by done. destruct (decide (r = Some d)); [|done]. destruct Hl as [_ Hl]. specialize (Hl c Hc). lia. }
  destruct due; [rewrite Nat.add_0_r; by apply filter_length_le|]. destruct r as [d|]; [|destruct Hspec as [_ Hno]; by destruct (Hno c ltac:(by rewrite Ec1))].
  destruct Hspec as [Hd [_ Hmin]]. rewrite Ec1 in Hd. specialize (Hmin c ltac:(by rewrite Ec1) Hp). rewrite !Hl1 in Hmin by done.
  rewrite Nat.add_1_r. apply Nat.le_succ_l. apply (filter_length_lt _ _ _ d); [done|done|split; [congruence|done]|].
  intros [_ Hle]. rewrite Hlc, Hl2 in Hle by done. rewrite decide_True in Hle by done. destruct Hl as [_ Hl]. specialize (Hl c Hc). lia.
Qed.

Lemma waits_measure c s0 k s : ok s0 -> c ∈ connections_ s0 -> waits c s0 k s ->
  ok s /\ connections_ s ≡ₚ connections_ s0 /\ (k + length (before c s) <= length (before c s0))%nat.
Proof.
  intros H Hc. induction 1 as [|k s s' Hw (H1 & Ec1 & Hl1) (H2 & Ec2 & Hl2)|k s s1 s' now h due r Hw (H1 & Ec1 & Hl1) Hlater Hr Ech Hp Hne E].
  - split; [done|split; [done|lia]].
  - assert (Hcs : c ∈ connections_ s) by (by rewrite Ec1). split; [done|split; [by rewrite Ec2|]]. rewrite (before_perm c s' (connections_ s)) by done.
    enough (length (filter (older c s') (connections_ s)) <= length (before c s))%nat by lia.
    apply filter_length_le. intros d Hd. unfold older. by rewrite !Hl2.
  - assert (Hcs : c ∈ connections_ s) by (by rewrite Ec1). destruct (ping_measure c s s1 s' now h due r) as (H2 & Ec2 & Hm); [done..|].
    split; [done|split; [by rewrite Ec2|]]. destruct due; lia.
Qed.

End Ping.
End ChannelPing.
