(* ===== verification/ChannelInv.v ===== *)
(** * No handler of a channel leaves a dangling pointer

    The invariant of ChannelState.v holds in a new channel and is kept by the
    handlers: packets, candidates, ports, sorts, pings, deletions, changes of
    role and credentials.  Reset does not keep it. *)

From stdpp Require Import gmap.
From S2P Require Import Prelude TimeUtils ByteOrder IpAddress Stun Helpers StunRequest SessionDescription IceConnection IcePort Outcome P2PTransportChannel ChannelState ChannelSort ChannelPing.
Import ByteOrder TimeUtils IceConnection Outcome P2PTransportChannel ChannelState ChannelSort ChannelPing.
Open Scope jingle_scope.

Module ChannelInv.

#[local] Existing Instances SessionDescription.TransportProtocol_eq_dec IpAddress.family_eq_dec.

Section Inv.
Context `{HM : Machine} `{HR : Helpers.RandomGenerator}.
Variable inet_ntop : IpAddress.family -> bytes -> option bytes.

(** ** Ports *)

Definition port_wf (p : Port) : Prop := forall k x, entry p k x -> conn_ok p x.
(** The same keys; the connections are still well. *)
Definition port_evolves (p p' : Port) : Prop :=
  (exists f, IcePort.connections_ p' = map (fun e => (e.1, f e)) (IcePort.connections_ p)) /\ (port_wf p -> port_wf p') /\
  (IcePort.candidates_ p <> [] -> IcePort.candidates_ p' <> []).

Lemma map_ext_key (l : list (IpAddress.SocketAddress * Connection)) : map (fun e => (e.1, e.2)) l = l.
Proof. induction l as [|[k x] l IH]; [done|]. cbn. by rewrite IH. Qed.
#[export] Instance port_evolves_preorder : PreOrder port_evolves.
Proof.
  split.
  - intros p. split; [|by split]. exists snd. by rewrite map_ext_key.
  - intros p1 p2 p3 [(f & Ef) [H1 C1]] [(g & Eg) [H2 C2]]. split; [|split; auto]. exists (fun e => g (e.1, f e)). rewrite Eg, Ef, map_map. by apply map_ext.
Qed.
Lemma evolves_entry p p' : port_evolves p p' -> (forall k, (exists x, entry p k x) <-> exists x', entry p' k x') /\ (keys_ok p -> keys_ok p').
Proof.
  intros [(f & E) _]. unfold entry, keys_ok. rewrite E. split.
  - intros k. split; [intros (x & Hx); exists (f (k, x)); apply in_map_iff; by exists (k, x)|]. intros (x' & Hx'). apply in_map_iff in Hx' as ([k1 x] & [= -> _] & Hx). by exists x.
  - intros Hk k x k' x' Hx Hx' Hs. unfold entry in *. rewrite E in Hx, Hx'. apply in_map_iff in Hx as ([k1 x1] & [= -> <-] & Hx), Hx' as ([k2 x2] & [= -> <-] & Hx').
    cbn [fst] in Hs. pose proof (Hk _ _ _ _ Hx Hx' Hs) as [= -> ->]. done.
Qed.

Lemma put_connection_evolves addr p x x' : IcePort.GetConnection addr p = Some x -> conn_evolves x x' -> port_evolves p (IcePort.put_connection addr x' p).
Proof.
  intros Hx (Hi & _ & Hr). split.
  - exists (fun e => if IcePort.same_key e.1 addr then x' else e.2). cbn [IcePort.put_connection IcePort.put_connections IcePort.connections_].
    apply map_ext. intros [k y]. cbn [fst snd]. by destruct (IcePort.same_key k addr).
  - split; [|done]. intros Hwf k y He. unfold entry, IcePort.put_connection in He. cbn [IcePort.put_connections IcePort.connections_] in He. apply in_map_iff in He as ([k1 y1] & E & Hin).
    apply GetConnection_key in Hx as (k2 & _ & Hk2). pose proof (Hwf k2 x Hk2) as [Hl Hq]. destruct (IcePort.same_key _ addr); injection E as -> <-.
    + split; [|by apply Hr]. unfold IcePort.local_candidate in *. by rewrite Hi.
    + by apply (Hwf k y1).
Qed.
(** Ports that differ in what connections do not use. *)
Lemma same_connections_evolves p p' : IcePort.connections_ p' = IcePort.connections_ p -> IcePort.candidates_ p' = IcePort.candidates_ p -> port_evolves p p'.
Proof.
  intros E Ec. split; [exists snd; by rewrite E, map_ext_key|]. split; [|by rewrite Ec]. intros Hwf k x He. unfold entry in He. rewrite E in He. destruct (Hwf k x He) as [Hl Hr].
  split; [|done]. unfold IcePort.local_candidate in *. by rewrite Ec.
Qed.

Lemma ok_put_port s pid n p p' : ok s -> heap s !! pid = Some (n, p) -> port_evolves p p' -> ok (put_port pid p' s).
Proof.
  intros H Hh He. destruct (evolves_entry p p' He) as [Hent Hkeys]. unfold put_port. rewrite Hh. destruct (ok_ports s H _ _ _ Hh) as [Hk Hx].
  split; cbn [put_heap heap connections_ best_connection_ pending_best_connection_ writable_ was_writable_ remote_candidates_]; try apply H.
  - intros pid1 n1 p1. destruct (decide (pid1 = pid)) as [->|]; [|rewrite lookup_insert_ne by done; apply H].
    rewrite lookup_insert_eq. intros [= <- <-]. split; [by apply Hkeys|]. intros k x' Hx'. destruct (proj2 (Hent k) (ex_intro _ x' Hx')) as (x & Hxe).
    split; [by apply (Hx k x)|]. apply (proj1 (proj2 He)) with k; [|done]. intros k1 x1 He1. by apply (Hx k1).
  - intros pid1 n1 p1. destruct (decide (pid1 = pid)) as [->|]; [|rewrite lookup_insert_ne by done; apply (ok_candidates s H)].
    rewrite lookup_insert_eq. intros [= <- <-]. apply He. by apply (ok_candidates s H pid n p).
  - intros c Hc. destruct (ok_live s H c Hc) as (n1 & p1 & x1 & Hh1 & He1). destruct (decide (c.1 = pid)) as [E|].
    + rewrite E in *. rewrite Hh in Hh1. injection Hh1 as <- <-. destruct (proj1 (Hent c.2) (ex_intro _ x1 He1)) as (x' & Hx'). exists n, p', x'. by rewrite lookup_insert_eq.
    + exists n1, p1, x1. by rewrite lookup_insert_ne.
Qed.

(** ** Computations that keep the invariant *)

Definition holds {A} (m : comp t A) (s : t) (Q : A -> t -> Prop) : Prop :=
  match m s with Ok a s' => ok s' /\ Q a s' | Fail s' => ok s' | Stuck => True end.
Definition keeps {A} (m : comp t A) : Prop := forall s, ok s -> holds m s (fun _ _ => True).

Lemma holds_bind {A B} (m : comp t A) (k : A -> comp t B) s Q : holds m s (fun a s' => ok s' -> holds (k a) s' Q) -> holds (bind m k) s Q.
Proof. unfold holds, bind. destruct (m s) as [a s'| |]; [|done..]. intros [H1 H2]. by apply H2. Qed.
Lemma holds_weaken {A} (m : comp t A) s (Q Q' : A -> t -> Prop) : holds m s Q -> (forall a s', ok s' -> Q a s' -> Q' a s') -> holds m s Q'.
Proof. unfold holds. destruct (m s); [|done..]. intros [? ?] HQ. auto. Qed.
Lemma holds_attempt {A} (m : comp t A) s : keeps m -> ok s -> holds (attempt m) s (fun _ _ => True).
Proof. intros Hm H. specialize (Hm s H). unfold holds, attempt in *. by destruct (m s). Qed.
Lemma holds_returns {A} (m : comp t A) s Q : returns m s Q -> (forall a s', Q a s' -> ok s') -> holds m s Q.
Proof. unfold returns, holds. destruct (m s); [|done..]. intros HQ Hok. split; [by eapply Hok|done]. Qed.
Lemma keeps_bind {A B} (m : comp t A) (k : A -> comp t B) : keeps m -> (forall a, keeps (k a)) -> keeps (bind m k).
Proof. intros Hm Hk s H. apply holds_bind. eapply holds_weaken; [by apply Hm|]. intros a s' H' _ _. by apply Hk. Qed.
Lemma keeps_for_each {A} (f : A -> comp t unit) l : (forall a, keeps (f a)) -> keeps (for_each f l).
Proof. intros Hf. unfold for_each. generalize tt. induction l as [|a l IH]; intros u s H; cbn [foldM]; [by split|]. by apply keeps_bind; [apply Hf|intros; apply IH|]. Qed.
Lemma keeps_foldM {A B} (f : B -> A -> comp t B) l : (forall b a, keeps (f b a)) -> forall b, keeps (foldM f l b).
Proof. intros Hf. induction l as [|a l IH]; intros b s H; cbn [foldM]; [by split|]. by apply keeps_bind; [apply Hf|intros; apply IH|]. Qed.
Lemma keeps_attempt {A} (m : comp t A) : keeps m -> keeps (attempt m).
Proof. intros Hm s H. by apply holds_attempt. Qed.
Lemma keeps_modify f : (forall s, ok s -> ok (f s)) -> keeps (modify f).
Proof. intros Hf s H. split; [by apply Hf|done]. Qed.
Lemma keeps_gets {A} (f : t -> A) : keeps (gets f).
Proof. intros s H. by split. Qed.
Lemma keeps_ret {A} (a : A) : keeps (ret a).
Proof. intros s H. by split. Qed.
Lemma keeps_when b m : keeps m -> keeps (when b m).
Proof. intros Hm. destruct b; [done|apply keeps_ret]. Qed.
Lemma keeps_oblige b : keeps (oblige b).
Proof. destruct b; [apply keeps_ret|done]. Qed.
Lemma keeps_guard b : keeps (guard b).
Proof. destruct b; [apply keeps_ret|]. by intros s H. Qed.
Lemma keeps_defined {A} (o : option A) : keeps (defined o).
Proof. destruct o; [apply keeps_ret|done]. Qed.
Lemma keeps_network_port pid : keeps (network_port pid).
Proof. intros s H. unfold holds, network_port. by destruct (heap s !! pid). Qed.
Lemma keeps_deref c : keeps (deref c).
Proof. intros s H. unfold holds, deref. by destruct (connection c s). Qed.
Lemma keeps_look c : keeps (look c).
Proof. intros s H. unfold holds, look. by destruct (view_of c s). Qed.
Lemma keeps_emit e : keeps (emit e).
Proof. apply keeps_modify. intros s H. split; apply H. Qed.
Lemma keeps_stuck {A} : keeps (@stuck t A).
Proof. done. Qed.

End Inv.


(** A computation of parts that keep the invariant. *)
Ltac keep :=
  repeat (cbv beta; lazymatch goal with
  | |- keeps (bind _ _) => apply keeps_bind; [|intros ?]
  | |- keeps (ret _) => apply keeps_ret
  | |- keeps (gets _) => apply keeps_gets
  | |- keeps (emit _) => apply keeps_emit
  | |- keeps (oblige _) => apply keeps_oblige
  | |- keeps (guard _) => apply keeps_guard
  | |- keeps (defined _) => apply keeps_defined
  | |- keeps (deref _) => apply keeps_deref
  | |- keeps (look _) => apply keeps_look
  | |- keeps (network_port _) => apply keeps_network_port
  | |- keeps stuck => apply keeps_stuck
  | |- keeps (attempt _) => apply keeps_attempt
  | |- keeps (when _ _) => apply keeps_when
  | |- keeps (for_each _ _) => apply keeps_for_each; intros ?
  | |- keeps (match ?x with _ => _ end) => destruct x
  | |- keeps (modify _) => apply keeps_modify; intros ? ?
  | |- keeps _ => eauto with channel
  end).

Create HintDb channel.

Section Handlers.
Context `{HM : Machine} `{HR : Helpers.RandomGenerator}.
Variable inet_ntop : IpAddress.family -> bytes -> option bytes.

(** ** Slots *)

Definition same_connections (s s' : t) : Prop := connections_ s' = connections_ s.

Lemma ok_same s s' : heap s' = heap s -> connections_ s' = connections_ s -> best_connection_ s' = best_connection_ s ->
  pending_best_connection_ s' = pending_best_connection_ s -> (writable_ s' = true -> was_writable_ s' = true) -> ok s -> ok s'.
Proof. intros E1 E2 E3 E4 E5 H. split; rewrite ?E1, ?E2, ?E3, ?E4; (done || apply H). Qed.
Lemma ok_choose s b p : ok s -> (forall c, b = Some c -> c ∈ connections_ s) -> (forall c, p = Some c -> c ∈ connections_ s) ->
  ok (put_best_connection b (put_pending_best_connection p s)).
Proof. intros H Hb Hp. split; cbn; (done || apply H). Qed.

Lemma SwitchBestConnectionTo_holds o s : ok s -> (forall c, o = Some c -> c ∈ connections_ s) -> holds (SwitchBestConnectionTo o) s (fun _ s' => same_connections s s').
Proof.
  intros H Ho. unfold SwitchBestConnectionTo, holds, bind, modify. assert (H1 : ok (put_best_connection o s)) by (split; cbn; (done || apply H)).
  destruct o as [c|]; [|done]. unfold deref. destruct (connection c _); [|done]. unfold emit, modify. split; [split; apply H1|done].
Qed.
Lemma RequestSort_holds s : ok s -> holds RequestSort s (fun _ s' => same_connections s s').
Proof.
  intros H. unfold RequestSort, holds, bind, gets, when, emit, modify, ret. destruct (sort_dirty_ s); cbn [negb]; [done|]. split; [split; apply H|done].
Qed.
Lemma OnUseCandidate_holds c s : ok s -> c ∈ connections_ s -> holds (OnUseCandidate c) s (fun _ s' => same_connections s s').
Proof.
  intros H Hc. unfold OnUseCandidate. apply holds_bind. split; [done|]. intros _. apply holds_bind. unfold oblige at 1. destruct (bool_decide _); [|done]. split; [done|]. intros _.
  apply holds_bind. split; [done|]. intros _. apply holds_bind. unfold oblige. destruct (bool_decide _); [|done]. split; [done|]. intros _.
  apply holds_bind. unfold holds at 1, deref. destruct (connection c s) as [x|]; [|done]. split; [done|]. intros _. destruct (writable x).
  - apply holds_bind. split; [done|]. intros _. destruct (negb _); cbn [when]; [|by split]. apply holds_bind. split; [split; cbn; (done || apply H)|]. intros H1.
    apply holds_bind. eapply holds_weaken; [apply SwitchBestConnectionTo_holds; [done|by intros ? [= <-]]|]. intros ? s2 H2 E2 _.
    eapply holds_weaken; [by apply RequestSort_holds|]. intros ? s3 _ E3. unfold same_connections in *. cbn in E2. congruence.
  - split; [|done]. split; cbn; try apply H. by intros ? [= <-].
Qed.
Lemma conn_signal_holds c e s : ok s -> c ∈ connections_ s -> holds (conn_signal c e) s (fun _ s' => same_connections s s').
Proof.
  intros H Hc. destruct e as [|data| | |]; cbn [conn_signal].
  - pose proof (OnConnectionStateChange_returns c s H Hc) as Hr. unfold returns, holds in *. destruct (OnConnectionStateChange c s) as [[] s'| |]; [|done..].
    destruct Hr as [He Hh]. split; [by eapply evolves_ok|]. by destruct (slot_effect_fields _ _ (ev_effect _ _ He)).
  - unfold OnReadPacket, holds, bind, gets, when, emit, modify, ret. destruct (bool_decide _); [|done]. split; [split; apply H|done].
  - unfold OnReadyToSend, holds, bind, gets, when, emit, modify, ret. destruct (_ && _); [|done]. split; [split; apply H|done].
  - by apply OnUseCandidate_holds.
  - unfold holds, emit, modify. split; [split; apply H|done].
Qed.
(** A loop whose steps keep the list of connections. *)
Lemma for_each_same {A} (f : A -> comp t unit) l s : (forall a s1, a ∈ l -> ok s1 -> same_connections s s1 -> holds (f a) s1 (fun _ s2 => same_connections s1 s2)) ->
  ok s -> holds (for_each f l) s (fun _ s' => same_connections s s').
Proof.
  intros Hf H. unfold for_each. generalize tt. assert (E : same_connections s s) by done. revert E.
  enough (Hgen : forall l' s1 u, (forall a, a ∈ l' -> a ∈ l) -> ok s1 -> same_connections s s1 -> holds (foldM (fun _ a => f a) l' u) s1 (fun _ s' => same_connections s s')) by (intros; by apply Hgen).
  induction l' as [|a l' IH]; intros s1 u Hin H1 E1; cbn [foldM]; [by split|]. apply holds_bind.
  eapply holds_weaken; [apply (Hf a s1); [apply Hin; left|done..]|]. intros [] s2 H2 E2 _. apply IH; [intros b Hb; apply Hin; by right|done|]. unfold same_connections in *. congruence.
Qed.
Lemma conn_signals_hold c evs s : ok s -> c ∈ connections_ s -> holds (for_each (conn_signal c) evs) s (fun _ s' => same_connections s s').
Proof. intros H Hc. apply for_each_same; [|done]. intros e s1 _ H1 E1. apply conn_signal_holds; [done|]. by rewrite E1. Qed.

Lemma put_conn_ok c s x x' : ok s -> connection c s = Some x -> conn_evolves x x' -> ok (put_conn c x' s) /\ same_connections s (put_conn c x' s).
Proof.
  intros H Hx He. unfold connection in Hx. unfold put_conn. destruct (heap s !! c.1) as [[n p]|] eqn:Hh; [|done].
  split; [apply (ok_put_port s c.1 n p); [done..|by apply (put_connection_evolves c.2 p x)]|]. unfold put_port. by rewrite Hh.
Qed.
Lemma call_holds c f s : ok s -> c ∈ connections_ s -> (forall p x x' evs, f p x = Some (x', evs) -> conn_evolves x x') ->
  holds (call c f) s (fun _ s' => same_connections s s').
Proof.
  intros H Hc Hf. unfold call. apply holds_bind. unfold holds at 1, network_port. destruct (heap s !! c.1) as [np|]; [|done]. split; [done|]. intros _.
  apply holds_bind. unfold holds at 1, deref. destruct (connection c s) as [x|] eqn:Hx; [|done]. split; [done|]. intros _. apply holds_bind.
  destruct (f np.2 x) as [[x' evs]|] eqn:Ef; cbn [defined]; [|done]. split; [done|]. intros _. cbn [fst snd]. apply holds_bind.
  destruct (put_conn_ok c s x x' H Hx (Hf _ _ _ _ Ef)) as [H1 E1]. split; [done|]. intros _. eapply holds_weaken; [apply conn_signals_hold; [done|by rewrite E1]|].
  intros ? s2 _ E2. unfold same_connections in *. congruence.
Qed.

(** ** New connections *)

Lemma find_key_none addr p k x : find_key addr p = None -> entry p k x -> IcePort.same_key k addr = false.
Proof. unfold find_key. destruct (find _ _) eqn:E; [done|]. intros _ He. exact (List.find_none _ _ E (k, x) He). Qed.
Lemma same_key_sym a b : IcePort.same_key a b = IcePort.same_key b a.
Proof. unfold IcePort.same_key. apply andb_comm. Qed.
Lemma find_key_connected s pid n p addr key : ok s -> heap s !! pid = Some (n, p) -> find_key addr p = Some key -> (pid, key) ∈ connections_ s.
Proof. intros H Hh (x & He)%find_key_entry. destruct (ok_ports s H _ _ _ Hh) as [_ Hx]. by apply (Hx key x). Qed.

(** The port has a new connection that the channel does not know yet. *)
Definition port_added (pid : Z) (a : SessionDescription.Candidate) (s : t) (p : Port) : t :=
  put_port pid (IcePort.put_connections (IcePort.connections_ p ++ [(SessionDescription.address_ a, IceConnection.new 0 a)]) p) s.

Lemma port_CreateConnection_spec pid a s n p : heap s !! pid = Some (n, p) -> find_key (SessionDescription.address_ a) p = None ->
  match port_CreateConnection pid a s with
  | Ok c s1 => c = (pid, SessionDescription.address_ a) /\ s1 = port_added pid a s p
  | Fail s1 => s1 = s
  | Stuck => True
  end.
Proof.
  intros Hh Hf. unfold port_CreateConnection, bind, network_port. rewrite Hh. unfold guard. destruct (bool_decide _); cbn [ret fail]; [|done].
  destruct (IcePort.IsCompatibleAddress _ _); cbn [ret fail]; [|done].
  assert (Ea : (IcePort.AddConnection (IceConnection.new 0 a) p).1 =
            IcePort.put_connections (IcePort.connections_ p ++ [(SessionDescription.address_ a, IceConnection.new 0 a)]) p).
  { unfold IcePort.AddConnection, IcePort.addr_of. cbn [IceConnection.new remote_candidate_]. unfold IcePort.GetConnection. unfold find_key in Hf. by destruct (find _ _). }
  cbn [snd]. rewrite Ea. destruct (IcePort.shared_socket_ p); cbn [when]; [|done].
  unfold defined, oblige. destruct (IcePort.candidates_ p !! 0%nat); cbn; [|done]. by destruct (bool_decide _).
Qed.

Lemma AddConnection_holds pid a s n p : ok s -> heap s !! pid = Some (n, p) -> find_key (SessionDescription.address_ a) p = None ->
  holds (AddConnection (pid, SessionDescription.address_ a)) (port_added pid a s p) (fun _ s' => (pid, SessionDescription.address_ a) ∈ connections_ s').
Proof.
  intros H Hh Hf. set (addr := SessionDescription.address_ a) in *. set (c := (pid, addr)). set (s1 := port_added pid a s p).
  set (p1 := IcePort.put_connections (IcePort.connections_ p ++ [(addr, IceConnection.new 0 a)]) p).
  assert (Es1 : s1 = put_heap (<[pid := (n, p1)]> (heap s)) s) by (unfold s1, port_added, put_port; by rewrite Hh).
  destruct (ok_ports s H _ _ _ Hh) as [Hk Hx].
  assert (Hent : forall k x, entry p1 k x <-> entry p k x \/ (k = addr /\ x = IceConnection.new 0 a)).
  { intros k x. unfold entry, p1. cbn [IcePort.put_connections IcePort.connections_]. rewrite in_app_iff. cbn. intuition congruence. }
  assert (Hfresh : forall k x, entry p k x -> IcePort.same_key k addr = false) by (intros k x; by apply find_key_none).
  assert (Hnew : c ∉ connections_ s).
  { intros Hin. destruct (ok_live s H c Hin) as (n0 & p0 & x0 & Hh0 & He0). cbn in Hh0, He0. rewrite Hh in Hh0. injection Hh0 as <- <-.
    pose proof (Hfresh _ _ He0) as Hn. by rewrite same_key_refl in Hn. }
  assert (H2 : ok (put_connections (connections_ s ++ [c]) s1)).
  { rewrite Es1. split; cbn [put_connections put_heap heap connections_ best_connection_ pending_best_connection_ writable_ was_writable_].
    - intros pid1 n1 q. destruct (decide (pid1 = pid)) as [->|Hne].
      + rewrite lookup_insert_eq. intros [= <- <-]. split.
        * intros k x k' x' He He' Hs. apply Hent in He as [He|[-> ->]], He' as [He'|[-> ->]]; [by apply (Hk k x k' x')| | |done].
          -- rewrite (Hfresh _ _ He) in Hs. done.
          -- rewrite same_key_sym, (Hfresh _ _ He') in Hs. done.
        * intros k x [He|[-> ->]]%Hent; [destruct (Hx k x He) as [Hin [Hl Hr]]; split; [apply elem_of_app; by left|by split]|].
          split; [apply elem_of_app; right; left|]. split; [|apply StunRequest.inv_new].
          pose proof (ok_candidates s H _ _ _ Hh) as Hc. unfold IcePort.local_candidate. cbn. destruct (IcePort.candidates_ p); [done|by eexists].
      + rewrite lookup_insert_ne by done. intros Hh1. destruct (ok_ports s H _ _ _ Hh1) as [Hk1 Hx1]. split; [done|]. intros k x He. destruct (Hx1 k x He). split; [apply elem_of_app; by left|done].
    - intros pid1 n1 q. destruct (decide (pid1 = pid)) as [->|Hne]; [|rewrite lookup_insert_ne by done; apply (ok_candidates s H)].
      rewrite lookup_insert_eq. intros [= <- <-]. by apply (ok_candidates s H _ _ _ Hh).
    - intros d [Hd| ->%list_elem_of_singleton]%elem_of_app.
      + destruct (ok_live s H d Hd) as (n0 & p0 & x0 & Hh0 & He0). destruct (decide (d.1 = pid)) as [E|].
        * rewrite E in *. rewrite lookup_insert_eq. rewrite Hh in Hh0. injection Hh0 as <- <-. exists n, p1, x0. split; [done|]. apply Hent. by left.
        * rewrite lookup_insert_ne by done. by exists n0, p0, x0.
      + cbn. rewrite lookup_insert_eq. exists n, p1, (IceConnection.new 0 a). split; [done|]. apply Hent. by right.
    - apply NoDup_app. split; [apply H|]. split; [|apply NoDup_singleton]. intros d Hd ->%list_elem_of_singleton. done.
    - intros d Hd. apply elem_of_app. left. by apply (ok_best s H).
    - intros d Hd. apply elem_of_app. left. by apply (ok_pending s H).
    - apply H. }
  unfold AddConnection. unfold holds, bind, gets, modify. assert (Ec : connections_ s1 = connections_ s) by (by rewrite Es1). rewrite Ec.
  set (s2 := put_connections _ s1) in *. unfold deref. destruct (connection c s2) as [x|] eqn:Ex; [|done].
  destruct (put_conn_ok c s2 x (set_remote_ice_mode (remote_ice_mode_ s2) x) H2 Ex) as [H3 E3]; [done|]. split; [done|]. rewrite E3. apply elem_of_app. right. left.
Qed.

Lemma created_holds pid a s n p : ok s -> heap s !! pid = Some (n, p) -> find_key (SessionDescription.address_ a) p = None ->
  holds (c <- port_CreateConnection pid a ;; AddConnection c ;;; ret c) s (fun c s' => c ∈ connections_ s').
Proof.
  intros H Hh Hf. pose proof (port_CreateConnection_spec pid a s n p Hh Hf) as Hc. unfold holds, bind at 1. destruct (port_CreateConnection pid a s) as [c s1|s1|]; [|by subst|done].
  destruct Hc as [-> ->]. pose proof (AddConnection_holds pid a s n p H Hh Hf) as Ha. unfold holds, bind in *. by destruct (AddConnection _ _).
Qed.

Lemma ReceivedPing_evolves now x x' evs : Some (ReceivedPing now x) = Some (x', evs) -> conn_evolves x x'.
Proof. intros E. apply (f_equal (option_map fst)) in E. cbn [option_map fst] in E. injection E as <-. by split; [|split]. Qed.

Lemma keeps_CreateConnection now pid a origin readable : keeps (CreateConnection now pid a origin readable).
Proof.
  intros s H. unfold CreateConnection. apply holds_bind. unfold holds at 1, network_port. destruct (heap s !! pid) as [[n p]|] eqn:Hh; [|done]. split; [done|]. intros _. cbn [snd].
  apply holds_bind.
  assert (Hcall : forall c s1, ok s1 -> c ∈ connections_ s1 -> holds (when readable (call c (fun _ x => Some (ReceivedPing now x)))) s1 (fun _ _ => True)).
  { intros c s1 H1 Hc. destruct readable; cbn [when]; [|by split]. eapply holds_weaken; [apply call_holds; [done|done|]|done].
    intros q x x' evs. apply ReceivedPing_evolves. }
  destruct (find_key _ p) as [key|] eqn:Ef.
  - pose proof (find_key_connected s pid n p _ key H Hh Ef) as Hc. unfold holds at 1, bind, deref. destruct (connection (pid, key) s) as [x|]; [|done].
    unfold guard. destruct (SessionDescription.IsEquivalent _ _); cbn [ret fail]; [|done]. split; [done|]. intros _. by apply Hcall.
  - apply holds_bind. split; [done|]. intros _. apply holds_bind. unfold guard. destruct (negb _); cbn [ret fail]; [|done]. split; [done|]. intros _.
    eapply holds_weaken; [by apply (created_holds pid a s n p)|]. intros c s1 H1 Hc _. by apply Hcall.
Qed.
#[local] Hint Resolve keeps_CreateConnection : channel.

Ltac irrelevant := match goal with H : ok ?s |- ok _ => refine (ok_same s _ _ _ _ _ _ H); [reflexivity..|exact (ok_was s H)] end.

Lemma keeps_RememberRemoteCandidate a origin : keeps (RememberRemoteCandidate a origin).
Proof. unfold RememberRemoteCandidate, IsDuplicateRemoteCandidate. keep; irrelevant. Qed.
#[local] Hint Resolve keeps_RememberRemoteCandidate : channel.
Lemma keeps_CreateConnections now a origin readable : keeps (CreateConnections now a origin readable).
Proof. unfold CreateConnections, GetRemoteCandidateGeneration, IsDuplicateRemoteCandidate. keep. apply keeps_foldM. intros. keep. Qed.

#[local] Hint Resolve keeps_CreateConnections : channel.

(** ** Sorts *)

Lemma keeps_UpdateConnectionStates now : keeps (UpdateConnectionStates now).
Proof. intros s H. eapply holds_weaken; [apply holds_returns; [by apply UpdateConnectionStates_returns|by intros ? ? (_ & ? & _)]|done]. Qed.
Lemma keeps_any_connection f l : keeps (any_connection f l).
Proof. induction l as [|c l IH]; cbn [any_connection]; keep; done. Qed.
#[local] Hint Resolve keeps_UpdateConnectionStates keeps_any_connection : channel.
Lemma keeps_UpdateChannelState : keeps UpdateChannelState.
Proof. unfold UpdateChannelState, is_writable, set_readable. keep; irrelevant. Qed.
#[local] Hint Resolve keeps_UpdateChannelState : channel.

Lemma choose_best_holds sorted s : ok s -> (forall v, v ∈ sorted -> v_id v ∈ connections_ s) -> holds (choose_best sorted) s (fun _ _ => True).
Proof.
  intros H Hin. unfold choose_best. apply holds_bind. split; [done|]. intros _. apply holds_bind. split; [done|]. intros _. destruct (_ || _); cbn [when]; [|by split].
  apply holds_bind. unfold look_best. assert (Hl : exists o, (best <- gets best_connection_ ;; match best with Some c => v <- look c ;; ret (Some v) | None => ret None end) s = Ok o s \/
    (best <- gets best_connection_ ;; match best with Some c => v <- look c ;; ret (Some v) | None => ret None end) s = Stuck).
  { unfold bind, gets, look. destruct (best_connection_ s) as [c|]; [|exists None; by left]. destruct (view_of c s) as [v|]; [exists (Some v); by left|exists None; by right]. }
  destruct Hl as (o & [E|E]); unfold holds at 1; rewrite E; [|done]. split; [done|]. intros _. destruct (ShouldSwitch _ _); cbn [when]; [|by split].
  eapply holds_weaken; [apply SwitchBestConnectionTo_holds; [done|]|done]. intros c. destruct sorted as [|v sorted]; [done|]. intros [= <-]. apply Hin. left.
Qed.

Lemma keeps_SortConnections now : keeps (SortConnections now).
Proof.
  intros s H. unfold SortConnections. apply holds_bind. eapply holds_weaken; [by apply keeps_UpdateConnectionStates|]. intros ? s1 H1 _ _.
  apply holds_bind. split; [done|]. intros _. destruct (bool_decide _); [by apply keeps_UpdateChannelState|].
  apply holds_bind. assert (H1a : ok (put_sort_dirty false s1)) by (split; apply H1). split; [done|]. intros _. apply holds_bind. split; [done|]. intros _.
  destruct (look_views (connections_ s1) (put_sort_dirty false s1) H1a) as (vs & Evs & HF); [done|]. apply holds_bind. unfold holds at 1. cbn [put_sort_dirty connections_]. rewrite Evs. split; [done|]. intros _.
  apply holds_bind. set (sorted := stable_sort ConnectionCompare vs).
  assert (Hids : map v_id vs = connections_ s1) by (clear -HF; induction HF as [|c v l l' [_ E] _ IH]; [done|]; cbn; by rewrite E, IH).
  assert (Hl : map v_id sorted ≡ₚ connections_ s1) by (rewrite <- Hids; apply fmap_Permutation, stable_sort_perm).
  assert (H2 : ok (put_connections (map v_id sorted) (put_sort_dirty false s1))) by (by apply ok_perm). split; [done|]. intros _.
  apply holds_bind. eapply holds_weaken; [apply choose_best_holds; [done|]|].
  { intros v Hv. cbn. by apply list_elem_of_fmap_2. }
  intros ? s3 H3 _ _. apply holds_bind. eapply holds_weaken; [apply holds_returns; [by apply prune_networks_return|intros ? ?; apply pr_ok]|].
  intros ? s4 H4 _ _. eapply holds_weaken; [apply holds_returns; [by apply update_writable_returns|by intros ? ? (_ & ? & _)]|done].
Qed.
#[local] Hint Resolve keeps_SortConnections : channel.

(** ** Pings *)

(** The pointer to a new request is not in use. *)
Definition fresh_pointer (h : Z) (s : t) : Prop := h <> 0 /\ forall c x, c ∈ connections_ s -> connection c s = Some x -> StunRequest.heap (requests_ x) !! h = None.

Lemma Ping_evolves now h x p g x' g' : IcePort.Ping now h x p g = Some (x', g') -> h <> 0 -> StunRequest.heap (requests_ x) !! h = None -> conn_evolves x x'.
Proof.
  intros E H0 Hh. unfold IcePort.Ping in E. destruct (connected_ x); cbn [negb] in E; [|done]. destruct (IcePort.CreateStunUsername _ p) as [name|]; [|done].
  destruct (IcePort.local_candidate _ p) as [local|]; [|done]. destruct (_ || _); [|done].
  unfold StunRequest.new_request in E. destruct (Helpers.CreateRandomString _ g) as [str g1]. revert E.
  match goal with |- context [StunRequest.mkRequest ?a ?b ?c ?d ?e ?f ?g ?k] => set (r := StunRequest.mkRequest a b c d e f g k) end.
  cbn [put_pings put_last_ping_sent requests_]. unfold StunRequest.Send. destruct (StunRequest.SendDelayed _ _ _ _) as [rs|] eqn:Es; [|done]. intros [= <- _].
  split; [done|split; [done|]]. cbn [set_state put_requests requests_]. intros Hi.
  assert (Hinv : StunRequest.inv (StunRequest.set_request h r (requests_ x))) by (by apply StunRequest.new_request_inv).
  assert (Hid : StunRequest.requests_ (StunRequest.set_request h r (requests_ x)) !! StunRequest.id r = None).
  { unfold StunRequest.SendDelayed in Es. cbn [StunRequest.set_request StunRequest.heap] in Es. rewrite lookup_insert_eq in Es. cbn [StunRequest.manager_ negb] in Es.
    destruct (bool_decide _) eqn:Eb; [|done]. by apply bool_decide_eq_true in Eb. }
  destruct (StunRequest.SendDelayed_inv now h 0 _ r Hinv) as (rs' & r' & Es' & Hrs & _); [apply lookup_insert_eq|done|apply Prepare_keeps_id|done|].
  rewrite Es in Es'. by injection Es' as ->.
Qed.

Lemma OnPing_holds now h s : ok s -> fresh_pointer h s -> holds (OnPing now h) s (fun _ _ => True).
Proof.
  intros H [H0 Hf]. destruct (proj1 (returns_Ok _ _ _) (UpdateConnectionStates_returns now s H)) as ([] & s1 & E1 & Hm & H1 & Hu).
  unfold OnPing. apply holds_bind. unfold holds at 1. rewrite E1. split; [done|]. intros _.
  assert (Hfind : exists r, FindNextPingableConnection now s1 = Ok r s1 /\ forall c, r = Some c -> c ∈ connections_ s1).
  { unfold FindNextPingableConnection, bind at 1. destruct (best_due_ok now s1 H1) as (due & -> & Hb). destruct due.
    - destruct (Hb eq_refl) as (b & Eb). exists (Some b). unfold gets. rewrite Eb. split; [done|]. intros c [= <-]. by apply (ok_best s1 H1).
    - unfold bind, gets. destruct (oldest_pingable_ok (writable_ s1) s1 (connections_ s1) H1 ltac:(done) None 0xFFFFFFFF) as (r & Er & Hr). exists r. split; [done|].
      intros c ->. destruct Hr as [[? _]|(c' & x & [= <-] & Hc & _)]; done. }
  destruct Hfind as (r & Er & Hr). apply holds_bind. unfold holds at 1. rewrite Er. split; [done|]. intros _. apply holds_bind.
  assert (Hend : forall s2, ok s2 -> holds (w <- gets writable_ ;; emit (PostPing (if w then WRITABLE_DELAY else UNWRITABLE_DELAY))) s2 (fun _ _ => True)).
  { intros s2 H2. revert s2 H2. change (keeps (w <- gets writable_ ;; emit (PostPing (if w then WRITABLE_DELAY else UNWRITABLE_DELAY)))). keep. }
  enough (Hp : holds (match r with Some c => PingConnection now h c | None => ret tt end) s1 (fun _ _ => True)) by (eapply holds_weaken; [exact Hp|]; intros; by apply Hend).
  destruct r as [c|]; [|by split]. pose proof (Hr c eq_refl) as Hc. destruct (use_candidate_ok s1 c H1 Hc) as (u & Eu).
  unfold PingConnection. apply holds_bind. unfold holds at 1. rewrite Eu. split; [done|]. intros _. apply holds_bind. unfold holds at 1, network_port.
  destruct (heap s1 !! c.1) as [np|]; [|done]. split; [done|]. intros _. apply holds_bind. unfold holds at 1, deref. destruct (connection c s1) as [x|] eqn:Hx; [|done]. split; [done|]. intros _.
  apply holds_bind. split; [done|]. intros _. apply holds_bind. destruct (IcePort.Ping _ _ _ _ _) as [[x' g']|] eqn:EP; cbn [defined]; [|done]. split; [done|]. intros _. cbn [fst snd].
  assert (Hev : conn_evolves x x').
  { apply Ping_evolves in EP; [exact EP|done|]. cbn. rewrite (moved_connections s s1 Hm) in Hc. destruct (live_connection s c H Hc) as (_ & _ & x0 & _ & _ & Hx0 & _).
    destruct (Hu c x0 Hc Hx0) as (x1 & Hx1 & _ & _ & _ & Er'). rewrite Hx in Hx1. injection Hx1 as <-. rewrite Er'. by apply (Hf c). }
  destruct (put_conn_ok c s1 x x' H1 Hx Hev) as [H2 _]. apply holds_bind. split; [done|]. intros _. split; [split; apply H2|done].
Qed.

Lemma keeps_PumpConnection now c : keeps (PumpConnection now c).
Proof.
  intros s H. unfold PumpConnection. apply holds_bind. unfold holds at 1, deref. destruct (connection c s) as [x|] eqn:Hx; [|done]. split; [done|]. intros _.
  apply holds_bind. destruct (IcePort.Pump now x) as [[x' evs]|] eqn:E; cbn [defined]; [|done]. split; [done|]. intros _. cbn [fst snd].
  assert (Hev : conn_evolves x x').
  { unfold IcePort.Pump in E. destruct (StunRequest.pump now (requests_ x)) as [[e rs]|] eqn:Ep; [|done]. injection E as <- _. split; [done|split; [done|]]. intros Hi.
    destruct (StunRequest.pump_inv now _ Hi) as (e' & rs' & Ep' & Hrs & _). rewrite Ep in Ep'. by injection Ep' as _ ->. }
  destruct (put_conn_ok c s x x' H Hx Hev) as [H1 _]. apply holds_bind. split; [done|]. intros _. revert H1. generalize (put_conn c x' s). intros s1 H1. revert s1 H1.
  change (keeps (for_each (fun e => match e with IcePort.SendTo data addr => emit (Packet c.1 data addr) | _ => ret tt end) evs)). keep.
Qed.

#[local] Hint Resolve keeps_PumpConnection : channel.

(** ** Packets: the port *)

Lemma put_evolves addr p p' x x' : IcePort.connections_ p' = IcePort.connections_ p -> (exists l, IcePort.candidates_ p' = IcePort.candidates_ p ++ l) ->
  IcePort.GetConnection addr p = Some x -> (conn_ok p x -> conn_ok p' x') -> port_evolves p (IcePort.put_connection addr x' p').
Proof.
  intros E (l & El) Hx Hok. split; [|split].
  - exists (fun e => if IcePort.same_key e.1 addr then x' else e.2). cbn [IcePort.put_connection IcePort.put_connections IcePort.connections_]. rewrite E.
    apply map_ext. intros [k y]. cbn [fst snd]. by destruct (IcePort.same_key k addr).
  - intros Hwf k y He. unfold entry, IcePort.put_connection in He. cbn [IcePort.put_connections IcePort.connections_] in He. rewrite E in He. apply in_map_iff in He as ([k1 y1] & Ey & Hin).
    apply GetConnection_key in Hx as (k2 & _ & Hk2). destruct (IcePort.same_key _ addr); injection Ey as -> <-; [by apply Hok, (Hwf k2)|].
    destruct (Hwf k y1 Hin) as [[c Hl] Hr]. split; [|done]. unfold IcePort.local_candidate in *. cbn [IcePort.put_connection IcePort.put_connections IcePort.candidates_]. rewrite El. exists c. by apply lookup_app_l_Some.
  - cbn. rewrite El. by destruct (IcePort.candidates_ p).
Qed.

Lemma set_states_evolve x : (forall v, conn_evolves x (set_read_state v x).1) /\ (forall v, conn_evolves x (set_write_state v x).1).
Proof. split; intros v; by split; [|split]. Qed.
Lemma put_conn_evolves addr p x r p' evs : IcePort.GetConnection addr p = Some x -> conn_evolves x r.1 -> IcePort.put_conn addr r p = (p', evs) -> port_evolves p p'.
Proof. intros Hx Hr [= <- _]. by apply (put_connection_evolves addr p x). Qed.

Lemma SendBindingResponse_evolves now m addr p p' evs : IcePort.SendBindingResponse now m addr p = Some (p', evs) -> port_evolves p p'.
Proof.
  unfold IcePort.SendBindingResponse. destruct (_ =? _); cbn [negb]; [|done]. destruct (Stun.GetByteString _ m); [|by intros [= <- _]].
  destruct (IcePort.GetConnection addr p) as [x|] eqn:Hx; [|by intros [= <- _]].
  destruct (IcePort.put_conn addr (ReceivedPing now x) p) as [p1 e1] eqn:E. intros [= <- _]. apply (put_conn_evolves addr p x _ _ _ Hx) in E; [done|]. by split; [|split].
Qed.
Definition same_conns (p p' : Port) : Prop := IcePort.connections_ p' = IcePort.connections_ p /\ IcePort.candidates_ p' = IcePort.candidates_ p.
Lemma GetStunMessage_same data addr p r p' evs : IcePort.GetStunMessage data addr p = Some (r, p', evs) -> same_conns p p'.
Proof.
  unfold IcePort.GetStunMessage. destruct (_ && _); [by intros [= _ <- _]|]. destruct (Stun.Read _ _ _) as [[okr m] buf]. destruct (_ || _); [by intros [= _ <- _]|].
  destruct (_ =? _).
  - destruct (_ || _); [destruct (IcePort.SendBindingErrorResponse _ _ _ _ _); [by intros [= _ <- _]|done]|].
    destruct (IcePort.ParseStunUsername m p) as [parsed|]; [|done].
    match goal with |- match ?e with _ => _ end = _ -> _ => destruct e as [good|] end; [|done].
    destruct good as [[ufrag proto]|]; [|destruct (IcePort.SendBindingErrorResponse _ _ _ _ _); [by intros [= _ <- _]|done]].
    set (p1 := if IcePort.IsHybridIce p then _ else p). assert (H1 : same_conns p p1) by (unfold p1; by destruct (IcePort.IsHybridIce p)).
    match goal with |- match ?e with _ => _ end = _ -> _ => destruct e as [valid|] end; [|done].
    destruct valid; cbn [negb]; [by intros [= _ <- _]|]. destruct (IcePort.SendBindingErrorResponse _ _ _ _ _); [by intros [= _ <- _]|done].
  - destruct (_ =? _); [by intros [= _ <- _]|]. destruct (_ =? _); [destruct (Stun.GetErrorCode m); by intros [= _ <- _]|]. destruct (_ =? _); by intros [= _ <- _].
Qed.
Lemma received_request_evolves now m addr p p' evs : IcePort.received_request now m addr p = Some (p', evs) -> port_evolves p p'.
Proof.
  unfold IcePort.received_request. destruct (IcePort.SendBindingResponse now m addr p) as [[p1 e1]|] eqn:E1; [|done]. apply SendBindingResponse_evolves in E1.
  destruct (IcePort.GetConnection addr p1) as [x|] eqn:Hx; [|done]. destruct (_ && _) eqn:Eb.
  - destruct (IcePort.put_conn addr _ p1) as [p2 e2] eqn:E2. intros [= <- _]. transitivity p1; [done|]. by apply (put_conn_evolves addr p1 x _ _ _ Hx) in E2; [|apply set_states_evolve].
  - by intros [= <- _].
Qed.

Lemma MaybeAddPrflxCandidate_ok req resp addr c p g c' p' g' evs : IcePort.MaybeAddPrflxCandidate inet_ntop req resp addr c p g = Some (c', p', g', evs) ->
  IcePort.connections_ p' = IcePort.connections_ p /\ (exists l, IcePort.candidates_ p' = IcePort.candidates_ p ++ l) /\ (conn_ok p c -> conn_ok p' c').
Proof.
  assert (Hsame : IcePort.connections_ p = IcePort.connections_ p /\ (exists l, IcePort.candidates_ p = IcePort.candidates_ p ++ l) /\ (conn_ok p c -> conn_ok p c)).
  { split; [done|split; [|done]]. exists []. by rewrite app_nil_r. }
  unfold IcePort.MaybeAddPrflxCandidate. destruct (Stun.GetAddress _ resp); [|by intros [= <- <- _ _]]. destruct (existsb _ _); [by intros [= <- <- _ _]|].
  destruct (Stun.GetUInt32 _ _); [|by intros [= <- <- _ _]]. destruct (IcePort.random_string 8 g) as [id g1]. destruct (IcePort.local_candidate c p); [|done].
  cbn [IcePort.AddPrflxCandidate]. intros [= <- <- _ _]. split; [done|]. split; [by eexists|]. intros [_ Hr]. split; [|done].
  unfold IcePort.local_candidate. cbn. rewrite lookup_app_r, Nat.sub_diag by lia. by eexists.
Qed.

Lemma CheckResponse_ok now m addr c p g c' p' g' evs : IcePort.CheckResponse inet_ntop now m addr c p g = Some (c', p', g', evs) ->
  IcePort.connections_ p' = IcePort.connections_ p /\ (exists l, IcePort.candidates_ p' = IcePort.candidates_ p ++ l) /\ (conn_ok p c -> conn_ok p' c').
Proof.
  unfold IcePort.CheckResponse. destruct (StunRequest.CheckResponse_msg m (requests_ c)) as [[[okr e] rs]|] eqn:Em; [|done].
  assert (Hq : conn_ok p c -> conn_ok p (put_requests rs c)).
  { intros [Hl Hr]. split; [done|]. cbn. destruct (StunRequest.CheckResponse_msg_inv m _ Hr) as (o' & e' & rs' & Em' & Hrs & _). rewrite Em in Em'. by injection Em' as _ _ ->. }
  assert (Hstate : forall y, local_candidate_index_ y = local_candidate_index_ c -> requests_ y = rs -> conn_ok p c -> conn_ok p y).
  { intros y E1 E2 Hc. destruct (Hq Hc) as [Hl Hr]. split; [unfold IcePort.local_candidate in *; cbn in *; by rewrite E1|by rewrite E2]. }
  assert (Hsame : forall y, (conn_ok p c -> conn_ok p y) -> IcePort.connections_ p = IcePort.connections_ p /\ (exists l, IcePort.candidates_ p = IcePort.candidates_ p ++ l) /\ (conn_ok p c -> conn_ok p y)).
  { intros y Hy. split; [done|split; [|done]]. exists []. by rewrite app_nil_r. }
  assert (Hdone : forall e', Some (put_requests rs c, p, g, e') = Some (c', p', g', evs) ->
    IcePort.connections_ p' = IcePort.connections_ p /\ (exists l, IcePort.candidates_ p' = IcePort.candidates_ p ++ l) /\ (conn_ok p c -> conn_ok p' c')).
  { intros e' [= <- <- _ _]. by apply Hsame. }
  destruct e as [|[| h resp|h resp|] e]; try by apply Hdone.
  - destruct (StunRequest.heap (requests_ c) !! h) as [req|]; [|done]. unfold IcePort.OnConnectionRequestResponse.
    cbn [set_write_state fst snd]. set (c1 := set_state STATE_SUCCEEDED _).
    match goal with |- context [let '(_, _) := ?e in _] => set (lite := e) end.
    assert (Hlite : local_candidate_index_ lite.1 = local_candidate_index_ c /\ requests_ lite.1 = rs) by (unfold lite; by destruct (IceConnection.remote_ice_mode_ c1)).
    destruct lite as [c2 e2]. cbn [fst] in Hlite. destruct Hlite as [E1 E2].
    destruct (IcePort.IsStandardIce p).
    + match goal with |- context [IcePort.MaybeAddPrflxCandidate inet_ntop req resp addr ?y p g] => set (c3 := y) end.
      destruct (IcePort.MaybeAddPrflxCandidate inet_ntop req resp addr c3 p g) as [[[[c4 p4] g4] e4]|] eqn:Ea; [|done]. intros [= <- <- _ _].
      destruct (MaybeAddPrflxCandidate_ok _ _ _ _ _ _ _ _ _ _ Ea) as (A & B & C). split; [done|split; [done|]]. intros Hc. apply C. by apply Hstate.
    + intros [= <- <- _ _]. apply Hsame. by apply Hstate.
  - destruct (IcePort.OnConnectionRequestErrorResponse resp addr (put_requests rs c) p) as [c2 e2] eqn:Ee. intros [= <- <- _ _]. apply Hsame.
    unfold IcePort.OnConnectionRequestErrorResponse in Ee. destruct (_ || _ || _) eqn:E0 in Ee; [injection Ee as <- _; by apply Hstate|].
    destruct (_ =? _) in Ee; [injection Ee as <- _; by apply Hstate|]. destruct (_ =? _) in Ee; [injection Ee as <- _; by apply Hstate|].
    cbn [set_write_state] in Ee. injection Ee as <- _. by apply Hstate.
Qed.

Lemma received_data_evolves now data x : conn_evolves x (IcePort.received_data now data x).1.
Proof.
  unfold IcePort.received_data. destruct (bool_decide _); [|reflexivity]. destruct (_ && _); by split; [|split].
Qed.
Lemma conn_OnReadPacket_evolves now data addr p g p' g' evs : IcePort.conn_OnReadPacket inet_ntop now data addr p g = Some (p', g', evs) -> port_evolves p p'.
Proof.
  unfold IcePort.conn_OnReadPacket. destruct (IcePort.GetConnection addr p) as [c|] eqn:Hc; [|done].
  destruct (IcePort.GetStunMessage data addr p) as [[[r p1] e1]|] eqn:Em; [|done]. apply GetStunMessage_same in Em as [E1 E2].
  pose proof (same_connections_evolves p p1 E1 E2) as H1. assert (Hc1 : IcePort.GetConnection addr p1 = Some c) by (unfold IcePort.GetConnection in *; by rewrite E1).
  assert (Hdone : forall e, Some (p1, g, e) = Some (p', g', evs) -> port_evolves p p') by (by intros e [= <- _ _]).
  destruct r as [| |m ufrag]; [|by apply Hdone|].
  - destruct (IcePort.put_conn addr _ p1) as [p2 e2] eqn:Ep. intros [= <- _ _]. transitivity p1; [done|]. apply (put_conn_evolves addr p1 c _ _ _ Hc1) in Ep; [done|apply received_data_evolves].
  - destruct (_ =? _); [|destruct (_ || _); [|destruct (_ =? _); [|done]]].
    + destruct (bool_decide _); [|destruct (IcePort.SendBindingErrorResponse _ _ _ _ _); [by apply Hdone|done]].
      match goal with |- match ?e with _ => _ end = _ -> _ => destruct e as [[go_on e2]|] end; [|done]. destruct go_on; cbn [negb]; [|by apply Hdone].
      destruct (IcePort.received_request now m addr p1) as [[p2 e3]|] eqn:Er; [|done]. intros [= <- _ _]. transitivity p1; [done|]. by apply received_request_evolves in Er.
    + match goal with |- match ?e with _ => _ end = _ -> _ => destruct e as [[]|] end; [|by apply Hdone|done].
      destruct (IcePort.CheckResponse inet_ntop now m addr c p1 g) as [[[[c2 p2] g2] e2]|] eqn:Ek; [|done]. intros [= <- _ _].
      destruct (CheckResponse_ok _ _ _ _ _ _ _ _ _ _ Ek) as (A & B & C). transitivity p1; [done|]. by apply (put_evolves addr p1 p2 c c2).
    + destruct (_ && _); [|by apply Hdone]. destruct (IcePort.put_conn addr _ p1) as [p2 e2] eqn:Ep. intros [= <- _ _]. transitivity p1; [done|].
      apply (put_conn_evolves addr p1 c _ _ _ Hc1) in Ep; [done|]. by split; [|split].
Qed.
Lemma OnReadPacket_evolves data addr proto p p' evs : IcePort.OnReadPacket data addr proto p = Some (p', evs) -> port_evolves p p'.
Proof.
  unfold IcePort.OnReadPacket. destruct (IcePort.enable_port_packets_ p); [by intros [= <- _]|].
  destruct (IcePort.GetStunMessage data addr p) as [[[r p1] e1]|] eqn:Em; [|done]. apply GetStunMessage_same in Em as [E1 E2]. pose proof (same_connections_evolves p p1 E1 E2) as H1.
  destruct r as [| |m ufrag]; [by intros [= <- _]..|]. destruct (_ =? _); [|by intros [= <- _]].
  match goal with |- match ?e with _ => _ end = _ -> _ => destruct e as [[go_on e2]|] end; [|done]. destruct (negb go_on); by intros [= <- _].
Qed.

(** ** Packets: the channel *)

Lemma send_all_keeps pid evs : keeps (send_all pid evs).
Proof. unfold send_all. keep. Qed.
#[local] Hint Resolve send_all_keeps : channel.
Lemma refuse_keeps pid m addr code reason : keeps (refuse pid m addr code reason).
Proof. unfold refuse. keep. Qed.
#[local] Hint Resolve refuse_keeps : channel.

(** The port takes its new state; its events then find their connections. *)
Lemma put_port_holds pid n p p' s : ok s -> heap s !! pid = Some (n, p) -> port_evolves p p' -> holds (modify (put_port pid p')) s (fun _ _ => True).
Proof. intros H Hh He. split; [by apply (ok_put_port s pid n p)|done]. Qed.
Lemma keeps_conn_event pid addr e : keeps (np <- network_port pid ;; match find_key addr np.2 with Some key => conn_signal (pid, key) e | None => stuck end).
Proof.
  intros s H. apply holds_bind. unfold holds at 1, network_port. destruct (heap s !! pid) as [[n p]|] eqn:Hh; [|done]. split; [done|]. intros _. cbn [snd].
  destruct (find_key addr p) as [key|] eqn:Ef; [|done]. eapply holds_weaken; [apply conn_signal_holds; [done|]|done]. by apply (find_key_connected s pid n p addr).
Qed.

Lemma keeps_respond now pid m addr : keeps (respond now pid m addr).
Proof.
  intros s H. unfold respond. apply holds_bind. unfold holds at 1, network_port. destruct (heap s !! pid) as [[n p]|] eqn:Hh; [|done]. split; [done|]. intros _. cbn [snd].
  apply holds_bind. destruct (IcePort.SendBindingResponse now m addr p) as [[p' evs]|] eqn:E; cbn [defined]; [|done]. split; [done|]. intros _. cbn [fst snd].
  pose proof (SendBindingResponse_evolves _ _ _ _ _ _ E) as He. apply holds_bind. split; [by apply (ok_put_port s pid n p)|]. intros H1.
  set (s1 := put_port pid p' s) in *. assert (Hh1 : heap s1 !! pid = Some (n, p')) by (unfold s1, put_port; rewrite Hh; apply lookup_insert_eq).
  eapply holds_weaken; [apply for_each_same; [|done]|done]. intros e s2 _ H2 E2.
  destruct e as [data a|a ce| | | | | | | | |]; try by split.
  - split; [split; apply H2|done].
  - destruct (find_key a p') as [key|] eqn:Ef; [|done]. apply conn_signal_holds; [done|]. rewrite E2. by apply (find_key_connected s1 pid n p' a).
Qed.
#[local] Hint Resolve keeps_respond : channel.

Lemma keeps_new_candidate addr proto name pwd p : keeps (new_candidate addr proto name pwd p).
Proof.
  unfold new_candidate. keep. intros s H. unfold holds, lift. destruct (IcePort.random_string 8 (rng_ s)) as [id g]. split; [|done]. irrelevant.
Qed.
#[local] Hint Resolve keeps_new_candidate : channel.

(** The peer-reflexive connection of a standard port. *)
Lemma unknown_standard now pid m addr a s n p : ok s -> heap s !! pid = Some (n, p) -> find_key (SessionDescription.address_ a) p = None ->
  holds (created <- attempt (port_CreateConnection pid a) ;;
         match created with
         | None => stuck
         | Some c => AddConnection c ;;; call c (fun _ x => Some (ReceivedPing now x)) ;;; respond now pid m addr ;;; SortConnections now
         end) s (fun _ _ => True).
Proof.
  intros H Hh Hf. pose proof (port_CreateConnection_spec pid a s n p Hh Hf) as Hc. unfold holds at 1, bind at 1, attempt. destruct (port_CreateConnection pid a s) as [c s1|s1|]; [|done|done].
  destruct Hc as [-> ->].
  match goal with |- match ?m ?st with _ => _ end => change (holds m st (fun _ _ => True)) end.
  apply holds_bind. eapply holds_weaken; [by apply (AddConnection_holds pid a s n p)|]. intros ? s2 H2 Hc _. apply holds_bind.
  eapply holds_weaken; [apply call_holds; [done|done|intros q x x' evs; apply ReceivedPing_evolves]|]. intros ? s3 H3 _ _.
  revert s3 H3. change (keeps (respond now pid m addr ;;; SortConnections now)). keep.
Qed.

Lemma keeps_OnUnknownAddress now pid addr proto m name muxed : keeps (OnUnknownAddress now pid addr proto m name muxed).
Proof.
  unfold OnUnknownAddress. apply keeps_bind; [apply keeps_gets|]. intros remotes. destruct (find_remote _ _ _ _ _ remotes) as [candidate [pwd|]]; [|keep].
  intros s H. apply holds_bind. unfold holds at 1, network_port. destruct (heap s !! pid) as [[n p]|] eqn:Hh; [|done]. split; [done|]. intros _. cbn [snd].
  assert (Hnew : holds (match candidate with Some c => ret (if ufrags_differ remotes then with_address addr c else c) | None => new_candidate addr proto name pwd p end) s
            (fun _ s' => heap s' = heap s)).
  { destruct candidate as [c|]; [by split|]. pose proof (keeps_new_candidate addr proto name pwd p s H) as Hk. unfold holds in *. revert Hk.
    unfold new_candidate, bind, lift, gets. destruct (IcePort.random_string 8 (rng_ s)) as [id g]. cbn. by intros [? _]. }
  apply holds_bind. eapply holds_weaken; [exact Hnew|]. intros a s1 H1 Eh _. destruct (IcePort.IsStandardIce p).
  - destruct (Stun.GetUInt32 _ m) as [prio|]; [|by apply refuse_keeps]. destruct (bool_decide _) eqn:Ef; [by apply keeps_oblige|].
    apply (unknown_standard now pid m addr _ s1 n p); [done|by rewrite Eh|]. apply bool_decide_eq_false in Ef. by apply eq_None_not_Some.
  - revert s1 H1 Eh. intros s1 H1 _. revert s1 H1.
    change (keeps (created <- CreateConnections now a (Some pid) true ;; oblige created ;;; respond now pid m addr ;;; SortConnections now)). keep.
Qed.
#[local] Hint Resolve keeps_OnUnknownAddress : channel.

Lemma keeps_port_signal now pid e : keeps (port_signal now pid e).
Proof. destruct e; cbn [port_signal]; lazymatch goal with |- keeps (bind _ _) => apply keeps_conn_event | _ => keep end. Qed.
#[local] Hint Resolve keeps_port_signal : channel.

Lemma keeps_OnPortPacket now pid data addr : keeps (OnPortPacket inet_ntop now pid data addr).
Proof.
  intros s H. unfold OnPortPacket. apply holds_bind. unfold holds at 1, network_port. destruct (heap s !! pid) as [[n p]|] eqn:Hh; [|done]. split; [done|]. intros _. cbn [snd].
  apply holds_bind. split; [done|]. intros _. destruct (find_key addr p) as [key|].
  - apply holds_bind. destruct (IcePort.conn_OnReadPacket _ _ _ _ _ _) as [[[p' g'] evs]|] eqn:E; cbn [defined]; [|done]. split; [done|]. intros _. cbn [fst snd].
    apply holds_bind. eapply holds_weaken; [apply (put_port_holds pid n p); [done|done|by apply conn_OnReadPacket_evolves in E]|]. intros ? s1 H1 _ _.
    revert s1 H1. change (keeps (modify (put_rng g') ;;; for_each (port_signal now pid) evs)). keep. irrelevant.
  - apply holds_bind. destruct (IcePort.OnReadPacket _ _ _ _) as [[p' evs]|] eqn:E; cbn [defined]; [|done]. split; [done|]. intros _. cbn [fst snd].
    apply holds_bind. eapply holds_weaken; [apply (put_port_holds pid n p); [done|done|by apply OnReadPacket_evolves in E]|]. intros ? s1 H1 _ _.
    revert s1 H1. change (keeps (for_each (port_signal now pid) evs)). keep.
Qed.

#[local] Hint Resolve keeps_OnPortPacket : channel.

(** ** Deletions *)

Lemma remove_first_ok (c : cid) l : NoDup l -> (forall d, d ∈ remove_first c l <-> d ∈ l /\ d <> c) /\ NoDup (remove_first c l).
Proof.
  induction l as [|e l IH]; intros Hn; [split; [intros d; split; [by intros ?%elem_of_nil|by intros [?%elem_of_nil _]]|constructor]|].
  apply NoDup_cons in Hn as [He Hn]. cbn [remove_first]. destruct (decide (c = e)) as [->|Hne].
  - split; [|done]. intros d. rewrite elem_of_cons. split; [intros Hd; split; [by right|by intros ->]|by intros [[->|Hd] ?]].
  - destruct (IH Hn) as [Hd Hr]. split.
    + intros d. rewrite !elem_of_cons, Hd. split; [intros [->|[? ?]]; auto|intros [[->|?] ?]; auto].
    + apply NoDup_cons. split; [|done]. by intros [? _]%Hd.
Qed.

(** The connection is gone from its port, and from the channel's list. *)
Lemma forget_ok s c n p x best pending : ok s -> heap s !! c.1 = Some (n, p) -> entry p c.2 x -> c ∈ connections_ s ->
  (forall d, best = Some d -> d <> c /\ d ∈ connections_ s) -> (forall d, pending = Some d -> d <> c /\ d ∈ connections_ s) ->
  let p' := IcePort.put_connections (List.filter (fun e => negb (IcePort.same_key e.1 c.2)) (IcePort.connections_ p)) p in
  ok (put_best_connection best (put_pending_best_connection pending (put_connections (remove_first c (connections_ s)) (put_port c.1 p' s)))).
Proof.
  intros H Hh He Hc Hb Hp p'. destruct (remove_first_ok c (connections_ s) (ok_nodup s H)) as [Hrem Hnd]. destruct (ok_ports s H _ _ _ Hh) as [Hk Hx].
  assert (Hent : forall k y, entry p' k y <-> entry p k y /\ k <> c.2).
  { intros k y. unfold entry, p'. cbn [IcePort.put_connections IcePort.connections_]. rewrite filter_In. cbn [fst]. rewrite negb_true_iff. split; intros [Hin Hs]; (split; [done|]).
    - intros ->. by rewrite same_key_refl in Hs.
    - destruct (IcePort.same_key k c.2) eqn:E; [|done]. destruct Hs. by injection (Hk k y c.2 x Hin He E). }
  unfold put_port. rewrite Hh. split; cbn [put_best_connection put_pending_best_connection put_connections put_heap heap connections_ best_connection_ pending_best_connection_ writable_ was_writable_].
  - intros pid n1 q. destruct (decide (pid = c.1)) as [->|Hne].
    + rewrite lookup_insert_eq. intros [= <- <-]. split.
      * intros k y k' y' [H1 _]%Hent [H2 _]%Hent. by apply Hk.
      * intros k y [Hy Hkc]%Hent. destruct (Hx k y Hy) as [Hin Hok]. split; [|done]. apply Hrem. split; [done|]. intros E. apply Hkc. by rewrite <- E.
    + rewrite lookup_insert_ne by done. intros Hh1. destruct (ok_ports s H _ _ _ Hh1) as [Hk1 Hx1]. split; [done|]. intros k y Hy. destruct (Hx1 k y Hy) as [Hin Hok].
      split; [|done]. apply Hrem. split; [done|]. intros E. apply Hne. by rewrite <- E.
  - intros pid n1 q. destruct (decide (pid = c.1)) as [->|Hne]; [|rewrite lookup_insert_ne by done; apply (ok_candidates s H)].
    rewrite lookup_insert_eq. intros [= <- <-]. by apply (ok_candidates s H _ _ _ Hh).
  - intros d [Hd Hdc]%Hrem. destruct (ok_live s H d Hd) as (n1 & p1 & y & Hh1 & Hy). destruct (decide (d.1 = c.1)) as [E|].
    + rewrite E in *. rewrite Hh in Hh1. injection Hh1 as <- <-. exists n, p', y. rewrite lookup_insert_eq. split; [done|]. apply Hent. split; [done|].
      intros E2. apply Hdc. destruct c, d; cbn in *; congruence.
    + exists n1, p1, y. by rewrite lookup_insert_ne.
  - done.
  - intros d Hd. apply Hrem. destruct (Hb d Hd). done.
  - intros d Hd. apply Hrem. destruct (Hp d Hd). done.
  - apply H.
Qed.

Lemma for_each_emits {A} (f : A -> comp t unit) l s : (forall a s1, exists tr, f a s1 = Ok tt (put_trace tr s1)) -> exists tr, for_each f l s = Ok tt (put_trace tr s).
Proof.
  intros Hf. unfold for_each. generalize tt at 1. revert s. induction l as [|a l IH]; intros s u; cbn [foldM].
  - exists (trace_ s). destruct u. by destruct s.
  - unfold bind. destruct (Hf a s) as (tr & ->). destruct (IH (put_trace tr s) tt) as (tr' & ->). by exists tr'.
Qed.

Lemma keeps_OnConnectionDelete c : keeps (OnConnectionDelete c).
Proof.
  intros s H. unfold OnConnectionDelete, holds, bind, network_port. destruct (heap s !! c.1) as [[n p]|] eqn:Hh; [|done]. cbn [snd].
  unfold IcePort.conn_OnMessage, IcePort.OnConnectionDestroyed. destruct (IcePort.GetConnection c.2 p) as [x|] eqn:Hx; cbn [defined stuck]; [|done]. cbn [defined ret modify fst snd].
  set (p' := IcePort.put_connections _ p). match goal with |- context [for_each ?f ?l ?st] => destruct (for_each_emits f l st) as (tr & E) end.
  { intros e s1. destruct e; try (exists (trace_ s1); by destruct s1). by eexists. }
  rewrite E. unfold OnConnectionDestroyed, bind, gets, oblige. set (s1 := put_trace tr (put_port c.1 p' s)).
  assert (Ec : connections_ s1 = connections_ s) by (unfold s1, put_port; by rewrite Hh).
  assert (Eb : best_connection_ s1 = best_connection_ s) by (unfold s1, put_port; by rewrite Hh).
  assert (Ep : pending_best_connection_ s1 = pending_best_connection_ s) by (unfold s1, put_port; by rewrite Hh).
  rewrite Ec. destruct (bool_decide (c ∈ connections_ s)) eqn:Hc; [|done]. apply bool_decide_eq_true in Hc. cbn [ret modify]. unfold modify.
  destruct (ok_live s H c Hc) as (n1 & p1 & y & Hh1 & Hy). rewrite Hh in Hh1. injection Hh1 as <- <-.
  set (pending := if bool_decide (pending_best_connection_ s = Some c) then None else pending_best_connection_ s).
  set (best := if bool_decide (best_connection_ s = Some c) then None else best_connection_ s).
  pose proof (forget_ok s c n p y best pending H Hh Hy Hc) as Hok. cbv zeta in Hok. fold p' in Hok.
  assert (Hok' : ok (put_best_connection best (put_pending_best_connection pending (put_connections (remove_first c (connections_ s)) (put_port c.1 p' s))))).
  { apply Hok.
    - unfold best. intros d. destruct (bool_decide (best_connection_ s = Some c)) eqn:E1; [done|]. apply bool_decide_eq_false in E1. intros Hd. split; [congruence|by apply (ok_best s H)].
    - unfold pending. intros d. destruct (bool_decide (pending_best_connection_ s = Some c)) eqn:E1; [done|]. apply bool_decide_eq_false in E1. intros Hd. split; [congruence|by apply (ok_pending s H)]. }
  clear Hok. cbn [put_connections pending_best_connection_]. rewrite Ep. unfold when, modify, ret. fold s1.
  assert (Hend : forall s2, heap s2 = heap s1 -> connections_ s2 = remove_first c (connections_ s) -> best_connection_ s2 = best -> pending_best_connection_ s2 = pending ->
            writable_ s2 = writable_ s1 -> was_writable_ s2 = was_writable_ s1 -> ok s2).
  { intros s2 E1 E2 E3 E4 E5 E6. refine (ok_same _ s2 _ _ _ _ _ Hok'); try done. rewrite E5, E6. apply Hok'. }
  unfold pending, best in Hend. destruct (bool_decide (pending_best_connection_ s = Some c)); cbn [put_pending_best_connection put_connections best_connection_]; rewrite Eb;
    (destruct (bool_decide (best_connection_ s = Some c)); [unfold SwitchBestConnectionTo, RequestSort, bind, modify, gets, when, emit, ret; cbn [put_best_connection sort_dirty_];
       match goal with |- context [sort_dirty_ ?x] => destruct (sort_dirty_ x) end|]); (split; [apply Hend; done|done]).
Qed.

#[local] Hint Resolve keeps_OnConnectionDelete : channel.

(** ** Ports and the transport *)

Lemma keeps_OnCandidate now a : keeps (OnCandidate now a).
Proof. unfold OnCandidate. keep. Qed.
(** A port is handed over with its first candidate and no connections, and
    its memory is not in use. *)
Definition new_port_ok (pid : Z) (p : Port) (s : t) : Prop := heap s !! pid = None /\ IcePort.connections_ p = [] /\ IcePort.candidates_ p <> [].
Lemma OnPortReady_holds now pid n p s : ok s -> new_port_ok pid p s -> holds (OnPortReady now pid n p) s (fun _ _ => True).
Proof.
  intros H (Hnone & Hconn & Hcand). unfold OnPortReady. apply holds_bind.
  assert (H1 : ok (put_heap (<[pid := (n, set_up s p)]> (heap s)) s)).
  { split; cbn [put_heap heap connections_ best_connection_ pending_best_connection_ writable_ was_writable_]; try apply H.
    - intros pid1 n1 q. destruct (decide (pid1 = pid)) as [->|]; [|rewrite lookup_insert_ne by done; apply H]. rewrite lookup_insert_eq. intros [= <- <-].
      assert (Hno : forall k x, ~ entry (set_up s p) k x) by (intros k x; unfold entry; change (IcePort.connections_ (set_up s p)) with (IcePort.connections_ p); rewrite Hconn; by intros []). split; [intros k x k' x' He; by destruct (Hno k x)|intros k x He; by destruct (Hno k x)].
    - intros pid1 n1 q. destruct (decide (pid1 = pid)) as [->|]; [|rewrite lookup_insert_ne by done; apply (ok_candidates s H)]. rewrite lookup_insert_eq. by intros [= <- <-].
    - intros c Hc. destruct (ok_live s H c Hc) as (n1 & p1 & x & Hh & He). exists n1, p1, x. split; [|done]. rewrite lookup_insert_ne; [done|]. intros ->. congruence. }
  split; [done|]. intros _. generalize (put_heap (<[pid := (n, set_up s p)]> (heap s)) s) H1. clear.
  change (keeps (modify (fun s => put_ports (ports_ s ++ [pid]) s) ;;; remotes <- gets remote_candidates_ ;;
    for_each (fun r => _ <- attempt (CreateConnection now pid r.1 r.2 false) ;; ret tt) remotes ;;; SortConnections now)). keep. irrelevant.
Qed.
Lemma keeps_OnPortTimeout pid : keeps (OnPortTimeout pid).
Proof.
  intros s H. unfold OnPortTimeout, holds, bind, network_port. destruct (heap s !! pid) as [[n p]|] eqn:Hh; [|done]. cbn [snd]. unfold IcePort.CheckTimeout.
  destruct (bool_decide _); cbn [negb defined stuck]; [|done]. cbn [defined ret]. destruct (IcePort.connections_ p) eqn:Ec; cbn [fst when]; [|done].
  unfold OnPortDestroyed, bind, modify. split; [|done]. cbn [put_ports heap].
  assert (Hno : forall c n1 p1 x, heap s !! c.1 = Some (n1, p1) -> entry p1 c.2 x -> c.1 <> pid).
  { intros c n1 p1 x Hh1 He E. rewrite E, Hh in Hh1. injection Hh1 as <- <-. unfold entry in He. by rewrite Ec in He. }
  split; cbn [put_heap put_ports heap connections_ best_connection_ pending_best_connection_ writable_ was_writable_]; try apply H.
  - intros pid1 n1 q Hq. apply lookup_delete_Some in Hq as [_ Hq]. by apply (ok_ports s H pid1 n1 q).
  - intros pid1 n1 q Hq. apply lookup_delete_Some in Hq as [_ Hq]. by apply (ok_candidates s H pid1 n1 q).
  - intros c Hc. destruct (ok_live s H c Hc) as (n1 & p1 & x & Hh1 & He). exists n1, p1, x. split; [|done]. rewrite lookup_delete_ne; [done|]. intros E. by apply (Hno c n1 p1 x).
Qed.
Lemma keeps_for_ports f : (forall p, same_conns p (f p)) -> keeps (for_ports f).
Proof.
  intros Hf. unfold for_ports. apply keeps_bind; [apply keeps_gets|]. intros ports. apply keeps_for_each. intros pid s H. unfold holds, bind, network_port.
  destruct (heap s !! pid) as [[n p]|] eqn:Hh; [|done]. split; [|done]. destruct (Hf p). by apply (ok_put_port s pid n p), same_connections_evolves.
Qed.
Lemma keeps_SetIceRole r : keeps (SetIceRole r).
Proof. unfold SetIceRole. keep; [irrelevant|by apply keeps_for_ports]. Qed.
Lemma keeps_SetIceProtocolType r : keeps (SetIceProtocolType r).
Proof. unfold SetIceProtocolType. keep; [irrelevant|by apply keeps_for_ports]. Qed.
Lemma keeps_Allocate : keeps Allocate.
Proof. unfold Allocate. keep. irrelevant. Qed.
#[local] Hint Resolve keeps_OnCandidate keeps_OnPortTimeout keeps_SetIceRole keeps_SetIceProtocolType keeps_Allocate : channel.

(** ** The handlers *)

Inductive op :=
  | Sort (now : Z)
  | Ping (now h : Z)
  | Pump (now : Z) (c : cid)
  | Candidate (now : Z) (c : SessionDescription.Candidate)
  | PortReady (now pid n : Z) (p : Port)
  | PacketIn (now pid : Z) (data : bytes) (addr : IpAddress.SocketAddress)
  | Delete (c : cid)
  | PortTimeout (pid : Z)
  | Role (r : IceRole)
  | Tiebreaker (v : Z)
  | Protocol (v : SessionDescription.TransportProtocol)
  | Credentials (ufrag pwd : bytes)
  | RemoteCredentials (ufrag pwd : bytes)
  | RemoteMode (v : SessionDescription.IceMode)
  | SignalingReady
  | Start
  | Data (flags sent : Z).
Definition exec (o : op) : comp t unit :=
  match o with
  | Sort now => OnSort now
  | Ping now h => OnPing now h
  | Pump now c => PumpConnection now c
  | Candidate now c => OnCandidate now c
  | PortReady now pid n p => OnPortReady now pid n p
  | PacketIn now pid data addr => OnPortPacket inet_ntop now pid data addr
  | Delete c => OnConnectionDelete c
  | PortTimeout pid => OnPortTimeout pid
  | Role r => SetIceRole r
  | Tiebreaker v => SetIceTiebreaker v
  | Protocol v => SetIceProtocolType v
  | Credentials ufrag pwd => SetIceCredentials ufrag pwd
  | RemoteCredentials ufrag pwd => SetRemoteIceCredentials ufrag pwd
  | RemoteMode v => SetRemoteIceMode v
  | SignalingReady => OnSignalingReady
  | Start => Connect
  | Data flags sent => SendPacket flags sent ;;; ret tt
  end.
(** What memory the system hands out. *)
Definition allowed (o : op) (s : t) : Prop :=
  match o with
  | Ping _ h => fresh_pointer h s
  | PortReady _ pid _ p => new_port_ok pid p s
  | _ => True
  end.

Lemma exec_holds o s : ok s -> allowed o s -> holds (exec o) s (fun _ _ => True).
Proof.
  destruct o; cbn [exec allowed]; intros H Ha; try (by apply OnPing_holds); try (by apply OnPortReady_holds); revert s H Ha; intros s H _; revert s H.
  all: match goal with |- forall s, ok s -> holds ?m s (fun _ _ => True) => change (keeps m) end.
  all: unfold OnSort, SetIceTiebreaker, SetIceCredentials, SetRemoteIceCredentials, SetRemoteIceMode, OnSignalingReady, AddAllocatorSession, Connect, SendPacket.
  all: keep; irrelevant.
Qed.

Inductive steps (s0 : t) : t -> Prop :=
  | steps_start : steps s0 s0
  | steps_op s s' o : steps s0 s -> allowed o s -> exec o s = Ok tt s' \/ exec o s = Fail s' -> steps s0 s'.

Lemma new_channel_ok component g : ok (new_channel component g).
Proof.
  split; cbn; try done.
  - intros c Hc. by apply elem_of_nil in Hc.
  - constructor.
Qed.
Lemma steps_ok component g s : steps (new_channel component g) s -> ok s.
Proof.
  induction 1 as [|s s' o _ IH Ha E]; [apply new_channel_ok|]. pose proof (exec_holds o s IH Ha) as Hk. unfold holds in Hk. destruct E as [E|E]; rewrite E in Hk; tauto.
Qed.

(** Reset deletes the ports and their connections, and leaves the pointer to
    the nominated connection. *)
Definition cleared (pending : option cid) (s : t) : Prop := heap s = ∅ /\ connections_ s = [] /\ pending_best_connection_ s = pending.
Lemma set_readable_cleared pending b s : cleared pending s -> returns (set_readable b) s (fun _ s' => cleared pending s').
Proof. intros H. unfold set_readable, returns, bind, gets, when. destruct (negb _); exact H. Qed.
Lemma set_writable_cleared pending b s : cleared pending s -> returns (set_writable b) s (fun _ s' => cleared pending s').
Proof. intros H. unfold set_writable, returns, bind, gets, when. destruct (negb _); [destruct b|]; exact H. Qed.
Lemma reset_leaves_pending requested s : exists s', Reset requested s = Ok tt s' /\ cleared (pending_best_connection_ s) s'.
Proof.
  enough (H : returns (Reset requested) s (fun _ s' => cleared (pending_best_connection_ s) s')) by (apply returns_Ok in H as ([] & s' & E & Hc); by exists s').
  unfold Reset. do 6 (apply returns_bind; cbn [returns modify]). apply returns_bind. eapply returns_weaken; [by apply (set_readable_cleared (pending_best_connection_ s))|]. cbv beta. intros _ s1 H1.
  apply returns_bind. eapply returns_weaken; [by apply (set_writable_cleared (pending_best_connection_ s))|]. cbv beta. intros _ s2 H2. do 2 (apply returns_bind; cbn [returns modify]).
  apply returns_bind. destruct requested; exact H2.
Qed.

End Handlers.
End ChannelInv.
