(* ===== verification/Channel.v ===== *)
(** * What a P2PTransportChannel promises

    Its pointers are live whatever happens; a sort chooses the best connection
    and prunes safely; no connection that can be pinged is passed over for
    ever.  A channel with two connections, made by its handlers, is the sample. *)

From stdpp Require Import gmap.
From S2P Require Import Prelude TimeUtils ByteOrder IpAddress Stun Helpers StunRequest SessionDescription IceConnection IcePort IceCheck Outcome P2PTransportChannel ChannelState ChannelSort ChannelPing ChannelInv.
Import ByteOrder TimeUtils IceConnection Outcome P2PTransportChannel ChannelState ChannelSort ChannelPing ChannelInv.
Open Scope jingle_scope.

Module Channel.

Section Promises.
Context `{HM : Machine} `{HR : Helpers.RandomGenerator}.
Variable inet_ntop : IpAddress.family -> bytes -> option bytes.

(** C25: The pointers of a channel are live.  Whatever packets, candidates,
    ports, timers and settings come, in any order, the channel's list has each
    connection of each of its ports once and nothing else, and the best and
    the pending best connection, if there are any, are in it: so what a sort
    or a ping reads exists. *)
Theorem channel_pointers_live component g s : steps inet_ntop (new_channel component g) s ->
  NoDup (connections_ s) /\
  (forall c, c ∈ connections_ s <-> exists n p x, heap s !! c.1 = Some (n, p) /\ In (c.2, x) (IcePort.connections_ p)) /\
  (forall c, c ∈ connections_ s -> is_Some (connection c s)) /\
  (forall c, best_connection_ s = Some c \/ pending_best_connection_ s = Some c -> c ∈ connections_ s).
Proof.
  intros H%steps_ok. split; [apply H|]. split.
  - intros c. split; [apply (ok_live s H)|]. intros (n & p & x & Hh & He). destruct (ok_ports s H _ _ _ Hh) as [_ Hx]. destruct (Hx c.2 x He) as [Hc _]. by destruct c.
  - split; [|intros c [Hb|Hb]; [by apply (ok_best s H)|by apply (ok_pending s H)]].
    intros c Hc. destruct (live_connection s c H Hc) as (_ & _ & x & _ & _ & Hx & _). by exists x.
Qed.

(** C24: After a sort of the connections the best connection is at least as
    good as any: when the channel chooses by itself (Google ICE, or the
    controlling side of RFC 5245), the best one is a live connection with no
    worse write state, and among equals no lower priority, and no older
    generation, than every connection of the channel; the channel is then
    writable exactly if some connection is, and readable exactly if some
    connection is readable.  No connection is lost or invented, no pointer
    followed is dangling, and the channel's invariant is kept. *)
Theorem sort_chooses_best now s : ok s -> protocol_type_ s <> SessionDescription.ICEPROTO_HYBRID -> small_generations s ->
  exists s', SortConnections now s = Ok tt s' /\ ok s' /\ connections_ s' ≡ₚ connections_ s /\
    writable_ s' = best_writable s' /\ readable_ s' = existsb (conn_is readable s') (connections_ s') /\
    (selects s -> writable_ s' = existsb (conn_is writable s') (connections_ s') /\
       forall c v, c ∈ connections_ s' -> view_of c s' = Some v ->
       exists b vb, best_connection_ s' = Some b /\ view_of b s' = Some vb /\ at_least vb v).
Proof.
  intros H Hp Hsm. destruct (proj1 (returns_Ok _ _ _) (SortConnections_phases now s H Hp Hsm)) as ([] & s' & E & s1 & s2 & s3 & Hph).
  exists s'. split; [done|]. split; [apply Hph|]. split; [by eapply ph_connections|]. split; [apply Hph|]. split; [apply Hph|].
  intros Hs. pose proof (ph_chosen_after _ _ _ _ _ Hph Hs) as Hch. split; [|done]. rewrite (ph_writable _ _ _ _ _ Hph). by apply chosen_writable; [apply Hph|].
Qed.

(** C27: Pruning never costs a path that is needed: a connection that a sort
    prunes is not the best connection, and another connection, on the same
    network and of at least its priority, is writable after the sort. *)
Theorem sort_prunes_safely now s s' c x x' : ok s -> protocol_type_ s <> SessionDescription.ICEPROTO_HYBRID -> small_generations s ->
  SortConnections now s = Ok tt s' -> c ∈ connections_ s ->
  connection c s = Some x -> pruned_ x = false -> connection c s' = Some x' -> pruned_ x' = true ->
  best_connection_ s' <> Some c /\
  exists p y vp vc, p ∈ connections_ s' /\ p <> c /\ connection p s' = Some y /\ writable y = true /\
    view_of p s' = Some vp /\ view_of c s' = Some vc /\ v_network vp = v_network vc /\ v_priority vc <= v_priority vp.
Proof.
  intros H Hp Hsm E Hc Hx Hpx Hx' Hpx'. pose proof (SortConnections_phases now s H Hp Hsm) as Hret. unfold returns in Hret. rewrite E in Hret.
  destruct Hret as (s1 & s2 & s3 & Hph). destruct (ph_updated _ _ _ _ _ Hph c x Hc Hx) as (x1 & Hx1 & Hp1 & _).
  assert (Hc2 : c ∈ connections_ s2) by (rewrite (ph_perm _ _ _ _ _ Hph), (moved_connections _ _ (ph_update _ _ _ _ _ Hph)); done).
  assert (Hx2 : connection c s2 = Some x1) by (unfold connection; by rewrite (ph_heap _ _ _ _ _ Hph)).
  destruct (ph_unless_pruned _ _ _ _ _ Hph c Hc2) as [Ek|(Hpr & Hb & _)]; [rewrite Hx', Hx2 in Ek; injection Ek as ->; congruence|].
  split; [done|]. by apply (ph_primier _ _ _ _ _ Hph).
Qed.

(** C26: No connection starves: a connection that could be pinged at each turn
    is passed over fewer than [n] times, [n] the number of connections of the
    channel, in favour of connections whose last ping is older; only the pings
    of the best connection, when it is due, come on top.  Between the pings
    the channel may do anything that neither pings nor makes or deletes
    connections, such as sort them. *)
Theorem no_connection_starves c s k s' : ok s -> c ∈ connections_ s -> waits c s k s' -> (k < length (connections_ s))%nat.
Proof.
  intros H Hc Hw. destruct (waits_measure c s k s' H Hc Hw) as (_ & _ & Hk).
  enough (length (before c s) < length (connections_ s))%nat by lia.
  assert (Hlt : (length (filter (older c s) (connections_ s)) < length (filter (fun _ : cid => True) (connections_ s)))%nat)
    by (apply (filter_length_lt _ _ _ c); [done|done|done|intros [Hn _]; done]).
  eapply Nat.lt_le_trans; [exact Hlt|]. apply length_filter.
Qed.

End Promises.

(** ** The sample *)

#[local] Existing Instance x86.
#[local] Existing Instance Helpers.TestRandomGenerator.

(** One handler after another: a stuck one would change nothing. *)
Definition step (o : op) (s : t) : t := match exec IceCheck.no_ntop o s with Ok _ s' | Fail s' => s' | Stuck => s end.
Definition goes (o : op) (s : t) : bool := match exec IceCheck.no_ntop o s with Ok _ _ => true | _ => false end.
Lemma step_steps s0 s o : steps IceCheck.no_ntop s0 s -> allowed o s -> goes o s = true -> steps IceCheck.no_ntop s0 (step o s).
Proof.
  intros Hs Ha Hg. unfold goes, step in *. destruct (exec IceCheck.no_ntop o s) as [[] s'|s'|] eqn:E; [|done..]. eapply steps_op; [done|done|]. left. exact E.
Qed.

Definition local_port : Port := IcePort.put_connections [] (IceCheck.port_A ICEROLE_CONTROLLING).
Definition candidate (id : string) (host : Z) (priority : Z) : SessionDescription.Candidate :=
  SessionDescription.mkCandidate (str id) 1 (str "udp") (IceCheck.v4 [10; 0; 0; host] 2000) priority (str "userB") (str "passwordB") (str "local") [] 0 (str "1") IpAddress.sa_clear.
Definition c1 : cid := (1, IceCheck.v4 [10; 0; 0; 2] 2000).
Definition c2 : cid := (1, IceCheck.v4 [10; 0; 0; 3] 2000).

Definition s0 : t := new_channel 1 Helpers.test_seed.
Definition s1 : t := step (Role ICEROLE_CONTROLLING) s0.
Definition s2 : t := step (Protocol SessionDescription.ICEPROTO_RFC5245) s1.
Definition s3 : t := step (PortReady 10 1 7 local_port) s2.
Definition s4 : t := step (Candidate 20 (candidate "x" 2 2113937151)) s3.
Definition s5 : t := step (Candidate 30 (candidate "y" 3 1677721855)) s4.

Lemma sample_goes : goes (Role ICEROLE_CONTROLLING) s0 && goes (Protocol SessionDescription.ICEPROTO_RFC5245) s1 && goes (PortReady 10 1 7 local_port) s2 &&
  goes (Candidate 20 (candidate "x" 2 2113937151)) s3 && goes (Candidate 30 (candidate "y" 3 1677721855)) s4 = true.
Proof. vm_compute. reflexivity. Qed.
Lemma sample_port_new : new_port_ok 1 local_port s2.
Proof. split; [vm_compute; reflexivity|]. split; [reflexivity|]. vm_compute. discriminate. Qed.
Lemma sample_steps : steps IceCheck.no_ntop s0 s5.
Proof.
  pose proof sample_goes as Hg. do 4 (apply andb_true_iff in Hg as [Hg ?]).
  apply (step_steps s0 s4); [|exact I|done]. apply (step_steps s0 s3); [|exact I|done]. apply (step_steps s0 s2); [|exact sample_port_new|done].
  apply (step_steps s0 s1); [|exact I|done]. apply (step_steps s0 s0); [constructor|exact I|done].
Qed.
Lemma sample_channel_ok : ok s5.
Proof. exact (steps_ok IceCheck.no_ntop 1 Helpers.test_seed s5 sample_steps). Qed.
Lemma sample_connections : connections_ s5 = [c1; c2].
Proof. vm_compute. reflexivity. Qed.

Lemma channel_pointers_live_witness : steps IceCheck.no_ntop (new_channel 1 Helpers.test_seed) s5 /\ NoDup (connections_ s5) /\ connections_ s5 = [c1; c2] /\
  (forall c, c ∈ connections_ s5 -> is_Some (connection c s5)).
Proof.
  split; [exact sample_steps|]. destruct (@channel_pointers_live x86 Helpers.TestRandomGenerator IceCheck.no_ntop 1 Helpers.test_seed s5 sample_steps) as (H1 & _ & H3 & _).
  split; [exact H1|]. split; [exact sample_connections|exact H3].
Defined.

(** One connection has become writable, the other has the lower priority. *)
Definition conn (c : cid) (s : t) : Connection := default (IceConnection.new 0 (candidate "" 0 0)) (connection c s).
Definition found (c : cid) (s : t) : bool := match connection c s with Some _ => true | None => false end.
Lemma found_conn c s : found c s = true -> connection c s = Some (conn c s).
Proof. unfold found, conn. by destruct (connection c s). Qed.
Lemma write_evolves w x : conn_evolves x (put_write_state w x).
Proof. by split; [|split]. Qed.
Definition s6 : t := put_conn c1 (put_write_state STATE_WRITABLE (conn c1 s5)) s5.
Lemma sample_live : found c1 s5 && found c2 s5 && found c1 s6 && found c2 s6 = true.
Proof. vm_compute. reflexivity. Qed.
Lemma s6_ok : ok s6 /\ connections_ s6 = [c1; c2].
Proof.
  pose proof sample_live as Hf. do 3 (apply andb_true_iff in Hf as [Hf ?]).
  pose proof (put_conn_ok c1 s5 (conn c1 s5) (put_write_state STATE_WRITABLE (conn c1 s5)) sample_channel_ok (found_conn c1 s5 Hf) (write_evolves STATE_WRITABLE (conn c1 s5))) as [K1 K2].
  split; [exact K1|]. rewrite <- sample_connections. exact K2.
Qed.
Definition small_at (s : t) (c : cid) : bool := match view_of c s with Some v => (0 <=? v_generation v) && (v_generation v <? 2 ^ 31) | None => true end.
Lemma small_all s : forallb (small_at s) (connections_ s) = true -> small_generations s.
Proof. rewrite forallb_forall. intros H c v Hc%list_elem_of_In Hv. specialize (H c Hc). unfold small_at in H. rewrite Hv in H. unfold small. lia. Qed.
Lemma s6_small : small_generations s6.
Proof. apply small_all. vm_compute. reflexivity. Qed.
Lemma s6_protocol : protocol_type_ s6 <> SessionDescription.ICEPROTO_HYBRID.
Proof. assert (H : protocol_type_ s6 = SessionDescription.ICEPROTO_RFC5245) by (vm_compute; reflexivity). by rewrite H. Qed.

Lemma sort_chooses_best_witness : exists s', SortConnections 40 s6 = Ok tt s' /\ connections_ s' ≡ₚ [c1; c2] /\ ok s' /\
  writable_ s' = existsb (conn_is writable s') (connections_ s').
Proof.
  destruct (@sort_chooses_best x86 Helpers.TestRandomGenerator 40 s6 (proj1 s6_ok) s6_protocol s6_small) as (s' & E & H1 & H2 & _ & _ & H3).
  exists s'. split; [exact E|]. split; [rewrite H2; by rewrite (proj2 s6_ok)|]. split; [exact H1|]. apply H3. right. vm_compute. reflexivity.
Defined.

Definition s7 : t := match SortConnections 40 s6 with Ok _ s' => s' | _ => s6 end.
Lemma s7_sorted : SortConnections 40 s6 = Ok tt s7.
Proof.
  assert (H : match SortConnections 40 s6 with Ok _ _ => true | _ => false end = true) by (vm_compute; reflexivity).
  unfold s7. destruct (SortConnections 40 s6) as [[] s'|s'|]; [done|discriminate H..].
Qed.
(** The other one is pruned. *)
Lemma s7_pruned : negb (pruned_ (conn c2 s6)) && found c2 s7 && pruned_ (conn c2 s7) && writable (conn c1 s7) && writable_ s7 = true.
Proof. vm_compute. reflexivity. Qed.

Lemma sort_prunes_safely_witness : SortConnections 40 s6 = Ok tt s7 /\ pruned_ (conn c2 s6) = false /\ pruned_ (conn c2 s7) = true /\ best_connection_ s7 <> Some c2 /\
  exists p y vp vc, p ∈ connections_ s7 /\ p <> c2 /\ connection p s7 = Some y /\ writable y = true /\
    view_of p s7 = Some vp /\ view_of c2 s7 = Some vc /\ v_network vp = v_network vc /\ v_priority vc <= v_priority vp.
Proof.
  pose proof s7_pruned as Hf. do 4 (apply andb_true_iff in Hf as [Hf ?]). pose proof sample_live as Hl. apply andb_true_iff in Hl as [_ Hl]. apply negb_true_iff in Hf.
  split; [exact s7_sorted|]. split; [done|]. split; [done|].
  apply (@sort_prunes_safely x86 Helpers.TestRandomGenerator 40 s6 s7 c2 (conn c2 s6) (conn c2 s7) (proj1 s6_ok) s6_protocol s6_small s7_sorted);
    [rewrite (proj2 s6_ok); right; left|by apply found_conn|done|by apply found_conn|done].
Defined.

(** A ping of the first connection, for which the second one waits. *)
Definition can_ping_b (h : Z) (g : Helpers.rng) (p : Port) (x : Connection) : bool :=
  connected_ x && bool_decide (is_Some (IcePort.username_fragment p)) && negb (IcePort.IsStandardIce p && bool_decide (IcePort.ice_role_ p = ICEROLE_UNKNOWN)) &&
  bool_decide (StunRequest.heap (requests_ x) !! h = None) && bool_decide (StunRequest.requests_ (requests_ x) !! next_id g = None).
Lemma can_ping_of h g p x : can_ping_b h g p x = true -> can_ping h g p x.
Proof.
  unfold can_ping_b. rewrite !andb_true_iff, negb_true_iff, !bool_decide_eq_true. intros ((((A & B) & C) & D) & E). split; [done..| |done|done].
  intros Hs Hr. rewrite Hs, bool_decide_eq_true_2 in C by done. done.
Qed.
Definition ready_b (h : Z) (s : t) : bool :=
  negb (h =? 0) && forallb (fun c : cid => match heap s !! c.1 with Some (_, p) => forallb (fun e => can_ping_b h (rng_ s) p e.2) (IcePort.connections_ p) | None => true end) (connections_ s).
Lemma ready_of h s : ready_b h s = true -> ready h s.
Proof.
  intros H. apply andb_true_iff in H as [H0 H]. split; [intros ->; discriminate H0|]. intros c n p x Hc Hh He. rewrite forallb_forall in H.
  specialize (H c (proj1 (list_elem_of_In _ _) Hc)). rewrite Hh in H. rewrite forallb_forall in H. apply can_ping_of. exact (H (c.2, x) He).
Qed.
Lemma later_of now s : (now <? 2 ^ 32 - 1) && forallb (fun c => last s c <? now) (connections_ s) = true -> later now s.
Proof.
  rewrite andb_true_iff, Z.ltb_lt, forallb_forall. intros [H1 H2]. split; [done|]. intros c Hc%list_elem_of_In%H2. by apply Z.ltb_lt.
Qed.
Definition s8 : t := match choice 40 s5 with Ok _ s => s | _ => s5 end.
Definition s9 : t := match OnPing 40 5 s5 with Ok _ s => s | _ => s5 end.
Lemma s8_choice : choice 40 s5 = Ok (false, Some c1) s8.
Proof.
  assert (H : match choice 40 s5 with Ok r _ => bool_decide (r = (false, Some c1)) | _ => false end = true) by (vm_compute; reflexivity).
  unfold s8. destruct (choice 40 s5) as [r s'|s'|]; [|discriminate H..]. apply bool_decide_eq_true in H. rewrite H. reflexivity.
Qed.
Lemma s9_ping : OnPing 40 5 s5 = Ok tt s9.
Proof.
  assert (H : match OnPing 40 5 s5 with Ok _ _ => true | _ => false end = true) by (vm_compute; reflexivity).
  unfold s9. destruct (OnPing 40 5 s5) as [[] s'|s'|]; [reflexivity|discriminate H..].
Qed.
Lemma s8_pingable : pingable s8 c2.
Proof.
  assert (H : match connection c2 s8 with Some x => IsPingable (writable_ s8) x | None => false end = true) by (vm_compute; reflexivity).
  unfold pingable. destruct (connection c2 s8) as [x|]; [|discriminate H]. exists x. split; [reflexivity|exact H].
Qed.
Lemma s5_waits : waits c2 s5 1 s9.
Proof.
  assert (Hl : later 40 s5) by (apply later_of; vm_compute; reflexivity). assert (Hr : ready 5 s5) by (apply ready_of; vm_compute; reflexivity).
  exact (waits_ping c2 s5 0 s5 s8 s9 40 5 false (Some c1) (waits_start c2 s5) Hl Hr s8_choice s8_pingable ltac:(discriminate) s9_ping).
Qed.

Lemma no_connection_starves_witness : ok s5 /\ waits c2 s5 1 s9 /\ (1 < length (connections_ s5))%nat.
Proof.
  split; [exact sample_channel_ok|]. split; [exact s5_waits|].
  apply (@no_connection_starves x86 Helpers.TestRandomGenerator c2 s5 1 s9 sample_channel_ok); [rewrite sample_connections; right; left|exact s5_waits].
Defined.

End Channel.
