(* ===== verification/TransportFactory.v ===== *)
(** * p2p/base/transportdescriptionfactory.cc: transport offers and answers

    The factory negotiates the ICE variant, makes the ICE credentials and adds
    a certificate fingerprint where DTLS is wanted.  An SSLIdentity is an
    interface of the sources that OpenSSL or NSS implements: the record of
    what its certificate answers. *)

From S2P Require Import Prelude ByteOrder Helpers SessionDescription Outcome.
Import SessionDescription Outcome.
Open Scope jingle_scope.

Module TransportFactory.

Definition ICE_UFRAG_LENGTH : nat := 16.
Definition ICE_PWD_LENGTH : nat := 24.
Definition NS_JINGLE_ICE_UDP : bytes := str "urn:xmpp:jingle:transports:ice-udp:1".
Definition NS_GINGLE_P2P : bytes := str "http://www.google.com/transport/p2p".
Definition ICE_OPTION_GICE : bytes := str "google-ice".

Record SSLIdentity := mkIdentity {
  GetSignatureDigestAlgorithm : option bytes;
  ComputeDigest : bytes -> option bytes;
}.

(** SSLFingerprint::Create *)
Definition CreateFingerprint (algorithm : bytes) (identity : SSLIdentity) : option SSLFingerprint :=
  match ComputeDigest identity algorithm with Some d => Some (mkFingerprint algorithm d) | None => None end.

Record TransportOptions := mkTransportOptions { ice_restart : bool; prefer_passive_role : bool }.
Definition default_options : TransportOptions := mkTransportOptions false false.

Record t := mk { protocol_ : TransportProtocol; secure_ : SecurePolicy; identity_ : option SSLIdentity }.
Definition kDefaultProtocol : TransportProtocol := ICEPROTO_GOOGLE.
Definition new : t := mk kDefaultProtocol SEC_DISABLED None.

Definition SetSecurityInfo (f : t) (desc : TransportDescription) (role : ConnectionRole) : option TransportDescription :=
  let? identity := identity_ f in
  let? digest_alg := GetSignatureDigestAlgorithm identity in
  let? fingerprint := CreateFingerprint digest_alg identity in
  Some (set_security role fingerprint desc).

(** SEC_ENABLED or SEC_REQUIRED *)
Definition wants_dtls (p : SecurePolicy) : bool := negb (bool_decide (p = SEC_DISABLED)).

Section Factory.
Context `{R : Helpers.RandomGenerator}.

(** The one-argument form: empty if the generator fails. *)
Definition CreateRandomString (len : nat) : comp Helpers.rng bytes :=
  fun g => match Helpers.CreateRandomString len g with (Some s, g) => Ok s g | (None, g) => Ok [] g end.

Definition credentials (options : TransportOptions) (current : option TransportDescription) (desc : TransportDescription)
  : comp Helpers.rng TransportDescription :=
  match current with
  | Some c => if ice_restart options then ufrag <- CreateRandomString ICE_UFRAG_LENGTH;; pwd <- CreateRandomString ICE_PWD_LENGTH;; ret (set_ice ufrag pwd desc)
              else ret (set_ice (ice_ufrag c) (ice_pwd c) desc)
  | None => ufrag <- CreateRandomString ICE_UFRAG_LENGTH;; pwd <- CreateRandomString ICE_PWD_LENGTH;; ret (set_ice ufrag pwd desc)
  end.

Definition CreateOffer (f : t) (options : TransportOptions) (current : option TransportDescription)
  : comp Helpers.rng TransportDescription :=
  let desc := new_transport in
  let desc :=
    match protocol_ f with
    | ICEPROTO_RFC5245 => set_transport_type NS_JINGLE_ICE_UDP desc
    | ICEPROTO_HYBRID => AddOption ICE_OPTION_GICE (set_transport_type NS_JINGLE_ICE_UDP desc)
    | ICEPROTO_GOOGLE => set_transport_type NS_GINGLE_P2P desc
    end in
  desc <- credentials options current desc;;
  if wants_dtls (secure_ f) then of_option (SetSecurityInfo f desc CONNECTIONROLE_ACTPASS) else ret desc.

Definition has_type (ty : bytes) (d : TransportDescription) : bool := bool_decide (transport_type d = ty).
Definition is_protocol (f : t) (p : TransportProtocol) : bool := bool_decide (protocol_ f = p).

(** The transport type of the answer, [None] for a mismatch. *)
Definition answer_type (f : t) (offer : option TransportDescription) : option bytes :=
  let offers p := match offer with Some o => p o | None => false end in
  if offers (has_type NS_JINGLE_ICE_UDP) && (is_protocol f ICEPROTO_RFC5245 || is_protocol f ICEPROTO_HYBRID)
  then Some NS_JINGLE_ICE_UDP
  else if offers (has_type NS_JINGLE_ICE_UDP) && offers (HasOption ICE_OPTION_GICE) && is_protocol f ICEPROTO_GOOGLE
  then Some NS_GINGLE_P2P
  else if (bool_decide (offer = None) || offers (has_type NS_GINGLE_P2P)) && (is_protocol f ICEPROTO_HYBRID || is_protocol f ICEPROTO_GOOGLE)
  then Some NS_GINGLE_P2P
  else None.

Definition CreateAnswer (f : t) (offer : option TransportDescription) (options : TransportOptions)
    (current : option TransportDescription) : comp Helpers.rng TransportDescription :=
  transport_type <- of_option (answer_type f offer);;
  desc <- credentials options current (set_transport_type transport_type new_transport);;
  if match offer with Some o => secure o | None => false end
  then
    if wants_dtls (secure_ f)
    then of_option (SetSecurityInfo f desc (if prefer_passive_role options then CONNECTIONROLE_PASSIVE else CONNECTIONROLE_ACTIVE))
    else ret desc
  else
    guard (negb (bool_decide (secure_ f = SEC_REQUIRED)));;; ret desc.
End Factory.

(** ** What two factories agree on *)

(** The variants of ICE that a protocol setting can speak. *)
Definition speaks (p : TransportProtocol) (ty : bytes) : bool :=
  match p with
  | ICEPROTO_RFC5245 => bool_decide (ty = NS_JINGLE_ICE_UDP)
  | ICEPROTO_GOOGLE => bool_decide (ty = NS_GINGLE_P2P)
  | ICEPROTO_HYBRID => bool_decide (ty = NS_JINGLE_ICE_UDP) || bool_decide (ty = NS_GINGLE_P2P)
  end.
(** The identity can be used for DTLS. *)
Definition usable (f : t) : bool :=
  match identity_ f with
  | Some i => match GetSignatureDigestAlgorithm i with Some a => match ComputeDigest i a with Some _ => true | None => false end | None => false end
  | None => false
  end.

Lemma SetSecurityInfo_spec f d role : SetSecurityInfo f d role = None <-> usable f = false.
Proof. unfold SetSecurityInfo, usable, CreateFingerprint. by repeat case_match. Qed.
Lemma SetSecurityInfo_Some f d role d' : SetSecurityInfo f d role = Some d' ->
  usable f = true /\ exists p, d' = set_security role p d.
Proof.
  unfold SetSecurityInfo, usable, CreateFingerprint. repeat case_match; try done. intros [= <-]. split; [done|]. by eexists.
Qed.

Section Agreement.
Context `{R : Helpers.RandomGenerator}.

Lemma credentials_Ok options current d g : exists u p g', credentials options current d g = Ok (set_ice u p d) g' /\
  (forall c, current = Some c -> ice_restart options = false -> u = ice_ufrag c /\ p = ice_pwd c /\ g' = g).
Proof.
  assert (Hr : exists u p g', (ufrag <- CreateRandomString ICE_UFRAG_LENGTH;; pwd <- CreateRandomString ICE_PWD_LENGTH;; ret (set_ice ufrag pwd d)) g
                              = Ok (set_ice u p d) g').
  { unfold bind, CreateRandomString. destruct (Helpers.CreateRandomString _ g) as [[u|] g1];
      destruct (Helpers.CreateRandomString _ g1) as [[p|] g2]; by do 3 eexists. }
  unfold credentials. destruct current as [c|]; [destruct (ice_restart options)|].
  - destruct Hr as (u & p & g' & E). exists u, p, g'. by split.
  - exists (ice_ufrag c), (ice_pwd c), g. split; [done|]. by intros ? [= <-].
  - destruct Hr as (u & p & g' & E). exists u, p, g'. by split.
Qed.

Lemma CreateOffer_spec f options current g :
  match CreateOffer f options current g with
  | Ok o _ =>
      transport_type o = (if bool_decide (protocol_ f = ICEPROTO_GOOGLE) then NS_GINGLE_P2P else NS_JINGLE_ICE_UDP) /\
      HasOption ICE_OPTION_GICE o = bool_decide (protocol_ f = ICEPROTO_HYBRID) /\
      secure o = wants_dtls (secure_ f) /\ (secure o = true -> connection_role o = Some CONNECTIONROLE_ACTPASS)
  | Fail _ => wants_dtls (secure_ f) = true /\ usable f = false
  | Stuck => False
  end.
Proof.
  unfold CreateOffer. set (d := match protocol_ f with ICEPROTO_GOOGLE => _ | _ => _ end).
  destruct (credentials_Ok options current d g) as (u & p & g' & E & _). unfold bind. rewrite E.
  assert (Hd : transport_type d = (if bool_decide (protocol_ f = ICEPROTO_GOOGLE) then NS_GINGLE_P2P else NS_JINGLE_ICE_UDP) /\
               HasOption ICE_OPTION_GICE d = bool_decide (protocol_ f = ICEPROTO_HYBRID) /\ secure d = false).
  { unfold d. destruct (protocol_ f); by vm_compute. }
  destruct Hd as (H1 & H2 & H3). destruct (wants_dtls (secure_ f)) eqn:Hw.
  - destruct (SetSecurityInfo f _ _) as [o|] eqn:Es; cbn.
    + apply SetSecurityInfo_Some in Es as (_ & fp & ->). by split_and!.
    + split; [done|]. by apply SetSecurityInfo_spec in Es.
  - cbn. split_and!; [exact H1|exact H2|exact H3|]. unfold secure in H3 |- *. cbn. by destruct (identity_fingerprint d).
Qed.

Lemma CreateAnswer_spec f offer options current g :
  match CreateAnswer f offer options current g with
  | Ok a _ =>
      answer_type f offer = Some (transport_type a) /\
      secure a = (match offer with Some o => secure o | None => false end) && wants_dtls (secure_ f) /\
      (secure_ f = SEC_REQUIRED -> secure a = true) /\
      (secure a = true -> connection_role a = Some (if prefer_passive_role options then CONNECTIONROLE_PASSIVE else CONNECTIONROLE_ACTIVE))
  | Fail _ =>
      answer_type f offer = None \/
      (match offer with Some o => secure o | None => false end = true /\ wants_dtls (secure_ f) = true /\ usable f = false) \/
      (match offer with Some o => secure o | None => false end = false /\ secure_ f = SEC_REQUIRED)
  | Stuck => False
  end.
Proof.
  unfold CreateAnswer. destruct (answer_type f offer) as [ty|]; [|by left]. unfold bind at 1. cbn [of_option ret].
  destruct (credentials_Ok options current (set_transport_type ty new_transport) g) as (u & p & g' & E & _). unfold bind at 1. rewrite E.
  set (os := match offer with Some o => secure o | None => false end). destruct os.
  - destruct (wants_dtls (secure_ f)) eqn:Hw; [|by split_and!; [..|intros Hs; unfold wants_dtls in Hw; rewrite Hs in Hw|]].
    destruct (SetSecurityInfo f _ _) as [a|] eqn:Es; cbn.
    + apply SetSecurityInfo_Some in Es as (_ & fp & ->). by split_and!.
    + right. left. apply SetSecurityInfo_spec in Es. by split_and!.
  - destruct (bool_decide (secure_ f = SEC_REQUIRED)) eqn:Hr; cbn.
    + right. right. split; [done|]. by apply bool_decide_eq_true in Hr.
    + apply bool_decide_eq_false in Hr. by split_and!.
Qed.

(** When one factory answers the offer of another, the result is an ICE
    variant that both speak, RFC 5245 ICE if both do; DTLS is used exactly if
    both want it, with the offerer ready for either role and the answerer
    choosing one; and the answer fails only if the two have no variant in
    common, one requires DTLS that the other does not do, or the identity of
    the answerer is not usable. *)
Theorem transport_factories_agree fa fb oa ob ca cb g o g1 : CreateOffer fa oa ca g = Ok o g1 ->
  let common ty := speaks (protocol_ fa) ty && speaks (protocol_ fb) ty in
  match CreateAnswer fb (Some o) ob cb g1 with
  | Ok a _ =>
      common (transport_type a) = true /\
      (common NS_JINGLE_ICE_UDP = true -> transport_type a = NS_JINGLE_ICE_UDP) /\
      secure a = wants_dtls (secure_ fa) && wants_dtls (secure_ fb) /\
      (secure a = true -> connection_role o = Some CONNECTIONROLE_ACTPASS /\
         connection_role a = Some (if prefer_passive_role ob then CONNECTIONROLE_PASSIVE else CONNECTIONROLE_ACTIVE))
  | Fail _ =>
      (forall ty, common ty = false) \/
      (wants_dtls (secure_ fa) = true /\ wants_dtls (secure_ fb) = true /\ usable fb = false) \/
      (wants_dtls (secure_ fa) = false /\ secure_ fb = SEC_REQUIRED)
  | Stuck => False
  end.
Proof.
  intros Eo common. pose proof (CreateOffer_spec fa oa ca g) as Ho. rewrite Eo in Ho. destruct Ho as (Ht & Hg & Hs & Hr).
  assert (Hat : forall ty, answer_type fb (Some o) = Some ty -> common ty = true /\ (common NS_JINGLE_ICE_UDP = true -> ty = NS_JINGLE_ICE_UDP)).
  { intros ty. unfold answer_type, has_type, is_protocol. rewrite Ht, Hg. unfold common.
    destruct (protocol_ fa), (protocol_ fb); vm_compute; intros [= <-]; by split. }
  assert (Hno : answer_type fb (Some o) = None -> forall ty, common ty = false).
  { unfold answer_type, has_type, is_protocol. rewrite Ht, Hg. unfold common.
    destruct (protocol_ fa), (protocol_ fb); try (vm_compute; discriminate); intros _ ty; cbn [speaks];
      destruct (bool_decide (ty = NS_JINGLE_ICE_UDP)) eqn:E1, (bool_decide (ty = NS_GINGLE_P2P)) eqn:E2; try done;
      apply bool_decide_eq_true in E1, E2; by rewrite E1 in E2. }
  pose proof (CreateAnswer_spec fb (Some o) ob cb g1) as Ha. destruct (CreateAnswer _ _ _ _ _) as [a ?|?|]; [| |done].
  - destruct Ha as (H1 & H2 & _ & H4). destruct (Hat _ H1) as [H5 H6]. rewrite H2, Hs. split_and!; [done..|].
    intros Hb. split; [|by apply H4; rewrite H2, Hs]. apply Hr. rewrite Hs. by apply andb_true_iff in Hb as [].
  - rewrite Hs in Ha. destruct Ha as [Ha|Ha]; [by left; apply Hno|by right].
Qed.
End Agreement.

Definition sample_identity : SSLIdentity := mkIdentity (Some (str "sha-1")) (fun a => Some (a ++ [1; 2; 3])).
Definition sample_offerer : t := mk ICEPROTO_HYBRID SEC_ENABLED (Some sample_identity).
Definition sample_answerer : t := mk ICEPROTO_RFC5245 SEC_REQUIRED (Some sample_identity).

Lemma transport_factories_agree_witness : exists o g1 a g2,
  @CreateOffer Helpers.TestRandomGenerator sample_offerer default_options None Helpers.test_seed = Ok o g1 /\
  @CreateAnswer Helpers.TestRandomGenerator sample_answerer (Some o) default_options None g1 = Ok a g2 /\
  transport_type a = NS_JINGLE_ICE_UDP /\ secure a = true.
Proof.
  destruct (@CreateOffer Helpers.TestRandomGenerator sample_offerer default_options None Helpers.test_seed) as [o g1|?|] eqn:Eo;
    [|vm_compute in Eo; discriminate..].
  pose proof (@transport_factories_agree Helpers.TestRandomGenerator sample_offerer sample_answerer default_options default_options None None
                Helpers.test_seed o g1 Eo) as Ha. cbn zeta in Ha.
  destruct (CreateAnswer sample_answerer (Some o) default_options None g1) as [a g2|?|] eqn:Ea.
  - exists o, g1, a, g2. destruct Ha as (_ & Hj & Hs & _). by split_and!; [..|apply Hj|rewrite Hs].
  - exfalso. destruct Ha as [Ha|[[_ [_ Ha]]|[Ha _]]]; [|done..]. specialize (Ha NS_JINGLE_ICE_UDP). vm_compute in Ha. discriminate.
  - by exfalso.
Defined.
End TransportFactory.
