(* ===== verification/MediaDescription.v ===== *)
(** * session/media/mediasession.h: descriptions of media contents

    A MediaContentDescriptionImpl<C> is the base part and the codecs; the
    content of a session description is one of the three classes. *)

From stdpp Require Import gmap sorting.
From S2P Require Import Prelude Codec StreamParams SrtpFilter MediaSession SessionDescription TransportFactory.
Import Codec SessionDescription.
Import SrtpFilter (CryptoParams).
Import MediaSession.
Open Scope jingle_scope.

Module MediaDescription.

Inductive MediaContentDirection := MD_INACTIVE | MD_SENDONLY | MD_RECVONLY | MD_SENDRECV.
Inductive CryptoType := CT_NONE | CT_SDES | CT_DTLS.
Inductive DataChannelType := DCT_NONE | DCT_RTP | DCT_SCTP.
#[export] Instance CryptoType_eq_dec : EqDecision CryptoType. Proof. solve_decision. Defined.
#[export] Instance DataChannelType_eq_dec : EqDecision DataChannelType. Proof. solve_decision. Defined.

Definition kAutoBandwidth : Z := -1.
Definition kBufferedModeDisabled : Z := 0.
Definition kDataMaxBandwidth : Z := 30720.

Record RtpHeaderExtension := mkExtension { uri : bytes; ext_id : Z }.
#[export] Instance RtpHeaderExtension_eq_dec : EqDecision RtpHeaderExtension. Proof. solve_decision. Defined.

(** ** Options *)

Record Stream := mkStream { stream_type : MediaType; stream_id : bytes; stream_sync_label : bytes; num_sim_layers : Z }.
Record MediaSessionOptions := mkOptions {
  has_audio : bool; has_video : bool; data_channel_type : DataChannelType; is_muc : bool; vad_enabled : bool;
  rtcp_mux_enabled : bool; bundle_enabled : bool; video_bandwidth : Z; data_bandwidth : Z;
  transport_options : TransportFactory.TransportOptions; streams : list Stream;
}.
Definition new_options : MediaSessionOptions :=
  mkOptions true false DCT_NONE false true true false kAutoBandwidth kDataMaxBandwidth TransportFactory.default_options [].
Definition has_data (o : MediaSessionOptions) : bool := negb (bool_decide (data_channel_type o = DCT_NONE)).

Definition set_media (audio video : bool) (data : DataChannelType) (l : list Stream) (o : MediaSessionOptions) : MediaSessionOptions :=
  mkOptions audio video data (is_muc o) (vad_enabled o) (rtcp_mux_enabled o) (bundle_enabled o) (video_bandwidth o)
    (data_bandwidth o) (transport_options o) l.
Definition AddStreamInternal (ty : MediaType) (id sync_label : bytes) (layers : Z) (o : MediaSessionOptions) : MediaSessionOptions :=
  let l := streams o ++ [mkStream ty id sync_label layers] in
  match ty with
  | MEDIA_TYPE_VIDEO => set_media (has_audio o) true (data_channel_type o) l o
  | MEDIA_TYPE_AUDIO => set_media true (has_video o) (data_channel_type o) l o
  | MEDIA_TYPE_DATA =>
      set_media (has_audio o) (has_video o) (if bool_decide (data_channel_type o = DCT_NONE) then DCT_RTP else data_channel_type o) l o
  end.
Definition AddStream (ty : MediaType) (id sync_label : bytes) (o : MediaSessionOptions) : MediaSessionOptions :=
  AddStreamInternal ty id sync_label 1 o.
Definition AddVideoStream (id sync_label : bytes) (layers : Z) (o : MediaSessionOptions) : MediaSessionOptions :=
  AddStreamInternal MEDIA_TYPE_VIDEO id sync_label layers o.
(** The assertion is an obligation. *)
Definition RemoveStream (ty : MediaType) (id : bytes) (o : MediaSessionOptions) : option MediaSessionOptions :=
  let? l := remove_first (fun s => bool_decide (stream_type s = ty) && bool_decide (stream_id s = id)) (streams o) in
  Some (set_media (has_audio o) (has_video o) (data_channel_type o) l o).

(** ** MediaContentDescription *)

Record MediaContentDescription := mkDescription {
  rtcp_mux_ : bool; bandwidth_ : Z; protocol_ : bytes; cryptos_ : list CryptoParams; crypto_required_ : CryptoType;
  rtp_header_extensions_ : list RtpHeaderExtension; rtp_header_extensions_set_ : bool; multistream_ : bool;
  streams_ : list StreamParams.StreamParams; conference_mode_ : bool; partial_ : bool; buffered_mode_latency_ : Z;
  direction_ : MediaContentDirection;
}.
Definition new_description : MediaContentDescription :=
  mkDescription false kAutoBandwidth [] [] CT_NONE [] false false [] false false kBufferedModeDisabled MD_SENDRECV.

Definition set_rtcp_mux (v : bool) (d : MediaContentDescription) : MediaContentDescription :=
  mkDescription v (bandwidth_ d) (protocol_ d) (cryptos_ d) (crypto_required_ d) (rtp_header_extensions_ d) (rtp_header_extensions_set_ d) (multistream_ d) (streams_ d) (conference_mode_ d) (partial_ d) (buffered_mode_latency_ d) (direction_ d).
Definition set_bandwidth (v : Z) (d : MediaContentDescription) : MediaContentDescription :=
  mkDescription (rtcp_mux_ d) v (protocol_ d) (cryptos_ d) (crypto_required_ d) (rtp_header_extensions_ d) (rtp_header_extensions_set_ d) (multistream_ d) (streams_ d) (conference_mode_ d) (partial_ d) (buffered_mode_latency_ d) (direction_ d).
Definition set_protocol (v : bytes) (d : MediaContentDescription) : MediaContentDescription :=
  mkDescription (rtcp_mux_ d) (bandwidth_ d) v (cryptos_ d) (crypto_required_ d) (rtp_header_extensions_ d) (rtp_header_extensions_set_ d) (multistream_ d) (streams_ d) (conference_mode_ d) (partial_ d) (buffered_mode_latency_ d) (direction_ d).
Definition set_cryptos (v : list CryptoParams) (d : MediaContentDescription) : MediaContentDescription :=
  mkDescription (rtcp_mux_ d) (bandwidth_ d) (protocol_ d) v (crypto_required_ d) (rtp_header_extensions_ d) (rtp_header_extensions_set_ d) (multistream_ d) (streams_ d) (conference_mode_ d) (partial_ d) (buffered_mode_latency_ d) (direction_ d).
Definition set_crypto_required (v : CryptoType) (d : MediaContentDescription) : MediaContentDescription :=
  mkDescription (rtcp_mux_ d) (bandwidth_ d) (protocol_ d) (cryptos_ d) v (rtp_header_extensions_ d) (rtp_header_extensions_set_ d) (multistream_ d) (streams_ d) (conference_mode_ d) (partial_ d) (buffered_mode_latency_ d) (direction_ d).
Definition set_multistream (v : bool) (d : MediaContentDescription) : MediaContentDescription :=
  mkDescription (rtcp_mux_ d) (bandwidth_ d) (protocol_ d) (cryptos_ d) (crypto_required_ d) (rtp_header_extensions_ d) (rtp_header_extensions_set_ d) v (streams_ d) (conference_mode_ d) (partial_ d) (buffered_mode_latency_ d) (direction_ d).
Definition set_streams (v : list StreamParams.StreamParams) (d : MediaContentDescription) : MediaContentDescription :=
  mkDescription (rtcp_mux_ d) (bandwidth_ d) (protocol_ d) (cryptos_ d) (crypto_required_ d) (rtp_header_extensions_ d) (rtp_header_extensions_set_ d) (multistream_ d) v (conference_mode_ d) (partial_ d) (buffered_mode_latency_ d) (direction_ d).
Definition set_direction (v : MediaContentDirection) (d : MediaContentDescription) : MediaContentDescription :=
  mkDescription (rtcp_mux_ d) (bandwidth_ d) (protocol_ d) (cryptos_ d) (crypto_required_ d) (rtp_header_extensions_ d) (rtp_header_extensions_set_ d) (multistream_ d) (streams_ d) (conference_mode_ d) (partial_ d) (buffered_mode_latency_ d) v.
Definition set_rtp_header_extensions (v : list RtpHeaderExtension) (d : MediaContentDescription) : MediaContentDescription :=
  mkDescription (rtcp_mux_ d) (bandwidth_ d) (protocol_ d) (cryptos_ d) (crypto_required_ d) v true (multistream_ d) (streams_ d) (conference_mode_ d) (partial_ d) (buffered_mode_latency_ d) (direction_ d).

Definition AddCrypto (params : CryptoParams) (d : MediaContentDescription) : MediaContentDescription :=
  set_cryptos (cryptos_ d ++ [params]) d.
Definition AddStreamDesc (stream : StreamParams.StreamParams) (d : MediaContentDescription) : MediaContentDescription :=
  set_streams (streams_ d ++ [stream]) d.
Definition AddLegacyStream (ssrc : Z) (d : MediaContentDescription) : MediaContentDescription :=
  AddStreamDesc (StreamParams.CreateLegacy ssrc) d.
Definition AddLegacyStream_fid (ssrc fid_ssrc : Z) (d : MediaContentDescription) : MediaContentDescription :=
  AddStreamDesc (StreamParams.AddFidSsrc ssrc fid_ssrc (StreamParams.CreateLegacy ssrc)).2 d.
Definition AddRtpHeaderExtension (ext : RtpHeaderExtension) (d : MediaContentDescription) : MediaContentDescription :=
  set_rtp_header_extensions (rtp_header_extensions_ d ++ [ext]) d.
Definition ClearRtpHeaderExtensions (d : MediaContentDescription) : MediaContentDescription := set_rtp_header_extensions [] d.
Definition set_cname (cname : bytes) (s : StreamParams.StreamParams) : StreamParams.StreamParams :=
  StreamParams.mkStreamParams (StreamParams.groupid s) (StreamParams.id s) (StreamParams.ssrcs s) (StreamParams.ssrc_groups s)
    (StreamParams.type s) (StreamParams.display s) cname (StreamParams.sync_label s).
Definition SetCnameIfEmpty (cname : bytes) (d : MediaContentDescription) : MediaContentDescription :=
  set_streams (map (fun s => if bool_decide (StreamParams.cname s = []) then set_cname cname s else s) (streams_ d)) d.
Definition first_ssrc (d : MediaContentDescription) : Z := match streams_ d with [] => 0 | s :: _ => StreamParams.first_ssrc s end.
Definition has_ssrcs (d : MediaContentDescription) : bool := match streams_ d with [] => false | s :: _ => StreamParams.has_ssrcs s end.

(** ** MediaContentDescriptionImpl *)

(** A codec of greater preference comes first. *)
Definition by_preference {A} `{CodecClass A} (a b : A) : Prop := preference (base b) <= preference (base a).
#[export] Instance by_preference_dec {A} `{CodecClass A} (a b : A) : Decision (by_preference a b) := Z_le_dec _ _.
#[export] Instance by_preference_trans {A} `{CodecClass A} : Transitive by_preference.
Proof. intros a b c. unfold by_preference. lia. Qed.
#[export] Instance by_preference_total {A} `{CodecClass A} : Total by_preference.
Proof. intros a b. unfold by_preference. lia. Qed.

(** std::sort by preference, which leaves the order of equals open. *)
Class PreferenceSort := {
  sort_preference : forall {A} `{CodecClass A}, list A -> list A;
  sort_perm : forall {A} `{CodecClass A} (l : list A), sort_preference l ≡ₚ l;
  sort_sorted : forall {A} `{CodecClass A} (l : list A),
    StronglySorted by_preference (sort_preference l);
}.

#[refine, local] Instance merge_preference : PreferenceSort := {| sort_preference A _ := merge_sort by_preference |}.
Proof.
  - intros. apply merge_sort_Permutation.
  - intros. apply (StronglySorted_merge_sort by_preference).
Defined.

Section Impl.
Context {C : Type} `{HC : CodecClass C}.

Record Impl := mkImpl { mcd : MediaContentDescription; codecs_ : list C }.
Definition new_impl : Impl := mkImpl new_description [].
Definition on_mcd (f : MediaContentDescription -> MediaContentDescription) (d : Impl) : Impl := mkImpl (f (mcd d)) (codecs_ d).
Definition set_codecs (codecs : list C) (d : Impl) : Impl := mkImpl (mcd d) codecs.
Definition has_codecs (d : Impl) : bool := match codecs_ d with [] => false | _ => true end.
Definition HasCodec (id : Z) (d : Impl) : bool := existsb (fun c => Codec.id (base c) =? id) (codecs_ d).
Definition AddCodec (codec : C) (d : Impl) : Impl := mkImpl (mcd d) (codecs_ d ++ [codec]).
Fixpoint replace_codec (codec : C) (l : list C) : list C :=
  match l with
  | [] => [codec]
  | c :: l => if Codec.id (base c) =? Codec.id (base codec) then codec :: l else c :: replace_codec codec l
  end.
Definition AddOrReplaceCodec (codec : C) (d : Impl) : Impl := set_codecs (replace_codec codec (codecs_ d)) d.
Definition AddCodecs (codecs : list C) (d : Impl) : Impl := set_codecs (codecs_ d ++ codecs) d.
Definition SortCodecs `{PreferenceSort} (d : Impl) : Impl := set_codecs (sort_preference (codecs_ d)) d.
End Impl.
Arguments Impl : clear implicits.

Inductive MediaContent :=
  | AudioContentDescription (d : Impl AudioCodec) (agc_minus_10db_ : bool) (lang_ : bytes)
  | VideoContentDescription (d : Impl VideoCodec)
  | DataContentDescription (d : Impl DataCodec).

Definition media_type (c : MediaContent) : MediaType :=
  match c with
  | AudioContentDescription _ _ _ => MEDIA_TYPE_AUDIO
  | VideoContentDescription _ => MEDIA_TYPE_VIDEO
  | DataContentDescription _ => MEDIA_TYPE_DATA
  end.
(** The base part, and an update of it. *)
Definition base_of (c : MediaContent) : MediaContentDescription :=
  match c with AudioContentDescription d _ _ => mcd d | VideoContentDescription d => mcd d | DataContentDescription d => mcd d end.
Definition on_base (f : MediaContentDescription -> MediaContentDescription) (c : MediaContent) : MediaContent :=
  match c with
  | AudioContentDescription d a l => AudioContentDescription (on_mcd f d) a l
  | VideoContentDescription d => VideoContentDescription (on_mcd f d)
  | DataContentDescription d => DataContentDescription (on_mcd f d)
  end.
Definition as_audio (c : MediaContent) : option (Impl AudioCodec) := match c with AudioContentDescription d _ _ => Some d | _ => None end.
Definition as_video (c : MediaContent) : option (Impl VideoCodec) := match c with VideoContentDescription d => Some d | _ => None end.
Definition as_data (c : MediaContent) : option (Impl DataCodec) := match c with DataContentDescription d => Some d | _ => None end.

Abbreviation Session := (SessionDescription MediaContent).
Abbreviation Content := (ContentInfo MediaContent).

(** ** Contents by media type *)

Definition NS_JINGLE_RTP : bytes := str "urn:xmpp:jingle:apps:rtp:1".
Definition NS_JINGLE_DRAFT_SCTP : bytes := str "google:jingle:sctp".

Definition IsMediaContent (c : Content) : bool :=
  bool_decide (type c = NS_JINGLE_RTP) || bool_decide (type c = NS_JINGLE_DRAFT_SCTP).
Definition IsMediaContentOfType (ty : MediaType) (c : Content) : bool :=
  IsMediaContent c && match content c with Some d => bool_decide (media_type d = ty) | None => false end.
Definition IsAudioContent : Content -> bool := IsMediaContentOfType MEDIA_TYPE_AUDIO.
Definition IsVideoContent : Content -> bool := IsMediaContentOfType MEDIA_TYPE_VIDEO.
Definition IsDataContent : Content -> bool := IsMediaContentOfType MEDIA_TYPE_DATA.

Definition GetFirstMediaContent (ty : MediaType) (s : Session) : option Content := find (IsMediaContentOfType ty) (contents_ s).
Definition GetFirstAudioContent : Session -> option Content := GetFirstMediaContent MEDIA_TYPE_AUDIO.
Definition GetFirstVideoContent : Session -> option Content := GetFirstMediaContent MEDIA_TYPE_VIDEO.
Definition GetFirstDataContent : Session -> option Content := GetFirstMediaContent MEDIA_TYPE_DATA.

(** The session may be NULL; the casts are to the class the type names. *)
Definition GetFirstMediaContentDescription (ty : MediaType) (s : option Session) : option MediaContent :=
  let? s := s in let? c := GetFirstMediaContent ty s in content c.
Definition GetFirstAudioContentDescription (s : option Session) : option (Impl AudioCodec) :=
  let? c := GetFirstMediaContentDescription MEDIA_TYPE_AUDIO s in as_audio c.
Definition GetFirstVideoContentDescription (s : option Session) : option (Impl VideoCodec) :=
  let? c := GetFirstMediaContentDescription MEDIA_TYPE_VIDEO s in as_video c.
Definition GetFirstDataContentDescription (s : option Session) : option (Impl DataCodec) :=
  let? c := GetFirstMediaContentDescription MEDIA_TYPE_DATA s in as_data c.

Definition MediaTypeToString (ty : MediaType) : bytes :=
  match ty with MEDIA_TYPE_AUDIO => str "audio" | MEDIA_TYPE_VIDEO => str "video" | MEDIA_TYPE_DATA => str "data" end.

(** ** Channel names and components *)

Definition ICE_CANDIDATE_COMPONENT_RTP : Z := 1.
Definition ICE_CANDIDATE_COMPONENT_RTCP : Z := 2.
Definition GICE_CHANNEL_NAME_RTP : bytes := str "rtp".
Definition GICE_CHANNEL_NAME_RTCP : bytes := str "rtcp".
Definition GICE_CHANNEL_NAME_VIDEO_RTP : bytes := str "video_rtp".
Definition GICE_CHANNEL_NAME_VIDEO_RTCP : bytes := str "video_rtcp".
Definition GICE_CHANNEL_NAME_DATA_RTP : bytes := str "data_rtp".
Definition GICE_CHANNEL_NAME_DATA_RTCP : bytes := str "data_rtcp".

Definition GetMediaChannelNameFromComponent (component : Z) (ty : MediaType) : option bytes :=
  match ty with
  | MEDIA_TYPE_AUDIO =>
      if component =? ICE_CANDIDATE_COMPONENT_RTP then Some GICE_CHANNEL_NAME_RTP
      else if component =? ICE_CANDIDATE_COMPONENT_RTCP then Some GICE_CHANNEL_NAME_RTCP else None
  | MEDIA_TYPE_VIDEO =>
      if component =? ICE_CANDIDATE_COMPONENT_RTP then Some GICE_CHANNEL_NAME_VIDEO_RTP
      else if component =? ICE_CANDIDATE_COMPONENT_RTCP then Some GICE_CHANNEL_NAME_VIDEO_RTCP else None
  | MEDIA_TYPE_DATA =>
      if component =? ICE_CANDIDATE_COMPONENT_RTP then Some GICE_CHANNEL_NAME_DATA_RTP
      else if component =? ICE_CANDIDATE_COMPONENT_RTCP then Some GICE_CHANNEL_NAME_DATA_RTCP else None
  end.
Definition GetMediaComponentFromChannelName (channel_name : bytes) : option Z :=
  if bool_decide (channel_name = GICE_CHANNEL_NAME_RTP) || bool_decide (channel_name = GICE_CHANNEL_NAME_VIDEO_RTP) ||
     bool_decide (channel_name = GICE_CHANNEL_NAME_DATA_RTP)
  then Some ICE_CANDIDATE_COMPONENT_RTP
  else if bool_decide (channel_name = GICE_CHANNEL_NAME_RTCP) || bool_decide (channel_name = GICE_CHANNEL_NAME_VIDEO_RTCP) ||
          bool_decide (channel_name = GICE_CHANNEL_NAME_DATA_RTP)
  then Some ICE_CANDIDATE_COMPONENT_RTCP
  else None.
Definition GetMediaTypeFromChannelName (channel_name : bytes) : option MediaType :=
  if bool_decide (channel_name = GICE_CHANNEL_NAME_RTP) || bool_decide (channel_name = GICE_CHANNEL_NAME_RTCP) then Some MEDIA_TYPE_AUDIO
  else if bool_decide (channel_name = GICE_CHANNEL_NAME_VIDEO_RTP) || bool_decide (channel_name = GICE_CHANNEL_NAME_VIDEO_RTCP) then Some MEDIA_TYPE_VIDEO
  else if bool_decide (channel_name = GICE_CHANNEL_NAME_DATA_RTP) || bool_decide (channel_name = GICE_CHANNEL_NAME_DATA_RTCP) then Some MEDIA_TYPE_DATA
  else None.

(** Every channel name leads back to its media type, and to its component
    but for the name of the data RTCP channel, which leads to none: the second
    test for it names the RTP channel again. *)
Lemma channel_name_roundtrip component ty n : GetMediaChannelNameFromComponent component ty = Some n ->
  GetMediaTypeFromChannelName n = Some ty /\
  GetMediaComponentFromChannelName n =
    (if bool_decide (ty = MEDIA_TYPE_DATA) && (component =? ICE_CANDIDATE_COMPONENT_RTCP) then None else Some component).
Proof.
  unfold GetMediaChannelNameFromComponent, ICE_CANDIDATE_COMPONENT_RTP, ICE_CANDIDATE_COMPONENT_RTCP.
  destruct (Z.eqb_spec component 1) as [->|]; [by destruct ty; intros [= <-]; vm_compute|].
  destruct (Z.eqb_spec component 2) as [->|]; [by destruct ty; intros [= <-]; vm_compute|]. by destruct ty.
Qed.

Lemma type_cast ty c (s : option Session) : GetFirstMediaContentDescription ty s = Some c -> media_type c = ty.
Proof.
  unfold GetFirstMediaContentDescription, GetFirstMediaContent. destruct s as [s|]; [|done]. destruct (find _ _) as [i|] eqn:E; [|done].
  apply find_some in E as [_ E]. unfold IsMediaContentOfType in E. intros Hc. rewrite Hc in E. bool_simpl. by apply bool_decide_eq_true in H0.
Qed.
End MediaDescription.
