(* ===== verification/CodecOffer.v ===== *)
(** * session/media/mediasession.cc: negotiation of codecs and header extensions

    The payload types and extension ids of an offer, and the codecs and
    extensions of an answer; the templates over the codec classes are
    definitions over the interface [CodecClass]. *)

From stdpp Require Import gmap.
From S2P Require Import Prelude StringConv Codec MediaDescription.
Import StringConv Codec MediaDescription.
Open Scope jingle_scope.

Module CodecOffer.

Definition kDynamicPayloadTypeMin : Z := 96.
Definition kDynamicPayloadTypeMax : Z := 127.
Definition kLocalIdMin : Z := 1.
Definition kLocalIdMax : Z := 14.
Definition kComfortNoiseCodecName : bytes := str "CN".
Definition kGoogleRtpDataCodecId : Z := 101.
Definition kGoogleSctpDataCodecId : Z := 108.

(** ** UsedIds *)

Record UsedIds := mkUsed { min_allowed_id_ : Z; max_allowed_id_ : Z; next_id_ : Z; id_set_ : gset Z }.
Definition new_used (min_allowed_id max_allowed_id : Z) : UsedIds := mkUsed min_allowed_id max_allowed_id max_allowed_id ∅.
Definition UsedPayloadTypes : UsedIds := new_used kDynamicPayloadTypeMin kDynamicPayloadTypeMax.
Definition UsedRtpHeaderExtensionIds : UsedIds := new_used kLocalIdMin kLocalIdMax.

Definition IsIdUsed (new_id : Z) (u : UsedIds) : bool := bool_decide (new_id ∈ id_set_ u).
Definition SetIdUsed (new_id : Z) (u : UsedIds) : UsedIds :=
  mkUsed (min_allowed_id_ u) (max_allowed_id_ u) (next_id_ u) ({[new_id]} ∪ id_set_ u).

(** The loop of FindUnusedId goes down to just below the least id. *)
Fixpoint find_unused (fuel : nat) (next_id : Z) (u : UsedIds) : Z :=
  match fuel with
  | O => next_id
  | S fuel => if IsIdUsed next_id u && (min_allowed_id_ u <=? next_id) then find_unused fuel (next_id - 1) u else next_id
  end.
Definition FindUnusedId (u : UsedIds) : Z * UsedIds :=
  let next := find_unused (Z.to_nat (next_id_ u - min_allowed_id_ u + 1)) (next_id_ u) u in
  (next, mkUsed (min_allowed_id_ u) (max_allowed_id_ u) next (id_set_ u)).

(** The id an object gets. *)
Definition FindAndSetIdUsed (original_id : Z) (u : UsedIds) : Z * UsedIds :=
  if (max_allowed_id_ u <? original_id) || (original_id <? min_allowed_id_ u) then (original_id, u)
  else
    let '(new_id, u) := if IsIdUsed original_id u then FindUnusedId u else (original_id, u) in
    (new_id, SetIdUsed new_id u).

(** A structure with an id. *)
Class IdStruct (A : Type) := { get_id : A -> Z; put_id : Z -> A -> A; get_put i a : get_id (put_id i a) = i }.
#[export, refine] Instance codec_id `{CodecClass C} : IdStruct C :=
  {| get_id c := Codec.id (base c); put_id i c := with_base (set_id i (base c)) c |}.
Proof. intros i a. by rewrite base_with. Defined.
#[export] Instance ext_id_struct : IdStruct RtpHeaderExtension :=
  {| get_id := ext_id; put_id i e := mkExtension (uri e) i; get_put i a := eq_refl |}.

Definition set_used `{IdStruct A} (a : A) (u : UsedIds) : A * UsedIds :=
  let '(i, u) := FindAndSetIdUsed (get_id a) u in (put_id i a, u).
Fixpoint set_all_used `{IdStruct A} (ids : list A) (u : UsedIds) : list A * UsedIds :=
  match ids with
  | [] => ([], u)
  | a :: ids =>
      let '(a, u) := set_used a u in
      let '(ids, u) := set_all_used ids u in
      (a :: ids, u)
  end.

(** ** Codecs of an offer *)

Section Codecs.
Context {C : Type} `{HC : CodecClass C}.

Definition IsRtxCodec (codec : C) : bool := stricmp_eq (Codec.name (base codec)) kRtxCodecName.
Definition ContainsRtxCodec (codecs : list C) : bool := existsb IsRtxCodec codecs.

Definition FindMatchingCodec (codecs : list C) (codec_to_match : C) : option C := find (fun it => matches it codec_to_match) codecs.
Definition has_match (codecs : list C) (c : C) : bool := match FindMatchingCodec codecs c with Some _ => true | None => false end.

(** The map from referenced payload types to RTX codecs, in order; insert
    keeps the entry there is. *)
Fixpoint rtx_insert (k : Z) (r : C) (m : list (Z * C)) : list (Z * C) :=
  match m with
  | [] => [(k, r)]
  | (k', r') :: m' => if k <? k' then (k, r) :: m else if k =? k' then m else (k', r') :: rtx_insert k r m'
  end.
Definition rtx_update (k : Z) (f : C -> C) (m : list (Z * C)) : list (Z * C) :=
  map (fun '(k', r) => if k' =? k then (k', f r) else (k', r)) m.

(** params[kCodecParamAssociatedPayloadType], which makes an empty entry if
    there is none. *)
Definition apt_of (r : C) : bytes * C :=
  match Codec.params (base r) !! kCodecParamAssociatedPayloadType with
  | Some v => (v, r)
  | None => ([], with_base (SetParam kCodecParamAssociatedPayloadType [] (base r)) r)
  end.
Definition set_apt (v : bytes) (r : C) : C := with_base (SetParam kCodecParamAssociatedPayloadType v (base r)) r.

Definition new_rtx_codecs (reference_codecs offered_codecs : list C) : list (Z * C) :=
  fold_left (fun m it =>
    if negb (has_match offered_codecs it) && IsRtxCodec it
    then let '(v, r) := apt_of it in rtx_insert (FromString_default 0 v) r m
    else m) reference_codecs [].

Fixpoint add_codecs (reference_codecs offered_codecs : list C) (u : UsedIds) (rtx : list (Z * C)) : list C * UsedIds * list (Z * C) :=
  match reference_codecs with
  | [] => (offered_codecs, u, rtx)
  | it :: rest =>
      if negb (has_match offered_codecs it) && negb (IsRtxCodec it)
      then
        let original_payload_id := Codec.id (base it) in
        let '(codec, u) := set_used it u in
        add_codecs rest (offered_codecs ++ [codec]) u
          (rtx_update original_payload_id (set_apt (ToString_int (Codec.id (base codec)))) rtx)
      else add_codecs rest offered_codecs u rtx
  end.

Definition FindCodecsToOffer (reference_codecs offered_codecs : list C) (u : UsedIds) : list C * UsedIds :=
  let rtx := new_rtx_codecs reference_codecs offered_codecs in
  let '(offered_codecs, u, rtx) := add_codecs reference_codecs offered_codecs u rtx in
  let '(rtx_codecs, u) := set_all_used (map snd rtx) u in
  (offered_codecs ++ rtx_codecs, u).

(** ** Codecs of an answer *)

Definition negotiate_one (ours theirs : C) : option C :=
  if matches ours theirs
  then
    let negotiated := IntersectFeedbackParams (base theirs) (base ours) in
    if IsRtxCodec ours
    then
      let? apt_value := GetParam kCodecParamAssociatedPayloadType (base theirs) in
      Some (with_base (set_id (Codec.id (base theirs)) (SetParam kCodecParamAssociatedPayloadType apt_value negotiated)) ours)
    else Some (with_base (set_id (Codec.id (base theirs)) negotiated) ours)
  else None.
Definition NegotiateCodecs (local_codecs offered_codecs : list C) : list C :=
  flat_map (fun ours => flat_map (fun theirs => option_list (negotiate_one ours theirs)) offered_codecs) local_codecs.
End Codecs.

Definition StripCNCodecs (audio_codecs : list AudioCodec) : list AudioCodec :=
  List.filter (fun c => negb (stricmp_eq (Codec.name (audio_base c)) kComfortNoiseCodecName)) audio_codecs.
Definition FilterDataCodecs (codecs : list DataCodec) (sctp : bool) : list DataCodec :=
  let codec_id := if sctp then kGoogleRtpDataCodecId else kGoogleSctpDataCodecId in
  List.filter (fun c => negb (Codec.id (data_base c) =? codec_id)) codecs.

(** ** Header extensions *)

Definition FindByUri (extensions : list RtpHeaderExtension) (ext_to_match : RtpHeaderExtension) : option RtpHeaderExtension :=
  find (fun it => bool_decide (uri it = uri ext_to_match)) extensions.

Fixpoint FindAndSetRtpHdrExtUsed (reference_extensions offered_extensions other_extensions : list RtpHeaderExtension) (u : UsedIds)
  : list RtpHeaderExtension * UsedIds :=
  match reference_extensions with
  | [] => (offered_extensions, u)
  | it :: rest =>
      match FindByUri offered_extensions it with
      | Some _ => FindAndSetRtpHdrExtUsed rest offered_extensions other_extensions u
      | None =>
          let '(ext, u) := match FindByUri other_extensions it with Some ext => (ext, u) | None => set_used it u end in
          FindAndSetRtpHdrExtUsed rest (offered_extensions ++ [ext]) other_extensions u
      end
  end.

Definition NegotiateRtpHeaderExtensions (local_extensions offered_extensions : list RtpHeaderExtension) : list RtpHeaderExtension :=
  flat_map (fun ours => option_list (FindByUri offered_extensions ours)) local_extensions.

(** The codecs and extensions to offer: those of the current descriptions,
    [None] where there is none, first. *)
Definition GetCodecsToOffer (cur_audio : option (Impl AudioCodec)) (cur_video : option (Impl VideoCodec)) (cur_data : option (Impl DataCodec))
    (audio_codecs_ : list AudioCodec) (video_codecs_ : list VideoCodec) (data_codecs_ : list DataCodec)
  : list AudioCodec * list VideoCodec * list DataCodec :=
  let u := UsedPayloadTypes in
  let '(audio, u) := match cur_audio with Some d => set_all_used (codecs_ d) u | None => ([], u) end in
  let '(video, u) := match cur_video with Some d => set_all_used (codecs_ d) u | None => ([], u) end in
  let '(data, u) := match cur_data with Some d => set_all_used (codecs_ d) u | None => ([], u) end in
  let '(audio, u) := FindCodecsToOffer audio_codecs_ audio u in
  let '(video, u) := FindCodecsToOffer video_codecs_ video u in
  let '(data, u) := FindCodecsToOffer data_codecs_ data u in
  (audio, video, data).

Definition GetRtpHdrExtsToOffer (cur_audio : option (Impl AudioCodec)) (cur_video : option (Impl VideoCodec))
    (audio_rtp_extensions video_rtp_extensions : list RtpHeaderExtension) : list RtpHeaderExtension * list RtpHeaderExtension :=
  let u := UsedRtpHeaderExtensionIds in
  let '(audio, u) := match cur_audio with Some d => set_all_used (rtp_header_extensions_ (mcd d)) u | None => ([], u) end in
  let '(video, u) := match cur_video with Some d => set_all_used (rtp_header_extensions_ (mcd d)) u | None => ([], u) end in
  let '(audio, u) := FindAndSetRtpHdrExtUsed audio_rtp_extensions audio video u in
  let '(video, u) := FindAndSetRtpHdrExtUsed video_rtp_extensions video audio u in
  (audio, video).

(** ** No id in the dynamic range is given twice *)

Section Ids.
Variables lo hi : Z.
Hypothesis Hlohi : lo <= hi.

Definition dynamic (i : Z) : Prop := lo <= i <= hi.
#[export] Instance dynamic_dec i : Decision (dynamic i). Proof. unfold dynamic. apply _. Defined.
Definition dyn (ids : list Z) : list Z := filter dynamic ids.

(** The ids given so far, and the number of them that were in the range. *)
Record used_ok (given : list Z) (n : nat) (u : UsedIds) : Prop := {
  u_min : min_allowed_id_ u = lo;
  u_max : max_allowed_id_ u = hi;
  u_next : lo - 1 <= next_id_ u <= hi;
  u_above : forall i, next_id_ u < i <= hi -> i ∈ id_set_ u;
  u_given : forall i, i ∈ dyn given -> i ∈ id_set_ u;
  u_nodup : NoDup (dyn given);
  u_size : (size (id_set_ u) <= n)%nat;
}.

Lemma used_new : used_ok [] 0 (new_used lo hi).
Proof.
  split; cbn; try done; try lia.
  - intros i Hi. by apply elem_of_nil in Hi.
  - apply NoDup_nil_2.
Qed.

Lemma find_unused_spec u : forall fuel next, lo - 1 <= next -> Z.of_nat fuel = next - lo + 1 -> min_allowed_id_ u = lo ->
  let r := find_unused fuel next u in
  lo - 1 <= r <= next /\ (forall i, r < i <= next -> i ∈ id_set_ u) /\ (lo <= r -> r ∉ id_set_ u).
Proof.
  induction fuel as [|fuel IH]; intros next Hn Hf Hm; cbn [find_unused]; cbn zeta.
  - split; [lia|]. split; [intros; lia|lia].
  - rewrite Hm. unfold IsIdUsed. destruct (bool_decide (next ∈ id_set_ u)) eqn:E; cbn [andb].
    + rewrite (proj2 (Z.leb_le lo next)) by lia. apply bool_decide_eq_true in E.
      destruct (IH (next - 1)) as (H1 & H2 & H3); [lia..|done|]. split; [lia|]. split; [|done].
      intros i Hi. destruct (decide (i = next)) as [->|]; [done|]. apply H2. lia.
    + apply bool_decide_eq_false in E. split; [lia|]. split; [intros; lia|done].
Qed.

(** A range that is used up has as many ids as it is long. *)
Lemma range_size (X : gset Z) : (forall i, lo <= i <= hi -> i ∈ X) -> (Z.to_nat (hi - lo + 1) <= size X)%nat.
Proof.
  intros HX. set (l := map (fun k => lo + Z.of_nat k) (seq 0 (Z.to_nat (hi - lo + 1)))).
  assert (Hnd : base.NoDup l) by (apply NoDup_fmap_2; [intros x y; lia|apply NoDup_seq]).
  assert (Hs : size (list_to_set l : gset Z) = length l) by (by apply size_list_to_set).
  assert (Hl : length l = Z.to_nat (hi - lo + 1)) by (unfold l; by rewrite length_map, length_seq). rewrite <- Hl, <- Hs.
  apply subseteq_size. intros i Hi. apply elem_of_list_to_set in Hi. apply HX.
  apply list_elem_of_fmap in Hi as (k & -> & Hk). apply elem_of_seq in Hk. lia.
Qed.

Lemma dyn_snoc given i : dyn (given ++ [i]) = dyn given ++ (if decide (dynamic i) then [i] else []).
Proof. unfold dyn. rewrite filter_app. cbn. by destruct (decide (dynamic i)). Qed.

Lemma FindAndSetIdUsed_ok given n u i : used_ok given n u ->
  let '(i', u') := FindAndSetIdUsed i u in
  used_ok (given ++ [i']) (if decide (dynamic i) then S n else n) u' /\
  (~ dynamic i -> i' = i) /\ (i ∉ id_set_ u -> i' = i) /\ (dynamic i -> (n < Z.to_nat (hi - lo + 1))%nat -> dynamic i').
Proof.
  intros [Hmin Hmax Hnext Habove Hgiven Hnd Hsize]. unfold FindAndSetIdUsed. rewrite Hmin, Hmax.
  destruct ((hi <? i) || (i <? lo)) eqn:Er.
  - assert (Hi : ~ dynamic i) by (apply orb_true_iff in Er; unfold dynamic; lia). rewrite decide_False by done.
    split; [|by split_and!]. split; rewrite ?dyn_snoc; rewrite ?decide_False, ?app_nil_r by done; done.
  - assert (Hi : dynamic i) by (apply orb_false_iff in Er; unfold dynamic; lia). rewrite decide_True by done.
    assert (Hgo : forall i' next, (dynamic i' -> i' ∉ id_set_ u) -> lo - 1 <= next <= hi -> (forall j, next < j <= hi -> j ∈ id_set_ u) ->
      used_ok (given ++ [i']) (S n) (SetIdUsed i' (mkUsed lo hi next (id_set_ u)))).
    { intros i' next Hfresh Hr Ha. split; cbn; try done.
      - intros j Hj. apply elem_of_union. right. by apply Ha.
      - intros j. rewrite dyn_snoc, elem_of_app. intros [Hj|Hj]; apply elem_of_union; [right; by apply Hgiven|left].
        destruct (decide (dynamic i')); [by apply elem_of_singleton, list_elem_of_singleton|by apply elem_of_nil in Hj].
      - rewrite dyn_snoc. apply NoDup_app. split; [done|]. destruct (decide (dynamic i')); [|split; [intros ? _ Hj; by apply elem_of_nil in Hj|apply NoDup_nil_2]].
        split; [|apply NoDup_singleton]. intros j Hj Hj'%list_elem_of_singleton. subst j. by apply Hfresh, Hgiven.
      - rewrite size_union_alt, size_singleton. assert (size (id_set_ u ∖ {[i']}) <= size (id_set_ u))%nat by (apply subseteq_size; apply subseteq_difference_l; done). lia. }
    assert (Hu : u = mkUsed lo hi (next_id_ u) (id_set_ u)) by (destruct u; cbn in *; congruence).
    unfold IsIdUsed. destruct (bool_decide (i ∈ id_set_ u)) eqn:E.
    + apply bool_decide_eq_true in E. unfold FindUnusedId. rewrite Hmin.
      destruct (find_unused_spec u (Z.to_nat (next_id_ u - lo + 1)) (next_id_ u)) as (H1 & H2 & H3); [lia..|done|]. cbn zeta in *.
      set (r := find_unused _ _ u) in *. rewrite Hmax. assert (Ha : forall j, r < j <= hi -> j ∈ id_set_ u).
      { intros j Hj. destruct (decide (j <= next_id_ u)); [apply H2; lia|apply Habove; lia]. }
      split; [apply Hgo; [intros [? ?]; by apply H3|lia|done]|]. split; [done|]. split; [done|]. intros _ Hn.
      unfold dynamic. destruct (decide (lo <= r)); [lia|]. exfalso. assert (Hc := range_size (id_set_ u)). apply (Nat.lt_irrefl n).
      eapply Nat.lt_le_trans; [exact Hn|]. etrans; [|exact Hsize]. apply Hc. intros j Hj. apply Ha. lia.
    + apply bool_decide_eq_false in E. split; [rewrite Hu; by apply Hgo|]. by split_and!.
Qed.

Context {A : Type} `{HA : IdStruct A}.

Lemma set_used_ok given n u (a : A) : used_ok given n u ->
  let '(a', u') := set_used a u in
  a' = put_id (get_id a') a /\ used_ok (given ++ [get_id a']) (if decide (dynamic (get_id a)) then S n else n) u' /\
  (~ dynamic (get_id a) -> get_id a' = get_id a) /\ (dynamic (get_id a) -> (n < Z.to_nat (hi - lo + 1))%nat -> dynamic (get_id a')).
Proof.
  intros Hu. unfold set_used. pose proof (FindAndSetIdUsed_ok given n u (get_id a) Hu) as Hf. destruct (FindAndSetIdUsed _ u) as [i u'].
  rewrite !get_put. destruct Hf as (H1 & H2 & _ & H3). by split_and!.
Qed.

(** The ids of the range among those of a list. *)
Definition demand (l : list A) : nat := length (dyn (map get_id l)).

Lemma demand_cons a l : demand (a :: l) = ((if decide (dynamic (get_id a)) then 1 else 0) + demand l)%nat.
Proof. unfold demand, dyn. cbn. by destruct (decide (dynamic (get_id a))). Qed.

(** The objects of a list with their new ids. *)
Definition renumbered (room : Prop) (a a' : A) : Prop :=
  a' = put_id (get_id a') a /\ (~ dynamic (get_id a) -> get_id a' = get_id a) /\ (dynamic (get_id a) -> room -> dynamic (get_id a')).

Lemma renumbered_weaken (P Q : Prop) a a' : (Q -> P) -> renumbered P a a' -> renumbered Q a a'.
Proof. intros HQ (H1 & H2 & H3). split_and!; auto. Qed.

Lemma set_all_used_ok (l : list A) : forall given n u, used_ok given n u ->
  let '(l', u') := set_all_used l u in
  Forall2 (renumbered (n + demand l <= Z.to_nat (hi - lo + 1))%nat) l l' /\
  used_ok (given ++ map get_id l') (n + demand l) u'.
Proof.
  induction l as [|a l IH]; intros given n u Hu; cbn [set_all_used].
  - split; [constructor|]. cbn. by rewrite app_nil_r, Nat.add_0_r.
  - rewrite demand_cons. pose proof (set_used_ok given n u a Hu) as Ha. destruct (set_used a u) as [a' u1].
    destruct Ha as (H1 & H2 & H3 & H4). specialize (IH _ _ _ H2). destruct (set_all_used l u1) as [l' u2]. destruct IH as [IH1 IH2].
    split.
    + constructor; [|eapply Forall2_impl; [exact IH1|]; intros ? ?; apply renumbered_weaken; destruct (decide _); lia].
      split_and!; [done..|]. intros Hd Hroom. apply H4; [done|]. rewrite decide_True in Hroom by done. lia.
    + cbn [map]. rewrite <- app_assoc in IH2. cbn in IH2.
      replace (n + ((if decide (dynamic (get_id a)) then 1 else 0) + demand l))%nat
        with ((if decide (dynamic (get_id a)) then S n else n) + demand l)%nat by (destruct (decide _); lia). done.
Qed.
End Ids.

(** ** The codecs of an offer *)

Abbreviation pt_dynamic := (dynamic kDynamicPayloadTypeMin kDynamicPayloadTypeMax).
Abbreviation pt_ok := (used_ok kDynamicPayloadTypeMin kDynamicPayloadTypeMax).
Abbreviation pt_demand := (demand kDynamicPayloadTypeMin kDynamicPayloadTypeMax).
Abbreviation pt_renumbered := (renumbered kDynamicPayloadTypeMin kDynamicPayloadTypeMax).

Lemma pt_range : kDynamicPayloadTypeMin <= kDynamicPayloadTypeMax.
Proof. done. Qed.

Lemma used_weaken lo hi given n m u : (n <= m)%nat -> used_ok lo hi given n u -> used_ok lo hi given m u.
Proof. intros Hm []. split; try done. lia. Qed.

Section Offer.
Context {C : Type} `{HC : CodecClass C}.

(** The source of a codec that was added, and the codec. *)
Definition added_ok (ref : list C) (room : Prop) (x : C * C) : Prop :=
  In x.1 ref /\ IsRtxCodec x.1 = false /\ pt_renumbered room x.1 x.2.

Lemma has_match_app l k (c : C) : has_match (l ++ k) c = has_match l c || has_match k c.
Proof. unfold has_match, FindMatchingCodec. induction l as [|x l IH]; [done|]. cbn. by destruct (matches x c). Qed.

Lemma renumbered_match room (c a : C) : pt_renumbered room c a -> matches a c = true.
Proof.
  intros (-> & Hs & _). apply matches_self. intros Hi. rewrite get_put in Hs.
  apply Hs. unfold dynamic, kMaxStaticPayloadId, kDynamicPayloadTypeMin in *. cbn. lia.
Qed.

Lemma add_codecs_ok ref : forall off u rtx given n, pt_ok given n u ->
  let '(off', u', rtx') := add_codecs ref off u rtx in
  exists ads, off' = off ++ map snd ads /\ sublist (map fst ads) (List.filter (fun c => negb (IsRtxCodec c)) ref) /\
    Forall (added_ok ref (n + pt_demand (List.filter (fun c => negb (IsRtxCodec c)) ref) <= 32)%nat) ads /\
    pt_ok (given ++ map get_id (map snd ads)) (n + pt_demand (List.filter (fun c => negb (IsRtxCodec c)) ref)) u' /\
    rtx' = fold_left (fun m x => rtx_update (get_id x.1) (set_apt (ToString_int (get_id x.2))) m) ads rtx /\
    forall c, In c ref -> IsRtxCodec c = false -> has_match off' c = true.
Proof.
  induction ref as [|it ref IH]; intros off u rtx given n Hu; cbn [add_codecs].
  - exists []. cbn. rewrite !app_nil_r, Nat.add_0_r. by split_and!; [|constructor|constructor|..].
  - assert (Hskip : forall b, has_match off it || b = true -> (b = true -> IsRtxCodec it = true) ->
      let '(off', u', rtx') := add_codecs ref off u rtx in
      exists ads, off' = off ++ map snd ads /\ sublist (map fst ads) (List.filter (fun c => negb (IsRtxCodec c)) (it :: ref)) /\
        Forall (added_ok (it :: ref) (n + pt_demand (List.filter (fun c => negb (IsRtxCodec c)) (it :: ref)) <= 32)%nat) ads /\
        pt_ok (given ++ map get_id (map snd ads)) (n + pt_demand (List.filter (fun c => negb (IsRtxCodec c)) (it :: ref))) u' /\
        rtx' = fold_left (fun m x => rtx_update (get_id x.1) (set_apt (ToString_int (get_id x.2))) m) ads rtx /\
        forall c, In c (it :: ref) -> IsRtxCodec c = false -> has_match off' c = true).
    { intros b Hb Hr. specialize (IH off u rtx given n Hu). destruct (add_codecs ref off u rtx) as [[off' u'] rtx'].
      destruct IH as (ads & -> & H2 & H3 & H4 & -> & H6). exists ads.
      assert (Hle : (pt_demand (List.filter (fun c => negb (IsRtxCodec c)) ref) <=
                     pt_demand (List.filter (fun c => negb (IsRtxCodec c)) (it :: ref)))%nat)
        by (cbn [List.filter]; destruct (IsRtxCodec it); cbn [negb]; rewrite ?demand_cons; lia).
      split_and!; [done|..|].
      - cbn. destruct (IsRtxCodec it); cbn; [done|by constructor].
      - eapply List.Forall_impl; [|exact H3]. intros x (Ha & Hb' & Hc). split; [by right|]. split; [done|].
        eapply renumbered_weaken; [|exact Hc]. lia.
      - eapply used_weaken; [|exact H4]. lia.
      - done.
      - intros c [<-|Hc] Hn; [|by apply H6]. rewrite has_match_app. destruct (has_match off it); [done|]. cbn in Hb.
        by rewrite Hr in Hn. }
    destruct (has_match off it) eqn:Em; cbn [negb andb]; [by apply (Hskip false)|].
    destruct (IsRtxCodec it) eqn:Er; cbn [negb]; [by apply (Hskip true)|]. clear Hskip. cbn [List.filter]. rewrite Er. cbn [negb].
    pose proof (set_used_ok _ _ pt_range given n u it Hu) as Hs. destruct (set_used it u) as [a u1]. destruct Hs as (H1 & H2 & H3 & H4).
    change (Codec.id (base it)) with (get_id it) in *. change (Codec.id (base a)) with (get_id a).
    specialize (IH (off ++ [a]) u1 (rtx_update (get_id it) (set_apt (ToString_int (get_id a))) rtx) _ _ H2).
    destruct (add_codecs ref _ u1 _) as [[off' u'] rtx']. destruct IH as (ads & -> & I2 & I3 & I4 & -> & I6).
    exists ((it, a) :: ads). cbn [map fst snd fold_left]. rewrite demand_cons.
    assert (Ha : pt_renumbered (n < 32)%nat it a) by (by split_and!).
    split_and!.
    + by rewrite <- app_assoc.
    + by constructor.
    + apply List.Forall_cons.
      * split; [by left|]. split; [done|]. destruct Ha as (A1 & A2 & A3). split_and!; [done..|]. intros Hd Hroom. apply A3; [done|].
        rewrite decide_True in Hroom by done. lia.
      * eapply List.Forall_impl; [|exact I3]. intros x (Hx1 & Hx2 & Hx3). split; [by right|]. split; [done|].
        eapply renumbered_weaken; [|exact Hx3]. destruct (decide _); lia.
    + rewrite <- app_assoc in I4. cbn in I4. eapply used_weaken; [|exact I4]. destruct (decide _); lia.
    + done.
    + intros c [<-|Hc] Hn; [|by apply I6]. rewrite has_match_app, has_match_app. unfold has_match at 2. cbn.
      by rewrite (renumbered_match _ _ _ Ha), orb_true_r.
Qed.

(** The new RTX codecs come from the supported ones. *)
Definition rtx_from (ref : list C) (x : Z * C) : Prop :=
  exists r, In r ref /\ IsRtxCodec r = true /\ x = (FromString_default 0 (apt_of r).1, (apt_of r).2).

Lemma apt_of_id (r : C) : get_id (apt_of r).2 = get_id r /\ Codec.name (base (apt_of r).2) = Codec.name (base r).
Proof. unfold apt_of. destruct (params _ !! _); [done|]. cbn. by rewrite base_with. Qed.
Lemma set_apt_id v (r : C) : get_id (set_apt v r) = get_id r /\ Codec.name (base (set_apt v r)) = Codec.name (base r).
Proof. unfold set_apt. cbn. by rewrite base_with. Qed.

Lemma rtx_insert_in k r m (x : Z * C) : In x (rtx_insert k r m) -> x = (k, r) \/ In x m.
Proof.
  induction m as [|[k' r'] m IH]; cbn; [by intros [<-|[]]; left|]. destruct (_ <? _); [by intros [<-|?]; [left|right]|].
  destruct (_ =? _); [by right|]. intros [<-|H]; [by right; left|]. apply IH in H as [->|H]; [by left|by right; right].
Qed.
Lemma rtx_insert_demand k (r : C) m : (pt_demand (map snd (rtx_insert k r m)) <= (if decide (pt_dynamic (get_id r)) then 1 else 0) + pt_demand (map snd m))%nat.
Proof.
  induction m as [|[k' r'] m IH]; cbn [rtx_insert map snd] in *; [by rewrite demand_cons|].
  destruct (_ <? _); [cbn [map snd]; rewrite !demand_cons; lia|].
  destruct (_ =? _); cbn [map snd]; rewrite !demand_cons; lia.
Qed.

Lemma new_rtx_ok ref off : Forall (rtx_from ref) (new_rtx_codecs ref off) /\
  (pt_demand (map snd (new_rtx_codecs ref off)) <= pt_demand (List.filter IsRtxCodec ref))%nat.
Proof.
  unfold new_rtx_codecs. assert (Hgen : forall l m, (forall c, In c l -> In c ref) -> Forall (rtx_from ref) m ->
    let m' := fold_left (fun m it => if negb (has_match off it) && IsRtxCodec it
                then let '(v, r) := apt_of it in rtx_insert (FromString_default 0 v) r m else m) l m in
    Forall (rtx_from ref) m' /\ (pt_demand (map snd m') <= pt_demand (map snd m) + pt_demand (List.filter IsRtxCodec l))%nat).
  { induction l as [|c l IH]; intros m Hin Hm; cbn [fold_left List.filter]; [split; [done|cbn; lia]|].
    assert (Hl : forall c, In c l -> In c ref) by (intros; apply Hin; by right).
    destruct (negb (has_match off c) && IsRtxCodec c) eqn:E.
    - apply andb_true_iff in E as [_ Er]. rewrite Er. destruct (apt_of c) as [v r] eqn:Ea.
      destruct (IH (rtx_insert (FromString_default 0 v) r m) Hl) as [I1 I2].
      + apply List.Forall_forall. intros x [->|Hx]%rtx_insert_in; [|by eapply List.Forall_forall in Hm].
        exists c. split; [apply Hin; by left|]. by rewrite Ea.
      + split; [exact I1|]. etrans; [exact I2|]. pose proof (rtx_insert_demand (FromString_default 0 v) r m) as Hd.
        pose proof (apt_of_id c) as [Hid _]. rewrite Ea in Hid. cbn [snd] in Hid. rewrite demand_cons, <- Hid. lia.
    - destruct (IH m Hl Hm) as [I1 I2]. split; [exact I1|]. etrans; [exact I2|]. destruct (IsRtxCodec c); rewrite ?demand_cons; lia. }
  destruct (Hgen ref [] (fun _ H => H) (List.Forall_nil _)) as [H1 H2]. by split.
Qed.

(** The loop over the codecs that were added leaves each RTX codec its place,
    and gives it the payload type of the last one it refers to. *)
Definition apt_after (ads : list (C * C)) (k : Z) (r : C) : C :=
  fold_left (fun r x => if k =? get_id x.1 then set_apt (ToString_int (get_id x.2)) r else r) ads r.

Lemma apt_after_cons x ads k r :
  apt_after (x :: ads) k r = apt_after ads k (if k =? get_id x.1 then set_apt (ToString_int (get_id x.2)) r else r).
Proof. done. Qed.

Lemma rtx_updates ads : forall m : list (Z * C),
  fold_left (fun m x => rtx_update (get_id x.1) (set_apt (ToString_int (get_id x.2))) m) ads m =
  map (fun '(k, r) => (k, apt_after ads k r)) m.
Proof.
  induction ads as [|x ads IH]; intros m; cbn [fold_left].
  - unfold apt_after. cbn. induction m as [|[k r] m IH]; [done|]. cbn. by rewrite <- IH.
  - rewrite IH. unfold rtx_update. rewrite map_map. apply map_ext. intros [k r]. rewrite apt_after_cons, (Z.eqb_sym k). by destruct (_ =? k).
Qed.

Lemma apt_after_id ads k r : get_id (apt_after ads k r) = get_id r /\ Codec.name (base (apt_after ads k r)) = Codec.name (base r).
Proof.
  revert r; induction ads as [|x ads IH]; intros r; [done|]. rewrite apt_after_cons. destruct (_ =? _); [|apply IH].
  destruct (IH (set_apt (ToString_int (get_id x.2)) r)) as [-> ->]. apply set_apt_id.
Qed.

Lemma apt_after_param ads r s a : In (s, a) ads -> base.NoDup (map (fun x => get_id x.1) ads) ->
  Codec.params (base (apt_after ads (get_id s) r)) !! kCodecParamAssociatedPayloadType = Some (ToString_int (get_id a)).
Proof.
  revert r; induction ads as [|x ads IH]; [done|]. intros r [E|Hin] [Hn Hnd]%NoDup_cons; rewrite apt_after_cons.
  - subst x. cbn [fst snd]. rewrite Z.eqb_refl.
    assert (Hrest : forall r', apt_after ads (get_id s) r' = r').
    { clear -Hn. induction ads as [|y ads IH]; intros r'; [done|]. cbn in Hn. apply not_elem_of_cons in Hn as [Hy Hn]. rewrite apt_after_cons.
      rewrite (proj2 (Z.eqb_neq _ _)) by done. by apply IH. }
    rewrite Hrest. unfold set_apt. rewrite base_with. apply lookup_insert_eq.
  - by apply IH.
Qed.

Lemma demand_split ref : (pt_demand (List.filter (fun c => negb (IsRtxCodec c)) ref) + pt_demand (List.filter IsRtxCodec ref) = pt_demand ref)%nat.
Proof.
  induction ref as [|c ref IH]; [done|]. cbn [List.filter]. rewrite demand_cons, <- IH.
  destruct (IsRtxCodec c); cbn [negb]; rewrite ?demand_cons; lia.
Qed.

Lemma demand_apt ads (m : list (Z * C)) : pt_demand (map snd (map (fun '(k, r) => (k, apt_after ads k r)) m)) = pt_demand (map snd m).
Proof.
  induction m as [|[k r] m IH]; [done|]. cbn [map snd]. rewrite !demand_cons, IH. by destruct (apt_after_id ads k r) as [-> _].
Qed.

(** What an offer of supported codecs is made of: the codecs added, and the
    new RTX codecs after them. *)
Lemma FindCodecsToOffer_ok ref off u given n : pt_ok given n u ->
  let '(off', u') := FindCodecsToOffer ref off u in
  let room := (n + pt_demand ref <= 32)%nat in
  exists ads rtxs, off' = off ++ map snd ads ++ rtxs /\
    sublist (map fst ads) (List.filter (fun c => negb (IsRtxCodec c)) ref) /\
    Forall (added_ok ref room) ads /\ Forall (rtx_from ref) (new_rtx_codecs ref off) /\
    Forall2 (fun x r' => pt_renumbered room (apt_after ads x.1 x.2) r') (new_rtx_codecs ref off) rtxs /\
    pt_ok (given ++ map get_id (map snd ads ++ rtxs)) (n + pt_demand ref) u' /\
    forall c, In c ref -> IsRtxCodec c = false -> has_match (off ++ map snd ads) c = true.
Proof.
  intros Hu. unfold FindCodecsToOffer. pose proof (new_rtx_ok ref off) as [Hn1 Hn2].
  pose proof (add_codecs_ok ref off u (new_rtx_codecs ref off) given n Hu) as Ha.
  destruct (add_codecs ref off u _) as [[off1 u1] rtx]. destruct Ha as (ads & -> & H2 & H3 & H4 & -> & H6).
  rewrite rtx_updates. set (news := new_rtx_codecs ref off) in *.
  pose proof (set_all_used_ok _ _ pt_range (map snd (map (fun '(k, r) => (k, apt_after ads k r)) news)) _ _ u1 H4) as Hs.
  rewrite demand_apt in Hs. destruct (set_all_used _ u1) as [rtxs u2]. destruct Hs as [Hs1 Hs2].
  pose proof (demand_split ref) as Hd. exists ads, rtxs. split_and!.
  - by rewrite app_assoc.
  - done.
  - eapply List.Forall_impl; [|exact H3]. intros x (Hx1 & Hx2 & Hx3). split_and!; [done..|]. eapply renumbered_weaken; [|exact Hx3]. lia.
  - done.
  - replace (map snd (map _ news)) with ((fun x => apt_after ads x.1 x.2) <$> news) in Hs1
      by (rewrite map_map; apply map_ext; by intros [k r]).
    apply (Forall2_fmap_l (fun x => apt_after ads x.1 x.2)) in Hs1. eapply Forall2_impl; [exact Hs1|]. intros [k r] r' Hr. cbn in *.
    eapply renumbered_weaken; [|exact Hr]. change (Z.to_nat _) with 32%nat. lia.
  - rewrite map_app, app_assoc. eapply used_weaken; [|exact Hs2]. lia.
  - done.
Qed.

(** Where a codec of an offer is from. *)
Definition offered_from (room : Prop) (ref : list C) (c : C) : Prop :=
  exists s, In s ref /\ Codec.name (base c) = Codec.name (base s) /\ (~ pt_dynamic (get_id s) -> get_id c = get_id s) /\
    (pt_dynamic (get_id s) -> room -> pt_dynamic (get_id c)).

Lemma renumbered_from room ref (s c : C) : In s ref -> pt_renumbered room s c -> offered_from room ref c.
Proof. intros Hs (E & H1 & H2). exists s. split_and!; try done. rewrite E. cbn. by rewrite base_with. Qed.
Lemma offered_weaken (P Q : Prop) ref ref' (c : C) : (Q -> P) -> (forall s, In s ref -> In s ref') -> offered_from P ref c -> offered_from Q ref' c.
Proof. intros HQ Hin (s & H1 & H2 & H3 & H4). exists s. split_and!; auto. Qed.

Lemma offer_sources ref off u given n : pt_ok given n u ->
  let '(off', u') := FindCodecsToOffer ref off u in
  exists new, off' = off ++ new /\ Forall (offered_from (n + pt_demand ref <= 32)%nat ref) new /\
    pt_ok (given ++ map get_id new) (n + pt_demand ref) u' /\ forall c, In c ref -> IsRtxCodec c = false -> has_match off' c = true.
Proof.
  intros Hu. pose proof (FindCodecsToOffer_ok ref off u given n Hu) as H. destruct (FindCodecsToOffer ref off u) as [off' u'].
  destruct H as (ads & rtxs & -> & _ & H3 & H4 & H5 & H6 & H7). exists (map snd ads ++ rtxs).
  split_and!; [done| |done|intros c Hc Hr; by rewrite app_assoc, has_match_app, H7].
  apply Forall_app_2.
  - apply List.Forall_map. eapply List.Forall_impl; [|exact H3]. intros x (Hx & _ & Hr). by eapply renumbered_from.
  - clear -H4 H5. induction H5 as [|[k r] r' news rtxs Hr _ IH]; [apply List.Forall_nil|]. apply Forall_cons in H4 as [(c & Hc & _ & [= -> ->]) H4].
    apply List.Forall_cons; [|by apply IH]. destruct Hr as (E & R1 & R2). cbn [fst snd] in *.
    destruct (apt_after_id ads (FromString_default 0 (apt_of c).1) (apt_of c).2) as [Hi Hn]. destruct (apt_of_id c) as [Hi' Hn'].
    rewrite Hi, Hi' in R1, R2. exists c. split_and!; [done| |done..]. rewrite E. cbn. by rewrite base_with, <- Hn', <- Hn.
Qed.
End Offer.

Lemma renumbered_all `{HC : CodecClass C} room (ref l l' : list C) : incl l ref -> Forall2 (pt_renumbered room) l l' -> Forall (offered_from room ref) l'.
Proof.
  intros Hin H. induction H as [|s c l l' Hr _ IH]; [apply List.Forall_nil|]. apply List.Forall_cons.
  - eapply renumbered_from; [|exact Hr]. apply Hin. by left.
  - apply IH. intros x Hx. apply Hin. by right.
Qed.

Definition current_codecs {C} (d : option (Impl C)) : list C := match d with Some d => codecs_ d | None => [] end.

Lemma current_ok `{CodecClass C} (d : option (Impl C)) given n u : pt_ok given n u ->
  let '(l, u') := match d with Some d => set_all_used (codecs_ d) u | None => ([], u) end in
  Forall (offered_from (n + pt_demand (current_codecs d) <= 32)%nat (current_codecs d)) l /\
  pt_ok (given ++ map get_id l) (n + pt_demand (current_codecs d)) u'.
Proof.
  intros Hu. destruct d as [d|]; cbn [current_codecs]; [|cbn; rewrite app_nil_r, Nat.add_0_r; by split].
  pose proof (set_all_used_ok _ _ pt_range (codecs_ d) given n u Hu) as Hs. destruct (set_all_used _ u) as [l u']. destruct Hs as [H1 H2].
  split; [|done]. eapply renumbered_all; [|exact H1]. apply incl_refl.
Qed.

Section Total.
Variables (ca : option (Impl AudioCodec)) (cv : option (Impl VideoCodec)) (cd : option (Impl DataCodec)).
Variables (la : list AudioCodec) (lv : list VideoCodec) (ld : list DataCodec).

(** The codecs with payload types of the dynamic range, all together. *)
Definition total_demand : nat :=
  pt_demand (current_codecs ca) + pt_demand (current_codecs cv) + pt_demand (current_codecs cd) +
  pt_demand la + pt_demand lv + pt_demand ld.

(** C19: In an offer no payload type of the dynamic range is used twice, over
    audio, video and data together, whatever the current description and the
    supported codecs have.  The codecs are those of the current description
    and supported ones, and every supported codec but for RTX has a match
    among them; a payload type outside of the range stays as it is, and one of
    the range stays in it as long as all together are not more than the 32 it
    has. *)
Theorem offer_payload_types :
  let '(audio, video, data) := GetCodecsToOffer ca cv cd la lv ld in
  let room := (total_demand <= 32)%nat in
  base.NoDup (dyn kDynamicPayloadTypeMin kDynamicPayloadTypeMax (map get_id audio ++ map get_id video ++ map get_id data)) /\
  Forall (offered_from room (current_codecs ca ++ la)) audio /\
  Forall (offered_from room (current_codecs cv ++ lv)) video /\
  Forall (offered_from room (current_codecs cd ++ ld)) data /\
  (forall c, In c la -> IsRtxCodec c = false -> has_match audio c = true) /\
  (forall c, In c lv -> IsRtxCodec c = false -> has_match video c = true) /\
  (forall c, In c ld -> IsRtxCodec c = false -> has_match data c = true).
Proof.
  unfold GetCodecsToOffer, total_demand. pose proof (used_new kDynamicPayloadTypeMin kDynamicPayloadTypeMax pt_range) as H0.
  change (new_used _ _) with UsedPayloadTypes in H0.
  pose proof (current_ok ca _ _ _ H0) as H1. destruct (match ca with Some d => _ | None => _ end) as [a1 u1]. destruct H1 as [A1 H1].
  pose proof (current_ok cv _ _ _ H1) as H2. destruct (match cv with Some d => _ | None => _ end) as [v1 u2]. destruct H2 as [V1 H2].
  pose proof (current_ok cd _ _ _ H2) as H3. destruct (match cd with Some d => _ | None => _ end) as [d1 u3]. destruct H3 as [D1 H3].
  pose proof (offer_sources la a1 _ _ _ H3) as H4. destruct (FindCodecsToOffer la a1 u3) as [a2 u4]. destruct H4 as (an & -> & A2 & H4 & MA).
  pose proof (offer_sources lv v1 _ _ _ H4) as H5. destruct (FindCodecsToOffer lv v1 u4) as [v2 u5]. destruct H5 as (vn & -> & V2 & H5 & MV).
  pose proof (offer_sources ld d1 _ _ _ H5) as H6. destruct (FindCodecsToOffer ld d1 u5) as [d2 u6]. destruct H6 as (dn & -> & D2 & H6 & MD).
  assert (Hw : forall `{CodecClass C} (P Q : Prop) (l k r r' : list C), (Q -> P) -> Forall (offered_from P r) l -> incl r r' -> Forall (offered_from Q r') l).
  { intros C HC P Q l k r r' HQ Hl Hr. eapply List.Forall_impl; [|exact Hl]. intros c. by apply offered_weaken. }
  split_and!; [|apply Forall_app_2; eapply Hw; try eassumption; first [lia|apply incl_appl, incl_refl|apply incl_appr, incl_refl|exact []]..|done|done|done].
  pose proof (u_nodup _ _ _ _ _ H6) as Hnd. unfold dyn in *. rewrite !map_app. cbn [app] in Hnd.
  refine (proj2 (NoDup_Permutation_proper _ _ _) Hnd). apply filter_Permutation, (Permutation_count_occ Z.eq_dec).
  intros x. rewrite !count_occ_app. lia.
Qed.
End Total.

(** ** RTX codecs follow their codecs *)

Section Rtx.
Context {C : Type} `{HC : CodecClass C}.

(** The payload type an RTX codec is for. *)
Definition refers_to (r : C) : Z := FromString_default 0 (apt_of r).1.

Lemma rtx_insert_keys k (r : C) m j : j = k \/ In j (map fst m) -> In j (map fst (rtx_insert k r m)).
Proof.
  induction m as [|[k' r'] m IH]; cbn; [intros [->|[]]; by left|].
  destruct (Z.ltb_spec k k'); [intros [->|H']; cbn; auto|]. destruct (Z.eqb_spec k k') as [->|Hne]; [intros [->|H']; [by left|exact H']|].
  cbn. intros [->|[->|H']]; [right; apply IH; by left|by left|right; apply IH; by right].
Qed.

Lemma new_rtx_complete ref r : In r ref -> IsRtxCodec r = true -> In (refers_to r) (map fst (new_rtx_codecs ref [])).
Proof.
  unfold new_rtx_codecs. generalize (@nil (Z * C)) as m. assert (Hkeep : forall l m j, In j (map fst m) ->
    In j (map fst (fold_left (fun m it => if negb (has_match [] it) && IsRtxCodec it
                then let '(v, r) := apt_of it in rtx_insert (FromString_default 0 v) r m else m) l m))).
  { induction l as [|c l IH]; intros m j Hj; [done|]. cbn [fold_left]. apply IH. destruct (_ && _); [|done].
    destruct (apt_of c). apply rtx_insert_keys. by right. }
  induction ref as [|c ref IH]; intros m; [done|]. cbn [fold_left]. intros [->|Hin] Hr; [|by apply IH].
  apply Hkeep. cbn [has_match FindMatchingCodec find negb andb]. rewrite Hr. unfold refers_to. destruct (apt_of r).
  apply rtx_insert_keys. by left.
Qed.

(** No supported codec matches another, whatever payload types they get. *)
Definition separate (ref : list C) : Prop :=
  forall s c a, In s ref -> In c ref -> IsRtxCodec s = false -> IsRtxCodec c = false -> pt_renumbered True s a -> matches a c = true -> s = c.

Lemma find_offer_rtx ref u given n : pt_ok given n u -> (n + pt_demand ref <= 32)%nat -> base.NoDup (map get_id ref) -> separate ref ->
  Forall (fun c => is_int (get_id c) = true) ref ->
  let offer := (FindCodecsToOffer ref [] u).1 in
  (forall s, In s ref -> IsRtxCodec s = false -> exists a, In a offer /\ pt_renumbered True s a /\
     ((exists r, In r ref /\ IsRtxCodec r = true /\ refers_to r = get_id s) -> exists r', In r' offer /\ IsRtxCodec r' = true /\
        GetParam_int kCodecParamAssociatedPayloadType (base r') = Some (get_id a))) /\
  (forall r', In r' offer -> IsRtxCodec r' = true -> exists r, In r ref /\ IsRtxCodec r = true /\
     forall s, In s ref -> IsRtxCodec s = false -> refers_to r = get_id s -> exists a, In a offer /\ pt_renumbered True s a /\
       GetParam_int kCodecParamAssociatedPayloadType (base r') = Some (get_id a)).
Proof.
  intros Hu Hroom Hnd Hsep Hint. pose proof (FindCodecsToOffer_ok ref [] u given n Hu) as H.
  destruct (FindCodecsToOffer ref [] u) as [off u']. cbn [fst]. cbn zeta in H.
  destruct H as (ads & rtxs & -> & Hsub & Hads & Hrtx & Hall & _ & Hmatch). cbn [app] in *.
  assert (Hads' : forall s a, In (s, a) ads -> In s ref /\ IsRtxCodec s = false /\ pt_renumbered True s a /\ is_int (get_id a) = true).
  { intros s a Hin. eapply List.Forall_forall in Hads as (H1 & H2 & H3); [|exact Hin]. cbn [fst snd] in *. split_and!; try done.
    - by eapply renumbered_weaken; [|exact H3].
    - destruct H3 as (_ & Hs & Hd). destruct (decide (pt_dynamic (get_id s))) as [Hy|Hn].
      + specialize (Hd Hy Hroom). unfold dynamic, kDynamicPayloadTypeMin, kDynamicPayloadTypeMax, is_int in *. apply andb_true_iff. lia.
      + rewrite Hs by done. by eapply List.Forall_forall in Hint. }
  assert (Hrenames : forall a, In a (map snd ads) -> IsRtxCodec a = false).
  { intros a ([s a'] & <- & Hin)%in_map_iff. destruct (Hads' _ _ Hin) as (_ & Hs & (-> & _) & _). cbn in *. unfold IsRtxCodec in *.
    by rewrite base_with. }
  assert (Hk : base.NoDup (map (fun x => get_id x.1) ads)).
  { rewrite <- (map_map fst get_id). eapply sublist_NoDup; [exact Hnd|]. apply (fmap_sublist get_id). etrans; [exact Hsub|]. clear.
    induction ref as [|c l IH]; [constructor|]. cbn. destruct (negb _); by constructor. }
  assert (Hin : forall s, In s ref -> IsRtxCodec s = false -> exists a, In (s, a) ads).
  { intros s Hs Hr. pose proof (Hmatch s Hs Hr) as Hm. unfold has_match, FindMatchingCodec in Hm.
    destruct (find _ _) as [a|] eqn:E; [|done]. apply find_some in E as [Ha Ema].
    apply in_map_iff in Ha as ([s' a'] & <- & Hx). destruct (Hads' _ _ Hx) as (H1 & H2 & H3 & _).
    rewrite <- (Hsep _ _ _ H1 Hs H2 Hr H3 Ema). by exists a'. }
  (* an RTX codec of the offer, and the entry it comes from *)
  assert (Hentry : forall k r r', pt_renumbered (n + pt_demand ref <= 32)%nat (apt_after ads k r) r' ->
    Codec.name (base r') = Codec.name (base r) /\
    forall s a, In (s, a) ads -> k = get_id s -> GetParam_int kCodecParamAssociatedPayloadType (base r') = Some (get_id a)).
  { intros k r r' (-> & _). split; [cbn; rewrite base_with; cbn; apply apt_after_id|]. intros s a Hx ->.
    unfold GetParam_int. cbn [put_id codec_id]. rewrite base_with. cbn [params set_id].
    rewrite (apt_after_param ads r s a Hx Hk). apply int_roundtrip. by destruct (Hads' _ _ Hx) as (_ & _ & _ & ?). }
  split.
  - intros s Hs Hr. destruct (Hin s Hs Hr) as [a Ha]. exists a. split; [apply in_app_iff; left; apply in_map_iff; by exists (s, a)|].
    split; [by apply Hads'|]. intros (r & Hr1 & Hr2 & Hr3). pose proof (new_rtx_complete ref r Hr1 Hr2) as Hkey. rewrite Hr3 in Hkey.
    apply in_map_iff in Hkey as ([k r0] & Ek & Hnew). cbn in Ek. subst k.
    assert (Hex : exists r', In r' rtxs /\ pt_renumbered (n + pt_demand ref <= 32)%nat (apt_after ads (get_id s) r0) r').
    { clear -Hall Hnew. induction Hall as [|x r' l k Hx _ IH]; [done|]. destruct Hnew as [->|Hnew]; [exists r'; by split; [left|]|].
      destruct (IH Hnew) as (r1 & ? & ?). exists r1. by split; [right|]. }
    destruct Hex as (r' & Hr' & Hren). destruct (Hentry _ _ _ Hren) as [Hname Hp]. exists r'. split; [apply in_app_iff; by right|]. split; [|by eapply Hp].
    eapply List.Forall_forall in Hrtx as (c & _ & Hc & Heq); [|exact Hnew].
    assert (r0 = (apt_of c).2) as -> by congruence. unfold IsRtxCodec in *. rewrite Hname.
    by destruct (apt_of_id c) as [_ ->].
  - intros r' [Hr'|Hr']%in_app_iff Hrt; [by rewrite (Hrenames r' Hr') in Hrt|].
    assert (Hex : exists x, In x (new_rtx_codecs ref []) /\ pt_renumbered (n + pt_demand ref <= 32)%nat (apt_after ads x.1 x.2) r').
    { clear -Hall Hr'. induction Hall as [|x r1 l k Hx _ IH]; [done|]. destruct Hr' as [->|Hr']; [exists x; by split; [left|]|].
      destruct (IH Hr') as (x1 & ? & ?). exists x1. by split; [right|]. }
    destruct Hex as (x & Hx & Hren). eapply List.Forall_forall in Hrtx as (r & Hr1 & Hr2 & Heq); [|exact Hx]. subst x. exists r. split_and!; [done..|].
    intros s Hs Hsr Href. destruct (Hin s Hs Hsr) as [a Ha]. destruct (Hentry _ _ _ Hren) as [_ Hp]. exists a.
    split; [apply in_app_iff; left; apply in_map_iff; by exists (s, a)|]. split; [by apply Hads'|]. by eapply Hp.
Qed.
End Rtx.

(** When the supported video codecs have distinct payload types, no two of
    them (RTX aside) match each other, and all codecs fit into the dynamic
    range, the first offer of video has every supported codec, and for each
    that has an RTX codec one whose apt parameter is the payload type the
    codec has in the offer, however the payload types were reassigned; and
    every RTX codec offered is one of those supported, for the same codec. *)
Theorem offer_rtx_references ca cd la lv ld : base.NoDup (map get_id lv) -> separate lv ->
  Forall (fun c => is_int (get_id c) = true) lv -> (total_demand ca None cd la lv ld <= 32)%nat ->
  let '(_, video, _) := GetCodecsToOffer ca None cd la lv ld in
  let apt r := GetParam_int kCodecParamAssociatedPayloadType (base r) in
  (forall s, In s lv -> IsRtxCodec s = false -> exists a, In a video /\ pt_renumbered True s a /\
     ((exists r, In r lv /\ IsRtxCodec r = true /\ refers_to r = get_id s) -> exists r', In r' video /\ IsRtxCodec r' = true /\ apt r' = Some (get_id a))) /\
  (forall r', In r' video -> IsRtxCodec r' = true -> exists r, In r lv /\ IsRtxCodec r = true /\
     forall s, In s lv -> IsRtxCodec s = false -> refers_to r = get_id s -> exists a, In a video /\ pt_renumbered True s a /\ apt r' = Some (get_id a)).
Proof.
  intros Hnd Hsep Hint Hroom. unfold GetCodecsToOffer, total_demand in *. pose proof (used_new kDynamicPayloadTypeMin kDynamicPayloadTypeMax pt_range) as H0.
  change (new_used _ _) with UsedPayloadTypes in H0.
  pose proof (current_ok ca _ _ _ H0) as H1. destruct (match ca with Some d => _ | None => _ end) as [a1 u1]. destruct H1 as [A1 H1].
  pose proof (current_ok cd _ _ _ H1) as H3. destruct (match cd with Some d => _ | None => _ end) as [d1 u3]. destruct H3 as [D1 H3].
  pose proof (offer_sources la a1 _ _ _ H3) as H4. destruct (FindCodecsToOffer la a1 u3) as [a2 u4]. destruct H4 as (an & -> & A2 & H4 & MA).
  pose proof (find_offer_rtx lv u4 _ _ H4) as H5. destruct (FindCodecsToOffer lv [] u4) as [v2 u5]. destruct (FindCodecsToOffer ld d1 u5) as [d2 u6].
  apply H5; try done. cbn [current_codecs] in Hroom. unfold demand in Hroom at 2. cbn [map] in Hroom. change (length (dyn _ _ [])) with O in Hroom. lia.
Qed.

Definition vp8 : VideoCodec := new_video 100 (str "VP8") 640 400 30 1.
Definition h264 : VideoCodec := new_video 105 (str "H264") 640 400 30 0.
Definition sample_audio : list AudioCodec := [new_audio 100 (str "ISAC") 16000 32000 1 5; new_audio 0 (str "PCMU") 8000 64000 1 4].
Definition sample_video : list VideoCodec := [vp8; CreateRtxCodec 96 100].

Lemma offer_rtx_references_witness :
  let '(_, video, _) := GetCodecsToOffer None None None sample_audio sample_video [] in
  map get_id video = [127; 96] /\ exists a r', In a video /\ a = put_id (get_id a) vp8 /\ In r' video /\ IsRtxCodec r' = true /\
    GetParam_int kCodecParamAssociatedPayloadType (base r') = Some (get_id a).
Proof.
  pose proof (offer_rtx_references None None sample_audio sample_video []) as H.
  assert (Hids : map get_id (GetCodecsToOffer None None None sample_audio sample_video []).1.2 = [127; 96]) by (vm_compute; reflexivity).
  destruct (GetCodecsToOffer None None None sample_audio sample_video []) as [[audio video] data]. cbn [fst snd] in Hids.
  split; [exact Hids|]. destruct H as [H _].
  - refine (bool_decide_unpack (base.NoDup (map get_id sample_video)) _). vm_compute. exact I.
  - intros s c a [<-|[<-|[]]] [<-|[<-|[]]] H1 H2; try done; try (vm_compute in H1; discriminate); vm_compute in H2; discriminate.
  - by repeat constructor.
  - apply Nat.leb_le. vm_compute. reflexivity.
  - destruct (H vp8) as (a & Ha & Hr & Hx); [by left|reflexivity|].
    destruct Hx as (r' & H1 & H2 & H3); [exists (CreateRtxCodec 96 100); split; [by right; left|split; vm_compute; reflexivity]|].
    exists a, r'. split; [exact Ha|]. split; [apply Hr|]. split; [exact H1|]. split; [exact H2|exact H3].
Defined.

(** ** The codecs of an answer *)

Section Answer.
Context {C : Type} `{HC : CodecClass C}.

(** A negotiated codec is ours, with their payload type, the feedback both
    know, and for RTX their association. *)
Definition negotiated (ours theirs n : C) : Prop :=
  matches ours theirs = true /\ get_id n = get_id theirs /\ Codec.name (base n) = Codec.name (base ours) /\
  preference (base n) = preference (base ours) /\
  (forall p, Has p (feedback_params (base n)) = Has p (feedback_params (base ours)) && Has p (feedback_params (base theirs))) /\
  (IsRtxCodec ours = true -> GetParam kCodecParamAssociatedPayloadType (base n) = GetParam kCodecParamAssociatedPayloadType (base theirs)).

Lemma negotiate_one_spec (ours theirs n : C) : negotiate_one ours theirs = Some n -> negotiated ours theirs n.
Proof.
  unfold negotiate_one, negotiated. destruct (matches ours theirs); [|done]. destruct (IsRtxCodec ours) eqn:Er.
  - destruct (GetParam _ (base theirs)) as [v|] eqn:Ea; [|done]. intros [= <-]. cbn. rewrite !base_with. split_and!; try done.
    + intros p. apply Has_Intersect.
    + intros _. unfold GetParam. cbn. rewrite lookup_insert_eq. done.
  - intros [= <-]. cbn. rewrite !base_with. split_and!; try done. intros p. apply Has_Intersect.
Qed.

Lemma negotiate_one_complete (ours theirs : C) : matches ours theirs = true ->
  (IsRtxCodec ours = true -> is_Some (GetParam kCodecParamAssociatedPayloadType (base theirs))) -> exists n, negotiate_one ours theirs = Some n.
Proof.
  unfold negotiate_one. intros -> Hr. destruct (IsRtxCodec ours); [|by eexists]. destruct (Hr eq_refl) as [v ->]. by eexists.
Qed.

Lemma NegotiateCodecs_in (local offered : list C) n : In n (NegotiateCodecs local offered) <->
  exists ours theirs, In ours local /\ In theirs offered /\ negotiate_one ours theirs = Some n.
Proof.
  unfold NegotiateCodecs. rewrite in_flat_map. split.
  - intros (o & Ho & (t & Ht & Hn)%in_flat_map). exists o, t. destruct (negotiate_one o t); [|done]. by destruct Hn as [->|[]].
  - intros (o & t & Ho & Ht & E). exists o. split; [done|]. apply in_flat_map. exists t. split; [done|]. rewrite E. by left.
Qed.
End Answer.

(** An RTX codec is negotiated even if the codec it is for is not. *)
Lemma negotiate_rtx_dangling :
  map (fun c => (get_id c, GetParam_int kCodecParamAssociatedPayloadType (base c)))
    (NegotiateCodecs [vp8; CreateRtxCodec 101 100] [h264; CreateRtxCodec 106 105]) = [(106, Some 105)].
Proof. by vm_compute. Qed.

(** Two RTX codecs on either side make four, with each payload type twice. *)
Lemma negotiate_rtx_duplicates :
  map get_id (NegotiateCodecs [vp8; h264; CreateRtxCodec 101 100; CreateRtxCodec 106 105]
                              [vp8; h264; CreateRtxCodec 101 100; CreateRtxCodec 106 105]) = [100; 105; 101; 106; 101; 106].
Proof. by vm_compute. Qed.

(** An extension that audio and video share gets another id for video when the
    offer is made again. *)
Lemma extension_renumbered :
  let exts := [mkExtension (str "urn:ietf:params:rtp-hdrext:toffset") 2] in
  let '(audio, video) := GetRtpHdrExtsToOffer None None exts exts in
  let cur l := set_rtp_header_extensions l new_description in
  (audio, video) = (exts, exts) /\
  GetRtpHdrExtsToOffer (Some (mkImpl (cur audio) [])) (Some (mkImpl (cur video) [])) exts exts = (exts, [mkExtension (str "urn:ietf:params:rtp-hdrext:toffset") 14]).
Proof. by vm_compute. Qed.
End CodecOffer.
