(* ===== verification/MediaOffer.v ===== *)
(** * session/media/mediasession.cc: the session description factory

    Offers and answers with their streams, crypto parameters, transports and
    bundle.  The random number generator is the state of the computations;
    the loops that draw until a value is new take [fuel] draws. *)

From stdpp Require Import gmap sorting.
From S2P Require Import Prelude ByteOrder StringConv Codec Helpers StreamParams SrtpFilter MediaSession SessionDescription TransportFactory MediaDescription CodecOffer Outcome.
Import Codec SessionDescription MediaDescription CodecOffer MediaSession Outcome.
Import SrtpFilter (CryptoParams, cipher_suite).
Open Scope jingle_scope.

Module MediaOffer.

Definition kMediaProtocolAvpf : bytes := str "RTP/AVPF".
Definition kMediaProtocolDtlsSavpf : bytes := str "UDP/TLS/RTP/SAVPF".
Definition kMediaProtocolSavpf : bytes := str "RTP/SAVPF".
Definition kMediaProtocolRtpPrefix : bytes := str "RTP/".
Definition kMediaProtocolSctp : bytes := str "SCTP".
Definition kMediaProtocolDtlsSctp : bytes := str "DTLS/SCTP".
Definition kMaxSctpSid : Z := 1023.
Definition CN_AUDIO : bytes := str "audio".
Definition CN_VIDEO : bytes := str "video".
Definition CN_DATA : bytes := str "data".
Definition GROUP_TYPE_BUNDLE : bytes := str "BUNDLE".

Definition GetCryptos {C} (media : option (Impl C)) : option (list CryptoParams) := option_map (fun d => cryptos_ (mcd d)) media.
Definition IsSctp (desc : MediaContentDescription) : bool :=
  bool_decide (protocol_ desc = kMediaProtocolSctp) || bool_decide (protocol_ desc = kMediaProtocolDtlsSctp).

Definition FindFirstStreamParamsByCname (params_vec : list StreamParams.StreamParams) (cname : bytes) : option StreamParams.StreamParams :=
  find (fun s => bool_decide (cname = StreamParams.cname s)) params_vec.

(** All streams of the media contents; a media content without a description
    is undefined behaviour. *)
Definition GetCurrentStreamParams (sdesc : option Session) : option (list StreamParams.StreamParams) :=
  match sdesc with
  | None => Some []
  | Some s =>
      fold_left (fun acc c =>
        let? acc := acc in
        if IsMediaContent c then let? d := content c in Some (acc ++ streams_ (base_of d)) else Some acc) (contents_ s) (Some [])
  end.

Section Random.
Context `{HM : Machine} `{HR : Helpers.RandomGenerator}.
Variable fuel : nat.

(** do { draw } while (!ok) *)
Fixpoint until {A} (fuel : nat) (draw : comp Helpers.rng A) (ok : A -> bool) : comp Helpers.rng A :=
  match fuel with
  | O => stuck
  | S fuel => a <- draw;; if ok a then ret a else until fuel draw ok
  end.

Definition CreateRandomNonZeroId : comp Helpers.rng Z := until fuel (lift Helpers.CreateRandomId) (fun id => negb (id =? 0)).

Definition has_stream (params_vec : list StreamParams.StreamParams) (ssrc : Z) : bool :=
  match StreamParams.GetStreamBySsrc params_vec ssrc with Some _ => true | None => false end.

Definition find_synched (params_vec : list StreamParams.StreamParams) (streams : list Stream) (synch_label : bytes) : option StreamParams.StreamParams :=
  fold_right (fun s r =>
    if bool_decide (synch_label = stream_sync_label s)
    then match StreamParams.GetStreamByIds params_vec [] (stream_id s) with Some p => Some p | None => r end
    else r) None streams.
Definition GenerateCname (params_vec : list StreamParams.StreamParams) (streams : list Stream) (synch_label : bytes) : comp Helpers.rng bytes :=
  match find_synched params_vec streams synch_label with
  | Some param => ret (StreamParams.cname param)
  | None =>
      until fuel (lift_opt (Helpers.CreateRandomString 16))
        (fun cname => match FindFirstStreamParamsByCname params_vec cname with Some _ => false | None => true end)
  end.

Definition GenerateSsrc (params_vec : list StreamParams.StreamParams) (ssrcs : list Z) : comp Helpers.rng Z :=
  until fuel CreateRandomNonZeroId (fun candidate => negb (has_stream params_vec candidate) && negb (bool_decide (candidate ∈ ssrcs))).
Fixpoint generate_ssrcs (n : nat) (params_vec : list StreamParams.StreamParams) (ssrcs : list Z) : comp Helpers.rng (list Z) :=
  match n with
  | O => ret ssrcs
  | S n => candidate <- GenerateSsrc params_vec ssrcs;; generate_ssrcs n params_vec (ssrcs ++ [candidate])
  end.
Definition GenerateSsrcs (params_vec : list StreamParams.StreamParams) (num_ssrcs : Z) : comp Helpers.rng (list Z) :=
  generate_ssrcs (Z.to_nat num_ssrcs) params_vec [].

Definition GenerateSctpSid (params_vec : list StreamParams.StreamParams) : comp Helpers.rng Z :=
  if kMaxSctpSid <? Z.of_nat (length params_vec) then fail
  else until fuel (id <- CreateRandomNonZeroId;; ret (id mod kMaxSctpSid)) (fun candidate => negb (has_stream params_vec candidate)).
Definition GenerateSctpSids (params_vec : list StreamParams.StreamParams) : comp Helpers.rng (list Z) :=
  sid <- GenerateSctpSid params_vec;; ret [sid].

(** The ids of a new stream; the result of GenerateSctpSids is not looked at. *)
Definition generate_ids (sctp : bool) (params_vec : list StreamParams.StreamParams) (num_ssrcs : Z) : comp Helpers.rng (list Z) :=
  if sctp then sids <- attempt (GenerateSctpSids params_vec);; ret (default [] sids)
  else GenerateSsrcs params_vec num_ssrcs.

(** ** Streams *)

Section Streams.
Context {C : Type} `{HC : CodecClass C}.

Definition new_stream (s : Stream) (ssrcs : list Z) : StreamParams.StreamParams :=
  let groups := if 1 <? num_sim_layers s then [StreamParams.mkSsrcGroup StreamParams.kSimSsrcGroupSemantics ssrcs] else [] in
  StreamParams.mkStreamParams [] (stream_id s) ssrcs groups [] [] [] [].
Definition set_sync (cname sync_label : bytes) (s : StreamParams.StreamParams) : StreamParams.StreamParams :=
  StreamParams.mkStreamParams (StreamParams.groupid s) (StreamParams.id s) (StreamParams.ssrcs s) (StreamParams.ssrc_groups s)
    (StreamParams.type s) (StreamParams.display s) cname sync_label.

Definition add_stream (streams : list Stream) (include_rtx_stream : bool)
    (st : list StreamParams.StreamParams * Impl C) (stream_it : Stream) : comp Helpers.rng (list StreamParams.StreamParams * Impl C) :=
  let '(current_streams, content_description) := st in
  match StreamParams.GetStreamByIds current_streams [] (stream_id stream_it) with
  | Some param => ret (current_streams, on_mcd (AddStreamDesc param) content_description)
  | None =>
      cname <- GenerateCname current_streams streams (stream_sync_label stream_it);;
      ssrcs <- generate_ids (IsSctp (mcd content_description)) current_streams (num_sim_layers stream_it);;
      let stream_param := new_stream stream_it ssrcs in
      ' (stream_param, content_description) <-
        (if include_rtx_stream
         then
           rtx_ssrc <- GenerateSsrcs current_streams 1;;
           ssrc <- defined (hd_error ssrcs);;
           rtx <- defined (hd_error rtx_ssrc);;
           ret ((StreamParams.AddFidSsrc ssrc rtx stream_param).2, on_mcd (set_multistream true) content_description)
         else ret (stream_param, content_description));;
      let stream_param := set_sync cname (stream_sync_label stream_it) stream_param in
      ret (current_streams ++ [stream_param], on_mcd (AddStreamDesc stream_param) content_description)
  end.

Definition AddStreamParams (ty : MediaType) (streams : list Stream) (current_streams : list StreamParams.StreamParams)
    (content_description : Impl C) (add_legacy_stream : bool) : comp Helpers.rng (list StreamParams.StreamParams * Impl C) :=
  let include_rtx_stream := ContainsRtxCodec (codecs_ content_description) in
  if (match streams with [] => true | _ => false end) && add_legacy_stream
  then
    ssrcs <- generate_ids (IsSctp (mcd content_description)) current_streams (if include_rtx_stream then 2 else 1);;
    ssrc <- defined (hd_error ssrcs);;
    if include_rtx_stream
    then
      fid_ssrc <- defined (hd_error (tl ssrcs));;
      ret (current_streams, on_mcd (set_multistream true) (on_mcd (AddLegacyStream_fid ssrc fid_ssrc) content_description))
    else ret (current_streams, on_mcd (AddLegacyStream ssrc) content_description)
  else
    foldM (add_stream streams include_rtx_stream) (List.filter (fun s => bool_decide (stream_type s = ty)) streams)
      (current_streams, content_description).

(** ** One medium *)

Definition CreateMediaContentOffer (ty : MediaType) (options : MediaSessionOptions) (codecs : list C) (secure_policy : SecurePolicy)
    (current_cryptos : option (list CryptoParams)) (crypto_suites : list bytes) (rtp_extensions : list RtpHeaderExtension)
    (add_legacy_stream : bool) (current_streams : list StreamParams.StreamParams) (offer : Impl C) `{PreferenceSort}
  : comp Helpers.rng (list StreamParams.StreamParams * Impl C) :=
  let offer := SortCodecs (AddCodecs codecs offer) in
  let offer := if bool_decide (secure_policy = SEC_REQUIRED) then on_mcd (set_crypto_required CT_SDES) offer else offer in
  let offer := on_mcd (set_rtcp_mux (rtcp_mux_enabled options)) offer in
  let offer := on_mcd (set_multistream (is_muc options)) offer in
  let offer := on_mcd (set_rtp_header_extensions rtp_extensions) offer in
  ' (current_streams, offer) <- AddStreamParams ty (streams options) current_streams offer add_legacy_stream;;
  offer <-
    (if negb (bool_decide (secure_policy = SEC_DISABLED))
     then
       let offer :=
         match current_cryptos with
         | Some c => on_mcd (fun d => set_cryptos (AddMediaCryptos c (cryptos_ d)) d) offer
         | None => offer
         end in
       match cryptos_ (mcd offer) with
       | [] => cryptos <- lift_opt (CreateMediaCryptos crypto_suites []);; ret (on_mcd (set_cryptos cryptos) offer)
       | _ => ret offer
       end
     else ret offer);;
  guard (negb (bool_decide (crypto_required_ (mcd offer) = CT_SDES) && (match cryptos_ (mcd offer) with [] => true | _ => false end)));;;
  ret (current_streams, offer).

Definition answer_direction (offer : MediaContentDirection) : MediaContentDirection :=
  match offer with
  | MD_INACTIVE => MD_INACTIVE
  | MD_SENDONLY => MD_RECVONLY
  | MD_RECVONLY => MD_SENDONLY
  | MD_SENDRECV => MD_SENDRECV
  end.

Definition CreateMediaContentAnswer (ty : MediaType) (offer : Impl C) (options : MediaSessionOptions) (local_codecs : list C)
    (sdes_policy : SecurePolicy) (current_cryptos : option (list CryptoParams)) (local_rtp_extensions : list RtpHeaderExtension)
    (current_streams : list StreamParams.StreamParams) (add_legacy_stream bundle_enabled : bool) (answer : Impl C) `{PreferenceSort}
  : comp Helpers.rng (list StreamParams.StreamParams * Impl C) :=
  let negotiated_codecs := NegotiateCodecs local_codecs (codecs_ offer) in
  let answer := SortCodecs (AddCodecs negotiated_codecs answer) in
  let answer := on_mcd (set_protocol (protocol_ (mcd offer))) answer in
  let extensions := NegotiateRtpHeaderExtensions local_rtp_extensions (rtp_header_extensions_ (mcd offer)) in
  let answer := on_mcd (set_rtp_header_extensions extensions) answer in
  let answer := on_mcd (set_rtcp_mux (rtcp_mux_enabled options && rtcp_mux_ (mcd offer))) answer in
  answer <-
    (if negb (bool_decide (sdes_policy = SEC_DISABLED))
     then
       crypto <- attempt (lift_opt (SelectCrypto ty (cryptos_ (mcd offer)) bundle_enabled));;
       ret match crypto with
           | None => answer
           | Some crypto =>
               let crypto := match current_cryptos with Some c => default crypto (FindMatchingCrypto c crypto) | None => crypto end in
               on_mcd (AddCrypto crypto) answer
           end
     else ret answer);;
  guard (negb ((match cryptos_ (mcd answer) with [] => true | _ => false end) &&
               (bool_decide (crypto_required_ (mcd offer) = CT_SDES) || bool_decide (sdes_policy = SEC_REQUIRED))));;;
  ' (current_streams, answer) <- AddStreamParams ty (streams options) current_streams answer add_legacy_stream;;
  ret (current_streams, on_mcd (set_direction (answer_direction (direction_ (mcd offer)))) answer).
End Streams.

Definition IsMediaProtocolSupported (ty : MediaType) (protocol : bytes) (secure_transport : bool) : bool :=
  let eq_to p := bool_decide (protocol = p) in
  if bool_decide (ty = MEDIA_TYPE_DATA) &&
     ((eq_to kMediaProtocolSctp && negb secure_transport) || (eq_to kMediaProtocolDtlsSctp && secure_transport))
  then true
  else eq_to kMediaProtocolAvpf || eq_to [] || eq_to kMediaProtocolSavpf || (eq_to kMediaProtocolDtlsSavpf && secure_transport).

Definition SetMediaProtocol (secure_transport : bool) (desc : MediaContentDescription) : MediaContentDescription :=
  set_protocol (if negb (match cryptos_ desc with [] => true | _ => false end) || secure_transport then kMediaProtocolSavpf else kMediaProtocolAvpf) desc.

Definition GetTransportDescription (content_name : bytes) (current : option Session) : option TransportDescription :=
  let? s := current in option_map description (GetTransportInfoByName content_name s).
Definition IsDtlsActive (content_name : bytes) (current : option Session) : bool :=
  match current with
  | None => false
  | Some s =>
      match GetContentByName content_name s with
      | None => false
      | Some _ => match GetTransportDescription content_name current with None => false | Some t => secure t end
      end
  end.

(** ** Bundles *)

Definition UpdateTransportInfoForBundle (bundle_group : ContentGroup) (sdesc : Session) : option Session :=
  let? selected_content_name := FirstContentName bundle_group in
  let? selected := GetTransportInfoByName selected_content_name sdesc in
  let selected_ufrag := ice_ufrag (description selected) in
  let selected_pwd := ice_pwd (description selected) in
  Some (set_transport_infos
    (map (fun it =>
       if HasContentName (content_name it) bundle_group && negb (bool_decide (content_name it = selected_content_name))
       then mkTransportInfo (content_name it) (set_ice selected_ufrag selected_pwd (description it))
       else it) (transport_infos_ sdesc)) sdesc).

Definition GetCryptosByName (sdesc : Session) (n : bytes) : option (list CryptoParams) :=
  let? c := GetContentByName n sdesc in
  require! IsMediaContent c in
  let? d := content c in
  Some (cryptos_ (base_of d)).

Definition starts_with (s prefix : bytes) : bool := bool_decide (take (length prefix) s = prefix).
Definition is_rtp_protocol (protocol : bytes) : bool := bool_decide (protocol = []) || starts_with protocol kMediaProtocolRtpPrefix.
Definition IsRtpContent (sdesc : Session) (n : bytes) : bool :=
  match GetContentByName n sdesc with
  | Some c =>
      if IsMediaContent c then match content c with None => false | Some d => is_rtp_protocol (protocol_ (base_of d)) end else false
  | None => false
  end.

(** The common crypto parameters and whether they are needed; [ret None] where
    the source returns true at once. *)
Fixpoint common_cryptos (content_names : list bytes) (first : bool) (common : list CryptoParams) (needed : bool) (sdesc : Session)
  : comp Helpers.rng (option (list CryptoParams * bool)) :=
  match content_names with
  | [] => ret (Some (common, needed))
  | it :: rest =>
      if negb (IsRtpContent sdesc it) then common_cryptos rest false common needed sdesc
      else
        t <- defined (GetTransportInfoByName it sdesc);;
        let needed := if negb (secure (description t)) then true else needed in
        cryptos <- of_option (GetCryptosByName sdesc it);;
        if first
        then match cryptos with [] => ret None | _ => common_cryptos rest false cryptos needed sdesc end
        else common_cryptos rest false (PruneCryptos cryptos common) needed sdesc
  end.

(** An update of the first content of a name. *)
Fixpoint on_content (n : bytes) (f : MediaContent -> MediaContent) (l : list Content) : list Content :=
  match l with
  | [] => []
  | c :: l =>
      if bool_decide (name c = n) then mkContent (name c) (type c) (rejected c) (option_map f (content c)) :: l
      else c :: on_content n f l
  end.
Definition set_content_cryptos (common : list CryptoParams) (sdesc : Session) (it : bytes) : Session :=
  if IsRtpContent sdesc it
  then mkSession (on_content it (on_base (set_cryptos common)) (contents_ sdesc)) (transport_infos_ sdesc) (content_groups_ sdesc)
  else sdesc.

Definition UpdateCryptoParamsForBundle (bundle_group : ContentGroup) (sdesc : Session) : comp Helpers.rng Session :=
  match FirstContentName bundle_group with
  | None => fail
  | Some _ =>
      common <- common_cryptos (content_names_ bundle_group) true [] false sdesc;;
      match common with
      | None => ret sdesc
      | Some (common, needed) =>
          guard (negb ((match common with [] => true | _ => false end) && needed));;;
          ret (fold_left (set_content_cryptos common) (content_names_ bundle_group) sdesc)
      end
  end.

(** ** What a medium's offer and answer consist of *)

(** The description but for its streams. *)
Definition unstreamed (d : MediaContentDescription) : MediaContentDescription := set_streams [] (set_multistream false d).

Section Medium.
Context {C : Type} `{HC : CodecClass C} `{HS : PreferenceSort}.

Definition same_but_streams (i i' : Impl C) : Prop := codecs_ i' = codecs_ i /\ unstreamed (mcd i') = unstreamed (mcd i).

Lemma add_stream_same streams rtx st s g : ensures (add_stream streams rtx st s) g (fun st' _ => same_but_streams st.2 st'.2).
Proof.
  intros st' g' E. destruct st as [current i]. cbn [snd]. unfold add_stream in E.
  destruct (StreamParams.GetStreamByIds _ _ _) as [param|]; outcome_inv; [done|].
  destruct rtx; outcome_inv; done.
Qed.

Lemma AddStreamParams_same ty streams current i legacy g :
  ensures (AddStreamParams ty streams current i legacy) g (fun st' _ => same_but_streams i st'.2).
Proof.
  intros st' g' E. unfold AddStreamParams in E. destruct (_ && legacy); [destruct (ContainsRtxCodec _); outcome_inv; done|].
  revert st' g' E. eapply (foldM_ensures (add_stream streams _) (fun _ st' _ => same_but_streams i st'.2)); [|done].
  intros s rest st g1 [H1 H2] _ st' g2 E. apply add_stream_same in E as [H3 H4]. split; congruence.
Qed.

Definition is_nil {A} (l : list A) : bool := match l with [] => true | _ => false end.

(** The fields of a description that CreateMediaContentOffer decides. *)
Lemma CreateMediaContentOffer_spec ty options codecs policy current suites extensions legacy streams0 protocol g st' g' :
  CreateMediaContentOffer ty options codecs policy current suites extensions legacy streams0 (on_mcd (set_protocol protocol) new_impl) g = Ok st' g' ->
  codecs_ st'.2 ≡ₚ codecs /\ StronglySorted by_preference (codecs_ st'.2) /\
  let d := mcd st'.2 in
  protocol_ d = protocol /\ rtcp_mux_ d = rtcp_mux_enabled options /\ rtp_header_extensions_ d = extensions /\ direction_ d = MD_SENDRECV /\
  crypto_required_ d = (if bool_decide (policy = SEC_REQUIRED) then CT_SDES else CT_NONE) /\
  (policy = SEC_DISABLED -> cryptos_ d = []) /\
  (policy <> SEC_DISABLED -> match current with
    | Some (c :: l) => cryptos_ d = c :: l
    | _ => exists g1 g2, CreateMediaCryptos suites [] g1 = (Some (cryptos_ d), g2)
    end) /\
  (policy = SEC_REQUIRED -> cryptos_ d <> []).
Proof.
  unfold CreateMediaContentOffer. intros E. outcome_inv.
  match goal with H : AddStreamParams _ _ _ _ _ _ = Ok ?st _ |- _ => destruct st as [cs i]; apply AddStreamParams_same in H as [Hc Hd] end.
  cbn [snd] in *. outcome_inv. cbn [snd].
  match goal with H : (if negb (bool_decide (policy = SEC_DISABLED)) then _ else _) _ = Ok ?x _ |- _ => rename x into i'; rename H into Hi end.
  match goal with H : negb (_ && _) = true |- _ => rename H into Hg end.
  assert (Hsame : codecs_ i' = codecs_ i /\ unstreamed (set_cryptos [] (mcd i')) = unstreamed (set_cryptos [] (mcd i)) /\
    (policy = SEC_DISABLED -> cryptos_ (mcd i') = cryptos_ (mcd i)) /\
    (policy <> SEC_DISABLED -> cryptos_ (mcd i) = [] -> match current with
      | Some (c :: l) => cryptos_ (mcd i') = c :: l
      | _ => exists g1 g2, CreateMediaCryptos suites [] g1 = (Some (cryptos_ (mcd i')), g2) end)).
  { destruct (bool_decide (policy = SEC_DISABLED)) eqn:Ep; cbn [negb] in Hi.
    - outcome_inv. apply bool_decide_eq_true in Ep. by split_and!.
    - apply bool_decide_eq_false in Ep. set (j := match current with Some c => _ | None => i end) in Hi.
      assert (Hj : codecs_ j = codecs_ i /\ unstreamed (set_cryptos [] (mcd j)) = unstreamed (set_cryptos [] (mcd i)) /\
        (cryptos_ (mcd i) = [] -> cryptos_ (mcd j) = default [] current)).
      { unfold j. destruct current; split_and!; try done. cbn. by intros ->. }
      destruct Hj as (J1 & J2 & J3). destruct (cryptos_ (mcd j)) as [|c l] eqn:Ej.
      + outcome_inv. split_and!; [done|done|done|]. intros _ Hn. specialize (J3 Hn).
        destruct current as [[|? ?]|]; cbn in J3; try discriminate; eexists _, _; eassumption.
      + outcome_inv. split_and!; [done|done|done|]. intros _ Hn. rewrite Ej. specialize (J3 Hn). rewrite ?Ej in J3.
        destruct current as [[|? ?]|]; cbn in J3; try discriminate. done. }
  destruct Hsame as (S1 & S2 & S3 & S4).
  assert (Hb : cryptos_ (mcd i) = [] /\ protocol_ (mcd i) = protocol /\ rtcp_mux_ (mcd i) = rtcp_mux_enabled options /\ rtp_header_extensions_ (mcd i) = extensions /\
    direction_ (mcd i) = MD_SENDRECV /\ crypto_required_ (mcd i) = (if bool_decide (policy = SEC_REQUIRED) then CT_SDES else CT_NONE)).
  { unfold unstreamed in Hd. destruct (mcd i). destruct (bool_decide (policy = SEC_REQUIRED)); injection Hd; intros; subst; by split_and!. }
  destruct Hb as (B1 & B2 & B3 & B4 & B5 & B6).
  assert (He : protocol_ (mcd i') = protocol_ (mcd i) /\ rtcp_mux_ (mcd i') = rtcp_mux_ (mcd i) /\ rtp_header_extensions_ (mcd i') = rtp_header_extensions_ (mcd i) /\
    direction_ (mcd i') = direction_ (mcd i) /\ crypto_required_ (mcd i') = crypto_required_ (mcd i)).
  { unfold unstreamed in S2. destruct (mcd i), (mcd i'). cbn in S2. injection S2; intros; subst; by split_and!. }
  destruct He as (E1 & E2 & E3 & E4 & E5).
  assert (Hcodecs : codecs_ i' = sort_preference codecs).
  { rewrite S1, Hc. by destruct (bool_decide (policy = SEC_REQUIRED)). }
  rewrite Hcodecs. split; [apply sort_perm|]. split; [apply sort_sorted|]. cbn zeta. rewrite E1, E2, E3, E4, E5. split_and!; try done.
  - intros Hp. by rewrite (S3 Hp).
  - intros Hp. by apply S4.
  - intros Hp Hn. rewrite Hn, E5, B6, (bool_decide_eq_true_2 _ Hp), bool_decide_eq_true_2 in Hg by done. done.
Qed.

(** The fields that CreateMediaContentAnswer decides, against the offer. *)
Lemma CreateMediaContentAnswer_spec ty offer options local policy current extensions streams0 legacy bundle g st' g' :
  CreateMediaContentAnswer ty offer options local policy current extensions streams0 legacy bundle new_impl g = Ok st' g' ->
  codecs_ st'.2 ≡ₚ NegotiateCodecs local (codecs_ offer) /\
  StronglySorted by_preference (codecs_ st'.2) /\
  let d := mcd st'.2 in
  protocol_ d = protocol_ (mcd offer) /\ rtcp_mux_ d = rtcp_mux_enabled options && rtcp_mux_ (mcd offer) /\
  rtp_header_extensions_ d = NegotiateRtpHeaderExtensions extensions (rtp_header_extensions_ (mcd offer)) /\
  direction_ d = answer_direction (direction_ (mcd offer)) /\
  (policy = SEC_DISABLED -> cryptos_ d = []) /\
  ((cryptos_ d = [] /\ (policy <> SEC_DISABLED -> exists g1 g2, SelectCrypto ty (cryptos_ (mcd offer)) bundle g1 = (None, g2))) \/
   exists crypto selected g1 g2, SelectCrypto ty (cryptos_ (mcd offer)) bundle g1 = (Some selected, g2) /\
     cryptos_ d = [crypto] /\ (crypto = selected \/ exists c, current = Some c /\ FindMatchingCrypto c selected = Some crypto)) /\
  (crypto_required_ (mcd offer) = CT_SDES \/ policy = SEC_REQUIRED -> cryptos_ d <> []).
Proof.
  unfold CreateMediaContentAnswer. intros E. outcome_inv.
  match goal with H : (if negb (bool_decide (policy = SEC_DISABLED)) then _ else _) _ = Ok ?x _ |- _ => rename x into i; rename H into Hi end.
  match goal with H : negb (_ && _) = true |- _ => rename H into Hg end.
  match goal with H : AddStreamParams _ _ _ _ _ _ = Ok ?st _ |- _ => destruct st as [cs i']; apply AddStreamParams_same in H as [Hc Hd] end.
  cbn [snd] in *. outcome_inv. cbn [snd].
  set (i0 := on_mcd (set_rtcp_mux _) _) in Hi.
  assert (Hi' : codecs_ i = codecs_ i0 /\ unstreamed (set_cryptos [] (mcd i)) = unstreamed (set_cryptos [] (mcd i0)) /\
    (policy = SEC_DISABLED -> cryptos_ (mcd i) = []) /\
    ((cryptos_ (mcd i) = [] /\ (policy <> SEC_DISABLED -> exists g1 g2, SelectCrypto ty (cryptos_ (mcd offer)) bundle g1 = (None, g2))) \/
     exists crypto selected g1 g2, SelectCrypto ty (cryptos_ (mcd offer)) bundle g1 = (Some selected, g2) /\
       cryptos_ (mcd i) = [crypto] /\ (crypto = selected \/ exists c, current = Some c /\ FindMatchingCrypto c selected = Some crypto))).
  { destruct (bool_decide (policy = SEC_DISABLED)) eqn:Ep; cbn [negb] in Hi.
    - outcome_inv. apply bool_decide_eq_true in Ep. split_and!; try done. left. by split.
    - apply bool_decide_eq_false in Ep. outcome_inv. destruct x as [selected|]; [|outcome_inv; match goal with H : lift_opt _ _ = Fail _ |- _ => apply lift_opt_Fail in H end; split_and!; try done; left; split; [done|]; intros _; by eexists _, _].
      outcome_inv. split_and!; try done. right. match goal with H : SelectCrypto _ _ _ ?g1 = (_, ?g2) |- _ => exists
        (match current with Some c => default selected (FindMatchingCrypto c selected) | None => selected end), selected, g1, g2 end.
      split; [done|]. split; [done|]. destruct current as [c|]; [|by left]. destruct (FindMatchingCrypto c selected) as [m|] eqn:Em; [|by left].
      right. by exists c. }
  destruct Hi' as (I1 & I2 & I3 & I4).
  assert (Hb : cryptos_ (mcd i') = cryptos_ (mcd i) /\ protocol_ (mcd i') = protocol_ (mcd i) /\ rtcp_mux_ (mcd i') = rtcp_mux_ (mcd i) /\
    rtp_header_extensions_ (mcd i') = rtp_header_extensions_ (mcd i)).
  { unfold unstreamed in Hd. destruct (mcd i), (mcd i'). cbn in Hd. injection Hd; intros; subst; by split_and!. }
  assert (Ha : protocol_ (mcd i) = protocol_ (mcd i0) /\ rtcp_mux_ (mcd i) = rtcp_mux_ (mcd i0) /\
    rtp_header_extensions_ (mcd i) = rtp_header_extensions_ (mcd i0)).
  { unfold unstreamed in I2. destruct (mcd i), (mcd i0). cbn in I2. injection I2; intros; subst; by split_and!. }
  destruct Hb as (B1 & B2 & B3 & B4), Ha as (A1 & A2 & A3).
  assert (Hcodecs : codecs_ i' = sort_preference (NegotiateCodecs local (codecs_ offer))) by (by rewrite Hc, I1).
  cbn [on_mcd mcd codecs_]. rewrite Hcodecs. split; [apply sort_perm|]. split; [apply sort_sorted|].
  cbn [set_direction protocol_ rtcp_mux_ rtp_header_extensions_ direction_ cryptos_]. rewrite B1, B2, B3, B4, A1, A2, A3. split_and!; try done.
  intros Hreq Hn. rewrite Hn in Hg. cbn [andb negb] in Hg. apply negb_true_iff, orb_false_iff in Hg as [G1 G2].
  apply bool_decide_eq_false in G1, G2. tauto.
Qed.
End Medium.
End Random.
End MediaOffer.
