(* ===== verification/MediaFactory.v ===== *)
(** * session/media/mediasession.cc: CreateOffer and CreateAnswer

    MediaSessionDescriptionFactory, over the parts of MediaOffer.v, and what
    an offer and its answer have to do with each other. *)

From stdpp Require Import gmap sorting.
From S2P Require Import Prelude ByteOrder StringConv Codec Helpers StreamParams SrtpFilter MediaSession SessionDescription TransportFactory MediaDescription CodecOffer MediaOffer Outcome.
Import Codec SessionDescription MediaDescription CodecOffer MediaSession MediaOffer Outcome.
Import SrtpFilter (CryptoParams, cipher_suite).
Open Scope jingle_scope.

Module MediaFactory.

Record MediaSessionDescriptionFactory := mkFactory {
  audio_codecs_ : list AudioCodec; audio_rtp_extensions_ : list RtpHeaderExtension;
  video_codecs_ : list VideoCodec; video_rtp_extensions_ : list RtpHeaderExtension;
  data_codecs_ : list DataCodec; secure_ : SecurePolicy; add_legacy_ : bool; lang_ : bytes;
  transport_desc_factory_ : option TransportFactory.t;
}.
Definition new_factory (f : option TransportFactory.t) : MediaSessionDescriptionFactory :=
  mkFactory [] [] [] [] [] SEC_DISABLED true [] f.

(** The state of the work: all streams so far, and the description. *)
Abbreviation work := (list StreamParams.StreamParams * Session)%type.

Section Factory.
Context `{HM : Machine} `{HR : Helpers.RandomGenerator} `{HS : PreferenceSort}.
Variable fuel : nat.
Variable f : MediaSessionDescriptionFactory.

Definition AddTransportOffer (content_name : bytes) (options : TransportFactory.TransportOptions) (current : option Session) (offer : Session)
  : comp Helpers.rng Session :=
  tf <- of_option (transport_desc_factory_ f);;
  new_tdesc <- TransportFactory.CreateOffer tf options (GetTransportDescription content_name current);;
  of_option (AddTransportInfo (mkTransportInfo content_name new_tdesc) offer).
Definition CreateTransportAnswer (content_name : bytes) (offer : Session) (options : TransportFactory.TransportOptions) (current : option Session)
  : comp Helpers.rng TransportDescription :=
  tf <- of_option (transport_desc_factory_ f);;
  TransportFactory.CreateAnswer tf (GetTransportDescription content_name (Some offer)) options (GetTransportDescription content_name current).
Definition AddTransportAnswer (content_name : bytes) (transport_desc : TransportDescription) (answer : Session) : comp Helpers.rng Session :=
  of_option (AddTransportInfo (mkTransportInfo content_name transport_desc) answer).

Definition sdes_policy (content_name : bytes) (current : option Session) : SecurePolicy :=
  if IsDtlsActive content_name current then SEC_DISABLED else secure_ f.

Section Offer.
Variables (options : MediaSessionOptions) (current : option Session) (secure_transport : bool).

Definition offer_audio (codecs : list AudioCodec) (extensions : list RtpHeaderExtension) (w : work) : comp Helpers.rng work :=
  let '(current_streams, offer) := w in
  ' (current_streams, audio) <- CreateMediaContentOffer fuel MEDIA_TYPE_AUDIO options codecs (sdes_policy CN_AUDIO current)
      (GetCryptos (GetFirstAudioContentDescription current)) GetSupportedAudioCryptoSuites extensions (add_legacy_ f) current_streams new_impl;;
  let audio := on_mcd (SetMediaProtocol secure_transport) audio in
  let offer := AddContent CN_AUDIO NS_JINGLE_RTP (Some (AudioContentDescription audio false (lang_ f))) offer in
  offer <- AddTransportOffer CN_AUDIO (transport_options options) current offer;;
  ret (current_streams, offer).

Definition offer_video (codecs : list VideoCodec) (extensions : list RtpHeaderExtension) (w : work) : comp Helpers.rng work :=
  let '(current_streams, offer) := w in
  ' (current_streams, video) <- CreateMediaContentOffer fuel MEDIA_TYPE_VIDEO options codecs (sdes_policy CN_VIDEO current)
      (GetCryptos (GetFirstVideoContentDescription current)) GetSupportedVideoCryptoSuites extensions (add_legacy_ f) current_streams new_impl;;
  let video := on_mcd (set_bandwidth (video_bandwidth options)) video in
  let video := on_mcd (SetMediaProtocol secure_transport) video in
  let offer := AddContent CN_VIDEO NS_JINGLE_RTP (Some (VideoContentDescription video)) offer in
  offer <- AddTransportOffer CN_VIDEO (transport_options options) current offer;;
  ret (current_streams, offer).

Definition offer_data (codecs : list DataCodec) (w : work) : comp Helpers.rng work :=
  let '(current_streams, offer) := w in
  let is_sctp := bool_decide (data_channel_type options = DCT_SCTP) in
  let codecs := FilterDataCodecs codecs is_sctp in
  let policy := if is_sctp then SEC_DISABLED else sdes_policy CN_DATA current in
  let suites := if is_sctp then [] else GetSupportedDataCryptoSuites in
  let data := if is_sctp then on_mcd (set_protocol (if secure_transport then kMediaProtocolDtlsSctp else kMediaProtocolSctp)) new_impl else new_impl in
  ' (current_streams, data) <- CreateMediaContentOffer fuel MEDIA_TYPE_DATA options codecs policy
      (GetCryptos (GetFirstDataContentDescription current)) suites [] (add_legacy_ f) current_streams data;;
  let offer :=
    if is_sctp then AddContent CN_DATA NS_JINGLE_DRAFT_SCTP (Some (DataContentDescription data)) offer
    else
      let data := on_mcd (set_bandwidth (data_bandwidth options)) data in
      let data := on_mcd (SetMediaProtocol secure_transport) data in
      AddContent CN_DATA NS_JINGLE_RTP (Some (DataContentDescription data)) offer in
  offer <- AddTransportOffer CN_DATA (transport_options options) current offer;;
  ret (current_streams, offer).

Definition bundle_offer (offer : Session) : comp Helpers.rng Session :=
  let offer_bundle := fold_left (fun g c => AddContentName (name c) g) (contents_ offer) (mkGroup GROUP_TYPE_BUNDLE []) in
  let offer := AddGroup offer_bundle offer in
  offer <- of_option (UpdateTransportInfoForBundle offer_bundle offer);;
  UpdateCryptoParamsForBundle offer_bundle offer.
End Offer.

(** NULL is [Fail]. *)
Definition CreateOffer (options : MediaSessionOptions) (current : option Session) : comp Helpers.rng Session :=
  tf <- defined (transport_desc_factory_ f);;
  let secure_transport := negb (bool_decide (TransportFactory.secure_ tf = SEC_DISABLED)) in
  current_streams <- defined (GetCurrentStreamParams current);;
  let '(audio_codecs, video_codecs, data_codecs) :=
    GetCodecsToOffer (GetFirstAudioContentDescription current) (GetFirstVideoContentDescription current) (GetFirstDataContentDescription current)
      (audio_codecs_ f) (video_codecs_ f) (data_codecs_ f) in
  let audio_codecs := if vad_enabled options then audio_codecs else StripCNCodecs audio_codecs in
  let '(audio_extensions, video_extensions) :=
    GetRtpHdrExtsToOffer (GetFirstAudioContentDescription current) (GetFirstVideoContentDescription current)
      (audio_rtp_extensions_ f) (video_rtp_extensions_ f) in
  w <- (if has_audio options then offer_audio options current secure_transport audio_codecs audio_extensions (current_streams, new_session)
        else ret (current_streams, new_session));;
  w <- (if has_video options then offer_video options current secure_transport video_codecs video_extensions w else ret w);;
  w <- (if has_data options then offer_data options current secure_transport data_codecs w else ret w);;
  if bundle_enabled options then bundle_offer w.2 else ret w.2.

Section Answer.
Variables (offer : Session) (options : MediaSessionOptions) (current : option Session).
Definition answer_bundle_enabled : bool := HasGroup GROUP_TYPE_BUNDLE offer && bundle_enabled options.

(** The content of a medium in the offer, which is of that medium's class. *)
Definition offered {C} (as_class : MediaContent -> option (Impl C)) (c : Content) : option (Impl C) := let? d := content c in as_class d.

Definition answer_audio (w : work) : comp Helpers.rng work :=
  match GetFirstAudioContent offer with
  | None => ret w
  | Some audio_content =>
      let '(current_streams, answer) := w in
      audio_transport <- CreateTransportAnswer (name audio_content) offer (transport_options options) current;;
      let audio_codecs := if vad_enabled options then audio_codecs_ f else StripCNCodecs (audio_codecs_ f) in
      let policy := if secure audio_transport then SEC_DISABLED else secure_ f in
      audio_offer <- defined (offered as_audio audio_content);;
      ' (current_streams, audio_answer) <- CreateMediaContentAnswer fuel MEDIA_TYPE_AUDIO audio_offer options audio_codecs policy
          (GetCryptos (GetFirstAudioContentDescription current)) (audio_rtp_extensions_ f) current_streams (add_legacy_ f) answer_bundle_enabled new_impl;;
      let rejected := negb (has_audio options) || rejected audio_content ||
        negb (IsMediaProtocolSupported MEDIA_TYPE_AUDIO (protocol_ (mcd audio_answer)) (secure audio_transport)) in
      answer <- (if rejected then ret answer
                 else added <- attempt (AddTransportAnswer (name audio_content) audio_transport answer);; ret (default answer added));;
      ret (current_streams, AddContent_rejected (name audio_content) (type audio_content) rejected (Some (AudioContentDescription audio_answer false [])) answer)
  end.

Definition answer_video (w : work) : comp Helpers.rng work :=
  match GetFirstVideoContent offer with
  | None => ret w
  | Some video_content =>
      let '(current_streams, answer) := w in
      video_transport <- CreateTransportAnswer (name video_content) offer (transport_options options) current;;
      let policy := if secure video_transport then SEC_DISABLED else secure_ f in
      video_offer <- defined (offered as_video video_content);;
      ' (current_streams, video_answer) <- CreateMediaContentAnswer fuel MEDIA_TYPE_VIDEO video_offer options (video_codecs_ f) policy
          (GetCryptos (GetFirstVideoContentDescription current)) (video_rtp_extensions_ f) current_streams (add_legacy_ f) answer_bundle_enabled new_impl;;
      let rejected := negb (has_video options) || rejected video_content ||
        negb (IsMediaProtocolSupported MEDIA_TYPE_VIDEO (protocol_ (mcd video_answer)) (secure video_transport)) in
      ' (answer, video_answer) <-
        (if rejected then ret (answer, video_answer)
         else answer <- AddTransportAnswer (name video_content) video_transport answer;;
              ret (answer, on_mcd (set_bandwidth (video_bandwidth options)) video_answer));;
      ret (current_streams, AddContent_rejected (name video_content) (type video_content) rejected (Some (VideoContentDescription video_answer)) answer)
  end.

(** The codecs are filtered for the kind of channel, but those of the factory
    are used. *)
Definition answer_data (w : work) : comp Helpers.rng work :=
  match GetFirstDataContent offer with
  | None => ret w
  | Some data_content =>
      let '(current_streams, answer) := w in
      data_transport <- CreateTransportAnswer (name data_content) offer (transport_options options) current;;
      let policy := if secure data_transport then SEC_DISABLED else secure_ f in
      data_offer <- defined (offered as_data data_content);;
      ' (current_streams, data_answer) <- CreateMediaContentAnswer fuel MEDIA_TYPE_DATA data_offer options (data_codecs_ f) policy
          (GetCryptos (GetFirstDataContentDescription current)) [] current_streams (add_legacy_ f) answer_bundle_enabled new_impl;;
      let rejected := negb (has_data options) || rejected data_content ||
        negb (IsMediaProtocolSupported MEDIA_TYPE_DATA (protocol_ (mcd data_answer)) (secure data_transport)) in
      ' (answer, data_answer) <-
        (if rejected then ret (answer, data_answer)
         else
           let data_answer := on_mcd (set_bandwidth (data_bandwidth options)) data_answer in
           answer <- AddTransportAnswer (name data_content) data_transport answer;;
           ret (answer, data_answer));;
      ret (current_streams, AddContent_rejected (name data_content) (type data_content) rejected (Some (DataContentDescription data_answer)) answer)
  end.

Definition bundle_answer (answer : Session) : comp Helpers.rng Session :=
  match GetGroupByName GROUP_TYPE_BUNDLE offer with
  | Some offer_bundle =>
      if bundle_enabled options
      then
        let answer_bundle :=
          fold_left (fun g c => if negb (rejected c) && HasContentName (name c) offer_bundle then AddContentName (name c) g else g)
            (contents_ answer) (mkGroup GROUP_TYPE_BUNDLE []) in
        match FirstContentName answer_bundle with
        | Some _ =>
            let answer := AddGroup answer_bundle answer in
            answer <- of_option (UpdateTransportInfoForBundle answer_bundle answer);;
            UpdateCryptoParamsForBundle answer_bundle answer
        | None => ret answer
        end
      else ret answer
  | None => ret answer
  end.

Definition CreateAnswer : comp Helpers.rng Session :=
  current_streams <- defined (GetCurrentStreamParams current);;
  w <- answer_audio (current_streams, new_session);;
  w <- answer_video w;;
  w <- answer_data w;;
  bundle_answer w.2.
End Answer.
End Factory.

(** ** Two ends, for the witnesses *)

Definition sample_transport : TransportFactory.t := TransportFactory.mk ICEPROTO_HYBRID SEC_DISABLED None.
(** The offerer has SDES only; the answerer knows one of its audio codecs
    under another payload type, and requires SDES. *)
Definition sample_offerer : MediaSessionDescriptionFactory :=
  mkFactory [new_audio 103 (str "ISAC") 16000 0 1 5; new_audio 0 (str "PCMU") 8000 64000 1 4] [mkExtension (str "urn:x") 1]
    [new_video 100 (str "VP8") 640 400 30 1] [] [] SEC_ENABLED false [] (Some sample_transport).
Definition sample_answerer : MediaSessionDescriptionFactory :=
  mkFactory [new_audio 104 (str "isac") 16000 0 1 7] [mkExtension (str "urn:x") 9] [new_video 101 (str "VP8") 640 400 30 1] [] []
    SEC_REQUIRED false [] (Some sample_transport).
Definition sample_options (bundle : bool) : MediaSessionOptions :=
  let o := AddStream MEDIA_TYPE_VIDEO (str "v1") (str "s") (AddStream MEDIA_TYPE_AUDIO (str "a1") (str "s") new_options) in
  mkOptions (has_audio o) (has_video o) (data_channel_type o) (is_muc o) (vad_enabled o) (rtcp_mux_enabled o) bundle
    (video_bandwidth o) (data_bandwidth o) (transport_options o) (streams o).
Definition sample_offer (bundle : bool) : outcome Z Session :=
  @CreateOffer x86 Helpers.TestRandomGenerator merge_preference 10 sample_offerer (sample_options bundle) None Helpers.test_seed.
Definition sample_answer (bundle : bool) (offer : Session) : outcome Z Session :=
  @CreateAnswer x86 Helpers.TestRandomGenerator merge_preference 10 sample_answerer offer (sample_options bundle) None 99.
(** What is observed of the sample offer and answer. *)
Definition sample_exchange {A} (bundle : bool) (observe : Session -> Session -> A) : option A :=
  match sample_offer bundle with
  | Ok offer _ => match sample_answer bundle offer with Ok answer _ => Some (observe offer answer) | _ => None end
  | _ => None
  end.
Lemma sample_exchange_Some {A} bundle (observe : Session -> Session -> A) v : sample_exchange bundle observe = Some v ->
  exists offer g1 answer g2, sample_offer bundle = Ok offer g1 /\ sample_answer bundle offer = Ok answer g2 /\ observe offer answer = v.
Proof.
  unfold sample_exchange. destruct (sample_offer bundle) as [offer g1| |]; [|done..].
  destruct (sample_answer bundle offer) as [answer g2| |] eqn:E; [|done..]. intros [= <-]. by exists offer, g1, answer, g2.
Qed.
End MediaFactory.
