(* ===== verification/MediaAnswer.v ===== *)
(** * The answer to an offer

    What each content of an answer has to do with the content of the offer it
    answers, for everything that CreateAnswer of MediaFactory.v decides but
    the streams and the crypto parameters of a bundle. *)

From stdpp Require Import gmap sorting.
From S2P Require Import Prelude ByteOrder StringConv Codec Helpers StreamParams SrtpFilter MediaSession SessionDescription TransportFactory MediaDescription CodecOffer MediaOffer MediaFactory Outcome.
Import Codec SessionDescription MediaDescription CodecOffer MediaSession MediaOffer MediaFactory Outcome.
Import SrtpFilter (CryptoParams, cipher_suite).
Open Scope jingle_scope.

Module MediaAnswer.

(** The common parts of the codecs of a description. *)
Definition codec_bases (d : MediaContent) : list Codec :=
  match d with
  | AudioContentDescription i _ _ => map base (codecs_ i)
  | VideoContentDescription i => map base (codecs_ i)
  | DataContentDescription i => map base (codecs_ i)
  end.
Definition has_medium (ty : MediaType) (options : MediaSessionOptions) : bool :=
  match ty with MEDIA_TYPE_AUDIO => has_audio options | MEDIA_TYPE_VIDEO => has_video options | MEDIA_TYPE_DATA => has_data options end.

(** A codec of the answer is one of the offer, with its payload type, and
    one of ours, with our preference; it keeps the feedback both have. *)
Definition codec_agreed (ours theirs : list Codec) (n : Codec) : Prop :=
  exists o t, In o ours /\ In t theirs /\ Codec.id n = Codec.id t /\ Matches n t = true /\ Codec.name n = Codec.name o /\ preference n = preference o /\
    forall p, Has p (feedback_params n) = Has p (feedback_params o) && Has p (feedback_params t).

Record mirrors (options : MediaSessionOptions) (ours theirs ns : list Codec) (d e : MediaContentDescription) : Prop := {
  mi_codecs : Forall (codec_agreed ours theirs) ns;
  mi_sorted : StronglySorted (fun a b => preference b <= preference a) ns;
  mi_protocol : protocol_ e = protocol_ d;
  mi_mux : rtcp_mux_ e = rtcp_mux_enabled options && rtcp_mux_ d;
  mi_direction : direction_ e = answer_direction (direction_ d);
  mi_extensions : forall x, x ∈ rtp_header_extensions_ e -> x ∈ rtp_header_extensions_ d;
}.

Section Codecs.
Context {C : Type} `{HC : CodecClass C}.

Lemma negotiated_agreed (ours theirs n : C) (os ts : list C) : negotiated ours theirs n -> In ours os -> In theirs ts ->
  codec_agreed (map base os) (map base ts) (base n).
Proof.
  intros (H1 & H2 & H3 & H4 & H5 & _) Ho Ht. exists (base ours), (base theirs). split_and!; try done; [by apply in_map|by apply in_map|].
  apply matches_base in H1. unfold Matches in *. rewrite H3. change (Codec.id (base n)) with (get_id n). rewrite H2.
  by destruct (Codec.id (base theirs) <=? kMaxStaticPayloadId); [apply Z.eqb_refl|].
Qed.

Lemma NegotiateRtpHeaderExtensions_in ours theirs x : x ∈ NegotiateRtpHeaderExtensions ours theirs -> x ∈ theirs.
Proof.
  unfold NegotiateRtpHeaderExtensions. rewrite !list_elem_of_In. intros (o & _ & Hx)%in_flat_map.
  destruct (FindByUri theirs o) as [y|] eqn:E; [|done]. destruct Hx as [->|[]]. by apply find_some in E as [].
Qed.

Lemma sorted_bases (l : list C) : StronglySorted by_preference l ->
  StronglySorted (fun a b => preference b <= preference a) (map base l).
Proof. induction 1 as [|x l _ IH H]; [constructor|]. constructor; [done|]. by apply List.Forall_map. Qed.
End Codecs.

Section Medium.
Context `{HM : Machine} `{HR : Helpers.RandomGenerator} `{HS : PreferenceSort}.
Variable fuel : nat.

Lemma mirrors_bandwidth options ours theirs ns d e b : mirrors options ours theirs ns d e -> mirrors options ours theirs ns d (set_bandwidth b e).
Proof. by intros []. Qed.

(** The crypto parameters of the answer: one that is selected from the offer,
    or was before; none only where SDES is disabled or nothing can be selected,
    and neither side requires SDES. *)
Definition cryptos_selected (ty : MediaType) (bundle : bool) (policy : SecurePolicy) (current : option (list CryptoParams))
    (d : MediaContentDescription) (cryptos : list CryptoParams) : Prop :=
  ((cryptos = [] /\ (policy <> SEC_DISABLED -> exists g1 g2, SelectCrypto ty (cryptos_ d) bundle g1 = (None, g2))) \/
   exists crypto selected g1 g2, SelectCrypto ty (cryptos_ d) bundle g1 = (Some selected, g2) /\
     cryptos = [crypto] /\ (crypto = selected \/ exists l, current = Some l /\ FindMatchingCrypto l selected = Some crypto)) /\
  (policy = SEC_DISABLED -> cryptos = []) /\
  (crypto_required_ d = CT_SDES \/ policy = SEC_REQUIRED -> cryptos <> []).

Lemma CreateMediaContentAnswer_mirrors {C} `{HC : CodecClass C} ty offer options (local : list C) policy current extensions streams0 legacy bundle g st g' :
  CreateMediaContentAnswer fuel ty offer options local policy current extensions streams0 legacy bundle new_impl g = Ok st g' ->
  mirrors options (map base local) (map base (codecs_ offer)) (map base (codecs_ st.2)) (mcd offer) (mcd st.2) /\
  cryptos_selected ty bundle policy current (mcd offer) (cryptos_ (mcd st.2)).
Proof.
  intros (Hc & Hs & H1 & H2 & H3 & H4 & H5 & H6 & H7)%CreateMediaContentAnswer_spec. split; [|by split].
  split; [|by apply sorted_bases|done..|].
  - apply List.Forall_map, List.Forall_forall. intros n Hn. eapply Permutation_in in Hn; [|exact Hc].
    apply NegotiateCodecs_in in Hn as (o & t & Ho & Ht & E). apply negotiate_one_spec in E. by eapply negotiated_agreed.
  - rewrite H3. apply NegotiateRtpHeaderExtensions_in.
Qed.

Variable f : MediaSessionDescriptionFactory.
Variables (offer : Session) (options : MediaSessionOptions) (current : option Session).

Definition our_codecs (ty : MediaType) : list Codec :=
  match ty with
  | MEDIA_TYPE_AUDIO => map base (if vad_enabled options then audio_codecs_ f else StripCNCodecs (audio_codecs_ f))
  | MEDIA_TYPE_VIDEO => map base (video_codecs_ f)
  | MEDIA_TYPE_DATA => map base (data_codecs_ f)
  end.

(** The transport of an answer: what the two transport factories can speak,
    with DTLS if the offer has it and ours does it. *)
Record transport_answered (n : bytes) (t : TransportDescription) (tf : TransportFactory.t) : Prop := {
  ta_type : TransportFactory.answer_type tf (GetTransportDescription n (Some offer)) = Some (transport_type t);
  ta_secure : secure t = match GetTransportDescription n (Some offer) with Some o => secure o | None => false end && TransportFactory.wants_dtls (TransportFactory.secure_ tf);
  ta_required : TransportFactory.secure_ tf = SEC_REQUIRED -> secure t = true;
}.

Record content_answered (ty : MediaType) (c a : Content) (t : TransportDescription) : Prop := {
  ca_name : name a = name c;
  ca_type : type a = type c;
  ca_medium : exists d e, content c = Some d /\ content a = Some e /\ media_type d = ty /\ media_type e = ty /\
    mirrors options (our_codecs ty) (codec_bases d) (codec_bases e) (base_of d) (base_of e) /\
    rejected a = negb (has_medium ty options) || rejected c || negb (IsMediaProtocolSupported ty (protocol_ (base_of d)) (secure t));
  ca_transport : exists tf, transport_desc_factory_ f = Some tf /\ transport_answered (name c) t tf;
}.

Definition current_cryptos (ty : MediaType) : option (list CryptoParams) :=
  match ty with
  | MEDIA_TYPE_AUDIO => GetCryptos (GetFirstAudioContentDescription current)
  | MEDIA_TYPE_VIDEO => GetCryptos (GetFirstVideoContentDescription current)
  | MEDIA_TYPE_DATA => GetCryptos (GetFirstDataContentDescription current)
  end.

(** A content before bundling, with its crypto parameters. *)
Definition content_made (ty : MediaType) (c a : Content) (t : TransportDescription) : Prop :=
  content_answered ty c a t /\ exists d e, content c = Some d /\ content a = Some e /\
    cryptos_selected ty (answer_bundle_enabled offer options) (if secure t then SEC_DISABLED else secure_ f) (current_cryptos ty) (base_of d) (cryptos_ (base_of e)).

(** The contents of an answer grow by one, with its transport unless it is
    rejected. *)
Definition grown (ty : MediaType) (c : Content) (s s' : Session) : Prop :=
  exists a t, content_made ty c a t /\ contents_ s' = contents_ s ++ [a] /\
    transport_infos_ s' = transport_infos_ s ++ (if rejected a then [] else [mkTransportInfo (name a) t]) /\
    (rejected a = false -> name a ∉ map content_name (transport_infos_ s)) /\
    content_groups_ s' = content_groups_ s.

Lemma CreateTransportAnswer_spec n topts g t g' : CreateTransportAnswer f n offer topts current g = Ok t g' ->
  exists tf, transport_desc_factory_ f = Some tf /\ transport_answered n t tf.
Proof.
  unfold CreateTransportAnswer. intros E. outcome_inv.
  match goal with H : transport_desc_factory_ f = Some ?x |- _ => exists x; split; [done|]; rename x into tf end.
  match goal with H : TransportFactory.CreateAnswer _ ?o ?p ?c ?g0 = _ |- _ => pose proof (TransportFactory.CreateAnswer_spec tf o p c g0) as Ha; rewrite H in Ha end.
  by destruct Ha as (H1 & H2 & H3 & _).
Qed.

Lemma AddTransportInfo_grows i (s s' : Session) : AddTransportInfo i s = Some s' ->
  contents_ s' = contents_ s /\ content_groups_ s' = content_groups_ s /\ transport_infos_ s' = transport_infos_ s ++ [i] /\
  content_name i ∉ map content_name (transport_infos_ s).
Proof.
  intros E. pose proof (AddTransportInfo_names _ _ _ E) as (_ & Hn & Hc & Hg). split_and!; try done.
  unfold AddTransportInfo in E. destruct (GetTransportInfoByName _ s); [done|]. by injection E as <-.
Qed.

Lemma first_of ty c : GetFirstMediaContent ty offer = Some c -> exists d, content c = Some d /\ media_type d = ty.
Proof.
  intros [_ E]%find_some. unfold IsMediaContentOfType in E. apply andb_true_iff in E as [_ E].
  destruct (content c) as [d|]; [|done]. exists d. split; [done|]. by apply bool_decide_eq_true in E.
Qed.

Definition rejects (ty : MediaType) (c : Content) (e : MediaContentDescription) (t : TransportDescription) : bool :=
  negb (has_medium ty options) || rejected c || negb (IsMediaProtocolSupported ty (protocol_ e) (secure t)).

Lemma grown_intro ty c d e t (s x : Session) r :
  content c = Some d -> media_type d = ty -> media_type e = ty -> mirrors options (our_codecs ty) (codec_bases d) (codec_bases e) (base_of d) (base_of e) ->
  cryptos_selected ty (answer_bundle_enabled offer options) (if secure t then SEC_DISABLED else secure_ f) (current_cryptos ty) (base_of d) (cryptos_ (base_of e)) ->
  (exists tf, transport_desc_factory_ f = Some tf /\ transport_answered (name c) t tf) ->
  r = rejects ty c (base_of e) t ->
  (if r then x = s else AddTransportInfo (mkTransportInfo (name c) t) s = Some x) ->
  grown ty c s (AddContent_rejected (name c) (type c) r (Some e) x).
Proof.
  intros Hd Hty Hty' Hm Hcr Ht Hr Hx. exists (mkContent (name c) (type c) r (Some e)), t.
  cbn [AddContent_rejected contents_ transport_infos_ content_groups_ rejected name].
  split; [|destruct r; [by rewrite Hx, app_nil_r|by apply AddTransportInfo_grows in Hx as (-> & -> & -> & ?)]].
  split; [|by exists d, e]. split; [done..| |done]. exists d, e. split_and!; try done. cbn [rejected]. rewrite Hr. unfold rejects.
  by rewrite (mi_protocol _ _ _ _ _ _ Hm).
Qed.

(** The parts of a medium's answer, in the hypotheses. *)
Ltac medium_inv :=
  outcome_inv;
  repeat match goal with
  | H : CreateTransportAnswer _ _ _ _ _ _ = Ok ?x _ |- _ => apply CreateTransportAnswer_spec in H
  | H : CreateMediaContentAnswer _ _ _ _ _ _ _ _ _ _ _ _ _ = Ok ?x _ |- _ =>
      let e := fresh "e" in destruct x as [? e]; apply CreateMediaContentAnswer_mirrors in H as [H ?]
  end.

Lemma answer_audio_spec w g w' g' : transport_infos_ w.2 = [] -> answer_audio fuel f offer options current w g = Ok w' g' ->
  match GetFirstAudioContent offer with Some c => grown MEDIA_TYPE_AUDIO c w.2 w'.2 | None => w' = w end.
Proof.
  intros Hw. unfold answer_audio. destruct (GetFirstAudioContent offer) as [c|] eqn:Ec; [|by intros [-> _]%ret_Ok].
  destruct w as [cs answer]. cbn [snd] in *. intros E. medium_inv. outcome_inv. cbn [snd] in *. apply first_of in Ec as (d & Ed & Hty).
  match goal with H : offered _ _ = Some ?x |- _ => rename x into i; rename H into Hi end.
  unfold offered in Hi. rewrite Ed in Hi. destruct d as [d0 ? ?|d0|d0]; cbn in Hi; try done. injection Hi as ->.
  eapply (grown_intro MEDIA_TYPE_AUDIO); try done.
  destruct (negb _ || _ || _); outcome_inv; [done|]. unfold AddTransportAnswer in *.
  destruct x1 as [x1|]; outcome_inv; [done|]. unfold AddTransportInfo, GetTransportInfoByName in *. by rewrite Hw in *.
Qed.

Lemma added_transport {C} (r : bool) n t b (s : Session) (e : Impl C) g x g' :
  (if r then ret (s, e) else s <- AddTransportAnswer n t s;; ret (s, on_mcd (set_bandwidth b) e)) (g : Helpers.rng) = Ok x g' ->
  (x.2 = e \/ x.2 = on_mcd (set_bandwidth b) e) /\ if r then x.1 = s else AddTransportInfo (mkTransportInfo n t) s = Some x.1.
Proof.
  destruct r; intros E; outcome_inv; [by split; [left|]|]. unfold AddTransportAnswer in *. outcome_inv. by split; [right|].
Qed.

Lemma answer_video_spec w g w' g' : answer_video fuel f offer options current w g = Ok w' g' ->
  match GetFirstVideoContent offer with Some c => grown MEDIA_TYPE_VIDEO c w.2 w'.2 | None => w' = w end.
Proof.
  unfold answer_video. destruct (GetFirstVideoContent offer) as [c|] eqn:Ec; [|by intros [-> _]%ret_Ok].
  destruct w as [cs answer]. cbn [snd] in *. intros E. medium_inv. outcome_inv. cbn [snd] in *. apply first_of in Ec as (d & Ed & Hty).
  match goal with H : offered _ _ = Some ?x |- _ => rename x into i; rename H into Hi end.
  unfold offered in Hi. rewrite Ed in Hi. destruct d as [d0 ? ?|d0|d0]; cbn in Hi; try done. injection Hi as ->.
  match goal with H : (if _ then ret (answer, _) else _) _ = Ok ?y _ |- _ => apply added_transport in H as [He Hx]; destruct y as [s' e'] end.
  outcome_inv. cbn [fst snd] in *. eapply (grown_intro MEDIA_TYPE_VIDEO); try done.
  all: destruct He as [->| ->]; try done. by apply mirrors_bandwidth.
Qed.

Lemma answer_data_spec w g w' g' : answer_data fuel f offer options current w g = Ok w' g' ->
  match GetFirstDataContent offer with Some c => grown MEDIA_TYPE_DATA c w.2 w'.2 | None => w' = w end.
Proof.
  unfold answer_data. destruct (GetFirstDataContent offer) as [c|] eqn:Ec; [|by intros [-> _]%ret_Ok].
  destruct w as [cs answer]. cbn [snd] in *. intros E. medium_inv. outcome_inv. cbn [snd] in *. apply first_of in Ec as (d & Ed & Hty).
  match goal with H : offered _ _ = Some ?x |- _ => rename x into i; rename H into Hi end.
  unfold offered in Hi. rewrite Ed in Hi. destruct d as [d0 ? ?|d0|d0]; cbn in Hi; try done. injection Hi as ->.
  match goal with H : (if _ then ret (answer, _) else _) _ = Ok ?y _ |- _ => apply added_transport in H as [He Hx]; destruct y as [s' e'] end.
  outcome_inv. cbn [fst snd] in *. eapply (grown_intro MEDIA_TYPE_DATA); try done.
  all: destruct He as [->| ->]; try done. by apply mirrors_bandwidth.
Qed.

(** ** Bundling *)

(** A content with its crypto parameters replaced or not. *)
Definition recrypted (c c' : Content) : Prop :=
  c' = c \/ exists l, c' = mkContent (name c) (type c) (rejected c) (option_map (on_base (set_cryptos l)) (content c)).
(** A transport with its credentials replaced or not. *)
Definition recredited (i i' : TransportInfo) : Prop :=
  i' = i \/ exists u p, i' = mkTransportInfo (content_name i) (set_ice u p (description i)).

Lemma recrypted_refl l : Forall2 recrypted l l.
Proof. induction l; constructor; [by left|done]. Qed.
Lemma recredited_refl l : Forall2 recredited l l.
Proof. induction l; constructor; [by left|done]. Qed.

Lemma on_base_twice l k d : on_base (set_cryptos l) (on_base (set_cryptos k) d) = on_base (set_cryptos l) d.
Proof. by destruct d. Qed.

Lemma recrypted_trans l1 l2 l3 : Forall2 recrypted l1 l2 -> Forall2 recrypted l2 l3 -> Forall2 recrypted l1 l3.
Proof.
  intros H. revert l3; induction H as [|c c' l l' H _ IH]; intros l3 H3; inversion H3; subst; constructor; auto.
  destruct H as [->|[k ->]]; [done|]. match goal with H : recrypted (mkContent _ _ _ _) _ |- _ => destruct H as [->|[k' ->]]; right end; [by exists k|].
  exists k'. cbn. destruct (content c); cbn; [by rewrite on_base_twice|done].
Qed.

Lemma on_content_recrypted n l cs : Forall2 recrypted cs (on_content n (on_base (set_cryptos l)) cs).
Proof.
  induction cs as [|c cs IH]; cbn [on_content]; [constructor|]. destruct (bool_decide _).
  - constructor; [right; by exists l|apply recrypted_refl].
  - constructor; [by left|done].
Qed.

Lemma UpdateTransportInfoForBundle_keeps b s s' : UpdateTransportInfoForBundle b s = Some s' ->
  contents_ s' = contents_ s /\ content_groups_ s' = content_groups_ s /\ Forall2 recredited (transport_infos_ s) (transport_infos_ s').
Proof.
  unfold UpdateTransportInfoForBundle. destruct (FirstContentName b) as [n|]; [|done]. destruct (GetTransportInfoByName n s) as [sel|]; [|done].
  intros [= <-]. split_and!; [done..|]. cbn [transport_infos_ set_transport_infos]. induction (transport_infos_ s) as [|i l IH]; [constructor|].
  constructor; [|done]. destruct (_ && _); [right; by eexists _, _|by left].
Qed.

Lemma set_content_cryptos_keeps common ns : forall s, let s' := fold_left (set_content_cryptos common) ns s in
  Forall2 recrypted (contents_ s) (contents_ s') /\ content_groups_ s' = content_groups_ s /\ transport_infos_ s' = transport_infos_ s.
Proof.
  assert (Hone : forall s n, Forall2 recrypted (contents_ s) (contents_ (set_content_cryptos common s n)) /\
    content_groups_ (set_content_cryptos common s n) = content_groups_ s /\ transport_infos_ (set_content_cryptos common s n) = transport_infos_ s).
  { intros s0 n. unfold set_content_cryptos. destruct (IsRtpContent s0 n); split_and!; try done; [apply on_content_recrypted|apply recrypted_refl]. }
  induction ns as [|n ns IH]; intros s; [by split_and!; [apply recrypted_refl|..]|]. cbn [fold_left].
  destruct (Hone s n) as (H1 & H2 & H3), (IH (set_content_cryptos common s n)) as (I1 & I2 & I3).
  split_and!; [by eapply recrypted_trans|congruence|congruence].
Qed.

Lemma UpdateCryptoParamsForBundle_keeps b s g s' g' : UpdateCryptoParamsForBundle b s g = Ok s' g' ->
  Forall2 recrypted (contents_ s) (contents_ s') /\ content_groups_ s' = content_groups_ s /\ transport_infos_ s' = transport_infos_ s.
Proof.
  unfold UpdateCryptoParamsForBundle. intros E. destruct (FirstContentName b); [|done]. outcome_inv.
  match goal with H : match ?x with Some _ => _ | None => _ end _ = Ok _ _ |- _ => destruct x as [[common needed]|] end; outcome_inv;
    [apply set_content_cryptos_keeps|by split_and!; [apply recrypted_refl|..]].
Qed.

(** What bundle_answer leaves, and the group it adds. *)
Lemma bundle_answer_keeps s g s' g' : bundle_answer offer options s g = Ok s' g' ->
  Forall2 recrypted (contents_ s) (contents_ s') /\ Forall2 recredited (transport_infos_ s) (transport_infos_ s').
Proof.
  unfold bundle_answer. destruct (GetGroupByName _ offer); [|intros [-> _]%ret_Ok; split; [apply recrypted_refl|apply recredited_refl]].
  destruct (bundle_enabled options); [|intros [-> _]%ret_Ok; split; [apply recrypted_refl|apply recredited_refl]].
  set (b := fold_left _ _ _). destruct (FirstContentName b); [|intros [-> _]%ret_Ok; split; [apply recrypted_refl|apply recredited_refl]].
  intros E. outcome_inv.
  match goal with H : UpdateTransportInfoForBundle _ _ = Some _ |- _ => apply UpdateTransportInfoForBundle_keeps in H as (T1 & _ & T3) end.
  match goal with H : UpdateCryptoParamsForBundle _ _ _ = Ok _ _ |- _ => apply UpdateCryptoParamsForBundle_keeps in H as (C1 & _ & C3) end.
  rewrite T1 in C1. by rewrite C3.
Qed.

(** ** The whole answer *)

(** The contents of the offer that are answered, in the order of the answer. *)
Definition answered_contents : list (MediaType * Content) :=
  flat_map (fun ty => match GetFirstMediaContent ty offer with Some c => [(ty, c)] | None => [] end)
    [MEDIA_TYPE_AUDIO; MEDIA_TYPE_VIDEO; MEDIA_TYPE_DATA].

(** The answer has a content, and a transport unless that is rejected. *)
Definition answered (P : MediaType -> Content -> Content -> TransportDescription -> Prop) (answer : Session) (x : MediaType * Content) (a : Content) : Prop :=
  exists t, P x.1 x.2 a t /\
    (rejected a = false -> GetTransportInfoByName (name a) answer = Some (mkTransportInfo (name a) t)).

Record answer_ok (P : MediaType -> Content -> Content -> TransportDescription -> Prop) (l : list (MediaType * Content)) (answer : Session) : Prop := {
  ao_contents : Forall2 (answered P answer) l (contents_ answer);
  ao_names : base.NoDup (map content_name (transport_infos_ answer));
  ao_transports : forall i, i ∈ transport_infos_ answer -> exists a, a ∈ contents_ answer /\ rejected a = false /\ name a = content_name i;
}.

Lemma answer_ok_nil P : answer_ok P [] new_session.
Proof. split; [constructor|apply NoDup_nil_2|]. by intros i ?%elem_of_nil. Qed.

Lemma answer_ok_grown ty c l s s' : grown ty c s s' -> answer_ok content_made l s -> answer_ok content_made (l ++ [(ty, c)]) s'.
Proof.
  intros (a & t & Ha & Hc & Ht & Hn & _) [H1 H2 H3].
  assert (Hfind : forall n i, GetTransportInfoByName n s = Some i -> GetTransportInfoByName n s' = Some i).
  { intros n i. unfold GetTransportInfoByName. rewrite Ht. intros E. by rewrite find_app, E. }
  split.
  - rewrite Hc. apply Forall2_app.
    + eapply Forall2_impl; [exact H1|]. intros x b (u & Hu & Hf). exists u. split; [done|]. intros Hr. by apply Hfind, Hf.
    + constructor; [|constructor]. exists t. split; [done|]. intros Hr. rewrite Hr in Ht. unfold GetTransportInfoByName. rewrite Ht.
      specialize (Hn Hr). clear -Hn. induction (transport_infos_ s) as [|j k IH]; cbn; [by rewrite bool_decide_eq_true_2|].
      cbn in Hn. apply not_elem_of_cons in Hn as [Hj Hk]. rewrite bool_decide_eq_false_2 by done. by apply IH.
  - rewrite Ht, map_app. destruct (rejected a); [by rewrite app_nil_r|]. apply NoDup_app. split_and!; [done| |apply NoDup_singleton].
    intros n Hin Hx%list_elem_of_singleton. cbn in Hx. subst n. by apply Hn.
  - intros i. rewrite Ht, Hc. rewrite elem_of_app. intros [Hi|Hi].
    + destruct (H3 i Hi) as (b & Hb & Hr & Hnm). exists b. split_and!; [apply elem_of_app; by left|done..].
    + destruct (rejected a) eqn:Hr; [by apply elem_of_nil in Hi|]. apply list_elem_of_singleton in Hi as ->.
      exists a. split_and!; [apply elem_of_app; right; by apply list_elem_of_singleton|done..].
Qed.

Lemma content_answered_recrypted ty c a a' t : recrypted a a' -> content_answered ty c a t -> content_answered ty c a' t.
Proof.
  intros [->|[l ->]] Ha; [done|]. destruct Ha as [H1 H2 (d & e & E1 & E2 & E3 & E4 & Hm & E5) H4]. split; [done..| |done].
  exists d, (on_base (set_cryptos l) e). cbn [content rejected]. rewrite E2. destruct e; (split_and!; try done); by destruct Hm.
Qed.

Lemma content_answered_recredited ty c a t u p : content_answered ty c a t -> content_answered ty c a (set_ice u p t).
Proof. intros [H1 H2 H3 (tf & Htf & [])]. split; [done..|]. exists tf. by split. Qed.

Lemma find_recredited n l l' i : Forall2 recredited l l' -> find (fun i => bool_decide (content_name i = n)) l = Some i ->
  exists i', find (fun i => bool_decide (content_name i = n)) l' = Some i' /\ recredited i i'.
Proof.
  induction 1 as [|j j' l l' Hj _ IH]; [done|]. cbn. assert (content_name j' = content_name j) as -> by (by destruct Hj as [->|(? & ? & ->)]).
  destruct (bool_decide _); [|done]. intros [= <-]. by exists j'.
Qed.

Lemma answer_ok_bundled l s s' : Forall2 recrypted (contents_ s) (contents_ s') -> Forall2 recredited (transport_infos_ s) (transport_infos_ s') ->
  answer_ok content_made l s -> answer_ok content_answered l s'.
Proof.
  intros Hc Ht [H1 H2 H3]. split.
  - clear H2 H3. revert Hc H1. generalize (contents_ s) as cs, (contents_ s') as cs'. intros cs cs' Hc. revert l; induction Hc as [|a a' cs cs' Ha _ IH]; intros l H1;
      apply Forall2_cons_inv_r in H1 as (x & l0 & Hx & H1 & ->) || apply Forall2_nil_inv_r in H1 as ->; [constructor|].
    constructor; [|by apply IH]. destruct Hx as (t & [Hx _] & Hf).
    assert (Hsame : name a' = name a /\ rejected a' = rejected a) by (by destruct Ha as [->|[? ->]]). destruct Hsame as [En Er].
    destruct (rejected a) eqn:Hr.
    { exists t. split; [by eapply content_answered_recrypted|]. by rewrite Er. }
    destruct (find_recredited _ _ _ _ Ht (Hf eq_refl)) as (i' & Ei' & Hi').
    destruct Hi' as [->|(u & p & ->)]; [exists t|exists (set_ice u p t)]; (split; [eapply content_answered_recrypted; [done|]|intros _; by rewrite En]).
    + done.
    + by apply content_answered_recredited.
  - assert (map content_name (transport_infos_ s') = map content_name (transport_infos_ s)) as ->; [|done].
    clear -Ht. induction Ht as [|j j' k k' Hj _ IH]; [done|]. cbn. rewrite IH. by destruct Hj as [->|(? & ? & ->)].
  - intros i' Hi'. assert (Hex : exists i, i ∈ transport_infos_ s /\ content_name i = content_name i').
    { apply list_elem_of_lookup in Hi' as [k Hk]. destruct (Forall2_lookup_r _ _ _ _ _ Ht Hk) as (i & Hi & Hr). exists i.
      split; [by eapply list_elem_of_lookup_2|]. by destruct Hr as [->|(? & ? & ->)]. }
    destruct Hex as (i & Hi & En). destruct (H3 i Hi) as (a & Ha & Hr & Hn). apply list_elem_of_lookup in Ha as [k Hk].
    destruct (Forall2_lookup_l _ _ _ _ _ Hc Hk) as (a' & Ha' & Hra). exists a'. split; [by eapply list_elem_of_lookup_2|].
    rewrite <- En, <- Hn, <- Hr. by destruct Hra as [->|[? ->]].
Qed.

(** An answer before it is bundled. *)
Lemma CreateAnswer_contents g answer g' : CreateAnswer fuel f offer options current g = Ok answer g' ->
  exists s0 g0, answer_ok content_made answered_contents s0 /\ content_groups_ s0 = [] /\ bundle_answer offer options s0 g0 = Ok answer g'.
Proof.
  unfold CreateAnswer. intros E. outcome_inv.
  match goal with H : bundle_answer _ _ ?s ?g0 = Ok _ _ |- _ => exists s, g0; apply and_assoc; split; [clear H|exact H] end.
  match goal with H : answer_audio _ _ _ _ _ _ _ = Ok _ _ |- _ => apply answer_audio_spec in H as Ha; [clear H|done] end.
  match goal with H : answer_video _ _ _ _ _ _ _ = Ok _ _ |- _ => apply answer_video_spec in H as Hv; clear H end.
  match goal with H : answer_data _ _ _ _ _ _ _ = Ok _ _ |- _ => apply answer_data_spec in H as Hd; clear H end.
  cbn [snd] in Ha. unfold answered_contents, GetFirstAudioContent, GetFirstVideoContent, GetFirstDataContent in *. cbn [flat_map]. rewrite app_nil_r.
  assert (Hstep : forall ty (w w' : work) l, answer_ok content_made l w.2 /\ content_groups_ w.2 = [] ->
    match GetFirstMediaContent ty offer with Some c => grown ty c w.2 w'.2 | None => w' = w end ->
    answer_ok content_made (l ++ match GetFirstMediaContent ty offer with Some c => [(ty, c)] | None => [] end) w'.2 /\ content_groups_ w'.2 = []).
  { intros ty w w' l [Hl Hg]. destruct (GetFirstMediaContent ty offer) as [c|].
    - intros Hw. split; [by eapply answer_ok_grown|]. by destruct Hw as (? & ? & _ & _ & _ & _ & ->).
    - intros ->. by rewrite app_nil_r. }
  rewrite app_assoc. do 2 (eapply Hstep; [|eassumption]). rewrite <- (app_nil_l (match _ with Some _ => _ | None => _ end)).
  by eapply (Hstep _ (_, _)); [split; [apply answer_ok_nil|]|].
Qed.

(** Whatever the offer, the first content of each medium is answered. *)
Lemma CreateAnswer_answered g answer g' : CreateAnswer fuel f offer options current g = Ok answer g' -> answer_ok content_answered answered_contents answer.
Proof.
  intros (s0 & g0 & Hok & _ & [Hc Ht]%bundle_answer_keeps)%CreateAnswer_contents. by eapply answer_ok_bundled.
Qed.

(** The media of an offer that has each at most once, in the order of its
    contents. *)
Definition medium_of (c : Content) : option MediaType := if IsMediaContent c then option_map media_type (content c) else None.
Definition media_once (ms : list MediaType) : Prop := map medium_of (contents_ offer) = map Some ms /\ base.NoDup ms.

Lemma is_medium ty c : IsMediaContentOfType ty c = bool_decide (medium_of c = Some ty).
Proof.
  unfold IsMediaContentOfType, medium_of. destruct (IsMediaContent c); cbn [andb]; [|by rewrite bool_decide_eq_false_2].
  destruct (content c) as [d|]; cbn [option_map]; [|by rewrite bool_decide_eq_false_2]. apply bool_decide_ext. naive_solver.
Qed.

Lemma first_medium ms k ty c : media_once ms -> ms !! k = Some ty -> contents_ offer !! k = Some c -> GetFirstMediaContent ty offer = Some c.
Proof.
  intros [Hms Hnd] Ht Hc. unfold GetFirstMediaContent. revert ms k Hms Hnd Ht Hc. generalize (contents_ offer) as cs.
  induction cs as [|c0 cs IH]; intros ms k Hms Hnd Ht Hc; [done|]. destruct ms as [|m ms]; [done|]. cbn in Hms. injection Hms as Hm Hms.
  apply NoDup_cons in Hnd as [Hni Hnd]. cbn [find]. rewrite is_medium, Hm. destruct k as [|k]; cbn in Ht, Hc.
  - injection Ht as ->. injection Hc as ->. by rewrite bool_decide_eq_true_2.
  - rewrite bool_decide_eq_false_2; [by eapply IH|]. intros [= ->]. apply Hni. by eapply list_elem_of_lookup_2.
Qed.

(** All contents of such an offer are answered. *)
Lemma answered_all ms : media_once ms -> map snd answered_contents ≡ₚ contents_ offer.
Proof.
  intros Hm. assert (Hz : answered_contents ≡ₚ zip ms (contents_ offer)).
  { assert (Hlen : length ms = length (contents_ offer)) by (destruct Hm as [Hm _]; apply (f_equal length) in Hm; by rewrite !length_map in Hm).
    apply NoDup_Permutation.
    - apply (NoDup_fmap_1 fst). change (base.NoDup (map fst answered_contents)). unfold answered_contents. cbn.
      destruct (GetFirstMediaContent MEDIA_TYPE_AUDIO offer), (GetFirstMediaContent MEDIA_TYPE_VIDEO offer), (GetFirstMediaContent MEDIA_TYPE_DATA offer);
        match goal with |- base.NoDup ?l => refine (bool_decide_unpack (base.NoDup l) _) end; vm_compute; exact I.
    - apply (NoDup_fmap_1 fst). rewrite fst_zip by lia. apply Hm.
    - intros [ty c]. unfold answered_contents. rewrite (list_elem_of_In (flat_map _ _)), in_flat_map. split.
      + intros (ty' & _ & Hin). destruct (GetFirstMediaContent ty' offer) as [c'|] eqn:E; [|done]. destruct Hin as [[= <- <-]|[]].
        unfold GetFirstMediaContent in E. apply find_some in E as [Hin Ht]. rewrite is_medium in Ht. apply bool_decide_eq_true in Ht.
        apply list_elem_of_In, list_elem_of_lookup in Hin as [k Hk]. apply list_elem_of_lookup. exists k. apply lookup_zip_with_Some.
        destruct Hm as [Hm _]. apply (f_equal (fun l => l !! k)) in Hm.
        change (map medium_of (contents_ offer)) with (medium_of <$> contents_ offer) in Hm. change (map Some ms) with (Some <$> ms) in Hm.
        rewrite !list_lookup_fmap, Hk in Hm. cbn in Hm. rewrite Ht in Hm. destruct (ms !! k) as [m|] eqn:Em; [|done]. injection Hm as ->.
        by exists m, c'.
      + intros [k (ty' & c' & [= -> ->] & Ht & Hc)%lookup_zip_with_Some]%list_elem_of_lookup. exists ty'. split; [by destruct ty'; cbn; tauto|].
        rewrite (first_medium ms k ty' c') by done. by left. }
  rewrite Hz. change (snd <$> zip ms (contents_ offer) ≡ₚ contents_ offer). rewrite snd_zip; [done|].
  destruct Hm as [Hm _]. apply (f_equal length) in Hm. rewrite !length_map in Hm. lia.
Qed.

(** In the same order, if that is audio, video and data. *)
Lemma answered_in_order ms : media_once ms -> sublist ms [MEDIA_TYPE_AUDIO; MEDIA_TYPE_VIDEO; MEDIA_TYPE_DATA] ->
  map snd answered_contents = contents_ offer.
Proof.
  intros Hm Hs. pose proof (fun k ty c => first_medium ms k ty c Hm) as Hfirst. destruct Hm as [Hm _].
  assert (Hnone : forall ty, ty ∉ ms -> GetFirstMediaContent ty offer = None).
  { intros ty Hn. destruct (GetFirstMediaContent ty offer) as [c|] eqn:E; [|done]. exfalso. unfold GetFirstMediaContent in E.
    apply find_some in E as [Hin Ht]. rewrite is_medium in Ht. apply bool_decide_eq_true in Ht. apply Hn, list_elem_of_In.
    assert (Hin' : In (Some ty) (map Some ms)) by (rewrite <- Hm, <- Ht; by apply in_map). by apply in_map_iff in Hin' as (? & [= ->] & ?). }
  unfold answered_contents. cbn [flat_map].
  assert (Hlen : length (contents_ offer) = length ms) by (apply (f_equal length) in Hm; by rewrite !length_map in Hm).
  assert (Hfl : sublist ms [MEDIA_TYPE_AUDIO; MEDIA_TYPE_VIDEO; MEDIA_TYPE_DATA] ->
    ms ∈ [[]; [MEDIA_TYPE_AUDIO]; [MEDIA_TYPE_VIDEO]; [MEDIA_TYPE_DATA]; [MEDIA_TYPE_AUDIO; MEDIA_TYPE_VIDEO]; [MEDIA_TYPE_AUDIO; MEDIA_TYPE_DATA];
          [MEDIA_TYPE_VIDEO; MEDIA_TYPE_DATA]; [MEDIA_TYPE_AUDIO; MEDIA_TYPE_VIDEO; MEDIA_TYPE_DATA]]).
  { clear. intros H. repeat match goal with H : sublist _ _ |- _ => inversion H; clear H; subst end; set_solver. }
  apply Hfl in Hs. clear Hfl Hm. generalize dependent (contents_ offer). intros cs Hfirst Hlen.
  rewrite !elem_of_cons, elem_of_nil in Hs. destruct Hs as [->|[->|[->|[->|[->|[->|[->|[->|[]]]]]]]]];
    destruct cs as [|c1 [|c2 [|c3 [|c4 cs]]]]; try discriminate Hlen;
    repeat match goal with |- context [GetFirstMediaContent ?ty offer] =>
      first [rewrite (Hnone ty) by (rewrite list_elem_of_In; cbn; intuition discriminate)
            |rewrite (Hfirst 0%nat ty _ eq_refl eq_refl)|rewrite (Hfirst 1%nat ty _ eq_refl eq_refl)|rewrite (Hfirst 2%nat ty _ eq_refl eq_refl)] end;
    reflexivity.
Qed.

(** C16: The answer to an offer of media contents, at most one of each medium
    (audio, video, data), has one content for each of them, with its name and
    type: as many as the offer, and in the order of the offer if that is
    audio, video, data.  Its codecs are ours and offered ones, with the payload
    types of the offer, by our preference; the protocol is that of the offer,
    the direction is the reverse, RTCP is multiplexed if both want it, and the
    header extensions are among those offered.  It is rejected exactly if we
    have no such medium, the offer had it rejected, or the protocol does not
    fit the transport; and there is one transport for each content that is
    not, of a type our transport factory speaks, secure if the offer and we
    want it.  (Of an offer with several contents of a medium only the first is
    answered, [second_content_dropped].) *)
Theorem answer_mirrors_offer ms g answer g' : media_once ms -> CreateAnswer fuel f offer options current g = Ok answer g' ->
  answer_ok content_answered answered_contents answer /\ map snd answered_contents ≡ₚ contents_ offer /\
  map name (contents_ answer) ≡ₚ map name (contents_ offer) /\
  (sublist ms [MEDIA_TYPE_AUDIO; MEDIA_TYPE_VIDEO; MEDIA_TYPE_DATA] -> map name (contents_ answer) = map name (contents_ offer)).
Proof.
  intros Hm E%CreateAnswer_answered. pose proof (answered_all ms Hm) as Hall. split; [done|]. split; [done|].
  assert (Hn : map name (contents_ answer) = map name (map snd answered_contents)).
  { clear Hall. destruct E as [E _ _]. induction E as [|[ty c] a l l' (t & Ha & _) _ IH]; [done|]. cbn. rewrite IH. f_equal. apply Ha. }
  rewrite Hn. split; [by rewrite Hall|]. intros Hs. by rewrite (answered_in_order ms Hm Hs).
Qed.
End Medium.

Lemma answer_mirrors_offer_witness : exists offer g1 answer g2, sample_offer true = Ok offer g1 /\ sample_answer true offer = Ok answer g2 /\
  answer_ok (content_answered sample_answerer offer (sample_options true)) (answered_contents offer) answer /\
  map name (contents_ answer) = map name (contents_ offer) /\
  map (fun c => (name c, option_map (fun d => map Codec.id (codec_bases d)) (content c))) (contents_ answer) =
    [(CN_AUDIO, Some [103]); (CN_VIDEO, Some [100])].
Proof.
  destruct (sample_exchange_Some true (fun offer answer => (map medium_of (contents_ offer),
      map (fun c => (name c, option_map (fun d => map Codec.id (codec_bases d)) (content c))) (contents_ answer)))
    ([Some MEDIA_TYPE_AUDIO; Some MEDIA_TYPE_VIDEO], [(CN_AUDIO, Some [103]); (CN_VIDEO, Some [100])]))
    as (offer & g1 & answer & g2 & Eo & Ea & Ev); [vm_compute; reflexivity|]. injection Ev as Em Ev.
  exists offer, g1, answer, g2. split; [exact Eo|]. split; [exact Ea|].
  destruct (@answer_mirrors_offer x86 Helpers.TestRandomGenerator merge_preference 10 sample_answerer offer (sample_options true) None
    [MEDIA_TYPE_AUDIO; MEDIA_TYPE_VIDEO] 99 answer g2) as (H1 & _ & _ & H2); [split; [exact Em|]|exact Ea|].
  { refine (bool_decide_unpack (base.NoDup _) _). vm_compute. exact I. }
  split; [exact H1|]. split; [|exact Ev]. apply H2. repeat constructor.
Defined.

(** An offer with two audio contents: only the first is answered. *)
Definition twice_audio (s : Session) : Session :=
  match GetContentByName CN_AUDIO s with
  | Some c => AddContent_rejected (str "audio2") (type c) false (content c) s
  | None => s
  end.
Lemma second_content_dropped : match sample_offer false with
  | Ok offer _ => map name (contents_ (twice_audio offer)) = [CN_AUDIO; CN_VIDEO; str "audio2"] /\
      match sample_answer false (twice_audio offer) with Ok answer _ => map name (contents_ answer) = [CN_AUDIO; CN_VIDEO] | _ => False end
  | _ => False
  end.
Proof. vm_compute. by split. Qed.
End MediaAnswer.
