(* ===== verification/MediaOffered.v ===== *)
(** * The contents of an offer

    What CreateOffer of MediaFactory.v makes of each medium that the options
    ask for, but for the streams, and the contents of the whole offer. *)

From stdpp Require Import gmap sorting.
From S2P Require Import Prelude ByteOrder StringConv Codec Helpers StreamParams SrtpFilter MediaSession SessionDescription TransportFactory MediaDescription CodecOffer MediaOffer MediaFactory MediaAnswer Outcome.
Import Codec SessionDescription MediaDescription CodecOffer MediaSession MediaOffer MediaFactory MediaAnswer Outcome.
Import SrtpFilter (CryptoParams, cipher_suite).
Open Scope jingle_scope.

Module MediaOffered.

Section Medium.
Context `{HM : Machine} `{HR : Helpers.RandomGenerator} `{HS : PreferenceSort}.
Variable fuel : nat.
Variable f : MediaSessionDescriptionFactory.
Variables (options : MediaSessionOptions) (current : option Session) (secure_transport : bool).

Definition content_name_of (ty : MediaType) : bytes :=
  match ty with MEDIA_TYPE_AUDIO => CN_AUDIO | MEDIA_TYPE_VIDEO => CN_VIDEO | MEDIA_TYPE_DATA => CN_DATA end.
Definition is_sctp (ty : MediaType) : bool :=
  match ty with MEDIA_TYPE_DATA => bool_decide (data_channel_type options = DCT_SCTP) | _ => false end.
Definition policy_of (ty : MediaType) : SecurePolicy := if is_sctp ty then SEC_DISABLED else sdes_policy f (content_name_of ty) current.
Definition offer_protocol (ty : MediaType) (cryptos : list CryptoParams) : bytes :=
  if is_sctp ty then if secure_transport then kMediaProtocolDtlsSctp else kMediaProtocolSctp
  else if negb (is_nil cryptos) || secure_transport then kMediaProtocolSavpf else kMediaProtocolAvpf.

(** The crypto parameters of an offer: those in use, or one of each suite. *)
Definition cryptos_offered (ty : MediaType) (cryptos : list CryptoParams) : Prop :=
  match policy_of ty with
  | SEC_DISABLED => cryptos = []
  | policy =>
      match current_cryptos current ty with
      | Some (c :: l) => cryptos = c :: l
      | _ => exists g1 g2, CreateMediaCryptos (if is_sctp ty then [] else supported_suites ty) [] g1 = (Some cryptos, g2)
      end /\ (policy = SEC_REQUIRED -> cryptos <> [])
  end.

Record description_offered (ty : MediaType) (d : MediaContent) : Prop := {
  do_type : media_type d = ty;
  do_mux : rtcp_mux_ (base_of d) = rtcp_mux_enabled options;
  do_direction : direction_ (base_of d) = MD_SENDRECV;
  do_required : crypto_required_ (base_of d) = (if bool_decide (policy_of ty = SEC_REQUIRED) then CT_SDES else CT_NONE);
  do_protocol : protocol_ (base_of d) = offer_protocol ty (cryptos_ (base_of d));
  do_cryptos : cryptos_offered ty (cryptos_ (base_of d));
}.

Record transport_offered (n : bytes) (t : TransportDescription) : Prop := {
  to_secure : exists tf, transport_desc_factory_ f = Some tf /\ secure t = TransportFactory.wants_dtls (TransportFactory.secure_ tf);
  to_type : exists tf, transport_desc_factory_ f = Some tf /\
    transport_type t = (if bool_decide (TransportFactory.protocol_ tf = ICEPROTO_GOOGLE) then TransportFactory.NS_GINGLE_P2P else TransportFactory.NS_JINGLE_ICE_UDP);
}.

Record content_offered (ty : MediaType) (c : Content) (t : TransportDescription) : Prop := {
  co_name : name c = content_name_of ty;
  co_type : type c = if is_sctp ty then NS_JINGLE_DRAFT_SCTP else NS_JINGLE_RTP;
  co_accepted : rejected c = false;
  co_medium : exists d, content c = Some d /\ description_offered ty d;
  co_transport : transport_offered (name c) t;
}.

Definition offer_grown (ty : MediaType) (s s' : Session) : Prop :=
  exists c t, content_offered ty c t /\ contents_ s' = contents_ s ++ [c] /\
    transport_infos_ s' = transport_infos_ s ++ [mkTransportInfo (name c) t] /\
    name c ∉ map content_name (transport_infos_ s) /\ content_groups_ s' = content_groups_ s.

Lemma AddTransportOffer_spec n topts s g s' g' : AddTransportOffer f n topts current s g = Ok s' g' ->
  exists t, transport_offered n t /\ contents_ s' = contents_ s /\ content_groups_ s' = content_groups_ s /\
    transport_infos_ s' = transport_infos_ s ++ [mkTransportInfo n t] /\ n ∉ map content_name (transport_infos_ s).
Proof.
  unfold AddTransportOffer. intros E. outcome_inv.
  match goal with H : AddTransportInfo (mkTransportInfo _ ?x) _ = _ |- _ => exists x; apply AddTransportInfo_grows in H as (H1 & H2 & H3 & H4) end.
  split_and!; try done.
  match goal with H : TransportFactory.CreateOffer ?tf ?o ?c ?g0 = _ |- _ => pose proof (TransportFactory.CreateOffer_spec tf o c g0) as Ha; rewrite H in Ha end.
  destruct Ha as (T1 & _ & T3 & _). split; by eexists.
Qed.

(** What the fields of a description made for a medium come to. *)
Definition fields_offered (ty : MediaType) (d : MediaContentDescription) : Prop :=
  rtcp_mux_ d = rtcp_mux_enabled options /\ direction_ d = MD_SENDRECV /\
  crypto_required_ d = (if bool_decide (policy_of ty = SEC_REQUIRED) then CT_SDES else CT_NONE) /\ cryptos_offered ty (cryptos_ d).

Lemma CreateMediaContentOffer_fields {C} `{HC : CodecClass C} ty (codecs : list C) exts legacy streams0 protocol g st g' policy cryptos suites d :
  CreateMediaContentOffer fuel ty options codecs policy cryptos suites exts legacy streams0 d g = Ok st g' ->
  policy = policy_of ty -> cryptos = current_cryptos current ty -> suites = (if is_sctp ty then [] else supported_suites ty) ->
  d = on_mcd (set_protocol protocol) new_impl ->
  fields_offered ty (mcd st.2) /\ protocol_ (mcd st.2) = protocol.
Proof.
  intros E -> -> -> ->. apply CreateMediaContentOffer_spec in E as (_ & _ & H1 & H2 & _ & H4 & H5 & H6 & H7 & H8). split; [|done]. split_and!; try done.
  unfold cryptos_offered. destruct (policy_of ty) eqn:Ep; [by apply H6| |]; (split; [by apply H7|done]).
Qed.

Lemma fields_bandwidth ty b d : fields_offered ty d -> fields_offered ty (set_bandwidth b d).
Proof. done. Qed.

Lemma described ty d : media_type d = ty -> fields_offered ty (base_of d) -> protocol_ (base_of d) = offer_protocol ty (cryptos_ (base_of d)) ->
  description_offered ty d.
Proof. intros Ht (H1 & H2 & H3 & H4) Hp. by split. Qed.

Lemma offer_grown_intro ty d s s' g g' :
  AddTransportOffer f (content_name_of ty) (transport_options options) current
    (AddContent (content_name_of ty) (if is_sctp ty then NS_JINGLE_DRAFT_SCTP else NS_JINGLE_RTP) (Some d) s) g = Ok s' g' ->
  description_offered ty d -> offer_grown ty s s'.
Proof.
  intros (t & Ht & Hc & Hg & Hi & Hn)%AddTransportOffer_spec Hd. eexists _, t. split; [|split; [exact Hc|by split_and!]].
  split; try done. by exists d.
Qed.

Lemma rtp_described ty d m : is_sctp ty = false -> media_type d = ty -> base_of d = SetMediaProtocol secure_transport m ->
  fields_offered ty m -> description_offered ty d.
Proof.
  intros Hs Ht Hb Hf. apply described; [done|by rewrite Hb|]. rewrite Hb. unfold offer_protocol. by rewrite Hs.
Qed.

Lemma offer_audio_spec codecs exts w g w' g' : offer_audio fuel f options current secure_transport codecs exts w g = Ok w' g' ->
  offer_grown MEDIA_TYPE_AUDIO w.2 w'.2.
Proof.
  unfold offer_audio. destruct w as [cs s]. intros E. outcome_inv.
  match goal with H : CreateMediaContentOffer _ _ _ _ _ _ _ _ _ _ _ _ = Ok ?x _ |- _ =>
    apply (CreateMediaContentOffer_fields MEDIA_TYPE_AUDIO) with (protocol := []) in H as [Hf _]; [destruct x as [cs' d]|done..] end.
  outcome_inv. cbn [snd] in *. eapply (offer_grown_intro MEDIA_TYPE_AUDIO); [eassumption|]. by eapply rtp_described.
Qed.

Lemma offer_video_spec codecs exts w g w' g' : offer_video fuel f options current secure_transport codecs exts w g = Ok w' g' ->
  offer_grown MEDIA_TYPE_VIDEO w.2 w'.2.
Proof.
  unfold offer_video. destruct w as [cs s]. intros E. outcome_inv.
  match goal with H : CreateMediaContentOffer _ _ _ _ _ _ _ _ _ _ _ _ = Ok ?x _ |- _ =>
    apply (CreateMediaContentOffer_fields MEDIA_TYPE_VIDEO) with (protocol := []) in H as [Hf _]; [destruct x as [cs' d]|done..] end.
  outcome_inv. cbn [snd] in *. eapply (offer_grown_intro MEDIA_TYPE_VIDEO); [eassumption|]. by eapply rtp_described.
Qed.

Lemma offer_data_spec codecs w g w' g' : offer_data fuel f options current secure_transport codecs w g = Ok w' g' ->
  offer_grown MEDIA_TYPE_DATA w.2 w'.2.
Proof.
  unfold offer_data. destruct w as [cs s]. intros E. outcome_inv.
  assert (Hs : is_sctp MEDIA_TYPE_DATA = bool_decide (data_channel_type options = DCT_SCTP)) by done.
  destruct (bool_decide (data_channel_type options = DCT_SCTP));
    match goal with H : CreateMediaContentOffer _ _ _ _ _ _ _ _ _ _ ?d0 _ = Ok ?x _ |- _ =>
      apply (CreateMediaContentOffer_fields MEDIA_TYPE_DATA) with (protocol := protocol_ (mcd d0)) in H as [Hf Hp];
      [destruct x as [cs' d]|unfold policy_of; by rewrite Hs|done|by rewrite Hs|done] end; outcome_inv; cbn [snd] in *.
  - eapply (offer_grown_intro MEDIA_TYPE_DATA (DataContentDescription d)); [rewrite Hs; eassumption|].
    apply described; [done..|]. unfold offer_protocol. by rewrite Hs.
  - eapply (offer_grown_intro MEDIA_TYPE_DATA); [rewrite Hs; eassumption|]. by eapply rtp_described.
Qed.
End Medium.

(** ** The whole offer *)

Section Offer.
Context `{HM : Machine} `{HR : Helpers.RandomGenerator} `{HS : PreferenceSort}.
Variable fuel : nat.
Variable f : MediaSessionDescriptionFactory.
Variables (options : MediaSessionOptions) (current : option Session).

Definition secure_transport : bool :=
  match transport_desc_factory_ f with Some tf => TransportFactory.wants_dtls (TransportFactory.secure_ tf) | None => false end.
Definition offered_media : list MediaType :=
  List.filter (fun ty => has_medium ty options) [MEDIA_TYPE_AUDIO; MEDIA_TYPE_VIDEO; MEDIA_TYPE_DATA].

Record offer_ok (tys : list MediaType) (s : Session) : Prop := {
  oo_contents : Forall2 (fun ty c => exists t, content_offered f options current secure_transport ty c t /\
    GetTransportInfoByName (name c) s = Some (mkTransportInfo (name c) t)) tys (contents_ s);
  oo_transports : map content_name (transport_infos_ s) = map content_name_of tys;
  oo_names : map name (contents_ s) = map content_name_of tys;
  oo_groups : content_groups_ s = [];
}.

Lemma offer_ok_grown tys ty s s' : offer_grown f options current secure_transport ty s s' -> offer_ok tys s -> offer_ok (tys ++ [ty]) s'.
Proof.
  intros (c & t & Hc & H1 & H2 & H3 & H4) [I1 I2 I3 I4]. split.
  - rewrite H1. apply Forall2_app.
    + eapply Forall2_impl; [exact I1|]. intros ty' c' (t' & Ht' & Hf). exists t'. split; [done|].
      unfold GetTransportInfoByName in *. by rewrite H2, find_app, Hf.
    + constructor; [|constructor]. exists t. split; [done|]. unfold GetTransportInfoByName. rewrite H2, find_app.
      destruct (find _ _) as [i|] eqn:E; [|cbn; by rewrite bool_decide_eq_true_2].
      apply find_some in E as [Hi Hn]. apply bool_decide_eq_true in Hn. exfalso. apply H3. rewrite <- Hn. apply list_elem_of_In. by apply in_map.
  - rewrite H2, !map_app, I2. cbn. by rewrite (co_name _ _ _ _ _ _ _ Hc).
  - rewrite H1, !map_app, I3. cbn. by rewrite (co_name _ _ _ _ _ _ _ Hc).
  - by rewrite H4.
Qed.

(** An offer before it is bundled. *)
Lemma CreateOffer_contents g s g' : CreateOffer fuel f options current g = Ok s g' ->
  exists s0 g0, offer_ok offered_media s0 /\ (if bundle_enabled options then bundle_offer s0 else ret s0) g0 = Ok s g'.
Proof.
  unfold CreateOffer. intros E. outcome_inv.
  assert (Hsec : forall tf, transport_desc_factory_ f = Some tf -> negb (bool_decide (TransportFactory.secure_ tf = SEC_DISABLED)) = secure_transport)
    by (intros tf Hf; unfold secure_transport; by rewrite Hf).
  match goal with H : transport_desc_factory_ f = Some ?tf |- _ => rewrite (Hsec tf H) in * end. clear Hsec.
  destruct (GetCodecsToOffer _ _ _ _ _ _) as [[ac vc] dc]. destruct (GetRtpHdrExtsToOffer _ _ _ _) as [ae ve]. outcome_inv.
  match goal with H : (if bundle_enabled options then bundle_offer ?w.2 else ret ?w.2) ?g0 = _ |- _ => exists w.2, g0; split; [|exact H]; clear H end.
  unfold offered_media. cbn [List.filter has_medium].
  assert (Hstep : forall ty (b : bool) (m : work -> comp Helpers.rng work) (w w' : work) g g' tys, offer_ok tys w.2 ->
    (forall w g w' g', m w g = Ok w' g' -> offer_grown f options current secure_transport ty w.2 w'.2) ->
    (if b then m w else ret w) g = Ok w' g' -> offer_ok (tys ++ if b then [ty] else []) w'.2).
  { intros ty b m w w' h h' tys Hw Hm Hb. destruct b; [by eapply offer_ok_grown; [eapply Hm|]|]. apply ret_Ok in Hb as [-> _]. by rewrite app_nil_r. }
  match goal with Ha : (if has_audio options then _ else _) _ = Ok ?wa _, Hv : (if has_video options then _ else _) _ = Ok ?wv _, Hd : (if has_data options then _ else _) _ = Ok ?wd _ |- _ =>
    apply (Hstep MEDIA_TYPE_AUDIO _ (offer_audio fuel f options current secure_transport _ _) _ _ _ _ []) in Ha;
      [|by split; [constructor|..]|intros *; apply offer_audio_spec];
    apply (Hstep MEDIA_TYPE_VIDEO _ (offer_video fuel f options current secure_transport _ _) _ _ _ _ _ Ha) in Hv; [|intros *; apply offer_video_spec];
    apply (Hstep MEDIA_TYPE_DATA _ (offer_data fuel f options current secure_transport _) _ _ _ _ _ Hv) in Hd; [|intros *; apply offer_data_spec]
  end.
  destruct (has_audio options), (has_video options), (has_data options); done.
Qed.
End Offer.
End MediaOffered.
