(* ===== verification/MediaStreams.v ===== *)
(** * The streams of offers and answers

    The SSRCs that AddStreamParams of mediasession.cc gives to streams: over
    all media of a session no SSRC is used twice, where the streams have
    different ids and no RTX stream, no legacy stream and no SCTP data channel
    is made. *)

From stdpp Require Import gmap sorting.
From S2P Require Import Prelude ByteOrder StringConv Codec Helpers StreamParams SrtpFilter MediaSession SessionDescription TransportFactory MediaDescription CodecOffer MediaOffer MediaFactory MediaAnswer MediaOffered Outcome.
Import Codec SessionDescription MediaDescription CodecOffer MediaSession MediaOffer MediaFactory MediaAnswer MediaOffered Outcome.
Import SrtpFilter (CryptoParams, cipher_suite).
Open Scope jingle_scope.

Module MediaStreams.

Definition all_ssrcs (l : list StreamParams.StreamParams) : list Z := flat_map StreamParams.ssrcs l.

Lemma has_stream_spec l x : x <> 0 -> has_stream l x = bool_decide (x ∈ all_ssrcs l).
Proof.
  intros Hx. unfold has_stream, StreamParams.GetStreamBySsrc, StreamParams.GetStream, StreamParams.Matches, StreamParams.by_ssrc. cbn [StreamParams.sel_ssrc].
  rewrite (proj2 (Z.eqb_neq _ _) Hx). unfold all_ssrcs, StreamParams.has_ssrc. induction l as [|s l IH]; [done|]. cbn [find flat_map].
  destruct (bool_decide (x ∈ StreamParams.ssrcs s)) eqn:E.
  - symmetry. apply bool_decide_eq_true. apply bool_decide_eq_true in E. apply elem_of_app. by left.
  - apply bool_decide_eq_false in E. rewrite IH. apply bool_decide_ext. rewrite elem_of_app. tauto.
Qed.

Section Random.
Context `{HM : Machine} `{HR : Helpers.RandomGenerator} `{HS : PreferenceSort}.
Variable fuel : nat.

Lemma until_Ok {A} n (draw : comp Helpers.rng A) ok g a g' : until n draw ok g = Ok a g' -> ok a = true /\ exists g1, draw g1 = Ok a g'.
Proof.
  revert g; induction n as [|n IH]; intros g E; [done|]. cbn [until] in E. outcome_inv.
  match goal with H : (if ok ?x then _ else _) _ = _ |- _ => destruct (ok x) eqn:Ek; [apply ret_Ok in H as [-> ->]|by eapply IH] end.
  split; [done|]. by eexists.
Qed.

Lemma GenerateSsrc_Ok params l g x g' : GenerateSsrc fuel params l g = Ok x g' -> x <> 0 /\ x ∉ all_ssrcs params /\ x ∉ l.
Proof.
  unfold GenerateSsrc. intros [Hok (g1 & Hd)]%until_Ok. unfold CreateRandomNonZeroId in Hd. apply until_Ok in Hd as [Hz _].
  assert (Hx : x <> 0) by (intros ->; done). apply andb_true_iff in Hok as [H1 H2]. rewrite has_stream_spec in H1 by done.
  apply negb_true_iff, bool_decide_eq_false in H1, H2. by split_and!.
Qed.

Lemma generate_ssrcs_Ok n params : forall l g l' g', generate_ssrcs fuel n params l g = Ok l' g' ->
  base.NoDup l -> (forall x, x ∈ l -> x <> 0 /\ x ∉ all_ssrcs params) ->
  base.NoDup l' /\ (forall x, x ∈ l' -> x <> 0 /\ x ∉ all_ssrcs params) /\ length l' = (length l + n)%nat.
Proof.
  induction n as [|n IH]; intros l g l' g' E Hnd Hl; cbn [generate_ssrcs] in E.
  - apply ret_Ok in E as [-> _]. split_and!; [done..|lia].
  - outcome_inv. match goal with H : GenerateSsrc _ _ _ _ = Ok ?x _ |- _ => apply GenerateSsrc_Ok in H as (Hx & Hp & Hn) end.
    match goal with H : generate_ssrcs _ _ _ _ _ = _ |- _ => apply IH in H as (I1 & I2 & I3) end.
    + split_and!; [done..|]. rewrite I3, length_app. cbn. lia.
    + apply NoDup_app. split_and!; [done| |apply NoDup_singleton]. by intros y Hy ->%list_elem_of_singleton.
    + intros y [Hy|Hy]%elem_of_app; [by apply Hl|]. by apply list_elem_of_singleton in Hy as ->.
Qed.

Lemma GenerateSsrcs_Ok params k g l g' : GenerateSsrcs fuel params k g = Ok l g' ->
  base.NoDup l /\ (forall x, x ∈ l -> x <> 0 /\ x ∉ all_ssrcs params) /\ length l = Z.to_nat k.
Proof.
  intros E. eapply generate_ssrcs_Ok in E; [exact E|apply NoDup_nil_2|]. by intros x ?%elem_of_nil.
Qed.

(** ** The streams of a medium *)

(** The stream of a description for a requested one. *)
Definition stream_for (all : list StreamParams.StreamParams) (o : Stream) (p : StreamParams.StreamParams) : Prop :=
  p ∈ all /\ StreamParams.groupid p = [] /\ StreamParams.id p = stream_id o.
(** Streams made here have as many SSRCs as layers were asked for. *)
Definition made_for (o : Stream) (p : StreamParams.StreamParams) : Prop :=
  StreamParams.id p = stream_id o /\ StreamParams.sync_label p = stream_sync_label o /\
  length (StreamParams.ssrcs p) = Z.to_nat (num_sim_layers o) /\ 0 ∉ StreamParams.ssrcs p /\
  (1 < num_sim_layers o -> StreamParams.ssrc_groups p = [StreamParams.mkSsrcGroup StreamParams.kSimSsrcGroupSemantics (StreamParams.ssrcs p)]).

Record grown_streams (requested : list Stream) (cs cs' : list StreamParams.StreamParams) : Prop := {
  gs_new : exists new, cs' = cs ++ new /\ Forall (fun p => exists o, In o requested /\ made_for o p) new;
  gs_distinct : base.NoDup (all_ssrcs cs) -> base.NoDup (all_ssrcs cs');
}.

Lemma grown_streams_refl r cs : grown_streams r cs cs.
Proof. split; [|done]. exists []. rewrite app_nil_r. by split; [|apply List.Forall_nil]. Qed.
Lemma grown_streams_trans r c1 c2 c3 : grown_streams r c1 c2 -> grown_streams r c2 c3 -> grown_streams r c1 c3.
Proof.
  intros [(n1 & -> & F1) D1] [(n2 & -> & F2) D2]. split; [|auto]. exists (n1 ++ n2). rewrite app_assoc. split; [done|by apply Forall_app_2].
Qed.
Lemma grown_streams_in r cs cs' p : grown_streams r cs cs' -> p ∈ cs -> p ∈ cs'.
Proof. intros [(n & -> & _) _] Hp. apply elem_of_app. by left. Qed.

Section Medium.
Context {C : Type} `{HC : CodecClass C}.

Lemma add_stream_grown requested (i : Impl C) cs o g st g' : IsSctp (mcd i) = false -> In o requested ->
  add_stream fuel requested false (cs, i) o g = Ok st g' ->
  exists p, stream_for st.1 o p /\ grown_streams requested cs st.1 /\ st.2 = on_mcd (AddStreamDesc p) i.
Proof.
  intros Hs Ho E. unfold add_stream in E. destruct (StreamParams.GetStreamByIds cs [] (stream_id o)) as [p|] eqn:Ep.
  - outcome_inv. exists p. cbn [fst snd]. split; [|split; [apply grown_streams_refl|done]].
    apply find_some in Ep as [Hin Hm]. cbn in Hm. apply andb_true_iff in Hm as [H1 H2]. apply bool_decide_eq_true in H1, H2.
    split_and!; [by apply list_elem_of_In|done..].
  - rewrite Hs in E. cbn [generate_ids] in E. outcome_inv.
    match goal with H : GenerateSsrcs _ _ _ _ = Ok ?l _ |- _ => rename l into ids; apply GenerateSsrcs_Ok in H as (Hnd & Hfresh & Hlen) end.
    set (p := set_sync _ _ _). exists p. cbn [fst snd]. split; [|split; [|done]].
    + split_and!; [apply elem_of_app; right; by apply list_elem_of_singleton|done..].
    + split.
      * exists [p]. split; [done|]. apply List.Forall_cons; [|apply List.Forall_nil]. exists o. split; [done|]. split_and!; try done.
        -- intros H0. by destruct (Hfresh 0 H0).
        -- intros Hl. cbn. by rewrite (proj2 (Z.ltb_lt _ _) Hl).
      * intros Hcs. unfold all_ssrcs in *. rewrite flat_map_app. cbn. rewrite app_nil_r. apply NoDup_app. split_and!; [done| |done].
        intros y Hy Hin. by destruct (Hfresh y Hin).
Qed.

Lemma stream_for_grown r cs cs' o p : grown_streams r cs cs' -> stream_for cs o p -> stream_for cs' o p.
Proof. intros Hg (Hp & H1 & H2). split_and!; [by eapply grown_streams_in|done..]. Qed.

Definition requested_of (ty : MediaType) (l : list Stream) : list Stream := List.filter (fun s => bool_decide (stream_type s = ty)) l.

Lemma AddStreamParams_grown ty requested cs (i : Impl C) g st g' : streams_ (mcd i) = [] -> IsSctp (mcd i) = false ->
  ContainsRtxCodec (codecs_ i) = false -> AddStreamParams fuel ty requested cs i false g = Ok st g' ->
  Forall2 (stream_for st.1) (requested_of ty requested) (streams_ (mcd st.2)) /\ grown_streams requested cs st.1.
Proof.
  intros Hi Hs Hr E. unfold AddStreamParams in E. rewrite andb_false_r, Hr in E. fold (requested_of ty requested) in E.
  assert (Hgen : forall rest done_ (st0 : list StreamParams.StreamParams * Impl C) g0, incl rest requested ->
    Forall2 (stream_for st0.1) done_ (streams_ (mcd st0.2)) -> grown_streams requested cs st0.1 -> IsSctp (mcd st0.2) = false ->
    ensures (foldM (add_stream fuel requested false) rest st0) g0 (fun st _ =>
      Forall2 (stream_for st.1) (done_ ++ rest) (streams_ (mcd st.2)) /\ grown_streams requested cs st.1)).
  { induction rest as [|o rest IH]; intros done_ st0 g0 Hin Hf Hg Hs0 st1 g1 E1; cbn [foldM] in E1.
    - apply ret_Ok in E1 as [-> _]. by rewrite app_nil_r.
    - outcome_inv. destruct st0 as [cs0 i0]. cbn [fst snd] in *.
      match goal with H : add_stream _ _ _ _ _ _ = Ok ?x _ |- _ => apply add_stream_grown in H as (p & Hp & Hg' & Hi'); [rename x into st2|done|by apply Hin; left] end.
      rewrite cons_middle, app_assoc. eapply IH; [|rewrite Hi'; cbn| |by rewrite Hi'|eassumption].
      + intros y Hy. apply Hin. by right.
      + apply Forall2_app; [|by constructor]. eapply Forall2_impl; [exact Hf|]. intros. by eapply stream_for_grown.
      + by eapply grown_streams_trans. }
  eapply (Hgen _ [] (cs, i)) in E; [exact E|..]; cbn [fst snd]; [|by rewrite Hi; constructor|apply grown_streams_refl|done].
  intros o Ho. by apply filter_In in Ho as [].
Qed.

Lemma ContainsRtxCodec_perm (l k : list C) : l ≡ₚ k -> ContainsRtxCodec l = ContainsRtxCodec k.
Proof.
  unfold ContainsRtxCodec. induction 1 as [|x l k _ IH|x y l|l k m _ IH1 _ IH2]; cbn; [done|by rewrite IH| |congruence].
  by destruct (IsRtxCodec x), (IsRtxCodec y).
Qed.

Lemma CreateMediaContentOffer_streams ty options (codecs : list C) policy cur suites exts cs protocol g st g' :
  CreateMediaContentOffer fuel ty options codecs policy cur suites exts false cs (on_mcd (set_protocol protocol) new_impl) g = Ok st g' ->
  ContainsRtxCodec codecs = false -> protocol <> kMediaProtocolSctp -> protocol <> kMediaProtocolDtlsSctp ->
  Forall2 (stream_for st.1) (requested_of ty (streams options)) (streams_ (mcd st.2)) /\ grown_streams (streams options) cs st.1.
Proof.
  unfold CreateMediaContentOffer. intros E Hr Hp1 Hp2. outcome_inv.
  match goal with H : AddStreamParams _ _ _ _ ?i0 _ _ = Ok ?st0 _ |- _ => destruct st0 as [cs' i']; apply AddStreamParams_grown in H as [Hf Hg] end.
  - outcome_inv. cbn [fst snd] in *. split; [|done].
    match goal with H : (if negb _ then _ else _) _ = Ok ?j _ |- _ => assert (streams_ (mcd j) = streams_ (mcd i')) as ->; [|done]; clear -H end.
    destruct (negb _); [|outcome_inv; done]. destruct cur as [l|]; cbn [on_mcd mcd cryptos_ set_cryptos] in *.
    + destruct (AddMediaCryptos _ _); outcome_inv; done.
    + destruct (cryptos_ (mcd i')); outcome_inv; done.
  - by destruct (bool_decide _).
  - unfold IsSctp. apply orb_false_iff. split; apply bool_decide_eq_false; by destruct (bool_decide _).
  - rewrite <- Hr. destruct (bool_decide _); apply ContainsRtxCodec_perm, sort_perm.
Qed.

Lemma CreateMediaContentAnswer_streams ty (offer : Impl C) options local policy cur exts cs bundle g st g' :
  CreateMediaContentAnswer fuel ty offer options local policy cur exts cs false bundle new_impl g = Ok st g' ->
  ContainsRtxCodec local = false -> IsSctp (mcd offer) = false ->
  Forall2 (stream_for st.1) (requested_of ty (streams options)) (streams_ (mcd st.2)) /\ grown_streams (streams options) cs st.1.
Proof.
  unfold CreateMediaContentAnswer. intros E Hr Hs. outcome_inv.
  match goal with H : (if negb _ then _ else _) _ = Ok ?j _ |- _ => rename j into i; rename H into Hi end.
  assert (Hsame : streams_ (mcd i) = [] /\ protocol_ (mcd i) = protocol_ (mcd offer) /\ codecs_ i = sort_preference (NegotiateCodecs local (codecs_ offer))).
  { destruct (negb _); outcome_inv; [|done]. match goal with |- context [match ?x with Some _ => _ | None => _ end] => by destruct x end. }
  destruct Hsame as (I1 & I2 & I3).
  match goal with H : AddStreamParams _ _ _ _ _ _ _ = Ok ?st0 _ |- _ => destruct st0 as [cs' i']; apply AddStreamParams_grown in H as [Hf Hg] end.
  - outcome_inv. by split.
  - done.
  - unfold IsSctp in *. by rewrite I2.
  - rewrite I3. rewrite (ContainsRtxCodec_perm _ _ (sort_perm _)). apply not_true_is_false. intros (n & Hn & Hx)%existsb_exists.
    apply NegotiateCodecs_in in Hn as (o & t & Ho & _ & (_ & _ & Hname & _)%negotiate_one_spec).
    assert (ContainsRtxCodec local = true); [|congruence]. apply existsb_exists. exists o. split; [done|]. unfold IsRtxCodec in *. by rewrite <- Hname.
Qed.
End Medium.

(** ** The streams of a session *)

(** All streams of a description are among [all], as they were requested. *)
Definition streams_in (requested : list Stream) (all : list StreamParams.StreamParams) (s : Session) : Prop :=
  forall c, In c (contents_ s) -> exists d, content c = Some d /\ Forall2 (stream_for all) (requested_of (media_type d) requested) (streams_ (base_of d)).
Definition work_ok (requested : list Stream) (cs : list StreamParams.StreamParams) (w : work) : Prop :=
  grown_streams requested cs w.1 /\ streams_in requested w.1 w.2.

Lemma streams_in_grown r cs cs' s : grown_streams r cs cs' -> streams_in r cs s -> streams_in r cs' s.
Proof.
  intros Hg Hs c (d & Ed & Hf)%Hs. exists d. split; [done|]. eapply Forall2_impl; [exact Hf|]. intros. by eapply stream_for_grown.
Qed.

Lemma streams_in_recrypted r cs s s' : Forall2 recrypted (contents_ s) (contents_ s') -> streams_in r cs s -> streams_in r cs s'.
Proof.
  intros Hc Hs c [k Hk]%list_elem_of_In%list_elem_of_lookup. destruct (Forall2_lookup_r _ _ _ _ _ Hc Hk) as (c0 & Hk0 & Hr).
  apply list_elem_of_lookup_2, list_elem_of_In in Hk0. destruct (Hs c0 Hk0) as (d & Ed & Hf). destruct Hr as [->|[l ->]]; [by exists d|].
  cbn [content]. rewrite Ed. eexists. split; [done|]. by destruct d.
Qed.

Lemma work_ok_step r cs cs1 cs2 (s s1 s2 : Session) n t rej d : work_ok r cs (cs1, s) -> grown_streams r cs1 cs2 ->
  contents_ s1 = contents_ s -> contents_ s2 = contents_ (AddContent_rejected n t rej (Some d) s1) ->
  Forall2 (stream_for cs2) (requested_of (media_type d) r) (streams_ (base_of d)) -> work_ok r cs (cs2, s2).
Proof.
  intros [H1 H2] Hg E1 E2 Hf. split; cbn [fst snd] in *; [by eapply grown_streams_trans|].
  intros c. rewrite E2. cbn [contents_ AddContent_rejected]. rewrite E1. intros [Hc|[<-|[]]]%in_app_iff; [|by exists d].
  by apply (streams_in_grown _ _ _ _ Hg H2).
Qed.

Variable f : MediaSessionDescriptionFactory.

Section OfferStreams.
Variables (options : MediaSessionOptions) (current : option Session) (secure_transport : bool).
Hypothesis Hlegacy : add_legacy_ f = false.
Hypothesis Hsctp : data_channel_type options <> DCT_SCTP.

Lemma AddTransportOffer_contents n topts s g s' g' : AddTransportOffer f n topts current s g = Ok s' g' -> contents_ s' = contents_ s.
Proof. unfold AddTransportOffer. intros E. outcome_inv. by match goal with H : AddTransportInfo _ _ = _ |- _ => apply AddTransportInfo_grows in H as [-> _] end. Qed.

Lemma offer_audio_streams codecs exts cs w g w' g' : ContainsRtxCodec codecs = false -> work_ok (streams options) cs w ->
  offer_audio fuel f options current secure_transport codecs exts w g = Ok w' g' -> work_ok (streams options) cs w'.
Proof.
  intros Hr Hw E. unfold offer_audio in E. rewrite Hlegacy in E. destruct w as [cs1 s]. outcome_inv.
  match goal with H : CreateMediaContentOffer _ _ _ _ _ _ _ _ _ _ _ _ = Ok ?x _ |- _ =>
    apply (CreateMediaContentOffer_streams MEDIA_TYPE_AUDIO options codecs _ _ _ _ _ []) in H as [Hf Hg]; [destruct x as [cs2 d]|done..] end.
  outcome_inv. match goal with H : AddTransportOffer _ _ _ _ _ _ = _ |- _ => apply AddTransportOffer_contents in H end.
  by eapply work_ok_step; [exact Hw|exact Hg|reflexivity|eassumption|].
Qed.

Lemma offer_video_streams codecs exts cs w g w' g' : ContainsRtxCodec codecs = false -> work_ok (streams options) cs w ->
  offer_video fuel f options current secure_transport codecs exts w g = Ok w' g' -> work_ok (streams options) cs w'.
Proof.
  intros Hr Hw E. unfold offer_video in E. rewrite Hlegacy in E. destruct w as [cs1 s]. outcome_inv.
  match goal with H : CreateMediaContentOffer _ _ _ _ _ _ _ _ _ _ _ _ = Ok ?x _ |- _ =>
    apply (CreateMediaContentOffer_streams MEDIA_TYPE_VIDEO options codecs _ _ _ _ _ []) in H as [Hf Hg]; [destruct x as [cs2 d]|done..] end.
  outcome_inv. match goal with H : AddTransportOffer _ _ _ _ _ _ = _ |- _ => apply AddTransportOffer_contents in H end.
  by eapply work_ok_step; [exact Hw|exact Hg|reflexivity|eassumption|].
Qed.

Lemma offer_data_streams codecs cs w g w' g' : ContainsRtxCodec codecs = false -> work_ok (streams options) cs w ->
  offer_data fuel f options current secure_transport codecs w g = Ok w' g' -> work_ok (streams options) cs w'.
Proof.
  intros Hr Hw E. unfold offer_data in E. rewrite Hlegacy, (bool_decide_eq_false_2 _ Hsctp) in E. destruct w as [cs1 s]. outcome_inv.
  match goal with H : CreateMediaContentOffer _ _ _ ?cds _ _ _ _ _ _ _ _ = Ok ?x _ |- _ =>
    apply (CreateMediaContentOffer_streams MEDIA_TYPE_DATA options cds _ _ _ _ _ []) in H as [Hf Hg]; [destruct x as [cs2 d]|try done..] end.
  - outcome_inv. match goal with H : AddTransportOffer _ _ _ _ _ _ = _ |- _ => apply AddTransportOffer_contents in H end.
    by eapply work_ok_step; [exact Hw|exact Hg|reflexivity|eassumption|].
  - unfold ContainsRtxCodec, FilterDataCodecs in *. by apply existsb_filter.
Qed.
End OfferStreams.

Lemma bundle_offer_recrypted s g s' g' : bundle_offer s g = Ok s' g' -> Forall2 recrypted (contents_ s) (contents_ s').
Proof.
  unfold bundle_offer. intros E. outcome_inv.
  match goal with Ht : UpdateTransportInfoForBundle _ _ = Some _, Hc : UpdateCryptoParamsForBundle _ _ _ = Ok _ _ |- _ =>
    apply UpdateTransportInfoForBundle_keeps in Ht as (T1 & _); apply UpdateCryptoParamsForBundle_keeps in Hc as (C1 & _) end.
  by rewrite T1 in C1.
Qed.

(** What a session's streams come to: those known before and new ones, with
    no SSRC in two places, and each description with those asked for. *)
Definition streams_distinct (options : MediaSessionOptions) (current : option Session) (s : Session) : Prop :=
  forall cs, GetCurrentStreamParams current = Some cs ->
  exists all, grown_streams (streams options) cs all /\ streams_in (streams options) all s.

(** No RTX codec is in an offer that GetCodecsToOffer makes. *)
Definition no_rtx_offered (current : option Session) : Prop :=
  let '(a, v, d) := GetCodecsToOffer (GetFirstAudioContentDescription current) (GetFirstVideoContentDescription current) (GetFirstDataContentDescription current)
      (audio_codecs_ f) (video_codecs_ f) (data_codecs_ f) in
  ContainsRtxCodec a = false /\ ContainsRtxCodec v = false /\ ContainsRtxCodec d = false.

Lemma CreateOffer_streams options current g offer g' : add_legacy_ f = false -> data_channel_type options <> DCT_SCTP -> no_rtx_offered current ->
  CreateOffer fuel f options current g = Ok offer g' -> streams_distinct options current offer.
Proof.
  intros Hl Hs Hr E cs Hcs. unfold CreateOffer in E. rewrite Hcs in E. outcome_inv. unfold no_rtx_offered in Hr.
  destruct (GetCodecsToOffer _ _ _ _ _ _) as [[ac vc] dc]. destruct (GetRtpHdrExtsToOffer _ _ _ _) as [ae ve]. destruct Hr as (Ra & Rv & Rd). outcome_inv.
  assert (Hstep : forall (b : bool) (m : work -> comp Helpers.rng work) (w w' : work) g g', work_ok (streams options) cs w ->
    (forall w g w' g', work_ok (streams options) cs w -> m w g = Ok w' g' -> work_ok (streams options) cs w') ->
    (if b then m w else ret w) g = Ok w' g' -> work_ok (streams options) cs w').
  { intros b m w w' h h' Hw Hm Hb. destruct b; [by eapply Hm|]. by apply ret_Ok in Hb as [-> _]. }
  match goal with H : Some _ = Some _ |- _ => injection H as <- end.
  assert (Hw0 : work_ok (streams options) cs (cs, new_session)) by (split; [apply grown_streams_refl|by intros c []]).
  match goal with H : (if has_audio options then _ else _) _ = _ |- _ => apply (Hstep _ (offer_audio fuel f options current _ _ _) _ _ _ _ Hw0) in H;
    [rename H into Ha|] end.
  2:{ intros *. apply offer_audio_streams; [done|]. destruct (vad_enabled options); [done|by apply existsb_filter]. }
  match goal with H : (if has_video options then _ else _) _ = _ |- _ => apply (Hstep _ (offer_video fuel f options current _ _ _) _ _ _ _ Ha) in H;
    [rename H into Hv|intros *; by apply offer_video_streams] end.
  match goal with H : (if has_data options then _ else _) _ = _ |- _ => apply (Hstep _ (offer_data fuel f options current _ _) _ _ _ _ Hv) in H;
    [rename H into Hd|intros *; by apply offer_data_streams] end.
  match goal with H : (if bundle_enabled options then bundle_offer ?w.2 else _) _ = _, Hw : work_ok _ _ ?w |- _ => destruct Hw as [Hg Hi]; exists w.1; split; [done|];
    destruct (bundle_enabled options); [apply bundle_offer_recrypted in H; by eapply streams_in_recrypted|by apply ret_Ok in H as [-> _]] end.
Qed.

Section AnswerStreams.
Variables (offer : Session) (options : MediaSessionOptions) (current : option Session).
Hypothesis Hlegacy : add_legacy_ f = false.
Definition no_sctp : Prop := forall c d, In c (contents_ offer) -> content c = Some d -> IsSctp (base_of d) = false.
Definition no_rtx_supported : Prop :=
  ContainsRtxCodec (audio_codecs_ f) = false /\ ContainsRtxCodec (video_codecs_ f) = false /\ ContainsRtxCodec (data_codecs_ f) = false.
Hypothesis Hsctp : no_sctp.
Hypothesis Hrtx : no_rtx_supported.

Lemma first_no_sctp {C} (as_class : MediaContent -> option (Impl C)) ty c i : GetFirstMediaContent ty offer = Some c -> offered as_class c = Some i ->
  (forall d i, as_class d = Some i -> base_of d = mcd i) -> IsSctp (mcd i) = false.
Proof.
  intros [Hin _]%find_some Ho Has. unfold offered in Ho. destruct (content c) as [d|] eqn:Ed; [|done].
  rewrite <- (Has _ _ Ho). by eapply Hsctp.
Qed.

Lemma added_contents (r : bool) n t (s s' : Session) {C} (e e' : Impl C) b g g' :
  (if r then ret (s, e) else s <- AddTransportAnswer n t s;; ret (s, on_mcd (set_bandwidth b) e)) (g : Helpers.rng) = Ok (s', e') g' ->
  contents_ s' = contents_ s /\ streams_ (mcd e') = streams_ (mcd e).
Proof.
  intros [He Hs]%added_transport. cbn [fst snd] in *. split; [|by destruct He as [->| ->]].
  destruct r; [by rewrite Hs|]. by apply AddTransportInfo_grows in Hs as [-> _].
Qed.

Lemma answer_audio_streams cs w g w' g' : work_ok (streams options) cs w ->
  answer_audio fuel f offer options current w g = Ok w' g' -> work_ok (streams options) cs w'.
Proof.
  intros Hw E. unfold answer_audio in E. rewrite Hlegacy in E. destruct (GetFirstAudioContent offer) as [c|] eqn:Ec; [|by apply ret_Ok in E as [-> _]].
  destruct w as [cs1 s]. destruct Hrtx as (Ra & _ & _). outcome_inv.
  match goal with H : offered _ _ = Some ?x |- _ => apply (first_no_sctp as_audio MEDIA_TYPE_AUDIO) in H as Hno; [|done|by intros [] ? [= ->]] end.
  match goal with H : CreateMediaContentAnswer _ _ _ _ _ _ _ _ _ _ _ _ _ = Ok ?x _ |- _ =>
    apply (CreateMediaContentAnswer_streams MEDIA_TYPE_AUDIO) in H as [Hf Hg]; [destruct x as [cs2 e]|destruct (vad_enabled options); [done|by apply existsb_filter]|done] end.
  outcome_inv. cbn [fst snd] in *. eapply work_ok_step; [exact Hw|exact Hg| |reflexivity|exact Hf].
  destruct (negb _ || _ || _); outcome_inv; [done|].
  match goal with |- context [default _ ?o] => destruct o as [s'|]; [|done] end. unfold AddTransportAnswer in *. outcome_inv.
  cbn. by match goal with H : AddTransportInfo _ _ = _ |- _ => apply AddTransportInfo_grows in H as [-> _] end.
Qed.

Lemma answer_video_streams cs w g w' g' : work_ok (streams options) cs w ->
  answer_video fuel f offer options current w g = Ok w' g' -> work_ok (streams options) cs w'.
Proof.
  intros Hw E. unfold answer_video in E. rewrite Hlegacy in E. destruct (GetFirstVideoContent offer) as [c|] eqn:Ec; [|by apply ret_Ok in E as [-> _]].
  destruct w as [cs1 s]. destruct Hrtx as (_ & Rv & _). outcome_inv.
  match goal with H : offered _ _ = Some ?x |- _ => apply (first_no_sctp as_video MEDIA_TYPE_VIDEO) in H as Hno; [|done|by intros [] ? [= ->]] end.
  match goal with H : CreateMediaContentAnswer _ _ _ _ _ _ _ _ _ _ _ _ _ = Ok ?x _ |- _ =>
    apply (CreateMediaContentAnswer_streams MEDIA_TYPE_VIDEO) in H as [Hf Hg]; [destruct x as [cs2 e]|done|done] end.
  outcome_inv. match goal with H : (if _ then ret (_, _) else _) _ = Ok ?y _ |- _ => destruct y as [s' e']; apply added_contents in H as [Hc Hs] end.
  outcome_inv. cbn [fst snd] in *. eapply work_ok_step; [exact Hw|exact Hg|exact Hc|reflexivity|]. cbn [base_of media_type]. by rewrite Hs.
Qed.

Lemma answer_data_streams cs w g w' g' : work_ok (streams options) cs w ->
  answer_data fuel f offer options current w g = Ok w' g' -> work_ok (streams options) cs w'.
Proof.
  intros Hw E. unfold answer_data in E. rewrite Hlegacy in E. destruct (GetFirstDataContent offer) as [c|] eqn:Ec; [|by apply ret_Ok in E as [-> _]].
  destruct w as [cs1 s]. destruct Hrtx as (_ & _ & Rd). outcome_inv.
  match goal with H : offered _ _ = Some ?x |- _ => apply (first_no_sctp as_data MEDIA_TYPE_DATA) in H as Hno; [|done|by intros [] ? [= ->]] end.
  match goal with H : CreateMediaContentAnswer _ _ _ _ _ _ _ _ _ _ _ _ _ = Ok ?x _ |- _ =>
    apply (CreateMediaContentAnswer_streams MEDIA_TYPE_DATA) in H as [Hf Hg]; [destruct x as [cs2 e]|done|done] end.
  outcome_inv. match goal with H : (if _ then ret (_, _) else _) _ = Ok ?y _ |- _ => destruct y as [s' e']; apply added_contents in H as [Hc Hs] end.
  outcome_inv. cbn [fst snd] in *. eapply work_ok_step; [exact Hw|exact Hg|exact Hc|reflexivity|]. cbn [base_of media_type]. by rewrite Hs.
Qed.

Lemma CreateAnswer_streams g answer g' : CreateAnswer fuel f offer options current g = Ok answer g' -> streams_distinct options current answer.
Proof.
  intros E cs Hcs. unfold CreateAnswer in E. rewrite Hcs in E. outcome_inv. match goal with H : Some _ = Some _ |- _ => injection H as <- end.
  assert (Hw0 : work_ok (streams options) cs (cs, new_session)) by (split; [apply grown_streams_refl|by intros c []]).
  match goal with Ha : answer_audio _ _ _ _ _ _ _ = Ok ?wa _, Hv : answer_video _ _ _ _ _ _ _ = Ok ?wv _, Hd : answer_data _ _ _ _ _ _ _ = Ok ?wd _ |- _ =>
    apply answer_audio_streams with (cs := cs) in Ha; [|done]; apply answer_video_streams with (cs := cs) in Hv; [|done]; apply answer_data_streams with (cs := cs) in Hd; [|done];
    destruct Hd as [Hg Hi]; exists wd.1; split; [done|] end.
  match goal with H : bundle_answer _ _ _ _ = _ |- _ => apply bundle_answer_keeps in H as [Hc _] end. by eapply streams_in_recrypted.
Qed.
End AnswerStreams.

(** ** Each SSRC in one place *)

(** All SSRCs of all streams of all descriptions of a session. *)
Definition session_streams (s : Session) : list StreamParams.StreamParams :=
  flat_map (fun c => match content c with Some d => streams_ (base_of d) | None => [] end) (contents_ s).
Definition session_ssrcs (s : Session) : list Z := all_ssrcs (session_streams s).

(** The descriptions are of different media. *)
Definition media_distinct (s : Session) : Prop :=
  exists tys, map (fun c => option_map media_type (content c)) (contents_ s) = map Some tys /\ base.NoDup tys.

Lemma media_recrypted s s' : Forall2 recrypted (contents_ s) (contents_ s') -> media_distinct s -> media_distinct s'.
Proof.
  intros Hc (tys & Ht & Hnd). exists tys. split; [|done]. rewrite <- Ht. clear -Hc. induction Hc as [|c c' l l' Hc _ IH]; [done|].
  cbn. rewrite IH. f_equal. destruct Hc as [->|[k ->]]; [done|]. cbn. by destruct (content c) as [[]|].
Qed.

Lemma offer_media options current g s g' : CreateOffer fuel f options current g = Ok s g' -> media_distinct s.
Proof.
  intros (s0 & g0 & [H _ _ _] & E)%CreateOffer_contents.
  assert (H0 : media_distinct s0).
  { exists (offered_media options). split.
    - clear -H. induction H as [|ty c l l' (t & Hc & _) _ IH]; [done|]. cbn. rewrite IH. f_equal.
      destruct Hc as [_ _ _ (d & Ed & Hd) _]. rewrite Ed. cbn. f_equal. apply Hd.
    - unfold offered_media. cbn. destruct (has_audio options), (has_video options), (has_data options);
        match goal with |- base.NoDup ?l => refine (bool_decide_unpack (base.NoDup l) _) end; vm_compute; exact I. }
  destruct (bundle_enabled options); [|by apply ret_Ok in E as [-> _]]. by eapply media_recrypted; [eapply bundle_offer_recrypted|].
Qed.

Lemma answer_media offer options current g s g' : CreateAnswer fuel f offer options current g = Ok s g' -> media_distinct s.
Proof.
  intros (s0 & g0 & [H _ _] & _ & [Hc _]%bundle_answer_keeps)%CreateAnswer_contents. eapply media_recrypted; [exact Hc|].
  exists (map fst (answered_contents offer)). split.
  - clear -H. induction H as [|[ty c] a l l' (t & [Ha _] & _) _ IH]; [done|]. cbn. rewrite IH. f_equal.
    destruct Ha as [_ _ (d & e & _ & Ee & _ & Ht & _) _]. rewrite Ee. cbn. by rewrite Ht.
  - unfold answered_contents. cbn. destruct (GetFirstMediaContent MEDIA_TYPE_AUDIO offer), (GetFirstMediaContent MEDIA_TYPE_VIDEO offer), (GetFirstMediaContent MEDIA_TYPE_DATA offer);
      match goal with |- base.NoDup ?l => refine (bool_decide_unpack (base.NoDup l) _) end; vm_compute; exact I.
Qed.

Lemma all_ssrcs_apart l p q x : base.NoDup (all_ssrcs l) -> p ∈ l -> q ∈ l -> x ∈ StreamParams.ssrcs p -> x ∈ StreamParams.ssrcs q -> p = q.
Proof.
  induction l as [|r l IH]; intros Hnd Hp Hq Hxp Hxq; [by apply elem_of_nil in Hp|]. unfold all_ssrcs in Hnd. cbn in Hnd.
  apply NoDup_app in Hnd as (_ & Hd & Hl).
  assert (Hin : forall s, s ∈ l -> x ∈ StreamParams.ssrcs s -> x ∈ all_ssrcs l).
  { intros s Hs Hx. apply list_elem_of_In, in_flat_map. exists s. by rewrite <- !list_elem_of_In. }
  apply elem_of_cons in Hp as [->|Hp]; apply elem_of_cons in Hq as [->|Hq]; [done| | |by apply IH]; exfalso; eapply Hd; eauto.
Qed.

(** Different streams of a list without a double SSRC. *)
Lemma chosen_ssrcs (all l : list StreamParams.StreamParams) : base.NoDup (all_ssrcs all) -> (forall p, p ∈ l -> p ∈ all) -> base.NoDup l -> base.NoDup (all_ssrcs l).
Proof.
  intros Hall. induction l as [|p l IH]; intros Hin Hnd; [apply NoDup_nil_2|]. apply NoDup_cons in Hnd as [Hp Hnd].
  unfold all_ssrcs. cbn. apply NoDup_app. split_and!.
  - assert (Hpa : p ∈ all) by (apply Hin; by left). clear -Hall Hpa. induction all as [|q all IH]; [by apply elem_of_nil in Hpa|].
    unfold all_ssrcs in Hall. cbn in Hall. apply NoDup_app in Hall as (H1 & _ & H2). by apply elem_of_cons in Hpa as [->|Hpa]; [|apply IH].
  - intros x Hx (q & Hq & Hxq)%list_elem_of_In%in_flat_map. apply list_elem_of_In in Hq, Hxq. apply Hp.
    rewrite (all_ssrcs_apart all p q x); try done; apply Hin; [by left|by right].
  - apply IH; [|done]. intros q Hq. apply Hin. by right.
Qed.

Lemma requested_ids_apart (r : list Stream) ty ty' x : base.NoDup (map stream_id r) ->
  x ∈ map stream_id (requested_of ty r) -> x ∈ map stream_id (requested_of ty' r) -> ty = ty'.
Proof.
  unfold requested_of. intros Hnd (o & <- & [Ho Ht]%filter_In)%list_elem_of_In%in_map_iff (o' & Hid & [Ho' Ht']%filter_In)%list_elem_of_In%in_map_iff.
  apply bool_decide_eq_true in Ht, Ht'. enough (o' = o) by congruence. clear -Hnd Ho Ho' Hid. induction r as [|a r IH]; [done|]. cbn in Hnd.
  apply NoDup_cons in Hnd as [Ha Hnd]. destruct Ho as [->|Ho], Ho' as [->|Ho']; [done|exfalso; apply Ha..|by apply IH].
  - rewrite <- Hid. by apply list_elem_of_In, in_map.
  - rewrite Hid. by apply list_elem_of_In, in_map.
Qed.

Lemma session_ssrcs_distinct requested all s : base.NoDup (map stream_id requested) -> base.NoDup (all_ssrcs all) -> media_distinct s ->
  streams_in requested all s -> base.NoDup (session_ssrcs s).
Proof.
  intros Hids Hall (tys & Htys & Hnd) Hin.
  assert (Hstreams : (forall p, p ∈ session_streams s -> p ∈ all) /\
    map StreamParams.id (session_streams s) = flat_map (fun ty => map stream_id (requested_of ty requested)) tys).
  { unfold session_streams, streams_in in *. clear Hnd. revert tys Htys Hin. induction (contents_ s) as [|c cs IH]; intros [|ty tys] Htys Hin; try done.
    { split; [by intros p ?%elem_of_nil|done]. }
    cbn in Htys. injection Htys as Ht Htys. destruct (Hin c (or_introl eq_refl)) as (d & Ed & Hf). rewrite Ed in Ht. cbn in Ht. injection Ht as Ht.
    destruct (IH tys Htys (fun c' Hc' => Hin c' (or_intror Hc'))) as [I1 I2]. cbn [flat_map]. rewrite Ed. split.
    - intros p [Hp|Hp]%elem_of_app; [|by apply I1]. apply list_elem_of_lookup in Hp as [k Hk].
      destruct (Forall2_lookup_r _ _ _ _ _ Hf Hk) as (o & _ & Hp & _). done.
    - rewrite map_app, I2, Ht in *. f_equal. clear -Hf. induction Hf as [|o p l l' (_ & _ & Hid) _ IH]; [done|]. cbn. by rewrite Hid, IH. }
  destruct Hstreams as [Hall' Hsids]. eapply chosen_ssrcs; [exact Hall|exact Hall'|]. apply (NoDup_fmap_1 StreamParams.id).
  change (base.NoDup (map StreamParams.id (session_streams s))). rewrite Hsids. clear -Hnd Hids. induction tys as [|ty tys IH]; [apply NoDup_nil_2|].
  apply NoDup_cons in Hnd as [Hty Hnd]. cbn. apply NoDup_app. split_and!; [| |by apply IH].
  - clear -Hids. unfold requested_of. induction requested as [|o r IH]; [apply NoDup_nil_2|]. cbn in Hids. apply NoDup_cons in Hids as [Ho Hids].
    cbn. destruct (bool_decide _); [|by apply IH]. cbn. apply NoDup_cons. split; [|by apply IH].
    intros (o' & Hid & [Ho' _]%filter_In)%list_elem_of_In%in_map_iff. apply Ho. rewrite <- Hid. by apply list_elem_of_In, in_map.
  - intros x Hx (ty' & Hty' & Hx')%list_elem_of_In%in_flat_map. apply list_elem_of_In in Hty', Hx'. apply Hty.
    by rewrite (requested_ids_apart requested ty ty' x).
Qed.

(** C18: In an offer or answer without RTX, legacy streams and SCTP, for
    streams requested under different ids (over all media), no SSRC is used
    twice in the whole session, if the streams of the current description use
    none twice.  Every description has one stream for each that the options
    ask for in its medium, in order and with its id; each is one of the
    current description or new, and a new one has as many SSRCs as layers were
    asked for, none of them 0 or in the current description, in a simulcast
    group if there is more than one.  (Under one id an audio and a video stream
    get the same SSRC, [shared_id_shares_ssrc].) *)
Theorem session_ssrcs_unique options current cs g s g' :
  add_legacy_ f = false -> GetCurrentStreamParams current = Some cs -> base.NoDup (all_ssrcs cs) -> base.NoDup (map stream_id (streams options)) ->
  (CreateOffer fuel f options current g = Ok s g' /\ data_channel_type options <> DCT_SCTP /\ no_rtx_offered current) \/
  (exists offer, CreateAnswer fuel f offer options current g = Ok s g' /\ no_sctp offer /\ no_rtx_supported) ->
  base.NoDup (session_ssrcs s) /\
  exists new, Forall (fun p => exists o, In o (streams options) /\ made_for o p) new /\
    base.NoDup (all_ssrcs (cs ++ new)) /\ streams_in (streams options) (cs ++ new) s.
Proof.
  intros Hl Hcs Hnd Hids Hs.
  assert (Hd : streams_distinct options current s /\ media_distinct s).
  { destruct Hs as [(E & Hd & Hr)|(offer & E & Hd & Hr)].
    - split; [by eapply CreateOffer_streams|]. by apply (offer_media options current g s g').
    - split; [by eapply CreateAnswer_streams|]. by apply (answer_media offer options current g s g'). }
  destruct Hd as [Hd Hm]. destruct (Hd cs Hcs) as (all & [(new & -> & Hnew) Hdist] & Hin). specialize (Hdist Hnd).
  split; [by apply (session_ssrcs_distinct (streams options) (cs ++ new))|exists new; by split_and!].
Qed.
End Random.

Lemma session_ssrcs_unique_witness : exists offer g1 answer g2, sample_offer true = Ok offer g1 /\ sample_answer true offer = Ok answer g2 /\
  length (session_ssrcs offer) = 2%nat /\ length (session_ssrcs answer) = 2%nat /\ base.NoDup (session_ssrcs offer) /\ base.NoDup (session_ssrcs answer).
Proof.
  destruct (sample_exchange_Some true (fun offer answer => (length (session_ssrcs offer), length (session_ssrcs answer),
      existsb (fun c => match content c with Some d => IsSctp (base_of d) | None => false end) (contents_ offer)))
    (2, 2, false)%nat) as (offer & g1 & answer & g2 & Eo & Ea & Ev); [vm_compute; reflexivity|].
  injection Ev as E1 E2 E3. exists offer, g1, answer, g2. split; [exact Eo|]. split; [exact Ea|]. split; [exact E1|]. split; [exact E2|].
  assert (Hids : base.NoDup (map stream_id (streams (sample_options true)))) by (refine (bool_decide_unpack (base.NoDup _) _); vm_compute; exact I).
  split.
  - refine (proj1 (@session_ssrcs_unique x86 Helpers.TestRandomGenerator merge_preference 10 sample_offerer (sample_options true) None [] Helpers.test_seed offer g1
      eq_refl eq_refl NoDup_nil_2 Hids _)).
    left. split; [exact Eo|]. split; [discriminate|]. vm_compute. repeat split.
  - refine (proj1 (@session_ssrcs_unique x86 Helpers.TestRandomGenerator merge_preference 10 sample_answerer (sample_options true) None [] 99 answer g2
      eq_refl eq_refl NoDup_nil_2 Hids _)).
    right. exists offer. split; [exact Ea|]. split; [|vm_compute; repeat split]. intros c d Hc Hd. apply not_true_is_false. intros Hs.
    assert (existsb (fun c => match content c with Some d => IsSctp (base_of d) | None => false end) (contents_ offer) = true) as Ht; [|congruence].
    apply existsb_exists. exists c. split; [exact Hc|]. rewrite Hd. exact Hs.
Defined.

(** ** What the hypotheses of [session_ssrcs_unique] leave out *)

(** Audio and video asked for under one id: the second is found among the
    streams of the session, and has the SSRC of the first. *)
Definition shared_id_options : MediaSessionOptions :=
  AddStream MEDIA_TYPE_VIDEO (str "s1") (str "s") (AddStream MEDIA_TYPE_AUDIO (str "s1") (str "s") new_options).
Lemma shared_id_shares_ssrc :
  match @CreateOffer x86 Helpers.TestRandomGenerator merge_preference 10 sample_offerer shared_id_options None Helpers.test_seed with
  | Ok offer _ => match session_ssrcs offer with [a; b] => a =? b | _ => false end = true
  | _ => False
  end.
Proof. vm_compute. reflexivity. Qed.

(** A generator that repeats itself. *)
#[program] Definition repeating : Helpers.RandomGenerator :=
  {| Helpers.rng := unit; Helpers.Generate n g := (Some (repeat 1 n), g) |}.
Next Obligation. intros n [] b [] [= <-]. split; [apply repeat_length|]. by apply List.Forall_forall; intros x ->%repeat_spec. Qed.

Definition one_stream : Stream := mkStream MEDIA_TYPE_VIDEO (str "v1") (str "s") 1.
Definition rtx_video : Impl VideoCodec := mkImpl new_description [new_video 100 (str "VP8") 640 400 30 1; CreateRtxCodec 96 100].

(** The SSRC of an RTX stream is not compared with that of the stream. *)
Lemma rtx_ssrc_collides : match @AddStreamParams x86 repeating 3 _ _ MEDIA_TYPE_VIDEO [one_stream] [] rtx_video false tt with
  | Ok (_, i) _ => map StreamParams.ssrcs (streams_ (mcd i)) = [[0x01010101; 0x01010101]]
  | _ => False
  end.
Proof. vm_compute. reflexivity. Qed.

(** Legacy streams are not added to the streams of the session. *)
Lemma legacy_ssrc_collides : match @AddStreamParams x86 repeating 3 _ _ MEDIA_TYPE_AUDIO [] [] (@new_impl AudioCodec) true tt with
  | Ok (cs, i) g => all_ssrcs (streams_ (mcd i)) = [0x01010101] /\ cs = [] /\
      match @AddStreamParams x86 repeating 3 _ _ MEDIA_TYPE_VIDEO [] cs (@new_impl VideoCodec) true g with
      | Ok (_, j) _ => all_ssrcs (streams_ (mcd j)) = [0x01010101]
      | _ => False
      end
  | _ => False
  end.
Proof. vm_compute. by split_and!. Qed.

(** Whether a data channel has the id 0 is not seen: 0 selects by names. *)
Lemma sid_zero_unseen p : StreamParams.id p <> [] -> has_stream [p] 0 = false.
Proof.
  intros Hp. unfold has_stream, StreamParams.GetStreamBySsrc, StreamParams.GetStream, StreamParams.Matches. cbn.
  by rewrite (bool_decide_eq_false_2 (StreamParams.id p = [])), andb_false_r.
Qed.
End MediaStreams.
