(* ===== verification/MediaBundle.v ===== *)
(** * Bundles

    What UpdateTransportInfoForBundle and UpdateCryptoParamsForBundle of
    mediasession.cc make of the contents of a group: in a bundle of an offer or
    an answer all have the ICE credentials of one of them, and their crypto
    parameters are changed to its, where it has any.  When that makes them
    equal is in MediaNegotiation.v. *)

From stdpp Require Import gmap sorting.
From S2P Require Import Prelude ByteOrder StringConv Codec Helpers StreamParams SrtpFilter MediaSession SessionDescription TransportFactory MediaDescription CodecOffer MediaOffer MediaFactory MediaAnswer MediaOffered Outcome.
Import Codec SessionDescription MediaDescription CodecOffer MediaSession MediaOffer MediaFactory MediaAnswer MediaOffered Outcome.
Import SrtpFilter (CryptoParams, cipher_suite).
Open Scope jingle_scope.

Module MediaBundle.

Definition credentials_of (i : TransportInfo) : bytes * bytes := (ice_ufrag (description i), ice_pwd (description i)).

(** The ends of the RTP contents of a group. *)
Definition rtp_member (g : ContentGroup) (s : Session) (n : bytes) : Prop := In n (content_names_ g) /\ IsRtpContent s n = true.

(** What the contents of a group come to, against the session [s0] before it
    was bundled.  All transports of the group have the same credentials.  All
    RTP contents have the same crypto parameters, and at least one unless all
    have DTLS; or the first content had no crypto parameters, and nothing was
    changed. *)
Record bundled (g : ContentGroup) (s0 s : Session) : Prop := {
  bu_credentials : forall i j, i ∈ transport_infos_ s -> j ∈ transport_infos_ s ->
    HasContentName (content_name i) g = true -> HasContentName (content_name j) g = true -> credentials_of i = credentials_of j;
  bu_rtp : forall n, IsRtpContent s n = IsRtpContent s0 n;
  bu_cryptos :
    (exists n, IsRtpContent s0 n = true /\ GetCryptosByName s0 n = Some [] /\ forall m, GetCryptosByName s m = GetCryptosByName s0 m) \/
    exists common, (forall n, rtp_member g s n -> GetCryptosByName s n = Some common) /\
      (common = [] -> forall n, rtp_member g s n -> exists i, GetTransportInfoByName n s = Some i /\ secure (description i) = true);
}.

Lemma find_unique n (l : list TransportInfo) i j : base.NoDup (map content_name l) ->
  find (fun t => bool_decide (content_name t = n)) l = Some i -> j ∈ l -> content_name j = n -> j = i.
Proof.
  induction l as [|k l IH]; [done|]. cbn. intros [Hk Hnd]%NoDup_cons. destruct (bool_decide (content_name k = n)) eqn:E.
  - apply bool_decide_eq_true in E. intros [= <-] [->|Hj]%elem_of_cons Hn; [done|]. exfalso. apply Hk. rewrite E, <- Hn.
    apply list_elem_of_fmap. by exists j.
  - apply bool_decide_eq_false in E. intros Hf [->|Hj]%elem_of_cons Hn; [done|]. by apply IH.
Qed.

Lemma UpdateTransportInfoForBundle_credentials b s s' : base.NoDup (map content_name (transport_infos_ s)) ->
  UpdateTransportInfoForBundle b s = Some s' -> exists c, forall i, i ∈ transport_infos_ s' -> HasContentName (content_name i) b = true -> credentials_of i = c.
Proof.
  unfold UpdateTransportInfoForBundle. intros Hnd. destruct (FirstContentName b) as [n|]; [|done].
  destruct (GetTransportInfoByName n s) as [sel|] eqn:Es; [|done]. intros [= <-]. exists (credentials_of sel). intros i.
  cbn [transport_infos_ set_transport_infos]. intros (j & -> & Hj)%list_elem_of_fmap.
  destruct (HasContentName (content_name j) b) eqn:Eh; [|cbn [andb]; rewrite Eh; done].
  destruct (bool_decide (content_name j = n)) eqn:En; cbn [andb negb]; [|done].
  apply bool_decide_eq_true in En. intros _. by rewrite (find_unique n (transport_infos_ s) sel j).
Qed.

(** ** The crypto parameters *)

Lemma find_on_content n m (h : MediaContent -> MediaContent) (l : list Content) :
  FindContentInfoByName (on_content m h l) n =
  option_map (fun c => if bool_decide (n = m) then mkContent (name c) (type c) (rejected c) (option_map h (content c)) else c) (FindContentInfoByName l n).
Proof.
  unfold FindContentInfoByName. induction l as [|c l IH]; [done|]. cbn [on_content find].
  destruct (bool_decide (name c = m)) eqn:E1; cbn [find name].
  - apply bool_decide_eq_true in E1. destruct (bool_decide (name c = n)) eqn:E2; cbn [option_map].
    + apply bool_decide_eq_true in E2. by rewrite bool_decide_eq_true_2 by congruence.
    + apply bool_decide_eq_false in E2. rewrite bool_decide_eq_false_2 by congruence. by destruct (find _ l).
  - apply bool_decide_eq_false in E1. destruct (bool_decide (name c = n)) eqn:E2; cbn [option_map]; [|done].
    apply bool_decide_eq_true in E2. by rewrite bool_decide_eq_false_2 by congruence.
Qed.

Lemma on_base_protocol l d : protocol_ (base_of (on_base (set_cryptos l) d)) = protocol_ (base_of d) /\ cryptos_ (base_of (on_base (set_cryptos l) d)) = l.
Proof. by destruct d. Qed.

Lemma set_content_cryptos_content common s m n : GetContentByName n (set_content_cryptos common s m) =
  option_map (fun c => if bool_decide (n = m) && IsRtpContent s m then mkContent (name c) (type c) (rejected c) (option_map (on_base (set_cryptos common)) (content c)) else c)
    (GetContentByName n s).
Proof.
  unfold set_content_cryptos. destruct (IsRtpContent s m).
  - unfold GetContentByName. cbn [contents_]. rewrite find_on_content. by destruct (bool_decide (n = m)).
  - rewrite andb_false_r. by destruct (GetContentByName n s).
Qed.

Lemma set_content_cryptos_rtp common s m n : IsRtpContent (set_content_cryptos common s m) n = IsRtpContent s n.
Proof.
  unfold IsRtpContent at 1 2. rewrite set_content_cryptos_content. destruct (GetContentByName n s) as [c|]; [|done]. cbn [option_map].
  destruct (_ && _); [|done]. unfold IsMediaContent. cbn [type content]. destruct (content c) as [d|]; cbn [option_map]; [|done].
  by destruct (on_base_protocol common d) as [-> _].
Qed.

Lemma set_content_cryptos_same common s n : IsRtpContent s n = true -> GetCryptosByName (set_content_cryptos common s n) n = Some common.
Proof.
  intros Hr. unfold GetCryptosByName. rewrite set_content_cryptos_content, Hr, bool_decide_eq_true_2 by done. cbn [andb].
  unfold IsRtpContent in Hr. destruct (GetContentByName n s) as [c|]; [|done]. cbn [option_map]. unfold IsMediaContent in *. cbn [type content].
  destruct (_ || _); [|done]. destruct (content c) as [d|]; [|done]. cbn [option_map]. by destruct (on_base_protocol common d) as [_ ->].
Qed.

Lemma set_content_cryptos_kept common s m n : GetCryptosByName s n = Some common -> GetCryptosByName (set_content_cryptos common s m) n = Some common.
Proof.
  intros E. destruct (bool_decide (n = m) && IsRtpContent s m) eqn:Eb.
  - apply andb_true_iff in Eb as [Hn Hr]. apply bool_decide_eq_true in Hn as ->. by apply set_content_cryptos_same.
  - unfold GetCryptosByName in *. rewrite set_content_cryptos_content, Eb. by destruct (GetContentByName n s).
Qed.

Lemma set_all_cryptos common ns : forall s, let s' := fold_left (set_content_cryptos common) ns s in
  (forall n, IsRtpContent s' n = IsRtpContent s n) /\ (forall n, In n ns -> IsRtpContent s n = true -> GetCryptosByName s' n = Some common) /\
  (forall n, ~ In n ns -> GetCryptosByName s' n = GetCryptosByName s n).
Proof.
  assert (Hkeep : forall ns s n, GetCryptosByName s n = Some common -> GetCryptosByName (fold_left (set_content_cryptos common) ns s) n = Some common).
  { clear. induction ns as [|m ns IH]; intros s n E; [done|]. cbn [fold_left]. by apply IH, set_content_cryptos_kept. }
  induction ns as [|m ns IH]; intros s; [by split_and!|]. cbn [fold_left]. destruct (IH (set_content_cryptos common s m)) as (I1 & I2 & I3). split_and!.
  - intros n. by rewrite I1, set_content_cryptos_rtp.
  - intros n [->|Hin] Hr; [by apply Hkeep, set_content_cryptos_same|]. apply I2; [done|]. by rewrite set_content_cryptos_rtp.
  - intros n Hn. rewrite I3 by (intros H; apply Hn; by right). unfold GetCryptosByName. rewrite set_content_cryptos_content.
    rewrite bool_decide_eq_false_2 by (intros ->; apply Hn; by left). by destruct (GetContentByName n s).
Qed.

Section Bundle.
Context `{HM : Machine} `{HR : Helpers.RandomGenerator} `{HS : PreferenceSort}.

Lemma sublist_In {A} (l k : list A) x : sublist l k -> In x l -> In x k.
Proof. induction 1; cbn; tauto. Qed.
Lemma filter_sublist {A} (p : A -> bool) l : sublist (List.filter p l) l.
Proof. induction l as [|x l IH]; [constructor|]. cbn. destruct (p x); by constructor. Qed.

(** What common_cryptos finds: a first content without crypto parameters, or
    parameters of the first RTP content whose suites all others have too. *)
Lemma common_cryptos_spec ns : forall first common needed s (g : Helpers.rng) r g', common_cryptos ns first common needed s g = Ok r g' ->
  match r with
  | None => first = true /\ exists n, hd_error ns = Some n /\ IsRtpContent s n = true /\ GetCryptosByName s n = Some []
  | Some (common', needed') =>
      (needed = true -> needed' = true) /\
      (exists from, sublist common' from /\ (from = common \/ first = true /\ exists n, hd_error ns = Some n /\ IsRtpContent s n = true /\ GetCryptosByName s n = Some from)) /\
      forall n, In n ns -> IsRtpContent s n = true ->
        (exists i, GetTransportInfoByName n s = Some i /\ (secure (description i) = false -> needed' = true)) /\
        exists l, GetCryptosByName s n = Some l /\ forall p, In p common' -> exists q, In q l /\ cipher_suite q = cipher_suite p
  end.
Proof.
  induction ns as [|n ns IH]; intros first common needed s g r g' E; cbn [common_cryptos] in E;
    [apply ret_Ok in E as [-> _]; split_and!; [done|exists common; by split; [|left]|done]|].
  destruct (IsRtpContent s n) eqn:Hr; cbn [negb] in E.
  - outcome_inv. match goal with H : GetTransportInfoByName n s = Some ?x, H' : GetCryptosByName s n = Some ?y |- _ => rename x into t, y into l, H into Ht, H' into Hl end.
    match goal with H : (if first then _ else _) _ = Ok _ _ |- _ => rename H into E end.
    set (needed1 := if negb (secure (description t)) then true else needed) in E.
    assert (Hrest : forall common1, (forall p, In p common1 -> exists q, In q l /\ cipher_suite q = cipher_suite p) ->
      common_cryptos ns false common1 needed1 s g = Ok r g' -> exists common' needed', r = Some (common', needed') /\
        (needed = true -> needed' = true) /\ sublist common' common1 /\
        forall m, In m (n :: ns) -> IsRtpContent s m = true ->
          (exists i, GetTransportInfoByName m s = Some i /\ (secure (description i) = false -> needed' = true)) /\
          exists l, GetCryptosByName s m = Some l /\ forall p, In p common' -> exists q, In q l /\ cipher_suite q = cipher_suite p).
    { intros common1 H2 E1. apply IH in E1. destruct r as [[common' needed']|]; [|by destruct E1]. destruct E1 as (I1 & (from & I2 & [->|[? _]]) & I3); [|done].
      exists common', needed'. split; [done|]. split; [intros Hn; apply I1; unfold needed1; by destruct (secure (description t))|].
      split; [done|]. intros m [<-|Hm] Hrm; [|by apply I3]. split.
      - exists t. split; [done|]. intros Hs. apply I1. unfold needed1. by rewrite Hs.
      - exists l. split; [done|]. intros p Hp. apply H2. by eapply sublist_In. }
    destruct first.
    + destruct l as [|p0 l]; [apply ret_Ok in E as [-> _]; split; [done|]; by exists n|].
      destruct (Hrest (p0 :: l)) as (common' & needed' & -> & H1 & H2 & H3); [intros p Hp; by exists p|done|].
      split_and!; [done| |done]. exists (p0 :: l). split; [done|]. right. split; [done|]. by exists n.
    + destruct (Hrest (PruneCryptos l common)) as (common' & needed' & -> & H1 & H2 & H3); [|done|].
      * intros p Hp. apply filter_In in Hp as [_ Hp]. unfold CryptoNotFound in Hp. rewrite negb_involutive in Hp.
        apply existsb_exists in Hp as (q & Hq & E2). exists q. split; [done|]. by apply bool_decide_eq_true in E2.
      * split_and!; [done| |done]. exists common. split; [|by left]. etrans; [exact H2|]. apply filter_sublist.
  - apply IH in E. destruct r as [[common' needed']|]; [|by destruct E]. destruct E as (I1 & I2 & I3). split; [done|].
    split; [destruct I2 as (from & ? & [->|[? _]]); [exists common; by split; [|left]|done]|]. intros m [<-|Hm] Hrm; [congruence|]. by apply I3.
Qed.

Lemma same_transports (s s' : Session) n i : GetTransportInfoByName n s = Some i -> transport_infos_ s' = transport_infos_ s -> GetTransportInfoByName n s' = Some i.
Proof. unfold GetTransportInfoByName. by intros ? ->. Qed.

(** The crypto parameters after UpdateCryptoParamsForBundle: as they were, if
    the first content is of RTP and has none; or common to all RTP contents of
    the group, and taken from the first. *)
Lemma UpdateCryptoParamsForBundle_spec b s g s' g' : UpdateCryptoParamsForBundle b s g = Ok s' g' ->
  (s' = s /\ exists n, FirstContentName b = Some n /\ IsRtpContent s n = true /\ GetCryptosByName s n = Some []) \/
  exists common from, (forall n, IsRtpContent s' n = IsRtpContent s n) /\
    (forall n, rtp_member b s n -> GetCryptosByName s' n = Some common) /\
    (forall n, ~ In n (content_names_ b) -> GetCryptosByName s' n = GetCryptosByName s n) /\
    sublist common from /\ (from = [] \/ exists n, rtp_member b s n /\ GetCryptosByName s n = Some from) /\
    (common = [] -> forall n, rtp_member b s n -> exists i, GetTransportInfoByName n s = Some i /\ secure (description i) = true).
Proof.
  unfold UpdateCryptoParamsForBundle. destruct (FirstContentName b) as [n0|] eqn:En; [|done]. intros E. outcome_inv. unfold FirstContentName in En.
  match goal with H : common_cryptos _ _ _ _ _ _ = _ |- _ => apply common_cryptos_spec in H as Hs; clear H end.
  match type of Hs with match ?x with Some _ => _ | None => _ end => destruct x as [[common needed]|] end; outcome_inv.
  - right. destruct Hs as (_ & (from & Hsub & Hfrom) & Hs). exists common, from. destruct (set_all_cryptos common (content_names_ b) s) as (A1 & A2 & A3).
    split_and!; [done|intros n [? ?]; by apply A2|done|done| |].
    + destruct Hfrom as [->|(_ & n & Hn & Hr & Hl)]; [by left|right]. exists n. split; [|done]. split; [|done].
      destruct (content_names_ b); [done|]. injection Hn as ->. by left.
    + intros -> n [H1 H2]. destruct (Hs n H1 H2) as [(i & Hi & Hn) _]. exists i. split; [done|]. destruct (secure (description i)); [done|].
      by rewrite Hn in * by done.
  - left. destruct Hs as (_ & n & Hn & Hr & Hl). split; [done|]. exists n. split_and!; [|done..]. congruence.
Qed.

Lemma same_contents (s s' : Session) : contents_ s' = contents_ s ->
  (forall n, IsRtpContent s' n = IsRtpContent s n) /\ forall n, GetCryptosByName s' n = GetCryptosByName s n.
Proof.
  intros E. assert (Hg : forall n, GetContentByName n s' = GetContentByName n s) by (intros n; unfold GetContentByName; by rewrite E).
  split; intros n; [unfold IsRtpContent|unfold GetCryptosByName]; by rewrite Hg.
Qed.

Lemma bundle_bundled b s0 s s1 g s' g' : contents_ s = contents_ s0 -> base.NoDup (map content_name (transport_infos_ s)) ->
  UpdateTransportInfoForBundle b s = Some s1 -> UpdateCryptoParamsForBundle b s1 g = Ok s' g' -> bundled b s0 s'.
Proof.
  intros H0 Hnd Ht Ec. destruct (UpdateTransportInfoForBundle_credentials b s s1 Hnd Ht) as (c & Hc).
  pose proof (UpdateCryptoParamsForBundle_keeps _ _ _ _ _ Ec) as (_ & _ & Hti). pose proof (UpdateTransportInfoForBundle_keeps _ _ _ Ht) as (T1 & _).
  rewrite H0 in T1. destruct (same_contents _ _ T1) as [Hr Hk].
  destruct (UpdateCryptoParamsForBundle_spec _ _ _ _ _ Ec) as [[-> (n & _ & Hn1 & Hn2)]|(common & from & A1 & A2 & _ & _ & _ & A3)]; split.
  1,4: intros i j Hi Hj Hni Hnj; rewrite ?Hti in Hi, Hj; by rewrite (Hc i), (Hc j).
  - done.
  - left. exists n. rewrite <- Hr, <- Hk. by split_and!.
  - intros n. by rewrite A1.
  - right. assert (Hr' : forall n, rtp_member b s' n -> rtp_member b s1 n) by (intros n [Hin Hn]; rewrite A1 in Hn; by split).
    exists common. split; [intros n Hn%Hr'; by apply A2|]. intros E n Hn%Hr'. destruct (A3 E n Hn) as (i & Hi & Hs). exists i.
    split; [by eapply same_transports|done].
Qed.

(** The bundle of an answer is a part of that of the offer. *)
Lemma answer_bundle_names (cs : list Content) ob b : forall b0,
  b = fold_left (fun g c => if negb (rejected c) && HasContentName (name c) ob then AddContentName (name c) g else g) cs b0 ->
  semantics_ b = semantics_ b0 /\
  forall n, In n (content_names_ b) -> In n (content_names_ b0) \/ HasContentName n ob = true /\ exists c, In c cs /\ name c = n /\ rejected c = false.
Proof.
  revert b; induction cs as [|c cs IH]; intros b b0 ->; cbn [fold_left]; [split; [done|]; by left|].
  edestruct IH as [I1 I2]; [reflexivity|]. rewrite I1. set (b1 := if negb (rejected c) && _ then _ else b0) in *.
  assert (Hb1 : semantics_ b1 = semantics_ b0 /\ forall n, In n (content_names_ b1) -> In n (content_names_ b0) \/ (HasContentName n ob = true /\ name c = n /\ rejected c = false)).
  { unfold b1, AddContentName. destruct (rejected c) eqn:Er; cbn [negb andb]; [split; [done|]; by left|].
    destruct (HasContentName (name c) ob) eqn:Eo; [|split; [done|]; by left].
    destruct (HasContentName (name c) b0); cbn [negb]; [split; [done|]; by left|].
    cbn. split; [done|]. intros n [Hn|[<-|[]]]%in_app_iff; [by left|]. right. by split_and!. }
  destruct Hb1 as [B1 B2]. split; [done|]. intros n [Hn|(H1 & d & H2 & H3 & H4)]%I2.
  - apply B2 in Hn as [Hn|(H1 & H2 & H3)]; [by left|]. right. split; [done|]. exists c. by split_and!; [left|..].
  - right. split; [done|]. exists d. by split_and!; [right|..].
Qed.

Lemma offer_bundle_names (cs : list Content) : forall b0, base.NoDup (content_names_ b0 ++ map name cs) ->
  fold_left (fun g c => AddContentName (name c) g) cs b0 = mkGroup (semantics_ b0) (content_names_ b0 ++ map name cs).
Proof.
  induction cs as [|c cs IH]; intros b0 Hnd; cbn [fold_left map]; [rewrite app_nil_r; by destruct b0|].
  assert (Hc : HasContentName (name c) b0 = false).
  { apply bool_decide_eq_false. intros Hin. apply NoDup_app in Hnd as (_ & Hnd & _). apply (Hnd _ Hin). by left. }
  assert (Hadd : AddContentName (name c) b0 = mkGroup (semantics_ b0) (content_names_ b0 ++ [name c])) by (unfold AddContentName; by rewrite Hc).
  rewrite Hadd, IH; cbn [content_names_ semantics_]; rewrite <- app_assoc; done.
Qed.

Lemma recrypted_names (l l' : list Content) : Forall2 recrypted l l' -> map name l' = map name l /\ map rejected l' = map rejected l.
Proof.
  induction 1 as [|c c' l l' Hc _ [I1 I2]]; [done|]. cbn. rewrite I1, I2. by destruct Hc as [->|[? ->]].
Qed.

Lemma offer_bundled fuel f options current g offer g' : CreateOffer fuel f options current g = Ok offer g' -> bundle_enabled options = true ->
  exists b s0, content_groups_ offer = [b] /\ semantics_ b = GROUP_TYPE_BUNDLE /\ content_names_ b = map name (contents_ offer) /\
    offer_ok f options current (offered_media options) s0 /\ bundled b s0 offer.
Proof.
  intros (s0 & g0 & Hok & E)%CreateOffer_contents Hb. pose proof Hok as [_ H2 H3 H4]. rewrite Hb in E. unfold bundle_offer in E.
  assert (Hnd : base.NoDup (map content_name_of (offered_media options))).
  { unfold offered_media. cbn. destruct (has_audio options), (has_video options), (has_data options);
      match goal with |- base.NoDup ?l => refine (bool_decide_unpack (base.NoDup l) _) end; vm_compute; exact I. }
  rewrite offer_bundle_names in E by (cbn; by rewrite H3). cbn [semantics_ content_names_ app] in E. outcome_inv.
  match goal with Ht : UpdateTransportInfoForBundle ?b0 _ = Some _, Hc : UpdateCryptoParamsForBundle _ _ _ = Ok _ _ |- _ =>
    exists b0, s0; pose proof (UpdateTransportInfoForBundle_keeps _ _ _ Ht) as (T1 & T2 & _); pose proof (UpdateCryptoParamsForBundle_keeps _ _ _ _ _ Hc) as (C1 & C2 & _);
    split; [|split; [done|split; [|split; [done|by eapply bundle_bundled; [| |exact Ht|exact Hc]; [done|]; cbn; rewrite H2]]]] end.
  + rewrite C2, T2. cbn. by rewrite H4.
  + cbn. rewrite T1 in C1. apply recrypted_names in C1 as [-> _]. done.
Qed.

Lemma answer_bundled fuel f options current offer g answer g' : CreateAnswer fuel f offer options current g = Ok answer g' ->
  forall b, In b (content_groups_ answer) -> semantics_ b = GROUP_TYPE_BUNDLE /\ bundle_enabled options = true /\
    (exists s0, answer_ok (content_made f offer options current) (answered_contents offer) s0 /\ bundled b s0 answer) /\
    exists ob, GetGroupByName GROUP_TYPE_BUNDLE offer = Some ob /\
      forall n, In n (content_names_ b) -> HasContentName n ob = true /\ exists c, In c (contents_ answer) /\ name c = n /\ rejected c = false.
Proof.
  intros (s0 & g0 & Hok & Hg & E)%CreateAnswer_contents b Hb. unfold bundle_answer in E.
  assert (Hnone : answer = s0 -> False) by (intros ->; by rewrite Hg in Hb).
  destruct (GetGroupByName GROUP_TYPE_BUNDLE offer) as [ob|]; [|apply ret_Ok in E as [? _]; by exfalso; auto].
  destruct (bundle_enabled options); [|apply ret_Ok in E as [? _]; by exfalso; auto].
  set (b1 := fold_left _ _ _) in E. destruct (FirstContentName b1); [|apply ret_Ok in E as [? _]; by exfalso; auto]. outcome_inv.
  match goal with Ht : UpdateTransportInfoForBundle _ _ = Some _, Hc : UpdateCryptoParamsForBundle _ _ _ = Ok _ _ |- _ =>
    pose proof (UpdateTransportInfoForBundle_keeps _ _ _ Ht) as (T1 & T2 & _); pose proof (UpdateCryptoParamsForBundle_keeps _ _ _ _ _ Hc) as (C1 & C2 & _);
    assert (Hb1 : bundled b1 s0 answer) by (eapply bundle_bundled; [|  |exact Ht|exact Hc]; [done|]; cbn; apply Hok) end.
  rewrite C2, T2 in Hb. cbn in Hb. rewrite Hg in Hb. destruct Hb as [<-|[]].
  destruct (answer_bundle_names (contents_ s0) ob b1 (mkGroup GROUP_TYPE_BUNDLE []) eq_refl) as [S1 S2].
  split; [done|]. split; [done|]. split; [by exists s0|]. exists ob. split; [done|]. intros n [[]|(H1 & c & H2 & H3 & H4)]%S2. split; [done|].
  rewrite T1 in C1. cbn in C1. apply list_elem_of_In, list_elem_of_lookup in H2 as [k Hk]. destruct (Forall2_lookup_l _ _ _ _ _ C1 Hk) as (c' & Hk' & Hcc).
  exists c'. split; [apply list_elem_of_In; by eapply list_elem_of_lookup_2|]. by destruct Hcc as [->|[? ->]].
Qed.

End Bundle.
End MediaBundle.
