(* ===== verification/MediaNegotiation.v ===== *)
(** * From descriptions to SRTP

    An offer and its answer, made by two factories, given to the SRTP filters
    of both ends: the composition of mediasession.cc with srtpfilter.cc. *)

From stdpp Require Import gmap sorting.
From S2P Require Import Prelude ByteOrder StringConv Codec Helpers StreamParams SrtpFilter MediaSession SrtpNegotiation SessionDescription TransportFactory MediaDescription CodecOffer MediaOffer MediaFactory MediaAnswer MediaOffered MediaBundle Outcome.
Import Codec SessionDescription MediaDescription CodecOffer MediaSession MediaOffer MediaFactory MediaAnswer MediaOffered MediaBundle Outcome.
Import SrtpFilter (CryptoParams, cipher_suite).
Open Scope jingle_scope.

Module MediaNegotiation.

Definition well_formed (p : CryptoParams) : Prop := exists k, wf_params p k.

Section Random.
Context `{HM : Machine} `{HR : Helpers.RandomGenerator} `{HS : PreferenceSort}.

Lemma SelectCrypto_spec ty l bundle g p g' : SelectCrypto ty l bundle g = (Some p, g') ->
  well_formed p /\ exists o, In o l /\ SrtpFilter.Matches p o = true /\ find (selectable ty bundle) l = Some o.
Proof.
  unfold SelectCrypto. destruct (find _ l) as [o|] eqn:E; [|done]. intros Hc.
  apply find_some in E as [Hin Hsel]. apply CreateCryptoParams_wf in Hc as (Ht & Hs & Hwf).
  - split; [done|]. exists o. split_and!; [done| |done]. unfold SrtpFilter.Matches. by rewrite Ht, Hs, Z.eqb_refl, bool_decide_eq_true_2.
  - unfold selectable in Hsel. apply orb_true_iff in Hsel as [H|H]; [left; by apply bool_decide_eq_true in H|right].
    repeat (apply andb_true_iff in H as [H _]). by apply bool_decide_eq_true in H.
Qed.

Lemma CreateMediaCryptos_wf suites g l g' : (forall cs, cs ∈ suites -> cs = SrtpFilter.CS_AES_CM_128_HMAC_SHA1_80 \/ cs = SrtpFilter.CS_AES_CM_128_HMAC_SHA1_32) ->
  CreateMediaCryptos suites [] g = (Some l, g') -> Forall well_formed l /\ map cipher_suite l = suites.
Proof.
  unfold CreateMediaCryptos. destruct (create_cryptos suites [] g) as [[ps|] g1] eqn:E; [|done]. intros Hs [= <- <-].
  unfold AddMediaCryptos. cbn [app]. by apply create_cryptos_wf in E as [Hwf Hm]; [|done|apply List.Forall_nil].
Qed.

Lemma offered_names options : base.NoDup (map content_name_of (offered_media options)).
Proof.
  unfold offered_media. cbn. destruct (has_audio options), (has_video options), (has_data options);
    match goal with |- base.NoDup ?l => refine (bool_decide_unpack (base.NoDup l) _) end; vm_compute; exact I.
Qed.

Lemma supported_known ty cs : cs ∈ supported_suites ty -> cs = SrtpFilter.CS_AES_CM_128_HMAC_SHA1_80 \/ cs = SrtpFilter.CS_AES_CM_128_HMAC_SHA1_32.
Proof. rewrite list_elem_of_In. destruct ty; cbn; intuition. Qed.

(** ** The crypto parameters that a bundle leaves *)

(** RTP contents stay RTP contents.  The crypto parameters of one are as they
    were, or some of those of a member of a group that both are in. *)
Definition cryptos_from (G : bytes -> bytes -> Prop) (s s' : Session) : Prop :=
  (forall n, IsRtpContent s' n = IsRtpContent s n) /\
  forall n, IsRtpContent s n = true -> exists m l l', GetCryptosByName s m = Some l /\ IsRtpContent s m = true /\
    GetCryptosByName s' n = Some l' /\ (m = n /\ l' = l \/ G m n /\ sublist l' l).

Lemma rtp_cryptos (s : Session) n : IsRtpContent s n = true -> exists c d, GetContentByName n s = Some c /\ IsMediaContent c = true /\
  content c = Some d /\ is_rtp_protocol (protocol_ (base_of d)) = true /\ GetCryptosByName s n = Some (cryptos_ (base_of d)).
Proof.
  unfold IsRtpContent, GetCryptosByName. destruct (GetContentByName n s) as [c|]; [|done]. destruct (IsMediaContent c) eqn:E; [|done].
  destruct (content c) as [d|] eqn:Ed; [|done]. intros Hp. exists c, d. by split_and!.
Qed.

Lemma cryptos_from_refl G s : cryptos_from G s s.
Proof.
  split; [done|]. intros n Hr. destruct (rtp_cryptos s n Hr) as (c & d & _ & _ & _ & _ & E). eexists n, _, _. split_and!; [done..|by left].
Qed.

Lemma cryptos_from_same (G : bytes -> bytes -> Prop) s s1 s' : contents_ s1 = contents_ s -> cryptos_from G s1 s' -> cryptos_from G s s'.
Proof.
  intros Hc. assert (Hg : forall n, GetContentByName n s1 = GetContentByName n s) by (intros; unfold GetContentByName; by rewrite Hc).
  assert (Hr : forall n, IsRtpContent s1 n = IsRtpContent s n) by (intros; unfold IsRtpContent; by rewrite Hg).
  assert (Hk : forall n, GetCryptosByName s1 n = GetCryptosByName s n) by (intros; unfold GetCryptosByName; by rewrite Hg).
  intros [H1 H2]. split; [intros n; by rewrite H1|]. intros n Hn. rewrite <- Hr in Hn. destruct (H2 n Hn) as (m & l & l' & E1 & E2 & E3 & E4).
  exists m, l, l'. by rewrite <- Hk, <- Hr.
Qed.

Lemma UpdateCryptoParamsForBundle_from b s g s' g' : UpdateCryptoParamsForBundle b s g = Ok s' g' ->
  cryptos_from (fun m n => In m (content_names_ b) /\ In n (content_names_ b)) s s'.
Proof.
  intros [[-> _]|(common & from & A1 & A2 & A3 & Hsub & Hfrom & _)]%UpdateCryptoParamsForBundle_spec; [apply cryptos_from_refl|].
  split; [done|]. intros n Hr. destruct (rtp_cryptos s n Hr) as (c & d & _ & _ & _ & _ & Ec).
  destruct (decide (n ∈ content_names_ b)) as [Hin|Hn]; rewrite list_elem_of_In in *.
  - destruct Hfrom as [->|(m & [Hm Hrm] & Hl)].
    + eexists n, _, common. split_and!; [done|done|by apply A2|]. right. split; [done|]. etrans; [exact Hsub|apply sublist_nil_l].
    + exists m, from, common. split_and!; [done|done|by apply A2|]. by right.
  - eexists n, _, _. split_and!; [done|done|by rewrite A3|by left].
Qed.

(** ** The crypto parameters of an offer *)

Section Ends.
Variables (fuel_a fuel_b : nat) (fa fb : MediaSessionDescriptionFactory) (oa ob : MediaSessionOptions).

Lemma offer_cryptos_from g offer g' : CreateOffer fuel_a fa oa None g = Ok offer g' ->
  exists s0, offer_ok fa oa None (offered_media oa) s0 /\ cryptos_from (fun _ _ => bundle_enabled oa = true) s0 offer /\ Forall2 recrypted (contents_ s0) (contents_ offer).
Proof.
  intros (s0 & g0 & Hok & E)%CreateOffer_contents. exists s0. split; [done|]. destruct (bundle_enabled oa); [|apply ret_Ok in E as [-> _]; split; [apply cryptos_from_refl|apply recrypted_refl]].
  unfold bundle_offer in E. outcome_inv.
  match goal with Ht : UpdateTransportInfoForBundle _ _ = Some _, Hc : UpdateCryptoParamsForBundle _ _ _ = Ok _ _ |- _ =>
    pose proof (UpdateTransportInfoForBundle_keeps _ _ _ Ht) as (T1 & _); pose proof (UpdateCryptoParamsForBundle_keeps _ _ _ _ _ Hc) as (C1 & _);
    apply UpdateCryptoParamsForBundle_from in Hc as Hf end.
  rewrite T1 in C1. split; [|exact C1]. eapply (cryptos_from_same _ _ _ _ T1). destruct Hf as [F1 F2]. split; [done|]. intros n Hn.
  destruct (F2 n Hn) as (m & l & l' & ? & ? & ? & [?|[? ?]]); exists m, l, l'; split_and!; auto.
Qed.

Lemma offered_rtp s0 n : offer_ok fa oa None (offered_media oa) s0 -> IsRtpContent s0 n = true ->
  exists l, GetCryptosByName s0 n = Some l /\ Forall well_formed l /\ (secure_ fa <> SEC_DISABLED -> l <> []) /\ (secure_ fa = SEC_DISABLED -> l = []).
Proof.
  intros [H1 _ _ _] Hr. destruct (rtp_cryptos s0 n Hr) as (c & d & Ec & _ & Ed & Hp & El). eexists. split; [exact El|].
  unfold GetContentByName, FindContentInfoByName in Ec. apply find_some in Ec as [Hin _]. apply list_elem_of_In, list_elem_of_lookup in Hin as [k Hk].
  destruct (Forall2_lookup_r _ _ _ _ _ H1 Hk) as (ty & _ & t & Hc & _). destruct Hc as [_ _ _ (d' & Ed' & Hd) _].
  rewrite Ed in Ed'. injection Ed' as <-. destruct Hd as [_ _ _ _ Hproto Hcr].
  assert (Hsctp : is_sctp oa ty = false).
  { unfold offer_protocol in Hproto. destruct (is_sctp oa ty); [|done]. rewrite Hproto in Hp. by destruct (secure_transport fa). }
  unfold cryptos_offered, policy_of, sdes_policy in Hcr. rewrite Hsctp in Hcr. cbn [IsDtlsActive] in Hcr.
  assert (Hnone : current_cryptos None ty = None) by by destruct ty. rewrite Hnone in Hcr.
  destruct (secure_ fa); [by rewrite Hcr| |]; destruct Hcr as [(g1 & g2 & Hl) _]; apply CreateMediaCryptos_wf in Hl as [Hw Hm];
    [split_and!; [done|intros _ Hn; rewrite Hn in Hm; by destruct ty|done]|apply supported_known|split_and!; [done|intros _ Hn; rewrite Hn in Hm; by destruct ty|done]|apply supported_known].
Qed.

Lemma offer_cryptos_wf g offer g' n : CreateOffer fuel_a fa oa None g = Ok offer g' -> IsRtpContent offer n = true ->
  exists l, GetCryptosByName offer n = Some l /\ Forall well_formed l.
Proof.
  intros (s0 & Hok & [F1 F2] & _)%offer_cryptos_from Hr. rewrite F1 in Hr. destruct (F2 n Hr) as (m & l & l' & E1 & E2 & E3 & E4).
  exists l'. split; [done|]. destruct (offered_rtp s0 m Hok E2) as (l0 & E5 & Hw & _ & _). rewrite E1 in E5. injection E5 as <-.
  destruct E4 as [[_ ->]|[_ Hs]]; [done|]. apply List.Forall_forall. intros p Hp. eapply List.Forall_forall in Hw; [done|]. by eapply sublist_In.
Qed.
(** All contents of a bundled offer have the same crypto parameters. *)
Lemma offer_cryptos_agree g offer g' n m l k : CreateOffer fuel_a fa oa None g = Ok offer g' -> bundle_enabled oa = true ->
  IsRtpContent offer n = true -> IsRtpContent offer m = true -> GetCryptosByName offer n = Some l -> GetCryptosByName offer m = Some k -> l = k.
Proof.
  intros (s0 & g0 & Hok & E)%CreateOffer_contents Hb. rewrite Hb in E. unfold bundle_offer in E.
  pose proof Hok as [H1 H2 H3 H4].
  rewrite offer_bundle_names in E by (cbn; rewrite H3; apply offered_names). cbn [semantics_ content_names_ app] in E. outcome_inv.
  match goal with Ht : UpdateTransportInfoForBundle ?b0 _ = Some ?s1, Hc : UpdateCryptoParamsForBundle _ _ _ = Ok _ _ |- _ =>
    set (b := b0) in *; rename s1 into s9; pose proof (UpdateTransportInfoForBundle_keeps _ _ _ Ht) as (T1 & _);
    apply UpdateCryptoParamsForBundle_spec in Hc as Hs end. cbn [contents_ AddGroup] in T1.
  assert (Hg : forall n, GetContentByName n s9 = GetContentByName n s0) by (intros x; unfold GetContentByName; by rewrite T1).
  assert (Hr : forall n, IsRtpContent s9 n = IsRtpContent s0 n) by (intros x; unfold IsRtpContent; by rewrite Hg).
  assert (Hk : forall n, GetCryptosByName s9 n = GetCryptosByName s0 n) by (intros x; unfold GetCryptosByName; by rewrite Hg).
  assert (Hmem : forall x, IsRtpContent s0 x = true -> rtp_member b s9 x).
  { intros x Hx. split; [|by rewrite Hr]. destruct (rtp_cryptos s0 x Hx) as (c & d & Ec & _). apply find_some in Ec as [Hin Hn].
    apply bool_decide_eq_true in Hn as <-. cbn. by apply in_map. }
  destruct Hs as [[-> (n0 & _ & Hr0 & Hl0)]|(common & from & A1 & A2 & _)].
  - rewrite Hr in Hr0. rewrite Hk in Hl0. destruct (offered_rtp s0 n0 Hok Hr0) as (l0 & E0 & _ & Hd & _). rewrite Hl0 in E0. injection E0 as <-.
    assert (Hdis : secure_ fa = SEC_DISABLED) by (destruct (secure_ fa); [done|by destruct Hd..]).
    rewrite !Hr, !Hk. intros Hn Hm. destruct (offered_rtp s0 n Hok Hn) as (? & -> & _ & _ & Hn0), (offered_rtp s0 m Hok Hm) as (? & -> & _ & _ & Hm0).
    rewrite Hn0, Hm0 by done. congruence.
  - rewrite !A1, !Hr. intros Hn Hm. rewrite (A2 n), (A2 m) by auto. congruence.
Qed.

(** The names and media of the contents of an offer, and their transports. *)
Record offer_shape (offer : Session) : Prop := {
  os_names : base.NoDup (map name (contents_ offer));
  os_media : forall c, In c (contents_ offer) -> exists d, content c = Some d /\ name c = content_name_of (media_type d);
  os_transport : forall c, In c (contents_ offer) -> exists t, GetTransportDescription (name c) (Some offer) = Some t /\ secure t = secure_transport fa;
}.

Lemma CreateOffer_shape g offer g' : CreateOffer fuel_a fa oa None g = Ok offer g' -> offer_shape offer.
Proof.
  intros (s0 & g0 & [H1 H2 H3 _] & E)%CreateOffer_contents.
  assert (Hk : Forall2 recrypted (contents_ s0) (contents_ offer) /\ Forall2 recredited (transport_infos_ s0) (transport_infos_ offer)).
  { destruct (bundle_enabled oa); [|apply ret_Ok in E as [-> _]; split; [apply recrypted_refl|apply recredited_refl]].
    unfold bundle_offer in E. outcome_inv.
    match goal with Ht : UpdateTransportInfoForBundle _ _ = Some _, Hc : UpdateCryptoParamsForBundle _ _ _ = Ok _ _ |- _ =>
      apply UpdateTransportInfoForBundle_keeps in Ht as (T1 & _ & T3); apply UpdateCryptoParamsForBundle_keeps in Hc as (C1 & _ & C3) end.
    rewrite T1 in C1. by rewrite C3. }
  destruct Hk as [Hc Ht]. assert (Hfrom : forall c, In c (contents_ offer) -> exists ty c0 t, In c0 (contents_ s0) /\ recrypted c0 c /\
    content_offered fa oa None (secure_transport fa) ty c0 t /\ GetTransportInfoByName (name c0) s0 = Some (mkTransportInfo (name c0) t)).
  { intros c [k Hk]%list_elem_of_In%list_elem_of_lookup. destruct (Forall2_lookup_r _ _ _ _ _ Hc Hk) as (c0 & Hk0 & Hr).
    destruct (Forall2_lookup_r _ _ _ _ _ H1 Hk0) as (ty & _ & t & Ho & Hf). exists ty, c0, t. split_and!; try done.
    apply list_elem_of_In. by eapply list_elem_of_lookup_2. }
  split.
  - destruct (recrypted_names _ _ Hc) as [-> _]. rewrite H3. apply offered_names.
  - intros c (ty & c0 & t & _ & Hr & [Hn _ _ (d & Ed & Hd) _] & _)%Hfrom. destruct Hd as [Hty _ _ _ _ _].
    destruct Hr as [->|[l ->]]; [exists d; by rewrite Hty|]. cbn [content name]. rewrite Ed. eexists. split; [done|].
    by destruct d; rewrite Hn; rewrite <- Hty.
  - intros c (ty & c0 & t & _ & Hr & [Hn _ _ _ Hto] & Hf)%Hfrom. destruct (find_recredited _ _ _ _ Ht Hf) as (i & Ei & Hi).
    assert (name c = name c0) as -> by (by destruct Hr as [->|[? ->]]). exists (description i). unfold GetTransportDescription, GetTransportInfoByName. rewrite Ei. split; [done|].
    destruct Hto as [(tf & Hf1 & Hf2) _]. unfold secure_transport. rewrite Hf1, <- Hf2. by destruct Hi as [->|(? & ? & ->)].
Qed.
(** ** The crypto parameters of an answer *)

Lemma first_shape offer ty c : offer_shape offer -> GetFirstMediaContent ty offer = Some c ->
  In c (contents_ offer) /\ name c = content_name_of ty /\ GetContentByName (name c) offer = Some c.
Proof.
  intros [H1 H2 _] E. destruct (first_of offer ty c E) as (d & Ed & Hty). apply find_some in E as [Hin _].
  destruct (H2 c Hin) as (d' & Ed' & Hn). rewrite Ed in Ed'. injection Ed' as <-. rewrite Hty in Hn. split_and!; [done..|].
  unfold GetContentByName, FindContentInfoByName. clear -H1 Hin. induction (contents_ offer) as [|x l IH]; [done|]. cbn in *. apply NoDup_cons in H1 as [Hx Hnd].
  destruct Hin as [->|Hin]; [by rewrite bool_decide_eq_true_2|]. rewrite bool_decide_eq_false_2; [by apply IH|].
  intros Hn. apply Hx. rewrite Hn. by apply list_elem_of_In, in_map.
Qed.

Lemma answered_names offer : offer_shape offer -> base.NoDup (map (fun x => name x.2) (answered_contents offer)).
Proof.
  intros Hs. assert (Hm : map (fun x => name x.2) (answered_contents offer) = map content_name_of (map fst (answered_contents offer))).
  { rewrite map_map. apply map_ext_in. intros [ty c] Hin. unfold answered_contents in Hin. apply in_flat_map in Hin as (ty' & _ & Hin).
    destruct (GetFirstMediaContent ty' offer) as [c'|] eqn:E; [|done]. destruct Hin as [[= <- <-]|[]]. by apply (first_shape offer ty' c'). }
  rewrite Hm. unfold answered_contents. cbn.
  destruct (GetFirstMediaContent MEDIA_TYPE_AUDIO offer), (GetFirstMediaContent MEDIA_TYPE_VIDEO offer), (GetFirstMediaContent MEDIA_TYPE_DATA offer);
    match goal with |- base.NoDup ?l => refine (bool_decide_unpack (base.NoDup l) _) end; vm_compute; exact I.
Qed.

(** The transports do not use DTLS. *)
Definition no_dtls : Prop := secure_transport fa && secure_transport fb = false.

Lemma answer_insecure offer ty c t : offer_shape offer -> no_dtls -> GetFirstMediaContent ty offer = Some c ->
  (exists tf, transport_desc_factory_ fb = Some tf /\ transport_answered offer (name c) t tf) -> secure t = false.
Proof.
  intros Hs Hd Hc (tf & Hf & [_ Hsec _]). destruct (first_shape _ _ _ Hs Hc) as (Hin & _). destruct (os_transport _ Hs c Hin) as (t' & Ht & Es).
  rewrite Ht, Es in Hsec. unfold no_dtls, secure_transport at 2 in Hd. rewrite Hf in Hd. congruence.
Qed.

(** A content of the answer has one key, for one of the offer. *)
Definition answers_crypto (offer : Session) (m : bytes) (l : list CryptoParams) : Prop :=
  exists crypto o k, l = [crypto] /\ well_formed crypto /\ GetCryptosByName offer m = Some k /\ In o k /\ SrtpFilter.Matches crypto o = true.

Lemma made_content offer s0 m : offer_shape offer -> answer_ok (content_made fb offer ob None) (answered_contents offer) s0 ->
  forall a, GetContentByName m s0 = Some a -> exists ty c t, GetFirstMediaContent ty offer = Some c /\ content_made fb offer ob None ty c a t /\
    (rejected a = false -> GetTransportInfoByName m s0 = Some (mkTransportInfo m t)) /\ name a = m.
Proof.
  intros Hs [H1 _ _] a Ha. apply find_some in Ha as [Hin Hn]. apply bool_decide_eq_true in Hn. apply list_elem_of_In, list_elem_of_lookup in Hin as [k Hk].
  destruct (Forall2_lookup_r _ _ _ _ _ H1 Hk) as ([ty c] & Hx & t & Hmade & Ht). exists ty, c, t. rewrite Hn in Ht. split_and!; try done.
  apply list_elem_of_lookup_2, list_elem_of_In, in_flat_map in Hx as (ty' & _ & Hx). destruct (GetFirstMediaContent ty' offer) eqn:E; [|done].
  by destruct Hx as [[= <- <-]|[]].
Qed.

Lemma made_cryptos offer s0 m : offer_shape offer -> no_dtls -> secure_ fb = SEC_REQUIRED ->
  answer_ok (content_made fb offer ob None) (answered_contents offer) s0 -> IsRtpContent s0 m = true ->
  exists l, GetCryptosByName s0 m = Some l /\ answers_crypto offer m l /\ IsRtpContent offer m = true.
Proof.
  intros Hs Hd Hreq Hok Hr. destruct (rtp_cryptos s0 m Hr) as (a & e & Ea & _ & Ee & Hp & El). eexists. split; [exact El|].
  destruct (made_content offer s0 m Hs Hok a Ea) as (ty & c & t & Hc & [Hans (d & e' & Ed & Ee' & Hsel)] & _ & Hna). rewrite Ee in Ee'. injection Ee' as <-.
  destruct Hans as [Hn Hty (d' & e'' & Ed' & Ee'' & _ & _ & Hm & _) Htr]. rewrite Ed in Ed'. injection Ed' as <-. rewrite Ee in Ee''. injection Ee'' as <-.
  rewrite (answer_insecure offer ty c t Hs Hd Hc Htr), Hreq in Hsel. destruct (first_shape _ _ _ Hs Hc) as (Hin & _ & Hget).
  assert (Hmedia : IsMediaContent c = true).
  { apply find_some in Hc as [_ Hc]. unfold IsMediaContentOfType in Hc. by apply andb_true_iff in Hc as []. }
  rewrite <- Hn, Hna in Hget. assert (Hl : GetCryptosByName offer m = Some (cryptos_ (base_of d))) by (unfold GetCryptosByName; rewrite Hget, Hmedia; by rewrite Ed).
  split.
  - destruct Hsel as ([[He _]|(crypto & sel & g1 & g2 & Hsel & He & Hcur)] & _ & Hne); [exfalso; apply Hne; [by right|done]|].
    destruct Hcur as [->|(k & Hk & _)]; [|by destruct ty]. apply SelectCrypto_spec in Hsel as (Hwf & o & Ho & Hmatch & _).
    exists sel, o, (cryptos_ (base_of d)). by split_and!.
  - unfold IsRtpContent. rewrite Hget, Hmedia, Ed. by rewrite <- (mi_protocol _ _ _ _ _ _ Hm).
Qed.

Lemma sublist_single {A} (l : list A) x : sublist l [x] -> l <> [] -> l = [x].
Proof. intros Hs Hl. inversion Hs as [|? ? ? Hn|? ? ? Hn]; subst; apply sublist_nil_r in Hn as ->; done. Qed.

Lemma answer_cryptos offer g answer g' n : CreateAnswer fuel_b fb offer ob None g = Ok answer g' -> offer_shape offer -> no_dtls ->
  secure_ fb = SEC_REQUIRED -> IsRtpContent answer n = true ->
  exists m l, GetCryptosByName answer n = Some l /\ answers_crypto offer m l /\ IsRtpContent offer n = true /\ IsRtpContent offer m = true /\
    (m = n \/ exists b, GetGroupByName GROUP_TYPE_BUNDLE offer = Some b).
Proof.
  intros (s0 & g0 & Hok & Hg & E)%CreateAnswer_contents Hs Hd Hreq Hr.
  assert (Hsame : forall s, s = s0 -> IsRtpContent s n = true -> exists m l, GetCryptosByName s n = Some l /\ answers_crypto offer m l /\
    IsRtpContent offer n = true /\ IsRtpContent offer m = true /\ (m = n \/ exists b, GetGroupByName GROUP_TYPE_BUNDLE offer = Some b)).
  { intros ? -> Hn. destruct (made_cryptos offer s0 n Hs Hd Hreq Hok Hn) as (l & H1 & H2 & H3). exists n, l. split_and!; try done. by left. }
  unfold bundle_answer in E. destruct (GetGroupByName GROUP_TYPE_BUNDLE offer) as [gb|] eqn:Egb; [|apply ret_Ok in E as [? _]; auto].
  destruct (bundle_enabled ob); [|apply ret_Ok in E as [? _]; auto].
  set (b := fold_left _ _ _) in E. destruct (FirstContentName b); [|apply ret_Ok in E as [? _]; auto]. outcome_inv.
  match goal with Ht : UpdateTransportInfoForBundle _ _ = Some ?s9, Hc : UpdateCryptoParamsForBundle _ _ _ = Ok _ _ |- _ =>
    rename s9 into s1; pose proof (UpdateTransportInfoForBundle_keeps _ _ _ Ht) as (T1 & _ & T3); apply UpdateCryptoParamsForBundle_spec in Hc as Hspec end.
  cbn [contents_ transport_infos_ AddGroup] in T1, T3.
  assert (Hget : forall x, GetContentByName x s1 = GetContentByName x s0) by (intros x; unfold GetContentByName; by rewrite T1).
  assert (Hrtp : forall x, IsRtpContent s1 x = IsRtpContent s0 x) by (intros x; unfold IsRtpContent; by rewrite Hget).
  assert (Hkeys : forall x, GetCryptosByName s1 x = GetCryptosByName s0 x) by (intros x; unfold GetCryptosByName; by rewrite Hget).
  destruct Hspec as [[-> _]|(common & from & A1 & A2 & A3 & A4 & A5 & A6)].
  { rewrite Hrtp in Hr. rewrite Hkeys. by apply Hsame. }
  rewrite A1, Hrtp in Hr. destruct (decide (n ∈ content_names_ b)) as [Hin|Hn]; rewrite list_elem_of_In in *.
  2:{ rewrite (A3 n Hn), Hkeys. by apply Hsame. }
  assert (Hmem : rtp_member b s1 n) by (split; [done|by rewrite Hrtp]).
  destruct (answer_bundle_names (contents_ s0) gb b (mkGroup GROUP_TYPE_BUNDLE []) eq_refl) as [_ S2].
  assert (Hne : common <> []).
  { intros Hc. destruct (A6 Hc n Hmem) as (i & Hi & Hsec). destruct (S2 n Hin) as [[]|(_ & a' & Ha' & Hna & Hra)].
    destruct (rtp_cryptos s0 n Hr) as (a & e & Ea & _). destruct (made_content offer s0 n Hs Hok a Ea) as (ty & c & t & Hfirst & [Hans _] & Ht & Hname).
    assert (a' = a) as ->.
    { pose proof (ao_contents _ _ _ Hok) as Hall. assert (Hnd : base.NoDup (map name (contents_ s0))).
      { assert (map name (contents_ s0) = map (fun x => name x.2) (answered_contents offer)) as ->; [|by apply answered_names].
        clear -Hall. induction Hall as [|x y xs ys (t & [[Hn _ _ _] _] & _) _ IH]; [done|]. cbn. by rewrite IH, Hn. }
      apply find_some in Ea as [Hina _]. clear -Ha' Hina Hna Hname Hnd. induction (contents_ s0) as [|x xs IH]; [done|]. cbn in Hnd. apply NoDup_cons in Hnd as [Hx Hnd].
      destruct Ha' as [->|Ha'], Hina as [->|Hina]; [done| | |by apply IH]; exfalso; apply Hx.
      - rewrite Hna, <- Hname. by apply list_elem_of_In, in_map.
      - rewrite Hname, <- Hna. by apply list_elem_of_In, in_map. }
    destruct (find_recredited n _ _ _ T3 (Ht Hra)) as (i' & Ei' & Hi'). unfold GetTransportInfoByName in Hi. rewrite Ei' in Hi. injection Hi as ->.
    assert (Hst : secure (description i) = secure t) by (by destruct Hi' as [->|(? & ? & ->)]).
    rewrite Hst, (answer_insecure offer ty c t Hs Hd Hfirst) in Hsec; [done|]. by destruct Hans. }
  destruct A5 as [->|(m & [Hm1 Hm2] & Hl)]; [by apply sublist_nil_r in A4|]. rewrite Hrtp in Hm2. rewrite Hkeys in Hl.
  destruct (made_cryptos offer s0 m Hs Hd Hreq Hok Hm2) as (lm & E1 & Hans & E2). rewrite Hl in E1. injection E1 as <-.
  destruct (made_cryptos offer s0 n Hs Hd Hreq Hok Hr) as (_ & _ & _ & E3).
  destruct Hans as (crypto & o & k & -> & Hans). apply sublist_single in A4; [|done]. subst common.
  exists m, [crypto]. split_and!; [by apply A2|by exists crypto, o, k|done|done|]. right. by exists gb.
Qed.

(** ** One set of keys for a bundle *)

(** The contents of a group share one set of ICE credentials, and its RTP
    contents their crypto parameters. *)
Record shares_keys (g : ContentGroup) (s : Session) (common : list CryptoParams) : Prop := {
  sk_credentials : forall i j, i ∈ transport_infos_ s -> j ∈ transport_infos_ s ->
    HasContentName (content_name i) g = true -> HasContentName (content_name j) g = true -> credentials_of i = credentials_of j;
  sk_cryptos : forall n, rtp_member g s n -> GetCryptosByName s n = Some common;
}.
Definition all_secure (g : ContentGroup) (s : Session) : Prop :=
  forall n, rtp_member g s n -> exists i, GetTransportInfoByName n s = Some i /\ secure (description i) = true.

Lemma offer_shares_keys g offer g' : CreateOffer fuel_a fa oa None g = Ok offer g' -> bundle_enabled oa = true ->
  exists b common, content_groups_ offer = [b] /\ semantics_ b = GROUP_TYPE_BUNDLE /\ content_names_ b = map name (contents_ offer) /\
    shares_keys b offer common /\ (common = [] -> secure_ fa = SEC_DISABLED \/ all_secure b offer).
Proof.
  intros E Hb. destruct (offer_bundled _ _ _ _ _ _ _ E Hb) as (b & s0 & Hg & Hsem & Hn & Hok & [Hc Hrtp Hk]). exists b.
  destruct Hk as [(n0 & Hr0 & Hl0 & Hsame)|(common & Hcom & Hsec)].
  - assert (Hdis : secure_ fa = SEC_DISABLED).
    { destruct (offered_rtp s0 n0 Hok Hr0) as (l & El & _ & Hd & _). rewrite Hl0 in El. injection El as <-. destruct (secure_ fa); [done|by destruct Hd..]. }
    exists []. split_and!; [done..| |by left]. split; [done|]. intros n [_ Hr]. rewrite Hrtp in Hr.
    destruct (offered_rtp s0 n Hok Hr) as (l & El & _ & _ & Hd). rewrite Hsame, El. by rewrite Hd.
  - exists common. split_and!; [done..|by split|]. intros Hcm. right. intros n Hm. by apply Hsec.
Qed.

(** What the crypto parameters of an answer's content were selected from. *)
Lemma made_selected offer s0 m : offer_shape offer -> answer_ok (content_made fb offer ob None) (answered_contents offer) s0 -> IsRtpContent s0 m = true ->
  exists ty d l, GetCryptosByName s0 m = Some l /\ IsRtpContent offer m = true /\ GetCryptosByName offer m = Some (cryptos_ d) /\
    cryptos_selected ty (answer_bundle_enabled offer ob) (if secure_transport fa && secure_transport fb then SEC_DISABLED else secure_ fb)
      (MediaAnswer.current_cryptos None ty) d l.
Proof.
  intros Hs Hok Hr. destruct (rtp_cryptos s0 m Hr) as (a & e & Ea & _ & Ee & Hp & El).
  destruct (made_content offer s0 m Hs Hok a Ea) as (ty & c & t & Hc & [Hans (d & e' & Ed & Ee' & Hsel)] & _ & Hna). rewrite Ee in Ee'. injection Ee' as <-.
  destruct Hans as [Hn Hty (d' & e'' & Ed' & Ee'' & _ & _ & Hm & _) (tf & Htf & [_ Htr _])]. rewrite Ed in Ed'. injection Ed' as <-. rewrite Ee in Ee''. injection Ee'' as <-.
  destruct (first_shape _ _ _ Hs Hc) as (Hin & _ & Hget). destruct (os_transport _ Hs c Hin) as (t' & Ht & Es). rewrite Ht, Es in Htr.
  assert (Hmedia : IsMediaContent c = true).
  { apply find_some in Hc as [_ Hc]. unfold IsMediaContentOfType in Hc. by apply andb_true_iff in Hc as []. }
  rewrite <- Hn, Hna in Hget. exists ty, (base_of d), (cryptos_ (base_of e)). split_and!; [done| | |].
  - unfold IsRtpContent. rewrite Hget, Hmedia, Ed. by rewrite <- (mi_protocol _ _ _ _ _ _ Hm).
  - unfold GetCryptosByName. rewrite Hget, Hmedia. by rewrite Ed.
  - assert (secure_transport fa && secure_transport fb = secure t) as ->; [|exact Hsel]. rewrite Htr. f_equal. unfold secure_transport. by rewrite Htf.
Qed.

(** What the contents of an answer have before they are bundled: nothing or
    something, all of them. *)
Lemma made_empty g offer g' s0 n m l : CreateOffer fuel_a fa oa None g = Ok offer g' -> bundle_enabled oa = true -> answer_bundle_enabled offer ob = true ->
  answer_ok (content_made fb offer ob None) (answered_contents offer) s0 ->
  (secure_ fb = SEC_ENABLED -> forall k h, (Helpers.CreateRandomString k h).1 <> None) ->
  IsRtpContent s0 n = true -> IsRtpContent s0 m = true -> GetCryptosByName s0 n = Some [] -> GetCryptosByName s0 m = Some l -> l = [].
Proof.
  intros Eo Hba Hbb Hok Hgen Hn Hm Ln Lm. pose proof (CreateOffer_shape _ _ _ Eo) as Hs.
  destruct (made_selected offer s0 n Hs Hok Hn) as (tn & dn & ln & Kn & Rn & En & Sn). rewrite Ln in Kn. injection Kn as <-.
  destruct (made_selected offer s0 m Hs Hok Hm) as (tm & dm & lm & Km & Rm & Em & Sm). rewrite Lm in Km. injection Km as <-.
  pose proof (offer_cryptos_agree _ _ _ n m _ _ Eo Hba Rn Rm En Em) as Hsame. rewrite Hbb in Sn, Sm.
  destruct Sn as (Sn & _ & Nn), Sm as (Sm & Dm & _). destruct (decide ((if secure_transport fa && secure_transport fb then SEC_DISABLED else secure_ fb) = SEC_DISABLED)) as [Hp|Hp]; [by apply Dm|].
  destruct Sn as [[_ Sn]|(? & ? & ? & ? & _ & ? & _)]; [|done]. destruct (Sn Hp) as (g1 & g2 & Hsel). unfold SelectCrypto in Hsel.
  destruct (find (selectable tn true) (cryptos_ dn)) as [i|] eqn:Ef.
  - exfalso. assert (He : secure_ fb = SEC_ENABLED).
    { destruct (secure_transport fa && secure_transport fb); [done|]. destruct (secure_ fb); [done..|]. exfalso. apply Nn; [by right|done]. }
    unfold CreateCryptoParams in Hsel. pose proof (Hgen He SrtpFilter.SRTP_MASTER_KEY_BASE64_LEN g1) as Hx.
    destruct (Helpers.CreateRandomString _ g1) as [[key|] g3]; [discriminate Hsel|done].
  - destruct Sm as [[-> _]|(crypto & sel & g3 & g4 & Hselm & _ & _)]; [done|]. exfalso. unfold SelectCrypto in Hselm.
    assert (Hty : find (selectable tm true) (cryptos_ dm) = None).
    { rewrite <- Hsame, <- Ef. generalize (cryptos_ dn) as ks. clear. induction ks as [|k ks IH]; [done|]. cbn [find].
      assert (selectable tm true k = selectable tn true k) as -> by (unfold selectable; by rewrite !andb_false_r). by rewrite IH. }
    by rewrite Hty in Hselm.
Qed.

Lemma answer_shares_keys g offer g' h answer h' b : CreateOffer fuel_a fa oa None g = Ok offer g' -> CreateAnswer fuel_b fb offer ob None h = Ok answer h' ->
  (secure_ fb = SEC_ENABLED -> forall k h, (Helpers.CreateRandomString k h).1 <> None) -> In b (content_groups_ answer) ->
  exists common, shares_keys b answer common /\
    (common = [] -> secure_ fb <> SEC_REQUIRED \/ secure_transport fa && secure_transport fb = true \/ all_secure b answer).
Proof.
  intros Eo Ea Hgen Hb. pose proof (CreateOffer_shape _ _ _ Eo) as Hs.
  destruct (answer_bundled _ _ _ _ _ _ _ _ Ea b Hb) as (_ & Hbe & (s0 & Hok & [Hc Hrtp Hk]) & gb & Hgb & _).
  destruct Hk as [(n0 & Hr0 & Hl0 & Hsame)|(common & Hcom & Hsec)]; [|exists common; split; [by split|]; intros Hcm; right; right; intros n Hn; by apply Hsec].
  assert (Hoa : bundle_enabled oa = true).
  { destruct (bundle_enabled oa) eqn:E; [done|]. apply CreateOffer_contents in Eo as (s1 & g1 & [_ _ _ Hg1] & E1). rewrite E in E1.
    apply ret_Ok in E1 as [-> _]. unfold GetGroupByName in Hgb. by rewrite Hg1 in Hgb. }
  assert (Hab : answer_bundle_enabled offer ob = true).
  { unfold answer_bundle_enabled. rewrite Hbe, andb_true_r. apply HasGroup_Get. by exists gb. }
  exists []. split; [split; [done|]|].
  - intros n [_ Hr]. rewrite Hrtp in Hr. rewrite Hsame.
    destruct (rtp_cryptos s0 n Hr) as (c & d & _ & _ & _ & _ & El). rewrite El. f_equal. by eapply (made_empty g offer g' s0 n0 n).
  - intros _. destruct (secure_transport fa && secure_transport fb) eqn:Ed; [by right; left|]. left. intros Hreq.
    destruct (made_selected offer s0 n0 Hs Hok Hr0) as (ty & d & l & Kl & _ & _ & _ & _ & Hne). rewrite Hl0 in Kl. injection Kl as <-.
    rewrite Ed in Hne. apply Hne; [by right|done].
Qed.

(** C17: When one end creates an offer and the other an answer to it, neither
    with an earlier description, the group of the offer, if it bundles, has
    all of its contents, and a group of the answer only contents that the
    group of the offer has and the answer accepts.  In both, all transports of
    the group have the same ICE credentials, and all RTP contents the same
    crypto parameters: in the offer at least one, unless SDES is disabled or
    all their transports have DTLS, in the answer at least one if it requires
    SDES, unless DTLS is used.  Where SDES is optional for the answer, the
    random generator is assumed not to fail; and it matters that DTLS is
    offered for all contents or for none ([mixed_dtls_differs]). *)
Theorem bundles_share_keys ga offer ga' : CreateOffer fuel_a fa oa None ga = Ok offer ga' ->
  (secure_ fb = SEC_ENABLED -> forall k h, (Helpers.CreateRandomString k h).1 <> None) ->
  (bundle_enabled oa = true -> exists b common, content_groups_ offer = [b] /\ semantics_ b = GROUP_TYPE_BUNDLE /\
     content_names_ b = map name (contents_ offer) /\ shares_keys b offer common /\
     (common = [] -> secure_ fa = SEC_DISABLED \/ all_secure b offer)) /\
  (forall gb answer gb' b, CreateAnswer fuel_b fb offer ob None gb = Ok answer gb' -> In b (content_groups_ answer) ->
     semantics_ b = GROUP_TYPE_BUNDLE /\ bundle_enabled ob = true /\
     (exists common, shares_keys b answer common /\
        (common = [] -> secure_ fb <> SEC_REQUIRED \/ secure_transport fa && secure_transport fb = true \/ all_secure b answer)) /\
     exists go, GetGroupByName GROUP_TYPE_BUNDLE offer = Some go /\
       forall n, In n (content_names_ b) -> HasContentName n go = true /\ exists c, In c (contents_ answer) /\ name c = n /\ rejected c = false).
Proof.
  intros Eo Hgen. split; [intros Hb; by apply (offer_shares_keys ga offer ga')|]. intros gb answer gb' b Ea Hb.
  destruct (answer_bundled _ _ _ _ _ _ _ _ Ea b Hb) as (H1 & H2 & _ & H3). split; [done|]. split; [done|]. split; [|done].
  by apply (answer_shares_keys ga offer ga' gb answer gb').
Qed.

(** C15: When one end creates an offer and the other, which requires SDES, an
    answer to it, neither with an earlier description and at least one of them
    without DTLS, then for every RTP content of the answer, bundled or not,
    the SRTP filters of both ends accept the crypto parameters of the offer
    and of the answer, are active, each sends with the key the other receives
    with, and any media that follows is recovered (an RTP packet whose
    sequence number was sent before in its stream may be refused). *)
Theorem offer_answer_srtp `{L : SrtpFilter.LibSrtp} `{HL : !SrtpNegotiation.LibSrtpLaws L} ga offer ga' gb answer gb' n media :
  CreateOffer fuel_a fa oa None ga = Ok offer ga' -> CreateAnswer fuel_b fb offer ob None gb = Ok answer gb' ->
  no_dtls -> secure_ fb = SEC_REQUIRED -> IsRtpContent answer n = true -> Forall SrtpNegotiation.is_media media ->
  exists ps p, GetCryptosByName offer n = Some ps /\ GetCryptosByName answer n = Some [p] /\ SrtpNegotiation.secured ps p media.
Proof.
  intros Eo Ea Hd Hreq Hr Hmedia. pose proof (CreateOffer_shape _ _ _ Eo) as Hs.
  destruct (answer_cryptos _ _ _ _ n Ea Hs Hd Hreq Hr) as (m & l & El & (p & o & k & -> & [kp Hp] & Ek & Ho & Hmatch) & Hrn & Hrm & Hmn).
  destruct (offer_cryptos_wf _ _ _ n Eo Hrn) as (ps & Eps & Hwf). exists ps, p. split_and!; [done..|].
  assert (ps = k) as ->; [|by eapply SrtpNegotiation.handshake_media].
  destruct Hmn as [->|[b Hb]]; [congruence|].
  destruct (bundle_enabled oa) eqn:Eb; [by exact (offer_cryptos_agree ga offer ga' n m ps k Eo Eb Hrn Hrm Eps Ek)|]. apply CreateOffer_contents in Eo as (s0 & g0 & [_ _ _ Hg] & E). rewrite Eb in E.
  apply ret_Ok in E as [-> _]. unfold GetGroupByName in Hb. by rewrite Hg in Hb.
Qed.
End Ends.
End Random.

(** Bundled audio and video; the media are RTCP from the offerer. *)
Lemma offer_answer_srtp_witness : exists offer g1 answer g2, sample_offer true = Ok offer g1 /\ sample_answer true offer = Ok answer g2 /\
  exists ps p, GetCryptosByName offer CN_VIDEO = Some ps /\ GetCryptosByName answer CN_VIDEO = Some [p] /\
    @SrtpNegotiation.secured x86 SrtpNegotiation.toy_lib SrtpNegotiation.toy_laws ps p SrtpNegotiation.sample_media.
Proof.
  destruct (sample_exchange_Some true (fun _ answer => IsRtpContent answer CN_VIDEO) true) as (offer & g1 & answer & g2 & Eo & Ea & Ev); [vm_compute; reflexivity|].
  exists offer, g1, answer, g2. split; [exact Eo|]. split; [exact Ea|].
  refine (@offer_answer_srtp x86 Helpers.TestRandomGenerator merge_preference 10 10 sample_offerer sample_answerer (sample_options true) (sample_options true)
    SrtpNegotiation.toy_lib SrtpNegotiation.toy_laws _ offer g1 _ answer g2 CN_VIDEO _ Eo Ea _ _ Ev _); [vm_compute; reflexivity|reflexivity|].
  by repeat constructor.
Defined.

(** The keys of a bundle: what is shared, by name. *)
Definition keys_by_name (s : Session) : list (bytes * option (list bytes)) :=
  map (fun c => (name c, option_map (map cipher_suite) (GetCryptosByName s (name c)))) (contents_ s).

Lemma bundles_share_keys_witness : exists offer g1 answer g2, sample_offer true = Ok offer g1 /\ sample_answer true offer = Ok answer g2 /\
  (exists b common, content_groups_ offer = [b] /\ content_names_ b = [CN_AUDIO; CN_VIDEO] /\ shares_keys b offer common) /\
  (exists b common, content_groups_ answer = [b] /\ content_names_ b = [CN_AUDIO; CN_VIDEO] /\ shares_keys b answer common) /\
  keys_by_name answer = [(CN_AUDIO, Some [SrtpFilter.CS_AES_CM_128_HMAC_SHA1_80]); (CN_VIDEO, Some [SrtpFilter.CS_AES_CM_128_HMAC_SHA1_80])].
Proof.
  destruct (sample_exchange_Some true (fun offer answer => (map name (contents_ offer), content_groups_ answer, keys_by_name answer))
    ([CN_AUDIO; CN_VIDEO], [mkGroup GROUP_TYPE_BUNDLE [CN_AUDIO; CN_VIDEO]],
     [(CN_AUDIO, Some [SrtpFilter.CS_AES_CM_128_HMAC_SHA1_80]); (CN_VIDEO, Some [SrtpFilter.CS_AES_CM_128_HMAC_SHA1_80])]))
    as (offer & g1 & answer & g2 & Eo & Ea & Ev); [vm_compute; reflexivity|].
  injection Ev as En Eg Ek. exists offer, g1, answer, g2. split; [exact Eo|]. split; [exact Ea|].
  destruct (@bundles_share_keys x86 Helpers.TestRandomGenerator merge_preference 10 10 sample_offerer sample_answerer (sample_options true) (sample_options true)
    _ offer g1 Eo) as [Hoff Hans]; [intros H; vm_compute in H; discriminate H|]. split; [|split; [|exact Ek]].
  - destruct (Hoff eq_refl) as (b & common & Hb & _ & Hn & Hs & _). exists b, common. split; [exact Hb|]. split; [by rewrite Hn|exact Hs].
  - destruct (Hans 99 answer g2 (mkGroup GROUP_TYPE_BUNDLE [CN_AUDIO; CN_VIDEO]) Ea) as (_ & _ & (common & Hs & _) & _); [rewrite Eg; by left|].
    eexists _, common. split; [exact Eg|]. split; [reflexivity|exact Hs].
Defined.

(** An offer of another program, with a fingerprint only for audio: the answer
    of a factory that has DTLS and SDES bundles both contents, audio without
    crypto parameters, and video with some. *)
Definition fingerprint_audio (s : Session) : Session :=
  set_transport_infos (map (fun i => if bool_decide (content_name i = CN_AUDIO)
    then mkTransportInfo (content_name i) (set_security CONNECTIONROLE_ACTPASS (mkFingerprint (str "sha-1") [1; 2; 3]) (description i)) else i) (transport_infos_ s)) s.
Definition dtls_answerer : MediaSessionDescriptionFactory :=
  mkFactory (audio_codecs_ sample_answerer) [] (video_codecs_ sample_answerer) [] [] SEC_ENABLED false [] (Some TransportFactory.sample_offerer).
Lemma mixed_dtls_differs : match sample_offer true with
  | Ok offer _ =>
      match @CreateAnswer x86 Helpers.TestRandomGenerator merge_preference 10 dtls_answerer (fingerprint_audio offer) (sample_options true) None 99 with
      | Ok answer _ => content_groups_ answer = [mkGroup GROUP_TYPE_BUNDLE [CN_AUDIO; CN_VIDEO]] /\
          keys_by_name answer = [(CN_AUDIO, Some []); (CN_VIDEO, Some [SrtpFilter.CS_AES_CM_128_HMAC_SHA1_80])]
      | _ => False
      end
  | _ => False
  end.
Proof. vm_compute. by split. Qed.
End MediaNegotiation.
