(* ===== verification/StreamIo.v ===== *)
(** * base/stream.h: what StreamInterface promises

    The streams the HTTP code is attached to and the documents it carries.
    Their implementations are elsewhere (sockets, files), so a stream is what
    the comments of StreamInterface say of Read and Write: the bytes it has
    still to yield, the bytes it has taken, and a plan of how the next calls
    will answer - some bytes, SR_BLOCK, SR_EOS or SR_ERROR.  A call that
    succeeds moves at least one byte and never more than it is asked to; a
    plan that has run out blocks; at its end a stream yields what is left and
    then SR_EOS.  The memory streams, which answer by themselves, are sinks
    of their own. *)

From S2P Require Import Prelude.
Open Scope jingle_scope.

Module StreamIo.

Inductive StreamState := SS_CLOSED | SS_OPENING | SS_OPEN.
Inductive StreamResult := SR_ERROR | SR_SUCCESS | SR_BLOCK | SR_EOS.

(** [Some_ n]: at most n + 1 bytes move. *)
Inductive answer := Some_ (n : nat) | Block | Eos | Error (e : Z).

(** Where written bytes go: a stream with a plan, a MemoryStream, which
    grows, or a memory stream on a buffer of the caller with room for so many
    bytes. *)
Inductive sink := Planned (l : list answer) | Growing | Buffer (room : nat).

Record Stream := mkStream {
  state : StreamState;
  unread : bytes;
  reads : list answer;
  written : bytes;
  writes : sink
}.

(** Close() *)
Definition Close (s : Stream) : Stream := mkStream SS_CLOSED (unread s) (reads s) (written s) (writes s).

(** SR_EOS and SR_ERROR stay. *)
Definition next (l : list answer) : answer * list answer :=
  match l with
  | [] => (Block, [])
  | Eos :: _ => (Eos, l)
  | Error e :: _ => (Error e, l)
  | a :: l => (a, l)
  end.

(** Read(buffer, buffer_len, &read, &error): the result, the bytes read and
    the error. *)
Definition Read (s : Stream) (buffer_len : nat) : StreamResult * bytes * Z * Stream :=
  let '(a, reads') := next (reads s) in
  let left u := mkStream (state s) u reads' (written s) (writes s) in
  let some n none :=
    match take n (unread s) with
    | [] => (none, [], 0, left (unread s))
    | data => (SR_SUCCESS, data, 0, left (drop n (unread s)))
    end in
  match a with
  | Some_ n => some (min (S n) buffer_len) SR_BLOCK
  | Block => (SR_BLOCK, [], 0, left (unread s))
  | Eos => some buffer_len SR_EOS
  | Error e => (SR_ERROR, [], e, left (unread s))
  end.

(** Write(data, data_len, &written, &error): the result, the number of bytes
    written and the error. *)
Definition Write (s : Stream) (data : bytes) : StreamResult * nat * Z * Stream :=
  let took k w := mkStream (state s) (unread s) (reads s) (written s ++ take k data) w in
  match writes s with
  | Growing => (SR_SUCCESS, length data, 0, took (length data) Growing)
  | Buffer 0 => (SR_BLOCK, 0%nat, 0, s)
  | Buffer room => let k := min room (length data) in (SR_SUCCESS, k, 0, took k (Buffer (room - k)))
  | Planned l =>
      let '(a, l') := next l in
      match a with
      | Some_ n => let k := min (S n) (length data) in (SR_SUCCESS, k, 0, took k (Planned l'))
      | Block => (SR_BLOCK, 0%nat, 0, took 0%nat (Planned l'))
      | Eos => (SR_EOS, 0%nat, 0, took 0%nat (Planned l'))
      | Error e => (SR_ERROR, 0%nat, e, took 0%nat (Planned l'))
      end
  end.

(** ** What the other side does *)

(** Bytes arrive, and the next Reads answer so; the next Writes answer so. *)
Definition arrive (more : bytes) (plan : list answer) (s : Stream) : Stream :=
  mkStream (state s) (unread s ++ more) plan (written s) (writes s).
Definition drain (plan : list answer) (s : Stream) : Stream :=
  mkStream (state s) (unread s) (reads s) (written s) (match writes s with Planned _ => Planned plan | w => w end).

(** ** What a call can do *)

(** A plan without an end or an error, and one without an error. *)
Definition lasting (a : answer) : bool := match a with Some_ _ | Block => true | Eos | Error _ => false end.
Definition sound (a : answer) : bool := match a with Error _ => false | _ => true end.
Definition steady (w : sink) : Prop := match w with Planned l => Forall (fun a => lasting a = true) l | _ => True end.

(** Writes that never answer SR_EOS. *)
Definition ends (a : answer) : bool := match a with Eos => true | _ => false end.
Definition no_eos (w : sink) : Prop := match w with Planned l => Forall (fun a => ends a = false) l | _ => True end.
Lemma steady_no_eos w : steady w -> no_eos w.
Proof. destruct w; [|done..]. intros H. eapply List.Forall_impl; [|exact H]. by intros []. Qed.

Lemma next_cons l a l' : next l = (a, l') ->
  (l = [] /\ l' = [] /\ a = Block) \/ (exists b r, l = b :: r /\ a = b /\ (l' = r \/ (l' = l /\ lasting a = false))).
Proof.
  destruct l as [|b r]; [intros [= <- <-]; by left|]. intros E. right. exists b, r. destruct b; cbn in E; injection E as <- <-; eauto.
Qed.

Lemma next_error l e : (next l).1 = Error e -> (next l).2 = l.
Proof. by destruct l as [|[]]. Qed.

Definition no_error (l : list answer) : Prop := Forall (fun a => sound a = true) l.
Lemma next_no_error l : no_error l -> no_error (next l).2 /\ forall e, (next l).1 <> Error e.
Proof. unfold no_error. destruct l as [|[] l]; cbn; intros H; try (apply Forall_cons in H as [H1 H2]); split; try done; by apply List.Forall_cons. Qed.

Definition all_lasting (l : list answer) : Prop := Forall (fun a => lasting a = true) l.
Lemma all_lasting_no_error l : all_lasting l -> no_error l.
Proof. intros H. eapply List.Forall_impl; [|exact H]. by intros []. Qed.
Lemma next_lasting l : all_lasting l -> all_lasting (next l).2 /\ (next l).1 <> Eos /\ forall e, (next l).1 <> Error e.
Proof. unfold all_lasting. destruct l as [|[] l]; cbn; intros H; try (apply Forall_cons in H as [H1 H2]); by split_and!. Qed.
Lemma next_eos l : (next l).1 = Eos -> (next l).2 = l.
Proof. by destruct l as [|[]]. Qed.

(** What a Read does to the stream, and when it gives what. *)
Definition read_ok (s : Stream) (n : nat) (r : StreamResult) (data : bytes) (e : Z) (s' : Stream) : Prop :=
  (state s' = state s /\ written s' = written s /\ writes s' = writes s /\ reads s' = (next (reads s)).2) /\
  unread s = data ++ unread s' /\ (length data <= n)%nat /\ (r = SR_SUCCESS <-> data <> []) /\
  (r = SR_EOS -> unread s = [] /\ e = 0 /\ (next (reads s)).1 = Eos) /\ (r = SR_ERROR -> (next (reads s)).1 = Error e).

Lemma stream_Read_spec s n r data e s' : (0 < n)%nat -> Read s n = (r, data, e, s') -> read_ok s n r data e s'.
Proof.
  intros Hn. unfold Read, read_ok. destruct (next (reads s)) as [a reads'] eqn:En. cbn [fst snd].
  assert (Hsome : forall k none, (0 < k <= n)%nat -> none = SR_BLOCK \/ none = SR_EOS -> (none = SR_EOS -> a = Eos) ->
    match take k (unread s) with
    | [] => (none, [], 0, mkStream (state s) (unread s) reads' (written s) (writes s))
    | d => (SR_SUCCESS, d, 0, mkStream (state s) (drop k (unread s)) reads' (written s) (writes s))
    end = (r, data, e, s') ->
    (state s' = state s /\ written s' = written s /\ writes s' = writes s /\ reads s' = reads') /\
    unread s = data ++ unread s' /\ (length data <= n)%nat /\ (r = SR_SUCCESS <-> data <> []) /\
    (r = SR_EOS -> unread s = [] /\ e = 0 /\ a = Eos) /\ (r = SR_ERROR -> a = Error e)).
  { intros k none Hk Hnone Ha. destruct (take k (unread s)) as [|c d] eqn:Et; intros [= <- <- <- <-]; cbn.
    - split; [done|]. split; [done|]. split; [lia|]. split; [destruct Hnone as [-> | ->]; done|].
      split; [|by destruct Hnone as [-> | ->]]. intros E. split; [|split; [done|auto]]. destruct (unread s); [done|]. destruct k; [lia|done].
    - split; [done|]. split; [change (c :: d ++ drop k (unread s)) with ((c :: d) ++ drop k (unread s)); by rewrite <- Et, take_drop|].
      split; [apply (f_equal length) in Et; rewrite length_take in Et; cbn in Et; lia|]. done. }
  destruct a as [m| | |e0].
  - apply Hsome; [lia|auto|done].
  - intros [= <- <- <- <-]. split; [done|]. split; [done|]. split; [cbn; lia|]. done.
  - apply Hsome; [lia|auto|done].
  - intros [= <- <- <- <-]. split; [done|]. split; [done|]. split; [cbn; lia|]. split; [done|]. split; [done|]. by intros _.
Qed.

Definition write_ok (s : Stream) (data : bytes) (r : StreamResult) (k : nat) (e : Z) (s' : Stream) : Prop :=
  (state s' = state s /\ unread s' = unread s /\ reads s' = reads s) /\ written s' = written s ++ take k data /\
  match r with
  | SR_SUCCESS => (1 <= k <= length data)%nat
  | SR_BLOCK => k = 0%nat
  | SR_EOS | SR_ERROR => k = 0%nat /\ ~ steady (writes s')
  end /\ (steady (writes s) -> steady (writes s')).

Lemma stream_Write_spec s data r k e s' : data <> [] -> Write s data = (r, k, e, s') -> write_ok s data r k e s'.
Proof.
  intros Hd. assert (Hlen : (1 <= length data)%nat) by (destruct data; [done|cbn; lia]). unfold Write, write_ok.
  destruct (writes s) as [l| |[|room]] eqn:Ew.
  - destruct (next l) as [a l'] eqn:En. pose proof (next_cons _ _ _ En) as Hc.
    assert (Hst : steady (Planned l) -> steady (Planned l')).
    { intros Hs. destruct Hc as [(-> & -> & _)|(b & q & -> & -> & [->|[-> _]])]; [done|by apply Forall_cons in Hs as [_ Hs]|done]. }
    assert (Hend : lasting a = false -> ~ steady (Planned l')).
    { intros Ha Hs. destruct a; try done; destruct l as [|[]]; cbn in En; simplify_eq; apply Forall_cons in Hs as [Hs _]; done. }
    destruct a; [set (k0 := min (S n) (length data)); assert (1 <= k0 <= length data)%nat by (unfold k0; lia); clearbody k0|..];
      intros [= <- <- <- <-]; unfold steady in *; cbn -[Nat.min take]; rewrite ?take_0, ?app_nil_r; split_and!; auto; try lia.
  - intros [= <- <- <- <-]. cbn -[take]. split_and!; try done; lia.
  - intros [= <- <- <- <-]. rewrite take_0, app_nil_r, Ew. by split_and!.
  - set (k0 := min (S room) (length data)); assert (1 <= k0 <= length data)%nat by (unfold k0; lia); clearbody k0.
    intros [= <- <- <- <-]. cbn -[take]. split_and!; try done; lia.
Qed.
(** How much of a plan is left. *)
Definition planned (w : sink) : bool := match w with Planned _ => true | _ => false end.
Definition plan_left (w : sink) : nat := match w with Planned l => length l | _ => 0%nat end.
Lemma Write_planned s data r k e s' : Write s data = (r, k, e, s') -> planned (writes s) = true ->
  planned (writes s') = true /\ (plan_left (writes s') <= plan_left (writes s))%nat /\
  (r = SR_SUCCESS -> (plan_left (writes s') < plan_left (writes s))%nat).
Proof.
  unfold Write. destruct (writes s) as [l| |]; [|done..]. destruct (next l) as [a l'] eqn:En. intros E _.
  assert (Hl : (length l' <= length l)%nat /\ (lasting a = true -> a <> Block -> (length l' < length l)%nat)).
  { apply next_cons in En as [(-> & -> & ->)|(b & q & -> & -> & [->|[-> Hb]])]; cbn; [done|split; lia|split; [lia|congruence]]. }
  destruct a; injection E as <- <- <- <-; cbn; (split; [done|]); (split; [apply Hl|]); try done. intros _. by apply Hl.
Qed.

Lemma Write_no_eos s data r k e s' : Write s data = (r, k, e, s') -> no_eos (writes s) -> r <> SR_EOS /\ no_eos (writes s').
Proof.
  unfold Write. destruct (writes s) as [l| |[|room]] eqn:Ew; try by intros [= <- <- <- <-]; rewrite ?Ew.
  destruct (next l) as [a l'] eqn:En. intros E Hs. assert (Hs' : ends a = false /\ no_eos (Planned l')).
  { apply next_cons in En as [(-> & -> & ->)|(b & q & -> & -> & Hq)]; [done|]. pose proof Hs as Hall.
    apply Forall_cons in Hs as [Hb Hs]. split; [done|]. by destruct Hq as [->|[-> _]]. }
  destruct Hs' as [Ha Hs']. by destruct a; injection E as <- <- <- <-.
Qed.

Lemma Write_steady s data r k e s' : Write s data = (r, k, e, s') -> steady (writes s) -> steady (writes s').
Proof.
  destruct (decide (data = [])) as [->|Hd]; [|by intros E; apply stream_Write_spec in E as (_ & _ & _ & Hs)].
  unfold Write. destruct (writes s) as [l| |[|room]] eqn:Ew; try by intros [= <- <- <- <-]; rewrite ?Ew.
  destruct (next l) as [a l'] eqn:En. intros E Hs. assert (Hs' : steady (Planned l')).
  { apply next_cons in En as [(-> & -> & _)|(b & q & -> & -> & [->|[-> _]])]; [done|by apply Forall_cons in Hs as [_ Hs]|done]. }
  by destruct a; injection E as <- <- <- <-.
Qed.
End StreamIo.
