(* ===== verification/HttpCommon.v ===== *)
(** * base/httpcommon.h, base/httpcommon.cc: the vocabulary of HTTP

    The names of versions, verbs and headers with the case-insensitive lookup
    among them, attribute lists, the multimap of the headers of a message and
    the first line of a request or a response, written with sprintf and read
    with sscanf. *)

From stdpp Require Import list.
From S2P Require Import Prelude StringEncode StringConv StreamIo.
Open Scope jingle_scope.

Module HttpCommon.
Import StringConv.

(** ** Constants *)

Definition HC_OK : Z := 200.
Definition HC_NON_AUTHORITATIVE : Z := 203.
Definition HC_NO_CONTENT : Z := 204.
Definition HC_PARTIAL_CONTENT : Z := 206.
Definition HC_MULTIPLE_CHOICES : Z := 300.
Definition HC_MOVED_PERMANENTLY : Z := 301.
Definition HC_NOT_MODIFIED : Z := 304.
Definition HC_MOVED_TEMPORARILY : Z := 307.
Definition HC_GONE : Z := 410.
Definition HC_INTERNAL_SERVER_ERROR : Z := 500.

Inductive HttpVersion := HVER_1_0 | HVER_1_1 | HVER_UNKNOWN.
Inductive HttpVerb := HV_GET | HV_POST | HV_PUT | HV_DELETE | HV_CONNECT | HV_HEAD.
Inductive HttpError :=
  | HE_NONE | HE_PROTOCOL | HE_DISCONNECTED | HE_OVERFLOW | HE_CONNECT_FAILED | HE_SOCKET_ERROR | HE_SHUTDOWN
  | HE_OPERATION_CANCELLED | HE_AUTH | HE_CERTIFICATE_EXPIRED | HE_STREAM | HE_CACHE | HE_DEFAULT.
Inductive HttpHeader :=
  | HH_AGE | HH_CACHE_CONTROL | HH_CONNECTION | HH_CONTENT_DISPOSITION | HH_CONTENT_LENGTH | HH_CONTENT_RANGE
  | HH_CONTENT_TYPE | HH_COOKIE | HH_DATE | HH_ETAG | HH_EXPIRES | HH_HOST | HH_IF_MODIFIED_SINCE | HH_IF_NONE_MATCH
  | HH_KEEP_ALIVE | HH_LAST_MODIFIED | HH_LOCATION | HH_PROXY_AUTHENTICATE | HH_PROXY_AUTHORIZATION
  | HH_PROXY_CONNECTION | HH_RANGE | HH_SET_COOKIE | HH_TE | HH_TRAILERS | HH_TRANSFER_ENCODING | HH_UPGRADE
  | HH_USER_AGENT | HH_WWW_AUTHENTICATE.
#[export] Instance HttpVersion_dec : EqDecision HttpVersion. Proof. solve_decision. Defined.
#[export] Instance HttpVerb_dec : EqDecision HttpVerb. Proof. solve_decision. Defined.
#[export] Instance HttpError_dec : EqDecision HttpError. Proof. solve_decision. Defined.
#[export] Instance HttpHeader_dec : EqDecision HttpHeader. Proof. solve_decision. Defined.

(** mkerr *)
Definition mkerr (err def_err : HttpError) : HttpError := if decide (err = HE_NONE) then def_err else err.

(** ** Enum<E>: the tables of names *)

Fixpoint find_string (needle : bytes) (haystack : list bytes) : option nat :=
  match haystack with
  | [] => None
  | n :: haystack => if stricmp_eq needle n then Some 0%nat else S <$> find_string needle haystack
  end.

(** The names of an enumeration with its values in the order of the
    declaration. *)
Class Enum (E : Type) := {
  values : list E;
  Names : list bytes;
  Name : E -> bytes
}.
Definition Parse {E} `{Enum E} (name : bytes) : option E := find_string name Names ≫= fun index => values !! index.

Definition kHttpVersions : list bytes := [str "1.0"; str "1.1"; str "Unknown"].
Definition kHttpVerbs : list bytes := map str ["GET"; "POST"; "PUT"; "DELETE"; "CONNECT"; "HEAD"]%string.
Definition kHttpHeaders : list bytes := map str
  ["Age"; "Cache-Control"; "Connection"; "Content-Disposition"; "Content-Length"; "Content-Range"; "Content-Type";
   "Cookie"; "Date"; "ETag"; "Expires"; "Host"; "If-Modified-Since"; "If-None-Match"; "Keep-Alive"; "Last-Modified";
   "Location"; "Proxy-Authenticate"; "Proxy-Authorization"; "Proxy-Connection"; "Range"; "Set-Cookie"; "TE";
   "Trailers"; "Transfer-Encoding"; "Upgrade"; "User-Agent"; "WWW-Authenticate"]%string.

Definition version_index (v : HttpVersion) : nat := match v with HVER_1_0 => 0 | HVER_1_1 => 1 | HVER_UNKNOWN => 2 end.
Definition verb_index (v : HttpVerb) : nat :=
  match v with HV_GET => 0 | HV_POST => 1 | HV_PUT => 2 | HV_DELETE => 3 | HV_CONNECT => 4 | HV_HEAD => 5 end.
Definition all_headers : list HttpHeader :=
  [HH_AGE; HH_CACHE_CONTROL; HH_CONNECTION; HH_CONTENT_DISPOSITION; HH_CONTENT_LENGTH; HH_CONTENT_RANGE;
   HH_CONTENT_TYPE; HH_COOKIE; HH_DATE; HH_ETAG; HH_EXPIRES; HH_HOST; HH_IF_MODIFIED_SINCE; HH_IF_NONE_MATCH;
   HH_KEEP_ALIVE; HH_LAST_MODIFIED; HH_LOCATION; HH_PROXY_AUTHENTICATE; HH_PROXY_AUTHORIZATION;
   HH_PROXY_CONNECTION; HH_RANGE; HH_SET_COOKIE; HH_TE; HH_TRAILERS; HH_TRANSFER_ENCODING; HH_UPGRADE;
   HH_USER_AGENT; HH_WWW_AUTHENTICATE].
Definition position {E} `{EqDecision E} (l : list E) (e : E) : nat :=
  match list_find (eq e) l with Some (i, _) => i | None => 0%nat end.

#[export] Instance version_enum : Enum HttpVersion := {
  values := [HVER_1_0; HVER_1_1; HVER_UNKNOWN]; Names := kHttpVersions; Name v := nth (version_index v) kHttpVersions [] }.
#[export] Instance verb_enum : Enum HttpVerb := {
  values := [HV_GET; HV_POST; HV_PUT; HV_DELETE; HV_CONNECT; HV_HEAD]; Names := kHttpVerbs;
  Name v := nth (verb_index v) kHttpVerbs [] }.
#[export] Instance header_enum : Enum HttpHeader := {
  values := all_headers; Names := kHttpHeaders; Name h := nth (position all_headers h) kHttpHeaders [] }.

(** ToString and FromString *)
Definition ToString {E} `{Enum E} (val : E) : bytes := Name val.
Definition FromString {E} `{Enum E} (name : bytes) : option E := Parse name.

(** ** Properties of codes and headers *)

Definition HttpCodeIsInformational (code : Z) : bool := code / 100 =? 1.
Definition HttpCodeHasBody (code : Z) : bool :=
  negb (HttpCodeIsInformational code) && negb (code =? HC_NO_CONTENT) && negb (code =? HC_NOT_MODIFIED).
Definition HttpCodeIsCacheable (code : Z) : bool :=
  existsb (Z.eqb code) [HC_OK; HC_NON_AUTHORITATIVE; HC_PARTIAL_CONTENT; HC_MULTIPLE_CHOICES; HC_MOVED_PERMANENTLY; HC_GONE].
Definition HttpHeaderIsEndToEnd (header : HttpHeader) : bool :=
  match header with
  | HH_CONNECTION | HH_KEEP_ALIVE | HH_PROXY_AUTHENTICATE | HH_PROXY_AUTHORIZATION | HH_PROXY_CONNECTION | HH_TE
  | HH_TRAILERS | HH_TRANSFER_ENCODING | HH_UPGRADE => false
  | _ => true
  end.
Definition HttpHeaderIsCollapsible (header : HttpHeader) : bool :=
  match header with HH_SET_COOKIE | HH_PROXY_AUTHENTICATE | HH_WWW_AUTHENTICATE => false | _ => true end.

(** ** Attribute lists *)

Definition HttpAttributeList : Type := list (bytes * bytes).

(** IsEndOfAttributeName, of the data from [pos] on *)
Definition IsEndOfAttributeName (data : bytes) : bool :=
  match data with
  | [] => true
  | c :: rest =>
      is_space c
      || (match rest with d :: _ => (c =? chr "=") && negb (is_space d) && negb (d =? chr "=") | [] => false end)
  end.

Definition EscapeAttribute (attribute : bytes) : option bytes :=
  StringEncode.escape (length attribute * 2 + 1) attribute [34] 92.

Fixpoint compose_rest (separator : Z) (attributes : HttpAttributeList) : option bytes :=
  match attributes with
  | [] => Some []
  | (first, second) :: attributes =>
      let? value := if decide (second = []) then Some []
                    else let? e := EscapeAttribute second in Some ([61; 34] ++ e ++ [34]) in
      let? rest := compose_rest separator attributes in
      Some ([separator; 32] ++ first ++ value ++ rest)
  end.
(** The separator stands before every attribute but the first. *)
Definition HttpComposeAttributes (attributes : HttpAttributeList) (separator : Z) : option bytes :=
  drop 2 <$> compose_rest separator attributes.

(** [data[pos] == ch], and the data behind it *)
Definition skip_char (ch : Z) (data : bytes) : option bytes :=
  match data with c :: rest => if c =? ch then Some rest else None | [] => None end.
(** The end of the attribute name: what is before it, what is from it on. *)
Fixpoint attribute_name (data : bytes) : bytes * bytes :=
  match data with
  | [] => ([], [])
  | c :: rest => if IsEndOfAttributeName data then ([], data) else let '(n, r) := attribute_name rest in (c :: n, r)
  end.
(** A quoted value, from behind its opening quote. *)
Fixpoint quoted_value (data : bytes) : bytes * bytes :=
  match data with
  | [] => ([], [])
  | c :: rest =>
      if c =? 34 then ([], rest)
      else match rest with
           | d :: rest' =>
               if c =? 92 then let '(v, r) := quoted_value rest' in (d :: v, r)
               else let '(v, r) := quoted_value rest in (c :: v, r)
           | [] => ([c], [])
           end
  end.
Fixpoint plain_value (data : bytes) : bytes * bytes :=
  match data with
  | [] => ([], [])
  | c :: rest => if is_space c || (c =? chr ",") then ([], data) else let '(v, r) := plain_value rest in (c :: v, r)
  end.
Fixpoint parse_attributes (fuel : nat) (data : bytes) (attributes : HttpAttributeList) : option HttpAttributeList :=
  match fuel with
  | O => None
  | S fuel =>
      match skip_space data with
      | [] => Some attributes
      | data =>
          let '(first, data) := attribute_name data in
          let '(second, data) :=
            match skip_char 61 data with
            | Some data => match skip_char 34 data with Some data => quoted_value data | None => plain_value data end
            | None => ([], data)
            end in
          let data := default data (skip_char (chr ",") data) in
          parse_attributes fuel data (attributes ++ [(first, second)])
      end
  end.
Definition HttpParseAttributes (data : bytes) : option HttpAttributeList := parse_attributes (S (length data)) data [].

Definition HttpHasAttribute (attributes : HttpAttributeList) (name : bytes) : option bytes :=
  match list_find (fun a => a.1 = name) attributes with Some (_, a) => Some a.2 | None => None end.

(** ** The multimap of the headers *)

(** iless: _stricmp(lhs, rhs) < 0 *)
Fixpoint lex_less (a b : bytes) : bool :=
  match a, b with
  | _, [] => false
  | [], _ :: _ => true
  | x :: a, y :: b => (x <? y) || ((x =? y) && lex_less a b)
  end.
Definition iless (lhs rhs : bytes) : bool := lex_less (map tolower (c_str lhs)) (map tolower (c_str rhs)).

Definition HeaderMap : Type := list (bytes * bytes).

(** insert puts an entry behind those with an equivalent key. *)
Fixpoint hm_insert (m : HeaderMap) (name value : bytes) : HeaderMap :=
  match m with
  | [] => [(name, value)]
  | e :: m' => if iless name e.1 then (name, value) :: m else e :: hm_insert m' name value
  end.
Definition hm_find (m : HeaderMap) (name : bytes) : option (bytes * bytes) := List.find (fun e => stricmp_eq e.1 name) m.
Definition hm_erase (m : HeaderMap) (name : bytes) : HeaderMap := List.filter (fun e => negb (stricmp_eq e.1 name)) m.
(** it->second.append of the first entry found. *)
Fixpoint hm_append (m : HeaderMap) (name suffix : bytes) : HeaderMap :=
  match m with
  | [] => []
  | e :: m' => if stricmp_eq e.1 name then (e.1, e.2 ++ suffix) :: m' else e :: hm_append m' name suffix
  end.

Inductive HeaderCombine := HC_YES | HC_NO | HC_AUTO | HC_REPLACE | HC_NEW.
#[export] Instance HeaderCombine_dec : EqDecision HeaderCombine. Proof. solve_decision. Defined.

(** ** Messages *)

Inductive leader_data :=
  | Request (verb : HttpVerb) (path : bytes)
  | Response (scode : Z) (message : bytes).

Record HttpData := mkHttpData {
  version : HttpVersion;
  leader : leader_data;
  headers_ : HeaderMap;
  document : option StreamIo.Stream
}.
Definition with_headers (d : HttpData) (h : HeaderMap) : HttpData := mkHttpData (version d) (leader d) h (document d).
Definition with_document (d : HttpData) (s : option StreamIo.Stream) : HttpData := mkHttpData (version d) (leader d) (headers_ d) s.
Definition with_leader (d : HttpData) (v : HttpVersion) (l : leader_data) : HttpData := mkHttpData v l (headers_ d) (document d).

Definition HttpRequestData : HttpData := mkHttpData HVER_1_1 (Request HV_GET []) [] None.
Definition HttpResponseData : HttpData := mkHttpData HVER_1_1 (Response HC_INTERNAL_SERVER_ERROR []) [] None.

(** Unrecognized headers are collapsible. *)
Definition collapsible (name : bytes) : bool :=
  match FromString (E := HttpHeader) name with None => true | Some header => HttpHeaderIsCollapsible header end.
Definition changeHeader (d : HttpData) (name value : bytes) (combine : HeaderCombine) : HttpData :=
  let '(headers, combine) :=
    match combine with
    | HC_AUTO => (headers_ d, if collapsible name then HC_YES else HC_NO)
    | HC_REPLACE => (hm_erase (headers_ d) name, HC_NO)
    | _ => (headers_ d, combine)
    end in
  let inserted := with_headers d (hm_insert headers name value) in
  if decide (combine = HC_NO) then inserted
  else match hm_find headers name with
       | Some _ => if decide (combine = HC_YES) then with_headers d (hm_append headers name (chr "," :: value))
                   else with_headers d headers
       | None => inserted
       end.

Definition addHeader (d : HttpData) (name value : bytes) : HttpData := changeHeader d name value HC_AUTO.
Definition setHeader (d : HttpData) (name value : bytes) (overwrite : bool) : HttpData :=
  changeHeader d name value (if overwrite then HC_REPLACE else HC_NEW).
(** The number of headers erased. *)
Definition clearHeader (d : HttpData) (name : bytes) : Z * HttpData :=
  let headers := hm_erase (headers_ d) name in
  (Z.of_nat (length (headers_ d) - length headers), with_headers d headers).
Definition hasHeader (d : HttpData) (name : bytes) : option bytes := snd <$> hm_find (headers_ d) name.

Definition version_at_least_1_1 (v : HttpVersion) : bool := match v with HVER_1_0 => false | _ => true end.
Definition HttpShouldKeepAlive (data : HttpData) : bool :=
  match (match hasHeader data (ToString HH_PROXY_CONNECTION) with Some c => Some c | None => hasHeader data (ToString HH_CONNECTION) end) with
  | Some connection => stricmp_eq connection (str "Keep-Alive")
  | None => version_at_least_1_1 (version data)
  end.

(** clear: HttpData::clear and the fields of the kind of message *)
Definition clear (d : HttpData) (release_document : bool) : HttpData :=
  mkHttpData (version d)
    (match leader d with Request _ _ => Request HV_GET [] | Response _ _ => Response HC_INTERNAL_SERVER_ERROR [] end)
    [] (if release_document then None else document d).

(** setDocumentAndLength, with the answer of GetAvailable: "%d" of a
    size_t.  [None]: an ASSERT fails, the message has framing already. *)
Definition setDocumentAndLength (d : HttpData) (document : StreamIo.Stream) (available : option Z) : option HttpData :=
  require! (match hasHeader d (ToString HH_CONTENT_LENGTH) with Some _ => false | None => true end) in
  require! (match hasHeader d (ToString HH_TRANSFER_ENCODING) with Some _ => false | None => true end) in
  let d := with_document d (Some document) in
  Some match available with
  | Some content_length => setHeader d (ToString HH_CONTENT_LENGTH) (ToString_int (s32 content_length)) true
  | None => setHeader d (ToString HH_TRANSFER_ENCODING) (str "chunked") true
  end.
Definition setContent (d : HttpData) (content_type : bytes) (document : StreamIo.Stream) (available : option Z) : option HttpData :=
  setDocumentAndLength (setHeader d (ToString HH_CONTENT_TYPE) content_type true) document available.
(** HttpResponseData::set_success without a document, and set_error *)
Definition set_error (d : HttpData) (scode : Z) : HttpData :=
  setHeader (with_leader d (version d) (Response scode [])) (ToString HH_CONTENT_LENGTH) (str "0") false.
Definition set_success (d : HttpData) (content_type : bytes) (document : StreamIo.Stream) (available : option Z) (scode : Z) : option HttpData :=
  setContent (with_leader d (version d) (Response scode [])) content_type document available.
Definition set_redirect (d : HttpData) (location : bytes) (scode : Z) : HttpData :=
  setHeader (setHeader (with_leader d (version d) (Response scode [])) (ToString HH_LOCATION) location true)
    (ToString HH_CONTENT_LENGTH) (str "0") false.

(** ** The first line *)

(** sprintfn(buffer, buflen, ...) of a text: what is in the buffer.  With a
    buflen of 0 it writes before the buffer. *)
Definition sprintfn (buflen : Z) (text : bytes) : option bytes :=
  require! 0 <? buflen in
  Some (if Z.of_nat (length text) <? buflen then text else take (Z.to_nat (buflen - 1)) text).
(** strcpyn(buffer, buflen, source) *)
Definition strcpyn (buflen : Z) (source : bytes) : bytes :=
  if buflen <=? 0 then [] else take (Z.to_nat (Z.min (Z.of_nat (length (c_str source))) (buflen - 1))) source.
(** "%lu" *)
Definition format_ulong (n : Z) : bytes := digits 20 n [].

(** ASSERT(path.find(' ') == std::string::npos) *)
Definition path_ok (d : HttpData) : bool :=
  match leader d with Request _ path => forallb (fun c => negb (c =? 32)) path | Response _ _ => true end.
Definition formatLeader (d : HttpData) (size : Z) : option bytes :=
  require! path_ok d in
  match leader d with
  | Request verb path => sprintfn size (ToString verb ++ str " " ++ c_str path ++ str " HTTP/" ++ ToString (version d))
  | Response scode message =>
      let? line := sprintfn size (str "HTTP/" ++ ToString (version d) ++ str " " ++ format_ulong scode) in
      if decide (message = []) then Some line
      else let? rest := sprintfn (size - Z.of_nat (length line)) (str " " ++ c_str message) in Some (line ++ rest)
  end.

(** The directives of sscanf: "%u" with the rest of the input, a literal,
    "%*s" with the word and the rest.  White space is [skip_space]. *)
Definition scan_u (s : bytes) : option (Z * bytes) :=
  let '(v, n) := StringEncode.strtoul 10 s in
  if (n =? 0)%nat then None else Some (v mod 2 ^ 32, drop n s).
Fixpoint scan_literal (lit s : bytes) : option bytes :=
  match lit, s with
  | [], _ => Some s
  | c :: lit, d :: s => if c =? d then scan_literal lit s else None
  | _ :: _, [] => None
  end.
Fixpoint word (s : bytes) : bytes * bytes :=
  match s with
  | [] => ([], [])
  | c :: rest => if is_space c then ([], s) else let '(w, r) := word rest in (c :: w, r)
  end.
Definition scan_word (s : bytes) : option (bytes * bytes) :=
  match word (skip_space s) with ([], _) => None | wr => Some wr end.

Definition version_of (vminor : Z) : option HttpVersion :=
  if vminor =? 0 then Some HVER_1_0 else if vminor =? 1 then Some HVER_1_1 else None.

(** "%u.%u", and the rest *)
Definition scan_version (s : bytes) : option (Z * Z * bytes) :=
  let? (vmajor, s) := scan_u s in
  let? s := scan_literal (str ".") s in
  let? (vminor, s) := scan_u s in
  Some (vmajor, vminor, s).

(** HttpRequestData::parseLeader: the sscanf "%*s%n %n%*s%n HTTP/%u.%u" *)
Definition scan_request (line : bytes) : option (bytes * bytes * Z * Z) :=
  let? (_, s) := scan_word line in
  let sverb := take (length line - length s) line in
  let? (path, s) := scan_word s in
  let? s := scan_literal (str "HTTP/") (skip_space s) in
  let? (vmajor, vminor, _) := scan_version s in
  Some (sverb, path, vmajor, vminor).
Definition parse_request (d : HttpData) (line : bytes) : HttpError * HttpData :=
  match scan_request (c_str line) with
  | Some (sverb, path, vmajor, vminor) =>
      if negb (vmajor =? 1) then (HE_PROTOCOL, d)
      else match version_of vminor with
           | None => (HE_PROTOCOL, d)
           | Some v =>
               match FromString (E := HttpVerb) sverb with
               | None => (HE_PROTOCOL, with_leader d v (leader d))
               | Some verb => (HE_NONE, with_leader d v (Request verb path))
               end
           end
  | None => (HE_PROTOCOL, d)
  end.

(** HttpResponseData::parseLeader: the sscanf "HTTP %u%n" and
    "HTTP/%u.%u %u%n" *)
Definition scan_status (line : bytes) : option (Z * bytes) :=
  let? s := scan_literal (str "HTTP") line in scan_u (skip_space s).
Definition scan_response (line : bytes) : option (Z * Z * Z * bytes) :=
  let? s := scan_literal (str "HTTP/") line in
  let? (vmajor, vminor, s) := scan_version s in
  let? (scode, s) := scan_u (skip_space s) in
  Some (vmajor, vminor, scode, s).
Definition parse_response (d : HttpData) (line : bytes) : HttpError * HttpData :=
  let cline := c_str line in
  let done v scode rest :=
    (HE_NONE, with_leader d v (Response scode (skip_space (drop (length cline - length rest) line)))) in
  match scan_status cline with
  | Some (temp_scode, rest) => done HVER_UNKNOWN temp_scode rest
  | None =>
      match scan_response cline with
      | Some (vmajor, vminor, temp_scode, rest) =>
          if negb (vmajor =? 1) then (HE_PROTOCOL, d)
          else match version_of vminor with Some v => done v temp_scode rest | None => (HE_PROTOCOL, d) end
      | None => (HE_PROTOCOL, d)
      end
  end.
Definition parseLeader (d : HttpData) (line : bytes) : HttpError * HttpData :=
  match leader d with Request _ _ => parse_request d line | Response _ _ => parse_response d line end.

(** ** Examples *)

Example parse_ex : parseLeader HttpRequestData (str "get /index.html HTTP/1.0")
  = (HE_NONE, mkHttpData HVER_1_0 (Request HV_GET (str "/index.html")) [] None).
Proof. vm_compute. reflexivity. Qed.
Example response_ex : parseLeader HttpResponseData (str "HTTP/1.1 404 Not Found")
  = (HE_NONE, mkHttpData HVER_1_1 (Response 404 (str "Not Found")) [] None).
Proof. vm_compute. reflexivity. Qed.
Example response_ex2 : parseLeader HttpResponseData (str "HTTP 200 OK")
  = (HE_NONE, mkHttpData HVER_UNKNOWN (Response 200 (str "OK")) [] None).
Proof. vm_compute. reflexivity. Qed.
Example attributes_ex : HttpParseAttributes (str "no-store, max-age=5") = Some [(str "no-store,", []); (str "max-age", str "5")].
Proof. vm_compute. reflexivity. Qed.
Example headers_ex : headers_ (addHeader (addHeader (addHeader HttpRequestData (str "Set-Cookie") (str "a"))
    (str "Accept") (str "x")) (str "accept") (str "y"))
  = [(str "Accept", str "x,y"); (str "Set-Cookie", str "a")].
Proof. vm_compute. reflexivity. Qed.

End HttpCommon.
