(* ===== verification/HttpParser.v ===== *)
(** * base/httpbase.cc: HttpParser

    The incremental parser: Process takes a buffer, consumes complete lines
    and document data, calls the virtual methods of the derived class and
    says how much it has used; the caller presents the rest again with what
    has arrived since.  The virtual methods are the class [HttpHandler].

    The specification reads the stream a byte at a time ([feed]) with a
    handler that takes everything it is given; [Process_feeds] shows that
    Process, with any handler that implements it, does what [feed] does with
    the bytes it has used, however they are split over calls and however
    often the handler stalls. *)

From stdpp Require Import list.
From S2P Require Import Prelude StringEncode StringConv HttpCommon.
Open Scope jingle_scope.

Module HttpParser.
Import StringConv HttpCommon.

Inductive ProcessResult := PR_CONTINUE | PR_BLOCK | PR_COMPLETE.
#[export] Instance ProcessResult_dec : EqDecision ProcessResult. Proof. solve_decision. Defined.
Inductive State := ST_LEADER | ST_HEADERS | ST_CHUNKSIZE | ST_CHUNKTERM | ST_TRAILERS | ST_DATA | ST_COMPLETE.
#[export] Instance State_dec : EqDecision State. Proof. solve_decision. Defined.

(** static_cast<size_t>(-1), on a 64-bit platform *)
Definition SIZE_UNKNOWN : Z := 2 ^ 64 - 1.

Record parser := mkParser { state_ : State; chunked_ : bool; data_size_ : Z }.
Definition set_state (p : parser) (st : State) : parser := mkParser st (chunked_ p) (data_size_ p).
Definition set_data_size (p : parser) (n : Z) : parser := mkParser (state_ p) (chunked_ p) n.
Definition set_chunked (p : parser) (c : bool) : parser := mkParser (state_ p) c (data_size_ p).

Definition reset : parser := mkParser ST_LEADER false SIZE_UNKNOWN.
(** state_ < ST_DATA *)
Definition before_data (p : parser) : bool := match state_ p with ST_DATA | ST_COMPLETE => false | _ => true end.
Definition GetDataRemaining (p : parser) : Z := data_size_ p.
Definition is_valid_end_of_input (p : parser) : bool := bool_decide (state_ p = ST_DATA) && (data_size_ p =? SIZE_UNKNOWN).

(** The pure virtual methods: a result and the error they leave. *)
Class HttpHandler (S : Type) := {
  ProcessLeader : S -> bytes -> ProcessResult * HttpError * S;
  ProcessHeader : S -> bytes -> bytes -> ProcessResult * HttpError * S;
  (** ... and the data size, a reference *)
  ProcessHeaderComplete : S -> bool -> Z -> ProcessResult * HttpError * Z * S;
  (** ... and the number of bytes read *)
  ProcessData : S -> bytes -> ProcessResult * nat * HttpError * S
}.

Definition MatchHeader (s : bytes) (header : HttpHeader) : bool :=
  let header_str := ToString header in
  (length s =? length header_str)%nat && bool_decide (map tolower s = map tolower header_str).

(** strchrn(line, len, ':'), as what is before and behind the colon *)
Fixpoint split_colon (line : bytes) : option (bytes * bytes) :=
  match line with
  | [] => None
  | c :: line =>
      if c =? chr ":" then Some ([], line)
      else if c =? 0 then None
      else let? (name, value) := split_colon line in Some (c :: name, value)
  end.
(** The white space at the end of a line is not part of it. *)
Definition trim_right (line : bytes) : bytes := rev (skip_space (rev line)).
(** The line up to the first '\n', and what follows *)
Fixpoint split_line (b : bytes) : option (bytes * bytes) :=
  match b with
  | [] => None
  | c :: b => if c =? 10 then Some ([], b) else let? (line, rest) := split_line b in Some (c :: line, rest)
  end.

Section Process.
Context {S : Type} `{HH : HttpHandler S}.

(** The lines of the header that the parser looks at itself. *)
Definition note_header (p : parser) (name value : bytes) : option parser :=
  if MatchHeader name HH_CONTENT_LENGTH then
    let? (temp_size, _) := scan_u (c_str value) in Some (set_data_size p temp_size)
  else if MatchHeader name HH_TRANSFER_ENCODING then
    if (length value =? 7)%nat && bool_decide (map tolower value = str "chunked") then Some (set_chunked p true)
    else if (length value =? 8)%nat && bool_decide (map tolower value = str "identity") then Some (set_chunked p false)
    else None
  else Some p.

Definition ProcessLine (p : parser) (s : S) (line : bytes) : ProcessResult * HttpError * parser * S :=
  let failed := (PR_COMPLETE, HE_PROTOCOL, p, s) in
  match state_ p with
  | ST_LEADER => let '(r, e, s) := ProcessLeader s line in (r, e, set_state p ST_HEADERS, s)
  | ST_HEADERS =>
      match line with
      | [] =>
          let p := set_state p (if chunked_ p then ST_CHUNKSIZE else ST_DATA) in
          let '(r, e, size, s) := ProcessHeaderComplete s (chunked_ p) (data_size_ p) in
          (r, e, set_data_size p size, s)
      | _ =>
          match split_colon line with
          | None => failed
          | Some (name, value) =>
              let value := skip_space value in
              match note_header p name value with
              | None => failed
              | Some p => let '(r, e, s) := ProcessHeader s name value in (r, e, p, s)
              end
          end
      end
  | ST_CHUNKSIZE =>
      match line with
      | [] => failed
      | _ =>
          let '(size, n) := StringEncode.strtoul 16 line in
          let p := set_data_size p size in
          if negb (n =? length line)%nat then (PR_COMPLETE, HE_PROTOCOL, p, s)
          else (PR_CONTINUE, HE_NONE, set_state p (if size =? 0 then ST_TRAILERS else ST_DATA), s)
      end
  | ST_CHUNKTERM =>
      match line with
      | [] => (PR_CONTINUE, HE_NONE, set_state p (if chunked_ p then ST_CHUNKSIZE else ST_DATA), s)
      | _ => failed
      end
  | ST_TRAILERS =>
      match line with [] => (PR_COMPLETE, HE_NONE, p, s) | _ => (PR_CONTINUE, HE_NONE, p, s) end
  | ST_DATA | ST_COMPLETE => (PR_CONTINUE, HE_NONE, p, s)
  end.

(** The loop of Process over the bytes from [*processed] on; [None]: the fuel
    has run out. *)
Fixpoint process_loop (fuel : nat) (p : parser) (s : S) (rest : bytes) (processed : nat)
  : option (ProcessResult * nat * HttpError * parser * S) :=
  match fuel with
  | O => None
  | Datatypes.S fuel =>
      if before_data p then
        match split_line rest with
        | None => Some (PR_CONTINUE, processed, HE_NONE, p, s)
        | Some (line, rest) =>
            let processed := (processed + length line + 1)%nat in
            let '(r, e, p, s) := ProcessLine p s (trim_right line) in
            if decide (r = PR_CONTINUE) then process_loop fuel p s rest processed
            else Some (r, processed, e, p, s)
        end
      else if data_size_ p =? 0 then
        if chunked_ p then process_loop fuel (set_state p ST_CHUNKTERM) s rest processed
        else Some (PR_COMPLETE, processed, HE_NONE, p, s)
      else
        match rest with
        | [] => Some (PR_CONTINUE, processed, HE_NONE, p, s)
        | _ =>
            let available := Z.of_nat (length rest) in
            let available :=
              if negb (data_size_ p =? SIZE_UNKNOWN) && (data_size_ p <? available) then data_size_ p else available in
            let '(r, read, e, s) := ProcessData s (take (Z.to_nat available) rest) in
            if decide (r = PR_CONTINUE) then
              let p := if negb (data_size_ p =? SIZE_UNKNOWN) then set_data_size p (data_size_ p - Z.of_nat read) else p in
              process_loop fuel p s (drop read rest) (processed + read)%nat
            else Some (r, processed, e, p, s)
        end
  end.
(** Every byte costs at most two turns.  [None] also when the ASSERT fails: the
    message is complete. *)
Definition Process (p : parser) (s : S) (buffer : bytes) : option (ProcessResult * nat * HttpError * parser * S) :=
  if decide (state_ p = ST_COMPLETE) then None
  else process_loop (2 * length buffer + 2) p s buffer 0.

(** What every method preserves, Process preserves. *)
Lemma process_loop_rel (R : S -> S -> Prop) `{!PreOrder R} :
  (forall s l r e s', ProcessLeader s l = (r, e, s') -> R s s') -> (forall s n v r e s', ProcessHeader s n v = (r, e, s') -> R s s') ->
  (forall s c n r e n' s', ProcessHeaderComplete s c n = (r, e, n', s') -> R s s') ->
  (forall s d r n e s', ProcessData s d = (r, n, e, s') -> R s s') ->
  forall fuel p s rest k r k' e p' s', process_loop fuel p s rest k = Some (r, k', e, p', s') -> R s s'.
Proof.
  intros H1 H2 H3 H4. assert (HL : forall p s l r e p' s', ProcessLine p s l = (r, e, p', s') -> R s s').
  { intros p s l r e p' s'. unfold ProcessLine. destruct (state_ p).
    - destruct (ProcessLeader s l) as [[r0 e0] s0] eqn:E. intros [= <- <- <- <-]. eauto.
    - destruct l.
      + destruct (ProcessHeaderComplete s _ _) as [[[r0 e0] n0] s0] eqn:E. intros [= <- <- <- <-]. eauto.
      + destruct (split_colon _) as [[n v]|]; [|by intros [= <- <- <- <-]]. destruct (note_header _ _ _); [|by intros [= <- <- <- <-]].
        destruct (ProcessHeader s _ _) as [[r0 e0] s0] eqn:E. intros [= <- <- <- <-]. eauto.
    - destruct l; [by intros [= <- <- <- <-]|]. destruct (StringEncode.strtoul 16 _) as [size n]. by destruct (_ =? _)%nat; intros [= <- <- <- <-].
    - by destruct l; intros [= <- <- <- <-].
    - by destruct l; intros [= <- <- <- <-].
    - by intros [= <- <- <- <-].
    - by intros [= <- <- <- <-]. }
  induction fuel as [|fuel IH]; intros p s rest k r k' e p' s'; [done|]. cbn [process_loop]. destruct (before_data p).
  - destruct (split_line rest) as [[line rest']|]; [|by intros [= <- <- <- <- <-]].
    destruct (ProcessLine p s (trim_right line)) as [[[r0 e0] p0] s0] eqn:EL. apply HL in EL.
    destruct (decide _); [intros E; apply IH in E; by etrans|by intros [= <- <- <- <- <-]].
  - destruct (_ =? 0); [destruct (chunked_ p); [by intros E; apply IH in E|by intros [= <- <- <- <- <-]]|].
    destruct rest as [|c rest]; [by intros [= <- <- <- <- <-]|].
    destruct (ProcessData s _) as [[[r0 n0] e0] s0] eqn:ED. apply H4 in ED.
    destruct (decide _); [intros E; apply IH in E; by etrans|by intros [= <- <- <- <- <-]].
Qed.
End Process.

(** ** The specification: a byte at a time *)

(** A handler that takes all the data it is given. *)
Class Reference (A : Type) `{HttpHandler A} := {
  accept : A -> bytes -> A;
  accept_app a d1 d2 : accept a (d1 ++ d2) = accept (accept a d1) d2;
  complete_settles a chunked size : (ProcessHeaderComplete a chunked size).1.1.1 <> PR_BLOCK
}.

Inductive run (A : Type) :=
  | Running (p : parser) (line : bytes) (a : A)   (** with the beginning of a line *)
  | Done (e : HttpError) (a : A).
Arguments Running {A}. Arguments Done {A}.

Section Feed.
Context {A : Type} `{HR : Reference A}.

(** What needs no further byte: the end of the data of a chunk or of the
    document. *)
Definition settle (p : parser) (a : A) : run A :=
  if negb (before_data p) && (data_size_ p =? 0) then
    if chunked_ p then Running (set_state p ST_CHUNKTERM) [] a else Done HE_NONE a
  else Running p [] a.

Definition feed (r : run A) (b : Z) : run A :=
  match r with
  | Done _ _ => r
  | Running p line a =>
      if before_data p then
        if b =? 10 then
          let '(res, e, p, a) := ProcessLine p a (trim_right line) in
          if decide (res = PR_COMPLETE) then Done e a else settle p a
        else Running p (line ++ [b]) a
      else
        settle (if data_size_ p =? SIZE_UNKNOWN then p else set_data_size p (data_size_ p - 1)) (accept a [b])
  end.
Definition feeds (r : run A) (l : bytes) : run A := fold_left feed l r.
End Feed.

(** A handler [S] implements [A]: it does to its part of the message what
    [A] does, but it may take less data than it is given, stall, break off at
    the end of the headers ([opened]) or give up on the document
    ([broken]). *)
Class Implements (S A : Type) `{HttpHandler S} `{Reference A} := {
  abs : S -> A;
  broken : S -> HttpError -> Prop;
  opened : S -> Prop;
  impl_leader s line r e s' : ProcessLeader s line = (r, e, s') -> r <> PR_BLOCK /\ ProcessLeader (abs s) line = (r, e, abs s');
  impl_header s n v r e s' : ProcessHeader s n v = (r, e, s') -> r <> PR_BLOCK /\ ProcessHeader (abs s) n v = (r, e, abs s');
  impl_complete s c n r e n' s' : 0 <= n <= SIZE_UNKNOWN -> ProcessHeaderComplete s c n = (r, e, n', s') ->
    0 <= n' <= SIZE_UNKNOWN /\ (r = PR_BLOCK -> opened s') /\ exists r', ProcessHeaderComplete (abs s) c n = (r', e, n', abs s') /\ (r' = PR_COMPLETE <-> r = PR_COMPLETE);
  impl_data s d r n e s' : d <> [] -> ProcessData s d = (r, n, e, s') ->
    match r with
    | PR_CONTINUE => (1 <= n <= length d)%nat /\ abs s' = accept (abs s) (take n d)
    | PR_BLOCK => abs s' = abs s
    | PR_COMPLETE => broken s' e
    end
}.

(** ** Lines *)

Lemma split_line_some b line rest : split_line b = Some (line, rest) -> b = line ++ 10 :: rest /\ ~ In 10 line.
Proof.
  revert line rest. induction b as [|c b IH]; intros line rest; [done|]. cbn [split_line]. destruct (Z.eqb_spec c 10) as [->|Hc].
  - intros [= <- <-]. by split; [|intros []].
  - destruct (split_line b) as [[l r]|] eqn:E; [|done]. intros [= <- <-]. destruct (IH _ _ eq_refl) as [-> Hn].
    split; [done|]. intros [|]; auto.
Qed.
Lemma split_line_none b : split_line b = None -> ~ In 10 b.
Proof.
  induction b as [|c b IH]; cbn [split_line]; [by intros _ []|]. destruct (Z.eqb_spec c 10) as [->|Hc]; [done|].
  destruct (split_line b) as [[]|]; [done|]. intros _ [|]; [done|]. by apply IH.
Qed.
Lemma split_line_app l rest : ~ In 10 l -> split_line (l ++ 10 :: rest) = Some (l, rest).
Proof.
  induction l as [|c l IH]; intros Hn; [done|]. cbn [app split_line]. destruct (Z.eqb_spec c 10) as [->|Hc]; [destruct Hn; by left|].
  rewrite IH; [done|]. intros ?. apply Hn. by right.
Qed.

Lemma strtoul_range b s : 0 < b -> 0 <= (StringEncode.strtoul b s).1 <= SIZE_UNKNOWN.
Proof.
  intros Hb. unfold StringEncode.strtoul. destruct (match drop _ s with [] => _ | _ => _ end) as [neg sgn].
  match goal with |- context [StringEncode.strtoul_digits b ?s' 0] => set (l := s') end.
  assert (Hd : forall l acc, 0 <= acc -> 0 <= (StringEncode.strtoul_digits b l acc).1).
  { clear -Hb. induction l as [|c l IH]; intros acc Ha; cbn [StringEncode.strtoul_digits]; [done|].
    destruct (StringEncode.digit_of b c) as [d|] eqn:E; [|done]. specialize (IH (acc * b + d)).
    destruct (StringEncode.strtoul_digits b l (acc * b + d)) as [v n]. cbn in *. apply IH.
    assert (0 <= d); [|nia]. unfold StringEncode.digit_of in E. destruct (StringEncode.hex_decode c) as [h|] eqn:Eh; [|done].
    assert (0 <= h). { unfold StringEncode.hex_decode in Eh. cbn in Eh. repeat (case_match; simplify_eq); bool_simpl; lia. }
    destruct (h <? b); by simplify_eq. }
  specialize (Hd l 0 (Z.le_refl 0)). destruct (StringEncode.strtoul_digits b l 0) as [v n]. cbn in Hd.
  unfold SIZE_UNKNOWN. destruct (n =? 0)%nat; [cbn; lia|]. cbn [fst].
  destruct (Z.leb_spec (2 ^ 64) v); [lia|]. destruct neg; [|lia]. pose proof (Z.mod_pos_bound (- v) (2 ^ 64)). lia.
Qed.
Lemma scan_u_range s v rest : scan_u s = Some (v, rest) -> 0 <= v < 2 ^ 32.
Proof.
  unfold scan_u. destruct (StringEncode.strtoul 10 s) as [w n]. destruct (_ =? _)%nat; [done|]. intros [= <- <-].
  apply Z.mod_pos_bound. lia.
Qed.

Definition ok (p : parser) : Prop := state_ p <> ST_COMPLETE /\ 0 <= data_size_ p <= SIZE_UNKNOWN.
Lemma reset_ok : ok reset.
Proof. by split; [|cbn; unfold SIZE_UNKNOWN; lia]. Qed.

Section Refinement.
Context {S A : Type} `{HI : Implements S A}.

Lemma feeds_partial p acc (a : A) l : before_data p = true -> ~ In 10 l -> feeds (Running p acc a) l = Running p (acc ++ l) a.
Proof.
  intros Hp. revert acc. induction l as [|c l IH]; intros acc Hn; [by rewrite app_nil_r|].
  unfold feeds. cbn [fold_left feed]. rewrite Hp. destruct (Z.eqb_spec c 10) as [->|Hc]; [destruct Hn; by left|].
  fold (feeds (Running p (acc ++ [c]) a) l). rewrite IH by (intros ?; apply Hn; by right). by rewrite <- app_assoc.
Qed.
Lemma feeds_app (r : run A) l1 l2 : feeds r (l1 ++ l2) = feeds (feeds r l1) l2.
Proof. apply fold_left_app. Qed.
Lemma feeds_done e (a : A) l : feeds (Done e a) l = Done e a.
Proof. induction l; [done|]. by unfold feeds; cbn. Qed.
Lemma feeds_line p (a : A) l : before_data p = true -> ~ In 10 l ->
  feeds (Running p [] a) (l ++ [10]) =
    let '(res, e, p, a) := ProcessLine p a (trim_right l) in
    if decide (res = PR_COMPLETE) then Done e a else settle p a.
Proof. intros Hp Hn. rewrite feeds_app, feeds_partial by done. unfold feeds. cbn [fold_left feed]. by rewrite Hp. Qed.

Definition less (p : parser) (n : nat) : parser :=
  if negb (data_size_ p =? SIZE_UNKNOWN) then set_data_size p (data_size_ p - Z.of_nat n) else p.
Lemma less_less p m n : ok p -> (data_size_ p =? SIZE_UNKNOWN) || (Z.of_nat m <=? data_size_ p) = true -> (0 < m)%nat -> less (less p m) n = less p (m + n).
Proof.
  intros [_ Hs] Hm Hm0. unfold less. destruct (Z.eqb_spec (data_size_ p) SIZE_UNKNOWN) as [E|E]; cbn [negb].
  - by rewrite E, Z.eqb_refl.
  - cbn [orb] in Hm. bool_simpl. cbn. destruct (Z.eqb_spec (data_size_ p - Z.of_nat m) SIZE_UNKNOWN); [lia|]. cbn.
    unfold set_data_size. cbn. f_equal. lia.
Qed.
Lemma less_ok p n : ok p -> (data_size_ p =? SIZE_UNKNOWN) || (Z.of_nat n <=? data_size_ p) = true -> ok (less p n).
Proof.
  intros [Hc Hs] Hn. unfold less. destruct (Z.eqb_spec (data_size_ p) SIZE_UNKNOWN); [done|]. cbn [orb] in Hn. bool_simpl.
  cbn [negb]. split; [done|]. cbn. lia.
Qed.
Lemma feeds_data p (a : A) d : ok p -> before_data p = false -> data_size_ p <> 0 -> d <> [] ->
  (data_size_ p =? SIZE_UNKNOWN) || (Z.of_nat (length d) <=? data_size_ p) = true ->
  feeds (Running p [] a) d = settle (less p (length d)) (accept a d).
Proof.
  revert p a. induction d as [|c d IH]; intros p a Hok Hp Hs Hne Hd; [done|].
  unfold feeds. cbn [fold_left feed]. rewrite Hp. fold (feeds (settle (if data_size_ p =? SIZE_UNKNOWN then p else set_data_size p (data_size_ p - 1)) (accept a [c])) d).
  assert ((if data_size_ p =? SIZE_UNKNOWN then p else set_data_size p (data_size_ p - 1)) = less p 1) as ->
    by (unfold less; by destruct (_ =? _)).
  assert (Hd1 : (data_size_ p =? SIZE_UNKNOWN) || (Z.of_nat 1 <=? data_size_ p) = true).
  { destruct (Z.eqb_spec (data_size_ p) SIZE_UNKNOWN); [done|]. cbn [orb length] in *. apply Z.leb_le. bool_simpl. lia. }
  assert (Hok1 := less_ok p 1 Hok Hd1). destruct d as [|c' d]; [done|].
  assert (Hb1 : before_data (less p 1) = false) by (unfold less; by destruct (negb _)).
  assert (Hn0 : data_size_ (less p 1) <> 0 /\ (data_size_ (less p 1) =? SIZE_UNKNOWN) || (Z.of_nat (length (c' :: d)) <=? data_size_ (less p 1)) = true).
  { unfold less. destruct Hok as [_ Hok]. destruct (Z.eqb_spec (data_size_ p) SIZE_UNKNOWN) as [E|E]; cbn [negb].
    - by rewrite E, Z.eqb_refl.
    - cbn [length orb set_data_size data_size_] in *. bool_simpl. split; [lia|]. apply orb_true_iff. right. apply Z.leb_le. lia. }
  destruct Hn0 as [Hn0 Hl]. unfold settle at 1. rewrite Hb1, (proj2 (Z.eqb_neq _ _) Hn0). cbn [negb andb].
  rewrite IH by done. rewrite less_less by (done || lia). change (c :: c' :: d) with ([c] ++ c' :: d). rewrite accept_app. done.
Qed.

Lemma note_header_ok p name value p' : ok p -> note_header p name value = Some p' -> ok p'.
Proof.
  intros [Hc Hs] E. unfold note_header in E. repeat (case_match; simplify_eq); split; try done.
  cbn. match goal with H : scan_u _ = _ |- _ => apply scan_u_range in H end.
  unfold SIZE_UNKNOWN. lia.
Qed.

(** ProcessLine is the same for the handler and for what it implements. *)
Lemma ProcessLine_abs p (s : S) line r e p' s' : ok p -> ProcessLine p s line = (r, e, p', s') ->
  ok p' /\ (r = PR_BLOCK -> opened s') /\ exists r', ProcessLine p (abs s) line = (r', e, p', abs s') /\ (r' = PR_COMPLETE <-> r = PR_COMPLETE).
Proof.
  intros Hok. assert (Hs : forall st, st <> ST_COMPLETE -> ok (set_state p st)) by (intros st Hst; split; [done|apply Hok]).
  assert (Hc : forall st b, st <> ST_COMPLETE -> ok (mkParser st b (data_size_ p))) by (intros st b Hst; split; [done|apply Hok]).
  unfold ProcessLine. destruct (state_ p) eqn:Est.
  - destruct (ProcessLeader s line) as [[r0 e0] s0] eqn:E. intros [= -> -> <- ->]. apply impl_leader in E as [Hr E]. rewrite E.
    split; [by apply Hs|]. split; [done|]. by exists r.
  - destruct line as [|c line].
    + destruct (ProcessHeaderComplete s (chunked_ _) (data_size_ _)) as [[[r0 e0] n0] s0] eqn:E. intros [= -> -> <- ->].
      eapply impl_complete in E as (Hn & Ho & r' & E & Hr); [|apply Hok]. rewrite E. split; [by split; [destruct (chunked_ p)|]|]. split; [done|].
      by exists r'.
    + destruct (split_colon (c :: line)) as [[name value]|]; [|by intros [= <- <- <- <-]; split; [done|split; [done|by exists PR_COMPLETE]]].
      destruct (note_header p name (skip_space value)) as [p0|] eqn:En; [|by intros [= <- <- <- <-]; split; [done|split; [done|by exists PR_COMPLETE]]].
      apply note_header_ok in En; [|done].
      destruct (ProcessHeader s name _) as [[r0 e0] s0] eqn:E. intros [= -> -> <- ->]. apply impl_header in E as [Hr E]. rewrite E.
      split; [done|]. split; [done|]. by exists r.
  - destruct line as [|c line]; [by intros [= <- <- <- <-]; split; [done|split; [done|by exists PR_COMPLETE]]|].
    pose proof (strtoul_range 16 (c :: line) ltac:(lia)) as Hr. destruct (StringEncode.strtoul 16 (c :: line)) as [size n]. cbn in Hr.
    destruct (n =? length _)%nat; cbn [negb]; intros [= <- <- <- <-].
    + split; [split; [by destruct (size =? 0)|done]|]. split; [done|]. by exists PR_CONTINUE.
    + split; [split; [by apply Hok|done]|]. split; [done|]. by exists PR_COMPLETE.
  - destruct line; intros [= <- <- <- <-]; split; try done; [by apply Hs; destruct (chunked_ p)|split; [done|by exists PR_CONTINUE]|split; [done|by exists PR_COMPLETE]].
  - destruct line; intros [= <- <- <- <-]; split; try done; split; try done; by eexists.
  - intros [= <- <- <- <-]. split; [done|]. split; [done|]. by exists PR_CONTINUE.
  - by destruct Hok.
Qed.

(** Where Process waits for more: in the middle of a line, or at the end of
    the buffer inside the document. *)
Definition waiting (p : parser) (rest : bytes) : Prop :=
  if before_data p then ~ In 10 rest else rest = [] /\ data_size_ p <> 0.

Definition outcome (r : ProcessResult) (e : HttpError) (p : parser) (s : S) (rest : bytes) (spec : run A) : Prop :=
  match r with
  | PR_CONTINUE => spec = settle p (abs s) /\ e = HE_NONE /\ waiting p rest
  | PR_BLOCK => spec = settle p (abs s) /\ (opened s \/ (before_data p = false /\ data_size_ p <> 0 /\ rest <> []))
  | PR_COMPLETE => spec = Done e (abs s) \/ broken s e
  end.

Lemma process_loop_feeds fuel : forall p (s : S) rest k r k' e p' s', ok p ->
  process_loop fuel p s rest k = Some (r, k', e, p', s') ->
  ok p' /\ exists n, k' = (k + n)%nat /\ (n <= length rest)%nat /\
    outcome r e p' s' (drop n rest) (feeds (settle p (abs s)) (take n rest)).
Proof.
  induction fuel as [|fuel IH]; intros p s rest k r k' e p' s' Hok; [done|]. cbn [process_loop].
  destruct (before_data p) eqn:Hb.
  - assert (Hset : settle p (abs s) = Running p [] (abs s)) by (unfold settle; by rewrite Hb). rewrite Hset.
    destruct (split_line rest) as [[line rest']|] eqn:El.
    + apply split_line_some in El as [-> Hn]. destruct (ProcessLine p s (trim_right line)) as [[[r0 e0] p0] s0] eqn:EL.
      destruct (ProcessLine_abs _ _ _ _ _ _ _ Hok EL) as (Hok0 & Hop & ra & Ea & Hra).
      assert (Hline : feeds (Running p [] (abs s)) (line ++ [10]) = if decide (r0 = PR_COMPLETE) then Done e0 (abs s0) else settle p0 (abs s0)).
      { rewrite feeds_line, Ea by done. do 2 case_decide; tauto || done. }
      replace (line ++ 10 :: rest') with ((line ++ [10]) ++ rest') by (by rewrite <- app_assoc).
      assert (Hlen : length (line ++ [10]) = (length line + 1)%nat) by (by rewrite length_app).
      destruct (decide (r0 = PR_CONTINUE)) as [Hr0|Hr0].
      * subst r0. intros E. apply IH in E as (Hok' & n & -> & Hn' & Hout); [|done]. split; [done|].
        exists (length line + 1 + n)%nat. rewrite length_app, Hlen. split; [lia|]. split; [lia|]. rewrite <- Hlen, take_app_add, drop_app_add.
        rewrite feeds_app, Hline. by rewrite decide_False by done.
      * intros [= <- <- <- <- <-]. split; [done|]. exists (length line + 1)%nat. rewrite length_app, Hlen. split; [lia|]. split; [lia|].
        rewrite <- Hlen, take_app_length, Hline. destruct r0; [done|rewrite decide_False by done; split; [done|left; auto]|left; by rewrite decide_True by done].
    + intros [= <- <- <- <- <-]. split; [done|]. exists 0%nat. split; [lia|]. split; [lia|]. cbn [drop take outcome]. rewrite Hset.
      split; [done|]. split; [done|]. unfold waiting. rewrite Hb. by apply split_line_none.
  - destruct (Z.eqb_spec (data_size_ p) 0) as [Hz|Hz].
    + assert (Hset : settle p (abs s) = if chunked_ p then Running (set_state p ST_CHUNKTERM) [] (abs s) else Done HE_NONE (abs s))
        by (unfold settle; by rewrite Hb, Hz). rewrite Hset. destruct (chunked_ p) eqn:Ec.
      * intros E. apply IH in E; [|by split; [|apply Hok]]. exact E.
      * intros [= <- <- <- <- <-]. split; [done|]. exists 0%nat. split; [lia|]. split; [lia|]. by left.
    + assert (Hset : settle p (abs s) = Running p [] (abs s)) by (unfold settle; by rewrite Hb, (proj2 (Z.eqb_neq _ _) Hz)). rewrite Hset.
      destruct rest as [|c rest].
      { intros [= <- <- <- <- <-]. split; [done|]. exists 0%nat. split; [lia|]. split; [cbn; lia|]. cbn [drop take outcome]. rewrite Hset.
        split; [done|]. split; [done|]. unfold waiting. by rewrite Hb. }
      set (rest' := c :: rest).
      match goal with |- context [take (Z.to_nat ?av) _] => set (available := av) end.
      assert (Hav : 1 <= available <= Z.of_nat (length rest') /\ (data_size_ p =? SIZE_UNKNOWN) || (available <=? data_size_ p) = true).
      { destruct Hok as [_ Hs]. unfold available, rest'. destruct (Z.eqb_spec (data_size_ p) SIZE_UNKNOWN); cbn [negb andb orb length]; [lia|].
        destruct (Z.ltb_spec (data_size_ p) (Z.of_nat (Datatypes.S (length rest)))); (split; [lia|apply Z.leb_le; lia]). }
      clearbody available. destruct Hav as [Hav Hsz].
      assert (Hd : take (Z.to_nat available) rest' <> []).
      { intros E. apply (f_equal length) in E. rewrite length_take in E. cbn [length] in *. lia. }
      destruct (ProcessData s (take (Z.to_nat available) rest')) as [[[r0 read] e0] s0] eqn:ED.
      pose proof (impl_data _ _ _ _ _ _ Hd ED) as Hdata. case_decide as Hr0.
      * subst r0. destruct Hdata as [Hread Habs]. rewrite length_take in Hread. rewrite take_take, Nat.min_l in Habs by lia.
        fold (less p read). intros E.
        assert (Hsr : (data_size_ p =? SIZE_UNKNOWN) || (Z.of_nat read <=? data_size_ p) = true).
        { destruct (Z.eqb_spec (data_size_ p) SIZE_UNKNOWN); [done|]. cbn [orb] in *. bool_simpl. apply Z.leb_le. lia. }
        apply IH in E as (Hok' & n & -> & Hn & Hout); [|by apply less_ok]. split; [done|]. exists (read + n)%nat.
        rewrite length_drop in Hn. split; [lia|]. split; [lia|].
        assert (Hlt : length (take read rest') = read) by (rewrite length_take; lia).
        rewrite <- (take_drop read rest') at 2. rewrite <- Hlt at 2. rewrite take_app_add, feeds_app.
        rewrite feeds_data; [|done..|intros E0; apply (f_equal length) in E0; cbn in E0; lia|by rewrite Hlt].
        rewrite Hlt, <- Habs. rewrite drop_drop in Hout. exact Hout.
      * intros [= <- <- <- <- <-]. split; [done|]. exists 0%nat. split; [lia|]. split; [lia|]. destruct r0; [done| |by right].
        cbn [outcome take drop feeds fold_left]. rewrite Hdata. split; [by rewrite Hset|by right].
Qed.

Lemma Process_feeds p (s : S) buffer r k e p' s' : ok p -> Process p s buffer = Some (r, k, e, p', s') ->
  ok p' /\ (k <= length buffer)%nat /\ outcome r e p' s' (drop k buffer) (feeds (settle p (abs s)) (take k buffer)).
Proof.
  intros Hok E. unfold Process in E. rewrite decide_False in E by apply Hok.
  apply process_loop_feeds in E as (Hok' & n & -> & Hn & Ho); [|done]. done.
Qed.

(** Process ends: a turn of its loop that uses no byte is followed by one
    that does, or by the last. *)
Lemma process_loop_returns fuel : forall p (s : S) rest k, ok p ->
  (2 * length rest + (if negb (before_data p) && (data_size_ p =? 0)%Z && chunked_ p then 1 else 0) < fuel)%nat ->
  is_Some (process_loop fuel p s rest k).
Proof.
  induction fuel as [|fuel IH]; intros p s rest k Hok Hf; [lia|]. cbn [process_loop]. destruct (before_data p) eqn:Hb.
  - destruct (split_line rest) as [[line rest']|] eqn:El; [|done]. apply split_line_some in El as [-> _].
    destruct (ProcessLine p s (trim_right line)) as [[[r0 e0] p0] s0] eqn:EL.
    destruct (ProcessLine_abs _ _ _ _ _ _ _ Hok EL) as (Hok0 & _). case_decide; [|done]. apply IH; [done|].
    rewrite length_app in Hf. cbn [length] in Hf. destruct (negb (before_data p0) && _ && _); lia.
  - destruct (Z.eqb_spec (data_size_ p) 0) as [Hz|Hz].
    + destruct (chunked_ p) eqn:Ec; [|done]. apply IH; [by split; [|apply Hok]|]. cbn in *. lia.
    + destruct rest as [|c rest]; [done|]. set (rest' := c :: rest) in *.
      match goal with |- context [take (Z.to_nat ?av) _] => set (available := av) end.
      destruct (ProcessData s (take (Z.to_nat available) rest')) as [[[r0 read] e0] s0] eqn:ED. case_decide; [|done]. subst r0.
      destruct Hok as [Hc Hs].
      assert (Hav : 1 <= available /\ (data_size_ p =? SIZE_UNKNOWN) || (available <=? data_size_ p) = true).
      { unfold available, rest'. destruct (Z.eqb_spec (data_size_ p) SIZE_UNKNOWN); cbn [negb andb orb length]; [lia|].
        destruct (Z.ltb_spec (data_size_ p) (Z.of_nat (Datatypes.S (length rest)))); (split; [lia|apply Z.leb_le; lia]). }
      destruct Hav as [Hav Hsz].
      assert (Hd : take (Z.to_nat available) rest' <> []).
      { intros E. apply (f_equal length) in E. rewrite length_take in E. unfold rest' in E. cbn [length] in E. lia. }
      destruct (impl_data _ _ _ _ _ _ Hd ED) as [Hread _]. rewrite length_take in Hread. fold (less p read). apply IH.
      * apply less_ok; [done|]. destruct (Z.eqb_spec (data_size_ p) SIZE_UNKNOWN); [done|]. cbn [orb] in *. bool_simpl. apply Z.leb_le. lia.
      * rewrite length_drop. destruct (negb (before_data (less p read)) && _ && _); lia.
Qed.
Lemma Process_returns p (s : S) buffer : ok p -> is_Some (Process p s buffer).
Proof.
  intros Hok. unfold Process. rewrite decide_False by apply Hok. apply process_loop_returns; [done|]. destruct (_ && _); lia.
Qed.
End Refinement.
End HttpParser.
