(* ===== verification/HttpBase.v ===== *)
(** * base/httpbase.cc: HttpBase

    The state machine over a stream: send puts the first line, the headers and
    the document of a message into the buffer and the buffer onto the stream;
    recv reads the stream into the buffer, gives it to the parser and writes
    the document.  Both can stall at any call of a stream and are resumed by
    its events.

    [buffer_] holds the first len_ bytes of the array.  The message that data_
    points to is [message], [data_] whether the pointer is set; header_ is the
    list of the headers that are still to be queued.  What the object tells
    its owner - the calls of IHttpNotify, the signals of the document stream -
    is the [log]; the owner answers with further operations. *)

From stdpp Require Import list option.
From S2P Require Import Prelude StringEncode StringConv StreamIo HttpCommon HttpParser.
Open Scope jingle_scope.

Module HttpBase.
Import StreamIo StringConv HttpCommon HttpParser.

Inductive HttpMode := HM_NONE | HM_CONNECT | HM_RECV | HM_SEND.
#[export] Instance HttpMode_dec : EqDecision HttpMode. Proof. solve_decision. Defined.

Definition kBufferSize : Z := 32 * 1024.
Definition kMaxReadCount : nat := 20.
Definition kChunkDigits : Z := 8.
Definition SE_OPEN : Z := 1.
Definition SE_READ : Z := 2.
Definition SE_WRITE : Z := 4.
Definition SE_CLOSE : Z := 8.
Definition SOCKET_EACCES : Z := 13.
Definition SEC_E_CERT_EXPIRED : Z := -2146893016.

(** The calls of notify_ and the signals of the document stream. *)
Inductive event :=
  | onHttpComplete (mode : HttpMode) (err : HttpError)
  | onHttpClosed (err : HttpError)
  | doc_SignalEvent (events : Z) (err : Z)
  | PostEvent (events : Z).

(** What onHttpHeaderComplete does, with the head of the message before it:
    the error, the data size, the document it gives the message if it gives
    it one, whether it opens the document stream and whether it has the data
    ignored. *)
Record header_answer := mkAnswer {
  ha_error : HttpError; ha_size : Z; ha_document : option Stream; ha_stream : bool; ha_ignore : bool }.
Definition notify : Type := HttpVersion -> leader_data -> HeaderMap -> bool -> Z -> header_answer.

(** The DocumentStream last handed out: base_ != NULL, and error_. *)
Record DocumentStream := mkDoc { base_ : bool; error_ : HttpError }.

Record t := mkT {
  parser_ : parser;
  mode_ : HttpMode;
  data_ : bool;
  message : HttpData;
  http_stream_ : option Stream;
  doc_stream_ : bool;
  buffer_ : bytes;
  ignore_data_ : bool;
  chunk_data_ : bool;
  header_ : HeaderMap;
  doc_connected : bool;   (** data_->document->SignalEvent is connected to OnDocumentEvent *)
  ds : DocumentStream;
  log : list event
}.

Definition with_parser (t : t) (x : parser) := mkT x (mode_ t) (data_ t) (message t) (http_stream_ t) (doc_stream_ t) (buffer_ t) (ignore_data_ t) (chunk_data_ t) (header_ t) (doc_connected t) (ds t) (log t).
Definition with_mode (t : t) (x : HttpMode) := mkT (parser_ t) x (data_ t) (message t) (http_stream_ t) (doc_stream_ t) (buffer_ t) (ignore_data_ t) (chunk_data_ t) (header_ t) (doc_connected t) (ds t) (log t).
Definition with_data (t : t) (x : bool) := mkT (parser_ t) (mode_ t) x (message t) (http_stream_ t) (doc_stream_ t) (buffer_ t) (ignore_data_ t) (chunk_data_ t) (header_ t) (doc_connected t) (ds t) (log t).
Definition with_message (t : t) (x : HttpData) := mkT (parser_ t) (mode_ t) (data_ t) x (http_stream_ t) (doc_stream_ t) (buffer_ t) (ignore_data_ t) (chunk_data_ t) (header_ t) (doc_connected t) (ds t) (log t).
Definition with_http (t : t) (x : option Stream) := mkT (parser_ t) (mode_ t) (data_ t) (message t) x (doc_stream_ t) (buffer_ t) (ignore_data_ t) (chunk_data_ t) (header_ t) (doc_connected t) (ds t) (log t).
Definition with_doc_stream (t : t) (x : bool) (d : DocumentStream) := mkT (parser_ t) (mode_ t) (data_ t) (message t) (http_stream_ t) x (buffer_ t) (ignore_data_ t) (chunk_data_ t) (header_ t) (doc_connected t) d (log t).
Definition with_buffer (t : t) (x : bytes) := mkT (parser_ t) (mode_ t) (data_ t) (message t) (http_stream_ t) (doc_stream_ t) x (ignore_data_ t) (chunk_data_ t) (header_ t) (doc_connected t) (ds t) (log t).
Definition with_ignore (t : t) (x : bool) := mkT (parser_ t) (mode_ t) (data_ t) (message t) (http_stream_ t) (doc_stream_ t) (buffer_ t) x (chunk_data_ t) (header_ t) (doc_connected t) (ds t) (log t).
Definition with_chunk (t : t) (x : bool) := mkT (parser_ t) (mode_ t) (data_ t) (message t) (http_stream_ t) (doc_stream_ t) (buffer_ t) (ignore_data_ t) x (header_ t) (doc_connected t) (ds t) (log t).
Definition with_header (t : t) (x : HeaderMap) := mkT (parser_ t) (mode_ t) (data_ t) (message t) (http_stream_ t) (doc_stream_ t) (buffer_ t) (ignore_data_ t) (chunk_data_ t) x (doc_connected t) (ds t) (log t).
Definition with_connected (t : t) (x : bool) := mkT (parser_ t) (mode_ t) (data_ t) (message t) (http_stream_ t) (doc_stream_ t) (buffer_ t) (ignore_data_ t) (chunk_data_ t) (header_ t) x (ds t) (log t).
Definition emit (t : t) (e : event) := mkT (parser_ t) (mode_ t) (data_ t) (message t) (http_stream_ t) (doc_stream_ t) (buffer_ t) (ignore_data_ t) (chunk_data_ t) (header_ t) (doc_connected t) (ds t) (log t ++ [e]).
Definition with_doc (t : t) (d : option Stream) := with_message t (with_document (message t) d).
(** len_ *)
Definition len_ (t : t) : Z := Z.of_nat (length (buffer_ t)).

Definition init : t := mkT reset HM_NONE false HttpRequestData None false [] false false [] false (mkDoc false HE_DEFAULT) [].

(** The end of a call that need not end: [Spins] when the fuel has run out,
    [Undefined] for a write outside the buffer or a failed assertion. *)
Inductive res (A : Type) := Ret (a : A) | Spins | Undefined.
Arguments Ret {A}. Arguments Spins {A}. Arguments Undefined {A}.
Definition defined {A B} (o : option A) (k : A -> res B) : res B := match o with Some a => k a | None => Undefined end.

(** One turn of flush_data goes on to the write or returns. *)
Inductive turn := Go (send_required : bool) (t : t) | Return_ (t : t).

(** What happens to an object with a transaction under way: the two sides of
    its streams, and the events that its streams signal. *)
Inductive op :=
  | Arrive (more : bytes) (plan : list answer)
  | Drain (plan : list answer)
  | DocArrive (more : bytes) (plan : list answer)
  | DocDrain (plan : list answer)
  | HttpEvent (events error : Z)
  | DocEvent (events error : Z).

Section HttpBase.
(** notify_, NULL or an object; its onHttpHeaderComplete answers at once. *)
Context (notify_ : option notify).

Definition isConnected (t : t) : bool :=
  match http_stream_ t with Some s => match state s with SS_OPEN => true | _ => false end | None => false end.

Definition attach (t : t) (stream : Stream) : bool * HttpBase.t :=
  if negb (bool_decide (mode_ t = HM_NONE)) || match http_stream_ t with Some _ => true | None => false end then (false, t)
  else (true, with_mode (with_http t (Some stream)) (match state stream with SS_OPENING => HM_CONNECT | _ => HM_NONE end)).
Definition detach (t : t) : option Stream * HttpBase.t :=
  if decide (mode_ t = HM_NONE) then (http_stream_ t, with_http t None) else (None, t).

Definition Disconnect (t : t) (error : HttpError) : HttpBase.t := with_doc_stream t false (mkDoc false error).
(** An HttpError where an int is wanted. *)
Definition error_code (e : HttpError) : Z :=
  match e with
  | HE_NONE => 0 | HE_PROTOCOL => 1 | HE_DISCONNECTED => 2 | HE_OVERFLOW => 3 | HE_CONNECT_FAILED => 4 | HE_SOCKET_ERROR => 5
  | HE_SHUTDOWN => 6 | HE_OPERATION_CANCELLED => 7 | HE_AUTH => 8 | HE_CERTIFICATE_EXPIRED => 9 | HE_STREAM => 10 | HE_CACHE => 11
  | HE_DEFAULT => 12
  end.

Definition do_complete (t : t) (err : HttpError) : HttpBase.t :=
  let mode := mode_ t in
  let t := with_mode t HM_NONE in
  let t := if data_ t then with_connected t false else t in
  let t := with_data t false in
  let t := if bool_decide (mode = HM_RECV) && doc_stream_ t then emit (Disconnect t err) (doc_SignalEvent SE_CLOSE (error_code err)) else t in
  match notify_ with Some _ => emit t (onHttpComplete mode err) | None => t end.

(** HttpParser::complete *)
Definition complete (t : t) (error : HttpError) : HttpBase.t :=
  if decide (state_ (parser_ t) = ST_COMPLETE) then t
  else do_complete (with_parser t (set_state (parser_ t) ST_COMPLETE)) error.

Definition HandleStreamClose (t : t) (error : Z) : HttpError * HttpBase.t :=
  let t := with_http t (Close <$> http_stream_ t) in
  if error =? 0 then
    (if bool_decide (mode_ t = HM_RECV) && is_valid_end_of_input (parser_ t) then HE_NONE else HE_DISCONNECTED, t)
  else if error =? SOCKET_EACCES then (HE_AUTH, t)
  else if error =? SEC_E_CERT_EXPIRED then (HE_CERTIFICATE_EXPIRED, t)
  else (if decide (mode_ t = HM_CONNECT) then HE_CONNECT_FAILED else HE_SOCKET_ERROR, t).

(** ** The HttpParser implementation *)

Definition ProcessLeader_ (t : t) (line : bytes) : ProcessResult * HttpError * HttpBase.t :=
  let '(error, m) := parseLeader (message t) line in
  (if decide (error = HE_NONE) then PR_CONTINUE else PR_COMPLETE, error, with_message t m).

Definition ProcessHeader_ (t : t) (name value : bytes) : ProcessResult * HttpError * HttpBase.t :=
  (PR_CONTINUE, HE_NONE, with_message t (addHeader (message t) name value)).

(** notify_->onHttpHeaderComplete(chunked, data_size), with what it does to
    this object *)
Definition header_callback (t : t) (chunked : bool) (data_size : Z) : HttpError * Z * HttpBase.t :=
  match notify_ with
  | Some onHttpHeaderComplete =>
      let a := onHttpHeaderComplete (version (message t)) (leader (message t)) (headers_ (message t)) chunked data_size in
      let t := match ha_document a with Some d => with_doc t (Some d) | None => t end in
      let t := if ha_ignore a then with_ignore t true else t in
      let t := if ha_stream a && negb (doc_stream_ t) then with_doc_stream t true (mkDoc true HE_DEFAULT) else t in
      (ha_error a, ha_size a, t)
  | None => (HE_NONE, data_size, t)
  end.
Definition ProcessHeaderComplete_ (t : t) (chunked : bool) (data_size : Z) : ProcessResult * HttpError * Z * HttpBase.t :=
  let old_docstream := doc_stream_ t in
  let '(error, data_size, t) := header_callback t chunked data_size in
  let t := if bool_decide (error = HE_NONE) && match document (message t) with Some _ => true | None => false end
           then with_connected t true else t in
  if negb (bool_decide (error = HE_NONE)) then (PR_COMPLETE, error, data_size, t)
  else if negb (bool_decide (old_docstream = doc_stream_ t)) then (PR_BLOCK, error, data_size, t)
  else (PR_CONTINUE, error, data_size, t).

Definition ProcessData_ (t : t) (data : bytes) : ProcessResult * nat * HttpError * HttpBase.t :=
  match (if ignore_data_ t then None else document (message t)) with
  | None => (PR_CONTINUE, length data, HE_NONE, t)
  | Some d =>
      let '(result, read, _, d) := Write d data in
      let t := with_doc t (Some d) in
      match result with
      | SR_SUCCESS => (PR_CONTINUE, read, HE_NONE, t)
      | SR_BLOCK => (PR_BLOCK, read, HE_NONE, t)
      | SR_EOS | SR_ERROR => (PR_COMPLETE, read, HE_STREAM, t)
      end
  end.

Instance base_handler : HttpHandler HttpBase.t := {
  ProcessLeader := ProcessLeader_;
  ProcessHeader := ProcessHeader_;
  ProcessHeaderComplete := ProcessHeaderComplete_;
  ProcessData := ProcessData_
}.

(** ** Receiving *)

(** The body of the do loop, [count] more times; [Some err] is the result
    true with its error. *)
Fixpoint receive_loop (count : nat) (process_requires_more_data : bool) (t : t) : option (option HttpError * HttpBase.t) :=
  match count with
  | O => Some (None, t)
  | S count =>
      let process t :=
        let? (process_result, processed, error, p, t) := Process (parser_ t) t (buffer_ t) in
        let t := with_buffer (with_parser t p) (drop processed (buffer_ t)) in
        match process_result with
        | PR_CONTINUE => receive_loop count true t
        | PR_BLOCK => Some (None, t)
        | PR_COMPLETE => Some (Some error, t)
        end in
      if len_ t <? kBufferSize then
        let? http := http_stream_ t in
        let '(read_result, read, read_error, http) := Read http (Z.to_nat (kBufferSize - len_ t)) in
        let t := with_http t (Some http) in
        match read_result with
        | SR_SUCCESS => process (with_buffer t (buffer_ t ++ read))
        | SR_BLOCK => if process_requires_more_data then Some (None, t) else process t
        | SR_EOS => let '(e, t) := HandleStreamClose t 0 in Some (Some e, t)
        | SR_ERROR => let '(e, t) := HandleStreamClose t read_error in Some (Some e, t)
        end
      else if process_requires_more_data then Some (Some HE_OVERFLOW, t)
      else process t
  end.
Definition DoReceiveLoop (t : t) : option (option HttpError * HttpBase.t) := receive_loop (S kMaxReadCount) false t.

Definition read_and_process_data (t : t) : option HttpBase.t :=
  let? (done, t) := DoReceiveLoop t in
  Some (match done with Some error => complete t error | None => t end).

(** ** Sending *)

(** Bytes written at buffer_ + len_, and len_ advanced. *)
Definition put (t : t) (l : bytes) : option HttpBase.t :=
  require! len_ t + Z.of_nat (length l) <=? kBufferSize in Some (with_buffer t (buffer_ t ++ l)).

(** "%.*s: %.*s\r\n" *)
Definition header_line (h : bytes * bytes) : bytes := c_str h.1 ++ str ": " ++ c_str h.2 ++ [13; 10].
(** "%.*x" with kChunkDigits digits *)
Definition hex8 (n : Z) : bytes :=
  map (fun k => StringEncode.hex_encode (Z.land (Z.shiftr n (4 * k)) 15)) [7; 6; 5; 4; 3; 2; 1; 0].

Fixpoint queue_headers_loop (headers : HeaderMap) (t : t) : option (bool * HttpBase.t) :=
  match headers with
  | [] =>
      let? t := put (with_header t []) (strcpyn (kBufferSize - len_ t) [13; 10]) in Some (false, t)
  | h :: headers' =>
      let? text := sprintfn (kBufferSize - len_ t) (header_line h) in
      if len_ t + Z.of_nat (length text) <? kBufferSize - 3 then
        let? t := put t text in queue_headers_loop headers' t
      else if len_ t =? 0 then queue_headers_loop headers' t
      else Some (true, with_header t headers)
  end.
Definition queue_headers (t : t) : option (bool * HttpBase.t) := queue_headers_loop (header_ t) t.

(** The tail of OnHttpStreamEvent: the stream has closed. *)
Definition on_stream_close (t : t) (error : Z) : HttpBase.t :=
  let '(http_error, t) := HandleStreamClose t error in
  if decide (mode_ t = HM_RECV) then complete t http_error
  else if negb (bool_decide (mode_ t = HM_NONE)) then do_complete t http_error
  else match notify_ with Some _ => emit t (onHttpClosed http_error) | None => t end.

(** "First, attempt to queue more header data." *)
Definition flush_headers (send_required : bool) (t : t) : option (bool * HttpBase.t) :=
  match header_ t with
  | _ :: _ => if send_required then Some (send_required, t) else queue_headers t
  | [] => Some (send_required, t)
  end.

(** "Next, attempt to queue document data." *)
Definition flush_document (send_required : bool) (t : t) : option turn :=
  match (if send_required then None else document (message t)) with
  | None => Some (Go send_required t)
  | Some document =>
      let reserve := if chunk_data_ t then len_ t + kChunkDigits + 2 + 2 else len_ t in
      if kBufferSize <=? reserve then Some (Go true t)
      else
        let '(result, data, _, document) := Read document (Z.to_nat (kBufferSize - reserve)) in
        let t := with_doc t (Some document) in
        match result with
        | SR_SUCCESS =>
            let? t := put t (if chunk_data_ t then hex8 (Z.of_nat (length data)) ++ [13; 10] ++ data ++ [13; 10] else data) in
            Some (Go send_required t)
        | SR_BLOCK => Some (Go true t)
        | SR_EOS =>
            if chunk_data_ t then
              let? t := put t (str "0" ++ [13; 10; 13; 10]) in Some (Go true (with_chunk t false))
            else if len_ t =? 0 then Some (Return_ (do_complete t HE_NONE))
            else Some (Go true t)
        | SR_ERROR => Some (Return_ (do_complete t HE_STREAM))
        end
  end.

Fixpoint flush_loop (fuel : nat) (send_required : bool) (t : t) : res HttpBase.t :=
  match fuel with
  | O => Spins
  | S fuel =>
      defined (flush_headers send_required t) (fun '(send_required, t) =>
      defined (flush_document send_required t) (fun turn =>
      match turn with
      | Return_ t => Ret t
      | Go send_required t =>
          if len_ t =? 0 then
            Ret (match document (message t) with None => do_complete t HE_NONE | Some _ => t end)
          else
            match http_stream_ t with
            | None => Undefined
            | Some http =>
                let '(result, written, error, http) := Write http (buffer_ t) in
                let t := with_http t (Some http) in
                match result with
                | SR_SUCCESS => flush_loop fuel false (with_buffer t (drop written (buffer_ t)))
                | SR_BLOCK => if send_required then Ret t else flush_loop fuel send_required t
                | SR_ERROR => Ret (on_stream_close t error)
                | SR_EOS => Undefined
                end
            end
      end))
  end.
Definition flush_data (fuel : nat) (t : t) : res HttpBase.t := flush_loop fuel (kBufferSize <=? len_ t) t.

Definition has (events flag : Z) : bool := negb (Z.land events flag =? 0).

Definition OnHttpStreamEvent (fuel : nat) (t : t) (events error : Z) : res HttpBase.t :=
  if has events SE_OPEN && bool_decide (mode_ t = HM_CONNECT) then Ret (do_complete t HE_NONE)
  else if has events SE_WRITE && bool_decide (mode_ t = HM_SEND) then flush_data fuel t
  else if has events SE_READ && bool_decide (mode_ t = HM_RECV) then
    if doc_stream_ t then Ret (emit t (doc_SignalEvent SE_READ 0)) else defined (read_and_process_data t) Ret
  else if negb (has events SE_CLOSE) then Ret t
  else Ret (on_stream_close t error).

(** Only while the signal of the document is connected. *)
Definition OnDocumentEvent (fuel : nat) (t : t) (events error : Z) : res HttpBase.t :=
  if negb (doc_connected t) then Ret t
  else if has events SE_WRITE && bool_decide (mode_ t = HM_RECV) then defined (read_and_process_data t) Ret
  else if has events SE_READ && bool_decide (mode_ t = HM_SEND) then flush_data fuel t
  else if has events SE_CLOSE then Ret (do_complete t HE_STREAM)
  else Ret t.

Definition send (fuel : nat) (t : t) (data : HttpData) : res HttpBase.t :=
  if negb (bool_decide (mode_ t = HM_NONE)) then Ret t
  else if negb (isConnected t) then OnHttpStreamEvent fuel t SE_CLOSE (error_code HE_DISCONNECTED)
  else
    let t := with_message (with_data (with_mode t HM_SEND) true) data in
    let t := with_chunk (with_ignore (with_buffer t []) false) false in
    let t := match document data with Some _ => with_connected t true | None => t end in
    let t := match hasHeader data (ToString HH_TRANSFER_ENCODING) with
             | Some encoding => if decide (encoding = str "chunked") then with_chunk t true else t
             | None => t
             end in
    defined (let? line := formatLeader data kBufferSize in put t line) (fun t =>
    defined (put t (strcpyn (kBufferSize - len_ t) [13; 10])) (fun t =>
    let t := with_header t (headers_ data) in
    match headers_ data with
    | [] => defined (queue_headers t) (fun '(_, t) => flush_data fuel t)
    | _ => flush_data fuel t
    end)).

Definition recv (t : t) (data : HttpData) (fuel : nat) : res HttpBase.t :=
  if negb (bool_decide (mode_ t = HM_NONE)) then Ret t
  else if negb (isConnected t) then OnHttpStreamEvent fuel t SE_CLOSE (error_code HE_DISCONNECTED)
  else
    let t := with_message (with_data (with_mode t HM_RECV) true) data in
    let t := with_parser (with_chunk (with_ignore (with_buffer t []) false) false) reset in
    if doc_stream_ t then Ret (emit t (doc_SignalEvent (Z.lor SE_OPEN SE_READ) 0))
    else defined (read_and_process_data t) Ret.

Definition abort (t : t) (err : HttpError) : HttpBase.t :=
  if decide (mode_ t = HM_NONE) then t
  else do_complete (with_http t (Close <$> http_stream_ t)) err.

(** ** The document stream *)

Definition GetDocumentStream (t : t) : bool * HttpBase.t :=
  if doc_stream_ t then (false, t) else (true, with_doc_stream t true (mkDoc true HE_DEFAULT)).

Definition doc_GetState (t : t) : StreamState :=
  if negb (base_ (ds t)) then SS_CLOSED else if decide (mode_ t = HM_RECV) then SS_OPEN else SS_OPENING.

(** BlockingMemoryStream(buffer, size) *)
Definition BlockingMemoryStream (size : nat) : Stream := mkStream SS_OPEN [] [] [] (Buffer size).

(** DocumentStream::Read: the result, the bytes read and the error *)
Definition doc_Read (t : t) (buffer_len : nat) : option (StreamResult * bytes * HttpError * HttpBase.t) :=
  let ended e := if decide (e = HE_NONE) then SR_EOS else SR_ERROR in
  if negb (base_ (ds t)) then Some (ended (error_ (ds t)), [], error_ (ds t), t)
  else if negb (bool_decide (mode_ t = HM_RECV)) then Some (SR_BLOCK, [], HE_NONE, t)
  else
    let saved := document (message t) in
    let? (done, t) := DoReceiveLoop (with_doc t (Some (BlockingMemoryStream buffer_len))) in
    let stream := document (message t) in
    let t := with_doc t saved in
    let '(result, error, t) :=
      match done with
      | Some http_error => (ended http_error, http_error, complete (Disconnect t http_error) http_error)
      | None => (SR_BLOCK, HE_NONE, t)
      end in
    match stream with
    | Some s => match written s with [] => Some (result, [], error, t) | data => Some (SR_SUCCESS, data, error, t) end
    | None => None
    end.

(** DocumentStream::Close *)
Definition doc_Close (t : t) : HttpBase.t :=
  if base_ (ds t) then
    let t := Disconnect t HE_NONE in
    match http_stream_ t with
    | Some _ => if decide (mode_ t = HM_RECV) then emit t (PostEvent SE_READ) else t
    | None => t
    end
  else t.
Definition doc_GetAvailable (t : t) : option Z :=
  if negb (base_ (ds t)) || negb (bool_decide (mode_ t = HM_RECV)) then None
  else if GetDataRemaining (parser_ t) =? SIZE_UNKNOWN then None else Some (GetDataRemaining (parser_ t)).

(** ** Runs *)

Definition doc_map (g : Stream -> Stream) (t : t) : HttpBase.t := with_doc t (g <$> document (message t)).
Definition exec (fuel : nat) (t : t) (o : op) : res HttpBase.t :=
  match o with
  | Arrive more plan => Ret (with_http t (arrive more plan <$> http_stream_ t))
  | Drain plan => Ret (with_http t (drain plan <$> http_stream_ t))
  | DocArrive more plan => Ret (doc_map (arrive more plan) t)
  | DocDrain plan => Ret (doc_map (drain plan) t)
  | HttpEvent events error => OnHttpStreamEvent fuel t events error
  | DocEvent events error => OnDocumentEvent fuel t events error
  end.
Definition bind {A B} (m : res A) (k : A -> res B) : res B :=
  match m with Ret a => k a | Spins => Spins | Undefined => Undefined end.
Fixpoint run_ops (fuel : nat) (t : t) (ops : list op) : res HttpBase.t :=
  match ops with
  | [] => Ret t
  | o :: ops => bind (exec fuel t o) (fun t => run_ops fuel t ops)
  end.
Lemma run_ops_app fuel t ops1 ops2 : run_ops fuel t (ops1 ++ ops2) = bind (run_ops fuel t ops1) (fun t => run_ops fuel t ops2).
Proof. revert t. induction ops1 as [|o ops1 IH]; intros t; [done|]. cbn [app run_ops]. by destruct (exec fuel t o); cbn [bind]. Qed.
End HttpBase.
End HttpBase.
