(* ===== verification/HttpRecv.v ===== *)
(** * base/httpbase.cc: what recv delivers

    HttpBase as a handler of the parser, the specification of what a message
    received is, and the theorem that the operations of a receiving HttpBase
    deliver it, in whatever pieces the stream yields the bytes and however
    often the document stalls. *)

From stdpp Require Import list.
From S2P Require Import Prelude StringEncode StringConv StreamIo HttpCommon HttpParser HttpBase.
Open Scope jingle_scope.

Module HttpRecv.
Import StreamIo StringConv HttpCommon HttpParser HttpBase.

(** ** The specification *)

(** The message as far as it has been seen: its head, whether there is a
    document to write, whether data are ignored, and the body. *)
Record seen := mkSeen {
  s_version : HttpVersion;
  s_leader : leader_data;
  s_headers : HeaderMap;
  s_doc : bool;
  s_ignore : bool;
  s_body : bytes
}.
Definition some {A} (o : option A) : bool := match o with Some _ => true | None => false end.

(** A callback gives sizes of the type of the reference. *)
Definition notify_ok (notify_ : option notify) : Prop :=
  forall f v l h c n, notify_ = Some f -> 0 <= n <= SIZE_UNKNOWN -> 0 <= ha_size (f v l h c n) <= SIZE_UNKNOWN.

Section Spec.
Context (notify_ : option notify) (Hnotify : notify_ok notify_).

(** The head of the message; the methods of the message do not look at its
    document. *)
Definition head (a : seen) : HttpData := mkHttpData (s_version a) (s_leader a) (s_headers a) None.
Definition ref_leader (a : seen) (line : bytes) : ProcessResult * HttpError * seen :=
  let '(e, m) := parseLeader (head a) line in
  (if decide (e = HE_NONE) then PR_CONTINUE else PR_COMPLETE, e,
   mkSeen (version m) (leader m) (s_headers a) (s_doc a) (s_ignore a) (s_body a)).
Definition ref_header (a : seen) (name value : bytes) : ProcessResult * HttpError * seen :=
  (PR_CONTINUE, HE_NONE,
   mkSeen (s_version a) (s_leader a) (headers_ (addHeader (head a) name value)) (s_doc a) (s_ignore a) (s_body a)).
Definition ref_complete (a : seen) (chunked : bool) (n : Z) : ProcessResult * HttpError * Z * seen :=
  match notify_ with
  | Some f =>
      let h := f (s_version a) (s_leader a) (s_headers a) chunked n in
      (if decide (ha_error h = HE_NONE) then PR_CONTINUE else PR_COMPLETE, ha_error h, ha_size h,
       mkSeen (s_version a) (s_leader a) (s_headers a) (s_doc a || some (ha_document h)) (s_ignore a || ha_ignore h)
         (match ha_document h with Some d => written d | None => s_body a end))
  | None => (PR_CONTINUE, HE_NONE, n, a)
  end.
Definition ref_accept (a : seen) (d : bytes) : seen :=
  if s_doc a && negb (s_ignore a) then
    mkSeen (s_version a) (s_leader a) (s_headers a) (s_doc a) (s_ignore a) (s_body a ++ d)
  else a.

#[local] Instance seen_handler : HttpHandler seen := {
  ProcessLeader := ref_leader;
  ProcessHeader := ref_header;
  ProcessHeaderComplete := ref_complete;
  ProcessData a d := (PR_CONTINUE, length d, HE_NONE, ref_accept a d)
}.
#[local] Program Instance seen_reference : Reference seen := { accept := ref_accept }.
Next Obligation. clear Hnotify. intros a d1 d2. unfold ref_accept. destruct (s_doc a && negb (s_ignore a)) eqn:E; cbn; rewrite E; [by rewrite app_assoc|done]. Qed.
Next Obligation. clear Hnotify. intros a c n. cbn. unfold ref_complete. destruct notify_; [by destruct (decide _)|done]. Qed.

(** ** HttpBase implements it *)

Definition seen_of (t : t) : seen :=
  mkSeen (version (message t)) (leader (message t)) (headers_ (message t)) (some (document (message t))) (ignore_data_ t)
    (match document (message t) with Some d => written d | None => [] end).
(** The document does not take any more. *)
Definition doc_broken (t : t) (e : HttpError) : Prop :=
  e = HE_STREAM /\ match document (message t) with Some d => ~ steady (writes d) | None => False end.

#[local] Instance handler : HttpHandler t := base_handler notify_.

Lemma parseLeader_doc v l h h' d line :
  parseLeader (mkHttpData v l h d) line =
  let '(e, m) := parseLeader (mkHttpData v l h' None) line in (e, mkHttpData (version m) (leader m) h d).
Proof.
  unfold parseLeader, parse_request, parse_response. cbn [leader]. destruct l.
  - destruct (scan_request _) as [[[[? ?] ?] ?]|]; [|done]. destruct (negb _); [done|]. destruct (version_of _); [|done]. by destruct (FromString _).
  - destruct (scan_status _) as [[? ?]|]; [done|]. destruct (scan_response _) as [[[[? ?] ?] ?]|]; [|done]. destruct (negb _); [done|].
    by destruct (version_of _).
Qed.
Lemma changeHeader_doc v l h d d' n x c :
  changeHeader (mkHttpData v l h d) n x c = with_document (changeHeader (mkHttpData v l h d') n x c) d.
Proof. unfold changeHeader. cbn [headers_]. destruct c; cbn; repeat (case_decide; try done); by destruct (hm_find _ _). Qed.
Lemma changeHeader_head d n x c : version (changeHeader d n x c) = version d /\ leader (changeHeader d n x c) = leader d.
Proof. unfold changeHeader. destruct c; cbn; repeat (case_decide; try done); by destruct (hm_find _ _). Qed.

(** What the callback does to the message and to the document stream. *)
Lemma callback_seen t c n e n' t' : 0 <= n <= SIZE_UNKNOWN -> header_callback notify_ t c n = (e, n', t') ->
  0 <= n' <= SIZE_UNKNOWN /\
  ref_complete (seen_of t) c n = (if decide (e = HE_NONE) then PR_CONTINUE else PR_COMPLETE, e, n', seen_of t') /\
  (doc_stream_ t' = true \/ doc_stream_ t' = doc_stream_ t) /\
  match notify_ with
  | Some f => let h := f (version (message t)) (leader (message t)) (headers_ (message t)) c n in
      document (message t') = (match ha_document h with Some d => Some d | None => document (message t) end) /\
      (ha_stream h = false -> doc_stream_ t' = doc_stream_ t)
  | None => document (message t') = document (message t) /\ doc_stream_ t' = doc_stream_ t
  end.
Proof.
  intros Hn. unfold header_callback, ref_complete. destruct notify_ as [f|].
  - pose proof (Hnotify f (version (message t)) (leader (message t)) (headers_ (message t)) c n eq_refl Hn) as Hs.
    cbn [seen_of s_version s_leader s_headers s_doc s_ignore s_body]. destruct (f _ _ _ c n) as [he hs hd hst hi].
    cbn [ha_error ha_size ha_document ha_stream ha_ignore] in *. intros [= <- <- <-]. split; [done|].
    destruct hd as [d|], hi, hst; cbn; destruct (doc_stream_ t) eqn:Ed; cbn; rewrite ?Ed, ?orb_true_r, ?orb_false_r; auto 10.
  - intros [= <- <- <-]. rewrite decide_True by done. auto 10.
Qed.

#[local] Program Instance base_implements : Implements t seen := {
  abs := seen_of; broken := doc_broken; opened t := doc_stream_ t = true }.
Next Obligation.
  intros t line r e t'. cbn. unfold ProcessLeader_, ref_leader. destruct (message t) as [v l h d] eqn:Em.
  rewrite (parseLeader_doc v l h h d). unfold head, seen_of. rewrite Em. cbn. destruct (parseLeader _ line) as [e0 m].
  intros [= <- <- <-]. cbn. split; [by destruct (decide _)|done].
Qed.
Next Obligation.
  intros t n v r e t'. cbn. unfold ProcessHeader_, ref_header, addHeader. intros [= <- <- <-]. split; [done|].
  unfold head, seen_of. cbn [message with_message ignore_data_ s_version s_leader s_headers s_doc s_ignore s_body].
  destruct (message t) as [v0 l h d]. cbn [version leader headers_ document]. rewrite (changeHeader_doc v0 l h d None).
  destruct (changeHeader_head (mkHttpData v0 l h None) n v HC_AUTO) as [H1 H2]. unfold with_document.
  cbn [version leader headers_ document]. by rewrite H1, H2.
Qed.
Next Obligation.
  intros t c n r e n' t' Hn. cbn. unfold ProcessHeaderComplete_. destruct (header_callback notify_ t c n) as [[e0 n0] t0] eqn:Ec.
  destruct (callback_seen _ _ _ _ _ _ Hn Ec) as (Hn0 & Href & Hds & _). rewrite Href.
  assert (Hcon : forall b : bool, seen_of (if b then with_connected t0 true else t0) = seen_of t0 /\
    doc_stream_ (if b then with_connected t0 true else t0) = doc_stream_ t0) by (by intros []).
  set (b := bool_decide (e0 = HE_NONE) && match document (message t0) with Some _ => true | None => false end).
  destruct (Hcon b) as [Hs Hd]. clearbody b. set (t1 := if b then with_connected t0 true else t0) in *. clearbody t1.
  case_bool_decide as He; cbn [negb]; [|intros [= <- <- <- <-]; rewrite Hs, decide_False by done; split; [done|]; split; [done|by eexists]].
  rewrite decide_True by done. case_bool_decide as Hb; cbn [negb]; intros [= <- <- <- <-]; rewrite Hs; (split; [done|]).
  - split; [done|]. by eexists.
  - split; [intros _; rewrite Hd; rewrite Hd in Hb; destruct Hds as [|]; [done|congruence]|]. by eexists.
Qed.
Next Obligation.
  intros t d r n e t' Hd. cbn. unfold ProcessData_, seen_of, ref_accept. destruct (ignore_data_ t) eqn:Ei.
  { intros [= <- <- <- <-]. cbn [s_doc s_ignore negb]. rewrite andb_false_r, Ei. split; [destruct d; [done|cbn; lia]|done]. }
  destruct (document (message t)) as [doc|] eqn:Em; cbn.
  - destruct (Write doc d) as [[[res k] e0] doc'] eqn:EW. apply stream_Write_spec in EW as (_ & Hw & Hr & _); [|done].
    destruct res; intros [= <- <- <- <-]; cbn; rewrite ?Ei; cbn.
    + split; [done|]. apply Hr.
    + split; [done|]. by rewrite Hw.
    + rewrite Hw, Hr, take_0, app_nil_r. done.
    + split; [done|]. apply Hr.
  - intros [= <- <- <- <-]. rewrite Em, Ei. cbn. split; [destruct d; [done|cbn; lia]|done].
Qed.

(** ** What the methods leave alone *)

Definition doc_steady (t : t) : Prop := match document (message t) with Some d => steady (writes d) | None => True end.
(** A callback that does not open the document stream, and one whose
    documents do not fail. *)
Definition notify_plain : Prop := forall f v l h c n, notify_ = Some f -> ha_stream (f v l h c n) = false.
Definition notify_steady : Prop := forall f v l h c n d, notify_ = Some f -> ha_document (f v l h c n) = Some d -> steady (writes d).

Record frame (t t' : t) : Prop := {
  fr_mode : mode_ t' = mode_ t;
  fr_data : data_ t' = data_ t;
  fr_http : http_stream_ t' = http_stream_ t;
  fr_buffer : buffer_ t' = buffer_ t;
  fr_log : log t' = log t;
  fr_doc : notify_plain -> doc_stream_ t' = doc_stream_ t;
  fr_steady : notify_steady -> doc_steady t -> doc_steady t'
}.
#[local] Instance frame_preorder : PreOrder frame.
Proof. split; [by intros t; split|]. intros a b c H1 H2. destruct H1, H2. split; first [congruence|intros ?; auto; etrans; eauto]. Qed.

Lemma Process_frame p t b r k e p' t' : Process p t b = Some (r, k, e, p', t') -> frame t t'.
Proof.
  unfold Process. destruct (decide _); [by intros [= <- <- <- <- <-]|]. apply process_loop_rel; [apply _|..]; clear.
  - intros t line r e t' E. cbn in E. unfold ProcessLeader_ in E. destruct (message t) as [v l h d] eqn:Em.
    rewrite (parseLeader_doc v l h h d) in E. destruct (parseLeader _ line) as [e0 m]. injection E as <- <- <-.
    split; try done. intros _. unfold doc_steady. rewrite Em. done.
  - intros t n v r e t' [= <- <- <-]. split; try done. intros _. unfold doc_steady, addHeader. cbn [message with_message].
    destruct (message t) as [v0 l h d]. by rewrite (changeHeader_doc v0 l h d None).
  - intros t c n r e n' t' E. cbn in E. unfold ProcessHeaderComplete_ in E. destruct (header_callback notify_ t c n) as [[e0 n0] t0] eqn:Ec.
    assert (Hf : frame t t0).
    { unfold header_callback in Ec. destruct notify_ as [f|] eqn:Ef; [|by injection Ec as <- <- <-].
      destruct (f _ _ _ c n) as [he hs hd hst hi] eqn:Eh. injection Ec as <- <- <-. cbn [ha_error ha_size ha_document ha_stream ha_ignore].
      assert (Hst : notify_plain -> hst = false).
      { intros Hp. specialize (Hp f (version (message t)) (leader (message t)) (headers_ (message t)) c n Ef). by rewrite Eh in Hp. }
      assert (Hsd : notify_steady -> forall d, hd = Some d -> steady (writes d)).
      { intros Hp d ->. specialize (Hp f (version (message t)) (leader (message t)) (headers_ (message t)) c n d Ef). rewrite Eh in Hp. auto. }
      destruct hd as [d|], hi, hst, (doc_stream_ t) eqn:Ed; cbn; rewrite ?Ed; cbn; split; cbn; try done; try (intros Hp; by specialize (Hst Hp)).
      all: intros Hp _; unfold doc_steady; cbn; eapply Hsd; eauto. }
    revert E. case_bool_decide; cbn [negb andb]; [|by intros [= <- <- <- <-]].
    assert (Hg : forall b : bool, frame t (if b then with_connected t0 true else t0)) by (intros []; [etrans; [exact Hf|by split]|done]).
    case_bool_decide; cbn [negb]; intros [= <- <- <- <-]; apply Hg.
  - intros t d r n e t' E. cbn in E. unfold ProcessData_ in E. destruct (ignore_data_ t); [by injection E as <- <- <- <-|].
    destruct (document (message t)) as [doc|] eqn:Em; [|by injection E as <- <- <- <-].
    destruct (Write doc d) as [[[res k] e0] doc'] eqn:EW. pose proof (Write_steady _ _ _ _ _ _ EW) as Hs.
    destruct res; injection E as <- <- <- <-; (split; try done; intros _; unfold doc_steady; cbn; by rewrite Em).
Qed.

(** ** The receive loop *)

(** The run of the specification that a state has reached. *)
Definition spec (t : t) : run seen := settle (parser_ t) (seen_of t).
(** Nothing is left to be done before the next byte. *)
Definition settled (p : parser) : Prop := negb (before_data p) && (data_size_ p =? 0) = false.
Definition calm (t : t) : Prop := doc_stream_ t = true \/ settled (parser_ t).
Definition unread_http (t : t) : bytes := match http_stream_ t with Some s => unread s | None => [] end.
Definition reads_http (t : t) : list answer := match http_stream_ t with Some s => reads s | None => [] end.
Definition can_receive (t : t) : Prop := ok (parser_ t) /\ len_ t <= kBufferSize.

(** What HandleStreamClose makes of an error. *)
Definition close_error (t : t) (error : Z) : HttpError := (HandleStreamClose t error).1.

Record rframe (t t' : t) : Prop := {
  rf_mode : mode_ t' = mode_ t;
  rf_data : data_ t' = data_ t;
  rf_some : some (http_stream_ t') = some (http_stream_ t);
  rf_log : log t' = log t;
  rf_doc : notify_plain -> doc_stream_ t' = doc_stream_ t;
  rf_steady : notify_steady -> doc_steady t -> doc_steady t';
  rf_reads : no_error (reads_http t) -> no_error (reads_http t');
  rf_lasting : all_lasting (reads_http t) -> all_lasting (reads_http t')
}.
#[local] Instance rframe_preorder : PreOrder rframe.
Proof. split; [by intros t; split|]. intros a b c H1 H2. destruct H1, H2. split; first [congruence|intros ?; auto; etrans; eauto]. Qed.

(** How a call of DoReceiveLoop ends, having used these bytes. *)
Definition ended (t' : t) (r : run seen) (e : HttpError) : Prop :=
  r = Done e (seen_of t') \/ doc_broken t' e \/
  (r = spec t' /\ calm t' /\
   ((e = HE_OVERFLOW /\ before_data (parser_ t') = true /\ len_ t' = kBufferSize /\ ~ In 10 (buffer_ t')) \/
    exists error, e = close_error t' error /\ (error = 0 /\ unread_http t' = [] /\ (next (reads_http t')).1 = Eos \/ (next (reads_http t')).1 = Error error))).
Definition received (t : t) (res : option HttpError) (t' : HttpBase.t) : Prop :=
  can_receive t' /\ rframe t t' /\ exists r used,
    unread_http t = r ++ unread_http t' /\ buffer_ t ++ r = used ++ buffer_ t' /\
    match res with
    | None => feeds (spec t) used = spec t' /\ calm t'
    | Some e => ended t' (feeds (spec t) used) e
    end.

Lemma received_refl t : can_receive t -> calm t -> received t None t.
Proof. intros H1 H2. split; [done|]. split; [done|]. exists [], []. by rewrite app_nil_r. Qed.
Lemma received_trans t t1 res t' : rframe t t1 ->
  (exists r used, unread_http t = r ++ unread_http t1 /\ buffer_ t ++ r = used ++ buffer_ t1 /\ feeds (spec t) used = spec t1) ->
  received t1 res t' -> received t res t'.
Proof.
  intros Hf1 (r1 & u1 & Hr1 & Hu1 & Hs1) (Hc & Hf2 & r2 & u2 & Hr2 & Hu2 & Hs2). split; [done|]. split; [by etrans|].
  exists (r1 ++ r2), (u1 ++ u2). rewrite feeds_app, Hs1. split; [by rewrite Hr1, Hr2, app_assoc|]. split; [|done].
  by rewrite app_assoc, Hu1, <- !app_assoc, Hu2.
Qed.

Lemma waiting_settled p rest : waiting p rest -> settled p.
Proof. unfold waiting, settled. destruct (before_data p); [done|]. intros [_ Hn]. by rewrite (proj2 (Z.eqb_neq _ _) Hn). Qed.

(** One call of Process on the buffer. *)
Lemma process_received t pr k e p t1 : can_receive t -> Process (parser_ t) t (buffer_ t) = Some (pr, k, e, p, t1) ->
  let t2 := with_buffer (with_parser t1 p) (drop k (buffer_ t1)) in
  can_receive t2 /\ rframe t t2 /\ buffer_ t2 = drop k (buffer_ t) /\ unread_http t2 = unread_http t /\
  outcome pr e p t1 (buffer_ t2) (feeds (spec t) (take k (buffer_ t))).
Proof.
  intros [Hok Hlen] E. pose proof (Process_frame _ _ _ _ _ _ _ _ E) as Hf. pose proof (Process_feeds _ _ _ _ _ _ _ _ Hok E) as (Hok' & Hk & Ho).
  destruct Hf. cbn zeta. cbn [with_buffer buffer_]. rewrite fr_buffer0.
  split; [split; [done|]; unfold len_ in *; cbn; rewrite length_drop; lia|].
  split; [split; try done; unfold reads_http; cbn; by rewrite fr_http0|]. split; [done|]. split; [unfold unread_http; cbn; by rewrite fr_http0|]. done.
Qed.

Lemma receive_loop_received count : forall more t res t', can_receive t -> calm t -> (more = true -> waiting (parser_ t) (buffer_ t)) ->
  receive_loop notify_ count more t = Some (res, t') -> received t res t'.
Proof.
  induction count as [|count IH]; intros more t res t' Hc Hcalm Hw; [by intros [= <- <-]; apply received_refl|].
  assert (Hproc : forall t, can_receive t -> calm t ->
    (let? (process_result, processed, error, p, t) := Process (parser_ t) t (buffer_ t) in
     let t := with_buffer (with_parser t p) (drop processed (buffer_ t)) in
     match process_result with
     | PR_CONTINUE => receive_loop notify_ count true t
     | PR_BLOCK => Some (None, t)
     | PR_COMPLETE => Some (Some error, t)
     end) = Some (res, t') -> received t res t').
  { clear -IH Hnotify. intros t Hc Hcalm E. destruct (Process (parser_ t) t (buffer_ t)) as [[[[[pr k] e] p] t1]|] eqn:EP; [|done].
    destruct (process_received _ _ _ _ _ _ Hc EP) as (Hc2 & Hf2 & Hb2 & Hu2 & Ho). cbn zeta in E.
    set (t2 := with_buffer (with_parser t1 p) (drop k (buffer_ t1))) in *.
    assert (Hsp : settle p (seen_of t1) = spec t2) by done.
    assert (Hused : forall P, P (feeds (spec t) (take k (buffer_ t))) ->
      exists r used, unread_http t = r ++ unread_http t2 /\ buffer_ t ++ r = used ++ buffer_ t2 /\ P (feeds (spec t) used)).
    { intros P HP. exists [], (take k (buffer_ t)). rewrite app_nil_r, Hb2, take_drop. done. }
    destruct pr; cbn [outcome] in Ho.
    - destruct Ho as (Ho & _ & Hwait). eapply received_trans; [exact Hf2|apply (Hused (fun r => r = spec t2)); by rewrite Ho|].
      eapply IH; [done|right; by eapply waiting_settled|done|exact E].
    - injection E as <- <-. destruct Ho as (Ho & Hset). split; [done|]. split; [done|].
      apply (Hused (fun r => r = spec t2 /\ calm t2)). split; [by rewrite Ho|]. destruct Hset as [Hop|(H1 & H2 & _)]; [by left|right].
      unfold settled. cbn. by rewrite H1, (proj2 (Z.eqb_neq _ _) H2).
    - injection E as <- <-. split; [done|]. split; [done|]. apply (Hused (fun r => ended t2 r e)). destruct Ho as [Ho|Ho]; [by left|by right; left]. }
  cbn [receive_loop]. destruct (Z.ltb_spec (len_ t) kBufferSize) as [Hlt|Hge].
  - destruct (http_stream_ t) as [http|] eqn:Eh; [|done].
    destruct (Read http _) as [[[rr data] err] http'] eqn:ER. apply stream_Read_spec in ER as (Hsame & Hun & Hl & Hsucc & Heos & Herr); [|lia].
    set (t1 := with_http t (Some http')).
    assert (Hf1 : rframe t t1).
    { split; try done; [unfold t1; cbn; by rewrite Eh|..]; change (reads_http t1) with (reads http'); unfold reads_http; rewrite Eh; destruct Hsame as (_ & _ & _ & ->); [apply next_no_error|apply next_lasting]. }
    assert (Hun1 : unread_http t = data ++ unread_http t1) by (unfold unread_http; cbn; by rewrite Eh, Hun).
    assert (Hnil : rr <> SR_SUCCESS -> data = []) by (intros Hne; destruct data; [done|by destruct Hne; apply Hsucc]).
    assert (Hc1 : can_receive t1) by exact Hc.
    assert (Hstop : rr <> SR_SUCCESS -> exists r used, unread_http t = r ++ unread_http t1 /\ buffer_ t ++ r = used ++ buffer_ t1 /\ feeds (spec t) used = spec t1).
    { intros Hne. exists [], []. rewrite app_nil_r. rewrite (Hnil Hne) in Hun1. done. }
    assert (Hclose : forall er, (er = 0 /\ unread_http t1 = [] /\ (next (reads_http t1)).1 = Eos \/ (next (reads_http t1)).1 = Error er) -> rr <> SR_SUCCESS ->
      (let '(e, t) := HandleStreamClose t1 er in Some (Some e, t)) = Some (res, t') -> received t res t').
    { intros er Her Hne E. eapply received_trans; [exact Hf1|by apply Hstop|]. unfold received.
      assert (Ht' : t' = with_http t1 (Close <$> http_stream_ t1) /\ res = Some (close_error t1 er)).
      { unfold close_error. unfold HandleStreamClose in *. destruct (er =? 0); [|destruct (er =? _); [|destruct (er =? _)]]; by injection E as <- <-. }
      destruct Ht' as [-> ->]. split; [exact Hc1|]. split; [split; try done; try unfold reads_http; cbn; by destruct (http_stream_ t1)|]. exists [], []. rewrite app_nil_r.
      split; [unfold unread_http; cbn; by destruct (http_stream_ t1)|]. split; [done|]. right. right. split; [done|]. split; [exact Hcalm|]. right. exists er. split; [|exact Her].
      unfold close_error, HandleStreamClose. cbn. by repeat destruct (er =? _). }
    destruct rr.
    + apply Hclose; [|done]. right. destruct Hsame as (_ & _ & _ & Hr). change (reads_http t1) with (reads http'). specialize (Herr eq_refl).
      by rewrite Hr, (next_error _ _ Herr).
    + intros E. eapply received_trans; [..|eapply Hproc; [| |exact E]].
      * etrans; [exact Hf1|by split].
      * exists data, []. split; [done|]. split; [done|done].
      * split; [apply Hc|]. unfold len_ in *. cbn. rewrite length_app. lia.
      * exact Hcalm.
    + intros E. destruct more.
      * injection E as <- <-. eapply received_trans; [exact Hf1|by apply Hstop|]. by apply received_refl.
      * eapply received_trans; [exact Hf1|by apply Hstop|]. by apply Hproc.
    + apply Hclose; [|done]. left. destruct (Heos eq_refl) as (Hu & -> & He). split; [done|]. split; [|change (reads_http t1) with (reads http'); destruct Hsame as (_ & _ & _ & ->); by rewrite (next_eos _ He)]. rewrite (Hnil ltac:(done)) in Hun. cbn in Hun. unfold unread_http, t1. cbn. by rewrite <- Hun.
  - destruct more; [|by apply Hproc]. intros [= <- <-]. split; [done|]. split; [done|]. exists [], []. rewrite app_nil_r. split; [done|]. split; [done|].
    right. right. split; [done|]. split; [done|]. left. destruct Hc as [_ Hl]. specialize (Hw eq_refl). unfold waiting in Hw.
    destruct (before_data (parser_ t)); [split_and!; try done; lia|]. destruct Hw as [Hb _]. unfold len_ in Hge. rewrite Hb in Hge. cbn in Hge. unfold kBufferSize in Hge. lia.
Qed.

Lemma receive_loop_returns count : forall more t, can_receive t -> some (http_stream_ t) = true ->
  is_Some (receive_loop notify_ count more t).
Proof.
  induction count as [|count IH]; intros more t Hc Hh; [done|]. cbn [receive_loop].
  assert (Hproc : forall t, can_receive t -> some (http_stream_ t) = true -> is_Some
    (let? (process_result, processed, error, p, t) := Process (parser_ t) t (buffer_ t) in
     let t := with_buffer (with_parser t p) (drop processed (buffer_ t)) in
     match process_result with
     | PR_CONTINUE => receive_loop notify_ count true t
     | PR_BLOCK => Some (None, t)
     | PR_COMPLETE => Some (Some error, t)
     end)).
  { clear -IH Hnotify. intros t Hc Hh. pose proof (Process_returns (parser_ t) t (buffer_ t) (proj1 Hc)) as [[[[[pr k] e] p] t1] EP]. rewrite EP.
    destruct (process_received _ _ _ _ _ _ Hc EP) as (Hc2 & Hf2 & _). destruct pr; [|done..]. apply IH; [exact Hc2|]. by rewrite (rf_some _ _ Hf2). }
  destruct (Z.ltb_spec (len_ t) kBufferSize) as [Hlt|Hge].
  - destruct (http_stream_ t) as [http|] eqn:Eh; [|done].
    destruct (Read http _) as [[[rr data] err] http'] eqn:ER. apply stream_Read_spec in ER as (_ & _ & Hl & _); [|lia].
    destruct rr; [by destruct (HandleStreamClose _ _)| | |by destruct (HandleStreamClose _ _)].
    + apply Hproc; [|done]. split; [apply Hc|]. unfold len_ in *. cbn. rewrite length_app. lia.
    + destruct more; [done|]. by apply Hproc.
  - destruct more; [done|]. by apply Hproc.
Qed.

(** ** A message received *)

(** What the stream's end is to a receiver whose parser stands there. *)
Definition end_error (p : parser) (error : Z) : HttpError :=
  if error =? 0 then if is_valid_end_of_input p then HE_NONE else HE_DISCONNECTED
  else if error =? SOCKET_EACCES then HE_AUTH
  else if error =? SEC_E_CERT_EXPIRED then HE_CERTIFICATE_EXPIRED
  else HE_SOCKET_ERROR.

(** The specification before the first byte. *)
Definition start (data : HttpData) : run seen :=
  Running reset [] (mkSeen (version data) (leader data) (headers_ data) (some (document data)) false
    (match document data with Some d => written d | None => [] end)).

(** How a message ends, of the bytes used and those that were still to be
    processed: as the specification says, or by the document, an
    over-long line or the end of the stream. *)
Inductive ending (docs_ok net_ok open_ok : Prop) (r : run seen) (rest : bytes) (e : HttpError) (a : seen) : Prop :=
  | by_parser : r = Done e a -> ending docs_ok net_ok open_ok r rest e a
  | by_document : e = HE_STREAM -> ~ docs_ok -> ending docs_ok net_ok open_ok r rest e a
  | by_overflow p : r = Running p [] a -> e = HE_OVERFLOW -> before_data p = true ->
      (Z.to_nat kBufferSize <= length rest)%nat -> ~ In 10 (take (Z.to_nat kBufferSize) rest) -> ending docs_ok net_ok open_ok r rest e a
  | by_stream p error : r = Running p [] a -> e = end_error p error -> (net_ok -> error = 0) -> ~ open_ok -> ending docs_ok net_ok open_ok r rest e a.

Definition is_closed (e : event) : bool := match e with onHttpClosed _ => true | _ => false end.

Section Session.
Context (Hsome : some notify_ = true) (Hplain : notify_plain) (Hdocs : notify_steady).
(** The documents never fail; the stream has no errors; it does not end. *)
Context (docs_ok net_ok open_ok : Prop) (data : HttpData) (log0 : list event).

Record receiving (input : bytes) (t : t) : Prop := {
  re_mode : mode_ t = HM_RECV;
  re_data : data_ t = true;
  re_http : some (http_stream_ t) = true;
  re_doc : doc_stream_ t = false;
  re_can : can_receive t;
  re_settled : settled (parser_ t);
  re_log : log t = log0;
  re_docs : docs_ok -> doc_steady t;
  re_net : net_ok -> no_error (reads_http t);
  re_open : open_ok -> all_lasting (reads_http t);
  re_used : exists used, input = used ++ buffer_ t ++ unread_http t /\ feeds (start data) used = spec t
}.
Record finished (input : bytes) (e : HttpError) (t : t) : Prop := {
  fi_mode : mode_ t = HM_NONE;
  fi_connected : doc_connected t = false;
  fi_log : exists closes, log t = log0 ++ onHttpComplete HM_RECV e :: closes /\ Forall (fun e => is_closed e = true) closes;
  fi_used : exists used rest, input = used ++ rest /\ ending docs_ok net_ok open_ok (feeds (start data) used) rest e (seen_of t)
}.
Definition session (input : bytes) (t : t) : Prop := receiving input t \/ exists e, finished input e t.

(** The operations of a session, and the bytes they bring. *)
Definition op_ok (o : op) : Prop :=
  match o with
  | Arrive _ plan => (net_ok -> no_error plan) /\ (open_ok -> all_lasting plan)
  | DocDrain plan => docs_ok -> steady (Planned plan)
  | HttpEvent events error => has events SE_CLOSE = true -> (net_ok -> error = 0) /\ ~ open_ok
  | DocEvent events _ => docs_ok -> has events SE_CLOSE = false
  | _ => True
  end.
Definition arrived (o : op) : bytes := match o with Arrive more _ => more | _ => [] end.

Lemma spec_running t : settled (parser_ t) -> spec t = Running (parser_ t) [] (seen_of t).
Proof. unfold spec, settle, settled. by intros ->. Qed.
Lemma calm_settled t : doc_stream_ t = false -> calm t -> settled (parser_ t).
Proof. intros Hd [E|?]; [congruence|done]. Qed.

Lemma notified {B} (a b : B) : match notify_ with Some _ => a | None => b end = a.
Proof. clear -Hsome. by destruct notify_. Qed.
Lemma do_complete_finished input t e used rest : mode_ t = HM_RECV -> data_ t = true -> doc_stream_ t = false -> log t = log0 ->
  input = used ++ rest -> ending docs_ok net_ok open_ok (feeds (start data) used) rest e (seen_of t) -> finished input e (do_complete notify_ t e).
Proof.
  intros Hm Hda Hd Hl Hi He. unfold do_complete. cbn -[bool_decide]. rewrite Hm, Hda. cbn -[bool_decide]. rewrite Hd, andb_false_r.
  rewrite notified. split; try done.
  - exists []. cbn. by rewrite Hl.
  - exists used, rest. by split.
Qed.

Lemma complete_finished input t e used rest : mode_ t = HM_RECV -> data_ t = true -> doc_stream_ t = false -> log t = log0 -> ok (parser_ t) ->
  input = used ++ rest -> ending docs_ok net_ok open_ok (feeds (start data) used) rest e (seen_of t) -> finished input e (complete notify_ t e).
Proof.
  intros Hm Hda Hd Hl [Hok _] Hi He. unfold complete. rewrite decide_False by done. by eapply do_complete_finished.
Qed.

Lemma close_error_end t error : mode_ t = HM_RECV -> close_error t error = end_error (parser_ t) error.
Proof.
  intros Hm. unfold close_error, HandleStreamClose, end_error. cbn. rewrite Hm. cbn. destruct (error =? 0); [done|]. destruct (error =? _); [done|].
  by destruct (error =? _).
Qed.

(** The end of the stream: HandleStreamClose and complete. *)
Lemma close_finished input t error : receiving input t -> (net_ok -> error = 0) -> ~ open_ok ->
  finished input (close_error t error) (complete notify_ (HandleStreamClose t error).2 (close_error t error)).
Proof.
  intros [Hm Hda Hh Hd [Hok _] Hs Hl _ _ _ (used & Hi & Hu)] He Hop. rewrite (spec_running _ Hs) in Hu.
  assert (Ht : (HandleStreamClose t error).2 = with_http t (Close <$> http_stream_ t)).
  { unfold HandleStreamClose. destruct (error =? 0); [done|]. destruct (error =? _); [done|]. by destruct (error =? _). }
  rewrite Ht. eapply complete_finished; [done..| |]; [exact Hi|]. eapply by_stream; [exact Hu|by apply close_error_end|done|done].
Qed.

(** A read event, or a document that takes data again. *)
Lemma read_session input t : receiving input t -> exists t', read_and_process_data notify_ t = Some t' /\ session input t'.
Proof.
  intros Hr. destruct Hr as [Hm Hda Hh Hd Hc Hs Hl Hdo Hne Hla (used & Hi & Hu)].
  unfold read_and_process_data, DoReceiveLoop. destruct (receive_loop_returns (S kMaxReadCount) false t Hc Hh) as [[res t'] E]. rewrite E.
  eexists. split; [done|]. apply receive_loop_received in E as (Hc' & Hf & r & u & Hr & Hu' & Hres); [|done|by right|done].
  destruct Hf as [Fm Fd Fs Fl Fdoc Fst Frd Fla].
  assert (Hi' : input = (used ++ u) ++ buffer_ t' ++ unread_http t').
  { rewrite Hi, Hr, <- !app_assoc. f_equal. rewrite !app_assoc. by rewrite Hu', <- !app_assoc. }
  assert (Hfeed : feeds (start data) (used ++ u) = feeds (spec t) u) by (by rewrite feeds_app, Hu).
  assert (Hm' : mode_ t' = HM_RECV) by congruence. assert (Hda' : data_ t' = true) by congruence.
  assert (Hh' : some (http_stream_ t') = true) by congruence. assert (Hl' : log t' = log0) by congruence.
  assert (Hd' : doc_stream_ t' = false) by (rewrite Fdoc; auto).
  assert (Hdo' : docs_ok -> doc_steady t') by auto. assert (Hne' : net_ok -> no_error (reads_http t')) by auto. assert (Hla' : open_ok -> all_lasting (reads_http t')) by auto.
  destruct res as [e|].
  - right. destruct Hres as [Hdone|[[-> Hbr]|(Hsp & Hcalm & Hend)]].
    + exists e. eapply complete_finished; [done..|apply Hc'|exact Hi'|]. rewrite Hfeed. by apply by_parser.
    + exists HE_STREAM. eapply complete_finished; [done..|apply Hc'|exact Hi'|]. apply by_document; [done|]. intros Hok. specialize (Hdo' Hok).
      unfold doc_steady in Hdo'. by destruct (document (message t')).
    + apply calm_settled in Hcalm as Hs'; [|done]. destruct Hend as [(-> & Hb & Hlen & Hn)|(error & -> & Herr)].
      * exists HE_OVERFLOW. eapply complete_finished; [done..|apply Hc'|exact Hi'|]. rewrite Hfeed. eapply by_overflow; [by rewrite Hsp, spec_running|done|done| |].
        -- rewrite length_app. unfold len_ in Hlen. lia.
        -- rewrite take_app_le by (unfold len_ in Hlen; lia). intros Hin. apply Hn.
           rewrite <- (take_drop (Z.to_nat kBufferSize) (buffer_ t')). apply in_or_app. by left.
      * exists (close_error t' error). eapply complete_finished; [done..|apply Hc'|exact Hi'|]. eapply by_stream; [by rewrite Hfeed, Hsp, spec_running| | |].
        -- by apply close_error_end.
        -- intros Hok. destruct Herr as [[-> _]|Herr]; [done|]. by destruct (proj2 (next_no_error _ (Hne' Hok)) error).
        -- intros Hop. destruct (next_lasting _ (Hla' Hop)) as (_ & H1 & H2). destruct Herr as [(_ & _ & H)|H]; [done|by apply (H2 error)].
  - left. destruct Hres as [Hsp Hcalm]. split; try done; [by apply calm_settled|]. exists (used ++ u). by rewrite Hfeed.
Qed.

Lemma receiving_doc_map g input t : receiving input t ->
  (forall d, written (g d) = written d) -> (docs_ok -> forall d, steady (writes d) -> steady (writes (g d))) -> receiving input (doc_map g t).
Proof.
  intros [Hm Hda Hh Hd Hc Hs Hl Hdo Hne Hla (used & Hi & Hu)] Hg Hst. split; try done.
  - intros Hok. specialize (Hdo Hok). unfold doc_steady in *. cbn. destruct (document (message t)); [by apply Hst|done].
  - exists used. split; [done|]. rewrite Hu. unfold spec, seen_of. cbn. destruct (document (message t)); cbn; by rewrite ?Hg.
Qed.
Lemma finished_same input e t t' : finished input e t -> mode_ t' = mode_ t -> doc_connected t' = doc_connected t -> log t' = log t -> seen_of t' = seen_of t ->
  finished input e t'.
Proof. intros [H1 H2 H3 H4] E1 E2 E3 E4. split; rewrite ?E1, ?E2, ?E3, ?E4; done. Qed.
Lemma finished_doc_map g input e t : finished input e t -> (forall d, written (g d) = written d) -> finished input e (doc_map g t).
Proof. intros Hf Hg. eapply finished_same; [exact Hf|done..|]. unfold seen_of. cbn. destruct (document (message t)); cbn; by rewrite ?Hg. Qed.

Lemma ending_more r rest more e a : ending docs_ok net_ok open_ok r rest e a -> ending docs_ok net_ok open_ok r (rest ++ more) e a.
Proof.
  intros [H|H1 H2|p H1 H2 H3 H4 H5|p error H1 H2 H3 H4]; [by apply by_parser|by apply by_document| |by eapply by_stream].
  eapply by_overflow; try done; [rewrite length_app; lia|by rewrite take_app_le].
Qed.
Lemma finished_more input more e t : finished input e t -> finished (input ++ more) e t.
Proof.
  intros [H1 H2 H3 (used & rest & -> & He)]. split; try done. exists used, (rest ++ more). split; [by rewrite app_assoc|]. by apply ending_more.
Qed.

Lemma exec_session fuel input t o : session input t -> op_ok o -> exists t', exec notify_ fuel t o = Ret t' /\ session (input ++ arrived o) t'.
Proof.
  intros [Hr|[e Hf]] Ho.
  - pose proof Hr as [Hm Hda Hh Hd Hc Hs Hl Hdo Hne Hla (used & Hi & Hu)].
    destruct o as [more plan|plan|more plan|plan|events error|events error]; cbn [exec arrived]; rewrite ?app_nil_r.
    + eexists. split; [done|]. left. split; try done; [cbn; by destruct (http_stream_ t)|intros Hok; unfold reads_http; cbn; destruct (http_stream_ t); cbn; [by apply Ho|by apply List.Forall_nil]..|].
      exists used. split; [|done]. unfold unread_http in *. cbn. destruct (http_stream_ t); [|done]. cbn. by rewrite Hi, <- !app_assoc.
    + eexists. split; [done|]. left. split; try done; [cbn; by destruct (http_stream_ t)|intros Hok; specialize (Hne Hok); unfold reads_http in *; cbn; by destruct (http_stream_ t)|intros Hok; specialize (Hla Hok); unfold reads_http in *; cbn; by destruct (http_stream_ t)|].
      exists used. split; [|done]. unfold unread_http in *. cbn. by destruct (http_stream_ t).
    + eexists. split; [done|]. left. by apply receiving_doc_map.
    + eexists. split; [done|]. left. apply receiving_doc_map; [done..|]. intros Hok d. cbn. specialize (Ho Hok). by destruct (writes d).
    + unfold OnHttpStreamEvent. rewrite Hm. rewrite !(bool_decide_eq_false_2 (HM_RECV = _)), !andb_false_r by done. rewrite bool_decide_eq_true_2, andb_true_r by done.
      destruct (has events SE_READ).
      * rewrite Hd. destruct (read_session _ _ Hr) as (t' & E & Hs'). rewrite E. by exists t'.
      * destruct (has events SE_CLOSE) eqn:Eh; cbn [negb]; [|by exists t; split; [|left]]. eexists. split; [done|]. right.
        pose proof (close_finished input t error Hr ltac:(by apply Ho) ltac:(by apply Ho)) as Hf. unfold on_stream_close, close_error in *.
        assert (Hmc : mode_ (HandleStreamClose t error).2 = HM_RECV).
        { unfold HandleStreamClose. destruct (error =? 0); [done|]. destruct (error =? _); [done|]. by destruct (error =? _). }
        destruct (HandleStreamClose t error) as [he tc]. cbn [fst snd] in *. rewrite decide_True by done. by exists he.
    + unfold OnDocumentEvent. destruct (doc_connected t); cbn [negb]; [|by exists t; split; [|left]]. rewrite Hm.
      rewrite (bool_decide_eq_false_2 (HM_RECV = HM_SEND)), (bool_decide_eq_true_2 (HM_RECV = HM_RECV)), andb_true_r, andb_false_r by done.
      destruct (has events SE_WRITE).
      * destruct (read_session _ _ Hr) as (t' & E & Hs'). rewrite E. by exists t'.
      * destruct (has events SE_CLOSE) eqn:Eh; [|by exists t; split; [|left]]. eexists. split; [done|]. right. exists HE_STREAM.
        eapply do_complete_finished; [done..|exact Hi|]. apply by_document; [done|]. intros Hok. specialize (Ho Hok). congruence.
  - assert (Hmore := finished_more _ (arrived o) _ _ Hf). pose proof Hmore as [Hm Hco (closes & Hlog & Hcl) Hu].
    enough (exists t', exec notify_ fuel t o = Ret t' /\ finished (input ++ arrived o) e t') as (t' & E & Hf'); [exists t'; split; [done|]; right; by exists e|].
    destruct o as [more plan|plan|more plan|plan|events error|events error]; cbn [exec arrived] in *.
    + eexists. split; [done|]. by eapply finished_same.
    + eexists. split; [done|]. by eapply finished_same.
    + eexists. split; [done|]. by apply finished_doc_map.
    + eexists. split; [done|]. by apply finished_doc_map.
    + unfold OnHttpStreamEvent. rewrite Hm. rewrite !(bool_decide_eq_false_2 (HM_NONE = _)), !andb_false_r by done.
      destruct (has events SE_CLOSE); cbn [negb]; [|by exists t]. eexists. split; [done|]. unfold on_stream_close.
      assert (Hmc : exists he, HandleStreamClose t error = (he, with_http t (Close <$> http_stream_ t))).
      { unfold HandleStreamClose. destruct (error =? 0); [by eexists|]. destruct (error =? _); [by eexists|]. destruct (error =? _); by eexists. }
      destruct Hmc as [he ->]. cbn [mode_ with_http]. rewrite Hm, decide_False by done. cbn [negb bool_decide]. rewrite bool_decide_eq_true_2 by done. cbn [negb].
      rewrite notified. split; [done|done| |done]. exists (closes ++ [onHttpClosed he]). cbn. rewrite Hlog, <- app_assoc. split; [done|]. apply Forall_app_2; [done|].
      by apply List.Forall_cons.
    + unfold OnDocumentEvent. rewrite Hco. by exists t.
Qed.

Lemma run_session fuel ops : forall input t, session input t -> Forall op_ok ops ->
  exists t', run_ops notify_ fuel t ops = Ret t' /\ session (input ++ concat (map arrived ops)) t'.
Proof.
  induction ops as [|o ops IH]; intros input t Hs Ho; [exists t; cbn; by rewrite app_nil_r|]. apply Forall_cons in Ho as [Ho Hos].
  destruct (exec_session fuel input t o Hs Ho) as (t1 & E1 & Hs1). cbn [run_ops]. rewrite E1. cbn [bind].
  destruct (IH _ _ Hs1 Hos) as (t' & E & Hs'). exists t'. split; [done|]. cbn [map concat]. by rewrite app_assoc.
Qed.

(** recv starts a session. *)
Lemma recv_session fuel t : mode_ t = HM_NONE -> isConnected t = true -> doc_stream_ t = false -> log t = log0 ->
  (docs_ok -> match document data with Some d => steady (writes d) | None => True end) -> (net_ok -> no_error (reads_http t)) -> (open_ok -> all_lasting (reads_http t)) ->
  exists t', recv notify_ t data fuel = Ret t' /\ session (unread_http t) t'.
Proof.
  intros Hm Hc Hd Hl Hdo Hne Hla. unfold recv. rewrite Hm, Hc. rewrite bool_decide_eq_true_2 by done. cbn [negb].
  match goal with |- context [with_parser ?x reset] => set (t1 := with_parser x reset) end. change (doc_stream_ t1) with (doc_stream_ t). rewrite Hd.
  assert (Hr : receiving (unread_http t) t1).
  { split; try done; [|by exists []]. unfold isConnected in Hc. change (http_stream_ t1) with (http_stream_ t). by destruct (http_stream_ t). }
  destruct (read_session _ _ Hr) as (t' & E & Hs). rewrite E. by exists t'.
Qed.
End Session.
End Spec.
End HttpRecv.
