(* ===== verification/HttpSend.v ===== *)
(** * base/httpbase.cc: what send writes

    The text of a message, and the theorem that a sending HttpBase writes it:
    whatever the stream (short of SR_EOS from a Write) and the document do, what
    has been written followed by what is in the buffer is a beginning of the
    text, with the document cut
    into chunks as its Reads have cut it. *)

From stdpp Require Import list option.
From S2P Require Import Prelude StringEncode StringConv StreamIo HttpCommon HttpParser HttpBase.
Open Scope jingle_scope.

Module HttpSend.
Import StreamIo StringConv HttpCommon HttpParser HttpBase.

(** ** The text of a message *)

Definition CRLF : bytes := [13; 10].
Definition leader_text (m : HttpData) : bytes :=
  match leader m with
  | Request verb path => ToString verb ++ str " " ++ c_str path ++ str " HTTP/" ++ ToString (version m)
  | Response scode message =>
      str "HTTP/" ++ ToString (version m) ++ str " " ++ format_ulong scode ++
      (if decide (message = []) then [] else str " " ++ c_str message)
  end.
Definition chunk (piece : bytes) : bytes := hex8 (Z.of_nat (length piece)) ++ CRLF ++ piece ++ CRLF.
Definition last_chunk : bytes := str "0" ++ CRLF ++ CRLF.
Definition body_text (chunked : bool) (pieces : list bytes) (fin : bool) : bytes :=
  if chunked then concat (map chunk pieces) ++ (if fin then last_chunk else []) else concat pieces.
(** The text with these headers queued, and what follows them. *)
Definition text (m : HttpData) (queued left : HeaderMap) (body : bytes) : bytes :=
  leader_text m ++ CRLF ++ concat (map header_line queued) ++ (match left with [] => CRLF ++ body | _ => [] end).

(** The first line and every header fit into the buffer, with the end of the
    headers, and the path of a request has no space in it (an ASSERT). *)
Definition fits (m : HttpData) : bool :=
  path_ok m && (Z.of_nat (length (leader_text m)) <? kBufferSize - 4) &&
  forallb (fun h => Z.of_nat (length (header_line h)) <? kBufferSize - 3) (headers_ m).

(** Whether send cuts the document into chunks. *)
Definition sends_chunks (m : HttpData) : bool :=
  match hasHeader m (ToString HH_TRANSFER_ENCODING) with Some encoding => bool_decide (encoding = str "chunked") | None => false end.

(** ** Queueing *)

Lemma sprintfn_fits n s : Z.of_nat (length s) < n -> sprintfn n s = Some s.
Proof. intros H. unfold sprintfn. rewrite !(proj2 (Z.ltb_lt _ _)) by lia. done. Qed.
Lemma sprintfn_long n s : 0 < n -> n <= Z.of_nat (length s) -> exists t, sprintfn n s = Some t /\ Z.of_nat (length t) = n - 1.
Proof.
  intros H1 H2. unfold sprintfn. rewrite (proj2 (Z.ltb_lt _ _)), (proj2 (Z.ltb_ge _ _)) by lia. eexists. split; [done|]. rewrite length_take. lia.
Qed.
Lemma formatLeader_fits m : path_ok m = true -> Z.of_nat (length (leader_text m)) < kBufferSize -> formatLeader m kBufferSize = Some (leader_text m).
Proof.
  unfold formatLeader, leader_text. intros ->. destruct (leader m) as [verb path|scode message]; [apply sprintfn_fits|]. intros H.
  rewrite !length_app in H. rewrite sprintfn_fits by (rewrite !length_app; lia). destruct (decide (message = [])) as [E|E].
  - by rewrite app_nil_r.
  - rewrite !length_app in H. rewrite sprintfn_fits by (rewrite !length_app; lia). by rewrite <- !app_assoc.
Qed.
Lemma put_fits t l : len_ t + Z.of_nat (length l) <= kBufferSize -> put t l = Some (with_buffer t (buffer_ t ++ l)).
Proof. intros H. unfold put. by rewrite (proj2 (Z.leb_le _ _)). Qed.
Lemma put_inv t l t' : put t l = Some t' -> t' = with_buffer t (buffer_ t ++ l).
Proof. unfold put. destruct (_ <=? _); [by intros [= <-]|done]. Qed.
Lemma strcpyn_CRLF n : 3 <= n -> strcpyn n [13; 10] = CRLF.
Proof. intros H. unfold strcpyn. rewrite (proj2 (Z.leb_gt _ _)) by lia. change (Z.of_nat (length (c_str [13; 10]))) with 2. by rewrite Z.min_l by lia. Qed.

Definition crlf_at_end (hs : HeaderMap) : bytes := match hs with [] => CRLF | _ => [] end.

(** queue_headers queues some of the headers and, after the last, the empty
    line; it says whether the buffer must be written first. *)
Lemma queue_headers_spec hs : forall t, len_ t < kBufferSize -> (hs = [] -> len_ t <= kBufferSize - 3) ->
  forallb (fun h => Z.of_nat (length (header_line h)) <? kBufferSize - 3) hs = true ->
  exists queued left, hs = queued ++ left /\
    let t' := with_buffer (with_header t left) (buffer_ t ++ concat (map header_line queued) ++ crlf_at_end left) in
    queue_headers_loop hs t = Some (match left with [] => false | _ => true end, t') /\ len_ t' <= kBufferSize /\ (left <> [] -> 0 < len_ t').
Proof.
  induction hs as [|h hs IH]; intros t Hlen Hend Hfit.
  - exists [], []. split; [done|]. cbn zeta. specialize (Hend eq_refl). cbn [queue_headers_loop]. rewrite strcpyn_CRLF by lia.
    rewrite put_fits by (unfold len_ in *; cbn; lia). split; [done|]. split; [|done]. unfold len_ in *. cbn. rewrite length_app. cbn. lia.
  - cbn [forallb] in Hfit. apply andb_true_iff in Hfit as [Hh Hhs]. apply Z.ltb_lt in Hh. cbn [queue_headers_loop].
    assert (Hstop : len_ t <> 0 -> exists queued left, h :: hs = queued ++ left /\
      let t' := with_buffer (with_header t left) (buffer_ t ++ concat (map header_line queued) ++ crlf_at_end left) in
      Some (true, with_header t (h :: hs)) = Some (match left with [] => false | _ => true end, t') /\ len_ t' <= kBufferSize /\ (left <> [] -> 0 < len_ t')).
    { intros Hne. exists [], (h :: hs). split; [done|]. cbn. rewrite app_nil_r. split; [by destruct t|]. unfold len_ in *. cbn. lia. }
    destruct (Z.lt_ge_cases (len_ t + Z.of_nat (length (header_line h))) kBufferSize) as [Hfull|Hfull].
    + rewrite sprintfn_fits by lia. destruct (Z.ltb_spec (len_ t + Z.of_nat (length (header_line h))) (kBufferSize - 3)) as [Hq|Hq].
      * rewrite put_fits by lia.
        assert (Hl1 : len_ (with_buffer t (buffer_ t ++ header_line h)) = len_ t + Z.of_nat (length (header_line h))).
        { unfold len_. cbn. rewrite length_app. lia. }
        destruct (IH (with_buffer t (buffer_ t ++ header_line h))) as (queued & left & -> & Hq1 & Hq2 & Hq3); [lia|lia|done|].
        exists (h :: queued), left. split; [done|]. cbn zeta in *. rewrite Hq1. cbn in *. rewrite <- !app_assoc in *. done.
      * destruct (Z.eqb_spec (len_ t) 0) as [E|E]; [lia|]. by apply Hstop.
    + destruct (sprintfn_long (kBufferSize - len_ t) (header_line h)) as (tx & -> & Htx); [lia..|]. rewrite (proj2 (Z.ltb_ge _ _)) by lia.
      destruct (Z.eqb_spec (len_ t) 0) as [E|E]; [lia|]. by apply Hstop.
Qed.

(** ** A message being sent *)

Section Sending.
Context (notify_ : option notify) (Hsome : match notify_ with Some _ => true | None => false end = true).
(** The message, what its document holds, and what was in the log. *)
Context (m : HttpData) (content : bytes) (log0 : list event).
Context (Hfits : fits m = true).
(** The turns that flush_data is given. *)
Context (fuel : nat).

Definition has_doc (m : HttpData) : bool := match document m with Some _ => true | None => false end.
Definition written_http (t : t) : bytes := match http_stream_ t with Some s => written s | None => [] end.
Definition same_head (m' : HttpData) : Prop := version m' = version m /\ leader m' = leader m /\ headers_ m' = headers_ m /\ has_doc m' = has_doc m.

(** The document: what it has given and what it still holds. *)
Definition doc_state (d : option Stream) (pieces : list bytes) (fin : bool) : Prop :=
  match d with
  | Some d => content = concat pieces ++ unread d /\ (fin = true -> unread d = [])
  | None => content = [] /\ pieces = [] /\ fin = false
  end.

Record progress (t : t) (queued : HeaderMap) (pieces : list bytes) (fin : bool) : Prop := {
  pr_headers : headers_ m = queued ++ header_ t;
  pr_text : written_http t ++ buffer_ t = text m queued (header_ t) (body_text (sends_chunks m) pieces fin);
  pr_chunk : chunk_data_ t = sends_chunks m && negb fin;
  pr_first : header_ t <> [] -> pieces = [] /\ fin = false;
  pr_doc : doc_state (document (message t)) pieces fin;
  pr_pieces : Forall (fun p => p <> [] /\ Z.of_nat (length p) <= kBufferSize) pieces
}.
Record sending (t : t) : Prop := {
  se_mode : mode_ t = HM_SEND;
  se_data : data_ t = true;
  se_http : exists s, http_stream_ t = Some s /\ planned (writes s) = true /\ no_eos (writes s) /\
    (plan_left (writes s) + length content < fuel)%nat;
  se_len : len_ t <= kBufferSize;
  se_log : log t = log0;
  se_head : same_head (message t);
  se_progress : exists queued pieces fin, progress t queued pieces fin
}.

(** The whole text, for a document cut into these pieces. *)
Definition whole_text (pieces : list bytes) : bytes := text m (headers_ m) [] (body_text (sends_chunks m) pieces (sends_chunks m && has_doc m)).
Record sent (e : HttpError) (t : t) : Prop := {
  sn_mode : mode_ t = HM_NONE;
  sn_connected : doc_connected t = false;
  sn_log : exists closes, log t = log0 ++ onHttpComplete HM_SEND e :: closes /\ Forall (fun e => match e with onHttpClosed _ => True | _ => False end) closes;
  sn_text : e = HE_NONE -> exists pieces, content = concat pieces /\ Forall (fun p => p <> [] /\ Z.of_nat (length p) <= kBufferSize) pieces /\
    written_http t = whole_text pieces
}.

(** The answers that are left bound the turns of flush_data when there is a
    document: a write takes one, a turn without a write takes bytes of the
    document. *)
Definition turns_left (t : t) : nat :=
  (match http_stream_ t with Some s => plan_left (writes s) | None => 0 end +
   match document (message t) with Some d => length (unread d) | None => 0 end)%nat.

Lemma notified_ {B} (a b : B) : match notify_ with Some _ => a | None => b end = a.
Proof. by destruct notify_. Qed.

Lemma do_complete_sent t e : mode_ t = HM_SEND -> data_ t = true -> log t = log0 ->
  (e = HE_NONE -> exists pieces, content = concat pieces /\ Forall (fun p => p <> [] /\ Z.of_nat (length p) <= kBufferSize) pieces /\
    written_http t = whole_text pieces) -> sent e (do_complete notify_ t e).
Proof.
  intros Hm Hd Hl He. unfold do_complete. cbn -[bool_decide]. rewrite Hm, Hd.
  rewrite (bool_decide_eq_false_2 (HM_SEND = HM_RECV)) by done. cbn [andb]. rewrite notified_. split; try done.
  exists []. cbn. by rewrite Hl.
Qed.

Lemma on_stream_close_sent t error : mode_ t = HM_SEND -> data_ t = true -> log t = log0 -> exists e, e <> HE_NONE /\ sent e (on_stream_close notify_ t error).
Proof.
  intros Hm Hd Hlog. unfold on_stream_close.
  assert (Hc : exists he, HandleStreamClose t error = (he, with_http t (Close <$> http_stream_ t)) /\ he <> HE_NONE).
  { unfold HandleStreamClose. cbn [mode_ with_http]. rewrite Hm, (bool_decide_eq_false_2 (HM_SEND = HM_RECV)), decide_False by done. cbn [andb].
    destruct (error =? 0); [|destruct (error =? _); [|destruct (error =? _)]]; eexists; (split; [reflexivity|done]). }
  destruct Hc as (he & -> & Hne). cbn [mode_ with_http]. rewrite Hm, decide_False, bool_decide_eq_false_2 by done. cbn [negb].
  exists he. split; [done|]. by apply do_complete_sent.
Qed.

(** Headers are queued until they are done or the buffer is full. *)
Lemma flush_headers_sending sr t : sending t -> (sr = false -> header_ t <> [] -> len_ t < kBufferSize) -> (sr = true -> 0 < len_ t) ->
  exists sr' t', flush_headers sr t = Some (sr', t') /\ sending t' /\ (sr' = false -> header_ t' = []) /\ (sr' = true -> 0 < len_ t') /\
    turns_left t' = turns_left t /\ message t' = message t.
Proof.
  intros Hs Hlen Hsr. unfold flush_headers. destruct (header_ t) as [|h hs] eqn:Eh; [by exists sr, t|]. destruct sr; [by exists true, t|].
  destruct Hs as [Hm Hd Hh Hl Hlog Hhd (queued & pieces & fin & [Ph Pt Pc Pf Pd Pp])].
  unfold queue_headers. destruct (queue_headers_spec (header_ t) t) as (q2 & left & Eq & Hq & Hlq & Hpos).
  { apply Hlen; [done|congruence]. }
  { congruence. }
  { unfold fits in Hfits. apply andb_true_iff in Hfits as [_ Hf]. rewrite Ph, forallb_app in Hf. by apply andb_true_iff in Hf as [_ ?]. }
  cbn zeta in *. rewrite Eh in Hq at 1. rewrite Eh, Hq. eexists _, _. split; [done|]. rewrite Eh in Pf. destruct Pf as [-> ->]; [done|].
  split; [|split; [by destruct left|split; [destruct left; [done|intros _; by apply Hpos]|done]]].
  split; try done. exists (queued ++ q2), [], false. split; try done.
  - cbn. by rewrite Ph, Eq, <- app_assoc.
  - cbn. change (written_http (with_buffer _ _)) with (written_http t). rewrite app_assoc, Pt. unfold text. rewrite Eh.
    rewrite app_nil_r, map_app, concat_app, <- !app_assoc. do 4 f_equal. unfold crlf_at_end. destruct left; [|done]. unfold body_text. by destruct (sends_chunks m); cbn; rewrite ?app_nil_r.
Qed.

Lemma body_text_piece c pieces d : body_text c pieces false ++ (if c then chunk d else d) = body_text c (pieces ++ [d]) false.
Proof. unfold body_text. destruct c; rewrite ?map_app, !concat_app; cbn; by rewrite ?app_nil_r. Qed.
Lemma body_text_last pieces : body_text true pieces false ++ last_chunk = body_text true pieces true.
Proof. unfold body_text. by rewrite app_nil_r. Qed.
Lemma hex8_length n : length (hex8 n) = 8%nat.
Proof. done. Qed.

Definition has_document (t : t) : bool := has_doc (message t).
Lemma same_head_doc m' d : same_head m' -> has_doc m' = true -> same_head (with_document m' (Some d)).
Proof. intros (H1 & H2 & H3 & H4) Hd. repeat split; try done. cbn. congruence. Qed.

(** More of the document is queued, or its end. *)
Lemma flush_document_sending sr t : sending t -> (sr = false -> header_ t = []) -> (sr = true -> 0 < len_ t) ->
  exists tn, flush_document notify_ sr t = Some tn /\
    match tn with
    | Go sr' t' => sending t' /\ (sr' = false -> header_ t' = []) /\ (turns_left t' <= turns_left t)%nat /\ has_document t' = has_document t /\
        (if has_document t then sr' = false -> (turns_left t' < turns_left t)%nat else sr' = sr /\ t' = t)
    | Return_ t' => sent HE_NONE t' \/ sent HE_STREAM t' /\ (exists d err, document (message t) = Some d /\ (next (reads d)).1 = Error err)
    end.
Proof.
  intros Hs Hhd0 Hpos. pose proof Hs as [Hm Hd Hh Hl Hlog Hhd (queued & pieces & fin & [Ph Pt Pc Pf Pd Pp])].
  unfold flush_document. destruct sr.
  { exists (Go true t). split; [done|]. split; [done|]. split; [done|]. split; [done|]. split; [done|]. by destruct (has_document t). }
  specialize (Hhd0 eq_refl). clear Hpos. unfold has_document, has_doc. destruct (document (message t)) as [d|] eqn:Ed.
  2:{ exists (Go false t). split; [done|]. by rewrite Ed. }
  assert (Hdoc : has_doc (message t) = true) by (unfold has_doc; by rewrite Ed). cbn [doc_state] in Pd. destruct Pd as (Pc1 & Pfin).
  set (reserve := if chunk_data_ t then len_ t + kChunkDigits + 2 + 2 else len_ t).
  assert (Hlen0 : 0 <= len_ t) by (unfold len_; lia).
  assert (Hres : len_ t <= reserve /\ (chunk_data_ t = true -> reserve = len_ t + 12)) by (unfold reserve; destruct (chunk_data_ t); unfold kChunkDigits; lia).
  destruct (Z.leb_spec kBufferSize reserve) as [Hfull|Hroom].
  { exists (Go true t). split; [done|]. by rewrite Ed. }
  destruct (Read d _) as [[[rr data] err] d'] eqn:ER. apply stream_Read_spec in ER as ((_ & _ & _ & Hrd) & Hun & Hln & Hsucc & Heos & Herr); [|lia].
  assert (Hnil : rr <> SR_SUCCESS -> unread d' = unread d).
  { intros Hn. destruct data; [by rewrite Hun|]. by destruct Hn; apply Hsucc. }
  set (t1 := with_doc t (Some d')).
  assert (Hs1 : rr <> SR_SUCCESS -> sending t1).
  { intros Hn. split; try done; [by apply same_head_doc|]. exists queued, pieces, fin. split; try done. cbn. by rewrite (Hnil Hn). }
  assert (Htl : rr <> SR_SUCCESS -> turns_left t1 = turns_left t).
  { intros Hn. unfold turns_left. cbn. by rewrite Ed, (Hnil Hn). }
  assert (Hhd1 : header_ t1 = []) by done.
  destruct rr.
  { eexists. split; [done|]. right. split; [by apply do_complete_sent|]. exists d, err. split; [done|]. by apply Herr. }
  - assert (Hdata : data <> []) by by apply Hsucc.
    assert (Hfin : fin = false). { destruct fin; [|done]. specialize (Pfin eq_refl). rewrite Pfin in Hun. by destruct data. }
    subst fin. rewrite andb_true_r in Pc.
    change (chunk_data_ t1) with (chunk_data_ t). set (l := if chunk_data_ t then _ else data).
    assert (Hll : Z.of_nat (length l) <= kBufferSize - len_ t).
    { unfold l. destruct (chunk_data_ t) eqn:Ec; [|unfold reserve in *; lia]. rewrite !length_app, hex8_length. cbn [length]. destruct Hres as [_ Hres]. specialize (Hres eq_refl). lia. }
    rewrite put_fits by (change (len_ t1) with (len_ t); lia). eexists. split; [done|]. cbn beta iota.
    split; [|split; [done|]].
    + split; try done; [unfold len_ in *; cbn; rewrite length_app; lia|by apply same_head_doc|]. exists queued, (pieces ++ [data]), false. split; try done.
      * cbn. change (written_http (with_buffer _ _)) with (written_http t). rewrite app_assoc, Pt. unfold text. rewrite Hhd0, <- !app_assoc. do 4 f_equal.
        rewrite <- body_text_piece. f_equal. unfold l. rewrite Pc. unfold chunk, CRLF. by destruct (sends_chunks m).
      * cbn. by rewrite andb_true_r.
      * cbn. split; [|done]. rewrite concat_app. cbn. by rewrite app_nil_r, <- app_assoc, <- Hun.
      * apply Forall_app_2; [done|]. apply List.Forall_cons; [|apply List.Forall_nil]. split; [done|lia].
    + unfold turns_left. cbn. rewrite Ed, Hun, length_app. assert (1 <= length data)%nat by (destruct data; [done|cbn; lia]). split; [lia|]. split; [done|]. intros _. lia.
  - exists (Go true t1). specialize (Hs1 ltac:(done)). rewrite (Htl ltac:(done)). done.
  - destruct (Heos eq_refl) as (Hu & _ & _). change (chunk_data_ t1) with (chunk_data_ t). destruct (chunk_data_ t) eqn:Ec.
    + symmetry in Pc. apply andb_true_iff in Pc as [Pc Hfin]. apply negb_true_iff in Hfin. subst fin. destruct Hres as [_ Hres]. specialize (Hres eq_refl).
      rewrite put_fits by (change (len_ t1) with (len_ t); cbn; lia). eexists. split; [done|]. cbn beta iota.
      split; [|split; [done|split; [by rewrite <- (Htl ltac:(done))|done]]].
      split; try done; [unfold len_ in *; cbn; rewrite length_app; cbn; lia|by apply same_head_doc|]. exists queued, pieces, true. split; try done.
      * cbn. change (written_http (with_chunk _ _)) with (written_http t). rewrite app_assoc, Pt. unfold text. rewrite Hhd0, <- !app_assoc. do 4 f_equal.
        rewrite Pc. apply body_text_last.
      * cbn. by rewrite Pc.
      * cbn. by rewrite (Hnil ltac:(done)).
    + change (len_ t1) with (len_ t). destruct (Z.eqb_spec (len_ t) 0) as [Hz|Hz].
      * eexists. split; [done|]. left. apply do_complete_sent; [done..|]. intros _. exists pieces. rewrite Hu, app_nil_r in Pc1. split; [done|]. split; [done|].
        assert (Hb : buffer_ t = []) by (unfold len_ in Hz; destruct (buffer_ t); [done|cbn in Hz; lia]). change (written_http t1) with (written_http t).
        rewrite Hb, app_nil_r in Pt. rewrite Pt. unfold whole_text. rewrite Ph, Hhd0, app_nil_r. f_equal.
        destruct Hhd as (_ & _ & _ & Hhd). rewrite <- Hhd, Hdoc, andb_true_r. destruct (sends_chunks m), fin; done.
      * exists (Go true t1). specialize (Hs1 ltac:(done)). rewrite (Htl ltac:(done)). done.
Qed.

Lemma sending_turns t : sending t -> (turns_left t < fuel)%nat.
Proof.
  intros [_ _ (s & Hh & _ & _ & Hf) _ _ _ (q & pieces & fin & [_ _ _ _ Pd _])]. unfold turns_left. rewrite Hh.
  destruct (document (message t)) as [d|]; [|lia]. destruct Pd as (-> & _). rewrite length_app in Hf. lia.
Qed.

(** The loop of flush_data: it stays inside the buffer, sends a beginning of
    the text, and ends when there is a document. *)
Lemma flush_loop_sending n : forall sr t, sending t -> (sr = false -> header_ t <> [] -> len_ t < kBufferSize) -> (sr = true -> 0 < len_ t) ->
  match flush_loop notify_ n sr t with
  | Ret t' => sending t' \/ exists e, sent e t'
  | Spins => has_doc m = true -> (n <= turns_left t)%nat
  | Undefined => False
  end.
Proof.
  induction n as [|n IH]; intros sr t Hs Hlen Hpos; [cbn; lia|]. cbn [flush_loop].
  destruct (flush_headers_sending sr t Hs Hlen Hpos) as (sr1 & t1 & -> & Hs1 & Hh1 & Hp1 & Htl1 & Hm1). cbn [defined].
  destruct (flush_document_sending sr1 t1 Hs1 Hh1 Hp1) as (tn & -> & Htn). cbn [defined]. destruct tn as [sr2 t2|t2]; [|right; destruct Htn as [?|[? _]]; eauto].
  destruct Htn as (Hs2 & Hh2 & Htl2 & Hdoc2 & Hdec). pose proof Hs2 as [Hm Hd (s & Hh & Hpl & Hst & Hfu) Hl Hlog Hhd (queued & pieces & fin & Hpr)].
  assert (Hdm : has_document t1 = has_doc m). { destruct Hs1 as [_ _ _ _ _ (_ & _ & _ & H) _]. exact H. }
  assert (Hl0 : 0 <= len_ t2) by (unfold len_; lia).
  destruct (Z.eqb_spec (len_ t2) 0) as [Hz|Hz].
  { unfold has_document, has_doc in Hdoc2. destruct (document (message t2)) as [d|] eqn:Ed; [by left|]. right. exists HE_NONE.
    unfold has_document, has_doc in Hdec. destruct (document (message t1)) as [d|] eqn:Ed1; [done|]. destruct Hdec as [-> ->].
    destruct sr1; [specialize (Hp1 eq_refl); lia|]. specialize (Hh1 eq_refl). destruct Hpr as [Ph Pt Pc Pf Pd Pp]. rewrite Ed in Pd. destruct Pd as (Hcon & -> & ->).
    apply do_complete_sent; [done..|]. intros _. exists []. split; [done|]. split; [done|].
    assert (Hb : buffer_ t1 = []) by (unfold len_ in Hz; destruct (buffer_ t1); [done|cbn in Hz; lia]). rewrite Hb, app_nil_r in Pt.
    rewrite Pt. unfold whole_text. rewrite Ph, Hh1, app_nil_r. f_equal. unfold has_document in Hdm. unfold has_doc at 1 in Hdm. rewrite Ed in Hdm. by rewrite <- Hdm, andb_false_r. }
  rewrite Hh. destruct (Write s (buffer_ t2)) as [[[rr k] e] s'] eqn:EW.
  assert (Hb : buffer_ t2 <> []) by (unfold len_ in Hz; destruct (buffer_ t2); [done|done]).
  pose proof (Write_planned _ _ _ _ _ _ EW Hpl) as (Hpl' & Hle & Hlt). pose proof (Write_no_eos _ _ _ _ _ _ EW Hst) as [Hne Hst'].
  apply stream_Write_spec in EW as (_ & Hw & Hr & _); [|done].
  assert (Hwt : forall t', written_http t' = written s' -> buffer_ t' = drop k (buffer_ t2) -> written_http t' ++ buffer_ t' = written_http t2 ++ buffer_ t2).
  { intros t' -> ->. unfold written_http. by rewrite Hh, Hw, <- app_assoc, take_drop. }
  assert (Htl : (match writes s with w => plan_left w end + match document (message t2) with Some d => length (unread d) | None => 0 end = turns_left t2)%nat)
    by (unfold turns_left; by rewrite Hh).
  cbn zeta. destruct rr; [| | |by destruct Hne].
  - right. destruct (on_stream_close_sent (with_http t2 (Some s')) e Hm Hd Hlog) as (he & _ & H). by exists he.
  - specialize (Hlt eq_refl). cbn [with_http buffer_]. set (t3 := with_buffer (with_http t2 (Some s')) (drop k (buffer_ t2))).
    assert (Hlen3 : len_ t3 < kBufferSize). { unfold len_ in *. cbn. rewrite length_drop. lia. }
    assert (Hs3 : sending t3).
    { split; try done; [exists s'; split; [done|]; split; [done|]; split; [done|lia]|lia|]. exists queued, pieces, fin. destruct Hpr. split; try done. by rewrite Hwt. }
    specialize (IH false t3 Hs3 ltac:(done) ltac:(done)). destruct (flush_loop notify_ n false t3); [done| |done]. intros Hdoc. specialize (IH Hdoc).
    unfold turns_left in IH at 1. cbn in IH. lia.
  - subst k. rewrite drop_0 in Hwt. set (t3 := with_http t2 (Some s')).
    assert (Hs3 : sending t3).
    { split; try done; [exists s'; split; [done|]; split; [done|]; split; [done|lia]|]. exists queued, pieces, fin. destruct Hpr. split; try done. by rewrite Hwt. }
    destruct sr2; [by left|]. specialize (IH false t3 Hs3). specialize (Hh2 eq_refl). specialize (IH ltac:(intros _ Hx; by destruct Hx) ltac:(done)).
    destruct (flush_loop notify_ n false t3); [done| |done]. intros Hdoc. specialize (IH Hdoc). rewrite Hdm, Hdoc in Hdec. specialize (Hdec eq_refl).
    unfold turns_left in IH at 1. cbn in IH. lia.
Qed.

Definition send_result (r : res t) : Prop :=
  match r with Ret t' => sending t' \/ exists e, sent e t' | Spins => has_doc m = false | Undefined => False end.

Lemma flush_data_sending t : sending t -> send_result (flush_data notify_ fuel t).
Proof.
  intros Hs. pose proof (se_len _ Hs) as Hl. pose proof (sending_turns _ Hs) as Htn. unfold flush_data.
  pose proof (flush_loop_sending fuel (kBufferSize <=? len_ t) t Hs) as H. destruct (Z.leb_spec kBufferSize (len_ t)) as [Hf|Hf].
  - specialize (H ltac:(done) ltac:(unfold kBufferSize in *; lia)). destruct (flush_loop _ _ _ _); cbn; [destruct H; eauto| |done].
    destruct (has_doc m); [|done]. specialize (H eq_refl). lia.
  - specialize (H ltac:(done) ltac:(done)). destruct (flush_loop _ _ _ _); cbn; [destruct H; eauto| |done].
    destruct (has_doc m); [|done]. specialize (H eq_refl). lia.
Qed.

(** ** A stream that takes its bytes *)

(** A bound on the bytes that are still to be written: those in the buffer,
    the headers that are left with the empty line, and the document with the
    frames of its chunks. *)
Definition to_write (t : t) : Z :=
  len_ t + Z.of_nat (length (concat (map header_line (header_ t)))) + (match header_ t with [] => 0 | _ => 2 end)
  + 13 * (match document (message t) with Some d => Z.of_nat (length (unread d)) | None => 0 end) + (if chunk_data_ t then 5 else 0).
Lemma to_write_len t : 0 <= len_ t <= to_write t.
Proof. unfold to_write. assert (0 <= len_ t) by (unfold len_; lia). destruct (header_ t), (document (message t)), (chunk_data_ t); lia. Qed.
Definition takes (a : answer) : bool := match a with Some_ _ => true | _ => false end.
Definition doc_open (t : t) : Prop := match document (message t) with Some d => reads d = [Eos] | None => True end.

Lemma queue_headers_to_write hs : forall t b t', queue_headers_loop hs t = Some (b, t') ->
  len_ t' + Z.of_nat (length (concat (map header_line (header_ t')))) + (match header_ t' with [] => 0 | _ => 2 end)
    <= len_ t + Z.of_nat (length (concat (map header_line hs))) + 2 /\
  message t' = message t /\ chunk_data_ t' = chunk_data_ t /\ http_stream_ t' = http_stream_ t.
Proof.
  induction hs as [|h hs IH]; intros t b t'; cbn [queue_headers_loop].
  - destruct (put _ _) as [t1|] eqn:E; [|done]. intros [= <- <-]. apply put_inv in E as ->. unfold len_. cbn. rewrite length_app.
    split; [|done]. assert (Z.of_nat (length (strcpyn (kBufferSize - Z.of_nat (length (buffer_ t))) [13; 10])) <= 2); [|lia].
    unfold strcpyn. destruct (_ <=? _); [cbn; lia|]. rewrite length_take. cbn. lia.
  - destruct (sprintfn _ _) as [tx|] eqn:Es; [|done]. cbn [map concat]. rewrite length_app.
    assert (Htx : Z.of_nat (length tx) <= Z.of_nat (length (header_line h))).
    { unfold sprintfn in Es. destruct (0 <? _); [|done]. injection Es as <-. destruct (_ <? _); [lia|]. rewrite length_take. lia. }
    destruct (_ <? kBufferSize - 3).
    + destruct (put t tx) as [t1|] eqn:E; [|done]. apply put_inv in E as ->. intros E. apply IH in E as (H1 & H2 & H3 & H4). split; [|done].
      unfold len_ in *. cbn in H1. rewrite length_app in H1. lia.
    + destruct (len_ t =? 0); [intros E; apply IH in E as (H1 & H2); split; [lia|done]|]. intros [= <- <-]. split; [|done]. unfold len_. cbn. rewrite length_app. lia.
Qed.

(** When the stream takes bytes at every call and the document gives all it
    holds, flush_data sends the message. *)
Lemma flush_loop_completes n : forall sr t, sending t -> (sr = false -> header_ t <> [] -> len_ t < kBufferSize) -> (sr = true -> 0 < len_ t) ->
  doc_open t -> (forall s l, http_stream_ t = Some s -> writes s = Planned l -> forallb takes l = true /\ to_write t <= Z.of_nat (length l)) ->
  match flush_loop notify_ n sr t with Ret t' => sent HE_NONE t' | Spins => (Z.of_nat n <= to_write t) | Undefined => False end.
Proof.
  induction n as [|n IH]; intros sr t Hs Hlen Hpos Hdo Hplan; [pose proof (to_write_len t); cbn [flush_loop]; lia|]. cbn [flush_loop].
  destruct (flush_headers_sending sr t Hs Hlen Hpos) as (sr1 & t1 & Ef & Hs1 & Hh1 & Hp1 & Htl1 & Hm1). rewrite Ef. cbn [defined].
  assert (Hw1 : to_write t1 <= to_write t /\ http_stream_ t1 = http_stream_ t).
  { unfold flush_headers in Ef. destruct (header_ t) as [|h hs] eqn:Eh; [by injection Ef as _ <-|]. destruct sr; [by injection Ef as _ <-|].
    unfold queue_headers in Ef. rewrite Eh in Ef. apply queue_headers_to_write in Ef as (H1 & H2 & H3 & H4). split; [|done]. unfold to_write.
    rewrite H2, H3, Eh. lia. }
  destruct Hw1 as [Hw1 Hht1]. assert (Hdo1 : doc_open t1) by (unfold doc_open; by rewrite Hm1).
  destruct (flush_document_sending sr1 t1 Hs1 Hh1 Hp1) as (tn & Ed & Htn). rewrite Ed. cbn [defined].
  destruct tn as [sr2 t2|t2]; [|destruct Htn as [?|[_ (d & err & Hx & Hy)]]; [done|unfold doc_open in Hdo1; rewrite Hx in Hdo1; by rewrite Hdo1 in Hy]].
  destruct Htn as (Hs2 & Hh2 & _ & Hdoc2 & Hdec).
  assert (Hw2 : to_write t2 <= to_write t1 /\ http_stream_ t2 = http_stream_ t1 /\ doc_open t2 /\ (has_document t2 = true -> 0 < len_ t2)).
  { clear -Ed Hdo1 Hp1 Hh1 Hs1. unfold flush_document in Ed. destruct sr1.
    { injection Ed as <- <-. split_and!; try done. intros _. by apply Hp1. }
    unfold doc_open in Hdo1. destruct (document (message t1)) as [d|] eqn:Em.
    2:{ injection Ed as <- <-. split_and!; try done; [unfold doc_open; by rewrite Em|]. unfold has_document, has_doc. by rewrite Em. }
    assert (H0 : 0 <= len_ t1) by (unfold len_; lia). revert Ed. set (reserve := if chunk_data_ t1 then _ else _).
    destruct (Z.leb_spec kBufferSize reserve) as [Hfull|Hroom].
    { intros [= <- <-]. split_and!; try done; [unfold doc_open; by rewrite Em|]. intros _. unfold reserve, kChunkDigits, kBufferSize in Hfull. destruct (chunk_data_ t1); [|lia].
      pose proof (se_len _ Hs1). unfold kBufferSize in *. lia. }
    destruct (Read d _) as [[[rr data] err] d'] eqn:ER. assert (Hrr : rr = SR_SUCCESS \/ rr = SR_EOS).
    { unfold Read in ER. rewrite Hdo1 in ER. cbn [next] in ER. destruct (take _ _); injection ER as <- <- <- <-; auto. }
    apply stream_Read_spec in ER as ((_ & _ & _ & Hrd) & Hun & _ & Hsucc & _ & _); [|lia]. rewrite Hdo1 in Hrd. cbn in Hrd.
    set (t3 := with_doc t1 (Some d')). change (chunk_data_ t3) with (chunk_data_ t1). change (len_ t3) with (len_ t1).
    destruct Hrr as [-> | ->].
    - assert (Hd : (1 <= length data)%nat) by (destruct data; [by destruct (proj1 Hsucc eq_refl)|cbn; lia]).
      destruct (put t3 _) as [t4|] eqn:Ep; [|done]. apply put_inv in Ep. intros [= <- <-]. subst t4. split_and!; try done.
      + unfold to_write at 2. rewrite Em, Hun. match goal with |- to_write (with_buffer t3 ?x) <= _ => change (to_write (with_buffer t3 x)) with
          (Z.of_nat (length x) + Z.of_nat (length (concat (map header_line (header_ t1)))) + (match header_ t1 with [] => 0 | _ => 2 end)
           + 13 * Z.of_nat (length (unread d')) + (if chunk_data_ t1 then 5 else 0)) end.
        change (buffer_ t3) with (buffer_ t1). unfold len_. rewrite !length_app. destruct (chunk_data_ t1); rewrite ?length_app, ?hex8_length; cbn [length]; lia.
      + intros _. match goal with |- 0 < len_ (with_buffer t3 ?x) => change (len_ (with_buffer t3 x)) with (Z.of_nat (length x)) end.
        rewrite length_app. destruct (chunk_data_ t1); rewrite ?length_app; cbn [length]; lia.
    - destruct (chunk_data_ t1) eqn:Ec.
      + destruct (put t3 _) as [t4|] eqn:Ep; [|done]. apply put_inv in Ep. intros [= <- <-]. subst t4. split_and!; try done.
        * unfold to_write at 2. rewrite Em, Ec, Hun. match goal with |- to_write (with_chunk (with_buffer t3 ?x) false) <= _ => change (to_write (with_chunk (with_buffer t3 x) false)) with
            (Z.of_nat (length x) + Z.of_nat (length (concat (map header_line (header_ t1)))) + (match header_ t1 with [] => 0 | _ => 2 end)
             + 13 * Z.of_nat (length (unread d')) + 0) end.
          change (buffer_ t3) with (buffer_ t1). unfold len_. rewrite !length_app. cbn [length str app]. lia.
        * intros _. match goal with |- 0 < len_ (with_chunk (with_buffer t3 ?x) false) => change (len_ (with_chunk (with_buffer t3 x) false)) with (Z.of_nat (length x)) end.
          rewrite length_app. cbn [length str app]. lia.
      + destruct (Z.eqb_spec (len_ t1) 0) as [Hz|Hz]; [done|]. intros [= <- <-]. split_and!; try done.
        * unfold to_write at 2. rewrite Em, Ec, Hun, length_app. change (to_write t3) with
            (len_ t1 + Z.of_nat (length (concat (map header_line (header_ t1)))) + (match header_ t1 with [] => 0 | _ => 2 end)
             + 13 * Z.of_nat (length (unread d')) + (if chunk_data_ t1 then 5 else 0)). rewrite Ec. lia.
        * intros _. change (len_ t3) with (len_ t1). lia. }
  destruct Hw2 as (Hw2 & Hht2 & Hdo2 & Hlen2).
  pose proof Hs2 as [Hm Hd (s & Hh & Hpl & Hst & Hfu) Hl Hlog Hhd (queued & pieces & fin & Hpr)].
  destruct (writes s) as [l| |] eqn:Ew; [|done..]. destruct (Hplan s l) as [Hta Hle]; [by rewrite <- Hht1, <- Hht2|done|].
  pose proof (flush_loop_sending (S n) sr t Hs Hlen Hpos) as Hall. cbn [flush_loop] in Hall. rewrite Ef in Hall. cbn [defined] in Hall. rewrite Ed in Hall. cbn [defined] in Hall.
  destruct (Z.eqb_spec (len_ t2) 0) as [Hz|Hz].
  { destruct (document (message t2)) as [d|] eqn:Em.
    - unfold has_document, has_doc in Hlen2. rewrite Em in Hlen2. specialize (Hlen2 eq_refl). lia.
    - destruct Hall as [Hall|[e Hall]].
      + exfalso. pose proof (se_mode _ Hall) as Hx. unfold do_complete in Hx. cbn in Hx. rewrite Hm, Hd in Hx. rewrite notified_ in Hx. done.
      + destruct (sn_log _ _ Hall) as (closes & Hx & _). unfold do_complete in Hx. cbn -[bool_decide] in Hx. rewrite Hm, Hd in Hx.
        rewrite (bool_decide_eq_false_2 (HM_SEND = HM_RECV)) in Hx by done. cbn [andb] in Hx. rewrite notified_ in Hx. cbn in Hx. rewrite Hlog in Hx. apply app_inv_head in Hx.
        by injection Hx as <- _. }
  clear Hall. rewrite Hh. assert (Hl1 : 0 < to_write t2) by (pose proof (to_write_len t2); lia).
  destruct l as [|[k| | |] l]; cbn in Hta; [cbn in Hle; lia| |done..].
  unfold Write. rewrite Ew. cbn [next]. set (kk := min (S k) (length (buffer_ t2))).
  assert (Hb2 : (1 <= length (buffer_ t2))%nat) by (clear -Hz; unfold len_ in Hz; lia).
  assert (Hkk : (1 <= kk <= length (buffer_ t2))%nat) by (clear -Hb2; unfold kk; lia).
  set (s' := mkStream _ _ _ _ _). cbn [with_http buffer_]. set (t3 := with_buffer (with_http t2 (Some s')) (drop kk (buffer_ t2))).
  assert (Hb3 : len_ t3 = len_ t2 - Z.of_nat kk).
  { unfold len_. change (buffer_ t3) with (drop kk (buffer_ t2)). rewrite length_drop. clear -Hkk. lia. }
  assert (Hw3 : to_write t3 <= to_write t2 - 1). { unfold to_write. change (header_ t3) with (header_ t2). change (message t3) with (message t2). change (chunk_data_ t3) with (chunk_data_ t2). lia. }
  assert (Hs3 : sending t3).
  { split; try done; [|lia|].
    - exists s'. split; [done|]. split; [done|]. cbn in Hst, Hfu. apply Forall_cons in Hst as [_ Hst]. split; [exact Hst|]. cbn. lia.
    - exists queued, pieces, fin. destruct Hpr as [Ph Pt Pc Pf Pd Pp]. split; try done. etrans; [|exact Pt]. unfold written_http. rewrite Hh.
      change (http_stream_ t3) with (Some s'). change (buffer_ t3) with (drop kk (buffer_ t2)). cbn [written s']. by rewrite <- app_assoc, take_drop. }
  specialize (IH false t3 Hs3 ltac:(intros _ _; lia) ltac:(done) Hdo2).
  assert (Hpl3 : forall s0 l0, http_stream_ t3 = Some s0 -> writes s0 = Planned l0 -> forallb takes l0 = true /\ to_write t3 <= Z.of_nat (length l0)).
  { intros s0 l0 [= <-] [= <-]. split; [done|]. cbn [length] in Hle. lia. }
  specialize (IH Hpl3). destruct (flush_loop notify_ n false t3); [done| |done]. lia.
Qed.

(** The most that can be left of a message. *)
Definition send_bound : Z :=
  kBufferSize + Z.of_nat (length (concat (map header_line (headers_ m)))) + 2 + 13 * Z.of_nat (length content) + 5.
Lemma sending_to_write t : sending t -> to_write t <= send_bound.
Proof.
  intros [_ _ _ Hl _ _ (queued & pieces & fin & [Ph _ _ _ Pd _])]. unfold to_write, send_bound. rewrite Ph, map_app, concat_app, length_app.
  unfold doc_state in Pd. destruct (document (message t)) as [d|].
  - destruct Pd as (-> & _). rewrite length_app. destruct (header_ t), (chunk_data_ t); lia.
  - destruct (header_ t), (chunk_data_ t); lia.
Qed.
Lemma flush_data_completes t : sending t -> doc_open t ->
  (forall s l, http_stream_ t = Some s -> writes s = Planned l -> forallb takes l = true /\ send_bound <= Z.of_nat (length l) /\ (length l < fuel)%nat) ->
  exists t', flush_data notify_ fuel t = Ret t' /\ sent HE_NONE t'.
Proof.
  intros Hs Hdo Hplan. pose proof (sending_to_write t Hs) as Hb. pose proof (se_len _ Hs) as Hl.
  destruct (se_http _ Hs) as (s & Hh & Hp & _). destruct (writes s) as [l| |] eqn:Ew; [|done..]. destruct (Hplan s l Hh Ew) as (Ht & Hle & Hf).
  assert (Hpl : forall s l, http_stream_ t = Some s -> writes s = Planned l -> forallb takes l = true /\ to_write t <= Z.of_nat (length l)).
  { intros s1 l1 H1 H2. destruct (Hplan s1 l1 H1 H2) as (? & ? & _). split; [done|lia]. }
  unfold flush_data. pose proof (flush_loop_completes fuel (kBufferSize <=? len_ t) t Hs) as H.
  destruct (Z.leb_spec kBufferSize (len_ t)) as [Hk|Hk]; specialize (H ltac:(done) ltac:(try done; unfold kBufferSize in *; lia) Hdo Hpl);
    (destruct (flush_loop _ _ _ _); [by eexists|lia|done]).
Qed.

(** ** Sessions *)

Definition send_ok (t : t) : Prop := sending t \/ exists e, sent e t.
(** Write does not answer SR_EOS, the answers that a call may use up are
    within the fuel, and the document has been given all it holds. *)
Definition send_op_ok (o : op) : Prop :=
  match o with
  | Drain plan => no_eos (Planned plan) /\ (length plan + length content < fuel)%nat
  | DocArrive more plan => more = []
  | _ => True
  end.

Lemma sent_http e t f : sent e t -> (forall s, written (f s) = written s) -> sent e (with_http t (f <$> http_stream_ t)).
Proof. intros [H1 H2 H3 H4] Hf. split; try done. unfold written_http in *. cbn. destruct (http_stream_ t); cbn; by rewrite ?Hf. Qed.

Lemma send_result_ok r : (forall t', r = Ret t' -> send_ok t') -> r <> Undefined -> (r = Spins -> has_doc m = false) -> send_result r.
Proof. unfold send_result, send_ok. destruct r; auto. Qed.

Lemma exec_sending t o : sending t -> send_op_ok o -> send_result (exec notify_ fuel t o).
Proof.
  intros Hs Ho. pose proof Hs as [Hm Hd (s & Hh & Hpl & Hst & Hfu) Hl Hlog Hhd (queued & pieces & fin & [Ph Pt Pc Pf Pd Pp])].
  destruct o as [more plan|plan|more plan|plan|events error|events error]; cbn [exec].
  - left. split; try done; [cbn; rewrite Hh; by exists (arrive more plan s)|]. exists queued, pieces, fin. split; try done.
    unfold written_http in *. cbn. by rewrite Hh in *.
  - left. destruct Ho as [Hst' Hlen]. split; try done.
    + cbn. rewrite Hh. exists (drain plan s). split; [done|]. cbn. by destruct (writes s).
    + exists queued, pieces, fin. split; try done. unfold written_http in *. cbn. by rewrite Hh in *.
  - left. cbn in Ho. subst more. split; try done; [by exists s| |].
    + destruct Hhd as (H1 & H2 & H3 & H4). repeat split; try done. cbn. unfold has_doc in *. cbn. by destruct (document (message t)).
    + exists queued, pieces, fin. split; try done. cbn. destruct (document (message t)) as [d|]; [|done]. cbn in *. by rewrite app_nil_r.
  - left. split; try done; [by exists s| |].
    + destruct Hhd as (H1 & H2 & H3 & H4). repeat split; try done. cbn. unfold has_doc in *. cbn. by destruct (document (message t)).
    + exists queued, pieces, fin. split; try done. cbn. by destruct (document (message t)) as [d|].
  - unfold OnHttpStreamEvent. rewrite Hm. rewrite !(bool_decide_eq_false_2 (HM_SEND = HM_CONNECT)), !(bool_decide_eq_false_2 (HM_SEND = HM_RECV)), !andb_false_r by done.
    rewrite bool_decide_eq_true_2, andb_true_r by done. destruct (has events SE_WRITE); [by apply flush_data_sending|].
    destruct (has events SE_CLOSE); cbn [negb]; [|by left]. destruct (on_stream_close_sent t error Hm Hd Hlog) as (e & _ & He). right. by exists e.
  - unfold OnDocumentEvent. destruct (doc_connected t); cbn [negb]; [|by left]. rewrite Hm.
    rewrite (bool_decide_eq_false_2 (HM_SEND = HM_RECV)), (bool_decide_eq_true_2 (HM_SEND = HM_SEND)), andb_true_r, andb_false_r by done.
    destruct (has events SE_READ); [by apply flush_data_sending|]. destruct (has events SE_CLOSE); [|by left]. right. exists HE_STREAM. by apply do_complete_sent.
Qed.

Lemma exec_sent e t o : sent e t -> exists t', exec notify_ fuel t o = Ret t' /\ sent e t'.
Proof.
  intros Hs. pose proof Hs as [Hm Hco (closes & Hlog & Hcl) Ht].
  assert (Hdoc : forall g, sent e (doc_map g t)) by (intros g; split; try done; by exists closes).
  destruct o as [more plan|plan|more plan|plan|events error|events error]; cbn [exec].
  - eexists. split; [done|]. by apply sent_http.
  - eexists. split; [done|]. by apply sent_http.
  - eexists. by split.
  - eexists. by split.
  - unfold OnHttpStreamEvent. rewrite Hm. rewrite !(bool_decide_eq_false_2 (HM_NONE = _)), !andb_false_r by done.
    destruct (has events SE_CLOSE); cbn [negb]; [|by exists t]. eexists. split; [done|]. unfold on_stream_close.
    assert (Hmc : exists he, HandleStreamClose t error = (he, with_http t (Close <$> http_stream_ t))).
    { unfold HandleStreamClose. destruct (error =? 0); [by eexists|]. destruct (error =? _); [by eexists|]. destruct (error =? _); by eexists. }
    destruct Hmc as [he ->]. cbn [mode_ with_http]. rewrite Hm, decide_False by done. rewrite bool_decide_eq_true_2 by done. cbn [negb].
    rewrite notified_. destruct (sent_http e t Close Hs ltac:(done)) as [H1 H2 H3 H4]. split; try done.
    exists (closes ++ [onHttpClosed he]). cbn. rewrite Hlog, <- app_assoc. split; [done|]. apply Forall_app_2; [done|]. by apply List.Forall_cons.
  - unfold OnDocumentEvent. rewrite Hco. by exists t.
Qed.

Lemma run_send ops : forall t, send_ok t -> Forall send_op_ok ops -> send_result (run_ops notify_ fuel t ops).
Proof.
  induction ops as [|o ops IH]; intros t Hs Ho; [done|]. apply Forall_cons in Ho as [Ho Hos]. cbn [run_ops].
  assert (H : send_result (exec notify_ fuel t o)).
  { destruct Hs as [Hs|[e Hs]]; [by apply exec_sending|]. destruct (exec_sent e t o Hs) as (t' & -> & Hs'). right. by exists e. }
  destruct (exec notify_ fuel t o) as [t1| |]; cbn [bind]; [by apply IH|done..].
Qed.

(** send starts a session. *)
Lemma send_session t s : mode_ t = HM_NONE -> http_stream_ t = Some s -> state s = SS_OPEN -> written s = [] -> planned (writes s) = true -> no_eos (writes s) ->
  (plan_left (writes s) + length content < fuel)%nat -> log t = log0 ->
  match document m with Some d => unread d = content | None => content = [] end ->
  send_result (send notify_ fuel t m).
Proof.
  intros Hm Hh Hopen Hw Hpl Hst Hfu Hlog Hdoc. unfold send, isConnected. rewrite Hm, Hh, Hopen. rewrite bool_decide_eq_true_2 by done. cbn [negb].
  pose proof Hfits as Hf. unfold fits in Hf. apply andb_true_iff in Hf as [Hf1 Hf2]. apply andb_true_iff in Hf1 as [Hf0 Hf1]. apply Z.ltb_lt in Hf1.
  rewrite formatLeader_fits by (done || lia).
  match goal with |- context [put ?x (leader_text m)] => set (t1 := x) end.
  assert (Ht1 : buffer_ t1 = [] /\ mode_ t1 = HM_SEND /\ data_ t1 = true /\ http_stream_ t1 = Some s /\ log t1 = log0 /\ message t1 = m /\ chunk_data_ t1 = sends_chunks m).
  { unfold t1, sends_chunks. destruct (hasHeader m _) as [enc|], (document m); cbn; try (destruct (decide _) as [E|E]; [rewrite (bool_decide_eq_true_2 _ E)|rewrite (bool_decide_eq_false_2 _ E)]); done. }
  clearbody t1. destruct Ht1 as (Hb & Hm1 & Hd1 & Hh1 & Hl1 & Hmsg & Hch).
  assert (Hlen1 : len_ t1 = 0) by (unfold len_; by rewrite Hb).
  rewrite put_fits by lia. cbn [defined]. rewrite Hb. cbn [app]. set (t2 := with_buffer t1 (leader_text m)).
  assert (Hlen2 : len_ t2 = Z.of_nat (length (leader_text m))) by done.
  rewrite strcpyn_CRLF by lia. rewrite put_fits by (rewrite Hlen2; cbn; lia). cbn [defined]. set (t3 := with_buffer t2 (buffer_ t2 ++ CRLF)).
  assert (Hlen3 : len_ t3 = Z.of_nat (length (leader_text m)) + 2) by (unfold len_; cbn; rewrite length_app; cbn; lia).
  assert (Hstart : forall t' , mode_ t' = HM_SEND -> data_ t' = true -> http_stream_ t' = Some s -> log t' = log0 -> message t' = m -> chunk_data_ t' = sends_chunks m ->
    header_ t' = headers_ m -> buffer_ t' = leader_text m ++ CRLF ++ crlf_at_end (headers_ m) -> len_ t' <= kBufferSize -> sending t').
  { intros t' H1 H2 H3 H4 H5 H6 H7 H8 H9. split; try done; [by exists s|by rewrite H5|]. exists [], [], false. split; try done.
    - unfold written_http. rewrite H3, Hw, H8, H7. unfold text. cbn [app concat map]. do 2 f_equal. unfold crlf_at_end. destruct (headers_ m); [|done].
      unfold body_text. by destruct (sends_chunks m).
    - by rewrite H6, andb_true_r.
    - rewrite H5. unfold doc_state. destruct (document m) as [d|]; [|done]. by destruct Hdoc as [-> ?]. }
  destruct (headers_ m) as [|h hs] eqn:Ehs.
  - unfold queue_headers. cbn [with_header header_ queue_headers_loop]. change (len_ (with_header (with_header t3 []) [])) with (len_ t3).
    change (len_ (with_header t3 [])) with (len_ t3). rewrite strcpyn_CRLF by lia. rewrite put_fits by (change (len_ (with_header (with_header t3 []) [])) with (len_ t3); cbn; lia).
    cbn [defined]. apply flush_data_sending. apply Hstart; try done.
    + cbn [buffer_ with_buffer with_header t3 t2 crlf_at_end]. by rewrite <- app_assoc.
    + unfold len_ in *. cbn [buffer_ with_buffer with_header] in *. rewrite length_app. change (Z.of_nat (length (buffer_ t3)) = Z.of_nat (length (leader_text m)) + 2) in Hlen3. cbn [length CRLF]. unfold CRLF. cbn [length]. lia.
  - apply flush_data_sending. apply Hstart; try done. change (len_ (with_header t3 (h :: hs))) with (len_ t3). lia.
Qed.
End Sending.

(** Without a document, a stream that blocks is asked again and again. *)
Lemma flush_spins n notify_ t s l : http_stream_ t = Some s -> writes s = Planned [] -> document (message t) = None -> header_ t = [] ->
  buffer_ t = l -> l <> [] -> flush_loop notify_ n false t = Spins.
Proof.
  revert t s. induction n as [|n IH]; intros t s Hh Hw Hd He Hb Hl; [done|]. cbn [flush_loop]. unfold flush_headers, flush_document. rewrite He. cbn [defined]. rewrite Hd. cbn [defined].
  assert (Hz : (len_ t =? 0) = false) by (apply Z.eqb_neq; unfold len_; rewrite Hb; destruct l; [done|cbn; lia]). rewrite Hz, Hh. unfold Write. rewrite Hw. cbn [next]. by eapply IH.
Qed.
End HttpSend.
