(* ===== verification/HttpWire.v ===== *)
(** * base/httpbase.cc, base/httpcommon.cc: reading what was written

    The parser on the text of a message: it sees the first line, the headers
    and the body that the text was made from. *)

From stdpp Require Import list option.
From S2P Require Import Prelude StringEncode StringConv StreamIo HttpCommon HttpParser HttpBase HttpRecv HttpSend.
Open Scope jingle_scope.

Module HttpWire.
Import StreamIo StringConv HttpCommon HttpParser HttpBase HttpRecv HttpSend.

(** ** Numbers *)

Definition starts_with_digit (base : Z) (s : bytes) : bool :=
  match s with c :: _ => match StringEncode.digit_of base c with Some _ => true | None => false end | [] => false end.

Lemma strtoul_digits_app base ds vs rest acc : Forall2 (fun c v => StringEncode.digit_of base c = Some v) ds vs -> starts_with_digit base rest = false ->
  StringEncode.strtoul_digits base (ds ++ rest) acc = (fold_left (fun a v => a * base + v) vs acc, length ds).
Proof.
  intros Hf Hr. revert acc. induction Hf as [|c v ds vs Hc _ IH]; intros acc; cbn [app].
  - destruct rest as [|c rest]; [done|]. cbn in *. by destruct (StringEncode.digit_of base c).
  - cbn [StringEncode.strtoul_digits fold_left length]. by rewrite Hc, IH.
Qed.

(** A first digit is neither white space nor a sign. *)
Lemma digit_char base c v : StringEncode.digit_of base c = Some v -> is_space c = false /\ (c =? 45) = false /\ (c =? 43) = false /\ c <> 0 /\ c <> 10.
Proof.
  unfold StringEncode.digit_of. destruct (StringEncode.hex_decode c) as [h|] eqn:E; [|done]. intros _. assert (48 <= c).
  { unfold StringEncode.hex_decode in E. change (chr "0") with 48 in E. change (chr "9") with 57 in E. change (chr "A") with 65 in E. change (chr "a") with 97 in E.
    repeat (case_match; simplify_eq); bool_simpl; lia. }
  assert (Hsp : is_space c = false).
  { unfold is_space. apply orb_false_iff. split; [apply Z.eqb_neq; lia|]. apply andb_false_iff. right. apply Z.leb_gt. lia. }
  split; [done|]. split; [apply Z.eqb_neq; lia|]. split; [apply Z.eqb_neq; lia|]. lia.
Qed.

Lemma strtoul_app base d ds v vs rest : Forall2 (fun c v => StringEncode.digit_of base c = Some v) (d :: ds) (v :: vs) -> starts_with_digit base rest = false ->
  (base =? 16) && (match ds ++ rest with x :: _ => (x =? 120) || (x =? 88) | [] => false end) = false ->
  0 <= fold_left (fun a v => a * base + v) (v :: vs) 0 < 2 ^ 64 ->
  StringEncode.strtoul base ((d :: ds) ++ rest) = (fold_left (fun a v => a * base + v) (v :: vs) 0, length (d :: ds)).
Proof.
  intros Hf Hr Hx Hv. assert (Hd : StringEncode.digit_of base d = Some v) by (by apply Forall2_cons in Hf as [? _]).
  destruct (digit_char _ _ _ Hd) as (H1 & H2 & H3 & _). unfold StringEncode.strtoul. cbn [app StringEncode.strtoul_spaces].
  change (StringEncode.isspace d) with (is_space d). rewrite H1. cbn [drop]. change (chr "-") with 45. change (chr "+") with 43. rewrite H2, H3. cbn [drop].
  set (pre := match ds ++ rest with [] => 0%nat | _ => _ end).
  assert (Hpre : pre = 0%nat).
  { unfold pre. destruct (ds ++ rest) as [|x [|y l]]; [done|done|]. destruct (base =? 16); [|done]. cbn [andb] in *.
    change (chr "x") with 120. change (chr "X") with 88. rewrite Hx. by rewrite andb_false_r. }
  rewrite Hpre. cbn [drop]. change (d :: ds ++ rest) with ((d :: ds) ++ rest). rewrite (strtoul_digits_app _ _ _ _ _ Hf Hr).
  cbn [length Nat.eqb]. rewrite (proj2 (Z.leb_gt _ _)) by lia. done.
Qed.

(** The hexadecimal length of a chunk. *)
Definition hex_digits : list Z := [0; 1; 2; 3; 4; 5; 6; 7; 8; 9; 10; 11; 12; 13; 14; 15].
Lemma hex_encode_digit d : 0 <= d < 16 ->
  StringEncode.digit_of 16 (StringEncode.hex_encode d) = Some d /\ (StringEncode.hex_encode d =? 120) || (StringEncode.hex_encode d =? 88) = false.
Proof.
  intros H. assert (Hall : forallb (fun d => bool_decide (StringEncode.digit_of 16 (StringEncode.hex_encode d) = Some d) &&
    negb ((StringEncode.hex_encode d =? 120) || (StringEncode.hex_encode d =? 88))) hex_digits = true) by (vm_compute; reflexivity).
  assert (Hin : In d hex_digits).
  { unfold hex_digits. assert (d = 0 \/ d = 1 \/ d = 2 \/ d = 3 \/ d = 4 \/ d = 5 \/ d = 6 \/ d = 7 \/ d = 8 \/ d = 9 \/ d = 10 \/ d = 11 \/ d = 12 \/ d = 13 \/ d = 14 \/ d = 15) by lia.
    cbn. intuition. }
  rewrite forallb_forall in Hall. apply Hall, andb_true_iff in Hin as [H1 H2].
  apply bool_decide_eq_true in H1. by apply negb_true_iff in H2.
Qed.

Definition hex_vals (n : Z) : list Z := map (fun k => Z.land (Z.shiftr n (4 * k)) 15) [7; 6; 5; 4; 3; 2; 1; 0].
Lemma nibble n k : 0 <= n -> 0 <= k -> Z.land (Z.shiftr n (4 * k)) 15 = n / 2 ^ (4 * k) mod 16.
Proof. intros Hn Hk. rewrite Z.shiftr_div_pow2 by lia. change 15 with (Z.ones 4). rewrite Z.land_ones by lia. done. Qed.
Lemma hex_vals_value n : 0 <= n < 2 ^ 32 -> fold_left (fun a v => a * 16 + v) (hex_vals n) 0 = n.
Proof.
  intros Hn. unfold hex_vals. cbn [map fold_left]. rewrite !nibble by lia.
  change (4 * 7) with 28. change (4 * 6) with 24. change (4 * 5) with 20. change (4 * 4) with 16. change (4 * 3) with 12. change (4 * 2) with 8. change (4 * 1) with 4. change (4 * 0) with 0.
  assert (Hs : forall k, 0 <= k -> n / 2 ^ k = 16 * (n / 2 ^ (k + 4)) + n / 2 ^ k mod 16).
  { intros k Hk. rewrite Z.pow_add_r, <- Z.div_div by lia. change (2 ^ 4) with 16. apply Z.div_mod. lia. }
  pose proof (Hs 0 ltac:(lia)) as H0. pose proof (Hs 4 ltac:(lia)) as H1. pose proof (Hs 8 ltac:(lia)) as H2. pose proof (Hs 12 ltac:(lia)) as H3.
  pose proof (Hs 16 ltac:(lia)) as H4. pose proof (Hs 20 ltac:(lia)) as H5. pose proof (Hs 24 ltac:(lia)) as H6. pose proof (Hs 28 ltac:(lia)) as H7.
  change (28 + 4) with 32 in H7. rewrite (Z.div_small n (2 ^ 32)) in H7 by lia. change (2 ^ 0) with 1 in *. rewrite Z.div_1_r in *.
  change (0 + 4) with 4 in H0. change (4 + 4) with 8 in H1. change (8 + 4) with 12 in H2. change (12 + 4) with 16 in H3.
  change (16 + 4) with 20 in H4. change (20 + 4) with 24 in H5. change (24 + 4) with 28 in H6. lia.
Qed.
Lemma strtoul_hex8 n : 0 <= n < 2 ^ 32 -> StringEncode.strtoul 16 (hex8 n) = (n, 8%nat).
Proof.
  intros Hn. assert (Hd : forall k, 0 <= k -> 0 <= Z.land (Z.shiftr n (4 * k)) 15 < 16).
  { intros k Hk. rewrite nibble by lia. apply Z.mod_pos_bound. lia. }
  assert (Hf : Forall2 (fun c v => StringEncode.digit_of 16 c = Some v) (hex8 n) (hex_vals n)).
  { unfold hex8, hex_vals. cbn [map]. repeat (constructor; [apply hex_encode_digit, Hd; lia|]). constructor. }
  rewrite <- (app_nil_r (hex8 n)). assert (Hv := hex_vals_value n Hn). unfold hex8, hex_vals in *. cbn [map] in *.
  rewrite (strtoul_app 16 _ _ _ _ [] Hf); [by rewrite Hv|done| |rewrite Hv; lia].
  cbn [app andb Z.eqb Pos.eqb]. apply hex_encode_digit, Hd. lia.
Qed.

Lemma digit_of_10 c : is_digit c = true -> StringEncode.digit_of 10 c = Some (c - 48).
Proof.
  unfold is_digit. intros H. bool_simpl. unfold StringEncode.digit_of, StringEncode.hex_decode.
  change (chr "0") with 48. change (chr "9") with 57. rewrite !(proj2 (Z.leb_le _ _)) by lia. cbn [andb]. by rewrite (proj2 (Z.ltb_lt _ _)) by lia.
Qed.
Lemma dval_nonneg l : forall n, 0 <= n -> Forall (fun c => is_digit c = true) l -> 0 <= dval l n.
Proof.
  induction l as [|c l IH]; intros n Hn Hl; [done|]. apply Forall_cons in Hl as [Hc Hl]. cbn. apply IH; [|done]. unfold is_digit in Hc. bool_simpl. lia.
Qed.

(** "%u" on a decimal numeral. *)
Lemma scan_u_digits l rest : l <> [] -> Forall (fun c => is_digit c = true) l -> starts_with_digit 10 rest = false -> dval l 0 < 2 ^ 64 ->
  scan_u (l ++ rest) = Some (dval l 0 mod 2 ^ 32, rest).
Proof.
  intros Hne Hl Hr Hv. destruct l as [|d ds]; [done|].
  assert (Hf : Forall2 (fun c v => StringEncode.digit_of 10 c = Some v) (d :: ds) (map (fun c => c - 48) (d :: ds))).
  { clear -Hl. revert Hl. generalize (d :: ds). intros l. induction l as [|c l IH]; intros Hl; [constructor|]. apply Forall_cons in Hl as [Hc Hl].
    constructor; [by apply digit_of_10|by apply IH]. }
  assert (Hd : forall l n, fold_left (fun a v => a * 10 + v) (map (fun c => c - 48) l) n = dval l n).
  { clear. induction l as [|c l IH]; intros n; [done|]. cbn. rewrite IH. f_equal. lia. }
  unfold scan_u. cbn [map] in Hf. rewrite (strtoul_app 10 _ _ _ _ rest Hf Hr); [|done|].
  - change (d - 48 :: map (fun c => c - 48) ds) with (map (fun c => c - 48) (d :: ds)). rewrite Hd. cbn [length Nat.eqb]. f_equal. f_equal.
    change (S (length ds)) with (length (d :: ds)). by rewrite drop_app_length.
  - change (d - 48 :: map (fun c => c - 48) ds) with (map (fun c => c - 48) (d :: ds)). rewrite Hd. split; [by apply dval_nonneg|done].
Qed.
Lemma scan_u_ulong n rest : 0 <= n < 2 ^ 32 -> starts_with_digit 10 rest = false -> scan_u (format_ulong n ++ rest) = Some (n, rest).
Proof.
  intros Hn Hr. destruct (digits_spec 20 n) as (H1 & H2 & H3); [lia..|]. unfold format_ulong. rewrite scan_u_digits; [|by destruct (digits 20 n [])|done|done|].
  - rewrite H3, Z.mul_0_l, Z.add_0_l, Z.mod_small by lia. done.
  - rewrite H3. lia.
Qed.

(** ** Strings without NUL, and white space at the ends *)

Definition clean (s : bytes) : bool := forallb (fun c => negb (c =? 0) && negb (c =? 10)) s.
Definition tight (s : bytes) : bool := bool_decide (skip_space s = s) && bool_decide (trim_right s = s).

Lemma c_str_clean s : forallb (fun c => negb (c =? 0)) s = true -> c_str s = s.
Proof. induction s as [|c s IH]; [done|]. cbn. intros [Hc Hs]%andb_true_iff. apply negb_true_iff in Hc. by rewrite Hc, IH. Qed.
Lemma clean_nul s : clean s = true -> forallb (fun c => negb (c =? 0)) s = true.
Proof. unfold clean. rewrite !forallb_forall. intros H c Hc. by apply H, andb_true_iff in Hc as [? _]. Qed.
Lemma clean_line s : clean s = true -> ~ In 10 s.
Proof. unfold clean. rewrite forallb_forall. intros H Hin. by apply H, andb_true_iff in Hin as [_ ?]. Qed.

Lemma skip_space_fix s : skip_space s = s -> forall c r, s = c :: r -> is_space c = false.
Proof.
  intros H c r ->. cbn in H. destruct (is_space c); [|done]. exfalso.
  assert (Hl : forall l, (length (skip_space l) <= length l)%nat) by (intros l; induction l as [|x l IH]; [done|]; cbn; destruct (is_space x); cbn; lia).
  specialize (Hl r). rewrite H in Hl. cbn in Hl. lia.
Qed.
Lemma trim_right_app p v : v <> [] -> trim_right v = v -> trim_right (p ++ v ++ [13]) = p ++ v.
Proof.
  intros Hne Hv. unfold trim_right in *. rewrite !rev_app_distr. cbn [rev app]. cbn [skip_space]. change (is_space 13) with true. cbn iota.
  apply (f_equal (@rev Z)) in Hv. rewrite rev_involutive in Hv. destruct (rev v) as [|c r] eqn:E.
  { apply (f_equal (@rev Z)) in E. by rewrite rev_involutive in E. }
  pose proof (skip_space_fix _ Hv c r eq_refl) as Hc. cbn [app skip_space]. rewrite Hc. rewrite app_comm_cons, <- E, rev_app_distr, !rev_involutive. done.
Qed.
Lemma trim_right_single p c : is_space c = false -> trim_right (p ++ [c; 13]) = p ++ [c].
Proof. intros Hc. apply (trim_right_app p [c]); [done|]. unfold trim_right. cbn. by rewrite Hc. Qed.
Lemma trim_right_CR p : trim_right p = p -> trim_right (p ++ [13]) = p.
Proof. intros H. destruct p as [|c p]; [done|]. by apply (trim_right_app [] (c :: p)). Qed.

Lemma word_app w rest : forallb (fun c => negb (is_space c)) w = true -> (forall c r, rest = c :: r -> is_space c = true) -> word (w ++ rest) = (w, rest).
Proof.
  intros Hw Hr. induction w as [|c w IH]; cbn [app].
  - destruct rest as [|c r]; [done|]. cbn. by rewrite (Hr c r).
  - cbn in *. apply andb_true_iff in Hw as [Hc Hw]. apply negb_true_iff in Hc. by rewrite Hc, IH.
Qed.

(** ** The first line *)

Definition wf_leader (v : HttpVersion) (l : leader_data) : bool :=
  negb (bool_decide (v = HVER_UNKNOWN)) &&
  match l with
  | Request _ path => negb (bool_decide (path = [])) && forallb (fun c => negb (is_space c)) path && forallb (fun c => negb (c =? 0)) path
  | Response scode message => (0 <=? scode) && (scode <? 2 ^ 32) && clean message && tight message
  end.

Lemma scan_version_ok v rest : v <> HVER_UNKNOWN -> starts_with_digit 10 rest = false ->
  scan_version (ToString v ++ rest) = Some (1, match v with HVER_1_0 => 0 | _ => 1 end, rest).
Proof.
  intros Hv Hr. unfold scan_version. assert (H : forall d, is_digit d = true -> dval [d] 0 < 2 ^ 64 -> 
    (let? (vmajor, s) := scan_u ([49] ++ [46] ++ [d] ++ rest) in let? s := scan_literal (str ".") s in let? (vminor, s) := scan_u s in Some (vmajor, vminor, s))
    = Some (1, dval [d] 0 mod 2 ^ 32, rest)).
  { intros d Hd Hdv. rewrite (scan_u_digits [49]) by (done || by repeat constructor). change (dval [49] 0 mod 2 ^ 32) with 1. cbn [app scan_literal str]. change (chr "." =? 46) with true. cbn iota.
    pose proof (scan_u_digits [d] rest ltac:(done) ltac:(by apply List.Forall_cons; [|apply List.Forall_nil]) Hr Hdv) as E. cbn [app] in E. by rewrite E. }
  destruct v; [exact (H 48 eq_refl eq_refl)|exact (H 49 eq_refl eq_refl)|done].
Qed.

Lemma word_path path : path <> [] -> forallb (fun c => negb (is_space c)) path = true ->
  forall rest, (forall c r, rest = c :: r -> is_space c = true) -> forall sp, skip_space sp = [] -> scan_word (sp ++ path ++ rest) = Some (path, rest).
Proof.
  intros Hne Hp rest Hr sp Hsp. unfold scan_word. assert (Hs : skip_space (sp ++ path ++ rest) = path ++ rest).
  { induction sp as [|c sp IH]; cbn in *.
    - destruct path as [|c path]; [done|]. cbn in *. apply andb_true_iff in Hp as [Hc _]. apply negb_true_iff in Hc. by rewrite Hc.
    - destruct (is_space c); [by apply IH|done]. }
  rewrite Hs, word_app by done. by destruct path.
Qed.

Lemma verb_text (verb : HttpVerb) : ToString verb <> [] /\ forallb (fun c => negb (is_space c)) (ToString verb) = true /\
  forallb (fun c => negb (c =? 0)) (ToString verb) = true /\ FromString (ToString verb) = Some verb.
Proof. by destruct verb. Qed.

Lemma parse_request_text d v verb path : wf_leader v (Request verb path) = true ->
  parse_request d (ToString verb ++ str " " ++ path ++ str " HTTP/" ++ ToString v) = (HE_NONE, with_leader d v (Request verb path)).
Proof.
  intros H. cbn in H. apply andb_true_iff in H as [Hv H]. apply andb_true_iff in H as [H Hnul]. apply andb_true_iff in H as [Hne Hsp].
  apply negb_true_iff, bool_decide_eq_false in Hv, Hne. destruct (verb_text verb) as (V1 & V2 & V3 & V4).
  unfold parse_request. rewrite c_str_clean.
  2:{ rewrite !forallb_app, V3, Hnul. cbn. by destruct v. }
  assert (Hrest : forall c r, str " " ++ path ++ str " HTTP/" ++ ToString v = c :: r -> is_space c = true) by (by intros c r [= <- _]).
  assert (Hscan : scan_request (ToString verb ++ str " " ++ path ++ str " HTTP/" ++ ToString v) = Some (ToString verb, path, 1, match v with HVER_1_0 => 0 | _ => 1 end)).
  { unfold scan_request. pose proof (word_path (ToString verb) V1 V2 _ Hrest [] eq_refl) as E1. cbn [app] in E1. rewrite E1. clear E1.
    rewrite length_app. replace (_ + _ - _)%nat with (length (ToString verb)) by lia. rewrite take_app_length.
    pose proof (word_path path Hne Hsp (str " HTTP/" ++ ToString v) ltac:(by intros c r [= <- _]) (str " ") eq_refl) as E2. rewrite E2. clear E2.
    change (scan_literal (str "HTTP/") (skip_space (str " HTTP/" ++ ToString v))) with (Some (ToString v)).
    rewrite <- (app_nil_r (ToString v)), scan_version_ok by done. done. }
  rewrite Hscan. change (negb (1 =? 1)) with false. cbn iota. rewrite V4. by destruct v.
Qed.

Lemma digits_not_empty n : 0 <= n < 2 ^ 32 -> exists l c, format_ulong n = l ++ [c] /\ is_space c = false /\ Forall (fun c => is_digit c = true) (format_ulong n).
Proof.
  intros Hn. destruct (digits_spec 20 n) as (H1 & H2 & _); [lia..|]. unfold format_ulong.
  destruct (exists_last (l := digits 20 n [])) as (l & c & E); [by destruct (digits 20 n [])|]. exists l, c. split; [done|]. split; [|done].
  rewrite E in H1. apply Forall_app in H1 as [_ H1]. apply Forall_cons in H1 as [Hc _]. by eapply digit_char, digit_of_10.
Qed.

Lemma parse_response_text d v scode message : wf_leader v (Response scode message) = true ->
  parse_response d (str "HTTP/" ++ ToString v ++ str " " ++ format_ulong scode ++ (if decide (message = []) then [] else str " " ++ message))
  = (HE_NONE, with_leader d v (Response scode message)).
Proof.
  intros H. cbn in H. apply andb_true_iff in H as [Hv H]. apply andb_true_iff in H as [H Ht]. apply andb_true_iff in H as [H Hcl].
  apply andb_true_iff in H as [H0 H1]. apply Z.leb_le in H0. apply Z.ltb_lt in H1. apply negb_true_iff, bool_decide_eq_false in Hv.
  unfold tight in Ht. apply andb_true_iff in Ht as [Ht _]. apply bool_decide_eq_true in Ht.
  set (tail := if decide (message = []) then [] else str " " ++ message).
  assert (Htail : starts_with_digit 10 tail = false /\ skip_space tail = message /\ forallb (fun c => negb (c =? 0)) tail = true).
  { unfold tail. destruct (decide (message = [])) as [->|Hne]; [done|]. split; [done|]. split; [exact Ht|]. cbn. by apply clean_nul. }
  destruct Htail as (T1 & T2 & T3). clearbody tail. destruct (digits_not_empty scode) as (dl & dc & _ & _ & Hdig); [lia|].
  assert (Hnul : forallb (fun c => negb (c =? 0)) (format_ulong scode) = true).
  { apply forallb_forall. intros c Hc. rewrite List.Forall_forall in Hdig. specialize (Hdig c Hc). apply digit_of_10, digit_char in Hdig as (_ & _ & _ & Hx & _). by apply negb_true_iff, Z.eqb_neq. }
  unfold parse_response. set (line := str "HTTP/" ++ _). assert (Hc : c_str line = line).
  { apply c_str_clean. unfold line. rewrite !forallb_app, Hnul, T3. by destruct v. }
  rewrite Hc. assert (Hstat : scan_status line = None) by (unfold line; by destruct v).
  assert (Hresp : scan_response line = Some (1, match v with HVER_1_0 => 0 | _ => 1 end, scode, tail)).
  { unfold scan_response, line. change (scan_literal (str "HTTP/") (str "HTTP/" ++ ?x)) with (Some x).
    cbn iota. rewrite scan_version_ok by done. cbn iota. change (skip_space (str " " ++ ?x)) with (skip_space x).
    assert (Hsk : skip_space (format_ulong scode ++ tail) = format_ulong scode ++ tail).
    { destruct (digits_spec 20 scode) as (D1 & D2 & _); [lia..|]. unfold format_ulong. destruct (digits 20 scode []) as [|c r]; [done|].
      apply Forall_cons in D1 as [D1 _]. apply digit_of_10, digit_char in D1 as (D1 & _). cbn. by rewrite D1. }
    rewrite Hsk, scan_u_ulong by (done || lia). done. }
  rewrite Hstat, Hresp. change (negb (1 =? 1)) with false. cbn iota.
  assert (Hdrop : drop (length line - length tail) line = tail).
  { unfold line. rewrite !app_assoc. rewrite length_app. replace (_ + _ - _)%nat with (length (((str "HTTP/" ++ ToString v) ++ str " ") ++ format_ulong scode)) by lia. apply drop_app_length. }
  rewrite Hdrop, T2. by destruct v.
Qed.

Definition same_kind (l l' : leader_data) : bool :=
  match l, l' with Request _ _, Request _ _ | Response _ _, Response _ _ => true | _, _ => false end.

Lemma parse_leader_text m v0 l0 h d : wf_leader (version m) (leader m) = true -> same_kind l0 (leader m) = true ->
  parseLeader (mkHttpData v0 l0 h d) (leader_text m) = (HE_NONE, mkHttpData (version m) (leader m) h d).
Proof.
  intros Hwf Hk. unfold parseLeader, leader_text. cbn [leader]. destruct l0 as [verb0 path0|scode0 message0], (leader m) as [verb path|scode message] eqn:El; try done.
  - pose proof Hwf as Hn. cbn in Hn. apply andb_true_iff in Hn as [_ Hn]. apply andb_true_iff in Hn as [_ Hn]. rewrite (c_str_clean path Hn).
    by rewrite parse_request_text.
  - pose proof Hwf as Hn. cbn in Hn. apply andb_true_iff in Hn as [_ Hn]. apply andb_true_iff in Hn as [Hn _]. apply andb_true_iff in Hn as [_ Hn].
    rewrite (c_str_clean message) by (by apply clean_nul). by rewrite parse_response_text.
Qed.

Lemma not_in_app {A} (x : A) l k : ~ In x l -> ~ In x k -> ~ In x (l ++ k).
Proof. intros H1 H2 [H|H]%in_app_or; auto. Qed.
Lemma verb_line (verb : HttpVerb) : ~ In 10 (ToString verb).
Proof. destruct verb; cbn; intuition discriminate. Qed.
Lemma version_text v : v <> HVER_UNKNOWN -> ~ In 10 (ToString v) /\ exists l c, ToString v = l ++ [c] /\ is_space c = false.
Proof.
  destruct v; intros H; try done; (split; [cbn; intuition discriminate|]);
    [by exists (str "1."), 48|by exists (str "1."), 49].
Qed.

(** The first line has no line end in it and no white space at its end. *)
Lemma leader_text_line m : wf_leader (version m) (leader m) = true -> ~ In 10 (leader_text m) /\ trim_right (leader_text m ++ [13]) = leader_text m.
Proof.
  intros Hwf. unfold leader_text. unfold wf_leader in Hwf. apply andb_true_iff in Hwf as [Hv Hwf]. apply negb_true_iff, bool_decide_eq_false in Hv.
  destruct (version_text _ Hv) as (V1 & vl & vc & V2 & V3). destruct (leader m) as [verb path|scode message].
  - apply andb_true_iff in Hwf as [Hwf Hnul]. apply andb_true_iff in Hwf as [_ Hsp]. rewrite c_str_clean by done. split.
    + assert (~ In 10 path) by (rewrite forallb_forall in Hsp; intros Hin; by specialize (Hsp 10 Hin)).
      apply not_in_app; [apply verb_line|]. apply not_in_app; [cbn; intuition discriminate|].
      apply not_in_app; [done|]. apply not_in_app; [cbn; intuition discriminate|done].
    + rewrite V2, !app_assoc. rewrite <- (app_assoc _ [vc] [13]). by apply trim_right_single.
  - apply andb_true_iff in Hwf as [Hwf Ht]. apply andb_true_iff in Hwf as [Hwf Hcl]. apply andb_true_iff in Hwf as [H0 H1]. apply Z.leb_le in H0. apply Z.ltb_lt in H1.
    destruct (digits_not_empty scode) as (dl & dc & D1 & D2 & D3); [lia|]. rewrite c_str_clean by (by apply clean_nul).
    assert (~ In 10 (format_ulong scode)). { intros Hin. rewrite List.Forall_forall in D3. by specialize (D3 10 Hin). }
    unfold tight in Ht. apply andb_true_iff in Ht as [_ Ht]. apply bool_decide_eq_true in Ht. destruct (decide (message = [])) as [E|Hne]; split.
    + rewrite app_nil_r. apply not_in_app; [cbn; intuition discriminate|]. apply not_in_app; [done|]. apply not_in_app; [cbn; intuition discriminate|done].
    + rewrite app_nil_r, D1, !app_assoc. rewrite <- (app_assoc _ [dc] [13]). by apply trim_right_single.
    + apply not_in_app; [cbn; intuition discriminate|]. apply not_in_app; [done|]. apply not_in_app; [cbn; intuition discriminate|].
      apply not_in_app; [done|]. apply not_in_app; [cbn; intuition discriminate|]. by apply clean_line.
    + rewrite !app_assoc. rewrite <- (app_assoc _ message [13]). by apply trim_right_app.
Qed.

(** ** The headers *)

Definition wf_header (h : bytes * bytes) : bool :=
  clean h.1 && forallb (fun c => negb (c =? 58)) h.1 && clean h.2 && tight h.2.

Lemma split_colon_app n v : forallb (fun c => negb (c =? 0)) n = true -> forallb (fun c => negb (c =? 58)) n = true ->
  split_colon (n ++ 58 :: v) = Some (n, v).
Proof.
  intros Hn Hc. induction n as [|c n IH]; [done|]. cbn [app forallb] in *. apply andb_true_iff in Hn as [N1 N2]. apply andb_true_iff in Hc as [C1 C2].
  apply negb_true_iff in N1, C1. cbn [split_colon]. change (chr ":") with 58. rewrite C1, N1, IH by done. done.
Qed.

(** A header line, once its end has been trimmed. *)
Lemma header_line_read h : wf_header h = true ->
  exists line rest, header_line h = (line ++ [13]) ++ [10] /\ ~ In 10 (line ++ [13]) /\
    trim_right (line ++ [13]) <> [] /\ split_colon (trim_right (line ++ [13])) = Some (h.1, rest) /\ skip_space rest = h.2.
Proof.
  destruct h as [n v]. unfold wf_header. cbn [fst snd]. intros H. apply andb_true_iff in H as [H Ht]. apply andb_true_iff in H as [H Hv].
  apply andb_true_iff in H as [Hn Hc]. unfold tight in Ht. apply andb_true_iff in Ht as [T1 T2]. apply bool_decide_eq_true in T1, T2.
  exists (n ++ [58; 32] ++ v), (match v with [] => [] | _ => 32 :: v end).
  unfold header_line. cbn [fst snd]. rewrite (c_str_clean n) by (by apply clean_nul). rewrite (c_str_clean v) by (by apply clean_nul).
  split; [by rewrite <- !app_assoc|]. split.
  { repeat apply not_in_app; try (by apply clean_line); cbn; intuition discriminate. }
  destruct v as [|c v].
  - assert (E : trim_right ((n ++ [58; 32] ++ []) ++ [13]) = n ++ [58]).
    { rewrite app_nil_r, <- app_assoc. unfold trim_right. rewrite !rev_app_distr. cbn [rev app skip_space]. change (is_space 13) with true. change (is_space 32) with true.
      change (is_space 58) with false. cbn [app rev]. by rewrite rev_involutive. }
    rewrite E. split; [by destruct n|]. split; [|done]. apply split_colon_app; [by apply clean_nul|done].
  - assert (E : trim_right ((n ++ [58; 32] ++ c :: v) ++ [13]) = n ++ 58 :: 32 :: c :: v).
    { rewrite app_assoc, <- (app_assoc _ (c :: v) [13]). rewrite trim_right_app by done. by rewrite <- app_assoc. }
    rewrite E. split; [by destruct n|]. split; [apply split_colon_app; [by apply clean_nul|done]|]. cbn [skip_space]. by change (is_space 32) with true.
Qed.

(** Adding the headers of a map one after the other makes the map: each goes
    behind those before it, and none is joined to one of them. *)
Definition appends (pre : HeaderMap) (h : bytes * bytes) : bool :=
  forallb (fun e => negb (iless h.1 e.1)) pre && (negb (collapsible h.1) || forallb (fun e => negb (stricmp_eq e.1 h.1)) pre).
Fixpoint map_ok (pre hs : HeaderMap) : bool :=
  match hs with [] => true | h :: hs => appends pre h && map_ok (pre ++ [h]) hs end.

Lemma addHeader_appends d h : appends (headers_ d) h = true -> addHeader d h.1 h.2 = with_headers d (headers_ d ++ [h]).
Proof.
  unfold appends. intros H. apply andb_true_iff in H as [H1 H2].
  assert (Hins : hm_insert (headers_ d) h.1 h.2 = headers_ d ++ [h]).
  { clear H2. induction (headers_ d) as [|e m IH]; [by destruct h|]. cbn in *. apply andb_true_iff in H1 as [He Hm]. apply negb_true_iff in He. by rewrite He, IH. }
  unfold addHeader, changeHeader. destruct (collapsible h.1) eqn:Ec; cbn [negb orb] in H2.
  - rewrite decide_False by done. assert (Hf : hm_find (headers_ d) h.1 = None).
    { unfold hm_find. clear -H2. induction (headers_ d) as [|e m IH]; [done|]. cbn in *. apply andb_true_iff in H2 as [He Hm]. apply negb_true_iff in He. by rewrite He, IH. }
    by rewrite Hf, Hins.
  - rewrite decide_True by done. by rewrite Hins.
Qed.

(** ** The parser on the text *)

(** What the parser makes of the headers it looks at. *)
Fixpoint note_headers (p : parser) (hs : HeaderMap) : option parser :=
  match hs with [] => Some p | h :: hs => let? p := note_header p h.1 h.2 in note_headers p hs end.

Definition with_s_headers (a : seen) (hs : HeaderMap) : seen := mkSeen (s_version a) (s_leader a) hs (s_doc a) (s_ignore a) (s_body a).

Section Text.
Context (notify_ : option notify).
Abbreviation feeds := (@HttpParser.feeds seen (seen_handler notify_) (seen_reference notify_)).
Abbreviation ProcessLine := (@HttpParser.ProcessLine seen (seen_handler notify_)).

Lemma feed_line p (a : seen) l : before_data p = true -> ~ In 10 l ->
  feeds (Running p [] a) (l ++ [10]) =
    let '(res, e, p, a) := ProcessLine p a (trim_right l) in
    if decide (res = PR_COMPLETE) then Done e a else settle p a.
Proof. apply feeds_line. Qed.

Lemma note_header_state p n v p' : note_header p n v = Some p' -> state_ p' = state_ p.
Proof. unfold note_header. intros E. by repeat (case_match; simplify_eq). Qed.

Lemma feed_header p a h p' : state_ p = ST_HEADERS -> wf_header h = true -> note_header p h.1 h.2 = Some p' -> appends (s_headers a) h = true ->
  feeds (Running p [] a) (header_line h) = Running p' [] (with_s_headers a (s_headers a ++ [h])).
Proof.
  intros Hst Hwf Hp Happ. destruct (header_line_read h Hwf) as (line & rest & -> & Hn & Hne & Hsplit & Hsk).
  assert (Hb : before_data p = true) by (unfold before_data; by rewrite Hst). rewrite feed_line by done.
  unfold HttpParser.ProcessLine. rewrite Hst. destruct (trim_right (line ++ [13])) as [|c l] eqn:Et; [done|].
  rewrite Hsplit, Hsk, Hp. cbn [ProcessHeader seen_handler]. unfold ref_header.
  rewrite (addHeader_appends (head a) h Happ). cbn [headers_ with_headers head].
  rewrite decide_False by done. unfold settle, before_data. by rewrite (note_header_state _ _ _ _ Hp), Hst.
Qed.

(** The end of the headers. *)
Definition after_headers (p : parser) (size : Z) : parser := set_data_size (set_state p (if chunked_ p then ST_CHUNKSIZE else ST_DATA)) size.
Lemma feed_end_of_headers p a size a' : state_ p = ST_HEADERS -> ref_complete notify_ a (chunked_ p) (data_size_ p) = (PR_CONTINUE, HE_NONE, size, a') ->
  feeds (Running p [] a) CRLF = settle (after_headers p size) a'.
Proof.
  intros Hst Hc. assert (Hb : before_data p = true) by (unfold before_data; by rewrite Hst).
  assert (Hn : ~ In 10 [13]) by (cbn; intuition discriminate). pose proof (feed_line p a [13] Hb Hn) as E. change ([13] ++ [10]) with CRLF in E.
  rewrite E. change (trim_right [13]) with (@nil Z).
  unfold HttpParser.ProcessLine. rewrite Hst. cbn [ProcessHeaderComplete seen_handler]. replace (chunked_ (set_state p _)) with (chunked_ p) by done.
  replace (data_size_ (set_state p _)) with (data_size_ p) by done. rewrite Hc. by rewrite decide_False by done.
Qed.

(** ** The body *)

Definition chunk_ready (p : parser) : Prop := state_ p = ST_CHUNKSIZE /\ chunked_ p = true.

Lemma feed_chunk_size p a n : chunk_ready p -> 0 < n < 2 ^ 32 ->
  feeds (Running p [] a) (hex8 n ++ CRLF) = Running (set_state (set_data_size p n) ST_DATA) [] a.
Proof.
  intros [Hst Hch] Hn. assert (Hb : before_data p = true) by (unfold before_data; by rewrite Hst).
  assert (Hd : forall k, 0 <= k -> 0 <= Z.land (Z.shiftr n (4 * k)) 15 < 16).
  { intros k Hk. rewrite nibble by lia. apply Z.mod_pos_bound. lia. }
  assert (Hc : forall c, In c (hex8 n) -> is_space c = false /\ c <> 10).
  { intros c Hin. unfold hex8 in Hin. apply in_map_iff in Hin as (k & <- & Hk). destruct (hex_encode_digit (Z.land (Z.shiftr n (4 * k)) 15)) as [Hdig _].
    { apply Hd. cbn in Hk. intuition lia. }
    apply digit_char in Hdig. tauto. }
  unfold CRLF. change [13; 10] with ([13] ++ [10]). rewrite app_assoc, feed_line; [|done|].
  2:{ apply not_in_app; [|cbn; intuition discriminate]. intros Hin. by apply Hc in Hin as [_ ?]. }
  rewrite trim_right_CR.
  2:{ unfold trim_right. assert (E : skip_space (rev (hex8 n)) = rev (hex8 n)).
      { destruct (rev (hex8 n)) as [|c r] eqn:E; [done|]. cbn. destruct (Hc c) as [-> _]; [|done]. apply in_rev. rewrite E. by left. }
      by rewrite E, rev_involutive. }
  unfold HttpParser.ProcessLine. rewrite Hst. rewrite strtoul_hex8 by lia. rewrite hex8_length. cbn [Nat.eqb negb].
  rewrite (proj2 (Z.eqb_neq n 0)) by lia. destruct (hex8 n) eqn:E; [by apply (f_equal length) in E|].
  rewrite decide_False by done. unfold settle. cbn [before_data state_ set_state data_size_ set_data_size negb andb]. by rewrite (proj2 (Z.eqb_neq n 0)) by lia.
Qed.

(** ... is read without a line that is too long for the buffer: from any
    point between two lines there is an end of line within the buffer. *)
Definition no_overflow (r : run seen) (w : bytes) : Prop :=
  forall used rest p a, w = used ++ rest -> feeds r used = Running p [] a -> before_data p = true -> rest <> [] -> In 10 (take (Z.to_nat kBufferSize) rest).
Definition parses (r : run seen) (w : bytes) (r' : run seen) : Prop := feeds r w = r' /\ no_overflow r w.

Lemma feeds_app_ r l k : feeds r (l ++ k) = feeds (feeds r l) k.
Proof. apply fold_left_app. Qed.
Lemma parses_app r w1 r1 w2 r2 : parses r w1 r1 -> parses r1 w2 r2 -> parses r (w1 ++ w2) r2.
Proof.
  intros [E1 N1] [E2 N2]. split; [by rewrite feeds_app_, E1|]. intros used rest p a Hw Hf Hb Hr.
  apply app_eq_inv in Hw as [(k & -> & ->)|(k & -> & ->)].
  - destruct k as [|c k].
    + rewrite app_nil_r in *. cbn [app] in *. apply (N2 [] w2 p a); try done. by rewrite <- E1.
    + specialize (N1 used (c :: k) p a eq_refl Hf Hb ltac:(done)). rewrite firstn_app. apply in_or_app. by left.
  - apply (N2 k rest p a); try done. by rewrite feeds_app_, E1 in Hf.
Qed.
Lemma parses_nil r : parses r [] r.
Proof. split; [done|]. intros used rest p a Hw _ _ Hr. symmetry in Hw. by apply app_nil in Hw as [_ ->]. Qed.
Lemma no_overflow_line r l : Z.of_nat (length l) + 1 <= kBufferSize -> no_overflow r (l ++ [10]).
Proof.
  intros Hl used rest p a Hw _ _ Hr. assert (Hlen := f_equal length Hw). rewrite !length_app in Hlen. cbn in Hlen. rewrite take_ge by lia.
  destruct (exists_last Hr) as (k & c & ->). rewrite app_assoc in Hw. apply app_inj_tail in Hw as [_ <-]. apply in_or_app. right. by left.
Qed.
Lemma parses_line r l r' : Z.of_nat (length l) + 1 <= kBufferSize -> feeds r (l ++ [10]) = r' -> parses r (l ++ [10]) r'.
Proof. intros Hl Hf. split; [done|]. by apply no_overflow_line. Qed.

(** A piece of the document. *)
Lemma feed_data p a d : ok p -> before_data p = false -> data_size_ p <> 0 -> d <> [] ->
  (data_size_ p =? SIZE_UNKNOWN) || (Z.of_nat (length d) <=? data_size_ p) = true ->
  feeds (Running p [] a) d = settle (less p (length d)) (ref_accept a d).
Proof. exact (@feeds_data seen (seen_handler notify_) (seen_reference notify_) p a d). Qed.
Lemma parses_data p a d : ok p -> before_data p = false -> data_size_ p <> 0 -> d <> [] -> Z.of_nat (length d) <= data_size_ p ->
  parses (Running p [] a) d (settle (less p (length d)) (ref_accept a d)).
Proof.
  intros Hok Hb Hs Hd Hl. split.
  - apply feed_data; try done. apply orb_true_iff. right. by apply Z.leb_le.
  - intros used rest p' a' -> Hf Hb' Hr. exfalso. destruct used as [|c used].
    + injection Hf as <- <-. congruence.
    + assert (Hlr : (1 <= length rest)%nat) by (destruct rest; [done|cbn; lia]). rewrite length_app in Hl.
      assert (Hle : (data_size_ p =? SIZE_UNKNOWN) || (Z.of_nat (length (c :: used)) <=? data_size_ p) = true).
      { apply orb_true_iff. right. apply Z.leb_le. lia. }
      rewrite feed_data in Hf by done. unfold settle in Hf.
      assert (Hbl : before_data (less p (length (c :: used))) = false) by (unfold less; destruct (negb (data_size_ p =? SIZE_UNKNOWN)); exact Hb). rewrite Hbl in Hf.
      assert (Hz : data_size_ (less p (length (c :: used))) <> 0).
      { unfold less. destruct (negb (data_size_ p =? SIZE_UNKNOWN)); [cbn [set_data_size data_size_]; lia|done]. }
      rewrite (proj2 (Z.eqb_neq _ _) Hz) in Hf. cbn [negb andb] in Hf. assert (Hp' : less p (length (c :: used)) = p') by congruence. rewrite <- Hp', Hbl in Hb'. done.
Qed.

Lemma CRLF_line : CRLF = [13] ++ [10].
Proof. done. Qed.

Definition of_size (p : parser) (n : Z) : parser := set_data_size p n.
Lemma parses_chunk p a piece : chunk_ready p -> piece <> [] -> Z.of_nat (length piece) <= kBufferSize ->
  exists p', chunk_ready p' /\ parses (Running p [] a) (chunk piece) (Running p' [] (ref_accept a piece)).
Proof.
  intros Hp Hne Hlen. unfold chunk. set (n := Z.of_nat (length piece)). assert (Hn : 0 < n) by (unfold n; destruct piece; [done|cbn; lia]).
  assert (Hn2 : n <= kBufferSize) by done. unfold kBufferSize in Hn2.
  set (p1 := set_state (set_data_size p n) ST_DATA).
  exists (set_state (set_data_size p 0) ST_CHUNKSIZE). destruct Hp as [Hst Hch]. split; [done|].
  rewrite (app_assoc (hex8 n)).
  eapply parses_app; [rewrite CRLF_line, app_assoc; apply parses_line; [rewrite length_app, hex8_length; cbn; unfold kBufferSize; lia|]; rewrite <- app_assoc, <- CRLF_line; by apply feed_chunk_size; [|lia]|].
  assert (Hok1 : ok p1) by (split; [done|cbn; unfold SIZE_UNKNOWN; lia]).
  eapply parses_app; [apply (parses_data p1 a piece); try done; cbn; unfold n in *; lia|].
  assert (Hles : settle (less p1 (length piece)) (ref_accept a piece) = Running (set_state (set_data_size p 0) ST_CHUNKTERM) [] (ref_accept a piece)).
  { unfold less. cbn [p1 set_state set_data_size data_size_]. rewrite (proj2 (Z.eqb_neq n SIZE_UNKNOWN)) by (unfold SIZE_UNKNOWN; lia). cbn [negb].
    unfold settle. cbn [set_state set_data_size before_data state_ data_size_ negb chunked_]. unfold n. rewrite Z.sub_diag. cbn [Z.eqb andb].
    unfold set_data_size, set_state. cbn. by rewrite Hch. }
  rewrite Hles. rewrite CRLF_line. apply parses_line; [cbn; unfold kBufferSize; lia|]. rewrite feed_line by (done || cbn; intuition discriminate).
  change (trim_right [13]) with (@nil Z). unfold HttpParser.ProcessLine. cbn [set_state state_]. rewrite decide_False by done. unfold settle, set_state. cbn. by rewrite Hch.
Qed.

Lemma ref_accept_nil a : ref_accept a [] = a.
Proof. unfold ref_accept. destruct (s_doc a && _); [|done]. rewrite app_nil_r. by destruct a. Qed.
Lemma ref_accept_app a d1 d2 : ref_accept a (d1 ++ d2) = ref_accept (ref_accept a d1) d2.
Proof. unfold ref_accept. destruct (s_doc a && negb (s_ignore a)) eqn:E; cbn; rewrite E; [by rewrite app_assoc|done]. Qed.

Lemma parses_chunks pieces : forall p a, chunk_ready p -> Forall (fun d => d <> [] /\ Z.of_nat (length d) <= kBufferSize) pieces ->
  exists p', chunk_ready p' /\ parses (Running p [] a) (concat (map chunk pieces)) (Running p' [] (ref_accept a (concat pieces))).
Proof.
  induction pieces as [|d pieces IH]; intros p a Hp Hf.
  - exists p. split; [done|]. cbn. rewrite ref_accept_nil. apply parses_nil.
  - apply Forall_cons in Hf as [[Hd Hl] Hf]. destruct (parses_chunk p a d Hp Hd Hl) as (p1 & Hp1 & H1).
    destruct (IH p1 (ref_accept a d) Hp1 Hf) as (p2 & Hp2 & H2). exists p2. split; [done|]. cbn [map concat]. rewrite ref_accept_app. by eapply parses_app.
Qed.

Lemma parses_last_chunk p a : chunk_ready p -> parses (Running p [] a) last_chunk (Done HE_NONE a).
Proof.
  intros [Hst Hch]. assert (Hb : before_data p = true) by (unfold before_data; by rewrite Hst).
  unfold last_chunk. change (str "0" ++ CRLF ++ CRLF) with (([48; 13] ++ [10]) ++ ([13] ++ [10])). eapply parses_app.
  - apply parses_line; [cbn; unfold kBufferSize; lia|]. rewrite feed_line by (done || cbn; intuition discriminate). change (trim_right [48; 13]) with [48].
    unfold HttpParser.ProcessLine. rewrite Hst. change (StringEncode.strtoul 16 [48]) with (0, 1%nat). cbn [Nat.eqb length negb Z.eqb]. rewrite decide_False by done. reflexivity.
  - apply parses_line; [cbn; unfold kBufferSize; lia|]. cbn [settle before_data set_state state_ negb andb].
    rewrite feed_line by (done || cbn; intuition discriminate). by change (trim_right [13]) with (@nil Z).
Qed.

(** ** The whole text *)

Lemma parses_headers hs : forall p a p', state_ p = ST_HEADERS -> forallb wf_header hs = true ->
  forallb (fun h => Z.of_nat (length (header_line h)) <? kBufferSize - 3) hs = true -> note_headers p hs = Some p' -> map_ok (s_headers a) hs = true ->
  parses (Running p [] a) (concat (map header_line hs)) (Running p' [] (with_s_headers a (s_headers a ++ hs))) /\ state_ p' = ST_HEADERS.
Proof.
  induction hs as [|h hs IH]; intros p a p' Hst Hwf Hlen Hp Hok.
  - injection Hp as <-. rewrite app_nil_r. split; [|done]. destruct a. apply parses_nil.
  - cbn [forallb] in *. apply andb_true_iff in Hwf as [Hw Hws]. apply andb_true_iff in Hlen as [Hl Hls]. apply Z.ltb_lt in Hl.
    cbn [map_ok] in Hok. apply andb_true_iff in Hok as [Ho Hos].
    cbn [note_headers] in Hp. destruct (note_header p h.1 h.2) as [p1|] eqn:E1; [|done].
    pose proof (note_header_state _ _ _ _ E1) as Hst1. rewrite Hst in Hst1.
    destruct (IH p1 (with_s_headers a (s_headers a ++ [h])) p' Hst1 Hws Hls Hp Hos) as [E Hst']. split; [|done].
    cbn [map concat]. eapply parses_app; [|cbn [with_s_headers s_headers] in E; rewrite <- app_assoc in E; exact E].
    destruct (header_line_read h Hw) as (line & rest & El & _). rewrite El. apply parses_line.
    + rewrite El, length_app in Hl. cbn in Hl. lia.
    + rewrite <- El. by apply feed_header.
Qed.

(** What a message must be like for its text to be read as it was meant: its
    first line and its headers have no line ends in them and no white space
    around them, they fit into the buffer, and the map is in order. *)
Definition wf_message (m : HttpData) : bool :=
  wf_leader (version m) (leader m) && forallb wf_header (headers_ m) && map_ok [] (headers_ m) && fits m.

(** The head of a message, for a receiver with this document. *)
Definition head_of (m data : HttpData) : seen :=
  mkSeen (version m) (leader m) (headers_ m) (HttpRecv.some (document data)) false (match document data with Some d => written d | None => [] end).

(** The receiver, at the end of the headers, takes the body to be as the
    sender sends it. *)
Definition framed (m data : HttpData) (content : bytes) (a : seen) : Prop :=
  exists p size, note_headers (set_state reset ST_HEADERS) (headers_ m) = Some p /\
    ref_complete notify_ (head_of m data) (chunked_ p) (data_size_ p) = (PR_CONTINUE, HE_NONE, size, a) /\
    chunked_ p = sends_chunks m /\
    (if sends_chunks m then has_doc m = true else size = Z.of_nat (length content) /\ size < SIZE_UNKNOWN).

(** ** A message that says how long its document is *)

Definition framing (h : bytes * bytes) : bool := MatchHeader h.1 HH_CONTENT_LENGTH || MatchHeader h.1 HH_TRANSFER_ENCODING.
(** The headers that frame the body are what setDocumentAndLength sets - one
    Content-Length of the size of the document, which fits into an int, or one
    Transfer-Encoding that is "chunked" - or there are none, and nothing to
    send. *)
Definition announces (m : HttpData) (content : bytes) : Prop :=
  match List.filter framing (headers_ m) with
  | [] => content = []
  | [(name, value)] =>
      name = ToString HH_TRANSFER_ENCODING /\ value = str "chunked" /\ has_doc m = true \/
      name = ToString HH_CONTENT_LENGTH /\ value = ToString_int (Z.of_nat (length content)) /\ Z.of_nat (length content) < 2 ^ 31
  | _ => False
  end.
(** The size in the Content-Length, as the receiver is told. *)
Definition announced (m : HttpData) (content : bytes) : Z :=
  if existsb (fun h => MatchHeader h.1 HH_CONTENT_LENGTH) (headers_ m) then Z.of_nat (length content) else SIZE_UNKNOWN.
(** A callback that goes on, keeps a size it is told and takes one it is not
    told as 0, as that of HttpServer does. *)
Definition takes_size (f : notify) : Prop := forall v l h c n,
  ha_error (f v l h c n) = HE_NONE /\ (c = false -> ha_size (f v l h c n) = if n =? SIZE_UNKNOWN then 0 else n).

Lemma note_headers_filter hs : forall p, note_headers p hs = note_headers p (List.filter framing hs).
Proof.
  induction hs as [|h hs IH]; intros p; [done|]. cbn [List.filter]. destruct (framing h) eqn:E; cbn [note_headers].
  - destruct (note_header p h.1 h.2); [apply IH|done].
  - unfold framing in E. apply orb_false_iff in E as [E1 E2]. unfold note_header. by rewrite E1, E2, IH.
Qed.
Lemma find_framing hs : forallb wf_header hs = true -> hm_find hs (ToString HH_TRANSFER_ENCODING) = hm_find (List.filter framing hs) (ToString HH_TRANSFER_ENCODING).
Proof.
  induction hs as [|h hs IH]; intros Hwf; [done|]. cbn [forallb] in Hwf. apply andb_true_iff in Hwf as [Hw Hws]. unfold hm_find in *. cbn [List.filter List.find].
  destruct (framing h) eqn:E; cbn [List.find]; [by rewrite IH|]. destruct (stricmp_eq h.1 _) eqn:Es; [|by apply IH]. exfalso.
  unfold wf_header in Hw. apply andb_true_iff in Hw as [Hw _]. apply andb_true_iff in Hw as [Hw _]. apply andb_true_iff in Hw as [Hw _].
  unfold stricmp_eq in Es. rewrite (c_str_clean h.1) in Es by (by apply clean_nul). apply bool_decide_eq_true in Es. change (c_str (ToString HH_TRANSFER_ENCODING)) with (ToString HH_TRANSFER_ENCODING) in Es.
  assert (Hm : MatchHeader h.1 HH_TRANSFER_ENCODING = true).
  { unfold MatchHeader. rewrite Es, bool_decide_eq_true_2, andb_true_r by done. apply Nat.eqb_eq. apply (f_equal length) in Es. by rewrite !length_map in Es. }
  unfold framing in E. by rewrite Hm, orb_true_r in E.
Qed.
Lemma length_framing hs : existsb (fun h => MatchHeader h.1 HH_CONTENT_LENGTH) hs = existsb (fun h => MatchHeader h.1 HH_CONTENT_LENGTH) (List.filter framing hs).
Proof.
  induction hs as [|h hs IH]; [done|]. cbn [existsb List.filter]. destruct (framing h) eqn:E; cbn [existsb]; [by rewrite IH|].
  unfold framing in E. apply orb_false_iff in E as [-> _]. exact IH.
Qed.
Lemma scan_u_size n : 0 <= n < 2 ^ 31 -> scan_u (c_str (ToString_int n)) = Some (n, []).
Proof.
  intros Hn. unfold ToString_int. rewrite (proj2 (Z.ltb_ge _ _)) by lia. destruct (digits_spec 10 n) as (H1 & H2 & H3); [lia..|].
  rewrite c_str_clean.
  - rewrite <- (app_nil_r (digits 10 n [])), scan_u_digits; [|by destruct (digits 10 n [])|done|done|rewrite H3; lia].
    by rewrite H3, Z.mul_0_l, Z.add_0_l, Z.mod_small by lia.
  - apply forallb_forall. intros c Hc. rewrite List.Forall_forall in H1. specialize (H1 c Hc). apply digit_of_10, digit_char in H1 as (_ & _ & _ & Hx & _). by apply negb_true_iff, Z.eqb_neq.
Qed.

(** What the receiver knows at the end of the headers. *)
Definition at_headers (m data : HttpData) (content : bytes) : seen := (ref_complete notify_ (head_of m data) (sends_chunks m) (announced m content)).2.
Lemma announces_framed f m data content : notify_ = Some f -> takes_size f -> wf_message m = true -> announces m content -> framed m data content (at_headers m data content).
Proof.
  intros Hf Ht Hwf Ha. unfold wf_message in Hwf. apply andb_true_iff in Hwf as [Hwf _]. apply andb_true_iff in Hwf as [Hwf _]. apply andb_true_iff in Hwf as [_ Hhs].
  unfold framed, at_headers, announced, sends_chunks, hasHeader. rewrite length_framing, note_headers_filter, find_framing by done.
  assert (Hc : forall c n size a, ref_complete notify_ (head_of m data) c n = (PR_CONTINUE, HE_NONE, size, a) <->
    size = ha_size (f (version m) (leader m) (headers_ m) c n) /\ a = (ref_complete notify_ (head_of m data) c n).2).
  { intros c n size a. unfold ref_complete, head_of. rewrite Hf. cbn [s_version s_leader s_headers fst snd]. destruct (Ht (version m) (leader m) (headers_ m) c n) as [-> _].
    rewrite decide_True by done. split; [by intros [= <- <-]|by intros [-> ->]]. }
  unfold announces in Ha. destruct (List.filter framing (headers_ m)) as [|[n v] [|]]; [| |done].
  - exists (set_state reset ST_HEADERS). eexists. split; [done|]. split; [by apply Hc|]. split; [done|]. subst content. cbn [hm_find List.find fmap option_fmap option_map].
    destruct (Ht (version m) (leader m) (headers_ m) false SIZE_UNKNOWN) as [_ Hs].
    cbn [existsb chunked_ data_size_ set_state reset]. by rewrite Hs.
  - destruct Ha as [(-> & -> & Hd)|(-> & -> & Hl)].
    + exists (set_chunked (set_state reset ST_HEADERS) true). eexists. split; [done|]. split; [by apply Hc|]. by split.
    + exists (set_data_size (set_state reset ST_HEADERS) (Z.of_nat (length content))). eexists.
      split; [cbn [note_headers fst snd]; change (note_header ?p (ToString HH_CONTENT_LENGTH) ?x) with (let? (temp_size, _) := scan_u (c_str x) in Some (set_data_size p temp_size)); by rewrite scan_u_size by lia|].
      split; [by apply Hc|]. split; [done|]. cbn [hm_find List.find].
      destruct (Ht (version m) (leader m) (headers_ m) false (Z.of_nat (length content))) as [_ Hs].
      change (existsb (fun h => MatchHeader h.1 HH_CONTENT_LENGTH) [(ToString HH_CONTENT_LENGTH, ToString_int (Z.of_nat (length content)))]) with true.
      change (stricmp_eq (ToString HH_CONTENT_LENGTH, ToString_int (Z.of_nat (length content))).1 (ToString HH_TRANSFER_ENCODING)) with false.
      cbn [fmap option_fmap option_map chunked_ data_size_ set_state set_data_size reset]. rewrite Hs by done. rewrite (proj2 (Z.eqb_neq _ _)) by (unfold SIZE_UNKNOWN; lia). split; [done|]. unfold SIZE_UNKNOWN. lia.
Qed.
Lemma at_headers_head f m data content : notify_ = Some f ->
  s_version (at_headers m data content) = version m /\ s_leader (at_headers m data content) = leader m /\ s_headers (at_headers m data content) = headers_ m.
Proof. intros Hf. unfold at_headers, ref_complete. by rewrite Hf. Qed.

(** setDocumentAndLength makes such a message. *)
Lemma framing_insert hs name value : List.filter framing hs = [] -> framing (name, value) = true -> List.filter framing (hm_insert hs name value) = [(name, value)].
Proof.
  intros Hhs Hf. induction hs as [|h hs IH]; cbn [hm_insert List.filter]; [by rewrite Hf|]. cbn [List.filter] in Hhs. destruct (framing h) eqn:E; [done|].
  destruct (iless name h.1); cbn [List.filter]; rewrite ?Hf, ?E, ?Hhs; auto.
Qed.
Lemma framing_erase hs name : List.filter framing hs = [] -> List.filter framing (hm_erase hs name) = [].
Proof.
  intros Hhs. induction hs as [|h hs IH]; [done|]. cbn [List.filter] in Hhs. destruct (framing h) eqn:E; [done|]. unfold hm_erase in *. cbn [List.filter].
  destruct (negb _); cbn [List.filter]; rewrite ?E; auto.
Qed.
Lemma setDocumentAndLength_announces m d available m' : List.filter framing (headers_ m) = [] ->
  match available with Some n => n = Z.of_nat (length (unread d)) /\ n < 2 ^ 31 | None => True end ->
  setDocumentAndLength m d available = Some m' -> announces m' (unread d).
Proof.
  intros Hm Ha. unfold setDocumentAndLength. destruct (hasHeader m _); [done|]. destruct (hasHeader m _); [done|]. intros E.
  assert (Hset : forall name value, framing (name, value) = true -> List.filter framing (headers_ (setHeader (with_document m (Some d)) name value true)) = [(name, value)]).
  { intros name value Hf. unfold setHeader, changeHeader. rewrite decide_True by done. cbn [headers_ with_headers with_document]. by apply framing_insert; [apply framing_erase|]. }
  destruct available as [n|]; injection E as <-; unfold announces; rewrite Hset by done.
  - right. destruct Ha as [-> Hn]. unfold s32. rewrite Z.mod_small by lia. by rewrite Z.add_simpl_r.
  - left. done.
Qed.

Lemma parses_body p a m pieces : state_ p = ST_HEADERS -> forall size, chunked_ p = sends_chunks m ->
  (if sends_chunks m then has_doc m = true else size = Z.of_nat (length (concat pieces)) /\ size < SIZE_UNKNOWN) ->
  Forall (fun d => d <> [] /\ Z.of_nat (length d) <= kBufferSize) pieces ->
  parses (settle (after_headers p size) a) (body_text (sends_chunks m) pieces (sends_chunks m && has_doc m)) (Done HE_NONE (ref_accept a (concat pieces))).
Proof.
  intros Hst size Hch Hf Hp. unfold body_text. destruct (sends_chunks m).
  - rewrite Hf. cbn [andb]. assert (Hr : chunk_ready (after_headers p size)) by (unfold after_headers; rewrite Hch; by split).
    assert (Hs : settle (after_headers p size) a = Running (after_headers p size) [] a) by (destruct Hr as [Hr _]; unfold settle, before_data; by rewrite Hr).
    rewrite Hs. destruct (parses_chunks pieces _ a Hr Hp) as (p' & Hp' & H). eapply parses_app; [exact H|]. by apply parses_last_chunk.
  - destruct Hf as [-> Hsz]. unfold after_headers. rewrite Hch. set (p1 := set_data_size _ _).
    assert (Hok : ok p1) by (split; [done|cbn; lia]). destruct (decide (concat pieces = [])) as [E|E].
    + rewrite E. unfold settle, p1. rewrite E. cbn. rewrite Hch, ref_accept_nil. apply parses_nil.
    + assert (Hz : data_size_ p1 <> 0) by (cbn; destruct (concat pieces); [done|cbn; lia]).
      assert (Hs : settle p1 a = Running p1 [] a) by (unfold settle; by rewrite (proj2 (Z.eqb_neq _ _) Hz), andb_false_r). rewrite Hs.
      pose proof (parses_data p1 a (concat pieces) Hok eq_refl Hz E (Z.le_refl _)) as H.
      assert (Hd : settle (less p1 (length (concat pieces))) (ref_accept a (concat pieces)) = Done HE_NONE (ref_accept a (concat pieces))).
      { unfold less. rewrite (proj2 (Z.eqb_neq _ _)) by (cbn; lia). cbn [negb]. unfold settle. cbn [before_data set_data_size state_ p1 set_state data_size_ negb andb].
        rewrite Z.sub_diag. cbn [Z.eqb]. cbn. by rewrite Hch. }
      by rewrite Hd in H.
Qed.

Lemma parses_text m data pieces content a : wf_message m = true -> same_kind (leader data) (leader m) = true -> headers_ data = [] ->
  framed m data content a -> content = concat pieces -> Forall (fun d => d <> [] /\ Z.of_nat (length d) <= kBufferSize) pieces ->
  parses (start data) (whole_text m pieces) (Done HE_NONE (ref_accept a content)).
Proof.
  intros Hwf Hk Hh (p & size & Hp & Hc & Hch & Hf) -> Hpc. unfold wf_message in Hwf. apply andb_true_iff in Hwf as [Hwf Hfit].
  apply andb_true_iff in Hwf as [Hwf Hmap]. apply andb_true_iff in Hwf as [Hl Hhs]. unfold fits in Hfit. apply andb_true_iff in Hfit as [Hfl Hfh].
  apply andb_true_iff in Hfl as [_ Hfl]. apply Z.ltb_lt in Hfl. unfold whole_text, text. destruct (leader_text_line m Hl) as [Hnl Htrim].
  set (a0 := mkSeen (version m) (leader m) [] (HttpRecv.some (document data)) false (match document data with Some d => written d | None => [] end)).
  rewrite (app_assoc (leader_text m)). apply (parses_app _ _ (Running (set_state reset ST_HEADERS) [] a0)).
  { rewrite CRLF_line, app_assoc. apply parses_line; [rewrite length_app; cbn; lia|]. unfold start. rewrite feed_line; [|done|by apply not_in_app; [|cbn; intuition discriminate]].
    rewrite Htrim. unfold HttpParser.ProcessLine. cbn [reset state_ ProcessLeader seen_handler]. unfold ref_leader, head.
    cbn [s_version s_leader s_headers]. rewrite (parse_leader_text m _ _ _ None Hl Hk). cbn [version leader]. destruct (decide (HE_NONE = HE_NONE)) as [_|Hx]; [|done]. rewrite decide_False by done.
    rewrite Hh. reflexivity. }
  destruct (parses_headers (headers_ m) (set_state reset ST_HEADERS) a0 p eq_refl Hhs Hfh Hp Hmap) as [H1 Hst].
  eapply parses_app; [exact H1|]. change (with_s_headers a0 (s_headers a0 ++ headers_ m)) with (head_of m data).
  eapply parses_app; [rewrite CRLF_line; apply parses_line; [cbn; unfold kBufferSize; lia|]; rewrite <- CRLF_line; by apply feed_end_of_headers|].
  by apply parses_body.
Qed.
End Text.
End HttpWire.
