(* ===== verification/HttpServer.v ===== *)
(** * base/httpserver.cc: HttpServer

    A server and its connections.  Each connection owns an HttpBase, which it
    starts again with recv after every response; a transaction travels from
    the connection to the application with SignalHttpRequest and back with
    Respond.  The calls that HttpBase makes of its owner are taken from its
    log and answered in their order, those made inside another call before
    what is left of it. *)

From stdpp Require Import list option sorting.
From S2P Require Import Prelude StringEncode StringConv StreamIo HttpCommon HttpParser HttpBase.
Open Scope jingle_scope.

Module HttpServer.
Import StreamIo StringConv HttpCommon HttpParser HttpBase.

Record HttpServerTransaction := mkTransaction { connection_id : Z; request : HttpData; response : HttpData }.
(** new HttpServerTransaction(id) *)
Definition new_transaction (id : Z) : HttpServerTransaction := mkTransaction id HttpRequestData HttpResponseData.
Definition with_request (t : HttpServerTransaction) (d : HttpData) : HttpServerTransaction := mkTransaction (connection_id t) d (response t).
Definition with_response (t : HttpServerTransaction) (d : HttpData) : HttpServerTransaction := mkTransaction (connection_id t) (request t) d.

(** The request of current_ is the [message] of the base while it receives,
    the response while it sends. *)
Record Connection := mkConnection {
  connection_id_ : Z;
  http : HttpBase.t;
  current_ : option HttpServerTransaction;
  signalling_ : bool;
  close_ : bool
}.
Definition with_base (c : Connection) (b : HttpBase.t) : Connection := mkConnection (connection_id_ c) b (current_ c) (signalling_ c) (close_ c).
Definition with_current (c : Connection) (t : option HttpServerTransaction) : Connection := mkConnection (connection_id_ c) (http c) t (signalling_ c) (close_ c).
Definition with_signalling (c : Connection) (b : bool) : Connection := mkConnection (connection_id_ c) (http c) (current_ c) b (close_ c).
Definition with_close (c : Connection) (b : bool) : Connection := mkConnection (connection_id_ c) (http c) (current_ c) (signalling_ c) b.

(** The signals of the server, but SignalHttpRequestHeader, which is
    [request_header] below. *)
Inductive signal :=
  | SignalHttpRequest (t : HttpServerTransaction)
  | SignalHttpRequestComplete (t : HttpServerTransaction) (err : HttpError)
  | SignalConnectionClosed (id : Z) (stream : option Stream)
  | SignalCloseAllComplete.

(** connections_, a map from increasing ids, in its order. *)
Record server := mkServer {
  connections_ : list Connection;
  next_connection_id_ : Z;
  closing_ : bool;
  signals : list signal
}.
Definition with_connections (s : server) (l : list Connection) : server := mkServer l (next_connection_id_ s) (closing_ s) (signals s).
Definition with_closing (s : server) (b : bool) : server := mkServer (connections_ s) (next_connection_id_ s) b (signals s).
Definition raise (s : server) (e : signal) : server := mkServer (connections_ s) (next_connection_id_ s) (closing_ s) (signals s ++ [e]).
Definition HttpServer : server := mkServer [] 1 false [].

Definition Find (s : server) (id : Z) : option Connection := List.find (fun c => connection_id_ c =? id) (connections_ s).
(** The object of this id has changed. *)
Definition store (s : server) (c : Connection) : server :=
  with_connections s (map (fun c' => if connection_id_ c' =? connection_id_ c then c else c') (connections_ s)).

(** new MemoryStream *)
Definition MemoryStream : Stream := mkStream SS_OPEN [] [] [] Growing.

Section Server.
(** What the slots of SignalHttpRequestHeader do: nothing, or set
    custom_document with a document or none. *)
Context (request_header : Z -> HttpVersion -> leader_data -> HeaderMap -> option (option Stream)).
(** Whether the slots of SignalHttpRequestComplete call Close for the
    connection. *)
Context (completes_with_close : HttpServerTransaction -> HttpError -> bool).
(** The turns of flush_data. *)
Context (fuel : nat).

Definition onHttpHeaderComplete (id : Z) : notify := fun v l h chunked data_size =>
  let data_size := if data_size =? SIZE_UNKNOWN then 0 else data_size in
  match request_header id v l h with
  | Some document => mkAnswer HE_NONE data_size document false false
  | None => mkAnswer HE_NONE data_size (Some MemoryStream) false false
  end.

(** Connection::EndProcess, then SignalConnectionClosed and delete. *)
Definition EndProcess (c : Connection) : option Stream := (detach (abort None (http c) HE_DISCONNECTED)).1.
Definition Remove (s : server) (id : Z) : server :=
  match Find s id with
  | None => s
  | Some c =>
      let s := with_connections s (List.filter (fun c => negb (connection_id_ c =? id)) (connections_ s)) in
      let s := raise s (SignalConnectionClosed id (EndProcess c)) in
      match closing_ s, connections_ s with
      | true, [] => raise (with_closing s false) SignalCloseAllComplete
      | _, _ => s
      end
  end.

(** A call of base_ by the connection: what it has told the connection. *)
Definition call (s : server) (c : Connection) (f : HttpBase.t -> res HttpBase.t) : res (server * list event) :=
  bind (f (http c)) (fun b => Ret (store s (with_base c b), drop (length (log (http c))) (log b))).

Definition begin_recv (s : server) (c : Connection) : res (server * list event) :=
  match current_ c with
  | Some t => call s c (fun b => recv (Some (onHttpHeaderComplete (connection_id_ c))) b (request t) fuel)
  | None => Undefined
  end.

Definition InitiateClose (s : server) (c : Connection) (force : bool) : server :=
  let request_in_progress := bool_decide (mode_ (http c) = HM_SEND) || match current_ c with None => true | Some _ => false end in
  if negb (signalling_ c) && (force || negb request_in_progress) then Remove s (connection_id_ c)
  else store s (with_close c true).

(** SignalHttpRequestComplete, with what its slots do. *)
Definition signal_complete (s : server) (c : Connection) (t : HttpServerTransaction) (err : HttpError) : server :=
  let s := raise s (SignalHttpRequestComplete t err) in
  if completes_with_close t err then InitiateClose s c false else s.

(** "if (mode == HM_SEND)": the connection and the error afterwards. *)
Definition complete_send (s : server) (c : Connection) (mode : HttpMode) (err : HttpError) : option (server * Connection * HttpError) :=
  if decide (mode = HM_SEND) then
    match current_ c with
    | None => None
    | Some t =>
        let t := with_response t (message (http c)) in
        let c := with_signalling (with_current c (Some t)) true in
        let s := signal_complete (store s c) c t err in
        match Find s (connection_id_ c) with
        | None => None
        | Some c => let c := with_signalling c false in Some (store s c, c, if close_ c then HE_DISCONNECTED else err)
        end
    end
  else Some (s, c, err).

Definition onHttpComplete_ (s : server) (c : Connection) (mode : HttpMode) (err : HttpError) : res (server * list event) :=
  defined (complete_send s c mode err) (fun '(s, c, err) =>
  if negb (bool_decide (err = HE_NONE)) then Ret (Remove s (connection_id_ c), [])
  else
    match mode with
    | HM_CONNECT => begin_recv s c
    | HM_RECV =>
        match current_ c with
        | None => Undefined
        | Some t => Ret (raise (store s (with_current c None)) (SignalHttpRequest (with_request t (message (http c)))), [])
        end
    | HM_SEND =>
        match current_ c with
        | None => Undefined
        | Some t =>
            let t := mkTransaction (connection_id t) (clear (request t) true) (clear (with_document (response t) None) true) in
            let c := with_current c (Some t) in
            begin_recv (store s c) c
        end
    | HM_NONE => Undefined
    end).

Definition onHttpClosed_ (s : server) (c : Connection) : server := Remove s (connection_id_ c).

(** The calls of a base of its connection, while it is there. *)
Fixpoint notified (turns : nat) (s : server) (id : Z) (events : list event) : res server :=
  match events with
  | [] => Ret s
  | e :: events =>
      match turns with
      | O => Spins
      | S turns =>
          match Find s id with
          | None => Ret s
          | Some c =>
              bind (match e with
                    | onHttpComplete mode err => onHttpComplete_ s c mode err
                    | onHttpClosed _ => Ret (onHttpClosed_ s c, [])
                    | _ => Ret (s, [])
                    end) (fun '(s, more) => notified turns s id (more ++ events))
          end
      end
  end.
Definition turns : nat := 4.
Definition run_call (id : Z) (r : res (server * list event)) : res server := bind r (fun '(s, events) => notified turns s id events).

Definition BeginProcess (s : server) (c : Connection) (stream : Stream) : res (server * list event) :=
  let '(_, b) := attach (http c) stream in
  let c := with_current (with_base c b) (Some (new_transaction (connection_id_ c))) in
  let s := store s c in
  if negb (bool_decide (mode_ b = HM_CONNECT)) then begin_recv s c else Ret (s, []).

Definition HandleConnection (s : server) (stream : Stream) : res server :=
  let id := next_connection_id_ s in
  let c := mkConnection id init None false false in
  let s := mkServer (connections_ s ++ [c]) (id + 1) (closing_ s) (signals s) in
  run_call id (BeginProcess s c stream).

(** Connection::Respond *)
Definition respond (s : server) (c : Connection) (transaction : HttpServerTransaction) : res (server * list event) :=
  match current_ c with
  | Some _ => Undefined
  | None =>
      let r := match headers_ (response transaction) with [] => set_error (response transaction) HC_INTERNAL_SERVER_ERROR | _ => response transaction end in
      let keep_alive := HttpShouldKeepAlive (request transaction) in
      let r := setHeader r (ToString HH_CONNECTION) (if keep_alive then str "Keep-Alive" else str "Close") false in
      let c := with_close (with_current c (Some (with_response transaction r))) (negb (HttpShouldKeepAlive r)) in
      call (store s c) c (fun b => send (Some (onHttpHeaderComplete (connection_id_ c))) fuel b r)
  end.
Definition Respond (s : server) (transaction : HttpServerTransaction) : res server :=
  match Find s (connection_id transaction) with
  | Some c => run_call (connection_id_ c) (respond s c transaction)
  | None => Ret s
  end.

Definition Close (s : server) (connection_id : Z) (force : bool) : server :=
  match Find s connection_id with Some c => InitiateClose s c force | None => s end.
Definition CloseAll (s : server) (force : bool) : server :=
  match connections_ s with
  | [] => raise s SignalCloseAllComplete
  | cs =>
      fold_left (fun s id => match Find s id with Some c => InitiateClose s c force | None => s end)
        (map connection_id_ cs) (with_closing s true)
  end.

(** An operation of the world on the streams of a connection. *)
Definition stream_op (s : server) (id : Z) (o : op) : res server :=
  match Find s id with
  | Some c => run_call id (call s c (fun b => exec (Some (onHttpHeaderComplete id)) fuel b o))
  | None => Ret s
  end.

Inductive server_op :=
  | Incoming (stream : Stream)
  | Answer (t : HttpServerTransaction)
  | CloseOne (id : Z) (force : bool)
  | CloseEvery (force : bool)
  | Network (id : Z) (o : op).
Definition server_exec (s : server) (o : server_op) : res server :=
  match o with
  | Incoming stream => HandleConnection s stream
  | Answer t => Respond s t
  | CloseOne id force => Ret (Close s id force)
  | CloseEvery force => Ret (CloseAll s force)
  | Network id o => stream_op s id o
  end.
Fixpoint server_run (s : server) (ops : list server_op) : res server :=
  match ops with [] => Ret s | o :: ops => bind (server_exec s o) (fun s => server_run s ops) end.
End Server.
End HttpServer.
