(* ===== verification/HttpServing.v ===== *)
(** * base/httpserver.cc: what a server does

    What an HttpBase tells its owner, whatever its streams do; the state of a
    connection against the signals that it has raised; and the theorems that
    every run of a server keeps to the protocol of its signals. *)

From stdpp Require Import list option sorting.
From S2P Require Import Prelude StringEncode StringConv StreamIo HttpCommon HttpParser HttpBase HttpRecv HttpServer.
Open Scope jingle_scope.

Module HttpServing.
Import StreamIo StringConv HttpCommon HttpParser HttpBase HttpRecv HttpServer.

(** ** What a base tells its owner *)

Section Told.
Context (f : notify) (Hplain : notify_plain (Some f)).

(** The document is only connected while there is a message. *)
Record sane (b : t) : Prop := {
  sa_connected : doc_connected b = true -> data_ b = true;
  sa_data : data_ b = true -> mode_ b <> HM_NONE;
  sa_recv : mode_ b = HM_RECV -> data_ b = true;
  sa_doc : doc_stream_ b = false
}.

(** Nothing the owner can see has happened. *)
Record quiet (b b' : t) : Prop := {
  qu_mode : mode_ b' = mode_ b;
  qu_log : log b' = log b;
  qu_http : some (http_stream_ b') = some (http_stream_ b);
  qu_sane : sane b -> sane b'
}.
#[export] Instance quiet_preorder : PreOrder quiet.
Proof. split; [by split|]. intros a b c [] []. split; first [congruence|auto]. Qed.

(** At most one call, and the end of the transaction goes with it. *)
Inductive told (b b' : t) : Prop :=
  | told_nothing : mode_ b' = mode_ b -> log b' = log b -> told b b'
  | told_complete e : mode_ b <> HM_NONE -> mode_ b' = HM_NONE -> log b' = log b ++ [onHttpComplete (mode_ b) e] -> told b b'
  | told_closed e : mode_ b = HM_NONE -> mode_ b' = HM_NONE -> log b' = log b ++ [onHttpClosed e] -> told b b'.
Record tells (b b' : t) : Prop := {
  te_told : told b b';
  te_http : some (http_stream_ b') = some (http_stream_ b);
  te_sane : sane b'
}.

Lemma quiet_tells a b c : quiet a b -> tells b c -> tells a c.
Proof.
  intros [Hm Hl Hh _] [Ht Hh' Hs]. split; [|congruence|done].
  destruct Ht as [? ?|e ? ? H|e ? ? H]; [apply told_nothing|apply (told_complete _ _ e)|apply (told_closed _ _ e)]; congruence.
Qed.
Lemma tells_quiet a b : quiet a b -> sane a -> tells a b.
Proof. intros [? ? ? H] Hs. split; [by apply told_nothing|done|auto]. Qed.
(** A change of no field that counts. *)
Lemma quiet_fields a b : mode_ b = mode_ a -> log b = log a -> http_stream_ b = http_stream_ a \/ some (http_stream_ b) = some (http_stream_ a) ->
  doc_stream_ b = doc_stream_ a -> data_ b = data_ a -> doc_connected b = doc_connected a -> quiet a b.
Proof. intros Hm Hl Hh Hd Hda Hc. split; [done|done|destruct Hh; congruence|]. intros []. split; rewrite ?Hm, ?Hd, ?Hda, ?Hc; auto. Qed.
Ltac same := first [by apply quiet_fields; auto|done].

Lemma do_complete_tells b e : mode_ b <> HM_NONE -> sane b -> tells b (do_complete (Some f) b e).
Proof.
  intros Hm [Hc Hda Hr Hd]. unfold do_complete. set (b1 := if data_ (with_mode b HM_NONE) then _ else _).
  assert (H1 : mode_ b1 = HM_NONE /\ doc_stream_ b1 = false /\ log b1 = log b /\ http_stream_ b1 = http_stream_ b /\ doc_connected b1 = false).
  { unfold b1. cbn [data_ with_mode]. destruct (data_ b); repeat split; try done. cbn. by destruct (doc_connected b); [discriminate Hc|]. }
  clearbody b1. destruct H1 as (H1 & H2 & H3 & H4 & H5). cbn [doc_stream_ with_data]. rewrite H2, andb_false_r.
  split; [apply (told_complete _ _ e); [done|exact H1|cbn; by rewrite H3]|cbn; by rewrite H4|]. split; cbn; congruence.
Qed.
Lemma complete_tells b e : mode_ b <> HM_NONE -> sane b -> tells b (complete (Some f) b e).
Proof.
  intros Hm Hs. unfold complete. destruct (decide _); [by apply tells_quiet|].
  assert (Hq : quiet b (with_parser b (set_state (parser_ b) ST_COMPLETE))) by same. eapply quiet_tells; [exact Hq|]. apply do_complete_tells; [done|by apply Hq].
Qed.
Lemma HandleStreamClose_quiet b e : quiet b (HandleStreamClose b e).2.
Proof.
  unfold HandleStreamClose. assert (quiet b (with_http b (StreamIo.Close <$> http_stream_ b))) by (apply quiet_fields; try done; right; cbn; by destruct (http_stream_ b)).
  destruct (e =? 0); [done|]. destruct (e =? _); [done|]. by destruct (e =? _).
Qed.
Lemma on_stream_close_tells b e : sane b -> tells b (on_stream_close (Some f) b e).
Proof.
  intros Hs. unfold on_stream_close. pose proof (HandleStreamClose_quiet b e) as Hq. destruct (HandleStreamClose b e) as [he b1]. cbn in Hq.
  eapply quiet_tells; [exact Hq|]. assert (Hs1 : sane b1) by by apply Hq.
  destruct (decide (mode_ b1 = HM_RECV)) as [E|E]; [apply complete_tells; [congruence|done]|].
  destruct (decide (mode_ b1 = HM_NONE)) as [E2|E2].
  - rewrite bool_decide_eq_true_2 by done. cbn [negb]. split; [by eapply told_closed|done|]. by destruct Hs1.
  - rewrite bool_decide_eq_false_2 by done. by apply do_complete_tells.
Qed.

(** *** Sending *)

Lemma put_quiet b l b' : put b l = Some b' -> quiet b b'.
Proof. unfold put. destruct (_ <=? _); [|done]. intros [= <-]. same. Qed.
Lemma queue_headers_quiet hs : forall b r b', queue_headers_loop hs b = Some (r, b') -> quiet b b'.
Proof.
  induction hs as [|h hs IH]; intros b r b'; cbn [queue_headers_loop].
  - destruct (put _ _) as [b1|] eqn:E; [|done]. intros [= _ <-]. apply put_quiet in E. etrans; [|exact E]. same.
  - destruct (sprintfn _ _) as [tx|]; [|done]. destruct (_ <? _).
    + destruct (put b tx) as [b1|] eqn:E; [|done]. intros H. etrans; [by eapply put_quiet|by eapply IH].
    + destruct (_ =? _); [apply IH|]. intros [= _ <-]. same.
Qed.
Lemma flush_headers_quiet r b r' b' : flush_headers r b = Some (r', b') -> quiet b b'.
Proof.
  unfold flush_headers. destruct (header_ b); [by intros [= _ <-]|]. destruct r; [by intros [= _ <-]|]. apply queue_headers_quiet.
Qed.
Lemma flush_document_tells r b n : flush_document (Some f) r b = Some n -> mode_ b <> HM_NONE -> sane b ->
  match n with Go _ b' => quiet b b' | Return_ b' => tells b b' end.
Proof.
  intros E Hm Hs. unfold flush_document in E. destruct (if r then None else _) as [d|]; [|by injection E as <-].
  destruct (_ <=? _); [by injection E as <-|]. destruct (Read d _) as [[[rr data] err] d'].
  assert (Hq : quiet b (with_doc b (Some d'))) by same. assert (Hmode : mode_ (with_doc b (Some d')) = mode_ b) by done. set (b1 := with_doc b (Some d')) in *.
  assert (Hc : forall e, tells b (do_complete (Some f) b1 e)) by (intros e; eapply quiet_tells; [exact Hq|apply do_complete_tells; [congruence|by apply Hq]]).
  clearbody b1. destruct rr.
  - injection E as <-. apply Hc.
  - destruct (put b1 _) as [b2|] eqn:Ep; [|done]. injection E as <-. etrans; [exact Hq|]. by eapply put_quiet.
  - by injection E as <-.
  - destruct (chunk_data_ b1).
    + destruct (put b1 _) as [b2|] eqn:Ep; [|done]. injection E as <-. etrans; [exact Hq|]. apply put_quiet in Ep. etrans; [exact Ep|]. same.
    + destruct (_ =? _); injection E as <-; [apply Hc|exact Hq].
Qed.
Lemma flush_loop_tells n : forall r b b', mode_ b <> HM_NONE -> sane b -> flush_loop (Some f) n r b = Ret b' -> tells b b'.
Proof.
  induction n as [|n IH]; intros r b b' Hm Hs E; [done|]. cbn [flush_loop] in E.
  destruct (flush_headers r b) as [[r1 b1]|] eqn:E1; [|done]. cbn [defined] in E. apply flush_headers_quiet in E1.
  pose proof (qu_mode _ _ E1) as Hm1. pose proof (qu_sane _ _ E1 Hs) as Hs1. destruct (flush_document (Some f) r1 b1) as [n1|] eqn:E2; [|done]. cbn [defined] in E.
  apply flush_document_tells in E2; [|congruence|done]. eapply quiet_tells; [exact E1|]. destruct n1 as [r2 b2|b2]; [|by injection E as <-].
  pose proof (qu_mode _ _ E2) as Hm2. pose proof (qu_sane _ _ E2 Hs1) as Hs2. eapply quiet_tells; [exact E2|]. destruct (len_ b2 =? 0).
  - injection E as <-. destruct (document (message b2)); [by apply tells_quiet|]. apply do_complete_tells; [congruence|done].
  - destruct (http_stream_ b2) as [s|] eqn:Eh; [|done]. destruct (Write s _) as [[[rr k] e] s'].
    assert (Hq : quiet b2 (with_http b2 (Some s'))) by (apply quiet_fields; auto; right; by rewrite Eh).
    assert (Hq2 : forall l, quiet b2 (with_buffer (with_http b2 (Some s')) l)) by (intros l; etrans; [exact Hq|]; same).
    destruct rr; try done.
    + injection E as <-. eapply quiet_tells; [exact Hq|]. apply on_stream_close_tells. by apply Hq.
    + eapply quiet_tells; [apply Hq2|eapply IH; [| |exact E]]; [cbn; congruence|by apply Hq2].
    + destruct r2; [injection E as <-; by apply tells_quiet|].
      eapply quiet_tells; [exact Hq|eapply IH; [| |exact E]]; [cbn; congruence|by apply Hq].
Qed.

(** *** Receiving *)

Lemma Process_quiet b r k e p b' : mode_ b = HM_RECV -> sane b -> @Process t (base_handler (Some f)) (parser_ b) b (buffer_ b) = Some (r, k, e, p, b') ->
  quiet b (with_buffer (with_parser b' p) (drop k (buffer_ b'))).
Proof.
  intros Hm Hs E. apply Process_frame in E. destruct E. split; [done|done|cbn; congruence|]. destruct Hs. cbn. split; cbn.
  - intros _. rewrite fr_data0. auto.
  - rewrite fr_data0, fr_mode0. auto.
  - rewrite fr_data0. auto.
  - rewrite fr_doc0; [done|exact Hplain].
Qed.
Lemma receive_loop_quiet n : forall p b r b', mode_ b = HM_RECV -> sane b -> receive_loop (Some f) n p b = Some (r, b') -> quiet b b'.
Proof.
  induction n as [|n IH]; intros p b r b' Hm Hs; cbn [receive_loop]; [by intros [= _ <-]|].
  assert (Hp : forall b0, quiet b b0 ->
    (let? (process_result, processed, error, p, t) := @Process t (base_handler (Some f)) (parser_ b0) b0 (buffer_ b0) in
     let t := with_buffer (with_parser t p) (drop processed (buffer_ t)) in
     match process_result with PR_CONTINUE => receive_loop (Some f) n true t | PR_BLOCK => Some (None, t) | PR_COMPLETE => Some (Some error, t) end) = Some (r, b') -> quiet b b').
  { intros b0 Hq. destruct (Process _ _ _) as [[[[[pr k] e] p1] b1]|] eqn:E; [|done]. apply Process_quiet in E; [|by rewrite (qu_mode _ _ Hq)|by apply Hq]. cbn zeta.
    assert (Hq1 : quiet b (with_buffer (with_parser b1 p1) (drop k (buffer_ b1)))) by by etrans.
    destruct pr; [|by intros [= _ <-]..]. intros H. etrans; [exact Hq1|]. eapply IH; [|by apply Hq1|exact H]. by rewrite (qu_mode _ _ Hq1). }
  destruct (len_ b <? kBufferSize); [|destruct p; [by intros [= _ <-]|by apply Hp]].
  destruct (http_stream_ b) as [s|] eqn:Eh; [|done]. destruct (Read s _) as [[[rr data] e] s'].
  assert (Hq : quiet b (with_http b (Some s'))) by (apply quiet_fields; auto; right; by rewrite Eh).
  assert (Hcl : forall err, quiet b (HandleStreamClose (with_http b (Some s')) err).2) by (intros err; etrans; [exact Hq|apply HandleStreamClose_quiet]).
  destruct rr.
  - specialize (Hcl e). destruct (HandleStreamClose _ e) as [he b1]. by intros [= _ <-].
  - apply Hp. etrans; [exact Hq|]. same.
  - destruct p; [by intros [= _ <-]|by apply Hp].
  - specialize (Hcl 0). destruct (HandleStreamClose _ 0) as [he b1]. by intros [= _ <-].
Qed.
Lemma read_and_process_tells b b' : mode_ b = HM_RECV -> sane b -> read_and_process_data (Some f) b = Some b' -> tells b b'.
Proof.
  intros Hm Hs. unfold read_and_process_data, DoReceiveLoop. destruct (receive_loop _ _ _ b) as [[r b1]|] eqn:E; [|done]. apply receive_loop_quiet in E; [|done..].
  pose proof (qu_mode _ _ E) as Hm1. pose proof (qu_sane _ _ E Hs) as Hs1. intros [= <-]. eapply quiet_tells; [exact E|]. destruct r; [apply complete_tells; [congruence|done]|by apply tells_quiet].
Qed.

(** *** Every operation *)

Lemma exec_tells fuel b o b' : sane b -> exec (Some f) fuel b o = Ret b' -> tells b b'.
Proof.
  intros Hs. pose proof (sa_doc _ Hs) as Hd. destruct o as [more plan|plan|more plan|plan|events error|events error]; cbn [exec].
  - intros [= <-]. apply tells_quiet; [|done]. apply quiet_fields; auto. right. cbn. by destruct (http_stream_ b).
  - intros [= <-]. apply tells_quiet; [|done]. apply quiet_fields; auto. right. cbn. by destruct (http_stream_ b).
  - intros [= <-]. apply tells_quiet; [same|done].
  - intros [= <-]. apply tells_quiet; [same|done].
  - unfold OnHttpStreamEvent. destruct (decide (mode_ b = HM_NONE)) as [E|E].
    { rewrite E, !(bool_decide_eq_false_2 (HM_NONE = _)), !andb_false_r by done. destruct (has events SE_CLOSE); intros [= <-]; [by apply on_stream_close_tells|by apply tells_quiet]. }
    destruct (_ && _); [intros [= <-]; by apply do_complete_tells|]. destruct (_ && _); [by apply flush_loop_tells|].
    destruct (has events SE_READ && _) eqn:E1.
    + apply andb_true_iff in E1 as [_ E1]. apply bool_decide_eq_true in E1. rewrite Hd. destruct (read_and_process_data _ b) as [b1|] eqn:Er; [|done]. intros [= <-]. by apply read_and_process_tells.
    + destruct (has events SE_CLOSE); intros [= <-]; [by apply on_stream_close_tells|by apply tells_quiet].
  - unfold OnDocumentEvent. destruct (doc_connected b) eqn:Ec; cbn [negb]; [|by intros [= <-]; apply tells_quiet].
    assert (Hne : mode_ b <> HM_NONE) by (apply Hs, Hs, Ec).
    destruct (has events SE_WRITE && _) eqn:E1.
    { apply andb_true_iff in E1 as [_ E1]. apply bool_decide_eq_true in E1. destruct (read_and_process_data _ b) as [b1|] eqn:Er; [|done]. intros [= <-].
      by apply read_and_process_tells. }
    clear E1. destruct (_ && _); [by apply flush_loop_tells|]. destruct (has events SE_CLOSE); intros [= <-]; [by apply do_complete_tells|by apply tells_quiet].
Qed.

(** recv and send begin a transaction or tell that the stream is closed. *)
Inductive began (mode : HttpMode) (b b' : t) : Prop :=
  | began_runs : mode_ b' = mode -> log b' = log b -> began mode b b'
  | began_ends e : mode_ b' = HM_NONE -> log b' = log b ++ [onHttpComplete mode e] -> began mode b b'
  | began_closed e : mode_ b' = HM_NONE -> log b' = log b ++ [onHttpClosed e] -> began mode b b'.
Lemma began_tells mode b b1 b' : mode <> HM_NONE -> mode_ b1 = mode -> log b1 = log b -> some (http_stream_ b1) = some (http_stream_ b) -> tells b1 b' ->
  began mode b b' /\ sane b' /\ some (http_stream_ b') = some (http_stream_ b).
Proof.
  intros Hn Hm Hl Hh [Ht Hh' Hs]. split; [|split; [done|congruence]].
  destruct Ht as [? ?|e ? ? H|e ? ? H]; [apply began_runs|apply (began_ends _ _ _ e)|]; congruence.
Qed.
Lemma not_connected_tells fuel b b' : mode_ b = HM_NONE -> sane b -> OnHttpStreamEvent (Some f) fuel b SE_CLOSE (error_code HE_DISCONNECTED) = Ret b' ->
  forall mode, began mode b b' /\ sane b' /\ some (http_stream_ b') = some (http_stream_ b).
Proof.
  intros Hm Hs E mode. apply (exec_tells fuel b (HttpEvent SE_CLOSE (error_code HE_DISCONNECTED))) in E as Ht; [|done]. destruct Ht as [Ht Hh Hs'].
  split; [|done]. unfold OnHttpStreamEvent in E. rewrite Hm, !(bool_decide_eq_false_2 (HM_NONE = _)), !andb_false_r in E by done.
  destruct Ht as [? Hl|e ? ? H|e ? ? H]; [|congruence|by apply (began_closed _ _ _ e)].
  exfalso. change (Ret (on_stream_close (Some f) b (error_code HE_DISCONNECTED)) = Ret b') in E. injection E as <-. revert Hl.
  unfold on_stream_close. pose proof (HandleStreamClose_quiet b (error_code HE_DISCONNECTED)) as Hq. destruct (HandleStreamClose b _) as [he b1]. cbn in Hq.
  rewrite (qu_mode _ _ Hq), Hm, decide_False, bool_decide_eq_true_2 by done. cbn. rewrite (qu_log _ _ Hq). intros Hx.
  apply (f_equal length) in Hx. rewrite length_app in Hx. cbn in Hx. lia.
Qed.
Lemma recv_begins fuel b d b' : mode_ b = HM_NONE -> sane b -> recv (Some f) b d fuel = Ret b' ->
  began HM_RECV b b' /\ sane b' /\ some (http_stream_ b') = some (http_stream_ b).
Proof.
  intros Hm Hs. pose proof (sa_doc _ Hs) as Hd. unfold recv. rewrite Hm, bool_decide_eq_true_2 by done. cbn [negb].
  destruct (isConnected b); cbn [negb]; [|by intros E; eapply not_connected_tells].
  match goal with |- context [read_and_process_data _ ?x] => set (b1 := x) end. cbn [doc_stream_ with_parser with_chunk with_ignore with_buffer with_message with_data with_mode].
  change (doc_stream_ b1) with (doc_stream_ b). rewrite Hd. destruct (read_and_process_data _ b1) as [b2|] eqn:Er; [|done]. intros [= <-].
  apply (began_tells _ _ b1); [done..|]. apply read_and_process_tells; [done| |done]. by split.
Qed.
Lemma send_begins fuel b d b' : mode_ b = HM_NONE -> sane b -> send (Some f) fuel b d = Ret b' ->
  began HM_SEND b b' /\ sane b' /\ some (http_stream_ b') = some (http_stream_ b).
Proof.
  intros Hm Hs. pose proof (sa_doc _ Hs) as Hd. unfold send. rewrite Hm, bool_decide_eq_true_2 by done. cbn [negb].
  destruct (isConnected b); cbn [negb]; [|by intros E; eapply not_connected_tells].
  match goal with |- context [put ?x _] => set (b1 := x) end.
  assert (H1 : mode_ b1 = HM_SEND /\ log b1 = log b /\ http_stream_ b1 = http_stream_ b /\ sane b1).
  { unfold b1. destruct (hasHeader d _), (document d); cbn; try (destruct (decide _)); repeat split; done. }
  clearbody b1. destruct H1 as (H1 & H2 & H3 & H4). destruct (let? line := formatLeader d kBufferSize in put b1 line) as [b2|] eqn:E1; [|done]. cbn [defined].
  assert (Hq1 : quiet b1 b2) by (destruct (formatLeader d kBufferSize); [|done]; by eapply put_quiet).
  destruct (put b2 _) as [b3|] eqn:E2; [|done]. cbn [defined]. apply put_quiet in E2. assert (Hq : quiet b1 (with_header b3 (headers_ d))).
  { etrans; [exact Hq1|]. etrans; [exact E2|]. same. }
  set (b4 := with_header b3 (headers_ d)) in *. assert (Hfl : forall b5, quiet b1 b5 -> flush_data (Some f) fuel b5 = Ret b' -> began HM_SEND b b' /\ sane b' /\ some (http_stream_ b') = some (http_stream_ b)).
  { intros b5 Hq5 E. apply (began_tells _ _ b1); [done..|by rewrite H3|]. eapply quiet_tells; [exact Hq5|]. apply flush_loop_tells in E; [done| |by apply Hq5].
    rewrite (qu_mode _ _ Hq5), H1. done. }
  clearbody b4. destruct (headers_ d); [|by apply Hfl]. destruct (queue_headers b4) as [[r b5]|] eqn:E3; [|done]. cbn [defined].
  apply Hfl. etrans; [exact Hq|]. by eapply queue_headers_quiet.
Qed.
End Told.

(** ** The protocol of the signals *)

(** A connection waits for a request, the application or the connection has
    a response to give, or it is gone. *)
Inductive phase := Receives | Answers | Gone.
#[export] Instance phase_dec : EqDecision phase. Proof. solve_decision. Defined.

Definition signal_id (e : signal) : option Z :=
  match e with
  | SignalHttpRequest t | SignalHttpRequestComplete t _ => Some (connection_id t)
  | SignalConnectionClosed id _ => Some id
  | SignalCloseAllComplete => None
  end.
(** What a signal does to the phase of its connection, if the protocol has
    it: a request, its completion, and the stream when the connection is
    closed. *)
Definition phase_step (p : phase) (e : signal) : option phase :=
  match e, p with
  | SignalHttpRequest _, Receives => Some Answers
  | SignalHttpRequestComplete _ _, Answers => Some Receives
  | SignalConnectionClosed _ (Some _), (Receives | Answers) => Some Gone
  | SignalCloseAllComplete, _ => Some p
  | _, _ => None
  end.
Fixpoint phases (id : Z) (p : phase) (l : list signal) : option phase :=
  match l with
  | [] => Some p
  | e :: l =>
      if decide (signal_id e = Some id) then let? p := phase_step p e in phases id p l else phases id p l
  end.
Definition phase_of (c : Connection) : phase :=
  match current_ c with
  | None => Answers
  | Some _ => if decide (mode_ (http c) = HM_SEND) then Answers else Receives
  end.
(** The phase that the state of the server says. *)
Definition server_phase (s : server) (id : Z) : phase :=
  match Find s id with
  | Some c => phase_of c
  | None => if (1 <=? id) && (id <? next_connection_id_ s) then Gone else Receives
  end.

Lemma phases_app id p l1 l2 : phases id p (l1 ++ l2) = let? p := phases id p l1 in phases id p l2.
Proof.
  revert p. induction l1 as [|e l1 IH]; intros p; [done|]. cbn [app phases]. destruct (decide _); [|apply IH].
  destruct (phase_step p e); [apply IH|done].
Qed.
Lemma phases_other id p l : Forall (fun e => signal_id e <> Some id) l -> phases id p l = Some p.
Proof. induction 1 as [|e l He _ IH]; [done|]. cbn [phases]. by rewrite decide_False. Qed.

(** *** The connections *)

Lemma find_store s c id : Find (store s c) id = if connection_id_ c =? id then (fun _ => c) <$> Find s id else Find s id.
Proof.
  unfold Find, store. cbn [connections_ with_connections]. induction (connections_ s) as [|c' l IH]; [by destruct (_ =? _)|]. cbn [map List.find].
  destruct (Z.eqb_spec (connection_id_ c') (connection_id_ c)) as [E|E].
  - rewrite E. destruct (Z.eqb_spec (connection_id_ c) id) as [E1|E1]; [done|]. exact IH.
  - destruct (Z.eqb_spec (connection_id_ c') id) as [E1|E1]; [|exact IH]. by rewrite (proj2 (Z.eqb_neq _ _)) by lia.
Qed.
Lemma find_filter l id id' : List.find (fun c => connection_id_ c =? id') (List.filter (fun c => negb (connection_id_ c =? id)) l) =
  if id' =? id then None else List.find (fun c => connection_id_ c =? id') l.
Proof.
  induction l as [|c l IH]; cbn [List.filter List.find]; [by destruct (_ =? _)|]. destruct (Z.eqb_spec (connection_id_ c) id) as [E|E]; cbn [negb].
  - rewrite IH. destruct (Z.eqb_spec id' id); [done|]. by rewrite (proj2 (Z.eqb_neq (connection_id_ c) id')) by lia.
  - cbn [List.find]. destruct (Z.eqb_spec (connection_id_ c) id') as [E1|E1]; [|exact IH]. by rewrite (proj2 (Z.eqb_neq id' id)) by lia.
Qed.
Lemma find_id s id c : Find s id = Some c -> connection_id_ c = id /\ In c (connections_ s).
Proof. intros H. apply List.find_some in H as [H1 H2]. by apply Z.eqb_eq in H2. Qed.
Lemma store_ids s c : map connection_id_ (connections_ (store s c)) = map connection_id_ (connections_ s).
Proof.
  unfold store. cbn [connections_ with_connections]. rewrite map_map. apply List.map_ext. intros c'. by destruct (Z.eqb_spec (connection_id_ c') (connection_id_ c)).
Qed.

(** The signals tell the phases, which the connections have by [P]. *)
Record server_inv (P : Connection -> phase -> Prop) (s : server) : Prop := {
  si_sorted : StronglySorted Z.lt (map connection_id_ (connections_ s));
  si_ids : Forall (fun id => 1 <= id < next_connection_id_ s) (map connection_id_ (connections_ s));
  si_next : 1 <= next_connection_id_ s;
  si_phase : forall id, match Find s id with
    | Some c => exists p, phases id Receives (signals s) = Some p /\ P c p
    | None => phases id Receives (signals s) = Some (if (1 <=? id) && (id <? next_connection_id_ s) then Gone else Receives)
    end;
  si_closing : closing_ s = true -> connections_ s <> []
}.
(** A connection, and one between two calls. *)
Definition base_ok (c : Connection) : Prop := signalling_ c = false /\ sane (http c) /\ some (http_stream_ (http c)) = true.
Definition has_transaction (c : Connection) : Prop := exists t, current_ c = Some t /\ connection_id t = connection_id_ c.
Definition at_rest (c : Connection) (p : phase) : Prop :=
  base_ok c /\ p = phase_of c /\
  match current_ c with Some t => connection_id t = connection_id_ c /\ mode_ (http c) <> HM_NONE | None => mode_ (http c) = HM_NONE end.
Definition server_ok : server -> Prop := server_inv at_rest.
(** All but this connection are at rest. *)
Definition but (id : Z) (Q : Connection -> phase -> Prop) (c : Connection) (p : phase) : Prop :=
  if connection_id_ c =? id then Q c p else at_rest c p.

Lemma inv_update P P' s c c' id l closing : server_inv P s -> Find s id = Some c -> connection_id_ c' = id ->
  closing = closing_ s -> Forall (fun e => signal_id e = Some id) l ->
  (forall p, P c p -> exists p', phases id p l = Some p' /\ P' c' p') -> (forall c p, connection_id_ c <> id -> P c p -> P' c p) ->
  server_inv P' (mkServer (connections_ (store s c')) (next_connection_id_ s) closing (signals s ++ l)).
Proof.
  intros [H1 H2 H3 H4 H5] Hf Hid -> Hl Hc Ho. set (s' := mkServer _ _ _ _). assert (Hfind : forall i, Find s' i = Find (store s c') i) by done.
  assert (Hids : map connection_id_ (connections_ s') = map connection_id_ (connections_ s)) by apply store_ids.
  split; [by rewrite Hids|by rewrite Hids|done| |].
  - intros i. rewrite Hfind, find_store, Hid. specialize (H4 i). cbn [signals s' next_connection_id_]. rewrite phases_app. destruct (Z.eqb_spec id i) as [<-|Hi].
    + rewrite Hf in *. destruct H4 as (p & -> & HP). cbn. destruct (Hc p HP) as (p' & -> & HP'). by exists p'.
    + assert (Hoth : Forall (fun e => signal_id e <> Some i) l) by (eapply List.Forall_impl; [|exact Hl]; cbn; intros e ->; congruence).
      destruct (Find s i) as [c1|] eqn:E; [|rewrite H4; by apply phases_other]. apply find_id in E as [E _]. destruct H4 as (p & -> & HP). exists p.
      split; [by apply phases_other|]. apply Ho; [lia|done].
  - intros Hcl. specialize (H5 Hcl). cbn. by destruct (connections_ s).
Qed.

Lemma EndProcess_stream c : some (http_stream_ (http c)) = true -> exists st, EndProcess c = Some st.
Proof.
  intros H. unfold EndProcess, abort. destruct (decide (mode_ (http c) = HM_NONE)) as [E|E].
  - unfold detach. rewrite decide_True by done. cbn. destruct (http_stream_ (http c)) as [st|]; [by exists st|done].
  - unfold do_complete. set (b1 := if data_ _ then _ else _).
    assert (H1 : mode_ b1 = HM_NONE /\ some (http_stream_ b1) = true) by (unfold b1; cbn; destruct (data_ (http c)); cbn; by destruct (http_stream_ (http c))).
    clearbody b1. destruct H1 as [H1 H2]. destruct (_ && _); unfold detach; cbn [mode_ emit Disconnect with_doc_stream with_data]; rewrite decide_True by done;
      cbn; (destruct (http_stream_ b1) as [st|]; [by exists st|done]).
Qed.

Lemma remove_inv id Q s : server_inv (but id Q) s -> (forall c p, connection_id_ c = id -> Q c p -> some (http_stream_ (http c)) = true /\ p <> Gone) -> server_ok (Remove s id).
Proof.
  intros [H1 H2 H3 H4 H5] HQ. unfold Remove. destruct (Find s id) as [c|] eqn:E.
  2:{ split; try done. intros i. specialize (H4 i). destruct (Find s i) as [c|] eqn:Ei; [|done]. destruct H4 as (p & Hp & HP). exists p. split; [done|].
      unfold but in HP. apply find_id in Ei as Ei2. destruct Ei2 as [Hi _]. destruct (Z.eqb_spec (connection_id_ c) id) as [Hc|Hc]; [|done]. congruence. }
  pose proof (find_id _ _ _ E) as [Hid Hin]. pose proof (H4 id) as Hc. rewrite E in Hc. destruct Hc as (p & Hp & HP). unfold but in HP. rewrite Hid, Z.eqb_refl in HP.
  apply HQ in HP as [Hs Hg]; [|done]. destruct (EndProcess_stream c Hs) as [st ->].
  set (l := List.filter _ _).
  assert (Hsub : map connection_id_ l = List.filter (fun i => negb (i =? id)) (map connection_id_ (connections_ s))).
  { unfold l. generalize (connections_ s). intros cs. induction cs as [|c' cs IH]; [done|]. cbn [List.filter map]. destruct (negb _); cbn [map]; by rewrite IH. }
  assert (Hinv : forall closing tail, (tail = [] \/ tail = [SignalCloseAllComplete]) -> (closing = true -> l <> []) ->
    server_ok (mkServer l (next_connection_id_ s) closing (signals s ++ [SignalConnectionClosed id (Some st)] ++ tail))).
  { intros closing tail Ht Hcl. split; cbn [connections_ next_connection_id_ closing_ signals]; [| |done| |done].
    - rewrite Hsub. clear -H1. induction H1 as [|i is_ _ IH Hall]; [constructor|]. cbn [List.filter]. destruct (negb _); [|done]. constructor; [done|].
      clear -Hall. induction Hall; cbn [List.filter]; [done|]. destruct (negb _); [by constructor|done].
    - rewrite Hsub. clear -H2. induction H2; cbn [List.filter]; [done|]. destruct (negb _); [by constructor|done].
    - intros i. unfold Find. cbn [connections_]. unfold l. rewrite find_filter. fold (Find s i). specialize (H4 i). rewrite phases_app.
      assert (Htail : forall p, phases i p tail = Some p) by (intros p0; destruct Ht as [-> | ->]; [done|]; cbn [phases signal_id]; by rewrite decide_False).
      destruct (Z.eqb_spec i id) as [->|Hi].
      + rewrite Hp. cbn [app phases signal_id]. rewrite decide_True by done. cbn. rewrite Forall_forall in H2.
        assert (Hb : 1 <= id < next_connection_id_ s) by (apply H2, list_elem_of_In, List.in_map_iff; by exists c).
        rewrite (proj2 (Z.leb_le _ _)), (proj2 (Z.ltb_lt _ _)) by lia. destruct p; [apply Htail..|done].
      + assert (Hskip : forall p, phases i p ([SignalConnectionClosed id (Some st)] ++ tail) = Some p).
        { intros p0. cbn [app phases signal_id]. rewrite decide_False by congruence. apply Htail. }
        destruct (Find s i) as [c1|] eqn:Ei; [|by rewrite H4; apply Hskip]. destruct H4 as (p1 & -> & HP1). exists p1. split; [apply Hskip|].
        apply find_id in Ei as [Ei _]. unfold but in HP1. by rewrite (proj2 (Z.eqb_neq _ _)) in HP1 by lia. }
  clearbody l. clear Hsub. cbn [closing_ connections_ raise with_connections]. destruct (closing_ s) eqn:Ecl; [destruct l as [|c1 l']|].
  - unfold raise, with_closing. cbn [connections_ next_connection_id_ closing_ signals with_connections]. rewrite <- app_assoc. apply (Hinv false [SignalCloseAllComplete]); [by right|done].
  - specialize (Hinv true [] ltac:(by left) ltac:(done)). unfold raise, with_connections. cbn. rewrite Ecl. by rewrite app_nil_r in Hinv.
  - specialize (Hinv false [] ltac:(by left) ltac:(done)). unfold raise, with_connections. cbn. rewrite Ecl. by rewrite app_nil_r in Hinv.
Qed.

(** *** The calls of a base *)

Section Serving.
Context (request_header : Z -> HttpVersion -> leader_data -> HeaderMap -> option (option Stream)).
Context (completes_with_close : HttpServerTransaction -> HttpError -> bool) (fuel : nat).

Lemma callback_plain id : notify_plain (Some (onHttpHeaderComplete request_header id)).
Proof. intros f v l h c n [= <-]. unfold onHttpHeaderComplete. by destruct (request_header id v l h). Qed.

Definition mode_phase (mode : HttpMode) : phase := if decide (mode = HM_SEND) then Answers else Receives.
Lemma mode_phase_here mode : mode_phase mode <> Gone.
Proof. unfold mode_phase. by destruct (decide _). Qed.
(** A connection that has a transaction of this phase; one whose base has
    ended what it did. *)
Definition holding (mode : HttpMode) (c : Connection) (p : phase) : Prop := base_ok c /\ has_transaction c /\ p = mode_phase mode.
Definition ended (mode : HttpMode) (c : Connection) (p : phase) : Prop := holding mode c p /\ mode_ (http c) = HM_NONE.
Definition hung_up (c : Connection) (p : phase) : Prop := base_ok c /\ p <> Gone.

(** What is left to be answered, and how long that takes. *)
Inductive owes (s : server) (id : Z) : list event -> nat -> Prop :=
  | owes_nothing : server_ok s -> owes s id [] 0
  | owes_complete mode e c : server_inv (but id (ended mode)) s -> Find s id = Some c -> mode <> HM_NONE ->
      owes s id [onHttpComplete mode e] (if decide (mode = HM_RECV) then 1 else 2)
  | owes_closed e : server_inv (but id hung_up) s -> owes s id [onHttpClosed e] 1.

Lemma but_same id Q c p : connection_id_ c = id -> but id Q c p = Q c p.
Proof. unfold but. intros ->. by rewrite Z.eqb_refl. Qed.
Lemma but_other id Q c p : connection_id_ c <> id -> but id Q c p = at_rest c p.
Proof. unfold but. intros H. by rewrite (proj2 (Z.eqb_neq _ _)). Qed.

Lemma update_ok P' s c c' id Q : server_inv (but id Q) s -> Find s id = Some c -> connection_id_ c' = id ->
  (forall p, Q c p -> P' c' p) -> (forall c p, connection_id_ c <> id -> at_rest c p -> P' c p) -> server_inv P' (store s c').
Proof.
  intros Hi Hf Hid Hc Ho. pose proof (find_id _ _ _ Hf) as [Hid0 _].
  pose proof (inv_update _ P' s c c' id [] (closing_ s) Hi Hf Hid eq_refl) as H. rewrite app_nil_r in H. apply H; [done| |].
  - intros p. rewrite but_same by done. exists p. by split; [|apply Hc].
  - intros c1 p1 Hne. rewrite but_other by done. by apply Ho.
Qed.
Lemma find_stored s c c' id : Find s id = Some c -> connection_id_ c' = id -> Find (store s c') id = Some c'.
Proof. intros Hf Hid. by rewrite find_store, Hid, Z.eqb_refl, Hf. Qed.
Lemma drop_log {A} (l : list A) e : drop (length l) (l ++ [e]) = [e].
Proof. by rewrite drop_app_length. Qed.

(** A transaction begins. *)
Lemma call_began s c id mode f s' events : server_inv (but id (ended mode)) s -> Find s id = Some c -> mode <> HM_NONE -> mode <> HM_CONNECT ->
  (forall b', f (http c) = Ret b' -> began mode (http c) b' /\ sane b' /\ some (http_stream_ b') = some (http_stream_ (http c))) ->
  call s c f = Ret (s', events) -> exists n, owes s' id events n /\ (n <= (if decide (mode = HM_RECV) then 1 else 2))%nat.
Proof.
  intros Hi Hf Hn Hn2 Hcall. unfold call. destruct (f (http c)) as [b'| |] eqn:Ef; [|done..]. cbn [bind]. intros [= <- <-].
  destruct (Hcall b' eq_refl) as (Hb & Hs & Hh). pose proof (find_id _ _ _ Hf) as [Hid _].
  assert (Hc : forall p, ended mode c p -> holding mode (with_base c b') p).
  { intros p (((Hsig & _ & Hhs) & Ht & Hp) & _). split; [|done]. split; [done|]. split; [done|]. cbn. congruence. }
  assert (Hupd : mode_ b' = HM_NONE -> server_inv (but id (ended mode)) (store s (with_base c b'))).
  { intros Hm. eapply update_ok; [exact Hi|exact Hf|done| |intros; by rewrite but_other]. intros p Hp. rewrite but_same by done. split; [by apply Hc|done]. }
  destruct Hb as [Hm Hl|e Hm Hl|e Hm Hl]; rewrite Hl.
  - exists 0%nat. rewrite drop_all. split; [|lia]. apply owes_nothing. eapply update_ok; [exact Hi|exact Hf|done| |done].
    intros p Hp. apply Hc in Hp as (Hb & (t & Ht & Hti) & ->). split; [done|]. rewrite Ht. split; [|split; [done|cbn; congruence]].
    unfold phase_of. rewrite Ht. cbn. by rewrite Hm.
  - rewrite drop_log. eexists. split; [eapply owes_complete; [by apply Hupd|by eapply find_stored|done]|done].
  - rewrite drop_log. exists 1%nat. split; [|destruct (decide _); lia]. apply owes_closed. eapply update_ok; [exact Hi|exact Hf|done| |intros; by rewrite but_other].
    intros p Hp. rewrite but_same by done. apply Hc in Hp as (Hb & _ & ->). split; [done|apply mode_phase_here].
Qed.
Lemma begin_recv_owes s c id s' events : server_inv (but id (ended HM_RECV)) s -> Find s id = Some c ->
  begin_recv request_header fuel s c = Ret (s', events) -> exists n, owes s' id events n /\ (n <= 1)%nat.
Proof.
  intros Hi Hf E. unfold begin_recv in E. destruct (current_ c) as [t|]; [|done].
  assert (Hc : ended HM_RECV c (mode_phase HM_RECV)).
  { pose proof (si_phase _ _ Hi id) as H. rewrite Hf in H. destruct H as (p & _ & H). rewrite but_same in H by apply (find_id _ _ _ Hf). assert (p = mode_phase HM_RECV) as <- by apply H. done. }
  apply (call_began s c id HM_RECV) in E; [exact E|exact Hi|exact Hf|done|done|]. intros b'. cbn beta. destruct Hc as (((_ & Hs & _) & _) & Hm). by apply recv_begins; [apply callback_plain|..].
Qed.

(** *** The handlers *)

Lemma store_store s c c' : connection_id_ c = connection_id_ c' -> store (store s c) c' = store s c'.
Proof.
  intros H. unfold store. cbn. unfold with_connections. cbn. f_equal. rewrite map_map. apply List.map_ext. intros c0. rewrite <- H.
  destruct (Z.eqb_spec (connection_id_ c0) (connection_id_ c)) as [E|E]; [by rewrite Z.eqb_refl|]. by rewrite (proj2 (Z.eqb_neq _ _)).
Qed.
Lemma store_same s c : Find s (connection_id_ c) = Some c -> StronglySorted Z.lt (map connection_id_ (connections_ s)) -> store s c = s.
Proof.
  unfold Find, store, with_connections. intros Hf Hs. destruct s as [cs next cl sg]. cbn in *. f_equal. induction cs as [|c0 cs IH]; [done|].
  cbn [map List.find] in *. inversion Hs as [|? ? Hs' Hall]; subst. destruct (Z.eqb_spec (connection_id_ c0) (connection_id_ c)) as [E|E]; [|by rewrite IH].
  injection Hf as ->. f_equal. rewrite <- (List.map_id cs) at 2. apply List.map_ext_in. intros c1 Hin. rewrite (proj2 (Z.eqb_neq _ _)); [done|].
  rewrite Forall_forall in Hall. specialize (Hall (connection_id_ c1)). assert (connection_id_ c < connection_id_ c1); [|lia]. apply Hall, list_elem_of_In, List.in_map_iff. by exists c1.
Qed.

Lemma onHttpComplete_owes s c id mode e s' events : server_inv (but id (ended mode)) s -> Find s id = Some c -> mode <> HM_NONE ->
  onHttpComplete_ request_header completes_with_close fuel s c mode e = Ret (s', events) ->
  exists n, owes s' id events n /\ (n < (if decide (mode = HM_RECV) then 1 else 2))%nat.
Proof.
  intros Hi Hf Hn. pose proof (find_id _ _ _ Hf) as [Hid _].
  assert (Hc : exists t, ended mode c (mode_phase mode) /\ current_ c = Some t /\ connection_id t = id).
  { pose proof (si_phase _ _ Hi id) as H. rewrite Hf in H. destruct H as (p & _ & H). rewrite but_same in H by done.
    assert (p = mode_phase mode) as -> by apply H. destruct H as ((Hb & (t & Ht & Hti) & Hp) & Hm). exists t. split; [|split; [done|congruence]]. split; [|done]. split; [done|]. split; [|done]. by exists t. }
  destruct Hc as (t & Hc & Ht & Hti). unfold onHttpComplete_.
  assert (Hsent : exists s1 c1 err, complete_send completes_with_close s c mode e = Some (s1, c1, err) /\
    server_inv (but id (ended (if decide (mode = HM_SEND) then HM_RECV else mode))) s1 /\ Find s1 id = Some c1 /\
     (exists t, current_ c1 = Some t /\ connection_id t = id)).
  { unfold complete_send. destruct (decide (mode = HM_SEND)) as [Em|Em]; [|by exists s, c, e; split; [done|split; [exact Hi|split; [exact Hf|by exists t]]]]. rewrite Ht. cbn zeta.
    set (t1 := with_response t _). set (c1 := with_signalling (with_current c (Some t1)) true).
    set (c3 := mkConnection id (http c) (Some t1) false (if completes_with_close t1 e then true else close_ c)).
    assert (Hst : exists c2, Find (signal_complete completes_with_close (store s c1) c1 t1 e) id = Some c2 /\ with_signalling c2 false = c3 /\
      store (signal_complete completes_with_close (store s c1) c1 t1 e) c3 = raise (store s c3) (SignalHttpRequestComplete t1 e)).
    { unfold signal_complete. destruct (completes_with_close t1 e).
      - exists (with_close c1 true). unfold InitiateClose. cbn [signalling_ c1 with_signalling negb andb]. split; [|split].
        + change (raise (store s c1) (SignalHttpRequestComplete t1 e)) with (store (raise s (SignalHttpRequestComplete t1 e)) c1).
          eapply find_stored; [by eapply find_stored|done].
        + unfold c3. by rewrite <- Hid.
        + rewrite store_store by done. change (raise (store s c1) (SignalHttpRequestComplete t1 e)) with (store (raise s (SignalHttpRequestComplete t1 e)) c1). by rewrite store_store.
      - exists c1. split; [by eapply find_stored|]. split; [unfold c3; by rewrite <- Hid|].
        change (raise (store s c1) (SignalHttpRequestComplete t1 e)) with (store (raise s (SignalHttpRequestComplete t1 e)) c1). by rewrite store_store. }
    cbn zeta. change (connection_id_ c1) with (connection_id_ c). rewrite Hid. destruct Hst as (c2 & -> & -> & ->). eexists _, c3, _. split; [reflexivity|]. split; [|split; [by eapply (find_stored (raise s _))|by exists t1]].
    eapply (inv_update _ _ s c c3 id [SignalHttpRequestComplete t1 e] _ Hi Hf); [done|done|repeat constructor; cbn; by rewrite Hti| |intros c0 p0 Hne; by rewrite !but_other].
    intros p Hp. rewrite but_same in Hp by done. exists Receives. rewrite but_same by done. destruct Hp as (((_ & Hs & Hh) & _ & ->) & Hm). unfold mode_phase. rewrite decide_True by done. split.
    + cbn [phases signal_id]. by rewrite decide_True by (cbn; congruence).
    + split; [|done]. split; [done|]. split; [|done]. by exists t1. }
  destruct Hsent as (s1 & c1 & err & -> & Hi1 & Hf1 & (t1 & Ht1 & Hti1)). cbn [defined].
  pose proof (find_id _ _ _ Hf1) as [Hid1 _].
  destruct (decide (err = HE_NONE)) as [->|He].
  2:{ rewrite bool_decide_eq_false_2 by done. cbn [negb]. intros [= <- <-]. exists 0%nat. split; [|destruct (decide (mode = HM_RECV)); lia]. apply owes_nothing. rewrite Hid1.
      eapply remove_inv; [exact Hi1|]. intros c0 p0 _ (((_ & _ & Hh) & _ & ->) & _). split; [done|apply mode_phase_here]. }
  rewrite bool_decide_eq_true_2 by done. cbn [negb]. destruct mode; [done| | |].
  - intros E. apply (begin_recv_owes _ _ id) in E; [|exact Hi1|done]. destruct E as (n & ? & ?). exists n. split; [done|]. rewrite decide_False by done. lia.
  - rewrite Ht1. intros [= <- <-]. exists 0%nat. split; [|rewrite decide_True by done; lia]. apply owes_nothing.
    eapply (inv_update _ _ s1 c1 (with_current c1 None) id [SignalHttpRequest _] _ Hi1 Hf1); [done|done|repeat constructor; cbn; by rewrite Hti1| |intros c0 p0 Hne; by rewrite but_other].
    intros p Hp. rewrite but_same in Hp by done. exists Answers. destruct Hp as ((Hb & _ & ->) & Hm). split; [|by split].
    cbn [phases signal_id]. by rewrite decide_True by (cbn; congruence).
  - rewrite Ht1. set (t2 := mkTransaction _ _ _). intros E. apply (begin_recv_owes _ _ id) in E.
    + destruct E as (n & ? & ?). exists n. split; [done|]. rewrite decide_False by done. lia.
    + eapply update_ok; [exact Hi1|exact Hf1|done| |intros c0 p0 Hne; by rewrite but_other]. intros p ((Hb & _ & ->) & Hm). rewrite but_same by done.
      split; [|done]. split; [done|]. split; [|done]. exists t2. split; [done|]. cbn. by rewrite Hti1, Hid1.
    + by eapply find_stored.
Qed.

Lemma recv_turns id b d : recv (Some (onHttpHeaderComplete request_header id)) b d fuel <> Spins.
Proof.
  unfold recv. destruct (decide (mode_ b = HM_NONE)) as [E|E]; [|by rewrite bool_decide_eq_false_2].
  rewrite bool_decide_eq_true_2 by done. cbn [negb]. destruct (isConnected b); cbn [negb].
  - destruct (doc_stream_ _); [done|]. by destruct (read_and_process_data _ _).
  - unfold OnHttpStreamEvent. rewrite E, !(bool_decide_eq_false_2 (HM_NONE = _)), !andb_false_r by done. by destruct (negb _).
Qed.
Lemma begin_recv_turns s c : begin_recv request_header fuel s c <> Spins.
Proof.
  unfold begin_recv, call. destruct (current_ c) as [t|]; [|done]. pose proof (recv_turns (connection_id_ c) (http c) (request t)) as H. by destruct (recv _ _ _ _).
Qed.

(** What a base has told its connection is answered within the turns. *)
Lemma notified_ok k : forall s id events n, owes s id events n -> (n <= k)%nat ->
  match notified request_header completes_with_close fuel k s id events with Ret s' => server_ok s' | Spins => False | Undefined => True end.
Proof.
  induction k as [|k IH]; intros s id events n Ho Hn.
  { destruct Ho as [H|mode e c Hi Hf Hm|e Hi]; [done|destruct (decide _); lia|lia]. }
  destruct Ho as [H|mode e c Hi Hf Hm|e Hi]; [done|cbn [notified]..].
  - rewrite Hf. pose proof (onHttpComplete_owes s c id mode e) as Hc. destruct (onHttpComplete_ _ _ _ s c mode e) as [[s1 more]| |] eqn:E; cbn [bind]; [| |done].
    + destruct (Hc s1 more Hi Hf Hm eq_refl) as (n1 & Ho & Hn1). rewrite app_nil_r. eapply IH; [exact Ho|]. lia.
    + unfold onHttpComplete_ in E. destruct (complete_send _ s c mode e) as [[[s1 c1] err]|]; [|done]. cbn [defined] in E. destruct (negb _); [done|].
      destruct mode; [done|by destruct (begin_recv_turns _ _ E)|by destruct (current_ c1)|]. destruct (current_ c1); [by destruct (begin_recv_turns _ _ E)|done].
  - assert (Hr : server_ok (Remove s id)) by (eapply remove_inv; [exact Hi|]; intros c0 p0 _ ((_ & _ & ?) & ?); done).
    destruct (Find s id) as [c|] eqn:Ef; [|by unfold Remove in Hr; rewrite Ef in Hr]. cbn [bind app]. unfold onHttpClosed_. rewrite (proj1 (find_id _ _ _ Ef)). by destruct k.
Qed.
Lemma run_call_ok id r : (forall s events, r = Ret (s, events) -> exists n, owes s id events n /\ (n <= turns)%nat) ->
  forall s', run_call request_header completes_with_close fuel id r = Ret s' -> server_ok s'.
Proof.
  intros H s'. unfold run_call. destruct r as [[s events]| |]; [|done..]. cbn [bind]. destruct (H s events eq_refl) as (n & Ho & Hn). intros E.
  pose proof (notified_ok turns s id events n Ho Hn) as Hk. by rewrite E in Hk.
Qed.

(** *** The operations *)

Lemma ok_but s id : server_ok s -> server_inv (but id at_rest) s.
Proof.
  intros [H1 H2 H3 H4 H5]. split; try done. intros i. specialize (H4 i). destruct (Find s i); [|done]. unfold but. by destruct (_ =? _).
Qed.
Lemma ok_rest s id c : server_ok s -> Find s id = Some c -> exists p, at_rest c p.
Proof. intros Hs Hf. pose proof (si_phase _ _ Hs id) as H. rewrite Hf in H. destruct H as (p & _ & H). by exists p. Qed.

Lemma find_in s c : StronglySorted Z.lt (map connection_id_ (connections_ s)) -> In c (connections_ s) -> Find s (connection_id_ c) = Some c.
Proof.
  unfold Find. induction (connections_ s) as [|c0 cs IH]; [done|]. cbn [map List.find]. intros Hs. inversion Hs as [|? ? Hs' Hall]; subst. intros [->|Hin]; [by rewrite Z.eqb_refl|].
  rewrite Forall_forall in Hall. assert (Hlt : connection_id_ c0 < connection_id_ c) by (apply Hall, list_elem_of_In, List.in_map_iff; by exists c).
  rewrite (proj2 (Z.eqb_neq _ _)) by lia. by apply IH.
Qed.

Lemma InitiateClose_ok s c id force : server_ok s -> Find s id = Some c -> server_ok (InitiateClose s c force).
Proof.
  intros Hs Hf. pose proof (find_id _ _ _ Hf) as [Hid _]. unfold InitiateClose. rewrite Hid. destruct (_ && _).
  - eapply remove_inv; [by apply ok_but|]. intros c0 p0 _ ((_ & _ & Hh) & -> & _). split; [done|]. unfold phase_of. destruct (current_ c0); [|done]. by destruct (decide _).
  - eapply update_ok; [by apply (ok_but _ id)|exact Hf|done|done|done].
Qed.
Lemma Close_ok s id force : server_ok s -> server_ok (Close s id force).
Proof. intros Hs. unfold Close. destruct (Find s id) eqn:E; [by eapply InitiateClose_ok|done]. Qed.
Lemma CloseAll_ok s force : server_ok s -> server_ok (CloseAll s force).
Proof.
  intros Hs. unfold CloseAll. destruct (connections_ s) as [|c cs] eqn:Ec.
  - destruct Hs as [H1 H2 H3 H4 H5]. split; try done. intros i. specialize (H4 i). change (Find (raise s _) i) with (Find s i). cbn [signals raise].
    assert (Hp : phases i Receives (signals s ++ [SignalCloseAllComplete]) = phases i Receives (signals s)).
    { rewrite phases_app. destruct (phases i Receives (signals s)); [|done]. apply phases_other. by repeat constructor. }
    by rewrite Hp.
  - generalize (map connection_id_ (c :: cs)). intros ids. assert (Hs' : server_ok (with_closing s true)) by (destruct Hs; split; try done; intros _; cbn; by rewrite Ec).
    clear Ec Hs. revert Hs'. generalize (with_closing s true). induction ids as [|i ids IH]; intros s' Hs'; [done|]. cbn [fold_left]. apply IH.
    destruct (Find s' i) eqn:E; [by eapply InitiateClose_ok|done].
Qed.
Lemma stream_op_ok s id o s' : server_ok s -> stream_op request_header completes_with_close fuel s id o = Ret s' -> server_ok s'.
Proof.
  intros Hs. unfold stream_op. destruct (Find s id) as [c|] eqn:Ef; [|by intros [= <-]]. apply run_call_ok. clear s'. intros s' events.
  unfold call. destruct (exec _ fuel (http c) o) as [b'| |] eqn:E; [|done..]. cbn [bind]. intros [= <- <-]. pose proof (find_id _ _ _ Ef) as [Hid _].
  destruct (ok_rest s id c Hs Ef) as (p & (Hsig & Hsane & Hh) & Hp & Hc). apply exec_tells in E as [Ht Hh' Hs']; [|apply callback_plain|done].
  assert (Hb : base_ok (with_base c b')) by (split; [done|]; split; [done|cbn; congruence]).
  destruct Ht as [Hm Hl|e Hn Hm Hl|e Hn Hm Hl]; rewrite Hl.
  - exists 0%nat. rewrite drop_all. split; [|unfold turns; lia]. apply owes_nothing. eapply update_ok; [by apply (ok_but _ id)|exact Ef|done| |done].
    intros p0 (_ & -> & Hc0). split; [done|]. unfold phase_of. cbn [current_ with_base http]. by rewrite Hm.
  - rewrite drop_log. destruct (current_ c) as [t|] eqn:Et; [|congruence]. eexists. split.
    + eapply owes_complete; [|by eapply find_stored|done]. eapply update_ok; [by apply (ok_but _ id)|exact Ef|done| |intros; by rewrite but_other].
      intros p0 (_ & -> & _). rewrite but_same by done. split; [|done]. split; [done|]. split; [by exists t; destruct Hc|]. unfold phase_of, mode_phase. by rewrite Et.
    + unfold turns. destruct (decide _); lia.
  - rewrite drop_log. exists 1%nat. split; [|unfold turns; lia]. apply owes_closed. eapply update_ok; [by apply (ok_but _ id)|exact Ef|done| |intros; by rewrite but_other].
    intros p0 (_ & -> & _). rewrite but_same by done. split; [done|]. unfold phase_of. destruct (current_ c); [|done]. by destruct (decide _).
Qed.
Lemma Respond_ok s t s' : server_ok s -> Respond request_header completes_with_close fuel s t = Ret s' -> server_ok s'.
Proof.
  intros Hs. unfold Respond. destruct (Find s (connection_id t)) as [c|] eqn:Ef; [|by intros [= <-]]. apply run_call_ok. clear s'. intros s' events.
  pose proof (find_id _ _ _ Ef) as [Hid _]. rewrite Hid. unfold respond. destruct (current_ c) eqn:Et; [done|].
  set (r := setHeader _ _ _ _). set (c' := with_close _ _). intros E.
  destruct (ok_rest s _ c Hs Ef) as (p & (Hsig & Hsane & Hh) & _ & Hc). rewrite Et in Hc.
  assert (Hi : server_inv (but (connection_id t) (ended HM_SEND)) (store s c')).
  { eapply update_ok; [by apply (ok_but _ (connection_id t))|exact Ef|done| |intros; by rewrite but_other]. intros p0 (Hb & -> & _). rewrite but_same by done.
    split; [|done]. split; [done|]. split; [by eexists|]. unfold phase_of. by rewrite Et. }
  eapply (call_began (store s c') c' _ HM_SEND) in E; [|exact Hi|by eapply find_stored|done|done|].
  - destruct E as (n & Ho & Hn). exists n. split; [done|]. unfold turns. destruct (decide _); lia.
  - intros b'. apply send_begins; [|done..]. apply callback_plain.
Qed.
Lemma HandleConnection_ok s stream s' : server_ok s -> HandleConnection request_header completes_with_close fuel s stream = Ret s' -> server_ok s'.
Proof.
  intros Hs. unfold HandleConnection. apply run_call_ok. clear s'. intros s' events. unfold BeginProcess. set (id := next_connection_id_ s).
  set (b := with_mode (with_http init (Some stream)) (match state stream with SS_OPENING => HM_CONNECT | _ => HM_NONE end)).
  assert (Hat : attach (HttpServer.http (mkConnection id init None false false)) stream = (true, b)) by done. rewrite Hat. cbn [connection_id_].
  set (s0 := mkServer _ _ _ _). set (c := with_current _ _).
  assert (Hnew : Find s id = None).
  { destruct (Find s id) as [c0|] eqn:E; [|done]. apply find_id in E as [E Hin]. pose proof (si_ids _ _ Hs) as H. rewrite Forall_forall in H.
    assert (Hlt : 1 <= connection_id_ c0 < id); [|lia]. apply H, list_elem_of_In, List.in_map_iff. by exists c0. }
  assert (Hfind : forall i, Find s0 i = match Find s i with Some c => Some c | None => if id =? i then Some (mkConnection id init None false false) else None end).
  { intros i. unfold Find, s0. cbn [connections_]. induction (connections_ s) as [|c0 l IH]; [done|]. cbn [app List.find]. destruct (connection_id_ c0 =? i); [done|exact IH]. }
  assert (Hi0 : server_inv (but id (fun _ p => p = Receives)) s0).
  { destruct Hs as [H1 H2 H3 H4 H5]. split.
    - cbn [s0 connections_]. rewrite map_app. apply StronglySorted_app_2; [|done|repeat constructor].
      intros x y Hx Hy. rewrite Forall_forall in H2. apply H2 in Hx. apply list_elem_of_singleton in Hy as ->. cbn. unfold id. lia.
    - cbn [s0 connections_ next_connection_id_]. rewrite map_app. apply Forall_app_2; [|repeat constructor; cbn; unfold id; lia].
      eapply List.Forall_impl; [|exact H2]. cbn. unfold id. lia.
    - cbn. unfold id. lia.
    - intros i. specialize (H4 i). rewrite Hfind. cbn [s0 signals next_connection_id_]. destruct (Find s i) as [c0|] eqn:E.
      + destruct H4 as (p & Hp & HP). exists p. split; [done|]. rewrite but_other; [done|]. apply find_id in E as E2. destruct E2 as [-> _]. intros ->. congruence.
      + rewrite H4. destruct (Z.eqb_spec id i) as [<-|Hne].
        * exists Receives. split; [|by rewrite but_same]. unfold id. by rewrite Z.ltb_irrefl, andb_false_r.
        * do 2 f_equal. destruct (1 <=? i); [|done]. cbn [andb]. unfold id in *. destruct (Z.ltb_spec i (next_connection_id_ s)), (Z.ltb_spec i (next_connection_id_ s + 1)); try done; lia.
    - intros Hcl. cbn. by destruct (connections_ s). }
  assert (Hf0 : Find s0 id = Some (mkConnection id init None false false)) by by rewrite Hfind, Hnew, Z.eqb_refl.
  assert (Hsane : sane b) by (split; cbn; try done; by destruct (state stream)).
  assert (Hmode : mode_ b = HM_CONNECT \/ mode_ b = HM_NONE) by (cbn; destruct (state stream); auto).
  destruct Hmode as [Hm|Hm]; rewrite Hm; [rewrite bool_decide_eq_true_2 by done|rewrite bool_decide_eq_false_2 by done]; cbn [negb].
  - intros [= <- <-]. exists 0%nat. split; [|unfold turns; lia]. apply owes_nothing. eapply update_ok; [exact Hi0|exact Hf0|done| |done].
    intros p ->. split; [done|]. unfold phase_of, c. cbn [current_ with_current http with_base]. rewrite Hm. split; [done|]. by split.
  - intros E. apply (begin_recv_owes _ _ id) in E; [destruct E as (n & Ho & Hn); exists n; split; [done|unfold turns; lia]| |by eapply find_stored].
    eapply update_ok; [exact Hi0|exact Hf0|done| |intros; by rewrite but_other]. intros p ->. rewrite but_same by done. split; [|done]. split; [done|]. split; [by eexists|done].
Qed.

Lemma server_ok_start : server_ok HttpServer.
Proof. split; try done; [constructor|]. intros id. cbn. destruct (Z.leb_spec 1 id), (Z.ltb_spec id 1); try done; lia. Qed.
Lemma server_exec_ok s o s' : server_ok s -> server_exec request_header completes_with_close fuel s o = Ret s' -> server_ok s'.
Proof.
  intros Hs. destruct o as [stream|t|id force|force|id o]; cbn [server_exec].
  - by apply HandleConnection_ok.
  - by apply Respond_ok.
  - intros [= <-]. by apply Close_ok.
  - intros [= <-]. by apply CloseAll_ok.
  - by apply stream_op_ok.
Qed.
Lemma server_run_ok ops : forall s s', server_ok s -> server_run request_header completes_with_close fuel s ops = Ret s' -> server_ok s'.
Proof.
  induction ops as [|o ops IH]; intros s s' Hs; cbn [server_run]; [by intros [= <-]|]. destruct (server_exec _ _ _ s o) as [s1| |] eqn:E; cbn [bind]; [|done..].
  apply IH. by eapply server_exec_ok.
Qed.
End Serving.

(** ** The theorems *)

(** C32: In every run of a server - connections, responses, closes and whatever
    the streams of the connections do - the signals of each connection are
    requests and their completions in turn and then one close that hands back
    the stream; the state of a connection is the one its signals say, a
    connection is without a transaction exactly when its base is idle, the ids
    are in order, and a server that is closing has connections left. *)
Theorem http_server_protocol request_header completes_with_close fuel ops s :
  server_run request_header completes_with_close fuel HttpServer ops = Ret s ->
  (forall id, phases id Receives (signals s) = Some (server_phase s id)) /\
  StronglySorted Z.lt (map connection_id_ (connections_ s)) /\
  Forall (fun c => signalling_ c = false /\ (current_ c = None <-> mode_ (http c) = HM_NONE) /\
    (forall t, current_ c = Some t -> connection_id t = connection_id_ c)) (connections_ s) /\
  (closing_ s = true -> connections_ s <> []).
Proof.
  intros E. apply server_run_ok in E; [|apply server_ok_start]. pose proof E as [H1 H2 H3 H4 H5]. split; [|split; [done|split; [|done]]].
  - intros id. unfold server_phase. specialize (H4 id). destruct (Find s id) as [c|]; [|done]. destruct H4 as (p & Hp & Hr). destruct Hr as (_ & Hr & _). by rewrite <- Hr.
  - apply List.Forall_forall. intros c Hin. pose proof (find_in s c H1 Hin) as Hf. destruct (ok_rest s _ c E Hf) as (p & (Hsig & _) & _ & Hc).
    split; [done|]. destruct (current_ c) as [t|]; [destruct Hc as [Hid Hm]|by split; [split|]]. split; [by split|]. by intros ? [= <-].
Qed.

Lemma close_all_loop cs : forall s closed, connections_ s = cs -> cs <> [] -> StronglySorted Z.lt (map connection_id_ cs) -> closing_ s = true ->
  Forall (fun c => signalling_ c = false) cs -> closed = map (fun c => SignalConnectionClosed (connection_id_ c) (EndProcess c)) cs ->
  fold_left (fun s id => match Find s id with Some c => InitiateClose s c true | None => s end) (map connection_id_ cs) s =
    mkServer [] (next_connection_id_ s) false (signals s ++ closed ++ [SignalCloseAllComplete]).
Proof.
  induction cs as [|c cs IH]; intros s closed Hcs Hne Hsort Hcl Hsig ->; [done|]. cbn [map fold_left]. apply Forall_cons in Hsig as [Hc Hsig].
  inversion Hsort as [|? ? Hsort' Hall]; subst. unfold Find at 2. rewrite Hcs. cbn [List.find]. rewrite Z.eqb_refl. unfold InitiateClose. rewrite Hc. cbn [negb orb andb].
  assert (Hf : List.filter (fun c0 => negb (connection_id_ c0 =? connection_id_ c)) cs = cs).
  { clear -Hall. induction cs as [|c0 cs IH]; [done|]. cbn [map List.filter] in *. apply Forall_cons in Hall as [H1 H2]. rewrite (proj2 (Z.eqb_neq _ _)) by lia. cbn [negb]. by rewrite IH. }
  unfold Remove, Find. rewrite Hcs. cbn [List.find List.filter]. rewrite Z.eqb_refl. cbn [negb]. rewrite Hf. cbn [closing_ connections_ raise with_connections]. rewrite Hcl.
  destruct cs as [|c1 cs]; [unfold raise, with_closing; cbn; by rewrite <- app_assoc|].
  etrans; [eapply IH; [reflexivity|done|done|exact Hcl|exact Hsig|reflexivity]|]. cbn. by rewrite <- app_assoc.
Qed.

(** CloseAll with force closes the connections in their order, hands back
    every stream and then signals its completion, once. *)
Theorem http_server_close_all request_header completes_with_close fuel ops s :
  server_run request_header completes_with_close fuel HttpServer ops = Ret s -> connections_ s <> [] ->
  CloseAll s true = mkServer [] (next_connection_id_ s) false
    (signals s ++ map (fun c => SignalConnectionClosed (connection_id_ c) (EndProcess c)) (connections_ s) ++ [SignalCloseAllComplete]) /\
  Forall (fun c => exists stream, EndProcess c = Some stream) (connections_ s).
Proof.
  intros E Hne. apply server_run_ok in E; [|apply server_ok_start]. pose proof E as [H1 H2 H3 H4 H5].
  assert (Hrest : forall c, In c (connections_ s) -> signalling_ c = false /\ some (http_stream_ (http c)) = true).
  { intros c Hin. destruct (ok_rest s _ c E (find_in s c H1 Hin)) as (p & (Hsig & _ & Hh) & _). done. }
  split.
  - unfold CloseAll. destruct (connections_ s) as [|c cs] eqn:Ec; [done|]. apply (close_all_loop (c :: cs) (with_closing s true) _ Ec Hne H1 eq_refl); [|done].
    apply List.Forall_forall. intros c0 Hin. by apply Hrest.
  - apply List.Forall_forall. intros c Hin. apply EndProcess_stream. by apply Hrest.
Qed.

(** *** A request, a response, and a Close that is forgotten *)

Definition default_header : Z -> HttpVersion -> leader_data -> HeaderMap -> option (option Stream) := fun _ _ _ _ => None.
Definition no_close : HttpServerTransaction -> HttpError -> bool := fun _ _ => false.
Definition get_stream : Stream :=
  mkStream SS_OPEN (str "GET /x HTTP/1.1" ++ [13; 10] ++ str "Host: example.org" ++ [13; 10; 13; 10]) [Some_ 1000] [] (Planned [Some_ 1000; Some_ 1000]).
Definition run_server (ops : list server_op) : server := match server_run default_header no_close 10 HttpServer ops with Ret s => s | _ => HttpServer end.
(** The transaction of SignalHttpRequest, with a response. *)
Definition answered : list signal -> HttpServerTransaction := fun l =>
  match l with SignalHttpRequest t :: _ => with_response t (set_redirect HttpResponseData (str "/y") 302) | _ => new_transaction 0 end.
Definition requested : server := run_server [Incoming get_stream].
Definition the_answer : server_op := Answer (answered (signals requested)).
Definition phase_log (s : server) : list (Z * nat) :=
  map (fun e => match e with SignalHttpRequest t => (connection_id t, 0%nat) | SignalHttpRequestComplete t _ => (connection_id t, 1%nat)
    | SignalConnectionClosed id _ => (id, 2%nat) | SignalCloseAllComplete => (0, 3%nat) end) (signals s).

Lemma http_server_protocol_witness : exists s, server_run default_header no_close 10 HttpServer [Incoming get_stream; the_answer] = Ret s /\
  phases 1 Receives (signals s) = Some (server_phase s 1) /\ phase_log s = [(1, 0%nat); (1, 1%nat)].
Proof.
  exists (run_server [Incoming get_stream; the_answer]).
  assert (E : server_run default_header no_close 10 HttpServer [Incoming get_stream; the_answer] = Ret (run_server [Incoming get_stream; the_answer])) by (vm_compute; reflexivity).
  split; [exact E|]. split; [exact (proj1 (http_server_protocol default_header no_close 10 _ _ E) 1)|vm_compute; reflexivity].
Defined.
Lemma http_server_close_all_witness : connections_ (CloseAll requested true) = [] /\ closing_ (CloseAll requested true) = false.
Proof.
  assert (E : server_run default_header no_close 10 HttpServer [Incoming get_stream] = Ret requested) by (vm_compute; reflexivity).
  assert (Hne : connections_ requested <> []) by (vm_compute; discriminate).
  destruct (http_server_close_all default_header no_close 10 _ _ E Hne) as [H _]. rewrite H. split; reflexivity.
Defined.

(** CloseAll(false) while the application has the transaction: Respond
    replaces close_, and the connection stays although the server is
    closing.  The same CloseAll(true) ends it at once. *)
Lemma close_forgotten :
  let s := run_server [Incoming get_stream; CloseEvery false; the_answer] in
  phase_log s = [(1, 0%nat); (1, 1%nat)] /\ closing_ s = true /\ map (fun c => (mode_ (http c), close_ c)) (connections_ s) = [(HM_RECV, false)].
Proof. vm_compute. by repeat split. Qed.
End HttpServing.
