(* ===== verification/HttpNet.v ===== *)
(** * base/httpbase.cc, base/httpserver.cc: an HTTP message from end to end

    A sending and a receiving HttpBase, each on its stream, with any plan of
    the streams and documents: what the receiver tells its owner is the
    message that the sender was given. *)

From stdpp Require Import list option.
From S2P Require Import Prelude StringEncode StringConv StreamIo HttpCommon HttpParser HttpBase HttpRecv HttpSend HttpWire HttpServer.
Open Scope jingle_scope.

Module HttpNet.
Import StreamIo StringConv HttpCommon HttpParser HttpBase HttpRecv HttpSend HttpWire HttpServer.

(** An object with a stream and no transaction. *)
Definition idle (t : t) : Prop := mode_ t = HM_NONE /\ isConnected t = true /\ doc_stream_ t = false.
(** A stream that takes bytes, or will, and has taken none. *)
Definition fresh (content : bytes) (fuel : nat) (t : t) : Prop :=
  exists s, http_stream_ t = Some s /\ state s = SS_OPEN /\ written s = [] /\ planned (writes s) = true /\ no_eos (writes s) /\
    (plan_left (writes s) + length content < fuel)%nat.
(** The document of a message to be sent. *)
Definition carries (m : HttpData) (content : bytes) : Prop :=
  match document m with Some d => unread d = content | None => content = [] end.
(** A callback that does not open the document stream and gives documents
    that take their data. *)
Definition plain (f : notify) : Prop := notify_ok (Some f) /\ notify_plain (Some f) /\ notify_steady (Some f).

(** Sending a message and what happens then; receiving one. *)
Definition sends (f : notify) (fuel : nat) (t : t) (m : HttpData) (ops : list op) : res HttpBase.t :=
  bind (send (Some f) fuel t m) (fun t => run_ops (Some f) fuel t ops).
Definition receives (f : notify) (fuel : nat) (t : t) (data : HttpData) (ops : list op) : res HttpBase.t :=
  bind (recv (Some f) t data fuel) (fun t => run_ops (Some f) fuel t ops).

Lemma sends_result f fuel t m content ops : idle t -> fresh content fuel t -> carries m content -> fits m = true ->
  Forall (send_op_ok content fuel) ops -> send_result m content (log t) fuel (sends f fuel t m ops).
Proof.
  intros (Hm & _ & _) (s & Hh & Ho & Hw & Hp & Hs & Hf) Hc Hfit Hops. unfold sends.
  pose proof (send_session (Some f) eq_refl m content (log t) Hfit fuel t s Hm Hh Ho Hw Hp Hs Hf eq_refl Hc) as H.
  destruct (send (Some f) fuel t m) as [t1| |]; cbn [bind]; [|done..]. by apply run_send.
Qed.

Lemma receives_session f fuel t data docs_ok net_ok open_ok ops : plain f -> idle t ->
  (docs_ok -> match document data with Some d => steady (writes d) | None => True end) ->
  (net_ok -> no_error (reads_http t)) -> (open_ok -> all_lasting (reads_http t)) -> Forall (op_ok docs_ok net_ok open_ok) ops ->
  exists t', receives f fuel t data ops = Ret t' /\
    session (Some f) docs_ok net_ok open_ok data (log t) (unread_http t ++ concat (map arrived ops)) t'.
Proof.
  intros (Hn & Hp & Hs) (Hm & Hc & Hd) Hdoc Hne Hla Hops. unfold receives.
  destruct (recv_session (Some f) Hn eq_refl Hp Hs docs_ok net_ok open_ok data (log t) fuel t Hm Hc Hd eq_refl Hdoc Hne Hla) as (t1 & E & H).
  rewrite E. cbn [bind]. by apply (run_session (Some f) Hn eq_refl Hp Hs).
Qed.

(** ** Sending *)

(** What has been written is a beginning of the text of the message, for
    some way to cut the document. *)
Definition partial_text (m : HttpData) (content w : bytes) : Prop :=
  exists queued left pieces fin rest, headers_ m = queued ++ left /\ w `prefix_of` text m queued left (body_text (sends_chunks m) pieces fin) /\
    content = concat pieces ++ rest /\ (left <> [] -> pieces = []).

(** C30: Whatever the stream and the document do - take or give some bytes,
    block, fail, be closed - what a sending HttpBase has written is a beginning
    of the text of the message, for some way to cut the document into chunks,
    and its owner has been told nothing; or the transaction has ended with one
    onHttpComplete, without an error only when the whole text has been written.
    Nothing is written outside the buffer, and flush_data ends unless there is
    no document.  One answer is left out, SR_EOS of a Write, which fails an
    ASSERT of flush_data ([no_eos]); the message fits into the buffer, and the
    turns of the loop are more than the answers that are planned. *)
Theorem http_send_safe f fuel t m content ops : idle t -> fresh content fuel t -> carries m content -> fits m = true ->
  Forall (send_op_ok content fuel) ops ->
  match sends f fuel t m ops with
  | Ret t' =>
      (mode_ t' = HM_SEND /\ log t' = log t /\ len_ t' <= kBufferSize /\ partial_text m content (written_http t') \/
       exists e closes, mode_ t' = HM_NONE /\ log t' = log t ++ onHttpComplete HM_SEND e :: closes /\
         (e = HE_NONE -> exists pieces, content = concat pieces /\ written_http t' = whole_text m pieces))
  | Spins => has_doc m = false
  | Undefined => False
  end.
Proof.
  intros Hi Hf Hc Hfit Hops. pose proof (sends_result f fuel t m content ops Hi Hf Hc Hfit Hops) as H.
  destruct (sends f fuel t m ops) as [t'| |]; [|done..]. destruct H as [H|[e H]].
  - destruct H as [Hm _ _ Hl Hlog _ (queued & pieces & fin & [Ph Pt _ Pf Pd _])]. left. split; [done|]. split; [done|]. split; [done|].
    exists queued, (header_ t'), pieces, fin. unfold doc_state in Pd. destruct (document (message t')) as [d|].
    + exists (unread d). destruct Pd as (-> & _). split; [done|]. split; [by exists (buffer_ t')|]. split; [done|]. intros Hl'. by apply Pf.
    + exists []. destruct Pd as (-> & -> & _). split; [done|]. split; [by exists (buffer_ t')|]. done.
  - destruct H as [Hm _ (closes & Hlog & _) Ht]. right. exists e, closes. split; [done|]. split; [done|]. intros He.
    destruct (Ht He) as (pieces & Hcon & _ & Hw). by exists pieces.
Qed.
(** C31: From any state of a sending HttpBase, whose message fits into the
    buffer ([fits]: the first line and each header, with no space in the path
    of a request), once the document has all its bytes and ends, an SE_WRITE on a stream that takes bytes at every call completes
    the message without an error: the whole text has been written. *)
Theorem http_send_completes f fuel t m content ops plan events error t1 : idle t -> fresh content fuel t -> carries m content -> fits m = true ->
  Forall (send_op_ok content fuel) ops -> sends f fuel t m ops = Ret t1 -> mode_ t1 = HM_SEND ->
  forallb takes plan = true -> send_bound m content <= Z.of_nat (length plan) -> (length plan + length content < fuel)%nat -> has events SE_WRITE = true ->
  exists t2 pieces closes, sends f fuel t m (ops ++ [DocArrive [] [Eos]; Drain plan; HttpEvent events error]) = Ret t2 /\
    mode_ t2 = HM_NONE /\ log t2 = log t ++ onHttpComplete HM_SEND HE_NONE :: closes /\
    content = concat pieces /\ written_http t2 = whole_text m pieces.
Proof.
  intros Hi Hf Hc Hfit Hops E1 Hm1 Hplan Hb Hfu Hev. pose proof (sends_result f fuel t m content ops Hi Hf Hc Hfit Hops) as H.
  rewrite E1 in H. destruct H as [Hs|[e He]]; [|by rewrite (sn_mode _ _ _ _ _ He) in Hm1].
  assert (Happ : forall l, sends f fuel t m (ops ++ l) = run_ops (Some f) fuel t1 l).
  { intros l. unfold sends in *. destruct (send (Some f) fuel t m) as [t0| |]; cbn [bind] in *; [|done..]. by rewrite run_ops_app, E1. }
  rewrite Happ. cbn [run_ops].
  assert (Hstep : forall o t3, sending m content (log t) fuel t3 -> send_op_ok content fuel o -> (forall e x, o <> HttpEvent e x /\ o <> DocEvent e x) ->
    exists t4, exec (Some f) fuel t3 o = Ret t4 /\ sending m content (log t) fuel t4).
  { intros o t3 H3 Ho Hne. pose proof (exec_sending (Some f) eq_refl m content (log t) Hfit fuel t3 o H3 Ho) as H. pose proof (se_mode _ _ _ _ _ H3) as Hm3.
    destruct o as [| | | |x y|x y]; cbn [exec] in *; [..|by destruct (Hne x y)|by destruct (Hne x y)].
    all: destruct H as [H|[e H]]; [by eexists|]; pose proof (sn_mode _ _ _ _ _ H) as Hx; cbn in Hx; congruence. }
  destruct (Hstep (DocArrive [] [Eos]) t1 Hs) as (t2 & E2 & Hs2); [done|done|].
  assert (Hst : no_eos (Planned plan)).
  { apply steady_no_eos. clear -Hplan. cbn. induction plan as [|[] plan IH]; cbn in Hplan; try done; constructor; auto. }
  destruct (Hstep (Drain plan) t2 Hs2) as (t3 & E3 & Hs3); [done|done|]. rewrite E2. cbn [bind]. rewrite E3. cbn [bind].
  injection E2 as <-. injection E3 as <-.
  destruct (flush_data_completes (Some f) eq_refl m content (log t) Hfit fuel _ Hs3) as (t4 & E4 & [Hm4 _ (closes & Hlog & _) Ht]).
  { unfold doc_open. cbn. destruct (document (message t1)); [done|done]. }
  { intros s l. cbn. destruct (http_stream_ t1) as [s1|] eqn:Eh; [|done]. cbn. intros [= <-]. cbn.
    destruct (se_http _ _ _ _ _ Hs) as (s2 & Eh2 & Hp2 & _). rewrite Eh in Eh2. injection Eh2 as <-. destruct (writes s1); [|done..]. intros [= <-]. split; [done|]. lia. }
  destruct (Ht eq_refl) as (pieces & Hcon & _ & Hw). exists t4, pieces, closes. split; [|done].
  cbn [exec]. unfold OnHttpStreamEvent. rewrite Hev. cbn [mode_ with_http doc_map with_doc with_message]. rewrite Hm1.
  rewrite (bool_decide_eq_false_2 (HM_SEND = HM_CONNECT)), (bool_decide_eq_true_2 (HM_SEND = HM_SEND)), andb_false_r by done. cbn [andb]. by rewrite E4.
Qed.

(** ** Receiving *)

(** The specification of the parser, run on these bytes. *)
Definition received_spec (f : notify) (data : HttpData) (used : bytes) : run seen :=
  @feeds seen (seen_handler (Some f)) (seen_reference (Some f)) (start data) used.

(** C29: A receiving HttpBase follows the specification of the parser, which is
    fed byte by byte: after any operations of its streams it is in the state
    that the bytes used so far lead to, the others being in its buffer or on
    the stream; or it has told its owner once that the message has ended, as
    the specification says of these bytes, or by a document that fails, a line
    longer than the buffer or the end of the stream.  The callback at the end
    of the headers is [plain]: it opens no document stream, and gives no
    document that is about to fail. *)
Theorem http_receive_refines f fuel t data docs_ok net_ok open_ok ops : plain f -> idle t ->
  (docs_ok -> match document data with Some d => steady (writes d) | None => True end) ->
  (net_ok -> no_error (reads_http t)) -> (open_ok -> all_lasting (reads_http t)) -> Forall (op_ok docs_ok net_ok open_ok) ops ->
  let input := unread_http t ++ concat (map arrived ops) in
  exists t', receives f fuel t data ops = Ret t' /\
    (mode_ t' = HM_RECV /\ log t' = log t /\
       (exists used, input = used ++ buffer_ t' ++ unread_http t' /\
          received_spec f data used = Running (parser_ t') [] (seen_of t')) \/
     exists e closes used rest, mode_ t' = HM_NONE /\ log t' = log t ++ onHttpComplete HM_RECV e :: closes /\ input = used ++ rest /\
       ending docs_ok net_ok open_ok (received_spec f data used) rest e (seen_of t')).
Proof.
  intros Hp Hi Hd Hn Ho Hops input. destruct (receives_session f fuel t data docs_ok net_ok open_ok ops Hp Hi Hd Hn Ho Hops) as (t' & E & H).
  exists t'. split; [done|]. destruct H as [H|[e H]].
  - left. destruct H. destruct re_used0 as (used & Hu & Hf). split; [done|]. split; [done|]. exists used. split; [done|].
    unfold received_spec. rewrite Hf. by apply spec_running.
  - right. destruct H as [H1 _ (closes & Hl & _) (used & rest & Hu & He)]. by exists e, closes, used, rest.
Qed.

(** ** Both *)

(** A transaction that has ended without an error has written the whole
    text. *)
Lemma sent_text m content fuel l0 t closes : send_result m content l0 fuel (Ret t) -> log t = l0 ++ onHttpComplete HM_SEND HE_NONE :: closes ->
  exists pieces, content = concat pieces /\ Forall (fun d => d <> [] /\ Z.of_nat (length d) <= kBufferSize) pieces /\ written_http t = whole_text m pieces.
Proof.
  intros [Hs|[e [_ _ (cl & Hl & _) Ht]]] Hlog.
  - exfalso. rewrite (se_log _ _ _ _ _ Hs) in Hlog. by rewrite <- (app_nil_r l0) in Hlog at 1; apply app_inv_head in Hlog.
  - rewrite Hl in Hlog. apply app_inv_head in Hlog. injection Hlog as -> _. by apply Ht.
Qed.
(** A session on a text that the specification of the parser reads to its
    end. *)
Lemma session_parses f data l0 input a t' : parses (Some f) (start data) input (Done HE_NONE a) -> session (Some f) True True True data l0 input t' ->
  mode_ t' = HM_RECV /\ log t' = l0 /\ buffer_ t' ++ unread_http t' <> [] \/
  exists closes, mode_ t' = HM_NONE /\ log t' = l0 ++ onHttpComplete HM_RECV HE_NONE :: closes /\ seen_of t' = a.
Proof.
  intros [Hfd Hno] [H|[e H]].
  - left. destruct H. destruct re_used0 as (used & Hu & Hf'). split; [done|]. split; [done|]. intros Hx. rewrite Hx, app_nil_r in Hu. subst used.
    rewrite Hfd, spec_running in Hf'; done.
  - right. destruct H as [H1 _ (cl & Hl & _) (used & rest & Hu & He)].
    assert (Hee : e = HE_NONE /\ seen_of t' = a).
    { destruct He as [He|_ He|p Hr _ Hb Hlen Hnl|p error _ _ _ He]; [|by destruct He|exfalso|by destruct He].
      - rewrite Hu, feeds_app, He, feeds_done in Hfd. by injection Hfd.
      - apply Hnl, (Hno used rest p (seen_of t') Hu Hr Hb). intros ->. unfold kBufferSize in Hlen. cbn [length] in Hlen. lia. }
    destruct Hee as [-> Hs]. by exists cl.
Qed.

(** What the callback of the receiver answers at the end of the headers, and
    the document it writes to. *)
Definition receiver_answer (f : notify) (m : HttpData) (content : bytes) : header_answer :=
  f (version m) (leader m) (headers_ m) (sends_chunks m) (announced m content).
Definition body_document (f : notify) (m data : HttpData) (content : bytes) : option Stream :=
  if ha_ignore (receiver_answer f m content) then None
  else match ha_document (receiver_answer f m content) with Some d => Some d | None => document data end.

Lemma accepted_body f m data content t : seen_of t = ref_accept (at_headers (Some f) m data content) content ->
  forall d, body_document f m data content = Some d -> written <$> document (message t) = Some (written d ++ content).
Proof.
  intros Hs d. unfold body_document, receiver_answer. unfold at_headers, ref_complete, head_of, ref_accept in Hs.
  cbn [s_version s_leader s_headers s_doc s_ignore s_body snd] in Hs. destruct (ha_ignore _); [done|].
  destruct (ha_document _) as [d'|]; [intros [= ->]|intros Hd; rewrite Hd in Hs]; cbn [HttpRecv.some orb andb negb] in Hs; rewrite ?orb_true_r in Hs; cbn [andb negb] in Hs;
    apply (f_equal (fun a => (s_doc a, s_body a))) in Hs; cbn in Hs;
    (destruct (document (message t)) as [d2|]; [injection Hs as Hs; cbn; by rewrite Hs|done]).
Qed.

(** C28: A message that is well formed and says how long its document is,
    sent by one HttpBase and read by another in any pieces: while bytes are
    left the receiver goes on; otherwise it has told its owner once that the
    message is complete, with the version, the first line and the headers that
    were sent, and the document that its callback gave it has taken exactly
    the document that was sent.  Well formed ([wf_message]): no line ends and
    no white space around the path, the message and the headers, no NUL, a
    known version, the headers in the order of the map, the first line and
    every header within the buffer - otherwise the text reads as something
    else, and a header that does not fit is not sent at all.  How long
    ([announces]): setDocumentAndLength has set the Content-Length or
    "chunked", in lower case, which alone send compares with, or there is no
    document.  The callback goes on and keeps the size, as that of HttpServer
    does ([takes_size]), opens no document stream, and its document may stall
    but does not fail ([plain]). *)
Theorem http_end_to_end fs sfuel ts m content sops ts' closes f fuel tr data rops :
  idle ts -> fresh content sfuel ts -> carries m content -> wf_message m = true -> announces m content -> Forall (send_op_ok content sfuel) sops ->
  sends fs sfuel ts m sops = Ret ts' -> log ts' = log ts ++ onHttpComplete HM_SEND HE_NONE :: closes ->
  plain f -> takes_size f -> idle tr -> match document data with Some d => steady (writes d) | None => True end -> all_lasting (reads_http tr) ->
  Forall (op_ok True True True) rops -> unread_http tr ++ concat (map arrived rops) = written_http ts' ->
  same_kind (leader data) (leader m) = true -> headers_ data = [] ->
  exists tr', receives f fuel tr data rops = Ret tr' /\
    (mode_ tr' = HM_RECV /\ log tr' = log tr /\ buffer_ tr' ++ unread_http tr' <> [] \/
     exists closes', mode_ tr' = HM_NONE /\ log tr' = log tr ++ onHttpComplete HM_RECV HE_NONE :: closes' /\
       version (message tr') = version m /\ leader (message tr') = leader m /\ headers_ (message tr') = headers_ m /\
       forall d, body_document f m data content = Some d -> written <$> document (message tr') = Some (written d ++ content)).
Proof.
  intros Hi Hf Hc Hwf Han Hsops Es Hls Hp Hts Hir Hds Hla Hrops Hin Hk Hh.
  assert (Hfit : fits m = true) by (unfold wf_message in Hwf; by apply andb_true_iff in Hwf as [_ ?]).
  pose proof (sends_result fs sfuel ts m content sops Hi Hf Hc Hfit Hsops) as H. rewrite Es in H.
  destruct (sent_text _ _ _ _ _ _ H Hls) as (pieces & Hcon & Hpc & Hw). clear H. rewrite Hw in Hin.
  pose proof (announces_framed (Some f) f m data content eq_refl Hts Hwf Han) as Hfr.
  pose proof (parses_text (Some f) m data pieces content _ Hwf Hk Hh Hfr Hcon Hpc) as Hpt.
  destruct (receives_session f fuel tr data True True True rops Hp Hir ltac:(done) (fun _ => all_lasting_no_error _ Hla) ltac:(done) Hrops) as (t' & E & H).
  exists t'. split; [done|]. rewrite Hin in H. destruct (session_parses _ _ _ _ _ _ Hpt H) as [H'|(cl & H1 & Hl & Hs)]; [by left|right].
  exists cl. split; [done|]. split; [done|].
  destruct (at_headers_head (Some f) f m data content eq_refl) as (Hv & Hle & Hhe).
  assert (Ha : s_version (seen_of t') = version m /\ s_leader (seen_of t') = leader m /\ s_headers (seen_of t') = headers_ m).
  { rewrite Hs, <- Hv, <- Hle, <- Hhe. unfold ref_accept. by destruct (_ && _). }
  destruct Ha as (<- & <- & <-). split; [done|]. split; [done|]. split; [done|]. by apply accepted_body.
Qed.

(** ** A POST request to a server *)

Definition sample_document : Stream := mkStream SS_OPEN (str "hello world, this is the body") [Some_ 4; Block; Some_ 9; Eos] [] (Planned []).
(** A request in chunks. *)
Definition sample_request : HttpData := setHeader (mkHttpData HVER_1_1 (Request HV_POST (str "/x")) [] None) (str "Host") (str "example.org") true.
Definition sample : HttpData := default sample_request (setDocumentAndLength sample_request sample_document None).
Definition sample_content : bytes := str "hello world, this is the body".
Definition sample_plan : list answer := replicate 640 (Some_ 1000).
(** The stream takes 14 bytes and blocks, the document gives 5 and blocks;
    then more of the document, and then the stream takes all. *)
Definition sample_sender : HttpBase.t := (attach init (mkStream SS_OPEN [] [] [] (Planned [Some_ 10; Some_ 3; Block]))).2.
Definition sample_ops : list op := [DocEvent SE_READ 0].
Definition sample_last : list op := [DocArrive [] [Eos]; Drain [Some_ 90; Some_ 1000; Some_ 1000]; HttpEvent SE_WRITE 0].
(** The callback of a connection of HttpServer. *)
Definition sample_server : notify := onHttpHeaderComplete (fun _ _ _ _ => None) 1.
Definition sample_sent : HttpBase.t :=
  match sends sample_server 1000 sample_sender sample (sample_ops ++ sample_last) with Ret t => t | _ => init end.
Definition sample_wire : bytes := written_http sample_sent.
(** The request arrives in three parts, cut in a header and in a chunk. *)
Definition sample_receiver : HttpBase.t := (attach init (mkStream SS_OPEN (take 30 sample_wire) [Some_ 300] [] (Planned []))).2.
Definition sample_arrivals : list op :=
  [Arrive (take 60 (drop 30 sample_wire)) [Some_ 3; Some_ 7; Some_ 300]; HttpEvent SE_READ 0; Arrive (drop 90 sample_wire) [Some_ 1000]; HttpEvent SE_READ 0].

Example sample_round_trip : match receives sample_server 5 sample_receiver HttpRequestData sample_arrivals with
  | Ret t => log t = [onHttpComplete HM_RECV HE_NONE] /\ (written <$> document (message t)) = Some sample_content | _ => False end.
Proof. vm_compute. by split. Qed.
Example sample_sent_text : sample_wire = str "POST /x HTTP/1.1" ++ CRLF ++ str "Host: example.org" ++ CRLF ++ str "Transfer-Encoding: chunked" ++ CRLF ++ CRLF ++
  str "00000005" ++ CRLF ++ str "hello" ++ CRLF ++ str "0000000a" ++ CRLF ++ str " world, th" ++ CRLF ++ str "0000000e" ++ CRLF ++ str "is is the body" ++ CRLF ++ str "0" ++ CRLF ++ CRLF.
Proof. vm_compute. reflexivity. Qed.

Lemma sample_sender_idle : idle sample_sender.
Proof. by repeat split. Qed.
Lemma sample_receiver_idle : idle sample_receiver.
Proof. by repeat split. Qed.
Lemma sample_fresh fuel : (100 < fuel)%nat -> fresh sample_content fuel sample_sender.
Proof.
  intros H. eexists. split; [reflexivity|]. do 3 (split; [reflexivity|]). split; [repeat constructor|].
  apply (Nat.le_lt_trans _ 100); [|done]. apply Nat.leb_le. vm_compute. reflexivity.
Qed.
Lemma sample_carries : carries sample sample_content.
Proof. vm_compute. reflexivity. Qed.
Lemma sample_plain : plain sample_server.
Proof.
  split; [|split].
  - intros f v l h c n [= <-] Hn. unfold sample_server, onHttpHeaderComplete. cbn. destruct (Z.eqb_spec n SIZE_UNKNOWN); [unfold SIZE_UNKNOWN; lia|done].
  - by intros f v l h c n [= <-].
  - intros f v l h c n d [= <-] [= <-]. done.
Qed.
Lemma sample_ops_ok : Forall (send_op_ok sample_content 1000) (sample_ops ++ sample_last).
Proof.
  repeat (apply List.Forall_cons || apply List.Forall_nil); try exact I.
  - done.
  - split; [by repeat constructor|]. apply Nat.ltb_lt. vm_compute. reflexivity.
Qed.

(** The stream takes three bytes more and fails; the document fails. *)
Definition sample_failures : list (list op) :=
  [[DocArrive [] [Eos]; Drain [Some_ 2; Error 5]; HttpEvent SE_WRITE 0]; [DocArrive [] [Error 5]; DocEvent SE_READ 0]].
Example sample_failure : map (fun ops => match sends sample_server 1000 sample_sender sample ops with
    | Ret t => (map (fun e => match e with onHttpComplete HM_SEND e => e | _ => HE_NONE end) (log t), written_http t) | _ => ([], []) end) sample_failures =
  [([HE_SOCKET_ERROR], take 18 sample_wire); ([HE_STREAM], take 15 sample_wire)].
Proof. vm_compute. reflexivity. Qed.
Lemma sample_failures_ok : Forall (Forall (send_op_ok sample_content 1000)) sample_failures.
Proof. by repeat (apply List.Forall_cons || apply List.Forall_nil); try exact I; split; [by repeat constructor|]; apply Nat.ltb_lt; vm_compute. Qed.

Lemma http_send_safe_witness :
  (exists t', sends sample_server 1000 sample_sender sample (sample_ops ++ sample_last) = Ret t' /\ mode_ t' = HM_NONE /\
    exists e closes, log t' = log sample_sender ++ onHttpComplete HM_SEND e :: closes /\
      (e = HE_NONE -> exists pieces, sample_content = concat pieces /\ written_http t' = whole_text sample pieces)) /\
  Forall (fun ops => exists t' e closes, sends sample_server 1000 sample_sender sample ops = Ret t' /\ mode_ t' = HM_NONE /\
    log t' = log sample_sender ++ onHttpComplete HM_SEND e :: closes) sample_failures.
Proof.
  split.
  - pose proof (http_send_safe sample_server 1000 sample_sender sample sample_content (sample_ops ++ sample_last)
      sample_sender_idle (sample_fresh 1000 ltac:(apply Nat.ltb_lt; vm_compute; reflexivity)) sample_carries ltac:(vm_compute; reflexivity) sample_ops_ok) as H.
    assert (E : sends sample_server 1000 sample_sender sample (sample_ops ++ sample_last) = Ret sample_sent) by (vm_compute; reflexivity).
    rewrite E in H. exists sample_sent. split; [exact E|]. destruct H as [(Hm & _)|(e & closes & Hm & Hl & Ht)].
    + exfalso. revert Hm. vm_compute. discriminate.
    + split; [exact Hm|]. exists e, closes. by split.
  - apply List.Forall_forall. intros ops Hin.
    pose proof (http_send_safe sample_server 1000 sample_sender sample sample_content ops sample_sender_idle (sample_fresh 1000 ltac:(apply Nat.ltb_lt; vm_compute; reflexivity))
      sample_carries ltac:(vm_compute; reflexivity) (proj1 (List.Forall_forall _ _) sample_failures_ok ops Hin)) as H.
    assert (E : match sends sample_server 1000 sample_sender sample ops with Ret t => mode_ t = HM_NONE | _ => False end)
      by (destruct Hin as [<-|[<-|[]]]; vm_compute; reflexivity).
    destruct (sends _ _ _ _ ops) as [t'| |]; [|destruct E..]. destruct H as [(Hm & _)|(e & closes & Hm & Hl & _)]; [rewrite E in Hm; discriminate|].
    exists t', e, closes. exact (conj eq_refl (conj E Hl)).
Defined.

Definition long_plan : list answer := replicate (Z.to_nat 34000) (Some_ 1000).
Lemma http_send_completes_witness : exists t2 pieces closes,
  sends sample_server (Z.to_nat 40000) sample_sender sample (sample_ops ++ [DocArrive [] [Eos]; Drain long_plan; HttpEvent SE_WRITE 0]) = Ret t2 /\
  mode_ t2 = HM_NONE /\ log t2 = log sample_sender ++ onHttpComplete HM_SEND HE_NONE :: closes /\
  sample_content = concat pieces /\ written_http t2 = whole_text sample pieces.
Proof.
  eapply (http_send_completes sample_server (Z.to_nat 40000) sample_sender sample sample_content sample_ops long_plan SE_WRITE 0).
  - exact sample_sender_idle.
  - apply sample_fresh. lia.
  - exact sample_carries.
  - vm_compute. reflexivity.
  - repeat constructor.
  - vm_compute. reflexivity.
  - reflexivity.
  - vm_compute. reflexivity.
  - apply Z.leb_le. vm_compute. reflexivity.
  - apply Nat.ltb_lt. vm_compute. reflexivity.
  - reflexivity.
Defined.

Lemma http_receive_refines_witness : exists t',
  receives sample_server 5 sample_receiver HttpRequestData (take 2 sample_arrivals) = Ret t' /\ mode_ t' = HM_RECV /\
  exists used, unread_http sample_receiver ++ concat (map arrived (take 2 sample_arrivals)) = used ++ buffer_ t' ++ unread_http t' /\
    received_spec sample_server HttpRequestData used = Running (parser_ t') [] (seen_of t').
Proof.
  destruct (http_receive_refines sample_server 5 sample_receiver HttpRequestData True True True (take 2 sample_arrivals) sample_plain
    sample_receiver_idle (fun _ => I)) as (t' & E & H).
  - intros _. vm_compute. repeat constructor.
  - intros _. vm_compute. repeat constructor.
  - cbn [take sample_arrivals]. repeat (apply List.Forall_cons || apply List.Forall_nil); [split; intros _; repeat constructor|]. vm_compute. discriminate.
  - exists t'. split; [exact E|]. destruct H as [(Hm & _ & Hu)|(e & closes & used & rest & Hm & _)]; [by split|]. exfalso.
    assert (Ht : match receives sample_server 5 sample_receiver HttpRequestData (take 2 sample_arrivals) with Ret t => mode_ t = HM_RECV | _ => False end) by (vm_compute; reflexivity).
    rewrite E in Ht. by rewrite Hm in Ht.
Defined.

Lemma sample_takes_size : takes_size sample_server.
Proof. intros v l h c n. unfold sample_server, onHttpHeaderComplete. by destruct (n =? SIZE_UNKNOWN). Qed.
Lemma sample_announces : announces sample sample_content.
Proof. left. vm_compute. by repeat split. Qed.
Lemma http_end_to_end_witness : exists tr', receives sample_server 5 sample_receiver HttpRequestData sample_arrivals = Ret tr' /\
  mode_ tr' = HM_NONE /\ exists closes, log tr' = log sample_receiver ++ onHttpComplete HM_RECV HE_NONE :: closes /\
  leader (message tr') = leader sample /\ headers_ (message tr') = headers_ sample /\ written <$> document (message tr') = Some sample_content.
Proof.
  destruct (http_end_to_end sample_server 1000 sample_sender sample sample_content (sample_ops ++ sample_last) sample_sent []
    sample_server 5 sample_receiver HttpRequestData sample_arrivals) as (tr' & E & H).
  - exact sample_sender_idle.
  - apply sample_fresh. apply Nat.ltb_lt. vm_compute. reflexivity.
  - exact sample_carries.
  - vm_compute. reflexivity.
  - exact sample_announces.
  - exact sample_ops_ok.
  - vm_compute. reflexivity.
  - vm_compute. reflexivity.
  - exact sample_plain.
  - exact sample_takes_size.
  - exact sample_receiver_idle.
  - exact I.
  - vm_compute. repeat constructor.
  - repeat apply List.Forall_cons; [| | | |by apply List.Forall_nil]; try (vm_compute; discriminate); by split; intros _; repeat constructor.
  - vm_compute. reflexivity.
  - reflexivity.
  - reflexivity.
  - exists tr'. split; [exact E|]. destruct H as [(Hm & _)|(closes & Hm & Hl & _ & Hle & Hhe & Hd)].
    2:{ exact (conj Hm (ex_intro _ closes (conj Hl (conj Hle (conj Hhe (Hd MemoryStream ltac:(vm_compute; reflexivity))))))). }
    assert (Ht : match receives sample_server 5 sample_receiver HttpRequestData sample_arrivals with Ret t => mode_ t = HM_NONE | _ => False end) by (vm_compute; reflexivity).
    rewrite E in Ht. rewrite Hm in Ht. discriminate Ht.
Defined.

(** Two requests that arrive together: recv for the second discards it, and
    the receiver waits. *)
Lemma recv_discards :
  match receives sample_server 5 (attach init (mkStream SS_OPEN (sample_wire ++ sample_wire) [Some_ 1000] [] (Planned []))).2 HttpRequestData [] with
  | Ret t => mode_ t = HM_NONE /\ buffer_ t = sample_wire /\
      match recv (Some sample_server) t HttpRequestData 5 with Ret t' => mode_ t' = HM_RECV /\ buffer_ t' = [] /\ unread_http t' = [] | _ => False end
  | _ => False
  end.
Proof. vm_compute. by repeat split. Qed.
End HttpNet.
